(* ===== verification/_CoqProject ===== *)
-Q . S2P
Prelude.v
Protocol.v
ByteBuf.v
Room.v
RoomFacts.v
SecureFrame.v
SecureFrameFacts.v
ServerState.v
ServerCore.v
ServerRooms.v
ServerAuth.v
ServerDispatch.v
ServerInv.v
ServerSafety.v
ServerTotal.v
RoomListFacts.v
ServerFlow.v
ServerAuthFacts.v
RelayPath.v
SignalValidator.v
WireFacts.v
Overlay.v
RoomOp.v
ProbeQuality.v
AuthFile.v
CliOptions.v
TunJob.v
TcpConn.v
CliDataChannel.v
ChannelFacts.v
AuthKdf.v
AuthKdfFacts.v
CliSignalState.v
CliSignal.v
CliSignalFacts.v
ClientSession.v
RoomListReplica.v
Handshake.v
CreateFlow.v
Store.v
Fec.v
FecFacts.v
PeerConn.v
RawUdp.v
TunnelManager.v
RoomLinks.v
CliAppState.v
CliApp.v
CliCallbacks.v
CliLoop.v
LinkFacts.v
LinkSafety.v
LinkCalls.v
LinkTraffic.v
CliAppFacts.v
CliAppSafety.v
CliRoomFacts.v
KcpFacts.v
RawUdpFacts.v
Reassembly.v
TunnelFacts.v
LinkSend.v
LinkReceive.v
Delivery.v
WinText.v
WinTextFacts.v
WinNet.v
WinNetFacts.v
WinReady.v
WinReadyFacts.v
GuiTunnel.v
GuiTunnelFacts.v
GuiChannel.v
GuiTun.v
GuiTunFacts.v
GuiRoomState.v
GuiRoom.v
GuiRoomInv.v
GuiRoomFacts.v
GuiRoomLife.v
