(* ===== verification/Prelude.v ===== *)
(** * A verification library for VLan (virtual LAN over a relay server)

    VLan lets players in different networks play as if on one LAN.  A Linux
    server keeps rooms and relays packets; clients (a Qt program and a
    command-line program) authenticate to it, join a room, and exchange the IP
    packets of a virtual adapter through the relay, over UDP with optional
    fragmentation and forward error correction, or over TCP.

    This library models the program's own core logic as executable functions,
    one component per file, and proves what makes each component correct and
    what they achieve together.

    ** Reading the model

    Octets and machine integers are [Z]; every operation that can wrap writes
    the wrap-around out ([u8], [u16], [u32], [u64], this file).  Code that
    mutates an object and may throw is a program of the monad [SE S A] (this
    file): from a state to an optional result and a state, [None] being an
    exception, with the state reached kept.  [keeps I m] says that [m]
    preserves an invariant, [moves R m] that it relates the states before and
    after by a preorder, [total m] that it never throws; the tactic [walk]
    proves such goals by following the program.  A C++ object becomes a record
    with one field per member and one setter per field.  Sockets, clocks and
    the random source are I/O: what a system call returns is an argument of
    the operation that makes it, or is read from fields of the state named
    [env_...] (server) and [sc_now], [sc_random], [dc_now] (clients), and what
    the program does to the outside is a list of output events or the calls of
    a callback class.  Logging is left out.  The vendored Monocypher and CM256
    libraries are the classes [Crypto] and [CM256], with the documented laws
    the proofs use in [CryptoLaws], [HandshakeLaws] and [CM256Laws], and ikcp is
    the class [Ikcp]; [ToyCrypto], [rep_CM256] and [ToyKcp] are small instances
    that evaluate the theorems.

    A callback of the signalling client is a method of the class [ClientApp]
    over the state [AppState] and runs in the middle of the client's operation,
    as in the program; [app_at] builds the instance in which the application
    calls the client back.  What the tunnels ask of the application (a relay
    request, a packet for the data channel) is an event that is performed when
    the tunnel operation returns, so re-entering the tunnels from the middle of
    one is outside the model.  A thread is a machine with one step for each
    access to shared state; the other thread's operations are steps too.

    ** Parts and files

    - Common data.  [Protocol]: constants, enumerations and pure helpers of
      [common/protocol.h].  [ByteBuf]: [common/byte_buffer.h]
      and reading back what was written.
    - Secure frames.  [SecureFrame], [SecureFrameFacts]:
      [common/secure_frame.h] and [common/payload_cipher.h] (key derivation,
      authentication proofs, frame cipher, sliding replay window).
    - Server.  [Room], [RoomFacts]: leases, rooms, registry and session table of
      [server/src/room.h].  [ServerState], [ServerCore], [ServerRooms],
      [ServerAuth], [ServerDispatch]: [server/src/signal_server.cpp], from send
      buffers to the validator and handlers of every message, the data channel,
      UDP relay, timeouts and the event loop ([handle_event]).  [AuthFile]: the password file.
    - Server theorems.  [ServerInv] (invariants through every function),
      [ServerSafety] (reachable states), [ServerTotal] (no exception escapes,
      loops end), [RoomListFacts] (room-list pages and deltas, and who is sent them), [ServerFlow]
      (octets of each connection), [ServerAuthFacts] (authentication,
      isolation, relay).
    - Between the two.  [SignalValidator]: the validator of server messages.
      [WireFacts]: what the server builds, that validator accepts.  [Overlay]:
      packet checks and the TCP frame probe.  [RoomOp]: deadlines of room
      operations and the relay watchdog.  [ProbeQuality]: round-trip statistics
      of [common/probe_quality.h].
    - Command-line client, signalling.  [TcpConn]: the buffered connection of
      [client-cli/src/cli_common.h].  [AuthKdf], [AuthKdfFacts]: the worker
      thread of [common/auth_kdf_task.h], as steps that interleave with the
      network thread.  [CliSignalState], [CliSignal]: class [CliSignalClient] of
      [client-cli/src/cli_net.cpp].  [CliSignalFacts], [ClientSession],
      [RoomListReplica]: its theorems.  [Handshake]: client and server run
      against each other.  [CliDataChannel], [ChannelFacts]: the other class of
      [cli_net.cpp].
    - Command-line client, packets.  [Store]: bounded stores with eviction and
      operations with outputs.
      [Fec], [FecFacts]: [client-cli/src/cli_fec.cpp].  [RawUdp],
      [RawUdpFacts], [Reassembly], [TunnelFacts]: class [CliRawUdpTunnel] of
      [client-cli/src/cli_peer.cpp].
    - Command-line client, links.  [PeerConn], [TunnelManager]: classes
      [CliPeerConnection] and [CliKcpTunnel] of [client-cli/src/cli_peer.cpp] and
      [CliTunnelManager] of [cli_tunnel.cpp], which call each other;
      [RoomLinks]: the handlers of [cli_app.cpp] that drive them.  [LinkFacts],
      [LinkSafety], [LinkCalls], [LinkTraffic]: no dangling pointer, sealed
      traffic, checked delivery, over any sequence of calls ([link_call]).
      [KcpFacts]: the receive loop of a KCP tunnel ends.
    - Composition.  [RelayPath]: sealed datagrams over a network that loses,
      reorders and repeats, and one member's datagrams through the server; [LinkSend], [LinkReceive]: the two ends; [Delivery]: packets from
      adapter to adapter.
    - Command-line client, application.  [CliOptions]: the words of commands
      and of the command line.  [TunJob]: the worker of
      [cli_tun_lifecycle.h] that prepares the adapter, as interleaving steps.
      [CliAppState], [CliApp], [CliCallbacks], [CliLoop]: class [CliApp] of
      [cli_app.cpp], up to its event loop and a whole run ([cli_life]).
      [CliAppFacts]: what its operations preserve, for any relation that allows
      the elementary changes ([AppRelation]); [CliAppSafety]: invariants of every
      run; [CliRoomFacts]: two behaviours at the end of a room; [CreateFlow]: a
      [create] command from its words to the server, by way of the worker that
      hashes the password of a protected room.
    - Windows network.  [WinText], [WinTextFacts]: octets, UTF-8, UTF-16 and
      quoting of [common/windows_network_config.h]; [WinNet], [WinNetFacts]: its
      set-up and rollback of address, routes and firewall rules, over the class
      [WindowsNetworkCommands]; [WinReady], [WinReadyFacts]: the wait of
      [common/windows_network_readiness.h], one sample per poll.
    - Graphical client, packets.  [GuiTunnel]: [client/src/core/fec_codec.cpp] and
      [raw_udp_tunnel.cpp], as programs whose callbacks run where they are
      called; [GuiTunnelFacts]: they do what [Fec] and [RawUdp] do.
      [GuiChannel]: class [DataChannel] of [client/src/network/data_channel.cpp].
    - Graphical client, room.  [GuiTun], [GuiTunFacts]: the lifecycle thread of
      [client/src/core/tun_lifecycle_task.h] that owns the adapter.
      [GuiRoomState], [GuiRoom]: class [RoomManager] of
      [client/src/network/room_manager.cpp], every function, signal connection,
      deferred closure and timer, over the class [GuiHost] of its
      collaborators, with the thread's steps between any two accesses to what
      they share ([gui_room_life]).  [GuiRoomInv], [GuiRoomFacts]: the
      invariant of its states and that every function keeps it, whatever the
      slots run inside a call do; [GuiRoomLife]: what that means for a run.

    ** What the theorems show

    - Security.  Only the proof determined by the password authenticates, on
      the server ([server_auth_sound]) and on the client
      ([client_trusts_only_the_proof]); an honest handshake completes with one
      shared session ([handshake_completes]); no frame is accepted twice and
      the window delivers what a specification with a set of counters delivers
      ([no_replay], [channel_refines_seen_set]); nonces are unique; the data
      channel is never in the clear ([data_channel_sealed],
      [gui_channel_sealed_and_trying]); an
      unauthenticated connection changes nothing for others
      ([unauthenticated_isolated]); UDP is relayed inside one room only.
    - State.  Invariants of all reachable states: send budget, registry,
      filing of sessions, ready client sessions, room-operation deadlines,
      bounded reassembly stores, peers and tunnels without dangling pointers
      ([links_never_dangle]), the whole command-line program
      ([program_invariant]), the adapter and the room of the graphical client
      ([adapter_never_dangles], [in_room_with_adapter]), and the Windows
      network set up or still owned ([network_all_or_owned]).
    - Function.  The room list a client shows is one the server published
      ([room_list_push_faithful], [room_list_replica]); the room a command asks
      for is the room the server reads ([create_command_understood]); addresses
      and membership ([addLease_correct]); datagrams sealed and packets checked
      ([link_traffic_sealed], [forged_datagram_ignored]); forward error correction
      and fragmentation deliver each packet at most once and under the stated
      conditions exactly once ([fec_group_recovers], [raw_udp_reassembles]), in
      both clients alike ([clients_tunnel_alike]); and so does the whole path
      through the server ([packets_cross]).
    - Errors and ends.  Validated messages never read out of bounds; receive
      loops end within the length of the buffer, which is the fuel they are
      given; callbacks do not nest without end ([callbacks_bounded]); a request
      to the key-derivation worker is answered; an adapter on loan is left alone
      ([adapter_on_loan]); a thread told to stop ends ([job_stops],
      [gui_thread_stops]); the wait for the Windows network has a verdict after
      ten seconds ([readiness_verdict]).  Six theorems state behaviours that are
      defects: [data_channel_gives_up], [stale_room_ready],
      [setup_outcome_lost], [job_stops] and [gui_thread_stops] (their second
      parts), [datagram_sizes].
    - Text.  Command lines and command output survive quoting and decoding
      ([arguments_survive], [command_output_faithful]); a log value is clean
      whatever its octets ([log_value_clean]).

    The witness after a theorem with hypotheses applies it at a concrete input.

    ** Bounds and fuel

    Receive loops take the length of the receive buffer as fuel: each turn
    removes a header of three octets ([framing_fuel_enough], [loop_fuel],
    [client_loop_fuel], [qc_loop_fuel]).  Flushing turns,
    eviction and FEC decoding take the length of the list they consume; the
    receive loop of a KCP tunnel takes the number of waiting segments.  The
    event loop runs over a list of turns.  Callbacks are followed
    [CALLBACK_DEPTH] = 3 deep, which no run exceeds ([callbacks_bounded]).
    The UTF-8 loops of [WinText] take the length of the text.  Slots of the
    graphical client that run inside slots are followed [fuel] deep, and its
    theorems hold for every [fuel].  Theorems about the key-derivation worker are for fewer than 2^64 critical
    sections, the range of its generation counter.

    ** Not modelled, and why

    Operating-system drivers (virtual adapters, the Windows calls behind
    [WindowsTextApi] and [WindowsNetworkCommands], the native backends of the
    adapter threads), socket set-up and the epoll call, logging, console output
    and the widgets are I/O or presentation.  [RelayHandler] of
    [relay_server.cpp] is called by nothing: [handleUdpPacket] does its work.
    Of the graphical client, the KCP tunnel, peers, tunnel manager and
    signalling client repeat the components of the command-line client on Qt's
    sockets and timers; with the data channel they are the operations of [GuiHost] here.  The texts of the
    room manager are left out or stand for themselves by their key, and the
    password dialog, which runs an event loop inside a slot, is an event of
    its own. *)

From stdpp Require Export base tactics list gmap sets strings numbers sorting.
From Stdlib Require Export ZArith Lia.
From Stdlib Require Import SpecFloat.

#[global] Set Default Goal Selector "!".

Declare Scope vlan_scope.
Delimit Scope vlan_scope with vlan.
#[global] Open Scope vlan_scope.

(** ** State-and-failure monad

    Code that mutates an object and may give up: [None] is a thrown C++
    exception (or a [false] result that stops a chain of [||]); the state
    reached when it gives up is kept, as in C++. *)

Definition SE (S A : Type) : Type := S -> option A * S.

Definition ret {S A} (a : A) : SE S A := fun s => (Some a, s).
Definition throw {S A} : SE S A := fun s => (None, s).
Definition bind {S A B} (m : SE S A) (k : A -> SE S B) : SE S B :=
  fun s => match m s with
           | (Some a, s') => k a s'
           | (None, s') => (None, s')
           end.
Definition gets {S A} (f : S -> A) : SE S A := fun s => (Some (f s), s).
Definition modify {S} (f : S -> S) : SE S unit := fun s => (Some tt, f s).
(** [try m catch h]: run [h] on the state reached when [m] throws. *)
Definition catch {S A} (m h : SE S A) : SE S A :=
  fun s => match m s with
           | (None, s') => h s'
           | r => r
           end.

Notation "x <- m ;; k" := (bind m (fun x => k))
  (at level 100, m at next level, right associativity) : vlan_scope.
Notation "'let*' p := m 'in' k" := (bind m (fun x => match x with p => k end))
  (at level 100, p pattern, m at level 99, right associativity) : vlan_scope.
Notation "m ;;; k" := (bind m (fun _ => k))
  (at level 100, right associativity) : vlan_scope.

(** The first step of a program, computed. *)
Lemma bind_gets {S A B} (f : S -> A) (k : A -> SE S B) s : bind (gets f) k s = k (f s) s.
Proof. reflexivity. Qed.
Lemma bind_modify {S B} (f : S -> S) (k : unit -> SE S B) s : bind (modify f) k s = k tt (f s).
Proof. reflexivity. Qed.
Lemma bind_assoc {S A B C} (m : SE S A) (k : A -> SE S B) (h : B -> SE S C) s :
  bind (bind m k) h s = bind m (fun a => bind (k a) h) s.
Proof. unfold bind. by destruct (m s) as [[a|] s']. Qed.
(** A bind whose first part is known to have returned. *)
Lemma bind_run {S A B} (m : SE S A) (k : A -> SE S B) s a s' :
  m s = (Some a, s') -> bind m k s = k a s'.
Proof. unfold bind. by intros ->. Qed.

(** [for x in l do body]: a range-based [for] over a copied list. *)
Fixpoint for_each {S A} (l : list A) (body : A -> SE S unit) : SE S unit :=
  match l with
  | [] => ret tt
  | x :: l' => body x ;;; for_each l' body
  end.

Definition when {S} (b : bool) (m : SE S unit) : SE S unit :=
  if b then m else ret tt.

(** [keeps I m]: running [m] (to its result or to its exception) preserves
    [I].  [moves R m]: the final state is [R]-related to the initial one. *)
Definition keeps {S A} (I : S -> Prop) (m : SE S A) : Prop :=
  forall s, I s -> I (snd (m s)).
Definition moves {S A} (R : S -> S -> Prop) (m : SE S A) : Prop :=
  forall s, R s (snd (m s)).

Section Keeps.
Context {S : Type} (I : S -> Prop).

Lemma keeps_ret {A} (a : A) : keeps I (ret a).
Proof. intros s Hs; exact Hs. Qed.
Lemma keeps_throw {A} : keeps I (@throw S A).
Proof. intros s Hs; exact Hs. Qed.
Lemma keeps_gets {A} (f : S -> A) : keeps I (gets f).
Proof. intros s Hs; exact Hs. Qed.
Lemma keeps_modify (f : S -> S) : (forall s, I s -> I (f s)) -> keeps I (modify f).
Proof. intros H s Hs; exact (H s Hs). Qed.
Lemma keeps_bind {A B} (m : SE S A) (k : A -> SE S B) :
    keeps I m -> (forall a, keeps I (k a)) -> keeps I (bind m k).
Proof.
    intros Hm Hk s Hs. unfold bind. specialize (Hm s Hs).
    destruct (m s) as [[a|] s']; [apply Hk|]; exact Hm.
Qed.
  (** The continuation may use what the value read says of the state. *)
Lemma keeps_bind_gets {A B} (f : S -> A) (k : A -> SE S B) :
    (forall s, I s -> I (snd (k (f s) s))) -> keeps I (bind (gets f) k).
Proof. intros H s Hs. exact (H s Hs). Qed.
Lemma keeps_catch {A} (m h : SE S A) :
    keeps I m -> keeps I h -> keeps I (catch m h).
Proof.
    intros Hm Hh s Hs. unfold catch. specialize (Hm s Hs).
    destruct (m s) as [[a|] s']; [exact Hm|]. apply Hh, Hm.
Qed.
Lemma keeps_when b (m : SE S unit) : keeps I m -> keeps I (when b m).
Proof. intros Hm. destruct b; [exact Hm|apply keeps_ret]. Qed.
Lemma keeps_for_each {A} (l : list A) (body : A -> SE S unit) :
    (forall x, keeps I (body x)) -> keeps I (for_each l body).
Proof.
    intros Hb. induction l as [|x l IH]; simpl; [apply keeps_ret|].
    apply keeps_bind; [apply Hb|intros _; exact IH].
Qed.
End Keeps.

Lemma keeps_and {S A} (I J : S -> Prop) (m : SE S A) :
  keeps I m -> keeps J m -> keeps (fun s => I s /\ J s) m.
Proof. intros H1 H2 s [Hi Hj]. split; [by apply H1|by apply H2]. Qed.
(** Reaching [I] through a stronger assertion [J] that holds after [m]. *)
Lemma bind_through {S A B} (J I : S -> Prop) (m : SE S A) (k : A -> SE S B) s :
  J (snd (m s)) -> (forall s', J s' -> I s') ->
  (forall a s', J s' -> I (snd (k a s'))) -> I (snd (bind m k s)).
Proof.
  intros Hj Hi Hk. unfold bind. destruct (m s) as [[a|] s']; cbn in *; [by apply Hk|by apply Hi].
Qed.

(** Preservation from the states that also satisfy [P] (what an earlier test
    of the program established). *)
Definition keeps_if {S A} (P I : S -> Prop) (m : SE S A) : Prop :=
  forall s, P s -> I s -> I (snd (m s)).

Section KeepsIf.
Context {S : Type} (P I : S -> Prop).

Lemma keeps_if_weaken {A} (m : SE S A) : keeps I m -> keeps_if P I m.
Proof. intros H s _. apply H. Qed.
Lemma keeps_if_first {A B} (m : SE S A) (k : A -> SE S B) :
  keeps_if P I m -> (forall a, keeps I (k a)) -> keeps_if P I (bind m k).
Proof.
  intros Hm Hk s Hp Hs. unfold bind. specialize (Hm s Hp Hs).
  destruct (m s) as [[a|] s']; [apply Hk|]; exact Hm.
Qed.
Lemma keeps_if_bind {A B} (m : SE S A) (k : A -> SE S B) :
  keeps P m -> keeps I m -> (forall a, keeps_if P I (k a)) -> keeps_if P I (bind m k).
Proof.
  intros Hp Hm Hk s Ps Hs. unfold bind. specialize (Hp s Ps). specialize (Hm s Hs).
  destruct (m s) as [[a|] s']; [by apply Hk|exact Hm].
Qed.
(** A value read from the state, with what it says of the state. *)
Lemma keeps_if_gets {A B} (f : S -> A) (k : A -> SE S B) :
  (forall a, keeps_if (fun s => P s /\ f s = a) I (k a)) -> keeps_if P I (bind (gets f) k).
Proof. intros H s Hp Hs. by apply (H (f s)). Qed.
Lemma keeps_gets_if {A B} (f : S -> A) (k : A -> SE S B) :
  (forall a, keeps_if (fun s => f s = a) I (k a)) -> keeps I (bind (gets f) k).
Proof. intros H s Hs. by apply (H (f s)). Qed.
End KeepsIf.

Section Moves.
Context {S : Type} (R : S -> S -> Prop) `{!PreOrder R}.

Lemma moves_ret {A} (a : A) : moves R (ret a).
Proof. intros s; cbn; reflexivity. Qed.
Lemma moves_throw {A} : moves R (@throw S A).
Proof. intros s; cbn; reflexivity. Qed.
Lemma moves_gets {A} (f : S -> A) : moves R (gets f).
Proof. intros s; cbn; reflexivity. Qed.
Lemma moves_modify (f : S -> S) : (forall s, R s (f s)) -> moves R (modify f).
Proof. intros H s; exact (H s). Qed.
Lemma moves_bind {A B} (m : SE S A) (k : A -> SE S B) :
    moves R m -> (forall a, moves R (k a)) -> moves R (bind m k).
Proof.
    intros Hm Hk s. unfold bind. specialize (Hm s).
    destruct (m s) as [[a|] s']; cbn in *; [|exact Hm].
    etrans; [exact Hm|apply Hk].
Qed.
Lemma moves_catch {A} (m h : SE S A) :
    moves R m -> moves R h -> moves R (catch m h).
Proof.
    intros Hm Hh s. unfold catch. specialize (Hm s).
    destruct (m s) as [[a|] s']; cbn in *; [exact Hm|].
    etrans; [exact Hm|apply Hh].
Qed.
Lemma moves_when b (m : SE S unit) : moves R m -> moves R (when b m).
Proof. intros Hm. destruct b; [exact Hm|apply moves_ret]. Qed.
Lemma moves_for_each {A} (l : list A) (body : A -> SE S unit) :
    (forall x, moves R (body x)) -> moves R (for_each l body).
Proof.
    intros Hb. induction l as [|x l IH]; simpl; [apply moves_ret|].
    apply moves_bind; [apply Hb|intros _; exact IH].
Qed.
End Moves.

(** [total m]: [m] never throws. *)
Definition total {S A} (m : SE S A) : Prop := forall s, is_Some (fst (m s)).
Section Total.
Context {S : Type}.
Lemma total_ret {A} (a : A) : total (@ret S A a).
Proof. intros s; by eexists. Qed.
Lemma total_gets {A} (f : S -> A) : total (gets f).
Proof. intros s; by eexists. Qed.
Lemma total_modify (f : S -> S) : total (modify f).
Proof. intros s; by eexists. Qed.
Lemma total_bind {A B} (m : SE S A) (k : A -> SE S B) :
  total m -> (forall a, total (k a)) -> total (bind m k).
Proof.
  intros Hm Hk s. unfold bind. destruct (Hm s) as [a Ha].
  destruct (m s) as [o s']; cbn in Ha; subst o. apply Hk.
Qed.
Lemma total_when b (m : SE S unit) : total m -> total (when b m).
Proof. intros Hm. destruct b; [exact Hm|apply total_ret]. Qed.
Lemma total_for_each {A} (l : list A) (body : A -> SE S unit) :
  (forall x, total (body x)) -> total (for_each l body).
Proof.
  intros Hb. induction l as [|x l IH]; simpl; [apply total_ret|].
  apply total_bind; [apply Hb|intros _; exact IH].
Qed.
End Total.

(** When [m] cannot throw, its continuation decides. *)
Lemma bind_total {S A B} (J I : S -> Prop) (m : SE S A) (k : A -> SE S B) s :
  total m -> J (snd (m s)) -> (forall a s', J s' -> I (snd (k a s'))) -> I (snd (bind m k s)).
Proof.
  intros Ht Hj Hk. unfold bind. destruct (Ht s) as [a Ha].
  destruct (m s) as [o s']; cbn in *; subst o. by apply Hk.
Qed.

(** A [try] from one state: its handler continues from where it failed. *)
Lemma catch_at {S A} (R : S -> S -> Prop) (m h : SE S A) s :
  R s (snd (m s)) -> (forall s', R s s' -> R s (snd (h s'))) -> R s (snd (catch m h s)).
Proof. intros Hm Hh. unfold catch. destruct (m s) as [[a|] s']; [exact Hm|by apply Hh]. Qed.

Create HintDb vlan.
#[export] Hint Resolve total_ret total_gets total_modify total_bind total_when
  total_for_each : vlan.
#[export] Hint Resolve keeps_ret keeps_throw keeps_gets keeps_bind keeps_catch
  keeps_when keeps_for_each : vlan.
#[export] Hint Resolve moves_ret moves_throw moves_gets moves_bind moves_catch
  moves_when moves_for_each : vlan.

(** Walk through a program goal [keeps I prog] / [moves R prog], splitting
    binds, conditionals and matches and closing the pieces with [vlan]. *)
Ltac step_prog :=
  match goal with
  | |- keeps _ (bind _ _) => apply keeps_bind; [|intros ?]
  | |- keeps _ (when _ _) => apply keeps_when
  | |- keeps _ (catch _ _) => apply keeps_catch
  | |- keeps _ (for_each _ _) => apply keeps_for_each; intros ?
  | |- total (bind _ _) => apply total_bind; [|intros ?]
  | |- total (when _ _) => apply total_when
  | |- total (for_each _ _) => apply total_for_each; intros ?
  | |- moves _ (bind _ _) => apply moves_bind; [try apply _| |intros ?]
  | |- moves _ (when _ _) => apply moves_when; [try apply _|]
  | |- moves _ (catch _ _) => apply moves_catch; [try apply _| |]
  | |- moves _ (for_each _ _) => apply moves_for_each; [try apply _|intros ?]
  | |- _ (match ?x with _ => _ end) => destruct x eqn:?
  | |- _ (let _ := _ in _) => cbv zeta
  end.
(** From what a program does at one state to the program. *)
Ltac apply_moves :=
  match goal with
  | |- ?R ?a (snd (?m ?a)) => let Hm := fresh in enough (moves R m) as Hm by apply Hm
  end.
Ltac walk := repeat first [ solve [eauto 2 with vlan] | step_prog ].

(** ** Machine integers and octets

    A [w]-bit unsigned integer is a [Z] in [0, 2^w); each operation of the
    code that can wrap writes the wrap-around out with [u8] ... [u64]. *)

#[global] Open Scope Z_scope.

Definition u8  (z : Z) : Z := z mod 256.
Definition u16 (z : Z) : Z := z mod 65536.
Definition u32 (z : Z) : Z := z mod 4294967296.
Definition u64 (z : Z) : Z := z mod 18446744073709551616.
(** [static_cast<int32_t>] of an unsigned 32-bit value. *)
Definition i32 (z : Z) : Z :=
  let r := u32 z in if r <? 2147483648 then r else r - 4294967296.

Abbreviation bytes := (list Z) (only parsing).
Definition is_byte (b : Z) : Prop := 0 <= b < 256.
Definition bytes_ok (l : list Z) : Prop := Forall is_byte l.
Definition len {A} (l : list A) : Z := Z.of_nat (length l).
(** [len v] below [k]: sizes are compared as [size_t], i.e. as naturals. *)

(** Octets [v >> 8*(n-1)], ..., [v >> 0], each masked with [0xFF]. *)
Fixpoint be_bytes (n : nat) (v : Z) : list Z :=
  match n with
  | O => []
  | S k => Z.land (Z.shiftr v (8 * Z.of_nat k)) 255 :: be_bytes k v
  end.
(** [v = (v << 8) | b] over the octets, from [v = 0]. *)
Definition be_value (l : list Z) : Z :=
  fold_left (fun v b => Z.lor (Z.shiftl v 8) b) l 0.

Lemma len_nonneg {A} (l : list A) : 0 <= len l.
Proof. unfold len; lia. Qed.
Lemma len_app {A} (l k : list A) : len (l ++ k) = len l + len k.
Proof. unfold len; rewrite length_app; lia. Qed.
Lemma len_cons {A} (x : A) l : len (x :: l) = 1 + len l.
Proof. unfold len; cbn [length]; lia. Qed.
Lemma len_nil {A} : len (@nil A) = 0.
Proof. reflexivity. Qed.
Lemma len_to_nat {A} (l : list A) : Z.to_nat (len l) = length l.
Proof. unfold len; lia. Qed.
Lemma len_zero_nil {A} (l : list A) : len l = 0 -> l = [].
Proof. destruct l; [done|]. rewrite len_cons. pose proof (len_nonneg l). lia. Qed.
Create Rewrite HintDb lens.
#[export] Hint Rewrite @len_app @len_cons @len_nil : lens.

Lemma length_be_bytes n v : length (be_bytes n v) = n.
Proof. induction n; cbn; congruence. Qed.
Lemma len_be_bytes n v : len (be_bytes n v) = Z.of_nat n.
Proof. unfold len; by rewrite length_be_bytes. Qed.
#[export] Hint Rewrite len_be_bytes : lens.
Ltac lens := autorewrite with lens in *; try lia.

Lemma land_255_byte v : is_byte (Z.land v 255).
Proof.
  change 255 with (Z.ones 8). rewrite Z.land_ones by lia.
  unfold is_byte. apply Z.mod_pos_bound. lia.
Qed.
Lemma bytes_ok_be_bytes n v : bytes_ok (be_bytes n v).
Proof. induction n; cbn [be_bytes]; constructor; [apply land_255_byte|done]. Qed.
#[export] Hint Resolve land_255_byte bytes_ok_be_bytes : vlan.

Lemma lor_shiftl_byte v b : is_byte b -> Z.lor (Z.shiftl v 8) b = 256 * v + b.
Proof.
  intros Hb. unfold is_byte in Hb.
  rewrite Z.lor_comm.
  assert (Z.land b (Z.shiftl v 8) = 0) as H0.
  { apply Z.bits_inj'. intros i Hi. rewrite Z.land_spec, Z.bits_0.
    destruct (decide (i < 8)).
    - rewrite Z.shiftl_spec_low by lia. apply andb_false_r.
    - rewrite (Z.bits_above_log2 b i); [done|lia|].
      destruct (decide (b = 0)) as [->|]; [cbn; lia|].
      apply Z.log2_lt_pow2; [lia|].
      apply Z.lt_le_trans with (2 ^ 8); [lia|]. apply Z.pow_le_mono_r; lia. }
  rewrite <- Z.lxor_lor by done. rewrite <- Z.add_nocarry_lxor by done.
  rewrite Z.shiftl_mul_pow2 by lia. lia.
Qed.

Lemma be_value_fold acc l :
  bytes_ok l ->
  fold_left (fun v b => Z.lor (Z.shiftl v 8) b) l acc = acc * 256 ^ len l + be_value l.
Proof.
  unfold be_value. revert acc.
  induction l as [|b l IH]; intros acc Hok.
  { cbn [fold_left]. change (256 ^ len []) with 1. lia. }
  inversion Hok as [|? ? Hb Hl]; subst. cbn [fold_left].
  rewrite !lor_shiftl_byte by done.
  rewrite (IH (256 * acc + b)), (IH (256 * 0 + b)) by done.
  rewrite len_cons, Z.pow_add_r by (pose proof (len_nonneg l); lia). ring.
Qed.

Lemma be_value_cons b l :
  bytes_ok (b :: l) -> be_value (b :: l) = b * 256 ^ len l + be_value l.
Proof.
  intros Hok. inversion Hok; subst.
  change (be_value (b :: l)) with
    (fold_left (fun v b => Z.lor (Z.shiftl v 8) b) l (Z.lor (Z.shiftl 0 8) b)).
  rewrite (lor_shiftl_byte 0 b) by done.
  rewrite (be_value_fold (256 * 0 + b) l) by done. ring.
Qed.

Lemma be_value_bound l : bytes_ok l -> 0 <= be_value l < 256 ^ len l.
Proof.
  induction l as [|b l IH]; intros Hok; [by vm_compute|].
  rewrite be_value_cons by done. inversion Hok as [|? ? Hb Hl]; subst.
  specialize (IH Hl). rewrite len_cons, Z.pow_add_r by (pose proof (len_nonneg l); lia).
  unfold is_byte in Hb. nia.
Qed.

Lemma land_255 v : Z.land v 255 = v mod 256.
Proof. change 255 with (Z.ones 8). by rewrite Z.land_ones by lia. Qed.

Lemma pow_256 k : 256 ^ Z.of_nat k = 2 ^ (8 * Z.of_nat k).
Proof. rewrite Z.pow_mul_r by lia. done. Qed.

(** Decoding what was encoded gives the value back, reduced to the width. *)
Lemma be_value_be_bytes n v : be_value (be_bytes n v) = v mod 256 ^ Z.of_nat n.
Proof.
  induction n as [|k IH].
  { cbn. by rewrite Z.mod_1_r. }
  cbn [be_bytes]. rewrite be_value_cons by exact (bytes_ok_be_bytes (S k) v).
  rewrite IH, len_be_bytes, land_255, Z.shiftr_div_pow2, <- pow_256 by lia.
  rewrite Nat2Z.inj_succ, Z.pow_succ_r by lia.
  rewrite (Z.mul_comm 256), Z.rem_mul_r by lia. lia.
Qed.

(** Encoding what was decoded gives the octets back. *)
Lemma be_bytes_be_value l : bytes_ok l -> be_bytes (length l) (be_value l) = l.
Proof.
  assert (forall n v w, v mod 256 ^ Z.of_nat n = w mod 256 ^ Z.of_nat n ->
            be_bytes n v = be_bytes n w) as Hmod.
  { induction n as [|k IH]; intros v w H; [done|]. cbn [be_bytes].
    rewrite Nat2Z.inj_succ, Z.pow_succ_r, (Z.mul_comm 256), !Z.rem_mul_r in H by lia.
    rewrite !land_255, !Z.shiftr_div_pow2, <- !pow_256 by lia.
    set (P := 256 ^ Z.of_nat k) in *.
    assert (0 < P) by (apply Z.pow_pos_nonneg; lia).
    pose proof (Z.mod_pos_bound v P). pose proof (Z.mod_pos_bound w P).
    assert ((v / P) mod 256 = (w / P) mod 256) as E by nia.
    f_equal; [exact E|]. apply IH. fold P. nia. }
  induction l as [|b l IH]; intros Hok; [done|].
  inversion Hok as [|? ? Hb Hl]; subst. pose proof (be_value_bound l Hl) as Hv.
  rewrite be_value_cons by done. cbn [length be_bytes]. unfold len in *.
  set (P := 256 ^ Z.of_nat (length l)) in *.
  assert (0 < P) by (apply Z.pow_pos_nonneg; lia).
  f_equal.
  - rewrite land_255, Z.shiftr_div_pow2, <- pow_256 by lia. fold P.
    rewrite Z.div_add_l, (Z.div_small (be_value l)), Z.add_0_r by lia.
    apply Z.mod_small, Hb.
  - etrans; [|exact (IH Hl)]. apply Hmod. fold P.
    by rewrite Z.add_comm, Z.mod_add by lia.
Qed.

Lemma be_value_small n v :
  0 <= v < 256 ^ Z.of_nat n -> be_value (be_bytes n v) = v.
Proof. intros H. rewrite be_value_be_bytes. by apply Z.mod_small. Qed.

Lemma sublist_map {A B} (f : A -> B) l k : l `sublist_of` k -> map f l `sublist_of` map f k.
Proof. induction 1; cbn; by constructor. Qed.

(** Offset slice [l[i .. i+n)]. *)
Definition slice (i n : Z) (l : list Z) : list Z :=
  take (Z.to_nat n) (drop (Z.to_nat i) l).
(** Octet [l[i]]; the code only indexes in range (each use is guarded). *)
Definition byte_at (l : list Z) (i : Z) : Z := nth (Z.to_nat i) l 0.

Lemma bytes_ok_app l k : bytes_ok (l ++ k) <-> bytes_ok l /\ bytes_ok k.
Proof. apply Forall_app. Qed.
Lemma bytes_ok_slice i n l : bytes_ok l -> bytes_ok (slice i n l).
Proof. intros H. apply Forall_take, Forall_drop, H. Qed.
Lemma byte_at_ok l i : bytes_ok l -> is_byte (byte_at l i).
Proof.
  intros H. unfold byte_at. rewrite nth_lookup.
  destruct (l !! Z.to_nat i) as [x|] eqn:E; simpl; [|unfold is_byte; lia].
  by eapply Forall_lookup_1.
Qed.
Lemma len_slice i n l :
  0 <= i -> 0 <= n -> i + n <= len l -> len (slice i n l) = n.
Proof.
  intros. unfold slice, len in *. rewrite length_take, length_drop. lia.
Qed.
(** The middle of a concatenation, by the sizes of its parts. *)
Lemma slice_mid i n (a b c : list Z) :
  len a = i -> len b = n -> slice i n (a ++ b ++ c) = b.
Proof.
  intros <- <-. unfold slice. by rewrite !len_to_nat, drop_app_length, take_app_length.
Qed.
#[export] Hint Resolve bytes_ok_slice byte_at_ok : vlan.

(** ** Sums over a map *)

Definition map_total {A} (f : A -> Z) (m : gmap Z A) : Z := map_fold (fun _ x acc => f x + acc) 0 m.

Lemma map_total_insert {A} (f : A -> Z) m i x :
  m !! i = None -> map_total f (<[i := x]> m) = f x + map_total f m.
Proof.
  intros Hn. unfold map_total. rewrite map_fold_insert_L; [done| |done].
  intros. lia.
Qed.
Lemma map_total_delete {A} (f : A -> Z) m i x :
  m !! i = Some x -> map_total f (delete i m) = map_total f m - f x.
Proof.
  intros Hx. rewrite <- (insert_delete_id m i x Hx) at 2.
  rewrite map_total_insert by apply lookup_delete_eq. lia.
Qed.
Lemma map_total_update {A} (f : A -> Z) m i x y :
  m !! i = Some x -> map_total f (<[i := y]> m) = map_total f m - f x + f y.
Proof.
  intros Hx. rewrite <- insert_delete_eq, map_total_insert by apply lookup_delete_eq.
  rewrite (map_total_delete f m i x) by done. lia.
Qed.
Lemma map_total_alter {A} (f : A -> Z) m i g :
  map_total f (alter g i m) =
  match m !! i with
  | Some x => map_total f m - f x + f (g x)
  | None => map_total f m
  end.
Proof.
  destruct (m !! i) as [x|] eqn:E.
  - replace (alter g i m) with (<[i := g x]> m); [by apply map_total_update|].
    apply map_eq. intros j. rewrite lookup_alter, lookup_insert.
    case_decide; [subst; by rewrite E|done].
  - f_equal. apply map_eq. intros j. rewrite lookup_alter.
    case_decide; [subst; by rewrite E|done].
Qed.
Lemma map_total_nonneg {A} (f : A -> Z) m :
  (forall i x, m !! i = Some x -> 0 <= f x) -> 0 <= map_total f m.
Proof.
  induction m as [|i x m Hi IH] using map_ind; intros Hf; [done|].
  rewrite map_total_insert by done.
  assert (0 <= f x) by (apply (Hf i); apply lookup_insert_eq).
  assert (0 <= map_total f m); [|lia]. apply IH. intros j y Hj. apply (Hf j).
  rewrite lookup_insert_ne; congruence.
Qed.

(** ** IEEE-754 doubles, as the C++ code computes them (binary64, nearest-even) *)

Definition f64 : Type := spec_float.
Definition f64_of_Z (z : Z) : f64 := binary_normalize 53 1024 z 0 false.
Definition f64_add : f64 -> f64 -> f64 := SFadd 53 1024.
Definition f64_sub : f64 -> f64 -> f64 := SFsub 53 1024.
Definition f64_mul : f64 -> f64 -> f64 := SFmul 53 1024.
Definition f64_div : f64 -> f64 -> f64 := SFdiv 53 1024.
Definition f64_lt : f64 -> f64 -> bool := SFltb.
(** [std::min(a, b)]: [b < a ? b : a]. *)
Definition f64_min (a b : f64) : f64 := if f64_lt b a then b else a.

(** ** Booleans *)

(** Case analysis on the comparisons of the goal. *)
Ltac zcase :=
  match goal with
  | |- context [?a =? ?b] => destruct (Z.eqb_spec a b)
  | |- context [?a <? ?b] => destruct (Z.ltb_spec a b)
  | |- context [?a <=? ?b] => destruct (Z.leb_spec a b)
  end.
(** Turn boolean hypotheses into propositions over [Z]. *)
Ltac bools :=
  repeat match goal with
  | H : _ && _ = true |- _ => apply andb_true_iff in H as [? ?]
  | H : _ || _ = false |- _ => apply orb_false_iff in H as [? ?]
  | H : negb _ = true |- _ => apply negb_true_iff in H
  | H : negb _ = false |- _ => apply negb_false_iff in H
  | H : (_ =? _) = true |- _ => apply Z.eqb_eq in H
  | H : (_ =? _) = false |- _ => apply Z.eqb_neq in H
  | H : (_ <? _) = true |- _ => apply Z.ltb_lt in H
  | H : (_ <? _) = false |- _ => apply Z.ltb_ge in H
  | H : (_ <=? _) = true |- _ => apply Z.leb_le in H
  | H : (_ <=? _) = false |- _ => apply Z.leb_gt in H
  | H : bool_decide _ = true |- _ => apply bool_decide_eq_true in H
  | H : bool_decide _ = false |- _ => apply bool_decide_eq_false in H
  end.

(** ** Text *)

From Stdlib Require Import Ascii.

(** The octets of a C string literal, without its terminator. *)
Fixpoint bytes_of_string (s : string) : list Z :=
  match s with
  | EmptyString => []
  | String a s' => Z.of_N (N_of_ascii a) :: bytes_of_string s'
  end.
Lemma bytes_of_string_ok s : bytes_ok (bytes_of_string s).
Proof.
  induction s as [|a s IH]; cbn; constructor; [|exact IH].
  unfold is_byte. pose proof (N_ascii_bounded a). lia.
Qed.
#[export] Hint Resolve bytes_of_string_ok : vlan.

(** Zero fill of [n] octets ([memset], [crypto_wipe]). *)
Definition zeros (n : nat) : list Z := replicate n 0.
