(* ===== verification/Protocol.v ===== *)
(** * [common/protocol.h] and the address helpers of [common/net_common.h]

    Constants, wire enumerations (each with its octet), name and policy
    validation, MTU budgets, traffic classification and the FEC redundancy
    table.  Enumerations are inductive types; [*_u8] is the octet the C++
    enumerator stands for and [*_cast] is [static_cast] of an octet, which the
    code only applies after the matching [isValid...] test. *)

From S2P Require Import Prelude.

(** ** Constants *)

Definition DEFAULT_PORT : Z := 11510.
Definition VNET_SUBNET : Z := 0x0A0A0000.
Definition VNET_BROADCAST : Z := 0x0A0A00FF.
Definition HEARTBEAT_TIMEOUT_MS : Z := 45000.
Definition RAW_UDP_KEEPALIVE_MS : Z := 5000.
Definition RAW_UDP_DEAD_TIMEOUT_MS : Z := 30000.
Definition RAW_UDP_FRAG_TIMEOUT_MS : Z := 2000.
Definition RAW_UDP_MAX_FRAG_PAYLOAD : Z := 1457.
Definition RAW_UDP_MAX_REASSEMBLY_BYTES : Z := 128 * 1024.
Definition RAW_UDP_MAX_ACTIVE_MESSAGES : Z := 64.
Definition FEC_MAX_BUFFERED_BYTES : Z := 256 * 1024.
Definition FEC_MAX_ACTIVE_GROUPS : Z := 32.
Definition ROOM_MTU_SAFE : Z := 1280.
Definition ROOM_MTU_BALANCED : Z := 1400.
Definition ROOM_MTU_AGGRESSIVE : Z := 1420.
Definition ROOM_MTU_DEFAULT : Z := ROOM_MTU_BALANCED.
Definition MAX_ROOM_NAME_LEN : Z := 63.
Definition MIN_PLAYER_NAME_LEN : Z := 5.
Definition MAX_PLAYER_NAME_LEN : Z := 63.
Definition MIN_ROOM_PASSWORD_LEN : Z := 6.
Definition MAX_ROOM_PASSWORD_LEN : Z := 63.
Definition MAX_PLAYERS : Z := 8.
Definition RECONNECT_TOKEN_SIZE : Z := 32.
Definition RECONNECT_LEASE_TIMEOUT_SEC : Z := 120.
Definition VNET_FIRST_HOST_SUFFIX : Z := 2.
Definition VNET_LAST_HOST_SUFFIX : Z := 254.
Definition MAX_TCP_SEND_BUF : Z := 2 * 1024 * 1024.
Definition MAX_TCP_MSG_PAYLOAD : Z := 65000.
Definition ROOM_LIST_PAGE_PAYLOAD : Z := 60000.
Definition PROTOCOL_VERSION : Z := 9.
Definition AUTH_KDF_PROFILE : Z := 1.
Definition AUTH_SALT_SIZE : Z := 16.
Definition FEC_GROUP_SIZE : Z := 10.

(** Sizes of the packed structures. *)
Definition sizeof_UdpRelayHeader : Z := 10.
Definition sizeof_TcpMsgHeader : Z := 3.
Definition sizeof_FragHeader : Z := 6.
Definition sizeof_FecHeader : Z := 4.

(** ** Wire enumerations *)

(** [enum UdpPacketType]. *)
Definition UDP_KCP_DATA : Z := 0x01.
Definition UDP_RELAY_DATA : Z := 0x02.
Definition UDP_KEEPALIVE : Z := 0x07.
Definition UDP_RAW_RELAY_DATA : Z := 0x08.
Definition UDP_ENCRYPTED : Z := 0x09.

(** [enum class AuthErrorCode]. *)
Inductive AuthErrorCode :=
| General | VersionMismatch | InvalidPassword | InvalidServerProof
| UnsupportedKdf | InvalidKey | RateLimited | AuthTimeout | KdfFailed
| RoomPassword.
Definition AuthErrorCode_u16 (c : AuthErrorCode) : Z :=
  match c with
  | General => 0 | VersionMismatch => 1 | InvalidPassword => 2
  | InvalidServerProof => 3 | UnsupportedKdf => 4 | InvalidKey => 5
  | RateLimited => 6 | AuthTimeout => 7 | KdfFailed => 8 | RoomPassword => 9
  end.
Definition isFatalAuthError (code : Z) : bool :=
  (AuthErrorCode_u16 VersionMismatch <=? code) &&
  (code <=? AuthErrorCode_u16 KdfFailed).

(** [enum TcpMsgType]. *)
Definition MSG_LOGIN : Z := 0x01.
Definition MSG_LOGIN_RESP : Z := 0x02.
Definition MSG_CREATE_ROOM : Z := 0x03.
Definition MSG_JOIN_ROOM : Z := 0x04.
Definition MSG_PEER_JOINED : Z := 0x06.
Definition MSG_PEER_LEFT : Z := 0x07.
Definition MSG_LEAVE_ROOM : Z := 0x08.
Definition MSG_ROOM_CREATED : Z := 0x09.
Definition MSG_JOIN_RESP : Z := 0x0A.
Definition MSG_REQUEST_RELAY : Z := 0x0E.
Definition MSG_RELAY_READY : Z := 0x0F.
Definition MSG_LIST_ROOMS : Z := 0x10.
Definition MSG_ROOM_LIST : Z := 0x11.
Definition MSG_ROOM_LIST_PUSH : Z := 0x12.
Definition MSG_RESUME_ROOM : Z := 0x13.
Definition MSG_LOGOUT : Z := 0x14.
Definition MSG_LOGOUT_ACK : Z := 0x15.
Definition MSG_PEER_RESUMED : Z := 0x16.
Definition MSG_TCP_RELAY_DATA : Z := 0x20.
Definition MSG_DATA_CHANNEL_INIT : Z := 0x21.
Definition MSG_DATA_CHANNEL_ACK : Z := 0x22.
Definition MSG_CLIENT_HELLO : Z := 0x30.
Definition MSG_SERVER_HELLO : Z := 0x31.
Definition MSG_SERVER_AUTH : Z := 0x32.
Definition MSG_SERVER_AUTH_OK : Z := 0x33.
Definition MSG_ENCRYPTED : Z := 0x34.
Definition MSG_AUTH_CHALLENGE : Z := 0xE0.
Definition MSG_AUTH_RESPONSE : Z := 0xE1.
Definition MSG_PING : Z := 0xF0.
Definition MSG_PONG : Z := 0xF1.
Definition MSG_ERROR : Z := 0xF2.

(** [enum TransportType]. *)
Inductive TransportType :=
| TRANSPORT_NONE | TRANSPORT_RELAY_KCP | TRANSPORT_RELAY_TCP | TRANSPORT_RELAY_RAW_UDP.
Definition TransportType_u8 (t : TransportType) : Z :=
  match t with
  | TRANSPORT_NONE => 0 | TRANSPORT_RELAY_KCP => 2
  | TRANSPORT_RELAY_TCP => 3 | TRANSPORT_RELAY_RAW_UDP => 4
  end.

(** [enum TrafficClass]: the octet itself, because the code stores any octet in it. *)
Definition TRAFFIC_TCP : Z := 1.
Definition TRAFFIC_UDP : Z := 2.

(** [enum RoomListOperation]. *)
Definition ROOM_LIST_UPSERT : Z := 1.
Definition ROOM_LIST_REMOVE : Z := 2.

Inductive DataPlaneState := Stopped | Running.
Inductive DataPlaneSecurityMode := Unconfigured | Secure.
#[export] Instance DataPlaneState_eq_dec : EqDecision DataPlaneState.
Proof. solve_decision. Defined.
#[export] Instance DataPlaneSecurityMode_eq_dec : EqDecision DataPlaneSecurityMode.
Proof. solve_decision. Defined.

Definition dataPlaneAllowsTraffic (state : DataPlaneState) (mode : DataPlaneSecurityMode) : bool :=
  bool_decide (state = Running) && bool_decide (mode = Secure).
Definition dataPlaneCanReconfigure (state : DataPlaneState) : bool :=
  bool_decide (state = Stopped).

Inductive KcpProfile := KCP_PROFILE_REALTIME | KCP_PROFILE_BULK.
Definition KcpProfile_u8 (p : KcpProfile) : Z :=
  match p with KCP_PROFILE_REALTIME => 0 | KCP_PROFILE_BULK => 1 end.
Definition KcpProfile_cast (raw : Z) : KcpProfile :=
  if raw =? 1 then KCP_PROFILE_BULK else KCP_PROFILE_REALTIME.

Inductive TransportMode := MODE_RELAY_KCP | MODE_RELAY_TCP | MODE_RELAY_RAW_UDP.
Definition TransportMode_u8 (m : TransportMode) : Z :=
  match m with MODE_RELAY_KCP => 2 | MODE_RELAY_TCP => 3 | MODE_RELAY_RAW_UDP => 4 end.
Definition TransportMode_cast (raw : Z) : TransportMode :=
  if raw =? 3 then MODE_RELAY_TCP else
  if raw =? 4 then MODE_RELAY_RAW_UDP else MODE_RELAY_KCP.

Inductive FecMode := FEC_NONE | FEC_10 | FEC_30 | FEC_50 | FEC_70 | FEC_100 | FEC_200.
Definition FecMode_u8 (m : FecMode) : Z :=
  match m with
  | FEC_NONE => 0 | FEC_10 => 1 | FEC_30 => 2 | FEC_50 => 3
  | FEC_70 => 4 | FEC_100 => 5 | FEC_200 => 6
  end.
Definition FecMode_cast (raw : Z) : FecMode :=
  if raw =? 1 then FEC_10 else if raw =? 2 then FEC_30 else
  if raw =? 3 then FEC_50 else if raw =? 4 then FEC_70 else
  if raw =? 5 then FEC_100 else if raw =? 6 then FEC_200 else FEC_NONE.

#[export] Instance KcpProfile_eq_dec : EqDecision KcpProfile.
Proof. solve_decision. Defined.
#[export] Instance TransportMode_eq_dec : EqDecision TransportMode.
Proof. solve_decision. Defined.
#[export] Instance FecMode_eq_dec : EqDecision FecMode.
Proof. solve_decision. Defined.
#[export] Instance TransportType_eq_dec : EqDecision TransportType.
Proof. solve_decision. Defined.
#[export] Instance AuthErrorCode_eq_dec : EqDecision AuthErrorCode.
Proof. solve_decision. Defined.

(** ** Names and passwords *)

Definition isAsciiAlphaNum (c : Z) : bool :=
  ((48 <=? c) && (c <=? 57)) || ((65 <=? c) && (c <=? 90)) ||
  ((97 <=? c) && (c <=? 122)).
Definition isAsciiAlphaNumString (s : bytes) : bool := forallb isAsciiAlphaNum s.
Definition isValidPlayerName (s : bytes) : bool :=
  (MIN_PLAYER_NAME_LEN <=? len s) && (len s <=? MAX_PLAYER_NAME_LEN) &&
  isAsciiAlphaNumString s.
Definition isValidRoomName (s : bytes) : bool :=
  negb (len s =? 0) && (len s <=? MAX_ROOM_NAME_LEN).
Definition isValidRoomPassword (s : bytes) : bool :=
  (MIN_ROOM_PASSWORD_LEN <=? len s) && (len s <=? MAX_ROOM_PASSWORD_LEN) &&
  isAsciiAlphaNumString s.

Definition normalizeMaxPlayers (value : Z) : Z :=
  if value <? 2 then 2 else if MAX_PLAYERS <? value then MAX_PLAYERS else u8 value.

(** ** Policies *)

Definition isValidTransportModeValue (raw : Z) : bool :=
  (raw =? TransportMode_u8 MODE_RELAY_KCP) || (raw =? TransportMode_u8 MODE_RELAY_TCP) ||
  (raw =? TransportMode_u8 MODE_RELAY_RAW_UDP).
Definition normalizeTransportMode (raw : Z) : TransportMode :=
  if isValidTransportModeValue raw then TransportMode_cast raw else MODE_RELAY_KCP.

Definition isValidFecModeValue (raw : Z) : bool :=
  (raw =? FecMode_u8 FEC_NONE) || (raw =? FecMode_u8 FEC_10) || (raw =? FecMode_u8 FEC_30) ||
  (raw =? FecMode_u8 FEC_50) || (raw =? FecMode_u8 FEC_70) || (raw =? FecMode_u8 FEC_100) ||
  (raw =? FecMode_u8 FEC_200).
Definition normalizeFecMode (raw : Z) (mode : TransportMode) : FecMode :=
  let fec := if isValidFecModeValue raw then FecMode_cast raw else FEC_NONE in
  if decide (mode = MODE_RELAY_TCP) then FEC_NONE else fec.

Definition isValidKcpProfileValue (raw : Z) : bool :=
  (raw =? KcpProfile_u8 KCP_PROFILE_REALTIME) || (raw =? KcpProfile_u8 KCP_PROFILE_BULK).
Definition normalizeKcpProfile (raw : Z) : KcpProfile :=
  if isValidKcpProfileValue raw then KcpProfile_cast raw else KCP_PROFILE_REALTIME.

Definition isValidRoomMtuValue (mtu : Z) : bool :=
  (mtu =? ROOM_MTU_SAFE) || (mtu =? ROOM_MTU_BALANCED) || (mtu =? ROOM_MTU_AGGRESSIVE).
Definition normalizeRoomMtu (mtu : Z) : Z :=
  if isValidRoomMtuValue mtu then u16 mtu else u16 ROOM_MTU_DEFAULT.

(** [UDP_ENCRYPTED] + session + counter + MAC. *)
Definition ENCRYPTED_UDP_OVERHEAD : Z := 1 + 4 + 8 + 16.

Definition transportPayloadBudget (roomMtu : Z) (mode : TransportMode)
    (fecEnabled encrypted : bool) : Z :=
  let budget := normalizeRoomMtu roomMtu in
  let budget := budget - sizeof_UdpRelayHeader in
  let budget := if fecEnabled then budget - sizeof_FecHeader else budget in
  let budget := if encrypted then budget - ENCRYPTED_UDP_OVERHEAD else budget in
  let budget := if decide (mode = MODE_RELAY_RAW_UDP)
                then budget - sizeof_FragHeader else budget in
  let budget := if budget <? 256 then 256 else budget in
  if RAW_UDP_MAX_FRAG_PAYLOAD <? budget then RAW_UDP_MAX_FRAG_PAYLOAD else budget.

Definition kcpMtuFromRoomMtu (roomMtu : Z) (fecEnabled encrypted : bool) : Z :=
  transportPayloadBudget roomMtu MODE_RELAY_KCP fecEnabled encrypted.

Record RoomTrafficPolicy := mkPolicy {
  transportMode : TransportMode;
  fecMode : FecMode;
  kcpProfile : KcpProfile
}.
#[export] Instance RoomTrafficPolicy_eq_dec : EqDecision RoomTrafficPolicy.
Proof. solve_decision. Defined.

Definition makeDefaultTcpPolicy : RoomTrafficPolicy :=
  mkPolicy MODE_RELAY_RAW_UDP FEC_NONE KCP_PROFILE_REALTIME.
Definition makeDefaultUdpPolicy : RoomTrafficPolicy :=
  mkPolicy MODE_RELAY_KCP FEC_NONE KCP_PROFILE_REALTIME.

Definition normalizeTrafficPolicy (transport fec profile : Z)
    (fallback : RoomTrafficPolicy) : RoomTrafficPolicy :=
  let mode := if isValidTransportModeValue transport
              then TransportMode_cast transport else transportMode fallback in
  let f := normalizeFecMode fec mode in
  let k := normalizeKcpProfile profile in
  let f := if decide (mode = MODE_RELAY_TCP) then FEC_NONE else f in
  mkPolicy mode f k.

Definition policyForTraffic (tcpPolicy udpPolicy : RoomTrafficPolicy) (cls : Z)
    : RoomTrafficPolicy :=
  if cls =? TRAFFIC_TCP then tcpPolicy else udpPolicy.

(** ** Packets *)

Definition trafficClassFromIpPacket (p : bytes) : Z :=
  if len p <? 20 then TRAFFIC_UDP else
  let version := Z.land (Z.shiftr (byte_at p 0) 4) 0x0F in
  if negb (version =? 4) then TRAFFIC_UDP else
  let ihl := u8 (Z.land (byte_at p 0) 0x0F * 4) in
  if (ihl <? 20) || (len p <? ihl) then TRAFFIC_UDP else
  if byte_at p 9 =? 6 then TRAFFIC_TCP else TRAFFIC_UDP.

Definition fecParityCount (mode : FecMode) (dataCount : Z) : Z :=
  match mode with
  | FEC_10 => (dataCount * 1 + 9) / 10
  | FEC_30 => (dataCount * 3 + 9) / 10
  | FEC_50 => (dataCount * 5 + 9) / 10
  | FEC_70 => (dataCount * 7 + 9) / 10
  | FEC_100 => dataCount
  | FEC_200 => dataCount * 2
  | FEC_NONE => 0
  end.

(** [net_common.h]: addresses read from an IPv4 packet. *)
Definition extractDstIP (p : bytes) : Z :=
  if len p <? 20 then 0 else
  let version := Z.land (Z.shiftr (byte_at p 0) 4) 0x0F in
  if negb (version =? 4) then 0 else
  Z.lor (Z.lor (Z.lor (Z.shiftl (byte_at p 16) 24) (Z.shiftl (byte_at p 17) 16))
               (Z.shiftl (byte_at p 18) 8)) (byte_at p 19).
Definition extractSrcIP (p : bytes) : Z :=
  if len p <? 20 then 0 else
  let version := Z.land (Z.shiftr (byte_at p 0) 4) 0x0F in
  if negb (version =? 4) then 0 else
  Z.lor (Z.lor (Z.lor (Z.shiftl (byte_at p 12) 24) (Z.shiftl (byte_at p 13) 16))
               (Z.shiftl (byte_at p 14) 8)) (byte_at p 15).
Definition isBroadcast (ip : Z) : bool :=
  (ip =? 0xFFFFFFFF) || (Z.land ip 0x000000FF =? 0xFF).

(** ** Properties *)

(** A policy as the server accepts it: no FEC over the TCP relay. *)
Definition policy_wf (p : RoomTrafficPolicy) : Prop :=
  transportMode p = MODE_RELAY_TCP -> fecMode p = FEC_NONE.

Lemma normalizeTrafficPolicy_wf t f k fb : policy_wf (normalizeTrafficPolicy t f k fb).
Proof. unfold policy_wf, normalizeTrafficPolicy. cbn. intros ->. by rewrite decide_True. Qed.

Lemma transport_valid_u8 m : isValidTransportModeValue (TransportMode_u8 m) = true.
Proof. by destruct m. Qed.
Lemma fec_valid_u8 m : isValidFecModeValue (FecMode_u8 m) = true.
Proof. by destruct m. Qed.
Lemma profile_valid_u8 m : isValidKcpProfileValue (KcpProfile_u8 m) = true.
Proof. by destruct m. Qed.
Lemma TransportMode_u8_byte m : is_byte (TransportMode_u8 m).
Proof. by destruct m. Qed.
Lemma FecMode_u8_byte m : is_byte (FecMode_u8 m).
Proof. by destruct m. Qed.
Lemma KcpProfile_u8_byte m : is_byte (KcpProfile_u8 m).
Proof. by destruct m. Qed.
#[export] Hint Resolve transport_valid_u8 fec_valid_u8 profile_valid_u8
  TransportMode_u8_byte FecMode_u8_byte KcpProfile_u8_byte normalizeTrafficPolicy_wf : vlan.

(** Writing a policy's three octets and normalising them back gives the same
    policy, whatever the fallback. *)
Lemma policy_octets_roundtrip p fb :
  policy_wf p ->
  normalizeTrafficPolicy (TransportMode_u8 (transportMode p)) (FecMode_u8 (fecMode p))
    (KcpProfile_u8 (kcpProfile p)) fb = p.
Proof.
  destruct p as [m f k]; unfold policy_wf; cbn. intros H.
  unfold normalizeTrafficPolicy, normalizeFecMode, normalizeKcpProfile.
  rewrite transport_valid_u8, fec_valid_u8, profile_valid_u8.
  destruct m; [| |]; destruct f, k; try done; by specialize (H eq_refl).
Qed.

Lemma normalizeRoomMtu_cases mtu :
  normalizeRoomMtu mtu = 1280 \/ normalizeRoomMtu mtu = 1400 \/ normalizeRoomMtu mtu = 1420.
Proof.
  unfold normalizeRoomMtu, isValidRoomMtuValue,
    ROOM_MTU_DEFAULT, ROOM_MTU_SAFE, ROOM_MTU_BALANCED, ROOM_MTU_AGGRESSIVE.
  repeat zcase; subst; cbn; auto.
Qed.
Lemma normalizeRoomMtu_valid mtu : isValidRoomMtuValue (normalizeRoomMtu mtu) = true.
Proof. by destruct (normalizeRoomMtu_cases mtu) as [-> | [-> | ->]]. Qed.
Lemma normalizeRoomMtu_id mtu : isValidRoomMtuValue mtu = true -> normalizeRoomMtu mtu = mtu.
Proof.
  intros H. unfold normalizeRoomMtu. rewrite H. unfold isValidRoomMtuValue in H.
  apply orb_true_iff in H as [H|H]; [apply orb_true_iff in H as [H|H]|]; bools; by subst.
Qed.
Lemma mtu_u16 m : isValidRoomMtuValue m = true -> u16 m = m.
Proof. intros Hm. rewrite <- (normalizeRoomMtu_id m Hm). by destruct (normalizeRoomMtu_cases m) as [-> | [-> | ->]]. Qed.
#[export] Hint Resolve normalizeRoomMtu_valid : vlan.

(** MTU accounting: the largest payload the budget admits, together with
    every header the frame carries, is exactly the room MTU; so neither clamp
    of the budget is ever reached. *)
Theorem transport_budget_exact mtu mode fec enc :
  transportPayloadBudget mtu mode fec enc + sizeof_UdpRelayHeader
    + (if fec then sizeof_FecHeader else 0)
    + (if enc then ENCRYPTED_UDP_OVERHEAD else 0)
    + (if decide (mode = MODE_RELAY_RAW_UDP) then sizeof_FragHeader else 0)
  = normalizeRoomMtu mtu.
Proof.
  unfold transportPayloadBudget, ENCRYPTED_UDP_OVERHEAD, sizeof_UdpRelayHeader,
    sizeof_FecHeader, sizeof_FragHeader, RAW_UDP_MAX_FRAG_PAYLOAD.
  destruct (normalizeRoomMtu_cases mtu) as [-> | [-> | ->]]; by destruct fec, enc, mode.
Qed.
Lemma transport_budget_bounds mtu mode fec enc :
  1000 <= transportPayloadBudget mtu mode fec enc <= 1410.
Proof.
  unfold transportPayloadBudget.
  destruct (normalizeRoomMtu_cases mtu) as [-> | [-> | ->]]; destruct fec, enc, mode; vm_compute; split; congruence.
Qed.

(** The nominal redundancy of a mode, in tenths of a packet per data packet. *)
Definition fec_tenths (mode : FecMode) : Z :=
  match mode with
  | FEC_NONE => 0 | FEC_10 => 1 | FEC_30 => 3 | FEC_50 => 5
  | FEC_70 => 7 | FEC_100 => 10 | FEC_200 => 20
  end.

(** The parity count is the ceiling of the nominal redundancy, and a group
    of up to [FEC_GROUP_SIZE] data packets keeps [N + M <= 3 * N <= 30], which
    fits the octets of [FecHeader] and the decoder's acceptance test. *)
Theorem fec_parity_ceiling mode n :
  1 <= n <= FEC_GROUP_SIZE ->
  let m := fecParityCount mode n in
  fec_tenths mode * n <= 10 * m < fec_tenths mode * n + 10 /\
  0 <= m /\ n + m <= 3 * n <= 30.
Proof.
  unfold FEC_GROUP_SIZE. intros Hn. cbn zeta.
  assert (n = 1 \/ n = 2 \/ n = 3 \/ n = 4 \/ n = 5 \/ n = 6 \/ n = 7 \/ n = 8 \/ n = 9 \/ n = 10)
    as Hc by lia.
  destruct Hc as [->|[->|[->|[->|[->|[->|[->|[->|[->| ->]]]]]]]]];
    destruct mode; vm_compute; repeat split; congruence.
Qed.
Lemma fec_parity_ceiling_witness :
  1 <= 7 <= FEC_GROUP_SIZE /\ fecParityCount FEC_30 7 = 3 /\ 7 + fecParityCount FEC_30 7 <= 3 * 7.
Proof.
  split; [by vm_compute|]. split; [reflexivity|].
  apply (fec_parity_ceiling FEC_30 7). by vm_compute.
Defined.
