(* ===== verification/ByteBuf.v ===== *)
(** * [common/byte_buffer.h] and [common/traffic_policy_codec.h]

    The writer appends to a byte list; the reader is a state-and-failure
    program over the buffer, [None] being a thrown [ByteBufferReadError]. *)

From S2P Require Import Prelude Protocol.

(** [class ByteBuffer]: [m_data] and [m_readPos]. *)
Record ByteBuffer := mkBB { m_data : bytes; m_readPos : Z }.
Definition bb_empty : ByteBuffer := mkBB [] 0.
(** [ByteBuffer(const uint8_t* d, size_t len)]. *)
Definition bb_of (d : bytes) : ByteBuffer := mkBB d 0.

(** ** Writing: each [write*] appends to [m_data] *)

Definition writeU8 (v : Z) (d : bytes) : bytes := d ++ [v].
Definition writeU16 (v : Z) (d : bytes) : bytes :=
  d ++ [Z.land (Z.shiftr v 8) 0xFF; Z.land v 0xFF].
Definition writeU32 (v : Z) (d : bytes) : bytes :=
  d ++ [Z.land (Z.shiftr v 24) 0xFF; Z.land (Z.shiftr v 16) 0xFF;
        Z.land (Z.shiftr v 8) 0xFF; Z.land v 0xFF].
(** [for (shift = 56; shift >= 0; shift -= 8) push_back((v >> shift) & 0xFF)]. *)
Definition writeU64 (v : Z) (d : bytes) : bytes :=
  d ++ map (fun shift => Z.land (Z.shiftr v shift) 0xFF) [56; 48; 40; 32; 24; 16; 8; 0].
Definition writeString (s : bytes) (d : bytes) : bytes :=
  writeU16 (u16 (len s)) d ++ s.
Definition writeBytes (p : bytes) (d : bytes) : bytes := d ++ p.

(** ** Reading *)

Abbreviation BB A := (SE ByteBuffer A) (only parsing).

Definition remaining (b : ByteBuffer) : Z := len (m_data b) - m_readPos b.
Definition atEnd (b : ByteBuffer) : bool := len (m_data b) <=? m_readPos b.
Definition ensureReadable (n : Z) : BB unit :=
  r <- gets remaining ;;
  if r <? n then throw else ret tt.
Definition advance (n : Z) : BB unit :=
  modify (fun b => mkBB (m_data b) (m_readPos b + n)).
(** [m_data[m_readPos + i]]. *)
Definition peek (i : Z) : BB Z := gets (fun b => byte_at (m_data b) (m_readPos b + i)).

Definition readU8 : BB Z :=
  ensureReadable 1 ;;; v <- peek 0 ;; advance 1 ;;; ret v.
Definition readU16 : BB Z :=
  ensureReadable 2 ;;;
  b0 <- peek 0 ;; b1 <- peek 1 ;;
  advance 2 ;;; ret (Z.lor (Z.shiftl b0 8) b1).
Definition readU32 : BB Z :=
  ensureReadable 4 ;;;
  b0 <- peek 0 ;; b1 <- peek 1 ;; b2 <- peek 2 ;; b3 <- peek 3 ;;
  advance 4 ;;;
  ret (Z.lor (Z.lor (Z.lor (Z.shiftl b0 24) (Z.shiftl b1 16)) (Z.shiftl b2 8)) b3).
Definition readU64 : BB Z :=
  ensureReadable 8 ;;;
  v <- gets (fun b => fold_left (fun v i => Z.lor (Z.shiftl v 8)
                        (byte_at (m_data b) (m_readPos b + i))) [0;1;2;3;4;5;6;7] 0) ;;
  advance 8 ;;; ret v.
Definition readBytes (n : Z) : BB bytes :=
  ensureReadable n ;;;
  s <- gets (fun b => slice (m_readPos b) n (m_data b)) ;;
  advance n ;;; ret s.
(** The length prefix is consumed even when the body is too short. *)
Definition readString : BB bytes :=
  n <- readU16 ;;
  ensureReadable n ;;;
  s <- gets (fun b => slice (m_readPos b) n (m_data b)) ;;
  advance n ;;; ret s.

(** [readTrafficPolicy]: three reads in wire order, then normalisation. *)
Definition readTrafficPolicy (fallback : RoomTrafficPolicy) : BB RoomTrafficPolicy :=
  transport <- readU8 ;; fec <- readU8 ;; profile <- readU8 ;;
  ret (normalizeTrafficPolicy transport fec profile fallback).

(** Run a reader on a fresh buffer. *)
Definition bb_run {A} (m : BB A) (d : bytes) : option A := fst (m (bb_of d)).

(** ** The reader on a buffer that holds [pre ++ x ++ rest], read up to [pre] *)

Definition at_pos (pre rest : bytes) : ByteBuffer := mkBB (pre ++ rest) (len pre).

Lemma remaining_at pre rest : remaining (at_pos pre rest) = len rest.
Proof. unfold remaining, at_pos; cbn. lens. Qed.
Lemma atEnd_at pre rest : atEnd (at_pos pre rest) = bool_decide (rest = []).
Proof.
  unfold atEnd, at_pos; cbn. rewrite len_app. destruct rest; cbn.
  - rewrite len_nil. by apply Z.leb_le; lia.
  - rewrite len_cons. pose proof (len_nonneg rest). apply Z.leb_gt; lia.
Qed.
Lemma byte_at_pos pre rest i :
  0 <= i -> byte_at (pre ++ rest) (len pre + i) = byte_at rest i.
Proof.
  intros. unfold byte_at, len. rewrite !nth_lookup.
  rewrite lookup_app_r by lia. do 2 f_equal. lia.
Qed.
Lemma slice_at pre x rest : slice (len pre) (len x) (pre ++ x ++ rest) = x.
Proof. unfold slice. rewrite !len_to_nat, drop_app_length, take_app_length. done. Qed.
Lemma ensure_at n pre rest :
  ensureReadable n (at_pos pre rest) =
  ((if len rest <? n then None else Some tt), at_pos pre rest).
Proof.
  unfold ensureReadable, bind, gets. rewrite remaining_at. by destruct (_ <? _).
Qed.
Lemma advance_at pre x rest n :
  n = len x -> advance n (at_pos pre (x ++ rest)) = (Some tt, at_pos (pre ++ x) rest).
Proof.
  intros ->. unfold advance, modify, at_pos; cbn. by rewrite len_app, <- app_assoc.
Qed.
Lemma peek_at pre rest i :
  0 <= i -> peek i (at_pos pre rest) = (Some (byte_at rest i), at_pos pre rest).
Proof. intros. unfold peek, gets, at_pos. cbn [m_data m_readPos]. by rewrite byte_at_pos. Qed.

Lemma readBytes_at pre x rest :
  readBytes (len x) (at_pos pre (x ++ rest)) = (Some x, at_pos (pre ++ x) rest).
Proof.
  unfold readBytes, bind. rewrite ensure_at. pose proof (len_nonneg rest).
  rewrite (proj2 (Z.ltb_ge _ _)) by lens. cbn [gets fst snd].
  unfold gets; cbn [m_data m_readPos at_pos]. rewrite slice_at.
  by erewrite advance_at.
Qed.
Lemma readU8_at pre v rest :
  readU8 (at_pos pre (v :: rest)) = (Some v, at_pos (pre ++ [v]) rest).
Proof.
  unfold readU8, bind. rewrite ensure_at. pose proof (len_nonneg rest).
  rewrite (proj2 (Z.ltb_ge _ _)) by lens. rewrite peek_at by lia.
  by erewrite (advance_at pre [v] rest).
Qed.
Lemma readU16_at pre v rest :
  readU16 (at_pos pre (be_bytes 2 v ++ rest)) = (Some (u16 v), at_pos (pre ++ be_bytes 2 v) rest).
Proof.
  unfold readU16, bind. rewrite ensure_at. pose proof (len_nonneg rest).
  rewrite (proj2 (Z.ltb_ge _ _)) by lens. rewrite !peek_at by lia.
  erewrite advance_at by by rewrite len_be_bytes. cbn [ret]. unfold ret. do 2 f_equal.
  exact (be_value_be_bytes 2 v).
Qed.

(** The four-octet expression of the code is the base-256 value. *)
Lemma u32_expr b0 b1 b2 b3 :
  is_byte b0 -> is_byte b1 -> is_byte b2 -> is_byte b3 ->
  Z.lor (Z.lor (Z.lor (Z.shiftl b0 24) (Z.shiftl b1 16)) (Z.shiftl b2 8)) b3
  = be_value [b0; b1; b2; b3].
Proof.
  intros. unfold be_value. cbn [fold_left].
  rewrite !Z.shiftl_lor, !Z.shiftl_shiftl, Z.shiftl_0_l, Z.lor_0_l by lia. done.
Qed.
Lemma readU32_at pre v rest :
  readU32 (at_pos pre (be_bytes 4 v ++ rest)) = (Some (u32 v), at_pos (pre ++ be_bytes 4 v) rest).
Proof.
  unfold readU32, bind. rewrite ensure_at. pose proof (len_nonneg rest).
  rewrite (proj2 (Z.ltb_ge _ _)) by lens. rewrite !peek_at by lia.
  erewrite advance_at by by rewrite len_be_bytes. unfold ret. do 2 f_equal.
  change (byte_at (be_bytes 4 v ++ rest) 0) with (Z.land (Z.shiftr v 24) 255).
  change (byte_at (be_bytes 4 v ++ rest) 1) with (Z.land (Z.shiftr v 16) 255).
  change (byte_at (be_bytes 4 v ++ rest) 2) with (Z.land (Z.shiftr v 8) 255).
  change (byte_at (be_bytes 4 v ++ rest) 3) with (Z.land (Z.shiftr v 0) 255).
  rewrite u32_expr by auto with vlan. exact (be_value_be_bytes 4 v).
Qed.
Lemma readU64_at pre v rest :
  readU64 (at_pos pre (be_bytes 8 v ++ rest)) = (Some (u64 v), at_pos (pre ++ be_bytes 8 v) rest).
Proof.
  unfold readU64, bind. rewrite ensure_at. pose proof (len_nonneg rest).
  rewrite (proj2 (Z.ltb_ge _ _)) by lens. unfold gets at 1. cbn [m_data m_readPos at_pos].
  cbn [fold_left]. rewrite !byte_at_pos by lia.
  erewrite advance_at by by rewrite len_be_bytes. unfold ret. do 2 f_equal.
  exact (be_value_be_bytes 8 v).
Qed.
Lemma readString_at pre s rest :
  len s < 65536 ->
  readString (at_pos pre (be_bytes 2 (len s) ++ s ++ rest))
  = (Some s, at_pos (pre ++ be_bytes 2 (len s) ++ s) rest).
Proof.
  intros Hs. unfold readString, bind. rewrite readU16_at.
  pose proof (len_nonneg s). pose proof (len_nonneg rest).
  unfold u16. rewrite Z.mod_small by lia. rewrite ensure_at.
  rewrite (proj2 (Z.ltb_ge _ _)) by lens.
  unfold gets. cbn [m_data m_readPos at_pos]. rewrite slice_at.
  erewrite advance_at by done. by rewrite app_assoc.
Qed.

(** Writers in terms of [be_bytes]. *)
Lemma writeU16_be v d : writeU16 v d = d ++ be_bytes 2 v.
Proof. unfold writeU16. cbn [be_bytes]. by rewrite Z.shiftr_0_r. Qed.
Lemma writeU32_be v d : writeU32 v d = d ++ be_bytes 4 v.
Proof. unfold writeU32. cbn [be_bytes]. by rewrite Z.shiftr_0_r. Qed.
Lemma writeU64_be v d : writeU64 v d = d ++ be_bytes 8 v.
Proof. done. Qed.
Lemma writeString_be s d :
  len s < 65536 -> writeString s d = d ++ be_bytes 2 (len s) ++ s.
Proof.
  intros. unfold writeString. rewrite writeU16_be, <- app_assoc.
  unfold u16. rewrite Z.mod_small by (pose proof (len_nonneg s); lia). done.
Qed.
Create Rewrite HintDb wr.
#[export] Hint Rewrite writeU16_be writeU32_be writeU64_be : wr.

(** ** Properties *)

(** A message is a sequence of typed fields. *)
Inductive field :=
| FU8 (v : Z) | FU16 (v : Z) | FU32 (v : Z) | FU64 (v : Z)
| FStr (s : bytes) | FBytes (s : bytes).

Definition field_ok (f : field) : Prop :=
  match f with
  | FU8 v => is_byte v
  | FU16 v => 0 <= v < 65536
  | FU32 v => 0 <= v < 4294967296
  | FU64 v => 0 <= v < 18446744073709551616
  | FStr s => len s < 65536
  | FBytes _ => True
  end.
Definition write_field (f : field) (d : bytes) : bytes :=
  match f with
  | FU8 v => writeU8 v d | FU16 v => writeU16 v d | FU32 v => writeU32 v d
  | FU64 v => writeU64 v d | FStr s => writeString s d | FBytes s => writeBytes s d
  end.
(** Read a field of the same kind (and, for raw bytes, of the same size). *)
Definition read_field (f : field) : BB field :=
  match f with
  | FU8 _ => v <- readU8 ;; ret (FU8 v)
  | FU16 _ => v <- readU16 ;; ret (FU16 v)
  | FU32 _ => v <- readU32 ;; ret (FU32 v)
  | FU64 _ => v <- readU64 ;; ret (FU64 v)
  | FStr _ => s <- readString ;; ret (FStr s)
  | FBytes s => s <- readBytes (len s) ;; ret (FBytes s)
  end.
Definition write_fields (fs : list field) (d : bytes) : bytes :=
  fold_left (fun d f => write_field f d) fs d.
Fixpoint read_fields (fs : list field) : BB (list field) :=
  match fs with
  | [] => ret []
  | f :: fs' => x <- read_field f ;; xs <- read_fields fs' ;; ret (x :: xs)
  end.

Definition field_bytes (f : field) : bytes :=
  match f with
  | FU8 v => [v] | FU16 v => be_bytes 2 v | FU32 v => be_bytes 4 v
  | FU64 v => be_bytes 8 v | FStr s => be_bytes 2 (len s) ++ s | FBytes s => s
  end.
Definition fields_bytes (fs : list field) : bytes := concat (map field_bytes fs).

Lemma write_field_bytes f d : field_ok f -> write_field f d = d ++ field_bytes f.
Proof.
  destruct f; cbn [write_field field_bytes field_ok]; intros;
    autorewrite with wr; try done. by apply writeString_be.
Qed.
Lemma write_fields_bytes fs d :
  Forall field_ok fs -> write_fields fs d = d ++ fields_bytes fs.
Proof.
  unfold write_fields, fields_bytes. revert d.
  induction fs as [|f fs IH]; intros d Hok; cbn; [by rewrite app_nil_r|].
  inversion Hok; subst. rewrite write_field_bytes, IH, app_assoc by done. done.
Qed.
Lemma read_field_at f pre rest :
  field_ok f ->
  read_field f (at_pos pre (field_bytes f ++ rest)) = (Some f, at_pos (pre ++ field_bytes f) rest).
Proof.
  destruct f; cbn [read_field field_bytes field_ok]; intros H; unfold bind.
  - cbn [app]. by rewrite readU8_at.
  - rewrite readU16_at. unfold ret, u16. by rewrite Z.mod_small by lia.
  - rewrite readU32_at. unfold ret, u32. by rewrite Z.mod_small by lia.
  - rewrite readU64_at. unfold ret, u64. by rewrite Z.mod_small by lia.
  - rewrite <- app_assoc, readString_at by done. done.
  - by rewrite readBytes_at.
Qed.
Lemma read_fields_at fs pre rest :
  Forall field_ok fs ->
  read_fields fs (at_pos pre (fields_bytes fs ++ rest))
  = (Some fs, at_pos (pre ++ fields_bytes fs) rest).
Proof.
  unfold fields_bytes. revert pre.
  induction fs as [|f fs IH]; intros pre Hok; cbn; [by rewrite app_nil_r|].
  inversion Hok; subst. unfold bind. rewrite <- app_assoc, read_field_at by done.
  rewrite IH by done. unfold ret. by rewrite <- app_assoc.
Qed.

(** C28: Whatever sequence of in-range fields is written to a buffer, reading
    the same kinds back returns exactly those fields and ends at the end of
    the buffer. *)
Theorem byte_buffer_roundtrip fs :
  Forall field_ok fs ->
  exists b, read_fields fs (bb_of (write_fields fs [])) = (Some fs, b) /\ atEnd b = true.
Proof.
  intros Hok. rewrite write_fields_bytes by done. cbn [app].
  exists (at_pos (fields_bytes fs) []). split.
  - pose proof (read_fields_at fs [] [] Hok) as H. rewrite app_nil_r in H. exact H.
  - by rewrite atEnd_at.
Qed.
Lemma byte_buffer_roundtrip_witness :
  exists b, read_fields [FU32 70000; FStr [65; 66]; FU16 9]
              (bb_of (write_fields [FU32 70000; FStr [65; 66]; FU16 9] [])) =
            (Some [FU32 70000; FStr [65; 66]; FU16 9], b) /\ atEnd b = true.
Proof.
  apply (byte_buffer_roundtrip [FU32 70000; FStr [65; 66]; FU16 9]).
  repeat constructor; vm_compute; congruence.
Defined.

(** The read cursor never passes the end of the buffer. *)
Definition bb_inv (b : ByteBuffer) : Prop :=
  bytes_ok (m_data b) /\ 0 <= m_readPos b <= len (m_data b).

Lemma ensure_then {A} n (k : BB A) :
  0 <= n ->
  (forall b, bb_inv b -> n <= remaining b -> bb_inv (snd (k b))) ->
  keeps bb_inv (ensureReadable n ;;; k).
Proof.
  intros Hn Hk b Hb. unfold bind, ensureReadable, gets. cbn.
  unfold bind. cbn. destruct (Z.ltb_spec (remaining b) n); cbn; [exact Hb|].
  by apply Hk.
Qed.
Lemma bb_inv_advance b n :
  bb_inv b -> 0 <= n <= remaining b -> bb_inv (mkBB (m_data b) (m_readPos b + n)).
Proof. unfold bb_inv, remaining; cbn. intuition lia. Qed.

Ltac bb_keep := intros; apply ensure_then; [lia|];
  intros b ? ?; unfold bind, peek, gets, advance, modify, ret; cbn [fst snd];
  apply bb_inv_advance; [done|lia].
Lemma readU8_keeps : keeps bb_inv readU8.
Proof. unfold readU8. bb_keep. Qed.
Lemma readU16_keeps : keeps bb_inv readU16.
Proof. unfold readU16. bb_keep. Qed.
Lemma readU32_keeps : keeps bb_inv readU32.
Proof. unfold readU32. bb_keep. Qed.
Lemma readU64_keeps : keeps bb_inv readU64.
Proof. unfold readU64. bb_keep. Qed.
Lemma readBytes_keeps n : 0 <= n -> keeps bb_inv (readBytes n).
Proof. unfold readBytes. bb_keep. Qed.
#[export] Hint Resolve readU8_keeps readU16_keeps readU32_keeps readU64_keeps : vlan.

Lemma readU16_byte_range b v b' :
  bb_inv b -> readU16 b = (Some v, b') -> 0 <= v < 65536.
Proof.
  intros [Hok _]. unfold readU16, bind, ensureReadable, bind, gets, peek, gets, advance, modify, ret.
  cbn. destruct (_ <? _); cbn; [done|]. intros [= <- _].
  rewrite lor_shiftl_byte by auto with vlan.
  pose proof (byte_at_ok (m_data b) (m_readPos b + 0) Hok).
  pose proof (byte_at_ok (m_data b) (m_readPos b + 1) Hok). unfold is_byte in *. lia.
Qed.
Lemma readString_keeps : keeps bb_inv readString.
Proof.
  intros b Hb. unfold readString, bind. pose proof (readU16_keeps b Hb) as Hb'.
  destruct (readU16 b) as [[n|] b1] eqn:E; [|exact Hb'].
  pose proof (readU16_byte_range b n b1 Hb E).
  apply (ensure_then n (s <- gets _ ;; advance n ;;; ret s)); [lia| |done].
  intros; cbn. apply bb_inv_advance; [done|lia].
Qed.

(** Every reader, whether it returns a value or throws, leaves the cursor
    within the buffer: no read of any kind goes past the end. *)
Theorem byte_buffer_reads_in_bounds fs d :
  bytes_ok d ->
  let b := snd (read_fields fs (bb_of d)) in
  m_data b = d /\ 0 <= m_readPos b <= len d.
Proof.
  intros Hd.
  assert (bb_inv (bb_of d)) as H0.
  { split; [done|]. cbn. pose proof (len_nonneg d). lia. }
  assert (forall f, keeps bb_inv (read_field f)) as Hf.
  { intros f. destruct f; cbn [read_field]; apply keeps_bind; auto with vlan.
    - apply readString_keeps.
    - apply readBytes_keeps, len_nonneg. }
  assert (keeps bb_inv (read_fields fs)) as Hk.
  { clear H0. induction fs; cbn [read_fields]; auto 6 with vlan. }
  assert (forall f, keeps (fun b => m_data b = d) (read_field f)) as Gf.
  { intros f. destruct f;
      cbn [read_field]; unfold readU8, readU16, readU32, readU64, readString, readBytes,
        readU16, peek, ensureReadable, advance; walk; apply keeps_modify; by intros []. }
  assert (keeps (fun b => m_data b = d) (read_fields fs)) as Gk.
  { clear H0 Hk. induction fs; cbn [read_fields]; auto 6 with vlan. }
  cbn zeta. specialize (Hk _ H0). specialize (Gk (bb_of d) eq_refl). cbn beta in Gk.
  destruct Hk as [_ Hk]. rewrite Gk in Hk. done.
Qed.
Lemma byte_buffer_reads_in_bounds_witness :
  m_data (snd (read_fields [FU8 0; FStr []] (bb_of [1; 0; 9]))) = [1; 0; 9] /\
  0 <= m_readPos (snd (read_fields [FU8 0; FStr []] (bb_of [1; 0; 9]))) <= 3.
Proof.
  apply (byte_buffer_reads_in_bounds [FU8 0; FStr []] [1; 0; 9]).
  repeat constructor; vm_compute; congruence.
Defined.

(** ** Reading back what a writer wrote

    [reads m x a]: on a buffer that continues with [x], the reader [m]
    consumes exactly [x] and returns [a].  One rule per reader of
    [common/byte_buffer.h], closed under sequencing; the hint database [rd]
    runs them. *)

Definition reads {A} (m : SE ByteBuffer A) (x : bytes) (a : A) : Prop :=
  forall pre rest, m (at_pos pre (x ++ rest)) = (Some a, at_pos (pre ++ x) rest).

Lemma reads_ret {A} (a : A) : reads (ret a) [] a.
Proof. intros pre rest. unfold ret. by rewrite app_nil_r. Qed.
Lemma reads_bind {A B} (m : SE ByteBuffer A) (k : A -> SE ByteBuffer B) x y a b :
  reads m x a -> reads (k a) y b -> reads (bind m k) (x ++ y) b.
Proof.
  intros Hm Hk pre rest. rewrite <- app_assoc. unfold bind. rewrite Hm, Hk. by rewrite app_assoc.
Qed.
Lemma reads_last {A B} (m : SE ByteBuffer A) (k : A -> SE ByteBuffer B) x a b :
  reads m x a -> reads (k a) [] b -> reads (bind m k) x b.
Proof. intros Hm Hk. rewrite <- (app_nil_r x). by eapply reads_bind. Qed.
Lemma reads_if {A} (b : bool) (m1 m2 : SE ByteBuffer A) x a :
  (if b then reads m1 x a else reads m2 x a) -> reads (if b then m1 else m2) x a.
Proof. by destruct b. Qed.

Lemma reads_u8 v : reads readU8 [v] v.
Proof. intros pre rest. apply readU8_at. Qed.
Lemma reads_u16 v : reads readU16 (be_bytes 2 v) (u16 v).
Proof. intros pre rest. apply readU16_at. Qed.
Lemma reads_u32 v : reads readU32 (be_bytes 4 v) (u32 v).
Proof. intros pre rest. apply readU32_at. Qed.
Lemma reads_u64 v : reads readU64 (be_bytes 8 v) (u64 v).
Proof. intros pre rest. apply readU64_at. Qed.
Lemma reads_bytes x n : n = len x -> reads (readBytes n) x x.
Proof. intros -> pre rest. apply readBytes_at. Qed.
Lemma reads_string s : len s < 65536 -> reads readString (be_bytes 2 (len s) ++ s) s.
Proof. intros Hs pre rest. rewrite <- app_assoc. by apply readString_at. Qed.
Lemma reads_policy p fb :
  policy_wf p -> reads (readTrafficPolicy fb)
    ([TransportMode_u8 (transportMode p)] ++ [FecMode_u8 (fecMode p)] ++ [KcpProfile_u8 (kcpProfile p)]) p.
Proof.
  intros Hp. unfold readTrafficPolicy.
  eapply reads_bind; [apply reads_u8|]. eapply reads_bind; [apply reads_u8|].
  eapply reads_last; [apply reads_u8|]. rewrite policy_octets_roundtrip by done. apply reads_ret.
Qed.

Create HintDb rd.
#[export] Hint Resolve reads_ret reads_u8 reads_u16 reads_u32 reads_u64 reads_string reads_policy : rd.
(** Walk a reader along the fields of a concatenation. *)
Ltac rd :=
  repeat match goal with
  | |- reads (bind _ _) (_ ++ _) _ => eapply reads_bind; [solve [eauto with rd]|]; cbv beta
  | |- reads (bind _ _) _ _ => eapply reads_last; [solve [eauto with rd]|]; cbv beta
  | |- reads (ret _) [] _ => apply reads_ret
  end.
