(* ===== verification/Room.v ===== *)
(** * [server/src/room.h]

    The session state machine's message table, the session indexes, rooms
    with their leases, and the room registry.  A [Room*] or [RoomLease*] of
    the code is a room id or a peer id here; an update through the pointer is
    an update of the registry at that id.  [time(nullptr)] is an argument. *)

From S2P Require Import Prelude Protocol.

(** ** Ordered iteration over [std::map] and [std::set] *)

Definition key_le {A} (x y : Z * A) : Prop := x.1 <= y.1.
#[export] Instance key_le_dec {A} (x y : Z * A) : Decision (key_le x y).
Proof. unfold key_le. apply _. Defined.
(** The pairs of a [std::map<uint32_t, A>] in key order. *)
Definition map_ordered {A} (m : gmap Z A) : list (Z * A) :=
  merge_sort key_le (map_to_list m).
(** [*s.begin()] of a [std::set<uint32_t>]. *)
Definition set_begin (s : gset Z) : option Z := head (merge_sort Z.le (elements s)).

(** ** Sessions *)

Inductive SessionState :=
| AwaitHello | AwaitServerAuth | AwaitLogin | LoggedIn
| AwaitRoomPassword | ResumePending | InRoom | Closing.
#[export] Instance SessionState_eq_dec : EqDecision SessionState.
Proof. solve_decision. Defined.

Definition sessionHasPeerIdentity (state : SessionState) : bool :=
  match state with
  | LoggedIn | AwaitRoomPassword | ResumePending | InRoom => true
  | _ => false
  end.
Definition sessionCanBindDataChannel (state : SessionState) : bool :=
  sessionHasPeerIdentity state.

Definition isClientHandshakeMessage (msgType : Z) : bool :=
  (msgType =? MSG_CLIENT_HELLO) || (msgType =? MSG_SERVER_AUTH) || (msgType =? MSG_LOGIN).

Definition isKnownClientSignalMessage (msgType : Z) : bool :=
  existsb (Z.eqb msgType)
    [MSG_CLIENT_HELLO; MSG_SERVER_AUTH; MSG_LOGIN; MSG_CREATE_ROOM; MSG_JOIN_ROOM;
     MSG_RESUME_ROOM; MSG_LEAVE_ROOM; MSG_LOGOUT; MSG_LIST_ROOMS; MSG_REQUEST_RELAY;
     MSG_AUTH_RESPONSE; MSG_PING; MSG_TCP_RELAY_DATA; MSG_ENCRYPTED].

Inductive SessionMessageAction := Dispatch | SendStateError | Close | IgnoreUnknown.
#[export] Instance SessionMessageAction_eq_dec : EqDecision SessionMessageAction.
Proof. solve_decision. Defined.

Definition isClientSignalMessageAllowed (state : SessionState) (msgType : Z) : bool :=
  match state with
  | AwaitHello => msgType =? MSG_CLIENT_HELLO
  | AwaitServerAuth => msgType =? MSG_SERVER_AUTH
  | AwaitLogin => (msgType =? MSG_LOGIN) || (msgType =? MSG_PING)
  | LoggedIn => (msgType =? MSG_CREATE_ROOM) || (msgType =? MSG_JOIN_ROOM) ||
                (msgType =? MSG_LIST_ROOMS) || (msgType =? MSG_LOGOUT) ||
                (msgType =? MSG_PING)
  | AwaitRoomPassword => (msgType =? MSG_AUTH_RESPONSE) || (msgType =? MSG_LIST_ROOMS) ||
                         (msgType =? MSG_LOGOUT) || (msgType =? MSG_PING)
  | ResumePending => (msgType =? MSG_RESUME_ROOM) || (msgType =? MSG_LIST_ROOMS) ||
                     (msgType =? MSG_LOGOUT) || (msgType =? MSG_PING)
  | InRoom => (msgType =? MSG_LEAVE_ROOM) || (msgType =? MSG_LOGOUT) ||
              (msgType =? MSG_LIST_ROOMS) || (msgType =? MSG_REQUEST_RELAY) ||
              (msgType =? MSG_PING) || (msgType =? MSG_TCP_RELAY_DATA)
  | Closing => false
  end.

Definition classifyClientSignalMessage (state : SessionState) (msgType : Z)
    : SessionMessageAction :=
  if negb (isKnownClientSignalMessage msgType) then IgnoreUnknown else
  if isClientSignalMessageAllowed state msgType then Dispatch else
  if isClientHandshakeMessage msgType then Close else SendStateError.

(** [bindUniqueSessionIndex] / [unbindSessionIndex] on an index map. *)
Definition bindUniqueSessionIndex (index : gmap Z Z) (key signalFd : Z) : bool * gmap Z Z :=
  match index !! key with
  | Some fd => if fd =? signalFd then (true, <[key := signalFd]> index) else (false, index)
  | None => (true, <[key := signalFd]> index)
  end.
Definition unbindSessionIndex (index : gmap Z Z) (key signalFd : Z) : gmap Z Z :=
  match index !! key with
  | Some fd => if fd =? signalFd then delete key index else index
  | None => index
  end.

(** ** Rooms and leases *)

Record RoomLease := mkLease {
  l_peerId : Z;
  l_virtualIP : Z;
  l_name : bytes;
  l_token : bytes;
  l_online : bool;
  l_offlineSince : Z;
  l_expiresAt : Z
}.
Definition set_l_peerId (v : Z) (l : RoomLease) : RoomLease :=
  mkLease v l.(l_virtualIP) l.(l_name) l.(l_token) l.(l_online) l.(l_offlineSince)
    l.(l_expiresAt).
Definition set_l_virtualIP (v : Z) (l : RoomLease) : RoomLease :=
  mkLease l.(l_peerId) v l.(l_name) l.(l_token) l.(l_online) l.(l_offlineSince)
    l.(l_expiresAt).
Definition set_l_name (v : bytes) (l : RoomLease) : RoomLease :=
  mkLease l.(l_peerId) l.(l_virtualIP) v l.(l_token) l.(l_online) l.(l_offlineSince)
    l.(l_expiresAt).
Definition set_l_token (v : bytes) (l : RoomLease) : RoomLease :=
  mkLease l.(l_peerId) l.(l_virtualIP) l.(l_name) v l.(l_online) l.(l_offlineSince)
    l.(l_expiresAt).
Definition set_l_online (v : bool) (l : RoomLease) : RoomLease :=
  mkLease l.(l_peerId) l.(l_virtualIP) l.(l_name) l.(l_token) v l.(l_offlineSince)
    l.(l_expiresAt).
Definition set_l_offlineSince (v : Z) (l : RoomLease) : RoomLease :=
  mkLease l.(l_peerId) l.(l_virtualIP) l.(l_name) l.(l_token) l.(l_online) v l.(l_expiresAt).
Definition set_l_expiresAt (v : Z) (l : RoomLease) : RoomLease :=
  mkLease l.(l_peerId) l.(l_virtualIP) l.(l_name) l.(l_token) l.(l_online)
    l.(l_offlineSince) v.
Definition RoomLease_init : RoomLease :=
  mkLease 0 0 [] (replicate 32 0) false 0 0.

Record Room := mkRoom {
  r_id : Z;
  r_name : bytes;
  r_hostPeerId : Z;
  r_leases : list RoomLease;
  r_maxPlayers : Z;
  r_tcpPolicy : RoomTrafficPolicy;
  r_udpPolicy : RoomTrafficPolicy;
  r_mtu : Z;
  r_passwordProtected : Z;
  r_passwordHash : bytes;
  r_passwordSalt : bytes;
  r_emptyTimestamp : Z
}.
Definition set_r_id (v : Z) (r : Room) : Room :=
  mkRoom v r.(r_name) r.(r_hostPeerId) r.(r_leases) r.(r_maxPlayers) r.(r_tcpPolicy)
    r.(r_udpPolicy) r.(r_mtu) r.(r_passwordProtected) r.(r_passwordHash) r.(r_passwordSalt)
    r.(r_emptyTimestamp).
Definition set_r_name (v : bytes) (r : Room) : Room :=
  mkRoom r.(r_id) v r.(r_hostPeerId) r.(r_leases) r.(r_maxPlayers) r.(r_tcpPolicy)
    r.(r_udpPolicy) r.(r_mtu) r.(r_passwordProtected) r.(r_passwordHash) r.(r_passwordSalt)
    r.(r_emptyTimestamp).
Definition set_r_hostPeerId (v : Z) (r : Room) : Room :=
  mkRoom r.(r_id) r.(r_name) v r.(r_leases) r.(r_maxPlayers) r.(r_tcpPolicy) r.(r_udpPolicy)
    r.(r_mtu) r.(r_passwordProtected) r.(r_passwordHash) r.(r_passwordSalt)
    r.(r_emptyTimestamp).
Definition set_r_leases (v : list RoomLease) (r : Room) : Room :=
  mkRoom r.(r_id) r.(r_name) r.(r_hostPeerId) v r.(r_maxPlayers) r.(r_tcpPolicy)
    r.(r_udpPolicy) r.(r_mtu) r.(r_passwordProtected) r.(r_passwordHash) r.(r_passwordSalt)
    r.(r_emptyTimestamp).
Definition set_r_maxPlayers (v : Z) (r : Room) : Room :=
  mkRoom r.(r_id) r.(r_name) r.(r_hostPeerId) r.(r_leases) v r.(r_tcpPolicy) r.(r_udpPolicy)
    r.(r_mtu) r.(r_passwordProtected) r.(r_passwordHash) r.(r_passwordSalt)
    r.(r_emptyTimestamp).
Definition set_r_tcpPolicy (v : RoomTrafficPolicy) (r : Room) : Room :=
  mkRoom r.(r_id) r.(r_name) r.(r_hostPeerId) r.(r_leases) r.(r_maxPlayers) v
    r.(r_udpPolicy) r.(r_mtu) r.(r_passwordProtected) r.(r_passwordHash) r.(r_passwordSalt)
    r.(r_emptyTimestamp).
Definition set_r_udpPolicy (v : RoomTrafficPolicy) (r : Room) : Room :=
  mkRoom r.(r_id) r.(r_name) r.(r_hostPeerId) r.(r_leases) r.(r_maxPlayers) r.(r_tcpPolicy)
    v r.(r_mtu) r.(r_passwordProtected) r.(r_passwordHash) r.(r_passwordSalt)
    r.(r_emptyTimestamp).
Definition set_r_mtu (v : Z) (r : Room) : Room :=
  mkRoom r.(r_id) r.(r_name) r.(r_hostPeerId) r.(r_leases) r.(r_maxPlayers) r.(r_tcpPolicy)
    r.(r_udpPolicy) v r.(r_passwordProtected) r.(r_passwordHash) r.(r_passwordSalt)
    r.(r_emptyTimestamp).
Definition set_r_passwordProtected (v : Z) (r : Room) : Room :=
  mkRoom r.(r_id) r.(r_name) r.(r_hostPeerId) r.(r_leases) r.(r_maxPlayers) r.(r_tcpPolicy)
    r.(r_udpPolicy) r.(r_mtu) v r.(r_passwordHash) r.(r_passwordSalt) r.(r_emptyTimestamp).
Definition set_r_passwordHash (v : bytes) (r : Room) : Room :=
  mkRoom r.(r_id) r.(r_name) r.(r_hostPeerId) r.(r_leases) r.(r_maxPlayers) r.(r_tcpPolicy)
    r.(r_udpPolicy) r.(r_mtu) r.(r_passwordProtected) v r.(r_passwordSalt)
    r.(r_emptyTimestamp).
Definition set_r_passwordSalt (v : bytes) (r : Room) : Room :=
  mkRoom r.(r_id) r.(r_name) r.(r_hostPeerId) r.(r_leases) r.(r_maxPlayers) r.(r_tcpPolicy)
    r.(r_udpPolicy) r.(r_mtu) r.(r_passwordProtected) r.(r_passwordHash) v
    r.(r_emptyTimestamp).
Definition set_r_emptyTimestamp (v : Z) (r : Room) : Room :=
  mkRoom r.(r_id) r.(r_name) r.(r_hostPeerId) r.(r_leases) r.(r_maxPlayers) r.(r_tcpPolicy)
    r.(r_udpPolicy) r.(r_mtu) r.(r_passwordProtected) r.(r_passwordHash) r.(r_passwordSalt)
    v.
(** [Room()]. *)
Definition Room_init : Room :=
  mkRoom 0 [] 0 [] MAX_PLAYERS makeDefaultTcpPolicy makeDefaultUdpPolicy ROOM_MTU_DEFAULT
    0 (replicate 32 0) (replicate 16 0) 0.

Definition hasVirtualIP (r : Room) (ip : Z) : bool :=
  existsb (fun l => l_virtualIP l =? ip) (r_leases r).

(** [for (suffix = first; suffix <= last; ++suffix)]: the first free address. *)
Fixpoint first_free_ip (r : Room) (suffixes : list Z) : Z :=
  match suffixes with
  | [] => 0
  | suffix :: rest =>
      let ip := Z.lor VNET_SUBNET suffix in
      if negb (hasVirtualIP r ip) then ip else first_free_ip r rest
  end.
Definition vnet_suffixes : list Z :=
  seqZ VNET_FIRST_HOST_SUFFIX (VNET_LAST_HOST_SUFFIX - VNET_FIRST_HOST_SUFFIX + 1).
Definition allocateVirtualIP (r : Room) : Z := first_free_ip r vnet_suffixes.

Definition isFull (r : Room) : bool := r_maxPlayers r <=? len (r_leases r).

Fixpoint find_lease (peerId : Z) (ls : list RoomLease) : option RoomLease :=
  match ls with
  | [] => None
  | l :: rest => if l_peerId l =? peerId then Some l else find_lease peerId rest
  end.
Definition leaseByPeerId (r : Room) (peerId : Z) : option RoomLease :=
  find_lease peerId (r_leases r).
Definition hasLease (r : Room) (peerId : Z) : bool :=
  match leaseByPeerId r peerId with Some _ => true | None => false end.

(** Write through the pointer [leaseByPeerId(peerId)]. *)
Fixpoint alter_lease (peerId : Z) (f : RoomLease -> RoomLease) (ls : list RoomLease)
    : list RoomLease :=
  match ls with
  | [] => []
  | l :: rest => if l_peerId l =? peerId then f l :: rest else l :: alter_lease peerId f rest
  end.
Fixpoint erase_lease (peerId : Z) (ls : list RoomLease) : list RoomLease :=
  match ls with
  | [] => []
  | l :: rest => if l_peerId l =? peerId then rest else l :: erase_lease peerId rest
  end.

Definition ensureHost (r : Room) : Room :=
  match r_leases r with
  | [] => set_r_hostPeerId 0 r
  | front :: _ =>
      match leaseByPeerId r (r_hostPeerId r) with
      | Some _ => r
      | None =>
          match List.find l_online (r_leases r) with
          | Some l => set_r_hostPeerId (l_peerId l) r
          | None => set_r_hostPeerId (l_peerId front) r
          end
      end
  end.

(** [addLease]: [None] for the null pointer, else the new lease and the room. *)
Definition addLease (r : Room) (peerId : Z) (peerName : bytes) (token : option bytes)
    : option (RoomLease * Room) :=
  if isFull r || hasLease r peerId then None else
  let ip := allocateVirtualIP r in
  if ip =? 0 then None else
  let lease := mkLease peerId ip peerName
                 (match token with Some t => t | None => l_token RoomLease_init end)
                 true 0 0 in
  let r := set_r_leases (r_leases r ++ [lease]) r in
  let r := set_r_emptyTimestamp 0 r in
  Some (lease, ensureHost r).

Definition removeLease (now : Z) (r : Room) (peerId : Z) : bool * Room :=
  if hasLease r peerId then
    let r := set_r_leases (erase_lease peerId (r_leases r)) r in
    let r := if len (r_leases r) =? 0 then set_r_emptyTimestamp now r else r in
    (true, ensureHost r)
  else (false, r).

Definition lease_offline (now : Z) (l : RoomLease) : RoomLease :=
  set_l_expiresAt (now + RECONNECT_LEASE_TIMEOUT_SEC)
    (set_l_offlineSince now (set_l_online false l)).
Definition lease_online (l : RoomLease) : RoomLease :=
  set_l_expiresAt 0 (set_l_offlineSince 0 (set_l_online true l)).

Definition markLeaseOffline (r : Room) (peerId now : Z) : bool * Room :=
  if hasLease r peerId
  then (true, set_r_leases (alter_lease peerId (lease_offline now) (r_leases r)) r)
  else (false, r).
Definition markLeaseOnline (r : Room) (peerId : Z) : bool * Room :=
  if hasLease r peerId
  then (true, ensureHost (set_r_leases (alter_lease peerId lease_online (r_leases r)) r))
  else (false, r).

Definition peerIds (r : Room) : list Z := map l_peerId (r_leases r).

(** ** The registry [class RoomManager] *)

Record RoomManager := mkRooms {
  m_rooms : gmap Z Room;
  m_freeRoomIds : gset Z;
  m_nextRoomId : Z
}.
Definition RoomManager_init : RoomManager := mkRooms ∅ ∅ 1.

Definition allocateRoomId (m : RoomManager) : Z * RoomManager :=
  match set_begin (m_freeRoomIds m) with
  | Some id => (id, mkRooms (m_rooms m) (m_freeRoomIds m ∖ {[id]}) (m_nextRoomId m))
  | None => (m_nextRoomId m, mkRooms (m_rooms m) (m_freeRoomIds m) (u32 (m_nextRoomId m + 1)))
  end.

Definition createRoom (m : RoomManager) (name : bytes) (hostPeerId maxPlayers : Z)
    (tcpPolicy udpPolicy : RoomTrafficPolicy) (mtu passwordProtected : Z)
    (pwdHash pwdSalt : bytes) : Z * RoomManager :=
  let '(rid, m) := allocateRoomId m in
  let hash := if negb (passwordProtected =? 0) then pwdHash else r_passwordHash Room_init in
  let salt := if negb (passwordProtected =? 0) then pwdSalt else r_passwordSalt Room_init in
  let r := mkRoom rid name hostPeerId [] maxPlayers tcpPolicy udpPolicy (normalizeRoomMtu mtu)
             passwordProtected hash salt 0 in
  (rid, mkRooms (<[rid := r]> (m_rooms m)) (m_freeRoomIds m) (m_nextRoomId m)).

Definition getRoom (m : RoomManager) (roomId : Z) : option Room := m_rooms m !! roomId.

(** Write through a [Room*]. *)
Definition alterRoom (roomId : Z) (f : Room -> Room) (m : RoomManager) : RoomManager :=
  mkRooms (alter f roomId (m_rooms m)) (m_freeRoomIds m) (m_nextRoomId m).

Definition rm_ensureHost (m : RoomManager) (roomId : Z) : RoomManager :=
  match getRoom m roomId with
  | Some _ => alterRoom roomId ensureHost m
  | None => m
  end.

Definition eraseRoom (m : RoomManager) (roomId : Z) : RoomManager :=
  match getRoom m roomId with
  | None => m
  | Some _ =>
      mkRooms (delete roomId (m_rooms m))
        (if negb (roomId =? 0) then {[roomId]} ∪ m_freeRoomIds m else m_freeRoomIds m)
        (m_nextRoomId m)
  end.

Definition room_empty (r : Room) : bool := len (r_leases r) =? 0.
(** One turn of the loop of [cleanupEmptyRooms]: a room without leases is
    erased and its id freed. *)
Definition drop_empty (acc : bool * RoomManager) (kv : Z * Room) : bool * RoomManager :=
  let '(changed, m) := acc in
  let '(rid, r) := kv in
  if room_empty r
  then (true, mkRooms (delete rid (m_rooms m)) ({[rid]} ∪ m_freeRoomIds m) (m_nextRoomId m))
  else (changed, m).
Definition cleanupEmptyRooms (m : RoomManager) : bool * RoomManager :=
  fold_left drop_empty (map_ordered (m_rooms m)) (false, m).

Definition listRooms (m : RoomManager) : list Z := map fst (map_ordered (m_rooms m)).
Definition rm_size (m : RoomManager) : Z := Z.of_nat (size (m_rooms m)).
