(* ===== verification/RoomFacts.v ===== *)
(** * What [server/src/room.h] guarantees

    Well-formedness of rooms and of the registry, kept by every operation;
    the address and identifier allocators against their specifications
    (least unused value); the session message table. *)

From S2P Require Import Prelude Protocol Room.

(** ** Ordered maps and sets *)

Lemma map_ordered_perm {A} (m : gmap Z A) : map_ordered m ≡ₚ map_to_list m.
Proof. apply merge_sort_Permutation. Qed.
Lemma elem_of_map_ordered {A} (m : gmap Z A) k x :
  (k, x) ∈ map_ordered m <-> m !! k = Some x.
Proof. rewrite map_ordered_perm. apply elem_of_map_to_list. Qed.
Lemma NoDup_map_ordered_keys {A} (m : gmap Z A) : NoDup (map_ordered m).*1.
Proof. rewrite map_ordered_perm. apply NoDup_fst_map_to_list. Qed.

#[export] Instance Zle_total' : Total Z.le.
Proof. intros x y. lia. Qed.

Lemma set_begin_None (s : gset Z) : set_begin s = None -> s = ∅.
Proof.
  unfold set_begin. intros H. apply leibniz_equiv, elements_empty_inv.
  assert (merge_sort Z.le (elements s) = []) as E by (by destruct merge_sort).
  apply Permutation_nil. rewrite <- E. apply merge_sort_Permutation.
Qed.
(** [*s.begin()] is the least element. *)
Lemma set_begin_Some (s : gset Z) x :
  set_begin s = Some x -> x ∈ s /\ forall y, y ∈ s -> x <= y.
Proof.
  unfold set_begin. intros H.
  pose proof (merge_sort_Permutation Z.le (elements s)) as Hp.
  pose proof (Sorted_merge_sort Z.le (elements s)) as Hs.
  destruct (merge_sort Z.le (elements s)) as [|a l] eqn:E; [done|].
  injection H as ->. apply Sorted_StronglySorted in Hs; [|intros ???; lia].
  apply StronglySorted_inv in Hs as [_ Hall]. rewrite Forall_forall in Hall.
  assert (forall y, y ∈ s <-> y = x \/ y ∈ l) as Hin.
  { intros y. rewrite <- elem_of_elements, <- Hp. apply elem_of_cons. }
  split; [apply Hin; by left|].
  intros y [->|Hy]%Hin; [lia|]. by apply Hall.
Qed.

(** ** Leases *)

Lemma find_lease_Some pid ls l :
  find_lease pid ls = Some l -> l ∈ ls /\ l_peerId l = pid.
Proof.
  induction ls as [|x ls IH]; simpl; [done|].
  destruct (Z.eqb_spec (l_peerId x) pid); intros H.
  - injection H as ->. split; [left|done].
  - destruct (IH H). split; [by right|done].
Qed.
Lemma find_lease_None pid ls :
  find_lease pid ls = None <-> pid ∉ map l_peerId ls.
Proof.
  induction ls as [|x ls IH]; simpl; [split; [intros _; apply not_elem_of_nil|done]|].
  rewrite not_elem_of_cons. destruct (Z.eqb_spec (l_peerId x) pid).
  - split; [done|]. intros [? ?]. congruence.
  - rewrite IH. split; [intros; split; [congruence|done]|tauto].
Qed.
Lemma find_lease_unique pid ls l :
  NoDup (map l_peerId ls) -> l ∈ ls -> l_peerId l = pid -> find_lease pid ls = Some l.
Proof.
  intros Hnd Hin <-. induction ls as [|x ls IH]; [by apply not_elem_of_nil in Hin|].
  simpl in *. apply NoDup_cons in Hnd as [Hx Hnd].
  apply elem_of_cons in Hin as [->|Hin]; [by rewrite Z.eqb_refl|].
  destruct (Z.eqb_spec (l_peerId x) (l_peerId l)) as [E|]; [|by apply IH].
  exfalso. apply Hx. rewrite E. apply list_elem_of_fmap. by exists l.
Qed.
Lemma hasLease_spec r pid : hasLease r pid = true <-> pid ∈ peerIds r.
Proof.
  unfold hasLease, leaseByPeerId, peerIds.
  destruct (find_lease pid (r_leases r)) as [l|] eqn:E.
  - split; [intros _|done]. apply find_lease_Some in E as [Hin <-].
    apply list_elem_of_fmap. by exists l.
  - split; [done|]. by apply find_lease_None in E.
Qed.

(** A change that keeps the peer id and the address of a lease. *)
Definition same_key (f : RoomLease -> RoomLease) : Prop :=
  forall l, l_peerId (f l) = l_peerId l /\ l_virtualIP (f l) = l_virtualIP l.
Lemma same_key_offline t : same_key (lease_offline t).
Proof. by intros []. Qed.
Lemma same_key_online : same_key lease_online.
Proof. by intros []. Qed.

Definition lease_keys (ls : list RoomLease) : list (Z * Z) :=
  map (fun l => (l_peerId l, l_virtualIP l)) ls.
Lemma lease_keys_ids ls : map l_peerId ls = (lease_keys ls).*1.
Proof. unfold lease_keys. induction ls; [done|]. simpl. by f_equal. Qed.
Lemma lease_keys_ips ls : map l_virtualIP ls = (lease_keys ls).*2.
Proof. unfold lease_keys. induction ls; [done|]. simpl. by f_equal. Qed.
Lemma alter_lease_keys pid f ls :
  same_key f -> lease_keys (alter_lease pid f ls) = lease_keys ls.
Proof.
  intros Hf. induction ls as [|l ls IH]; simpl; [done|].
  destruct (l_peerId l =? pid); simpl; [|by f_equal].
  destruct (Hf l) as [-> ->]. done.
Qed.
Lemma alter_nth_keys i f ls :
  same_key f -> lease_keys (alter f i ls) = lease_keys ls.
Proof.
  intros Hf. unfold lease_keys. revert i.
  induction ls as [|l ls IH]; intros [|i]; simpl; [done..| |].
  - destruct (Hf l) as [-> ->]. done.
  - f_equal. apply IH.
Qed.
Lemma erase_lease_sub pid ls : erase_lease pid ls `sublist_of` ls.
Proof.
  induction ls as [|l ls IH]; simpl; [done|].
  destruct (l_peerId l =? pid); [by apply sublist_cons|by apply sublist_skip].
Qed.
Lemma erase_lease_not_in pid ls :
  NoDup (map l_peerId ls) -> pid ∉ map l_peerId (erase_lease pid ls).
Proof.
  induction ls as [|l ls IH]; simpl; [intros _; apply not_elem_of_nil|].
  intros [Hl Hnd]%NoDup_cons. destruct (Z.eqb_spec (l_peerId l) pid) as [<-|].
  - exact Hl.
  - simpl. rewrite not_elem_of_cons. split; [congruence|by apply IH].
Qed.
Lemma erase_lease_other pid q ls :
  q <> pid -> q ∈ map l_peerId (erase_lease pid ls) <-> q ∈ map l_peerId ls.
Proof.
  intros Hq. induction ls as [|l ls IH]; simpl; [done|].
  destruct (Z.eqb_spec (l_peerId l) pid) as [E|]; simpl; rewrite !elem_of_cons.
  - rewrite E. split; [tauto|]. intros [?|?]; [congruence|done].
  - by rewrite IH.
Qed.

(** ** Addresses *)

Definition vnet_hosts : list Z := map (Z.lor VNET_SUBNET) vnet_suffixes.

Lemma hasVirtualIP_spec r ip : hasVirtualIP r ip = true <-> ip ∈ map l_virtualIP (r_leases r).
Proof.
  unfold hasVirtualIP. rewrite existsb_exists, list_elem_of_fmap. split.
  - intros (l & Hl & E). apply Z.eqb_eq in E. exists l.
    split; [done|by apply list_elem_of_In].
  - intros (l & E & Hl). exists l. split; [by apply list_elem_of_In|]. by apply Z.eqb_eq.
Qed.
Lemma vnet_hosts_NoDup : NoDup vnet_hosts.
Proof. apply (bool_decide_unpack _). by vm_compute. Qed.
Lemma vnet_hosts_sorted : StronglySorted Z.lt vnet_hosts.
Proof.
  apply Sorted_StronglySorted; [intros ???; lia|].
  apply (bool_decide_unpack _). by vm_compute.
Qed.
Lemma vnet_hosts_nonzero : 0 ∉ vnet_hosts.
Proof. apply (bool_decide_unpack _). by vm_compute. Qed.

(** The scan stops at the first unused address; 0 means all are used. *)
Lemma first_free_ip_spec r ss :
  0 ∉ map (Z.lor VNET_SUBNET) ss ->
  (first_free_ip r ss = 0 /\
   Forall (fun ip => ip ∈ map l_virtualIP (r_leases r)) (map (Z.lor VNET_SUBNET) ss)) \/
  (exists pre s post, ss = pre ++ s :: post /\
     first_free_ip r ss = Z.lor VNET_SUBNET s /\
     (Z.lor VNET_SUBNET s ∉ map l_virtualIP (r_leases r)) /\
     Forall (fun ip => ip ∈ map l_virtualIP (r_leases r)) (map (Z.lor VNET_SUBNET) pre)).
Proof.
  induction ss as [|s ss IH]; intros H0.
  { left. split; [done|constructor]. }
  cbn [map] in H0. apply not_elem_of_cons in H0 as [Hs0 H0]. cbn [first_free_ip map].
  destruct (hasVirtualIP r (Z.lor VNET_SUBNET s)) eqn:E; cbn [negb].
  - apply hasVirtualIP_spec in E. destruct (IH H0) as [[-> Hall]|(pre & x & post & -> & -> & Hx & Hall)].
    + left. split; [done|by constructor].
    + right. exists (s :: pre), x, post. split; [done|]. split; [done|].
      split; [done|]. cbn. by constructor.
  - right. exists [], s, ss. split; [done|]. split; [done|]. split; [|constructor].
    intros Hin%hasVirtualIP_spec. congruence.
Qed.

Lemma allocateVirtualIP_free r :
  allocateVirtualIP r <> 0 ->
  allocateVirtualIP r ∈ vnet_hosts /\
  (allocateVirtualIP r ∉ map l_virtualIP (r_leases r)) /\
  forall ip, ip ∈ vnet_hosts -> ip < allocateVirtualIP r -> ip ∈ map l_virtualIP (r_leases r).
Proof.
  intros Hne. unfold allocateVirtualIP in *.
  destruct (first_free_ip_spec r vnet_suffixes vnet_hosts_nonzero)
    as [[E _]|(pre & s & post & Hss & E & Hfree & Hall)]; [done|].
  rewrite E. pose proof vnet_hosts_sorted as Hsort.
  unfold vnet_hosts in *. rewrite Hss, map_app in *. cbn [map] in *.
  split; [apply elem_of_app; right; left|]. split; [done|].
  intros ip [Hin|Hin]%elem_of_app Hlt.
  { rewrite Forall_forall in Hall. by apply Hall. }
  apply elem_of_cons in Hin as [->|Hin]; [lia|].
  apply StronglySorted_app_1_r in Hsort.
  apply StronglySorted_inv in Hsort as [_ Hf]. rewrite Forall_forall in Hf.
  specialize (Hf _ Hin). lia.
Qed.

(** Pigeonhole: fewer leases than host addresses leave one free. *)
Lemma allocateVirtualIP_succeeds r :
  len (r_leases r) < len vnet_hosts -> allocateVirtualIP r <> 0.
Proof.
  intros Hlt E. unfold allocateVirtualIP in E.
  destruct (first_free_ip_spec r vnet_suffixes vnet_hosts_nonzero)
    as [[_ Hall]|(pre & s & post & Hss & E' & _)].
  - fold vnet_hosts in Hall. rewrite Forall_forall in Hall.
    assert (vnet_hosts ⊆ map l_virtualIP (r_leases r)) as Hsub by exact Hall.
    pose proof (NoDup_submseteq _ _ vnet_hosts_NoDup Hsub) as Hm%submseteq_length.
    rewrite length_map in Hm. unfold len in Hlt. lia.
  - apply vnet_hosts_nonzero. rewrite <- E, E'. unfold vnet_hosts. rewrite Hss, map_app.
    apply elem_of_app; right; left.
Qed.

(** ** Rooms *)

(** What the server relies on at every moment, the host apart. *)
Record room_ok (r : Room) : Prop := mkRoomOk {
  ok_ids : NoDup (map l_peerId (r_leases r));
  ok_ips : NoDup (map l_virtualIP (r_leases r));
  ok_hosts : Forall (fun ip => ip ∈ vnet_hosts) (map l_virtualIP (r_leases r));
  ok_size : len (r_leases r) <= r_maxPlayers r;
  ok_max : 2 <= r_maxPlayers r <= MAX_PLAYERS;
  ok_mtu : isValidRoomMtuValue (r_mtu r) = true
}.
(** A room with members has one of them as host. *)
Definition host_ok (r : Room) : Prop := r_leases r <> [] -> r_hostPeerId r ∈ peerIds r.

Lemma room_ok_keys r ls :
  room_ok r -> lease_keys ls = lease_keys (r_leases r) -> room_ok (set_r_leases ls r).
Proof.
  intros [H1 H2 H3 H4 H5 H6] E.
  assert (len ls = len (r_leases r)) as El.
  { apply (f_equal length) in E. unfold lease_keys in E. rewrite !length_map in E.
    unfold len. lia. }
  rewrite lease_keys_ids in H1. rewrite lease_keys_ips in H2, H3. rewrite <- E in *.
  constructor; cbn; rewrite ?lease_keys_ids, ?lease_keys_ips; try done. lia.
Qed.
Lemma room_ok_sub r ls :
  room_ok r -> ls `sublist_of` r_leases r -> room_ok (set_r_leases ls r).
Proof.
  intros [H1 H2 H3 H4 H5 H6] Hs.
  assert (forall B (f : RoomLease -> B), map f ls `sublist_of` map f (r_leases r)) as Hm.
  { intros B f. by apply sublist_map. }
  constructor; cbn; try done.
  - by eapply sublist_NoDup; [|apply Hm].
  - by eapply sublist_NoDup; [|apply Hm].
  - rewrite Forall_forall in *. intros ip Hip. apply H3.
    eapply elem_of_submseteq; [exact Hip|]. apply sublist_submseteq, Hm.
  - apply sublist_length in Hs. unfold len in *. lia.
Qed.
Lemma room_ok_fields r r' :
  room_ok r -> r_leases r' = r_leases r -> r_maxPlayers r' = r_maxPlayers r ->
  r_mtu r' = r_mtu r -> room_ok r'.
Proof. intros [] E1 E2 E3. constructor; rewrite ?E1, ?E2, ?E3; done. Qed.

Lemma ensureHost_leases r : r_leases (ensureHost r) = r_leases r.
Proof. unfold ensureHost. repeat case_match; done. Qed.
Lemma ensureHost_ok r : room_ok r -> room_ok (ensureHost r).
Proof.
  intros H. eapply room_ok_fields; [exact H|apply ensureHost_leases|..];
    unfold ensureHost; repeat case_match; done.
Qed.
Lemma ensureHost_host r : host_ok (ensureHost r).
Proof.
  unfold host_ok, peerIds. rewrite ensureHost_leases. intros Hne. unfold ensureHost.
  destruct (r_leases r) as [|front rest] eqn:El; [done|].
  destruct (leaseByPeerId r (r_hostPeerId r)) as [l|] eqn:Eh.
  - apply find_lease_Some in Eh as [Hin <-]. rewrite El in Hin.
    apply list_elem_of_fmap. by exists l.
  - destruct (List.find l_online (front :: rest)) as [l|] eqn:Ef; cbn.
    + apply find_some in Ef as [Hin _]. apply list_elem_of_In in Hin.
      apply (list_elem_of_fmap_2 l_peerId) in Hin. exact Hin.
    + left.
Qed.
#[export] Hint Resolve ensureHost_ok ensureHost_host same_key_offline same_key_online : vlan.

(** *** Operations *)

Lemma isFull_spec r : isFull r = true <-> r_maxPlayers r <= len (r_leases r).
Proof. unfold isFull. by rewrite Z.leb_le. Qed.

Lemma addLease_room r pid nm tok l r' :
  room_ok r -> addLease r pid nm tok = Some (l, r') ->
  room_ok r' /\ host_ok r' /\ peerIds r' = peerIds r ++ [pid] /\
  l_peerId l = pid /\ l_virtualIP l = allocateVirtualIP r /\ allocateVirtualIP r <> 0 /\
  l_name l = nm /\ r_leases r' = r_leases r ++ [l] /\
  isFull r = false /\ hasLease r pid = false.
Proof.
  intros Hok. unfold addLease.
  destruct (isFull r) eqn:Ef; [done|]. destruct (hasLease r pid) eqn:Eh; [done|]. cbn [orb].
  destruct (Z.eqb_spec (allocateVirtualIP r) 0) as [|Hne]; [done|].
  intros [= <- <-]. unfold peerIds. rewrite !ensureHost_leases. cbn.
  split; [|split; [apply ensureHost_host|by rewrite map_app]].
  apply ensureHost_ok. destruct Hok as [H1 H2 H3 H4 H5 H6].
  apply allocateVirtualIP_free in Hne as (Hin & Hfree & _).
  assert (pid ∉ map l_peerId (r_leases r)) as Hp.
  { intros Hp. apply (hasLease_spec r pid) in Hp. congruence. }
  unfold isFull in Ef. apply Z.leb_gt in Ef.
  constructor; cbn; try done.
  - rewrite map_app. apply NoDup_app; split; [done|]. cbn. split; [|apply NoDup_singleton].
    intros x Hx ->%list_elem_of_singleton. done.
  - rewrite map_app. apply NoDup_app; split; [done|]. cbn. split; [|apply NoDup_singleton].
    intros x Hx ->%list_elem_of_singleton. done.
  - rewrite map_app. apply Forall_app. split; [done|]. by apply Forall_singleton.
  - rewrite len_app. change (len [_]) with 1. lia.
Qed.

Lemma room_ok_alloc r : room_ok r -> allocateVirtualIP r <> 0.
Proof.
  intros [_ _ _ H4 H5 _]. apply allocateVirtualIP_succeeds.
  change (len vnet_hosts) with 253. change MAX_PLAYERS with 8 in H5. lia.
Qed.

(** C26: joining a room refuses exactly a full room or a peer that is already a
    member; otherwise the newcomer gets the least unused host address of
    10.10.0.2 .. 10.10.0.254 (one always exists), is appended to the member
    list, and the room stays well-formed with a member as its host. *)
Theorem addLease_correct r pid nm tok :
  room_ok r ->
  match addLease r pid nm tok with
  | None => isFull r = true \/ pid ∈ peerIds r
  | Some (l, r') =>
      isFull r = false /\ (pid ∉ peerIds r) /\
      l_peerId l = pid /\ l_virtualIP l ∈ vnet_hosts /\
      (l_virtualIP l ∉ map l_virtualIP (r_leases r)) /\
      (forall ip, ip ∈ vnet_hosts -> ip < l_virtualIP l ->
                  ip ∈ map l_virtualIP (r_leases r)) /\
      r_leases r' = r_leases r ++ [l] /\ room_ok r' /\ host_ok r'
  end.
Proof.
  intros Hok. destruct (addLease r pid nm tok) as [[l r']|] eqn:E.
  - destruct (addLease_room _ _ _ _ _ _ Hok E)
      as (H1 & H2 & _ & H4 & H5 & H6 & _ & H8 & H9 & H10).
    apply allocateVirtualIP_free in H6 as (? & ? & ?).
    rewrite H5. rewrite <- hasLease_spec. rewrite H10. split_and!; done.
  - unfold addLease in E. destruct (isFull r); [by left|].
    destruct (hasLease r pid) eqn:Eh; [right; by apply hasLease_spec|].
    cbn [orb] in E. destruct (Z.eqb_spec (allocateVirtualIP r) 0) as [E0|]; [|done].
    by apply room_ok_alloc in Hok.
Qed.

Lemma removeLease_ok t r pid : room_ok r -> room_ok (snd (removeLease t r pid)).
Proof.
  intros Hok. unfold removeLease. destruct (hasLease r pid); [|done]. cbn [snd].
  apply ensureHost_ok.
  assert (room_ok (set_r_leases (erase_lease pid (r_leases r)) r)) as H1
    by (apply room_ok_sub; [done|apply erase_lease_sub]).
  destruct (_ =? 0); [by eapply room_ok_fields|done].
Qed.
Lemma removeLease_leases t r pid :
  r_leases (snd (removeLease t r pid)) =
  if hasLease r pid then erase_lease pid (r_leases r) else r_leases r.
Proof.
  unfold removeLease. destruct (hasLease r pid); [|done]. cbn [snd].
  rewrite ensureHost_leases. by destruct (_ =? 0).
Qed.
Lemma removeLease_host t r pid : host_ok r -> host_ok (snd (removeLease t r pid)).
Proof.
  intros H. unfold removeLease. destruct (hasLease r pid); [|done]. apply ensureHost_host.
Qed.
Lemma markLeaseOffline_ok r pid t : room_ok r -> room_ok (snd (markLeaseOffline r pid t)).
Proof.
  intros H. unfold markLeaseOffline. destruct (hasLease r pid); [|done].
  apply room_ok_keys; [done|]. apply alter_lease_keys, same_key_offline.
Qed.
Lemma host_ok_keys r ls :
  host_ok r -> lease_keys ls = lease_keys (r_leases r) -> host_ok (set_r_leases ls r).
Proof.
  unfold host_ok, peerIds. intros H E. cbn. intros Hne.
  rewrite lease_keys_ids, E, <- lease_keys_ids. apply H. intros E0.
  rewrite E0 in E. cbn in E. by destruct ls.
Qed.
Lemma markLeaseOffline_host r pid t : host_ok r -> host_ok (snd (markLeaseOffline r pid t)).
Proof.
  intros H. unfold markLeaseOffline. destruct (hasLease r pid); [|done].
  apply host_ok_keys; [done|]. apply alter_lease_keys, same_key_offline.
Qed.
Lemma markLeaseOnline_ok r pid : room_ok r -> room_ok (snd (markLeaseOnline r pid)).
Proof.
  intros H. unfold markLeaseOnline. destruct (hasLease r pid); [|done].
  apply ensureHost_ok, room_ok_keys; [done|]. apply alter_lease_keys, same_key_online.
Qed.
Lemma markLeaseOnline_host r pid : host_ok r -> host_ok (snd (markLeaseOnline r pid)).
Proof.
  intros H. unfold markLeaseOnline. destruct (hasLease r pid); [|done]. apply ensureHost_host.
Qed.
#[export] Hint Resolve removeLease_ok removeLease_host markLeaseOffline_ok
  markLeaseOffline_host markLeaseOnline_ok markLeaseOnline_host : vlan.

(** ** The registry *)

(** Every id below the next fresh one is in use or free, never both. *)
Record rooms_ok (m : RoomManager) : Prop := mkRoomsOk {
  rk_room : forall rid r, m_rooms m !! rid = Some r -> r_id r = rid /\ room_ok r;
  rk_used : forall i, is_Some (m_rooms m !! i) \/ i ∈ m_freeRoomIds m <-> 1 <= i < m_nextRoomId m;
  rk_disjoint : forall i, i ∈ m_freeRoomIds m -> m_rooms m !! i = None;
  rk_next : 1 <= m_nextRoomId m < 4294967296
}.
(** Every room with members has one of them as its host. *)
Definition hosts_ok (m : RoomManager) : Prop :=
  forall rid r, m_rooms m !! rid = Some r -> host_ok r.

Lemma rooms_ok_init : rooms_ok RoomManager_init.
Proof.
  constructor; cbn; [done| |done|lia].
  intros i. rewrite lookup_empty. split; [intros [[? [=]]|H]; set_solver|lia].
Qed.

Lemma size_interval {A} (m : gmap Z A) n :
  1 <= n -> (forall i, is_Some (m !! i) <-> 1 <= i < n) -> Z.of_nat (size m) = n - 1.
Proof.
  intros Hn H.
  assert ((map_to_list m).*1 ≡ₚ seqZ 1 (n - 1)) as Hp.
  { apply NoDup_Permutation; [apply NoDup_fst_map_to_list|apply NoDup_seqZ|].
    intros i. rewrite elem_of_seqZ, list_elem_of_fmap. split.
    - intros ([k x] & -> & Hin). apply elem_of_map_to_list in Hin. cbn.
      assert (is_Some (m !! k)) as Hk by by eexists. apply H in Hk. lia.
    - intros Hi. assert (1 <= i < n) as Hi' by lia. apply H in Hi' as [x Hx].
      exists (i, x). split; [done|]. by apply elem_of_map_to_list. }
  apply Permutation_length in Hp. rewrite length_fmap, length_seqZ in Hp.
  rewrite <- length_map_to_list. lia.
Qed.

(** The allocator returns the least unused identifier. *)
Lemma allocateRoomId_least m :
  rooms_ok m -> rm_size m < 4294967294 ->
  let '(rid, m') := allocateRoomId m in
  1 <= rid /\ m_rooms m !! rid = None /\
  (forall j, 1 <= j < rid -> is_Some (m_rooms m !! j)) /\
  m_rooms m' = m_rooms m /\
  (rid ∉ m_freeRoomIds m') /\ 1 <= m_nextRoomId m' < 4294967296 /\
  (forall i, i ∈ m_freeRoomIds m' -> m_rooms m !! i = None) /\
  (forall i, (is_Some (m_rooms m !! i) \/ i = rid) \/ i ∈ m_freeRoomIds m' <->
             1 <= i < m_nextRoomId m').
Proof.
  intros [_ Hu Hd Hn] Hs. unfold allocateRoomId.
  destruct (set_begin (m_freeRoomIds m)) as [rid|] eqn:E; cbn.
  - apply set_begin_Some in E as [Hin Hmin].
    assert (1 <= rid < m_nextRoomId m) as Hr by (apply Hu; by right).
    split; [lia|]. split; [by apply Hd|]. split.
    { intros j Hj. assert (1 <= j < m_nextRoomId m) as Hj' by lia.
      apply Hu in Hj' as [?|Hj']; [done|]. apply Hmin in Hj'. lia. }
    split; [done|]. split; [set_solver|]. split; [done|]. split; [set_solver|].
    intros i. rewrite <- Hu. destruct (decide (i = rid)); set_solver.
  - apply set_begin_None in E. rewrite E in Hu.
    assert (forall i, is_Some (m_rooms m !! i) <-> 1 <= i < m_nextRoomId m) as Hu'.
    { intros i. rewrite <- Hu. set_solver. }
    pose proof (size_interval _ _ (proj1 Hn) Hu') as Hsz. unfold rm_size in Hs.
    assert (u32 (m_nextRoomId m + 1) = m_nextRoomId m + 1) as ->.
    { unfold u32. apply Z.mod_small. lia. }
    split; [lia|]. split.
    { destruct (m_rooms m !! m_nextRoomId m) eqn:Ex; [|done].
      assert (is_Some (m_rooms m !! m_nextRoomId m)) as Hx by by eexists.
      apply Hu' in Hx. lia. }
    split; [intros j Hj; apply Hu'; lia|]. split; [done|].
    split; [rewrite E; set_solver|]. split; [lia|]. split; [rewrite E; set_solver|].
    intros i. rewrite E, Hu'. split; [intros [[?|?]|?]; [lia|lia|set_solver]|].
    intros Hi. left. destruct (decide (i = m_nextRoomId m)); [by right|left; lia].
Qed.

Lemma createRoom_spec m name host maxPlayers tcp udp mtu prot hash salt :
  rooms_ok m -> rm_size m < 4294967294 -> 2 <= maxPlayers <= MAX_PLAYERS ->
  let '(rid, m') := createRoom m name host maxPlayers tcp udp mtu prot hash salt in
  rooms_ok m' /\ m_rooms m !! rid = None /\
  (forall j, 1 <= j < rid -> is_Some (m_rooms m !! j)) /\
  (forall j, j <> rid -> m_rooms m' !! j = m_rooms m !! j) /\
  exists r, getRoom m' rid = Some r /\ r_leases r = [] /\ r_hostPeerId r = host /\
            r_maxPlayers r = maxPlayers.
Proof.
  intros Hok Hs Hmax. unfold createRoom.
  pose proof (allocateRoomId_least m Hok Hs) as H.
  destruct (allocateRoomId m) as [rid m1]. destruct H as (H1 & H2 & H3 & H4 & H5 & H6 & H7 & H8).
  rewrite H4. unfold getRoom. cbn [m_rooms].
  split; [|split; [done|split; [done|split]]].
  - constructor; cbn.
    + intros i r. destruct (decide (i = rid)) as [->|Hi].
      * rewrite lookup_insert_eq. intros [= <-]. split; [done|].
        constructor; cbn; try (by constructor); [unfold len; cbn; lia|done|].
        apply normalizeRoomMtu_valid.
      * rewrite lookup_insert_ne by done. apply Hok.
    + intros i. rewrite <- H8. destruct (decide (i = rid)) as [->|Hi].
      * rewrite lookup_insert_eq. split; [intros _; left; by right|intros _; left; by eexists].
      * rewrite lookup_insert_ne by done. naive_solver.
    + intros i Hi. rewrite lookup_insert_ne by congruence. by apply H7.
    + done.
  - intros j Hj. by rewrite lookup_insert_ne.
  - eexists. rewrite lookup_insert_eq. done.
Qed.

Lemma createRoom_ok m name host maxPlayers tcp udp mtu prot hash salt :
  rooms_ok m -> rm_size m < 4294967294 -> 2 <= maxPlayers <= MAX_PLAYERS ->
  rooms_ok (snd (createRoom m name host maxPlayers tcp udp mtu prot hash salt)).
Proof.
  intros Hok Hs Hmax.
  pose proof (createRoom_spec m name host maxPlayers tcp udp mtu prot hash salt Hok Hs Hmax) as H.
  destruct (createRoom _ _ _ _ _ _ _ _ _ _). apply H.
Qed.

(** Opening a room takes the least room id not in use, leaves every other
    room alone, and keeps the registry well-formed (ids in use and free ids
    partition 1 .. next-1, and the next id does not wrap). *)
Theorem createRoom_correct m name host maxPlayers tcp udp mtu prot hash salt :
  rooms_ok m -> rm_size m < 4294967294 -> 2 <= maxPlayers <= MAX_PLAYERS ->
  let '(rid, m') := createRoom m name host maxPlayers tcp udp mtu prot hash salt in
  rooms_ok m' /\ m_rooms m !! rid = None /\
  (forall j, 1 <= j < rid -> is_Some (m_rooms m !! j)) /\
  (forall j, j <> rid -> m_rooms m' !! j = m_rooms m !! j) /\
  exists r, getRoom m' rid = Some r /\ r_leases r = [] /\ r_hostPeerId r = host /\
            r_maxPlayers r = maxPlayers.
Proof. apply createRoom_spec. Qed.

Lemma createRoom_hosts m name host maxPlayers tcp udp mtu prot hash salt :
  hosts_ok m -> hosts_ok (snd (createRoom m name host maxPlayers tcp udp mtu prot hash salt)).
Proof.
  unfold createRoom. intros H.
  assert (m_rooms (snd (allocateRoomId m)) = m_rooms m) as E
    by (unfold allocateRoomId; by destruct (set_begin _)).
  destruct (allocateRoomId m) as [rid m1]. cbn in *. intros i r. cbn. rewrite E.
  destruct (decide (i = rid)) as [->|Hi].
  - rewrite lookup_insert_eq. intros [= <-] Hne. by destruct Hne.
  - rewrite lookup_insert_ne by done. apply H.
Qed.

Lemma alterRoom_ok m rid f :
  rooms_ok m -> (forall r, r_id (f r) = r_id r) -> (forall r, room_ok r -> room_ok (f r)) ->
  rooms_ok (alterRoom rid f m).
Proof.
  intros [H1 H2 H3 H4] Hid Hf. constructor; cbn; [| |..|done].
  - intros i r. rewrite lookup_alter_Some. intros [(<- & r0 & E & ->)|[_ E]].
    + destruct (H1 _ _ E). rewrite Hid. auto.
    + by apply H1.
  - intros i. rewrite <- H2, lookup_alter.
    destruct (decide (rid = i)) as [->|]; [by rewrite fmap_is_Some|done].
  - intros i Hi%H3. rewrite lookup_alter. case_decide; [subst; by rewrite Hi|done].
Qed.
Lemma alterRoom_hosts m rid f :
  hosts_ok m -> (forall r, host_ok r -> host_ok (f r)) -> hosts_ok (alterRoom rid f m).
Proof.
  intros H Hf i r. cbn. rewrite lookup_alter_Some.
  intros [(<- & r0 & E & ->)|[_ E]]; [by eapply Hf, H|by eapply H].
Qed.

Lemma rooms_delete_ok m rid r :
  rooms_ok m -> m_rooms m !! rid = Some r ->
  rooms_ok (mkRooms (delete rid (m_rooms m)) ({[rid]} ∪ m_freeRoomIds m) (m_nextRoomId m)).
Proof.
  intros [H1 H2 H3 H4] E. constructor; cbn; [| |..|done].
  - intros i r'. rewrite lookup_delete_Some. intros [_ ?]. by apply H1.
  - intros i. rewrite <- H2. destruct (decide (i = rid)) as [->|Hi].
    + split; [intros _; left; by eexists|intros _; right; set_solver].
    + rewrite lookup_delete_ne by done. set_solver.
  - intros i. rewrite elem_of_union, elem_of_singleton.
    intros [->|Hi]; [by rewrite lookup_delete_eq|].
    rewrite lookup_delete_None. right. by apply H3.
Qed.
Lemma eraseRoom_ok m rid : rooms_ok m -> rooms_ok (eraseRoom m rid).
Proof.
  intros H. unfold eraseRoom, getRoom. destruct (m_rooms m !! rid) as [r|] eqn:E; [|done].
  destruct (Z.eqb_spec rid 0) as [->|]; cbn [negb]; [|by eapply rooms_delete_ok].
  exfalso. assert (1 <= 0 < m_nextRoomId m) as Hx by (apply H; left; by eexists). lia.
Qed.
Lemma eraseRoom_hosts m rid : hosts_ok m -> hosts_ok (eraseRoom m rid).
Proof.
  intros H. unfold eraseRoom, getRoom. destruct (m_rooms m !! rid) as [r|]; [|done].
  intros i r'. cbn. rewrite lookup_delete_Some. intros [_ ?]. by eapply H.
Qed.

Lemma add_rooms_ok m rid r r' :
  rooms_ok m -> m_rooms m !! rid = Some r -> r_id r' = r_id r -> room_ok r' ->
  rooms_ok (alterRoom rid (fun _ => r') m).
Proof.
  intros [H1 H2 H3 H4] E Eid Hr'. constructor; cbn; [| |..|done].
  - intros i x. rewrite lookup_alter_Some. intros [(<- & r0 & E0 & ->)|[_ E0]].
    + split; [|done]. rewrite Eid. by apply H1.
    + by apply H1.
  - intros i. rewrite <- H2, lookup_alter. case_decide; [subst; by rewrite fmap_is_Some|done].
  - intros i Hi%H3. rewrite lookup_alter. case_decide; [subst; by rewrite Hi|done].
Qed.
Lemma ensureHost_id r : r_id (ensureHost r) = r_id r.
Proof. unfold ensureHost. repeat case_match; done. Qed.
Lemma addLease_id r pid nm tok l r' : addLease r pid nm tok = Some (l, r') -> r_id r' = r_id r.
Proof.
  unfold addLease. destruct (_ || _); [done|]. destruct (_ =? 0); [done|].
  intros [= _ <-]. by rewrite ensureHost_id.
Qed.
Lemma removeLease_id t r pid : r_id (snd (removeLease t r pid)) = r_id r.
Proof.
  unfold removeLease. destruct (hasLease r pid); [|done]. cbn. rewrite ensureHost_id.
  by destruct (_ =? 0).
Qed.
Lemma markLeaseOffline_id r pid t : r_id (snd (markLeaseOffline r pid t)) = r_id r.
Proof. unfold markLeaseOffline. by case_match. Qed.
Lemma markLeaseOnline_id r pid : r_id (snd (markLeaseOnline r pid)) = r_id r.
Proof. unfold markLeaseOnline. case_match; [|done]. cbn. by rewrite ensureHost_id. Qed.
#[export] Hint Resolve eraseRoom_ok eraseRoom_hosts ensureHost_id removeLease_id
  markLeaseOffline_id markLeaseOnline_id : vlan.

(** [cleanupEmptyRooms] erases exactly the rooms without leases. *)
Lemma drop_empty_fold l c m :
  rooms_ok m -> NoDup l.*1 -> (forall k r, (k, r) ∈ l -> m_rooms m !! k = Some r) ->
  let m' := snd (fold_left drop_empty l (c, m)) in
  rooms_ok m' /\
  forall k, m_rooms m' !! k =
    match m_rooms m !! k with
    | Some r => if bool_decide (k ∈ l.*1) && room_empty r then None else Some r
    | None => None
    end.
Proof.
  revert c m. induction l as [|[rid r] l IH]; intros c m Hok Hnd Hl.
  { cbn. split; [done|]. intros k. destruct (m_rooms m !! k); [|done].
    rewrite bool_decide_eq_false_2; [done|apply not_elem_of_nil]. }
  cbn in Hnd. apply NoDup_cons in Hnd as [Hnot Hnd].
  assert (m_rooms m !! rid = Some r) as Hr by (apply Hl; left).
  assert (forall k x, (k, x) ∈ l -> k <> rid) as Hk.
  { intros k x Hx ->. apply Hnot. apply list_elem_of_fmap. by exists (rid, x). }
  cbn [fold_left drop_empty]. destruct (room_empty r) eqn:Er.
  - destruct (IH true _ (rooms_delete_ok _ _ _ Hok Hr) Hnd) as [H1 H2].
    { intros k x Hx. cbn. rewrite lookup_delete_ne; [|by apply not_eq_sym, (Hk _ x)].
      apply Hl. by right. }
    split; [exact H1|]. intros k. rewrite H2. cbn [m_rooms].
    destruct (decide (k = rid)) as [->|Hne].
    + rewrite lookup_delete_eq, Hr, Er, bool_decide_eq_true_2 by left. done.
    + rewrite lookup_delete_ne by done. destruct (m_rooms m !! k) as [x|]; [|done].
      cbn [fmap list_fmap fst]. erewrite (bool_decide_ext (k ∈ _ :: _)); [done|].
      rewrite elem_of_cons. naive_solver.
  - destruct (IH c m Hok Hnd) as [H1 H2]; [intros k x Hx; apply Hl; by right|].
    split; [exact H1|]. intros k. rewrite H2. destruct (m_rooms m !! k) as [x|] eqn:Ex; [|done].
    destruct (decide (k = rid)) as [->|Hne].
    + rewrite Hr in Ex. injection Ex as <-. by rewrite Er, !andb_false_r.
    + cbn [fmap list_fmap fst]. erewrite (bool_decide_ext (k ∈ _ :: _)); [done|].
      rewrite elem_of_cons. naive_solver.
Qed.

(** [cleanupEmptyRooms] erases exactly the rooms that have no lease, frees
    their ids, and keeps the registry well-formed. *)
Theorem cleanupEmptyRooms_correct m :
  rooms_ok m ->
  let m' := snd (cleanupEmptyRooms m) in
  rooms_ok m' /\
  forall k, m_rooms m' !! k =
    match m_rooms m !! k with
    | Some r => if room_empty r then None else Some r
    | None => None
    end.
Proof.
  intros Hok. destruct (drop_empty_fold (map_ordered (m_rooms m)) false m Hok
    (NoDup_map_ordered_keys _) (fun k r => proj1 (elem_of_map_ordered _ k r))) as [H1 H2].
  split; [exact H1|]. intros k. etrans; [apply H2|].
  destruct (m_rooms m !! k) eqn:E; [|done].
  rewrite bool_decide_eq_true_2; [done|].
  apply elem_of_map_ordered in E. by apply (list_elem_of_fmap_2 fst) in E.
Qed.

(** ** The session message table *)

(** the dispatch table.  A message is dispatched exactly when it is a known
    type allowed in the session's state; a known handshake message out of place
    closes the session and any other known message out of place is answered
    with an error; a closing session dispatches nothing; and a room or relay
    message is dispatched only for a session that holds a peer identity. *)
Theorem session_table st t :
  (classifyClientSignalMessage st t = Dispatch <->
     isClientSignalMessageAllowed st t = true) /\
  (classifyClientSignalMessage st t = IgnoreUnknown <->
     isKnownClientSignalMessage t = false) /\
  (classifyClientSignalMessage st t = Close <->
     isClientHandshakeMessage t = true /\ isClientSignalMessageAllowed st t = false) /\
  (classifyClientSignalMessage st t = Dispatch ->
     st <> Closing /\
     (t <> MSG_CLIENT_HELLO -> t <> MSG_SERVER_AUTH -> t <> MSG_LOGIN -> t <> MSG_PING ->
      sessionHasPeerIdentity st = true)).
Proof.
  assert (isClientSignalMessageAllowed st t = true -> isKnownClientSignalMessage t = true) as Hk.
  { unfold isKnownClientSignalMessage. intros Ha. destruct (existsb _ _) eqn:E; [done|].
    cbn [existsb] in E. bools. destruct st; cbn [isClientSignalMessageAllowed] in Ha;
      repeat match goal with H : (_ || _) = true |- _ => apply orb_true_iff in H as [H|H] end;
      apply Z.eqb_eq in Ha || discriminate; congruence. }
  assert (isClientHandshakeMessage t = true -> isKnownClientSignalMessage t = true) as Hh.
  { unfold isClientHandshakeMessage. intros Ha.
    repeat match goal with H : (_ || _) = true |- _ => apply orb_true_iff in H as [H|H] end;
      apply Z.eqb_eq in Ha as ->; reflexivity. }
  unfold classifyClientSignalMessage.
  split; [|split; [|split]].
  - destruct (isKnownClientSignalMessage t); cbn [negb];
      destruct (isClientSignalMessageAllowed st t); try done;
      destruct (isClientHandshakeMessage t); naive_solver.
  - destruct (isKnownClientSignalMessage t); cbn [negb]; repeat case_match; done.
  - destruct (isKnownClientSignalMessage t); cbn [negb];
      destruct (isClientSignalMessageAllowed st t);
      destruct (isClientHandshakeMessage t); naive_solver.
  - intros Hd. assert (isClientSignalMessageAllowed st t = true) as Ha.
    { repeat case_match; done. }
    split; [intros ->; discriminate|]. intros N1 N2 N3 N4.
    destruct st; try done; cbn [isClientSignalMessageAllowed] in Ha;
      repeat match goal with H : (_ || _) = true |- _ => apply orb_true_iff in H as [H|H] end;
      apply Z.eqb_eq in Ha; congruence.
Qed.

(** ** Instances *)

Definition demo_room : Room :=
  mkRoom 1 (bytes_of_string "lan") 7 [] 2 makeDefaultTcpPolicy makeDefaultUdpPolicy
    ROOM_MTU_DEFAULT 0 (zeros 32) (zeros 16) 0.
Lemma demo_room_ok : room_ok demo_room.
Proof. constructor; cbn; first [apply NoDup_nil_2|apply Forall_nil_2|done]. Qed.

Lemma addLease_correct_witness :
  exists l r', addLease demo_room 7 [65] None = Some (l, r') /\
    l_virtualIP l = 0x0A0A0002 /\ room_ok r'.
Proof.
  pose proof (addLease_correct demo_room 7 [65] None demo_room_ok) as H.
  destruct (addLease demo_room 7 [65] None) as [[l r']|] eqn:E; [|vm_compute in E; discriminate].
  exists l, r'. split; [reflexivity|]. split; [|tauto].
  vm_compute in E. injection E as <- _. reflexivity.
Defined.
Lemma createRoom_correct_witness :
  let '(rid, m') := createRoom RoomManager_init [65] 7 4 makeDefaultTcpPolicy
                      makeDefaultUdpPolicy 1400 0 [] [] in
  rid = 1 /\ rooms_ok m'.
Proof.
  pose proof (createRoom_correct RoomManager_init [65] 7 4 makeDefaultTcpPolicy
    makeDefaultUdpPolicy 1400 0 [] [] rooms_ok_init) as H.
  specialize (H ltac:(vm_compute; reflexivity) ltac:(unfold MAX_PLAYERS; lia)).
  destruct (createRoom RoomManager_init [65] 7 4 makeDefaultTcpPolicy
    makeDefaultUdpPolicy 1400 0 [] []) as [rid m'] eqn:E.
  split; [|tauto]. vm_compute in E. by injection E as <- _.
Defined.
Lemma cleanupEmptyRooms_correct_witness :
  rooms_ok (snd (cleanupEmptyRooms RoomManager_init)).
Proof. apply (cleanupEmptyRooms_correct RoomManager_init rooms_ok_init). Defined.
Lemma session_table_witness :
  classifyClientSignalMessage LoggedIn MSG_CREATE_ROOM = Dispatch /\ LoggedIn <> Closing.
Proof.
  split; [reflexivity|].
  apply (proj2 (proj2 (proj2 (session_table LoggedIn MSG_CREATE_ROOM)))). reflexivity.
Defined.
