(* ===== verification/SecureFrame.v ===== *)
(** * [common/secure_frame.h] and [common/payload_cipher.h]

    Session key derivation, authentication proofs and [SecureFrameCipher]
    with its 2048-counter replay window.  The primitives of the vendored
    Monocypher library are the operations of the class [Crypto]; what the code
    relies on is the class [CryptoLaws]. *)

From S2P Require Import Prelude Protocol.

(** ** The cryptographic library *)

Class Crypto := {
  (** [crypto_blake2b] with a 32-octet digest. *)
  crypto_blake2b : bytes -> bytes;
  (** [crypto_blake2b_keyed(out, 32, key, 32, msg)]: key, then message. *)
  crypto_blake2b_keyed : bytes -> bytes -> bytes;
  (** [crypto_verify32]: 0 exactly on equal arguments. *)
  crypto_verify32 : bytes -> bytes -> Z;
  (** [crypto_x25519_public_key] of a secret key. *)
  crypto_x25519_public_key : bytes -> bytes;
  (** [crypto_x25519]: secret key, then peer public key. *)
  crypto_x25519 : bytes -> bytes -> bytes;
  (** [crypto_argon2] with the profile-1 cost parameters: password, salt. *)
  crypto_argon2 : bytes -> bytes -> bytes;
  (** [crypto_aead_lock]: key, nonce, associated data, plaintext; ciphertext and MAC. *)
  crypto_aead_lock : bytes -> bytes -> bytes -> bytes -> bytes * bytes;
  (** [crypto_aead_unlock]: key, nonce, associated data, MAC, ciphertext; [None] is -1. *)
  crypto_aead_unlock : bytes -> bytes -> bytes -> bytes -> bytes -> option bytes
}.

Class CryptoLaws `{Crypto} : Prop := {
  verify32_spec : forall a b, crypto_verify32 a b = 0 <-> a = b;
  aead_lock_size : forall k n ad p,
    len (fst (crypto_aead_lock k n ad p)) = len p /\
    len (snd (crypto_aead_lock k n ad p)) = 16;
  aead_unlock_lock : forall k n ad p,
    crypto_aead_unlock k n ad (snd (crypto_aead_lock k n ad p))
      (fst (crypto_aead_lock k n ad p)) = Some p;
  blake2b_keyed_size : forall k m, len (crypto_blake2b_keyed k m) = 32;
  blake2b_keyed_bytes : forall k m, bytes_ok (crypto_blake2b_keyed k m)
}.

(** ** Constants *)

Definition SECURE_KEY_SIZE : Z := 32.
Definition SECURE_NONCE_SIZE : Z := 24.
Definition SECURE_MAC_SIZE : Z := 16.
Definition SECURE_COUNTER_SIZE : Z := 8.
Definition SECURE_SESSION_ID_SIZE : Z := 4.
Definition SECURE_FRAME_OVERHEAD : Z := SECURE_COUNTER_SIZE + SECURE_MAC_SIZE.
Definition SERVER_AUTH_TIMEOUT_SEC : Z := 120.
Definition UINT64_MAX : Z := 18446744073709551615.
Definition REPLAY_WINDOW : Z := 2048.

(** ** Derivations *)

(** [readU32BE(p)], [readU64BE(p)], [writeU64BE], [writeU32BE]. *)
Definition readU32BE (p : bytes) : Z :=
  Z.lor (Z.lor (Z.lor (Z.shiftl (byte_at p 0) 24) (Z.shiftl (byte_at p 1) 16))
               (Z.shiftl (byte_at p 2) 8)) (byte_at p 3).
Definition readU64BE (p : bytes) : Z :=
  fold_left (fun v i => Z.lor (Z.shiftl v 8) (byte_at p i)) [0;1;2;3;4;5;6;7] 0.
Definition writeU32BE (v : Z) : bytes :=
  [Z.land (Z.shiftr v 24) 0xFF; Z.land (Z.shiftr v 16) 0xFF;
   Z.land (Z.shiftr v 8) 0xFF; Z.land v 0xFF].
(** [for (i = 7; i >= 0; --i) { p[i] = v & 0xFF; v >>= 8; }]. *)
Fixpoint writeU64BE_loop (n : nat) (v : Z) (acc : bytes) : bytes :=
  match n with
  | O => acc
  | S k => writeU64BE_loop k (Z.shiftr v 8) (Z.land v 0xFF :: acc)
  end.
Definition writeU64BE (v : Z) : bytes := writeU64BE_loop 8 v [].

Section WithCrypto.
Context `{Crypto}.

(** [hashPasswordSalted]: [alloc_ok] is whether [malloc] of the Argon2 work
    area succeeds; [None] is a [false] return (the hash is then wiped). *)
Definition computeIntermediateWithAllocator (alloc_ok : bool) (password salt : bytes)
    (profile : Z) : option bytes :=
  if negb (profile =? AUTH_KDF_PROFILE) || (4294967295 <? len password) then None else
  if negb alloc_ok then None else Some (crypto_argon2 password salt).
Definition authHashFromIntermediate (intermediate : bytes) : bytes :=
  crypto_blake2b_keyed intermediate (bytes_of_string "VLan-auth-hash").
Definition hashPasswordSalted (alloc_ok : bool) (password salt : bytes) (profile : Z)
    : option bytes :=
  match computeIntermediateWithAllocator alloc_ok password salt profile with
  | None => None
  | Some intermediate => Some (authHashFromIntermediate intermediate)
  end.
Definition computeChallengeResponse (authHash challenge : bytes) : bytes :=
  crypto_blake2b_keyed authHash challenge.

Definition secureHashParts (domain a b c d : bytes) : bytes :=
  crypto_blake2b (domain ++ a ++ b ++ c ++ d).
Definition deriveSecureKey (master domain : bytes) : bytes :=
  crypto_blake2b_keyed master domain.
Definition deriveSessionId (master : bytes) : Z :=
  let tmp := deriveSecureKey master (bytes_of_string "VLan-session-id") in
  let sid := readU32BE tmp in
  if sid =? 0 then 1 else sid.
Definition deriveSecureMaster (sharedSecret authHash clientNonce serverNonce
    clientPub serverPub salt : bytes) (profile : Z) : bytes :=
  crypto_blake2b
    (bytes_of_string "VLan-secure-master-v9" ++
     [u8 (Z.shiftr PROTOCOL_VERSION 8); u8 PROTOCOL_VERSION] ++ [profile] ++ salt ++
     sharedSecret ++ authHash ++ clientNonce ++ serverNonce ++ clientPub ++ serverPub).
Definition validX25519Shared (shared : bytes) : bool :=
  negb (crypto_verify32 shared (zeros 32) =? 0).
Definition computeClientAuthProof (master authHash : bytes) : bytes :=
  crypto_blake2b_keyed authHash master.
Definition computeServerAuthProof (master authHash : bytes) : bytes :=
  crypto_blake2b_keyed authHash (bytes_of_string "VLan-server-proof" ++ master).

(** [secureRandomBytesWithProvider]: [None] is a failed provider, and the
    output is then zero-filled. *)
Definition secureRandomBytesWithProvider (n : nat) (provided : option bytes) : bool * bytes :=
  match provided with
  | Some out => (true, out)
  | None => (false, zeros n)
  end.

End WithCrypto.

(** ** [class SecureFrameCipher] *)

Record SecureFrameCipher := mkCipher {
  m_sendKey : bytes;
  m_recvKey : bytes;
  m_sendNonceSeed : bytes;
  m_recvNonceSeed : bytes;
  m_sendCounter : Z;
  m_recvMaxCounter : Z;
  m_recvStarted : bool;
  m_initialized : bool;
  m_replayBitmap : bytes
}.
Definition set_m_sendKey (v : bytes) (c : SecureFrameCipher) : SecureFrameCipher :=
  mkCipher v c.(m_recvKey) c.(m_sendNonceSeed) c.(m_recvNonceSeed) c.(m_sendCounter)
    c.(m_recvMaxCounter) c.(m_recvStarted) c.(m_initialized) c.(m_replayBitmap).
Definition set_m_recvKey (v : bytes) (c : SecureFrameCipher) : SecureFrameCipher :=
  mkCipher c.(m_sendKey) v c.(m_sendNonceSeed) c.(m_recvNonceSeed) c.(m_sendCounter)
    c.(m_recvMaxCounter) c.(m_recvStarted) c.(m_initialized) c.(m_replayBitmap).
Definition set_m_sendNonceSeed (v : bytes) (c : SecureFrameCipher) : SecureFrameCipher :=
  mkCipher c.(m_sendKey) c.(m_recvKey) v c.(m_recvNonceSeed) c.(m_sendCounter)
    c.(m_recvMaxCounter) c.(m_recvStarted) c.(m_initialized) c.(m_replayBitmap).
Definition set_m_recvNonceSeed (v : bytes) (c : SecureFrameCipher) : SecureFrameCipher :=
  mkCipher c.(m_sendKey) c.(m_recvKey) c.(m_sendNonceSeed) v c.(m_sendCounter)
    c.(m_recvMaxCounter) c.(m_recvStarted) c.(m_initialized) c.(m_replayBitmap).
Definition set_m_sendCounter (v : Z) (c : SecureFrameCipher) : SecureFrameCipher :=
  mkCipher c.(m_sendKey) c.(m_recvKey) c.(m_sendNonceSeed) c.(m_recvNonceSeed) v
    c.(m_recvMaxCounter) c.(m_recvStarted) c.(m_initialized) c.(m_replayBitmap).
Definition set_m_recvMaxCounter (v : Z) (c : SecureFrameCipher) : SecureFrameCipher :=
  mkCipher c.(m_sendKey) c.(m_recvKey) c.(m_sendNonceSeed) c.(m_recvNonceSeed)
    c.(m_sendCounter) v c.(m_recvStarted) c.(m_initialized) c.(m_replayBitmap).
Definition set_m_recvStarted (v : bool) (c : SecureFrameCipher) : SecureFrameCipher :=
  mkCipher c.(m_sendKey) c.(m_recvKey) c.(m_sendNonceSeed) c.(m_recvNonceSeed)
    c.(m_sendCounter) c.(m_recvMaxCounter) v c.(m_initialized) c.(m_replayBitmap).
Definition set_m_initialized (v : bool) (c : SecureFrameCipher) : SecureFrameCipher :=
  mkCipher c.(m_sendKey) c.(m_recvKey) c.(m_sendNonceSeed) c.(m_recvNonceSeed)
    c.(m_sendCounter) c.(m_recvMaxCounter) c.(m_recvStarted) v c.(m_replayBitmap).
Definition set_m_replayBitmap (v : bytes) (c : SecureFrameCipher) : SecureFrameCipher :=
  mkCipher c.(m_sendKey) c.(m_recvKey) c.(m_sendNonceSeed) c.(m_recvNonceSeed)
    c.(m_sendCounter) c.(m_recvMaxCounter) c.(m_recvStarted) c.(m_initialized) v.

(** The constructor, and [reset()]. *)
Definition cipher_empty : SecureFrameCipher :=
  mkCipher (zeros 32) (zeros 32) (zeros 16) (zeros 16) 0 0 false false (zeros 256).
Definition reset (c : SecureFrameCipher) : SecureFrameCipher := cipher_empty.

Definition buildNonce (seed : bytes) (counter : Z) : bytes := writeU64BE counter ++ seed.

(** Bit [pos % 8] of octet [pos / 8]. *)
Definition replay_bit (bm : bytes) (pos : Z) : bool :=
  negb (Z.land (byte_at bm (pos / 8)) (u8 (Z.shiftl 1 (pos mod 8))) =? 0).
Definition replay_set (bm : bytes) (pos : Z) : bytes :=
  <[Z.to_nat (pos / 8) := Z.lor (byte_at bm (pos / 8)) (u8 (Z.shiftl 1 (pos mod 8)))]> bm.
Definition replay_clear (bm : bytes) (pos : Z) : bytes :=
  <[Z.to_nat (pos / 8) :=
      Z.land (byte_at bm (pos / 8)) (u8 (Z.lnot (Z.shiftl 1 (pos mod 8))))]> bm.

(** [for (i = 1; i <= shift; ++i) clear bit (max + i) % REPLAY_WINDOW]. *)
Definition replay_clear_range (bm : bytes) (max shift : Z) : bytes :=
  fold_left (fun bm i => replay_clear bm ((max + i) mod REPLAY_WINDOW)) (seqZ 1 shift) bm.

Definition isCounterAllowed (c : SecureFrameCipher) (ctr : Z) : bool :=
  if negb (m_recvStarted c) then true else
  if m_recvMaxCounter c <? ctr then true else
  if REPLAY_WINDOW <=? m_recvMaxCounter c - ctr then false else
  negb (replay_bit (m_replayBitmap c) (ctr mod REPLAY_WINDOW)).

Definition recordCounter (c : SecureFrameCipher) (ctr : Z) : bool * SecureFrameCipher :=
  let finish c :=
    let pos := ctr mod REPLAY_WINDOW in
    if replay_bit (m_replayBitmap c) pos then (false, c)
    else (true, set_m_replayBitmap (replay_set (m_replayBitmap c) pos) c) in
  if negb (m_recvStarted c) then
    finish (set_m_replayBitmap (zeros 256) (set_m_recvMaxCounter ctr (set_m_recvStarted true c)))
  else if m_recvMaxCounter c <? ctr then
    let shift := ctr - m_recvMaxCounter c in
    let bm := if REPLAY_WINDOW <=? shift then zeros 256
              else replay_clear_range (m_replayBitmap c) (m_recvMaxCounter c) shift in
    finish (set_m_recvMaxCounter ctr (set_m_replayBitmap bm c))
  else if REPLAY_WINDOW <=? m_recvMaxCounter c - ctr then (false, c)
  else finish c.

Section Cipher.
Context `{Crypto}.

(** [init(master, clientSide, context)]: reinstalling the same keys leaves
    the counters and the replay window alone. *)
Definition cipher_init (c : SecureFrameCipher) (master : bytes) (clientSide : bool)
    (context : string) : SecureFrameCipher :=
  let prefix := bytes_of_string "VLan-" ++ bytes_of_string context in
  let c2s := deriveSecureKey master (prefix ++ bytes_of_string "-c2s-key") in
  let s2c := deriveSecureKey master (prefix ++ bytes_of_string "-s2c-key") in
  let c2sNonce := deriveSecureKey master (prefix ++ bytes_of_string "-c2s-nonce") in
  let s2cNonce := deriveSecureKey master (prefix ++ bytes_of_string "-s2c-nonce") in
  let sendKey := if clientSide then c2s else s2c in
  let recvKey := if clientSide then s2c else c2s in
  if m_initialized c && (crypto_verify32 (m_sendKey c) sendKey =? 0) &&
     (crypto_verify32 (m_recvKey c) recvKey =? 0)
  then c
  else if clientSide
  then mkCipher c2s s2c (take 16 c2sNonce) (take 16 s2cNonce) 0 0 false true (zeros 256)
  else mkCipher s2c c2s (take 16 s2cNonce) (take 16 c2sNonce) 0 0 false true (zeros 256).

(** [encrypt]: the empty vector when uninitialised or when only the reserved
    last counter is left. *)
Definition encrypt (c : SecureFrameCipher) (plain ad : bytes) : bytes * SecureFrameCipher :=
  if negb (m_initialized c) || (m_sendCounter c =? UINT64_MAX) then ([], c) else
  let ctr := m_sendCounter c in
  let c := set_m_sendCounter (u64 (ctr + 1)) c in
  let '(cipher, mac) :=
    crypto_aead_lock (m_sendKey c) (buildNonce (m_sendNonceSeed c) ctr) ad plain in
  (writeU64BE ctr ++ cipher ++ mac, c).

(** [decrypt]: [None] is [false]; the counter is recorded only on success. *)
Definition decrypt (c : SecureFrameCipher) (frame ad : bytes)
    : option bytes * SecureFrameCipher :=
  if negb (m_initialized c) || (len frame <? SECURE_FRAME_OVERHEAD) then (None, c) else
  let ctr := readU64BE frame in
  if negb (isCounterAllowed c ctr) then (None, c) else
  let cipherLen := len frame - SECURE_COUNTER_SIZE - SECURE_MAC_SIZE in
  let cipher := slice SECURE_COUNTER_SIZE cipherLen frame in
  let mac := slice (SECURE_COUNTER_SIZE + cipherLen) SECURE_MAC_SIZE frame in
  match crypto_aead_unlock (m_recvKey c) (buildNonce (m_recvNonceSeed c) ctr) ad mac cipher with
  | None => (None, c)
  | Some plain => (Some plain, snd (recordCounter c ctr))
  end.

End Cipher.

(** ** A concrete instance of the cryptographic interface

    [Crypto] stands for the vendored Monocypher library, which the model does
    not translate.  This small instance satisfies [CryptoLaws] and is only
    used to evaluate the theorems that depend on the interface at concrete
    inputs; it has no cryptographic strength. *)

Definition toy_sum (l : bytes) : Z := fold_left (fun a b => (a * 31 + b + 7) mod 65521) l 1.
Definition toy_digest (k m : bytes) : bytes :=
  map (fun i => (toy_sum k * (i + 1) + toy_sum m * (2 * i + 3) + i) mod 256) (seqZ 0 32).
Definition toy_mac (k n ad p : bytes) : bytes := take 16 (toy_digest k (n ++ ad ++ p)).

Definition ToyCrypto : Crypto := {|
  crypto_blake2b := toy_digest [];
  crypto_blake2b_keyed := toy_digest;
  crypto_verify32 := fun a b => if decide (a = b) then 0 else -1;
  crypto_x25519_public_key := fun sk => sk;
  crypto_x25519 := fun sk pk => zip_with (fun x y => (x + y) mod 256) sk pk;
  crypto_argon2 := fun p s => toy_digest p s;
  crypto_aead_lock := fun k n ad p => (p, toy_mac k n ad p);
  crypto_aead_unlock := fun k n ad mac c =>
    if decide (mac = toy_mac k n ad c) then Some c else None
|}.
#[local] Existing Instance ToyCrypto.

Lemma len_toy_digest k m : len (toy_digest k m) = 32.
Proof. unfold len, toy_digest. by rewrite length_map. Qed.
Lemma toy_digest_bytes k m : bytes_ok (toy_digest k m).
Proof.
  unfold toy_digest. apply Forall_fmap, Forall_forall. intros i _.
  apply Z.mod_pos_bound. lia.
Qed.

Lemma ToyCryptoLaws : CryptoLaws.
Proof.
  constructor.
  - intros a b. cbn. destruct (decide (a = b)); split; done.
  - intros k n ad p. split; [done|]. change (len (toy_mac k n ad p) = 16).
    unfold toy_mac, len. rewrite length_take.
    pose proof (len_toy_digest k (n ++ ad ++ p)) as H. unfold len in H. lia.
  - intros k n ad p. cbn. by rewrite decide_True.
  - apply len_toy_digest.
  - apply toy_digest_bytes.
Qed.
