(* ===== verification/SecureFrameFacts.v ===== *)
(** * What the secure frames of [common/secure_frame.h] guarantee

    The replay bitmap implements the set of accepted counters (a data
    refinement); no counter is accepted twice and no nonce is used twice;
    what one side encrypts the other decrypts; failures leave the state
    alone. *)

From S2P Require Import Prelude Protocol SecureFrame.

(** ** Bits of the replay bitmap *)

Lemma land_pow2_testbit x k : 0 <= k -> negb (Z.land x (2 ^ k) =? 0) = Z.testbit x k.
Proof.
  intros Hk. destruct (Z.testbit x k) eqn:E.
  - apply negb_true_iff, Z.eqb_neq. intros H.
    assert (Z.testbit (Z.land x (2 ^ k)) k = true) as Hb.
    { by rewrite Z.land_spec, E, Z.pow2_bits_true by lia. }
    rewrite H, Z.bits_0 in Hb. done.
  - apply negb_false_iff, Z.eqb_eq. apply Z.bits_inj'. intros j Hj.
    rewrite Z.land_spec, Z.bits_0, Z.pow2_bits_eqb by lia.
    destruct (Z.eqb_spec k j) as [<-|]; [by rewrite E|by rewrite andb_false_r].
Qed.
Lemma u8_bit k : 0 <= k < 8 -> u8 (Z.shiftl 1 k) = 2 ^ k.
Proof.
  intros Hk. rewrite Z.shiftl_1_l. unfold u8. apply Z.mod_small.
  split; [lia|]. change 256 with (2 ^ 8). apply Z.pow_lt_mono_r; lia.
Qed.
Lemma u8_testbit z j : 0 <= j < 8 -> Z.testbit (u8 z) j = Z.testbit z j.
Proof. intros Hj. unfold u8. change 256 with (2 ^ 8). by rewrite Z.mod_pow2_bits_low by lia. Qed.

Lemma replay_bit_testbit bm pos : replay_bit bm pos = Z.testbit (byte_at bm (pos / 8)) (pos mod 8).
Proof.
  pose proof (Z.mod_pos_bound pos 8). unfold replay_bit.
  rewrite u8_bit by lia. apply land_pow2_testbit. lia.
Qed.
Lemma byte_at_insert bm i j v :
  0 <= i < len bm -> 0 <= j ->
  byte_at (<[Z.to_nat i := v]> bm) j = if i =? j then v else byte_at bm j.
Proof.
  unfold len, byte_at. intros Hi Hj. rewrite !nth_lookup.
  destruct (Z.eqb_spec i j) as [<-|].
  - by rewrite list_lookup_insert_eq by lia.
  - by rewrite list_lookup_insert_ne by lia.
Qed.
Lemma same_pos p q : (p / 8 =? q / 8) && (p mod 8 =? q mod 8) = (p =? q).
Proof.
  pose proof (Z.div_mod p 8). pose proof (Z.div_mod q 8).
  destruct (Z.eqb_spec (p / 8) (q / 8)), (Z.eqb_spec (p mod 8) (q mod 8)),
    (Z.eqb_spec p q); cbn; try done; try congruence; lia.
Qed.

Section Bitmap.
Context (bm : bytes) (Hlen : len bm = 256).

Lemma pos_div p : 0 <= p < REPLAY_WINDOW -> 0 <= p / 8 < 256.
Proof.
  unfold REPLAY_WINDOW. intros Hp. split; [apply Z.div_pos; lia|].
  apply Z.div_lt_upper_bound; lia.
Qed.
Lemma replay_bit_set p q :
  0 <= p < REPLAY_WINDOW -> 0 <= q < REPLAY_WINDOW ->
  replay_bit (replay_set bm p) q = (p =? q) || replay_bit bm q.
Proof.
  intros Hp Hq. rewrite !replay_bit_testbit. unfold replay_set.
  pose proof (pos_div _ Hp). pose proof (pos_div _ Hq).
  pose proof (Z.mod_pos_bound p 8). pose proof (Z.mod_pos_bound q 8).
  rewrite byte_at_insert by lia. rewrite <- (same_pos p q), u8_bit by lia.
  destruct (Z.eqb_spec (p / 8) (q / 8)) as [E|]; [|done]. cbn [andb].
  rewrite Z.lor_spec, Z.pow2_bits_eqb, orb_comm, E by lia. done.
Qed.
Lemma replay_bit_clear p q :
  0 <= p < REPLAY_WINDOW -> 0 <= q < REPLAY_WINDOW ->
  replay_bit (replay_clear bm p) q = negb (p =? q) && replay_bit bm q.
Proof.
  intros Hp Hq. rewrite !replay_bit_testbit. unfold replay_clear.
  pose proof (pos_div _ Hp). pose proof (pos_div _ Hq).
  pose proof (Z.mod_pos_bound p 8). pose proof (Z.mod_pos_bound q 8).
  rewrite byte_at_insert by lia. rewrite <- (same_pos p q).
  destruct (Z.eqb_spec (p / 8) (q / 8)) as [E|]; [|done]. cbn [andb].
  rewrite Z.land_spec, u8_testbit, Z.lnot_spec, Z.shiftl_1_l, Z.pow2_bits_eqb, E by lia.
  apply andb_comm.
Qed.
Lemma len_replay_set p : len (replay_set bm p) = len bm.
Proof. unfold replay_set, len. by rewrite length_insert. Qed.
Lemma len_replay_clear p : len (replay_clear bm p) = len bm.
Proof. unfold replay_clear, len. by rewrite length_insert. Qed.
End Bitmap.

Lemma replay_bit_zeros p : replay_bit (zeros 256) p = false.
Proof.
  rewrite replay_bit_testbit. unfold byte_at, zeros.
  rewrite nth_lookup. destruct (replicate 256 0 !! Z.to_nat (p / 8)) as [x|] eqn:E; cbn.
  - apply lookup_replicate in E as [-> _]. apply Z.bits_0.
  - apply Z.bits_0.
Qed.
Lemma window_pos z : 0 <= z mod REPLAY_WINDOW < REPLAY_WINDOW.
Proof. apply Z.mod_pos_bound. by vm_compute. Qed.

(** The clearing loop clears the positions of [max+1 .. max+shift]. *)
Lemma replay_bit_clear_list bm max l q :
  len bm = 256 -> 0 <= q < REPLAY_WINDOW ->
  let bm' := fold_left (fun bm i => replay_clear bm ((max + i) mod REPLAY_WINDOW)) l bm in
  len bm' = 256 /\
  replay_bit bm' q = negb (existsb (fun i => (max + i) mod REPLAY_WINDOW =? q) l) && replay_bit bm q.
Proof.
  intros Hlen Hq. revert bm Hlen. induction l as [|i l IH]; intros bm Hlen; cbn; [done|].
  destruct (IH (replay_clear bm ((max + i) mod REPLAY_WINDOW))) as [-> ->].
  { by rewrite len_replay_clear. }
  split; [done|]. rewrite replay_bit_clear by (try done; apply window_pos).
  rewrite negb_orb. destruct (_ =? q), (existsb _ l); done.
Qed.

(** ** The window refines the set of accepted counters *)

(** The specification of the anti-replay check: [seen] holds the counters
    accepted so far, [newest] the largest of them. *)
Record Seen := mkSeen { seen : gset Z; newest : option Z }.
Definition seen_empty : Seen := mkSeen ∅ None.
Definition seen_allows (a : Seen) (ctr : Z) : bool :=
  match newest a with
  | None => true
  | Some m => (m <? ctr) || ((m - ctr <? REPLAY_WINDOW) && bool_decide (ctr ∉ seen a))
  end.
Definition seen_add (a : Seen) (ctr : Z) : Seen :=
  mkSeen ({[ctr]} ∪ seen a)
    (Some (match newest a with None => ctr | Some m => Z.max m ctr end)).

(** The refinement relation: over the last 2048 counters the bitmap is the
    characteristic function of [seen]. *)
Record window_rel (c : SecureFrameCipher) (a : Seen) : Prop := mkWindow {
  wr_len : len (m_replayBitmap c) = 256;
  wr_started : m_recvStarted c = match newest a with Some _ => true | None => false end;
  wr_newest : forall m, newest a = Some m ->
    m_recvMaxCounter c = m /\ m ∈ seen a /\ forall x, x ∈ seen a -> x <= m;
  wr_none : newest a = None -> seen a = ∅;
  wr_bits : forall m x, newest a = Some m -> m - REPLAY_WINDOW < x <= m ->
    replay_bit (m_replayBitmap c) (x mod REPLAY_WINDOW) = bool_decide (x ∈ seen a)
}.

Lemma window_rel_fresh c :
  m_recvStarted c = false -> len (m_replayBitmap c) = 256 -> window_rel c seen_empty.
Proof. intros H1 H2. by constructor. Qed.

Lemma window_allows c a ctr :
  window_rel c a -> isCounterAllowed c ctr = seen_allows a ctr.
Proof.
  intros [_ Hst Hmax _ Hbits]. unfold isCounterAllowed, seen_allows. rewrite Hst.
  destruct (newest a) as [m|] eqn:Em; [|done]. cbn [negb].
  destruct (Hmax m eq_refl) as (-> & _ & _).
  destruct (Z.ltb_spec m ctr); [done|]. cbn [orb].
  destruct (Z.leb_spec REPLAY_WINDOW (m - ctr)), (Z.ltb_spec (m - ctr) REPLAY_WINDOW);
    cbn [andb]; try lia; try done.
  rewrite (Hbits m ctr eq_refl) by lia. by rewrite bool_decide_not.
Qed.

Lemma window_congr m x y :
  m - REPLAY_WINDOW < x <= m -> m - REPLAY_WINDOW < y <= m ->
  x mod REPLAY_WINDOW = y mod REPLAY_WINDOW -> x = y.
Proof.
  unfold REPLAY_WINDOW. intros Hx Hy E.
  pose proof (Z.div_mod x 2048). pose proof (Z.div_mod y 2048).
  assert (x / 2048 = y / 2048) by nia. lia.
Qed.

(** Setting the bit of [ctr] in a window ending at [m]. *)
Lemma window_finish c (S : gset Z) m ctr :
  len (m_replayBitmap c) = 256 -> m_recvStarted c = true -> m_recvMaxCounter c = m ->
  m - REPLAY_WINDOW < ctr <= m -> (forall x, x ∈ S -> x <= m) -> m ∈ {[ctr]} ∪ S ->
  (forall x, m - REPLAY_WINDOW < x <= m ->
     replay_bit (m_replayBitmap c) (x mod REPLAY_WINDOW) = bool_decide (x ∈ S)) ->
  (ctr ∉ S) ->
  replay_bit (m_replayBitmap c) (ctr mod REPLAY_WINDOW) = false /\
  window_rel (set_m_replayBitmap (replay_set (m_replayBitmap c) (ctr mod REPLAY_WINDOW)) c)
    (mkSeen ({[ctr]} ∪ S) (Some m)).
Proof.
  intros Hlen Hst Hmax Hctr Hle Hin Hbits Hnot. split.
  { rewrite Hbits by lia. by rewrite bool_decide_eq_false_2. }
  constructor; cbn; try done.
  - by rewrite len_replay_set.
  - intros k [= <-]. split; [done|]. split; [done|].
    intros x [->%elem_of_singleton|?]%elem_of_union; [lia|by apply Hle].
  - intros k x [= <-] Hx.
    rewrite replay_bit_set, Hbits by (done || apply window_pos).
    destruct (Z.eqb_spec (ctr mod REPLAY_WINDOW) (x mod REPLAY_WINDOW)) as [E|E]; cbn [orb].
    + apply (window_congr m) in E; [|done..]. subst x.
      rewrite bool_decide_eq_true_2; [done|set_solver].
    + apply bool_decide_ext. rewrite elem_of_union, elem_of_singleton. naive_solver.
Qed.

(** Moving the window forward to [ctr] clears the bits of the new counters. *)
Lemma window_shift bm (S : gset Z) m ctr :
  len bm = 256 -> m < ctr -> (forall x, x ∈ S -> x <= m) ->
  (forall x, m - REPLAY_WINDOW < x <= m ->
     replay_bit bm (x mod REPLAY_WINDOW) = bool_decide (x ∈ S)) ->
  let bm' := if REPLAY_WINDOW <=? ctr - m then zeros 256
             else replay_clear_range bm m (ctr - m) in
  len bm' = 256 /\
  forall x, ctr - REPLAY_WINDOW < x <= ctr ->
    replay_bit bm' (x mod REPLAY_WINDOW) = bool_decide (x ∈ S).
Proof.
  intros Hlen Hlt Hle Hbits. cbv zeta.
  destruct (Z.leb_spec REPLAY_WINDOW (ctr - m)) as [Hbig|Hsmall].
  { split; [done|]. intros x Hx. rewrite replay_bit_zeros, bool_decide_eq_false_2; [done|].
    intros ?%Hle. lia. }
  unfold replay_clear_range.
  pose proof (fun q => replay_bit_clear_list bm m (seqZ 1 (ctr - m)) q Hlen) as H.
  split; [apply (H 0); by vm_compute|].
  intros x Hx. destruct (H (x mod REPLAY_WINDOW) (window_pos x)) as [_ ->].
  destruct (decide (m < x)) as [Hn|Hn].
  - rewrite bool_decide_eq_false_2 by (intros ?%Hle; lia).
    replace (existsb _ _) with true; [done|]. symmetry. apply existsb_exists.
    exists (x - m). split; [apply list_elem_of_In, elem_of_seqZ; lia|].
    apply Z.eqb_eq. f_equal. lia.
  - rewrite Hbits by lia. replace (existsb _ _) with false; [done|]. symmetry.
    apply not_true_is_false. intros (i & Hi & E)%existsb_exists.
    apply list_elem_of_In, elem_of_seqZ in Hi. apply Z.eqb_eq in E.
    apply (window_congr ctr) in E; lia.
Qed.

(** Recording an allowed counter adds it to the set. *)
Lemma window_record c a ctr :
  window_rel c a -> seen_allows a ctr = true ->
  fst (recordCounter c ctr) = true /\ window_rel (snd (recordCounter c ctr)) (seen_add a ctr).
Proof.
  intros [Hlen Hst Hmax Hnone Hbits] Ha. unfold recordCounter, seen_allows, seen_add in *.
  rewrite Hst. destruct a as [S o]. cbn [seen newest] in *. destruct o as [m|]; cbn [negb].
  - destruct (Hmax m eq_refl) as (Em & Hin & Hle). rewrite Em.
    pose proof (fun x => Hbits m x eq_refl) as Hw0.
    destruct (Z.ltb_spec m ctr) as [Hlt|Hge].
    + destruct (window_shift (m_replayBitmap c) S m ctr) as [Hl Hb]; [done..|].
      rewrite Z.max_r by lia.
      destruct (window_finish (set_m_recvMaxCounter ctr (set_m_replayBitmap
          (if REPLAY_WINDOW <=? ctr - m then zeros 256
           else replay_clear_range (m_replayBitmap c) m (ctr - m)) c)) S ctr ctr)
        as [E Hw]; [exact Hl|exact Hst|done|unfold REPLAY_WINDOW; lia|
                    intros x ?%Hle; lia|set_solver|exact Hb|intros ?%Hle; lia|].
      cbn in E, Hw |- *. rewrite E. done.
    + cbn [orb] in Ha. bools. rewrite Z.max_l by lia.
      destruct (Z.leb_spec REPLAY_WINDOW (m - ctr)); [lia|].
      destruct (window_finish c S m ctr) as [E Hw]; [done..|lia|done|set_solver|done|done|].
      rewrite E. done.
  - rewrite (Hnone eq_refl).
    destruct (window_finish (set_m_replayBitmap (zeros 256)
        (set_m_recvMaxCounter ctr (set_m_recvStarted true c))) ∅ ctr ctr) as [E Hw];
      [done|done|done|unfold REPLAY_WINDOW; lia|set_solver|set_solver| |set_solver|].
    { intros x _. cbn [m_replayBitmap set_m_replayBitmap]. rewrite replay_bit_zeros.
      rewrite bool_decide_eq_false_2; [done|set_solver]. }
    cbn in E, Hw |- *. rewrite E. done.
Qed.

(** ** Octets of a counter *)

Lemma be_bytes_snoc k v : be_bytes (S k) v = be_bytes k (Z.shiftr v 8) ++ [Z.land v 255].
Proof.
  revert v. induction k as [|k IH]; intros v.
  { cbn. by rewrite Z.shiftr_0_r. }
  change (be_bytes (S (S k)) v) with
    (Z.land (Z.shiftr v (8 * Z.of_nat (S k))) 255 :: be_bytes (S k) v).
  rewrite IH. cbn [be_bytes app]. f_equal. f_equal.
  rewrite Z.shiftr_shiftr by lia. f_equal. lia.
Qed.
Lemma writeU64BE_loop_be n v acc : writeU64BE_loop n v acc = be_bytes n v ++ acc.
Proof.
  revert v acc. induction n as [|n IH]; intros v acc; [done|].
  cbn [writeU64BE_loop]. rewrite IH, be_bytes_snoc. by rewrite <- app_assoc.
Qed.
Lemma writeU64BE_be v : writeU64BE v = be_bytes 8 v.
Proof. unfold writeU64BE. rewrite writeU64BE_loop_be. apply app_nil_r. Qed.
Lemma readU64BE_prefix l rest : length l = 8%nat -> readU64BE (l ++ rest) = be_value l.
Proof. intros H. do 9 (destruct l as [|? l]; try discriminate). reflexivity. Qed.
Lemma readU64BE_write v rest : 0 <= v <= UINT64_MAX -> readU64BE (writeU64BE v ++ rest) = v.
Proof.
  intros Hv. rewrite writeU64BE_be, readU64BE_prefix by apply length_be_bytes.
  apply be_value_small. unfold UINT64_MAX in Hv. change (256 ^ Z.of_nat 8) with 18446744073709551616.
  lia.
Qed.
Lemma buildNonce_inj seed a b :
  0 <= a <= UINT64_MAX -> 0 <= b <= UINT64_MAX ->
  buildNonce seed a = buildNonce seed b -> a = b.
Proof.
  intros Ha Hb E. unfold buildNonce in E. apply app_inv_tail in E.
  rewrite <- (readU64BE_write a [] Ha), <- (readU64BE_write b [] Hb). by rewrite E.
Qed.

Section Channel.
Context `{CryptoLaws}.

(** ** One frame *)

(** The sender's and the receiver's end of one direction. *)
Record paired (s r : SecureFrameCipher) : Prop := mkPaired {
  pr_key : m_sendKey s = m_recvKey r;
  pr_seed : m_sendNonceSeed s = m_recvNonceSeed r;
  pr_s : m_initialized s = true;
  pr_r : m_initialized r = true
}.

Lemma encrypt_frame c plain ad :
  m_initialized c = true -> 0 <= m_sendCounter c < UINT64_MAX ->
  let lock := crypto_aead_lock (m_sendKey c) (buildNonce (m_sendNonceSeed c) (m_sendCounter c)) ad plain in
  encrypt c plain ad =
    (writeU64BE (m_sendCounter c) ++ fst lock ++ snd lock, set_m_sendCounter (m_sendCounter c + 1) c).
Proof.
  intros Hi Hc. unfold encrypt. rewrite Hi.
  destruct (Z.eqb_spec (m_sendCounter c) UINT64_MAX); [lia|]. cbn [negb orb].
  rewrite (surjective_pairing (crypto_aead_lock _ _ _ _)). f_equal. f_equal.
  unfold u64. apply Z.mod_small. unfold UINT64_MAX in Hc. lia.
Qed.

Lemma len_encrypt c plain ad :
  m_initialized c = true -> 0 <= m_sendCounter c < UINT64_MAX ->
  len (fst (encrypt c plain ad)) = len plain + SECURE_FRAME_OVERHEAD.
Proof.
  intros Hi Hc. rewrite encrypt_frame by done. cbn [fst].
  destruct (aead_lock_size (m_sendKey c) (buildNonce (m_sendNonceSeed c) (m_sendCounter c)) ad plain)
    as [H1 H2].
  rewrite !len_app, H1, H2, writeU64BE_be, len_be_bytes.
  change SECURE_FRAME_OVERHEAD with 24. lia.
Qed.

(** What the receiver does with a frame its peer sent. *)
Lemma decrypt_genuine s r plain ad :
  paired s r -> 0 <= m_sendCounter s < UINT64_MAX ->
  decrypt r (fst (encrypt s plain ad)) ad =
  if isCounterAllowed r (m_sendCounter s)
  then (Some plain, snd (recordCounter r (m_sendCounter s)))
  else (None, r).
Proof.
  intros [Hk Hn Hs Hr] Hc. pose proof (len_encrypt s plain ad Hs Hc) as Hl.
  rewrite encrypt_frame in * by done. cbn [fst] in *.
  set (lock := crypto_aead_lock _ _ _ _) in *.
  assert (len (fst lock) = len plain /\ len (snd lock) = 16) as [H1 H2] by apply aead_lock_size.
  unfold decrypt. rewrite Hr, Hl. pose proof (len_nonneg plain) as Hp.
  change SECURE_FRAME_OVERHEAD with 24 in *.
  destruct (Z.ltb_spec (len plain + 24) 24); [lia|]. cbn [negb orb].
  rewrite readU64BE_write by lia.
  destruct (isCounterAllowed r (m_sendCounter s)); [|done]. cbn [negb].
  assert (len (writeU64BE (m_sendCounter s)) = 8) as Hw by (rewrite writeU64BE_be; apply len_be_bytes).
  replace (len plain + 24 - SECURE_COUNTER_SIZE - SECURE_MAC_SIZE) with (len plain)
    by (unfold SECURE_COUNTER_SIZE, SECURE_MAC_SIZE; lia).
  assert (slice SECURE_COUNTER_SIZE (len plain)
            (writeU64BE (m_sendCounter s) ++ fst lock ++ snd lock) = fst lock) as ->.
  { by apply slice_mid. }
  assert (slice (SECURE_COUNTER_SIZE + len plain) SECURE_MAC_SIZE
            (writeU64BE (m_sendCounter s) ++ fst lock ++ snd lock) = snd lock) as ->.
  { rewrite app_assoc, <- (app_nil_r (snd lock)) at 1. apply slice_mid; [|done].
    rewrite len_app, Hw, H1. done. }
  rewrite <- Hk, <- Hn. unfold lock. by rewrite aead_unlock_lock.
Qed.

Lemma recordCounter_frame r ctr :
  let r' := snd (recordCounter r ctr) in
  m_recvKey r' = m_recvKey r /\ m_recvNonceSeed r' = m_recvNonceSeed r /\
  m_initialized r' = m_initialized r /\ m_sendKey r' = m_sendKey r /\
  m_sendNonceSeed r' = m_sendNonceSeed r /\ m_sendCounter r' = m_sendCounter r.
Proof. unfold recordCounter. repeat case_match; done. Qed.

(** ** Runs *)

(** Send the messages in turn. *)
Fixpoint encrypt_run (c : SecureFrameCipher) (ad : bytes) (ps : list bytes)
    : list bytes * SecureFrameCipher :=
  match ps with
  | [] => ([], c)
  | p :: ps =>
      let '(f, c) := encrypt c p ad in
      let '(fs, c) := encrypt_run c ad ps in (f :: fs, c)
  end.
(** Receive the frames in turn: the counter and plaintext of each accepted one. *)
Fixpoint decrypt_run (c : SecureFrameCipher) (ad : bytes) (fs : list bytes)
    : list (option (Z * bytes)) * SecureFrameCipher :=
  match fs with
  | [] => ([], c)
  | f :: fs =>
      let '(o, c) := decrypt c f ad in
      let '(os, c) := decrypt_run c ad fs in
      ((match o with Some p => Some (readU64BE f, p) | None => None end) :: os, c)
  end.
(** The specification of a receiver: accept a counter the set allows. *)
Fixpoint seen_run (a : Seen) (ds : list (Z * bytes)) : list (option (Z * bytes)) :=
  match ds with
  | [] => []
  | (ctr, p) :: ds =>
      if seen_allows a ctr then Some (ctr, p) :: seen_run (seen_add a ctr) ds
      else None :: seen_run a ds
  end.

Lemma encrypt_run_spec c ad ps :
  m_initialized c = true -> 0 <= m_sendCounter c <= UINT64_MAX ->
  let fs := fst (encrypt_run c ad ps) in
  length fs = length ps /\
  forall i f, fs !! i = Some f ->
    let ctr := m_sendCounter c + Z.of_nat i in
    if ctr <? UINT64_MAX
    then exists p, ps !! i = Some p /\ f = fst (encrypt (set_m_sendCounter ctr c) p ad)
    else f = [].
Proof.
  revert c. induction ps as [|p ps IH]; intros c Hi Hc; cbn [encrypt_run].
  { split; [done|]. by intros i f. }
  destruct (decide (m_sendCounter c = UINT64_MAX)) as [Emax|Hne].
  - assert (encrypt c p ad = ([], c)) as ->.
    { unfold encrypt. by rewrite Emax, Z.eqb_refl, orb_true_r. }
    destruct (IH c Hi Hc) as [Hl Hf]. destruct (encrypt_run c ad ps) as [fs c'].
    cbn [fst] in *. split; [cbn [length]; by rewrite Hl|]. intros [|i] f Hf'; cbv zeta.
    + injection Hf' as <-. rewrite Emax. done.
    + specialize (Hf i f Hf'). cbv zeta in Hf.
      destruct (Z.ltb_spec (m_sendCounter c + Z.of_nat i) UINT64_MAX); [lia|].
      destruct (Z.ltb_spec (m_sendCounter c + Z.of_nat (S i)) UINT64_MAX); [lia|done].
  - rewrite encrypt_frame by (done || lia).
    destruct (IH (set_m_sendCounter (m_sendCounter c + 1) c)) as [Hl Hf];
      [done|cbn [m_sendCounter set_m_sendCounter]; lia|].
    destruct (encrypt_run _ ad ps) as [fs c']. cbn [fst] in *.
    split; [cbn [length]; by rewrite Hl|]. intros [|i] f Hf'; cbv zeta.
    + injection Hf' as <-. change (Z.of_nat 0) with 0. rewrite Z.add_0_r.
      destruct (Z.ltb_spec (m_sendCounter c) UINT64_MAX); [|lia].
      exists p. split; [done|]. rewrite encrypt_frame; [done|done|].
      cbn [m_sendCounter set_m_sendCounter]. lia.
    + specialize (Hf i f Hf'). cbn [m_sendCounter set_m_sendCounter] in Hf. cbv zeta in Hf.
      replace (m_sendCounter c + 1 + Z.of_nat i) with (m_sendCounter c + Z.of_nat (S i)) in Hf by lia.
      exact Hf.
Qed.

Definition accepted (os : list (option (Z * bytes))) : list Z := fst <$> omap id os.

Lemma decrypt_cases c f ad :
  (fst (decrypt c f ad) = None /\ snd (decrypt c f ad) = c) \/
  (exists p, fst (decrypt c f ad) = Some p /\ isCounterAllowed c (readU64BE f) = true /\
             snd (decrypt c f ad) = snd (recordCounter c (readU64BE f))).
Proof.
  unfold decrypt. destruct (_ || _); [by left|].
  destruct (isCounterAllowed c (readU64BE f)); cbn [negb]; [|by left].
  destruct (crypto_aead_unlock _ _ _ _ _) as [p|]; [right; by exists p|by left].
Qed.

Lemma seen_allows_fresh c a ctr :
  window_rel c a -> seen_allows a ctr = true -> ctr ∉ seen a.
Proof.
  intros Hw Ha. unfold seen_allows in Ha. destruct (newest a) as [m|] eqn:Em.
  - destruct (wr_newest _ _ Hw m Em) as (_ & _ & Hle).
    apply orb_true_iff in Ha as [Ha|Ha]; bools; [intros ?%Hle; lia|done].
  - rewrite (wr_none _ _ Hw Em). set_solver.
Qed.

Lemma decrypt_run_fresh c a ad fs :
  window_rel c a ->
  NoDup (accepted (fst (decrypt_run c ad fs))) /\
  (forall x, x ∈ accepted (fst (decrypt_run c ad fs)) -> x ∉ seen a).
Proof.
  revert c a. induction fs as [|f fs IH]; intros c a Hw; cbn [decrypt_run].
  { split; [constructor|]. cbn. set_solver. }
  destruct (decrypt_cases c f ad) as [[Ho Hc]|(p & Ho & Hall & Hc)];
    destruct (decrypt c f ad) as [o c1]; cbn [fst snd] in Ho, Hc; subst o c1.
  - destruct (IH c a Hw) as [H1 H2]. destruct (decrypt_run c ad fs) as [os c'].
    cbn. done.
  - rewrite (window_allows _ _ _ Hw) in Hall.
    destruct (window_record _ _ _ Hw Hall) as [_ Hw'].
    destruct (IH _ _ Hw') as [H1 H2]. destruct (decrypt_run _ ad fs) as [os c'].
    cbn [fst] in *. unfold accepted in *. cbn. split.
    + apply NoDup_cons. split; [|done]. intros Hx%H2. cbn in Hx. set_solver.
    + intros x [->|Hx]%elem_of_cons; [by eapply seen_allows_fresh|].
      apply H2 in Hx. cbn in Hx. set_solver.
Qed.

(** C17: no replay.  Whatever frames the network delivers (forged, reordered,
    duplicated), a receiver whose window is fresh never accepts the same
    counter twice, and a rejected frame leaves the cipher exactly as it was. *)
Theorem no_replay c ad fs :
  m_recvStarted c = false -> len (m_replayBitmap c) = 256 ->
  NoDup (accepted (fst (decrypt_run c ad fs))) /\
  (forall c0 f, fst (decrypt c0 f ad) = None -> snd (decrypt c0 f ad) = c0).
Proof.
  intros H1 H2. split; [by apply (decrypt_run_fresh c seen_empty), window_rel_fresh|].
  intros c0 f Hn. destruct (decrypt_cases c0 f ad) as [[_ ?]|(p & E & _)]; [done|congruence].
Qed.

Lemma channel_run s r a ad ps fs ds :
  paired s r -> window_rel r a ->
  0 <= m_sendCounter s -> m_sendCounter s + len ps <= UINT64_MAX ->
  Forall2 (fun f '(ctr, p) => exists i, ctr = m_sendCounter s + Z.of_nat i /\
             ps !! i = Some p /\ f = fst (encrypt (set_m_sendCounter ctr s) p ad)) fs ds ->
  fst (decrypt_run r ad fs) = seen_run a ds.
Proof.
  intros Hp Hw H1 H2 Hall. revert r a Hp Hw.
  induction Hall as [|f [ctr p] fs ds (i & Ec & Hi & Ef) _ IH]; intros r a Hp Hw; [done|].
  cbn [decrypt_run seen_run].
  assert (0 <= ctr < UINT64_MAX) as Hc.
  { apply lookup_lt_Some in Hi. unfold len in H2. lia. }
  assert (paired (set_m_sendCounter ctr s) r) as Hp' by (destruct Hp; by constructor).
  pose proof (decrypt_genuine (set_m_sendCounter ctr s) r p ad Hp' Hc) as E.
  rewrite <- Ef in E. cbn [m_sendCounter set_m_sendCounter] in E.
  rewrite (window_allows _ _ _ Hw) in E. rewrite E.
  assert (readU64BE f = ctr) as Er.
  { rewrite Ef, encrypt_frame; [|apply Hp|exact Hc]. apply readU64BE_write. cbn. lia. }
  destruct (seen_allows a ctr) eqn:Ea.
  - destruct (window_record _ _ _ Hw Ea) as [_ Hw'].
    specialize (IH (snd (recordCounter r ctr)) (seen_add a ctr)).
    destruct (decrypt_run (snd (recordCounter r ctr)) ad fs) as [os c']. cbn [fst] in *.
    rewrite Er. f_equal. apply IH; [|done].
    destruct (recordCounter_frame r ctr) as (E1 & E2 & E3 & _).
    destruct Hp. constructor; congruence.
  - specialize (IH r a Hp Hw). destruct (decrypt_run r ad fs) as [os c']. cbn [fst] in *.
    by rewrite IH.
Qed.

(** C3: the secure channel refines "a set of seen counters".  Take the frames
    a sender makes for messages [ps] and deliver any selection of them, in any
    order and with any repetition ([deliveries] lists indices): the receiver's
    output is exactly that of the set specification - a message comes out
    unchanged iff its counter has not been seen and is less than 2048 behind
    the newest. *)
Theorem channel_refines_seen_set s r ad ps deliveries :
  paired s r -> m_recvStarted r = false -> len (m_replayBitmap r) = 256 ->
  0 <= m_sendCounter s -> m_sendCounter s + len ps <= UINT64_MAX ->
  Forall (fun i => (i < length ps)%nat) deliveries ->
  fst (decrypt_run r ad (map (fun i => nth i (fst (encrypt_run s ad ps)) []) deliveries)) =
  seen_run seen_empty
    (map (fun i => (m_sendCounter s + Z.of_nat i, nth i ps [])) deliveries).
Proof.
  intros Hp Hst Hlen H1 H2 Hd.
  apply (channel_run s r seen_empty ad ps); [done|by apply window_rel_fresh|done|done|].
  destruct (encrypt_run_spec s ad ps (pr_s _ _ Hp)) as [Hl Hf].
  { pose proof (len_nonneg ps). lia. }
  induction Hd as [|i rest Hi Hd IH]; cbn [map]; constructor; [|exact IH].
  exists i. split; [done|].
  destruct (lookup_lt_is_Some_2 ps i Hi) as [p Ep].
  rewrite <- Hl in Hi. destruct (lookup_lt_is_Some_2 _ _ Hi) as [f Ef].
  rewrite (nth_lookup_Some ps i [] p Ep), (nth_lookup_Some _ i [] f Ef).
  split; [done|]. specialize (Hf i f Ef). cbv zeta in Hf.
  destruct (Z.ltb_spec (m_sendCounter s + Z.of_nat i) UINT64_MAX) as [|Hge].
  - destruct Hf as (p' & Ep' & ->). congruence.
  - apply lookup_lt_Some in Ep. unfold len in H2. lia.
Qed.

(** C25: no nonce is used twice under one key.  Every frame a sender emits is
    its counter in clear followed by what the lock returned for the message
    under the sender's key and the nonce of that counter; the counters are
    consecutive from the sender's, so these nonces are pairwise different; and
    once only the reserved last counter is left it emits nothing (the empty
    frame) rather than wrap around. *)
Theorem nonces_unique s ad ps :
  m_initialized s = true -> 0 <= m_sendCounter s <= UINT64_MAX ->
  let fs := fst (encrypt_run s ad ps) in
  let nonce f := buildNonce (m_sendNonceSeed s) (readU64BE f) in
  length fs = length ps /\
  (forall i f, fs !! i = Some f -> f = [] <-> UINT64_MAX <= m_sendCounter s + Z.of_nat i) /\
  (forall i f, fs !! i = Some f -> f <> [] ->
     readU64BE f = m_sendCounter s + Z.of_nat i /\
     exists p, ps !! i = Some p /\
       let lock := crypto_aead_lock (m_sendKey s) (nonce f) ad p in
       f = writeU64BE (m_sendCounter s + Z.of_nat i) ++ fst lock ++ snd lock) /\
  (forall i j f g, fs !! i = Some f -> fs !! j = Some g -> f <> [] -> g <> [] -> i <> j -> nonce f <> nonce g).
Proof.
  intros Hi Hc. cbv zeta. destruct (encrypt_run_spec s ad ps Hi Hc) as [Hl Hf].
  assert (forall i f, fst (encrypt_run s ad ps) !! i = Some f ->
            (f = [] /\ UINT64_MAX <= m_sendCounter s + Z.of_nat i) \/
            (f <> [] /\ m_sendCounter s + Z.of_nat i < UINT64_MAX /\
             readU64BE f = m_sendCounter s + Z.of_nat i /\
             exists p, ps !! i = Some p /\ f = fst (encrypt (set_m_sendCounter (m_sendCounter s + Z.of_nat i) s) p ad)))
    as Hcase.
  { intros i f Ef. specialize (Hf i f Ef). cbv zeta in Hf.
    destruct (Z.ltb_spec (m_sendCounter s + Z.of_nat i) UINT64_MAX) as [Hlt|]; [right|by left].
    destruct Hf as (p & Ep & E). set (ctr := m_sendCounter s + Z.of_nat i) in *.
    pose proof E as E'. rewrite encrypt_frame in E' by (first [done|cbn; lia]). cbn [fst m_sendCounter set_m_sendCounter] in E'.
    split_and!; [|done| |by exists p].
    - rewrite E', writeU64BE_be. cbn [be_bytes]. done.
    - rewrite E'. apply readU64BE_write. cbn. lia. }
  split; [done|]. split; [|split].
  - intros i f Ef. destruct (Hcase i f Ef) as [[]|(? & ? & _)]; [done|].
    split; [done|lia].
  - intros i f Ef Hne. destruct (Hcase i f Ef) as [[]|(_ & ? & R & p & Ep & E)]; [done|].
    split; [exact R|]. exists p. split; [exact Ep|]. rewrite R, E.
    rewrite encrypt_frame by (first [done|cbn; lia]). done.
  - intros i j f g Ei Ej Hfn Hgn Hij E.
    destruct (Hcase i f Ei) as [[]|(_ & ? & Ri & _)]; [done|].
    destruct (Hcase j g Ej) as [[]|(_ & ? & Rj & _)]; [done|].
    rewrite Ri, Rj in E. apply buildNonce_inj in E; lia.
Qed.

(** ** The sending half *)

Definition send_half (k : SecureFrameCipher) := (m_initialized k, m_sendKey k, m_sendNonceSeed k).
Definition counter_ok (k : SecureFrameCipher) : Prop := 0 <= m_sendCounter k <= UINT64_MAX.
Lemma encrypt_half k p ad : send_half (snd (encrypt k p ad)) = send_half k.
Proof. unfold encrypt. destruct (_ || _); [done|]. by destruct (crypto_aead_lock _ _ _ _). Qed.
Lemma decrypt_half k f ad :
  send_half (snd (decrypt k f ad)) = send_half k /\ m_sendCounter (snd (decrypt k f ad)) = m_sendCounter k.
Proof.
  destruct (decrypt_cases k f ad) as [[_ ->]|(p & _ & _ & ->)]; [done|].
  unfold recordCounter. repeat case_match; done.
Qed.
Lemma encrypt_nothing k p ad : fst (encrypt k p ad) = [] -> snd (encrypt k p ad) = k.
Proof.
  unfold encrypt. destruct (_ || _); [done|]. destruct (crypto_aead_lock _ _ _ _) as [c m]. cbn [fst].
  by rewrite writeU64BE_be.
Qed.
Lemma counter_init k master side context : counter_ok k -> counter_ok (cipher_init k master side context).
Proof.
  intros Hk. unfold cipher_init. cbv zeta. destruct (_ && _); [exact Hk|]. unfold counter_ok, UINT64_MAX. destruct side; cbn; lia.
Qed.
(** The frame of a message under a counter. *)
Definition locked (k : SecureFrameCipher) (ctr : Z) (plain : bytes) : bytes :=
  let lock := crypto_aead_lock (m_sendKey k) (buildNonce (m_sendNonceSeed k) ctr) [] plain in
  writeU64BE ctr ++ fst lock ++ snd lock.
Lemma locked_half k k' ctr p : send_half k' = send_half k -> locked k' ctr p = locked k ctr p.
Proof. unfold locked. by intros [= _ -> ->]. Qed.
(** A message is encrypted under the next counter, or not at all. *)
Lemma encrypt_cases k p : counter_ok k -> let '(enc, k') := encrypt k p [] in
  counter_ok k' /\ send_half k' = send_half k /\
  ((enc = [] /\ k' = k) \/
   (m_initialized k = true /\ m_sendCounter k < UINT64_MAX /\ enc = locked k (m_sendCounter k) p /\
    m_sendCounter k' = m_sendCounter k + 1)).
Proof.
  intros Hc. destruct (encrypt k p []) as [enc k'] eqn:E. pose proof (encrypt_half k p []) as Hh. rewrite E in Hh.
  unfold encrypt in E. destruct (m_initialized k) eqn:Ei; [|by injection E as <- <-; auto].
  destruct (Z.eqb_spec (m_sendCounter k) UINT64_MAX) as [|Hne]; [by injection E as <- <-; auto|].
  unfold counter_ok in *. assert (encrypt k p [] = (enc, k')) as E' by (unfold encrypt; rewrite Ei, (proj2 (Z.eqb_neq _ _)) by done; exact E).
  rewrite encrypt_frame in E' by (done || lia). injection E' as <- <-. cbn. split_and!; [lia..|done|right]. split_and!; [done|lia|done|done].
Qed.

(** ** Installing keys *)

(** Installing a session.  Both ends of a fresh session are paired in both
    directions with empty windows and counter 0; installing the same keys
    again changes nothing, so it can never reset a counter or reopen the
    replay window. *)
Lemma cipher_init_paired c c' master context :
  m_initialized c = false -> m_initialized c' = false ->
  let cl := cipher_init c master true context in
  let sv := cipher_init c' master false context in
  paired cl sv /\ paired sv cl /\
  m_sendCounter cl = 0 /\ m_sendCounter sv = 0 /\
  m_recvStarted cl = false /\ m_recvStarted sv = false /\
  len (m_replayBitmap cl) = 256 /\ len (m_replayBitmap sv) = 256 /\
  (forall side k, m_initialized k = true ->
     m_sendKey k = m_sendKey (if side : bool then cl else sv) ->
     m_recvKey k = m_recvKey (if side then cl else sv) ->
     cipher_init k master side context = k).
Proof.
  intros Hc Hc'. unfold cipher_init. rewrite Hc, Hc'. cbn [andb].
  split; [by constructor|]. split; [by constructor|].
  do 6 (split; [done|]). intros side k Hk Es Er.
  assert (forall a b, a = b -> (crypto_verify32 a b =? 0) = true) as Hv
    by (intros a b E; by apply Z.eqb_eq, verify32_spec).
  rewrite Hk. destruct side; cbn in Es, Er; by rewrite !Hv.
Qed.

End Channel.

(** ** Instances *)

#[local] Existing Instances ToyCrypto ToyCryptoLaws.
Definition demo_master : bytes := replicate 32 5.
Definition demo_client : SecureFrameCipher := cipher_init cipher_empty demo_master true "signal".
Definition demo_server : SecureFrameCipher := cipher_init cipher_empty demo_master false "signal".

Lemma no_replay_witness :
  NoDup (accepted (fst (decrypt_run demo_server []
    (let f := fst (encrypt demo_client [1;2;3] []) in [f; f; f])))).
Proof. apply no_replay; vm_compute; reflexivity. Defined.
Lemma channel_refines_seen_set_witness :
  fst (decrypt_run demo_server [] (map (fun i => nth i
    (fst (encrypt_run demo_client [] [[1]; [2]; [3]])) []) [1; 0; 1; 2]%nat)) =
  [Some (1, [2]); Some (0, [1]); None; Some (2, [3])].
Proof.
  assert (paired demo_client demo_server) as Hp by (constructor; reflexivity).
  rewrite (channel_refines_seen_set demo_client demo_server [] [[1]; [2]; [3]] [1; 0; 1; 2]%nat Hp);
    [reflexivity|reflexivity|reflexivity|by vm_compute|by vm_compute|].
  repeat constructor; cbn; lia.
Defined.
Lemma nonces_unique_witness :
  let fs := fst (encrypt_run demo_client [] [[1]; [2]]) in
  readU64BE (nth 0 fs []) = 0 /\ readU64BE (nth 1 fs []) = 1 /\
  buildNonce (m_sendNonceSeed demo_client) (readU64BE (nth 0 fs [])) <>
  buildNonce (m_sendNonceSeed demo_client) (readU64BE (nth 1 fs [])).
Proof.
  split; [by vm_compute|]. split; [by vm_compute|].
  refine (proj2 (proj2 (proj2 (nonces_unique demo_client [] [[1]; [2]] _ _))) 0%nat 1%nat _ _ _ _ _ _ _);
    first [reflexivity|by vm_compute].
Defined.
