(* ===== verification/ServerState.v ===== *)
(** * State of [server/src/signal_server.h]

    The session record of [room.h] ([ClientSession]), the server object, the
    environment it runs in, and the monad of its operations.  A
    [ClientSession&] is the descriptor under which [m_clients] holds it, so
    two references to one session are the same descriptor. *)

From S2P Require Import Prelude Protocol ByteBuf Room SecureFrame.

(** ** Sessions *)

Record ClientSession := mkSession {
  tcpFd : Z;
  dataFd : Z;
  peerId : Z;
  virtualIP : Z;
  roomId : Z;
  remoteIpv4 : Z;
  udpAddr : Z * Z;
  udpAddrKnown : bool;
  name : bytes;
  recvBuf : bytes;
  sendBuf : bytes;
  dataRecvBuf : bytes;
  dataSendBuf : bytes;
  lastPing : Z;
  dataLastPing : Z;
  alive : bool;
  state : SessionState;
  serverAuthOk : bool;
  secureEnabled : bool;
  secureSessionId : Z;
  clientNonce : bytes;
  serverNonce : bytes;
  clientPubKey : bytes;
  serverPrivKey : bytes;
  serverPubKey : bytes;
  secureMaster : bytes;
  secureCipher : SecureFrameCipher;
  dataCipher : SecureFrameCipher;
  udpCipher : SecureFrameCipher;
  helloDeadline : Z;
  authDeadline : Z;
  sendBudgetFailures : Z;
  pendingJoinRoomId : Z;
  authChallenge : bytes;
  resumeRoomId : Z;
  resumePeerId : Z;
  resumeToken : bytes
}.
Definition set_tcpFd (v : Z) (c : ClientSession) : ClientSession :=
  mkSession v c.(dataFd) c.(peerId) c.(virtualIP) c.(roomId) c.(remoteIpv4) c.(udpAddr)
    c.(udpAddrKnown) c.(name) c.(recvBuf) c.(sendBuf) c.(dataRecvBuf) c.(dataSendBuf)
    c.(lastPing) c.(dataLastPing) c.(alive) c.(state) c.(serverAuthOk) c.(secureEnabled)
    c.(secureSessionId) c.(clientNonce) c.(serverNonce) c.(clientPubKey) c.(serverPrivKey)
    c.(serverPubKey) c.(secureMaster) c.(secureCipher) c.(dataCipher) c.(udpCipher)
    c.(helloDeadline) c.(authDeadline) c.(sendBudgetFailures) c.(pendingJoinRoomId)
    c.(authChallenge) c.(resumeRoomId) c.(resumePeerId) c.(resumeToken).
Definition set_dataFd (v : Z) (c : ClientSession) : ClientSession :=
  mkSession c.(tcpFd) v c.(peerId) c.(virtualIP) c.(roomId) c.(remoteIpv4) c.(udpAddr)
    c.(udpAddrKnown) c.(name) c.(recvBuf) c.(sendBuf) c.(dataRecvBuf) c.(dataSendBuf)
    c.(lastPing) c.(dataLastPing) c.(alive) c.(state) c.(serverAuthOk) c.(secureEnabled)
    c.(secureSessionId) c.(clientNonce) c.(serverNonce) c.(clientPubKey) c.(serverPrivKey)
    c.(serverPubKey) c.(secureMaster) c.(secureCipher) c.(dataCipher) c.(udpCipher)
    c.(helloDeadline) c.(authDeadline) c.(sendBudgetFailures) c.(pendingJoinRoomId)
    c.(authChallenge) c.(resumeRoomId) c.(resumePeerId) c.(resumeToken).
Definition set_peerId (v : Z) (c : ClientSession) : ClientSession :=
  mkSession c.(tcpFd) c.(dataFd) v c.(virtualIP) c.(roomId) c.(remoteIpv4) c.(udpAddr)
    c.(udpAddrKnown) c.(name) c.(recvBuf) c.(sendBuf) c.(dataRecvBuf) c.(dataSendBuf)
    c.(lastPing) c.(dataLastPing) c.(alive) c.(state) c.(serverAuthOk) c.(secureEnabled)
    c.(secureSessionId) c.(clientNonce) c.(serverNonce) c.(clientPubKey) c.(serverPrivKey)
    c.(serverPubKey) c.(secureMaster) c.(secureCipher) c.(dataCipher) c.(udpCipher)
    c.(helloDeadline) c.(authDeadline) c.(sendBudgetFailures) c.(pendingJoinRoomId)
    c.(authChallenge) c.(resumeRoomId) c.(resumePeerId) c.(resumeToken).
Definition set_virtualIP (v : Z) (c : ClientSession) : ClientSession :=
  mkSession c.(tcpFd) c.(dataFd) c.(peerId) v c.(roomId) c.(remoteIpv4) c.(udpAddr)
    c.(udpAddrKnown) c.(name) c.(recvBuf) c.(sendBuf) c.(dataRecvBuf) c.(dataSendBuf)
    c.(lastPing) c.(dataLastPing) c.(alive) c.(state) c.(serverAuthOk) c.(secureEnabled)
    c.(secureSessionId) c.(clientNonce) c.(serverNonce) c.(clientPubKey) c.(serverPrivKey)
    c.(serverPubKey) c.(secureMaster) c.(secureCipher) c.(dataCipher) c.(udpCipher)
    c.(helloDeadline) c.(authDeadline) c.(sendBudgetFailures) c.(pendingJoinRoomId)
    c.(authChallenge) c.(resumeRoomId) c.(resumePeerId) c.(resumeToken).
Definition set_roomId (v : Z) (c : ClientSession) : ClientSession :=
  mkSession c.(tcpFd) c.(dataFd) c.(peerId) c.(virtualIP) v c.(remoteIpv4) c.(udpAddr)
    c.(udpAddrKnown) c.(name) c.(recvBuf) c.(sendBuf) c.(dataRecvBuf) c.(dataSendBuf)
    c.(lastPing) c.(dataLastPing) c.(alive) c.(state) c.(serverAuthOk) c.(secureEnabled)
    c.(secureSessionId) c.(clientNonce) c.(serverNonce) c.(clientPubKey) c.(serverPrivKey)
    c.(serverPubKey) c.(secureMaster) c.(secureCipher) c.(dataCipher) c.(udpCipher)
    c.(helloDeadline) c.(authDeadline) c.(sendBudgetFailures) c.(pendingJoinRoomId)
    c.(authChallenge) c.(resumeRoomId) c.(resumePeerId) c.(resumeToken).
Definition set_remoteIpv4 (v : Z) (c : ClientSession) : ClientSession :=
  mkSession c.(tcpFd) c.(dataFd) c.(peerId) c.(virtualIP) c.(roomId) v c.(udpAddr)
    c.(udpAddrKnown) c.(name) c.(recvBuf) c.(sendBuf) c.(dataRecvBuf) c.(dataSendBuf)
    c.(lastPing) c.(dataLastPing) c.(alive) c.(state) c.(serverAuthOk) c.(secureEnabled)
    c.(secureSessionId) c.(clientNonce) c.(serverNonce) c.(clientPubKey) c.(serverPrivKey)
    c.(serverPubKey) c.(secureMaster) c.(secureCipher) c.(dataCipher) c.(udpCipher)
    c.(helloDeadline) c.(authDeadline) c.(sendBudgetFailures) c.(pendingJoinRoomId)
    c.(authChallenge) c.(resumeRoomId) c.(resumePeerId) c.(resumeToken).
Definition set_udpAddr (v : Z * Z) (c : ClientSession) : ClientSession :=
  mkSession c.(tcpFd) c.(dataFd) c.(peerId) c.(virtualIP) c.(roomId) c.(remoteIpv4) v
    c.(udpAddrKnown) c.(name) c.(recvBuf) c.(sendBuf) c.(dataRecvBuf) c.(dataSendBuf)
    c.(lastPing) c.(dataLastPing) c.(alive) c.(state) c.(serverAuthOk) c.(secureEnabled)
    c.(secureSessionId) c.(clientNonce) c.(serverNonce) c.(clientPubKey) c.(serverPrivKey)
    c.(serverPubKey) c.(secureMaster) c.(secureCipher) c.(dataCipher) c.(udpCipher)
    c.(helloDeadline) c.(authDeadline) c.(sendBudgetFailures) c.(pendingJoinRoomId)
    c.(authChallenge) c.(resumeRoomId) c.(resumePeerId) c.(resumeToken).
Definition set_udpAddrKnown (v : bool) (c : ClientSession) : ClientSession :=
  mkSession c.(tcpFd) c.(dataFd) c.(peerId) c.(virtualIP) c.(roomId) c.(remoteIpv4)
    c.(udpAddr) v c.(name) c.(recvBuf) c.(sendBuf) c.(dataRecvBuf) c.(dataSendBuf)
    c.(lastPing) c.(dataLastPing) c.(alive) c.(state) c.(serverAuthOk) c.(secureEnabled)
    c.(secureSessionId) c.(clientNonce) c.(serverNonce) c.(clientPubKey) c.(serverPrivKey)
    c.(serverPubKey) c.(secureMaster) c.(secureCipher) c.(dataCipher) c.(udpCipher)
    c.(helloDeadline) c.(authDeadline) c.(sendBudgetFailures) c.(pendingJoinRoomId)
    c.(authChallenge) c.(resumeRoomId) c.(resumePeerId) c.(resumeToken).
Definition set_name (v : bytes) (c : ClientSession) : ClientSession :=
  mkSession c.(tcpFd) c.(dataFd) c.(peerId) c.(virtualIP) c.(roomId) c.(remoteIpv4)
    c.(udpAddr) c.(udpAddrKnown) v c.(recvBuf) c.(sendBuf) c.(dataRecvBuf) c.(dataSendBuf)
    c.(lastPing) c.(dataLastPing) c.(alive) c.(state) c.(serverAuthOk) c.(secureEnabled)
    c.(secureSessionId) c.(clientNonce) c.(serverNonce) c.(clientPubKey) c.(serverPrivKey)
    c.(serverPubKey) c.(secureMaster) c.(secureCipher) c.(dataCipher) c.(udpCipher)
    c.(helloDeadline) c.(authDeadline) c.(sendBudgetFailures) c.(pendingJoinRoomId)
    c.(authChallenge) c.(resumeRoomId) c.(resumePeerId) c.(resumeToken).
Definition set_recvBuf (v : bytes) (c : ClientSession) : ClientSession :=
  mkSession c.(tcpFd) c.(dataFd) c.(peerId) c.(virtualIP) c.(roomId) c.(remoteIpv4)
    c.(udpAddr) c.(udpAddrKnown) c.(name) v c.(sendBuf) c.(dataRecvBuf) c.(dataSendBuf)
    c.(lastPing) c.(dataLastPing) c.(alive) c.(state) c.(serverAuthOk) c.(secureEnabled)
    c.(secureSessionId) c.(clientNonce) c.(serverNonce) c.(clientPubKey) c.(serverPrivKey)
    c.(serverPubKey) c.(secureMaster) c.(secureCipher) c.(dataCipher) c.(udpCipher)
    c.(helloDeadline) c.(authDeadline) c.(sendBudgetFailures) c.(pendingJoinRoomId)
    c.(authChallenge) c.(resumeRoomId) c.(resumePeerId) c.(resumeToken).
Definition set_sendBuf (v : bytes) (c : ClientSession) : ClientSession :=
  mkSession c.(tcpFd) c.(dataFd) c.(peerId) c.(virtualIP) c.(roomId) c.(remoteIpv4)
    c.(udpAddr) c.(udpAddrKnown) c.(name) c.(recvBuf) v c.(dataRecvBuf) c.(dataSendBuf)
    c.(lastPing) c.(dataLastPing) c.(alive) c.(state) c.(serverAuthOk) c.(secureEnabled)
    c.(secureSessionId) c.(clientNonce) c.(serverNonce) c.(clientPubKey) c.(serverPrivKey)
    c.(serverPubKey) c.(secureMaster) c.(secureCipher) c.(dataCipher) c.(udpCipher)
    c.(helloDeadline) c.(authDeadline) c.(sendBudgetFailures) c.(pendingJoinRoomId)
    c.(authChallenge) c.(resumeRoomId) c.(resumePeerId) c.(resumeToken).
Definition set_dataRecvBuf (v : bytes) (c : ClientSession) : ClientSession :=
  mkSession c.(tcpFd) c.(dataFd) c.(peerId) c.(virtualIP) c.(roomId) c.(remoteIpv4)
    c.(udpAddr) c.(udpAddrKnown) c.(name) c.(recvBuf) c.(sendBuf) v c.(dataSendBuf)
    c.(lastPing) c.(dataLastPing) c.(alive) c.(state) c.(serverAuthOk) c.(secureEnabled)
    c.(secureSessionId) c.(clientNonce) c.(serverNonce) c.(clientPubKey) c.(serverPrivKey)
    c.(serverPubKey) c.(secureMaster) c.(secureCipher) c.(dataCipher) c.(udpCipher)
    c.(helloDeadline) c.(authDeadline) c.(sendBudgetFailures) c.(pendingJoinRoomId)
    c.(authChallenge) c.(resumeRoomId) c.(resumePeerId) c.(resumeToken).
Definition set_dataSendBuf (v : bytes) (c : ClientSession) : ClientSession :=
  mkSession c.(tcpFd) c.(dataFd) c.(peerId) c.(virtualIP) c.(roomId) c.(remoteIpv4)
    c.(udpAddr) c.(udpAddrKnown) c.(name) c.(recvBuf) c.(sendBuf) c.(dataRecvBuf) v
    c.(lastPing) c.(dataLastPing) c.(alive) c.(state) c.(serverAuthOk) c.(secureEnabled)
    c.(secureSessionId) c.(clientNonce) c.(serverNonce) c.(clientPubKey) c.(serverPrivKey)
    c.(serverPubKey) c.(secureMaster) c.(secureCipher) c.(dataCipher) c.(udpCipher)
    c.(helloDeadline) c.(authDeadline) c.(sendBudgetFailures) c.(pendingJoinRoomId)
    c.(authChallenge) c.(resumeRoomId) c.(resumePeerId) c.(resumeToken).
Definition set_lastPing (v : Z) (c : ClientSession) : ClientSession :=
  mkSession c.(tcpFd) c.(dataFd) c.(peerId) c.(virtualIP) c.(roomId) c.(remoteIpv4)
    c.(udpAddr) c.(udpAddrKnown) c.(name) c.(recvBuf) c.(sendBuf) c.(dataRecvBuf)
    c.(dataSendBuf) v c.(dataLastPing) c.(alive) c.(state) c.(serverAuthOk)
    c.(secureEnabled) c.(secureSessionId) c.(clientNonce) c.(serverNonce) c.(clientPubKey)
    c.(serverPrivKey) c.(serverPubKey) c.(secureMaster) c.(secureCipher) c.(dataCipher)
    c.(udpCipher) c.(helloDeadline) c.(authDeadline) c.(sendBudgetFailures)
    c.(pendingJoinRoomId) c.(authChallenge) c.(resumeRoomId) c.(resumePeerId)
    c.(resumeToken).
Definition set_dataLastPing (v : Z) (c : ClientSession) : ClientSession :=
  mkSession c.(tcpFd) c.(dataFd) c.(peerId) c.(virtualIP) c.(roomId) c.(remoteIpv4)
    c.(udpAddr) c.(udpAddrKnown) c.(name) c.(recvBuf) c.(sendBuf) c.(dataRecvBuf)
    c.(dataSendBuf) c.(lastPing) v c.(alive) c.(state) c.(serverAuthOk) c.(secureEnabled)
    c.(secureSessionId) c.(clientNonce) c.(serverNonce) c.(clientPubKey) c.(serverPrivKey)
    c.(serverPubKey) c.(secureMaster) c.(secureCipher) c.(dataCipher) c.(udpCipher)
    c.(helloDeadline) c.(authDeadline) c.(sendBudgetFailures) c.(pendingJoinRoomId)
    c.(authChallenge) c.(resumeRoomId) c.(resumePeerId) c.(resumeToken).
Definition set_alive (v : bool) (c : ClientSession) : ClientSession :=
  mkSession c.(tcpFd) c.(dataFd) c.(peerId) c.(virtualIP) c.(roomId) c.(remoteIpv4)
    c.(udpAddr) c.(udpAddrKnown) c.(name) c.(recvBuf) c.(sendBuf) c.(dataRecvBuf)
    c.(dataSendBuf) c.(lastPing) c.(dataLastPing) v c.(state) c.(serverAuthOk)
    c.(secureEnabled) c.(secureSessionId) c.(clientNonce) c.(serverNonce) c.(clientPubKey)
    c.(serverPrivKey) c.(serverPubKey) c.(secureMaster) c.(secureCipher) c.(dataCipher)
    c.(udpCipher) c.(helloDeadline) c.(authDeadline) c.(sendBudgetFailures)
    c.(pendingJoinRoomId) c.(authChallenge) c.(resumeRoomId) c.(resumePeerId)
    c.(resumeToken).
Definition set_state (v : SessionState) (c : ClientSession) : ClientSession :=
  mkSession c.(tcpFd) c.(dataFd) c.(peerId) c.(virtualIP) c.(roomId) c.(remoteIpv4)
    c.(udpAddr) c.(udpAddrKnown) c.(name) c.(recvBuf) c.(sendBuf) c.(dataRecvBuf)
    c.(dataSendBuf) c.(lastPing) c.(dataLastPing) c.(alive) v c.(serverAuthOk)
    c.(secureEnabled) c.(secureSessionId) c.(clientNonce) c.(serverNonce) c.(clientPubKey)
    c.(serverPrivKey) c.(serverPubKey) c.(secureMaster) c.(secureCipher) c.(dataCipher)
    c.(udpCipher) c.(helloDeadline) c.(authDeadline) c.(sendBudgetFailures)
    c.(pendingJoinRoomId) c.(authChallenge) c.(resumeRoomId) c.(resumePeerId)
    c.(resumeToken).
Definition set_serverAuthOk (v : bool) (c : ClientSession) : ClientSession :=
  mkSession c.(tcpFd) c.(dataFd) c.(peerId) c.(virtualIP) c.(roomId) c.(remoteIpv4)
    c.(udpAddr) c.(udpAddrKnown) c.(name) c.(recvBuf) c.(sendBuf) c.(dataRecvBuf)
    c.(dataSendBuf) c.(lastPing) c.(dataLastPing) c.(alive) c.(state) v c.(secureEnabled)
    c.(secureSessionId) c.(clientNonce) c.(serverNonce) c.(clientPubKey) c.(serverPrivKey)
    c.(serverPubKey) c.(secureMaster) c.(secureCipher) c.(dataCipher) c.(udpCipher)
    c.(helloDeadline) c.(authDeadline) c.(sendBudgetFailures) c.(pendingJoinRoomId)
    c.(authChallenge) c.(resumeRoomId) c.(resumePeerId) c.(resumeToken).
Definition set_secureEnabled (v : bool) (c : ClientSession) : ClientSession :=
  mkSession c.(tcpFd) c.(dataFd) c.(peerId) c.(virtualIP) c.(roomId) c.(remoteIpv4)
    c.(udpAddr) c.(udpAddrKnown) c.(name) c.(recvBuf) c.(sendBuf) c.(dataRecvBuf)
    c.(dataSendBuf) c.(lastPing) c.(dataLastPing) c.(alive) c.(state) c.(serverAuthOk) v
    c.(secureSessionId) c.(clientNonce) c.(serverNonce) c.(clientPubKey) c.(serverPrivKey)
    c.(serverPubKey) c.(secureMaster) c.(secureCipher) c.(dataCipher) c.(udpCipher)
    c.(helloDeadline) c.(authDeadline) c.(sendBudgetFailures) c.(pendingJoinRoomId)
    c.(authChallenge) c.(resumeRoomId) c.(resumePeerId) c.(resumeToken).
Definition set_secureSessionId (v : Z) (c : ClientSession) : ClientSession :=
  mkSession c.(tcpFd) c.(dataFd) c.(peerId) c.(virtualIP) c.(roomId) c.(remoteIpv4)
    c.(udpAddr) c.(udpAddrKnown) c.(name) c.(recvBuf) c.(sendBuf) c.(dataRecvBuf)
    c.(dataSendBuf) c.(lastPing) c.(dataLastPing) c.(alive) c.(state) c.(serverAuthOk)
    c.(secureEnabled) v c.(clientNonce) c.(serverNonce) c.(clientPubKey) c.(serverPrivKey)
    c.(serverPubKey) c.(secureMaster) c.(secureCipher) c.(dataCipher) c.(udpCipher)
    c.(helloDeadline) c.(authDeadline) c.(sendBudgetFailures) c.(pendingJoinRoomId)
    c.(authChallenge) c.(resumeRoomId) c.(resumePeerId) c.(resumeToken).
Definition set_clientNonce (v : bytes) (c : ClientSession) : ClientSession :=
  mkSession c.(tcpFd) c.(dataFd) c.(peerId) c.(virtualIP) c.(roomId) c.(remoteIpv4)
    c.(udpAddr) c.(udpAddrKnown) c.(name) c.(recvBuf) c.(sendBuf) c.(dataRecvBuf)
    c.(dataSendBuf) c.(lastPing) c.(dataLastPing) c.(alive) c.(state) c.(serverAuthOk)
    c.(secureEnabled) c.(secureSessionId) v c.(serverNonce) c.(clientPubKey)
    c.(serverPrivKey) c.(serverPubKey) c.(secureMaster) c.(secureCipher) c.(dataCipher)
    c.(udpCipher) c.(helloDeadline) c.(authDeadline) c.(sendBudgetFailures)
    c.(pendingJoinRoomId) c.(authChallenge) c.(resumeRoomId) c.(resumePeerId)
    c.(resumeToken).
Definition set_serverNonce (v : bytes) (c : ClientSession) : ClientSession :=
  mkSession c.(tcpFd) c.(dataFd) c.(peerId) c.(virtualIP) c.(roomId) c.(remoteIpv4)
    c.(udpAddr) c.(udpAddrKnown) c.(name) c.(recvBuf) c.(sendBuf) c.(dataRecvBuf)
    c.(dataSendBuf) c.(lastPing) c.(dataLastPing) c.(alive) c.(state) c.(serverAuthOk)
    c.(secureEnabled) c.(secureSessionId) c.(clientNonce) v c.(clientPubKey)
    c.(serverPrivKey) c.(serverPubKey) c.(secureMaster) c.(secureCipher) c.(dataCipher)
    c.(udpCipher) c.(helloDeadline) c.(authDeadline) c.(sendBudgetFailures)
    c.(pendingJoinRoomId) c.(authChallenge) c.(resumeRoomId) c.(resumePeerId)
    c.(resumeToken).
Definition set_clientPubKey (v : bytes) (c : ClientSession) : ClientSession :=
  mkSession c.(tcpFd) c.(dataFd) c.(peerId) c.(virtualIP) c.(roomId) c.(remoteIpv4)
    c.(udpAddr) c.(udpAddrKnown) c.(name) c.(recvBuf) c.(sendBuf) c.(dataRecvBuf)
    c.(dataSendBuf) c.(lastPing) c.(dataLastPing) c.(alive) c.(state) c.(serverAuthOk)
    c.(secureEnabled) c.(secureSessionId) c.(clientNonce) c.(serverNonce) v
    c.(serverPrivKey) c.(serverPubKey) c.(secureMaster) c.(secureCipher) c.(dataCipher)
    c.(udpCipher) c.(helloDeadline) c.(authDeadline) c.(sendBudgetFailures)
    c.(pendingJoinRoomId) c.(authChallenge) c.(resumeRoomId) c.(resumePeerId)
    c.(resumeToken).
Definition set_serverPrivKey (v : bytes) (c : ClientSession) : ClientSession :=
  mkSession c.(tcpFd) c.(dataFd) c.(peerId) c.(virtualIP) c.(roomId) c.(remoteIpv4)
    c.(udpAddr) c.(udpAddrKnown) c.(name) c.(recvBuf) c.(sendBuf) c.(dataRecvBuf)
    c.(dataSendBuf) c.(lastPing) c.(dataLastPing) c.(alive) c.(state) c.(serverAuthOk)
    c.(secureEnabled) c.(secureSessionId) c.(clientNonce) c.(serverNonce) c.(clientPubKey) v
    c.(serverPubKey) c.(secureMaster) c.(secureCipher) c.(dataCipher) c.(udpCipher)
    c.(helloDeadline) c.(authDeadline) c.(sendBudgetFailures) c.(pendingJoinRoomId)
    c.(authChallenge) c.(resumeRoomId) c.(resumePeerId) c.(resumeToken).
Definition set_serverPubKey (v : bytes) (c : ClientSession) : ClientSession :=
  mkSession c.(tcpFd) c.(dataFd) c.(peerId) c.(virtualIP) c.(roomId) c.(remoteIpv4)
    c.(udpAddr) c.(udpAddrKnown) c.(name) c.(recvBuf) c.(sendBuf) c.(dataRecvBuf)
    c.(dataSendBuf) c.(lastPing) c.(dataLastPing) c.(alive) c.(state) c.(serverAuthOk)
    c.(secureEnabled) c.(secureSessionId) c.(clientNonce) c.(serverNonce) c.(clientPubKey)
    c.(serverPrivKey) v c.(secureMaster) c.(secureCipher) c.(dataCipher) c.(udpCipher)
    c.(helloDeadline) c.(authDeadline) c.(sendBudgetFailures) c.(pendingJoinRoomId)
    c.(authChallenge) c.(resumeRoomId) c.(resumePeerId) c.(resumeToken).
Definition set_secureMaster (v : bytes) (c : ClientSession) : ClientSession :=
  mkSession c.(tcpFd) c.(dataFd) c.(peerId) c.(virtualIP) c.(roomId) c.(remoteIpv4)
    c.(udpAddr) c.(udpAddrKnown) c.(name) c.(recvBuf) c.(sendBuf) c.(dataRecvBuf)
    c.(dataSendBuf) c.(lastPing) c.(dataLastPing) c.(alive) c.(state) c.(serverAuthOk)
    c.(secureEnabled) c.(secureSessionId) c.(clientNonce) c.(serverNonce) c.(clientPubKey)
    c.(serverPrivKey) c.(serverPubKey) v c.(secureCipher) c.(dataCipher) c.(udpCipher)
    c.(helloDeadline) c.(authDeadline) c.(sendBudgetFailures) c.(pendingJoinRoomId)
    c.(authChallenge) c.(resumeRoomId) c.(resumePeerId) c.(resumeToken).
Definition set_secureCipher (v : SecureFrameCipher) (c : ClientSession) : ClientSession :=
  mkSession c.(tcpFd) c.(dataFd) c.(peerId) c.(virtualIP) c.(roomId) c.(remoteIpv4)
    c.(udpAddr) c.(udpAddrKnown) c.(name) c.(recvBuf) c.(sendBuf) c.(dataRecvBuf)
    c.(dataSendBuf) c.(lastPing) c.(dataLastPing) c.(alive) c.(state) c.(serverAuthOk)
    c.(secureEnabled) c.(secureSessionId) c.(clientNonce) c.(serverNonce) c.(clientPubKey)
    c.(serverPrivKey) c.(serverPubKey) c.(secureMaster) v c.(dataCipher) c.(udpCipher)
    c.(helloDeadline) c.(authDeadline) c.(sendBudgetFailures) c.(pendingJoinRoomId)
    c.(authChallenge) c.(resumeRoomId) c.(resumePeerId) c.(resumeToken).
Definition set_dataCipher (v : SecureFrameCipher) (c : ClientSession) : ClientSession :=
  mkSession c.(tcpFd) c.(dataFd) c.(peerId) c.(virtualIP) c.(roomId) c.(remoteIpv4)
    c.(udpAddr) c.(udpAddrKnown) c.(name) c.(recvBuf) c.(sendBuf) c.(dataRecvBuf)
    c.(dataSendBuf) c.(lastPing) c.(dataLastPing) c.(alive) c.(state) c.(serverAuthOk)
    c.(secureEnabled) c.(secureSessionId) c.(clientNonce) c.(serverNonce) c.(clientPubKey)
    c.(serverPrivKey) c.(serverPubKey) c.(secureMaster) c.(secureCipher) v c.(udpCipher)
    c.(helloDeadline) c.(authDeadline) c.(sendBudgetFailures) c.(pendingJoinRoomId)
    c.(authChallenge) c.(resumeRoomId) c.(resumePeerId) c.(resumeToken).
Definition set_udpCipher (v : SecureFrameCipher) (c : ClientSession) : ClientSession :=
  mkSession c.(tcpFd) c.(dataFd) c.(peerId) c.(virtualIP) c.(roomId) c.(remoteIpv4)
    c.(udpAddr) c.(udpAddrKnown) c.(name) c.(recvBuf) c.(sendBuf) c.(dataRecvBuf)
    c.(dataSendBuf) c.(lastPing) c.(dataLastPing) c.(alive) c.(state) c.(serverAuthOk)
    c.(secureEnabled) c.(secureSessionId) c.(clientNonce) c.(serverNonce) c.(clientPubKey)
    c.(serverPrivKey) c.(serverPubKey) c.(secureMaster) c.(secureCipher) c.(dataCipher) v
    c.(helloDeadline) c.(authDeadline) c.(sendBudgetFailures) c.(pendingJoinRoomId)
    c.(authChallenge) c.(resumeRoomId) c.(resumePeerId) c.(resumeToken).
Definition set_helloDeadline (v : Z) (c : ClientSession) : ClientSession :=
  mkSession c.(tcpFd) c.(dataFd) c.(peerId) c.(virtualIP) c.(roomId) c.(remoteIpv4)
    c.(udpAddr) c.(udpAddrKnown) c.(name) c.(recvBuf) c.(sendBuf) c.(dataRecvBuf)
    c.(dataSendBuf) c.(lastPing) c.(dataLastPing) c.(alive) c.(state) c.(serverAuthOk)
    c.(secureEnabled) c.(secureSessionId) c.(clientNonce) c.(serverNonce) c.(clientPubKey)
    c.(serverPrivKey) c.(serverPubKey) c.(secureMaster) c.(secureCipher) c.(dataCipher)
    c.(udpCipher) v c.(authDeadline) c.(sendBudgetFailures) c.(pendingJoinRoomId)
    c.(authChallenge) c.(resumeRoomId) c.(resumePeerId) c.(resumeToken).
Definition set_authDeadline (v : Z) (c : ClientSession) : ClientSession :=
  mkSession c.(tcpFd) c.(dataFd) c.(peerId) c.(virtualIP) c.(roomId) c.(remoteIpv4)
    c.(udpAddr) c.(udpAddrKnown) c.(name) c.(recvBuf) c.(sendBuf) c.(dataRecvBuf)
    c.(dataSendBuf) c.(lastPing) c.(dataLastPing) c.(alive) c.(state) c.(serverAuthOk)
    c.(secureEnabled) c.(secureSessionId) c.(clientNonce) c.(serverNonce) c.(clientPubKey)
    c.(serverPrivKey) c.(serverPubKey) c.(secureMaster) c.(secureCipher) c.(dataCipher)
    c.(udpCipher) c.(helloDeadline) v c.(sendBudgetFailures) c.(pendingJoinRoomId)
    c.(authChallenge) c.(resumeRoomId) c.(resumePeerId) c.(resumeToken).
Definition set_sendBudgetFailures (v : Z) (c : ClientSession) : ClientSession :=
  mkSession c.(tcpFd) c.(dataFd) c.(peerId) c.(virtualIP) c.(roomId) c.(remoteIpv4)
    c.(udpAddr) c.(udpAddrKnown) c.(name) c.(recvBuf) c.(sendBuf) c.(dataRecvBuf)
    c.(dataSendBuf) c.(lastPing) c.(dataLastPing) c.(alive) c.(state) c.(serverAuthOk)
    c.(secureEnabled) c.(secureSessionId) c.(clientNonce) c.(serverNonce) c.(clientPubKey)
    c.(serverPrivKey) c.(serverPubKey) c.(secureMaster) c.(secureCipher) c.(dataCipher)
    c.(udpCipher) c.(helloDeadline) c.(authDeadline) v c.(pendingJoinRoomId)
    c.(authChallenge) c.(resumeRoomId) c.(resumePeerId) c.(resumeToken).
Definition set_pendingJoinRoomId (v : Z) (c : ClientSession) : ClientSession :=
  mkSession c.(tcpFd) c.(dataFd) c.(peerId) c.(virtualIP) c.(roomId) c.(remoteIpv4)
    c.(udpAddr) c.(udpAddrKnown) c.(name) c.(recvBuf) c.(sendBuf) c.(dataRecvBuf)
    c.(dataSendBuf) c.(lastPing) c.(dataLastPing) c.(alive) c.(state) c.(serverAuthOk)
    c.(secureEnabled) c.(secureSessionId) c.(clientNonce) c.(serverNonce) c.(clientPubKey)
    c.(serverPrivKey) c.(serverPubKey) c.(secureMaster) c.(secureCipher) c.(dataCipher)
    c.(udpCipher) c.(helloDeadline) c.(authDeadline) c.(sendBudgetFailures) v
    c.(authChallenge) c.(resumeRoomId) c.(resumePeerId) c.(resumeToken).
Definition set_authChallenge (v : bytes) (c : ClientSession) : ClientSession :=
  mkSession c.(tcpFd) c.(dataFd) c.(peerId) c.(virtualIP) c.(roomId) c.(remoteIpv4)
    c.(udpAddr) c.(udpAddrKnown) c.(name) c.(recvBuf) c.(sendBuf) c.(dataRecvBuf)
    c.(dataSendBuf) c.(lastPing) c.(dataLastPing) c.(alive) c.(state) c.(serverAuthOk)
    c.(secureEnabled) c.(secureSessionId) c.(clientNonce) c.(serverNonce) c.(clientPubKey)
    c.(serverPrivKey) c.(serverPubKey) c.(secureMaster) c.(secureCipher) c.(dataCipher)
    c.(udpCipher) c.(helloDeadline) c.(authDeadline) c.(sendBudgetFailures)
    c.(pendingJoinRoomId) v c.(resumeRoomId) c.(resumePeerId) c.(resumeToken).
Definition set_resumeRoomId (v : Z) (c : ClientSession) : ClientSession :=
  mkSession c.(tcpFd) c.(dataFd) c.(peerId) c.(virtualIP) c.(roomId) c.(remoteIpv4)
    c.(udpAddr) c.(udpAddrKnown) c.(name) c.(recvBuf) c.(sendBuf) c.(dataRecvBuf)
    c.(dataSendBuf) c.(lastPing) c.(dataLastPing) c.(alive) c.(state) c.(serverAuthOk)
    c.(secureEnabled) c.(secureSessionId) c.(clientNonce) c.(serverNonce) c.(clientPubKey)
    c.(serverPrivKey) c.(serverPubKey) c.(secureMaster) c.(secureCipher) c.(dataCipher)
    c.(udpCipher) c.(helloDeadline) c.(authDeadline) c.(sendBudgetFailures)
    c.(pendingJoinRoomId) c.(authChallenge) v c.(resumePeerId) c.(resumeToken).
Definition set_resumePeerId (v : Z) (c : ClientSession) : ClientSession :=
  mkSession c.(tcpFd) c.(dataFd) c.(peerId) c.(virtualIP) c.(roomId) c.(remoteIpv4)
    c.(udpAddr) c.(udpAddrKnown) c.(name) c.(recvBuf) c.(sendBuf) c.(dataRecvBuf)
    c.(dataSendBuf) c.(lastPing) c.(dataLastPing) c.(alive) c.(state) c.(serverAuthOk)
    c.(secureEnabled) c.(secureSessionId) c.(clientNonce) c.(serverNonce) c.(clientPubKey)
    c.(serverPrivKey) c.(serverPubKey) c.(secureMaster) c.(secureCipher) c.(dataCipher)
    c.(udpCipher) c.(helloDeadline) c.(authDeadline) c.(sendBudgetFailures)
    c.(pendingJoinRoomId) c.(authChallenge) c.(resumeRoomId) v c.(resumeToken).
Definition set_resumeToken (v : bytes) (c : ClientSession) : ClientSession :=
  mkSession c.(tcpFd) c.(dataFd) c.(peerId) c.(virtualIP) c.(roomId) c.(remoteIpv4)
    c.(udpAddr) c.(udpAddrKnown) c.(name) c.(recvBuf) c.(sendBuf) c.(dataRecvBuf)
    c.(dataSendBuf) c.(lastPing) c.(dataLastPing) c.(alive) c.(state) c.(serverAuthOk)
    c.(secureEnabled) c.(secureSessionId) c.(clientNonce) c.(serverNonce) c.(clientPubKey)
    c.(serverPrivKey) c.(serverPubKey) c.(secureMaster) c.(secureCipher) c.(dataCipher)
    c.(udpCipher) c.(helloDeadline) c.(authDeadline) c.(sendBudgetFailures)
    c.(pendingJoinRoomId) c.(authChallenge) c.(resumeRoomId) c.(resumePeerId) v.
(** [ClientSession()]. *)
Definition ClientSession_init : ClientSession :=
  mkSession (-1) (-1) 0 0 0 0 (0, 0) false [] [] [] [] [] 0 0 true AwaitHello false false 0
    (zeros 16) (zeros 16) (zeros 32) (zeros 32) (zeros 32) (zeros 32)
    cipher_empty cipher_empty cipher_empty 0 0 0 0 (zeros 32) 0 0 (zeros 32).
Definition relayFd (c : ClientSession) : Z := if 0 <=? dataFd c then dataFd c else tcpFd c.

(** ** Rate limits, pending connections, capacity *)

Record TokenBucket := mkBucket {
  tb_tokens : f64;
  tb_updated : Z
}.
Definition TokenBucket_init : TokenBucket := mkBucket (f64_of_Z 0) 0.
Record IpState := mkIpState {
  ip_clients : Z;
  ip_pending : Z;
  ip_accepts : TokenBucket;
  ip_authFailures : TokenBucket;
  ip_creates : TokenBucket;
  ip_roomPasswordFailures : TokenBucket;
  ip_lastActivity : Z
}.
Definition set_ip_clients (v : Z) (i : IpState) : IpState :=
  mkIpState v i.(ip_pending) i.(ip_accepts) i.(ip_authFailures) i.(ip_creates)
    i.(ip_roomPasswordFailures) i.(ip_lastActivity).
Definition set_ip_pending (v : Z) (i : IpState) : IpState :=
  mkIpState i.(ip_clients) v i.(ip_accepts) i.(ip_authFailures) i.(ip_creates)
    i.(ip_roomPasswordFailures) i.(ip_lastActivity).
Definition set_ip_accepts (v : TokenBucket) (i : IpState) : IpState :=
  mkIpState i.(ip_clients) i.(ip_pending) v i.(ip_authFailures) i.(ip_creates)
    i.(ip_roomPasswordFailures) i.(ip_lastActivity).
Definition set_ip_authFailures (v : TokenBucket) (i : IpState) : IpState :=
  mkIpState i.(ip_clients) i.(ip_pending) i.(ip_accepts) v i.(ip_creates)
    i.(ip_roomPasswordFailures) i.(ip_lastActivity).
Definition set_ip_creates (v : TokenBucket) (i : IpState) : IpState :=
  mkIpState i.(ip_clients) i.(ip_pending) i.(ip_accepts) i.(ip_authFailures) v
    i.(ip_roomPasswordFailures) i.(ip_lastActivity).
Definition set_ip_roomPasswordFailures (v : TokenBucket) (i : IpState) : IpState :=
  mkIpState i.(ip_clients) i.(ip_pending) i.(ip_accepts) i.(ip_authFailures) i.(ip_creates)
    v i.(ip_lastActivity).
Definition set_ip_lastActivity (v : Z) (i : IpState) : IpState :=
  mkIpState i.(ip_clients) i.(ip_pending) i.(ip_accepts) i.(ip_authFailures) i.(ip_creates)
    i.(ip_roomPasswordFailures) v.
Definition IpState_init : IpState :=
  mkIpState 0 0 TokenBucket_init TokenBucket_init TokenBucket_init TokenBucket_init 0.
Record PendingConn := mkPending {
  pc_fd : Z;
  pc_remoteIpv4 : Z;
  pc_recvBuf : bytes;
  pc_created : Z
}.
Definition set_pc_fd (v : Z) (p : PendingConn) : PendingConn :=
  mkPending v p.(pc_remoteIpv4) p.(pc_recvBuf) p.(pc_created).
Definition set_pc_remoteIpv4 (v : Z) (p : PendingConn) : PendingConn :=
  mkPending p.(pc_fd) v p.(pc_recvBuf) p.(pc_created).
Definition set_pc_recvBuf (v : bytes) (p : PendingConn) : PendingConn :=
  mkPending p.(pc_fd) p.(pc_remoteIpv4) v p.(pc_created).
Definition set_pc_created (v : Z) (p : PendingConn) : PendingConn :=
  mkPending p.(pc_fd) p.(pc_remoteIpv4) p.(pc_recvBuf) v.
Definition PendingConn_init : PendingConn := mkPending (-1) 0 [] 0.
Record ServerLimits := mkLimits {
  maxClients : Z;
  maxPending : Z;
  maxRooms : Z;
  maxClientsPerIp : Z;
  maxPendingPerIp : Z;
  maxSendBufferBytes : Z
}.
Definition ServerLimits_default : ServerLimits :=
  mkLimits 256 64 128 32 8 (64 * 1024 * 1024).

(** ** The published room list *)

Record RoomListState := mkRoomListState {
  rl_roomId : Z;
  rl_roomName : bytes;
  rl_playerCount : Z;
  rl_maxPlayers : Z;
  rl_tcpPolicy : RoomTrafficPolicy;
  rl_udpPolicy : RoomTrafficPolicy;
  rl_passwordProtected : Z;
  rl_mtu : Z
}.
#[export] Instance RoomListState_eq_dec : EqDecision RoomListState.
Proof. solve_decision. Defined.

(** ** The environment

    [env_now] is [time(nullptr)], constant while one event is handled.
    [env_random] holds the outcomes of the coming [secureRandomBytes] calls
    ([None] is a failed call, else the octets drawn, of which [n] are written),
    [env_send] those of the coming [send] calls
    (exhausted: the socket would block).  [env_out] records the system calls
    the server made, latest first. *)

Inductive SendResult := SendN (n : Z) | SendAgain | SendFail.
Inductive Effect :=
| OutSend (fd : Z) (data : bytes)
| OutSendTo (addr : Z * Z) (data : bytes)
| OutEpollAdd (fd : Z) (readable writable : bool)
| OutEpollMod (fd : Z) (readable writable : bool)
| OutEpollDel (fd : Z)
| OutClose (fd : Z).

Record Server := mkServer {
  sv_epfd : Z;
  sv_tcpListenFd : Z;
  sv_udpFd : Z;
  sv_running : bool;
  sv_clients : gmap Z ClientSession;
  sv_pending : gmap Z PendingConn;
  sv_dataFdMap : gmap Z Z;
  sv_peerMap : gmap Z Z;
  sv_rooms : RoomManager;
  sv_nextPeerId : Z;
  sv_freePeerIds : gset Z;
  sv_authReady : bool;
  sv_serverAuthHash : bytes;
  sv_serverAuthSalt : bytes;
  sv_secureSessionMap : gmap Z Z;
  sv_limits : ServerLimits;
  sv_globalSendBytes : Z;
  sv_lastDataDropLog : Z;
  sv_suppressedDataDrops : Z;
  sv_lastSendRejectLog : Z;
  sv_suppressedSendRejects : Z;
  sv_ipStates : gmap Z IpState;
  sv_roomListRevision : Z;
  sv_publishedRooms : gmap Z RoomListState;
  env_now : Z;
  env_random : list (option bytes);
  env_send : list SendResult;
  env_out : list Effect
}.
Definition set_sv_epfd (v : Z) (s : Server) : Server :=
  mkServer v s.(sv_tcpListenFd) s.(sv_udpFd) s.(sv_running) s.(sv_clients) s.(sv_pending)
    s.(sv_dataFdMap) s.(sv_peerMap) s.(sv_rooms) s.(sv_nextPeerId) s.(sv_freePeerIds)
    s.(sv_authReady) s.(sv_serverAuthHash) s.(sv_serverAuthSalt) s.(sv_secureSessionMap)
    s.(sv_limits) s.(sv_globalSendBytes) s.(sv_lastDataDropLog) s.(sv_suppressedDataDrops)
    s.(sv_lastSendRejectLog) s.(sv_suppressedSendRejects) s.(sv_ipStates)
    s.(sv_roomListRevision) s.(sv_publishedRooms) s.(env_now) s.(env_random) s.(env_send)
    s.(env_out).
Definition set_sv_tcpListenFd (v : Z) (s : Server) : Server :=
  mkServer s.(sv_epfd) v s.(sv_udpFd) s.(sv_running) s.(sv_clients) s.(sv_pending)
    s.(sv_dataFdMap) s.(sv_peerMap) s.(sv_rooms) s.(sv_nextPeerId) s.(sv_freePeerIds)
    s.(sv_authReady) s.(sv_serverAuthHash) s.(sv_serverAuthSalt) s.(sv_secureSessionMap)
    s.(sv_limits) s.(sv_globalSendBytes) s.(sv_lastDataDropLog) s.(sv_suppressedDataDrops)
    s.(sv_lastSendRejectLog) s.(sv_suppressedSendRejects) s.(sv_ipStates)
    s.(sv_roomListRevision) s.(sv_publishedRooms) s.(env_now) s.(env_random) s.(env_send)
    s.(env_out).
Definition set_sv_udpFd (v : Z) (s : Server) : Server :=
  mkServer s.(sv_epfd) s.(sv_tcpListenFd) v s.(sv_running) s.(sv_clients) s.(sv_pending)
    s.(sv_dataFdMap) s.(sv_peerMap) s.(sv_rooms) s.(sv_nextPeerId) s.(sv_freePeerIds)
    s.(sv_authReady) s.(sv_serverAuthHash) s.(sv_serverAuthSalt) s.(sv_secureSessionMap)
    s.(sv_limits) s.(sv_globalSendBytes) s.(sv_lastDataDropLog) s.(sv_suppressedDataDrops)
    s.(sv_lastSendRejectLog) s.(sv_suppressedSendRejects) s.(sv_ipStates)
    s.(sv_roomListRevision) s.(sv_publishedRooms) s.(env_now) s.(env_random) s.(env_send)
    s.(env_out).
Definition set_sv_running (v : bool) (s : Server) : Server :=
  mkServer s.(sv_epfd) s.(sv_tcpListenFd) s.(sv_udpFd) v s.(sv_clients) s.(sv_pending)
    s.(sv_dataFdMap) s.(sv_peerMap) s.(sv_rooms) s.(sv_nextPeerId) s.(sv_freePeerIds)
    s.(sv_authReady) s.(sv_serverAuthHash) s.(sv_serverAuthSalt) s.(sv_secureSessionMap)
    s.(sv_limits) s.(sv_globalSendBytes) s.(sv_lastDataDropLog) s.(sv_suppressedDataDrops)
    s.(sv_lastSendRejectLog) s.(sv_suppressedSendRejects) s.(sv_ipStates)
    s.(sv_roomListRevision) s.(sv_publishedRooms) s.(env_now) s.(env_random) s.(env_send)
    s.(env_out).
Definition set_sv_clients (v : gmap Z ClientSession) (s : Server) : Server :=
  mkServer s.(sv_epfd) s.(sv_tcpListenFd) s.(sv_udpFd) s.(sv_running) v s.(sv_pending)
    s.(sv_dataFdMap) s.(sv_peerMap) s.(sv_rooms) s.(sv_nextPeerId) s.(sv_freePeerIds)
    s.(sv_authReady) s.(sv_serverAuthHash) s.(sv_serverAuthSalt) s.(sv_secureSessionMap)
    s.(sv_limits) s.(sv_globalSendBytes) s.(sv_lastDataDropLog) s.(sv_suppressedDataDrops)
    s.(sv_lastSendRejectLog) s.(sv_suppressedSendRejects) s.(sv_ipStates)
    s.(sv_roomListRevision) s.(sv_publishedRooms) s.(env_now) s.(env_random) s.(env_send)
    s.(env_out).
Definition set_sv_pending (v : gmap Z PendingConn) (s : Server) : Server :=
  mkServer s.(sv_epfd) s.(sv_tcpListenFd) s.(sv_udpFd) s.(sv_running) s.(sv_clients) v
    s.(sv_dataFdMap) s.(sv_peerMap) s.(sv_rooms) s.(sv_nextPeerId) s.(sv_freePeerIds)
    s.(sv_authReady) s.(sv_serverAuthHash) s.(sv_serverAuthSalt) s.(sv_secureSessionMap)
    s.(sv_limits) s.(sv_globalSendBytes) s.(sv_lastDataDropLog) s.(sv_suppressedDataDrops)
    s.(sv_lastSendRejectLog) s.(sv_suppressedSendRejects) s.(sv_ipStates)
    s.(sv_roomListRevision) s.(sv_publishedRooms) s.(env_now) s.(env_random) s.(env_send)
    s.(env_out).
Definition set_sv_dataFdMap (v : gmap Z Z) (s : Server) : Server :=
  mkServer s.(sv_epfd) s.(sv_tcpListenFd) s.(sv_udpFd) s.(sv_running) s.(sv_clients)
    s.(sv_pending) v s.(sv_peerMap) s.(sv_rooms) s.(sv_nextPeerId) s.(sv_freePeerIds)
    s.(sv_authReady) s.(sv_serverAuthHash) s.(sv_serverAuthSalt) s.(sv_secureSessionMap)
    s.(sv_limits) s.(sv_globalSendBytes) s.(sv_lastDataDropLog) s.(sv_suppressedDataDrops)
    s.(sv_lastSendRejectLog) s.(sv_suppressedSendRejects) s.(sv_ipStates)
    s.(sv_roomListRevision) s.(sv_publishedRooms) s.(env_now) s.(env_random) s.(env_send)
    s.(env_out).
Definition set_sv_peerMap (v : gmap Z Z) (s : Server) : Server :=
  mkServer s.(sv_epfd) s.(sv_tcpListenFd) s.(sv_udpFd) s.(sv_running) s.(sv_clients)
    s.(sv_pending) s.(sv_dataFdMap) v s.(sv_rooms) s.(sv_nextPeerId) s.(sv_freePeerIds)
    s.(sv_authReady) s.(sv_serverAuthHash) s.(sv_serverAuthSalt) s.(sv_secureSessionMap)
    s.(sv_limits) s.(sv_globalSendBytes) s.(sv_lastDataDropLog) s.(sv_suppressedDataDrops)
    s.(sv_lastSendRejectLog) s.(sv_suppressedSendRejects) s.(sv_ipStates)
    s.(sv_roomListRevision) s.(sv_publishedRooms) s.(env_now) s.(env_random) s.(env_send)
    s.(env_out).
Definition set_sv_rooms (v : RoomManager) (s : Server) : Server :=
  mkServer s.(sv_epfd) s.(sv_tcpListenFd) s.(sv_udpFd) s.(sv_running) s.(sv_clients)
    s.(sv_pending) s.(sv_dataFdMap) s.(sv_peerMap) v s.(sv_nextPeerId) s.(sv_freePeerIds)
    s.(sv_authReady) s.(sv_serverAuthHash) s.(sv_serverAuthSalt) s.(sv_secureSessionMap)
    s.(sv_limits) s.(sv_globalSendBytes) s.(sv_lastDataDropLog) s.(sv_suppressedDataDrops)
    s.(sv_lastSendRejectLog) s.(sv_suppressedSendRejects) s.(sv_ipStates)
    s.(sv_roomListRevision) s.(sv_publishedRooms) s.(env_now) s.(env_random) s.(env_send)
    s.(env_out).
Definition set_sv_nextPeerId (v : Z) (s : Server) : Server :=
  mkServer s.(sv_epfd) s.(sv_tcpListenFd) s.(sv_udpFd) s.(sv_running) s.(sv_clients)
    s.(sv_pending) s.(sv_dataFdMap) s.(sv_peerMap) s.(sv_rooms) v s.(sv_freePeerIds)
    s.(sv_authReady) s.(sv_serverAuthHash) s.(sv_serverAuthSalt) s.(sv_secureSessionMap)
    s.(sv_limits) s.(sv_globalSendBytes) s.(sv_lastDataDropLog) s.(sv_suppressedDataDrops)
    s.(sv_lastSendRejectLog) s.(sv_suppressedSendRejects) s.(sv_ipStates)
    s.(sv_roomListRevision) s.(sv_publishedRooms) s.(env_now) s.(env_random) s.(env_send)
    s.(env_out).
Definition set_sv_freePeerIds (v : gset Z) (s : Server) : Server :=
  mkServer s.(sv_epfd) s.(sv_tcpListenFd) s.(sv_udpFd) s.(sv_running) s.(sv_clients)
    s.(sv_pending) s.(sv_dataFdMap) s.(sv_peerMap) s.(sv_rooms) s.(sv_nextPeerId) v
    s.(sv_authReady) s.(sv_serverAuthHash) s.(sv_serverAuthSalt) s.(sv_secureSessionMap)
    s.(sv_limits) s.(sv_globalSendBytes) s.(sv_lastDataDropLog) s.(sv_suppressedDataDrops)
    s.(sv_lastSendRejectLog) s.(sv_suppressedSendRejects) s.(sv_ipStates)
    s.(sv_roomListRevision) s.(sv_publishedRooms) s.(env_now) s.(env_random) s.(env_send)
    s.(env_out).
Definition set_sv_authReady (v : bool) (s : Server) : Server :=
  mkServer s.(sv_epfd) s.(sv_tcpListenFd) s.(sv_udpFd) s.(sv_running) s.(sv_clients)
    s.(sv_pending) s.(sv_dataFdMap) s.(sv_peerMap) s.(sv_rooms) s.(sv_nextPeerId)
    s.(sv_freePeerIds) v s.(sv_serverAuthHash) s.(sv_serverAuthSalt) s.(sv_secureSessionMap)
    s.(sv_limits) s.(sv_globalSendBytes) s.(sv_lastDataDropLog) s.(sv_suppressedDataDrops)
    s.(sv_lastSendRejectLog) s.(sv_suppressedSendRejects) s.(sv_ipStates)
    s.(sv_roomListRevision) s.(sv_publishedRooms) s.(env_now) s.(env_random) s.(env_send)
    s.(env_out).
Definition set_sv_serverAuthHash (v : bytes) (s : Server) : Server :=
  mkServer s.(sv_epfd) s.(sv_tcpListenFd) s.(sv_udpFd) s.(sv_running) s.(sv_clients)
    s.(sv_pending) s.(sv_dataFdMap) s.(sv_peerMap) s.(sv_rooms) s.(sv_nextPeerId)
    s.(sv_freePeerIds) s.(sv_authReady) v s.(sv_serverAuthSalt) s.(sv_secureSessionMap)
    s.(sv_limits) s.(sv_globalSendBytes) s.(sv_lastDataDropLog) s.(sv_suppressedDataDrops)
    s.(sv_lastSendRejectLog) s.(sv_suppressedSendRejects) s.(sv_ipStates)
    s.(sv_roomListRevision) s.(sv_publishedRooms) s.(env_now) s.(env_random) s.(env_send)
    s.(env_out).
Definition set_sv_serverAuthSalt (v : bytes) (s : Server) : Server :=
  mkServer s.(sv_epfd) s.(sv_tcpListenFd) s.(sv_udpFd) s.(sv_running) s.(sv_clients)
    s.(sv_pending) s.(sv_dataFdMap) s.(sv_peerMap) s.(sv_rooms) s.(sv_nextPeerId)
    s.(sv_freePeerIds) s.(sv_authReady) s.(sv_serverAuthHash) v s.(sv_secureSessionMap)
    s.(sv_limits) s.(sv_globalSendBytes) s.(sv_lastDataDropLog) s.(sv_suppressedDataDrops)
    s.(sv_lastSendRejectLog) s.(sv_suppressedSendRejects) s.(sv_ipStates)
    s.(sv_roomListRevision) s.(sv_publishedRooms) s.(env_now) s.(env_random) s.(env_send)
    s.(env_out).
Definition set_sv_secureSessionMap (v : gmap Z Z) (s : Server) : Server :=
  mkServer s.(sv_epfd) s.(sv_tcpListenFd) s.(sv_udpFd) s.(sv_running) s.(sv_clients)
    s.(sv_pending) s.(sv_dataFdMap) s.(sv_peerMap) s.(sv_rooms) s.(sv_nextPeerId)
    s.(sv_freePeerIds) s.(sv_authReady) s.(sv_serverAuthHash) s.(sv_serverAuthSalt) v
    s.(sv_limits) s.(sv_globalSendBytes) s.(sv_lastDataDropLog) s.(sv_suppressedDataDrops)
    s.(sv_lastSendRejectLog) s.(sv_suppressedSendRejects) s.(sv_ipStates)
    s.(sv_roomListRevision) s.(sv_publishedRooms) s.(env_now) s.(env_random) s.(env_send)
    s.(env_out).
Definition set_sv_limits (v : ServerLimits) (s : Server) : Server :=
  mkServer s.(sv_epfd) s.(sv_tcpListenFd) s.(sv_udpFd) s.(sv_running) s.(sv_clients)
    s.(sv_pending) s.(sv_dataFdMap) s.(sv_peerMap) s.(sv_rooms) s.(sv_nextPeerId)
    s.(sv_freePeerIds) s.(sv_authReady) s.(sv_serverAuthHash) s.(sv_serverAuthSalt)
    s.(sv_secureSessionMap) v s.(sv_globalSendBytes) s.(sv_lastDataDropLog)
    s.(sv_suppressedDataDrops) s.(sv_lastSendRejectLog) s.(sv_suppressedSendRejects)
    s.(sv_ipStates) s.(sv_roomListRevision) s.(sv_publishedRooms) s.(env_now) s.(env_random)
    s.(env_send) s.(env_out).
Definition set_sv_globalSendBytes (v : Z) (s : Server) : Server :=
  mkServer s.(sv_epfd) s.(sv_tcpListenFd) s.(sv_udpFd) s.(sv_running) s.(sv_clients)
    s.(sv_pending) s.(sv_dataFdMap) s.(sv_peerMap) s.(sv_rooms) s.(sv_nextPeerId)
    s.(sv_freePeerIds) s.(sv_authReady) s.(sv_serverAuthHash) s.(sv_serverAuthSalt)
    s.(sv_secureSessionMap) s.(sv_limits) v s.(sv_lastDataDropLog)
    s.(sv_suppressedDataDrops) s.(sv_lastSendRejectLog) s.(sv_suppressedSendRejects)
    s.(sv_ipStates) s.(sv_roomListRevision) s.(sv_publishedRooms) s.(env_now) s.(env_random)
    s.(env_send) s.(env_out).
Definition set_sv_lastDataDropLog (v : Z) (s : Server) : Server :=
  mkServer s.(sv_epfd) s.(sv_tcpListenFd) s.(sv_udpFd) s.(sv_running) s.(sv_clients)
    s.(sv_pending) s.(sv_dataFdMap) s.(sv_peerMap) s.(sv_rooms) s.(sv_nextPeerId)
    s.(sv_freePeerIds) s.(sv_authReady) s.(sv_serverAuthHash) s.(sv_serverAuthSalt)
    s.(sv_secureSessionMap) s.(sv_limits) s.(sv_globalSendBytes) v
    s.(sv_suppressedDataDrops) s.(sv_lastSendRejectLog) s.(sv_suppressedSendRejects)
    s.(sv_ipStates) s.(sv_roomListRevision) s.(sv_publishedRooms) s.(env_now) s.(env_random)
    s.(env_send) s.(env_out).
Definition set_sv_suppressedDataDrops (v : Z) (s : Server) : Server :=
  mkServer s.(sv_epfd) s.(sv_tcpListenFd) s.(sv_udpFd) s.(sv_running) s.(sv_clients)
    s.(sv_pending) s.(sv_dataFdMap) s.(sv_peerMap) s.(sv_rooms) s.(sv_nextPeerId)
    s.(sv_freePeerIds) s.(sv_authReady) s.(sv_serverAuthHash) s.(sv_serverAuthSalt)
    s.(sv_secureSessionMap) s.(sv_limits) s.(sv_globalSendBytes) s.(sv_lastDataDropLog) v
    s.(sv_lastSendRejectLog) s.(sv_suppressedSendRejects) s.(sv_ipStates)
    s.(sv_roomListRevision) s.(sv_publishedRooms) s.(env_now) s.(env_random) s.(env_send)
    s.(env_out).
Definition set_sv_lastSendRejectLog (v : Z) (s : Server) : Server :=
  mkServer s.(sv_epfd) s.(sv_tcpListenFd) s.(sv_udpFd) s.(sv_running) s.(sv_clients)
    s.(sv_pending) s.(sv_dataFdMap) s.(sv_peerMap) s.(sv_rooms) s.(sv_nextPeerId)
    s.(sv_freePeerIds) s.(sv_authReady) s.(sv_serverAuthHash) s.(sv_serverAuthSalt)
    s.(sv_secureSessionMap) s.(sv_limits) s.(sv_globalSendBytes) s.(sv_lastDataDropLog)
    s.(sv_suppressedDataDrops) v s.(sv_suppressedSendRejects) s.(sv_ipStates)
    s.(sv_roomListRevision) s.(sv_publishedRooms) s.(env_now) s.(env_random) s.(env_send)
    s.(env_out).
Definition set_sv_suppressedSendRejects (v : Z) (s : Server) : Server :=
  mkServer s.(sv_epfd) s.(sv_tcpListenFd) s.(sv_udpFd) s.(sv_running) s.(sv_clients)
    s.(sv_pending) s.(sv_dataFdMap) s.(sv_peerMap) s.(sv_rooms) s.(sv_nextPeerId)
    s.(sv_freePeerIds) s.(sv_authReady) s.(sv_serverAuthHash) s.(sv_serverAuthSalt)
    s.(sv_secureSessionMap) s.(sv_limits) s.(sv_globalSendBytes) s.(sv_lastDataDropLog)
    s.(sv_suppressedDataDrops) s.(sv_lastSendRejectLog) v s.(sv_ipStates)
    s.(sv_roomListRevision) s.(sv_publishedRooms) s.(env_now) s.(env_random) s.(env_send)
    s.(env_out).
Definition set_sv_ipStates (v : gmap Z IpState) (s : Server) : Server :=
  mkServer s.(sv_epfd) s.(sv_tcpListenFd) s.(sv_udpFd) s.(sv_running) s.(sv_clients)
    s.(sv_pending) s.(sv_dataFdMap) s.(sv_peerMap) s.(sv_rooms) s.(sv_nextPeerId)
    s.(sv_freePeerIds) s.(sv_authReady) s.(sv_serverAuthHash) s.(sv_serverAuthSalt)
    s.(sv_secureSessionMap) s.(sv_limits) s.(sv_globalSendBytes) s.(sv_lastDataDropLog)
    s.(sv_suppressedDataDrops) s.(sv_lastSendRejectLog) s.(sv_suppressedSendRejects) v
    s.(sv_roomListRevision) s.(sv_publishedRooms) s.(env_now) s.(env_random) s.(env_send)
    s.(env_out).
Definition set_sv_roomListRevision (v : Z) (s : Server) : Server :=
  mkServer s.(sv_epfd) s.(sv_tcpListenFd) s.(sv_udpFd) s.(sv_running) s.(sv_clients)
    s.(sv_pending) s.(sv_dataFdMap) s.(sv_peerMap) s.(sv_rooms) s.(sv_nextPeerId)
    s.(sv_freePeerIds) s.(sv_authReady) s.(sv_serverAuthHash) s.(sv_serverAuthSalt)
    s.(sv_secureSessionMap) s.(sv_limits) s.(sv_globalSendBytes) s.(sv_lastDataDropLog)
    s.(sv_suppressedDataDrops) s.(sv_lastSendRejectLog) s.(sv_suppressedSendRejects)
    s.(sv_ipStates) v s.(sv_publishedRooms) s.(env_now) s.(env_random) s.(env_send)
    s.(env_out).
Definition set_sv_publishedRooms (v : gmap Z RoomListState) (s : Server) : Server :=
  mkServer s.(sv_epfd) s.(sv_tcpListenFd) s.(sv_udpFd) s.(sv_running) s.(sv_clients)
    s.(sv_pending) s.(sv_dataFdMap) s.(sv_peerMap) s.(sv_rooms) s.(sv_nextPeerId)
    s.(sv_freePeerIds) s.(sv_authReady) s.(sv_serverAuthHash) s.(sv_serverAuthSalt)
    s.(sv_secureSessionMap) s.(sv_limits) s.(sv_globalSendBytes) s.(sv_lastDataDropLog)
    s.(sv_suppressedDataDrops) s.(sv_lastSendRejectLog) s.(sv_suppressedSendRejects)
    s.(sv_ipStates) s.(sv_roomListRevision) v s.(env_now) s.(env_random) s.(env_send)
    s.(env_out).
Definition set_env_now (v : Z) (s : Server) : Server :=
  mkServer s.(sv_epfd) s.(sv_tcpListenFd) s.(sv_udpFd) s.(sv_running) s.(sv_clients)
    s.(sv_pending) s.(sv_dataFdMap) s.(sv_peerMap) s.(sv_rooms) s.(sv_nextPeerId)
    s.(sv_freePeerIds) s.(sv_authReady) s.(sv_serverAuthHash) s.(sv_serverAuthSalt)
    s.(sv_secureSessionMap) s.(sv_limits) s.(sv_globalSendBytes) s.(sv_lastDataDropLog)
    s.(sv_suppressedDataDrops) s.(sv_lastSendRejectLog) s.(sv_suppressedSendRejects)
    s.(sv_ipStates) s.(sv_roomListRevision) s.(sv_publishedRooms) v s.(env_random)
    s.(env_send) s.(env_out).
Definition set_env_random (v : list (option bytes)) (s : Server) : Server :=
  mkServer s.(sv_epfd) s.(sv_tcpListenFd) s.(sv_udpFd) s.(sv_running) s.(sv_clients)
    s.(sv_pending) s.(sv_dataFdMap) s.(sv_peerMap) s.(sv_rooms) s.(sv_nextPeerId)
    s.(sv_freePeerIds) s.(sv_authReady) s.(sv_serverAuthHash) s.(sv_serverAuthSalt)
    s.(sv_secureSessionMap) s.(sv_limits) s.(sv_globalSendBytes) s.(sv_lastDataDropLog)
    s.(sv_suppressedDataDrops) s.(sv_lastSendRejectLog) s.(sv_suppressedSendRejects)
    s.(sv_ipStates) s.(sv_roomListRevision) s.(sv_publishedRooms) s.(env_now) v s.(env_send)
    s.(env_out).
Definition set_env_send (v : list SendResult) (s : Server) : Server :=
  mkServer s.(sv_epfd) s.(sv_tcpListenFd) s.(sv_udpFd) s.(sv_running) s.(sv_clients)
    s.(sv_pending) s.(sv_dataFdMap) s.(sv_peerMap) s.(sv_rooms) s.(sv_nextPeerId)
    s.(sv_freePeerIds) s.(sv_authReady) s.(sv_serverAuthHash) s.(sv_serverAuthSalt)
    s.(sv_secureSessionMap) s.(sv_limits) s.(sv_globalSendBytes) s.(sv_lastDataDropLog)
    s.(sv_suppressedDataDrops) s.(sv_lastSendRejectLog) s.(sv_suppressedSendRejects)
    s.(sv_ipStates) s.(sv_roomListRevision) s.(sv_publishedRooms) s.(env_now) s.(env_random)
    v s.(env_out).
Definition set_env_out (v : list Effect) (s : Server) : Server :=
  mkServer s.(sv_epfd) s.(sv_tcpListenFd) s.(sv_udpFd) s.(sv_running) s.(sv_clients)
    s.(sv_pending) s.(sv_dataFdMap) s.(sv_peerMap) s.(sv_rooms) s.(sv_nextPeerId)
    s.(sv_freePeerIds) s.(sv_authReady) s.(sv_serverAuthHash) s.(sv_serverAuthSalt)
    s.(sv_secureSessionMap) s.(sv_limits) s.(sv_globalSendBytes) s.(sv_lastDataDropLog)
    s.(sv_suppressedDataDrops) s.(sv_lastSendRejectLog) s.(sv_suppressedSendRejects)
    s.(sv_ipStates) s.(sv_roomListRevision) s.(sv_publishedRooms) s.(env_now) s.(env_random)
    s.(env_send) v.
(** [SignalServer()], run with limits [lim] in environment [now]. *)
Definition Server_init (lim : ServerLimits) (now : Z) : Server :=
  mkServer (-1) (-1) (-1) false ∅ ∅ ∅ ∅ RoomManager_init 1 ∅ false (zeros 32) (zeros 16) ∅ lim 0
    0 0 0 0 ∅ 1 ∅ now [] [] [].

(** ** Operations *)

Abbreviation M A := (SE Server A) (only parsing).

(** [ClientSession& c] reached through descriptor [fd]. *)
Definition session (s : Server) (fd : Z) : ClientSession :=
  match sv_clients s !! fd with Some c => c | None => ClientSession_init end.
Definition client (fd : Z) : M ClientSession := gets (fun s => session s fd).
Definition upd (fd : Z) (f : ClientSession -> ClientSession) : M unit :=
  modify (fun s => set_sv_clients (alter f fd (sv_clients s)) s).
Definition now : M Z := gets env_now.
Definition emit (e : Effect) : M unit :=
  modify (fun s => set_env_out (e :: env_out s) s).
Definition get_rooms : M RoomManager := gets sv_rooms.
Definition upd_rooms (f : RoomManager -> RoomManager) : M unit :=
  modify (fun s => set_sv_rooms (f (sv_rooms s)) s).
(** Run a step of the room registry that also returns a value. *)
Definition rooms_step {A} (f : RoomManager -> A * RoomManager) : M A :=
  x <- gets (fun s => fst (f (sv_rooms s))) ;;
  upd_rooms (fun m => snd (f m)) ;;; ret x.

(** [secureRandomBytes(out, n)]: the outcome and the octets written. *)
Definition secureRandomBytes (n : nat) : M (bool * bytes) :=
  r <- gets (fun s => match env_random s with r :: _ => r | [] => None end) ;;
  modify (fun s => set_env_random (tail (env_random s)) s) ;;;
  ret (secureRandomBytesWithProvider n (resize n 0 <$> r)).

(** A read from a message buffer local to a handler. *)
Definition read {A} (m : SE ByteBuffer A) (b : ByteBuffer) : M (A * ByteBuffer) :=
  match m b with
  | (Some a, b') => ret (a, b')
  | (None, _) => throw
  end.
