(* ===== verification/ServerCore.v ===== *)
(** * [server/src/signal_server.cpp]: indexes, send buffers, message sending

    The helpers every handler goes through: the descriptor indexes and their
    lazily repaired lookups, the bounded send buffers with the global budget,
    encryption of outgoing messages, room broadcasts, peer ids, lease tokens
    and the per-address token buckets.  Log lines are not modelled. *)

From S2P Require Import Prelude Protocol ByteBuf Room SecureFrame ServerState.

Section Core.
Context `{Crypto}.

(** [acc |= token[i]] over the 32 octets. *)
Definition tokenIsZero (token : bytes) : bool :=
  fold_left (fun acc i => Z.lor acc (byte_at token i)) (seqZ 0 RECONNECT_TOKEN_SIZE) 0 =? 0.
(** [diff |= a[i] ^ b[i]] over the 32 octets. *)
Definition tokenEquals (a b : bytes) : bool :=
  fold_left (fun diff i => Z.lor diff (u8 (Z.lxor (byte_at a i) (byte_at b i))))
    (seqZ 0 RECONNECT_TOKEN_SIZE) 0 =? 0.

Definition isRequiredControlResponse (msgType : Z) : bool :=
  existsb (Z.eqb msgType)
    [MSG_LOGIN_RESP; MSG_ROOM_CREATED; MSG_JOIN_RESP; MSG_AUTH_CHALLENGE;
     MSG_LOGOUT_ACK; MSG_ERROR].

(** ** Sampled diagnostics (their counters are state) *)

Definition logDataDropSampled : M unit :=
  modify (fun s =>
    if (sv_lastDataDropLog s =? 0) || (5 <=? env_now s - sv_lastDataDropLog s)
    then set_sv_suppressedDataDrops 0 (set_sv_lastDataDropLog (env_now s) s)
    else set_sv_suppressedDataDrops (u64 (sv_suppressedDataDrops s + 1)) s).
Definition logSendRejectSampled : M unit :=
  modify (fun s =>
    if (sv_lastSendRejectLog s =? 0) || (5 <=? env_now s - sv_lastSendRejectLog s)
    then set_sv_suppressedSendRejects 0 (set_sv_lastSendRejectLog (env_now s) s)
    else set_sv_suppressedSendRejects (u64 (sv_suppressedSendRejects s + 1)) s).

(** ** Index lookups: a stale entry is erased *)

(** [findClientOwnerByPeerId] and its siblings share this shape: look the key
    up, check that the session agrees, drop the entry when it does not. *)
Definition find_owner (index : Server -> gmap Z Z) (drop : Z -> M unit)
    (agrees : ClientSession -> bool) (key : Z) : M (option Z) :=
  o <- gets (fun s => index s !! key) ;;
  match o with
  | None => ret None
  | Some fd =>
      ok <- gets (fun s => match sv_clients s !! fd with
                           | None => false
                           | Some c => (tcpFd c =? fd) && agrees c
                           end) ;;
      if ok then ret (Some fd) else drop key ;;; ret None
  end.

Definition findClientOwnerByPeerId (pid : Z) : M (option Z) :=
  if pid =? 0 then ret None else
  find_owner sv_peerMap (fun k => modify (fun s => set_sv_peerMap (delete k (sv_peerMap s)) s))
    (fun c => peerId c =? pid) pid.
Definition findClientByPeerId (pid : Z) : M (option Z) :=
  o <- findClientOwnerByPeerId pid ;;
  match o with
  | None => ret None
  | Some fd =>
      c <- client fd ;;
      if negb (alive c) || negb (serverAuthOk c) || negb (secureEnabled c) ||
         negb (sessionHasPeerIdentity (state c)) then ret None else ret (Some fd)
  end.

Definition findClientOwnerBySecureSessionId (sid : Z) : M (option Z) :=
  if sid =? 0 then ret None else
  find_owner sv_secureSessionMap
    (fun k => modify (fun s => set_sv_secureSessionMap (delete k (sv_secureSessionMap s)) s))
    (fun c => secureSessionId c =? sid) sid.
Definition findClientBySecureSessionId (sid : Z) : M (option Z) :=
  o <- findClientOwnerBySecureSessionId sid ;;
  match o with
  | None => ret None
  | Some fd =>
      c <- client fd ;;
      if negb (alive c) || negb (secureEnabled c) || negb (serverAuthOk c) ||
         bool_decide (state c = Closing) then ret None else ret (Some fd)
  end.

Definition findClientOwnerByDataFd (dfd : Z) : M (option Z) :=
  if dfd <? 0 then ret None else
  find_owner sv_dataFdMap
    (fun k => modify (fun s => set_sv_dataFdMap (delete k (sv_dataFdMap s)) s))
    (fun c => dataFd c =? dfd) dfd.
Definition findClientByDataFd (dfd : Z) : M (option Z) :=
  o <- findClientOwnerByDataFd dfd ;;
  match o with
  | None => ret None
  | Some fd =>
      c <- client fd ;;
      if negb (alive c) || (peerId c =? 0) || (negb (serverAuthOk c) || negb (secureEnabled c)) ||
         negb (sessionCanBindDataChannel (state c)) then ret None else ret (Some fd)
  end.

(** [bindPeerIndex] etc.: refuse a key a different live owner holds. *)
Definition bind_index (index : Server -> gmap Z Z) (set_index : gmap Z Z -> Server -> Server)
    (owner : Z -> M (option Z)) (fd key : Z) : M bool :=
  c <- client fd ;;
  o <- gets (fun s => index s !! key) ;;
  taken <- (match o with
            | Some fd' => if negb (fd' =? tcpFd c)
                          then w <- owner key ;; ret (match w with Some _ => true | None => false end)
                          else ret false
            | None => ret false
            end) ;;
  if taken then ret false else
  r <- gets (fun s => bindUniqueSessionIndex (index s) key (tcpFd c)) ;;
  modify (fun s => set_index (snd r) s) ;;; ret (fst r).

Definition bindPeerIndex (fd pid : Z) : M bool :=
  c <- client fd ;;
  if (pid =? 0) || (tcpFd c <? 0) then ret false else
  bind_index sv_peerMap set_sv_peerMap findClientOwnerByPeerId fd pid.
Definition bindSecureSessionIndex (fd sid : Z) : M bool :=
  c <- client fd ;;
  if (sid =? 0) || (tcpFd c <? 0) then ret false else
  bind_index sv_secureSessionMap set_sv_secureSessionMap findClientOwnerBySecureSessionId fd sid.
Definition bindDataFdIndex (fd dfd : Z) : M bool :=
  c <- client fd ;;
  if (dfd <? 0) || (tcpFd c <? 0) then ret false else
  bind_index sv_dataFdMap set_sv_dataFdMap findClientOwnerByDataFd fd dfd.

Definition unbindClientIndexes (fd : Z) : M unit :=
  c <- client fd ;;
  when (0 <=? dataFd c) (modify (fun s =>
    set_sv_dataFdMap (unbindSessionIndex (sv_dataFdMap s) (dataFd c) (tcpFd c)) s)) ;;;
  when (negb (peerId c =? 0)) (modify (fun s =>
    set_sv_peerMap (unbindSessionIndex (sv_peerMap s) (peerId c) (tcpFd c)) s)) ;;;
  when (negb (secureSessionId c =? 0)) (modify (fun s =>
    set_sv_secureSessionMap (unbindSessionIndex (sv_secureSessionMap s) (secureSessionId c) (tcpFd c)) s)).

(** ** Send buffers *)

Definition target_buf (dataChannel : bool) (c : ClientSession) : bytes :=
  if dataChannel then dataSendBuf c else sendBuf c.
Definition set_target_buf (dataChannel : bool) (v : bytes) (c : ClientSession) : ClientSession :=
  if dataChannel then set_dataSendBuf v c else set_sendBuf v c.

(** [m_globalSendBytes = count > m_globalSendBytes ? 0 : m_globalSendBytes - count]. *)
Definition release_budget (count : Z) : M unit :=
  modify (fun s => set_sv_globalSendBytes
    (if sv_globalSendBytes s <? count then 0 else sv_globalSendBytes s - count) s).

Definition appendSendBuffer (fd : Z) (dataChannel : bool) (first second : bytes) : M bool :=
  if UINT64_MAX - len second <? len first then ret false else
  let added := len first + len second in
  c <- client fd ;;
  global <- gets sv_globalSendBytes ;;
  limit <- gets (fun s => maxSendBufferBytes (sv_limits s)) ;;
  if (MAX_TCP_SEND_BUF - Z.min added MAX_TCP_SEND_BUF <? len (target_buf dataChannel c)) ||
     (MAX_TCP_SEND_BUF <? added) ||
     (limit - Z.min added limit <? global) || (limit <? added)
  then
    when (negb dataChannel && (sendBudgetFailures c <? 255))
      (upd fd (fun c => set_sendBudgetFailures (u8 (sendBudgetFailures c + 1)) c)) ;;;
    ret false
  else
    upd fd (fun c => set_target_buf dataChannel (target_buf dataChannel c ++ first ++ second) c) ;;;
    modify (fun s => set_sv_globalSendBytes (u64 (sv_globalSendBytes s + added)) s) ;;;
    when (negb dataChannel) (upd fd (set_sendBudgetFailures 0)) ;;;
    ret true.

Definition consumeSendBuffer (fd : Z) (dataChannel : bool) (count : Z) : M unit :=
  c <- client fd ;;
  let count := Z.min count (len (target_buf dataChannel c)) in
  upd fd (fun c => set_target_buf dataChannel (drop (Z.to_nat count) (target_buf dataChannel c)) c) ;;;
  release_budget count.

Definition clearSendBuffer (fd : Z) (dataChannel : bool) : M unit :=
  c <- client fd ;;
  let count := len (target_buf dataChannel c) in
  upd fd (set_target_buf dataChannel []) ;;;
  release_budget count.

Definition closeDataChannel (fd : Z) : M unit :=
  c <- client fd ;;
  if dataFd c <? 0 then
    clearSendBuffer fd true ;;; upd fd (set_dataRecvBuf [])
  else
    modify (fun s => set_sv_dataFdMap (unbindSessionIndex (sv_dataFdMap s) (dataFd c) (tcpFd c)) s) ;;;
    upd fd (set_dataFd (-1)) ;;;
    emit (OutEpollDel (dataFd c)) ;;; emit (OutClose (dataFd c)) ;;;
    clearSendBuffer fd true ;;; upd fd (set_dataRecvBuf []).

(** The outcome of the next [send] call. *)
Definition next_send : M SendResult :=
  r <- gets (fun s => match env_send s with r :: _ => r | [] => SendAgain end) ;;
  modify (fun s => set_env_send (tail (env_send s)) s) ;;; ret r.

(** One turn of the flush loop: [Some b] leaves the loop with result [b];
    the loops run at most once per queued octet because [send] returns a
    positive count. *)
Definition flush_turn (fd : Z) (dataChannel : bool) (sock : Z)
    (again failed : M bool) : M (option bool) :=
  c <- client fd ;;
  r <- next_send ;;
  match r with
  | SendN n =>
      if 0 <? n then
        emit (OutSend sock (take (Z.to_nat n) (target_buf dataChannel c))) ;;;
        consumeSendBuffer fd dataChannel n ;;; ret None
      else b <- failed ;; ret (Some b)
  | SendAgain => b <- again ;; ret (Some b)
  | SendFail => b <- failed ;; ret (Some b)
  end.
Fixpoint flush_loop (fuel : nat) (fd : Z) (dataChannel : bool) (sock : Z)
    (again failed done : M bool) : M bool :=
  c <- client fd ;;
  if len (target_buf dataChannel c) =? 0 then done else
  match fuel with
  | O => again
  | S fuel =>
      o <- flush_turn fd dataChannel sock again failed ;;
      match o with
      | Some b => ret b
      | None => flush_loop fuel fd dataChannel sock again failed done
      end
  end.

Definition flushSendBuf (fd : Z) : M unit :=
  c <- client fd ;;
  _ <- flush_loop (length (sendBuf c)) fd false (tcpFd c)
    (c <- client fd ;; emit (OutEpollMod (tcpFd c) (bool_decide (state c <> Closing)) true) ;;; ret true)
    (upd fd (set_alive false) ;;; ret false)
    (c <- client fd ;; emit (OutEpollMod (tcpFd c) (bool_decide (state c <> Closing)) false) ;;; ret true) ;;
  ret tt.

Definition flushDataSendBuf (fd : Z) : M bool :=
  c <- client fd ;;
  if dataFd c <? 0 then ret false else
  flush_loop (length (dataSendBuf c)) fd true (dataFd c)
    (emit (OutEpollMod (dataFd c) true true) ;;; ret true)
    (closeDataChannel fd ;;; ret false)
    (emit (OutEpollMod (dataFd c) true false) ;;; ret true).

(** ** Sending *)

(** [TcpMsgHeader]: type, then the big-endian length. *)
Definition tcp_header (msgType : Z) (body : bytes) : bytes :=
  msgType :: be_bytes 2 (u16 (len body)).

(** [sendMsg(fd, ...)]: [fd] need not be a session. *)
Definition sendMsg (fd msgType : Z) (body : bytes) : M bool :=
  o <- gets (fun s => sv_clients s !! fd) ;;
  match o with
  | None => ret false
  | Some c =>
      if negb (alive c) then ret false else
      if MAX_TCP_MSG_PAYLOAD <? len body then logSendRejectSampled ;;; ret false else
      ok <- appendSendBuffer fd false (tcp_header msgType body) body ;;
      if negb ok then
        logSendRejectSampled ;;;
        c <- client fd ;;
        when (3 <=? sendBudgetFailures c) (upd fd (set_alive false)) ;;;
        ret false
      else
        flushSendBuf fd ;;;
        c <- client fd ;;
        when (MAX_TCP_SEND_BUF <? len (sendBuf c)) (upd fd (set_alive false)) ;;;
        c <- client fd ;; ret (alive c)
  end.

Definition failRequiredControl (fd : Z) : M unit := upd fd (set_alive false).

Definition encryptForClient (fd msgType : Z) (body : bytes) : M bytes :=
  c <- client fd ;;
  let '(enc, cipher) := encrypt (secureCipher c) (msgType :: body) [] in
  upd fd (set_secureCipher cipher) ;;;
  when (len enc =? 0) (upd fd (set_alive false)) ;;;
  ret enc.

Definition sendClientMsg (fd msgType : Z) (body : bytes) : M bool :=
  c <- client fd ;;
  if negb (alive c) then ret false else
  sent <- (if secureEnabled c && serverAuthOk c then
             wrapped <- encryptForClient fd msgType body ;;
             c <- client fd ;;
             if alive c && negb (len wrapped =? 0)
             then sendMsg (tcpFd c) MSG_ENCRYPTED wrapped else ret false
           else if (msgType =? MSG_SERVER_HELLO) || (msgType =? MSG_SERVER_AUTH_OK) ||
                   (msgType =? MSG_ERROR)
           then sendMsg (tcpFd c) msgType body
           else upd fd (set_alive false) ;;; ret false) ;;
  when (negb sent && isRequiredControlResponse msgType) (failRequiredControl fd) ;;;
  ret sent.

Definition error_body (text : string) (code : AuthErrorCode) : bytes :=
  writeString (bytes_of_string text) (writeU16 (AuthErrorCode_u16 code) []).
Definition sendError (fd : Z) (text : string) (code : AuthErrorCode) : M unit :=
  o <- gets (fun s => sv_clients s !! fd) ;;
  match o with
  | Some _ => sendClientMsg fd MSG_ERROR (error_body text code) ;;; ret tt
  | None => sendMsg fd MSG_ERROR (error_body text code) ;;; ret tt
  end.

Definition sendDataMsg (fd msgType : Z) (body : bytes) : M bool :=
  c <- client fd ;;
  if (dataFd c <? 0) || negb (alive c) then ret false else
  if MAX_TCP_MSG_PAYLOAD <? len body then logSendRejectSampled ;;; ret false else
  if negb (secureEnabled c) || negb (serverAuthOk c) then ret false else
  let '(enc, cipher) := encrypt (dataCipher c) (msgType :: body) [] in
  upd fd (set_dataCipher cipher) ;;;
  if len enc =? 0 then upd fd (set_alive false) ;;; ret false else
  if MAX_TCP_MSG_PAYLOAD <? len enc then logSendRejectSampled ;;; ret false else
  ok <- appendSendBuffer fd true (tcp_header MSG_ENCRYPTED enc) enc ;;
  if negb ok then logSendRejectSampled ;;; closeDataChannel fd ;;; ret false else
  c <- client fd ;;
  if MAX_TCP_SEND_BUF <? len (dataSendBuf c) then closeDataChannel fd ;;; ret false else
  flushDataSendBuf fd.

Definition broadcastToRoom (rid msgType : Z) (body : bytes) (excludePeerId : Z) : M unit :=
  m <- get_rooms ;;
  match getRoom m rid with
  | None => ret tt
  | Some room =>
      for_each (peerIds room) (fun mid =>
        if mid =? excludePeerId then ret tt else
        target <- findClientByPeerId mid ;;
        match target with
        | Some fd => sendClientMsg fd msgType body ;;; ret tt
        | None => ret tt
        end)
  end.

Definition sendRelayReady (fd pid : Z) : M unit :=
  sendClientMsg fd MSG_RELAY_READY (writeU32 pid []) ;;; ret tt.
Definition notifyRelayPeers (fd : Z) : M unit :=
  c <- client fd ;;
  m <- get_rooms ;;
  match getRoom m (roomId c) with
  | None => ret tt
  | Some room =>
      for_each (peerIds room) (fun mid =>
        c <- client fd ;;
        if mid =? peerId c then ret tt else
        other <- findClientByPeerId mid ;;
        match other with
        | None => ret tt
        | Some ofd =>
            oc <- client ofd ;;
            sendRelayReady fd (peerId oc) ;;;
            c <- client fd ;;
            sendRelayReady ofd (peerId c)
        end)
  end.

(** ** Peer ids, lease tokens, token buckets *)

Definition allocatePeerId : M Z :=
  free <- gets sv_freePeerIds ;;
  match set_begin free with
  | Some pid => modify (fun s => set_sv_freePeerIds (sv_freePeerIds s ∖ {[pid]}) s) ;;; ret pid
  | None =>
      pid <- gets sv_nextPeerId ;;
      modify (fun s => set_sv_nextPeerId (u32 (sv_nextPeerId s + 1)) s) ;;; ret pid
  end.
Definition releasePeerId (pid : Z) : M unit :=
  if pid =? 0 then ret tt else
  o <- findClientOwnerByPeerId pid ;;
  match o with
  | Some _ => ret tt
  | None => modify (fun s => set_sv_freePeerIds ({[pid]} ∪ sv_freePeerIds s) s)
  end.

(** [None]: no token. *)
Definition generateLeaseToken : M (option bytes) :=
  r <- secureRandomBytes 32 ;;
  if negb (fst r) then ret None else
  if tokenIsZero (snd r) then ret None else ret (Some (snd r)).

(** The bucket selected by the member pointer of [takeIpToken]. *)
Inductive BucketMember := accepts | authFailures | creates | roomPasswordFailures.
Definition get_bucket (b : BucketMember) (i : IpState) : TokenBucket :=
  match b with
  | accepts => ip_accepts i | authFailures => ip_authFailures i
  | creates => ip_creates i | roomPasswordFailures => ip_roomPasswordFailures i
  end.
Definition set_bucket (b : BucketMember) (v : TokenBucket) (i : IpState) : IpState :=
  match b with
  | accepts => set_ip_accepts v i | authFailures => set_ip_authFailures v i
  | creates => set_ip_creates v i | roomPasswordFailures => set_ip_roomPasswordFailures v i
  end.
(** [m_ipStates[ip]], creating the entry. *)
Definition ip_state (s : Server) (ip : Z) : IpState :=
  match sv_ipStates s !! ip with Some i => i | None => IpState_init end.
Definition upd_ip (ip : Z) (f : IpState -> IpState) : M unit :=
  modify (fun s => set_sv_ipStates (<[ip := f (ip_state s ip)]> (sv_ipStates s)) s).

(** The arithmetic of one request on a bucket at time [t]. *)
Definition bucket_refill (b : TokenBucket) (t : Z) (burst refillSeconds : f64) : TokenBucket :=
  if tb_updated b =? 0 then mkBucket burst t
  else if tb_updated b <? t then
    mkBucket (f64_min burst (f64_add (tb_tokens b)
               (f64_div (f64_of_Z (t - tb_updated b)) refillSeconds))) t
  else b.
Definition bucket_take (b : TokenBucket) (t : Z) (burst refillSeconds : f64)
    : bool * TokenBucket :=
  let b := bucket_refill b t burst refillSeconds in
  if f64_lt (tb_tokens b) (f64_of_Z 1) then (false, b)
  else (true, mkBucket (f64_sub (tb_tokens b) (f64_of_Z 1)) (tb_updated b)).

Definition takeIpToken (ip : Z) (member : BucketMember) (burst refillSeconds : Z) : M bool :=
  t <- now ;;
  i <- gets (fun s => ip_state s ip) ;;
  let '(ok, b) := bucket_take (get_bucket member i) t (f64_of_Z burst) (f64_of_Z refillSeconds) in
  upd_ip ip (fun i => set_ip_lastActivity t (set_bucket member b i)) ;;;
  ret ok.

Definition removePending (fd : Z) (closeFd : bool) : M unit :=
  o <- gets (fun s => sv_pending s !! fd) ;;
  match o with
  | None => ret tt
  | Some pc =>
      t <- now ;;
      known <- gets (fun s => sv_ipStates s !! pc_remoteIpv4 pc) ;;
      match known with
      | None => ret tt
      | Some _ => upd_ip (pc_remoteIpv4 pc) (fun i =>
          set_ip_lastActivity t
            (if 0 <? ip_pending i then set_ip_pending (ip_pending i - 1) i else i))
      end ;;;
      emit (OutEpollDel fd) ;;;
      when closeFd (emit (OutClose fd)) ;;;
      modify (fun s => set_sv_pending (delete fd (sv_pending s)) s)
  end.

Definition releaseClientIp (fd : Z) : M unit :=
  c <- client fd ;;
  t <- now ;;
  known <- gets (fun s => sv_ipStates s !! remoteIpv4 c) ;;
  match known with
  | None => ret tt
  | Some _ =>
      upd_ip (remoteIpv4 c) (fun i =>
        set_ip_lastActivity t
          (if 0 <? ip_clients i then set_ip_clients (ip_clients i - 1) i else i)) ;;;
      upd fd (set_remoteIpv4 0)
  end.

Definition cleanupIpStates (t : Z) : M unit :=
  modify (fun s => set_sv_ipStates
    (filter (fun kv => negb ((ip_clients kv.2 =? 0) && (ip_pending kv.2 =? 0) &&
                             (0 <? ip_lastActivity kv.2) &&
                             (600 <=? t - ip_lastActivity kv.2)) = true)
       (sv_ipStates s)) s).

End Core.
