(* ===== verification/ServerRooms.v ===== *)
(** * [server/src/signal_server.cpp]: room membership and the room list

    Lease validation and expiry, join/resume/leave/logout with their required
    responses and rollbacks, teardown of a session, and the revisioned room
    list.  A handler reads its message from a [ByteBuffer]; a read beyond the
    end throws, which [processMessage] turns into a closed session. *)

From S2P Require Import Prelude Protocol ByteBuf Room SecureFrame ServerState ServerCore.

Section Rooms.
Context `{Crypto}.

(** ** The room list *)

Definition room_list_state (room : Room) : RoomListState :=
  mkRoomListState (r_id room) (r_name room) (u8 (len (r_leases room))) (r_maxPlayers room)
    (r_tcpPolicy room) (r_udpPolicy room) (r_passwordProtected room) (r_mtu room).
Definition collectRoomListState (m : RoomManager) : gmap Z RoomListState :=
  fold_left (fun acc '(_, room) => <[r_id room := room_list_state room]> acc)
    (map_ordered (m_rooms m)) ∅.

Definition write_policy (p : RoomTrafficPolicy) (d : bytes) : bytes :=
  writeU8 (KcpProfile_u8 (kcpProfile p)) (writeU8 (FecMode_u8 (fecMode p))
    (writeU8 (TransportMode_u8 (transportMode p)) d)).
Definition writeRoomListItem (room : RoomListState) (d : bytes) : bytes :=
  let d := writeU32 (rl_roomId room) d in
  let d := writeString (rl_roomName room) d in
  let d := writeU8 (rl_playerCount room) d in
  let d := writeU8 (rl_maxPlayers room) d in
  let d := write_policy (rl_tcpPolicy room) d in
  let d := write_policy (rl_udpPolicy room) d in
  let d := writeU8 (rl_passwordProtected room) d in
  writeU16 (rl_mtu room) d.

(** Header of a room list page: revision, index, count, records. *)
Definition PAGE_HEADER : Z := 8 + 2 + 2 + 2.
(** The packing loop: finished pages (latest first), the open page (latest
    record first) and its size. *)
Definition pack_record (acc : list (list bytes) * list bytes * Z) (record : bytes)
    : list (list bytes) * list bytes * Z :=
  let '(full, page, currentSize) := acc in
  if negb (bool_decide (page = [])) && (ROOM_LIST_PAGE_PAYLOAD <? currentSize + len record)
  then (page :: full, [record], PAGE_HEADER + len record)
  else (full, record :: page, currentSize + len record).
Definition packed_pages (records : list bytes) : list (list bytes) :=
  let '(full, page, _) := fold_left pack_record records ([], [], PAGE_HEADER) in
  map (@rev bytes) (rev (page :: full)).
Definition write_page (revision pageCount pageIndex : Z) (records : list bytes) : bytes :=
  let d := writeU64 revision [] in
  let d := writeU16 pageIndex d in
  let d := writeU16 pageCount d in
  let d := writeU16 (u16 (len records)) d in
  fold_left (fun d r => writeBytes r d) records d.
Definition buildRoomListPages (revision : Z) (rooms : gmap Z RoomListState) : list bytes :=
  let packed := packed_pages (map (fun kv => writeRoomListItem kv.2 []) (map_ordered rooms)) in
  let pageCount := u16 (len packed) in
  imap (fun i records => write_page revision pageCount (Z.of_nat i) records)
    (take (Z.to_nat pageCount) packed).

(** The delta between the published list and the current one. *)
Definition room_list_operations (current published : gmap Z RoomListState)
    : list (Z * RoomListState) :=
  map (fun kv => (ROOM_LIST_UPSERT, kv.2))
    (filter (fun kv => bool_decide (published !! kv.1 <> Some kv.2) = true) (map_ordered current))
  ++ map (fun kv => (ROOM_LIST_REMOVE, kv.2))
    (filter (fun kv => bool_decide (current !! kv.1 = None) = true) (map_ordered published)).
Definition write_operation (d : bytes) (op : Z * RoomListState) : bytes :=
  let d := writeU8 op.1 d in
  if op.1 =? ROOM_LIST_UPSERT then writeRoomListItem op.2 d else writeU32 (rl_roomId op.2) d.
Definition room_list_delta (base revision : Z) (ops : list (Z * RoomListState)) : bytes :=
  let d := writeU64 base [] in
  let d := writeU64 revision d in
  let d := writeU16 (u16 (len ops)) d in
  fold_left write_operation ops d.

Definition broadcastRoomListPush : M unit :=
  m <- get_rooms ;;
  let current := collectRoomListState m in
  published <- gets sv_publishedRooms ;;
  let operations := room_list_operations current published in
  if len operations =? 0 then ret tt else
  base <- gets sv_roomListRevision ;;
  modify (fun s => set_sv_roomListRevision (u64 (sv_roomListRevision s + 1)) s) ;;;
  revision <- gets sv_roomListRevision ;;
  let resp := room_list_delta base revision operations in
  if ROOM_LIST_PAGE_PAYLOAD <? len resp then ret tt else
  modify (set_sv_publishedRooms current) ;;;
  fds <- gets (fun s => map fst (map_ordered (sv_clients s))) ;;
  for_each fds (fun fd =>
    c <- client fd ;;
    if (peerId c =? 0) || negb (alive c) || negb (sessionHasPeerIdentity (state c)) ||
       negb (serverAuthOk c)
    then ret tt
    else sendClientMsg fd MSG_ROOM_LIST_PUSH resp ;;; ret tt).

(** ** Leases *)

(** [validateResumeLease]: the lease when the resume is admissible. *)
Definition validateResumeLease (rid pid : Z) (token : bytes) : M (option RoomLease) :=
  if tokenIsZero token then ret None else
  m <- get_rooms ;;
  match getRoom m rid with
  | None => ret None
  | Some room =>
      match leaseByPeerId room pid with
      | None => ret None
      | Some lease =>
          if negb (tokenEquals (l_token lease) token) then ret None else
          t <- now ;;
          if negb (l_online lease) && (0 <? l_expiresAt lease) && (l_expiresAt lease <? t)
          then ret None else ret (Some lease)
      end
  end.

Definition join_response (room : Room) (vip : Z) (token : bytes) : bytes :=
  let d := writeU32 (r_id room) [] in
  let d := writeU32 vip d in
  let d := write_policy (r_tcpPolicy room) d in
  let d := write_policy (r_udpPolicy room) d in
  let d := writeU8 (r_passwordProtected room) d in
  let d := writeU16 (r_mtu room) d in
  let d := writeU8 (u8 (len (r_leases room))) d in
  let d := fold_left (fun d lease =>
             writeString (l_name lease) (writeU32 (l_virtualIP lease) (writeU32 (l_peerId lease) d)))
             (r_leases room) d in
  writeBytes token d.
(** [room] is read through its id, when the message is built. *)
Definition sendJoinResponse (fd rid : Z) (token : bytes) : M bool :=
  m <- get_rooms ;;
  c <- client fd ;;
  let room := default Room_init (getRoom m rid) in
  sendClientMsg fd MSG_JOIN_RESP (join_response room (virtualIP c) token).

(** [room->removeLease(pid); if (room->leases.empty()) m_rooms.eraseRoom(rid)]. *)
Definition drop_lease (t rid pid : Z) (m : RoomManager) : RoomManager :=
  match getRoom m rid with
  | None => m
  | Some _ =>
      let m := alterRoom rid (fun r => snd (removeLease t r pid)) m in
      match getRoom m rid with
      | Some room => if room_empty room then eraseRoom m rid else m
      | None => m
      end
  end.

Definition clear_membership (c : ClientSession) : ClientSession :=
  set_resumeToken (zeros 32) (set_resumePeerId 0 (set_resumeRoomId 0
    (set_virtualIP 0 (set_roomId 0 c)))).

Definition rollbackNewMembership (fd rid : Z) : M unit :=
  c <- client fd ;;
  t <- now ;;
  upd_rooms (drop_lease t rid (peerId c)) ;;;
  upd fd clear_membership ;;;
  upd fd (set_state LoggedIn) ;;;
  upd fd (set_alive false).

Definition mark_offline_in (t rid pid : Z) (m : RoomManager) : RoomManager :=
  alterRoom rid (fun r => snd (markLeaseOffline r pid t)) m.

Definition markSessionOffline (fd : Z) : M unit :=
  c <- client fd ;;
  if roomId c =? 0 then ret tt else
  t <- now ;;
  upd_rooms (mark_offline_in t (roomId c) (peerId c)) ;;;
  upd fd (fun c => set_virtualIP 0 (set_roomId 0 c)).

(** ** Teardown *)

Inductive DisconnectReason := Network | Takeover | LogoutComplete.
#[export] Instance DisconnectReason_eq_dec : EqDecision DisconnectReason.
Proof. solve_decision. Defined.

(** The secrets wiped and ciphers reset before the session is erased. *)
Definition wipe_session (c : ClientSession) : ClientSession :=
  set_udpCipher cipher_empty (set_dataCipher cipher_empty (set_secureCipher cipher_empty
    (set_resumeToken (zeros 32) (set_authChallenge (zeros 32) (set_serverPubKey (zeros 32)
      (set_serverPrivKey (zeros 32) (set_clientPubKey (zeros 32) (set_serverNonce (zeros 16)
        (set_clientNonce (zeros 16) (set_secureMaster (zeros 32) c)))))))))).

(** The tail of [destroyClient]: release the buffers, wipe, close and erase. *)
Definition erase_session (fd : Z) : M unit :=
  clearSendBuffer fd false ;;;
  upd fd (set_recvBuf []) ;;;
  clearSendBuffer fd true ;;;
  upd fd (set_dataRecvBuf []) ;;;
  upd fd wipe_session ;;;
  releaseClientIp fd ;;;
  emit (OutEpollDel fd) ;;; emit (OutClose fd) ;;;
  modify (fun s => set_sv_clients (delete fd (sv_clients s)) s).

Definition destroyClient (fd : Z) (reason : DisconnectReason) : M unit :=
  o <- gets (fun s => sv_clients s !! fd) ;;
  match o with
  | None => ret tt
  | Some _ =>
      upd fd (set_alive false) ;;;
      c <- client fd ;;
      let pid := peerId c in
      owner <- (if negb (pid =? 0) then findClientOwnerByPeerId pid else ret None) ;;
      let peerOwnedByOther := match owner with Some ofd => negb (ofd =? fd) | None => false end in
      let preserve := bool_decide (reason = Takeover) || peerOwnedByOther in
      closeDataChannel fd ;;;
      c <- client fd ;;
      preserve <-
        (if negb peerOwnedByOther && bool_decide (reason <> LogoutComplete) &&
            negb (roomId c =? 0) then
           markSessionOffline fd ;;; ret true
         else if negb peerOwnedByOther && bool_decide (reason <> LogoutComplete) &&
                 bool_decide (state c = ResumePending) && negb (resumeRoomId c =? 0) then
           m <- get_rooms ;;
           t <- now ;;
           match getRoom m (resumeRoomId c) with
           | Some _ =>
               upd_rooms (mark_offline_in t (resumeRoomId c) (peerId c)) ;;; ret true
           | None => ret preserve
           end
         else ret preserve) ;;
      unbindClientIndexes fd ;;;
      when (negb preserve) (releasePeerId pid) ;;;
      erase_session fd
  end.

Definition handleClientDisconnect (fd : Z) : M unit :=
  o <- gets (fun s => sv_clients s !! fd) ;;
  match o with
  | None => ret tt
  | Some c =>
      destroyClient fd (if decide (state c = Closing) then LogoutComplete else Network)
  end.
Definition closeClientForTakeover (fd : Z) : M unit :=
  c <- client fd ;; destroyClient (tcpFd c) Takeover.
Definition handleDataChannelDisconnect (dfd : Z) : M unit :=
  o <- findClientOwnerByDataFd dfd ;;
  match o with
  | None => ret tt
  | Some fd => closeDataChannel fd
  end.

(** ** Lease expiry *)

Definition alter_nth {A} (i : nat) (f : A -> A) (l : list A) : list A := alter f i l.
Definition erase_nth {A} (i : nat) (l : list A) : list A := take i l ++ drop (S i) l.
Definition upd_leases (rid : Z) (f : list RoomLease -> list RoomLease) : M unit :=
  upd_rooms (alterRoom rid (fun r => set_r_leases (f (r_leases r)) r)).
Definition nth_lease (rid : Z) (i : nat) : M (option RoomLease) :=
  gets (fun s => room ← getRoom (sv_rooms s) rid; r_leases room !! i).

(** One turn of the inner loop at index [i]: whether anything changed, and
    whether the lease was erased (the index then stays). *)
Definition expire_lease (t rid : Z) (i : nat) (lease : RoomLease) : M (bool * bool) :=
  live <- findClientByPeerId (l_peerId lease) ;;
  hasLiveSession <- (match live with
    | Some fd => c <- client fd ;;
                 ret ((roomId c =? rid) && bool_decide (state c = InRoom))
    | None => ret false
    end) ;;
  changed <-
    (if hasLiveSession && negb (l_online lease) then
       upd_leases rid (alter_nth i lease_online) ;;; ret true
     else if l_online lease && negb hasLiveSession then
       upd_leases rid (alter_nth i (lease_offline t)) ;;; ret true
     else if negb (l_online lease) && (l_expiresAt lease =? 0) then
       upd_leases rid (alter_nth i (fun l =>
         set_l_expiresAt (t + RECONNECT_LEASE_TIMEOUT_SEC) (set_l_offlineSince t l))) ;;;
       ret true
     else ret false) ;;
  l <- nth_lease rid i ;;
  let lease := default lease l in
  if negb (l_online lease) && (0 <? l_expiresAt lease) && (l_expiresAt lease <? t) then
    let pid := l_peerId lease in
    broadcastToRoom rid MSG_PEER_LEFT (writeU32 pid []) pid ;;;
    upd_leases rid (erase_nth i) ;;;
    o <- findClientByPeerId pid ;;
    when (match o with Some _ => false | None => true end) (releasePeerId pid) ;;;
    ret (true, true)
  else ret (changed, false).
(** Each turn advances the index or shortens the list, so [fuel] = the number
    of leases at the start of the loop is exactly what it takes. *)
Fixpoint expire_leases (fuel : nat) (t rid : Z) (i : nat) (changed : bool) : M bool :=
  match fuel with
  | O => ret changed
  | S fuel =>
      o <- nth_lease rid i ;;
      match o with
      | None => ret changed
      | Some lease =>
          r <- expire_lease t rid i lease ;;
          expire_leases fuel t rid (if snd r then i else S i) (changed || fst r)
      end
  end.
(** One room: its leases, then its host. *)
Definition expire_room (t rid : Z) (changed : bool) : M bool :=
  m <- get_rooms ;;
  let n := match getRoom m rid with Some r => length (r_leases r) | None => O end in
  changed <- expire_leases n t rid 0 changed ;;
  upd_rooms (alterRoom rid ensureHost) ;;; ret changed.
Fixpoint expire_rooms (t : Z) (rids : list Z) (changed : bool) (emptyRooms : list Z)
    : M (bool * list Z) :=
  match rids with
  | [] => ret (changed, emptyRooms)
  | rid :: rids =>
      changed <- expire_room t rid changed ;;
      m <- get_rooms ;;
      let gone := match getRoom m rid with Some r => room_empty r | None => false end in
      expire_rooms t rids changed (if gone then emptyRooms ++ [rid] else emptyRooms)
  end.
Definition cleanupExpiredLeases (t : Z) : M unit :=
  m <- get_rooms ;;
  r <- expire_rooms t (listRooms m) false [] ;;
  for_each (snd r) (fun rid => upd_rooms (fun m => eraseRoom m rid)) ;;;
  when (fst r || negb (bool_decide (snd r = []))) broadcastRoomListPush.

(** ** Membership handlers *)

Definition peer_info_body (pid vip : Z) (nm : bytes) : bytes :=
  writeString nm (writeU32 vip (writeU32 pid [])).

(** Record the new membership in the session. *)
Definition enter_room (rid vip : Z) (token : bytes) (c : ClientSession) : ClientSession :=
  set_state InRoom (set_resumeToken token (set_resumePeerId (peerId c)
    (set_resumeRoomId rid (set_roomId rid (set_virtualIP vip c))))).

(** [room->addLease(...)] through the registry. *)
Definition add_lease_in (rid pid : Z) (nm token : bytes) (m : RoomManager)
    : option RoomLease * RoomManager :=
  match getRoom m rid with
  | None => (None, m)
  | Some r =>
      match addLease r pid nm (Some token) with
      | None => (None, m)
      | Some (lease, r') => (Some lease, alterRoom rid (fun _ => r') m)
      end
  end.

Definition completeJoin (fd rid : Z) : M unit :=
  tok <- generateLeaseToken ;;
  match tok with
  | None => sendError fd "Secure random generation failed" General
  | Some leaseToken =>
      c <- client fd ;;
      l <- rooms_step (add_lease_in rid (peerId c) (name c) leaseToken) ;;
      match l with
      | None => sendError fd "Cannot join room" General
      | Some lease =>
          upd fd (enter_room rid (l_virtualIP lease) leaseToken) ;;;
          ok <- sendJoinResponse fd rid leaseToken ;;
          if negb ok then rollbackNewMembership fd rid else
          c <- client fd ;;
          broadcastToRoom rid MSG_PEER_JOINED
            (peer_info_body (peerId c) (virtualIP c) (name c)) (peerId c) ;;;
          broadcastRoomListPush ;;;
          notifyRelayPeers fd
      end
  end.

Definition completeResume (fd rid : Z) (lease : RoomLease) : M unit :=
  upd_rooms (alterRoom rid (fun r => snd (markLeaseOnline r (l_peerId lease)))) ;;;
  upd fd (fun c => set_state InRoom (set_resumeToken (l_token lease)
    (set_resumePeerId (peerId c) (set_resumeRoomId rid (set_name (l_name lease)
      (set_virtualIP (l_virtualIP lease) (set_roomId rid c))))))) ;;;
  c <- client fd ;;
  bound <- bindPeerIndex fd (peerId c) ;;
  if negb bound then upd fd (set_alive false) else
  ok <- sendJoinResponse fd rid (l_token lease) ;;
  if negb ok then
    c <- client fd ;;
    t <- now ;;
    upd_rooms (mark_offline_in t rid (peerId c)) ;;;
    upd fd (set_alive false)
  else
  c <- client fd ;;
  broadcastToRoom rid MSG_PEER_RESUMED
    (peer_info_body (peerId c) (virtualIP c) (name c)) (peerId c) ;;;
  notifyRelayPeers fd.

Definition onResumeRoom (fd : Z) (p : bytes) : M unit :=
  c <- client fd ;;
  if peerId c =? 0 then sendError fd "Not logged in" General else
  let bb := bb_of p in
  let* (rid, bb) := read readU32 bb in
  let* (pid, bb) := read readU32 bb in
  let* (token, bb) := read (readBytes RECONNECT_TOKEN_SIZE) bb in
  if bool_decide (state c <> ResumePending) || negb (peerId c =? pid) ||
     negb (resumeRoomId c =? rid) || negb (resumePeerId c =? pid) ||
     negb (tokenEquals (resumeToken c) token)
  then sendError fd "Resume rejected" General else
  o <- validateResumeLease rid pid token ;;
  match o with
  | None =>
      m <- get_rooms ;;
      t <- now ;;
      when (match (room ← getRoom m rid; leaseByPeerId room pid) with
            | Some l => negb (l_online l) && (0 <? l_expiresAt l) && (l_expiresAt l <? t) &&
                        tokenEquals (l_token l) token
            | None => false
            end)
        (broadcastToRoom rid MSG_PEER_LEFT (writeU32 pid []) pid ;;;
         upd_rooms (drop_lease t rid pid) ;;;
         broadcastRoomListPush) ;;;
      upd fd (fun c => set_resumeToken (zeros 32) (set_resumePeerId 0
                (set_resumeRoomId 0 (set_state LoggedIn c)))) ;;;
      sendError fd "Resume expired" General
  | Some lease => completeResume fd rid lease
  end.

Definition onLeaveRoom (fd : Z) : M unit :=
  c <- client fd ;;
  if roomId c =? 0 then ret tt else
  let rid := roomId c in
  broadcastToRoom rid MSG_PEER_LEFT (writeU32 (peerId c) []) (peerId c) ;;;
  c <- client fd ;;
  t <- now ;;
  upd_rooms (drop_lease t rid (peerId c)) ;;;
  upd fd clear_membership ;;;
  upd fd (set_state LoggedIn) ;;;
  broadcastRoomListPush.

Definition onLogout (fd : Z) : M unit :=
  c <- client fd ;;
  let pid := peerId c in
  closeDataChannel fd ;;;
  c <- client fd ;;
  t <- now ;;
  roomChanged <-
    (if negb (roomId c =? 0) && negb (pid =? 0) then
       broadcastToRoom (roomId c) MSG_PEER_LEFT (writeU32 pid []) pid ;;;
       upd_rooms (drop_lease t (roomId c) pid) ;;;
       ret true
     else if bool_decide (state c = ResumePending) && negb (resumeRoomId c =? 0) &&
             negb (resumePeerId c =? 0) then
       m <- get_rooms ;;
       match (room ← getRoom m (resumeRoomId c); leaseByPeerId room (resumePeerId c)) with
       | Some lease =>
           if tokenEquals (l_token lease) (resumeToken c) then
             broadcastToRoom (resumeRoomId c) MSG_PEER_LEFT
               (writeU32 (resumePeerId c) []) (resumePeerId c) ;;;
             upd_rooms (drop_lease t (resumeRoomId c) (resumePeerId c)) ;;;
             ret true
           else ret false
       | None => ret false
       end
     else ret false) ;;
  upd fd (set_state Closing) ;;;
  unbindClientIndexes fd ;;;
  when (negb (pid =? 0)) (releasePeerId pid) ;;;
  sendClientMsg fd MSG_LOGOUT_ACK [] ;;;
  upd fd (set_peerId 0) ;;;
  upd fd clear_membership ;;;
  upd fd (fun c => set_udpAddrKnown false (set_authChallenge (zeros 32)
            (set_pendingJoinRoomId 0 c))) ;;;
  when roomChanged broadcastRoomListPush.

Definition onListRooms (fd : Z) : M unit :=
  t <- now ;;
  cleanupExpiredLeases t ;;;
  m <- get_rooms ;;
  revision <- gets sv_roomListRevision ;;
  for_each (buildRoomListPages revision (collectRoomListState m)) (fun page =>
    sendClientMsg fd MSG_ROOM_LIST page ;;; ret tt).

End Rooms.
