(* ===== verification/ServerAuth.v ===== *)
(** * [server/src/signal_server.cpp]: handshake, login, create, join, relay

    The remaining message handlers.  Each handler is reached through
    [processMessage] (file ServerDispatch), which has classified and
    validated the message. *)

From S2P Require Import Prelude Protocol ByteBuf Room SecureFrame ServerState ServerCore ServerRooms.

Section Auth.
Context `{Crypto}.

(** [setAuthPassword]: [alloc_ok] is the Argon2 work-area allocation. *)
Definition setAuthPassword (alloc_ok : bool) (password : bytes) : M bool :=
  modify (set_sv_serverAuthHash (zeros 32)) ;;;
  modify (set_sv_authReady false) ;;;
  if (len password <? 8) || (256 <? len password) then ret false else
  r <- secureRandomBytes 16 ;;
  modify (set_sv_serverAuthSalt (snd r)) ;;;
  if negb (fst r) then ret false else
  match hashPasswordSalted alloc_ok password (snd r) AUTH_KDF_PROFILE with
  | None => ret false
  | Some hash =>
      modify (set_sv_serverAuthHash hash) ;;;
      modify (set_sv_authReady true) ;;; ret true
  end.

(** ** Handshake *)

Definition VERSION_TEXT : string :=
  "Protocol mismatch: server v9; update GUI/CLI and server together.".

Definition onClientHello (fd : Z) (p : bytes) : M unit :=
  c <- client fd ;;
  if bool_decide (state c <> AwaitHello) || negb (len p =? 2 + 16 + 32)
  then upd fd (set_alive false) else
  let bb := bb_of p in
  let* (clientVersion, bb) := read readU16 bb in
  if negb (clientVersion =? PROTOCOL_VERSION) then
    sendError fd VERSION_TEXT VersionMismatch ;;;
    upd fd (set_state Closing) ;;; upd fd (set_helloDeadline 0)
  else
  admitted <- takeIpToken (remoteIpv4 c) authFailures 32 1 ;;
  if negb admitted then
    sendError fd "Authentication rate limit exceeded" RateLimited ;;;
    upd fd (set_state Closing) ;;; upd fd (set_helloDeadline 0)
  else
  let* (nonce, bb) := read (readBytes 16) bb in
  let* (pub, bb) := read (readBytes 32) bb in
  upd fd (fun c => set_serverAuthOk false (set_helloDeadline 0
            (set_clientPubKey pub (set_clientNonce nonce c)))) ;;;
  salt <- gets sv_serverAuthSalt ;;
  r1 <- secureRandomBytes 16 ;;
  upd fd (set_serverNonce (snd r1)) ;;;
  r2 <- (if fst r1
         then r <- secureRandomBytes 32 ;; upd fd (set_serverPrivKey (snd r)) ;;; ret (fst r)
         else ret false) ;;
  if negb r2 then
    upd fd (fun c => set_alive false (set_serverPrivKey (zeros 32) (set_serverNonce (zeros 16) c)))
  else
  t <- now ;;
  upd fd (fun c => set_state AwaitServerAuth (set_authDeadline (t + SERVER_AUTH_TIMEOUT_SEC)
            (set_serverPubKey (crypto_x25519_public_key (serverPrivKey c)) c))) ;;;
  c <- client fd ;;
  let resp := writeU16 PROTOCOL_VERSION [] in
  let resp := writeU8 1 resp in
  let resp := writeU8 AUTH_KDF_PROFILE resp in
  let resp := writeBytes salt resp in
  let resp := writeBytes (serverNonce c) resp in
  let resp := writeBytes (serverPubKey c) resp in
  ok <- sendMsg (tcpFd c) MSG_SERVER_HELLO resp ;;
  when (negb ok) (failRequiredControl fd).

Definition onServerAuth (fd : Z) (p : bytes) : M unit :=
  c <- client fd ;;
  if bool_decide (state c <> AwaitServerAuth) || serverAuthOk c
  then upd fd (set_alive false) else
  t <- now ;;
  if (authDeadline c <? t) || negb (len p =? 32) then
    sendError fd "Server authentication timeout" AuthTimeout ;;; upd fd (set_alive false)
  else
  let shared := crypto_x25519 (serverPrivKey c) (clientPubKey c) in
  upd fd (set_serverPrivKey (zeros 32)) ;;;
  if negb (validX25519Shared shared) then
    sendError fd "Invalid X25519 peer key" InvalidKey ;;; upd fd (set_state Closing)
  else
  authHash <- gets sv_serverAuthHash ;;
  salt <- gets sv_serverAuthSalt ;;
  let master := deriveSecureMaster shared authHash (clientNonce c) (serverNonce c)
                  (clientPubKey c) (serverPubKey c) salt AUTH_KDF_PROFILE in
  let expected := computeClientAuthProof master authHash in
  if negb (crypto_verify32 expected p =? 0) then
    sendError fd "Invalid server password" InvalidPassword ;;; upd fd (set_state Closing)
  else
  let sessionId := deriveSessionId master in
  if sessionId =? 0 then
    sendError fd "Secure session unavailable" General ;;; upd fd (set_alive false)
  else
  existing <- gets (fun s => sv_secureSessionMap s !! sessionId) ;;
  collision <- (match existing with
    | Some ofd => if negb (ofd =? tcpFd c)
                  then o <- findClientOwnerBySecureSessionId sessionId ;;
                       ret (match o with Some _ => true | None => false end)
                  else ret false
    | None => ret false
    end) ;;
  if collision : bool then
    sendError fd "Secure session collision" General ;;; upd fd (set_alive false)
  else
  upd fd (fun c => set_serverAuthOk true (set_secureEnabled true
    (set_udpCipher (cipher_init (udpCipher c) master false "udp")
    (set_dataCipher (cipher_init (dataCipher c) master false "data")
    (set_secureCipher (cipher_init (secureCipher c) master false "signal")
    (set_secureSessionId sessionId (set_secureMaster master c))))))) ;;;
  bound <- bindSecureSessionIndex fd sessionId ;;
  if negb bound then upd fd (set_alive false) else
  upd fd (set_state AwaitLogin) ;;;
  let serverProof := computeServerAuthProof master authHash in
  ok <- sendMsg (tcpFd c) MSG_SERVER_AUTH_OK (writeBytes serverProof (writeU32 sessionId [])) ;;
  when (negb ok) (failRequiredControl fd).

(** ** Login *)

Record LoginRequest := mkLogin {
  lg_name : bytes;
  lg_version : Z;
  lg_resume : option (Z * Z * bytes)
}.
Definition parse_login : SE ByteBuffer LoginRequest :=
  nm <- readString ;;
  version <- readU16 ;;
  resumeFlag <- readU8 ;;
  if 1 <? resumeFlag then throw else
  resume <- (if negb (resumeFlag =? 0) then
               rid <- readU32 ;; pid <- readU32 ;;
               token <- readBytes RECONNECT_TOKEN_SIZE ;; ret (Some (rid, pid, token))
             else ret None) ;;
  fin <- gets atEnd ;;
  if fin then ret (mkLogin nm version resume) else throw.

Definition login_resp (pid resumed : Z) : bytes :=
  writeU8 resumed (writeU16 PROTOCOL_VERSION (writeU32 pid [])).

Definition login_resume (fd : Z) (nm : bytes) (rid pid : Z) (token : bytes)
    (lease : RoomLease) : M unit :=
  old <- findClientOwnerByPeerId pid ;;
  match old with
  | Some ofd => when (negb (ofd =? fd)) (closeClientForTakeover ofd)
  | None => ret tt
  end ;;;
  upd fd (fun c => set_state ResumePending (set_resumeToken token (set_resumePeerId pid
    (set_resumeRoomId rid (set_peerId pid
      (set_name (if len (l_name lease) =? 0 then nm else l_name lease) c)))))) ;;;
  t <- now ;;
  upd_rooms (mark_offline_in t rid pid) ;;;
  bound <- bindPeerIndex fd pid ;;
  if negb bound then upd fd (set_alive false) else
  sendClientMsg fd MSG_LOGIN_RESP (login_resp pid 1) ;;; ret tt.

(** Some other session with a peer id already uses the name. *)
Definition name_in_use (s : Server) (fd : Z) (nm : bytes) : bool :=
  existsb (fun '(ofd, c) => negb (peerId c =? 0) && bool_decide (name c = nm) && negb (ofd =? fd))
    (map_ordered (sv_clients s)).

Definition login_fresh (fd : Z) (nm : bytes) : M unit :=
  taken <- gets (fun s => name_in_use s fd nm) ;;
  if taken : bool then sendError fd "Name already in use" General else
  upd fd (set_name nm) ;;;
  pid <- allocatePeerId ;;
  upd fd (fun c => set_state LoggedIn (set_resumeToken (zeros 32) (set_resumePeerId 0
            (set_resumeRoomId 0 (set_peerId pid c))))) ;;;
  bound <- bindPeerIndex fd pid ;;
  if negb bound then
    upd fd (set_peerId 0) ;;; releasePeerId pid ;;; upd fd (set_alive false)
  else
  sendClientMsg fd MSG_LOGIN_RESP (login_resp pid 0) ;;; ret tt.

Definition onLogin (fd : Z) (p : bytes) : M unit :=
  c <- client fd ;;
  if bool_decide (state c <> AwaitLogin) then upd fd (set_alive false) else
  match bb_run parse_login p with
  | None => upd fd (set_alive false)
  | Some req =>
      if negb (lg_version req =? PROTOCOL_VERSION) then
        sendError fd VERSION_TEXT VersionMismatch ;;; upd fd (set_state Closing)
      else if negb (isValidPlayerName (lg_name req)) then
        sendError fd "Invalid player name" General
      else
      resume <- (match lg_resume req with
        | Some (rid, pid, token) =>
            o <- validateResumeLease rid pid token ;;
            ret (match o with Some lease => Some (rid, pid, token, lease) | None => None end)
        | None => ret None
        end) ;;
      match resume with
      | Some (rid, pid, token, lease) => login_resume fd (lg_name req) rid pid token lease
      | None => login_fresh fd (lg_name req)
      end
  end.

(** ** Creating and joining rooms *)

Definition room_created_body (room : Room) (vip : Z) (token : bytes) : bytes :=
  let d := writeU32 (r_id room) [] in
  let d := writeU32 vip d in
  let d := write_policy (r_tcpPolicy room) d in
  let d := write_policy (r_udpPolicy room) d in
  let d := writeU8 (r_passwordProtected room) d in
  let d := writeU16 (r_mtu room) d in
  writeBytes token d.

(** The end of [onCreateRoom], once the request is known to be valid. *)
Definition create_room_open (fd : Z) (roomName : bytes) (maxPlayers : Z)
    (tcpPolicy udpPolicy : RoomTrafficPolicy) (roomMtu passwordProtected : Z)
    (pwdHash pwdSalt : bytes) : M unit :=
  tok <- generateLeaseToken ;;
  match tok with
  | None => sendError fd "Secure random generation failed" General
  | Some leaseToken =>
      c <- client fd ;;
      rid <- rooms_step (fun m => createRoom m roomName (peerId c) maxPlayers tcpPolicy udpPolicy
                                    roomMtu passwordProtected pwdHash pwdSalt) ;;
      l <- rooms_step (add_lease_in rid (peerId c) (name c) leaseToken) ;;
      match l with
      | None =>
          upd_rooms (fun m => eraseRoom m rid) ;;;
          sendError fd "Cannot allocate virtual IP" General
      | Some lease =>
          upd fd (enter_room rid (l_virtualIP lease) leaseToken) ;;;
          m <- get_rooms ;;
          let room := default Room_init (getRoom m rid) in
          ok <- sendClientMsg fd MSG_ROOM_CREATED
                  (room_created_body room (l_virtualIP lease) leaseToken) ;;
          if negb ok then rollbackNewMembership fd rid else
          broadcastRoomListPush
      end
  end.

(** The middle of [onCreateRoom]: parse and check the request. *)
Definition create_room_request (fd : Z) (p : bytes) : M unit :=
  let bb := bb_of p in
  let* (roomName, bb) := read readString bb in
  if negb (isValidRoomName roomName) then sendError fd "Invalid room name" General else
  let* (maxPlayers, bb) := read readU8 bb in
  if (maxPlayers <? 2) || (MAX_PLAYERS <? maxPlayers)
  then sendError fd "Invalid max players" General else
  if remaining bb <? 6 then sendError fd "Missing traffic policies" General else
  let* (tcpMode, bb) := read readU8 bb in
  let* (tcpFec, bb) := read readU8 bb in
  let* (tcpProfile, bb) := read readU8 bb in
  let* (udpMode, bb) := read readU8 bb in
  let* (udpFec, bb) := read readU8 bb in
  let* (udpProfile, bb) := read readU8 bb in
  if negb (isValidTransportModeValue tcpMode) || negb (isValidTransportModeValue udpMode) ||
     negb (isValidFecModeValue tcpFec) || negb (isValidFecModeValue udpFec) ||
     negb (isValidKcpProfileValue tcpProfile) || negb (isValidKcpProfileValue udpProfile) ||
     ((tcpMode =? TransportMode_u8 MODE_RELAY_TCP) && negb (tcpFec =? FecMode_u8 FEC_NONE)) ||
     ((udpMode =? TransportMode_u8 MODE_RELAY_TCP) && negb (udpFec =? FecMode_u8 FEC_NONE))
  then sendError fd "Invalid traffic policy" General else
  let tcpPolicy := normalizeTrafficPolicy tcpMode tcpFec tcpProfile makeDefaultTcpPolicy in
  let udpPolicy := normalizeTrafficPolicy udpMode udpFec udpProfile makeDefaultUdpPolicy in
  let* (passwordProtected, bb) := read readU8 bb in
  let* (pwdSalt, pwdHash, bb) :=
    (if negb (passwordProtected =? 0) then
       let* (salt, bb) := read (readBytes AUTH_SALT_SIZE) bb in
       let* (hash, bb) := read (readBytes 32) bb in ret (salt, hash, bb)
     else ret (zeros 16, zeros 32, bb)) in
  let* (roomMtu, bb) := read readU16 bb in
  if negb (isValidRoomMtuValue roomMtu) then upd fd (set_alive false) else
  create_room_open fd roomName maxPlayers tcpPolicy udpPolicy roomMtu passwordProtected
    pwdHash pwdSalt.

Definition onCreateRoom (fd : Z) (p : bytes) : M unit :=
  c <- client fd ;;
  if peerId c =? 0 then sendError fd "Not logged in" General else
  if negb (roomId c =? 0) then sendError fd "Already in a room" General else
  admitted <- takeIpToken (remoteIpv4 c) creates 4 15 ;;
  if negb admitted then sendError fd "Room creation rate limit exceeded" General else
  m <- get_rooms ;;
  lim <- gets (fun s => maxRooms (sv_limits s)) ;;
  if lim <=? rm_size m then sendError fd "Room capacity reached" General else
  create_room_request fd p.

Definition onJoinRoom (fd : Z) (p : bytes) : M unit :=
  c <- client fd ;;
  if peerId c =? 0 then sendError fd "Not logged in" General else
  if negb (roomId c =? 0) then sendError fd "Already in a room" General else
  t <- now ;;
  cleanupExpiredLeases t ;;;
  let* (rid, bb) := read readU32 (bb_of p) in
  m <- get_rooms ;;
  match getRoom m rid with
  | None => sendError fd "Room not found" General
  | Some room =>
      if isFull room then sendError fd "Room is full" General else
      if negb (r_passwordProtected room =? 0) then
        admitted <- takeIpToken (remoteIpv4 c) roomPasswordFailures 32 2 ;;
        if negb admitted then
          sendError fd "Room authentication rate limit exceeded" RateLimited
        else
        upd fd (fun c => set_state AwaitRoomPassword (set_pendingJoinRoomId rid c)) ;;;
        r <- secureRandomBytes 32 ;;
        upd fd (set_authChallenge (snd r)) ;;;
        if negb (fst r) then
          upd fd (fun c => set_state LoggedIn (set_pendingJoinRoomId 0 c)) ;;;
          sendError fd "Secure random generation failed" General
        else
        let challenge := writeBytes (snd r) (writeBytes (r_passwordSalt room)
                           (writeU8 AUTH_KDF_PROFILE [])) in
        sendClientMsg fd MSG_AUTH_CHALLENGE challenge ;;; ret tt
      else completeJoin fd rid
  end.

(** Back to the lobby after a failed room challenge. *)
Definition abandon_challenge (c : ClientSession) : ClientSession :=
  set_pendingJoinRoomId 0 (set_state LoggedIn (set_authChallenge (zeros 32) c)).

Definition onAuthResponse (fd : Z) (p : bytes) : M unit :=
  c <- client fd ;;
  if bool_decide (state c <> AwaitRoomPassword) || (pendingJoinRoomId c =? 0)
  then sendError fd "Unexpected auth response" General else
  t <- now ;;
  cleanupExpiredLeases t ;;;
  m <- get_rooms ;;
  match getRoom m (pendingJoinRoomId c) with
  | None => upd fd abandon_challenge ;;; sendError fd "Room not found" General
  | Some room =>
      if negb (len p =? 32) then
        upd fd abandon_challenge ;;; sendError fd "Invalid room password" RoomPassword
      else
      let expected := computeChallengeResponse (r_passwordHash room) (authChallenge c) in
      if negb (crypto_verify32 expected p =? 0) then
        upd fd abandon_challenge ;;; sendError fd "Invalid room password" RoomPassword
      else
      upd fd abandon_challenge ;;;
      if isFull room then sendError fd "Room is full" General else
      completeJoin fd (pendingJoinRoomId c)
  end.

(** ** Relay *)

Definition onRequestRelay (fd : Z) (p : bytes) : M unit :=
  let* (targetPeerId, bb) := read readU32 (bb_of p) in
  target <- findClientByPeerId targetPeerId ;;
  match target with
  | None => ret tt
  | Some tfd =>
      c <- client fd ;;
      tc <- client tfd ;;
      if (roomId c =? 0) || (roomId tc =? 0) || negb (roomId tc =? roomId c) then ret tt else
      sendClientMsg fd MSG_RELAY_READY (writeU32 targetPeerId []) ;;;
      c <- client fd ;;
      sendClientMsg tfd MSG_RELAY_READY (writeU32 (peerId c) []) ;;; ret tt
  end.

Definition onPing (fd : Z) : M unit := sendClientMsg fd MSG_PONG [] ;;; ret tt.

Definition onTcpRelayData (fd : Z) (p : bytes) : M unit :=
  if len p <? 9 then ret tt else
  let* (declaredSource, bb) := read readU32 (bb_of p) in
  let* (dstId, bb) := read readU32 bb in
  let* (trafficClass, bb) := read readU8 bb in
  c <- client fd ;;
  if negb (declaredSource =? peerId c) ||
     (negb (trafficClass =? TRAFFIC_TCP) && negb (trafficClass =? TRAFFIC_UDP))
  then ret tt else
  target <- findClientByPeerId dstId ;;
  match target with
  | None => ret tt
  | Some tfd =>
      c <- client fd ;;
      dst <- client tfd ;;
      if (roomId c =? 0) || (roomId dst =? 0) || negb (roomId c =? roomId dst) then ret tt else
      let fwd := writeBytes (drop 9 p)
                   (writeU8 trafficClass (writeU32 dstId (writeU32 (peerId c) []))) in
      sent <- (if 0 <=? dataFd dst then sendDataMsg tfd MSG_TCP_RELAY_DATA fwd else ret false) ;;
      if sent : bool then ret tt else
      sendClientMsg tfd MSG_TCP_RELAY_DATA fwd ;;; ret tt
  end.

End Auth.
