(* ===== verification/ServerDispatch.v ===== *)
(** * [server/src/signal_server.cpp]: message dispatch and the event loop

    The validator of client messages, then
    [processMessage] and [processDataMessage] with their catch-all handlers,
    the framing loops over the receive buffers, UDP relay, connection
    acceptance and promotion, timeouts, and one definition per event of
    [run].  The outcome of [recv]/[accept] is the event's argument. *)

From S2P Require Import Prelude Protocol ByteBuf Room SecureFrame ServerState ServerCore ServerRooms ServerAuth.

(** ** The validator of client messages, [server/src/client_message_validator.h]

    The server's check of a client message before its handler sees it.  The
    payload pointer is [None] for null; [n] is the [len] argument. *)

(** [value |= token[i]] over the token; then [value != 0]. *)
Definition hasNonzeroReconnectToken (token : bytes) : bool :=
  negb (fold_left Z.lor token 0 =? 0).

(** [catch (const std::exception&) { return false; }] around a parse. *)
Definition parses (m : BB bool) (d : bytes) : bool :=
  match bb_run m d with Some b => b | None => false end.

Definition validate_login : BB bool :=
  name <- readString ;;
  if negb (isValidPlayerName name) then ret false else
  _ <- readU16 ;;
  hasResume <- readU8 ;;
  if 1 <? hasResume then ret false else
  ok <- (if negb (hasResume =? 0) then
           roomId <- readU32 ;;
           peerId <- readU32 ;;
           token <- readBytes RECONNECT_TOKEN_SIZE ;;
           ret (negb ((roomId =? 0) || (peerId =? 0) || negb (hasNonzeroReconnectToken token)))
         else ret true) ;;
  if negb ok then ret false else gets atEnd.

Definition validate_create_room : BB bool :=
  roomName <- readString ;;
  maxPlayers <- readU8 ;;
  tcpMode <- readU8 ;; tcpFec <- readU8 ;; tcpProfile <- readU8 ;;
  udpMode <- readU8 ;; udpFec <- readU8 ;; udpProfile <- readU8 ;;
  if negb (isValidRoomName roomName) || (maxPlayers <? 2) || (MAX_PLAYERS <? maxPlayers) ||
     negb (isValidTransportModeValue tcpMode) || negb (isValidTransportModeValue udpMode) ||
     negb (isValidFecModeValue tcpFec) || negb (isValidFecModeValue udpFec) ||
     negb (isValidKcpProfileValue tcpProfile) || negb (isValidKcpProfileValue udpProfile) ||
     ((tcpMode =? TransportMode_u8 MODE_RELAY_TCP) && negb (tcpFec =? FecMode_u8 FEC_NONE)) ||
     ((udpMode =? TransportMode_u8 MODE_RELAY_TCP) && negb (udpFec =? FecMode_u8 FEC_NONE))
  then ret false else
  passwordProtected <- readU8 ;;
  if 1 <? passwordProtected then ret false else
  (if negb (passwordProtected =? 0)
   then readBytes AUTH_SALT_SIZE ;;; readBytes 32 ;;; ret tt else ret tt) ;;;
  mtu <- readU16 ;;
  if isValidRoomMtuValue mtu then gets atEnd else ret false.

Definition validate_u32_nonzero : BB bool :=
  v <- readU32 ;;
  if negb (v =? 0) then gets atEnd else ret false.

Definition validate_resume_room : BB bool :=
  roomId <- readU32 ;;
  peerId <- readU32 ;;
  token <- readBytes RECONNECT_TOKEN_SIZE ;;
  if negb (roomId =? 0) && negb (peerId =? 0) && hasNonzeroReconnectToken token
  then gets atEnd else ret false.

Definition validate_tcp_relay : BB bool :=
  sourcePeerId <- readU32 ;;
  destinationPeerId <- readU32 ;;
  trafficClass <- readU8 ;;
  ret (negb (sourcePeerId =? 0) && negb (destinationPeerId =? 0) &&
       ((trafficClass =? TRAFFIC_TCP) || (trafficClass =? TRAFFIC_UDP))).

Definition validateClientSignalPayload (msgType : Z) (payload : option bytes) (n : Z) : bool :=
  let parse_if (ok : Z -> bool) (m : BB bool) :=
    match payload with
    | None => false
    | Some d => if ok n then parses m (take (Z.to_nat n) d) else false
    end in
  if msgType =? MSG_CLIENT_HELLO then n =? 2 + 16 + 32 else
  if msgType =? MSG_SERVER_AUTH then n =? 32 else
  if msgType =? MSG_ENCRYPTED then
    match payload with None => false | Some _ => SECURE_FRAME_OVERHEAD + 1 <=? n end else
  if msgType =? MSG_LOGIN then parse_if (fun n => negb (n =? 0)) validate_login else
  if msgType =? MSG_CREATE_ROOM then parse_if (fun n => negb (n =? 0)) validate_create_room else
  if (msgType =? MSG_JOIN_ROOM) || (msgType =? MSG_REQUEST_RELAY)
  then parse_if (fun n => n =? 4) validate_u32_nonzero else
  if msgType =? MSG_RESUME_ROOM
  then parse_if (fun n => n =? 4 + 4 + RECONNECT_TOKEN_SIZE) validate_resume_room else
  if msgType =? MSG_AUTH_RESPONSE then n =? 32 else
  if (msgType =? MSG_LEAVE_ROOM) || (msgType =? MSG_LOGOUT) ||
     (msgType =? MSG_LIST_ROOMS) || (msgType =? MSG_PING) then n =? 0 else
  if msgType =? MSG_TCP_RELAY_DATA
  then parse_if (fun n => 9 <=? n) validate_tcp_relay else
  true.

Section Dispatch.
Context `{Crypto}.

(** ** Messages *)

(** [decryptClientFrame]: the inner type and payload. *)
Definition decryptClientFrame (fd : Z) (payload : bytes) : M (option (Z * bytes)) :=
  c <- client fd ;;
  let '(plain, cipher) := decrypt (secureCipher c) payload [] in
  upd fd (set_secureCipher cipher) ;;;
  ret (match plain with
       | Some (innerType :: innerPayload) => Some (innerType, innerPayload)
       | _ => None
       end).

(** The handshake states: classify, validate, then the one handler. *)
Definition process_handshake (fd msgType : Z) (payload : bytes)
    (handler : Z -> bytes -> M unit) : M unit :=
  c <- client fd ;;
  let action := classifyClientSignalMessage (state c) msgType in
  if decide (action = IgnoreUnknown) then ret tt else
  if decide (action = Close) then upd fd (set_alive false) else
  if negb (validateClientSignalPayload msgType (Some payload) (len payload))
  then upd fd (set_alive false) else
  if decide (action = SendStateError)
  then sendError fd "Message not allowed in current session state" General else
  handler fd payload.

Definition dispatch_message (fd msgType : Z) (payload : bytes) : M unit :=
  if msgType =? MSG_LOGIN then onLogin fd payload else
  if msgType =? MSG_CREATE_ROOM then onCreateRoom fd payload else
  if msgType =? MSG_JOIN_ROOM then onJoinRoom fd payload else
  if msgType =? MSG_RESUME_ROOM then onResumeRoom fd payload else
  if msgType =? MSG_LEAVE_ROOM then onLeaveRoom fd else
  if msgType =? MSG_LOGOUT then onLogout fd else
  if msgType =? MSG_LIST_ROOMS then onListRooms fd else
  if msgType =? MSG_REQUEST_RELAY then onRequestRelay fd payload else
  if msgType =? MSG_AUTH_RESPONSE then onAuthResponse fd payload else
  if msgType =? MSG_PING then onPing fd else
  if msgType =? MSG_TCP_RELAY_DATA then onTcpRelayData fd payload else
  ret tt.

Definition process_encrypted (fd msgType : Z) (payload : bytes) : M unit :=
  c <- client fd ;;
  if negb (serverAuthOk c) || negb (secureEnabled c) then upd fd (set_alive false) else
  if negb (msgType =? MSG_ENCRYPTED) then upd fd (set_alive false) else
  o <- decryptClientFrame fd payload ;;
  match o with
  | None => upd fd (set_alive false)
  | Some (innerType, inner) =>
      c <- client fd ;;
      let action := classifyClientSignalMessage (state c) innerType in
      if decide (action = IgnoreUnknown) then ret tt else
      if decide (action = Close) then upd fd (set_alive false) else
      if isKnownClientSignalMessage innerType &&
         negb (validateClientSignalPayload innerType
                 (if len inner =? 0 then None else Some inner) (len inner))
      then upd fd (set_alive false) else
      if decide (action = SendStateError)
      then sendError fd "Message not allowed in current session state" General else
      dispatch_message fd innerType inner
  end.

Definition processMessage (fd msgType : Z) (payload : bytes) : M unit :=
  t <- now ;;
  upd fd (set_lastPing t) ;;;
  catch
    (c <- client fd ;;
     match state c with
     | Closing => ret tt
     | AwaitHello => process_handshake fd msgType payload onClientHello
     | AwaitServerAuth => process_handshake fd msgType payload onServerAuth
     | _ => process_encrypted fd msgType payload
     end)
    (upd fd (set_alive false)).

(** [if (c.dataFd >= 0) handleDataChannelDisconnect(c.dataFd)]. *)
Definition drop_data_channel (fd : Z) : M unit :=
  c <- client fd ;;
  when (0 <=? dataFd c) (handleDataChannelDisconnect (dataFd c)).

Definition processDataMessage (fd msgType : Z) (payload : bytes) : M unit :=
  t <- now ;;
  upd fd (set_dataLastPing t) ;;;
  catch
    (c <- client fd ;;
     if negb (serverAuthOk c) || negb (secureEnabled c) || negb (msgType =? MSG_ENCRYPTED)
     then drop_data_channel fd else
     let '(plain, cipher) := decrypt (dataCipher c) payload [] in
     upd fd (set_dataCipher cipher) ;;;
     match plain with
     | Some (innerType :: inner) =>
         c <- client fd ;;
         if ((innerType =? MSG_PING) && negb (len inner =? 0)) ||
            ((innerType =? MSG_TCP_RELAY_DATA) &&
             (negb (validateClientSignalPayload innerType
                      (if len inner =? 0 then None else Some inner) (len inner)) ||
              bool_decide (state c <> InRoom)))
         then drop_data_channel fd else
         if innerType =? MSG_TCP_RELAY_DATA then onTcpRelayData fd inner else
         if innerType =? MSG_PING then
           (if 0 <=? dataFd c then sendDataMsg fd MSG_PONG [] ;;; ret tt else ret tt)
         else ret tt
     | _ => drop_data_channel fd
     end)
    (drop_data_channel fd).

(** ** Framing loops

    A frame is a 3-octet header and its payload.  Each turn erases at least
    the header from the buffer, so as many turns as the buffer has octets are
    enough. *)

Definition frame_payload_len (buf : bytes) : Z :=
  Z.lor (Z.shiftl (byte_at buf 1) 8) (byte_at buf 2).

Fixpoint process_recv_loop (fuel : nat) (fd : Z) : M unit :=
  match fuel with
  | O => ret tt
  | S fuel =>
      c <- client fd ;;
      if len (recvBuf c) <? sizeof_TcpMsgHeader then ret tt else
      let payloadLen := frame_payload_len (recvBuf c) in
      if MAX_TCP_MSG_PAYLOAD <? payloadLen then handleClientDisconnect fd else
      let frameLen := sizeof_TcpMsgHeader + payloadLen in
      if len (recvBuf c) <? frameLen then ret tt else
      processMessage fd (byte_at (recvBuf c) 0)
        (slice sizeof_TcpMsgHeader payloadLen (recvBuf c)) ;;;
      c <- client fd ;;
      if negb (alive c) then handleClientDisconnect fd else
      upd fd (fun c => set_recvBuf (drop (Z.to_nat frameLen) (recvBuf c)) c) ;;;
      if decide (state c = Closing) then
        upd fd (set_recvBuf []) ;;;
        c <- client fd ;;
        when (len (sendBuf c) =? 0) (destroyClient fd LogoutComplete)
      else process_recv_loop fuel fd
  end.

Fixpoint process_data_loop (fuel : nat) (fd dfd : Z) : M unit :=
  match fuel with
  | O => ret tt
  | S fuel =>
      c <- client fd ;;
      if len (dataRecvBuf c) <? sizeof_TcpMsgHeader then ret tt else
      let payloadLen := frame_payload_len (dataRecvBuf c) in
      if MAX_TCP_MSG_PAYLOAD <? payloadLen then handleDataChannelDisconnect dfd else
      let frameLen := sizeof_TcpMsgHeader + payloadLen in
      if len (dataRecvBuf c) <? frameLen then ret tt else
      processDataMessage fd (byte_at (dataRecvBuf c) 0)
        (slice sizeof_TcpMsgHeader payloadLen (dataRecvBuf c)) ;;;
      c <- client fd ;;
      if (dataFd c <? 0) || (len (dataRecvBuf c) <? frameLen) then ret tt else
      upd fd (fun c => set_dataRecvBuf (drop (Z.to_nat frameLen) (dataRecvBuf c)) c) ;;;
      process_data_loop fuel fd dfd
  end.

Definition processDataRecvBuffer (fd : Z) : M unit :=
  c <- client fd ;;
  if dataFd c <? 0 then ret tt else
  process_data_loop (length (dataRecvBuf c)) fd (dataFd c).

(** ** Socket events *)

(** [received]: the octets [recv] returned, [None] for end of stream or error. *)
Definition handleClientData (fd : Z) (received : option bytes) : M unit :=
  o <- gets (fun s => sv_clients s !! fd) ;;
  match o with
  | None => ret tt
  | Some c =>
      if negb (alive c) then handleClientDisconnect fd else
      if decide (state c = Closing) then
        when (len (sendBuf c) =? 0) (destroyClient fd LogoutComplete)
      else
      match received with
      | None => handleClientDisconnect fd
      | Some buf =>
          upd fd (fun c => set_recvBuf (recvBuf c ++ buf) c) ;;;
          c <- client fd ;;
          process_recv_loop (length (recvBuf c)) fd
      end
  end.

Definition handleDataChannelData (dfd : Z) (received : option bytes) : M unit :=
  owner <- findClientOwnerByDataFd dfd ;;
  match owner with
  | None => ret tt
  | Some ofd =>
      o <- findClientByDataFd dfd ;;
      match o with
      | None => closeDataChannel ofd
      | Some fd =>
          match received with
          | None => handleDataChannelDisconnect dfd
          | Some buf =>
              upd fd (fun c => set_dataRecvBuf (dataRecvBuf c ++ buf) c) ;;;
              processDataRecvBuffer fd
          end
      end
  end.

(** Close the descriptor of a data channel that was not bound. *)
Definition refuse_data_channel (fd : Z) : M unit :=
  emit (OutEpollDel fd) ;;; emit (OutClose fd).

Definition onSecureDataChannelInit (dfd : Z) (p : bytes) : M unit :=
  if negb (len p =? SECURE_SESSION_ID_SIZE + SECURE_FRAME_OVERHEAD + 4)
  then refuse_data_channel dfd else
  o <- findClientBySecureSessionId (readU32BE p) ;;
  match o with
  | None => refuse_data_channel dfd
  | Some fd =>
      c <- client fd ;;
      if negb (sessionCanBindDataChannel (state c)) then refuse_data_channel dfd else
      let '(plain, cipher) := decrypt (dataCipher c) (drop 4 p) [] in
      upd fd (set_dataCipher cipher) ;;;
      match plain with
      | None => refuse_data_channel dfd
      | Some plain =>
          if negb (len plain =? 4) then refuse_data_channel dfd else
          let* (pid, bb) := read readU32 (bb_of plain) in
          if negb (pid =? peerId c) then refuse_data_channel dfd else
          closeDataChannel fd ;;;
          t <- now ;;
          upd fd (fun c => set_dataLastPing t (set_dataFd dfd c)) ;;;
          clearSendBuffer fd true ;;;
          upd fd (set_dataRecvBuf []) ;;;
          bound <- bindDataFdIndex fd dfd ;;
          if negb bound then upd fd (set_dataFd (-1)) ;;; refuse_data_channel dfd else
          sendDataMsg fd MSG_DATA_CHANNEL_ACK [] ;;; ret tt
      end
  end.

(** [accepted]: the new descriptor and the peer's IPv4 address. *)
Definition handleTcpAccept (fd remoteIp : Z) : M unit :=
  t <- now ;;
  upd_ip remoteIp (set_ip_lastActivity t) ;;;
  pend <- gets sv_pending ;;
  lim <- gets sv_limits ;;
  i <- gets (fun s => ip_state s remoteIp) ;;
  refused <- (if (maxPending lim <=? Z.of_nat (size pend)) || (maxPendingPerIp lim <=? ip_pending i)
              then ret true
              else ok <- takeIpToken remoteIp accepts 16 1 ;; ret (negb ok)) ;;
  if refused : bool then emit (OutClose fd) else
  emit (OutEpollAdd fd true false) ;;;
  modify (fun s => set_sv_pending (<[fd :=
    let pc := match sv_pending s !! fd with Some pc => pc | None => PendingConn_init end in
    mkPending fd remoteIp (pc_recvBuf pc) t]> (sv_pending s)) s) ;;;
  upd_ip remoteIp (fun i => set_ip_pending (ip_pending i + 1) i).

(** The pending connection becomes [m_clients[fd]]. *)
Definition promote_pending (fd remoteIp : Z) (recv : bytes) (t : Z) : M unit :=
  modify (fun s => set_sv_clients (<[fd :=
    set_serverAuthOk false (set_recvBuf recv (set_helloDeadline (t + 10)
      (set_remoteIpv4 remoteIp (set_alive true (set_lastPing t
        (set_tcpFd fd (session s fd)))))))]> (sv_clients s)) s).

Definition handlePendingData (fd : Z) (received : option bytes) : M unit :=
  o <- gets (fun s => sv_pending s !! fd) ;;
  match o with
  | None => ret tt
  | Some pc =>
      match received with
      | None => removePending fd true
      | Some buf =>
          let recv := pc_recvBuf pc ++ buf in
          modify (fun s => set_sv_pending (<[fd := set_pc_recvBuf recv pc]> (sv_pending s)) s) ;;;
          if len recv <? sizeof_TcpMsgHeader then ret tt else
          let payloadLen := frame_payload_len recv in
          if MAX_TCP_MSG_PAYLOAD <? payloadLen then removePending fd true else
          let frameLen := sizeof_TcpMsgHeader + payloadLen in
          if len recv <? frameLen then ret tt else
          if byte_at recv 0 =? MSG_DATA_CHANNEL_INIT then
            let trailing := drop (Z.to_nat frameLen) recv in
            onSecureDataChannelInit fd (slice sizeof_TcpMsgHeader payloadLen recv) ;;;
            known <- gets (fun s => sv_ipStates s !! pc_remoteIpv4 pc) ;;
            match known with
            | Some i => when (0 <? ip_pending i)
                          (upd_ip (pc_remoteIpv4 pc) (fun i => set_ip_pending (ip_pending i - 1) i))
            | None => ret tt
            end ;;;
            modify (fun s => set_sv_pending (delete fd (sv_pending s)) s) ;;;
            o <- findClientByDataFd fd ;;
            match o with
            | Some cfd =>
                if len trailing =? 0 then ret tt else
                upd cfd (fun c => set_dataRecvBuf (dataRecvBuf c ++ trailing) c) ;;;
                processDataRecvBuffer cfd
            | None => ret tt
            end
          else
          let remoteIp := pc_remoteIpv4 pc in
          upd_ip remoteIp (fun i => i) ;;;
          i <- gets (fun s => ip_state s remoteIp) ;;
          lim <- gets sv_limits ;;
          clients <- gets sv_clients ;;
          if (maxClients lim <=? Z.of_nat (size clients)) || (maxClientsPerIp lim <=? ip_clients i)
          then removePending fd true else
          t <- now ;;
          promote_pending fd remoteIp recv t ;;;
          upd_ip remoteIp (fun i =>
            set_ip_lastActivity t (set_ip_clients (ip_clients i + 1)
              (if 0 <? ip_pending i then set_ip_pending (ip_pending i - 1) i else i))) ;;;
          modify (fun s => set_sv_pending (delete fd (sv_pending s)) s) ;;;
          process_recv_loop (length recv) fd
      end
  end.

Definition handleWritable (fd : Z) : M unit :=
  o <- gets (fun s => sv_clients s !! fd) ;;
  match o with
  | Some _ =>
      flushSendBuf fd ;;;
      c <- client fd ;;
      if negb (alive c) then handleClientDisconnect fd else
      if decide (state c = Closing /\ len (sendBuf c) = 0)
      then destroyClient fd LogoutComplete else
      when (MAX_TCP_SEND_BUF <? len (sendBuf c)) (upd fd (set_alive false))
  | None =>
      owner <- findClientOwnerByDataFd fd ;;
      match owner with
      | None => ret tt
      | Some ofd =>
          o <- findClientByDataFd fd ;;
          match o with
          | None => closeDataChannel ofd
          | Some cfd =>
              ok <- flushDataSendBuf cfd ;;
              c <- client cfd ;;
              when (ok && (MAX_TCP_SEND_BUF <? len (dataSendBuf c))) (closeDataChannel cfd)
          end
      end
  end.

(** ** UDP *)

(** [decryptUdpPacket]: the sending session and the plaintext. *)
Definition decryptUdpPacket (data : bytes) : M (option (Z * bytes)) :=
  if len data <? 1 + SECURE_SESSION_ID_SIZE + SECURE_FRAME_OVERHEAD then ret None else
  if negb (byte_at data 0 =? UDP_ENCRYPTED) then ret None else
  o <- findClientBySecureSessionId (readU32BE (drop 1 data)) ;;
  match o with
  | None => ret None
  | Some fd =>
      c <- client fd ;;
      let '(plain, cipher) := decrypt (udpCipher c) (drop 5 data) [] in
      upd fd (set_udpCipher cipher) ;;;
      ret (match plain with Some plain => Some (fd, plain) | None => None end)
  end.

Definition sendEncryptedUdp (fd : Z) (plain : bytes) (dstAddr : Z * Z) : M unit :=
  c <- client fd ;;
  if negb (serverAuthOk c) || (secureSessionId c =? 0) || negb (udpAddrKnown c) then ret tt else
  let '(enc, cipher) := encrypt (udpCipher c) plain [] in
  upd fd (set_udpCipher cipher) ;;;
  if len enc =? 0 then upd fd (set_alive false) else
  emit (OutSendTo dstAddr ([UDP_ENCRYPTED] ++ writeU32BE (secureSessionId c) ++ enc)).

Definition learn_udp_addr (fd : Z) (from : Z * Z) : M unit :=
  upd fd (fun c => set_udpAddrKnown true (set_udpAddr from c)).

Definition handleUdpPacket (from : Z * Z) (buf : bytes) : M unit :=
  if len buf =? 0 then ret tt else
  if byte_at buf 0 =? UDP_ENCRYPTED then
    o <- decryptUdpPacket buf ;;
    match o with
    | None => logDataDropSampled
    | Some (src, plain) =>
        if negb (len plain =? 0) && (byte_at plain 0 =? UDP_KEEPALIVE)
        then learn_udp_addr src from else
        if len plain <? sizeof_UdpRelayHeader then logDataDropSampled else
        if negb (byte_at plain 0 =? UDP_RELAY_DATA) && negb (byte_at plain 0 =? UDP_RAW_RELAY_DATA)
        then logDataDropSampled else
        let cls := byte_at plain 1 in
        let srcId := readU32BE (drop 2 plain) in
        let dstId := readU32BE (drop 6 plain) in
        c <- client src ;;
        if negb (srcId =? peerId c) || (dstId =? 0) || (roomId c =? 0) ||
           (negb (cls =? TRAFFIC_TCP) && negb (cls =? TRAFFIC_UDP))
        then logDataDropSampled else
        learn_udp_addr src from ;;;
        d <- findClientByPeerId dstId ;;
        match d with
        | None => logDataDropSampled
        | Some dfd =>
            dst <- client dfd ;;
            if negb (udpAddrKnown dst) then logDataDropSampled else
            c <- client src ;;
            if (roomId dst =? 0) || negb (roomId dst =? roomId c) then logDataDropSampled else
            sendEncryptedUdp dfd plain (udpAddr dst)
        end
    end
  else logDataDropSampled.

(** ** Timeouts and the event loop *)

Definition handshake_timed_out (t : Z) (c : ClientSession) : bool :=
  (bool_decide (state c = AwaitHello) && (0 <? helloDeadline c) && (helloDeadline c <? t)) ||
  (bool_decide (state c = AwaitServerAuth) && (0 <? authDeadline c) && (authDeadline c <? t)).
Definition checkTimeouts : M unit :=
  t <- now ;;
  fds <- gets (fun s => map fst (map_ordered (sv_clients s))) ;;
  for_each fds (fun fd =>
    c <- client fd ;;
    when (handshake_timed_out t c) (upd fd (set_alive false))) ;;;
  dead <- gets (fun s => map fst (filter (fun kv =>
            negb (alive kv.2) || (HEARTBEAT_TIMEOUT_MS / 1000 <? t - lastPing kv.2) = true)
            (map_ordered (sv_clients s)))) ;;
  for_each dead handleClientDisconnect ;;;
  deadPending <- gets (fun s => map fst (filter (fun kv =>
            (10 <? t - pc_created kv.2) = true) (map_ordered (sv_pending s)))) ;;
  for_each deadPending (fun fd => removePending fd true) ;;;
  cleanupExpiredLeases t ;;;
  cleanupIpStates t.

(** What the loop of [run] sees: descriptor readiness with the data read, or
    the 5-second tick.  [EvTime] is the passage of time between events. *)
Inductive Event :=
| EvAccept (fd remoteIp : Z)
| EvUdp (from : Z * Z) (buf : bytes)
| EvError (fd : Z)
| EvReadable (fd : Z) (received : option bytes)
| EvWritable (fd : Z)
| EvTick
| EvTime (t : Z)
| EvSockets (sends : list SendResult) (random : list (option bytes)).

(** The branches of [run] for one descriptor, in its order of tests. *)
Definition handle_event (e : Event) : M unit :=
  match e with
  | EvAccept fd ip => handleTcpAccept fd ip
  | EvUdp from buf => handleUdpPacket from buf
  | EvError fd =>
      pend <- gets sv_pending ;; data <- gets sv_dataFdMap ;;
      if decide (is_Some (pend !! fd)) then removePending fd true else
      if decide (is_Some (data !! fd)) then handleDataChannelDisconnect fd
      else handleClientDisconnect fd
  | EvReadable fd received =>
      pend <- gets sv_pending ;; data <- gets sv_dataFdMap ;;
      if decide (is_Some (pend !! fd)) then handlePendingData fd received else
      if decide (is_Some (data !! fd)) then handleDataChannelData fd received
      else handleClientData fd received
  | EvWritable fd =>
      pend <- gets sv_pending ;;
      if decide (is_Some (pend !! fd)) then ret tt else handleWritable fd
  | EvTick => checkTimeouts
  | EvTime t => modify (set_env_now t)
  | EvSockets sends random =>
      modify (fun s => set_env_send sends (set_env_random random s))
  end.

(** [stop()]. *)
Definition stop : M unit :=
  modify (set_sv_running false) ;;;
  listen <- gets sv_tcpListenFd ;;
  when (0 <=? listen) (emit (OutClose listen) ;;; modify (set_sv_tcpListenFd (-1))) ;;;
  udp <- gets sv_udpFd ;;
  when (0 <=? udp) (emit (OutClose udp) ;;; modify (set_sv_udpFd (-1))) ;;;
  fds <- gets (fun s => map fst (map_ordered (sv_clients s))) ;;
  for_each fds (fun fd => destroyClient fd Network) ;;;
  pend <- gets (fun s => map fst (map_ordered (sv_pending s))) ;;
  for_each pend (fun fd => emit (OutClose fd)) ;;;
  modify (fun s => set_sv_globalSendBytes 0 (set_sv_ipStates ∅ (set_sv_secureSessionMap ∅
    (set_sv_peerMap ∅ (set_sv_dataFdMap ∅ (set_sv_pending ∅ s)))))) ;;;
  epfd <- gets sv_epfd ;;
  when (0 <=? epfd) (emit (OutClose epfd) ;;; modify (set_sv_epfd (-1))).

(** States the server reaches from a start state by handling events. *)
Inductive reachable (s0 : Server) : Server -> Prop :=
| reach_start : reachable s0 s0
| reach_event s e : reachable s0 s -> reachable s0 (snd (handle_event e s)).

End Dispatch.
