(* ===== verification/ServerInv.v ===== *)
(** * Invariants of the signal server, once for all

    What an invariant must promise about the server's primitive updates
    ([CoreInv]: sessions, indexes, buffers; [MsgInv]: rooms and teardown;
    [EventInv]: arrival of data and promotion of connections), and the proof
    that every message handler and every event then preserves it.  An
    invariant of the server is established by giving the instances. *)

From S2P Require Import Prelude Protocol ByteBuf Room RoomFacts SecureFrame ServerState ServerCore ServerRooms ServerAuth ServerDispatch.

(** A session update that leaves the descriptor and the send buffers alone and
    does not add received octets. *)
Definition quiet (f : ClientSession -> ClientSession) : Prop :=
  forall c, tcpFd (f c) = tcpFd c /\ sendBuf (f c) = sendBuf c /\
            dataSendBuf (f c) = dataSendBuf c /\
            recvBuf (f c) `suffix_of` recvBuf c /\
            dataRecvBuf (f c) `suffix_of` dataRecvBuf c.
(** A state update away from sessions, rooms, budget and limits. *)
Definition elsewhere (g : Server -> Server) : Prop :=
  forall s, sv_clients (g s) = sv_clients s /\ sv_rooms (g s) = sv_rooms s /\
            sv_globalSendBytes (g s) = sv_globalSendBytes s /\ sv_limits (g s) = sv_limits s.

(** The updates of the room registry that the handlers make. *)
Inductive RoomUpdate : (RoomManager -> RoomManager) -> Prop :=
| ru_drop t rid pid : RoomUpdate (drop_lease t rid pid)
| ru_offline t rid pid : RoomUpdate (mark_offline_in t rid pid)
| ru_online rid pid : RoomUpdate (alterRoom rid (fun r => snd (markLeaseOnline r pid)))
| ru_erase rid : RoomUpdate (fun m => eraseRoom m rid).

(** ** Exceptions

    Only a read beyond the end of a message throws, so the senders and the
    lease expiry always run to their end. *)

Section Totality.
Context `{Crypto}.
#[local] Hint Extern 1 (total (client _)) => apply total_gets : vlan.
#[local] Hint Extern 1 (total now) => apply total_gets : vlan.
#[local] Hint Extern 1 (total get_rooms) => apply total_gets : vlan.
#[local] Hint Extern 1 (total (emit _)) => apply total_modify : vlan.
#[local] Hint Extern 1 (total (upd _ _)) => apply total_modify : vlan.
#[local] Hint Extern 1 (total (upd_rooms _)) => apply total_modify : vlan.
#[local] Hint Extern 1 (total (upd_leases _ _)) => apply total_modify : vlan.
#[local] Hint Extern 1 (total (nth_lease _ _)) => apply total_gets : vlan.
#[local] Hint Extern 1 (total (release_budget _)) => apply total_modify : vlan.
#[local] Hint Extern 1 (total logSendRejectSampled) => apply total_modify : vlan.

Lemma total_ownerPeer pid : total (findClientOwnerByPeerId pid).
Proof. unfold findClientOwnerByPeerId, find_owner. walk. Qed.
#[local] Hint Resolve total_ownerPeer : vlan.
Lemma total_byPeer pid : total (findClientByPeerId pid).
Proof. unfold findClientByPeerId. walk. Qed.
Lemma total_append fd dc a b : total (appendSendBuffer fd dc a b).
Proof. unfold appendSendBuffer. walk. Qed.
Lemma total_flush fd : total (flushSendBuf fd).
Proof.
  assert (forall fuel fd dc sock again failed done, total again -> total failed -> total done ->
    total (flush_loop fuel fd dc sock again failed done)) as Hl.
  { intros fuel fd' dc sock again failed done Ha Hf Hd.
    induction fuel as [|fuel IH]; cbn [flush_loop];
      unfold flush_turn, next_send, consumeSendBuffer; walk. }
  unfold flushSendBuf. walk; apply Hl; walk.
Qed.
#[local] Hint Resolve total_byPeer total_append total_flush : vlan.
Lemma total_sendMsg fd t body : total (sendMsg fd t body).
Proof. unfold sendMsg. walk. Qed.
#[local] Hint Resolve total_sendMsg : vlan.
Lemma total_sendClientMsg fd t body : total (sendClientMsg fd t body).
Proof. unfold sendClientMsg, encryptForClient, failRequiredControl. walk. Qed.
#[local] Hint Resolve total_sendClientMsg : vlan.
Lemma total_broadcast rid t body ex : total (broadcastToRoom rid t body ex).
Proof. unfold broadcastToRoom. walk. Qed.
Lemma total_releasePeerId pid : total (releasePeerId pid).
Proof. unfold releasePeerId. walk. Qed.
#[local] Hint Resolve total_broadcast total_releasePeerId : vlan.
Lemma total_expire_leases fuel t rid i changed : total (expire_leases fuel t rid i changed).
Proof.
  revert i changed. induction fuel as [|fuel IH]; intros i changed; cbn [expire_leases]; [walk|].
  unfold expire_lease. walk.
Qed.
End Totality.

(** The updates of one room's leases that the expiry loop makes: either the
    same members at the same addresses, or fewer of them. *)
Definition lease_update (f : list RoomLease -> list RoomLease) : Prop :=
  forall ls, lease_keys (f ls) = lease_keys ls \/ f ls `sublist_of` ls.
Lemma erase_nth_sub {A} i (ls : list A) : erase_nth i ls `sublist_of` ls.
Proof.
  unfold erase_nth. rewrite <- (take_drop i ls) at 3. apply sublist_app; [done|].
  replace (drop (S i) ls) with (drop 1 (drop i ls)) by (rewrite drop_drop; f_equal; lia).
  apply sublist_drop.
Qed.

Section Classes.
Context `{Crypto}.

Class CoreInv (I : Server -> Prop) : Prop := {
  ci_session : forall fd f, quiet f -> keeps I (upd fd f);
  ci_elsewhere : forall g, elsewhere g -> keeps I (modify g);
  ci_append : forall fd dc a b s c, sv_clients s !! fd = Some c -> I s ->
                I (snd (appendSendBuffer fd dc a b s));
  ci_consume : forall fd dc n, 0 <= n -> keeps I (consumeSendBuffer fd dc n);
  ci_clear : forall fd dc, keeps I (clearSendBuffer fd dc)
}.

Class MsgInv (I : Server -> Prop) : Prop := {
  mi_core :: CoreInv I;
  mi_rooms : forall f, RoomUpdate f -> keeps I (upd_rooms f);
  mi_add : forall rid pid nm token, keeps I (rooms_step (add_lease_in rid pid nm token));
  mi_create : forall nm pid maxPlayers tcp udp mtu prot hash salt s,
    2 <= maxPlayers <= MAX_PLAYERS -> rm_size (sv_rooms s) < maxRooms (sv_limits s) -> I s ->
    I (snd (rooms_step (fun m => createRoom m nm pid maxPlayers tcp udp mtu prot hash salt) s));
  mi_expire : forall t rid changed, keeps I (expire_room t rid changed);
  mi_erase : forall fd s s', snd (erase_session fd s) = s' -> I s -> I s'
}.

Class EventInv (I : Server -> Prop) : Prop := {
  ei_msg :: MsgInv I;
  ei_recv : forall fd buf, keeps I (upd fd (fun c => set_recvBuf (recvBuf c ++ buf) c));
  ei_data : forall fd buf, keeps I (upd fd (fun c => set_dataRecvBuf (dataRecvBuf c ++ buf) c));
  ei_promote : forall fd ip buf t, keeps I (promote_pending fd ip buf t)
}.

End Classes.

Ltac solve_quiet :=
  let c := fresh "c" in
  intros c; repeat split; cbn;
  repeat match goal with |- context [if ?b then _ else _] => destruct b; cbn end;
  first [reflexivity | apply suffix_nil | apply suffix_drop].
Ltac solve_elsewhere :=
  let s := fresh "s" in
  intros s; repeat split; cbn;
  repeat match goal with |- context [if ?b then _ else _] => destruct b; cbn end; reflexivity.
#[export] Hint Extern 1 (quiet _) => solve_quiet : vlan.
#[export] Hint Extern 1 (elsewhere _) => solve_elsewhere : vlan.
#[export] Hint Extern 0 (CoreInv _) => typeclasses eauto : vlan.
#[export] Hint Extern 0 (MsgInv _) => typeclasses eauto : vlan.

(** ** [server/src/signal_server.cpp], the shared helpers *)

Section Core.
Context `{Crypto} (I : Server -> Prop) `{HI : !CoreInv I}.

Lemma keeps_upd fd f : quiet f -> keeps I (upd fd f).
Proof. apply ci_session. Qed.
Lemma keeps_else g : elsewhere g -> keeps I (modify g).
Proof. apply ci_elsewhere. Qed.
Lemma keeps_clear fd dc : keeps I (clearSendBuffer fd dc).
Proof. apply ci_clear. Qed.
#[local] Hint Resolve keeps_upd keeps_else keeps_clear : vlan.
Lemma keeps_client fd : keeps I (client fd).
Proof. apply keeps_gets. Qed.
Lemma keeps_now : keeps I now.
Proof. apply keeps_gets. Qed.
Lemma keeps_get_rooms : keeps I get_rooms.
Proof. apply keeps_gets. Qed.
Lemma keeps_read {A} (m : SE ByteBuffer A) b : keeps I (read m b).
Proof. intros s Hs. unfold read. destruct (m b) as [[a|] b']; exact Hs. Qed.
Lemma keeps_emit e : keeps I (emit e).
Proof. unfold emit. walk. Qed.
#[local] Hint Resolve keeps_client keeps_now keeps_get_rooms keeps_read keeps_emit : vlan.
Lemma keeps_random n : keeps I (secureRandomBytes n).
Proof. unfold secureRandomBytes. walk. Qed.
Lemma keeps_upd_ip ip f : keeps I (upd_ip ip f).
Proof. unfold upd_ip. walk. Qed.
Lemma keeps_logSend : keeps I logSendRejectSampled.
Proof. unfold logSendRejectSampled. walk. Qed.
Lemma keeps_logDrop : keeps I logDataDropSampled.
Proof. unfold logDataDropSampled. walk. Qed.
#[local] Hint Resolve keeps_random keeps_upd_ip keeps_logSend keeps_logDrop : vlan.

Lemma keeps_find_owner index drop agrees key :
  (forall k, keeps I (drop k)) -> keeps I (find_owner index drop agrees key).
Proof. intros Hd. unfold find_owner. walk. Qed.
Lemma keeps_ownerPeer pid : keeps I (findClientOwnerByPeerId pid).
Proof. unfold findClientOwnerByPeerId. case_match; [walk|]. apply keeps_find_owner. walk. Qed.
Lemma keeps_ownerSession sid : keeps I (findClientOwnerBySecureSessionId sid).
Proof. unfold findClientOwnerBySecureSessionId. case_match; [walk|]. apply keeps_find_owner. walk. Qed.
Lemma keeps_ownerData dfd : keeps I (findClientOwnerByDataFd dfd).
Proof. unfold findClientOwnerByDataFd. case_match; [walk|]. apply keeps_find_owner. walk. Qed.
#[local] Hint Resolve keeps_ownerPeer keeps_ownerSession keeps_ownerData : vlan.
Lemma keeps_byPeer pid : keeps I (findClientByPeerId pid).
Proof. unfold findClientByPeerId. walk. Qed.
Lemma keeps_bySession sid : keeps I (findClientBySecureSessionId sid).
Proof. unfold findClientBySecureSessionId. walk. Qed.
Lemma keeps_byData dfd : keeps I (findClientByDataFd dfd).
Proof. unfold findClientByDataFd. walk. Qed.
Lemma keeps_bind_index index set_index owner fd key :
  (forall m, elsewhere (set_index m)) -> (forall k, keeps I (owner k)) ->
  keeps I (bind_index index set_index owner fd key).
Proof.
  intros He Ho. unfold bind_index.
  repeat first [solve [eauto 2 with vlan]
               |apply keeps_else; intros s; apply He|step_prog].
Qed.
#[local] Hint Resolve keeps_byPeer keeps_bySession keeps_byData : vlan.
Lemma keeps_bindPeer fd pid : keeps I (bindPeerIndex fd pid).
Proof. unfold bindPeerIndex. walk. apply keeps_bind_index; [intros m; solve_elsewhere|walk]. Qed.
Lemma keeps_bindSession fd sid : keeps I (bindSecureSessionIndex fd sid).
Proof. unfold bindSecureSessionIndex. walk. apply keeps_bind_index; [intros m; solve_elsewhere|walk]. Qed.
Lemma keeps_bindData fd dfd : keeps I (bindDataFdIndex fd dfd).
Proof. unfold bindDataFdIndex. walk. apply keeps_bind_index; [intros m; solve_elsewhere|walk]. Qed.
Lemma keeps_unbind fd : keeps I (unbindClientIndexes fd).
Proof. unfold unbindClientIndexes. walk. Qed.
#[local] Hint Resolve keeps_bindPeer keeps_bindSession keeps_bindData keeps_unbind : vlan.

Lemma keeps_closeData fd : keeps I (closeDataChannel fd).
Proof. unfold closeDataChannel. walk. Qed.
#[local] Hint Resolve keeps_closeData : vlan.
Lemma keeps_next_send : keeps I next_send.
Proof. unfold next_send. walk. Qed.
#[local] Hint Resolve keeps_next_send : vlan.
Lemma keeps_flush_turn fd dc sock again failed :
  keeps I again -> keeps I failed -> keeps I (flush_turn fd dc sock again failed).
Proof.
  intros Ha Hf. unfold flush_turn. walk.
  apply ci_consume. bools. lia.
Qed.
Lemma keeps_flush_loop fuel fd dc sock again failed done :
  keeps I again -> keeps I failed -> keeps I done ->
  keeps I (flush_loop fuel fd dc sock again failed done).
Proof.
  intros Ha Hf Hd. induction fuel as [|fuel IH]; cbn [flush_loop]; walk.
  apply keeps_flush_turn; done.
Qed.
Lemma keeps_flush fd : keeps I (flushSendBuf fd).
Proof. unfold flushSendBuf. walk. apply keeps_flush_loop; walk. Qed.
Lemma keeps_flushData fd : keeps I (flushDataSendBuf fd).
Proof. unfold flushDataSendBuf. walk. apply keeps_flush_loop; walk. Qed.
#[local] Hint Resolve keeps_flush keeps_flushData : vlan.

(** An append is made for a session that exists. *)
Lemma keeps_append fd dc a b :
  keeps_if (fun s => is_Some (sv_clients s !! fd)) I (appendSendBuffer fd dc a b).
Proof. intros s [c Hc] Hs. by eapply ci_append. Qed.
Lemma keeps_sendMsg fd t body : keeps I (sendMsg fd t body).
Proof.
  unfold sendMsg. apply keeps_gets_if. intros [c|]; [|apply keeps_if_weaken; walk].
  destruct (negb (alive c)); [apply keeps_if_weaken; walk|].
  destruct (_ <? _); [apply keeps_if_weaken; walk|].
  apply keeps_if_first; [|intros ?; walk].
  intros s Hs. apply keeps_append. by eexists.
Qed.
#[local] Hint Resolve keeps_sendMsg : vlan.
Lemma keeps_encryptForClient fd t body : keeps I (encryptForClient fd t body).
Proof. unfold encryptForClient. walk. Qed.
#[local] Hint Resolve keeps_encryptForClient : vlan.
Lemma keeps_sendClientMsg fd t body : keeps I (sendClientMsg fd t body).
Proof. unfold sendClientMsg, failRequiredControl. walk. Qed.
#[local] Hint Resolve keeps_sendClientMsg : vlan.
Lemma keeps_sendError fd text code : keeps I (sendError fd text code).
Proof. unfold sendError. walk. Qed.
Lemma is_client_upd fd f : keeps (fun s => is_Some (sv_clients s !! fd)) (upd fd f).
Proof. intros s Hs. cbn. by rewrite lookup_alter, decide_True, fmap_is_Some by done. Qed.
Lemma keeps_sendDataMsg fd t body : keeps I (sendDataMsg fd t body).
Proof.
  unfold sendDataMsg. apply keeps_gets_if. intros c.
  destruct ((dataFd c <? 0) || negb (alive c)) eqn:E; [apply keeps_if_weaken; walk|].
  assert (keeps_if (fun s => is_Some (sv_clients s !! fd)) I
    (if MAX_TCP_MSG_PAYLOAD <? len body then logSendRejectSampled ;;; ret false else
     if negb (secureEnabled c) || negb (serverAuthOk c) then ret false else
     let '(enc, cipher) := encrypt (dataCipher c) (t :: body) [] in
     upd fd (set_dataCipher cipher) ;;;
     if len enc =? 0 then upd fd (set_alive false) ;;; ret false else
     if MAX_TCP_MSG_PAYLOAD <? len enc then logSendRejectSampled ;;; ret false else
     ok <- appendSendBuffer fd true (tcp_header MSG_ENCRYPTED enc) enc ;;
     if negb ok then logSendRejectSampled ;;; closeDataChannel fd ;;; ret false else
     c <- client fd ;;
     if MAX_TCP_SEND_BUF <? len (dataSendBuf c) then closeDataChannel fd ;;; ret false else
     flushDataSendBuf fd)) as Hk.
  { clear E. destruct (_ <? _); [apply keeps_if_weaken; walk|].
    destruct (_ || _); [apply keeps_if_weaken; walk|].
    destruct (encrypt _ _ _) as [enc cipher].
    apply keeps_if_bind; [apply is_client_upd|walk|intros _].
    destruct (_ =? _); [apply keeps_if_weaken; walk|].
    destruct (_ <? _); [apply keeps_if_weaken; walk|].
    apply keeps_if_first; [apply keeps_append|intros ?; walk]. }
  intros s Hc Hs. apply Hk; [|exact Hs]. unfold session in Hc.
  destruct (sv_clients s !! fd); [by eexists|]. subst c. discriminate E.
Qed.
#[local] Hint Resolve keeps_sendError keeps_sendDataMsg : vlan.
Lemma keeps_broadcast rid t body ex : keeps I (broadcastToRoom rid t body ex).
Proof. unfold broadcastToRoom. walk. Qed.
Lemma keeps_relayReady fd pid : keeps I (sendRelayReady fd pid).
Proof. unfold sendRelayReady. walk. Qed.
#[local] Hint Resolve keeps_relayReady : vlan.
Lemma keeps_notifyRelay fd : keeps I (notifyRelayPeers fd).
Proof. unfold notifyRelayPeers. walk. Qed.
Lemma keeps_allocatePeerId : keeps I allocatePeerId.
Proof. unfold allocatePeerId. walk. Qed.
Lemma keeps_releasePeerId pid : keeps I (releasePeerId pid).
Proof. unfold releasePeerId. walk. Qed.
Lemma keeps_leaseToken : keeps I generateLeaseToken.
Proof. unfold generateLeaseToken. walk. Qed.
Lemma keeps_takeIp ip b burst sec : keeps I (takeIpToken ip b burst sec).
Proof. unfold takeIpToken. walk. Qed.
Lemma keeps_removePending fd b : keeps I (removePending fd b).
Proof. unfold removePending. walk. Qed.
Lemma keeps_releaseIp fd : keeps I (releaseClientIp fd).
Proof. unfold releaseClientIp. walk. Qed.
Lemma keeps_cleanupIp t : keeps I (cleanupIpStates t).
Proof. unfold cleanupIpStates. walk. Qed.
#[local] Hint Resolve keeps_broadcast keeps_notifyRelay keeps_allocatePeerId
  keeps_releasePeerId keeps_leaseToken keeps_takeIp keeps_removePending keeps_releaseIp
  keeps_cleanupIp : vlan.
Lemma keeps_roomListPush : keeps I broadcastRoomListPush.
Proof. unfold broadcastRoomListPush. walk. Qed.
Lemma keeps_validateResume rid pid token : keeps I (validateResumeLease rid pid token).
Proof. unfold validateResumeLease. walk. Qed.
Lemma keeps_joinResponse fd rid token : keeps I (sendJoinResponse fd rid token).
Proof. unfold sendJoinResponse. walk. Qed.
Lemma keeps_dataDisconnect dfd : keeps I (handleDataChannelDisconnect dfd).
Proof. unfold handleDataChannelDisconnect. walk. Qed.

(** The lease loop, given that its own updates of the room's leases do. *)
Lemma keeps_expire_leases fuel t rid i changed :
  (forall f, lease_update f -> keeps I (upd_leases rid f)) ->
  keeps I (expire_leases fuel t rid i changed).
Proof.
  intros Hu. revert i changed. induction fuel as [|fuel IH]; intros i changed;
    cbn [expire_leases]; [walk|].
  apply keeps_bind; [apply keeps_gets|intros [lease|]; [|walk]].
  apply keeps_bind; [|intros r; apply IH].
  unfold expire_lease, nth_lease. walk; first [apply keeps_gets|apply Hu]; intros ls;
    first [left; apply alter_nth_keys; by intros []|right; apply erase_nth_sub].
Qed.
End Core.
#[export] Hint Resolve keeps_upd keeps_else keeps_clear keeps_client keeps_now keeps_get_rooms
  keeps_read keeps_emit keeps_random keeps_upd_ip keeps_logSend keeps_logDrop keeps_ownerPeer
  keeps_ownerSession keeps_ownerData keeps_byPeer keeps_bySession keeps_byData keeps_bindPeer
  keeps_bindSession keeps_bindData keeps_unbind keeps_closeData keeps_next_send keeps_flush
  keeps_flushData keeps_sendMsg keeps_encryptForClient keeps_sendClientMsg keeps_sendError
  keeps_sendDataMsg keeps_broadcast keeps_relayReady keeps_notifyRelay keeps_allocatePeerId
  keeps_releasePeerId keeps_leaseToken keeps_takeIp keeps_removePending keeps_releaseIp
  keeps_cleanupIp keeps_roomListPush keeps_validateResume keeps_joinResponse
  keeps_dataDisconnect : vlan.

(** ** Handlers *)

(** The capacity test of [onCreateRoom] holds until the room is made. *)
Definition has_capacity (s : Server) : Prop := rm_size (sv_rooms s) < maxRooms (sv_limits s).
Lemma capacity_token `{Crypto} : keeps has_capacity generateLeaseToken.
Proof.
  intros s Hs. unfold generateLeaseToken, secureRandomBytes, bind, gets, modify, ret. cbn.
  repeat case_match; exact Hs.
Qed.
Lemma capacity_read {A} (m : SE ByteBuffer A) b : keeps has_capacity (read m b).
Proof. intros s Hs. unfold read. destruct (m b) as [[a|] b']; exact Hs. Qed.
#[local] Hint Resolve capacity_token capacity_read : vlan.

Section Handlers.
Context `{Crypto} (I : Server -> Prop) `{HI : !MsgInv I}.

Lemma keeps_ru f : RoomUpdate f -> keeps I (upd_rooms f).
Proof. apply mi_rooms. Qed.
Lemma keeps_drop t rid pid : keeps I (upd_rooms (drop_lease t rid pid)).
Proof. apply mi_rooms. constructor. Qed.
Lemma keeps_offline t rid pid : keeps I (upd_rooms (mark_offline_in t rid pid)).
Proof. apply mi_rooms. constructor. Qed.
Lemma keeps_online rid pid : keeps I (upd_rooms (alterRoom rid (fun r => snd (markLeaseOnline r pid)))).
Proof. apply mi_rooms. constructor. Qed.
Lemma keeps_eraseRoom rid : keeps I (upd_rooms (fun m => eraseRoom m rid)).
Proof. apply mi_rooms. constructor. Qed.
Lemma keeps_add rid pid nm token : keeps I (rooms_step (add_lease_in rid pid nm token)).
Proof. apply mi_add. Qed.
Lemma keeps_expire_room t rid changed : keeps I (expire_room t rid changed).
Proof. apply mi_expire. Qed.
Lemma keeps_erase fd : keeps I (erase_session fd).
Proof. intros s Hs. by eapply mi_erase. Qed.
#[local] Hint Resolve keeps_drop keeps_offline keeps_online keeps_eraseRoom keeps_add
  keeps_expire_room keeps_erase : vlan.

Lemma keeps_rollback fd rid : keeps I (rollbackNewMembership fd rid).
Proof. unfold rollbackNewMembership. walk. Qed.
Lemma keeps_markOffline fd : keeps I (markSessionOffline fd).
Proof. unfold markSessionOffline. walk. Qed.
#[local] Hint Resolve keeps_rollback keeps_markOffline : vlan.
Lemma keeps_destroy fd reason : keeps I (destroyClient fd reason).
Proof. unfold destroyClient. walk. Qed.
#[local] Hint Resolve keeps_destroy : vlan.
Lemma keeps_disconnect fd : keeps I (handleClientDisconnect fd).
Proof. unfold handleClientDisconnect. walk. Qed.
Lemma keeps_takeover fd : keeps I (closeClientForTakeover fd).
Proof. unfold closeClientForTakeover. walk. Qed.
#[local] Hint Resolve keeps_disconnect keeps_takeover : vlan.

Lemma keeps_expire_rooms t rids changed gone : keeps I (expire_rooms t rids changed gone).
Proof. revert changed gone. induction rids as [|rid rids IH]; intros; cbn [expire_rooms]; walk. Qed.
#[local] Hint Resolve keeps_expire_rooms : vlan.
Lemma keeps_cleanupLeases t : keeps I (cleanupExpiredLeases t).
Proof. unfold cleanupExpiredLeases. walk. Qed.
#[local] Hint Resolve keeps_cleanupLeases : vlan.

Lemma keeps_completeJoin fd rid : keeps I (completeJoin fd rid).
Proof. unfold completeJoin. walk. Qed.
Lemma keeps_completeResume fd rid l : keeps I (completeResume fd rid l).
Proof. unfold completeResume. walk. Qed.
#[local] Hint Resolve keeps_completeJoin keeps_completeResume : vlan.
Lemma keeps_onResumeRoom fd p : keeps I (onResumeRoom fd p).
Proof. unfold onResumeRoom. walk. Qed.
Lemma keeps_onLeaveRoom fd : keeps I (onLeaveRoom fd).
Proof. unfold onLeaveRoom. walk. Qed.
Lemma keeps_onLogout fd : keeps I (onLogout fd).
Proof. unfold onLogout. walk. Qed.
Lemma keeps_onListRooms fd : keeps I (onListRooms fd).
Proof. unfold onListRooms. walk. Qed.
Lemma keeps_onClientHello fd p : keeps I (onClientHello fd p).
Proof. unfold onClientHello, failRequiredControl. walk. Qed.
Lemma keeps_onServerAuth fd p : keeps I (onServerAuth fd p).
Proof. unfold onServerAuth, failRequiredControl. walk. Qed.
Lemma keeps_login_resume fd nm rid pid token l : keeps I (login_resume fd nm rid pid token l).
Proof. unfold login_resume. walk. Qed.
Lemma keeps_login_fresh fd nm : keeps I (login_fresh fd nm).
Proof. unfold login_fresh. walk. Qed.
#[local] Hint Resolve keeps_login_resume keeps_login_fresh : vlan.
Lemma keeps_onLogin fd p : keeps I (onLogin fd p).
Proof. unfold onLogin. walk. Qed.
Lemma keeps_onJoinRoom fd p : keeps I (onJoinRoom fd p).
Proof. unfold onJoinRoom. walk. Qed.
Lemma keeps_onAuthResponse fd p : keeps I (onAuthResponse fd p).
Proof. unfold onAuthResponse. walk. Qed.
Lemma keeps_onRequestRelay fd p : keeps I (onRequestRelay fd p).
Proof. unfold onRequestRelay. walk. Qed.
Lemma keeps_onPing fd : keeps I (onPing fd).
Proof. unfold onPing. walk. Qed.
Lemma keeps_onTcpRelayData fd p : keeps I (onTcpRelayData fd p).
Proof. unfold onTcpRelayData. walk. Qed.

(** Creating a room: the request is read while the capacity test still holds. *)
Lemma keeps_create_open fd nm maxPlayers tcp udp mtu prot hash salt :
  2 <= maxPlayers <= MAX_PLAYERS ->
  keeps_if has_capacity I (create_room_open fd nm maxPlayers tcp udp mtu prot hash salt).
Proof.
  intros Hmax. unfold create_room_open.
  apply keeps_if_bind; [apply capacity_token|walk|intros [token|]; [|apply keeps_if_weaken; walk]].
  apply keeps_if_bind; [apply keeps_gets|walk|intros c].
  apply keeps_if_first; [|intros rid; walk].
  intros s Hc Hs. by apply mi_create.
Qed.
Lemma keeps_create_request fd p : keeps_if has_capacity I (create_room_request fd p).
Proof.
  unfold create_room_request. cbv zeta.
  repeat first
    [ apply keeps_if_bind; [solve [eauto 2 with vlan]|solve [eauto 2 with vlan]|intros [? ?]]
    | match goal with
      | |- keeps_if _ _ (create_room_open _ _ _ _ _ _ _ _ _) =>
          apply keeps_create_open; bools; lia
      | |- keeps_if _ _ (sendError _ _ _) => apply keeps_if_weaken; walk
      | |- keeps_if _ _ (upd _ _) => apply keeps_if_weaken; walk
      | |- keeps_if _ _ (if ?b then _ else _) => destruct b eqn:?
      end ].
  all: apply keeps_if_bind;
    [walk; apply keeps_ret|walk|intros [[salt hash] bb]];
    apply keeps_if_bind; [walk|walk|intros [mtu bb']];
    match goal with |- keeps_if _ _ (if ?b then _ else _) => destruct b eqn:? end;
    [apply keeps_if_weaken; walk|apply keeps_create_open; bools; lia].
Qed.
Lemma keeps_onCreateRoom fd p : keeps I (onCreateRoom fd p).
Proof.
  unfold onCreateRoom. apply keeps_bind; [walk|intros c].
  destruct (peerId c =? 0); [walk|]. destruct (negb (roomId c =? 0)); [walk|].
  apply keeps_bind; [walk|intros admitted]. destruct (negb admitted); [walk|].
  apply keeps_gets_if. intros m. apply keeps_if_gets. intros lim.
  destruct (lim <=? rm_size m) eqn:E; [apply keeps_if_weaken; walk|].
  intros s [E1 E2] Hs. apply keeps_create_request; [|exact Hs].
  unfold has_capacity. subst. bools. lia.
Qed.
#[local] Hint Resolve keeps_onResumeRoom keeps_onLeaveRoom keeps_onLogout keeps_onListRooms
  keeps_onClientHello keeps_onServerAuth keeps_onLogin keeps_onJoinRoom keeps_onAuthResponse
  keeps_onRequestRelay keeps_onPing keeps_onTcpRelayData keeps_onCreateRoom : vlan.

(** ** Messages and framing *)

Lemma keeps_handshake fd t p h : (forall fd p, keeps I (h fd p)) -> keeps I (process_handshake fd t p h).
Proof. intros Hh. unfold process_handshake. walk. Qed.
Lemma keeps_dispatch fd t p : keeps I (dispatch_message fd t p).
Proof. unfold dispatch_message. walk. Qed.
#[local] Hint Resolve keeps_dispatch : vlan.
Lemma keeps_decryptFrame fd p : keeps I (decryptClientFrame fd p).
Proof. unfold decryptClientFrame. walk. Qed.
#[local] Hint Resolve keeps_decryptFrame : vlan.
Lemma keeps_encrypted fd t p : keeps I (process_encrypted fd t p).
Proof. unfold process_encrypted. walk. Qed.
#[local] Hint Resolve keeps_encrypted : vlan.
Lemma keeps_processMessage fd t p : keeps I (processMessage fd t p).
Proof.
  unfold processMessage. walk; apply keeps_handshake; intros ? ?; walk.
Qed.
#[local] Hint Resolve keeps_processMessage : vlan.
Lemma keeps_dropData fd : keeps I (drop_data_channel fd).
Proof. unfold drop_data_channel. walk. Qed.
#[local] Hint Resolve keeps_dropData : vlan.
Lemma keeps_processData fd t p : keeps I (processDataMessage fd t p).
Proof. unfold processDataMessage. walk. Qed.
#[local] Hint Resolve keeps_processData : vlan.
Lemma keeps_recv_loop fuel fd : keeps I (process_recv_loop fuel fd).
Proof. induction fuel as [|fuel IH]; cbn [process_recv_loop]; walk. Qed.
Lemma keeps_data_loop fuel fd dfd : keeps I (process_data_loop fuel fd dfd).
Proof. induction fuel as [|fuel IH]; cbn [process_data_loop]; walk. Qed.
#[local] Hint Resolve keeps_recv_loop keeps_data_loop : vlan.
Lemma keeps_dataBuffer fd : keeps I (processDataRecvBuffer fd).
Proof. unfold processDataRecvBuffer. walk. Qed.
Lemma keeps_refuse fd : keeps I (refuse_data_channel fd).
Proof. unfold refuse_data_channel. walk. Qed.
#[local] Hint Resolve keeps_dataBuffer keeps_refuse : vlan.
Lemma keeps_dataInit dfd p : keeps I (onSecureDataChannelInit dfd p).
Proof. unfold onSecureDataChannelInit. walk. Qed.
Lemma keeps_accept fd ip : keeps I (handleTcpAccept fd ip).
Proof. unfold handleTcpAccept. walk. Qed.
Lemma keeps_writable fd : keeps I (handleWritable fd).
Proof. unfold handleWritable. walk. Qed.
Lemma keeps_decryptUdp d : keeps I (decryptUdpPacket d).
Proof. unfold decryptUdpPacket. walk. Qed.
Lemma keeps_sendUdp fd p a : keeps I (sendEncryptedUdp fd p a).
Proof. unfold sendEncryptedUdp. walk. Qed.
#[local] Hint Resolve keeps_dataInit keeps_accept keeps_writable keeps_decryptUdp keeps_sendUdp : vlan.
Lemma keeps_udp from buf : keeps I (handleUdpPacket from buf).
Proof. unfold handleUdpPacket, learn_udp_addr. walk. Qed.
Lemma keeps_timeouts : keeps I checkTimeouts.
Proof. unfold checkTimeouts. walk. Qed.
End Handlers.
#[export] Hint Resolve keeps_processMessage keeps_dataInit keeps_accept keeps_writable keeps_udp
  keeps_timeouts keeps_recv_loop keeps_dataBuffer keeps_disconnect keeps_destroy : vlan.

Section Events.
Context `{Crypto} (I : Server -> Prop) `{HI : !EventInv I}.

Lemma keeps_recv fd buf : keeps I (upd fd (fun c => set_recvBuf (recvBuf c ++ buf) c)).
Proof. apply ei_recv. Qed.
Lemma keeps_data fd buf : keeps I (upd fd (fun c => set_dataRecvBuf (dataRecvBuf c ++ buf) c)).
Proof. apply ei_data. Qed.
Lemma keeps_promote fd ip buf t : keeps I (promote_pending fd ip buf t).
Proof. apply ei_promote. Qed.
#[local] Hint Resolve keeps_recv keeps_data keeps_promote : vlan.
Lemma keeps_clientData fd r : keeps I (handleClientData fd r).
Proof. unfold handleClientData. walk. Qed.
Lemma keeps_channelData fd r : keeps I (handleDataChannelData fd r).
Proof. unfold handleDataChannelData. walk. Qed.
Lemma keeps_pendingData fd r : keeps I (handlePendingData fd r).
Proof. unfold handlePendingData. walk. Qed.
#[local] Hint Resolve keeps_clientData keeps_channelData keeps_pendingData : vlan.
Lemma keeps_event e : keeps I (handle_event e).
Proof. unfold handle_event. walk. Qed.

(** An invariant of the start state holds in every reachable state. *)
Lemma reachable_inv s0 s : reachable s0 s -> I s0 -> I s.
Proof. intros Hr H0. induction Hr; [done|]. by apply keeps_event. Qed.
End Events.
