(* ===== verification/ServerSafety.v ===== *)
(** * Safety of the signal server

    Instances of the invariant classes of ServerInv and the theorems they
    give for every state the event loop can reach: the send budget is exact,
    the room registry is well-formed, sessions are filed under their own
    descriptor. *)

From S2P Require Import Prelude Protocol ByteBuf Room RoomFacts SecureFrame ServerState ServerCore ServerRooms ServerAuth ServerDispatch ServerInv.

(** ** The send budget *)

Definition buffered (c : ClientSession) : Z := len (sendBuf c) + len (dataSendBuf c).
(** The octets queued over all sessions. *)
Abbreviation total_buffered := (map_total buffered).

Lemma buffered_nonneg c : 0 <= buffered c.
Proof. unfold buffered. pose proof (len_nonneg (sendBuf c)). pose proof (len_nonneg (dataSendBuf c)). lia. Qed.
Lemma total_nonneg m : 0 <= total_buffered m.
Proof. apply map_total_nonneg. intros. apply buffered_nonneg. Qed.
Lemma total_ge m fd c : m !! fd = Some c -> buffered c <= total_buffered m.
Proof.
  intros Hc. pose proof (map_total_delete buffered m fd c Hc).
  pose proof (total_nonneg (delete fd m)). lia.
Qed.

Record budget_ok (s : Server) : Prop := mkBudgetOk {
  bo_exact : sv_globalSendBytes s = total_buffered (sv_clients s);
  bo_limit : total_buffered (sv_clients s) <= maxSendBufferBytes (sv_limits s) <= UINT64_MAX;
  bo_each : forall fd c, sv_clients s !! fd = Some c ->
              len (sendBuf c) <= MAX_TCP_SEND_BUF /\ len (dataSendBuf c) <= MAX_TCP_SEND_BUF
}.

(** A session update that keeps the buffers, and the general update. *)
Lemma budget_alter s fd f g :
  budget_ok s ->
  (forall c, sv_clients s !! fd = Some c ->
     len (sendBuf (f c)) <= MAX_TCP_SEND_BUF /\ len (dataSendBuf (f c)) <= MAX_TCP_SEND_BUF /\
     g = buffered (f c) - buffered c) ->
  (sv_clients s !! fd = None -> g = 0) ->
  total_buffered (sv_clients s) + g <= maxSendBufferBytes (sv_limits s) ->
  budget_ok (set_sv_globalSendBytes (sv_globalSendBytes s + g)
               (set_sv_clients (alter f fd (sv_clients s)) s)).
Proof.
  intros [H1 H2 H3] Hf Hn Hl.
  assert (total_buffered (alter f fd (sv_clients s)) = total_buffered (sv_clients s) + g) as Ht.
  { rewrite map_total_alter. destruct (sv_clients s !! fd) as [c|] eqn:E.
    - destruct (Hf c eq_refl) as (_ & _ & ->). lia.
    - rewrite (Hn eq_refl). lia. }
  constructor; cbn; [|lia|].
  - rewrite Ht, H1. lia.
  - intros i c. rewrite lookup_alter_Some. intros [(<- & c0 & E & ->)|[_ E]].
    + destruct (Hf c0 E) as (? & ? & _). done.
    + by apply (H3 i).
Qed.
Lemma set_global_id s c : sv_globalSendBytes s = c -> set_sv_globalSendBytes c s = s.
Proof. intros <-. by destruct s. Qed.
Lemma budget_other s g :
  budget_ok s -> elsewhere g -> budget_ok (g s).
Proof.
  intros [H1 H2 H3] He. destruct (He s) as (E1 & _ & E2 & E3).
  constructor; rewrite ?E1, ?E2, ?E3; done.
Qed.
Lemma budget_quiet s fd f :
  budget_ok s -> quiet f -> budget_ok (set_sv_clients (alter f fd (sv_clients s)) s).
Proof.
  intros Hs Hq.
  rewrite <- (set_global_id (set_sv_clients _ s) (sv_globalSendBytes s + 0)) by (cbn; lia).
  apply budget_alter; [done| |done|destruct Hs; lia].
  intros c E. destruct (Hq c) as (_ & E1 & E2 & _). unfold buffered. rewrite E1, E2.
  destruct (bo_each s Hs fd c E). split; [done|]. split; [done|]. lia.
Qed.

Lemma session_Some s fd c : sv_clients s !! fd = Some c -> session s fd = c.
Proof. unfold session. by intros ->. Qed.
Lemma session_None s fd : sv_clients s !! fd = None -> session s fd = ClientSession_init.
Proof. unfold session. by intros ->. Qed.

Lemma target_set dc v c : target_buf dc (set_target_buf dc v c) = v.
Proof. by destruct dc. Qed.
Lemma buffered_target dc v c :
  buffered (set_target_buf dc v c) = buffered c - len (target_buf dc c) + len v.
Proof. unfold buffered. destruct dc; cbn; lia. Qed.
Lemma target_le s fd c dc :
  budget_ok s -> sv_clients s !! fd = Some c -> len (target_buf dc c) <= MAX_TCP_SEND_BUF.
Proof. intros Hs E. destruct (bo_each s Hs fd c E). by destruct dc. Qed.
Lemma set_target_bounds s fd c dc v :
  budget_ok s -> sv_clients s !! fd = Some c -> len v <= MAX_TCP_SEND_BUF ->
  len (sendBuf (set_target_buf dc v c)) <= MAX_TCP_SEND_BUF /\
  len (dataSendBuf (set_target_buf dc v c)) <= MAX_TCP_SEND_BUF.
Proof. intros Hs E Hv. destruct (bo_each s Hs fd c E). by destruct dc. Qed.

(** Replacing a buffer by a shorter one and releasing the difference. *)
Lemma budget_release s fd dc (v : ClientSession -> bytes) n :
  budget_ok s -> 0 <= n ->
  (forall c, sv_clients s !! fd = Some c -> len (v c) = len (target_buf dc c) - n) ->
  (sv_clients s !! fd = None -> n = 0) ->
  budget_ok (snd (release_budget n (set_sv_clients
    (alter (fun c => set_target_buf dc (v c) c) fd (sv_clients s)) s))).
Proof.
  intros Hs Hn Hv H0. unfold release_budget, modify. cbn [snd sv_globalSendBytes set_sv_clients].
  destruct (Z.ltb_spec (sv_globalSendBytes s) n) as [Hlt|Hge].
  - exfalso. destruct (sv_clients s !! fd) as [c|] eqn:E.
    + pose proof (total_ge _ _ _ E). specialize (Hv c eq_refl). pose proof (len_nonneg (v c)).
      rewrite (bo_exact s Hs) in Hlt. unfold buffered in *. pose proof (len_nonneg (sendBuf c)).
      pose proof (len_nonneg (dataSendBuf c)). destruct dc; cbn in Hv; lia.
    + rewrite (H0 eq_refl) in Hlt. rewrite (bo_exact s Hs) in Hlt.
      assert (0 <= total_buffered (sv_clients s)); [|lia].
      apply total_nonneg.
  - replace (sv_globalSendBytes s - n) with (sv_globalSendBytes s + - n) by lia.
    apply budget_alter; [done| | |destruct Hs; lia].
    + intros c E. specialize (Hv c E). pose proof (target_le s fd c dc Hs E).
      destruct (set_target_bounds s fd c dc (v c) Hs E) as [? ?]; [lia|].
      split; [done|]. split; [done|]. rewrite buffered_target. lia.
    + intros E. rewrite (H0 E). done.
Qed.

Section Budget.
Context `{Crypto}.

Lemma budget_append fd dc a b s c :
  sv_clients s !! fd = Some c -> budget_ok s -> budget_ok (snd (appendSendBuffer fd dc a b s)).
Proof.
  intros E Hs. unfold appendSendBuffer. destruct (_ <? len a); [exact Hs|].
  unfold bind, client, gets, ret. rewrite (session_Some s fd c E).
  destruct (_ || _) eqn:Et.
  - (* refused: at most the failure counter changes *)
    unfold when. destruct (_ && _); [|exact Hs]. by apply budget_quiet; [|solve_quiet].
  - bools. pose proof (len_nonneg a). pose proof (len_nonneg b).
    pose proof (target_le s fd c dc Hs E). pose proof (bo_exact s Hs) as Hx.
    pose proof (bo_limit s Hs) as Hl. pose proof (total_nonneg (sv_clients s)).
    unfold upd, modify at 1 2. cbn [fst snd].
    assert (u64 (sv_globalSendBytes s + (len a + len b)) =
            sv_globalSendBytes s + (len a + len b)) as Eu.
    { unfold u64. apply Z.mod_small. unfold UINT64_MAX in *. lia. }
    assert (budget_ok (set_sv_globalSendBytes (sv_globalSendBytes s + (len a + len b))
      (set_sv_clients (alter (fun c => set_target_buf dc (target_buf dc c ++ a ++ b) c) fd
         (sv_clients s)) s))) as Hb.
    { apply budget_alter; [done| |congruence|lia].
      intros c' E'. assert (c' = c) as -> by congruence.
      destruct (set_target_bounds s fd c dc (target_buf dc c ++ a ++ b) Hs E) as [? ?].
      { rewrite !len_app. lia. }
      split; [done|]. split; [done|]. rewrite buffered_target, !len_app. lia. }
    cbn [sv_globalSendBytes set_sv_clients]. rewrite Eu.
    unfold when. destruct (negb dc); [|exact Hb]. by apply budget_quiet; [|solve_quiet].
Qed.

Lemma budget_consume fd dc n : 0 <= n -> keeps budget_ok (consumeSendBuffer fd dc n).
Proof.
  intros Hn s Hs. unfold consumeSendBuffer, bind, client, gets. cbn [fst snd].
  pose proof (len_nonneg (target_buf dc (session s fd))).
  apply budget_release; [done|lia| |].
  - intros c E. rewrite (session_Some s fd c E) in *.
    unfold len in *. rewrite length_drop. lia.
  - intros E. rewrite (session_None s fd E). destruct dc; cbn; unfold len; cbn; lia.
Qed.
Lemma budget_clear fd dc : keeps budget_ok (clearSendBuffer fd dc).
Proof.
  intros s Hs. unfold clearSendBuffer, bind, client, gets. cbn [fst snd].
  apply (budget_release s fd dc (fun _ => [])); [done|apply len_nonneg| |].
  - intros c E. rewrite (session_Some s fd c E), len_nil. lia.
  - intros E. rewrite (session_None s fd E). by destruct dc.
Qed.

#[export] Instance budget_core : CoreInv budget_ok.
Proof.
  constructor.
  - intros fd f Hq s Hs. by apply budget_quiet.
  - intros g Hg s Hs. by apply budget_other.
  - intros fd dc a b s c. apply budget_append.
  - apply budget_consume.
  - apply budget_clear.
Qed.
(** The buffer [dc] of session [fd] is empty. *)
Definition drained (fd : Z) (dc : bool) (s : Server) : Prop :=
  forall c, sv_clients s !! fd = Some c -> target_buf dc c = [].
Lemma drained_quiet fd dc f : quiet f -> keeps (drained fd dc) (upd fd f).
Proof.
  intros Hq s Hs c. cbn. rewrite lookup_alter_Some. intros [(_ & c0 & E & ->)|[? _]]; [|done].
  specialize (Hs c0 E). destruct (Hq c0) as (_ & E1 & E2 & _). destruct dc; cbn in *; congruence.
Qed.
Lemma drained_else fd dc g : elsewhere g -> keeps (drained fd dc) (modify g).
Proof. intros Hg s Hs c. cbn. destruct (Hg s) as (-> & _). apply Hs. Qed.
Lemma drained_clear fd dc s : drained fd dc (snd (clearSendBuffer fd dc s)).
Proof.
  intros c. cbn. assert (forall n s', sv_clients (snd (release_budget n s')) = sv_clients s') as E
    by (intros; done).
  rewrite lookup_alter_Some. intros [(_ & c0 & _ & ->)|[? _]]; [|done]. apply target_set.
Qed.
Lemma drained_other fd dc dc' : keeps (drained fd dc) (clearSendBuffer fd dc').
Proof.
  intros s Hs c. cbn. rewrite lookup_alter_Some. intros [(_ & c0 & E & ->)|[? _]]; [|done].
  specialize (Hs c0 E). destruct dc, dc'; cbn in *; done.
Qed.
#[local] Hint Resolve drained_quiet drained_else drained_other : vlan.

Lemma drained_releaseIp fd dc : keeps (drained fd dc) (releaseClientIp fd).
Proof.
  unfold releaseClientIp, client, now, upd_ip. walk.
Qed.

#[local] Hint Resolve drained_releaseIp : vlan.

(** Erasing a drained session does not change what is queued. *)
Lemma budget_delete fd s :
  budget_ok s -> drained fd false s -> drained fd true s ->
  budget_ok (set_sv_clients (delete fd (sv_clients s)) s).
Proof.
  intros [H1 H2 H3] D1 D2.
  assert (total_buffered (delete fd (sv_clients s)) = total_buffered (sv_clients s)) as Ht.
  { destruct (sv_clients s !! fd) as [c|] eqn:E; [|by rewrite delete_id].
    rewrite (map_total_delete _ _ _ _ E). specialize (D1 c E). specialize (D2 c E).
    unfold buffered. cbn in D1, D2. rewrite D1, D2. unfold len. cbn. lia. }
  constructor; cbn; rewrite ?Ht; [done|done|].
  intros i c. rewrite lookup_delete_Some. intros [_ E]. by apply (H3 i).
Qed.
Lemma budget_erase fd : keeps budget_ok (erase_session fd).
Proof.
  unfold erase_session. intros s Hs.
  apply (bind_through (fun s => budget_ok s /\ drained fd false s));
    [split; [by apply budget_clear|apply drained_clear]|intros ? ?; tauto|intros _ s1 H1].
  apply (bind_through (fun s => budget_ok s /\ drained fd false s));
    [revert s1 H1; apply keeps_and; walk|intros ? ?; tauto|intros _ s2 H2].
  apply (bind_through (fun s => (budget_ok s /\ drained fd false s) /\ drained fd true s));
    [split; [revert s2 H2; apply keeps_and; walk|apply drained_clear]|intros ? ?; tauto|intros _ s3 H3].
  revert s3 H3.
  assert (forall A B (m : SE Server A) (k : SE Server B),
    keeps (fun s => (budget_ok s /\ drained fd false s) /\ drained fd true s) m ->
    (forall s, (budget_ok s /\ drained fd false s) /\ drained fd true s -> budget_ok (snd (k s))) ->
    forall s, (budget_ok s /\ drained fd false s) /\ drained fd true s ->
      budget_ok (snd ((m ;;; k) s))) as Hseq.
  { intros A B m k Hm Hk s' Hs'. apply (bind_through (fun s => (budget_ok s /\ drained fd false s) /\ drained fd true s));
      [by apply Hm|intros ? ?; tauto|intros _; apply Hk]. }
  do 5 (apply Hseq; [repeat apply keeps_and; unfold emit; walk|]).
  intros s' [[Hb Hd1] Hd2]. by apply budget_delete.
Qed.

Lemma budget_rooms s m : budget_ok s -> budget_ok (set_sv_rooms m s).
Proof. intros []. by constructor. Qed.
#[export] Instance budget_msg : MsgInv budget_ok.
Proof.
  constructor; [apply _|..].
  - intros f _ s Hs. by apply budget_rooms.
  - intros rid pid nm token s Hs. by apply budget_rooms.
  - intros nm pid mp tcp udp mtu prot hash salt s _ _ Hs. by apply budget_rooms.
  - intros t rid changed. unfold expire_room.
    assert (forall f, keeps budget_ok (upd_rooms f)) as Hu by (intros f s Hs; by apply budget_rooms).
    walk; try apply Hu. apply keeps_expire_leases; [apply _|intros f _; apply Hu].
  - intros fd s s' <-. apply budget_erase.
Qed.
Lemma budget_same_buffers fd f :
  (forall c, sendBuf (f c) = sendBuf c /\ dataSendBuf (f c) = dataSendBuf c) ->
  keeps budget_ok (upd fd f).
Proof.
  intros Hf s Hs. cbn.
  rewrite <- (set_global_id (set_sv_clients _ s) (sv_globalSendBytes s + 0)) by (cbn; lia).
  apply budget_alter; [done| |done|destruct Hs; lia].
  intros c E. destruct (Hf c) as (E1 & E2). unfold buffered. rewrite E1, E2.
  destruct (bo_each s Hs fd c E). split; [done|]. split; [done|]. lia.
Qed.
Lemma budget_promote fd ip buf t : keeps budget_ok (promote_pending fd ip buf t).
Proof.
  intros s [H1 H2 H3]. unfold promote_pending. cbn.
  set (c := set_serverAuthOk _ _).
  assert (buffered c = buffered (session s fd)) as Eb by done.
  assert (total_buffered (<[fd := c]> (sv_clients s)) = total_buffered (sv_clients s)) as Ht.
  { destruct (sv_clients s !! fd) as [c0|] eqn:E.
    - rewrite (map_total_update _ _ _ c0 c E), Eb, (session_Some s fd c0 E). lia.
    - rewrite map_total_insert, Eb, (session_None s fd E) by done. done. }
  constructor; cbn; rewrite ?Ht; [done|done|].
  intros i x. destruct (decide (i = fd)) as [->|Hi].
  - rewrite lookup_insert_eq. intros [= <-]. cbn. destruct (sv_clients s !! fd) as [c0|] eqn:E.
    + rewrite (session_Some s fd c0 E). by apply (H3 fd).
    + rewrite (session_None s fd E). by split.
  - rewrite lookup_insert_ne by done. apply H3.
Qed.
#[export] Instance budget_event : EventInv budget_ok.
Proof.
  constructor; [apply _|..].
  - intros fd buf. by apply budget_same_buffers.
  - intros fd buf. by apply budget_same_buffers.
  - apply budget_promote.
Qed.
End Budget.

(** ** The room registry *)

(** What depends on the registry and the limits only is kept by everything
    that does not touch rooms. *)
#[export] Instance rooms_core (P : RoomManager -> ServerLimits -> Prop) :
  CoreInv (fun s => P (sv_rooms s) (sv_limits s)).
Proof.
  constructor.
  - intros fd f _ s Hs. exact Hs.
  - intros g Hg s Hs. cbn. destruct (Hg s) as (_ & -> & _ & ->). exact Hs.
  - intros fd dc a b s c _ Hs. unfold appendSendBuffer, bind, client, gets, upd, modify, when, ret.
    repeat case_match; simplify_eq/=; exact Hs.
  - intros fd dc n _ s Hs. exact Hs.
  - intros fd dc s Hs. exact Hs.
Qed.

(** The registry is well-formed, and every occupied room but [skip] has a
    member as its host. *)
Definition registry (skip : Z -> Prop) (m : RoomManager) (lim : ServerLimits) : Prop :=
  rooms_ok m /\ (forall rid r, ~ skip rid -> m_rooms m !! rid = Some r -> host_ok r) /\
  maxRooms lim <= 4294967294.
Definition registry_ok (m : RoomManager) (lim : ServerLimits) : Prop :=
  registry (fun _ => False) m lim.

Lemma registry_hosts m lim : registry_ok m lim -> hosts_ok m.
Proof. intros (_ & H & _) rid r E. exact (H rid r (fun x => x) E). Qed.
Lemma registry_intro m lim :
  rooms_ok m -> hosts_ok m -> maxRooms lim <= 4294967294 -> registry_ok m lim.
Proof. intros H1 H2 H3. split; [done|]. split; [|done]. intros rid r _. apply H2. Qed.

Lemma drop_lease_ok t rid pid m : rooms_ok m -> rooms_ok (drop_lease t rid pid m).
Proof.
  intros Hm. unfold drop_lease. destruct (getRoom m rid); [|done].
  assert (rooms_ok (alterRoom rid (fun r => snd (removeLease t r pid)) m)) as Ha
    by (apply alterRoom_ok; auto with vlan).
  destruct (getRoom (alterRoom _ _ _) rid); [|done]. destruct (room_empty _); [|done].
  by apply eraseRoom_ok.
Qed.
Lemma drop_lease_hosts t rid pid m : hosts_ok m -> hosts_ok (drop_lease t rid pid m).
Proof.
  intros Hm. unfold drop_lease. destruct (getRoom m rid); [|done].
  assert (hosts_ok (alterRoom rid (fun r => snd (removeLease t r pid)) m)) as Ha
    by (apply alterRoom_hosts; auto with vlan).
  destruct (getRoom (alterRoom _ _ _) rid); [|done]. destruct (room_empty _); [|done].
  by apply eraseRoom_hosts.
Qed.
Lemma room_update_ok f m lim : RoomUpdate f -> registry_ok m lim -> registry_ok (f m) lim.
Proof.
  intros Hf Hm. pose proof (registry_hosts _ _ Hm) as Hh. destruct Hm as (Hok & _ & Hl).
  apply registry_intro; [destruct Hf|destruct Hf|done].
  - by apply drop_lease_ok.
  - apply alterRoom_ok; auto with vlan.
  - apply alterRoom_ok; auto with vlan.
  - by apply eraseRoom_ok.
  - by apply drop_lease_hosts.
  - apply alterRoom_hosts; auto with vlan.
  - apply alterRoom_hosts; auto with vlan.
  - by apply eraseRoom_hosts.
Qed.
Lemma add_lease_in_ok rid pid nm token m lim :
  registry_ok m lim -> registry_ok (snd (add_lease_in rid pid nm token m)) lim.
Proof.
  intros Hm. pose proof (registry_hosts _ _ Hm) as Hh. destruct Hm as (Hok & H0 & Hl).
  unfold add_lease_in, getRoom. destruct (m_rooms m !! rid) as [r|] eqn:E; [|done].
  destruct (addLease r pid nm (Some token)) as [[l r']|] eqn:Ea; [|done]. cbn [snd].
  destruct (rk_room _ Hok _ _ E) as [_ Hr].
  destruct (addLease_room _ _ _ _ _ _ Hr Ea) as (H1 & H2 & _).
  apply registry_intro; [|by apply alterRoom_hosts|done].
  eapply add_rooms_ok; [done|done|by eapply addLease_id|done].
Qed.

Section Registry.
Context `{Crypto}.

Lemma lease_update_ok (skip : Z -> Prop) rid f m lim :
  lease_update f -> skip rid -> registry skip m lim ->
  registry skip (alterRoom rid (fun r => set_r_leases (f (r_leases r)) r) m) lim.
Proof.
  intros Hf Hskip (H1 & H2 & H3). split; [|split; [|done]].
  - apply alterRoom_ok; [done|done|]. intros r Hr.
    destruct (Hf (r_leases r)); [by apply room_ok_keys|by apply room_ok_sub].
  - intros i r Hi. cbn. rewrite lookup_alter_Some. intros [(-> & _)|[_ E]]; [done|].
    exact (H2 i r Hi E).
Qed.

(** While a room's leases expire only that room's host may be missing, and
    [ensureHost] repairs it at the end. *)
Lemma registry_expire t rid changed :
  keeps (fun s => registry_ok (sv_rooms s) (sv_limits s)) (expire_room t rid changed).
Proof.
  intros s Hs. unfold expire_room, get_rooms. cbn [bind gets].
  set (J := fun s => registry (fun i => i = rid) (sv_rooms s) (sv_limits s)).
  assert (HJ : CoreInv J) by apply (rooms_core (registry (fun i => i = rid))).
  assert (forall s, J s -> registry_ok (alterRoom rid ensureHost (sv_rooms s)) (sv_limits s)) as Hfix.
  { intros s' (H1 & H2 & H3). apply registry_intro; [|intros i r; cbn|done].
    - apply alterRoom_ok; auto with vlan.
    - rewrite lookup_alter_Some. intros [(_ & r0 & _ & ->)|[Hi E]]; [apply ensureHost_host|].
      apply (H2 i r); [congruence|done]. }
  unfold bind at 1. cbn [gets fst snd].
  match goal with |- context [expire_leases ?n t rid 0 changed] => set (fuel := n) end.
  apply (bind_total J (fun s => registry_ok (sv_rooms s) (sv_limits s)));
    [apply total_expire_leases| |].
  - apply keeps_expire_leases; [done| |].
    + intros f Hf s' Hs'. apply lease_update_ok; done.
    + destruct Hs as (H1 & H2 & H3). split; [done|]. split; [|done]. intros i r _ E.
      exact (H2 i r (fun x => x) E).
  - intros b s' Hs'. exact (Hfix s' Hs').
Qed.

#[export] Instance registry_event : EventInv (fun s => registry_ok (sv_rooms s) (sv_limits s)).
Proof.
  constructor; [constructor; [apply rooms_core|..]|..].
  - intros f Hf s Hs. cbn. by apply room_update_ok.
  - intros rid pid nm token s Hs. cbn. by apply add_lease_in_ok.
  - intros nm pid mp tcp udp mtu prot hash salt s Hmax Hcap Hs. cbn.
    pose proof (registry_hosts _ _ Hs) as Hh. destruct Hs as (Hok & _ & Hl).
    pose proof (createRoom_ok (sv_rooms s) nm pid mp tcp udp mtu prot hash salt Hok) as Hc.
    apply registry_intro; [apply Hc; [lia|done]|by apply createRoom_hosts|done].
  - apply registry_expire.
  - intros fd s s' <- Hs. revert s Hs.
    change (keeps (fun s => registry_ok (sv_rooms s) (sv_limits s)) (erase_session fd)).
    unfold erase_session. walk.
  - intros fd buf s Hs. exact Hs.
  - intros fd buf s Hs. exact Hs.
  - intros fd ip buf t s Hs. exact Hs.
Qed.
End Registry.

(** ** Sessions are filed under their descriptor *)

Definition filed (m : gmap Z ClientSession) : Prop :=
  forall fd c, m !! fd = Some c -> tcpFd c = fd.
Lemma filed_alter m fd f :
  (forall c, tcpFd (f c) = tcpFd c) -> filed m -> filed (alter f fd m).
Proof.
  intros Hf Hm i c. rewrite lookup_alter_Some. intros [(<- & c0 & E & ->)|[_ E]].
  - rewrite Hf. by apply Hm.
  - by apply Hm.
Qed.
#[local] Hint Resolve filed_alter : vlan.

Section Filed.
Context `{Crypto}.
Lemma filed_upd fd f :
  (forall c, tcpFd (f c) = tcpFd c) -> keeps (fun s => filed (sv_clients s)) (upd fd f).
Proof. intros Hf s Hs. by apply filed_alter. Qed.
#[export] Instance filed_core : CoreInv (fun s => filed (sv_clients s)).
Proof.
  assert (forall fd dc (v : ClientSession -> bytes), keeps (fun s => filed (sv_clients s))
    (upd fd (fun c => set_target_buf dc (v c) c))) as Ht.
  { intros fd dc v. apply filed_upd. intros c. by destruct dc. }
  constructor.
  - intros fd f Hq. apply filed_upd. intros c. apply Hq.
  - intros g Hg s Hs. cbn. destruct (Hg s) as (-> & _). exact Hs.
  - intros fd dc a b s c _. revert s.
    change (keeps (fun s => filed (sv_clients s)) (appendSendBuffer fd dc a b)).
    unfold appendSendBuffer. walk; try (apply filed_upd; intros ?; done);
      try (intros s Hs; exact Hs); try apply Ht.
  - intros fd dc n _ s Hs. apply (Ht fd dc (fun _ => _)), Hs.
  - intros fd dc s Hs. apply (Ht fd dc (fun _ => _)), Hs.
Qed.
#[export] Instance filed_event : EventInv (fun s => filed (sv_clients s)).
Proof.
  assert (forall f, keeps (fun s => filed (sv_clients s)) (upd_rooms f)) as Hu
    by (intros f s Hs; exact Hs).
  constructor; [constructor; [apply _|..]|..].
  - intros f _. apply Hu.
  - intros rid pid nm token s Hs. exact Hs.
  - intros nm pid mp tcp udp mtu prot hash salt s _ _ Hs. exact Hs.
  - intros t rid changed. unfold expire_room. walk.
    apply keeps_expire_leases; [apply _|intros f _; apply Hu].
  - intros fd s s' <- Hs. revert s Hs.
    change (keeps (fun s => filed (sv_clients s)) (erase_session fd)).
    unfold erase_session. walk. all: intros s Hs i c; cbn;
      rewrite lookup_delete_Some; intros [_ E]; by apply Hs.
  - intros fd buf. by apply filed_upd.
  - intros fd buf. by apply filed_upd.
  - intros fd ip buf t s Hs i c. cbn. destruct (decide (i = fd)) as [->|Hi].
    + rewrite lookup_insert_eq. by intros [= <-].
    + rewrite lookup_insert_ne by done. by apply Hs.
Qed.
End Filed.

(** ** Theorems *)

Section Theorems.
Context `{Crypto}.

#[local] Instance limits_event lim : EventInv (fun s => sv_limits s = lim).
Proof.
  assert (forall f, keeps (fun s => sv_limits s = lim) (upd_rooms f)) as Hu
    by (intros f s Hs; exact Hs).
  constructor; [constructor; [apply (rooms_core (fun _ l => l = lim))|..]|..].
  - intros f _. apply Hu.
  - intros rid pid nm token s Hs. exact Hs.
  - intros nm pid mp tcp udp mtu prot hash salt s _ _ Hs. exact Hs.
  - intros t rid changed. unfold expire_room.
    pose proof (rooms_core (fun _ l => l = lim)). walk.
    apply keeps_expire_leases; [done|intros f _; apply Hu].
  - intros fd s s' <- Hs. revert s Hs.
    change (keeps (fun s => sv_limits s = lim) (erase_session fd)).
    pose proof (rooms_core (fun _ l => l = lim)). unfold erase_session. walk.
  - intros fd buf s Hs. exact Hs.
  - intros fd buf s Hs. exact Hs.
  - intros fd ip buf t s Hs. exact Hs.
Qed.

(** C2: the send budget.  In every state the event loop reaches - whatever
    connections, data, packets, socket results, random failures and clock
    readings occur - the global counter equals the octets actually queued
    over all sessions and both channels, stays within the configured limit,
    and no single queue exceeds [MAX_TCP_SEND_BUF]. *)
Theorem send_budget_exact lim t0 s :
  0 <= maxSendBufferBytes lim <= UINT64_MAX ->
  reachable (Server_init lim t0) s ->
  sv_globalSendBytes s = total_buffered (sv_clients s) /\
  total_buffered (sv_clients s) <= maxSendBufferBytes lim /\
  (forall fd c, sv_clients s !! fd = Some c ->
     len (sendBuf c) <= MAX_TCP_SEND_BUF /\ len (dataSendBuf c) <= MAX_TCP_SEND_BUF).
Proof.
  intros Hl Hr.
  assert (sv_limits s = lim) as Hs by by apply (reachable_inv (fun s => sv_limits s = lim) _ _ Hr).
  assert (budget_ok s) as [H1 [H2 _] H3].
  { apply (reachable_inv budget_ok _ _ Hr). by constructor. }
  rewrite Hs in H2. done.
Qed.

(** C16: the room registry.  In every state the event loop reaches, room ids in
    use and free ids partition 1 .. next-1; each room is filed under its id,
    has distinct members with distinct host addresses of 10.10.0.2 ..
    10.10.0.254, no more members than its limit of at most [MAX_PLAYERS], a
    valid MTU, and, when it has members, one of them as its host. *)
Theorem registry_always_ok lim t0 s :
  maxRooms lim <= 4294967294 -> reachable (Server_init lim t0) s ->
  rooms_ok (sv_rooms s) /\ hosts_ok (sv_rooms s).
Proof.
  intros Hl Hr.
  assert (registry_ok (sv_rooms s) (sv_limits s)) as Hs.
  { apply (reachable_inv (fun s => registry_ok (sv_rooms s) (sv_limits s)) _ _ Hr).
    apply registry_intro; [apply rooms_ok_init|intros rid r; cbn; done|done]. }
  split; [apply Hs|by eapply registry_hosts].
Qed.

(** In every state the event loop reaches, a session is filed under its own
    descriptor, so a handler's [c.tcpFd] is the key of [c] in [m_clients]. *)
Theorem sessions_filed lim t0 s :
  reachable (Server_init lim t0) s ->
  forall fd c, sv_clients s !! fd = Some c -> tcpFd c = fd.
Proof.
  intros Hr. apply (reachable_inv (fun s => filed (sv_clients s)) _ _ Hr). by intros fd c.
Qed.

End Theorems.

(** ** An instance *)

#[local] Existing Instances ToyCrypto ToyCryptoLaws.
(** A connection is accepted, sends its hello, and becomes a session whose
    answer is queued because the socket would block. *)
Definition demo_server0 : Server := Server_init ServerLimits_default 100.
Definition demo_hello : bytes := [MSG_CLIENT_HELLO; 0; 50; 0; 9] ++ replicate 48 1.
Definition demo_run (es : list Event) (s : Server) : Server :=
  fold_left (fun s e => snd (handle_event e s)) es s.
Definition demo_server1 : Server :=
  demo_run [EvSockets [SendN 10] [Some [1;2;3]; Some [4;5;6]]; EvAccept 5 0x7F000001;
            EvReadable 5 (Some demo_hello)] demo_server0.
Lemma demo_server1_reachable : reachable demo_server0 demo_server1.
Proof. unfold demo_server1, demo_run. cbn [fold_left]. repeat constructor. Qed.
Lemma send_budget_exact_witness :
  0 < sv_globalSendBytes demo_server1 /\
  sv_globalSendBytes demo_server1 = total_buffered (sv_clients demo_server1).
Proof.
  split; [by vm_compute|].
  apply (send_budget_exact ServerLimits_default 100 demo_server1);
    [by vm_compute|exact demo_server1_reachable].
Defined.
Lemma registry_always_ok_witness : rooms_ok (sv_rooms demo_server1).
Proof.
  apply (registry_always_ok ServerLimits_default 100 demo_server1);
    [by vm_compute|exact demo_server1_reachable].
Defined.
Lemma sessions_filed_witness :
  size (sv_clients demo_server1) = 1%nat /\
  forall c, sv_clients demo_server1 !! 5 = Some c -> tcpFd c = 5.
Proof.
  split; [by vm_compute|]. intros c.
  apply (sessions_filed ServerLimits_default 100 demo_server1 demo_server1_reachable).
Defined.
