(* ===== verification/ServerTotal.v ===== *)
(** * No exception escapes validation; the framing loops have enough fuel

    The handlers run to their end on every message the validator accepts
    (their [ByteBuffer] reads stay in bounds), and the framing loops' fuel is
    enough: more would not change their result. *)

From S2P Require Import Prelude Protocol ByteBuf Room RoomFacts SecureFrame ServerState ServerCore ServerRooms ServerAuth ServerDispatch ServerInv.

(** ** Reads of a known size *)

(** A reader that takes [n] octets: it succeeds iff they are there. *)
Definition takes {A} (n : Z) (m : BB A) : Prop :=
  forall b, n <= remaining b -> exists v, m b = (Some v, mkBB (m_data b) (m_readPos b + n)).
Ltac solve_takes := intros b Hb; unfold bind, ensureReadable, peek, gets, advance, modify, ret;
  cbn; unfold bind; rewrite (proj2 (Z.ltb_ge _ _)) by exact Hb; cbn; by eexists.
Lemma takes_u8 : takes 1 readU8.
Proof. unfold readU8. solve_takes. Qed.
Lemma takes_u32 : takes 4 readU32.
Proof. unfold readU32. solve_takes. Qed.
Lemma takes_bytes n : takes n (readBytes n).
Proof. unfold readBytes. solve_takes. Qed.
Lemma remaining_of p : remaining (bb_of p) = len p.
Proof. unfold remaining, bb_of. cbn. lia. Qed.
Lemma remaining_advance b n : remaining (mkBB (m_data b) (m_readPos b + n)) = remaining b - n.
Proof. unfold remaining. cbn. lia. Qed.
Lemma total_read {A} (m : BB A) b : is_Some (fst (m b)) -> total (read m b).
Proof. intros [v Hv] s. unfold read. destruct (m b) as [[a|] b']; [by eexists|done]. Qed.
(** A read of a known size, and what is left. *)
Lemma total_take {A B} n (m : BB A) b (k : A * ByteBuffer -> SE Server B) :
  takes n m -> n <= remaining b ->
  (forall a b', remaining b' = remaining b - n -> total (k (a, b'))) ->
  total (bind (read m b) k).
Proof.
  intros Ht Hb Hk s. destruct (Ht b Hb) as [v Ev]. unfold bind, read. rewrite Ev.
  apply Hk. apply remaining_advance.
Qed.

(** ** Everything but the reads is total *)

Section Total.
Context `{Crypto}.
#[local] Hint Extern 1 (total (client _)) => apply total_gets : vlan.
#[local] Hint Extern 1 (total now) => apply total_gets : vlan.
#[local] Hint Extern 1 (total get_rooms) => apply total_gets : vlan.
#[local] Hint Extern 1 (total (emit _)) => apply total_modify : vlan.
#[local] Hint Extern 1 (total (upd _ _)) => apply total_modify : vlan.
#[local] Hint Extern 1 (total (upd_ip _ _)) => apply total_modify : vlan.
#[local] Hint Extern 1 (total (upd_rooms _)) => apply total_modify : vlan.
#[local] Hint Extern 1 (total (release_budget _)) => apply total_modify : vlan.
#[local] Hint Extern 1 (total logSendRejectSampled) => apply total_modify : vlan.
#[local] Hint Extern 1 (total (cleanupIpStates _)) => apply total_modify : vlan.
#[local] Hint Resolve total_ownerPeer total_byPeer total_append total_flush total_sendMsg
  total_sendClientMsg total_broadcast total_releasePeerId total_expire_leases : vlan.

Lemma total_random n : total (secureRandomBytes n).
Proof. unfold secureRandomBytes. walk. Qed.
Lemma total_rooms_step {A} (f : RoomManager -> A * RoomManager) : total (rooms_step f).
Proof. unfold rooms_step. walk. Qed.
Lemma total_ownerData dfd : total (findClientOwnerByDataFd dfd).
Proof. unfold findClientOwnerByDataFd, find_owner. walk. Qed.
Lemma total_ownerSession sid : total (findClientOwnerBySecureSessionId sid).
Proof. unfold findClientOwnerBySecureSessionId, find_owner. walk. Qed.
#[local] Hint Resolve total_random total_rooms_step total_ownerData total_ownerSession : vlan.
Lemma total_bindPeer fd pid : total (bindPeerIndex fd pid).
Proof. unfold bindPeerIndex, bind_index. walk. Qed.
Lemma total_unbind fd : total (unbindClientIndexes fd).
Proof. unfold unbindClientIndexes. walk. Qed.
Lemma total_clear fd dc : total (clearSendBuffer fd dc).
Proof. unfold clearSendBuffer. walk. Qed.
#[local] Hint Resolve total_bindPeer total_unbind total_clear : vlan.
Lemma total_closeData fd : total (closeDataChannel fd).
Proof. unfold closeDataChannel. walk. Qed.
#[local] Hint Resolve total_closeData : vlan.
Lemma total_flushData fd : total (flushDataSendBuf fd).
Proof.
  assert (forall fuel fd dc sock again failed done, total again -> total failed -> total done ->
    total (flush_loop fuel fd dc sock again failed done)) as Hl.
  { intros fuel fd' dc sock again failed done Ha Hf Hd.
    induction fuel as [|fuel IH]; cbn [flush_loop];
      unfold flush_turn, next_send, consumeSendBuffer; walk. }
  unfold flushDataSendBuf. walk; apply Hl; walk.
Qed.
#[local] Hint Resolve total_flushData : vlan.
Lemma total_sendDataMsg fd t body : total (sendDataMsg fd t body).
Proof. unfold sendDataMsg. walk. Qed.
Lemma total_sendError fd text code : total (sendError fd text code).
Proof. unfold sendError. walk. Qed.
Lemma total_releaseIp fd : total (releaseClientIp fd).
Proof. unfold releaseClientIp. walk. Qed.
Lemma total_takeIp ip b burst sec : total (takeIpToken ip b burst sec).
Proof. unfold takeIpToken. walk. Qed.
Lemma total_token : total generateLeaseToken.
Proof. unfold generateLeaseToken. walk. Qed.
Lemma total_allocatePeer : total allocatePeerId.
Proof. unfold allocatePeerId. walk. Qed.
Lemma total_notify fd : total (notifyRelayPeers fd).
Proof. unfold notifyRelayPeers, sendRelayReady. walk. Qed.
Lemma total_push : total broadcastRoomListPush.
Proof. unfold broadcastRoomListPush. walk. Qed.
#[local] Hint Resolve total_sendDataMsg total_sendError total_releaseIp total_takeIp total_token
  total_allocatePeer total_notify total_push : vlan.
Lemma total_validateResume rid pid token : total (validateResumeLease rid pid token).
Proof. unfold validateResumeLease. walk. Qed.
Lemma total_rollback fd rid : total (rollbackNewMembership fd rid).
Proof. unfold rollbackNewMembership. walk. Qed.
Lemma total_joinResponse fd rid token : total (sendJoinResponse fd rid token).
Proof. unfold sendJoinResponse. walk. Qed.
Lemma total_destroy fd reason : total (destroyClient fd reason).
Proof. unfold destroyClient, markSessionOffline, erase_session. walk. Qed.
#[local] Hint Resolve total_validateResume total_rollback total_joinResponse total_destroy : vlan.
Lemma total_takeover fd : total (closeClientForTakeover fd).
Proof. unfold closeClientForTakeover. walk. Qed.
Lemma total_expire_rooms t rids changed gone : total (expire_rooms t rids changed gone).
Proof.
  revert changed gone. induction rids as [|rid rids IH]; intros; cbn [expire_rooms]; [walk|].
  unfold expire_room. walk.
Qed.
#[local] Hint Resolve total_takeover total_expire_rooms : vlan.
Lemma total_cleanupLeases t : total (cleanupExpiredLeases t).
Proof. unfold cleanupExpiredLeases. walk. Qed.
#[local] Hint Resolve total_cleanupLeases : vlan.
Lemma total_completeJoin fd rid : total (completeJoin fd rid).
Proof. unfold completeJoin. walk. Qed.
Lemma total_completeResume fd rid l : total (completeResume fd rid l).
Proof. unfold completeResume. walk. Qed.
#[local] Hint Resolve total_completeJoin total_completeResume : vlan.
Lemma total_onLogin fd p : total (onLogin fd p).
Proof. unfold onLogin, login_resume, login_fresh. walk. Qed.
Lemma total_onLeaveRoom fd : total (onLeaveRoom fd).
Proof. unfold onLeaveRoom. walk. Qed.
Lemma total_onLogout fd : total (onLogout fd).
Proof. unfold onLogout. walk. Qed.
Lemma total_onListRooms fd : total (onListRooms fd).
Proof. unfold onListRooms. walk. Qed.
Lemma total_onAuthResponse fd p : total (onAuthResponse fd p).
Proof. unfold onAuthResponse. walk. Qed.
Lemma total_onPing fd : total (onPing fd).
Proof. unfold onPing. walk. Qed.
Lemma total_create_open fd nm mp tcp udp mtu prot hash salt :
  total (create_room_open fd nm mp tcp udp mtu prot hash salt).
Proof. unfold create_room_open. walk. Qed.
#[local] Hint Resolve total_onLogin total_onLeaveRoom total_onLogout total_onListRooms
  total_onAuthResponse total_onPing total_create_open : vlan.

(** ** The handlers on validated messages *)

Ltac take_u32 := apply (total_take 4); [exact takes_u32|lia|intros ? ? ?].

Lemma total_join fd p : len p = 4 -> total (onJoinRoom fd p).
Proof.
  intros Hp. pose proof (remaining_of p). unfold onJoinRoom. walk.
  apply total_read. destruct (takes_u32 (bb_of p)) as [v ->]; [lia|by eexists].
Qed.
Lemma total_relay_request fd p : len p = 4 -> total (onRequestRelay fd p).
Proof. intros Hp. pose proof (remaining_of p). unfold onRequestRelay. take_u32. walk. Qed.
Lemma total_relay_data fd p : total (onTcpRelayData fd p).
Proof.
  pose proof (remaining_of p). unfold onTcpRelayData.
  destruct (Z.ltb_spec (len p) 9); [walk|]. take_u32. take_u32.
  apply (total_take 1); [exact takes_u8|lia|intros ? ? ?]. walk.
Qed.
Lemma total_resume fd p : len p = 4 + 4 + RECONNECT_TOKEN_SIZE -> total (onResumeRoom fd p).
Proof.
  intros Hp. pose proof (remaining_of p). unfold onResumeRoom.
  change RECONNECT_TOKEN_SIZE with 32 in *. apply total_bind; [walk|intros c].
  destruct (peerId c =? 0); [walk|]. cbv zeta. take_u32. take_u32.
  apply (total_take 32); [apply takes_bytes|lia|intros ? ? ?]. walk.
Qed.

Lemma total_assoc {A B C} (m : SE Server A) (k : A -> SE Server B) (h : B -> SE Server C) :
  total (bind m (fun a => bind (k a) h)) -> total (bind (bind m k) h).
Proof. intros Ht s. rewrite bind_assoc. apply Ht. Qed.
(** A read succeeds because the validator's read of the same buffer did. *)
Lemma total_same {A B} (m : BB A) b (k : A * ByteBuffer -> SE Server B) a b' :
  m b = (Some a, b') -> total (k (a, b')) -> total (bind (read m b) k).
Proof. intros E Hk s. unfold bind, read. rewrite E. apply Hk. Qed.
(** [says m b]: the validator [m] accepts the buffer [b]. *)
Definition says (m : BB bool) (b : ByteBuffer) : bool :=
  match fst (m b) with Some v => v | None => false end.
Lemma says_bind {A} (m : BB A) k b :
  says (bind m k) b = true -> exists a b', m b = (Some a, b') /\ says (k a) b' = true.
Proof.
  unfold says, bind. destruct (m b) as [[a|] b'] eqn:E; [|done].
  intros Hk. by exists a, b'.
Qed.
Lemma says_if (c : bool) m b : says (if c then ret false else m) b = true -> c = false /\ says m b = true.
Proof. by destruct c. Qed.
Lemma says_assoc {A B} (m : BB A) (k : A -> BB B) h b :
  says (bind (bind m k) h) b = says (bind m (fun a => bind (k a) h)) b.
Proof. unfold says. by rewrite bind_assoc. Qed.
Ltac says_read H := let v := fresh "v" in let b := fresh "b" in let E := fresh "E" in
  apply says_bind in H as (v & b & E & H); apply (total_same _ _ _ v b E).

Lemma validated_create fd p : parses validate_create_room p = true -> total (create_room_request fd p).
Proof.
  intros Hv. change (says validate_create_room (bb_of p) = true) in Hv.
  unfold validate_create_room in Hv. unfold create_room_request. cbv zeta.
  says_read Hv. destruct (negb (isValidRoomName v)) eqn:En; [walk|].
  says_read Hv. destruct (_ || (MAX_PLAYERS <? v0)) eqn:Em; [walk|].
  destruct (remaining _ <? 6); [walk|]. do 6 says_read Hv.
  match goal with |- total (if ?c then _ else _) => destruct c eqn:Ep; [walk|] end.
  apply says_if in Hv as [_ Hv]. says_read Hv. apply says_if in Hv as [_ Hv].
  assert (forall b u, says (mtu <- readU16 ;; if isValidRoomMtuValue mtu then gets atEnd else ret false) b = true ->
    total (let '(pwdSalt, pwdHash, bb) := (u, b) in
           let* (roomMtu, _) := read readU16 bb in
           if negb (isValidRoomMtuValue roomMtu) then upd fd (set_alive false) else
           create_room_open fd v v0
             (normalizeTrafficPolicy v1 v2 v3 makeDefaultTcpPolicy)
             (normalizeTrafficPolicy v4 v5 v6 makeDefaultUdpPolicy) roomMtu v7 pwdHash pwdSalt)) as Hend.
  { intros b' [salt hash] Hm. says_read Hm. walk. }
  destruct (negb (v7 =? 0)).
  - apply total_assoc. rewrite says_assoc in Hv. says_read Hv.
    apply total_assoc. rewrite says_assoc in Hv. says_read Hv.
    intros s. exact (Hend _ (v8, v9) Hv s).
  - intros s. exact (Hend _ (zeros 16, zeros 32) Hv s).
Qed.

Lemma total_onCreate fd p : parses validate_create_room p = true -> total (onCreateRoom fd p).
Proof. intros Hv. unfold onCreateRoom. walk. by apply validated_create. Qed.
#[local] Hint Resolve total_relay_data total_join total_resume total_relay_request total_onCreate : vlan.

(** What the validator says of the messages whose handlers read. *)
Lemma validated_if t (ok : Z -> bool) m p :
  (forall pl n, validateClientSignalPayload t pl n =
     match pl with
     | None => false
     | Some d => if ok n then parses m (take (Z.to_nat n) d) else false
     end) ->
  validateClientSignalPayload t (if len p =? 0 then None else Some p) (len p) = true ->
  ok (len p) = true /\ parses m p = true.
Proof.
  intros ->. destruct (len p =? 0); [done|]. destruct (ok (len p)); [|done].
  rewrite len_to_nat, take_ge by lia. done.
Qed.

(** C24: validation is sufficient.  A handler that is given a payload the
    validator accepts for its message type never reads past the end of the
    message (it cannot throw), whatever the state of the server. *)
Theorem validated_never_throws fd t p s :
  validateClientSignalPayload t (if len p =? 0 then None else Some p) (len p) = true ->
  is_Some (fst (dispatch_message fd t p s)).
Proof.
  intros Hv. revert s. change (total (dispatch_message fd t p)).
  unfold dispatch_message.
  destruct (t =? MSG_LOGIN); [walk|].
  destruct (Z.eqb_spec t MSG_CREATE_ROOM) as [->|].
  { apply (validated_if _ (fun n => negb (n =? 0)) validate_create_room) in Hv as [_ Hv]; [walk|reflexivity]. }
  destruct (Z.eqb_spec t MSG_JOIN_ROOM) as [->|].
  { apply (validated_if _ (fun n => n =? 4) validate_u32_nonzero) in Hv as [Hv%Z.eqb_eq _];
      [walk|reflexivity]. }
  destruct (Z.eqb_spec t MSG_RESUME_ROOM) as [->|].
  { apply (validated_if _ (fun n => n =? 4 + 4 + RECONNECT_TOKEN_SIZE) validate_resume_room) in Hv
      as [Hv%Z.eqb_eq _]; [walk|reflexivity]. }
  destruct (t =? MSG_LEAVE_ROOM); [walk|]. destruct (t =? MSG_LOGOUT); [walk|].
  destruct (t =? MSG_LIST_ROOMS); [walk|].
  destruct (Z.eqb_spec t MSG_REQUEST_RELAY) as [->|].
  { apply (validated_if _ (fun n => n =? 4) validate_u32_nonzero) in Hv as [Hv%Z.eqb_eq _];
      [walk|reflexivity]. }
  walk.
Qed.
End Total.

(** ** Fuel of the framing loop *)

(** The receive buffer of [fd] holds octets, at most [n]. *)
Definition recv_le (fd : Z) (n : nat) (s : Server) : Prop :=
  (length (recvBuf (session s fd)) <= n)%nat /\ bytes_ok (recvBuf (session s fd)).
Lemma recv_le_alter fd n s fd' f :
  (forall c, recvBuf (f c) `suffix_of` recvBuf c) -> recv_le fd n s ->
  recv_le fd n (set_sv_clients (alter f fd' (sv_clients s)) s).
Proof.
  unfold recv_le, session. cbn. rewrite lookup_alter. intros Hf Hs.
  case_decide; [subst|done]. destruct (sv_clients s !! fd) as [c|]; cbn; [|done].
  destruct (Hf c) as [pre E]. rewrite E in Hs. destruct Hs as [H1 H2].
  rewrite length_app in H1. apply bytes_ok_app in H2 as [_ H2]. split; [lia|done].
Qed.

Section Framing.
Context `{Crypto} (fd : Z) (n : nat).

Lemma recv_le_upd fd' f :
  (forall c, recvBuf (f c) `suffix_of` recvBuf c) -> keeps (recv_le fd n) (upd fd' f).
Proof. intros Hf s Hs. by apply recv_le_alter. Qed.
Lemma recv_le_same g : (forall s, sv_clients (g s) = sv_clients s) -> keeps (recv_le fd n) (modify g).
Proof. intros Hg s Hs. unfold recv_le, session in *. cbn. by rewrite Hg. Qed.
#[local] Instance recv_core : CoreInv (recv_le fd n).
Proof.
  assert (forall fd' dc (v : ClientSession -> bytes), keeps (recv_le fd n)
    (upd fd' (fun c => set_target_buf dc (v c) c))) as Ht.
  { intros fd' dc v. apply recv_le_upd. intros c. by destruct dc. }
  constructor.
  - intros fd' f Hq. apply recv_le_upd. intros c. apply Hq.
  - intros g Hg. apply recv_le_same. intros s. apply Hg.
  - intros fd' dc a b s c _. revert s.
    change (keeps (recv_le fd n) (appendSendBuffer fd' dc a b)).
    unfold appendSendBuffer. walk; try (apply recv_le_upd; intros ?; reflexivity);
      try (by apply recv_le_same); try apply Ht.
  - intros fd' dc k _ s Hs. apply (Ht fd' dc (fun _ => _)), Hs.
  - intros fd' dc s Hs. apply (Ht fd' dc (fun _ => _)), Hs.
Qed.
#[local] Instance recv_msg : MsgInv (recv_le fd n).
Proof.
  assert (forall f, keeps (recv_le fd n) (upd_rooms f)) as Hu by (intros f s Hs; exact Hs).
  constructor; [apply _|..].
  - intros f _. apply Hu.
  - intros rid pid nm token s Hs. exact Hs.
  - intros nm pid mp tcp udp mtu prot hash salt s _ _ Hs. exact Hs.
  - intros t rid changed. unfold expire_room. walk.
    apply keeps_expire_leases; [apply _|intros f _; apply Hu].
  - intros fd' s s' <- Hs. revert s Hs.
    change (keeps (recv_le fd n) (erase_session fd')).
    unfold erase_session. walk. all: intros s Hs; unfold recv_le, session in *; cbn;
      rewrite lookup_delete; case_decide; [cbn; split; [lia|constructor]|done].
Qed.
Lemma recv_le_message t p : keeps (recv_le fd n) (processMessage fd t p).
Proof. apply keeps_processMessage. apply _. Qed.
End Framing.

Section Fuel.
Context `{Crypto}.

Lemma frame_payload_len_nonneg buf : bytes_ok buf -> 0 <= frame_payload_len buf.
Proof.
  intros Hb. unfold frame_payload_len. rewrite Z.lor_nonneg, Z.shiftl_nonneg.
  pose proof (byte_at_ok buf 1 Hb). pose proof (byte_at_ok buf 2 Hb). unfold is_byte in *. lia.
Qed.

(** the framing loop ends.  Each turn removes at least a header from the
    receive buffer and no handler adds to it, so the buffer's length is enough
    fuel: any larger amount gives the same result and the same state. *)
Theorem framing_fuel_enough fd fuel k s :
  bytes_ok (recvBuf (session s fd)) -> (length (recvBuf (session s fd)) <= fuel)%nat ->
  process_recv_loop (fuel + k) fd s = process_recv_loop fuel fd s.
Proof.
  intros Hb Hs. revert s Hb Hs. induction fuel as [|fuel IH]; intros s Hb Hs.
  - destruct k as [|k]; [done|]. cbn [Nat.add process_recv_loop]. unfold bind, client, gets.
    assert ((len (recvBuf (session s fd)) <? sizeof_TcpMsgHeader) = true) as ->; [|done].
    apply Z.ltb_lt. unfold len. change sizeof_TcpMsgHeader with 3. lia.
  - cbn [Nat.add process_recv_loop]. unfold bind, client, gets.
    set (c := session s fd) in *. destruct (_ <? _); [done|].
    pose proof (frame_payload_len_nonneg _ Hb) as Hp.
    set (payloadLen := frame_payload_len (recvBuf c)) in *.
    destruct (MAX_TCP_MSG_PAYLOAD <? payloadLen); [done|]. destruct (_ <? _); [done|].
    set (t := byte_at _ _). set (p := slice _ _ _).
    destruct (recv_le_message fd (S fuel) t p s (conj Hs Hb)) as [Hm1 Hm2].
    destruct (processMessage fd t p s) as [[u|] s1]; [|done]. cbn [snd] in *.
    destruct (negb (alive (session s1 fd))); [done|].
    unfold upd, modify. case_decide; [done|].
    assert (recv_le fd fuel (set_sv_clients
      (alter (fun c => set_recvBuf (drop (Z.to_nat (sizeof_TcpMsgHeader + payloadLen)) (recvBuf c)) c)
         fd (sv_clients s1)) s1)) as Hnext.
    { unfold recv_le, session in *. cbn. rewrite lookup_alter, decide_True by done.
      destruct (sv_clients s1 !! fd) as [c1|]; cbn in *; [|split; [lia|constructor]].
      split; [|by apply Forall_drop]. rewrite length_drop. change sizeof_TcpMsgHeader with 3. lia. }
    destruct Hnext. by apply IH.
Qed.
End Fuel.

(** ** Instances *)

#[local] Existing Instances ToyCrypto ToyCryptoLaws.
Definition demo_framed : Server :=
  set_sv_clients {[ 5 := set_alive true (set_recvBuf [1; 0; 0; 77] (set_tcpFd 5 ClientSession_init)) ]}
    (Server_init ServerLimits_default 100).
Lemma framing_fuel_enough_witness :
  process_recv_loop (4 + 100) 5 demo_framed = process_recv_loop 4 5 demo_framed.
Proof.
  apply (framing_fuel_enough 5 4 100 demo_framed).
  - vm_compute. repeat constructor; discriminate.
  - by vm_compute.
Defined.
Lemma validated_never_throws_witness :
  is_Some (fst (dispatch_message 5 MSG_JOIN_ROOM [0; 0; 0; 1] demo_framed)).
Proof. apply validated_never_throws. reflexivity. Defined.
