(* ===== verification/RoomListFacts.v ===== *)
(** * The revisioned room list of [server/src/signal_server.cpp]

    The delta a push carries turns the published list into the current one, and
    [broadcastRoomListPush] sends it, or holds it back when it is too large;
    the pages of a full list partition it in order within the payload bound. *)

From S2P Require Import Prelude Protocol ByteBuf Room RoomFacts SecureFrame ServerState ServerCore ServerRooms.

(** ** Deltas *)

(** What a receiver does with the operations of a push: an upsert replaces the
    entry of its room, a removal deletes it. *)
Definition apply_operation (m : gmap Z RoomListState) (op : Z * RoomListState)
    : gmap Z RoomListState :=
  if op.1 =? ROOM_LIST_UPSERT then <[rl_roomId op.2 := op.2]> m else delete (rl_roomId op.2) m.
Definition apply_operations (ops : list (Z * RoomListState)) (m : gmap Z RoomListState)
    : gmap Z RoomListState := fold_left apply_operation ops m.

(** Lists are keyed by room id. *)
Definition keyed (m : gmap Z RoomListState) : Prop :=
  forall k st, m !! k = Some st -> rl_roomId st = k.

Lemma apply_upserts (l : list (Z * RoomListState)) m :
  NoDup l.*1 -> (forall k st, (k, st) ∈ l -> rl_roomId st = k) ->
  forall k, apply_operations (map (fun kv => (ROOM_LIST_UPSERT, kv.2)) l) m !! k =
    match list_to_map (M := gmap Z RoomListState) l !! k with
    | Some st => Some st
    | None => m !! k
    end.
Proof.
  unfold apply_operations. revert m. induction l as [|[i st] l IH]; intros m Hnd Hk k.
  { cbn. by rewrite lookup_empty. }
  cbn in Hnd. apply NoDup_cons in Hnd as [Hi Hnd]. cbn [map fold_left].
  rewrite IH; [|done|intros j s' Hj; apply Hk; by right].
  assert (rl_roomId st = i) as Ei by (apply Hk; left).
  unfold apply_operation. cbn [fst snd]. rewrite Z.eqb_refl, Ei. cbn [list_to_map foldr].
  destruct (decide (k = i)) as [->|Hne].
  - assert (list_to_map (M := gmap Z RoomListState) l !! i = None) as ->
      by by apply not_elem_of_list_to_map_1.
    cbn. by rewrite !lookup_insert_eq.
  - cbn. by rewrite !lookup_insert_ne.
Qed.
Lemma apply_removes (l : list (Z * RoomListState)) m :
  (forall k st, (k, st) ∈ l -> rl_roomId st = k) ->
  forall k, apply_operations (map (fun kv => (ROOM_LIST_REMOVE, kv.2)) l) m !! k =
    if decide (k ∈ l.*1) then None else m !! k.
Proof.
  unfold apply_operations. revert m. induction l as [|[i st] l IH]; intros m Hk k.
  { cbn. by rewrite decide_False by apply not_elem_of_nil. }
  cbn [map fold_left]. rewrite IH by (intros j s' Hj; apply Hk; by right).
  assert (rl_roomId st = i) as Ei by (apply Hk; left).
  change (apply_operation m (ROOM_LIST_REMOVE, (i, st).2)) with (delete (rl_roomId st) m).
  rewrite Ei. cbn [fmap list_fmap fst].
  destruct (decide (k = i)) as [->|Hne].
  - rewrite (decide_True (P := i ∈ i :: l.*1)) by left. case_decide; [done|]. by rewrite lookup_delete_eq.
  - rewrite lookup_delete_ne by done.
    destruct (decide (k ∈ l.*1)); [rewrite decide_True by (by right); done|].
    rewrite decide_False; [done|]. rewrite elem_of_cons. naive_solver.
Qed.

Lemma filter_lookup (f : Z -> RoomListState -> bool) m k :
  list_to_map (M := gmap Z RoomListState)
    (filter (fun kv => f kv.1 kv.2 = true) (map_ordered m)) !! k =
  match m !! k with Some st => if f k st then Some st else None | None => None end.
Proof.
  set (l := filter _ _).
  assert (NoDup l.*1) as Hnd.
  { eapply sublist_NoDup; [apply (NoDup_map_ordered_keys m)|].
    apply (sublist_map fst), sublist_filter. }
  assert (forall st, (k, st) ∈ l <-> f k st = true /\ m !! k = Some st) as Hin.
  { intros st. unfold l. rewrite list_elem_of_filter. by rewrite elem_of_map_ordered. }
  destruct (list_to_map l !! k) as [st|] eqn:E.
  - apply elem_of_list_to_map_2, Hin in E as [Ef ->]. by rewrite Ef.
  - apply not_elem_of_list_to_map_2 in E. destruct (m !! k) as [st|] eqn:Em; [|done].
    destruct (f k st) eqn:Ef; [|done]. exfalso. apply E.
    apply list_elem_of_fmap. exists (k, st). split; [done|]. by apply Hin.
Qed.

Lemma operations_apply current published :
  keyed current -> keyed published ->
  apply_operations (room_list_operations current published) published = current.
Proof.
  intros Hc Hp. apply map_eq. intros k. unfold room_list_operations, apply_operations.
  rewrite fold_left_app.
  set (ups := filter (fun kv => bool_decide (published !! kv.1 <> Some kv.2) = true) (map_ordered current)).
  set (rms := filter (fun kv => bool_decide (current !! kv.1 = None) = true) (map_ordered published)).
  change (apply_operations (map (fun kv => (ROOM_LIST_REMOVE, kv.2)) rms)
    (apply_operations (map (fun kv => (ROOM_LIST_UPSERT, kv.2)) ups) published) !! k = current !! k).
  rewrite apply_removes, apply_upserts.
  - pose proof (filter_lookup (fun i st => bool_decide (published !! i <> Some st)) current k) as Hu.
    change (list_to_map (M := gmap Z RoomListState) ups !! k = match current !! k with
      | Some st => if bool_decide (published !! k <> Some st) then Some st else None
      | None => None end) in Hu.
    rewrite Hu. case_decide as Hin.
    + apply list_elem_of_fmap in Hin as ([i st] & -> & Hin).
      apply list_elem_of_filter in Hin as [Hb _]. bools. done.
    + destruct (current !! k) as [st|] eqn:Ec.
      * by case_bool_decide.
      * destruct (published !! k) as [st|] eqn:Ep; [|done]. exfalso. apply Hin.
        apply list_elem_of_fmap. exists (k, st). split; [done|].
        apply list_elem_of_filter. split; [by apply bool_decide_eq_true|by apply elem_of_map_ordered].
  - eapply sublist_NoDup; [apply (NoDup_map_ordered_keys current)|].
    apply (sublist_map fst), sublist_filter.
  - intros i st Hin. apply list_elem_of_filter in Hin as [_ Hin].
    apply Hc. by apply elem_of_map_ordered.
  - intros i st Hin. apply list_elem_of_filter in Hin as [_ Hin].
    apply Hp. by apply elem_of_map_ordered.
Qed.

Lemma collect_lookup m k :
  rooms_ok m -> collectRoomListState m !! k = room_list_state <$> (m_rooms m !! k).
Proof.
  intros Hm. unfold collectRoomListState.
  assert (forall l (acc : gmap Z RoomListState), NoDup l.*1 -> (forall i r, (i, r) ∈ l -> r_id r = i) ->
    fold_left (fun acc '(_, room) => <[r_id room := room_list_state room]> acc) l acc !! k =
    match list_to_map (M := gmap Z Room) l !! k with
    | Some r => Some (room_list_state r)
    | None => acc !! k
    end) as Hf.
  { induction l as [|[i r] l IH]; intros acc Hnd Hid; [by cbn; rewrite lookup_empty|].
    cbn in Hnd. apply NoDup_cons in Hnd as [Hi Hnd]. cbn [fold_left].
    rewrite IH; [|done|intros j x Hj; apply Hid; by right].
    assert (r_id r = i) as -> by (apply Hid; left). cbn [list_to_map foldr fst snd].
    destruct (decide (k = i)) as [->|Hne].
    - assert (list_to_map (M := gmap Z Room) l !! i = None) as -> by by apply not_elem_of_list_to_map_1.
      by rewrite !lookup_insert_eq.
    - by rewrite !lookup_insert_ne. }
  rewrite Hf, lookup_empty; [|apply NoDup_map_ordered_keys|].
  - destruct (list_to_map _ !! k) as [r|] eqn:E.
    + apply elem_of_list_to_map_2, elem_of_map_ordered in E. by rewrite E.
    + apply not_elem_of_list_to_map_2 in E. destruct (m_rooms m !! k) as [r|] eqn:Em; [|done].
      exfalso. apply E. apply list_elem_of_fmap. exists (k, r). split; [done|].
      by apply elem_of_map_ordered.
  - intros i r Hin. apply elem_of_map_ordered in Hin. by apply (rk_room _ Hm).
Qed.
Lemma collect_keyed m : rooms_ok m -> keyed (collectRoomListState m).
Proof.
  intros Hm k st. rewrite collect_lookup by done. rewrite fmap_Some.
  intros (r & E & ->). cbn. by apply (rk_room _ Hm).
Qed.

Lemma filter_none {A} (f : A -> bool) l :
  (forall x, x ∈ l -> f x = false) -> filter (fun x => f x = true) l = [].
Proof.
  induction l as [|x l IH]; intros Hf; [done|].
  rewrite filter_cons, decide_False; [|rewrite Hf by left; done].
  apply IH. intros y Hy. apply Hf. by right.
Qed.

Lemma operations_none current published : keyed current -> keyed published ->
  room_list_operations current published = [] <-> published = current.
Proof.
  intros Hc Hp. pose proof (operations_apply _ _ Hc Hp) as Ha. split; [intros E; by rewrite E in Ha|].
  intros ->. unfold room_list_operations. rewrite !filter_none; [done|..].
  - intros [k st] Hin%elem_of_map_ordered. cbn. by rewrite Hin.
  - intros [k st] Hin%elem_of_map_ordered. cbn. rewrite Hin. by case_bool_decide.
Qed.

(** ** The push *)

Section Push.
Context {HC : Crypto}.

(** Sending leaves the list and its revision alone. *)
Definition same_list (s s' : Server) : Prop :=
  (sv_roomListRevision s', sv_publishedRooms s') = (sv_roomListRevision s, sv_publishedRooms s).
#[export] Instance same_list_preorder : PreOrder same_list.
Proof. split; [done|]. intros s1 s2 s3 E1 E2. unfold same_list in *. congruence. Qed.
#[local] Hint Extern 1 (moves same_list (modify _)) =>
  apply moves_modify; intros; cbn; repeat case_match; reflexivity : vlan.
#[local] Hint Extern 1 (moves same_list (upd _ _)) => apply moves_modify; intros; reflexivity : vlan.
#[local] Hint Extern 1 (moves same_list (ret _)) => apply moves_ret, _ : vlan.
#[local] Hint Extern 1 (moves same_list (gets _)) => apply moves_gets, _ : vlan.
#[local] Hint Extern 1 (moves same_list (client _)) => apply moves_gets, _ : vlan.
Lemma list_emit e : moves same_list (emit e).
Proof. unfold emit. walk. Qed.
Lemma list_release n : moves same_list (release_budget n).
Proof. unfold release_budget. walk. Qed.
Lemma list_log : moves same_list logSendRejectSampled.
Proof. unfold logSendRejectSampled. walk. Qed.
#[local] Hint Resolve list_emit list_release list_log : vlan.
Lemma list_append fd dc a b : moves same_list (appendSendBuffer fd dc a b).
Proof. unfold appendSendBuffer. walk. Qed.
Lemma list_consume fd dc n : moves same_list (consumeSendBuffer fd dc n).
Proof. unfold consumeSendBuffer. walk. Qed.
#[local] Hint Resolve list_append list_consume : vlan.
Lemma list_flush_loop fuel fd dc sock again failed done :
  moves same_list again -> moves same_list failed -> moves same_list done ->
  moves same_list (flush_loop fuel fd dc sock again failed done).
Proof.
  intros Ha Hf Hd. induction fuel as [|fuel IH]; cbn [flush_loop]; unfold flush_turn, next_send; walk.
Qed.
Lemma list_flush fd : moves same_list (flushSendBuf fd).
Proof. unfold flushSendBuf. walk; apply list_flush_loop; walk. Qed.
#[local] Hint Resolve list_flush : vlan.
Lemma list_sendMsg fd t b : moves same_list (sendMsg fd t b).
Proof. unfold sendMsg. walk. Qed.
#[local] Hint Resolve list_sendMsg : vlan.
Lemma list_sendClientMsg fd t b : moves same_list (sendClientMsg fd t b).
Proof. unfold sendClientMsg, encryptForClient, failRequiredControl. walk. Qed.
#[local] Hint Resolve list_sendClientMsg : vlan.

(** The delta goes to a session that has logged in and is still up. *)
Definition push_to (delta : bytes) (fd : Z) : M unit :=
  c <- client fd ;;
  if (peerId c =? 0) || negb (alive c) || negb (sessionHasPeerIdentity (state c)) || negb (serverAuthOk c)
  then ret tt
  else sendClientMsg fd MSG_ROOM_LIST_PUSH delta ;;; ret tt.
Lemma list_push_to delta fd : moves same_list (push_to delta fd).
Proof. unfold push_to. walk. Qed.

(** C27: a push is a faithful delta.  From any server state with a well-formed
    registry: applying the operations of a room list push to the list published
    before gives exactly the current list, and there are none iff the two
    agree.  If they agree [broadcastRoomListPush] does nothing.  Otherwise the
    revision goes up by one; a delta that fits a page is sent to every session
    that has logged in, and the current list is then the published one; a
    larger one is not sent, and the published list stays what it was, so that
    the next push starts from a revision no client has and makes each ask for
    the whole list. *)
Theorem room_list_push_faithful (s : Server) :
  rooms_ok (sv_rooms s) -> keyed (sv_publishedRooms s) ->
  let published := sv_publishedRooms s in
  let current := collectRoomListState (sv_rooms s) in
  let ops := room_list_operations current published in
  let revision := u64 (sv_roomListRevision s + 1) in
  let delta := room_list_delta (sv_roomListRevision s) revision ops in
  let s' := snd (broadcastRoomListPush s) in
  (forall k, current !! k = room_list_state <$> (m_rooms (sv_rooms s) !! k)) /\
  apply_operations ops published = current /\ (ops = [] <-> published = current) /\
  (published = current -> broadcastRoomListPush s = (Some tt, s)) /\
  (published <> current ->
     sv_roomListRevision s' = revision /\
     if ROOM_LIST_PAGE_PAYLOAD <? len delta
     then s' = set_sv_roomListRevision revision s
     else sv_publishedRooms s' = current /\
       broadcastRoomListPush s = for_each (map fst (map_ordered (sv_clients s))) (push_to delta)
         (set_sv_publishedRooms current (set_sv_roomListRevision revision s))).
Proof.
  intros Hm Hp. cbv zeta. pose proof (collect_keyed _ Hm) as Hc.
  pose proof (operations_none _ _ Hc Hp) as Hnil.
  assert (broadcastRoomListPush s =
    if len (room_list_operations (collectRoomListState (sv_rooms s)) (sv_publishedRooms s)) =? 0 then (Some tt, s) else
    let revision := u64 (sv_roomListRevision s + 1) in
    let delta := room_list_delta (sv_roomListRevision s) revision
      (room_list_operations (collectRoomListState (sv_rooms s)) (sv_publishedRooms s)) in
    if ROOM_LIST_PAGE_PAYLOAD <? len delta then (Some tt, set_sv_roomListRevision revision s) else
    for_each (map fst (map_ordered (sv_clients s))) (push_to delta)
      (set_sv_publishedRooms (collectRoomListState (sv_rooms s)) (set_sv_roomListRevision revision s))) as E.
  { unfold broadcastRoomListPush, get_rooms. rewrite !bind_gets. destruct (_ =? 0); [done|].
    rewrite bind_gets, bind_modify, bind_gets. cbv zeta. cbn [sv_roomListRevision set_sv_roomListRevision].
    destruct (_ <? _); [done|]. rewrite bind_modify, bind_gets. cbn [sv_clients set_sv_publishedRooms set_sv_roomListRevision]. done. }
  split_and!; [intros k; by apply collect_lookup|by apply operations_apply|done|..].
  - intros Eq. rewrite E, (proj2 Hnil Eq). done.
  - intros Hne. rewrite E. destruct (Z.eqb_spec (len (room_list_operations (collectRoomListState (sv_rooms s)) (sv_publishedRooms s))) 0)
      as [Hz|_]; [by apply len_zero_nil, Hnil in Hz|]. cbv zeta.
    destruct (_ <? _); [by split|].
    match goal with |- context [for_each ?l (push_to ?d) ?x] =>
      pose proof (moves_for_each same_list l (push_to d) (list_push_to d) x) as [= El Ep] end.
    split_and!; [exact El|exact Ep|done].
Qed.
End Push.

(** ** Pages *)

Definition total_len (l : list bytes) : Z := foldr (fun r n => len r + n) 0 l.
Lemma total_len_app l k : total_len (l ++ k) = total_len l + total_len k.
Proof. induction l as [|r l IH]; cbn; [done|]. unfold total_len in *. cbn. lia. Qed.
Lemma total_len_rev l : total_len (rev l) = total_len l.
Proof.
  induction l as [|r l IH]; [done|]. cbn [rev]. rewrite total_len_app, IH. unfold total_len. cbn. lia.
Qed.
Lemma len_concat l : len (concat l) = total_len l.
Proof. induction l as [|r l IH]; [done|]. cbn [concat]. rewrite len_app, IH. done. Qed.

Definition page_fits (page : list bytes) : Prop := PAGE_HEADER + total_len page <= ROOM_LIST_PAGE_PAYLOAD.

(** The packing loop: nothing lost, order kept, every page within the bound. *)
Lemma pack_invariant records full page :
  Forall (fun r => PAGE_HEADER + len r <= ROOM_LIST_PAGE_PAYLOAD) records ->
  Forall (fun p => page_fits p /\ p <> []) full -> page_fits page ->
  let '(full', page', size') :=
    fold_left pack_record records (full, page, PAGE_HEADER + total_len page) in
  concat (map (@rev bytes) (rev (page' :: full'))) =
    concat (map (@rev bytes) (rev (page :: full))) ++ records /\
  Forall (fun p => page_fits p /\ p <> []) full' /\ page_fits page' /\
  (page <> [] \/ records <> [] -> page' <> []).
Proof.
  intros Hr. revert full page. induction Hr as [|r records Hr _ IH]; intros full page Hf Hp.
  { cbn. rewrite app_nil_r. split; [done|]. split; [done|]. split; [done|]. tauto. }
  cbn [fold_left]. unfold pack_record at 2.
  destruct (negb (bool_decide (page = [])) &&
            (ROOM_LIST_PAGE_PAYLOAD <? PAGE_HEADER + total_len page + len r)) eqn:E.
  - bools. specialize (IH (page :: full) [r]).
    replace (PAGE_HEADER + len r) with (PAGE_HEADER + total_len [r]) by (unfold total_len; cbn; lia).
    destruct (fold_left pack_record records _) as [[full' page'] size'].
    destruct IH as (H1 & H2 & H3 & H4).
    { by constructor. }
    { unfold page_fits, total_len. cbn. lia. }
    split; [|split; [done|split; [done|intros _; apply H4; by left]]].
    rewrite H1. cbn [rev]. rewrite !map_app, !concat_app. cbn. by rewrite <- !app_assoc.
  - specialize (IH full (r :: page)).
    replace (PAGE_HEADER + total_len page + len r) with (PAGE_HEADER + total_len (r :: page)) in *
      by (unfold total_len; cbn; lia).
    destruct (fold_left pack_record records _) as [[full' page'] size'].
    destruct IH as (H1 & H2 & H3 & H4).
    { done. }
    { unfold page_fits. apply andb_false_iff in E as [E|E]; bools; [|done].
      subst page. unfold total_len. cbn. lia. }
    split; [|split; [done|split; [done|intros _; apply H4; by left]]].
    rewrite H1. cbn [rev]. rewrite !map_app, !concat_app. cbn. rewrite !app_nil_r.
    by rewrite <- !app_assoc.
Qed.

Lemma packed_pages_facts revision pageCount i records :
  Forall (fun r => PAGE_HEADER + len r <= ROOM_LIST_PAGE_PAYLOAD) records ->
  concat (packed_pages records) = records /\
  Forall (fun p => len (write_page revision pageCount i p) <= ROOM_LIST_PAGE_PAYLOAD)
    (packed_pages records) /\
  (records <> [] -> Forall (fun p => p <> []) (packed_pages records)).
Proof.
  intros Hr. unfold packed_pages.
  pose proof (pack_invariant records [] [] Hr (Forall_nil_2 _)) as H.
  change (PAGE_HEADER + total_len []) with PAGE_HEADER in H.
  destruct (fold_left pack_record records ([], [], PAGE_HEADER)) as [[full page] size].
  destruct H as (H1 & H2 & H3 & H4); [by vm_compute|].
  assert (forall p, len (write_page revision pageCount i p) = PAGE_HEADER + total_len p) as Hw.
  { intros p. unfold write_page, writeU64, writeU16.
    assert (forall d, len (fold_left (fun d r => writeBytes r d) p d) = len d + total_len p) as Hd.
    { induction p as [|r p IH]; intros d; cbn [fold_left]; [unfold total_len; cbn; lia|].
      rewrite IH. unfold writeBytes. rewrite len_app. unfold total_len. cbn. lia. }
    rewrite Hd. unfold PAGE_HEADER. rewrite !len_app. cbn. unfold len. cbn. lia. }
  split; [exact H1|]. split.
  - apply Forall_fmap, Forall_rev. constructor; cbn.
    + rewrite Hw, total_len_rev. exact H3.
    + eapply Forall_impl; [exact H2|]. intros p [Hp _]. cbn. rewrite Hw, total_len_rev. exact Hp.
  - intros Hne. apply Forall_fmap, Forall_rev.
    assert (forall p : list bytes, p <> [] -> rev p <> []) as Hrev.
    { intros p Hp E. apply Hp. apply (f_equal (@rev bytes)) in E. by rewrite rev_involutive in E. }
    constructor; cbn; [apply Hrev, H4; by right|].
    eapply Forall_impl; [exact H2|]. intros p [_ Hp]. by apply Hrev.
Qed.

(** Paging.  When each record fits a page, packing the records into pages
    loses, repeats and reorders nothing, every page written (header included)
    is within [ROOM_LIST_PAGE_PAYLOAD], and no page of a non-empty list is
    empty. *)
Theorem pages_partition revision pageCount i records :
  Forall (fun r => PAGE_HEADER + len r <= ROOM_LIST_PAGE_PAYLOAD) records ->
  concat (packed_pages records) = records /\
  Forall (fun p => len (write_page revision pageCount i p) <= ROOM_LIST_PAGE_PAYLOAD)
    (packed_pages records) /\
  (records <> [] -> Forall (fun p => p <> []) (packed_pages records)).
Proof. apply packed_pages_facts. Qed.

(** ** Instances *)

Definition demo_registry : RoomManager :=
  snd (createRoom RoomManager_init [65] 7 4 makeDefaultTcpPolicy makeDefaultUdpPolicy 1400 0 [] []).
#[local] Existing Instances ToyCrypto.
Definition demo_listing : Server := set_sv_rooms demo_registry (Server_init ServerLimits_default 100).
Lemma room_list_push_faithful_witness :
  let s' := snd (broadcastRoomListPush demo_listing) in
  sv_publishedRooms s' = collectRoomListState demo_registry /\ size (sv_publishedRooms s') = 1%nat /\
  sv_roomListRevision s' = u64 (sv_roomListRevision demo_listing + 1).
Proof.
  assert (rooms_ok (sv_rooms demo_listing)) as Hm.
  { apply createRoom_ok; [apply rooms_ok_init|by vm_compute|by vm_compute]. }
  assert (keyed (sv_publishedRooms demo_listing)) as Hk by (intros k st E; change ((∅ : gmap Z RoomListState) !! k = Some st) in E; by rewrite lookup_empty in E).
  assert (sv_publishedRooms demo_listing <> collectRoomListState demo_registry) as Hne.
  { intros E. apply (f_equal size) in E. vm_compute in E. discriminate. }
  destruct (proj2 (proj2 (proj2 (proj2 (room_list_push_faithful demo_listing Hm Hk)))) Hne) as [Hr Hs].
  split; [exact (proj1 Hs)|]. split; [by vm_compute|exact Hr].
Defined.
Lemma pages_partition_witness :
  concat (packed_pages [[1]; [2; 3]]) = [[1]; [2; 3]].
Proof. apply (pages_partition 1 1 0 [[1]; [2; 3]]). repeat constructor; by vm_compute. Defined.
