(* ===== verification/ServerFlow.v ===== *)
(** * Message flow of the signal server

    The octets a session's peer sees, in order: what was handed to the socket
    followed by what is queued.  Sending appends one whole frame or nothing;
    flushing only moves octets. *)

From S2P Require Import Prelude Protocol ByteBuf Room SecureFrame ServerState ServerCore ServerRooms ServerAuth ServerDispatch ServerInv ServerSafety.

(** The octets handed to [send] on a descriptor (effects are latest first). *)
Fixpoint sent_on (fd : Z) (out : list Effect) : bytes :=
  match out with
  | [] => []
  | OutSend fd' d :: out => sent_on fd out ++ (if fd' =? fd then d else [])
  | _ :: out => sent_on fd out
  end.
Definition signal_stream (fd : Z) (s : Server) : bytes :=
  sent_on fd (env_out s) ++ sendBuf (session s fd).

(** Sessions are filed and every peer's stream is as [S] says. *)
Definition streams (S : Z -> bytes) (s : Server) : Prop :=
  filed (sv_clients s) /\ forall fd, signal_stream fd s = S fd.

Section Flow.
Context `{Crypto} (S : Z -> bytes).

Lemma streams_upd fd f :
  (forall c, tcpFd (f c) = tcpFd c /\ sendBuf (f c) = sendBuf c) -> keeps (streams S) (upd fd f).
Proof.
  intros Hf s [H1 H2]. split.
  - apply filed_alter; [|done]. intros c. apply Hf.
  - intros i. rewrite <- H2. unfold signal_stream, session. cbn. rewrite lookup_alter.
    case_decide; [subst|done]. destruct (sv_clients s !! i) as [c|]; [|done]. cbn.
    by destruct (Hf c) as [_ ->].
Qed.
Lemma streams_modify g :
  (forall s, sv_clients (g s) = sv_clients s /\ env_out (g s) = env_out s) ->
  keeps (streams S) (modify g).
Proof.
  intros Hg s [H1 H2]. cbn. destruct (Hg s) as [E1 E2]. split; [by rewrite E1|].
  intros i. rewrite <- H2. unfold signal_stream, session. by rewrite E1, E2.
Qed.
Definition is_send (e : Effect) : bool := match e with OutSend _ _ => true | _ => false end.
Lemma streams_emit e : is_send e = false -> keeps (streams S) (emit e).
Proof. intros He s [H1 H2]. split; [done|]. intros i. rewrite <- H2. by destruct e. Qed.
#[local] Hint Extern 1 (keeps (streams S) (upd _ _)) =>
  apply streams_upd; intros ?; split; reflexivity : vlan.
#[local] Hint Extern 1 (keeps (streams S) (modify _)) =>
  apply streams_modify; intros ?; split; cbn; repeat case_match; reflexivity : vlan.
#[local] Hint Extern 1 (keeps (streams S) (emit _)) => apply streams_emit; reflexivity : vlan.
#[local] Hint Extern 1 (keeps (streams S) (client _)) => apply keeps_gets : vlan.
#[local] Hint Extern 1 (keeps (streams S) logSendRejectSampled) =>
  apply streams_modify; intros ?; split; cbn; repeat case_match; reflexivity : vlan.

(** A write takes a prefix of the queue. *)
Lemma streams_write fd n s :
  0 < n -> streams S s ->
  streams S (snd ((emit (OutSend fd (take (Z.to_nat n) (sendBuf (session s fd)))) ;;;
                   consumeSendBuffer fd false n) s)).
Proof.
  intros Hn [H1 H2]. split.
  - cbn. apply filed_alter; [|done]. by intros [].
  - intros i. rewrite <- H2. unfold signal_stream. cbn.
    assert (session (snd (consumeSendBuffer fd false n
              (set_env_out (OutSend fd (take (Z.to_nat n) (sendBuf (session s fd))) :: env_out s) s))) i =
            if decide (i = fd) then match sv_clients s !! i with
              | Some c => set_sendBuf (drop (Z.to_nat (Z.min n (len (sendBuf c)))) (sendBuf c)) c
              | None => ClientSession_init end
            else session s i) as Es.
    { unfold session. cbn. rewrite lookup_alter. case_decide as E; [subst|].
      - rewrite decide_True by done. destruct (sv_clients s !! i) as [c|] eqn:Ec; [|done]. cbn.
        unfold session. cbn. by rewrite Ec.
      - by rewrite decide_False by congruence. }
    cbn in Es. rewrite Es. clear Es. destruct (decide (i = fd)) as [->|Hne].
    + rewrite Z.eqb_refl. rewrite <- app_assoc. f_equal. unfold session.
      destruct (sv_clients s !! fd) as [c|]; cbn; [|by rewrite take_nil].
      etrans; [|apply (take_drop (Z.to_nat n))]. f_equal.
      destruct (Z.min_spec n (len (sendBuf c))) as [[_ ->]|[Hge ->]]; [done|].
      rewrite !drop_ge; unfold len in *; [done|lia|lia].
    + destruct (Z.eqb_spec fd i); [congruence|]. by rewrite app_nil_r.
Qed.

Lemma streams_flush_loop fuel fd again failed done :
  keeps (streams S) again -> keeps (streams S) failed -> keeps (streams S) done ->
  keeps (streams S) (flush_loop fuel fd false fd again failed done).
Proof.
  intros Ha Hf Hd. induction fuel as [|fuel IH]; cbn [flush_loop]; walk.
  unfold flush_turn. intros s Hs. unfold bind at 1, client, gets at 1.
  assert (streams S (snd (next_send s)) /\ session (snd (next_send s)) fd = session s fd) as [Hn Es].
  { split; [|done]. revert s Hs. change (keeps (streams S) next_send). unfold next_send. walk. }
  unfold bind at 1. destruct (next_send s) as [[[n| |]|] s1]; cbn [snd] in *; [|..|exact Hn].
  - destruct (Z.ltb_spec 0 n) as [Hlt|]; [|revert s1 Hn Es; intros s1 Hn _; revert s1 Hn;
      change (keeps (streams S) (b <- failed ;; ret (Some b))); walk].
    cbn [target_buf]. rewrite <- Es.
    change (streams S (snd (bind (emit (OutSend fd (take (Z.to_nat n) (sendBuf (session s1 fd)))))
      (fun _ => bind (consumeSendBuffer fd false n) (fun _ => ret (@None bool))) s1))).
    rewrite <- bind_assoc. pose proof (streams_write fd n s1 Hlt Hn) as Hw.
    unfold bind at 1. destruct ((emit _ ;;; consumeSendBuffer fd false n) s1) as [[u|] s2]; exact Hw.
  - revert s1 Hn Es. intros s1 Hn _. revert s1 Hn.
    change (keeps (streams S) (b <- again ;; ret (Some b))). walk.
  - revert s1 Hn Es. intros s1 Hn _. revert s1 Hn.
    change (keeps (streams S) (b <- failed ;; ret (Some b))). walk.
Qed.
Lemma streams_flush fd : keeps (streams S) (flushSendBuf fd).
Proof.
  unfold flushSendBuf. intros s Hs. unfold bind at 1, client at 1, gets at 1.
  destruct (sv_clients s !! fd) as [c|] eqn:Ec.
  - assert (tcpFd (session s fd) = fd) as -> by (rewrite (session_Some s fd c Ec); by apply Hs).
    revert s Hs Ec. intros s Hs _. set (fuel := length _). clearbody fuel. revert s Hs.
    match goal with |- forall s, _ -> streams S (snd (?m s)) => change (keeps (streams S) m) end.
    apply keeps_bind; [|intros; walk]. apply streams_flush_loop; walk.
  - rewrite (session_None s fd Ec). cbn [sendBuf ClientSession_init length flush_loop].
    revert s Hs Ec. intros s Hs _. revert s Hs.
    match goal with |- forall s, _ -> streams S (snd (?m s)) => change (keeps (streams S) m) end.
    walk.
Qed.
End Flow.

(** ** One message *)

(** [sendMsg] takes the message: the session is alive, the frame is small
    enough, and both the session's queue and the server have room. *)
Definition admitted (s : Server) (c : ClientSession) (body : bytes) : bool :=
  alive c && (len body <=? MAX_TCP_MSG_PAYLOAD) &&
  (len (sendBuf c) + (sizeof_TcpMsgHeader + len body) <=? MAX_TCP_SEND_BUF) &&
  (sv_globalSendBytes s + (sizeof_TcpMsgHeader + len body) <=? maxSendBufferBytes (sv_limits s)).

Section Send.
Context `{Crypto}.

Lemma append_admits fd a b s c :
  sv_clients s !! fd = Some c -> budget_ok s -> len a + len b <= UINT64_MAX ->
  let ok := (len (sendBuf c) + (len a + len b) <=? MAX_TCP_SEND_BUF) &&
            (sv_globalSendBytes s + (len a + len b) <=? maxSendBufferBytes (sv_limits s)) in
  fst (appendSendBuffer fd false a b s) = Some ok /\
  (forall i, sendBuf (session (snd (appendSendBuffer fd false a b s)) i) =
     if (i =? fd) && ok then sendBuf c ++ a ++ b else sendBuf (session s i)) /\
  env_out (snd (appendSendBuffer fd false a b s)) = env_out s.
Proof.
  intros Ec Hb Hab. cbv zeta. pose proof (bo_exact s Hb). pose proof (total_nonneg (sv_clients s)).
  pose proof (len_nonneg a). pose proof (len_nonneg b). pose proof (len_nonneg (sendBuf c)).
  unfold appendSendBuffer. destruct (Z.ltb_spec (UINT64_MAX - len b) (len a)); [lia|].
  unfold bind, client, gets, ret. rewrite (session_Some s fd c Ec). cbn [target_buf negb andb].
  set (ok := (len (sendBuf c) + (len a + len b) <=? MAX_TCP_SEND_BUF) && _).
  match goal with |- context [if ?t then _ else _] => assert (t = negb ok) as -> end.
  { unfold ok. destruct (Z.leb_spec (len (sendBuf c) + (len a + len b)) MAX_TCP_SEND_BUF),
      (Z.leb_spec (sv_globalSendBytes s + (len a + len b)) (maxSendBufferBytes (sv_limits s)));
      cbn [andb negb]; first [apply not_true_is_false; intros Ht|apply not_false_iff_true; intros Ht];
      bools; repeat match goal with H : (_ || _) = true |- _ => apply orb_true_iff in H as [H|H] end;
      bools; lia. }
  destruct ok; cbn [negb].
  - split; [done|]. split; [|done]. intros i. unfold when, upd, modify. cbn.
    unfold session. cbn. rewrite !lookup_alter. rewrite andb_true_r.
    destruct (Z.eqb_spec i fd) as [->|Hne].
    + rewrite !decide_True, Ec by done. done.
    + by rewrite !decide_False by congruence.
  - unfold when. destruct (_ <? 255);
      (split; [done|split; [intros i; rewrite andb_false_r|done]]); [|done].
    cbn. unfold session. cbn. rewrite lookup_alter. case_decide; [subst|done].
    by destruct (sv_clients s !! i).
Qed.

(** What [sendMsg] does after its append. *)
Definition after_append (fd : Z) (ok : bool) : M bool :=
  if negb ok then
    logSendRejectSampled ;;;
    c <- client fd ;;
    when (3 <=? sendBudgetFailures c) (upd fd (set_alive false)) ;;;
    ret false
  else
    flushSendBuf fd ;;;
    c <- client fd ;;
    when (MAX_TCP_SEND_BUF <? len (sendBuf c)) (upd fd (set_alive false)) ;;;
    c <- client fd ;; ret (alive c).
Lemma streams_after S fd ok : keeps (streams S) (after_append fd ok).
Proof.
  unfold after_append, client, logSendRejectSampled.
  destruct (negb ok); walk; first
    [ apply streams_flush
    | apply streams_upd; intros ?; split; reflexivity
    | apply streams_modify; intros ?; split; cbn; repeat case_match; reflexivity ].
Qed.
Lemma after_refused fd s : fst (after_append fd false s) = Some false.
Proof.
  unfold after_append, when, bind, logSendRejectSampled, client, modify, gets, ret. cbn.
  by destruct (3 <=? _).
Qed.
Lemma filed_append fd dc a b s :
  filed (sv_clients s) -> filed (sv_clients (snd (appendSendBuffer fd dc a b s))).
Proof.
  intros Hf. revert s Hf.
  change (keeps (fun s => filed (sv_clients s)) (appendSendBuffer fd dc a b)).
  unfold appendSendBuffer. pose proof filed_core. walk.
  apply filed_upd. intros c. by destruct dc.
Qed.
Lemma sendMsg_streams fd t body s c :
  filed (sv_clients s) -> budget_ok s -> sv_clients s !! fd = Some c ->
  streams (fun i => signal_stream i s ++
             (if (i =? fd) && admitted s c body then tcp_header t body ++ body else []))
    (snd (sendMsg fd t body s)) /\
  (admitted s c body = false -> fst (sendMsg fd t body s) = Some false).
Proof.
  intros Hf Hb Ec. unfold admitted.
  assert (forall s', filed (sv_clients s') -> (forall i, signal_stream i s' = signal_stream i s) ->
    streams (fun i => signal_stream i s ++ (if (i =? fd) && false then tcp_header t body ++ body else [])) s') as Hsame.
  { intros s' H1 H2. split; [done|]. intros i. by rewrite andb_false_r, app_nil_r. }
  assert (sendMsg fd t body s =
    if negb (alive c) then (Some false, s) else
    if MAX_TCP_MSG_PAYLOAD <? len body then (logSendRejectSampled ;;; ret false) s else
    bind (appendSendBuffer fd false (tcp_header t body) body) (after_append fd) s) as ->.
  { unfold sendMsg, bind at 1, gets at 1. rewrite Ec. destruct (negb (alive c)); [done|].
    by destruct (_ <? _). }
  destruct (alive c); cbn [negb andb]; [|split; [by apply Hsame|done]].
  destruct (Z.ltb_spec MAX_TCP_MSG_PAYLOAD (len body)), (Z.leb_spec (len body) MAX_TCP_MSG_PAYLOAD);
    try lia; cbn [andb].
  { split; [|done]. unfold logSendRejectSampled, bind, modify, ret. cbn.
    apply Hsame; [by case_match|]. intros i. unfold signal_stream, session. by case_match. }
  assert (len (tcp_header t body) = sizeof_TcpMsgHeader) as Eh by done.
  destruct (append_admits fd (tcp_header t body) body s c Ec Hb) as (E1 & E2 & E3).
  { rewrite Eh. change sizeof_TcpMsgHeader with 3. change MAX_TCP_MSG_PAYLOAD with 65000 in *.
    unfold UINT64_MAX. lia. }
  pose proof (filed_append fd false (tcp_header t body) body s Hf) as E4.
  rewrite Eh in *. set (ok := (_ <=? MAX_TCP_SEND_BUF) && _) in *.
  unfold bind. destruct (appendSendBuffer _ _ _ _ s) as [o s1]. cbn [fst snd] in *. subst o.
  split; [|intros ->; apply after_refused]. apply streams_after. split; [done|].
  intros i. unfold signal_stream. rewrite E2, E3. destruct (Z.eqb_spec i fd) as [->|]; cbn [andb].
  - rewrite (session_Some s fd c Ec). destruct ok; [by rewrite <- app_assoc|by rewrite app_nil_r].
  - by rewrite app_nil_r.
Qed.

(** Sending is all or nothing, and in order.  [sendMsg] either appends one
    whole frame - header and body - to the octets the session's peer will see
    (already written or still queued), or leaves them as they were and reports
    failure; which of the two is decided by the session being alive, the frame
    size and the two buffer limits.  No other session's octets change, however
    the socket writes go. *)
Theorem sendMsg_appends fd t body s c :
  filed (sv_clients s) -> budget_ok s -> sv_clients s !! fd = Some c ->
  let s' := snd (sendMsg fd t body s) in
  signal_stream fd s' = signal_stream fd s ++
    (if admitted s c body then tcp_header t body ++ body else []) /\
  (forall fd', fd' <> fd -> signal_stream fd' s' = signal_stream fd' s) /\
  (admitted s c body = false -> fst (sendMsg fd t body s) = Some false).
Proof.
  intros Hf Hb Ec. cbv zeta.
  destruct (sendMsg_streams fd t body s c Hf Hb Ec) as [[_ Hs] Hr].
  split; [by rewrite Hs, Z.eqb_refl|]. split; [|done].
  intros i Hi. rewrite Hs. destruct (Z.eqb_spec i fd); [done|apply app_nil_r].
Qed.
End Send.

(** ** An instance *)

#[local] Existing Instances ToyCrypto ToyCryptoLaws.
Lemma demo_server1_ok : filed (sv_clients demo_server1) /\ budget_ok demo_server1.
Proof.
  split.
  - apply (reachable_inv (fun s => filed (sv_clients s)) _ _ demo_server1_reachable). by intros fd c.
  - apply (reachable_inv budget_ok _ _ demo_server1_reachable). constructor; [done|by vm_compute|by intros fd c].
Qed.
Lemma sendMsg_appends_witness :
  0 < len (signal_stream 5 demo_server1) /\
  signal_stream 5 (snd (sendMsg 5 MSG_ERROR [1; 2] demo_server1)) =
    signal_stream 5 demo_server1 ++ tcp_header MSG_ERROR [1; 2] ++ [1; 2].
Proof.
  split; [by vm_compute|].
  assert (sv_clients demo_server1 !! 5 = Some (session demo_server1 5)) as Ec by by vm_compute.
  assert (admitted demo_server1 (session demo_server1 5) [1; 2] = true) as Ha by by vm_compute.
  pose proof (sendMsg_appends 5 MSG_ERROR [1; 2] demo_server1 _
    (proj1 demo_server1_ok) (proj2 demo_server1_ok) Ec) as [H _].
  rewrite Ha in H. exact H.
Defined.
