(* ===== verification/ServerAuthFacts.v ===== *)
(** * Authentication and isolation on the signal server

    Sending leaves every session's identity, membership and state alone
    ([same_identity]); a session is authenticated only by a valid proof; an
    unauthenticated session cannot touch rooms; UDP packets are relayed only
    between members of one room. *)

From S2P Require Import Prelude Protocol ByteBuf Room SecureFrame ServerState ServerCore ServerRooms ServerAuth ServerDispatch ServerInv ServerSafety.

(** ** What sending does not change *)

(** A session without its transport: queues, liveness, ciphers. *)
Definition mask (c : ClientSession) : ClientSession :=
  set_sendBuf [] (set_dataSendBuf [] (set_alive false (set_sendBudgetFailures 0
    (set_secureCipher cipher_empty (set_dataCipher cipher_empty (set_udpCipher cipher_empty
      (set_dataFd (-1) (set_dataRecvBuf [] c)))))))).

Record same_identity (s s' : Server) : Prop := mkSame {
  si_clients : forall fd, mask <$> sv_clients s' !! fd = mask <$> sv_clients s !! fd;
  si_rooms : sv_rooms s' = sv_rooms s;
  si_now : env_now s' = env_now s;
  si_hash : sv_serverAuthHash s' = sv_serverAuthHash s;
  si_salt : sv_serverAuthSalt s' = sv_serverAuthSalt s
}.
#[export] Instance same_identity_preorder : PreOrder same_identity.
Proof.
  split; [by intros s|]. intros s1 s2 s3 [] []. constructor; [|congruence..].
  intros fd. by rewrite si_clients1.
Qed.

(** Any projection that the mask keeps is the same before and after. *)
Lemma same_session {A} (proj : ClientSession -> A) s s' fd :
  (forall c, proj (mask c) = proj c) -> same_identity s s' ->
  proj (session s' fd) = proj (session s fd).
Proof.
  intros Hp [Hc _ _ _ _]. specialize (Hc fd). unfold session.
  destruct (sv_clients s' !! fd) as [c'|], (sv_clients s !! fd) as [c|]; try done.
  assert (mask c' = mask c) as E
    by exact (f_equal (fun o => match o with Some x => x | None => mask c end) Hc).
  rewrite <- (Hp c'), E. apply Hp.
Qed.
Lemma same_present s s' fd : same_identity s s' ->
  is_Some (sv_clients s' !! fd) <-> is_Some (sv_clients s !! fd).
Proof.
  intros [Hc _ _ _ _]. specialize (Hc fd).
  destruct (sv_clients s' !! fd), (sv_clients s !! fd); cbn in Hc; try done.
Qed.

Section Frame.
Context `{Crypto}.

Lemma frame_upd fd f : (forall c, mask (f c) = mask c) -> moves same_identity (upd fd f).
Proof.
  intros Hf s. constructor; try done. intros i. cbn. rewrite lookup_alter.
  case_decide; [subst|done]. destruct (sv_clients s !! i); cbn; [by rewrite Hf|done].
Qed.
Lemma frame_modify g :
  (forall s, sv_clients (g s) = sv_clients s /\ sv_rooms (g s) = sv_rooms s /\
     env_now (g s) = env_now s /\ sv_serverAuthHash (g s) = sv_serverAuthHash s /\
     sv_serverAuthSalt (g s) = sv_serverAuthSalt s) -> moves same_identity (modify g).
Proof. intros Hg s. destruct (Hg s) as (E1 & E2 & E3 & E4 & E5). constructor; cbn; congruence. Qed.
#[local] Hint Extern 1 (moves same_identity (upd _ _)) =>
  apply frame_upd; intros ?; reflexivity : vlan.
#[local] Hint Extern 2 (moves same_identity (modify _)) =>
  apply frame_modify; intros ?; cbn; repeat case_match; split_and!; reflexivity : vlan.
Lemma frame_client fd : moves same_identity (client fd).
Proof. apply moves_gets. apply _. Qed.
Lemma frame_get_rooms : moves same_identity get_rooms.
Proof. apply moves_gets. apply _. Qed.
Lemma frame_now : moves same_identity now.
Proof. apply moves_gets. apply _. Qed.
Lemma frame_gets {A} (f : Server -> A) : moves same_identity (gets f).
Proof. apply moves_gets. apply _. Qed.
Lemma frame_ret {A} (a : A) : moves same_identity (ret a).
Proof. apply moves_ret. apply _. Qed.
Lemma frame_emit e : moves same_identity (emit e).
Proof. unfold emit. eauto with vlan. Qed.
Lemma frame_logSend : moves same_identity logSendRejectSampled.
Proof. unfold logSendRejectSampled. eauto with vlan. Qed.
Lemma frame_logDrop : moves same_identity logDataDropSampled.
Proof. unfold logDataDropSampled. eauto with vlan. Qed.
Lemma frame_release n : moves same_identity (release_budget n).
Proof. unfold release_budget. eauto with vlan. Qed.
Lemma frame_target fd dc v : moves same_identity (upd fd (fun c => set_target_buf dc (v c) c)).
Proof. apply frame_upd. intros c. by destruct dc. Qed.
#[local] Hint Resolve frame_client frame_get_rooms frame_now frame_gets frame_ret frame_emit
  frame_logSend frame_logDrop frame_release frame_target : vlan.
Lemma frame_append fd dc a b : moves same_identity (appendSendBuffer fd dc a b).
Proof. unfold appendSendBuffer. walk. Qed.
Lemma frame_consume fd dc n : moves same_identity (consumeSendBuffer fd dc n).
Proof. unfold consumeSendBuffer. walk. Qed.
Lemma frame_clear fd dc : moves same_identity (clearSendBuffer fd dc).
Proof.
  unfold clearSendBuffer. walk.
Qed.
#[local] Hint Resolve frame_append frame_consume frame_clear : vlan.
Lemma frame_closeData fd : moves same_identity (closeDataChannel fd).
Proof. unfold closeDataChannel. walk. Qed.
#[local] Hint Resolve frame_closeData : vlan.
Lemma frame_flush_loop fuel fd dc sock again failed done :
  moves same_identity again -> moves same_identity failed -> moves same_identity done ->
  moves same_identity (flush_loop fuel fd dc sock again failed done).
Proof.
  intros Ha Hf Hd. induction fuel as [|fuel IH]; cbn [flush_loop];
    unfold flush_turn, next_send; walk.
Qed.
Lemma frame_flush fd : moves same_identity (flushSendBuf fd).
Proof. unfold flushSendBuf. walk; apply frame_flush_loop; walk. Qed.
Lemma frame_flushData fd : moves same_identity (flushDataSendBuf fd).
Proof. unfold flushDataSendBuf. walk; apply frame_flush_loop; walk. Qed.
#[local] Hint Resolve frame_flush frame_flushData : vlan.
Lemma frame_sendMsg fd t body : moves same_identity (sendMsg fd t body).
Proof. unfold sendMsg. walk. Qed.
#[local] Hint Resolve frame_sendMsg : vlan.
Lemma frame_sendClientMsg fd t body : moves same_identity (sendClientMsg fd t body).
Proof. unfold sendClientMsg, encryptForClient, failRequiredControl. walk. Qed.
#[local] Hint Resolve frame_sendClientMsg : vlan.
Lemma frame_sendError fd text code : moves same_identity (sendError fd text code).
Proof. unfold sendError. walk. Qed.
Lemma frame_sendDataMsg fd t body : moves same_identity (sendDataMsg fd t body).
Proof. unfold sendDataMsg. walk. Qed.
Lemma frame_ownerSession sid : moves same_identity (findClientOwnerBySecureSessionId sid).
Proof. unfold findClientOwnerBySecureSessionId, find_owner. walk. Qed.
Lemma frame_ownerPeer pid : moves same_identity (findClientOwnerByPeerId pid).
Proof. unfold findClientOwnerByPeerId, find_owner. walk. Qed.
#[local] Hint Resolve frame_sendError frame_sendDataMsg frame_ownerSession frame_ownerPeer : vlan.
Lemma frame_byPeer pid : moves same_identity (findClientByPeerId pid).
Proof. unfold findClientByPeerId. walk. Qed.
Lemma frame_bySession sid : moves same_identity (findClientBySecureSessionId sid).
Proof. unfold findClientBySecureSessionId. walk. Qed.
Lemma frame_bindSession fd sid : moves same_identity (bindSecureSessionIndex fd sid).
Proof. unfold bindSecureSessionIndex, bind_index. walk. Qed.
#[local] Hint Resolve frame_byPeer frame_bySession frame_bindSession : vlan.
Lemma frame_broadcast rid t body ex : moves same_identity (broadcastToRoom rid t body ex).
Proof. unfold broadcastToRoom. walk. Qed.

(** ** Authentication *)

(** Session [fd] is not authenticated. *)
Definition unauthenticated (fd : Z) (s : Server) : Prop := serverAuthOk (session s fd) = false.
Lemma unauth_frame {A} fd (m : SE Server A) : moves same_identity m -> keeps (unauthenticated fd) m.
Proof.
  intros Hm s Hs. unfold unauthenticated.
  rewrite (same_session serverAuthOk s _ fd); [exact Hs|done|apply Hm].
Qed.
Lemma unauth_upd fd f :
  (forall c, serverAuthOk (f c) = serverAuthOk c) -> keeps (unauthenticated fd) (upd fd f).
Proof.
  intros Hf s Hs. unfold unauthenticated, session in *. cbn. rewrite lookup_alter, decide_True by done.
  destruct (sv_clients s !! fd); cbn in *; [by rewrite Hf|done].
Qed.
#[local] Hint Extern 1 (keeps (unauthenticated _) (upd _ _)) =>
  apply unauth_upd; intros ?; reflexivity : vlan.
#[local] Hint Extern 1 (keeps (unauthenticated _) (sendError _ _ _)) =>
  apply unauth_frame, frame_sendError : vlan.
#[local] Hint Extern 1 (keeps (unauthenticated _) (findClientOwnerBySecureSessionId _)) =>
  apply unauth_frame, frame_ownerSession : vlan.

End Frame.

Section Auth.
Context `{CryptoLaws}.

#[local] Hint Extern 1 (keeps (unauthenticated _) (upd _ _)) =>
  apply unauth_upd; intros ?; reflexivity : vlan.
#[local] Hint Extern 1 (keeps (unauthenticated _) (sendError _ _ _)) =>
  apply unauth_frame, frame_sendError : vlan.
#[local] Hint Extern 1 (keeps (unauthenticated _) (findClientOwnerBySecureSessionId _)) =>
  apply unauth_frame, frame_ownerSession : vlan.

(** The master secret the server derives from the handshake of session [c]. *)
Definition handshake_master (s : Server) (c : ClientSession) : bytes :=
  deriveSecureMaster (crypto_x25519 (serverPrivKey c) (clientPubKey c)) (sv_serverAuthHash s)
    (clientNonce c) (serverNonce c) (clientPubKey c) (serverPubKey c) (sv_serverAuthSalt s)
    AUTH_KDF_PROFILE.

(** C14: only a valid proof authenticates.  If the MSG_SERVER_AUTH handler leaves
    a session authenticated that was not, then the session was waiting for
    exactly this message, the deadline had not passed, the X25519 shared
    secret was not all zero, and the payload is the proof that the password
    hash and this handshake's master secret determine. *)
Theorem server_auth_sound fd p s :
  serverAuthOk (session s fd) = false ->
  serverAuthOk (session (snd (onServerAuth fd p s)) fd) = true ->
  let c := session s fd in
  state c = AwaitServerAuth /\ env_now s <= authDeadline c /\
  crypto_x25519 (serverPrivKey c) (clientPubKey c) <> zeros 32 /\
  p = computeClientAuthProof (handshake_master s c) (sv_serverAuthHash s).
Proof.
  intros Hun. cbv zeta. set (c := session s fd) in *.
  match goal with |- _ -> ?concl => set (Q := concl) end.
  assert (forall (m : M unit) s1, keeps (unauthenticated fd) m -> unauthenticated fd s1 ->
    serverAuthOk (session (snd (m s1)) fd) = true -> Q) as Hfail.
  { intros m s1 Hm H1 Hok. specialize (Hm s1 H1). unfold unauthenticated in Hm. congruence. }
  unfold onServerAuth, client, now. rewrite bind_gets. fold c.
  destruct (bool_decide (state c <> AwaitServerAuth) || serverAuthOk c) eqn:E1;
    [apply Hfail; [walk|done]|]. bools. apply dec_stable in H1. rewrite bind_gets.
  destruct ((authDeadline c <? env_now s) || negb (len p =? 32)) eqn:E2;
    [apply Hfail; [walk|done]|]. bools.
  unfold upd at 1. rewrite bind_modify.
  assert (unauthenticated fd (set_sv_clients (alter (set_serverPrivKey (zeros 32)) fd (sv_clients s)) s)) as Hs1.
  { exact (unauth_upd fd (set_serverPrivKey (zeros 32)) (fun c => eq_refl) s Hun). }
  assert (forall s1, s1 = set_sv_clients (alter (set_serverPrivKey (zeros 32)) fd (sv_clients s)) s ->
    sv_serverAuthHash s1 = sv_serverAuthHash s /\ sv_serverAuthSalt s1 = sv_serverAuthSalt s) as Hsame
    by by intros ? ->.
  remember (set_sv_clients (alter (set_serverPrivKey (zeros 32)) fd (sv_clients s)) s) as s1 eqn:Es1.
  destruct (Hsame s1 eq_refl) as [Eh Es]. clear Hsame Es1.
  destruct (negb (validX25519Shared (crypto_x25519 (serverPrivKey c) (clientPubKey c)))) eqn:E3;
    [apply Hfail; [walk|done]|].
  rewrite bind_gets, bind_gets, Eh, Es. fold (handshake_master s c).
  destruct (negb (crypto_verify32 _ p =? 0)) eqn:E4; [apply Hfail; [walk|done]|].
  intros _. bools. unfold Q. split; [done|]. split; [lia|]. split.
  - intros E. unfold validX25519Shared in E3. bools. apply E3, verify32_spec. exact E.
  - symmetry. by apply verify32_spec.
Qed.
End Auth.

(** ** Isolation of unauthenticated sessions *)

(** Rooms and the identity of every other session are as before. *)
Definition others_same (fd : Z) (s s' : Server) : Prop :=
  sv_rooms s' = sv_rooms s /\
  forall i, i <> fd -> mask <$> sv_clients s' !! i = mask <$> sv_clients s !! i.
#[export] Instance others_same_preorder fd : PreOrder (others_same fd).
Proof.
  split; [by intros s|]. intros s1 s2 s3 [A1 A2] [B1 B2]. split; [congruence|].
  intros i Hi. by rewrite B2, A2.
Qed.

Section Isolation.
Context `{Crypto} (fd : Z).

Lemma others_frame {A} (m : SE Server A) : moves same_identity m -> moves (others_same fd) m.
Proof. intros Hm s. destruct (Hm s) as [H1 H2 _ _ _]. split; [done|]. intros i _. apply H1. Qed.
Lemma others_upd f : moves (others_same fd) (upd fd f).
Proof.
  intros s. split; [done|]. intros i Hi. cbn. by rewrite lookup_alter, decide_False by congruence.
Qed.
Lemma others_modify g :
  (forall s, sv_clients (g s) = sv_clients s /\ sv_rooms (g s) = sv_rooms s) ->
  moves (others_same fd) (modify g).
Proof. intros Hg s. destruct (Hg s) as [E1 E2]. split; cbn; [done|]. by rewrite E1. Qed.
Lemma others_gets {A} (f : Server -> A) : moves (others_same fd) (gets f).
Proof. apply moves_gets. apply _. Qed.
Lemma others_ret {A} (a : A) : moves (others_same fd) (ret a).
Proof. apply moves_ret. apply _. Qed.
Lemma others_read {A} (m : SE ByteBuffer A) b : moves (others_same fd) (read m b).
Proof. intros s. unfold read. destruct (m b) as [[a|] b']; reflexivity. Qed.
#[local] Hint Extern 1 (moves (others_same _) (modify _)) =>
  apply others_modify; intros ?; split; cbn; repeat case_match; reflexivity : vlan.
#[local] Hint Resolve others_upd others_gets others_ret others_read : vlan.
#[local] Hint Extern 1 (moves (others_same _) (client _)) => apply others_gets : vlan.
#[local] Hint Extern 1 (moves (others_same _) now) => apply others_gets : vlan.
#[local] Hint Extern 1 (moves (others_same _) (sendError _ _ _)) =>
  apply others_frame, frame_sendError : vlan.
#[local] Hint Extern 1 (moves (others_same _) (sendMsg _ _ _)) =>
  apply others_frame, frame_sendMsg : vlan.
#[local] Hint Extern 1 (moves (others_same _) (findClientOwnerBySecureSessionId _)) =>
  apply others_frame, frame_ownerSession : vlan.
#[local] Hint Extern 1 (moves (others_same _) (bindSecureSessionIndex _ _)) =>
  apply others_frame, frame_bindSession : vlan.

Lemma others_hello p : moves (others_same fd) (onClientHello fd p).
Proof.
  unfold onClientHello, takeIpToken, upd_ip, secureRandomBytes, failRequiredControl. walk.
Qed.
Lemma others_auth p : moves (others_same fd) (onServerAuth fd p).
Proof. unfold onServerAuth, failRequiredControl. walk. Qed.
Lemma others_handshake t p h :
  (forall p, moves (others_same fd) (h fd p)) -> moves (others_same fd) (process_handshake fd t p h).
Proof. intros Hh. unfold process_handshake. walk. Qed.

(** C18: isolation.  Whatever an unauthenticated connection sends - in any
    state - the rooms and the identity, state and membership of every other
    session stay exactly as they were. *)
Theorem unauthenticated_isolated t p s :
  serverAuthOk (session s fd) = false ->
  let s' := snd (processMessage fd t p s) in
  sv_rooms s' = sv_rooms s /\
  forall i, i <> fd -> mask <$> sv_clients s' !! i = mask <$> sv_clients s !! i.
Proof.
  intros Hun. change (others_same fd s (snd (processMessage fd t p s))).
  unfold processMessage. unfold now. rewrite bind_gets. unfold upd at 1. rewrite bind_modify.
  pose proof (others_upd (set_lastPing (env_now s)) s) as H1.
  pose proof (unauth_upd fd (set_lastPing (env_now s)) (fun c => eq_refl) s Hun) as H2.
  cbn [upd modify snd] in H1, H2. unfold upd, modify in H1, H2. cbn [snd] in H1, H2.
  set (s1 := set_sv_clients _ s) in *. clearbody s1. etrans; [exact H1|]. clear H1.
  apply catch_at; [|intros s' Hs'; etrans; [exact Hs'|apply others_upd]].
  unfold client. rewrite bind_gets. unfold unauthenticated in H2.
  assert (moves (others_same fd) (process_handshake fd t p onClientHello)) as Hh
    by (apply others_handshake; intros; apply others_hello).
  assert (moves (others_same fd) (process_handshake fd t p onServerAuth)) as Ha
    by (apply others_handshake; intros; apply others_auth).
  assert (others_same fd s1 (snd (process_encrypted fd t p s1))) as He.
  { unfold process_encrypted, client. rewrite bind_gets, H2. apply others_upd. }
  destruct (state (session s1 fd)); first [apply Hh|apply Ha|exact He|reflexivity].
Qed.
End Isolation.

(** ** UDP relay *)

(** Looking an owner up leaves sessions and output alone, and an owner found
    is filed in the index and agrees with it. *)
Definition found (index : Server -> gmap Z Z) (key : Z) (P : ClientSession -> Prop)
    (s : Server) (r : option (option Z) * Server) : Prop :=
  sv_clients (snd r) = sv_clients s /\ env_out (snd r) = env_out s /\
  exists o, fst r = Some o /\
    forall fd, o = Some fd -> index s !! key = Some fd /\
      exists c, sv_clients s !! fd = Some c /\ tcpFd c = fd /\ P c.

Section Lookup.
Context `{Crypto}.

Lemma find_owner_found index drop agrees key s :
  (forall k s, fst (drop k s) = Some tt /\ sv_clients (snd (drop k s)) = sv_clients s /\
               env_out (snd (drop k s)) = env_out s) ->
  found index key (fun c => agrees c = true) s (find_owner index drop agrees key s).
Proof.
  intros Hd. unfold find_owner. rewrite bind_gets.
  destruct (index s !! key) as [fd|] eqn:Ei; [|split; [done|split; [done|by exists None]]].
  rewrite bind_gets. destruct (sv_clients s !! fd) as [c|] eqn:Ec;
    [destruct ((tcpFd c =? fd) && agrees c) eqn:Ea|].
  - split; [done|]. split; [done|]. exists (Some fd). split; [done|]. intros i [= <-].
    bools. split; [done|]. by exists c.
  - destruct (Hd key s) as (E1 & E2 & E3). unfold bind.
    destruct (drop key s) as [[u|] s1]; [|done].
    split; [done|]. split; [done|]. by exists None.
  - destruct (Hd key s) as (E1 & E2 & E3). unfold bind.
    destruct (drop key s) as [[u|] s1]; [|done].
    split; [done|]. split; [done|]. by exists None.
Qed.
Lemma found_none {key P index s} : found index key P s (Some None, s).
Proof. split; [done|]. split; [done|]. by exists None. Qed.
(** A lookup that also checks the owner. *)
Lemma found_check index key (P Q : ClientSession -> Prop) (m : M (option Z)) (bad : ClientSession -> bool) s :
  (forall c, P c -> bad c = false -> Q c) ->
  found index key P s (m s) ->
  found index key Q s
    (bind m (fun o => match o with
             | None => ret None
             | Some fd => c <- client fd ;; if bad c then ret None else ret (Some fd)
             end) s).
Proof.
  intros HQ (E1 & E2 & o & Eo & Ho). unfold bind at 1.
  destruct (m s) as [r s1]. cbn [fst snd] in *. subst r. destruct o as [fd|].
  - unfold client. rewrite bind_gets. destruct (Ho fd eq_refl) as (Ei & c & Ec & Et & Hp).
    assert (session s1 fd = c) as -> by (unfold session; by rewrite E1, Ec).
    destruct (bad c) eqn:Eb; (split; [done|split; [done|]]).
    + by exists None.
    + exists (Some fd). split; [done|]. intros i [= <-]. split; [done|]. exists c. auto.
  - split; [done|]. split; [done|]. by exists None.
Qed.

Lemma byPeer_found pid s :
  found sv_peerMap pid (fun c => peerId c = pid /\ alive c = true /\ serverAuthOk c = true /\
    secureEnabled c = true) s (findClientByPeerId pid s).
Proof.
  apply (found_check _ _ (fun c => peerId c = pid) _ _ (fun c =>
    negb (alive c) || negb (serverAuthOk c) || negb (secureEnabled c) ||
    negb (sessionHasPeerIdentity (state c)))).
  { intros c Hp Hb. bools. done. }
  unfold findClientOwnerByPeerId. destruct (pid =? 0); [apply found_none|].
  destruct (find_owner_found sv_peerMap (fun k => modify (fun s => set_sv_peerMap (delete k (sv_peerMap s)) s))
    (fun c => peerId c =? pid) pid s) as (E1 & E2 & o & Eo & Ho); [done|].
  split; [done|]. split; [done|]. exists o. split; [done|]. intros fd Efd.
  destruct (Ho fd Efd) as (Ei & c & Ec & Et & Hp). split; [done|]. exists c.
  split; [done|]. split; [done|]. by apply Z.eqb_eq.
Qed.
Lemma bySession_found sid s :
  found sv_secureSessionMap sid (fun c => secureSessionId c = sid /\ alive c = true /\
    serverAuthOk c = true /\ secureEnabled c = true) s (findClientBySecureSessionId sid s).
Proof.
  apply (found_check _ _ (fun c => secureSessionId c = sid) _ _ (fun c =>
    negb (alive c) || negb (secureEnabled c) || negb (serverAuthOk c) ||
    bool_decide (state c = Closing))).
  { intros c Hp Hb. bools. done. }
  unfold findClientOwnerBySecureSessionId. destruct (sid =? 0); [apply found_none|].
  destruct (find_owner_found sv_secureSessionMap
    (fun k => modify (fun s => set_sv_secureSessionMap (delete k (sv_secureSessionMap s)) s))
    (fun c => secureSessionId c =? sid) sid s) as (E1 & E2 & o & Eo & Ho); [done|].
  split; [done|]. split; [done|]. exists o. split; [done|]. intros fd Efd.
  destruct (Ho fd Efd) as (Ei & c & Ec & Et & Hp). split; [done|]. exists c.
  split; [done|]. split; [done|]. by apply Z.eqb_eq.
Qed.

(** What a relayed packet proves about its two ends. *)
Record relayed (s : Server) (buf : bytes) (plain : bytes) (cs cd : ClientSession) : Prop := mkRelayed {
  rl_src : exists fd, sv_secureSessionMap s !! readU32BE (drop 1 buf) = Some fd /\
                      sv_clients s !! fd = Some cs;
  rl_dst : exists fd, sv_clients s !! fd = Some cd;
  rl_auth : serverAuthOk cs = true /\ serverAuthOk cd = true;
  rl_plain : fst (decrypt (udpCipher cs) (drop 5 buf) []) = Some plain;
  rl_ids : readU32BE (drop 2 plain) = peerId cs /\ readU32BE (drop 6 plain) = peerId cd;
  rl_room : roomId cs = roomId cd /\ roomId cs <> 0;
  rl_known : udpAddrKnown cd = true \/ cs = cd
}.

Lemma drop_log_out s : env_out (snd (logDataDropSampled s)) = env_out s.
Proof. unfold logDataDropSampled, modify. cbn. by case_match. Qed.

(** Decrypting a packet: the sender is a live authenticated session, and only
    its cipher moves. *)
Lemma decryptUdp_spec buf s :
  let r := decryptUdpPacket buf s in
  env_out (snd r) = env_out s /\
  exists o, fst r = Some o /\
  forall src plain, o = Some (src, plain) ->
    exists cs k, sv_secureSessionMap s !! readU32BE (drop 1 buf) = Some src /\
      sv_clients s !! src = Some cs /\ serverAuthOk cs = true /\
      fst (decrypt (udpCipher cs) (drop 5 buf) []) = Some plain /\
      sv_clients (snd r) = alter (set_udpCipher k) src (sv_clients s).
Proof.
  cbv zeta. unfold decryptUdpPacket.
  assert (forall (P : Z -> bytes -> Prop), env_out s = env_out s /\
    exists o : option (Z * bytes), Some (@None (Z * bytes)) = Some o /\
      forall src plain, o = Some (src, plain) -> P src plain) as Hnone.
  { intros P. split; [done|]. by exists None. }
  destruct (_ <? _); [apply Hnone|]. destruct (negb _); [apply Hnone|].
  destruct (bySession_found (readU32BE (drop 1 buf)) s) as (E1 & E2 & o & Eo & Ho).
  destruct (findClientBySecureSessionId _ s) as [r s1] eqn:Ef.
  cbn [fst snd] in *. subst r. rewrite (bind_run _ _ _ _ _ Ef). clear Ef. destruct o as [src|]; [|split; [exact E2|exists None; split; [reflexivity|discriminate]]].
  unfold client. rewrite bind_gets. destruct (Ho src eq_refl) as (Ei & cs & Ec & Et & Hp & _ & Ha & _).
  assert (session s1 src = cs) as -> by (unfold session; by rewrite E1, Ec).
  destruct (decrypt (udpCipher cs) (drop 5 buf) []) as [plain k] eqn:Ed.
  unfold upd. rewrite bind_modify. cbn [ret fst snd env_out set_sv_clients sv_clients].
  split; [exact E2|]. eexists. split; [done|]. intros i p Hs. destruct plain as [p'|]; [|done].
  injection Hs as <- <-. exists cs, k. rewrite E1, Ed. done.
Qed.

(** C15: UDP relay stays inside a room.  Handling a datagram sends at most one
    datagram, and only when the packet decrypts under the session its header
    names, that session is the source the packet declares, and the destination
    is an authenticated session in the same room whose UDP address is known;
    it goes to that address. *)
Theorem udp_relay_same_room from buf s :
  let s' := snd (handleUdpPacket from buf s) in
  env_out s' = env_out s \/
  exists cs cd plain addr data,
    env_out s' = OutSendTo addr data :: env_out s /\ relayed s buf plain cs cd /\
    (addr = udpAddr cd \/ (cs = cd /\ addr = from)).
Proof.
  cbv zeta. pattern (env_out (snd (handleUdpPacket from buf s))).
  match goal with |- ?F _ => set (P := F) end.
  assert (P (env_out s)) as Hsame by by left. unfold handleUdpPacket. destruct (_ =? 0); [exact Hsame|].
  destruct (_ =? UDP_ENCRYPTED); [|rewrite drop_log_out; exact Hsame].
  destruct (decryptUdp_spec buf s) as (Eout & o & Eo & Ho).
  destruct (decryptUdpPacket buf s) as [r s1] eqn:Ef. cbn [fst snd] in *. subst r.
  rewrite (bind_run _ _ _ _ _ Ef). clear Ef.
  destruct o as [[src plain]|]; [|rewrite drop_log_out, Eout; exact Hsame].
  destruct (Ho src plain eq_refl) as (cs & k & Ei & Ec & Ha & Ed & E1). clear Ho.
  destruct (negb (len plain =? 0) && _); [change (P (env_out s1)); rewrite Eout; exact Hsame|].
  destruct (_ <? _); [rewrite drop_log_out, Eout; exact Hsame|].
  destruct (negb _ && negb _); [rewrite drop_log_out, Eout; exact Hsame|]. cbv zeta.
  unfold client at 1. rewrite bind_gets.
  assert (session s1 src = set_udpCipher k cs) as Es1.
  { unfold session. by rewrite E1, lookup_alter, decide_True, Ec by done. }
  rewrite Es1. destruct (_ || _) eqn:Et; [rewrite drop_log_out, Eout; exact Hsame|].
  cbn [peerId roomId set_udpCipher] in Et.
  unfold learn_udp_addr at 1. unfold upd at 1. rewrite bind_modify.
  set (f := fun c => set_udpAddrKnown true (set_udpAddr from c)).
  set (s2 := set_sv_clients (alter f src (sv_clients s1)) s1).
  assert (env_out s2 = env_out s) as Eo2 by exact Eout.
  assert (sv_clients s2 = alter f src (alter (set_udpCipher k) src (sv_clients s))) as E2
    by (unfold s2; cbn; by rewrite E1).
  clearbody s2. destruct (byPeer_found (readU32BE (drop 6 plain)) s2) as (E3 & Eo3 & d & Ed3 & Hd).
  destruct (findClientByPeerId _ s2) as [r s3] eqn:Ef. cbn [fst snd] in *. subst r.
  rewrite (bind_run _ _ _ _ _ Ef). clear Ef.
  destruct d as [dfd|]; [|rewrite drop_log_out; replace (env_out s3) with (env_out s) by congruence; exact Hsame].
  destruct (Hd dfd eq_refl) as (_ & cd' & Ecd & _ & Hpd & _ & Had & _). clear Hd.
  assert (session s3 dfd = cd') as Ed' by (unfold session; by rewrite E3, Ecd).
  unfold client at 1. rewrite bind_gets, Ed'.
  destruct (negb (udpAddrKnown cd')) eqn:Ek; [rewrite drop_log_out; replace (env_out s3) with (env_out s) by congruence; exact Hsame|].
  unfold client at 1. rewrite bind_gets.
  assert (session s3 src = f (set_udpCipher k cs)) as Es3.
  { unfold session. by rewrite E3, E2, !lookup_alter, !decide_True, Ec by done. }
  rewrite Es3. cbn [roomId f set_udpAddrKnown set_udpAddr set_udpCipher].
  destruct ((roomId cd' =? 0) || _) eqn:Er; [rewrite drop_log_out; replace (env_out s3) with (env_out s) by congruence; exact Hsame|].
  unfold sendEncryptedUdp, client. rewrite bind_gets, Ed'.
  match goal with |- P (env_out (snd ((if ?b then _ else _) _))) => destruct b end; [cbn; replace (env_out s3) with (env_out s) by congruence; exact Hsame|].
  destruct (encrypt (udpCipher cd') plain []) as [enc k']. unfold upd. rewrite bind_modify.
  destruct (len enc =? 0); [cbn; replace (env_out s3) with (env_out s) by congruence; exact Hsame|]. right.
  assert (exists cd, sv_clients s !! dfd = Some cd /\ serverAuthOk cd = true /\
    peerId cd = peerId cd' /\ roomId cd = roomId cd' /\ (udpAddrKnown cd = true \/ cs = cd) /\
    (udpAddr cd' = udpAddr cd \/ (cs = cd /\ udpAddr cd' = from))) as
    (cd & Hc1 & Hc2 & Hc3 & Hc4 & Hc5 & Hc6).
  { rewrite E2, !lookup_alter in Ecd. destruct (decide (src = dfd)) as [<-|Hne].
    - rewrite decide_True, Ec in Ecd by done. injection Ecd as <-. exists cs. cbn in *. rewrite Ha. split_and!; auto.
    - exists cd'. bools. split_and!; auto. }
  exists cs, cd, plain, (udpAddr cd'). eexists. split; [cbn; f_equal; congruence|].
  split; [|exact Hc6]. bools. constructor; eauto.
  - split; [congruence|]. congruence.
  - split; congruence.
Qed.
End Lookup.

(** ** Instances *)

#[local] Existing Instances ToyCrypto ToyCryptoLaws.
(** The session of [demo_server1] answers with the proof of the password. *)
Definition demo_proof : bytes :=
  computeClientAuthProof (handshake_master demo_server1 (session demo_server1 5))
    (sv_serverAuthHash demo_server1).
Lemma server_auth_sound_witness :
  serverAuthOk (session demo_server1 5) = false /\
  serverAuthOk (session (snd (onServerAuth 5 demo_proof demo_server1)) 5) = true /\
  state (session demo_server1 5) = AwaitServerAuth.
Proof.
  split; [by vm_compute|]. split; [by vm_compute|].
  apply (server_auth_sound 5 demo_proof demo_server1); by vm_compute.
Defined.
Lemma unauthenticated_isolated_witness :
  serverAuthOk (session demo_server1 5) = false /\
  sv_rooms (snd (processMessage 5 MSG_CREATE_ROOM [1; 2; 3] demo_server1)) = sv_rooms demo_server1.
Proof.
  split; [by vm_compute|].
  apply (unauthenticated_isolated 5 MSG_CREATE_ROOM [1; 2; 3] demo_server1). by vm_compute.
Defined.
