(* ===== verification/RelayPath.v ===== *)
(** * A datagram through the relay

    What the server does with the datagrams of one member for another
    ([handleUdpPacket] of [server/src/signal_server.cpp]) when both have live
    sessions in one room: each is opened, checked and sealed again for its
    destination, once, in the order of its first arrival. *)

From S2P Require Import Prelude Protocol ByteBuf Room SecureFrame SecureFrameFacts ServerState ServerCore ServerDispatch.

(** ** Sealed datagrams over a network

    The datagrams a session sends under consecutive counters, and what a
    receiver accepts of them when the network between loses, reorders and
    repeats them: each once, in the order of its first arrival. *)

Section Legs.
Context `{CryptoLaws}.

(** ** Sealing *)

Lemma writeU32BE_be v : writeU32BE v = be_bytes 4 v.
Proof. done. Qed.
Lemma readU32BE_be v rest : readU32BE (be_bytes 4 v ++ rest) = u32 v.
Proof.
  unfold readU32BE. change (byte_at (be_bytes 4 v ++ rest) 0) with (Z.land (Z.shiftr v 24) 255).
  change (byte_at (be_bytes 4 v ++ rest) 1) with (Z.land (Z.shiftr v 16) 255).
  change (byte_at (be_bytes 4 v ++ rest) 2) with (Z.land (Z.shiftr v 8) 255).
  change (byte_at (be_bytes 4 v ++ rest) 3) with (Z.land (Z.shiftr v 0) 255).
  rewrite u32_expr by auto with vlan. exact (be_value_be_bytes 4 v).
Qed.

(** The UDP datagram that carries [plain] under the counter [ctr]. *)
Definition sealed_datagram (k : SecureFrameCipher) (sid ctr : Z) (plain : bytes) : bytes :=
  let lock := crypto_aead_lock (m_sendKey k) (buildNonce (m_sendNonceSeed k) ctr) [] plain in
  UDP_ENCRYPTED :: writeU32BE sid ++ writeU64BE ctr ++ fst lock ++ snd lock.
Fixpoint sealed_datagrams (k : SecureFrameCipher) (sid ctr : Z) (plains : list bytes) : list bytes :=
  match plains with
  | [] => []
  | p :: ps => sealed_datagram k sid ctr p :: sealed_datagrams k sid (ctr + 1) ps
  end.
Lemma sealed_datagrams_app k sid ctr a b :
  sealed_datagrams k sid ctr (a ++ b) = sealed_datagrams k sid ctr a ++ sealed_datagrams k sid (ctr + len a) b.
Proof.
  revert ctr. induction a as [|p a IH]; intros ctr; cbn [app sealed_datagrams]; [by rewrite Z.add_0_r|].
  rewrite IH, len_cons. do 3 f_equal. lia.
Qed.
Lemma sealed_datagrams_half k k' sid ctr ps :
  send_half k' = send_half k -> sealed_datagrams k' sid ctr ps = sealed_datagrams k sid ctr ps.
Proof.
  intros [= E1 E2 E3]. revert ctr. induction ps as [|p ps IH]; intros ctr; cbn [sealed_datagrams]; [done|].
  rewrite IH. unfold sealed_datagram. by rewrite E2, E3.
Qed.
Lemma sealed_datagrams_nth k sid ctr ps i d :
  (i < length ps)%nat -> nth i (sealed_datagrams k sid ctr ps) d = sealed_datagram k sid (ctr + Z.of_nat i) (nth i ps []).
Proof.
  revert ctr i. induction ps as [|p ps IH]; intros ctr i Hi; [cbn in Hi; lia|].
  destruct i as [|i]; cbn [nth sealed_datagrams]; [by rewrite Z.add_0_r|].
  rewrite IH by (cbn in Hi; lia). f_equal. lia.
Qed.
Lemma length_sealed k sid ctr ps : length (sealed_datagrams k sid ctr ps) = length ps.
Proof. revert ctr. induction ps as [|p ps IH]; intros ctr; cbn; [done|]. by rewrite IH. Qed.
(** What [encrypt] makes, behind the header. *)
Lemma sealed_frame k sid ctr p : m_initialized k = true -> 0 <= ctr < UINT64_MAX ->
  sealed_datagram k sid ctr p = UDP_ENCRYPTED :: writeU32BE sid ++ fst (encrypt (set_m_sendCounter ctr k) p []).
Proof. intros Hi Hc. by rewrite encrypt_frame. Qed.
Lemma sealed_shape k sid ctr p : m_initialized k = true -> 0 <= ctr < UINT64_MAX ->
  let d := sealed_datagram k sid ctr p in
  byte_at d 0 = UDP_ENCRYPTED /\ drop 1 d = writeU32BE sid ++ drop 5 d /\
  drop 5 d = fst (encrypt (set_m_sendCounter ctr k) p []) /\ len d = len p + 29.
Proof.
  intros Hi Hc. cbv zeta. rewrite sealed_frame by done. split_and!; [done|done|done|].
  rewrite len_cons, len_app, (len_encrypt (set_m_sendCounter ctr k)) by done. change (len (writeU32BE sid)) with 4.
  change SECURE_FRAME_OVERHEAD with 24. lia.
Qed.

(** ** First arrivals *)

(** The numbers of a list that are not in [D], each at its first occurrence. *)
Fixpoint fresh (D : gset nat) (js : list nat) : list nat :=
  match js with
  | [] => []
  | j :: js => if decide (j ∈ D) then fresh D js else j :: fresh ({[j]} ∪ D) js
  end.
Lemma elem_of_fresh D js j : j ∈ fresh D js <-> j ∈ js /\ j ∉ D.
Proof.
  revert D. induction js as [|i js IH]; intros D; cbn [fresh]; [set_solver|].
  case_decide; rewrite ?elem_of_cons, IH; destruct (decide (j = i)); set_solver.
Qed.
Lemma NoDup_fresh D js : NoDup (fresh D js).
Proof.
  revert D. induction js as [|i js IH]; intros D; cbn [fresh]; [constructor|].
  case_decide; [apply IH|]. constructor; [|apply IH]. rewrite elem_of_fresh. set_solver.
Qed.
Lemma fresh_below n D js : Forall (fun j => (j < n)%nat) js -> Forall (fun j => (j < n)%nat) (fresh D js).
Proof. rewrite !Forall_forall. intros Hj j (Hin & _)%elem_of_fresh. by apply Hj. Qed.

Lemma fresh_at_most n js : Forall (fun j => (j < n)%nat) js -> (length (fresh ∅ js) <= n)%nat.
Proof.
  intros Hjs. rewrite <- (length_seq n 0). apply NoDup_incl_length; [apply NoDup_ListNoDup, NoDup_fresh|].
  intros j Hj%list_elem_of_In. apply in_seq. pose proof (fresh_below n ∅ js Hjs) as Hf. rewrite Forall_forall in Hf.
  specialize (Hf j Hj). lia.
Qed.

(** ** Receiving *)

(** [r] receives what [k] seals under the [n] counters from [base] on; it has
    accepted those at the offsets [D]. *)
Record leg (k : SecureFrameCipher) (base n : Z) (r : SecureFrameCipher) (D : gset nat) : Prop := mkLeg {
  lg_pair : paired k r;
  lg_range : 0 <= base /\ base + n <= UINT64_MAX /\ n <= REPLAY_WINDOW;
  lg_window : exists a, window_rel r a /\ (forall m, newest a = Some m -> m < base + n) /\
    forall i : nat, Z.of_nat i < n -> (base + Z.of_nat i ∈ seen a <-> i ∈ D)
}.
Lemma leg_accepts (base n : Z) r (D : gset nat) a (i : nat) :
  window_rel r a -> (forall m, newest a = Some m -> m < base + n) -> n <= REPLAY_WINDOW ->
  (base + Z.of_nat i ∈ seen a <-> i ∈ D) -> isCounterAllowed r (base + Z.of_nat i) = bool_decide (i ∉ D).
Proof.
  intros Hw Hm Hn Hi. rewrite (window_allows _ _ _ Hw). unfold seen_allows. destruct (newest a) as [m|] eqn:Em.
  - specialize (Hm m eq_refl). destruct (wr_newest _ _ Hw m Em) as (_ & _ & Hmax).
    destruct (decide (i ∈ D)) as [Hd|Hd].
    + rewrite (bool_decide_false (i ∉ D)) by tauto. rewrite bool_decide_false by tauto. rewrite andb_false_r, orb_false_r.
      apply Z.ltb_ge. apply Hmax. tauto.
    + rewrite !bool_decide_true by tauto. rewrite (proj2 (Z.ltb_lt (m - _) _)) by lia. by rewrite orb_true_r.
  - rewrite bool_decide_true; [done|]. rewrite <- Hi, (wr_none _ _ Hw Em). set_solver.
Qed.
(** One arrival. *)
Lemma leg_step k base n r D (i : nat) p :
  leg k base n r D -> Z.of_nat i < n ->
  let f := fst (encrypt (set_m_sendCounter (base + Z.of_nat i) k) p []) in
  fst (decrypt r f []) = (if decide (i ∈ D) then None else Some p) /\
  leg k base n (snd (decrypt r f [])) ({[i]} ∪ D).
Proof.
  intros [Hp Hr (a & Hw & Hm & Hs)] Hi. cbv zeta.
  assert (paired (set_m_sendCounter (base + Z.of_nat i) k) r) as Hp' by (destruct Hp; by constructor).
  rewrite (decrypt_genuine _ _ _ _ Hp') by (cbn; lia). cbn [m_sendCounter set_m_sendCounter].
  pose proof (leg_accepts base n r D a i Hw Hm (proj2 (proj2 Hr)) (Hs i Hi)) as Ha. rewrite Ha.
  case_decide as Ed.
  - rewrite bool_decide_false by tauto. cbn [fst snd]. split; [done|].
    replace ({[i]} ∪ D) with D by set_solver. constructor; [done|done|]. by exists a.
  - rewrite bool_decide_true in Ha |- * by done. cbn [fst snd]. split; [done|].
    rewrite (window_allows _ _ _ Hw) in Ha. destruct (window_record _ _ _ Hw Ha) as [_ Hw'].
    destruct (recordCounter_frame r (base + Z.of_nat i)) as (E1 & E2 & E3 & _).
    constructor; [destruct Hp; constructor; congruence|done|]. exists (seen_add a (base + Z.of_nat i)).
    split; [done|]. split.
    + intros m Em. cbn in Em. injection Em as <-. destruct (newest a) as [m|]; [specialize (Hm m eq_refl)|]; lia.
    + intros j Hj. cbn [seen seen_add]. rewrite !elem_of_union, !elem_of_singleton, (Hs j Hj). intuition lia.
Qed.
(** Everything [r] accepted so far is older than the next counter of [k]. *)
Record in_step (k r : SecureFrameCipher) : Prop := mkInStep {
  is_pair : paired k r;
  is_counter : 0 <= m_sendCounter k;
  is_window : exists a, window_rel r a /\ forall m, newest a = Some m -> m < m_sendCounter k
}.
Lemma in_step_leg k r n : in_step k r -> 0 <= n <= REPLAY_WINDOW -> m_sendCounter k + n <= UINT64_MAX ->
  leg k (m_sendCounter k) n r ∅.
Proof.
  intros [Hp Hc (a & Hw & Hm)] Hn Hmax. constructor; [done|lia|]. exists a. split; [done|]. split.
  - intros m Em. specialize (Hm m Em). lia.
  - intros i Hi. split; [|set_solver]. intros Hin. destruct (newest a) as [m|] eqn:Em.
    + destruct (wr_newest _ _ Hw m Em) as (_ & _ & Hmax'). specialize (Hmax' _ Hin). specialize (Hm m eq_refl). lia.
    + rewrite (wr_none _ _ Hw Em) in Hin. set_solver.
Qed.
Lemma in_step_fresh k r : paired k r -> m_recvStarted r = false -> len (m_replayBitmap r) = 256 ->
  0 <= m_sendCounter k -> in_step k r.
Proof. intros Hp Hs Hl Hc. constructor; [done|done|]. exists seen_empty. split; [by apply window_rel_fresh|done]. Qed.
End Legs.

Section Relay.
Context `{CryptoLaws}.

(** ** The header *)

(** A relay packet of member [a] for member [b]. *)
Record addressed (a b : Z) (plain : bytes) : Prop := mkAddressed {
  ad_len : sizeof_UdpRelayHeader <= len plain;
  ad_type : byte_at plain 0 = UDP_RELAY_DATA \/ byte_at plain 0 = UDP_RAW_RELAY_DATA;
  ad_class : byte_at plain 1 = TRAFFIC_TCP \/ byte_at plain 1 = TRAFFIC_UDP;
  ad_src : readU32BE (drop 2 plain) = a;
  ad_dst : readU32BE (drop 6 plain) = b
}.

(** ** Two members of a room *)

Definition identity (c : ClientSession) :=
  (tcpFd c, alive c, secureEnabled c, serverAuthOk c, state c, peerId c, secureSessionId c, roomId c).
Record routed (a b fa fb : Z) (ca cb : ClientSession) (s : Server) : Prop := mkRouted {
  rt_from : sv_clients s !! fa = Some ca;
  rt_to : sv_clients s !! fb = Some cb;
  rt_two : fa <> fb;
  rt_session : sv_secureSessionMap s !! secureSessionId ca = Some fa;
  rt_peer : sv_peerMap s !! b = Some fb;
  rt_fds : tcpFd ca = fa /\ tcpFd cb = fb;
  rt_live_a : alive ca = true /\ secureEnabled ca = true /\ serverAuthOk ca = true /\ state ca <> Closing;
  rt_live_b : alive cb = true /\ secureEnabled cb = true /\ serverAuthOk cb = true /\
              sessionHasPeerIdentity (state cb) = true;
  rt_ids : peerId ca = a /\ peerId cb = b /\ b <> 0;
  rt_sids : 0 < secureSessionId ca < 2 ^ 32 /\ secureSessionId cb <> 0;
  rt_room : roomId cb = roomId ca /\ roomId ca <> 0;
  rt_known : udpAddrKnown cb = true
}.
Lemma routed_change a b fa fb ca cb ca' cb' s s' :
  routed a b fa fb ca cb s -> identity ca' = identity ca -> identity cb' = identity cb -> udpAddrKnown cb' = true ->
  sv_clients s' !! fa = Some ca' -> sv_clients s' !! fb = Some cb' ->
  sv_secureSessionMap s' = sv_secureSessionMap s -> sv_peerMap s' = sv_peerMap s -> routed a b fa fb ca' cb' s'.
Proof.
  intros [] [= A1 A2 A3 A4 A5 A6 A7 A8] [= B1 B2 B3 B4 B5 B6 B7 B8] Hk Ha Hb Hs Hp.
  constructor; rewrite ?Hs, ?Hp; rewrite ?A1, ?A2, ?A3, ?A4, ?A5, ?A6, ?A7, ?A8, ?B1, ?B2, ?B3, ?B4, ?B5, ?B6, ?B7, ?B8; done.
Qed.
Lemma find_source a b fa fb ca cb s : routed a b fa fb ca cb s ->
  findClientBySecureSessionId (secureSessionId ca) s = (Some (Some fa), s).
Proof.
  intros []. destruct rt_live_a0 as (L1 & L2 & L3 & L4), rt_fds0 as [F _], rt_sids0 as [I _].
  unfold findClientBySecureSessionId, findClientOwnerBySecureSessionId, find_owner.
  rewrite (proj2 (Z.eqb_neq _ _)) by lia. rewrite bind_assoc, bind_gets, rt_session0, bind_assoc, bind_gets, rt_from0, F, !Z.eqb_refl.
  cbn [andb]. unfold client. cbn [bind ret]. rewrite bind_gets. unfold session. rewrite rt_from0, L1, L2, L3.
  by rewrite bool_decide_false.
Qed.
Lemma find_destination a b fa fb ca cb s : routed a b fa fb ca cb s ->
  findClientByPeerId b s = (Some (Some fb), s).
Proof.
  intros []. destruct rt_live_b0 as (L1 & L2 & L3 & L4), rt_fds0 as [_ F], rt_ids0 as (_ & I & Hb).
  unfold findClientByPeerId, findClientOwnerByPeerId, find_owner.
  rewrite (proj2 (Z.eqb_neq _ _)) by done. rewrite bind_assoc, bind_gets, rt_peer0, bind_assoc, bind_gets, rt_to0, F, I, !Z.eqb_refl.
  cbn [andb]. unfold client. cbn [bind ret]. rewrite bind_gets. unfold session. by rewrite rt_to0, L1, L2, L3, L4.
Qed.
(** ** One datagram *)

Lemma drop_log_same s : exists s', logDataDropSampled s = (Some tt, s') /\ sv_clients s' = sv_clients s /\
  sv_secureSessionMap s' = sv_secureSessionMap s /\ sv_peerMap s' = sv_peerMap s /\ env_out s' = env_out s.
Proof. eexists. split; [reflexivity|]. by case_match. Qed.
Lemma lookup_upd fd f s : sv_clients (snd (upd fd f s)) = alter f fd (sv_clients s).
Proof. done. Qed.

(** The source sends with the cipher [k]; the server has accepted the counters
    at the offsets [D] from it. *)
Record relaying (a b fa fb : Z) (k : SecureFrameCipher) (base n : Z) (D : gset nat) (ca cb : ClientSession) (s : Server) : Prop := mkRelaying {
  ry_routed : routed a b fa fb ca cb s;
  ry_leg : leg k base n (udpCipher ca) D;
  ry_ready : m_initialized (udpCipher cb) = true /\ 0 <= m_sendCounter (udpCipher cb)
}.
(** It is opened, unless it was accepted before. *)
Lemma open_datagram a b fa fb k base n D ca cb s (i : nat) plain :
  relaying a b fa fb k base n D ca cb s -> m_initialized k = true -> Z.of_nat i < n ->
  exists ca' s1, decryptUdpPacket (sealed_datagram k (secureSessionId ca) (base + Z.of_nat i) plain) s =
    (Some (if decide (i ∈ D) then None else Some (fa, plain)), s1) /\
  relaying a b fa fb k base n ({[i]} ∪ D) ca' cb s1 /\ identity ca' = identity ca /\ env_out s1 = env_out s.
Proof.
  intros [Hr Hl Hc] Hk Hi. destruct (lg_range _ _ _ _ _ Hl) as (B1 & B2 & _).
  destruct (sealed_shape k (secureSessionId ca) (base + Z.of_nat i) plain Hk ltac:(lia)) as (E0 & E1 & E5 & El).
  set (data := sealed_datagram _ _ _ _) in *. pose proof (len_nonneg plain) as Hp.
  destruct (leg_step _ _ _ _ _ i plain Hl Hi) as [Edec Hl']. rewrite <- E5 in Edec, Hl'.
  unfold decryptUdpPacket. rewrite (proj2 (Z.ltb_ge _ _)) by (change (1 + SECURE_SESSION_ID_SIZE + SECURE_FRAME_OVERHEAD) with 29; lia).
  rewrite E0. change (negb (UDP_ENCRYPTED =? UDP_ENCRYPTED)) with false. cbv iota.
  rewrite E1, writeU32BE_be, readU32BE_be. unfold u32.
  rewrite Z.mod_small by (pose proof (rt_sids _ _ _ _ _ _ _ Hr) as [? _]; lia).
  rewrite (bind_run _ _ _ _ _ (find_source _ _ _ _ _ _ _ Hr)).
  unfold client. rewrite bind_gets. unfold session. rewrite (rt_from _ _ _ _ _ _ _ Hr).
  destruct (decrypt (udpCipher ca) (drop 5 data) []) as [o r'] eqn:Ed. cbn [fst snd] in *. subst o.
  unfold upd. rewrite bind_modify. exists (set_udpCipher r' ca), (set_sv_clients (alter (set_udpCipher r') fa (sv_clients s)) s).
  split; [by case_decide|]. split; [|done]. split; [|done|done].
  eapply routed_change; [exact Hr|done|done|by destruct Hr| | |done|done]; cbn; rewrite lookup_alter.
  - by rewrite decide_True, (rt_from _ _ _ _ _ _ _ Hr).
  - rewrite decide_False by (by destruct Hr). by destruct Hr.
Qed.
Definition forwarded (cb : ClientSession) (plain : bytes) : Effect :=
  OutSendTo (udpAddr cb) (sealed_datagram (udpCipher cb) (secureSessionId cb) (m_sendCounter (udpCipher cb)) plain).
Lemma relaying_known a b fa fb k base n D ca cb s from :
  relaying a b fa fb k base n D ca cb s ->
  relaying a b fa fb k base n D (set_udpAddrKnown true (set_udpAddr from ca)) cb (snd (learn_udp_addr fa from s)).
Proof.
  intros [Hr Hl Hc]. split; [|done|done]. unfold learn_udp_addr, upd. cbn.
  eapply routed_change; [exact Hr|done|done|by destruct Hr| | |done|done]; cbn; rewrite lookup_alter.
  - by rewrite decide_True, (rt_from _ _ _ _ _ _ _ Hr).
  - rewrite decide_False by (by destruct Hr). by destruct Hr.
Qed.
(** A packet that was opened is sealed for its destination. *)
Lemma seal_datagram a b fa fb k base n D ca cb s plain :
  relaying a b fa fb k base n D ca cb s -> m_sendCounter (udpCipher cb) < UINT64_MAX ->
  exists s', sendEncryptedUdp fb plain (udpAddr cb) s = (Some tt, s') /\
  relaying a b fa fb k base n D ca (set_udpCipher (set_m_sendCounter (m_sendCounter (udpCipher cb) + 1) (udpCipher cb)) cb) s' /\
  env_out s' = forwarded cb plain :: env_out s.
Proof.
  intros [Hr Hl [Hi Hc]] Hmax. unfold sendEncryptedUdp, client. rewrite bind_gets. unfold session.
  rewrite (rt_to _ _ _ _ _ _ _ Hr). destruct (rt_live_b _ _ _ _ _ _ _ Hr) as (_ & _ & -> & _).
  rewrite (proj2 (Z.eqb_neq _ _)) by (by destruct Hr as [? ? ? ? ? ? ? ? ? [? ?]]). rewrite (rt_known _ _ _ _ _ _ _ Hr). cbn [negb orb].
  pose proof (len_encrypt (udpCipher cb) plain [] Hi ltac:(lia)) as El. pose proof (len_nonneg plain) as Hp.
  rewrite encrypt_frame in El |- * by (done || lia). cbn [fst] in El. change SECURE_FRAME_OVERHEAD with 24 in El.
  rewrite (proj2 (Z.eqb_neq _ 0)) by (rewrite El; lia). unfold upd. rewrite bind_modify.
  eexists. split; [reflexivity|]. split; [|done]. split; [|done|cbn; split; [done|lia]].
  eapply routed_change; [exact Hr|done|done|by destruct Hr| | |done|done]; cbn; rewrite lookup_alter.
  - rewrite decide_False by (destruct Hr; congruence). by destruct Hr.
  - by rewrite decide_True, (rt_to _ _ _ _ _ _ _ Hr).
Qed.
Lemma session_at fd c s : sv_clients s !! fd = Some c -> session s fd = c.
Proof. intros E. unfold session. by rewrite E. Qed.
Definition sealed_once (cb : ClientSession) : ClientSession :=
  set_udpCipher (set_m_sendCounter (m_sendCounter (udpCipher cb) + 1) (udpCipher cb)) cb.
Lemma relay_one a b fa fb k base n D ca cb s from (i : nat) plain :
  relaying a b fa fb k base n D ca cb s -> m_initialized k = true -> Z.of_nat i < n ->
  (i ∉ D -> m_sendCounter (udpCipher cb) < UINT64_MAX) -> addressed a b plain ->
  exists ca' s', handleUdpPacket from (sealed_datagram k (secureSessionId ca) (base + Z.of_nat i) plain) s = (Some tt, s') /\
  identity ca' = identity ca /\
  relaying a b fa fb k base n ({[i]} ∪ D) ca' (if decide (i ∈ D) then cb else sealed_once cb) s' /\
  env_out s' = (if decide (i ∈ D) then [] else [forwarded cb plain]) ++ env_out s.
Proof.
  intros Hy Hk Hi Hmax [A1 A2 A3 A4 A5]. destruct (lg_range _ _ _ _ _ (ry_leg _ _ _ _ _ _ _ _ _ _ _ Hy)) as (B1 & B2 & _).
  destruct (sealed_shape k (secureSessionId ca) (base + Z.of_nat i) plain Hk ltac:(lia)) as (E0 & _ & _ & El).
  pose proof (len_nonneg plain) as Hp. destruct (open_datagram _ _ _ _ _ _ _ _ _ _ _ i plain Hy Hk Hi) as (ca' & s1 & Eo & Hy1 & Eid & Eout).
  set (data := sealed_datagram _ _ _ _) in *.
  unfold handleUdpPacket. rewrite (proj2 (Z.eqb_neq (len data) 0)), E0 by lia.
  change (UDP_ENCRYPTED =? UDP_ENCRYPTED) with true. cbv iota. rewrite (bind_run _ _ _ _ _ Eo). clear Eo. case_decide as Ed.
  { destruct (drop_log_same s1) as (s2 & -> & C1 & C2 & C3 & C4). exists ca', s2. split; [done|]. split; [done|].
    split; [|by rewrite C4]. destruct Hy1 as [Hr1 Hl1 Hc1]. split; [|done|done].
    eapply routed_change; [exact Hr1|done|done|by destruct Hr1| | |done|done]; rewrite C1; by destruct Hr1. }
  assert ((byte_at plain 0 =? UDP_KEEPALIVE) = false) as -> by (destruct A2 as [-> | ->]; done). rewrite andb_false_r.
  rewrite (proj2 (Z.ltb_ge _ _)) by lia.
  assert (negb (byte_at plain 0 =? UDP_RELAY_DATA) && negb (byte_at plain 0 =? UDP_RAW_RELAY_DATA) = false) as ->
    by (destruct A2 as [-> | ->]; done). cbv zeta.
  assert (negb (byte_at plain 1 =? TRAFFIC_TCP) && negb (byte_at plain 1 =? TRAFFIC_UDP) = false) as ->
    by (destruct A3 as [-> | ->]; done).
  pose proof (ry_routed _ _ _ _ _ _ _ _ _ _ _ Hy1) as Hr1. destruct (rt_ids _ _ _ _ _ _ _ Hr1) as (I1 & I2 & I3).
  destruct (rt_room _ _ _ _ _ _ _ Hr1) as (R1 & R2).
  unfold client at 1. rewrite bind_gets, (session_at fa ca') by apply (rt_from _ _ _ _ _ _ _ Hr1). rewrite A4, A5, I1.
  rewrite Z.eqb_refl, (proj2 (Z.eqb_neq b 0)), (proj2 (Z.eqb_neq (roomId ca') 0)) by done. cbn [negb orb].
  pose proof (relaying_known _ _ _ _ _ _ _ _ _ _ _ from Hy1) as Hy2.
  set (ca2 := set_udpAddrKnown true _) in *. unfold learn_udp_addr at 1. unfold upd. rewrite bind_modify.
  fold (upd fa (fun c => set_udpAddrKnown true (set_udpAddr from c))) in *.
  set (s2 := snd (learn_udp_addr fa from s1)) in *. change (set_sv_clients _ s1) with s2.
  assert (env_out s2 = env_out s) as Eout2 by exact Eout. clearbody s2.
  pose proof (ry_routed _ _ _ _ _ _ _ _ _ _ _ Hy2) as Hr2.
  rewrite (bind_run _ _ _ _ _ (find_destination _ _ _ _ _ _ _ Hr2)).
  unfold client at 1. rewrite bind_gets, (session_at fb cb) by apply (rt_to _ _ _ _ _ _ _ Hr2).
  rewrite (rt_known _ _ _ _ _ _ _ Hr2). cbn [negb].
  unfold client at 1. rewrite bind_gets, (session_at fa ca2) by apply (rt_from _ _ _ _ _ _ _ Hr2).
  change (roomId ca2) with (roomId ca'). rewrite R1, Z.eqb_refl, (proj2 (Z.eqb_neq _ _)) by done. cbn [negb orb].
  destruct (seal_datagram _ _ _ _ _ _ _ _ _ _ _ plain Hy2 (Hmax Ed)) as (s3 & E3 & Hy3 & Eout3).
  exists ca2, s3. split; [done|]. split; [exact Eid|]. split; [exact Hy3|]. by rewrite Eout3, Eout2.
Qed.

(** ** A run *)

(** The events of datagrams that arrive from some addresses. *)
Definition serve (arrivals : list ((Z * Z) * bytes)) : M unit :=
  for_each arrivals (fun x => handle_event (EvUdp x.1 x.2)).
(** What the server hands to its socket, in order. *)
Definition sent_to (addr : Z * Z) (ds : list bytes) (s s' : Server) : Prop :=
  env_out s' = rev (map (OutSendTo addr) ds) ++ env_out s.
Definition pick {A} (d : A) (l : list A) (js : list nat) : list A := map (fun j => nth j l d) js.
Lemma relay_run a b fa fb k base D ca cb s plains (js : list ((Z * Z) * nat)) :
  relaying a b fa fb k base (len plains) D ca cb s -> m_initialized k = true ->
  m_sendCounter (udpCipher cb) + len (fresh D js.*2) <= UINT64_MAX -> Forall (addressed a b) plains ->
  Forall (fun j => (j < length plains)%nat) js.*2 ->
  let sent := sealed_datagrams k (secureSessionId ca) base plains in
  exists s', serve (map (fun x => (x.1, nth x.2 sent [])) js) s = (Some tt, s') /\
  sent_to (udpAddr cb) (sealed_datagrams (udpCipher cb) (secureSessionId cb) (m_sendCounter (udpCipher cb))
    (pick [] plains (fresh D js.*2))) s s'.
Proof.
  intros Hy Hk Hmax Hall Hjs. cbv zeta. revert D ca cb s Hy Hmax. induction js as [|[from j] js IH]; intros D ca cb s Hy Hmax.
  { exists s. split; [done|]. unfold sent_to. done. }
  cbn [fmap list_fmap snd] in Hjs. apply Forall_cons in Hjs as [Hj Hjs].
  assert (addressed a b (nth j plains [])) as Ha.
  { rewrite Forall_forall in Hall. apply Hall, list_elem_of_In, nth_In, Hj. }
  cbn [fmap list_fmap snd fresh] in Hmax.
  destruct (relay_one _ _ _ _ _ _ _ _ _ _ _ from j (nth j plains []) Hy Hk) as (ca' & s1 & E1 & Eid & Hy1 & Eout); [unfold len; lia| |done|].
  { intros Hd. rewrite decide_False, len_cons in Hmax by done. pose proof (len_nonneg (fresh ({[j]} ∪ D) js.*2)). lia. }
  unfold serve in *. cbn [map for_each fst snd handle_event]. rewrite sealed_datagrams_nth by done.
  rewrite (bind_run _ _ _ _ _ E1).
  assert (secureSessionId ca' = secureSessionId ca) as Esid by (by injection Eid).
  destruct (IH Hjs _ _ _ _ Hy1) as (s' & Es & Hs). { case_decide; [by replace ({[j]} ∪ D) with D by set_solver|]. rewrite len_cons in Hmax. cbn. lia. }
  rewrite Esid in Es. exists s'. split; [exact Es|]. unfold sent_to in *. rewrite Hs, Eout.
  cbn [fmap list_fmap snd fresh]. case_decide as Ed.
  - cbn [app]. replace ({[j]} ∪ D) with D by set_solver. done.
  - unfold pick. cbn [map sealed_datagrams rev app]. rewrite <- app_assoc. cbn [app]. f_equal. f_equal. f_equal. by apply sealed_datagrams_half.
Qed.
End Relay.
