(* ===== verification/SignalValidator.v ===== *)
(** * [common/signal_message_validator.h]

    The client's check of every message from the server.  A [Cursor] program
    is a state-and-failure program whose failure is a [return false] (the
    error and its offset stay in the cursor). *)

From S2P Require Import Prelude Protocol ByteBuf.

Inductive MessageValidationStatus := Valid | UnknownType | Malformed.
(** [enum class MessageValidationError]; [ErrorNone] is its [None]. *)
Inductive MessageValidationError :=
  | ErrorNone | Truncated | TrailingData | InvalidBoolean | InvalidCount
  | InvalidStringLength | InvalidPolicy | InvalidMtu | InvalidVersion
  | InvalidTrafficClass | InvalidValue | EncryptedFrameTooShort.
#[export] Instance MessageValidationStatus_eq_dec : EqDecision MessageValidationStatus.
Proof. solve_decision. Defined.
#[export] Instance MessageValidationError_eq_dec : EqDecision MessageValidationError.
Proof. solve_decision. Defined.

Record MessageValidationResult := mkResult {
  rs_status : MessageValidationStatus;
  rs_error : MessageValidationError;
  rs_offset : Z
}.
Definition result_ok : MessageValidationResult := mkResult Valid ErrorNone 0.
Definition isValid (r : MessageValidationResult) : bool := bool_decide (rs_status r = Valid).

(** ** [class Cursor] *)

Record Cursor := mkCursor {
  c_data : bytes;
  c_pos : Z;
  c_error : MessageValidationError;
  c_errorOffset : Z
}.
Definition Cursor_init (data : bytes) : Cursor := mkCursor data 0 ErrorNone 0.
Abbreviation CM A := (SE Cursor A) (only parsing).

Definition position : CM Z := gets c_pos.
Definition cursor_remaining (c : Cursor) : Z :=
  if c_pos c <=? len (c_data c) then len (c_data c) - c_pos c else 0.
(** Only the first error is kept. *)
Definition setError (e : MessageValidationError) (offset : Z) : CM unit :=
  modify (fun c => if decide (c_error c = ErrorNone)
                   then mkCursor (c_data c) (c_pos c) e offset else c).
(** [setError(e, offset); return false;]. *)
Definition fail_with {A} (e : MessageValidationError) (offset : Z) : CM A :=
  setError e offset ;;; throw.
Definition require (count : Z) : CM unit :=
  r <- gets cursor_remaining ;;
  if r <? count then pos <- position ;; fail_with Truncated pos else ret tt.
Definition cursor_byte (i : Z) : CM Z := gets (fun c => byte_at (c_data c) (c_pos c + i)).
Definition cursor_advance (n : Z) : CM unit :=
  modify (fun c => mkCursor (c_data c) (c_pos c + n) (c_error c) (c_errorOffset c)).

Definition readU8 : CM Z :=
  require 1 ;;; v <- cursor_byte 0 ;; cursor_advance 1 ;;; ret v.
Definition readU16 : CM Z :=
  require 2 ;;; b0 <- cursor_byte 0 ;; b1 <- cursor_byte 1 ;;
  cursor_advance 2 ;;; ret (Z.lor (Z.shiftl b0 8) b1).
Definition readU32 : CM Z :=
  require 4 ;;;
  b0 <- cursor_byte 0 ;; b1 <- cursor_byte 1 ;; b2 <- cursor_byte 2 ;; b3 <- cursor_byte 3 ;;
  cursor_advance 4 ;;;
  ret (Z.lor (Z.lor (Z.lor (Z.shiftl b0 24) (Z.shiftl b1 16)) (Z.shiftl b2 8)) b3).
Definition readU64 : CM Z :=
  require 8 ;;;
  v <- gets (fun c => fold_left (fun v i => Z.lor (Z.shiftl v 8)
                        (byte_at (c_data c) (c_pos c + i))) [0;1;2;3;4;5;6;7] 0) ;;
  cursor_advance 8 ;;; ret v.
Definition skip (count : Z) : CM unit := require count ;;; cursor_advance count.

(** Offset of the first octet that is not an ASCII letter or digit. *)
Fixpoint first_bad (s : bytes) : option Z :=
  match s with
  | [] => None
  | b :: s => if isAsciiAlphaNum b then Z.succ <$> first_bad s else Some 0
  end.
Definition readString (minLen maxLen : Z) (alphaNumeric : bool) : CM unit :=
  lengthOffset <- position ;;
  length <- readU16 ;;
  if (length <? minLen) || (maxLen <? length)
  then fail_with InvalidStringLength lengthOffset else
  require length ;;;
  bad <- gets (fun c => if alphaNumeric then first_bad (slice (c_pos c) length (c_data c))
                        else None) ;;
  pos <- position ;;
  match bad with
  | Some i => fail_with InvalidValue (pos + i)
  | None => cursor_advance length
  end.
Definition readBoolean : CM unit :=
  fieldOffset <- position ;;
  value <- readU8 ;;
  if 1 <? value then fail_with InvalidBoolean fieldOffset else ret tt.
Definition readPolicy : CM unit :=
  fieldOffset <- position ;;
  transport <- readU8 ;; fec <- readU8 ;; profile <- readU8 ;;
  if negb (isValidTransportModeValue transport) || negb (isValidFecModeValue fec) ||
     negb (isValidKcpProfileValue profile) ||
     ((transport =? TransportMode_u8 MODE_RELAY_TCP) && negb (fec =? FecMode_u8 FEC_NONE))
  then fail_with InvalidPolicy fieldOffset else ret tt.
Definition readMtu : CM unit :=
  fieldOffset <- position ;;
  mtu <- readU16 ;;
  if isValidRoomMtuValue mtu then ret tt else fail_with InvalidMtu fieldOffset.
Definition cursor_finish : CM unit :=
  e <- gets c_error ;;
  if decide (e <> ErrorNone) then throw else
  pos <- position ;;
  n <- gets (fun c => len (c_data c)) ;;
  if negb (pos =? n) then fail_with TrailingData pos else ret tt.

(** ** Results *)

Definition malformed (c : Cursor) : MessageValidationResult :=
  mkResult Malformed (c_error c) (c_errorOffset c).
(** A parse, then [return finish(cursor)]; any [return false] inside is
    [return malformed(cursor)]. *)
Definition validate (m : CM unit) (data : bytes) : MessageValidationResult :=
  match (m ;;; cursor_finish) (Cursor_init data) with
  | (Some _, _) => result_ok
  | (None, c) => malformed c
  end.
Definition fixedSize (actual expected : Z) : MessageValidationResult :=
  if actual <? expected then mkResult Malformed Truncated actual else
  if expected <? actual then mkResult Malformed TrailingData expected else result_ok.
Definition validateEncryptedEnvelope (n : Z) : MessageValidationResult :=
  if n <? 8 + 1 + 16 then mkResult Malformed EncryptedFrameTooShort n else result_ok.

(** ** Message bodies *)

Definition validatePeerInfo : CM unit :=
  peerId <- readU32 ;; virtualIP <- readU32 ;;
  readString MIN_PLAYER_NAME_LEN MAX_PLAYER_NAME_LEN true ;;;
  if (peerId =? 0) || (virtualIP =? 0) then fail_with InvalidValue 0 else ret tt.

Definition validateRelayData : CM unit :=
  srcPeerId <- readU32 ;; dstPeerId <- readU32 ;; trafficClass <- readU8 ;;
  if (srcPeerId =? 0) || (dstPeerId =? 0) then fail_with InvalidValue 0 else
  if negb (trafficClass =? TRAFFIC_TCP) && negb (trafficClass =? TRAFFIC_UDP)
  then fail_with InvalidTrafficClass 8 else
  r <- gets cursor_remaining ;; skip r.

Definition readRoomListItem : CM Z :=
  roomOffset <- position ;;
  roomId <- readU32 ;;
  readString 1 MAX_ROOM_NAME_LEN false ;;;
  playerCount <- readU8 ;; maxPlayers <- readU8 ;;
  readPolicy ;;; readPolicy ;;; readBoolean ;;; readMtu ;;;
  if (roomId =? 0) || (maxPlayers <? 2) || (MAX_PLAYERS <? maxPlayers) ||
     (maxPlayers <? playerCount)
  then fail_with InvalidValue roomOffset else ret roomId.

Definition validate_server_hello : CM unit :=
  version <- readU16 ;; authRequired <- readU8 ;;
  if negb (version =? PROTOCOL_VERSION) then fail_with InvalidVersion 0 else
  if 1 <? authRequired then fail_with InvalidBoolean 2 else
  if negb (authRequired =? 0) then skip (1 + AUTH_SALT_SIZE + 16 + 32) else ret tt.

Definition validate_server_auth_ok : CM unit :=
  sessionId <- readU32 ;; skip 32 ;;;
  if sessionId =? 0 then fail_with InvalidValue 0 else ret tt.

Definition validate_login_resp : CM unit :=
  peerId <- readU32 ;; version <- readU16 ;;
  if peerId =? 0 then fail_with InvalidValue 0 else
  if negb (version =? PROTOCOL_VERSION) then fail_with InvalidVersion 4 else
  readBoolean.

Definition validate_room_created : CM unit :=
  roomId <- readU32 ;; virtualIP <- readU32 ;;
  readPolicy ;;; readPolicy ;;; readBoolean ;;; readMtu ;;; skip RECONNECT_TOKEN_SIZE ;;;
  if (roomId =? 0) || (virtualIP =? 0) then fail_with InvalidValue 0 else ret tt.

Definition read_member : CM unit :=
  memberOffset <- position ;;
  peerId <- readU32 ;; memberIP <- readU32 ;;
  readString MIN_PLAYER_NAME_LEN MAX_PLAYER_NAME_LEN true ;;;
  if (peerId =? 0) || (memberIP =? 0) then fail_with InvalidValue memberOffset else ret tt.
Fixpoint read_members (count : nat) : CM unit :=
  match count with O => ret tt | S n => read_member ;;; read_members n end.
Definition validate_join_resp : CM unit :=
  roomId <- readU32 ;; virtualIP <- readU32 ;;
  readPolicy ;;; readPolicy ;;; readBoolean ;;; readMtu ;;;
  count <- readU8 ;;
  if (roomId =? 0) || (virtualIP =? 0) then fail_with InvalidValue 0 else
  if (count =? 0) || (MAX_PLAYERS <? count)
  then pos <- position ;; fail_with InvalidCount (pos - 1) else
  read_members (Z.to_nat count) ;;;
  skip RECONNECT_TOKEN_SIZE.

Definition validate_peer_id : CM unit :=
  peerId <- readU32 ;;
  if peerId =? 0 then fail_with InvalidValue 0 else ret tt.

(** [roomIds.insert(roomId).second], else [malformed]. *)
Definition insert_fresh (roomId : Z) (roomIds : gset Z) : CM (gset Z) :=
  if decide (roomId ∈ roomIds) then pos <- position ;; fail_with InvalidValue pos
  else ret ({[roomId]} ∪ roomIds).
Fixpoint read_rooms (count : nat) (roomIds : gset Z) : CM unit :=
  match count with
  | O => ret tt
  | S n => roomId <- readRoomListItem ;;
           roomIds <- insert_fresh roomId roomIds ;;
           read_rooms n roomIds
  end.
Definition MIN_ROOM_RECORD_SIZE : Z := 4 + 2 + 1 + 2 + 3 + 3 + 1 + 2.
Definition validate_room_list : CM unit :=
  revision <- readU64 ;; pageIndex <- readU16 ;; pageCount <- readU16 ;; count <- readU16 ;;
  if (revision =? 0) || (pageCount =? 0) || (pageCount <=? pageIndex)
  then fail_with InvalidValue 0 else
  r <- gets cursor_remaining ;;
  if r / MIN_ROOM_RECORD_SIZE <? count then fail_with InvalidCount 12 else
  read_rooms (Z.to_nat count) ∅.

(** One operation of a push: an upsert or a removal. *)
Definition read_operation : CM Z :=
  operation <- readU8 ;;
  if operation =? ROOM_LIST_UPSERT then readRoomListItem else
  if operation =? ROOM_LIST_REMOVE then
    roomId <- readU32 ;;
    if roomId =? 0 then pos <- position ;; fail_with InvalidValue (pos - 4) else ret roomId
  else pos <- position ;; fail_with InvalidValue (pos - 1).
Fixpoint read_operations (count : nat) (roomIds : gset Z) : CM unit :=
  match count with
  | O => ret tt
  | S n => roomId <- read_operation ;;
           roomIds <- insert_fresh roomId roomIds ;;
           read_operations n roomIds
  end.
Definition validate_room_list_push : CM unit :=
  baseRevision <- readU64 ;; revision <- readU64 ;; count <- readU16 ;;
  if (revision =? 0) || (revision <=? baseRevision) || (count =? 0)
  then fail_with InvalidValue 0 else
  read_operations (Z.to_nat count) ∅.

Definition validate_error : CM unit :=
  skip 2 ;;; readString 1 (MAX_TCP_MSG_PAYLOAD - 4) false.

(** ** The two validators; [data] is [None] for a null pointer *)

Definition validateServerSignalPayload (msgType : Z) (data : option bytes) (n : Z)
    : MessageValidationResult :=
  if (0 <? n) && bool_decide (data = None) then mkResult Malformed Truncated 0 else
  let d := take (Z.to_nat n) (default [] data) in
  if msgType =? MSG_SERVER_HELLO then validate validate_server_hello d else
  if msgType =? MSG_SERVER_AUTH_OK then validate validate_server_auth_ok d else
  if msgType =? MSG_ENCRYPTED then validateEncryptedEnvelope n else
  if msgType =? MSG_LOGIN_RESP then validate validate_login_resp d else
  if msgType =? MSG_ROOM_CREATED then validate validate_room_created d else
  if msgType =? MSG_JOIN_RESP then validate validate_join_resp d else
  if (msgType =? MSG_PEER_JOINED) || (msgType =? MSG_PEER_RESUMED)
  then validate validatePeerInfo d else
  if (msgType =? MSG_PEER_LEFT) || (msgType =? MSG_RELAY_READY)
  then validate validate_peer_id d else
  if (msgType =? MSG_LOGOUT_ACK) || (msgType =? MSG_PONG) then fixedSize n 0 else
  if msgType =? MSG_ROOM_LIST then
    if ROOM_LIST_PAGE_PAYLOAD <? n
    then mkResult Malformed InvalidValue ROOM_LIST_PAGE_PAYLOAD
    else validate validate_room_list d else
  if msgType =? MSG_ROOM_LIST_PUSH then
    if ROOM_LIST_PAGE_PAYLOAD <? n
    then mkResult Malformed InvalidValue ROOM_LIST_PAGE_PAYLOAD
    else validate validate_room_list_push d else
  if msgType =? MSG_AUTH_CHALLENGE then fixedSize n (1 + AUTH_SALT_SIZE + 32) else
  if msgType =? MSG_ERROR then validate validate_error d else
  if msgType =? MSG_TCP_RELAY_DATA then validate validateRelayData d else
  mkResult UnknownType ErrorNone 0.

Definition validateServerDataPayload (msgType : Z) (data : option bytes) (n : Z)
    : MessageValidationResult :=
  if (0 <? n) && bool_decide (data = None) then mkResult Malformed Truncated 0 else
  let d := take (Z.to_nat n) (default [] data) in
  if msgType =? MSG_ENCRYPTED then validateEncryptedEnvelope n else
  if (msgType =? MSG_DATA_CHANNEL_ACK) || (msgType =? MSG_PONG) then fixedSize n 0 else
  if msgType =? MSG_TCP_RELAY_DATA then validate validateRelayData d else
  mkResult UnknownType ErrorNone 0.
