(* ===== verification/WireFacts.v ===== *)
(** * The messages of the server are valid for the client

    The server builds messages with [ByteBuffer]; the client checks them with
    [validateServerSignalPayload].  Each kind of message the server builds
    from well-formed data passes the check. *)

From S2P Require Import Prelude Protocol ByteBuf Room RoomFacts SecureFrame ServerState ServerCore ServerRooms ServerAuth RoomListFacts.
From S2P Require Import SignalValidator.

(** A handler reads a field of its message. *)
Lemma run_read {A B} (m : SE ByteBuffer A) (k : A * ByteBuffer -> M B) x a pre rest s :
  reads m x a -> bind (read m (at_pos pre (x ++ rest))) k s = k (a, at_pos (pre ++ x) rest) s.
Proof. intros Hm. unfold bind, read. by rewrite Hm. Qed.

(** ** Programs that accept exactly some octets *)

(** The cursor after [pre], before [rest]. *)
Definition cur (pre rest : bytes) : Cursor := mkCursor (pre ++ rest) (len pre) ErrorNone 0.
Definition accepts {A} (m : CM A) (x : bytes) (a : A) : Prop :=
  forall pre rest, m (cur pre (x ++ rest)) = (Some a, cur (pre ++ x) rest).

Lemma accepts_ret {A} (a : A) : accepts (ret a) [] a.
Proof. intros pre rest. unfold ret. by rewrite app_nil_r. Qed.
Lemma accepts_bind {A B} (m : CM A) (k : A -> CM B) x y a b :
  accepts m x a -> accepts (k a) y b -> accepts (bind m k) (x ++ y) b.
Proof.
  intros Hm Hk pre rest. unfold bind. by rewrite <- app_assoc, Hm, Hk, <- app_assoc.
Qed.
Lemma accepts_last {A B} (m : CM A) (k : A -> CM B) x a b :
  accepts m x a -> accepts (k a) [] b -> accepts (bind m k) x b.
Proof. intros Hm Hk. rewrite <- (app_nil_r x). by apply (accepts_bind m k x [] a b). Qed.
Lemma accepts_position {B} (k : Z -> CM B) y b :
  (forall p, accepts (k p) y b) -> accepts (bind position k) y b.
Proof. intros Hk pre rest. unfold position. rewrite bind_gets. apply Hk. Qed.
Lemma accepts_validate m x : accepts m x tt -> validate m x = result_ok.
Proof.
  intros Hm. unfold validate. specialize (Hm [] []). rewrite app_nil_r in Hm.
  change (Cursor_init x) with (cur [] x). rewrite (bind_run _ _ _ _ _ Hm).
  unfold cursor_finish. rewrite !bind_gets. cbn [cur c_error c_pos c_data app].
  rewrite decide_False by tauto. unfold position. rewrite !bind_gets.
  cbn [cur c_error c_pos c_data app]. by rewrite app_nil_r, Z.eqb_refl.
Qed.

Lemma remaining_cur pre rest : cursor_remaining (cur pre rest) = len rest.
Proof.
  unfold cursor_remaining, cur. cbn [c_pos c_data]. pose proof (len_nonneg rest).
  rewrite len_app. rewrite (proj2 (Z.leb_le _ _)) by lia. lia.
Qed.
Lemma require_cur n pre rest :
  n <= len rest -> require n (cur pre rest) = (Some tt, cur pre rest).
Proof.
  intros Hn. unfold require. rewrite bind_gets, remaining_cur.
  by rewrite (proj2 (Z.ltb_ge _ _)) by done.
Qed.
Lemma cursor_byte_cur i pre rest :
  0 <= i -> cursor_byte i (cur pre rest) = (Some (byte_at rest i), cur pre rest).
Proof. intros. unfold cursor_byte, gets, cur. cbn [c_data c_pos]. by rewrite byte_at_pos. Qed.
Lemma cursor_advance_cur x pre rest n :
  n = len x -> cursor_advance n (cur pre (x ++ rest)) = (Some tt, cur (pre ++ x) rest).
Proof.
  intros ->. unfold cursor_advance, modify, cur. cbn. by rewrite len_app, <- app_assoc.
Qed.

(** ** The reads *)

(** [n <= len (x ++ rest)] for a piece [x] of known size. *)
Ltac fits :=
  match goal with |- _ <= len (_ ++ ?r) =>
    pose proof (len_nonneg r); rewrite len_app, ?len_be_bytes, ?len_cons, ?len_nil; lia
  end.

Lemma accepts_skip x n : n = len x -> accepts (skip n) x tt.
Proof.
  intros -> pre rest. unfold skip.
  rewrite (bind_run _ _ _ tt (cur pre (x ++ rest))).
  - by rewrite (cursor_advance_cur x).
  - apply require_cur. rewrite len_app. pose proof (len_nonneg rest). lia.
Qed.
Lemma accepts_u8 v : accepts readU8 [v] v.
Proof.
  intros pre rest. unfold readU8.
  rewrite (bind_run _ _ _ _ _ (require_cur 1 pre ([v] ++ rest) ltac:(fits))).
  rewrite (bind_run _ _ _ _ _ (cursor_byte_cur 0 pre ([v] ++ rest) ltac:(lia))).
  by rewrite (bind_run _ _ _ _ _ (cursor_advance_cur [v] pre rest 1 eq_refl)).
Qed.
Lemma accepts_u16 v : accepts readU16 (be_bytes 2 v) (u16 v).
Proof.
  intros pre rest. unfold readU16.
  rewrite (bind_run _ _ _ _ _ (require_cur 2 pre (be_bytes 2 v ++ rest) ltac:(fits))).
  rewrite (bind_run _ _ _ _ _ (cursor_byte_cur 0 pre (be_bytes 2 v ++ rest) ltac:(lia))).
  rewrite (bind_run _ _ _ _ _ (cursor_byte_cur 1 pre (be_bytes 2 v ++ rest) ltac:(lia))).
  rewrite (bind_run _ _ _ _ _ (cursor_advance_cur (be_bytes 2 v) pre rest 2 eq_refl)).
  unfold ret. do 2 f_equal. exact (be_value_be_bytes 2 v).
Qed.
Lemma accepts_u32 v : accepts readU32 (be_bytes 4 v) (u32 v).
Proof.
  intros pre rest. unfold readU32.
  rewrite (bind_run _ _ _ _ _ (require_cur 4 pre (be_bytes 4 v ++ rest) ltac:(fits))).
  rewrite (bind_run _ _ _ _ _ (cursor_byte_cur 0 pre (be_bytes 4 v ++ rest) ltac:(lia))).
  rewrite (bind_run _ _ _ _ _ (cursor_byte_cur 1 pre (be_bytes 4 v ++ rest) ltac:(lia))).
  rewrite (bind_run _ _ _ _ _ (cursor_byte_cur 2 pre (be_bytes 4 v ++ rest) ltac:(lia))).
  rewrite (bind_run _ _ _ _ _ (cursor_byte_cur 3 pre (be_bytes 4 v ++ rest) ltac:(lia))).
  rewrite (bind_run _ _ _ _ _ (cursor_advance_cur (be_bytes 4 v) pre rest 4 eq_refl)).
  unfold ret. do 2 f_equal.
  change (byte_at (be_bytes 4 v ++ rest) 0) with (Z.land (Z.shiftr v 24) 255).
  change (byte_at (be_bytes 4 v ++ rest) 1) with (Z.land (Z.shiftr v 16) 255).
  change (byte_at (be_bytes 4 v ++ rest) 2) with (Z.land (Z.shiftr v 8) 255).
  change (byte_at (be_bytes 4 v ++ rest) 3) with (Z.land (Z.shiftr v 0) 255).
  rewrite u32_expr by auto with vlan. exact (be_value_be_bytes 4 v).
Qed.
Lemma accepts_u64 v : accepts readU64 (be_bytes 8 v) (u64 v).
Proof.
  intros pre rest. unfold readU64.
  rewrite (bind_run _ _ _ _ _ (require_cur 8 pre (be_bytes 8 v ++ rest) ltac:(fits))).
  rewrite bind_gets. cbn [cur c_data c_pos fold_left]. rewrite !byte_at_pos by lia.
  rewrite (bind_run _ _ _ _ _ (cursor_advance_cur (be_bytes 8 v) pre rest 8 eq_refl)).
  unfold ret. do 2 f_equal. exact (be_value_be_bytes 8 v).
Qed.
Lemma accepts_if {A} (b : bool) (m1 m2 : CM A) x a :
  b = false -> accepts m2 x a -> accepts (if b then m1 else m2) x a.
Proof. by intros ->. Qed.

Definition str_bytes (s : bytes) : bytes := be_bytes 2 (len s) ++ s.
Definition policy_bytes (p : RoomTrafficPolicy) : bytes :=
  [TransportMode_u8 (transportMode p)] ++ [FecMode_u8 (fecMode p)] ++ [KcpProfile_u8 (kcpProfile p)].

Lemma first_bad_None s : isAsciiAlphaNumString s = true -> first_bad s = None.
Proof.
  unfold isAsciiAlphaNumString. induction s as [|b s IH]; cbn; [done|].
  intros [-> ?]%andb_true_iff. by rewrite IH.
Qed.
Lemma accepts_string s lo hi alnum :
  len s < 65536 -> lo <= len s <= hi -> (alnum = true -> isAsciiAlphaNumString s = true) ->
  accepts (readString lo hi alnum) (str_bytes s) tt.
Proof.
  intros Hs Hb Ha. unfold readString, str_bytes. apply accepts_position. intros p.
  eapply accepts_bind; [apply accepts_u16|]. pose proof (len_nonneg s).
  unfold u16. rewrite Z.mod_small by lia.
  apply accepts_if; [apply orb_false_iff; split; apply Z.ltb_ge; lia|].
  intros pre rest. pose proof (len_nonneg rest).
  rewrite (bind_run _ _ _ _ _ (require_cur (len s) pre (s ++ rest) ltac:(rewrite len_app; lia))).
  rewrite bind_gets. cbn [cur c_data c_pos]. rewrite slice_at.
  unfold position. rewrite bind_gets.
  assert ((if alnum then first_bad s else None) = None) as ->.
  { destruct alnum; [by apply first_bad_None, Ha|done]. }
  by rewrite (cursor_advance_cur s).
Qed.
Lemma accepts_boolean v : v = 0 \/ v = 1 -> accepts readBoolean [v] tt.
Proof.
  intros Hv. apply accepts_position. intros p. apply accepts_last with v; [apply accepts_u8|].
  apply accepts_if; [by destruct Hv as [-> | ->]|apply accepts_ret].
Qed.
Lemma accepts_policy p : policy_wf p -> accepts readPolicy (policy_bytes p) tt.
Proof.
  intros Hp. apply accepts_position. intros o.
  eapply accepts_bind; [apply accepts_u8|]. eapply accepts_bind; [apply accepts_u8|].
  eapply accepts_last; [apply accepts_u8|]. apply accepts_if; [|apply accepts_ret].
  rewrite transport_valid_u8, fec_valid_u8, profile_valid_u8. cbn [negb orb].
  unfold policy_wf in Hp. destruct (transportMode p); cbn; [done| |done]. by rewrite Hp.
Qed.
Lemma accepts_mtu m : isValidRoomMtuValue m = true -> accepts readMtu (be_bytes 2 m) tt.
Proof.
  intros Hm. apply accepts_position. intros o. eapply accepts_last; [apply accepts_u16|].
  assert (0 <= m < 65536) as Hr.
  { unfold isValidRoomMtuValue in Hm. bools.
    unfold ROOM_MTU_SAFE, ROOM_MTU_BALANCED, ROOM_MTU_AGGRESSIVE in *. lia. }
  unfold u16. rewrite Z.mod_small, Hm by done. apply accepts_ret.
Qed.

Create HintDb wire.
#[export] Hint Resolve accepts_ret accepts_u8 accepts_u16 accepts_u32 accepts_u64
  accepts_policy accepts_boolean accepts_mtu : wire.
(** Match the next read with the next piece of the message. *)
Ltac wire :=
  repeat first
    [ apply accepts_position; intros ?
    | eapply accepts_bind; [solve [eauto 3 with wire]|]
    | eapply accepts_last; [solve [eauto 3 with wire]|]
    | apply accepts_ret ].

(** Nonzero identifiers and addresses of 32 bits, and valid names. *)
Definition id_ok (v : Z) : Prop := 0 < v < 4294967296.
Lemma id_u32 v : id_ok v -> u32 v = v.
Proof. unfold id_ok, u32. intros. apply Z.mod_small. lia. Qed.
Lemma id_nonzero v : id_ok v -> (v =? 0) = false.
Proof. unfold id_ok. intros. apply Z.eqb_neq. lia. Qed.
Lemma accepts_player_name s :
  isValidPlayerName s = true ->
  accepts (readString MIN_PLAYER_NAME_LEN MAX_PLAYER_NAME_LEN true) (str_bytes s) tt.
Proof.
  unfold isValidPlayerName, MIN_PLAYER_NAME_LEN, MAX_PLAYER_NAME_LEN. intros H. bools.
  apply accepts_string; [lia|lia|done].
Qed.
Lemma accepts_room_name s :
  isValidRoomName s = true -> accepts (readString 1 MAX_ROOM_NAME_LEN false) (str_bytes s) tt.
Proof.
  unfold isValidRoomName, MAX_ROOM_NAME_LEN. intros H. bools. pose proof (len_nonneg s).
  apply accepts_string; [lia|lia|done].
Qed.
#[export] Hint Resolve accepts_player_name accepts_room_name : wire.

(** ** Room records *)

Record listed_ok (st : RoomListState) : Prop := mkListedOk {
  lo_id : id_ok (rl_roomId st);
  lo_name : isValidRoomName (rl_roomName st) = true;
  lo_players : 0 <= rl_playerCount st <= rl_maxPlayers st;
  lo_max : 2 <= rl_maxPlayers st <= MAX_PLAYERS;
  lo_tcp : policy_wf (rl_tcpPolicy st);
  lo_udp : policy_wf (rl_udpPolicy st);
  lo_prot : rl_passwordProtected st = 0 \/ rl_passwordProtected st = 1;
  lo_mtu : isValidRoomMtuValue (rl_mtu st) = true
}.

Definition item_bytes (st : RoomListState) : bytes :=
  be_bytes 4 (rl_roomId st) ++ str_bytes (rl_roomName st) ++ [rl_playerCount st] ++
  [rl_maxPlayers st] ++ policy_bytes (rl_tcpPolicy st) ++ policy_bytes (rl_udpPolicy st) ++
  [rl_passwordProtected st] ++ be_bytes 2 (rl_mtu st).

Lemma room_name_len s : isValidRoomName s = true -> 1 <= len s <= 63.
Proof.
  unfold isValidRoomName, MAX_ROOM_NAME_LEN. intros H. bools. pose proof (len_nonneg s). lia.
Qed.
Lemma write_policy_bytes p d : write_policy p d = d ++ policy_bytes p.
Proof. unfold write_policy, writeU8, policy_bytes. by rewrite <- !app_assoc. Qed.
Lemma writeString_bytes s d : len s < 65536 -> writeString s d = d ++ str_bytes s.
Proof. apply writeString_be. Qed.
(** Turn a composition of writers into one right-nested concatenation. *)
Ltac written :=
  unfold writeU8, writeBytes; rewrite ?write_policy_bytes;
  rewrite ?writeU16_be, ?writeU32_be, ?writeU64_be; rewrite <- ?app_assoc, ?app_nil_l.

Lemma writeRoomListItem_bytes st d :
  listed_ok st -> writeRoomListItem st d = d ++ item_bytes st.
Proof.
  intros H. pose proof (room_name_len _ (lo_name st H)). unfold writeRoomListItem, item_bytes.
  rewrite (writeString_bytes (rl_roomName st)) by lia. written. done.
Qed.
Lemma len_item st : listed_ok st -> MIN_ROOM_RECORD_SIZE <= len (item_bytes st) <= 80.
Proof.
  intros H. pose proof (room_name_len _ (lo_name st H)).
  unfold item_bytes, policy_bytes, str_bytes, MIN_ROOM_RECORD_SIZE.
  rewrite !len_app, !len_be_bytes, !len_cons, !len_nil. lia.
Qed.
Lemma accepts_item st : listed_ok st -> accepts readRoomListItem (item_bytes st) (rl_roomId st).
Proof.
  intros [Hid Hn Hp Hm Ht Hu Hb Hmtu]. unfold readRoomListItem, item_bytes. wire.
  rewrite (id_u32 _ Hid). apply accepts_if; [|apply accepts_ret].
  rewrite (id_nonzero _ Hid). cbn [orb].
  rewrite !(proj2 (Z.ltb_ge _ _)) by lia. done.
Qed.
#[export] Hint Resolve accepts_item : wire.

Lemma accepts_fresh i ids : i ∉ ids -> accepts (insert_fresh i ids) [] ({[i]} ∪ ids).
Proof. intros Hi. unfold insert_fresh. rewrite decide_False by done. apply accepts_ret. Qed.

(** A loop that reads [f x] for each [x] and rejects repeated identifiers. *)
Lemma accepts_distinct {A} (loop : nat -> gset Z -> CM unit) (one : CM Z)
    (bytes_of : A -> bytes) (id : A -> Z) (xs : list A) ids :
  (forall ids, loop O ids = ret tt) ->
  (forall n ids, loop (S n) ids =
     (i <- one ;; ids <- insert_fresh i ids ;; loop n ids)) ->
  (forall x, x ∈ xs -> accepts one (bytes_of x) (id x)) ->
  NoDup (map id xs) -> (forall x, x ∈ xs -> id x ∉ ids) ->
  accepts (loop (length xs) ids) (concat (map bytes_of xs)) tt.
Proof.
  intros H0 HS. revert ids. induction xs as [|x xs IH]; intros ids Hone Hnd Hid.
  { cbn [length map concat]. rewrite H0. apply accepts_ret. }
  cbn [map] in Hnd. apply NoDup_cons in Hnd as [Hx Hnd].
  cbn [length map concat]. rewrite HS.
  eapply accepts_bind; [apply Hone; by left|].
  rewrite <- (app_nil_l (concat _)).
  eapply accepts_bind; [apply accepts_fresh, Hid; by left|].
  apply IH; [intros; apply Hone; by right|done|]. intros y Hy.
  rewrite elem_of_union, elem_of_singleton. intros [E|Hin].
  - apply Hx. rewrite <- E. by apply list_elem_of_fmap_2.
  - revert Hin. apply Hid. by right.
Qed.

(** ** Room list pages and pushes *)

Lemma accepts_remaining {B} (k : Z -> CM B) x b :
  (forall r, len x <= r -> accepts (k r) x b) -> accepts (bind (gets cursor_remaining) k) x b.
Proof.
  intros Hk pre rest. rewrite bind_gets, remaining_cur. apply Hk.
  rewrite len_app. pose proof (len_nonneg rest). lia.
Qed.
Lemma len_items sts :
  Forall listed_ok sts -> MIN_ROOM_RECORD_SIZE * len sts <= len (concat (map item_bytes sts)).
Proof.
  induction 1 as [|st sts Hst _ IH]; [by vm_compute|]. cbn [map concat].
  rewrite len_app, len_cons. pose proof (len_item st Hst). lia.
Qed.
Lemma writeBytes_all records d : fold_left (fun d r => writeBytes r d) records d = d ++ concat records.
Proof.
  revert d. induction records as [|r rs IH]; intros d; cbn [fold_left concat];
    [by rewrite app_nil_r|]. rewrite IH. unfold writeBytes. by rewrite <- app_assoc.
Qed.

(** A payload the client accepts. *)
Definition client_accepts (msgType : Z) (body : bytes) : Prop :=
  validateServerSignalPayload msgType (Some body) (len body) = result_ok.
Lemma take_all (d : bytes) : take (Z.to_nat (len d)) d = d.
Proof. rewrite len_to_nat. apply firstn_all. Qed.
Lemma not_null (d : bytes) : (0 <? len d) && bool_decide (Some d = None) = false.
Proof. rewrite bool_decide_false by done. apply andb_false_r. Qed.
(** Select the branch of the validator. *)
Ltac client := unfold client_accepts, validateServerSignalPayload; rewrite not_null;
  cbv zeta; cbn [default]; unfold default; rewrite take_all; cbn [id].

Lemma page_accepted revision pageCount i sts :
  0 < revision < 18446744073709551616 -> 0 <= i < pageCount -> pageCount < 65536 ->
  Forall listed_ok sts -> NoDup (map rl_roomId sts) ->
  len (write_page revision pageCount i (map item_bytes sts)) <= ROOM_LIST_PAGE_PAYLOAD ->
  client_accepts MSG_ROOM_LIST (write_page revision pageCount i (map item_bytes sts)).
Proof.
  intros Hr Hi Hc Hok Hnd Hl. client.
  rewrite (proj2 (Z.ltb_ge _ _)) by exact Hl.
  unfold write_page in *. rewrite writeBytes_all in *.
  rewrite !writeU16_be, !writeU64_be, !len_app, !len_be_bytes in Hl.
  rewrite !writeU16_be, !writeU64_be, <- !app_assoc. cbn [app].
  pose proof (len_items sts Hok) as Hn. rewrite len_nil in Hl. unfold ROOM_LIST_PAGE_PAYLOAD in Hl.
  unfold MIN_ROOM_RECORD_SIZE in Hn. pose proof (len_nonneg sts) as H0.
  assert (len (map item_bytes sts) = len sts) as El by (unfold len; by rewrite length_map).
  rewrite El. apply accepts_validate. unfold validate_room_list. wire.
  unfold u64, u16. rewrite !Z.mod_small by (rewrite ?Z.mod_small by lia; lia).
  apply accepts_if.
  { rewrite !(proj2 (Z.eqb_neq _ _)), (proj2 (Z.leb_gt _ _)) by lia. done. }
  apply accepts_remaining. intros r Hrem. apply accepts_if.
  { apply Z.ltb_ge, Z.div_le_lower_bound; [by vm_compute|]. unfold MIN_ROOM_RECORD_SIZE. lia. }
  rewrite len_to_nat.
  apply (accepts_distinct read_rooms readRoomListItem item_bytes rl_roomId);
    [done|done| |done|intros; apply not_elem_of_empty].
  intros x Hx. apply accepts_item. by apply (proj1 (Forall_forall _ _) Hok).
Qed.

(** Pages of a mapped list are mapped sublists of it. *)
Lemma concat_map_pages {A} (f : A -> bytes) ps xs p :
  concat ps = map f xs -> p ∈ ps -> exists ys, p = map f ys /\ ys `sublist_of` xs.
Proof.
  revert xs. induction ps as [|q ps IH]; intros xs E Hp; [by apply not_elem_of_nil in Hp|].
  cbn [concat] in E. symmetry in E.
  apply map_eq_app in E as (l1 & l2 & -> & E1 & E2).
  apply elem_of_cons in Hp as [->|Hp].
  - exists l1. split; [done|]. by apply sublist_inserts_r.
  - destruct (IH l2 (eq_sym E2) Hp) as (ys & -> & Hs). exists ys. split; [done|].
    by apply sublist_inserts_l.
Qed.
Lemma length_nonempty_pages (ps : list (list bytes)) :
  Forall (fun p => p <> []) ps -> (length ps <= length (concat ps))%nat.
Proof.
  induction 1 as [|p ps Hp _ IH]; [done|]. cbn [length concat]. rewrite length_app.
  destruct p; [done|]. cbn [length]. lia.
Qed.
Lemma length_pages records :
  Forall (fun r => PAGE_HEADER + len r <= ROOM_LIST_PAGE_PAYLOAD) records ->
  1 <= len (packed_pages records) <= Z.max 1 (len records).
Proof.
  intros Hr. destruct (packed_pages_facts 1 1 0 records Hr) as (H1 & _ & H3). split.
  - unfold packed_pages. destruct (fold_left _ _ _) as [[full page] n].
    unfold len. rewrite length_map, length_rev. cbn [length]. lia.
  - destruct records as [|r rs]; [by vm_compute|].
    specialize (H3 ltac:(done)). apply length_nonempty_pages in H3. rewrite H1 in H3.
    unfold len. lia.
Qed.

(** A list the server may publish: every room well-formed, under its id. *)
Definition listed (rooms : gmap Z RoomListState) : Prop :=
  forall k st, rooms !! k = Some st -> listed_ok st /\ rl_roomId st = k.
Lemma listed_states rooms :
  listed rooms -> Forall listed_ok (map_ordered rooms).*2 /\
  map rl_roomId (map_ordered rooms).*2 = (map_ordered rooms).*1.
Proof.
  intros Hl. assert (forall kv, kv ∈ map_ordered rooms -> listed_ok kv.2 /\ rl_roomId kv.2 = kv.1) as H.
  { intros [k st] Hin%elem_of_map_ordered. by apply Hl. }
  induction (map_ordered rooms) as [|kv l IH]; [done|]. cbn.
  destruct (H kv ltac:(left)) as [H1 H2]. destruct IH as [IH1 IH2].
  { intros. apply H. by right. }
  split; [by constructor|]. by rewrite H2, IH2.
Qed.

Lemma pages_accepted revision rooms :
  listed rooms -> 0 < revision < 18446744073709551616 -> Z.of_nat (size rooms) < 65536 ->
  Forall (client_accepts MSG_ROOM_LIST) (buildRoomListPages revision rooms).
Proof.
  intros Hl Hr Hs. destruct (listed_states rooms Hl) as [Hok Hids]. unfold buildRoomListPages.
  assert (map (fun kv => writeRoomListItem kv.2 []) (map_ordered rooms) =
          map item_bytes (map_ordered rooms).*2) as E.
  { clear Hids. induction (map_ordered rooms) as [|kv l IH]; [done|].
    change ((kv :: l).*2) with (kv.2 :: l.*2) in *. cbn [map].
    apply Forall_cons in Hok as [H1 H2]. f_equal; [by apply (writeRoomListItem_bytes kv.2 [])|by apply IH]. }
  rewrite E. set (sts := (map_ordered rooms).*2) in *.
  assert (Forall (fun r => PAGE_HEADER + len r <= ROOM_LIST_PAGE_PAYLOAD) (map item_bytes sts)) as Hfit.
  { apply Forall_fmap. eapply Forall_impl; [exact Hok|]. intros st Hst. change (PAGE_HEADER + len (item_bytes st) <= ROOM_LIST_PAGE_PAYLOAD).
    pose proof (len_item st Hst). unfold PAGE_HEADER, ROOM_LIST_PAGE_PAYLOAD. lia. }
  pose proof (length_pages _ Hfit) as Hlen.
  assert (len sts = Z.of_nat (size rooms)) as Esz.
  { unfold len, sts. rewrite length_fmap, (Permutation_length (map_ordered_perm rooms)).
    by rewrite length_map_to_list. }
  assert (len (map item_bytes sts) = len sts) as El by (unfold len; by rewrite length_map).
  unfold u16. rewrite Z.mod_small by lia. rewrite len_to_nat, firstn_all.
  destruct (packed_pages_facts revision (len (packed_pages (map item_bytes sts))) 0
    (map item_bytes sts) Hfit) as (Hcat & _ & _).
  apply Forall_lookup. intros i page. rewrite list_lookup_imap. intros (p & Hp & ->)%fmap_Some.
  pose proof (lookup_lt_Some _ _ _ Hp) as Hi.
  destruct (concat_map_pages item_bytes _ _ p Hcat (list_elem_of_lookup_2 _ _ _ Hp))
    as (ys & -> & Hsub).
  destruct (packed_pages_facts revision (len (packed_pages (map item_bytes sts))) (Z.of_nat i)
    (map item_bytes sts) Hfit) as (_ & Hbound & _).
  apply page_accepted; [done|unfold len; lia|lia| | |].
  - rewrite Forall_forall in Hok |- *. intros x Hx. apply Hok.
    eapply sublist_subseteq; eauto.
  - eapply sublist_NoDup; [|apply sublist_map, Hsub].
    rewrite Hids. apply NoDup_map_ordered_keys.
  - rewrite Forall_lookup in Hbound. by eapply Hbound.
Qed.

(** Operations of a push. *)
Definition op_ok (op : Z * RoomListState) : Prop :=
  (op.1 = ROOM_LIST_UPSERT \/ op.1 = ROOM_LIST_REMOVE) /\ listed_ok op.2.
Definition op_bytes (op : Z * RoomListState) : bytes :=
  [op.1] ++ (if op.1 =? ROOM_LIST_UPSERT then item_bytes op.2 else be_bytes 4 (rl_roomId op.2)).

Lemma write_operations_bytes ops d :
  Forall op_ok ops -> fold_left write_operation ops d = d ++ concat (map op_bytes ops).
Proof.
  intros H. revert d. induction H as [|op ops [_ Hop] _ IH]; intros d; cbn [fold_left map concat];
    [by rewrite app_nil_r|].
  rewrite IH. unfold write_operation, op_bytes. destruct (op.1 =? ROOM_LIST_UPSERT).
  - rewrite writeRoomListItem_bytes by done. written. done.
  - written. done.
Qed.
Lemma accepts_operation op : op_ok op -> accepts read_operation (op_bytes op) (rl_roomId op.2).
Proof.
  intros [Hop Hst]. unfold read_operation, op_bytes. eapply accepts_bind; [apply accepts_u8|].
  destruct Hop as [-> | ->].
  - change (ROOM_LIST_UPSERT =? ROOM_LIST_UPSERT) with true. by apply accepts_item.
  - change (ROOM_LIST_REMOVE =? ROOM_LIST_UPSERT) with false.
    change (ROOM_LIST_REMOVE =? ROOM_LIST_REMOVE) with true. cbv iota.
    eapply accepts_last; [apply accepts_u32|]. rewrite (id_u32 _ (lo_id _ Hst)).
    rewrite (id_nonzero _ (lo_id _ Hst)). apply accepts_ret.
Qed.
Lemma len_operations ops : len ops <= len (concat (map op_bytes ops)).
Proof.
  induction ops as [|op ops IH]; [done|]. cbn [map concat].
  unfold op_bytes at 1. rewrite len_cons, !len_app, len_cons, len_nil.
  pose proof (len_nonneg (if op.1 =? ROOM_LIST_UPSERT then item_bytes op.2
                          else be_bytes 4 (rl_roomId op.2))). lia.
Qed.
Lemma push_accepted base revision ops :
  0 <= base < revision -> revision < 18446744073709551616 ->
  ops <> [] -> Forall op_ok ops -> NoDup (map (fun op => rl_roomId op.2) ops) ->
  len (room_list_delta base revision ops) <= ROOM_LIST_PAGE_PAYLOAD ->
  client_accepts MSG_ROOM_LIST_PUSH (room_list_delta base revision ops).
Proof.
  intros Hb Hr Hne Hok Hnd Hl. client. rewrite (proj2 (Z.ltb_ge _ _)) by exact Hl.
  unfold room_list_delta in *. rewrite write_operations_bytes in * by done.
  rewrite !writeU16_be, !writeU64_be, !len_app, !len_be_bytes, len_nil in Hl.
  rewrite !writeU16_be, !writeU64_be, <- !app_assoc. cbn [app].
  pose proof (len_operations ops) as Hn. unfold ROOM_LIST_PAGE_PAYLOAD in Hl.
  assert (0 < len ops) as Hpos.
  { destruct ops; [done|]. rewrite len_cons. pose proof (len_nonneg ops). lia. }
  apply accepts_validate. unfold validate_room_list_push. wire.
  unfold u64, u16. rewrite !Z.mod_small by (rewrite ?Z.mod_small by lia; lia).
  apply accepts_if.
  { rewrite !(proj2 (Z.eqb_neq _ _)), (proj2 (Z.leb_gt _ _)) by lia. done. }
  rewrite len_to_nat.
  apply (accepts_distinct read_operations read_operation op_bytes (fun op => rl_roomId op.2));
    [done|done| |done|intros; apply not_elem_of_empty].
  intros x Hx. apply accepts_operation. by apply (proj1 (Forall_forall _ _) Hok).
Qed.
Lemma room_list_operations_ok current published :
  listed current -> listed published ->
  Forall op_ok (room_list_operations current published) /\
  NoDup (map (fun op => rl_roomId op.2) (room_list_operations current published)).
Proof.
  intros Hc Hp. unfold room_list_operations.
  assert (forall (m : gmap Z RoomListState) (P : Z * RoomListState -> Prop) (HP : forall x, Decision (P x)) t, listed m ->
    map (fun op : Z * RoomListState => rl_roomId op.2)
      (map (fun kv : Z * RoomListState => (t, kv.2)) (filter P (map_ordered m))) =
    (filter P (map_ordered m)).*1) as Hids.
  { intros m P HP t Hm. rewrite map_map. apply map_ext_in. intros [k st] Hin.
    apply list_elem_of_In, list_elem_of_filter in Hin as [_ Hin]. cbn.
    apply elem_of_map_ordered in Hin. by apply Hm. }
  split.
  - apply Forall_app. split; apply Forall_fmap, Forall_forall; intros [k st] Hin;
      apply list_elem_of_filter in Hin as [_ Hin]; apply elem_of_map_ordered in Hin;
      split; cbn; [by left|by apply (Hc k)|by right|by apply (Hp k)].
  - rewrite map_app, !Hids by done.
    assert (forall (m : gmap Z RoomListState) (P : Z * RoomListState -> Prop) (HP : forall x, Decision (P x)),
      NoDup (filter P (map_ordered m)).*1) as Hnd.
    { intros m P HP. eapply sublist_NoDup; [apply (NoDup_map_ordered_keys m)|].
      apply (sublist_map fst), sublist_filter. }
    apply NoDup_app. split; [apply Hnd|]. split; [|apply Hnd].
    intros k [[k1 s1] [-> H1]]%list_elem_of_fmap [[k2 s2] [E H2]]%list_elem_of_fmap.
    cbn in E. subst k2. apply list_elem_of_filter in H1 as [_ H1].
    apply elem_of_map_ordered in H1. apply list_elem_of_filter in H2 as [H2 _].
    cbn in H2. apply bool_decide_eq_true in H2. congruence.
Qed.

(** ** Rooms and membership messages *)

Record publishable (r : Room) : Prop := mkPublishable {
  pb_id : id_ok (r_id r);
  pb_name : isValidRoomName (r_name r) = true;
  pb_tcp : policy_wf (r_tcpPolicy r);
  pb_udp : policy_wf (r_udpPolicy r);
  pb_prot : r_passwordProtected r = 0 \/ r_passwordProtected r = 1
}.
Definition lease_ok (l : RoomLease) : Prop :=
  id_ok (l_peerId l) /\ id_ok (l_virtualIP l) /\ isValidPlayerName (l_name l) = true.

Lemma room_size_u8 r : room_ok r -> u8 (len (r_leases r)) = len (r_leases r).
Proof.
  intros H. pose proof (ok_size r H). pose proof (ok_max r H). unfold MAX_PLAYERS in *.
  pose proof (len_nonneg (r_leases r)). unfold u8. apply Z.mod_small. lia.
Qed.
Lemma collect_listed m :
  rooms_ok m -> (forall rid r, m_rooms m !! rid = Some r -> publishable r) ->
  listed (collectRoomListState m).
Proof.
  intros Hm Hp k st. rewrite collect_lookup by done. intros (r & E & ->)%fmap_Some.
  destruct (rk_room _ Hm k r E) as [Hid Hr]. destruct (Hp k r E) as [H1 H2 H3 H4 H5].
  split; [|exact Hid]. pose proof (len_nonneg (r_leases r)). pose proof (ok_size r Hr).
  constructor; cbn; try done; [rewrite room_size_u8 by done; lia|apply (ok_max r Hr)|apply (ok_mtu r Hr)].
Qed.
Lemma size_collect m : rooms_ok m -> Z.of_nat (size (collectRoomListState m)) = rm_size m.
Proof.
  intros Hm. unfold rm_size. f_equal. rewrite <- !size_dom. f_equal. apply set_eq. intros k.
  rewrite !elem_of_dom, collect_lookup by done. by rewrite fmap_is_Some.
Qed.

(** Members of a join response. *)
Definition member_bytes (l : RoomLease) : bytes :=
  be_bytes 4 (l_peerId l) ++ be_bytes 4 (l_virtualIP l) ++ str_bytes (l_name l).
Lemma player_name_len s : isValidPlayerName s = true -> 5 <= len s <= 63.
Proof.
  unfold isValidPlayerName, MIN_PLAYER_NAME_LEN, MAX_PLAYER_NAME_LEN. intros H. bools. lia.
Qed.
Lemma write_members_bytes ls d :
  Forall lease_ok ls ->
  fold_left (fun d lease =>
    writeString (l_name lease) (writeU32 (l_virtualIP lease) (writeU32 (l_peerId lease) d))) ls d =
  d ++ concat (map member_bytes ls).
Proof.
  intros H. revert d. induction H as [|l ls (H1 & H2 & H3) _ IH]; intros d;
    cbn [fold_left map concat]; [by rewrite app_nil_r|].
  rewrite IH. pose proof (player_name_len _ H3). rewrite writeString_bytes by lia.
  unfold member_bytes. written. done.
Qed.
Lemma accepts_members ls :
  Forall lease_ok ls -> accepts (read_members (length ls)) (concat (map member_bytes ls)) tt.
Proof.
  induction 1 as [|l ls (H1 & H2 & H3) _ IH]; [apply accepts_ret|].
  cbn [length read_members map concat]. eapply accepts_bind; [|exact IH].
  unfold read_member, member_bytes. wire. rewrite (id_u32 _ H1), (id_u32 _ H2).
  rewrite (id_nonzero _ H1), (id_nonzero _ H2). apply accepts_ret.
Qed.

Lemma join_accepted room vip token :
  publishable room -> room_ok room -> r_leases room <> [] -> Forall lease_ok (r_leases room) ->
  id_ok vip -> len token = RECONNECT_TOKEN_SIZE ->
  client_accepts MSG_JOIN_RESP (join_response room vip token).
Proof.
  intros [Hid _ Ht Hu Hp] Hr Hne Hls Hv Htok. client. apply accepts_validate.
  unfold join_response. rewrite write_members_bytes by done. written.
  pose proof (ok_size room Hr). pose proof (ok_max room Hr). pose proof (ok_mtu room Hr).
  assert (0 < len (r_leases room)) as Hpos.
  { destruct (r_leases room); [done|]. rewrite len_cons. pose proof (len_nonneg l). lia. }
  unfold validate_join_resp.
  eapply accepts_bind; [apply accepts_u32|]. eapply accepts_bind; [apply accepts_u32|].
  eapply accepts_bind; [by apply accepts_policy|]. eapply accepts_bind; [by apply accepts_policy|].
  eapply accepts_bind; [by apply accepts_boolean|]. eapply accepts_bind; [by apply accepts_mtu|].
  eapply accepts_bind; [apply accepts_u8|].
  rewrite (id_u32 _ Hid), (id_u32 _ Hv), room_size_u8 by done.
  apply accepts_if; [by rewrite (id_nonzero _ Hid), (id_nonzero _ Hv)|].
  apply accepts_if.
  { rewrite (proj2 (Z.eqb_neq _ _)), (proj2 (Z.ltb_ge _ _)) by lia. done. }
  rewrite len_to_nat. eapply accepts_bind; [by apply accepts_members|]. by apply accepts_skip.
Qed.

Lemma hello_accepted salt nonce pub :
  len salt = AUTH_SALT_SIZE -> len nonce = 16 -> len pub = 32 ->
  client_accepts MSG_SERVER_HELLO (writeBytes pub (writeBytes nonce (writeBytes salt
    (writeU8 AUTH_KDF_PROFILE (writeU8 1 (writeU16 PROTOCOL_VERSION [])))))).
Proof.
  intros Hs Hn Hp. client. apply accepts_validate. written. unfold validate_server_hello.
  eapply accepts_bind; [apply accepts_u16|]. eapply accepts_bind; [apply accepts_u8|].
  apply (accepts_skip ([AUTH_KDF_PROFILE] ++ salt ++ nonce ++ pub)).
  rewrite !len_app, Hs, Hn, Hp. done.
Qed.
Lemma auth_ok_accepted sid proof :
  id_ok sid -> len proof = 32 ->
  client_accepts MSG_SERVER_AUTH_OK (writeBytes proof (writeU32 sid [])).
Proof.
  intros Hs Hp. client. apply accepts_validate. written. unfold validate_server_auth_ok.
  eapply accepts_bind; [apply accepts_u32|]. eapply accepts_last; [by apply accepts_skip|].
  rewrite (id_u32 _ Hs), (id_nonzero _ Hs). apply accepts_ret.
Qed.
Lemma login_accepted pid resumed :
  id_ok pid -> resumed = 0 \/ resumed = 1 -> client_accepts MSG_LOGIN_RESP (login_resp pid resumed).
Proof.
  intros Hp Hr. client. apply accepts_validate. unfold login_resp. written.
  unfold validate_login_resp.
  eapply accepts_bind; [apply accepts_u32|]. eapply accepts_bind; [apply accepts_u16|].
  rewrite (id_u32 _ Hp), (id_nonzero _ Hp). by apply accepts_boolean.
Qed.
Lemma created_accepted room vip token :
  publishable room -> room_ok room -> id_ok vip -> len token = RECONNECT_TOKEN_SIZE ->
  client_accepts MSG_ROOM_CREATED (room_created_body room vip token).
Proof.
  intros [Hid _ Ht Hu Hp] Hr Hv Htok. client. apply accepts_validate. unfold room_created_body.
  written. pose proof (ok_mtu room Hr). unfold validate_room_created.
  eapply accepts_bind; [apply accepts_u32|]. eapply accepts_bind; [apply accepts_u32|].
  eapply accepts_bind; [by apply accepts_policy|]. eapply accepts_bind; [by apply accepts_policy|].
  eapply accepts_bind; [by apply accepts_boolean|]. eapply accepts_bind; [by apply accepts_mtu|].
  eapply accepts_last; [by apply accepts_skip|].
  rewrite (id_u32 _ Hid), (id_u32 _ Hv), (id_nonzero _ Hid), (id_nonzero _ Hv). apply accepts_ret.
Qed.
Lemma peer_info_accepted t l :
  t = MSG_PEER_JOINED \/ t = MSG_PEER_RESUMED -> lease_ok l ->
  client_accepts t (peer_info_body (l_peerId l) (l_virtualIP l) (l_name l)).
Proof.
  intros Ht (H1 & H2 & H3). pose proof (player_name_len _ H3).
  assert (accepts validatePeerInfo
    (peer_info_body (l_peerId l) (l_virtualIP l) (l_name l)) tt) as Ha.
  { unfold peer_info_body. rewrite writeString_bytes by lia. written.
    unfold validatePeerInfo. wire.
    rewrite (id_u32 _ H1), (id_u32 _ H2), (id_nonzero _ H1), (id_nonzero _ H2). apply accepts_ret. }
  client. destruct Ht as [-> | ->]; by apply accepts_validate.
Qed.
Lemma peer_id_accepted t pid :
  t = MSG_PEER_LEFT \/ t = MSG_RELAY_READY -> id_ok pid -> client_accepts t (writeU32 pid []).
Proof.
  intros Ht Hp. assert (accepts validate_peer_id (writeU32 pid []) tt) as Ha.
  { written. unfold validate_peer_id. wire. rewrite (id_u32 _ Hp), (id_nonzero _ Hp).
    apply accepts_ret. }
  client. destruct Ht as [-> | ->]; by apply accepts_validate.
Qed.
Lemma error_accepted text code :
  1 <= len (bytes_of_string text) <= MAX_TCP_MSG_PAYLOAD - 4 ->
  client_accepts MSG_ERROR (error_body text code).
Proof.
  intros Ht. unfold MAX_TCP_MSG_PAYLOAD in Ht. client. apply accepts_validate. unfold error_body.
  rewrite writeString_bytes by lia. written. unfold validate_error.
  eapply accepts_bind; [by apply accepts_skip|]. apply accepts_string; [lia|exact Ht|done].
Qed.

(** ** Properties *)

(** wire agreement, room lists.  For a well-formed registry, every page of
    the room list and every push the server computes against a well-formed
    published list passes the client's validator (when the push is within the
    payload bound the server itself checks). *)
Theorem room_list_messages_accepted m published revision :
  rooms_ok m -> (forall rid r, m_rooms m !! rid = Some r -> publishable r) ->
  listed published -> rm_size m < 65536 -> 0 < revision < UINT64_MAX ->
  let current := collectRoomListState m in
  let ops := room_list_operations current published in
  let push := room_list_delta revision (u64 (revision + 1)) ops in
  Forall (client_accepts MSG_ROOM_LIST) (buildRoomListPages revision current) /\
  (ops <> [] -> len push <= ROOM_LIST_PAGE_PAYLOAD -> client_accepts MSG_ROOM_LIST_PUSH push).
Proof.
  intros Hm Hp Hpub Hs Hr current ops push. unfold UINT64_MAX in Hr.
  pose proof (collect_listed m Hm Hp) as Hl. split.
  - apply pages_accepted; [done|lia|]. unfold current. by rewrite size_collect.
  - intros Hne Hlen. destruct (room_list_operations_ok current published Hl Hpub) as [H1 H2].
    unfold push, u64 in *. rewrite Z.mod_small in * by lia. apply push_accepted; try done; lia.
Qed.

(** Wire agreement, handshake and membership.  The hello, the
    authentication reply, the login reply, the room-created and join replies,
    the member notifications and the error messages that the server builds
    from well-formed data pass the client's validator. *)
Theorem control_messages_accepted salt nonce pub sid proof pid room vip token l text code :
  len salt = AUTH_SALT_SIZE -> len nonce = 16 -> len pub = 32 -> id_ok sid -> len proof = 32 ->
  id_ok pid -> publishable room -> room_ok room -> r_leases room <> [] ->
  Forall lease_ok (r_leases room) -> id_ok vip -> len token = RECONNECT_TOKEN_SIZE -> lease_ok l ->
  1 <= len (bytes_of_string text) <= MAX_TCP_MSG_PAYLOAD - 4 ->
  client_accepts MSG_SERVER_HELLO (writeBytes pub (writeBytes nonce (writeBytes salt
    (writeU8 AUTH_KDF_PROFILE (writeU8 1 (writeU16 PROTOCOL_VERSION [])))))) /\
  client_accepts MSG_SERVER_AUTH_OK (writeBytes proof (writeU32 sid [])) /\
  (forall resumed, resumed = 0 \/ resumed = 1 -> client_accepts MSG_LOGIN_RESP (login_resp pid resumed)) /\
  client_accepts MSG_ROOM_CREATED (room_created_body room vip token) /\
  client_accepts MSG_JOIN_RESP (join_response room vip token) /\
  (forall t, t = MSG_PEER_JOINED \/ t = MSG_PEER_RESUMED ->
     client_accepts t (peer_info_body (l_peerId l) (l_virtualIP l) (l_name l))) /\
  (forall t, t = MSG_PEER_LEFT \/ t = MSG_RELAY_READY -> client_accepts t (writeU32 pid [])) /\
  client_accepts MSG_ERROR (error_body text code).
Proof.
  intros. split_and!;
    eauto using hello_accepted, auth_ok_accepted, login_accepted, created_accepted,
      join_accepted, peer_info_accepted, peer_id_accepted, error_accepted.
Qed.

(** ** Instances *)

Lemma demo_registry_publishable rid r :
  m_rooms demo_registry !! rid = Some r -> publishable r.
Proof.
  intros E. assert (m_rooms demo_registry = {[1 := default Room_init (m_rooms demo_registry !! 1)]})
    as Em by by vm_compute.
  rewrite Em in E. apply lookup_singleton_Some in E as [_ <-].
  constructor; [by vm_compute|by vm_compute|done|done|by left].
Qed.
Lemma room_list_messages_accepted_witness :
  Forall (client_accepts MSG_ROOM_LIST) (buildRoomListPages 1 (collectRoomListState demo_registry)).
Proof.
  apply (room_list_messages_accepted demo_registry ∅ 1).
  - apply createRoom_ok; [apply rooms_ok_init|by vm_compute|by vm_compute].
  - exact demo_registry_publishable.
  - intros k st E. by rewrite lookup_empty in E.
  - by vm_compute.
  - by vm_compute.
Defined.
Definition demo_lease : RoomLease :=
  mkLease 7 (Z.lor VNET_SUBNET 2) [65; 65; 65; 65; 65] (replicate 32 1) true 0 0.
Definition demo_joined : Room :=
  set_r_leases [demo_lease] (default Room_init (m_rooms demo_registry !! 1)).
Lemma control_messages_accepted_witness :
  client_accepts MSG_JOIN_RESP (join_response demo_joined (l_virtualIP demo_lease) (replicate 32 1)).
Proof.
  assert (lease_ok demo_lease) as Hl by by vm_compute.
  assert (publishable demo_joined) as Hp.
  { constructor; [by vm_compute|by vm_compute|done|done|by left]. }
  assert (room_ok demo_joined) as Hr.
  { constructor; try (by vm_compute); [..|by repeat constructor; apply (bool_decide_unpack _)].
    - apply NoDup_singleton.
    - apply NoDup_singleton. }
  apply (control_messages_accepted (replicate 16 0) (replicate 16 0) (replicate 32 0) 1
    (replicate 32 0) 7 demo_joined (l_virtualIP demo_lease) (replicate 32 1) demo_lease "x" General);
    try done; [by repeat constructor].
Defined.
