(* ===== verification/Overlay.v ===== *)
(** * [common/overlay_packet_validator.h] and [common/tcp_frame_probe.h]

    What the client lets into and out of the virtual network, and how it cuts
    the TCP stream into frames.  A pointer argument is [None] for null. *)

From S2P Require Import Prelude Protocol ByteBuf.

(** ** Overlay packets *)

Inductive OverlayPacketError :=
  | NoPacketError | PacketTruncated | NotIpv4 | InvalidHeaderLength | InvalidTotalLength
  | ExceedsMtu | InvalidSource | InvalidDestination.
#[export] Instance OverlayPacketError_eq_dec : EqDecision OverlayPacketError.
Proof. solve_decision. Defined.

Record OverlayPacketResult := mkOverlay {
  op_error : OverlayPacketError;
  op_source : Z;
  op_destination : Z
}.
Definition overlay_valid (r : OverlayPacketResult) : bool :=
  bool_decide (op_error r = NoPacketError).

(** [readOverlayAddress(packet + i)]. *)
Definition readOverlayAddress (p : bytes) (i : Z) : Z :=
  Z.lor (Z.lor (Z.lor (Z.shiftl (byte_at p i) 24) (Z.shiftl (byte_at p (i + 1)) 16))
               (Z.shiftl (byte_at p (i + 2)) 8)) (byte_at p (i + 3)).

Definition validateOverlayIpv4Structure (packet : option bytes) (length roomMtu : Z)
    : OverlayPacketResult :=
  match packet with
  | None => mkOverlay PacketTruncated 0 0
  | Some p =>
      if length <? 20 then mkOverlay PacketTruncated 0 0 else
      if negb (Z.shiftr (byte_at p 0) 4 =? 4) then mkOverlay NotIpv4 0 0 else
      let headerLength := Z.land (byte_at p 0) 0x0f * 4 in
      if (headerLength <? 20) || (length <? headerLength)
      then mkOverlay InvalidHeaderLength 0 0 else
      let totalLength := Z.lor (Z.shiftl (byte_at p 2) 8) (byte_at p 3) in
      if (totalLength <? headerLength) || negb (totalLength =? length)
      then mkOverlay InvalidTotalLength 0 0 else
      if normalizeRoomMtu roomMtu <? length then mkOverlay ExceedsMtu 0 0 else
      mkOverlay NoPacketError (readOverlayAddress p 12) (readOverlayAddress p 16)
  end.

Definition validateInboundOverlayIpv4 (packet : option bytes)
    (length roomMtu expectedSource localAddress : Z) : OverlayPacketResult :=
  let result := validateOverlayIpv4Structure packet length roomMtu in
  if negb (overlay_valid result) then result else
  if (expectedSource =? 0) || negb (op_source result =? expectedSource)
  then mkOverlay InvalidSource (op_source result) (op_destination result) else
  if (localAddress =? 0) ||
     (negb (op_destination result =? localAddress) &&
      negb (op_destination result =? VNET_BROADCAST) &&
      negb (op_destination result =? 0xffffffff))
  then mkOverlay InvalidDestination (op_source result) (op_destination result)
  else result.

Definition validateOutboundOverlayIpv4 (packet : option bytes)
    (length roomMtu localAddress : Z) : OverlayPacketResult :=
  let result := validateOverlayIpv4Structure packet length roomMtu in
  if negb (overlay_valid result) then result else
  if (localAddress =? 0) || negb (op_source result =? localAddress)
  then mkOverlay InvalidSource (op_source result) (op_destination result)
  else result.

(** ** Frames of the TCP stream *)

Inductive TcpFrameProbeStatus := NeedMore | Ready | FrameMalformed.
Record TcpFrameProbeResult := mkProbe {
  pr_status : TcpFrameProbeStatus;
  pr_msgType : Z;
  pr_payloadLength : Z;
  pr_frameLength : Z
}.
Definition probeTcpFrame (data : option bytes) (n : Z) : TcpFrameProbeResult :=
  let HEADER_SIZE := 3 in
  if n <? HEADER_SIZE then mkProbe NeedMore 0 0 0 else
  match data with
  | None => mkProbe FrameMalformed 0 0 0
  | Some d =>
      let msgType := byte_at d 0 in
      let payloadLength := Z.lor (Z.shiftl (byte_at d 1) 8) (byte_at d 2) in
      if MAX_TCP_MSG_PAYLOAD <? payloadLength
      then mkProbe FrameMalformed msgType payloadLength 0 else
      let frameLength := HEADER_SIZE + payloadLength in
      mkProbe (if n <? frameLength then NeedMore else Ready) msgType payloadLength frameLength
  end.

(** ** Properties *)

(** An IPv4 packet of [ihl] header words: the fields the overlay looks at,
    between octets it does not. *)
Definition ipv4_packet (ihl tos : Z) (middle : bytes) (src dst : Z) (rest : bytes) : bytes :=
  [64 + ihl; tos] ++ be_bytes 2 (20 + len rest) ++ middle ++ be_bytes 4 src ++ be_bytes 4 dst ++ rest.
Definition is_ipv4 (p : bytes) (src dst : Z) : Prop :=
  exists ihl tos middle rest,
    p = ipv4_packet ihl tos middle src dst rest /\ len middle = 8 /\ 5 <= ihl <= 15 /\
    4 * ihl <= len p < 65536 /\ 0 <= src < 4294967296 /\ 0 <= dst < 4294967296.

Lemma two_octets b0 b1 : is_byte b1 -> Z.lor (Z.shiftl b0 8) b1 = 256 * b0 + b1.
Proof. apply lor_shiftl_byte. Qed.
Lemma nibbles b : is_byte b -> 64 + Z.land b 0x0f = b <-> Z.shiftr b 4 = 4.
Proof.
  intros Hb. unfold is_byte in Hb. change 0x0f with (Z.ones 4).
  rewrite Z.land_ones, Z.shiftr_div_pow2 by lia. change (2 ^ 4) with 16.
  pose proof (Z.div_mod b 16). pose proof (Z.mod_pos_bound b 16). lia.
Qed.

(** The header octets of a packet of at least twenty. *)
Lemma header_octets (p : bytes) :
  20 <= len p -> exists middle rest,
    p = [byte_at p 0; byte_at p 1; byte_at p 2; byte_at p 3] ++ middle ++
        [byte_at p 12; byte_at p 13; byte_at p 14; byte_at p 15] ++
        [byte_at p 16; byte_at p 17; byte_at p 18; byte_at p 19] ++ rest /\
    len middle = 8 /\ len p = 20 + len rest.
Proof.
  intros H. unfold len in H.
  do 20 (destruct p as [|? p]; [cbn in H; lia|]).
  exists [z3; z4; z5; z6; z7; z8; z9; z10], p. split; [reflexivity|]. split; [done|]. lens.
Qed.
Lemma readOverlayAddress_value p i :
  bytes_ok p -> readOverlayAddress p i =
    be_value [byte_at p i; byte_at p (i + 1); byte_at p (i + 2); byte_at p (i + 3)].
Proof. intros H. apply u32_expr; by apply byte_at_ok. Qed.
Lemma be_bytes_four b0 b1 b2 b3 :
  is_byte b0 -> is_byte b1 -> is_byte b2 -> is_byte b3 ->
  be_bytes 4 (be_value [b0; b1; b2; b3]) = [b0; b1; b2; b3] /\
  0 <= be_value [b0; b1; b2; b3] < 4294967296.
Proof.
  intros. assert (bytes_ok [b0; b1; b2; b3]) as Hb by (repeat (constructor; [done|]); constructor).
  split; [exact (be_bytes_be_value _ Hb)|]. exact (be_value_bound _ Hb).
Qed.

Lemma structure_sound p mtu src dst :
  bytes_ok p ->
  validateOverlayIpv4Structure (Some p) (len p) mtu = mkOverlay NoPacketError src dst ->
  is_ipv4 p src dst /\ len p <= normalizeRoomMtu mtu.
Proof.
  intros Hb. unfold validateOverlayIpv4Structure.
  destruct (len p <? 20) eqn:E1; [done|].
  destruct (negb (Z.shiftr (byte_at p 0) 4 =? 4)) eqn:E2; [done|]. cbv zeta.
  destruct (_ || (len p <? _)) eqn:E3; [done|].
  destruct ((_ <? Z.land (byte_at p 0) 15 * 4) || _) eqn:E4; [done|].
  destruct (normalizeRoomMtu mtu <? len p) eqn:E5; [done|]. intros [= <- <-]. bools.
  split; [|done].
  pose proof (byte_at_ok p 2 Hb) as B2. pose proof (byte_at_ok p 3 Hb) as B3.
  assert (len p < 65536) as Hl.
  { rewrite two_octets in * by done. unfold is_byte in B2, B3. lia. }
  destruct (header_octets p) as (middle & rest & Ep & Hm & Hr); [done|].
  rewrite !readOverlayAddress_value by done.
  change (12 + 1) with 13. change (12 + 2) with 14. change (12 + 3) with 15.
  change (16 + 1) with 17. change (16 + 2) with 18. change (16 + 3) with 19.
  destruct (be_bytes_four (byte_at p 12) (byte_at p 13) (byte_at p 14) (byte_at p 15)) as [Es Bs];
    [by apply byte_at_ok..|].
  destruct (be_bytes_four (byte_at p 16) (byte_at p 17) (byte_at p 18) (byte_at p 19)) as [Ed Bd];
    [by apply byte_at_ok..|].
  exists (Z.land (byte_at p 0) 15), (byte_at p 1), middle, rest.
  assert (0 <= Z.land (byte_at p 0) 15 < 16) as Hn.
  { change 15 with (Z.ones 4). rewrite Z.land_ones by lia. apply Z.mod_pos_bound. lia. }
  split; [|split; [done|split; [lia|split; [lia|done]]]].
  unfold ipv4_packet. rewrite Es, Ed, <- Hr.
  rewrite (proj2 (nibbles _ (byte_at_ok p 0 Hb))) by done.
  assert (be_bytes 2 (len p) = [byte_at p 2; byte_at p 3]) as ->.
  { assert (len p = be_value [byte_at p 2; byte_at p 3]) as ->.
    - unfold be_value. cbn [fold_left]. rewrite !two_octets in * by done. lia.
    - apply (be_bytes_be_value [byte_at p 2; byte_at p 3]).
      repeat (constructor; [done|]). constructor. }
  rewrite Ep at 1. reflexivity.
Qed.

(** A packet read back: the octets of its parts. *)
Lemma ipv4_octets ihl tos middle src dst rest :
  len middle = 8 ->
  let p := ipv4_packet ihl tos middle src dst rest in
  len p = 20 + len rest /\ byte_at p 0 = 64 + ihl /\
  [byte_at p 2; byte_at p 3] = be_bytes 2 (20 + len rest) /\
  [byte_at p 12; byte_at p 13; byte_at p 14; byte_at p 15] = be_bytes 4 src /\
  [byte_at p 16; byte_at p 17; byte_at p 18; byte_at p 19] = be_bytes 4 dst.
Proof.
  intros Hm p. subst p. unfold ipv4_packet.
  do 8 (destruct middle as [|? middle]; [done|]). destruct middle; [|unfold len in Hm; cbn in Hm; lia].
  split_and!; try reflexivity. rewrite !len_app, !len_be_bytes, !len_cons, !len_nil. lia.
Qed.
Lemma structure_complete p mtu src dst :
  is_ipv4 p src dst -> len p <= normalizeRoomMtu mtu ->
  validateOverlayIpv4Structure (Some p) (len p) mtu = mkOverlay NoPacketError src dst.
Proof.
  intros (ihl & tos & middle & rest & -> & Hm & Hi & Hl & Hs & Hd) Hmtu.
  destruct (ipv4_octets ihl tos middle src dst rest Hm) as (E & E0 & E2 & E12 & E16).
  set (p := ipv4_packet ihl tos middle src dst rest) in *. clearbody p.
  pose proof (len_nonneg rest). unfold validateOverlayIpv4Structure. rewrite E0.
  assert (is_byte (64 + ihl)) as Hb by (unfold is_byte; lia).
  assert (Z.land (64 + ihl) 15 = ihl) as Ei.
  { change 15 with (Z.ones 4). rewrite Z.land_ones by lia. change (2 ^ 4) with 16.
    rewrite <- (Z.mod_small ihl 16) at 2 by lia.
    replace (64 + ihl) with (ihl + 4 * 16) by lia. apply Z.mod_add. lia. }
  rewrite Ei. rewrite (proj1 (nibbles _ Hb)) by by rewrite Ei.
  assert (Z.lor (Z.shiftl (byte_at p 2) 8) (byte_at p 3) = len p) as ->.
  { change (be_value [byte_at p 2; byte_at p 3] = len p). rewrite E2, <- E.
    apply be_value_small. change (256 ^ Z.of_nat 2) with 65536. lia. }
  rewrite (proj2 (Z.ltb_ge _ _)) by lia. change (negb (4 =? 4)) with false. cbv zeta iota.
  rewrite !(proj2 (Z.ltb_ge _ _)) by lia. rewrite Z.eqb_refl. cbn [orb negb].
  assert (forall b0 b1 b2 b3 v, [b0; b1; b2; b3] = be_bytes 4 v -> 0 <= v < 4294967296 ->
    Z.lor (Z.lor (Z.lor (Z.shiftl b0 24) (Z.shiftl b1 16)) (Z.shiftl b2 8)) b3 = v) as Hv.
  { intros b0 b1 b2 b3 v Ev Hr.
    assert (bytes_ok [b0; b1; b2; b3]) as Hok by (rewrite Ev; apply bytes_ok_be_bytes).
    repeat (apply Forall_cons in Hok as [? Hok]).
    rewrite u32_expr, Ev by done. apply be_value_small. exact Hr. }
  f_equal; by apply Hv.
Qed.

(** What enters the virtual network.  An inbound packet is accepted exactly
    when it is a complete IPv4 packet (version 4, 5 to 15 header words that
    fit, total length equal to its size) within the room's MTU, sent by the
    peer it came from and addressed to this host or to a broadcast address. *)
Theorem inbound_packet_exact p mtu expectedSource localAddress :
  bytes_ok p ->
  overlay_valid (validateInboundOverlayIpv4 (Some p) (len p) mtu expectedSource localAddress) = true
  <-> exists dst, is_ipv4 p expectedSource dst /\ len p <= normalizeRoomMtu mtu /\
        expectedSource <> 0 /\ localAddress <> 0 /\
        (dst = localAddress \/ dst = VNET_BROADCAST \/ dst = 0xffffffff).
Proof.
  intros Hb. unfold validateInboundOverlayIpv4, overlay_valid. split.
  - destruct (validateOverlayIpv4Structure (Some p) (len p) mtu) as [e src dst] eqn:E.
    cbn [op_error op_source op_destination].
    destruct (negb (bool_decide (e = NoPacketError))) eqn:E0; [intros H; bools; done|].
    destruct (_ || negb (src =? _)) eqn:E1; [done|].
    destruct ((localAddress =? 0) || _) eqn:E2; [done|]. intros _. bools. subst e src.
    destruct (structure_sound p mtu _ _ Hb E) as [Hip Hmtu]. exists dst.
    split_and!; try done.
    repeat match goal with H : _ && _ = false |- _ => apply andb_false_iff in H as [H|H] end;
      bools; auto.
  - intros (dst & H1 & H2 & H3 & H4 & H5). rewrite (structure_complete p mtu _ _ H1 H2).
    cbn [op_error op_source op_destination].
    change (bool_decide (NoPacketError = NoPacketError)) with true. cbn [negb].
    rewrite (proj2 (Z.eqb_neq _ _) H3), Z.eqb_refl. cbn [orb negb].
    rewrite (proj2 (Z.eqb_neq _ _) H4). cbn [orb].
    assert (negb (dst =? localAddress) && negb (dst =? VNET_BROADCAST) &&
            negb (dst =? 0xffffffff) = false) as ->; [|reflexivity].
    destruct H5 as [-> | [-> | ->]]; rewrite Z.eqb_refl; cbn [negb];
      by rewrite ?andb_false_r.
Qed.

(** What leaves for the network: a complete IPv4 packet with our address. *)
Lemma outbound_packet_exact p mtu localAddress :
  bytes_ok p ->
  overlay_valid (validateOutboundOverlayIpv4 (Some p) (len p) mtu localAddress) = true
  <-> exists dst, is_ipv4 p localAddress dst /\ len p <= normalizeRoomMtu mtu /\ localAddress <> 0.
Proof.
  intros Hb. unfold validateOutboundOverlayIpv4, overlay_valid. split.
  - destruct (validateOverlayIpv4Structure (Some p) (len p) mtu) as [e src dst] eqn:E.
    cbn [op_error op_source op_destination].
    destruct (negb (bool_decide (e = NoPacketError))) eqn:E0; [intros H; bools; done|].
    destruct (_ || negb (src =? _)) eqn:E1; [done|]. intros _. bools. subst e src.
    destruct (structure_sound p mtu _ _ Hb E) as [Hip Hmtu]. by exists dst.
  - intros (dst & H1 & H2 & H3). rewrite (structure_complete p mtu _ _ H1 H2).
    cbn [op_error op_source op_destination].
    change (bool_decide (NoPacketError = NoPacketError)) with true. cbn [negb].
    by rewrite (proj2 (Z.eqb_neq _ _) H3), Z.eqb_refl.
Qed.

(** A frame of the stream: type, length, body. *)
Definition tcp_frame (msgType : Z) (body : bytes) : bytes :=
  [msgType] ++ be_bytes 2 (len body) ++ body.
(** A ready frame is at least its header. *)
Lemma ready_length buf :
  bytes_ok buf -> 3 <= len buf -> pr_status (probeTcpFrame (Some buf) (len buf)) = Ready ->
  3 <= pr_frameLength (probeTcpFrame (Some buf) (len buf)).
Proof.
  intros Hb H3. unfold probeTcpFrame. rewrite (proj2 (Z.ltb_ge (len buf) 3)) by lia.
  pose proof (byte_at_ok buf 1 Hb) as B1. pose proof (byte_at_ok buf 2 Hb) as B2. cbv zeta.
  destruct (MAX_TCP_MSG_PAYLOAD <? _); [done|]. cbn [pr_frameLength]. intros _.
  rewrite lor_shiftl_byte by done. unfold is_byte in *. lia.
Qed.
Lemma probe_length msgType body rest :
  len body < 65536 ->
  Z.lor (Z.shiftl (byte_at (tcp_frame msgType body ++ rest) 1) 8)
        (byte_at (tcp_frame msgType body ++ rest) 2) = len body.
Proof.
  intros H. change (be_value (be_bytes 2 (len body)) = len body). apply be_value_small.
  pose proof (len_nonneg body). change (256 ^ Z.of_nat 2) with 65536. lia.
Qed.

(** framing.  On a stream that starts with a frame the probe reports that
    frame - its type, payload length and total size; on any proper prefix of a
    frame it asks for more, and never calls it malformed; and when it reports
    a frame, the stream starts with exactly that frame. *)
Theorem probe_frame_exact d :
  bytes_ok d ->
  (forall msgType body rest, len body <= MAX_TCP_MSG_PAYLOAD -> d = tcp_frame msgType body ++ rest ->
     probeTcpFrame (Some d) (len d) = mkProbe Ready msgType (len body) (3 + len body)) /\
  (forall msgType body rest, len body <= MAX_TCP_MSG_PAYLOAD -> rest <> [] ->
     d ++ rest = tcp_frame msgType body ->
     pr_status (probeTcpFrame (Some d) (len d)) = NeedMore) /\
  (forall msgType n total, probeTcpFrame (Some d) (len d) = mkProbe Ready msgType n total ->
     exists body rest, d = tcp_frame msgType body ++ rest /\ len body = n /\
       n <= MAX_TCP_MSG_PAYLOAD /\ total = len (tcp_frame msgType body)).
Proof.
  intros Hd. split; [|split].
  - intros msgType body rest Hb ->. unfold probeTcpFrame. pose proof (len_nonneg body).
    pose proof (len_nonneg rest). unfold MAX_TCP_MSG_PAYLOAD in *.
    assert (len (tcp_frame msgType body ++ rest) = 3 + len body + len rest) as El.
    { unfold tcp_frame. rewrite !len_app, len_be_bytes, len_cons, len_nil. lia. }
    rewrite El, (proj2 (Z.ltb_ge _ _)) by lia. rewrite probe_length by lia. cbv zeta.
    rewrite !(proj2 (Z.ltb_ge _ _)) by lia. done.
  - intros msgType body rest Hb Hne E. unfold probeTcpFrame, MAX_TCP_MSG_PAYLOAD in *.
    assert (0 < len rest) as Hr.
    { destruct rest; [done|]. rewrite len_cons. pose proof (len_nonneg rest). lia. }
    destruct (len d <? 3) eqn:E3; [done|]. bools.
    assert (len d + len rest = 3 + len body) as El.
    { rewrite <- len_app, E. unfold tcp_frame. rewrite !len_app, len_be_bytes, len_cons, len_nil. lia. }
    assert (Z.lor (Z.shiftl (byte_at d 1) 8) (byte_at d 2) = len body) as Ev.
    { rewrite <- (probe_length msgType body []) by lia. rewrite app_nil_r, <- E.
      destruct d as [|x [|y [|z d]]]; try (unfold len in E3; cbn in E3; lia). reflexivity. }
    rewrite Ev, (proj2 (Z.ltb_ge _ _)) by lia. cbv zeta.
    by rewrite (proj2 (Z.ltb_lt _ _)) by lia.
  - intros msgType n total. unfold probeTcpFrame. destruct (len d <? 3) eqn:E3; [done|].
    cbv zeta. destruct (MAX_TCP_MSG_PAYLOAD <? _) eqn:E4; [done|].
    destruct (len d <? 3 + _) eqn:E5; [done|]. intros [= <- <- <-]. bools.
    destruct d as [|x [|y [|z d]]]; try (unfold len in E3; cbn in E3; lia).
    change (byte_at (x :: y :: z :: d) 0) with x. change (byte_at (x :: y :: z :: d) 1) with y in *.
    change (byte_at (x :: y :: z :: d) 2) with z in *.
    apply Forall_cons in Hd as [_ Hd]. apply Forall_cons in Hd as [Hy Hd].
    apply Forall_cons in Hd as [Hz _].
    change (Z.lor (Z.shiftl y 8) z) with (be_value [y; z]) in *.
    assert (bytes_ok [y; z]) as Hyz by (repeat (constructor; [done|]); constructor).
    pose proof (be_value_bound _ Hyz) as Hv. change (256 ^ len [y; z]) with 65536 in Hv.
    rewrite !len_cons in E5. set (n := be_value [y; z]) in *.
    assert (len (take (Z.to_nat n) d) = n) as En.
    { unfold len in *. rewrite length_take. lia. }
    exists (take (Z.to_nat n) d), (drop (Z.to_nat n) d).
    assert (be_bytes 2 n = [y; z]) as Eb by exact (be_bytes_be_value _ Hyz).
    unfold tcp_frame. rewrite En, Eb. split_and!; try done.
    + cbn [app]. by rewrite take_drop.
    + rewrite !len_app, En. lens.
Qed.

(** ** Instances *)

Definition demo_packet : bytes := ipv4_packet 5 0 (replicate 8 0) 0x0A0A0002 0x0A0A0003 [].
Lemma demo_packet_ok : bytes_ok demo_packet.
Proof. apply (bool_decide_unpack _). by vm_compute. Qed.
Lemma inbound_packet_exact_witness :
  overlay_valid (validateInboundOverlayIpv4 (Some demo_packet) (len demo_packet) 1400
    0x0A0A0002 0x0A0A0003) = true /\
  exists dst, is_ipv4 demo_packet 0x0A0A0002 dst.
Proof.
  split; [by vm_compute|].
  destruct (proj1 (inbound_packet_exact demo_packet 1400 0x0A0A0002 0x0A0A0003 demo_packet_ok))
    as (dst & H & _); [by vm_compute|]. by exists dst.
Defined.
Lemma probe_frame_exact_witness :
  probeTcpFrame (Some (tcp_frame 5 [1; 2] ++ [9])) 6 = mkProbe Ready 5 2 5.
Proof.
  assert (bytes_ok (tcp_frame 5 [1; 2] ++ [9])) as Hd by (apply (bool_decide_unpack _); by vm_compute).
  exact (proj1 (probe_frame_exact _ Hd) 5 [1; 2] [9] ltac:(by vm_compute) eq_refl).
Defined.
