(* ===== verification/RoomOp.v ===== *)
(** * [common/room_operation.h] and [common/relay_probe_watchdog.h]

    The client tracks one room operation at a time (create or join, then
    prepare the adapter, then wait for readiness) against deadlines on a
    64-bit millisecond clock, and reports a relay outage once. *)

From S2P Require Import Prelude.

(** ** [class RoomOperationTracker] *)

Inductive RoomOperationPhase :=
  | Idle | WaitingServer | PreparingAdapter | WaitingReadiness | InRoomPhase
  | Cancelling | CleaningUp.
#[export] Instance RoomOperationPhase_eq_dec : EqDecision RoomOperationPhase.
Proof. solve_decision. Defined.

Record RoomOperationTracker := mkTracker {
  t_phase : RoomOperationPhase;
  t_id : Z;
  t_connection : Z;
  t_started : Z;
  t_phaseStarted : Z;
  t_deadline : Z;
  t_totalDeadline : Z;
  t_localDeadline : Z
}.
Definition RoomOperationTracker_init : RoomOperationTracker := mkTracker Idle 0 0 0 0 0 0 0.

Definition expired (t : RoomOperationTracker) (now : Z) : bool :=
  negb (t_deadline t =? 0) && (t_deadline t <=? now).

(** The methods that return [bool] give the result and the new state. *)
Definition begin_op (t : RoomOperationTracker) (now connectionGeneration : Z)
    : bool * RoomOperationTracker :=
  if decide (t_phase t <> Idle) then (false, t) else
  (true, mkTracker WaitingServer (u64 (t_id t + 1)) connectionGeneration now now
           (u64 (now + 15000)) (u64 (now + 45000)) 0).
Definition beginPreparation (t : RoomOperationTracker) (now : Z) : bool * RoomOperationTracker :=
  if bool_decide (t_phase t <> WaitingServer) || expired t now then (false, t) else
  let local := Z.min (u64 (now + 30000)) (t_totalDeadline t) in
  (true, mkTracker PreparingAdapter (t_id t) (t_connection t) (t_started t) now local
           (t_totalDeadline t) local).
Definition beginReadiness (t : RoomOperationTracker) (now : Z) : bool * RoomOperationTracker :=
  if bool_decide (t_phase t <> PreparingAdapter) || expired t now then (false, t) else
  (true, mkTracker WaitingReadiness (t_id t) (t_connection t) (t_started t) now
           (Z.min (u64 (now + 10000)) (t_localDeadline t)) (t_totalDeadline t) (t_localDeadline t)).
Definition markInRoom (t : RoomOperationTracker) (now : Z) : bool * RoomOperationTracker :=
  if (bool_decide (t_phase t <> PreparingAdapter) && bool_decide (t_phase t <> WaitingReadiness)) ||
     expired t now
  then (false, t) else
  (true, mkTracker InRoomPhase (t_id t) (t_connection t) (t_started t) now 0
           (t_totalDeadline t) (t_localDeadline t)).
Definition beginCancel (t : RoomOperationTracker) (now : Z) : bool * RoomOperationTracker :=
  if bool_decide (t_phase t = Idle) || bool_decide (t_phase t = Cancelling) ||
     bool_decide (t_phase t = CleaningUp)
  then (false, t) else
  (true, mkTracker Cancelling (t_id t) (t_connection t) (t_started t) now 0
           (t_totalDeadline t) (t_localDeadline t)).
Definition beginCleanup (t : RoomOperationTracker) (now : Z) : RoomOperationTracker :=
  if decide (t_phase t = CleaningUp) then t else
  mkTracker CleaningUp (t_id t) (t_connection t) (t_started t) now 0
    (t_totalDeadline t) (t_localDeadline t).
Definition finishCleanup (t : RoomOperationTracker) : RoomOperationTracker :=
  mkTracker Idle (t_id t) (t_connection t) (t_started t) (t_phaseStarted t) 0
    (t_totalDeadline t) (t_localDeadline t).
Definition cleanupSlow (t : RoomOperationTracker) (now : Z) : bool :=
  bool_decide (t_phase t = CleaningUp) && (10000 <=? u64 (now - t_phaseStarted t)).
Definition pending (t : RoomOperationTracker) : bool :=
  bool_decide (t_phase t <> Idle) && bool_decide (t_phase t <> InRoomPhase).
Definition canStart (t : RoomOperationTracker) : bool := bool_decide (t_phase t = Idle).
Definition elapsedMs (t : RoomOperationTracker) (now : Z) : Z := u64 (now - t_started t).
Definition matches (t : RoomOperationTracker) (id connection : Z) : bool :=
  (t_id t =? id) && (t_connection t =? connection).

(** A call and the time it is made at. *)
Inductive Call :=
  | CBegin (connection : Z) | CPreparation | CReadiness | CInRoom | CCancel | CCleanup | CFinish.
Definition call (t : RoomOperationTracker) (now : Z) (c : Call) : bool * RoomOperationTracker :=
  match c with
  | CBegin g => begin_op t now g
  | CPreparation => beginPreparation t now
  | CReadiness => beginReadiness t now
  | CInRoom => markInRoom t now
  | CCancel => beginCancel t now
  | CCleanup => (true, beginCleanup t now)
  | CFinish => (true, finishCleanup t)
  end.

(** ** [class RelayProbeWatchdog] *)

Record RelayProbeWatchdog := mkWatchdog { w_waiting : bool; w_reported : bool; w_since : Z }.
Definition RelayProbeWatchdog_init : RelayProbeWatchdog := mkWatchdog false false 0.
Definition observe (w : RelayProbeWatchdog) (now : Z) (hasFreshReply : bool)
    : bool * RelayProbeWatchdog :=
  if hasFreshReply then (false, mkWatchdog false false (w_since w)) else
  let w := if negb (w_waiting w) then mkWatchdog true (w_reported w) now else w in
  if negb (w_reported w) && (10000 <=? u32 (now - w_since w))
  then (true, mkWatchdog (w_waiting w) true (w_since w))
  else (false, w).

(** ** Properties *)

(** Reachable at time [last], on a clock that does not go back and stays below
    2^63 ms, with the operation id counting the operations begun. *)
Inductive tracked : Z -> Z -> RoomOperationTracker -> Prop :=
  | tracked_init now : 0 <= now < 2 ^ 63 -> tracked now 0 RoomOperationTracker_init
  | tracked_call last n t now c ok t' :
      tracked last n t -> last <= now < 2 ^ 63 -> call t now c = (ok, t') ->
      tracked now (if match c with CBegin _ => ok | _ => false end then n + 1 else n) t'.

(** The phases with a deadline. *)
Definition timed (p : RoomOperationPhase) : bool :=
  match p with WaitingServer | PreparingAdapter | WaitingReadiness => true | _ => false end.
Record tracker_ok (last n : Z) (t : RoomOperationTracker) : Prop := mkTrackerOk {
  to_last : 0 <= t_started t <= last /\ last < 2 ^ 63;
  to_id : t_id t = u64 n;
  to_none : timed (t_phase t) = false -> t_deadline t = 0;
  to_some : timed (t_phase t) = true ->
    0 < t_deadline t <= t_totalDeadline t /\ t_totalDeadline t = t_started t + 45000 /\
    (t_phase t = WaitingServer -> t_deadline t = t_started t + 15000) /\
    (t_phase t <> WaitingServer -> 0 < t_localDeadline t <= t_totalDeadline t) /\
    (t_phase t = PreparingAdapter -> t_deadline t = t_localDeadline t)
}.

Ltac tracker_cases :=
  repeat match goal with
  | H : (if ?b then _ else _) = _ |- _ => destruct b eqn:?
  | H : (_, _) = (_, _) |- _ => injection H; clear H; intros; subst
  end.
Lemma tracked_ok last n t : tracked last n t -> tracker_ok last n t.
Proof.
  assert (forall v, 0 <= v < 2 ^ 63 + 45001 -> u64 v = v) as Hu.
  { intros v Hv. unfold u64. apply Z.mod_small. lia. }
  induction 1 as [now Hn|last n t now c ok t' _ IH Hnow E].
  { constructor; cbn; try done; lia. }
  destruct IH as [Hlast Hid Hnone Hsome]. destruct c; cbn [call] in E.
  - unfold begin_op in E. tracker_cases.
    + constructor; try done. lia.
    + constructor; cbn; [lia| |done|].
      * rewrite Hid. unfold u64. by rewrite Z.add_mod_idemp_l.
      * intros _. rewrite !Hu by lia. split_and!; try done; lia.
  - unfold beginPreparation in E. tracker_cases.
    + constructor; try done. lia.
    + bools. apply dec_stable in H. rewrite H in *. destruct (Hsome eq_refl) as (H1 & H2 & H3 & H4 & H5).
      unfold expired in H0. apply andb_false_iff in H0 as [H0|H0]; bools; [lia|].
      constructor; cbn; [lia|done|done|]. intros _. rewrite Hu by lia. split_and!; try lia; done.
  - unfold beginReadiness in E. tracker_cases.
    + constructor; try done. lia.
    + bools. apply dec_stable in H. rewrite H in *. destruct (Hsome eq_refl) as (H1 & H2 & H3 & H4 & H5).
      specialize (H4 ltac:(done)).
      constructor; cbn; [lia|done|done|]. intros _. rewrite Hu by lia. split_and!; try lia; done.
  - unfold markInRoom in E. tracker_cases; constructor; cbn; try done; lia.
  - unfold beginCancel in E. tracker_cases; constructor; cbn; try done; lia.
  - unfold beginCleanup in E. injection E as <- <-. case_decide; constructor; cbn; try done; lia.
  - injection E as <- <-. constructor; cbn; try done; lia.
Qed.

(** C31: the deadlines of a room operation.  In every state, on any clock and
    after any calls: the wait for the server ends 15 s after the start, an
    operation that waits for the server, the adapter or readiness has a
    deadline at most 45 s after its start, and in the other phases nothing
    expires.  The phases follow each other only before the deadline: the adapter
    is prepared within 30 s and within the 45 s, readiness is awaited for 10 s
    and no longer than the deadline of the preparation, and the room is entered
    before the deadline, all by the operation begun last. *)
Theorem room_operation_bounded last n t :
  tracked last n t ->
  (timed (t_phase t) = true ->
     0 < t_deadline t <= t_started t + 45000 /\
     (t_phase t = WaitingServer -> t_deadline t = t_started t + 15000) /\
     forall now, expired t now = true <-> t_deadline t <= now) /\
  (timed (t_phase t) = false -> forall now, expired t now = false) /\
  (forall now t', last <= now < 2 ^ 63 -> call t now CPreparation = (true, t') ->
     t_phase t = WaitingServer /\ now < t_deadline t /\
     t_phase t' = PreparingAdapter /\ t_started t' = t_started t /\ t_id t' = u64 n /\
     t_deadline t' = Z.min (now + 30000) (t_started t + 45000)) /\
  (forall now t', last <= now < 2 ^ 63 -> call t now CReadiness = (true, t') ->
     t_phase t = PreparingAdapter /\ now < t_deadline t /\
     t_phase t' = WaitingReadiness /\ t_started t' = t_started t /\ t_id t' = u64 n /\
     t_deadline t' = Z.min (now + 10000) (t_deadline t)) /\
  (forall now t', last <= now < 2 ^ 63 -> call t now CInRoom = (true, t') ->
     (t_phase t = PreparingAdapter \/ t_phase t = WaitingReadiness) /\ now < t_deadline t /\
     t_phase t' = InRoomPhase /\ t_id t' = u64 n).
Proof.
  intros Ht. destruct (tracked_ok _ _ _ Ht) as [Hlast Hid Hnone Hsome].
  assert (timed (t_phase t) = true -> forall now, expired t now = true <-> t_deadline t <= now) as Hx.
  { intros Hp now. destruct (Hsome Hp) as (H1 & _). unfold expired.
    rewrite (proj2 (Z.eqb_neq _ _)) by lia. apply Z.leb_le. }
  assert (forall now, timed (t_phase t) = true -> expired t now = false -> now < t_deadline t) as Hb.
  { intros now Hp He. destruct (Z.lt_ge_cases now (t_deadline t)) as [|Hge]; [done|].
    apply (Hx Hp now) in Hge. congruence. }
  assert (forall v, 0 <= v < 2 ^ 63 + 45001 -> u64 v = v) as Hu.
  { intros v Hv. unfold u64. apply Z.mod_small. lia. }
  split_and!.
  - intros Hp. split_and!; [destruct (Hsome Hp) as (H1 & H2 & _); lia.. |by apply Hsome|by apply Hx].
  - intros Hp now. unfold expired. by rewrite (Hnone Hp).
  - intros now t' Hn E. cbn [call] in E. unfold beginPreparation in E. tracker_cases; [discriminate|]. bools.
    match goal with HP : ~ (_ <> _) |- _ => apply dec_stable in HP; rewrite HP in * end.
    destruct (Hsome eq_refl) as (H1 & H2 & _). split_and!; [done|by apply Hb|done..|]. cbn. by rewrite Hu, H2 by lia.
  - intros now t' Hn E. cbn [call] in E. unfold beginReadiness in E. tracker_cases; [discriminate|]. bools.
    match goal with HP : ~ (_ <> _) |- _ => apply dec_stable in HP; rewrite HP in * end.
    destruct (Hsome eq_refl) as (H1 & H2 & H3 & H4 & H5). split_and!; [done|by apply Hb|done..|]. cbn.
    by rewrite Hu, (H5 eq_refl) by lia.
  - intros now t' Hn E. cbn [call] in E. unfold markInRoom in E. tracker_cases; [discriminate|]. bools.
    assert (t_phase t = PreparingAdapter \/ t_phase t = WaitingReadiness) as Hp.
    { match goal with HP : _ && _ = false |- _ => apply andb_false_iff in HP as [HP|HP]; bools; apply dec_stable in HP; auto end. }
    split_and!; [done| |done|exact Hid]. apply Hb; [by destruct Hp as [-> | ->]|done].
Qed.

(** Observations without a fresh reply, one after the other. *)
Fixpoint observe_all (w : RelayProbeWatchdog) (times : list Z) : list bool :=
  match times with
  | [] => []
  | now :: times => let '(r, w) := observe w (u32 now) false in r :: observe_all w times
  end.

Lemma u32_elapsed a b : 0 <= a - b < 4294967296 -> u32 (u32 a - u32 b) = a - b.
Proof.
  intros H. unfold u32. rewrite Zminus_mod_idemp_l, Zminus_mod_idemp_r. by apply Z.mod_small.
Qed.
(** What a waiting watchdog reports, in true time. *)
Fixpoint reports (t0 : Z) (reported : bool) (times : list Z) : list bool :=
  match times with
  | [] => []
  | t :: times =>
      let r := negb reported && (10000 <=? t - t0) in r :: reports t0 (reported || r) times
  end.
Lemma observe_waiting t0 reported times :
  Forall (fun t => 0 <= t - t0 < 4294967296) times ->
  observe_all (mkWatchdog true reported (u32 t0)) times = reports t0 reported times.
Proof.
  intros H. revert reported. induction H as [|t times Ht _ IH]; intros reported; [done|].
  cbn [observe_all]. unfold observe. cbn [negb w_waiting w_reported w_since].
  rewrite u32_elapsed by done.
  cbn [reports]. destruct reported, (10000 <=? t - t0); cbn [negb andb orb]; f_equal; apply IH.
Qed.

Lemma reports_spec t0 l b k :
  reports t0 b l !! k = Some true <->
  b = false /\ exists t, l !! k = Some t /\ 10000 <= t - t0 /\
    forall j u, (j < k)%nat -> l !! j = Some u -> u - t0 < 10000.
Proof.
  revert b k. induction l as [|t l IH]; intros b k; [split; [done|by intros (_ & ? & ? & _)]|].
    destruct k as [|k]; cbn [reports lookup list_lookup]; cbn.
    - split.
      + intros [= E]. apply andb_true_iff in E as [E1 E2]. apply negb_true_iff in E1. bools.
        split; [done|]. exists t. split; [done|]. split; [done|lia].
      + intros [-> (t' & [= <-] & H & _)]. f_equal. by apply Z.leb_le.
    - rewrite IH. split.
      + intros [E (t' & E1 & E2 & E3)]. apply orb_false_iff in E as [-> E]. split; [done|].
        exists t'. split; [done|]. split; [done|]. intros [|j] u Hj; cbn.
        * intros [= <-]. cbn in E. by apply Z.leb_gt in E.
        * intros Hu. apply (E3 j); [lia|done].
      + intros [-> (t' & E1 & E2 & E3)]. split.
        * cbn. apply Z.leb_gt. apply (E3 O); [lia|done].
        * exists t'. split; [done|]. split; [done|]. intros j u Hj Hu. apply (E3 (S j)); [lia|done].
Qed.

(** an outage is reported once.  From the first missing reply at [t0] on,
    over any later observations without a fresh reply (on the 32-bit clock,
    less than 2^32 ms long), the watchdog reports exactly at the first
    observation at least 10 s after [t0], and never again. *)
Theorem watchdog_reports_once w t0 times i :
  Forall (fun t => 0 <= t - t0 < 4294967296) times ->
  let w := snd (observe w (u32 t0) true) in
  observe_all w (t0 :: times) !! i = Some true <->
  exists t, (t0 :: times) !! i = Some t /\ 10000 <= t - t0 /\
    forall j u, (j < i)%nat -> (t0 :: times) !! j = Some u -> u - t0 < 10000.
Proof.
  intros Ht. cbv zeta. cbn [observe snd].
  assert (observe_all (mkWatchdog false false (w_since w)) (t0 :: times) =
          observe_all (mkWatchdog true false (u32 t0)) (t0 :: times)) as -> by done.
  rewrite observe_waiting by (constructor; [lia|exact Ht]). clear Ht w.
  rewrite reports_spec. split; [by intros [_ ?]|by intros ?].
Qed.

(** ** Instances *)

(** Readiness is awaited from 40 s on, 5 s before the deadline of the preparation. *)
Definition demo_waiting_server : RoomOperationTracker := snd (begin_op RoomOperationTracker_init 100 7).
Definition demo_preparing : RoomOperationTracker := snd (beginPreparation demo_waiting_server 15000).
Lemma demo_preparing_tracked : tracked 15000 1 demo_preparing.
Proof.
  apply (tracked_call 100 1 demo_waiting_server 15000 CPreparation true _); [|done..].
  by apply (tracked_call 0 0 RoomOperationTracker_init 100 (CBegin 7) true _); [apply tracked_init|..].
Qed.
Lemma room_operation_bounded_witness :
  let t := snd (beginReadiness demo_preparing 40000) in
  t_phase t = WaitingReadiness /\ t_deadline t = Z.min 50000 (t_deadline demo_preparing) /\ t_deadline t = 45000.
Proof.
  cbv zeta. split; [reflexivity|]. split; [|reflexivity].
  destruct (room_operation_bounded 15000 1 demo_preparing demo_preparing_tracked) as (_ & _ & _ & H & _).
  by apply (H 40000 (snd (beginReadiness demo_preparing 40000)) ltac:(lia) eq_refl).
Defined.
Lemma watchdog_reports_once_witness :
  observe_all RelayProbeWatchdog_init [5; 9000; 10005; 20000] !! 2%nat = Some true.
Proof.
  apply (watchdog_reports_once RelayProbeWatchdog_init 5 [9000; 10005; 20000] 2).
  - repeat constructor; lia.
  - exists 10005. split; [done|]. split; [lia|]. intros [|[|j]] u Hj; cbn; [|..|lia];
      intros [= <-]; lia.
Defined.
