(* ===== verification/ProbeQuality.v ===== *)
(** * [common/probe_quality.h]: [class ProbeQualityTracker]

    Round-trip statistics of one path to a peer.  The clock is the argument
    [now] of each operation, a 32-bit count of milliseconds that wraps; probe
    identifiers come from a process-wide counter and are an argument of
    [beginProbe].  [timeoutPercent] is kept as its numerator and denominator. *)

From S2P Require Import Prelude.

Definition WINDOW_MS : Z := 60000.
Definition TIMEOUT_MS : Z := 10000.
Definition MIN_SAMPLES : Z := 5.

Inductive ProbeState := Pending | Replied | TimedOut | SendFailed.
#[export] Instance ProbeState_eq_dec : EqDecision ProbeState.
Proof. solve_decision. Defined.
(** [struct Record]. *)
Record Probe := mkProbeRecord {
  pb_id : Z;
  pb_sent : Z;
  pb_replyAt : Z;
  pb_state : ProbeState;
  pb_committed : bool;
  pb_earlyReply : bool
}.
Definition Probe_init (token time : Z) : Probe := mkProbeRecord token time 0 Pending false false.
Definition set_pb_state (v : ProbeState) (p : Probe) : Probe :=
  mkProbeRecord (pb_id p) (pb_sent p) (pb_replyAt p) v (pb_committed p) (pb_earlyReply p).
Definition set_pb_committed (v : bool) (p : Probe) : Probe :=
  mkProbeRecord (pb_id p) (pb_sent p) (pb_replyAt p) (pb_state p) v (pb_earlyReply p).
Definition set_pb_early (early : bool) (at_ : Z) (p : Probe) : Probe :=
  mkProbeRecord (pb_id p) (pb_sent p) at_ (pb_state p) (pb_committed p) early.

Record ProbeQualityTracker := mkTracker {
  pq_records : list Probe;
  pq_pathKind : Z;
  pq_enabled : bool;
  pq_started : bool;
  pq_outage : bool;
  pq_queueSendFailure : bool;
  pq_transportSendFailure : bool;
  pq_hasReply : bool;
  pq_reference : Z;
  pq_lastReply : Z;
  pq_rtt : Z;
  pq_recoveryReplies : Z
}.
Definition set_pq_records (v : list Probe) (q : ProbeQualityTracker) : ProbeQualityTracker :=
  mkTracker v q.(pq_pathKind) q.(pq_enabled) q.(pq_started) q.(pq_outage)
    q.(pq_queueSendFailure) q.(pq_transportSendFailure) q.(pq_hasReply) q.(pq_reference)
    q.(pq_lastReply) q.(pq_rtt) q.(pq_recoveryReplies).
Definition set_pq_pathKind (v : Z) (q : ProbeQualityTracker) : ProbeQualityTracker :=
  mkTracker q.(pq_records) v q.(pq_enabled) q.(pq_started) q.(pq_outage)
    q.(pq_queueSendFailure) q.(pq_transportSendFailure) q.(pq_hasReply) q.(pq_reference)
    q.(pq_lastReply) q.(pq_rtt) q.(pq_recoveryReplies).
Definition set_pq_enabled (v : bool) (q : ProbeQualityTracker) : ProbeQualityTracker :=
  mkTracker q.(pq_records) q.(pq_pathKind) v q.(pq_started) q.(pq_outage)
    q.(pq_queueSendFailure) q.(pq_transportSendFailure) q.(pq_hasReply) q.(pq_reference)
    q.(pq_lastReply) q.(pq_rtt) q.(pq_recoveryReplies).
Definition set_pq_started (v : bool) (q : ProbeQualityTracker) : ProbeQualityTracker :=
  mkTracker q.(pq_records) q.(pq_pathKind) q.(pq_enabled) v q.(pq_outage)
    q.(pq_queueSendFailure) q.(pq_transportSendFailure) q.(pq_hasReply) q.(pq_reference)
    q.(pq_lastReply) q.(pq_rtt) q.(pq_recoveryReplies).
Definition set_pq_outage (v : bool) (q : ProbeQualityTracker) : ProbeQualityTracker :=
  mkTracker q.(pq_records) q.(pq_pathKind) q.(pq_enabled) q.(pq_started) v
    q.(pq_queueSendFailure) q.(pq_transportSendFailure) q.(pq_hasReply) q.(pq_reference)
    q.(pq_lastReply) q.(pq_rtt) q.(pq_recoveryReplies).
Definition set_pq_queueSendFailure (v : bool) (q : ProbeQualityTracker) : ProbeQualityTracker :=
  mkTracker q.(pq_records) q.(pq_pathKind) q.(pq_enabled) q.(pq_started) q.(pq_outage) v
    q.(pq_transportSendFailure) q.(pq_hasReply) q.(pq_reference) q.(pq_lastReply) q.(pq_rtt)
    q.(pq_recoveryReplies).
Definition set_pq_transportSendFailure (v : bool) (q : ProbeQualityTracker) : ProbeQualityTracker :=
  mkTracker q.(pq_records) q.(pq_pathKind) q.(pq_enabled) q.(pq_started) q.(pq_outage)
    q.(pq_queueSendFailure) v q.(pq_hasReply) q.(pq_reference) q.(pq_lastReply) q.(pq_rtt)
    q.(pq_recoveryReplies).
Definition set_pq_hasReply (v : bool) (q : ProbeQualityTracker) : ProbeQualityTracker :=
  mkTracker q.(pq_records) q.(pq_pathKind) q.(pq_enabled) q.(pq_started) q.(pq_outage)
    q.(pq_queueSendFailure) q.(pq_transportSendFailure) v q.(pq_reference) q.(pq_lastReply)
    q.(pq_rtt) q.(pq_recoveryReplies).
Definition set_pq_reference (v : Z) (q : ProbeQualityTracker) : ProbeQualityTracker :=
  mkTracker q.(pq_records) q.(pq_pathKind) q.(pq_enabled) q.(pq_started) q.(pq_outage)
    q.(pq_queueSendFailure) q.(pq_transportSendFailure) q.(pq_hasReply) v q.(pq_lastReply)
    q.(pq_rtt) q.(pq_recoveryReplies).
Definition set_pq_lastReply (v : Z) (q : ProbeQualityTracker) : ProbeQualityTracker :=
  mkTracker q.(pq_records) q.(pq_pathKind) q.(pq_enabled) q.(pq_started) q.(pq_outage)
    q.(pq_queueSendFailure) q.(pq_transportSendFailure) q.(pq_hasReply) q.(pq_reference) v
    q.(pq_rtt) q.(pq_recoveryReplies).
Definition set_pq_rtt (v : Z) (q : ProbeQualityTracker) : ProbeQualityTracker :=
  mkTracker q.(pq_records) q.(pq_pathKind) q.(pq_enabled) q.(pq_started) q.(pq_outage)
    q.(pq_queueSendFailure) q.(pq_transportSendFailure) q.(pq_hasReply) q.(pq_reference)
    q.(pq_lastReply) v q.(pq_recoveryReplies).
Definition set_pq_recoveryReplies (v : Z) (q : ProbeQualityTracker) : ProbeQualityTracker :=
  mkTracker q.(pq_records) q.(pq_pathKind) q.(pq_enabled) q.(pq_started) q.(pq_outage)
    q.(pq_queueSendFailure) q.(pq_transportSendFailure) q.(pq_hasReply) q.(pq_reference)
    q.(pq_lastReply) q.(pq_rtt) v.

Definition ProbeQualityTracker_init : ProbeQualityTracker :=
  mkTracker [] 0 false false false false false false 0 0 (-1) 0.

(** ** Path changes *)

Definition pq_reset (q : ProbeQualityTracker) : ProbeQualityTracker :=
  mkTracker [] (pq_pathKind q) (pq_enabled q) false false false false false 0 0 (-1) 0.
Definition suspend (q : ProbeQualityTracker) : ProbeQualityTracker :=
  set_pq_records (filter (fun p => pb_state p <> Pending) (pq_records q)) (set_pq_enabled false q).
Definition setPath (kind : Z) (q : ProbeQualityTracker) : ProbeQualityTracker :=
  if kind =? 0 then suspend q else
  let q := if negb (pq_pathKind q =? kind) then set_pq_pathKind kind (pq_reset q) else q in
  set_pq_enabled true q.

(** ** Expiry *)

(** A record whose deadline has passed, and what its loss does to a recovery
    under way. *)
Definition overdue (now : Z) (p : Probe) : bool :=
  bool_decide (pb_state p = Pending) && pb_committed p && (TIMEOUT_MS <=? u32 (now - pb_sent p)).
Definition loss_counts (q : ProbeQualityTracker) (p : Probe) : bool :=
  negb (pq_hasReply q) || (0 <=? i32 (pb_sent p - pq_lastReply q)).
Definition time_out (now : Z) (q : ProbeQualityTracker) : ProbeQualityTracker :=
  let q' := set_pq_records (map (fun p => if overdue now p then set_pb_state TimedOut p else p) (pq_records q)) q in
  if existsb (fun p => overdue now p && loss_counts q p) (pq_records q)
  then set_pq_recoveryReplies 0 q' else q'.
(** [while (... now - front().sent >= WINDOW_MS) pop_front();]. *)
Fixpoint drop_old (now : Z) (l : list Probe) : list Probe :=
  match l with
  | [] => []
  | p :: l' => if WINDOW_MS <=? u32 (now - pb_sent p) then drop_old now l' else l
  end.
Definition expire (now : Z) (q : ProbeQualityTracker) : ProbeQualityTracker :=
  let q := time_out now q in
  let q := set_pq_records (drop_old now (pq_records q)) q in
  if pq_enabled q && pq_started q && negb (pq_queueSendFailure q) && negb (pq_transportSendFailure q) &&
     (TIMEOUT_MS <=? u32 (now - pq_reference q))
  then set_pq_recoveryReplies 0 (set_pq_outage true q) else q.

(** ** Probes *)

Definition beginProbe (now id : Z) (q : ProbeQualityTracker) : ProbeQualityTracker :=
  let q := expire now q in
  if pq_enabled q then set_pq_records (pq_records q ++ [Probe_init id now]) q else q.
(** [findPending]: the records before it, the record, the rest. *)
Fixpoint findPending (id : Z) (l : list Probe) : option (list Probe * Probe * list Probe) :=
  match l with
  | [] => None
  | p :: l' =>
      if (pb_id p =? id) && bool_decide (pb_state p = Pending) then Some ([], p, l')
      else match findPending id l' with
           | Some (a, r, b) => Some (p :: a, r, b)
           | None => None
           end
  end.
(** [acceptReply] on the record [p], between [a] and [b]. *)
Definition acceptReply (a : list Probe) (p : Probe) (b : list Probe) (now : Z) (q : ProbeQualityTracker)
    : ProbeQualityTracker :=
  let q := set_pq_records (a ++ set_pb_state Replied p :: b) q in
  let q := set_pq_reference now (set_pq_lastReply now (set_pq_hasReply true
             (set_pq_rtt (i32 (now - pb_sent p)) q))) in
  if pq_outage q then
    let n := u32 (pq_recoveryReplies q + 1) in
    if 2 <=? n then set_pq_recoveryReplies 0 (set_pq_outage false q) else set_pq_recoveryReplies n q
  else q.
Definition completeSend (id now : Z) (success : bool) (q : ProbeQualityTracker) : ProbeQualityTracker :=
  match findPending id (pq_records q) with
  | None => q
  | Some (a, p, b) =>
      let wasLocalFailure := pq_queueSendFailure q || pq_transportSendFailure q in
      let q := set_pq_queueSendFailure (negb success) q in
      if negb success || pq_transportSendFailure q
      then set_pq_records (a ++ set_pb_early false (pb_replyAt p) (set_pb_state SendFailed p) :: b) q else
      let q := if wasLocalFailure && negb (pq_outage q) then set_pq_reference (pb_sent p) q else q in
      let p := set_pb_committed true p in
      let q := set_pq_records (a ++ p :: b) q in
      let q := if negb (pq_started q) then set_pq_reference (pb_sent p) (set_pq_started true q) else q in
      let q := if pb_earlyReply p then acceptReply a p b (pb_replyAt p) q else q in
      expire now q
  end.
Definition reportTransportSend (now : Z) (success : bool) (q : ProbeQualityTracker) : ProbeQualityTracker :=
  let q := expire now q in
  let wasTransportFailure := pq_transportSendFailure q in
  let q := set_pq_transportSendFailure (negb success) q in
  if success then (if wasTransportFailure && negb (pq_outage q) then set_pq_reference now q else q) else
  set_pq_records (map (fun p => if decide (pb_state p = Pending)
                                then set_pb_early false (pb_replyAt p) (set_pb_state SendFailed p) else p)
                      (pq_records q)) q.
Definition pq_reply (id now : Z) (q : ProbeQualityTracker) : bool * ProbeQualityTracker :=
  let q := expire now q in
  match findPending id (pq_records q) with
  | None => (false, q)
  | Some (a, p, b) =>
      if negb (pq_enabled q) || (TIMEOUT_MS <=? u32 (now - pb_sent p)) then (false, q) else
      if negb (pb_committed p) then
        if pb_earlyReply p then (false, q)
        else (true, set_pq_records (a ++ set_pb_early true now p :: b) q)
      else (true, acceptReply a p b now q)
  end.

(** ** Reading *)

Definition latencyMs (now : Z) (q : ProbeQualityTracker) : Z :=
  if negb (pq_enabled q) || negb (pq_hasReply q) || (TIMEOUT_MS <=? u32 (now - pq_lastReply q)) then -1
  else pq_rtt q.
Record ProbeQualitySnapshot := mkSnapshot {
  ps_active : bool;
  ps_outage : bool;
  ps_localSendFailure : bool;
  ps_sampling : bool;
  ps_replies : Z;
  ps_timeouts : Z;
  ps_pending : Z;
  ps_sendFailures : Z;
  ps_rttMs : Z
}.
Definition count_if (f : Probe -> bool) (l : list Probe) : Z := len (List.filter f l).
Definition snapshot (now : Z) (q : ProbeQualityTracker) : ProbeQualitySnapshot * ProbeQualityTracker :=
  let q := expire now q in
  let in_state s := fun p => bool_decide (pb_state p = s) in
  let replies := count_if (in_state Replied) (pq_records q) in
  let timeouts := count_if (in_state TimedOut) (pq_records q) in
  (mkSnapshot (pq_enabled q && pq_started q) (pq_outage q) (pq_queueSendFailure q || pq_transportSendFailure q)
     (replies + timeouts <? MIN_SAMPLES) replies timeouts
     (count_if (fun p => in_state Pending p && pb_committed p) (pq_records q))
     (count_if (in_state SendFailed) (pq_records q)) (latencyMs now q), q).
(** [timeoutPercent] is [100 * fst / snd], or 0 when nothing has settled. *)
Definition timeoutRatio (s : ProbeQualitySnapshot) : Z * Z :=
  if ps_replies s + ps_timeouts s =? 0 then (0, 1) else (ps_timeouts s, ps_replies s + ps_timeouts s).

(** ** The public operations *)

Inductive PqCall :=
| QPath (kind : Z)
| QReset
| QSuspend
| QBegin (now id : Z)
| QSent (id now : Z) (success : bool)
| QTransport (now : Z) (success : bool)
| QReply (id now : Z)
| QSnapshot (now : Z).
(** The state after a call, and whether it accepted a reply. *)
Definition pq_call (c : PqCall) (q : ProbeQualityTracker) : bool * ProbeQualityTracker :=
  match c with
  | QPath kind => (false, setPath kind q)
  | QReset => (false, pq_reset q)
  | QSuspend => (false, suspend q)
  | QBegin now id => (false, beginProbe now id q)
  | QSent id now success => (false, completeSend id now success q)
  | QTransport now success => (false, reportTransportSend now success q)
  | QReply id now => pq_reply id now q
  | QSnapshot now => (false, snd (snapshot now q))
  end.

(** How often a run accepts a reply to [id], and how often it begins a probe
    with that identifier. *)
Definition accepts (id : Z) (c : PqCall) (ok : bool) : nat :=
  match c with QReply id' _ => if (id' =? id) && ok then 1%nat else 0%nat | _ => 0%nat end.
Definition begins (id : Z) (c : PqCall) : nat :=
  match c with QBegin _ id' => if id' =? id then 1%nat else 0%nat | _ => 0%nat end.
Fixpoint accepted (id : Z) (cs : list PqCall) (q : ProbeQualityTracker) : nat :=
  match cs with
  | [] => 0%nat
  | c :: cs => let '(ok, q') := pq_call c q in (accepts id c ok + accepted id cs q')%nat
  end.
Definition begun (id : Z) (cs : list PqCall) : nat := sum_list (map (begins id) cs).

(** ** Lemmas *)

(** The records of [id] that may still accept a reply. *)
Definition open_probe (id : Z) (p : Probe) : bool :=
  (pb_id p =? id) && bool_decide (pb_state p = Pending) && (pb_committed p || negb (pb_earlyReply p)).
Definition open_count (id : Z) (l : list Probe) : nat := length (List.filter (open_probe id) l).

Lemma open_count_app id a b : open_count id (a ++ b) = (open_count id a + open_count id b)%nat.
Proof. unfold open_count. rewrite List.filter_app, length_app. reflexivity. Qed.
Lemma open_count_cons id p l :
  open_count id (p :: l) = ((if open_probe id p then 1%nat else 0%nat) + open_count id l)%nat.
Proof. unfold open_count. cbn. destruct (open_probe id p); reflexivity. Qed.
Lemma open_count_map id f l : (forall p, open_probe id (f p) = true -> open_probe id p = true) ->
  (open_count id (map f l) <= open_count id l)%nat.
Proof.
  intros Hf. induction l as [|p l IH]; [reflexivity|]. cbn [map]. rewrite !open_count_cons.
  specialize (Hf p). destruct (open_probe id (f p)); [rewrite Hf by reflexivity|]; lia.
Qed.
Lemma open_count_drop_old id now l : (open_count id (drop_old now l) <= open_count id l)%nat.
Proof.
  induction l as [|p l IH]; [reflexivity|]. cbn [drop_old].
  destruct (WINDOW_MS <=? _); [rewrite open_count_cons|]; lia.
Qed.
Lemma open_count_filter id (P : Probe -> Prop) `{forall p, Decision (P p)} l :
  (open_count id (filter P l) <= open_count id l)%nat.
Proof.
  induction l as [|p l IH]; [reflexivity|]. rewrite filter_cons, open_count_cons.
  destruct (decide (P p)); [rewrite open_count_cons|]; lia.
Qed.
(** A record that is not pending accepts nothing. *)
Lemma settled_closed id p : pb_state p <> Pending -> open_probe id p = false.
Proof. intros Hs. unfold open_probe. rewrite (bool_decide_false _ Hs), andb_false_r. reflexivity. Qed.

Lemma expire_open id now q : (open_count id (pq_records (expire now q)) <= open_count id (pq_records q))%nat.
Proof.
  transitivity (open_count id (pq_records (time_out now q))).
  - unfold expire. destruct (_ && (TIMEOUT_MS <=? _)); apply open_count_drop_old.
  - unfold time_out. set (f := fun p : Probe => if overdue now p then set_pb_state TimedOut p else p).
    transitivity (open_count id (map f (pq_records q))); [destruct (existsb _ _); reflexivity|].
    apply open_count_map. intros p. unfold f. destruct (overdue now p); [|auto].
    rewrite settled_closed; [discriminate|]. cbn. discriminate.
Qed.
Lemma findPending_split id l a p b : findPending id l = Some (a, p, b) ->
  l = a ++ p :: b /\ pb_id p = id /\ pb_state p = Pending.
Proof.
  revert a. induction l as [|r l IH]; intros a Hf; [discriminate|]. cbn [findPending] in Hf.
  destruct ((pb_id r =? id) && bool_decide (pb_state r = Pending)) eqn:E.
  - injection Hf as <- <- <-. apply andb_prop in E as [Ei Es].
    apply Z.eqb_eq in Ei. apply bool_decide_eq_true in Es. auto.
  - destruct (findPending id l) as [[[a' r'] b']|]; [|discriminate]. injection Hf as <- <- <-.
    destruct (IH a' eq_refl) as (-> & ? & ?). auto.
Qed.
Lemma acceptReply_records a p b now q : pq_records (acceptReply a p b now q) = a ++ set_pb_state Replied p :: b.
Proof. unfold acceptReply. cbv zeta. destruct (pq_outage _); [destruct (2 <=? _)|]; reflexivity. Qed.
(** Replacing one record by one that is no more open. *)
Lemma open_count_replace id a p p' b : (open_probe id p' = true -> open_probe id p = true) ->
  (open_count id (a ++ p' :: b) <= open_count id (a ++ p :: b))%nat.
Proof.
  intros Hp. rewrite !open_count_app, !open_count_cons.
  destruct (open_probe id p'); [rewrite Hp by reflexivity|]; lia.
Qed.
(** Ends a goal in which a record stops being pending. *)
Ltac closes := rewrite settled_closed by discriminate; discriminate.

Lemma completeSend_open id tok now success q :
  (open_count id (pq_records (completeSend tok now success q)) <= open_count id (pq_records q))%nat.
Proof.
  unfold completeSend. destruct (findPending tok _) as [[[a p] b]|] eqn:E; [|reflexivity].
  destruct (findPending_split _ _ _ _ _ E) as (-> & _). cbv zeta.
  destruct (negb success || _); [apply open_count_replace; closes|].
  etransitivity; [apply expire_open|].
  cbn [set_pb_committed pb_earlyReply]. destruct (pb_earlyReply p) eqn:Ee.
  - rewrite acceptReply_records. apply open_count_replace. closes.
  - transitivity (open_count id (a ++ set_pb_committed true p :: b)).
    + destruct (negb (pq_started _)); reflexivity.
    + apply open_count_replace. unfold open_probe. cbn. rewrite Ee, orb_true_r. auto.
Qed.
Lemma reportTransportSend_open id now success q :
  (open_count id (pq_records (reportTransportSend now success q)) <= open_count id (pq_records q))%nat.
Proof.
  etransitivity; [|apply expire_open with (now := now)]. unfold reportTransportSend. cbv zeta.
  destruct success; [destruct (_ && _); reflexivity|]. apply open_count_map. intros p.
  destruct (decide _); [closes|auto].
Qed.
Lemma open_count_middle id a p b :
  open_count id (a ++ p :: b) = ((if open_probe id p then 1%nat else 0%nat) + open_count id (a ++ b))%nat.
Proof. rewrite !open_count_app, open_count_cons. lia. Qed.
(** An accepted reply uses up an open record. *)
Lemma reply_open id tok now q :
  (open_count id (pq_records (snd (pq_reply tok now q))) + accepts id (QReply tok now) (fst (pq_reply tok now q))
   <= open_count id (pq_records q))%nat.
Proof.
  etransitivity; [|apply expire_open with (now := now)]. unfold pq_reply, accepts. cbv zeta.
  set (q' := expire now q). destruct (findPending tok _) as [[[a p] b]|] eqn:E;
    [|cbn; rewrite andb_false_r; lia].
  destruct (findPending_split _ _ _ _ _ E) as (Hr & Hi & Hs).
  destruct (_ || (TIMEOUT_MS <=? _)); [cbn; rewrite andb_false_r; lia|].
  rewrite Hr, (open_count_middle id a p b). unfold open_probe.
  rewrite Hi, (bool_decide_true _ Hs), andb_true_r.
  destruct (pb_committed p) eqn:Ec; [|destruct (pb_earlyReply p) eqn:Ee]; cbn [negb orb fst snd].
  - rewrite acceptReply_records, open_count_middle, settled_closed by discriminate.
    rewrite !andb_true_r. destruct (tok =? id); lia.
  - rewrite Hr, open_count_middle, !andb_false_r. unfold open_probe. rewrite Ec, Ee, andb_false_r. cbn. lia.
  - cbn [pq_records set_pq_records]. rewrite open_count_middle. unfold open_probe at 1.
    cbn [set_pb_early pb_committed pb_earlyReply]. rewrite Ec, !andb_false_r, !andb_true_r.
    destruct (tok =? id); lia.
Qed.
Lemma call_open id c q :
  (open_count id (pq_records (snd (pq_call c q))) + accepts id c (fst (pq_call c q))
   <= open_count id (pq_records q) + begins id c)%nat.
Proof.
  destruct c; cbn [pq_call begins]; [| | | | | |rewrite Nat.add_0_r; apply reply_open|]; cbn [fst snd accepts].
  - assert (H : (open_count id (pq_records (suspend q)) <= open_count id (pq_records q))%nat)
      by apply open_count_filter.
    unfold setPath. destruct (kind =? 0); [lia|]. destruct (negb _); [apply Nat.le_0_l|rewrite !Nat.add_0_r; reflexivity].
  - apply Nat.le_0_l.
  - assert (H : (open_count id (pq_records (suspend q)) <= open_count id (pq_records q))%nat)
      by apply open_count_filter. lia.
  - unfold beginProbe. pose proof (expire_open id now q). destruct (pq_enabled _); [|lia].
    cbn [pq_records set_pq_records]. rewrite open_count_app, open_count_cons. unfold open_probe. cbn.
    rewrite !andb_true_r. destruct (id0 =? id); lia.
  - pose proof (completeSend_open id id0 now success q). lia.
  - pose proof (reportTransportSend_open id now success q). lia.
  - rewrite !Nat.add_0_r. apply expire_open.
Qed.
Lemma accepted_le id cs q : (accepted id cs q <= open_count id (pq_records q) + begun id cs)%nat.
Proof.
  revert q. induction cs as [|c cs IH]; intros q; cbn [accepted]; [lia|].
  change (begun id (c :: cs)) with (begins id c + begun id cs)%nat.
  pose proof (call_open id c q) as Hc. destruct (pq_call c q) as [ok q']. cbn [fst snd] in Hc.
  specialize (IH q'). lia.
Qed.

(** ** Theorems *)

(** C29: a run of the tracker never accepts more replies to an identifier than
    it begins probes with it: every probe is answered at most once, whatever
    replies arrive, also early, late or repeated. *)
Theorem probe_reply_once (id : Z) (cs : list PqCall) :
  (accepted id cs ProbeQualityTracker_init <= begun id cs)%nat.
Proof. apply (accepted_le id cs ProbeQualityTracker_init). Qed.
