(* ===== verification/AuthFile.v ===== *)
(** * [server/src/auth_file.h]

    The server's password file: one line of 8 to 256 octets, not all blank,
    followed by nothing but line ends.  [parseAuthPasswordBytes] is given
    non-null out-pointers; it yields the password ([inl]) or the error text
    ([inr]), the password then being cleared. *)

From S2P Require Import Prelude.

Definition is_line_end (b : Z) : bool := (b =? 13) || (b =? 10).
(** [lineEnd] after the first [while]. *)
Fixpoint line_end (b : bytes) : Z :=
  match b with
  | [] => 0
  | x :: b => if is_line_end x then 0 else 1 + line_end b
  end.
Definition is_blank (b : Z) : bool := (b =? 32) || (b =? 9) || (b =? 11) || (b =? 12).

Definition parseAuthPasswordBytes (b : bytes) : bytes + string :=
  if existsb (Z.eqb 0) b then inr "auth file contains NUL"%string else
  let lineEnd := line_end b in
  if negb (forallb is_line_end (drop (Z.to_nat lineEnd) b))
  then inr "auth file contains an extra non-empty line"%string else
  let password := take (Z.to_nat lineEnd) b in
  if forallb is_blank password
  then inr "auth password must not be empty or all whitespace"%string else
  if (len password <? 8) || (256 <? len password)
  then inr "auth password must be 8-256 bytes"%string else
  inl password.

(** [readAuthPasswordFile]: [contents] is the file's bytes, [None] when it
    cannot be opened or a read fails; [path] appears in that error. *)
Definition readAuthPasswordFile (path : string) (contents : option bytes) : bytes + string :=
  match contents with
  | None => inr ("cannot read auth file '" ++ path ++ "'")%string
  | Some b => parseAuthPasswordBytes b
  end.

(** ** Properties *)

Lemma line_end_spec b :
  0 <= line_end b <= len b /\
  Forall (fun x => is_line_end x = false) (take (Z.to_nat (line_end b)) b) /\
  (forall p e, b = p ++ e -> Forall (fun x => is_line_end x = false) p ->
     Forall (fun x => is_line_end x = true) e -> line_end b = len p).
Proof.
  induction b as [|x b (IH1 & IH2 & IH3)].
  { split_and!; [done|done|constructor|]. intros [|y p] e E; [done|]. by destruct e. }
  cbn [line_end]. rewrite len_cons. destruct (is_line_end x) eqn:Ex.
  - split_and!; [lia|pose proof (len_nonneg b); lia|constructor|].
    intros [|y p] e E Hp He; [done|]. injection E as <- ->. apply Forall_cons in Hp as [Hy _]. congruence.
  - split_and!; [lia|lia| |].
    + replace (Z.to_nat (1 + line_end b)) with (S (Z.to_nat (line_end b))) by lia.
      cbn [take]. by constructor.
    + intros [|y p] e E Hp He.
      * cbn in E. subst e. apply Forall_cons in He as [He _]. congruence.
      * injection E as <- ->. apply Forall_cons in Hp as [_ Hp].
        rewrite len_cons, (IH3 p e eq_refl Hp He). done.
Qed.

Lemma forallb_false {A} (f : A -> bool) l :
  forallb f l = false <-> Exists (fun x => f x = false) l.
Proof.
  induction l as [|x l IH]; cbn; [split; [done|by intros H%Exists_nil]|].
  rewrite andb_false_iff, IH, Exists_cons. done.
Qed.

(** the password file.  A password is read exactly when the file is that
    password followed only by line ends, and the password is 8 to 256 octets
    with no line end and no NUL, not all of them blank. *)
Theorem auth_file_exact b password :
  parseAuthPasswordBytes b = inl password <->
  exists ends, b = password ++ ends /\
    Forall (fun x => x = 13 \/ x = 10) ends /\
    Forall (fun x => x <> 13 /\ x <> 10 /\ x <> 0) password /\
    8 <= len password <= 256 /\ Exists (fun x => is_blank x = false) password.
Proof.
  destruct (line_end_spec b) as (H1 & H2 & H3). unfold parseAuthPasswordBytes.
  assert (forall x, is_line_end x = true <-> x = 13 \/ x = 10) as Hle.
  { intros x. unfold is_line_end. rewrite orb_true_iff, !Z.eqb_eq. done. }
  assert (forall x, is_line_end x = false <-> x <> 13 /\ x <> 10) as Hnle.
  { intros x. unfold is_line_end. rewrite orb_false_iff, !Z.eqb_neq. done. }
  split.
  - destruct (existsb (Z.eqb 0) b) eqn:E0; [done|]. cbv zeta.
    destruct (negb (forallb is_line_end _)) eqn:E1; [done|].
    destruct (forallb is_blank _) eqn:E2; [done|]. destruct (_ || _) eqn:E3; [done|].
    intros [= <-]. bools. exists (drop (Z.to_nat (line_end b)) b). split_and!; try lia.
    + by rewrite take_drop.
    + rewrite forallb_forall in E1. apply Forall_forall. intros x Hx%list_elem_of_In.
      by apply Hle, E1.
    + apply Forall_forall. intros x Hx. rewrite Forall_forall in H2.
      destruct (proj1 (Hnle x) (H2 x Hx)) as [Ha Hb]. split_and!; try done. intros ->.
      assert (existsb (Z.eqb 0) b = true) as Ht; [|congruence].
      apply existsb_exists. exists 0. split; [|done]. apply list_elem_of_In.
      eapply sublist_subseteq; [apply sublist_take|exact Hx].
    + by apply forallb_false.
  - intros (ends & Eb & He & Hp & Hl & Hx).
    assert (line_end b = len password) as El.
    { apply (H3 _ ends Eb).
      - eapply Forall_impl; [exact Hp|]. intros x (Ha & Hb & _). by apply Hnle.
      - eapply Forall_impl; [exact He|]. intros x Ha. by apply Hle. }
    rewrite El. clear H1 H2 H3 El. rewrite len_to_nat, Eb, drop_app_length, take_app_length.
    assert (existsb (Z.eqb 0) (password ++ ends) = false) as ->.
    { apply not_true_iff_false. rewrite existsb_exists. intros (x & Hin%list_elem_of_In & E).
      apply Z.eqb_eq in E. subst x. apply elem_of_app in Hin as [Hin|Hin].
      - rewrite Forall_forall in Hp. by destruct (Hp _ Hin) as (_ & _ & ?).
      - rewrite Forall_forall in He. by destruct (He _ Hin). }
    assert (forallb is_line_end ends = true) as ->.
    { apply forallb_forall. intros x Hin%list_elem_of_In. rewrite Forall_forall in He.
      by apply Hle, He. }
    rewrite (proj2 (forallb_false _ _) Hx).
    cbn [negb]. by rewrite !(proj2 (Z.ltb_ge _ _)) by lia.
Qed.

Lemma auth_file_exact_witness :
  parseAuthPasswordBytes [112; 97; 115; 115; 119; 111; 114; 100; 13; 10] =
  inl [112; 97; 115; 115; 119; 111; 114; 100].
Proof.
  apply auth_file_exact. exists [13; 10]. split; [done|]. split_and!; try (by vm_compute).
  - repeat constructor; lia.
  - repeat (constructor; [lia|]). constructor.
  - by constructor.
Defined.
