(* ===== verification/CliOptions.v ===== *)
(** * The command line of the client ([client-cli/src/cli_app.cpp], [main.cpp])

    How a typed line becomes the arguments of a command: words, numbers,
    transport options, the arguments of [create], [join] and [server], and the
    client's reading of a password file.  [strtol] and the extraction operators
    of a stream are modelled as the C++ library defines them, with a [long] of
    64 bits.  A command that is refused with a message is [None]. *)

From S2P Require Import Prelude Protocol AuthFile.

(** ** Words *)

(** [std::isspace] and [std::tolower] in the C locale. *)
Definition isspace (c : Z) : bool := (c =? 32) || ((9 <=? c) && (c <=? 13)).
Definition tolower (c : Z) : Z := if (65 <=? c) && (c <=? 90) then c + 32 else c.
Definition isdigit (c : Z) : bool := (48 <=? c) && (c <=? 57).
Fixpoint drop_while (p : Z -> bool) (s : bytes) : bytes :=
  match s with
  | [] => []
  | c :: s' => if p c then drop_while p s' else s
  end.
Fixpoint take_while (p : Z -> bool) (s : bytes) : bytes :=
  match s with
  | [] => []
  | c :: s' => if p c then c :: take_while p s' else []
  end.
(** A comparison with a literal. *)
Definition is_text (v : bytes) (s : string) : bool := bool_decide (v = bytes_of_string s).

Definition trim_char (c : Z) : bool := (c =? 32) || (c =? 9) || (c =? 13) || (c =? 10).
Definition trim (s : bytes) : bytes := rev (drop_while trim_char (rev (drop_while trim_char s))).
Definition toLowerCopy (s : bytes) : bytes := map tolower s.
(** [std::remove] and [erase] of one character. *)
Definition without (c : Z) (s : bytes) : bytes := List.filter (fun x => negb (x =? c)) s.
(** [iss >> word]: the word, and the rest of the stream. *)
Definition next_word (s : bytes) : bytes * bytes :=
  let t := drop_while isspace s in
  (take_while (fun c => negb (isspace c)) t, drop_while (fun c => negb (isspace c)) t).
(** [while (iss >> token)]. *)
Fixpoint words (fuel : nat) (s : bytes) : list bytes :=
  match fuel with
  | O => []
  | S n => let '(w, rest) := next_word s in if bool_decide (w = []) then [] else w :: words n rest
  end.
Definition tokens (s : bytes) : list bytes := words (S (length s)) s.

(** ** Numbers *)

Definition digits_value (ds : bytes) : Z := fold_left (fun v c => 10 * v + (c - 48)) ds 0.
Definition LONG_MAX : Z := 2 ^ 63 - 1.
Definition LONG_MIN : Z := - 2 ^ 63.
(** [strtol(s.c_str(), &end, 10)]: the value, and what [end] points to; when
    there are no digits, [end] is the start. *)
Definition c_str (s : bytes) : bytes := take_while (fun c => negb (c =? 0)) s.
Definition split_sign (t : bytes) : bool * bytes :=
  match t with
  | c :: t' => if c =? 45 then (true, t') else if c =? 43 then (false, t') else (false, t)
  | [] => (false, [])
  end.
Definition strtol (s : bytes) : Z * bytes :=
  let '(negative, t) := split_sign (drop_while isspace (c_str s)) in
  let ds := take_while isdigit t in
  if bool_decide (ds = []) then (0, c_str s) else
  let v := digits_value ds in
  (Z.max LONG_MIN (Z.min LONG_MAX (if negative then - v else v)), drop_while isdigit t).
Definition parseIntStrict (s : bytes) : option Z :=
  if bool_decide (s = []) then None else
  let '(value, end_) := strtol s in
  if negb (bool_decide (end_ = [])) then None else Some (i32 value).
(** [iss >> number] for a [uint32_t]: the value, whether it succeeded, and the
    rest.  A minus sign negates modulo 2^32; a value out of range is replaced
    by the greatest. *)
Definition UINT32_MAX : Z := 2 ^ 32 - 1.
Definition extract_u32 (s : bytes) : Z * bool * bytes :=
  let '(negative, t) := split_sign (drop_while isspace s) in
  let ds := take_while isdigit t in
  let rest := drop_while isdigit t in
  if bool_decide (ds = []) then (0, false, rest) else
  let v := digits_value ds in
  if UINT32_MAX <? v then (UINT32_MAX, false, rest)
  else (if negative then u32 (- v) else v, true, rest).

(** ** Options of [create] *)

Definition parseTransportModeValue (text : bytes) : option TransportMode :=
  let v := without 45 (without 95 (toLowerCopy text)) in
  if is_text v "raw" || is_text v "rawudp" || is_text v "udp" then Some MODE_RELAY_RAW_UDP else
  if is_text v "kcp" then Some MODE_RELAY_KCP else
  if is_text v "tcp" || is_text v "tcprelay" || is_text v "relaytcp" then Some MODE_RELAY_TCP else
  match parseIntStrict v with
  | Some raw => if isValidTransportModeValue (u8 raw) then Some (TransportMode_cast (u8 raw)) else None
  | None => None
  end.
Definition parseFecModeValue (text : bytes) : option FecMode :=
  let v := without 37 (toLowerCopy text) in
  if is_text v "none" || is_text v "off" || is_text v "false" then Some FEC_NONE else
  match parseIntStrict v with
  | None => None
  | Some raw =>
      if raw =? 0 then Some FEC_NONE else
      if (raw =? 1) || (raw =? 10) then Some FEC_10 else
      if (raw =? 2) || (raw =? 30) then Some FEC_30 else
      if (raw =? 3) || (raw =? 50) then Some FEC_50 else
      if (raw =? 4) || (raw =? 70) then Some FEC_70 else
      if (raw =? 5) || (raw =? 100) then Some FEC_100 else
      if (raw =? 6) || (raw =? 200) then Some FEC_200 else None
  end.
Definition parseKcpProfileValue (text : bytes) : option KcpProfile :=
  let v := toLowerCopy text in
  if is_text v "realtime" || is_text v "rt" || is_text v "latency" then Some KCP_PROFILE_REALTIME else
  if is_text v "bulk" || is_text v "throughput" || is_text v "file" then Some KCP_PROFILE_BULK else
  match parseIntStrict v with
  | Some raw => if isValidKcpProfileValue (u8 raw) then Some (KcpProfile_cast (u8 raw)) else None
  | None => None
  end.

(** What [applyPolicyToken] may change through its pointers. *)
Record CreateOptions := mkOptions {
  co_tcpPolicy : RoomTrafficPolicy;
  co_udpPolicy : RoomTrafficPolicy;
  co_roomMtu : Z;
  co_roomPassword : bytes
}.
Definition option_key (key : bytes) : bytes := without 45 (without 95 (toLowerCopy key)).
Definition is_password_key (k : bytes) : bool :=
  is_text k "password" || is_text k "pass" || is_text k "roompassword".
Definition policy_option (suffix value : bytes) (p : RoomTrafficPolicy) : option RoomTrafficPolicy :=
  if bool_decide (suffix = []) || is_text suffix "mode" || is_text suffix "protocol" || is_text suffix "transport"
  then (fun mode => mkPolicy mode (fecMode p) (kcpProfile p)) <$> parseTransportModeValue value else
  if is_text suffix "fec"
  then (fun fec => mkPolicy (transportMode p) fec (kcpProfile p)) <$> parseFecModeValue value else
  if is_text suffix "profile" || is_text suffix "kcpprofile"
  then (fun profile => mkPolicy (transportMode p) (fecMode p) profile) <$> parseKcpProfileValue value
  else None.
Definition applyPolicyToken (key value : bytes) (o : CreateOptions) : option CreateOptions :=
  let k := option_key key in
  if is_text k "mtu" then
    match parseIntStrict value with
    | Some mtu => if isValidRoomMtuValue mtu
                  then Some (mkOptions (co_tcpPolicy o) (co_udpPolicy o) (normalizeRoomMtu mtu) (co_roomPassword o))
                  else None
    | None => None
    end
  else if is_password_key k then Some (mkOptions (co_tcpPolicy o) (co_udpPolicy o) (co_roomMtu o) value)
  else if is_text (take 3 k) "tcp" then
    (fun p => mkOptions p (co_udpPolicy o) (co_roomMtu o) (co_roomPassword o)) <$>
      policy_option (drop 3 k) value (co_tcpPolicy o)
  else if is_text (take 3 k) "udp" then
    (fun p => mkOptions (co_tcpPolicy o) p (co_roomMtu o) (co_roomPassword o)) <$>
      policy_option (drop 3 k) value (co_udpPolicy o)
  else None.

(** ** [create] *)

Record CreateParse := mkParse {
  cp_maxPlayers : Z;
  cp_options : CreateOptions;
  cp_maxSet : bool;
  cp_passwordSet : bool
}.
Definition CreateParse_init : CreateParse :=
  mkParse 8 (mkOptions makeDefaultTcpPolicy makeDefaultUdpPolicy ROOM_MTU_DEFAULT []) false false.
Definition set_cp_mtu (mtu : Z) (p : CreateParse) : CreateParse :=
  let o := cp_options p in
  mkParse (cp_maxPlayers p) (mkOptions (co_tcpPolicy o) (co_udpPolicy o) mtu (co_roomPassword o))
    (cp_maxSet p) (cp_passwordSet p).
Definition set_cp_password (password : bytes) (p : CreateParse) : CreateParse :=
  let o := cp_options p in
  mkParse (cp_maxPlayers p) (mkOptions (co_tcpPolicy o) (co_udpPolicy o) (co_roomMtu o) password)
    (cp_maxSet p) true.
Definition set_cp_max (n : Z) (p : CreateParse) : CreateParse :=
  mkParse n (cp_options p) true (cp_passwordSet p).
(** The two sides of the first ['=']. *)
Definition split_at_eq (token : bytes) : option (bytes * bytes) :=
  let key := take_while (fun c => negb (c =? 61)) token in
  match drop (length key) token with
  | [] => None
  | _ :: value => Some (key, value)
  end.
(** A word that is a valid MTU. *)
Definition mtu_word (token : bytes) : option Z :=
  match parseIntStrict token with
  | Some n => if isValidRoomMtuValue n then Some (normalizeRoomMtu n) else None
  | None => None
  end.
(** A word without ['=']: the player limit, an MTU or the password. *)
Definition plain_word (token : bytes) (p : CreateParse) : option CreateParse :=
  match (if cp_maxSet p then None else parseIntStrict token) with
  | Some n =>
      if (2 <=? n) && (n <=? MAX_PLAYERS) then Some (set_cp_max n p) else
      if isValidRoomMtuValue n then Some (set_cp_mtu (normalizeRoomMtu n) p) else Some (set_cp_max n p)
  | None =>
      match mtu_word token with
      | Some mtu => Some (set_cp_mtu mtu p)
      | None => if cp_passwordSet p then None else Some (set_cp_password token p)
      end
  end.
Definition option_word (key value : bytes) (p : CreateParse) : option CreateParse :=
  (fun o => mkParse (cp_maxPlayers p) o (cp_maxSet p)
              (cp_passwordSet p || is_password_key (option_key key))) <$>
    applyPolicyToken key value (cp_options p).
Definition create_word (p : option CreateParse) (token : bytes) : option CreateParse :=
  match p with
  | None => None
  | Some p => match split_at_eq token with
              | Some (key, value) => option_word key value p
              | None => plain_word token p
              end
  end.
(** What [doCreateRoom] saves and asks the server for. *)
Record CreateRequest := mkCreateRequest {
  cq_roomName : bytes;
  cq_maxPlayers : Z;
  cq_roomMtu : Z;
  cq_tcpPolicy : RoomTrafficPolicy;
  cq_udpPolicy : RoomTrafficPolicy;
  cq_passwordProtected : bool;
  cq_password : bytes
}.
Definition normalized (p fallback : RoomTrafficPolicy) : RoomTrafficPolicy :=
  normalizeTrafficPolicy (TransportMode_u8 (transportMode p)) (FecMode_u8 (fecMode p))
    (KcpProfile_u8 (kcpProfile p)) fallback.
Definition parse_create (args : bytes) : option CreateRequest :=
  let '(roomName, rest) := next_word args in
  let roomName := if bool_decide (roomName = []) then bytes_of_string "CLIRoom" else roomName in
  match fold_left create_word (tokens rest) (Some CreateParse_init) with
  | None => None
  | Some p =>
      let o := cp_options p in
      if negb (isValidRoomName roomName) then None else
      if (cp_maxPlayers p <? 2) || (MAX_PLAYERS <? cp_maxPlayers p) then None else
      let protected := negb (bool_decide (co_roomPassword o = [])) in
      if protected && negb (isValidRoomPassword (co_roomPassword o)) then None else
      Some (mkCreateRequest roomName (cp_maxPlayers p) (co_roomMtu o)
              (normalized (co_tcpPolicy o) makeDefaultTcpPolicy)
              (normalized (co_udpPolicy o) makeDefaultUdpPolicy) protected (co_roomPassword o))
  end.

(** ** [join], [server] *)

Definition parse_join (args : bytes) : Z * bytes :=
  let '(roomId, ok, rest) := extract_u32 args in
  (roomId, if ok : bool then fst (next_word rest) else []).
(** The text before and after the last [':']. *)
Definition split_at_colon (s : bytes) : option (bytes * bytes) :=
  let port := rev (take_while (fun c => negb (c =? 58)) (rev s)) in
  if len port =? len s then None else Some (take (length s - length port - 1) s, port).
Definition valid_port (n : Z) : bool := (1 <=? n) && (n <=? 65535).
(** [first], [second], [password]: the next three words. *)
Definition parse_server (first second password : bytes) : option (bytes * Z * bytes) :=
  if bool_decide (first = []) then None else
  let r := match parseIntStrict second with
           | Some n => if valid_port n then Some (first, n, password) else None
           | None =>
               match split_at_colon first with
               | None => Some (first, DEFAULT_PORT, second)
               | Some (host, portText) =>
                   match parseIntStrict portText with
                   | Some n => if valid_port n then Some (host, n, second) else None
                   | None => None
                   end
               end
           end in
  match r with
  | Some ([], _, _) => None
  | r => r
  end.

(** ** The options of the process ([main.cpp]) *)

(** [-p PORT]. *)
Definition parse_port_arg (arg : bytes) : option Z :=
  let '(val, end_) := strtol arg in
  if negb (bool_decide (end_ = [])) || (val <? 1) || (65535 <? val) then None else Some (u16 val).
(** [--auth-file PATH]: [contents] is [None] when the file cannot be opened. *)
Definition trimLine : bytes -> bytes := trim.
Definition readPasswordFile (contents : option bytes) : option bytes :=
  match contents with
  | None | Some [] => None
  | Some c =>
      let out := trimLine (take_while (fun x => negb (x =? 10)) c) in
      if bool_decide (out = []) then None else Some out
  end.

(** The settings of [main], and what its options come to: an exit code or a
    run.  [readFile]: the contents of a file that can be opened. *)
Record MainOptions := mkMain {
  mo_serverHost : bytes;
  mo_serverPort : Z;
  mo_playerName : bytes;
  mo_serverPassword : bytes;
  mo_verbose : bool;
  mo_logFile : bytes
}.
Definition MainOptions_init : MainOptions := mkMain (bytes_of_string "127.0.0.1") DEFAULT_PORT [] [] false [].
(** An option and its value. *)
Definition main_value (readFile : bytes -> option bytes) (arg value : bytes) (o : MainOptions) : option (option MainOptions) :=
  let '(mkMain host port name password verbose logFile) := o in
  if is_text arg "-s" then Some (Some (mkMain value port name password verbose logFile)) else
  if is_text arg "-p" then Some ((fun p => mkMain host p name password verbose logFile) <$> parse_port_arg value) else
  if is_text arg "-n" then Some (Some (mkMain host port value password verbose logFile)) else
  if is_text arg "--auth" then Some (Some (mkMain host port name value verbose logFile)) else
  if is_text arg "--auth-file" then
    Some ((fun p => mkMain host port name p verbose logFile) <$> readPasswordFile (readFile value)) else
  if is_text arg "--log-file" then
    Some (if bool_decide (value = []) then None else Some (mkMain host port name password verbose value))
  else None.
(** An option without a value; [inl] is an exit code. *)
Definition main_flag (arg : bytes) (o : MainOptions) : Z + MainOptions :=
  let '(mkMain host port name password verbose logFile) := o in
  if is_text arg "-v" then inr (mkMain host port name password true logFile) else
  if is_text arg "-h" || is_text arg "--help" then inl 0 else inl 1.
Fixpoint main_args (readFile : bytes -> option bytes) (args : list bytes) (o : MainOptions) : Z + MainOptions :=
  match args with
  | [] => inr o
  | arg :: rest =>
      let flag := match main_flag arg o with inr o' => main_args readFile rest o' | inl code => inl code end in
      match rest with
      | [] => flag
      | value :: rest' =>
          match main_value readFile arg value o with
          | Some (Some o') => main_args readFile rest' o'
          | Some None => inl 1
          | None => flag
          end
      end
  end.
(** [main] up to the creation of the application. *)
Definition main_options (readFile : bytes -> option bytes) (args : list bytes) : Z + MainOptions :=
  if existsb (fun a => is_text a "--version") args then inl 0 else main_args readFile args MainOptions_init.

(** ** Standard input *)

(** The whole lines of a text, and what follows the last newline. *)
Fixpoint cut_lines (s : bytes) : list bytes * bytes :=
  match s with
  | [] => ([], [])
  | c :: s =>
      let '(lines, rest) := cut_lines s in
      if c =? 10 then ([] :: lines, rest) else
      match lines with [] => ([], c :: rest) | l :: lines => ((c :: l) :: lines, rest) end
  end.
(** A [read] of the reader thread: the queue and the unfinished line. *)
Definition stdin_read (s : list bytes * bytes) (chunk : bytes) : list bytes * bytes :=
  let '(queue, pending) := s in
  let '(lines, rest) := cut_lines (pending ++ chunk) in (queue ++ map trim lines, rest).
(** [stdinReadLoop] until the end of the input. *)
Definition stdinReadLoop (chunks : list bytes) : list bytes :=
  let '(queue, pending) := fold_left stdin_read chunks ([], []) in
  if bool_decide (trim pending = []) then queue else queue ++ [trim pending].

(** ** Properties *)

Lemma cut_lines_app a b :
  cut_lines (a ++ b) = (fst (cut_lines a) ++ fst (cut_lines (snd (cut_lines a) ++ b)),
                        snd (cut_lines (snd (cut_lines a) ++ b))).
Proof.
  induction a as [|c a IH]; cbn; [by destruct (cut_lines b)|]. rewrite IH.
  destruct (cut_lines a) as [ls p]. cbn [fst snd]. destruct (c =? 10) eqn:Ec; [done|].
  destruct ls as [|l ls]; cbn [fst snd app]; [|done]. cbn [cut_lines].
  destruct (cut_lines (p ++ b)) as [ms q]. cbn [fst snd]. rewrite Ec. by destruct ms.
Qed.
(** How the input is cut into reads does not matter. *)
Lemma stdin_reads chunks queue pending :
  snd (cut_lines pending) = pending -> fst (cut_lines pending) = [] ->
  fold_left stdin_read chunks (queue, pending) =
  (queue ++ map trim (fst (cut_lines (pending ++ concat chunks))), snd (cut_lines (pending ++ concat chunks))).
Proof.
  revert queue pending. induction chunks as [|k ks IH]; intros queue pending Hp Hn; cbn [fold_left concat].
  - by rewrite app_nil_r, Hp, Hn, app_nil_r.
  - unfold stdin_read at 2. destruct (cut_lines (pending ++ k)) as [ls p] eqn:E.
    assert (fst (cut_lines p) = [] /\ snd (cut_lines p) = p) as [Hn' Hp'].
    { pose proof (cut_lines_app (pending ++ k) []) as A. rewrite app_nil_r, E in A. cbn [fst snd] in A.
      rewrite app_nil_r in A. injection A as A1 A2. split; [|by symmetry].
      apply (f_equal length) in A1. rewrite length_app in A1. apply nil_length_inv. lia. }
    rewrite IH by done. rewrite app_assoc, (cut_lines_app (pending ++ k)), E. cbn [fst snd].
    by rewrite map_app, app_assoc.
Qed.
Lemma stdin_chunks chunks : stdinReadLoop chunks = stdinReadLoop [concat chunks].
Proof.
  unfold stdinReadLoop. rewrite !stdin_reads by done. cbn [concat]. by rewrite app_nil_r.
Qed.

Lemma option_some {A B} (f : A -> B) o y : f <$> o = Some y -> exists x, o = Some x /\ y = f x.
Proof. intros (x & -> & Hx)%fmap_Some. by exists x. Qed.
(** Every word keeps a valid MTU. *)
Lemma applyPolicyToken_mtu key value o o' :
  applyPolicyToken key value o = Some o' -> isValidRoomMtuValue (co_roomMtu o) = true ->
  isValidRoomMtuValue (co_roomMtu o') = true.
Proof.
  unfold applyPolicyToken. intros E Ho.
  repeat case_match; simplify_eq; try done; cbn; try apply normalizeRoomMtu_valid;
    by apply option_some in E as (? & _ & ->).
Qed.
Lemma create_word_mtu t p p' :
  create_word (Some p) t = Some p' -> isValidRoomMtuValue (co_roomMtu (cp_options p)) = true ->
  isValidRoomMtuValue (co_roomMtu (cp_options p')) = true.
Proof.
  unfold create_word, option_word, plain_word, mtu_word. intros E Ho.
  destruct (split_at_eq t) as [[key value]|].
  { apply option_some in E as (o & Eo & ->). by eapply applyPolicyToken_mtu. }
  repeat case_match; simplify_eq; try done; cbn; apply normalizeRoomMtu_valid.
Qed.
Lemma create_words_none ts : fold_left create_word ts None = None.
Proof. by induction ts. Qed.
Lemma create_words_mtu ts p p' :
  fold_left create_word ts (Some p) = Some p' -> isValidRoomMtuValue (co_roomMtu (cp_options p)) = true ->
  isValidRoomMtuValue (co_roomMtu (cp_options p')) = true.
Proof.
  revert p. induction ts as [|t ts IH]; intros p E Hp; [by injection E as <-|].
  cbn [fold_left] in E. destruct (create_word (Some p) t) as [q|] eqn:Eq.
  - apply (IH q E). by eapply create_word_mtu.
  - by rewrite create_words_none in E.
Qed.
Record request_ok (r : CreateRequest) : Prop := mkRequestOk {
  ro_name : isValidRoomName (cq_roomName r) = true;
  ro_max : 2 <= cq_maxPlayers r <= MAX_PLAYERS;
  ro_mtu : isValidRoomMtuValue (cq_roomMtu r) = true;
  ro_tcp : policy_wf (cq_tcpPolicy r);
  ro_udp : policy_wf (cq_udpPolicy r);
  ro_protected : cq_passwordProtected r = negb (bool_decide (cq_password r = []));
  ro_password : cq_passwordProtected r = true -> isValidRoomPassword (cq_password r) = true
}.
Lemma parse_create_ok args r : parse_create args = Some r -> request_ok r.
Proof.
  unfold parse_create. destruct (next_word args) as [name rest].
  set (name' := if bool_decide _ then _ else _).
  destruct (fold_left _ _ _) as [p|] eqn:Ep; [|done]. intros E.
  destruct (negb (isValidRoomName name')) eqn:En; [done|]. bools.
  destruct ((_ <? 2) || _) eqn:Em; [done|]. bools.
  destruct (_ && negb (isValidRoomPassword _)) eqn:Epw; [done|].
  injection E as <-. constructor; cbn; try done; [by eapply create_words_mtu|..].
  1,2: apply normalizeTrafficPolicy_wf.
  intros Hp. rewrite Hp in Epw. by apply negb_false_iff in Epw.
Qed.

(** *** Password files

    The server keeps the line as it is, the client strips blanks around it. *)
Lemma drop_while_none p s : Forall (fun c => p c = false) s -> drop_while p s = s.
Proof. intros Hs. destruct Hs as [|c s Hc _]; [done|]. cbn. by rewrite Hc. Qed.
Lemma drop_while_head p s : (forall c, head s = Some c -> p c = false) -> drop_while p s = s.
Proof. destruct s as [|c s]; [done|]. intros Hp. cbn. by rewrite (Hp c). Qed.
Lemma trim_id s :
  (forall c, head s = Some c -> trim_char c = false) -> (forall c, head (rev s) = Some c -> trim_char c = false) ->
  trim s = s.
Proof.
  intros Hf Hl. unfold trim. rewrite (drop_while_head _ s Hf), (drop_while_head _ (rev s) Hl). apply rev_involutive.
Qed.
Lemma take_while_app p s t :
  Forall (fun c => p c = true) s -> (forall c, head t = Some c -> p c = false) -> take_while p (s ++ t) = s.
Proof.
  intros Hs Ht. induction Hs as [|c s Hc _ IH]; cbn; [|by rewrite Hc, IH].
  destruct t as [|c t]; [done|]. cbn. by rewrite (Ht c eq_refl).
Qed.
Lemma drop_while_app p s t : Forall (fun c => p c = true) s -> drop_while p (s ++ t) = drop_while p t.
Proof. induction 1 as [|c s Hc _ IH]; [done|]. cbn. by rewrite Hc. Qed.
Lemma drop_while_nil p s : drop_while p s = [] -> Forall (fun c => p c = true) s.
Proof.
  induction s as [|c s IH]; [done|]. cbn. destruct (p c) eqn:E; [|done]. intros Hs. constructor; auto.
Qed.
Lemma drop_while_split p s : exists s1, s = s1 ++ drop_while p s /\ Forall (fun c => p c = true) s1.
Proof.
  induction s as [|c s (s1 & E & Hs)]; [by exists []|]. cbn. destruct (p c) eqn:Ec.
  - exists (c :: s1). cbn. split; [by f_equal|by constructor].
  - by exists [].
Qed.
(** Octets stripped at the end do not matter. *)
Lemma trim_app_end s t : Forall (fun c => trim_char c = true) t -> trim (s ++ t) = trim s.
Proof.
  intros Ht. unfold trim. destruct (drop_while_split trim_char s) as (s1 & E & Hs1).
  destruct (drop_while trim_char s) as [|c u] eqn:Eu.
  - rewrite app_nil_r in E. subst s1. rewrite drop_while_app by done. rewrite <- (app_nil_r t) at 1.
    by rewrite drop_while_app.
  - assert (trim_char c = false) as Hc.
    { clear -Eu. revert c u Eu. induction s as [|d s IH]; intros c u Eu; [done|]. cbn in Eu.
      destruct (trim_char d) eqn:Ed; [by eapply IH|]. by injection Eu as -> ->. }
    rewrite E, <- app_assoc, drop_while_app by done. cbn. rewrite Hc. f_equal.
    rewrite app_comm_cons, rev_app_distr. apply drop_while_app. by apply Forall_rev.
Qed.
Lemma take_while_pass p s t : Forall (fun c => p c = true) s -> take_while p (s ++ t) = s ++ take_while p t.
Proof. induction 1 as [|c s Hc _ IH]; [done|]. cbn. by rewrite Hc, IH. Qed.
Lemma take_while_sub p (P : Z -> Prop) s : Forall P s -> Forall P (take_while p s).
Proof. induction 1 as [|c s Hc _ IH]; [constructor|]. cbn. destruct (p c); by constructor. Qed.
Lemma drop_while_length p s : (length (drop_while p s) <= length s)%nat.
Proof. induction s as [|c s IH]; [done|]. cbn. destruct (p c); cbn; lia. Qed.
Lemma drop_while_strict p s c : head s = Some c -> p c = true -> (length (drop_while p s) < length s)%nat.
Proof.
  destruct s as [|d s]; [done|]. intros [= ->] Hc. cbn. rewrite Hc. pose proof (drop_while_length p s). lia.
Qed.
Lemma head_rev (s : bytes) : head (rev s) = last s.
Proof. induction s as [|c s _] using rev_ind; [done|]. by rewrite rev_app_distr, last_snoc. Qed.
Lemma trim_nil s : trim s = [] -> Forall (fun c => trim_char c = true) s.
Proof.
  unfold trim. intros E. destruct (drop_while_split trim_char s) as (s1 & Es & Hs1). rewrite Es.
  apply Forall_app. split; [done|]. apply (f_equal (@rev Z)) in E. rewrite rev_involutive in E.
  apply drop_while_nil in E. apply Forall_rev in E. by rewrite rev_involutive in E.
Qed.
(** Nothing to strip exactly when neither end is a blank. *)
Lemma trim_fixed s :
  trim s = s <-> forall c, head s = Some c \/ last s = Some c -> trim_char c = false.
Proof.
  split.
  - intros E c [Hc|Hc]; apply not_true_iff_false; intros Ht; apply (f_equal length) in E; unfold trim in E;
      rewrite length_rev in E.
    + pose proof (drop_while_strict trim_char s c Hc Ht).
      pose proof (drop_while_length trim_char (rev (drop_while trim_char s))). rewrite length_rev in *. lia.
    + destruct (drop_while_split trim_char s) as (s1 & Es & _).
      destruct (drop_while trim_char s) as [|d u] eqn:Eu.
      { rewrite app_nil_r in Es. subst s1. by destruct s. }
      rewrite Es, last_app_cons in Hc. rewrite <- head_rev in Hc.
      pose proof (drop_while_strict trim_char _ c Hc Ht). pose proof (drop_while_length trim_char s).
      rewrite Eu in *. rewrite length_rev in *. lia.
  - intros Hends. apply trim_id; intros c Hc; apply Hends; [by left|right]. by rewrite <- head_rev.
Qed.

(** A password file that the server accepts as the password [p] gives the
    client [p] without the spaces and tabs around it, so the two agree exactly
    when [p] neither begins nor ends with one. *)
Theorem password_file_stripped (contents p : bytes) :
  parseAuthPasswordBytes contents = inl p ->
  readPasswordFile (Some contents) = Some (trim p) /\
  (trim p = p <-> forall c, head p = Some c \/ last p = Some c -> trim_char c = false).
Proof.
  intros (ends & -> & Hends & Hp & Hlen & Hblank)%auth_file_exact. split; [|apply trim_fixed].
  assert (trim p <> []) as Hne.
  { intros E. apply trim_nil in E. rewrite Exists_exists in Hblank. destruct Hblank as (x & Hin & Hx).
    rewrite Forall_forall in E, Hp. specialize (E x Hin). specialize (Hp x Hin).
    unfold trim_char, is_blank in *. lia. }
  unfold readPasswordFile. destruct (p ++ ends) as [|c l] eqn:El.
  { destruct p; [by rewrite len_nil in Hlen|done]. }
  rewrite <- El. rewrite take_while_pass.
  2:{ eapply Forall_impl; [exact Hp|]. cbn. intros x (Hx & Hx' & _). lia. }
  unfold trimLine. rewrite trim_app_end.
  - by rewrite bool_decide_false.
  - apply take_while_sub. eapply Forall_impl; [exact Hends|]. intros x [->| ->]; done.
Qed.
(** The server's password [" secret-1"] is not the client's ["secret-1"]. *)
Lemma password_file_stripped_witness :
  readPasswordFile (Some (bytes_of_string " secret-1" ++ [10])) = Some (bytes_of_string "secret-1") /\
  ~ (trim (bytes_of_string " secret-1") = bytes_of_string " secret-1").
Proof.
  destruct (password_file_stripped (bytes_of_string " secret-1" ++ [10]) (bytes_of_string " secret-1"))
    as [E Hiff]; [by vm_compute|]. split; [exact E|]. by vm_compute.
Defined.
