(* ===== verification/TunJob.v ===== *)
(** * [client-cli/src/cli_tun_lifecycle.h]: [class CliTunLifecycleJob]

    Preparing the virtual adapter takes native calls that may be slow, so a
    worker thread makes them, tells the main thread how far it is by events,
    keeps the adapter while the room lasts and removes it when it is told to
    stop.  [run] is a machine with one step for each native call and for each
    access to what the threads share; the main thread's operations interleave
    with these steps freely.  The outcome of a native call is an argument. *)

From S2P Require Import Prelude.

(** ** [struct RoomTaskControl] of [common/room_operation.h] *)

Record RoomTaskControl := mkControl {
  rc_cancelRequested : bool;
  rc_deadlineMs : Z;
  rc_operationId : Z;
  rc_connectionGeneration : Z
}.
Definition RoomTaskControl_init (id connection deadline : Z) : RoomTaskControl :=
  mkControl false deadline id connection.
Definition rc_expired (now : Z) (c : RoomTaskControl) : bool :=
  negb (rc_deadlineMs c =? 0) && (rc_deadlineMs c <=? now).
Definition rc_allowed (now : Z) (c : RoomTaskControl) : bool :=
  negb (rc_cancelRequested c) && negb (rc_expired now c).
Definition rc_remainingMs (now cap : Z) (c : RoomTaskControl) : Z :=
  if rc_cancelRequested c then 0 else
  if rc_deadlineMs c =? 0 then cap else
  if rc_deadlineMs c <=? now then 0 else Z.min cap (rc_deadlineMs c - now).

(** ** State *)

Inductive EventKind := TunProgress | TunReady | TunFailed | TunCleaned.
#[export] Instance EventKind_eq_dec : EqDecision EventKind.
Proof. solve_decision. Defined.
(** [te_adapter]: whether the pointer is set. *)
Record CliTunLifecycleEvent := mkTunEvent {
  te_kind : EventKind;
  te_generation : Z;
  te_at : Z;
  te_stage : string;
  te_error : bytes;
  te_adapter : bool
}.

(** The native calls of the first three stages. *)
Inductive JobCall := CallInitialize | CallConfigure | CallStart.
#[export] Instance JobCall_eq_dec : EqDecision JobCall.
Proof. solve_decision. Defined.
Definition job_stage (c : JobCall) : string :=
  match c with
  | CallInitialize => "prepare-adapter"
  | CallConfigure => "configure-network"
  | CallStart => "start-session"
  end.
(** What [pollReadiness] said last. *)
Inductive Readiness := NotYet | NetworkReady | NetworkFailed (error : bytes).
#[export] Instance Readiness_eq_dec : EqDecision Readiness.
Proof. solve_decision. Defined.

(** Where [run] is.  [JFail]: about to look at [m_cancel] and report; the
    detail is [backend->error()] when it is [None].  Waiting on [m_wake] is
    testing the predicate ([JHold]), having found it false ([JTested]) and
    being blocked ([JBlocked]). *)
Inductive JobPc :=
| JNone | JFactory
| JCall (c : JobCall) | JCheck (c : JobCall) (ok : bool)
| JBeginReadiness | JLoop (start : Z) | JPoll (start : Z) | JSleep (start : Z)
| JAfter (start : Z) (r : Readiness)
| JHold | JTested | JBlocked
| JFail (stage : string) (detail : option bytes)
| JClean | JFinish | JDone | JEnd.
#[export] Instance JobPc_eq_dec : EqDecision JobPc.
Proof. solve_decision. Defined.

Record CliTunLifecycleJob := mkJob {
  tj_generation : Z;
  tj_ip : Z;
  tj_mtu : Z;
  tj_control : option RoomTaskControl;
  tj_cancel : bool;
  tj_done : bool;
  tj_events : list CliTunLifecycleEvent;
  tj_pc : JobPc
}.
Definition set_tj_pc (v : JobPc) (j : CliTunLifecycleJob) : CliTunLifecycleJob :=
  mkJob (tj_generation j) (tj_ip j) (tj_mtu j) (tj_control j) (tj_cancel j) (tj_done j) (tj_events j) v.
Definition set_tj_events (v : list CliTunLifecycleEvent) (j : CliTunLifecycleJob) : CliTunLifecycleJob :=
  mkJob (tj_generation j) (tj_ip j) (tj_mtu j) (tj_control j) (tj_cancel j) (tj_done j) v (tj_pc j).
Definition set_tj_done (v : bool) (j : CliTunLifecycleJob) : CliTunLifecycleJob :=
  mkJob (tj_generation j) (tj_ip j) (tj_mtu j) (tj_control j) (tj_cancel j) v (tj_events j) (tj_pc j).
Definition CliTunLifecycleJob_init (generation ip mtu : Z) (control : option RoomTaskControl) : CliTunLifecycleJob :=
  mkJob generation ip mtu control false false [] JNone.

(** ** The main thread *)

Definition push_event (kind : EventKind) (at_ : Z) (stage : string) (error : bytes) (adapter : bool)
    (j : CliTunLifecycleJob) : CliTunLifecycleJob :=
  set_tj_events (tj_events j ++ [mkTunEvent kind (tj_generation j) at_ stage error adapter]) j.
Definition job_progress (now : Z) (stage : string) : CliTunLifecycleJob -> CliTunLifecycleJob :=
  push_event TunProgress now stage [] false.
Definition job_fail (now : Z) (stage : string) (detail : bytes) : CliTunLifecycleJob -> CliTunLifecycleJob :=
  push_event TunFailed now stage
    (if bool_decide (detail = []) then bytes_of_string (stage ++ " failed")%string else detail) false.
(** [start]; [thrown] is the text of the exception when no thread could be made. *)
Definition job_start (now : Z) (thrown : option bytes) (j : CliTunLifecycleJob) : CliTunLifecycleJob :=
  match thrown with
  | None => set_tj_pc JFactory j
  | Some text =>
      set_tj_pc JEnd (set_tj_done true (push_event TunCleaned now "idle" [] false (job_fail now "worker-start" text j)))
  end.
(** [cancel]: [notify_all] wakes a blocked worker; it is called without the lock. *)
Definition job_cancel (j : CliTunLifecycleJob) : CliTunLifecycleJob :=
  mkJob (tj_generation j) (tj_ip j) (tj_mtu j)
    ((fun c => mkControl true (rc_deadlineMs c) (rc_operationId c) (rc_connectionGeneration c)) <$> tj_control j)
    true (tj_done j) (tj_events j) (match tj_pc j with JBlocked => JHold | pc => pc end).
(** [events]: everything queued, and the job without it. *)
Definition job_popAll (j : CliTunLifecycleJob) : list CliTunLifecycleEvent * CliTunLifecycleJob :=
  (tj_events j, set_tj_events [] j).

(** ** The worker *)

Definition job_allowed (now : Z) (j : CliTunLifecycleJob) : bool :=
  negb (tj_cancel j) && match tj_control j with None => true | Some c => rc_allowed now c end.
(** What a native call, or [pollReadiness], came to. *)
Inductive NativeResult :=
| NativeOk | NativePending | NativeFailed (error : bytes) | NativeThrew (what : bytes).
Definition native_text (r : NativeResult) : bytes :=
  match r with NativeFailed e | NativeThrew e => e | _ => [] end.
Definition READINESS_LIMIT_MS : Z := 10000.
(** The stage after a call that succeeded. *)
Definition after_call (now : Z) (c : JobCall) (j : CliTunLifecycleJob) : CliTunLifecycleJob :=
  match c with
  | CallInitialize => set_tj_pc (JCall CallConfigure) (job_progress now "configure-network" j)
  | CallConfigure => set_tj_pc (JCall CallStart) (job_progress now "start-session" j)
  | CallStart => set_tj_pc JBeginReadiness (job_progress now "waiting-readiness" j)
  end.
Definition job_threw (now : Z) (what : bytes) (j : CliTunLifecycleJob) : CliTunLifecycleJob :=
  set_tj_pc JClean (job_fail now "exception" what j).
Definition job_run (now : Z) (r : NativeResult) (j : CliTunLifecycleJob) : CliTunLifecycleJob :=
  let may_throw k := match r with NativeThrew what => job_threw now what j | _ => k end in
  match tj_pc j with
  | JNone | JEnd | JBlocked => j
  | JFactory => may_throw (
      let backend := match r with NativeOk => true | _ => false end in
      if job_allowed now j && backend
      then set_tj_pc (JCall CallInitialize) (job_progress now "prepare-adapter" j)
      else set_tj_pc (JFail "prepare-adapter"
             (if backend then None else Some (bytes_of_string "setup cancelled or expired"))) j)
  | JCall c => may_throw (set_tj_pc (JCheck c match r with NativeOk => true | _ => false end) j)
  | JCheck c ok =>
      if negb ok || negb (job_allowed now j) then set_tj_pc (JFail (job_stage c) None) j else after_call now c j
  | JBeginReadiness => may_throw (set_tj_pc (JLoop now) j)
  | JLoop start => set_tj_pc (if job_allowed now j then JPoll start else JAfter start NotYet) j
  | JPoll start =>
      match r with
      | NativeThrew what => job_threw now what j
      | NativePending => set_tj_pc (if READINESS_LIMIT_MS <=? u64 (now - start) then JAfter start NotYet else JSleep start) j
      | NativeOk => set_tj_pc (JAfter start NetworkReady) j
      | NativeFailed e => set_tj_pc (JAfter start (NetworkFailed e)) j
      end
  | JSleep start => set_tj_pc (JLoop start) j
  | JAfter start res =>
      match res with
      | NetworkReady =>
          if job_allowed now j && (u64 (now - start) <? READINESS_LIMIT_MS)
          then set_tj_pc JHold (push_event TunReady now "ready" [] true (job_progress now "in-room" j))
          else set_tj_pc (JFail "waiting-readiness" (Some (bytes_of_string "Virtual network initialization timed out"))) j
      | NotYet =>
          set_tj_pc (JFail "waiting-readiness" (Some (bytes_of_string "Virtual network initialization timed out"))) j
      | NetworkFailed e =>
          set_tj_pc (JFail "waiting-readiness"
            (Some (if bool_decide (e = []) then bytes_of_string "Virtual network initialization timed out" else e))) j
      end
  | JHold => set_tj_pc (if tj_cancel j then JClean else JTested) j
  | JTested => set_tj_pc JBlocked j
  | JFail stage detail =>
      set_tj_pc JClean (if tj_cancel j then j
                        else job_fail now stage (match detail with Some d => d | None => native_text r end) j)
  | JClean => set_tj_pc JFinish (job_progress now "cleaning-up" j)
  | JFinish => set_tj_pc JDone (push_event TunCleaned now "idle" [] false j)
  | JDone => set_tj_pc JEnd (set_tj_done true j)
  end.

(** ** Interleavings *)

(** [JobWake]: the condition variable wakes without a notification. *)
Inductive JobStep :=
| JobRun (now : Z) (r : NativeResult) | JobWake | JobCancel | JobPoll.
(** A step, on the job and the events the main thread has taken. *)
Definition job_step (s : list CliTunLifecycleEvent * CliTunLifecycleJob) (e : JobStep)
    : list CliTunLifecycleEvent * CliTunLifecycleJob :=
  let '(taken, j) := s in
  match e with
  | JobRun now r => (taken, job_run now r j)
  | JobWake => (taken, match tj_pc j with JBlocked => set_tj_pc JHold j | _ => j end)
  | JobCancel => (taken, job_cancel j)
  | JobPoll => (taken ++ fst (job_popAll j), snd (job_popAll j))
  end.
Definition job_life (now : Z) (thrown : option bytes) (j : CliTunLifecycleJob) (steps : list JobStep)
    : list CliTunLifecycleEvent * CliTunLifecycleJob :=
  fold_left job_step steps ([], job_start now thrown j).

(** ** Properties *)

Definition all_progress (T : list CliTunLifecycleEvent) : Prop := Forall (fun e => te_kind e = TunProgress) T.
(** The outcome, if any, among progress: none or an adapter only after a cancel. *)
Definition settled (cancelled : bool) (T : list CliTunLifecycleEvent) : Prop :=
  exists P F Q, T = P ++ F ++ Q /\ all_progress P /\ all_progress Q /\
    ((F = [] /\ cancelled = true) \/ (exists e, F = [e] /\ te_kind e = TunFailed) \/
     (exists e, F = [e] /\ te_kind e = TunReady /\ cancelled = true)).
Definition holding (pc : JobPc) : bool :=
  match pc with JHold | JTested | JBlocked => true | _ => false end.
(** What has been announced, at each point of [run]. *)
Definition announced (j : CliTunLifecycleJob) (T : list CliTunLifecycleEvent) : Prop :=
  match tj_pc j with
  | JNone => False
  | JHold | JTested | JBlocked =>
      tj_done j = false /\ exists P e, T = P ++ [e] /\ all_progress P /\ te_kind e = TunReady
  | JClean | JFinish => tj_done j = false /\ settled (tj_cancel j) T
  | JDone | JEnd => exists T' e, T = T' ++ [e] /\ settled (tj_cancel j) T' /\ te_kind e = TunCleaned
  | _ => tj_done j = false /\ all_progress T
  end.

Lemma all_progress_snoc T e : all_progress T -> te_kind e = TunProgress -> all_progress (T ++ [e]).
Proof. intros HT He. apply Forall_app. split; [done|]. by constructor. Qed.
Lemma settled_snoc c T e : settled c T -> te_kind e = TunProgress -> settled c (T ++ [e]).
Proof.
  intros (P & F & Q & -> & HP & HQ & HF) He. exists P, F, (Q ++ [e]).
  rewrite <- !app_assoc. split_and!; [done|done|by apply all_progress_snoc|done].
Qed.
Lemma settled_cancel c T : settled c T -> settled true T.
Proof.
  intros (P & F & Q & E & HP & HQ & HF). exists P, F, Q. split_and!; [done..|].
  destruct HF as [[? _]|[?|(e & ? & ? & _)]]; [by left; split|by right; left|right; right; by exists e].
Qed.
Lemma settled_failed c T e : all_progress T -> te_kind e = TunFailed -> settled c (T ++ [e]).
Proof.
  intros HT He. exists T, [e], []. rewrite app_nil_r. split_and!; [done|done|constructor|]. right. left. by exists e.
Qed.
#[local] Hint Resolve all_progress_snoc settled_snoc settled_cancel settled_failed : vlan.
Lemma announced_threw now what j T :
  tj_done j = false -> all_progress (T ++ tj_events j) ->
  announced (job_threw now what j) (T ++ tj_events (job_threw now what j)).
Proof. intros Hd HT. cbn. split; [done|]. rewrite app_assoc. auto with vlan. Qed.
Lemma settled_held T : (exists P e, T = P ++ [e] /\ all_progress P /\ te_kind e = TunReady) -> settled true T.
Proof.
  intros (P & e & -> & HP & He). exists P, [e], []. split_and!; [done|done|constructor|].
  right. right. by exists e.
Qed.
Lemma settled_quiet T : all_progress T -> settled true T.
Proof. intros HT. exists T, [], []. rewrite !app_nil_r. split_and!; [done|done|constructor|by left]. Qed.
#[local] Hint Resolve settled_held settled_quiet : vlan.
Lemma announced_run now r j T :
  announced j (T ++ tj_events j) -> announced (job_run now r j) (T ++ tj_events (job_run now r j)).
Proof.
  unfold announced at 1, job_run. destruct (tj_pc j) eqn:Epc; intros Ha.
  all: try (by unfold announced; rewrite Epc).
  (* the calls that may throw *)
  all: try (destruct r as [| |e|e]; try (destruct Ha; by apply announced_threw)).
  all: repeat match goal with
       | c : JobCall |- _ => destruct c
       | |- context [if ?b then _ else _] => destruct b eqn:?
       | r : Readiness |- _ => destruct r
       end.
  all: unfold announced; cbn; rewrite ?app_assoc; try done.
  all: try (destruct Ha as [Hd Ha]; split; [done|]; repeat match goal with H : tj_cancel _ = _ |- _ => rewrite H end;
    eauto 10 with vlan; fail).
  all: try (destruct Ha as [Hd Ha]; eexists _, _; split_and!; [reflexivity|done|done]; fail).
  all: destruct Ha as [Hd Ha]; split; [done|]; eexists _, _; split_and!; [reflexivity|by apply all_progress_snoc|done].
Qed.
Lemma announced_step s e :
  announced (snd s) (fst s ++ tj_events (snd s)) ->
  announced (snd (job_step s e)) (fst (job_step s e) ++ tj_events (snd (job_step s e))).
Proof.
  destruct s as [T j]. destruct e; cbn.
  - apply announced_run.
  - unfold announced at 1. destruct (tj_pc j) eqn:Epc; intros Ha; unfold announced; cbn; rewrite ?Epc; done.
  - unfold announced at 1. destruct (tj_pc j) eqn:Epc; intros Ha; unfold announced; cbn; rewrite ?Epc; try done.
    1,2: destruct Ha; split; eauto with vlan.
    all: destruct Ha as (T' & e & ? & ? & ?); exists T', e; eauto with vlan.
  - unfold announced. cbn. by rewrite app_nil_r.
Qed.
(** What the main thread took, and what is still queued. *)
Definition told (s : list CliTunLifecycleEvent * CliTunLifecycleJob) : list CliTunLifecycleEvent :=
  fst s ++ tj_events (snd s).
Lemma announced_steps steps s :
  announced (snd s) (told s) -> announced (snd (fold_left job_step steps s)) (told (fold_left job_step steps s)).
Proof. revert s. induction steps as [|e steps IH]; intros s Hs; [done|]. apply IH. by apply announced_step. Qed.
Lemma announced_life now thrown g ip mtu control steps :
  let s := job_life now thrown (CliTunLifecycleJob_init g ip mtu control) steps in announced (snd s) (told s).
Proof.
  apply announced_steps. destruct thrown as [text|]; cbn; [|split; [done|constructor]].
  eexists [_], _. split_and!; [reflexivity| |done]. apply (settled_failed _ []); [constructor|done].
Qed.

Definition outcome (e : CliTunLifecycleEvent) : bool :=
  match te_kind e with TunReady | TunFailed => true | _ => false end.
Lemma progress_no_outcome T : all_progress T -> List.filter outcome T = [].
Proof. induction 1 as [|e T He _ IH]; [done|]. cbn. unfold outcome. by rewrite He. Qed.
Lemma settled_outcomes c T :
  settled c T -> (length (List.filter outcome T) <= 1)%nat /\
    Forall (fun e => te_kind e <> TunCleaned) T /\ (c = false -> Forall (fun e => te_kind e <> TunReady) T).
Proof.
  intros (P & F & Q & -> & HP & HQ & HF). rewrite !List.filter_app, (progress_no_outcome P HP), (progress_no_outcome Q HQ), app_nil_r.
  assert (forall k T', k <> TunProgress -> all_progress T' -> Forall (fun e => te_kind e <> k) T') as Hk.
  { intros k T' Hk HT. eapply Forall_impl; [exact HT|]. intros e -> E. by apply Hk. }
  split_and!.
  - destruct HF as [[-> _]|[(e & -> & He)|(e & -> & He & _)]]; cbn; [lia|..]; unfold outcome; rewrite He; cbn; lia.
  - rewrite !Forall_app. split_and!; [by apply Hk| |by apply Hk].
    destruct HF as [[-> _]|[(e & -> & He)|(e & -> & He & _)]]; [constructor|..]; (constructor; [by rewrite He|constructor]).
  - intros ->. rewrite !Forall_app. split_and!; [by apply Hk| |by apply Hk].
    destruct HF as [[-> _]|[(e & -> & He)|(e & -> & He & [=])]]; [constructor|].
    constructor; [by rewrite He|constructor].
Qed.

(** the adapter on loan.  In every interleaving of the worker, its native
    calls with any outcomes, and the main thread: at most one outcome is
    announced, ready or failed; once the adapter is announced, the worker
    leaves it alone until the main thread cancels; and a finished job has
    announced the end of its clean-up, once and last. *)
Theorem adapter_on_loan now thrown g ip mtu control (steps : list JobStep) :
  let s := job_life now thrown (CliTunLifecycleJob_init g ip mtu control) steps in
  let j := snd s in
  (length (List.filter outcome (told s)) <= 1)%nat /\
  (Exists (fun e => te_kind e = TunReady) (told s) -> tj_cancel j = false -> holding (tj_pc j) = true) /\
  (Exists (fun e => te_kind e = TunCleaned) (told s) <-> tj_pc j = JDone \/ tj_pc j = JEnd) /\
  (tj_done j = true -> exists T e, told s = T ++ [e] /\ te_kind e = TunCleaned /\
     Forall (fun e => te_kind e <> TunCleaned) T).
Proof.
  cbv zeta. pose proof (announced_life now thrown g ip mtu control steps) as Ha. cbv zeta in Ha.
  set (s := job_life _ _ _ _) in *. clearbody s. set (T := told s) in *. clearbody T. set (j := snd s) in *. clearbody j.
  assert (forall T k, Forall (fun e => te_kind e <> k) T -> ~ Exists (fun e => te_kind e = k) T) as Hno.
  { intros T' k HT He. rewrite Forall_forall in HT. apply Exists_exists in He as (e & Hin & He). by apply (HT e). }
  assert (forall T, all_progress T -> settled true T) as Hq by auto with vlan.
  assert ((exists c, settled c T /\ (c = true -> all_progress T \/ holding (tj_pc j) = true \/ tj_cancel j = true) /\
             tj_pc j <> JDone /\ tj_pc j <> JEnd /\ tj_done j = false) \/
          ((tj_pc j = JDone \/ tj_pc j = JEnd) /\
            exists T' e, T = T' ++ [e] /\ settled (tj_cancel j) T' /\ te_kind e = TunCleaned)) as [Hs|Hs].
  { unfold announced in Ha. destruct (tj_pc j) eqn:Epc; try done.
    all: try (left; exists true; destruct Ha as [Hd Ha]; split_and!; [by apply Hq|by left|done..]; fail).
    all: try (left; exists true; destruct Ha as [Hd Ha]; split_and!; [by apply settled_held|right; by left|done..]; fail).
    all: try (right; split; [by auto|done]; fail).
    all: left; exists (tj_cancel j); destruct Ha as [Hd Ha]; split_and!; [done| |done..]; intros ->; by right; right. }
  - destruct Hs as (c & Hs & Hc & H1 & H2 & Hd). destruct (settled_outcomes c T Hs) as (Ho & Hcl & Hr).
    split_and!; [done| | |by rewrite Hd].
    + intros He Hcan. destruct c; [|by destruct (Hno _ _ (Hr eq_refl) He)].
      destruct (Hc eq_refl) as [Hp|[Hh|Hh]]; [|done|congruence].
      destruct (Hno T TunReady); [|done]. eapply Forall_impl; [exact Hp|]. by intros e ->.
    + split; [|intros [?|?]; done]. intros He. by destruct (Hno _ _ Hcl He).
  - destruct Hs as (Hpc & T' & e & -> & Hs & He). destruct (settled_outcomes _ T' Hs) as (Ho & Hcl & Hr).
    split_and!.
    + rewrite List.filter_app. cbn. unfold outcome at 2. rewrite He. by rewrite app_nil_r.
    + intros Hx Hcan. rewrite Exists_app in Hx. destruct Hx as [Hx|Hx]; [by destruct (Hno _ _ (Hr Hcan) Hx)|].
      apply Exists_cons in Hx as [Hx|Hx]; [congruence|by apply Exists_nil in Hx].
    + split; [done|]. intros _. apply Exists_app. right. by constructor.
    + intros _. by exists T', e.
Qed.

(** *** Stopping *)

Definition work (run : list (Z * NativeResult)) (j : CliTunLifecycleJob) : CliTunLifecycleJob :=
  fold_left (fun j step => job_run (fst step) (snd step) j) run j.
(** Steps left once a cancel is seen. *)
Definition steps_left (pc : JobPc) : nat :=
  match pc with
  | JEnd => 0 | JDone => 1 | JFinish => 2 | JClean => 3 | JFail _ _ | JHold => 4
  | JAfter _ _ | JCheck _ _ | JFactory => 5 | JLoop _ | JCall _ => 6 | JSleep _ => 7 | JPoll _ => 8
  | JBeginReadiness => 9 | JNone | JTested | JBlocked => 10
  end.
Definition stopping (j : CliTunLifecycleJob) : Prop :=
  tj_cancel j = true /\ (tj_pc j = JEnd -> tj_done j = true) /\ (steps_left (tj_pc j) <= 9)%nat.
Lemma stopping_run now r j :
  stopping j -> stopping (job_run now r j) /\
    (steps_left (tj_pc (job_run now r j)) <= Nat.pred (steps_left (tj_pc j)))%nat.
Proof.
  intros (Hc & He & Hl). assert (job_allowed now j = false) as Ha by (unfold job_allowed; by rewrite Hc).
  unfold job_run. destruct (tj_pc j) eqn:Epc; try (cbn in Hl; lia).
  all: rewrite ?Ha; try rewrite Hc; try destruct c; try destruct r as [| |e|e]; repeat case_match;
    unfold stopping; cbn -[bytes_of_string]; rewrite ?Epc, ?Hc; cbn -[bytes_of_string];
    split_and!; try done; try lia; auto.
Qed.
Lemma done_at_end now thrown g ip mtu control steps :
  let j := snd (job_life now thrown (CliTunLifecycleJob_init g ip mtu control) steps) in
  tj_pc j = JEnd -> tj_done j = true.
Proof.
  cbv zeta. unfold job_life.
  assert (forall s, (tj_pc (snd s) = JEnd -> tj_done (snd s) = true) ->
            tj_pc (snd (fold_left job_step steps s)) = JEnd -> tj_done (snd (fold_left job_step steps s)) = true) as Hs.
  { induction steps as [|e steps IH]; [done|]. intros [T j] Hj. apply IH. cbn in Hj. destruct e; cbn; try done.
    - unfold job_run, after_call, job_threw. destruct (tj_pc j) eqn:Epc; repeat case_match; cbn; rewrite ?Epc; auto; done.
    - destruct (tj_pc j) eqn:Epc; cbn; rewrite ?Epc; auto; done.
    - destruct (tj_pc j) eqn:Epc; cbn; rewrite ?Epc; auto; done. }
  apply Hs. by destruct thrown.
Qed.

(** a job that is told to stop ends.  Wherever a reachable job is when it
    is cancelled, but for one place, nine more steps of its worker finish it,
    whatever the native calls answer.  The place is inside the wait of an
    adapter in use: the worker has seen that nothing was requested and is about
    to block.  [cancel] sets the flag and notifies without the lock, so the
    worker then sleeps through the notification, and the job is never done. *)
Theorem job_stops now thrown g ip mtu control (steps : list JobStep) (run : list (Z * NativeResult)) :
  let j := snd (job_life now thrown (CliTunLifecycleJob_init g ip mtu control) steps) in
  (tj_pc j <> JTested -> 9 <= length run -> tj_done (work run (job_cancel j)) = true)%nat /\
  (tj_pc j = JTested -> tj_done (work run (job_cancel j)) = false).
Proof.
  cbv zeta. pose proof (announced_life now thrown g ip mtu control steps) as Ha.
  pose proof (done_at_end now thrown g ip mtu control steps) as Hend. cbv zeta in Ha, Hend.
  set (s := job_life _ _ _ _) in *. clearbody s. set (T := told s) in *. clearbody T. set (j := snd s) in *. clearbody j.
  split.
  - intros Hpc Hlen. assert (stopping (job_cancel j)) as Hs.
    { unfold announced in Ha. unfold stopping, job_cancel. cbn. split; [done|].
      destruct (tj_pc j) eqn:Epc; cbn; try done; (split; [by auto|lia]) || (split; [intros [=]|lia]). }
    revert Hs. generalize (job_cancel j). intros k Hk.
    assert (steps_left (tj_pc k) <= length run)%nat as Hr by (destruct Hk as (_ & _ & ?); lia).
    clear Hlen. revert k Hk Hr. induction run as [|[t r] run IH]; intros k Hk Hr; cbn in *.
    + destruct Hk as (_ & He & _). apply He. by destruct (tj_pc k); cbn in Hr; try lia.
    + destruct (stopping_run t r k Hk) as [Hk' Hle]. apply IH; [done|lia].
  - intros Hpc. unfold announced in Ha. rewrite Hpc in Ha. destruct Ha as [Hd _].
    assert (tj_pc (job_cancel j) = JTested \/ tj_pc (job_cancel j) = JBlocked) as Hk by (left; cbn; by rewrite Hpc).
    assert (tj_done (job_cancel j) = false) as Hd' by done. revert Hk Hd'. generalize (job_cancel j).
    induction run as [|[t r] run IH]; intros k Hk Hdk; [done|]. apply IH; unfold job_run; cbn;
      destruct Hk as [Hk|Hk]; rewrite Hk; cbn; auto.
Qed.
(** A job that holds a ready adapter, at the point where a cancel is lost. *)
Definition demo_job_steps : list JobStep :=
  map (JobRun 0) [NativeOk; NativeOk; NativeOk; NativeOk; NativeOk; NativeOk; NativeOk; NativeOk; NativeOk; NativeOk;
                  NativeOk; NativeOk].
Lemma job_stops_witness :
  let j := snd (job_life 0 None (CliTunLifecycleJob_init 1 0 1400 None) demo_job_steps) in
  tj_pc j = JTested /\ tj_done (work (repeat (0, NativeOk) 100) (job_cancel j)) = false.
Proof.
  cbv zeta. split; [by vm_compute|].
  apply (job_stops 0 None 1 0 1400 None demo_job_steps (repeat (0, NativeOk) 100)). by vm_compute.
Defined.
