(* ===== verification/TcpConn.v ===== *)
(** * [struct TcpConnection] of [client-cli/src/cli_common.h]

    The buffered non-blocking socket under the signalling and the data
    channel.  System calls are I/O: what [socket], [connect], [send] and
    [recv] return is an argument. *)

From S2P Require Import Prelude Protocol.

(** [protocol.h]: time limits of the client side. *)
Definition RECONNECT_INTERVAL_MS : Z := 3000.
Definition TCP_RELAY_DEAD_MS : Z := 30000.
Definition TCP_RECV_TIMEOUT_MS : Z := 45000.
Definition SOCK_INVALID : Z := -1.

Record TcpConnection := mkConn {
  tc_fd : Z;
  tc_recvBuf : bytes;
  tc_sendBuf : bytes;
  tc_connected : bool;
  tc_connecting : bool;
  tc_lastRecvTime : Z
}.
Definition TcpConnection_init : TcpConnection := mkConn SOCK_INVALID [] [] false false 0.
Definition conn_reset (c : TcpConnection) : TcpConnection := TcpConnection_init.
Definition set_tc_recvBuf (v : bytes) (c : TcpConnection) : TcpConnection :=
  mkConn (tc_fd c) v (tc_sendBuf c) (tc_connected c) (tc_connecting c) (tc_lastRecvTime c).
Definition set_tc_sendBuf (v : bytes) (c : TcpConnection) : TcpConnection :=
  mkConn (tc_fd c) (tc_recvBuf c) v (tc_connected c) (tc_connecting c) (tc_lastRecvTime c).
Definition set_tc_lastRecvTime (v : Z) (c : TcpConnection) : TcpConnection :=
  mkConn (tc_fd c) (tc_recvBuf c) (tc_sendBuf c) (tc_connected c) (tc_connecting c) v.
(** [connecting = false; connected = true; lastRecvTime = now] once the socket is up. *)
Definition conn_established (now : Z) (c : TcpConnection) : TcpConnection :=
  mkConn (tc_fd c) (tc_recvBuf c) (tc_sendBuf c) true false now.

(** [connectTo]: [fd] is what [socket] returns; [in_progress] says that
    [connect] succeeded or returned [EINPROGRESS]. *)
Definition conn_connectTo (fd : Z) (in_progress : bool) (c : TcpConnection) : bool * TcpConnection :=
  let c := conn_reset c in
  if fd =? SOCK_INVALID then (false, c) else
  if negb in_progress then (false, c) else
  (true, mkConn fd [] [] false true 0).
(** [flushSend]: [sent] is what [send] returns, [would_block] whether it
    failed with [EAGAIN]. *)
Definition flushSend (sent : Z) (would_block : bool) (c : TcpConnection) : bool * TcpConnection :=
  if (tc_fd c =? SOCK_INVALID) || bool_decide (tc_sendBuf c = []) then (true, c) else
  if 0 <? sent then (true, set_tc_sendBuf (drop (Z.to_nat sent) (tc_sendBuf c)) c) else
  ((sent <? 0) && would_block, c).
Definition queueSend (data : bytes) (c : TcpConnection) : bool * TcpConnection :=
  if (MAX_TCP_SEND_BUF <? len (tc_sendBuf c)) ||
     (MAX_TCP_SEND_BUF - len (tc_sendBuf c) <? len data) then (false, c) else
  if len data =? 0 then (true, c) else
  (true, set_tc_sendBuf (tc_sendBuf c ++ data) c).
Definition sendTcpMsg (msgType : Z) (body : bytes) (c : TcpConnection) : bool * TcpConnection :=
  if MAX_TCP_MSG_PAYLOAD <? len body then (false, c) else
  let frameSize := sizeof_TcpMsgHeader + len body in
  if (MAX_TCP_SEND_BUF <? len (tc_sendBuf c)) ||
     (MAX_TCP_SEND_BUF - len (tc_sendBuf c) <? frameSize) then (false, c) else
  let hdr := u8 msgType :: be_bytes 2 (u16 (len body)) in
  let c := snd (queueSend hdr c) in
  let c := if 0 <? len body then snd (queueSend body c) else c in
  (true, c).
(** [readData]: [received] is what [recv] put into the buffer, nothing at the
    end of the stream or on an error (a result that is not positive). *)
Definition readData (now : Z) (received : bytes) (c : TcpConnection) : Z * TcpConnection :=
  if 0 <? len received
  then (len received, set_tc_lastRecvTime now (set_tc_recvBuf (tc_recvBuf c ++ received) c))
  else (0, c).

(** ** The send buffer holds whole frames, within its limit *)

Definition frame (msgType : Z) (body : bytes) : bytes := u8 msgType :: be_bytes 2 (len body) ++ body.
Lemma queueSend_fits data c :
  0 < len data -> len (tc_sendBuf c) + len data <= MAX_TCP_SEND_BUF ->
  queueSend data c = (true, set_tc_sendBuf (tc_sendBuf c ++ data) c).
Proof.
  intros Hd Hf. unfold queueSend. pose proof (len_nonneg (tc_sendBuf c)).
  rewrite (proj2 (Z.ltb_ge MAX_TCP_SEND_BUF _)) by lia.
  rewrite (proj2 (Z.ltb_ge (MAX_TCP_SEND_BUF - _) _)) by lia. cbn [orb].
  by rewrite (proj2 (Z.eqb_neq _ _)) by lia.
Qed.
Lemma sendTcpMsg_spec msgType body c :
  sendTcpMsg msgType body c =
  if (len body <=? MAX_TCP_MSG_PAYLOAD) && (len (tc_sendBuf c) + 3 + len body <=? MAX_TCP_SEND_BUF)
  then (true, set_tc_sendBuf (tc_sendBuf c ++ frame msgType body) c)
  else (false, c).
Proof.
  unfold sendTcpMsg, sizeof_TcpMsgHeader, frame.
  pose proof (len_nonneg body). pose proof (len_nonneg (tc_sendBuf c)).
  destruct (Z.ltb_spec MAX_TCP_MSG_PAYLOAD (len body)).
  { by rewrite (proj2 (Z.leb_gt _ _)) by lia. }
  rewrite (proj2 (Z.leb_le (len body) _)) by lia. cbn [andb].
  assert (u16 (len body) = len body) as -> by (unfold u16, MAX_TCP_MSG_PAYLOAD in *; apply Z.mod_small; lia).
  destruct (Z.leb_spec (len (tc_sendBuf c) + 3 + len body) MAX_TCP_SEND_BUF).
  2: { rewrite (proj2 (Z.ltb_lt _ (3 + len body))) by lia. by rewrite orb_true_r. }
  rewrite !(proj2 (Z.ltb_ge _ _)) by lia. cbn [orb].
  assert (len (u8 msgType :: be_bytes 2 (len body)) = 3) as Eh by lens.
  rewrite (queueSend_fits (u8 msgType :: be_bytes 2 (len body)) c) by lia. cbn [snd]. destruct (Z.ltb_spec 0 (len body)).
  - rewrite (queueSend_fits body) by (unfold set_tc_sendBuf; cbn [tc_sendBuf]; rewrite ?len_app, ?Eh; lia).
    cbn [snd]. unfold set_tc_sendBuf; cbn. by rewrite <- app_assoc.
  - assert (body = []) as -> by (apply len_zero_nil; lia). by rewrite app_nil_r.
Qed.
