(* ===== verification/CliDataChannel.v ===== *)
(** * [class CliDataChannel] of [client-cli/src/cli_net.cpp]

    The second TCP connection of a client, which carries relayed packets.  It
    authenticates with the master secret of the signalling session, so it has
    no handshake of its own: one encrypted MSG_DATA_CHANNEL_INIT, one
    encrypted acknowledgement.  Callbacks are a class, as for the signalling
    client; the results of system calls are arguments. *)

From S2P Require Import Prelude Protocol Room SecureFrame SignalValidator ByteBuf Overlay TcpConn.

(** The callbacks, with their arguments. *)
Inductive ChannelEvent :=
  | ChannelConnected | ChannelDisconnected | ChannelSecurityFailure (message : bytes)
  | ChannelRelayData (srcPeerId cls : Z) (data : bytes).

Record CliDataChannel := mkChannel {
  dc_conn : TcpConnection;
  dc_host : bytes;
  dc_port : Z;
  dc_peerId : Z;
  dc_established : bool;
  dc_needReconnect : bool;
  dc_sendFailurePending : bool;
  dc_reconnectTime : Z;
  dc_securityMode : DataPlaneSecurityMode;
  dc_secureSessionId : Z;
  dc_secureMaster : bytes;
  dc_cipher : SecureFrameCipher;
  dc_now : Z;
  dc_events : list ChannelEvent
}.
Definition set_dc_conn (v : TcpConnection) (c : CliDataChannel) : CliDataChannel :=
  mkChannel v c.(dc_host) c.(dc_port) c.(dc_peerId) c.(dc_established) c.(dc_needReconnect)
    c.(dc_sendFailurePending) c.(dc_reconnectTime) c.(dc_securityMode)
    c.(dc_secureSessionId) c.(dc_secureMaster) c.(dc_cipher) c.(dc_now) c.(dc_events).
Definition set_dc_host (v : bytes) (c : CliDataChannel) : CliDataChannel :=
  mkChannel c.(dc_conn) v c.(dc_port) c.(dc_peerId) c.(dc_established) c.(dc_needReconnect)
    c.(dc_sendFailurePending) c.(dc_reconnectTime) c.(dc_securityMode)
    c.(dc_secureSessionId) c.(dc_secureMaster) c.(dc_cipher) c.(dc_now) c.(dc_events).
Definition set_dc_port (v : Z) (c : CliDataChannel) : CliDataChannel :=
  mkChannel c.(dc_conn) c.(dc_host) v c.(dc_peerId) c.(dc_established) c.(dc_needReconnect)
    c.(dc_sendFailurePending) c.(dc_reconnectTime) c.(dc_securityMode)
    c.(dc_secureSessionId) c.(dc_secureMaster) c.(dc_cipher) c.(dc_now) c.(dc_events).
Definition set_dc_peerId (v : Z) (c : CliDataChannel) : CliDataChannel :=
  mkChannel c.(dc_conn) c.(dc_host) c.(dc_port) v c.(dc_established) c.(dc_needReconnect)
    c.(dc_sendFailurePending) c.(dc_reconnectTime) c.(dc_securityMode)
    c.(dc_secureSessionId) c.(dc_secureMaster) c.(dc_cipher) c.(dc_now) c.(dc_events).
Definition set_dc_established (v : bool) (c : CliDataChannel) : CliDataChannel :=
  mkChannel c.(dc_conn) c.(dc_host) c.(dc_port) c.(dc_peerId) v c.(dc_needReconnect)
    c.(dc_sendFailurePending) c.(dc_reconnectTime) c.(dc_securityMode)
    c.(dc_secureSessionId) c.(dc_secureMaster) c.(dc_cipher) c.(dc_now) c.(dc_events).
Definition set_dc_needReconnect (v : bool) (c : CliDataChannel) : CliDataChannel :=
  mkChannel c.(dc_conn) c.(dc_host) c.(dc_port) c.(dc_peerId) c.(dc_established) v
    c.(dc_sendFailurePending) c.(dc_reconnectTime) c.(dc_securityMode)
    c.(dc_secureSessionId) c.(dc_secureMaster) c.(dc_cipher) c.(dc_now) c.(dc_events).
Definition set_dc_sendFailurePending (v : bool) (c : CliDataChannel) : CliDataChannel :=
  mkChannel c.(dc_conn) c.(dc_host) c.(dc_port) c.(dc_peerId) c.(dc_established)
    c.(dc_needReconnect) v c.(dc_reconnectTime) c.(dc_securityMode) c.(dc_secureSessionId)
    c.(dc_secureMaster) c.(dc_cipher) c.(dc_now) c.(dc_events).
Definition set_dc_reconnectTime (v : Z) (c : CliDataChannel) : CliDataChannel :=
  mkChannel c.(dc_conn) c.(dc_host) c.(dc_port) c.(dc_peerId) c.(dc_established)
    c.(dc_needReconnect) c.(dc_sendFailurePending) v c.(dc_securityMode)
    c.(dc_secureSessionId) c.(dc_secureMaster) c.(dc_cipher) c.(dc_now) c.(dc_events).
Definition set_dc_securityMode (v : DataPlaneSecurityMode) (c : CliDataChannel) : CliDataChannel :=
  mkChannel c.(dc_conn) c.(dc_host) c.(dc_port) c.(dc_peerId) c.(dc_established)
    c.(dc_needReconnect) c.(dc_sendFailurePending) c.(dc_reconnectTime) v
    c.(dc_secureSessionId) c.(dc_secureMaster) c.(dc_cipher) c.(dc_now) c.(dc_events).
Definition set_dc_secureSessionId (v : Z) (c : CliDataChannel) : CliDataChannel :=
  mkChannel c.(dc_conn) c.(dc_host) c.(dc_port) c.(dc_peerId) c.(dc_established)
    c.(dc_needReconnect) c.(dc_sendFailurePending) c.(dc_reconnectTime) c.(dc_securityMode)
    v c.(dc_secureMaster) c.(dc_cipher) c.(dc_now) c.(dc_events).
Definition set_dc_secureMaster (v : bytes) (c : CliDataChannel) : CliDataChannel :=
  mkChannel c.(dc_conn) c.(dc_host) c.(dc_port) c.(dc_peerId) c.(dc_established)
    c.(dc_needReconnect) c.(dc_sendFailurePending) c.(dc_reconnectTime) c.(dc_securityMode)
    c.(dc_secureSessionId) v c.(dc_cipher) c.(dc_now) c.(dc_events).
Definition set_dc_cipher (v : SecureFrameCipher) (c : CliDataChannel) : CliDataChannel :=
  mkChannel c.(dc_conn) c.(dc_host) c.(dc_port) c.(dc_peerId) c.(dc_established)
    c.(dc_needReconnect) c.(dc_sendFailurePending) c.(dc_reconnectTime) c.(dc_securityMode)
    c.(dc_secureSessionId) c.(dc_secureMaster) v c.(dc_now) c.(dc_events).
Definition set_dc_now (v : Z) (c : CliDataChannel) : CliDataChannel :=
  mkChannel c.(dc_conn) c.(dc_host) c.(dc_port) c.(dc_peerId) c.(dc_established)
    c.(dc_needReconnect) c.(dc_sendFailurePending) c.(dc_reconnectTime) c.(dc_securityMode)
    c.(dc_secureSessionId) c.(dc_secureMaster) c.(dc_cipher) v c.(dc_events).
Definition set_dc_events (v : list ChannelEvent) (c : CliDataChannel) : CliDataChannel :=
  mkChannel c.(dc_conn) c.(dc_host) c.(dc_port) c.(dc_peerId) c.(dc_established)
    c.(dc_needReconnect) c.(dc_sendFailurePending) c.(dc_reconnectTime) c.(dc_securityMode)
    c.(dc_secureSessionId) c.(dc_secureMaster) c.(dc_cipher) c.(dc_now) v.

Definition CliDataChannel_init (now : Z) : CliDataChannel :=
  mkChannel TcpConnection_init [] 0 0 false false false 0 Unconfigured 0 [] cipher_empty now [].

Abbreviation DC A := (SE CliDataChannel A) (only parsing).
Class ChannelApp := { on_channel_event : ChannelEvent -> SE CliDataChannel unit }.
Definition silent_channel_app : ChannelApp := {| on_channel_event := fun _ => ret tt |}.

Definition dc_step {A} (f : TcpConnection -> A * TcpConnection) : DC A :=
  x <- gets (fun c => fst (f (dc_conn c))) ;;
  modify (fun c => set_dc_conn (snd (f (dc_conn c))) c) ;;; ret x.
Definition dc_reset : DC unit := modify (fun c => set_dc_conn (conn_reset (dc_conn c)) c).
Definition dc_take {A} (m : SE ByteBuffer A) (b : ByteBuffer) : DC (A * ByteBuffer) :=
  match m b with
  | (Some a, b') => ret (a, b')
  | (None, _) => throw
  end.

Section Channel.
Context `{Crypto, ChannelApp}.

Definition dc_fire (e : ChannelEvent) : DC unit :=
  modify (fun c => set_dc_events (dc_events c ++ [e]) c) ;;; on_channel_event e.

Definition scheduleReconnect : DC unit :=
  modify (fun c => set_dc_reconnectTime (u32 (dc_now c + RECONNECT_INTERVAL_MS)) (set_dc_needReconnect true c)).
Definition dc_connectTo (ip : bytes) (port peerId fd : Z) (in_progress : bool) : DC bool :=
  mode <- gets dc_securityMode ;;
  if decide (mode = Unconfigured) then ret false else
  modify (fun c => set_dc_needReconnect false (set_dc_established false
            (set_dc_peerId peerId (set_dc_port port (set_dc_host ip c))))) ;;;
  dc_step (conn_connectTo fd in_progress).
Definition dc_disconnect : DC unit :=
  dc_reset ;;;
  modify (fun c => set_dc_port 0 (set_dc_peerId 0 (set_dc_sendFailurePending false
            (set_dc_needReconnect false (set_dc_established false c))))).
Definition dc_clearSecurityContext : DC unit :=
  c <- gets (fun c => c) ;;
  if negb (tc_fd (dc_conn c) =? SOCK_INVALID) then ret tt else
  modify (fun c => set_dc_securityMode Unconfigured (set_dc_cipher (reset (dc_cipher c))
            (set_dc_secureSessionId 0 (set_dc_secureMaster [] c)))).
Definition dc_installSecureSession (sessionId : Z) (master : bytes) : DC bool :=
  c <- gets (fun c => c) ;;
  if (dc_secureSessionId c =? sessionId) && (len master =? SECURE_KEY_SIZE) &&
     (len (dc_secureMaster c) =? SECURE_KEY_SIZE) && (crypto_verify32 master (dc_secureMaster c) =? 0)
  then ret true else
  if negb (tc_fd (dc_conn c) =? SOCK_INVALID) then ret false else
  if (sessionId =? 0) || negb (len master =? SECURE_KEY_SIZE)
  then dc_clearSecurityContext ;;; ret false else
  modify (fun c => set_dc_securityMode Secure
    (set_dc_cipher (cipher_init (dc_cipher c) master true "data")
    (set_dc_secureMaster master (set_dc_secureSessionId sessionId c)))) ;;;
  ret true.

(** ** Sending *)

Definition EXHAUSTED_TEXT : bytes := bytes_of_string
  "data channel secure counter exhausted; new authentication required".
Definition dc_encrypt (plain : bytes) : DC bytes :=
  enc <- gets (fun c => fst (encrypt (dc_cipher c) plain [])) ;;
  modify (fun c => set_dc_cipher (snd (encrypt (dc_cipher c) plain [])) c) ;;; ret enc.
Definition dc_exhausted : DC unit :=
  dc_reset ;;; dc_clearSecurityContext ;;; dc_fire (ChannelSecurityFailure EXHAUSTED_TEXT).
Definition dc_send_frame (msgType : Z) (body : bytes) : DC unit :=
  ok <- dc_step (sendTcpMsg msgType body) ;;
  when (negb ok) (modify (set_dc_sendFailurePending true)).
Definition dc_sendMsg (msgType : Z) (body : bytes) : DC unit :=
  c <- gets (fun c => c) ;;
  if negb (tc_connected (dc_conn c)) || negb (bool_decide (dc_securityMode c = Secure)) then ret tt else
  if MAX_TCP_MSG_PAYLOAD <? len body then ret tt else
  if bool_decide (dc_securityMode c = Secure) && negb (msgType =? MSG_DATA_CHANNEL_INIT) then
    enc <- dc_encrypt (u8 msgType :: body) ;;
    if bool_decide (enc = []) then dc_exhausted else
    if MAX_TCP_MSG_PAYLOAD <? len enc then ret tt else
    dc_send_frame MSG_ENCRYPTED enc
  else dc_send_frame msgType body.
Definition dc_sendRelayData (srcPeerId dstPeerId cls : Z) (data : bytes) : DC unit :=
  c <- gets (fun c => c) ;;
  if negb (dc_established c) || bool_decide (dc_securityMode c = Unconfigured) then ret tt else
  dc_sendMsg MSG_TCP_RELAY_DATA
    (writeBytes data (writeU8 (u8 cls) (writeU32 dstPeerId (writeU32 srcPeerId [])))).
Definition dc_sendPing : DC unit :=
  established <- gets dc_established ;;
  when established (dc_sendMsg MSG_PING []).
(** The connection is up: announce the peer under the session's cipher. *)
Definition dc_sendInit : DC unit :=
  mode <- gets dc_securityMode ;;
  if negb (bool_decide (mode = Secure)) then dc_reset else
  peerId <- gets dc_peerId ;;
  enc <- dc_encrypt (writeU32 peerId []) ;;
  if bool_decide (enc = []) then dc_exhausted else
  sid <- gets dc_secureSessionId ;;
  dc_send_frame MSG_DATA_CHANNEL_INIT (writeBytes enc (writeBytes (writeU32BE sid) [])).
Definition dc_onWritable (err sent : Z) (would_block : bool) : DC unit :=
  c <- gets (fun c => c) ;;
  if tc_connecting (dc_conn c) then
    if err =? 0 then
      modify (fun c => set_dc_conn (conn_established (dc_now c) (dc_conn c)) c) ;;; dc_sendInit
    else dc_reset ;;; scheduleReconnect
  else
  ok <- dc_step (flushSend sent would_block) ;;
  when (negb ok) (
    dc_reset ;;; modify (set_dc_established false) ;;; scheduleReconnect ;;; dc_fire ChannelDisconnected).

(** ** Receiving *)

(** The end of a connection that failed: tell the application if it was up,
    and try again later unless the application disconnected meanwhile. *)
Definition failDataChannelFrame : DC unit :=
  wasEstablished <- gets dc_established ;;
  dc_reset ;;; modify (set_dc_established false) ;;;
  when wasEstablished (dc_fire ChannelDisconnected) ;;;
  peerId <- gets dc_peerId ;;
  when (negb (peerId =? 0)) scheduleReconnect.
Definition dc_decrypt (frame : bytes) : DC (option bytes) :=
  plain <- gets (fun c => fst (decrypt (dc_cipher c) frame [])) ;;
  modify (fun c => set_dc_cipher (snd (decrypt (dc_cipher c) frame [])) c) ;;; ret plain.
Definition dc_validate (msgType : Z) (payload : bytes) : MessageValidationResult :=
  validateServerDataPayload msgType (if bool_decide (payload = []) then None else Some payload) (len payload).
Definition dc_on_relay_data (payload : bytes) : DC unit :=
  let bb := bb_of payload in
  let* (srcId, bb) := dc_take readU32 bb in
  let* (dstId, bb) := dc_take readU32 bb in
  let* (cls, bb) := dc_take readU8 bb in
  let dataLen := remaining bb in
  let data := drop (Z.to_nat (len payload - dataLen)) payload in
  me <- gets dc_peerId ;;
  when (dstId =? me) (dc_fire (ChannelRelayData srcId cls data)).
Definition dc_dispatch (msgType : Z) (payload : bytes) : DC bool :=
  if msgType =? MSG_DATA_CHANNEL_ACK then
    modify (fun c => set_dc_conn (set_tc_lastRecvTime (dc_now c) (dc_conn c)) (set_dc_established true c)) ;;;
    dc_fire ChannelConnected ;;; ret true
  else if msgType =? MSG_TCP_RELAY_DATA then dc_on_relay_data payload ;;; ret true
  else ret true.
Definition dc_frame (msgType : Z) (payload : bytes) : DC bool :=
  mode <- gets dc_securityMode ;;
  match rs_status (dc_validate msgType payload) with
  | Malformed => failDataChannelFrame ;;; ret false
  | UnknownType => ret true
  | Valid =>
      if msgType =? MSG_ENCRYPTED then
        if negb (bool_decide (mode = Secure)) then failDataChannelFrame ;;; ret false else
        plain <- dc_decrypt payload ;;
        match plain with
        | None | Some [] => failDataChannelFrame ;;; ret false
        | Some (innerType :: inner) =>
            match rs_status (dc_validate innerType inner) with
            | Malformed => failDataChannelFrame ;;; ret false
            | UnknownType => ret true
            | Valid => dc_dispatch innerType inner
            end
        end
      else failDataChannelFrame ;;; ret false
  end.
Definition dc_processMessage (msgType : Z) (payload : bytes) : DC bool :=
  catch (dc_frame msgType payload) (failDataChannelFrame ;;; ret false).
Fixpoint dc_recv_loop (fuel : nat) : DC unit :=
  match fuel with
  | O => ret tt
  | S n =>
      buf <- gets (fun c => tc_recvBuf (dc_conn c)) ;;
      if len buf <? 3 then ret tt else
      let frame := probeTcpFrame (Some buf) (len buf) in
      match pr_status frame with
      | FrameMalformed => failDataChannelFrame
      | NeedMore => ret tt
      | Ready =>
          let payload := slice 3 (pr_payloadLength frame) buf in
          modify (fun c => set_dc_conn (set_tc_recvBuf (drop (Z.to_nat (pr_frameLength frame)) buf)
                             (dc_conn c)) c) ;;;
          go <- dc_processMessage (pr_msgType frame) payload ;;
          if negb go then ret tt else
          connected <- gets (fun c => tc_connected (dc_conn c)) ;;
          if negb connected then ret tt else dc_recv_loop n
      end
  end.
Definition dc_onReadable (received : bytes) : DC unit :=
  t <- gets dc_now ;;
  n <- dc_step (readData t received) ;;
  if n <=? 0 then failDataChannelFrame else
  buf <- gets (fun c => tc_recvBuf (dc_conn c)) ;;
  dc_recv_loop (length buf).

(** ** Timers *)

(** [fd], [in_progress]: the outcome of [socket] and [connect], if it is tried. *)
Definition dc_checkTimeouts (fd : Z) (in_progress : bool) : DC unit :=
  c <- gets (fun c => c) ;;
  if dc_sendFailurePending c then
    modify (set_dc_sendFailurePending false) ;;; dc_reset ;;; modify (set_dc_established false) ;;;
    scheduleReconnect ;;; dc_fire ChannelDisconnected
  else
  when (dc_needReconnect c && (dc_reconnectTime c <=? dc_now c)) (
    modify (set_dc_needReconnect false) ;;;
    when (negb (dc_peerId c =? 0) && (tc_fd (dc_conn c) =? SOCK_INVALID))
      (dc_connectTo (dc_host c) (dc_port c) (dc_peerId c) fd in_progress ;;; ret tt)) ;;;
  c <- gets (fun c => c) ;;
  when (dc_established c) (
    let elapsed := u32 (dc_now c - tc_lastRecvTime (dc_conn c)) in
    when (TCP_RELAY_DEAD_MS <? elapsed) (
      dc_reset ;;; modify (set_dc_established false) ;;; dc_fire ChannelDisconnected ;;; scheduleReconnect)).

(** ** The life of a channel *)

Inductive ChannelCall :=
  | DcConnect (ip : bytes) (port peerId fd : Z) (in_progress : bool) | DcDisconnect
  | DcInstall (sessionId : Z) (master : bytes) | DcClear
  | DcRelayData (src dst cls : Z) (data : bytes) | DcPing
  | DcReadable (received : bytes) | DcWritable (err sent : Z) (would_block : bool)
  | DcTimers (fd : Z) (in_progress : bool) | DcPassTime (now : Z).
Definition dc_call (call : ChannelCall) : DC unit :=
  match call with
  | DcConnect ip port peerId fd ok => dc_connectTo ip port peerId fd ok ;;; ret tt
  | DcDisconnect => dc_disconnect
  | DcInstall sid master => dc_installSecureSession sid master ;;; ret tt
  | DcClear => dc_clearSecurityContext
  | DcRelayData src dst cls data => dc_sendRelayData src dst cls data
  | DcPing => dc_sendPing
  | DcReadable received => dc_onReadable received
  | DcWritable err sent wb => dc_onWritable err sent wb
  | DcTimers fd ok => dc_checkTimeouts fd ok
  | DcPassTime now => modify (set_dc_now now)
  end.
Definition dc_life (calls : list ChannelCall) (now : Z) : CliDataChannel :=
  fold_left (fun c call => snd (dc_call call c)) calls (CliDataChannel_init now).
End Channel.
