(* ===== verification/ChannelFacts.v ===== *)
(** * The data channel never speaks in the clear

    [CliDataChannel] of [client-cli/src/cli_net.cpp]: what it sends, when it
    counts as established, and when it tries again. *)

From S2P Require Import Prelude Protocol Room SecureFrame SecureFrameFacts SignalValidator ByteBuf Overlay TcpConn CliDataChannel.
From Stdlib Require Import Sorted.

Section Channel.
Context `{CryptoLaws, ChannelApp}.

(** ** The security context and the send buffer *)

(** The cipher carries the client's data-channel keys of [master]. *)
Record data_keyed (master : bytes) (k : SecureFrameCipher) : Prop := mkDataKeyed {
  dk_init : m_initialized k = true;
  dk_send : m_sendKey k = deriveSecureKey master (bytes_of_string "VLan-data-c2s-key");
  dk_recv : m_recvKey k = deriveSecureKey master (bytes_of_string "VLan-data-s2c-key")
}.
Definition context_ok (c : CliDataChannel) : Prop :=
  counter_ok (dc_cipher c) /\
  match dc_securityMode c with
  | Secure => dc_secureSessionId c <> 0 /\ len (dc_secureMaster c) = SECURE_KEY_SIZE /\
              data_keyed (dc_secureMaster c) (dc_cipher c)
  | Unconfigured => dc_secureSessionId c = 0 /\ dc_secureMaster c = [] /\ m_initialized (dc_cipher c) = false
  end.
(** A frame sent under the cipher [k] of the session [sid]: the lock of a
    message under the key, the nonce seed and the counter [ctr], alone or after
    the session id. *)
Definition sealed (k : SecureFrameCipher) (sid ctr : Z) (f : bytes) : Prop :=
  m_initialized k = true /\ ctr < UINT64_MAX /\ exists plain,
  f = frame MSG_ENCRYPTED (locked k ctr plain) \/ f = frame MSG_DATA_CHANNEL_INIT (writeU32BE sid ++ locked k ctr plain).
(** Such frames with rising counters, from [lo] on and below [hi] if the
    session is still there. *)
Definition sealed_run (k : SecureFrameCipher) (sid lo : Z) (hi : option Z) (fs : list bytes) : Prop := exists ctrs,
  Forall2 (sealed k sid) ctrs fs /\ StronglySorted Z.lt ctrs /\ Forall (Z.le lo) ctrs /\
  forall h, hi = Some h -> lo <= h /\ Forall (fun ctr => ctr < h) ctrs.
Lemma run_nothing k0 sid lo hi : (forall h, hi = Some h -> lo <= h) -> sealed_run k0 sid lo hi [].
Proof. intros Hh. exists []. split_and!; try constructor; auto. Qed.
Lemma run_one k0 sid lo hi ctr f : sealed k0 sid ctr f -> lo <= ctr -> (forall h, hi = Some h -> ctr < h) ->
  sealed_run k0 sid lo hi [f].
Proof.
  intros Hf Hl Hh. exists [ctr]. split_and!; [by constructor|by repeat constructor|by repeat constructor|].
  intros h E. specialize (Hh h E). split; [lia|by repeat constructor].
Qed.
Lemma run_app k0 sid lo mid hi f1 f2 :
  sealed_run k0 sid lo (Some mid) f1 -> sealed_run k0 sid mid hi f2 -> sealed_run k0 sid lo hi (f1 ++ f2).
Proof.
  intros (c1 & A1 & S1 & L1 & T1) (c2 & A2 & S2 & L2 & T2). destruct (T1 mid eq_refl) as [Hm B1].
  exists (c1 ++ c2). split_and!.
  - by apply Forall2_app.
  - clear -S1 S2 B1 L2. induction S1 as [|x l Hl IH Hx]; [exact S2|]. apply Forall_cons in B1 as [Hxm B1].
    cbn. constructor; [by apply IH|]. apply Forall_app. split; [exact Hx|]. eapply Forall_impl; [exact L2|]. cbn. intros; lia.
  - apply Forall_app. split; [exact L1|]. eapply Forall_impl; [exact L2|]. cbn. intros; lia.
  - intros h E. destruct (T2 h E) as [Hh B2]. split; [lia|]. apply Forall_app. split; [|exact B2].
    eapply Forall_impl; [exact B1|]. cbn. intros; lia.
Qed.
Lemma run_level k sid lo h hi fs : (forall h', hi = Some h' -> h <= h') ->
  sealed_run k sid lo (Some h) fs -> sealed_run k sid lo hi fs.
Proof.
  intros Hh (ctrs & A & S & L & T). destruct (T h eq_refl) as [Hl B]. exists ctrs. split_and!; [exact A|exact S|exact L|].
  intros h' E. specialize (Hh h' E). split; [lia|]. eapply Forall_impl; [exact B|]. cbn. intros; lia.
Qed.
(** Without a session nothing is sealed. *)
Lemma run_without k0 sid lo hi fs : m_initialized k0 = false -> sealed_run k0 sid lo hi fs -> fs = [].
Proof. intros Hm ([|ctr ctrs] & A & _); [by apply Forall2_nil_inv_l in A|]. apply Forall2_cons_inv_l in A as (f & l & [Hl _] & _). congruence. Qed.

Lemma run_half k k' sid lo hi fs : send_half k' = send_half k -> sealed_run k' sid lo hi fs -> sealed_run k sid lo hi fs.
Proof.
  intros Hk (ctrs & A & R). exists ctrs. split; [|exact R]. eapply Forall2_impl; [exact A|].
  intros ctr f (Hi & Hl & plain & Hf). split; [by injection Hk as <-|]. split; [exact Hl|]. exists plain.
  by rewrite !(locked_half k k') in Hf.
Qed.

(** From [b] to [b']: such frames were added behind and octets left in front. *)
Definition sends (k0 : SecureFrameCipher) (sid lo : Z) (hi : option Z) (b b' : bytes) : Prop := exists n fs,
  (n <= length (b ++ concat fs))%nat /\ sealed_run k0 sid lo hi fs /\ b' = drop n (b ++ concat fs).
Lemma sends_drop k0 sid lo hi b n : (forall h, hi = Some h -> lo <= h) -> sends k0 sid lo hi b (drop n b).
Proof.
  intros Hh. exists (n `min` length b)%nat, []. cbn. rewrite app_nil_r. split_and!; [lia|by apply run_nothing|].
  destruct (Nat.le_gt_cases n (length b)); [by rewrite Nat.min_l by lia|].
  rewrite Nat.min_r by lia. by rewrite drop_all, drop_ge by lia.
Qed.
Lemma sends_frame k0 sid lo hi b f : sealed_run k0 sid lo hi [f] -> sends k0 sid lo hi b (b ++ f).
Proof. intros Hf. exists 0%nat, [f]. cbn. rewrite app_nil_r. split_and!; [lia|exact Hf|done]. Qed.
Lemma sends_trans k0 sid lo mid hi b1 b2 b3 :
  sends k0 sid lo (Some mid) b1 b2 -> sends k0 sid mid hi b2 b3 -> sends k0 sid lo hi b1 b3.
Proof.
  intros (n1 & f1 & L1 & F1 & ->) (n2 & f2 & L2 & F2 & ->). exists (n1 + n2)%nat, (f1 ++ f2).
  rewrite concat_app, app_assoc, <- (drop_app_le (b1 ++ concat f1)) in * by done.
  rewrite length_drop in L2. split_and!; [|by eapply run_app|by rewrite drop_drop].
  rewrite !length_app in *. lia.
Qed.
(** Once the session is gone. *)
Lemma sends_after k0 sid lo b1 b2 b3 k1 sid' lo' hi' : m_initialized k1 = false ->
  sends k0 sid lo None b1 b2 -> sends k1 sid' lo' hi' b2 b3 -> sends k0 sid lo None b1 b3.
Proof.
  intros Hm (n1 & f1 & L1 & F1 & ->) (n2 & f2 & L2 & F2 & ->). apply run_without in F2 as ->; [|done].
  cbn in *. rewrite app_nil_r, length_drop in *. exists (n1 + n2)%nat, f1. split_and!; [lia|exact F1|by rewrite drop_drop].
Qed.

(** The session is the same, or gone. *)
Definition kept (c c' : CliDataChannel) : Prop := dc_securityMode c' = Secure ->
  dc_securityMode c = Secure /\ dc_secureMaster c' = dc_secureMaster c /\
  dc_secureSessionId c' = dc_secureSessionId c /\ send_half (dc_cipher c') = send_half (dc_cipher c).
(** Where the counters of the session have got to. *)
Definition level (c : CliDataChannel) : option Z :=
  match dc_securityMode c with Secure => Some (m_sendCounter (dc_cipher c)) | Unconfigured => None end.
Definition sends_in (c c' : CliDataChannel) : Prop :=
  sends (dc_cipher c) (dc_secureSessionId c) (m_sendCounter (dc_cipher c)) (level c')
    (tc_sendBuf (dc_conn c)) (tc_sendBuf (dc_conn c')).
(** What every program of the class does but to install a session, ... *)
Definition sealing (c c' : CliDataChannel) : Prop := context_ok c -> context_ok c' /\ kept c c' /\ sends_in c c'.
(** ... and what all but the receipt of octets and of an acknowledgement do. *)
Definition shorter (c c' : CliDataChannel) : Prop :=
  tc_recvBuf (dc_conn c') = tc_recvBuf (dc_conn c) \/ tc_recvBuf (dc_conn c') = [].
#[local] Ltac short := unfold shorter; cbn; auto.
Definition calm (c c' : CliDataChannel) : Prop :=
  shorter c c' /\ (dc_established c' = true -> dc_established c = true) /\ sealing c c'.
(** The security context is as it was, and so is the buffer but for octets gone. *)
Lemma sealing_beside c c' : dc_securityMode c' = dc_securityMode c -> dc_secureSessionId c' = dc_secureSessionId c ->
  dc_secureMaster c' = dc_secureMaster c -> dc_cipher c' = dc_cipher c ->
  (exists n, tc_sendBuf (dc_conn c') = drop n (tc_sendBuf (dc_conn c))) -> sealing c c'.
Proof.
  intros E1 E2 E3 E4 [n E5] Hc. split; [unfold context_ok in *; by rewrite E1, E2, E3, E4|].
  split; [intros Hm; split_and!; congruence|]. unfold sends_in. rewrite E5. apply sends_drop.
  unfold level. rewrite E1, E4. destruct (dc_securityMode c); [done|]. intros h [= <-]. lia.
Qed.
#[export] Instance sealing_preorder : PreOrder sealing.
Proof.
  split; [intros c; apply sealing_beside; try done; by exists 0%nat|].
  intros c1 c2 c3 H12 H23 Hc. destruct (H12 Hc) as (Hc2 & K12 & S12). destruct (H23 Hc2) as (Hc3 & K23 & S23).
  split; [done|]. split.
  - intros Hm. destruct (K23 Hm) as (Hm2 & ? & ? & ?). destruct (K12 Hm2) as (Hm1 & ? & ? & ?). split_and!; congruence.
  - unfold sends_in in *. unfold level in S12. destruct Hc2 as [_ Hc2]. destruct (dc_securityMode c2) eqn:Em2.
    + assert (level c3 = None) as ->.
      { unfold level. destruct (dc_securityMode c3) eqn:E3; [done|]. destruct (K23 E3) as [E _]. congruence. }
      eapply sends_after; [|exact S12|exact S23]. apply Hc2.
    + destruct (K12 Em2) as (_ & _ & E1 & E2). rewrite E1 in S23. eapply sends_trans; [exact S12|].
      destruct S23 as (n & fs & L & F & E). exists n, fs. split_and!; [exact L| |exact E]. by eapply run_half.
Qed.
#[export] Instance calm_preorder : PreOrder calm.
Proof.
  split; [intros c; split_and!; [by left|done|done]|]. intros c1 c2 c3 (? & ? & ?) (? & ? & ?).
  split_and!; [unfold shorter in *; intuition congruence|auto|by etrans].
Qed.

(** The callbacks may call the channel back, but do not install a session. *)
Context (Happ : forall e, moves calm (on_channel_event e)).

Lemma cm_ret {A} (a : A) : moves calm (ret a).
Proof. apply moves_ret. apply _. Qed.
Lemma cm_throw {A} : moves calm (@throw _ A).
Proof. apply moves_throw. apply _. Qed.
Lemma cm_gets {A} (f : CliDataChannel -> A) : moves calm (gets f).
Proof. apply moves_gets. apply _. Qed.
#[local] Hint Resolve cm_ret cm_throw cm_gets : vlan.

(** A change of other fields. *)
Definition beside (f : CliDataChannel -> CliDataChannel) : Prop := forall c,
  (dc_established (f c) = dc_established c \/ dc_established (f c) = false) /\
  tc_recvBuf (dc_conn (f c)) = tc_recvBuf (dc_conn c) /\
  tc_sendBuf (dc_conn (f c)) = tc_sendBuf (dc_conn c) /\ dc_securityMode (f c) = dc_securityMode c /\
  dc_secureSessionId (f c) = dc_secureSessionId c /\ dc_secureMaster (f c) = dc_secureMaster c /\
  dc_cipher (f c) = dc_cipher c.
Lemma cm_modify f : beside f -> moves calm (modify f).
Proof.
  intros Hf c. destruct (Hf c) as (E1 & E0 & E2 & E3 & E4 & E5 & E6). split_and!; cbn.
  - by left.
  - destruct E1; congruence.
  - apply sealing_beside; [done..|]. exists 0%nat. by rewrite E2.
Qed.
Lemma cm_step {A} (f : TcpConnection -> A * TcpConnection) :
  (forall k, (exists n, tc_sendBuf (snd (f k)) = drop n (tc_sendBuf k)) /\
     (tc_recvBuf (snd (f k)) = tc_recvBuf k \/ tc_recvBuf (snd (f k)) = [])) -> moves calm (dc_step f).
Proof.
  intros Hf. unfold dc_step. intros c. rewrite bind_gets, bind_modify. split_and!; [apply Hf|done|].
  apply sealing_beside; [done..|]. apply Hf.
Qed.
Lemma cm_reset : moves calm dc_reset.
Proof. intros c. split_and!; [by short|done|]. apply sealing_beside; [done..|]. exists (length (tc_sendBuf (dc_conn c))). by rewrite drop_all. Qed.
Lemma cm_take {A} (m : SE ByteBuffer A) b : moves calm (dc_take m b).
Proof. unfold dc_take. destruct (m b) as [[a|] b']; auto with vlan. Qed.
#[local] Hint Resolve cm_reset cm_take : vlan.
#[local] Hint Extern 1 (moves calm (modify _)) => apply cm_modify; intros ?; by (split_and!; auto) : vlan.
Lemma cm_fire e : moves calm (dc_fire e).
Proof. unfold dc_fire. apply moves_bind; [apply _|auto with vlan|intros _; apply Happ]. Qed.
Lemma cm_schedule : moves calm scheduleReconnect.
Proof. unfold scheduleReconnect. auto with vlan. Qed.
#[local] Hint Resolve cm_fire cm_schedule : vlan.
Lemma cm_connect_step fd ok : moves calm (dc_step (conn_connectTo fd ok)).
Proof. apply cm_step. intros k. unfold conn_connectTo. repeat case_match; (split; [exists (length (tc_sendBuf k)); by rewrite drop_all|by right]). Qed.
Lemma cm_flush_step sent wb : moves calm (dc_step (flushSend sent wb)).
Proof.
  apply cm_step. intros k. unfold flushSend. repeat case_match; (split; [first [by exists 0%nat|by eexists]|by left]).
Qed.
#[local] Hint Resolve cm_connect_step cm_flush_step : vlan.
Lemma cm_connect ip port peer fd ok : moves calm (dc_connectTo ip port peer fd ok).
Proof. unfold dc_connectTo. walk. Qed.
Lemma cm_disconnect : moves calm dc_disconnect.
Proof. unfold dc_disconnect. walk. Qed.
Lemma cm_clear : moves calm dc_clearSecurityContext.
Proof.
  unfold dc_clearSecurityContext. walk. intros c. split_and!; [by short|done|]. intros _.
  split; [by split; [unfold counter_ok, UINT64_MAX; cbn; lia|]|]. split; [done|]. by apply (sends_drop _ _ _ _ _ 0).
Qed.
#[local] Hint Resolve cm_connect cm_disconnect cm_clear : vlan.
Lemma data_keyed_init master k : data_keyed master (cipher_init k master true "data").
Proof.
  unfold cipher_init. destruct (m_initialized k && _ && _) eqn:E; [|by constructor].
  bools. constructor; [done| |]; by apply verify32_spec.
Qed.
(** Installing a session sends nothing. *)
Lemma install_ok sid master c : let c' := snd (dc_installSecureSession sid master c) in
  (context_ok c -> context_ok c') /\ dc_conn c' = dc_conn c /\ dc_established c' = dc_established c.
Proof.
  cbv zeta. unfold dc_installSecureSession. rewrite bind_gets. do 2 (case_match; [done|]).
  destruct ((sid =? 0) || _) eqn:E; bools.
  - unfold dc_clearSecurityContext. rewrite bind_assoc, bind_gets. case_match; [done|]. rewrite bind_modify.
    split; [|done]. intros _. split; [unfold counter_ok, UINT64_MAX; cbn; lia|done].
  - rewrite bind_modify. split; [|done]. intros [Hc _]. split; [by apply counter_init|]. cbn.
    split_and!; [done|done|apply data_keyed_init].
Qed.

(** Encryption and decryption keep the keys. *)
Lemma data_keyed_encrypt master k p ad : data_keyed master k -> data_keyed master (snd (encrypt k p ad)).
Proof.
  intros [? ? ?]. unfold encrypt. destruct (_ || _); [done|]. destruct (crypto_aead_lock _ _ _ _). by constructor.
Qed.
Lemma data_keyed_decrypt master k p ad : data_keyed master k -> data_keyed master (snd (decrypt k p ad)).
Proof.
  intros [? ? ?]. unfold decrypt. repeat case_match; try done. cbn [snd].
  match goal with |- data_keyed _ (snd (recordCounter ?k ?ctr)) =>
    destruct (recordCounter_frame k ctr) as (E1 & _ & E2 & E3 & _) end.
  constructor; congruence.
Qed.
Lemma decrypt_calm p c : calm c (set_dc_cipher (snd (decrypt (dc_cipher c) p [])) c).
Proof.
  destruct (decrypt_half (dc_cipher c) p []) as [Eh Ec]. split_and!; [by short|done|]. intros [Hc Hx].
  split; [split; [unfold counter_ok in *; cbn; by rewrite Ec|]|split].
  - cbn. destruct (dc_securityMode c); [|by destruct Hx as (? & ? & ?%(data_keyed_decrypt _ _ p [])); auto].
    injection Eh as -> _ _. exact Hx.
  - intros Hm. split_and!; [exact Hm|done..|exact Eh].
  - apply (sends_drop _ _ _ _ _ 0). unfold level. cbn. rewrite Ec. destruct (dc_securityMode c); [done|]. intros h [= <-]. lia.
Qed.
Lemma cm_decrypt p : moves calm (dc_decrypt p).
Proof. unfold dc_decrypt. walk. intros c. apply decrypt_calm. Qed.
#[local] Hint Resolve cm_decrypt : vlan.
Lemma cm_exhausted : moves calm dc_exhausted.
Proof. unfold dc_exhausted. walk. Qed.
#[local] Hint Resolve cm_exhausted : vlan.

(** ** Sending *)

Lemma bind_dc_encrypt {B} p (k : bytes -> DC B) c :
  bind (dc_encrypt p) k c = k (fst (encrypt (dc_cipher c) p [])) (set_dc_cipher (snd (encrypt (dc_cipher c) p [])) c).
Proof. done. Qed.
Lemma bind_dc_decrypt {B} p (k : option bytes -> DC B) c :
  bind (dc_decrypt p) k c = k (fst (decrypt (dc_cipher c) p [])) (set_dc_cipher (snd (decrypt (dc_cipher c) p [])) c).
Proof. done. Qed.
Lemma calm_encrypted p c : calm c (set_dc_cipher (snd (encrypt (dc_cipher c) p [])) c).
Proof.
  split_and!; [by short|done|]. intros [Hc Hx]. pose proof (encrypt_cases (dc_cipher c) p Hc) as He.
  pose proof (fun m => data_keyed_encrypt m (dc_cipher c) p []) as Hk.
  destruct (encrypt (dc_cipher c) p []) as [enc k']. destruct He as (Hc' & Eh & He). cbn [snd] in *.
  split; [split; [exact Hc'|]|split].
  - cbn. destruct (dc_securityMode c); [|by destruct Hx as (? & ? & ?%Hk); auto]. injection Eh as -> _ _. exact Hx.
  - intros Hm. split_and!; [exact Hm|done..|exact Eh].
  - apply (sends_drop _ _ _ _ _ 0). unfold level. cbn. destruct (dc_securityMode c); [done|]. intros h [= <-].
    destruct He as [[_ ->]|(_ & _ & _ & E)]; lia.
Qed.
Lemma send_frame_run t body c :
  snd (dc_send_frame t body c) =
  if (len body <=? MAX_TCP_MSG_PAYLOAD) && (len (tc_sendBuf (dc_conn c)) + 3 + len body <=? MAX_TCP_SEND_BUF)
  then set_dc_conn (set_tc_sendBuf (tc_sendBuf (dc_conn c) ++ frame t body) (dc_conn c)) c
  else set_dc_sendFailurePending true (set_dc_conn (dc_conn c) c).
Proof.
  unfold dc_send_frame, dc_step. rewrite bind_assoc, bind_gets, bind_assoc, bind_modify. unfold bind, ret.
  rewrite sendTcpMsg_spec. by destruct (_ && _).
Qed.
(** A frame sent after an encryption under the session's cipher. *)
Lemma send_sealed t body p c : let enc := fst (encrypt (dc_cipher c) p []) in
  (t = MSG_ENCRYPTED /\ body = enc) \/ (t = MSG_DATA_CHANNEL_INIT /\ body = writeU32BE (dc_secureSessionId c) ++ enc) ->
  enc <> [] -> calm c (snd (dc_send_frame t body (set_dc_cipher (snd (encrypt (dc_cipher c) p [])) c))).
Proof.
  cbv zeta. intros Hb Hne. pose proof (calm_encrypted p c) as (E0 & E1 & E2). rewrite send_frame_run.
  destruct (_ && _); [|split_and!; [exact E0|exact E1|exact E2]]. split_and!; [exact E0|exact E1|]. intros Hc.
  destruct (E2 Hc) as (Hc' & Hk & _). split; [exact Hc'|]. split; [exact Hk|].
  pose proof (encrypt_cases (dc_cipher c) p (proj1 Hc)) as He. destruct (encrypt (dc_cipher c) p []) as [enc k'].
  cbn [fst snd] in *. destruct He as (_ & _ & [[-> _]|(Hi & Hl & -> & En)]); [done|].
  apply sends_frame. apply (run_one _ _ _ _ (m_sendCounter (dc_cipher c))); [|lia|].
  - split; [exact Hi|]. split; [exact Hl|]. exists p. by destruct Hb as [[-> ->]|[-> ->]]; [left|right].
  - unfold level. cbn. destruct (dc_securityMode c); [done|]. intros h [= <-]. lia.
Qed.
Lemma cm_sendMsg t body : t <> MSG_DATA_CHANNEL_INIT -> moves calm (dc_sendMsg t body).
Proof.
  intros Ht c. unfold dc_sendMsg. rewrite bind_gets.
  destruct (negb (tc_connected (dc_conn c)) || _) eqn:E1; [done|].
  destruct (MAX_TCP_MSG_PAYLOAD <? len body); [done|]. bools.
  rewrite bool_decide_eq_true_2, (proj2 (Z.eqb_neq t _)) by done. cbn [andb negb]. rewrite bind_dc_encrypt.
  case_bool_decide; [etrans; [apply calm_encrypted|apply cm_exhausted]|].
  case_match; [apply calm_encrypted|]. apply send_sealed; [by left|done].
Qed.
Lemma cm_sendInit : moves calm dc_sendInit.
Proof.
  intros c. unfold dc_sendInit. rewrite bind_gets. destruct (bool_decide _) eqn:Em; cbn [negb]; [|apply cm_reset].
  bools. rewrite bind_gets, bind_dc_encrypt.
  case_bool_decide; [etrans; [apply calm_encrypted|apply cm_exhausted]|].
  rewrite bind_gets. apply send_sealed; [by right|done].
Qed.
#[local] Hint Resolve cm_sendInit : vlan.
#[local] Hint Extern 1 (moves calm (dc_sendMsg _ _)) => by apply cm_sendMsg : vlan.

(** ** Receiving *)

Lemma cm_fail : moves calm failDataChannelFrame.
Proof. unfold failDataChannelFrame. walk. Qed.
#[local] Hint Resolve cm_fail : vlan.
Lemma cm_relay p : moves calm (dc_on_relay_data p).
Proof. unfold dc_on_relay_data. walk. Qed.
#[local] Hint Resolve cm_relay : vlan.
Lemma cm_dispatch t p : t <> MSG_DATA_CHANNEL_ACK -> moves calm (dc_dispatch t p).
Proof. intros Ht. unfold dc_dispatch. rewrite (proj2 (Z.eqb_neq t _)) by done. walk. Qed.

(** The one way a channel becomes established. *)
Record acknowledged (c : CliDataChannel) (t : Z) (payload : bytes) : Prop := mkAcknowledged {
  ak_type : t = MSG_ENCRYPTED;
  ak_mode : dc_securityMode c = Secure;
  ak_plain : fst (decrypt (dc_cipher c) payload []) = Some [MSG_DATA_CHANNEL_ACK]
}.
Lemma ack_size inner : rs_status (dc_validate MSG_DATA_CHANNEL_ACK inner) = Valid -> inner = [].
Proof.
  unfold dc_validate, validateServerDataPayload. destruct (bool_decide (inner = [])) eqn:E; bools; [done|].
  rewrite bool_decide_eq_false_2 by done. rewrite andb_false_r. cbv zeta.
  change (MSG_DATA_CHANNEL_ACK =? MSG_ENCRYPTED) with false.
  change ((MSG_DATA_CHANNEL_ACK =? MSG_DATA_CHANNEL_ACK) || (MSG_DATA_CHANNEL_ACK =? MSG_PONG)) with true.
  cbv iota. unfold fixedSize. pose proof (len_nonneg inner).
  rewrite (proj2 (Z.ltb_ge (len inner) 0)) by lia.
  destruct (0 <? len inner) eqn:E0; [done|]. bools. intros _. apply len_zero_nil. lia.
Qed.
Lemma frame_calm t payload c :
  calm c (snd (dc_frame t payload c)) \/
  (acknowledged c t payload /\ shorter c (snd (dc_frame t payload c)) /\ sealing c (snd (dc_frame t payload c))).
Proof.
  unfold dc_frame. rewrite bind_gets.
  assert (forall m : DC bool, moves calm m -> calm c (snd (m c)) \/
    (acknowledged c t payload /\ shorter c (snd (m c)) /\ sealing c (snd (m c)))) as Hcalm by (intros m Hm; left; apply Hm).
  destruct (rs_status (dc_validate t payload)); [|apply Hcalm; walk..].
  destruct (Z.eqb_spec t MSG_ENCRYPTED) as [->|]; [|apply Hcalm; walk].
  destruct (bool_decide _) eqn:Em; cbn [negb]; [|apply Hcalm; walk]. bools.
  rewrite bind_dc_decrypt.
  set (c1 := set_dc_cipher _ c).
  assert (calm c c1) as Hc1.
  { apply decrypt_calm. }
  assert (forall m : DC bool, moves calm m -> calm c (snd (m c1)) \/
    (acknowledged c MSG_ENCRYPTED payload /\ shorter c (snd (m c1)) /\ sealing c (snd (m c1)))) as Hcalm1
    by (intros m Hm; left; etrans; [exact Hc1|apply Hm]).
  destruct (fst (decrypt _ _ _)) as [[|ti inner]|] eqn:Ed; [apply Hcalm1; walk| |apply Hcalm1; walk].
  destruct (rs_status (dc_validate ti inner)) eqn:Ev; [|apply Hcalm1; walk..].
  destruct (Z.eq_dec ti MSG_DATA_CHANNEL_ACK) as [->|Ht]; [|apply Hcalm1; by apply cm_dispatch].
  right. apply ack_size in Ev as ->. split; [by constructor|].
  unfold dc_dispatch. rewrite Z.eqb_refl, bind_modify.
  match goal with |- shorter _ (snd (?m ?x)) /\ _ => assert (calm x (snd (m x))) as (S1 & _ & S2)
    by (refine ((_ : moves calm m) x); walk) end.
  split; [exact S1|]. transitivity c1; [exact (proj2 (proj2 Hc1))|]. etrans; [|exact S2].
  apply sealing_beside; [done..|by exists 0%nat].
Qed.
Lemma process_calm t payload c :
  calm c (snd (dc_processMessage t payload c)) \/
  (acknowledged c t payload /\ shorter c (snd (dc_processMessage t payload c)) /\
   sealing c (snd (dc_processMessage t payload c))).
Proof.
  unfold dc_processMessage, catch. pose proof (frame_calm t payload c) as Hf.
  destruct (dc_frame t payload c) as [[b|] c']; cbn [snd] in *; [exact Hf|].
  assert (calm c' (snd ((failDataChannelFrame ;;; ret false) c'))) as Ht
    by (match goal with |- calm ?x (snd (?m ?x)) => refine ((_ : moves calm m) x); walk end).
  destruct Hf as [Hf|(Ha & Hl & Hf)]; [left; by etrans|right]. destruct Ht as (T1 & _ & T2).
  split_and!; [exact Ha|unfold shorter in *; intuition congruence|by etrans].
Qed.

(** ** The receive loop *)

Lemma consumed_sealing n c :
  let c' := set_dc_conn (set_tc_recvBuf (drop n (tc_recvBuf (dc_conn c))) (dc_conn c)) c in
  sealing c c' /\ length (tc_recvBuf (dc_conn c')) = (length (tc_recvBuf (dc_conn c)) - n)%nat.
Proof.
  cbn. split; [apply sealing_beside; [done..|by exists 0%nat]|]. by rewrite length_drop.
Qed.
Lemma process_sealing t payload c :
  sealing c (snd (dc_processMessage t payload c)) /\ shorter c (snd (dc_processMessage t payload c)).
Proof. by destruct (process_calm t payload c) as [(? & _ & ?)|(_ & ? & ?)]. Qed.
Lemma loop_sealing fuel : moves sealing (dc_recv_loop fuel).
Proof.
  induction fuel as [|n IH]; intros c; cbn [dc_recv_loop]; [done|].
  rewrite bind_gets. destruct (_ <? 3); [done|]. destruct (pr_status _); [done| |apply cm_fail].
  rewrite bind_modify.
  match goal with |- sealing c (snd (_ ?x)) => transitivity x; [apply consumed_sealing|set (c1 := x)] end.
  pose proof (process_sealing (pr_msgType (probeTcpFrame (Some (tc_recvBuf (dc_conn c))) (len (tc_recvBuf (dc_conn c)))))
    (slice 3 (pr_payloadLength (probeTcpFrame (Some (tc_recvBuf (dc_conn c))) (len (tc_recvBuf (dc_conn c)))))
       (tc_recvBuf (dc_conn c))) c1) as [Hs _].
  unfold bind at 1. destruct (dc_processMessage _ _ c1) as [[go|] c2]; [|exact Hs]. cbn [snd] in Hs.
  transitivity c2; [exact Hs|]. destruct (negb go); [done|]. rewrite bind_gets. destruct (negb _); [done|apply IH].
Qed.
(** The loop ends: the length of the receive buffer is enough fuel. *)
Lemma loop_fuel fuel k c :
  bytes_ok (tc_recvBuf (dc_conn c)) -> (length (tc_recvBuf (dc_conn c)) <= fuel)%nat ->
  dc_recv_loop (fuel + k) c = dc_recv_loop fuel c.
Proof.
  revert c. induction fuel as [|fuel IH]; intros c Hb Hl.
  - destruct k as [|k]; [done|]. cbn [Nat.add dc_recv_loop]. rewrite bind_gets.
    by rewrite (proj2 (Z.ltb_lt _ 3)) by (unfold len; lia).
  - cbn [Nat.add dc_recv_loop]. rewrite !bind_gets. set (buf := tc_recvBuf (dc_conn c)) in *.
    destruct (Z.ltb_spec (len buf) 3); [done|]. destruct (pr_status _) eqn:Es; [done| |done].
    pose proof (ready_length buf Hb ltac:(lia) Es) as Hf. rewrite !bind_modify. cbv zeta.
    match goal with |- bind ?m _ ?x = _ => pose proof (process_sealing
      (pr_msgType (probeTcpFrame (Some buf) (len buf)))
      (slice 3 (pr_payloadLength (probeTcpFrame (Some buf) (len buf))) buf) x) as [_ Hs] end.
    unfold bind at 1 3. destruct (dc_processMessage _ _ _) as [[go|] c1]; [|done]. cbn [snd] in Hs.
    destruct (negb go); [done|]. rewrite !bind_gets. destruct (negb _); [done|].
    apply IH; destruct Hs as [E|E]; rewrite E; cbn.
    + by apply Forall_drop.
    + constructor.
    + rewrite length_drop. unfold buf in *. lia.
    + lia.
Qed.

(** ** The whole interface *)

Definition dc_receives (call : ChannelCall) : bool :=
  match call with DcReadable _ => true | _ => false end.
Definition dc_installs (call : ChannelCall) : bool :=
  match call with DcInstall _ _ => true | _ => false end.
Lemma cm_call call : dc_receives call = false -> dc_installs call = false -> moves calm (dc_call call).
Proof.
  intros Hr Hi. destruct call; try discriminate; cbn [dc_call];
    unfold dc_sendRelayData, dc_sendPing, dc_onWritable, dc_checkTimeouts; walk.
Qed.
Lemma seal_call call : dc_installs call = false -> moves sealing (dc_call call).
Proof.
  intros Hi c. destruct (dc_receives call) eqn:E; [|by apply cm_call].
  destruct call as [| | | | | |received| | |]; try discriminate. cbn [dc_call]. unfold dc_onReadable.
  rewrite bind_gets. unfold dc_step. rewrite bind_assoc, bind_gets, bind_assoc, bind_modify.
  unfold bind at 1, ret at 1.
  match goal with |- sealing c (snd (_ ?x)) => transitivity x end.
  { apply sealing_beside; [done..|]. exists 0%nat. cbn. unfold readData. by case_match. }
  destruct (_ <=? 0); [apply cm_fail|]. rewrite bind_gets. apply loop_sealing.
Qed.
Lemma context_call call : keeps context_ok (dc_call call).
Proof.
  intros c Hc. destruct (dc_installs call) eqn:E; [|by apply seal_call].
  destruct call as [| |sid master| | | | | | |]; try discriminate. cbn [dc_call].
  pose proof (proj1 (install_ok sid master c) Hc) as Hi. unfold bind.
  by destruct (dc_installSecureSession sid master c) as [[?|] c'].
Qed.
Lemma installs_quietly call c : dc_installs call = true ->
  dc_conn (snd (dc_call call c)) = dc_conn c /\ dc_established (snd (dc_call call c)) = dc_established c.
Proof.
  intros E. destruct call as [| |sid master| | | | | | |]; try discriminate. cbn [dc_call].
  pose proof (proj2 (install_ok sid master c)) as Hi. unfold bind.
  by destruct (dc_installSecureSession sid master c) as [[?|] c'].
Qed.
Lemma context_ok_life calls now : context_ok (dc_life calls now).
Proof.
  unfold dc_life. assert (context_ok (CliDataChannel_init now)) as Hi by (split; [unfold counter_ok, UINT64_MAX; cbn; lia|done]).
  revert Hi. generalize (CliDataChannel_init now).
  induction calls as [|call calls IH]; intros c Hc; [exact Hc|]. apply IH. by apply context_call.
Qed.
(** C12: the data channel never speaks or listens in the clear.  In every state
    it can reach, a configured channel has a non-zero session id, a 32-octet
    master secret and a cipher with that master's data keys; it is configured
    by installing a session, which sends nothing.  Whatever else it is then
    asked to do or receives, what it adds to its send buffer are whole frames,
    each the lock of a message under the key and nonce seed of that cipher (after
    the session id, for the one that opens the connection), with counters that
    rise from the cipher's on and stay below the one it is left with.  It
    counts as established only after a frame that decrypts, under its own
    cipher, to exactly the acknowledgement. *)
Theorem data_channel_sealed calls now :
  let c := dc_life calls now in
  context_ok c /\
  (forall call, let c' := snd (dc_call call c) in
     if dc_installs call then dc_conn c' = dc_conn c /\ dc_established c' = dc_established c
     else kept c c' /\ exists n fs,
       sealed_run (dc_cipher c) (dc_secureSessionId c) (m_sendCounter (dc_cipher c)) (level c') fs /\
       tc_sendBuf (dc_conn c') = drop n (tc_sendBuf (dc_conn c) ++ concat fs)) /\
  (dc_established c = false ->
     (forall call, dc_receives call = false -> dc_established (snd (dc_call call c)) = false) /\
     (forall t payload, dc_established (snd (dc_processMessage t payload c)) = true ->
        acknowledged c t payload)).
Proof.
  pose proof (context_ok_life calls now) as Hc. split_and!; [exact Hc| |].
  - intros call. cbv zeta. destruct (dc_installs call) eqn:Ei; [by apply installs_quietly|].
    destruct (seal_call call Ei _ Hc) as (_ & Hk & n & fs & _ & Hr & E). split; [exact Hk|]. by exists n, fs.
  - intros He. split.
    + intros call Hr. destruct (dc_installs call) eqn:Ei; [by rewrite (proj2 (installs_quietly call _ Ei))|].
      apply not_true_is_false. intros E. destruct (cm_call call Hr Ei (dc_life calls now)) as (_ & Hk & _).
      specialize (Hk E). congruence.
    + intros t payload E. destruct (process_calm t payload (dc_life calls now)) as [(_ & Hk & _)|[Ha _]]; [|exact Ha].
      specialize (Hk E). congruence.
Qed.
End Channel.

(** ** Trying again *)

(** a reconnect that fails at once is the last.  When the retry of
    [checkTimeouts] is due and the connection attempt fails immediately (no
    socket, no route), the channel is left closed with no retry scheduled, and
    no later check, at any time and whatever the network does, changes
    anything: the channel is not opened again until the application calls
    [connectTo]. *)
Theorem data_channel_gives_up `{Crypto, ChannelApp} fd c :
  dc_securityMode c = Secure -> dc_sendFailurePending c = false -> dc_established c = false ->
  tc_fd (dc_conn c) = SOCK_INVALID -> dc_needReconnect c = true -> dc_reconnectTime c <= dc_now c ->
  let c1 := snd (dc_checkTimeouts fd false c) in
  tc_fd (dc_conn c1) = SOCK_INVALID /\ dc_needReconnect c1 = false /\
  forall now fd' ok, let c2 := set_dc_now now c1 in snd (dc_checkTimeouts fd' ok c2) = c2.
Proof.
  intros Hm Hs He Hf Hn Ht c1.
  assert (exists h p q e t, c1 = set_dc_needReconnect false (set_dc_established false
    (set_dc_host h (set_dc_port p (set_dc_peerId q (set_dc_conn t (set_dc_events e c)))))) /\
    tc_fd t = SOCK_INVALID) as (h & p & q & e & t & E & Et).
  { unfold c1, dc_checkTimeouts. rewrite bind_gets, Hs, Hn, (proj2 (Z.leb_le _ _)), Hf by done.
    change (SOCK_INVALID =? SOCK_INVALID) with true. rewrite andb_true_r. cbn [andb when].
    destruct c as [conn host port peer est need fail time mode sid master cipher now events].
    cbn [dc_securityMode dc_sendFailurePending dc_established dc_conn dc_needReconnect] in *. subst mode fail est need.
    destruct (negb (peer =? 0)) eqn:Ep; unfold dc_connectTo, dc_step, bind, modify, gets, ret, when;
      cbn [dc_peerId]; rewrite Ep; cbn.
    - exists host, port, peer, events, (snd (conn_connectTo fd false conn)).
      split; [done|]. unfold conn_connectTo. by destruct (fd =? SOCK_INVALID).
    - by exists host, port, peer, events, conn. }
  rewrite E. split_and!; [exact Et|done|]. intros now fd' ok c2. unfold c2, dc_checkTimeouts.
  rewrite bind_gets. cbn. rewrite Hs. done.
Qed.

(** ** An instance: the channel opens and is acknowledged *)

#[local] Existing Instances ToyCrypto ToyCryptoLaws silent_channel_app.
Definition demo_channel_calls : list ChannelCall :=
  [DcInstall 7 (replicate 32 5); DcConnect [] 9000 42 3 true; DcWritable 0 0 false].
Definition demo_ack : bytes :=
  fst (encrypt (cipher_init cipher_empty (replicate 32 5) false "data") [MSG_DATA_CHANNEL_ACK] []).
Lemma silent_calm e : moves calm (on_channel_event e).
Proof. intros c. change (calm c c). reflexivity. Qed.
Lemma data_channel_sealed_witness :
  dc_established (snd (dc_processMessage MSG_ENCRYPTED demo_ack (dc_life demo_channel_calls 100))) = true /\
  dc_securityMode (dc_life demo_channel_calls 100) = Secure.
Proof.
  assert (dc_established (snd (dc_processMessage MSG_ENCRYPTED demo_ack (dc_life demo_channel_calls 100))) = true)
    as E by by vm_compute.
  split; [exact E|].
  destruct (data_channel_sealed silent_calm demo_channel_calls 100) as (_ & _ & H).
  exact (ak_mode _ _ _ (proj2 (H ltac:(by vm_compute)) MSG_ENCRYPTED demo_ack E)).
Defined.
(** The first connection fails later, and a retry is scheduled; it fails at once. *)
Definition demo_offline : CliDataChannel :=
  dc_life ([DcInstall 7 (replicate 32 5); DcConnect [] 9000 42 3 true; DcWritable 1 0 false; DcPassTime 5000]) 100.
Lemma data_channel_gives_up_witness :
  dc_peerId demo_offline = 42 /\ dc_needReconnect demo_offline = true /\
  dc_needReconnect (snd (dc_checkTimeouts 3 false demo_offline)) = false.
Proof.
  split; [by vm_compute|]. split; [by vm_compute|].
  apply (data_channel_gives_up 3 demo_offline); by vm_compute.
Defined.
