(* ===== verification/AuthKdf.v ===== *)
(** * [common/auth_kdf_task.h]: [class AuthKdfTask]

    One worker thread per client computes Argon2 hashes.  The network thread
    starts, cancels and polls; every critical section of [m_mutex] is one
    step here, so the interleavings of the two threads are the sequences of
    steps.  The hash itself runs outside the lock, between [run_take] and
    [run_publish]. *)

From S2P Require Import Prelude Protocol SecureFrame.

(** [struct Result]. *)
Record KdfResult := mkKdfResult { kr_hash : bytes; kr_success : bool; kr_elapsedMs : Z }.
Definition KdfResult_init : KdfResult := mkKdfResult (zeros 32) false 0.

(** Where the worker thread is: not created, at the top of its loop (waiting
    for [m_stop || m_queued]), hashing with its local copies, or returned. *)
Inductive Worker :=
  | NotStarted
  | AtWait
  | Hashing (generation : Z) (password salt : bytes)
  | Returned.

Record AuthKdfTask := mkTask {
  kt_stop : bool;
  kt_queued : bool;
  kt_ready : bool;
  kt_generation : Z;
  kt_password : bytes;
  kt_salt : bytes;
  kt_result : KdfResult;
  kt_worker : Worker
}.
Definition AuthKdfTask_init : AuthKdfTask :=
  mkTask false false false 0 [] (zeros 16) KdfResult_init NotStarted.

(** ** The network thread *)

Definition cancelLocked (t : AuthKdfTask) : AuthKdfTask :=
  mkTask (kt_stop t) false false (u64 (kt_generation t + 1)) [] (zeros 16)
    (mkKdfResult (zeros 32) (kr_success (kt_result t)) (kr_elapsedMs (kt_result t))) (kt_worker t).
Definition kdf_cancel (t : AuthKdfTask) : AuthKdfTask := cancelLocked t.
Definition kdf_start (password salt : bytes) (t : AuthKdfTask) : AuthKdfTask :=
  let t := cancelLocked t in
  mkTask (kt_stop t) true (kt_ready t) (kt_generation t) password (take 16 salt) (kt_result t)
    (match kt_worker t with NotStarted => AtWait | w => w end).
Definition kdf_poll (t : AuthKdfTask) : option KdfResult * AuthKdfTask :=
  if negb (kt_ready t) then (None, t) else
  let r := kt_result t in
  (Some r, mkTask (kt_stop t) (kt_queued t) false (kt_generation t) (kt_password t) (kt_salt t)
             (mkKdfResult (zeros 32) (kr_success r) (kr_elapsedMs r)) (kt_worker t)).
(** The destructor up to the join. *)
Definition kdf_stop (t : AuthKdfTask) : AuthKdfTask :=
  cancelLocked (mkTask true (kt_queued t) (kt_ready t) (kt_generation t) (kt_password t)
                  (kt_salt t) (kt_result t) (kt_worker t)).

(** ** The worker thread *)

(** From [m_wake.wait] to [lock.unlock()]; without [m_stop] or a queued
    request the wait goes on. *)
Definition run_take (t : AuthKdfTask) : AuthKdfTask :=
  match kt_worker t with
  | AtWait =>
      if kt_stop t then
        mkTask (kt_stop t) (kt_queued t) (kt_ready t) (kt_generation t) (kt_password t) (kt_salt t)
          (kt_result t) Returned
      else if kt_queued t then
        mkTask (kt_stop t) false (kt_ready t) (kt_generation t) [] (kt_salt t) (kt_result t)
          (Hashing (kt_generation t) (kt_password t) (kt_salt t))
      else t
  | _ => t
  end.

Section Hash.
Context `{Crypto}.

(** The local [result] of the worker: [alloc_ok] is the allocation of the
    Argon2 work area, [elapsed] the time the hash took. *)
Definition worker_result (alloc_ok : bool) (elapsed : Z) (password salt : bytes) : KdfResult :=
  match hashPasswordSalted alloc_ok password salt AUTH_KDF_PROFILE with
  | Some h => mkKdfResult h true elapsed
  | None => mkKdfResult (zeros 32) false elapsed
  end.
(** From [lock.lock()] to the end of the loop body. *)
Definition run_publish (alloc_ok : bool) (elapsed : Z) (t : AuthKdfTask) : AuthKdfTask :=
  match kt_worker t with
  | Hashing generation password salt =>
      if negb (kt_stop t) && (generation =? kt_generation t) then
        mkTask (kt_stop t) (kt_queued t) true (kt_generation t) (kt_password t) (kt_salt t)
          (worker_result alloc_ok elapsed password salt) AtWait
      else mkTask (kt_stop t) (kt_queued t) (kt_ready t) (kt_generation t) (kt_password t)
             (kt_salt t) (kt_result t) AtWait
  | _ => t
  end.

(** ** Interleavings *)

Inductive KdfStep :=
  | KCancel
  | KStart (password salt : bytes)
  | KPoll
  | KStop
  | KTake
  | KPublish (alloc_ok : bool) (elapsed : Z).
#[export] Instance KdfStep_eq_dec : EqDecision KdfStep.
Proof. solve_decision. Defined.
Definition kdf_step (t : AuthKdfTask) (e : KdfStep) : AuthKdfTask :=
  match e with
  | KCancel => kdf_cancel t
  | KStart password salt => kdf_start password salt t
  | KPoll => snd (kdf_poll t)
  | KStop => kdf_stop t
  | KTake => run_take t
  | KPublish alloc_ok elapsed => run_publish alloc_ok elapsed t
  end.
Definition kdf_run (es : list KdfStep) (t : AuthKdfTask) : AuthKdfTask := fold_left kdf_step es t.
End Hash.
