(* ===== verification/AuthKdfFacts.v ===== *)
(** * The key-derivation worker of [common/auth_kdf_task.h], in every interleaving

    A polled result belongs to the latest request, and a request that is not
    cancelled gets its result. *)

From S2P Require Import Prelude Protocol SecureFrame AuthKdf.

Section Facts.
Context `{Crypto}.

Definition after (es : list KdfStep) : AuthKdfTask := kdf_run es AuthKdfTask_init.
(** The steps that end a request. *)
Definition ends_request (e : KdfStep) : bool :=
  match e with KCancel | KStart _ _ | KStop => true | _ => false end.
Definition worker_step (e : KdfStep) : bool :=
  match e with KTake | KPublish _ _ => true | _ => false end.
(** [live_request es pw salt]: the latest start of [es] was for [pw] and [salt];
    since then nothing ended it and no poll took its result. *)
Definition live_request (es : list KdfStep) (pw salt : bytes) : Prop :=
  exists es1 es2, es = es1 ++ KStart pw salt :: es2 /\
    (forall e, e ∈ es2 -> ends_request e = false) /\
    (forall es3 es4, es2 = es3 ++ KPoll :: es4 ->
       fst (kdf_poll (after (es1 ++ KStart pw salt :: es3))) = None).

Lemma after_snoc es e : after (es ++ [e]) = kdf_step (after es) e.
Proof. unfold after, kdf_run. by rewrite fold_left_app. Qed.
Lemma pending_start es pw salt : live_request (es ++ [KStart pw salt]) pw salt.
Proof.
  exists es, []. split_and!; [done|by intros e ?%elem_of_nil|].
  intros es3 es4 E. by destruct es3.
Qed.
Lemma pending_step es e pw salt :
  live_request es pw salt -> ends_request e = false ->
  (e = KPoll -> fst (kdf_poll (after es)) = None) -> live_request (es ++ [e]) pw salt.
Proof.
  intros (es1 & es2 & -> & Hq & Hp) He Hpoll. exists es1, (es2 ++ [e]).
  rewrite <- app_assoc. split_and!; [done| |].
  - intros e' [?| ->%list_elem_of_singleton]%elem_of_app; [by apply Hq|done].
  - intros es3 es4 E. destruct es4 as [|x es4 _] using rev_ind.
    + apply app_inj_tail in E as [<- ->]. by apply Hpoll.
    + rewrite app_comm_cons, app_assoc in E. apply app_inj_tail in E as [E _]. by eapply Hp.
Qed.

(** ** The invariant of all interleavings *)

Record kdf_ok (es : list KdfStep) (t : AuthKdfTask) : Prop := mkKdfOk {
  ko_generation : 0 <= kt_generation t <= len es;
  ko_stop : kt_stop t = bool_decide (KStop ∈ es);
  ko_started : kt_queued t = true -> kt_worker t <> NotStarted;
  ko_queued : kt_queued t = true -> exists salt,
    kt_salt t = take 16 salt /\ live_request es (kt_password t) salt;
  ko_hashing : forall g pw s, kt_worker t = Hashing g pw s -> g <= kt_generation t /\
    (g = kt_generation t -> kt_queued t = false /\ kt_ready t = false /\
       exists salt, s = take 16 salt /\ live_request es pw salt);
  ko_ready : kt_ready t = true -> kt_queued t = false /\ exists pw salt alloc_ok elapsed,
    kt_result t = worker_result alloc_ok elapsed pw (take 16 salt) /\ live_request es pw salt;
  ko_returned : kt_worker t = Returned -> kt_stop t = true
}.


Lemma kdf_init_ok : kdf_ok [] (after []).
Proof. by constructor. Qed.

(** What a step that leaves the latest request alone must show. *)
Lemma bool_stop_snoc es e :
  bool_decide (KStop ∈ es ++ [e]) = bool_decide (KStop ∈ es) || bool_decide (KStop = e).
Proof.
  apply eq_true_iff_eq. rewrite orb_true_iff, !bool_decide_eq_true, elem_of_app, list_elem_of_singleton.
  done.
Qed.
Lemma bump (es : list KdfStep) (g : Z) : 0 <= g <= len es -> len es < 18446744073709551616 - 1 -> u64 (g + 1) = g + 1.
Proof. intros. unfold u64. apply Z.mod_small. lia. Qed.

Lemma cancel_ok es e t :
  kdf_ok es t -> len es < 18446744073709551616 - 1 -> e <> KStop ->
  kdf_ok (es ++ [e]) (cancelLocked t).
Proof.
  intros [Hg Hs _ _ Hh _ Hr] Hn He. unfold cancelLocked. constructor; cbn; try done.
  - rewrite (bump es) by done. lens.
  - rewrite bool_stop_snoc, (bool_decide_eq_false_2 (KStop = e)) by congruence. by rewrite orb_false_r.
  - intros g pw s E. rewrite (bump es) by done. destruct (Hh g pw s E) as [? _]. split; lia.
Qed.
(** A step that leaves the task and its request alone. *)
Lemma quiet_ok es e t :
  kdf_ok es t -> ends_request e = false -> (e = KPoll -> fst (kdf_poll (after es)) = None) ->
  kdf_ok (es ++ [e]) t.
Proof.
  intros [Hg Hs Hst Hq Hh Hrd Hr] He Hp.
  assert (forall pw salt, live_request es pw salt -> live_request (es ++ [e]) pw salt) as Hmono
    by (intros; by apply pending_step).
  constructor; try done; [lens| | | |].
  - rewrite bool_stop_snoc, (bool_decide_eq_false_2 (KStop = e)) by by intros <-. by rewrite orb_false_r.
  - intros Eq. destruct (Hq Eq) as (salt & ? & ?). eauto.
  - intros g pw s E. destruct (Hh g pw s E) as [? Hc]. split; [done|].
    intros Eg. destruct (Hc Eg) as (? & ? & salt & ? & ?). eauto 10.
  - intros Er. destruct (Hrd Er) as (? & pw & salt & a & el & ? & ?). eauto 10.
Qed.
Lemma kdf_step_ok es e :
  len es < 18446744073709551616 - 1 -> kdf_ok es (after es) -> kdf_ok (es ++ [e]) (after (es ++ [e])).
Proof.
  rewrite after_snoc. remember (after es) as t eqn:Et. intros Hn Hok.
  destruct e as [|pw salt| | | |a el]; cbn [kdf_step].
  - by apply cancel_ok.
  - pose proof (cancel_ok es (KStart pw salt) t Hok Hn) as [Hg Hs _ _ Hh _ Hr]; [done|].
    pose proof (pending_start es pw salt) as Hp.
    unfold kdf_start. constructor; cbn in *; try done.
    + by destruct (kt_worker t).
    + intros _. by exists salt.
    + intros g pw' s E. destruct (kt_worker t) eqn:Ew; try done. simplify_eq.
      destruct Hok as [Hg' _ _ _ Hh' _ _]. destruct (Hh' g pw' s Ew). rewrite (bump es _ Hg' Hn).
      split; [|intros]; lia.
    + by destruct (kt_worker t).
  - destruct (kt_ready t) eqn:Er.
    + destruct Hok as [Hg Hs Hst _ Hh Hrd Hr]. destruct (Hrd Er) as [Hq _].
      unfold kdf_poll. rewrite Er. constructor; cbn; try congruence; try done; [lens| |].
      * by rewrite bool_stop_snoc, orb_false_r.
      * intros g pw s E. destruct (Hh g pw s E) as [? Hcur]. split; [done|].
        intros ->. by destruct (Hcur eq_refl) as (_ & ? & _); congruence.
    + assert (kdf_poll t = (None, t)) as E by by (unfold kdf_poll; rewrite Er).
      rewrite E. apply quiet_ok; try done. intros _. by rewrite <- Et, E.
  - destruct Hok as [Hg Hs _ _ Hh _ Hr]. unfold kdf_stop, cancelLocked.
    constructor; cbn; try done.
    + rewrite (bump es _ Hg Hn). lens.
    + by rewrite bool_stop_snoc, orb_true_r.
    + intros g pw s E. rewrite (bump es _ Hg Hn). destruct (Hh g pw s E) as [? _]. split; lia.
  - unfold run_take. destruct (kt_worker t) eqn:Ew; try (by apply quiet_ok).
    destruct (kt_stop t) eqn:Es; [|destruct (kt_queued t) eqn:Eq; [|by apply quiet_ok]].
    all: apply (quiet_ok es KTake) in Hok as [Hg Hs Hst Hq Hh Hrd Hr]; try done.
    + constructor; cbn; try done. congruence.
    + destruct (Hq Eq) as (salt & E1 & E2).
      constructor; cbn; try done; [congruence| |].
      * intros g pw s [= <- <- <-]. split; [lia|]. intros _. split_and!; [done| |by eauto].
        destruct (kt_ready t) eqn:Er; [|done]. by destruct (Hrd eq_refl) as [? _]; congruence.
      * intros Er. by destruct (Hrd Er) as [? _]; congruence.
  - unfold run_publish. destruct (kt_worker t) as [| |g pw s|] eqn:Ew; try (by apply quiet_ok).
    apply (quiet_ok es (KPublish a el)) in Hok as [Hg Hs Hst Hq Hh Hrd Hr]; try done.
    destruct (Hh g pw s Ew) as [_ Hcur].
    destruct (negb (kt_stop t) && (g =? kt_generation t)) eqn:E; [|by constructor; cbn].
    bools. destruct Hcur as (Eq & _ & salt & -> & Hp); [done|].
    constructor; cbn; try done. intros _. split; [done|]. by exists pw, salt, a, el.
Qed.

Lemma after_ok es : len es < 18446744073709551616 -> kdf_ok es (after es).
Proof.
  induction es as [|e es IH] using rev_ind; intros Hn; [by apply kdf_init_ok|].
  rewrite len_app in Hn. unfold len at 2 in Hn. cbn in Hn. apply kdf_step_ok; [lia|]. apply IH. lia.
Qed.

(** ** Progress of a request *)

(** The request for [pw] and the 16 octets [s] is queued, being hashed, or
    done with a result published by one of the steps [l]. *)
Definition in_progress (pw s : bytes) (l : list KdfStep) (t : AuthKdfTask) : Prop :=
  kt_stop t = false /\
  ((kt_queued t = true /\ kt_password t = pw /\ kt_salt t = s /\ kt_ready t = false /\
    (kt_worker t = AtWait \/ exists g pw' s', kt_worker t = Hashing g pw' s' /\ g < kt_generation t)) \/
   (kt_queued t = false /\ kt_ready t = false /\ kt_worker t = Hashing (kt_generation t) pw s) \/
   (kt_queued t = false /\ kt_ready t = true /\ kt_worker t = AtWait /\
    exists a el, KPublish a el ∈ l /\ kt_result t = worker_result a el pw s)).

Lemma in_progress_start t pw salt es :
  kdf_ok es t -> len es < 18446744073709551616 - 1 -> kt_stop t = false ->
  in_progress pw (take 16 salt) [] (kdf_start pw salt t).
Proof.
  intros [Hg Hs Hst Hq Hh Hrd Hr] Hn Hstop. unfold kdf_start, cancelLocked, in_progress; cbn.
  split; [done|]. left. split_and!; try done.
  destruct (kt_worker t) eqn:Ew; try (by left).
  - right. do 3 eexists. split; [done|]. rewrite (bump es _ Hg Hn).
    destruct (Hh _ _ _ eq_refl) as [? _]. lia.
  - specialize (Hr eq_refl). congruence.
Qed.
Lemma in_progress_step pw s l t e :
  in_progress pw s l t -> worker_step e = true -> in_progress pw s (l ++ [e]) (kdf_step t e).
Proof.
  intros (Hs & Hp) He.
  assert (forall a el, KPublish a el ∈ l -> KPublish a el ∈ l ++ [e]) as Hmono
    by (intros; apply elem_of_app; by left).
  destruct e as [| | | | |a el]; try done; cbn [kdf_step]; unfold run_take, run_publish;
  destruct Hp as [(Hq & Hpw & Hsalt & Hr & [Hw|(g & pw' & s' & Hw & Hg)])|
                  [(Hq & Hr & Hw)|(Hq & Hr & Hw & a' & el' & Hin & Hres)]];
    rewrite Hw, ?Hs, ?Hq; unfold in_progress; cbn.
  - split; [done|]. right; left. by rewrite Hpw, Hsalt.
  - split; [done|]. left. eauto 10.
  - split; [done|]. right; left. done.
  - split; [done|]. right; right. eauto 10.
  - split; [done|]. left. eauto 10.
  - rewrite (proj2 (Z.eqb_neq _ _)) by lia. cbn. split; [done|]. left. split_and!; try done. by left.
  - rewrite Z.eqb_refl. cbn. split; [done|]. right; right. split_and!; try done.
    exists a, el. split; [apply elem_of_app; right; by apply list_elem_of_singleton|done].
  - split; [done|]. right; right. eauto 10.
Qed.
Lemma in_progress_run pw s l es t :
  in_progress pw s l t -> (forall e, e ∈ es -> worker_step e = true) ->
  in_progress pw s (l ++ es) (kdf_run es t).
Proof.
  revert l t. induction es as [|e es IH]; intros l t Hp He; [by rewrite app_nil_r|].
  change (kdf_run (e :: es) t) with (kdf_run es (kdf_step t e)).
  replace (l ++ e :: es) with ((l ++ [e]) ++ es) by by rewrite <- app_assoc.
  apply IH; [|by intros e' ?; apply He; right]. apply in_progress_step; [done|]. apply He. by left.
Qed.
Lemma in_progress_done pw s l t a1 e1 a2 e2 :
  in_progress pw s l t ->
  kt_ready (kdf_run [KPublish a1 e1; KTake; KPublish a2 e2] t) = true.
Proof.
  intros (Hs & Hp). unfold kdf_run. cbn [fold_left kdf_step].
  destruct Hp as [(Hq & Hpw & Hsalt & Hr & [Hw|(g & pw' & s' & Hw & Hg)])|
                  [(Hq & Hr & Hw)|(Hq & Hr & Hw & a' & el' & Hin & Hres)]].
  - unfold run_publish at 2. rewrite Hw. unfold run_take. rewrite Hw, Hs, Hq. unfold run_publish; cbn.
    by rewrite ?Hs, Z.eqb_refl.
  - unfold run_publish at 2. rewrite Hw, Hs. rewrite (proj2 (Z.eqb_neq _ _)) by lia. cbn.
    unfold run_take; cbn. rewrite ?Hs, ?Hq. unfold run_publish; cbn. by rewrite ?Hs, ?Z.eqb_refl.
  - unfold run_publish at 2. rewrite Hw, Hs, Z.eqb_refl. cbn.
    unfold run_take; cbn. rewrite ?Hs, ?Hq. by unfold run_publish; cbn.
  - unfold run_publish at 2. rewrite Hw. unfold run_take. rewrite Hw, Hs, Hq. unfold run_publish.
    by rewrite Hw.
Qed.

(** A request left alone is answered after two more turns of the worker. *)
Lemma request_answered es pw salt es2 a1 e1 a2 e2 :
  len es < 18446744073709551616 - 1 -> (KStop ∉ es) -> (forall e, e ∈ es2 -> worker_step e = true) ->
  exists alloc_ok elapsed,
    let turns := [KPublish a1 e1; KTake; KPublish a2 e2] in
    (KPublish alloc_ok elapsed ∈ es2 ++ turns) /\
    fst (kdf_poll (after (es ++ KStart pw salt :: es2 ++ turns))) =
      Some (worker_result alloc_ok elapsed pw (take 16 salt)).
Proof.
  intros Hn Hstop Hw. pose proof (after_ok es ltac:(lia)) as Hok.
  pose proof (ko_stop _ _ Hok) as Es. rewrite (bool_decide_eq_false_2 (KStop ∈ es)) in Es by done.
  pose proof (in_progress_start _ pw salt es Hok Hn Es) as Hs.
  set (turns := [KPublish a1 e1; KTake; KPublish a2 e2]).
  apply (in_progress_run _ _ _ es2) in Hs as Hm; [|done].
  apply (in_progress_run _ _ _ turns) in Hm as He.
  2: { intros e Hin. unfold turns in Hin. repeat (apply elem_of_cons in Hin as [->|Hin]; [done|]).
       by apply elem_of_nil in Hin. }
  apply (in_progress_done _ _ _ _ a1 e1 a2 e2) in Hm. fold turns in Hm.
  assert (after (es ++ KStart pw salt :: es2 ++ turns) =
          kdf_run turns (kdf_run es2 (kdf_start pw salt (after es)))) as E.
  { unfold after, kdf_run. by rewrite fold_left_app; cbn [fold_left]; rewrite fold_left_app. }
  destruct He as (_ & [(_ & _ & _ & Hr & _)|[(_ & Hr & _)|(_ & _ & _ & a & el & Hin & Hres)]]); try congruence.
  exists a, el. cbv zeta. fold turns. rewrite E. unfold kdf_poll. rewrite Hm. cbn [negb fst].
  by rewrite Hres.
Qed.

(** C23: the key-derivation task, for every interleaving of the network thread
    and the worker (of fewer than 2^64 critical sections).  A poll only ever
    returns the hash of the latest request, and only while that request is
    neither cancelled, replaced nor already answered.  Conversely a request
    that the network thread leaves alone is answered: whatever the worker was
    doing, after it finishes its current turn and takes one more, the poll
    returns a result for exactly this password and salt. *)
Theorem auth_kdf_latest es :
  len es < 18446744073709551616 - 1 ->
  (forall r, fst (kdf_poll (after es)) = Some r -> exists pw salt alloc_ok elapsed,
     live_request es pw salt /\ r = worker_result alloc_ok elapsed pw (take 16 salt)) /\
  (forall pw salt es2, (KStop ∉ es) -> (forall e, e ∈ es2 -> worker_step e = true) ->
     forall a1 e1 a2 e2, exists alloc_ok elapsed,
       let turns := [KPublish a1 e1; KTake; KPublish a2 e2] in
       (KPublish alloc_ok elapsed ∈ es2 ++ turns) /\
       fst (kdf_poll (after (es ++ KStart pw salt :: es2 ++ turns))) =
         Some (worker_result alloc_ok elapsed pw (take 16 salt))).
Proof.
  intros Hn. pose proof (after_ok es ltac:(lia)) as Hok. split.
  - intros r E. unfold kdf_poll in E. destruct (kt_ready (after es)) eqn:Er; [|done].
    cbn in E. injection E as <-. destruct (ko_ready _ _ Hok Er) as (_ & pw & salt & a & el & -> & Hp).
    by exists pw, salt, a, el.
  - intros pw salt es2 Hstop Hw a1 e1 a2 e2. by apply request_answered.
Qed.
End Facts.

#[local] Existing Instance ToyCrypto.
Lemma auth_kdf_latest_witness :
  let es := [KStart [1] (zeros 16); KTake; KCancel; KPublish true 5; KPoll] in
  len es < 18446744073709551616 - 1 /\
  fst (kdf_poll (after (es ++ KStart [2] (zeros 16) :: [KTake] ++ [KPublish true 1; KTake; KPublish true 2]))) =
    Some (worker_result true 1 [2] (zeros 16)) /\
  exists alloc_ok elapsed,
    fst (kdf_poll (after (es ++ KStart [2] (zeros 16) :: [KTake] ++ [KPublish true 1; KTake; KPublish true 2]))) =
    Some (worker_result alloc_ok elapsed [2] (take 16 (zeros 16))).
Proof.
  split; [by vm_compute|]. split; [by vm_compute|].
  destruct (proj2 (auth_kdf_latest [KStart [1] (zeros 16); KTake; KCancel; KPublish true 5; KPoll]
    ltac:(by vm_compute)) [2] (zeros 16) [KTake]
    ltac:(by apply (bool_decide_eq_true_1 _); vm_compute)
    ltac:(intros e ->%list_elem_of_singleton; done) true 1 true 2) as (a & el & _ & E).
  by exists a, el.
Defined.
