(* ===== verification/CliSignalState.v ===== *)
(** * [class CliSignalClient] of [client-cli/src/cli_net.cpp]: state

    The members of the class, grouped: the handshake ([ClientAuth]), the
    pending room request ([RoomRequest]), the room list with its partial
    snapshot ([RoomListView]) and the rest.  The callbacks the application
    installs are the class [ClientApp]: a program over the same client object,
    which it may call back into; every call is also logged in [sc_events].
    The clocks and the random source are read from the last fields. *)

From S2P Require Import Prelude Protocol ByteBuf Room SecureFrame SignalValidator Overlay TcpConn AuthKdf.

(** [struct CliRoomListItem]. *)
Record CliRoomListItem := mkItem {
  ci_roomId : Z;
  ci_roomName : bytes;
  ci_playerCount : Z;
  ci_maxPlayers : Z;
  ci_tcpPolicy : RoomTrafficPolicy;
  ci_udpPolicy : RoomTrafficPolicy;
  ci_passwordProtected : Z;
  ci_mtu : Z
}.
#[export] Instance CliRoomListItem_eq_dec : EqDecision CliRoomListItem.
Proof. solve_decision. Defined.
(** [struct PeerInfo] of [protocol.h]. *)
Record PeerInfo := mkPeerInfo {
  pi_peerId : Z;
  pi_virtualIP : Z;
  pi_transport : TransportType;
  pi_name : bytes
}.

(** The callbacks, with the arguments they are called with. *)
Inductive ClientEvent :=
  | OnConnected | OnDisconnected | OnConnectFailed (reason : bytes)
  | OnLoginResponse (peerId : Z) (resumeAccepted : bool)
  | OnRoomCreated (roomId virtualIP : Z) (tcpPolicy udpPolicy : RoomTrafficPolicy) (mtu : Z)
      (passwordProtected : bool) (leaseToken : bytes)
  | OnJoinResponse (roomId virtualIP : Z) (tcpPolicy udpPolicy : RoomTrafficPolicy) (mtu : Z)
      (passwordProtected : bool) (members : list PeerInfo) (leaseToken : bytes)
  | OnPeerJoined (info : PeerInfo) | OnPeerResumed (info : PeerInfo) | OnPeerLeft (peerId : Z)
  | OnRoomList (rooms : list CliRoomListItem) (pushed : bool)
  | OnRelayReady (peerId : Z)
  | OnRelayData (srcPeerId cls : Z) (data : bytes)
  | OnLogoutAck | OnServerPasswordRequired
  | OnSecureSessionEstablished (sessionId : Z) (master : bytes)
  | OnServerError (message : bytes) | OnRoomOperationFailure (message : bytes)
  | OnFatalAuthError (code : Z) (message : bytes)
  | OnServerRtt (rttMs : Z).

(** The handshake. *)
Record ClientAuth := mkAuth {
  hs_authSalt : bytes;
  hs_expectedServerProof : bytes;
  hs_serverPassword : bytes;
  hs_serverAuthRequired : bool;
  hs_secureReady : bool;
  hs_secureSessionId : Z;
  hs_clientNonce : bytes;
  hs_serverNonce : bytes;
  hs_clientPrivKey : bytes;
  hs_clientPubKey : bytes;
  hs_serverPubKey : bytes;
  hs_secureMaster : bytes;
  hs_secureCipher : SecureFrameCipher
}.
Definition set_hs_authSalt (v : bytes) (a : ClientAuth) : ClientAuth :=
  mkAuth v a.(hs_expectedServerProof) a.(hs_serverPassword) a.(hs_serverAuthRequired)
    a.(hs_secureReady) a.(hs_secureSessionId) a.(hs_clientNonce) a.(hs_serverNonce)
    a.(hs_clientPrivKey) a.(hs_clientPubKey) a.(hs_serverPubKey) a.(hs_secureMaster)
    a.(hs_secureCipher).
Definition set_hs_expectedServerProof (v : bytes) (a : ClientAuth) : ClientAuth :=
  mkAuth a.(hs_authSalt) v a.(hs_serverPassword) a.(hs_serverAuthRequired)
    a.(hs_secureReady) a.(hs_secureSessionId) a.(hs_clientNonce) a.(hs_serverNonce)
    a.(hs_clientPrivKey) a.(hs_clientPubKey) a.(hs_serverPubKey) a.(hs_secureMaster)
    a.(hs_secureCipher).
Definition set_hs_serverPassword (v : bytes) (a : ClientAuth) : ClientAuth :=
  mkAuth a.(hs_authSalt) a.(hs_expectedServerProof) v a.(hs_serverAuthRequired)
    a.(hs_secureReady) a.(hs_secureSessionId) a.(hs_clientNonce) a.(hs_serverNonce)
    a.(hs_clientPrivKey) a.(hs_clientPubKey) a.(hs_serverPubKey) a.(hs_secureMaster)
    a.(hs_secureCipher).
Definition set_hs_serverAuthRequired (v : bool) (a : ClientAuth) : ClientAuth :=
  mkAuth a.(hs_authSalt) a.(hs_expectedServerProof) a.(hs_serverPassword) v
    a.(hs_secureReady) a.(hs_secureSessionId) a.(hs_clientNonce) a.(hs_serverNonce)
    a.(hs_clientPrivKey) a.(hs_clientPubKey) a.(hs_serverPubKey) a.(hs_secureMaster)
    a.(hs_secureCipher).
Definition set_hs_secureReady (v : bool) (a : ClientAuth) : ClientAuth :=
  mkAuth a.(hs_authSalt) a.(hs_expectedServerProof) a.(hs_serverPassword)
    a.(hs_serverAuthRequired) v a.(hs_secureSessionId) a.(hs_clientNonce) a.(hs_serverNonce)
    a.(hs_clientPrivKey) a.(hs_clientPubKey) a.(hs_serverPubKey) a.(hs_secureMaster)
    a.(hs_secureCipher).
Definition set_hs_secureSessionId (v : Z) (a : ClientAuth) : ClientAuth :=
  mkAuth a.(hs_authSalt) a.(hs_expectedServerProof) a.(hs_serverPassword)
    a.(hs_serverAuthRequired) a.(hs_secureReady) v a.(hs_clientNonce) a.(hs_serverNonce)
    a.(hs_clientPrivKey) a.(hs_clientPubKey) a.(hs_serverPubKey) a.(hs_secureMaster)
    a.(hs_secureCipher).
Definition set_hs_clientNonce (v : bytes) (a : ClientAuth) : ClientAuth :=
  mkAuth a.(hs_authSalt) a.(hs_expectedServerProof) a.(hs_serverPassword)
    a.(hs_serverAuthRequired) a.(hs_secureReady) a.(hs_secureSessionId) v a.(hs_serverNonce)
    a.(hs_clientPrivKey) a.(hs_clientPubKey) a.(hs_serverPubKey) a.(hs_secureMaster)
    a.(hs_secureCipher).
Definition set_hs_serverNonce (v : bytes) (a : ClientAuth) : ClientAuth :=
  mkAuth a.(hs_authSalt) a.(hs_expectedServerProof) a.(hs_serverPassword)
    a.(hs_serverAuthRequired) a.(hs_secureReady) a.(hs_secureSessionId) a.(hs_clientNonce) v
    a.(hs_clientPrivKey) a.(hs_clientPubKey) a.(hs_serverPubKey) a.(hs_secureMaster)
    a.(hs_secureCipher).
Definition set_hs_clientPrivKey (v : bytes) (a : ClientAuth) : ClientAuth :=
  mkAuth a.(hs_authSalt) a.(hs_expectedServerProof) a.(hs_serverPassword)
    a.(hs_serverAuthRequired) a.(hs_secureReady) a.(hs_secureSessionId) a.(hs_clientNonce)
    a.(hs_serverNonce) v a.(hs_clientPubKey) a.(hs_serverPubKey) a.(hs_secureMaster)
    a.(hs_secureCipher).
Definition set_hs_clientPubKey (v : bytes) (a : ClientAuth) : ClientAuth :=
  mkAuth a.(hs_authSalt) a.(hs_expectedServerProof) a.(hs_serverPassword)
    a.(hs_serverAuthRequired) a.(hs_secureReady) a.(hs_secureSessionId) a.(hs_clientNonce)
    a.(hs_serverNonce) a.(hs_clientPrivKey) v a.(hs_serverPubKey) a.(hs_secureMaster)
    a.(hs_secureCipher).
Definition set_hs_serverPubKey (v : bytes) (a : ClientAuth) : ClientAuth :=
  mkAuth a.(hs_authSalt) a.(hs_expectedServerProof) a.(hs_serverPassword)
    a.(hs_serverAuthRequired) a.(hs_secureReady) a.(hs_secureSessionId) a.(hs_clientNonce)
    a.(hs_serverNonce) a.(hs_clientPrivKey) a.(hs_clientPubKey) v a.(hs_secureMaster)
    a.(hs_secureCipher).
Definition set_hs_secureMaster (v : bytes) (a : ClientAuth) : ClientAuth :=
  mkAuth a.(hs_authSalt) a.(hs_expectedServerProof) a.(hs_serverPassword)
    a.(hs_serverAuthRequired) a.(hs_secureReady) a.(hs_secureSessionId) a.(hs_clientNonce)
    a.(hs_serverNonce) a.(hs_clientPrivKey) a.(hs_clientPubKey) a.(hs_serverPubKey) v
    a.(hs_secureCipher).
Definition set_hs_secureCipher (v : SecureFrameCipher) (a : ClientAuth) : ClientAuth :=
  mkAuth a.(hs_authSalt) a.(hs_expectedServerProof) a.(hs_serverPassword)
    a.(hs_serverAuthRequired) a.(hs_secureReady) a.(hs_secureSessionId) a.(hs_clientNonce)
    a.(hs_serverNonce) a.(hs_clientPrivKey) a.(hs_clientPubKey) a.(hs_serverPubKey)
    a.(hs_secureMaster) v.
(** The room request under way. *)
Record RoomRequest := mkRequest {
  rr_pendingRoomPassword : bytes;
  rr_pendingCreate : bytes;
  rr_pendingCreateMtu : Z;
  rr_roomChallenge : bytes;
  rr_hasPendingAuth : bool;
  rr_roomOperationPending : bool;
  rr_discardRoomResponses : bool;
  rr_roomRequestStarted : Z
}.
Definition set_rr_pendingRoomPassword (v : bytes) (r : RoomRequest) : RoomRequest :=
  mkRequest v r.(rr_pendingCreate) r.(rr_pendingCreateMtu) r.(rr_roomChallenge)
    r.(rr_hasPendingAuth) r.(rr_roomOperationPending) r.(rr_discardRoomResponses)
    r.(rr_roomRequestStarted).
Definition set_rr_pendingCreate (v : bytes) (r : RoomRequest) : RoomRequest :=
  mkRequest r.(rr_pendingRoomPassword) v r.(rr_pendingCreateMtu) r.(rr_roomChallenge)
    r.(rr_hasPendingAuth) r.(rr_roomOperationPending) r.(rr_discardRoomResponses)
    r.(rr_roomRequestStarted).
Definition set_rr_pendingCreateMtu (v : Z) (r : RoomRequest) : RoomRequest :=
  mkRequest r.(rr_pendingRoomPassword) r.(rr_pendingCreate) v r.(rr_roomChallenge)
    r.(rr_hasPendingAuth) r.(rr_roomOperationPending) r.(rr_discardRoomResponses)
    r.(rr_roomRequestStarted).
Definition set_rr_roomChallenge (v : bytes) (r : RoomRequest) : RoomRequest :=
  mkRequest r.(rr_pendingRoomPassword) r.(rr_pendingCreate) r.(rr_pendingCreateMtu) v
    r.(rr_hasPendingAuth) r.(rr_roomOperationPending) r.(rr_discardRoomResponses)
    r.(rr_roomRequestStarted).
Definition set_rr_hasPendingAuth (v : bool) (r : RoomRequest) : RoomRequest :=
  mkRequest r.(rr_pendingRoomPassword) r.(rr_pendingCreate) r.(rr_pendingCreateMtu)
    r.(rr_roomChallenge) v r.(rr_roomOperationPending) r.(rr_discardRoomResponses)
    r.(rr_roomRequestStarted).
Definition set_rr_roomOperationPending (v : bool) (r : RoomRequest) : RoomRequest :=
  mkRequest r.(rr_pendingRoomPassword) r.(rr_pendingCreate) r.(rr_pendingCreateMtu)
    r.(rr_roomChallenge) r.(rr_hasPendingAuth) v r.(rr_discardRoomResponses)
    r.(rr_roomRequestStarted).
Definition set_rr_discardRoomResponses (v : bool) (r : RoomRequest) : RoomRequest :=
  mkRequest r.(rr_pendingRoomPassword) r.(rr_pendingCreate) r.(rr_pendingCreateMtu)
    r.(rr_roomChallenge) r.(rr_hasPendingAuth) r.(rr_roomOperationPending) v
    r.(rr_roomRequestStarted).
Definition set_rr_roomRequestStarted (v : Z) (r : RoomRequest) : RoomRequest :=
  mkRequest r.(rr_pendingRoomPassword) r.(rr_pendingCreate) r.(rr_pendingCreateMtu)
    r.(rr_roomChallenge) r.(rr_hasPendingAuth) r.(rr_roomOperationPending)
    r.(rr_discardRoomResponses) v.
(** The replicated room list. *)
Record RoomListView := mkView {
  rv_roomListRevision : Z;
  rv_snapshotRevision : Z;
  rv_snapshotPageCount : Z;
  rv_snapshotNextPage : Z;
  rv_roomListCache : gmap Z CliRoomListItem;
  rv_snapshotRooms : gmap Z CliRoomListItem
}.
Definition set_rv_roomListRevision (v : Z) (w : RoomListView) : RoomListView :=
  mkView v w.(rv_snapshotRevision) w.(rv_snapshotPageCount) w.(rv_snapshotNextPage)
    w.(rv_roomListCache) w.(rv_snapshotRooms).
Definition set_rv_snapshotRevision (v : Z) (w : RoomListView) : RoomListView :=
  mkView w.(rv_roomListRevision) v w.(rv_snapshotPageCount) w.(rv_snapshotNextPage)
    w.(rv_roomListCache) w.(rv_snapshotRooms).
Definition set_rv_snapshotPageCount (v : Z) (w : RoomListView) : RoomListView :=
  mkView w.(rv_roomListRevision) w.(rv_snapshotRevision) v w.(rv_snapshotNextPage)
    w.(rv_roomListCache) w.(rv_snapshotRooms).
Definition set_rv_snapshotNextPage (v : Z) (w : RoomListView) : RoomListView :=
  mkView w.(rv_roomListRevision) w.(rv_snapshotRevision) w.(rv_snapshotPageCount) v
    w.(rv_roomListCache) w.(rv_snapshotRooms).
Definition set_rv_roomListCache (v : gmap Z CliRoomListItem) (w : RoomListView) : RoomListView :=
  mkView w.(rv_roomListRevision) w.(rv_snapshotRevision) w.(rv_snapshotPageCount)
    w.(rv_snapshotNextPage) v w.(rv_snapshotRooms).
Definition set_rv_snapshotRooms (v : gmap Z CliRoomListItem) (w : RoomListView) : RoomListView :=
  mkView w.(rv_roomListRevision) w.(rv_snapshotRevision) w.(rv_snapshotPageCount)
    w.(rv_snapshotNextPage) w.(rv_roomListCache) v.
(** What the callbacks of an application can reach besides the client. *)
Class AppState := { app_state : Type }.
Definition no_app_state : AppState := {| app_state := unit |}.

Section Host.
Context `{AppState}.

(** The client, with the rest of its application. *)
Record CliSignalClient := mkClient {
  sc_conn : TcpConnection;
  sc_myPeerId : Z;
  sc_pingSentTime : Z;
  sc_connectStartTime : Z;
  sc_authStartedMs : Z;
  sc_authTask : AuthKdfTask;
  sc_authOperation : Z;
  sc_sendFailurePending : bool;
  sc_disconnectNotified : bool;
  sc_auth : ClientAuth;
  sc_room : RoomRequest;
  sc_list : RoomListView;
  sc_now : Z;
  sc_monotonic : Z;
  sc_random : list (option bytes);
  sc_events : list ClientEvent;
  sc_app : app_state
}.
Definition set_sc_conn (v : TcpConnection) (c : CliSignalClient) : CliSignalClient :=
  mkClient v c.(sc_myPeerId) c.(sc_pingSentTime) c.(sc_connectStartTime)
    c.(sc_authStartedMs) c.(sc_authTask) c.(sc_authOperation) c.(sc_sendFailurePending)
    c.(sc_disconnectNotified) c.(sc_auth) c.(sc_room) c.(sc_list) c.(sc_now)
    c.(sc_monotonic) c.(sc_random) c.(sc_events) c.(sc_app).
Definition set_sc_myPeerId (v : Z) (c : CliSignalClient) : CliSignalClient :=
  mkClient c.(sc_conn) v c.(sc_pingSentTime) c.(sc_connectStartTime) c.(sc_authStartedMs)
    c.(sc_authTask) c.(sc_authOperation) c.(sc_sendFailurePending) c.(sc_disconnectNotified)
    c.(sc_auth) c.(sc_room) c.(sc_list) c.(sc_now) c.(sc_monotonic) c.(sc_random)
    c.(sc_events) c.(sc_app).
Definition set_sc_pingSentTime (v : Z) (c : CliSignalClient) : CliSignalClient :=
  mkClient c.(sc_conn) c.(sc_myPeerId) v c.(sc_connectStartTime) c.(sc_authStartedMs)
    c.(sc_authTask) c.(sc_authOperation) c.(sc_sendFailurePending) c.(sc_disconnectNotified)
    c.(sc_auth) c.(sc_room) c.(sc_list) c.(sc_now) c.(sc_monotonic) c.(sc_random)
    c.(sc_events) c.(sc_app).
Definition set_sc_connectStartTime (v : Z) (c : CliSignalClient) : CliSignalClient :=
  mkClient c.(sc_conn) c.(sc_myPeerId) c.(sc_pingSentTime) v c.(sc_authStartedMs)
    c.(sc_authTask) c.(sc_authOperation) c.(sc_sendFailurePending) c.(sc_disconnectNotified)
    c.(sc_auth) c.(sc_room) c.(sc_list) c.(sc_now) c.(sc_monotonic) c.(sc_random)
    c.(sc_events) c.(sc_app).
Definition set_sc_authStartedMs (v : Z) (c : CliSignalClient) : CliSignalClient :=
  mkClient c.(sc_conn) c.(sc_myPeerId) c.(sc_pingSentTime) c.(sc_connectStartTime) v
    c.(sc_authTask) c.(sc_authOperation) c.(sc_sendFailurePending) c.(sc_disconnectNotified)
    c.(sc_auth) c.(sc_room) c.(sc_list) c.(sc_now) c.(sc_monotonic) c.(sc_random)
    c.(sc_events) c.(sc_app).
Definition set_sc_authTask (v : AuthKdfTask) (c : CliSignalClient) : CliSignalClient :=
  mkClient c.(sc_conn) c.(sc_myPeerId) c.(sc_pingSentTime) c.(sc_connectStartTime)
    c.(sc_authStartedMs) v c.(sc_authOperation) c.(sc_sendFailurePending)
    c.(sc_disconnectNotified) c.(sc_auth) c.(sc_room) c.(sc_list) c.(sc_now)
    c.(sc_monotonic) c.(sc_random) c.(sc_events) c.(sc_app).
Definition set_sc_authOperation (v : Z) (c : CliSignalClient) : CliSignalClient :=
  mkClient c.(sc_conn) c.(sc_myPeerId) c.(sc_pingSentTime) c.(sc_connectStartTime)
    c.(sc_authStartedMs) c.(sc_authTask) v c.(sc_sendFailurePending)
    c.(sc_disconnectNotified) c.(sc_auth) c.(sc_room) c.(sc_list) c.(sc_now)
    c.(sc_monotonic) c.(sc_random) c.(sc_events) c.(sc_app).
Definition set_sc_sendFailurePending (v : bool) (c : CliSignalClient) : CliSignalClient :=
  mkClient c.(sc_conn) c.(sc_myPeerId) c.(sc_pingSentTime) c.(sc_connectStartTime)
    c.(sc_authStartedMs) c.(sc_authTask) c.(sc_authOperation) v c.(sc_disconnectNotified)
    c.(sc_auth) c.(sc_room) c.(sc_list) c.(sc_now) c.(sc_monotonic) c.(sc_random)
    c.(sc_events) c.(sc_app).
Definition set_sc_disconnectNotified (v : bool) (c : CliSignalClient) : CliSignalClient :=
  mkClient c.(sc_conn) c.(sc_myPeerId) c.(sc_pingSentTime) c.(sc_connectStartTime)
    c.(sc_authStartedMs) c.(sc_authTask) c.(sc_authOperation) c.(sc_sendFailurePending) v
    c.(sc_auth) c.(sc_room) c.(sc_list) c.(sc_now) c.(sc_monotonic) c.(sc_random)
    c.(sc_events) c.(sc_app).
Definition set_sc_auth (v : ClientAuth) (c : CliSignalClient) : CliSignalClient :=
  mkClient c.(sc_conn) c.(sc_myPeerId) c.(sc_pingSentTime) c.(sc_connectStartTime)
    c.(sc_authStartedMs) c.(sc_authTask) c.(sc_authOperation) c.(sc_sendFailurePending)
    c.(sc_disconnectNotified) v c.(sc_room) c.(sc_list) c.(sc_now) c.(sc_monotonic)
    c.(sc_random) c.(sc_events) c.(sc_app).
Definition set_sc_room (v : RoomRequest) (c : CliSignalClient) : CliSignalClient :=
  mkClient c.(sc_conn) c.(sc_myPeerId) c.(sc_pingSentTime) c.(sc_connectStartTime)
    c.(sc_authStartedMs) c.(sc_authTask) c.(sc_authOperation) c.(sc_sendFailurePending)
    c.(sc_disconnectNotified) c.(sc_auth) v c.(sc_list) c.(sc_now) c.(sc_monotonic)
    c.(sc_random) c.(sc_events) c.(sc_app).
Definition set_sc_list (v : RoomListView) (c : CliSignalClient) : CliSignalClient :=
  mkClient c.(sc_conn) c.(sc_myPeerId) c.(sc_pingSentTime) c.(sc_connectStartTime)
    c.(sc_authStartedMs) c.(sc_authTask) c.(sc_authOperation) c.(sc_sendFailurePending)
    c.(sc_disconnectNotified) c.(sc_auth) c.(sc_room) v c.(sc_now) c.(sc_monotonic)
    c.(sc_random) c.(sc_events) c.(sc_app).
Definition set_sc_now (v : Z) (c : CliSignalClient) : CliSignalClient :=
  mkClient c.(sc_conn) c.(sc_myPeerId) c.(sc_pingSentTime) c.(sc_connectStartTime)
    c.(sc_authStartedMs) c.(sc_authTask) c.(sc_authOperation) c.(sc_sendFailurePending)
    c.(sc_disconnectNotified) c.(sc_auth) c.(sc_room) c.(sc_list) v c.(sc_monotonic)
    c.(sc_random) c.(sc_events) c.(sc_app).
Definition set_sc_monotonic (v : Z) (c : CliSignalClient) : CliSignalClient :=
  mkClient c.(sc_conn) c.(sc_myPeerId) c.(sc_pingSentTime) c.(sc_connectStartTime)
    c.(sc_authStartedMs) c.(sc_authTask) c.(sc_authOperation) c.(sc_sendFailurePending)
    c.(sc_disconnectNotified) c.(sc_auth) c.(sc_room) c.(sc_list) c.(sc_now) v c.(sc_random)
    c.(sc_events) c.(sc_app).
Definition set_sc_random (v : list (option bytes)) (c : CliSignalClient) : CliSignalClient :=
  mkClient c.(sc_conn) c.(sc_myPeerId) c.(sc_pingSentTime) c.(sc_connectStartTime)
    c.(sc_authStartedMs) c.(sc_authTask) c.(sc_authOperation) c.(sc_sendFailurePending)
    c.(sc_disconnectNotified) c.(sc_auth) c.(sc_room) c.(sc_list) c.(sc_now)
    c.(sc_monotonic) v c.(sc_events) c.(sc_app).
Definition set_sc_events (v : list ClientEvent) (c : CliSignalClient) : CliSignalClient :=
  mkClient c.(sc_conn) c.(sc_myPeerId) c.(sc_pingSentTime) c.(sc_connectStartTime)
    c.(sc_authStartedMs) c.(sc_authTask) c.(sc_authOperation) c.(sc_sendFailurePending)
    c.(sc_disconnectNotified) c.(sc_auth) c.(sc_room) c.(sc_list) c.(sc_now)
    c.(sc_monotonic) c.(sc_random) v c.(sc_app).
Definition set_sc_app (v : app_state) (c : CliSignalClient) : CliSignalClient :=
  mkClient c.(sc_conn) c.(sc_myPeerId) c.(sc_pingSentTime) c.(sc_connectStartTime)
    c.(sc_authStartedMs) c.(sc_authTask) c.(sc_authOperation) c.(sc_sendFailurePending)
    c.(sc_disconnectNotified) c.(sc_auth) c.(sc_room) c.(sc_list) c.(sc_now)
    c.(sc_monotonic) c.(sc_random) c.(sc_events) v.
End Host.

(** ** Construction *)

Definition ClientAuth_init : ClientAuth :=
  mkAuth (zeros 16) (zeros 32) [] false false 0 (zeros 16) (zeros 16) (zeros 32) (zeros 32)
    (zeros 32) [] cipher_empty.
Definition RoomRequest_init : RoomRequest :=
  mkRequest [] [] ROOM_MTU_DEFAULT (zeros 32) false false false 0.
Definition RoomListView_init : RoomListView := mkView 0 0 0 0 ∅ ∅.
Definition CliSignalClient_init `{AppState} (now monotonic : Z) (application : app_state) : CliSignalClient :=
  mkClient TcpConnection_init 0 0 0 0 AuthKdfTask_init 0 false false ClientAuth_init
    RoomRequest_init RoomListView_init now monotonic [] [] application.

(** ** Programs over the client *)

Abbreviation CS A := (SE CliSignalClient A) (only parsing).

(** The application: what it does when a callback fires (nothing, where it
    has not installed one), and whether [onRoomOperationFailure] is set. *)
Class ClientApp `{AppState} := {
  on_event : ClientEvent -> SE CliSignalClient unit;
  has_onRoomOperationFailure : bool
}.
(** The application that only watches. *)
Definition watching_app : @ClientApp no_app_state := {| on_event := fun _ => ret tt; has_onRoomOperationFailure := true |}.

Section Programs.
Context `{AppState}.

Definition in_auth (f : ClientAuth -> ClientAuth) : CS unit :=
  modify (fun c => set_sc_auth (f (sc_auth c)) c).
Definition in_room (f : RoomRequest -> RoomRequest) : CS unit :=
  modify (fun c => set_sc_room (f (sc_room c)) c).
Definition in_list (f : RoomListView -> RoomListView) : CS unit :=
  modify (fun c => set_sc_list (f (sc_list c)) c).
Definition in_task (f : AuthKdfTask -> AuthKdfTask) : CS unit :=
  modify (fun c => set_sc_authTask (f (sc_authTask c)) c).
Definition reset_conn : CS unit := modify (fun c => set_sc_conn (conn_reset (sc_conn c)) c).
(** Run an operation of the connection that returns a value. *)
Definition conn_step {A} (f : TcpConnection -> A * TcpConnection) : CS A :=
  x <- gets (fun c => fst (f (sc_conn c))) ;;
  modify (fun c => set_sc_conn (snd (f (sc_conn c))) c) ;;; ret x.
Definition client_random (n : nat) : CS (bool * bytes) :=
  r <- gets (fun c => match sc_random c with r :: _ => r | [] => None end) ;;
  modify (fun c => set_sc_random (tail (sc_random c)) c) ;;;
  ret (secureRandomBytesWithProvider n (resize n 0 <$> r)).
(** A read from the message buffer local to a handler. *)
Definition take_from {A} (m : SE ByteBuffer A) (b : ByteBuffer) : CS (A * ByteBuffer) :=
  match m b with
  | (Some a, b') => ret (a, b')
  | (None, _) => throw
  end.
End Programs.
