(* ===== verification/CliSignal.v ===== *)
(** * [class CliSignalClient] of [client-cli/src/cli_net.cpp]: operations

    The whole class, function by function.  Logging is left out; a system
    call's result is an argument of the operation that makes it. *)

From S2P Require Import Prelude Protocol Room SecureFrame SignalValidator ByteBuf Overlay TcpConn AuthKdf CliSignalState.

Definition ROOM_REQUEST_LIMIT_MS : Z := 15000.
Definition CONNECT_LIMIT_MS : Z := 8000.
Definition RECV_BUFFER_LIMIT : Z := 1024 * 1024.
(** Texts shown to the application. *)
Definition VERSION_MISMATCH_TEXT : bytes :=
  bytes_of_string "protocol version mismatch; upgrade GUI/CLI and server together".
Definition ORDER_TEXT : bytes :=
  bytes_of_string "unexpected signaling message before authentication / handshake order violation".
Definition PREAUTH_TEXT : bytes := bytes_of_string
  "invalid pre-auth protocol response; this client requires protocol v9; upgrade GUI/CLI and server together".

Section Client.
Context `{Crypto} {AS : AppState} {CA : ClientApp}.

(** Call a callback. *)
Definition fire (e : ClientEvent) : CS unit :=
  modify (fun c => set_sc_events (sc_events c ++ [e]) c) ;;; on_event e.

(** ** Resets *)

Definition cancelRoomOperation : CS unit :=
  op <- gets sc_authOperation ;;
  when ((op =? 2) || (op =? 3)) (in_task kdf_cancel ;;; modify (set_sc_authOperation 0)) ;;;
  in_room (fun r => set_rr_pendingCreate [] (set_rr_roomChallenge (zeros 32)
    (set_rr_pendingRoomPassword [] (set_rr_hasPendingAuth false
    (set_rr_roomOperationPending false r))))).
Definition resetRoomListState : CS unit := in_list (fun _ => RoomListView_init).
Definition resetSecureState : CS unit :=
  cancelRoomOperation ;;;
  in_task kdf_cancel ;;; modify (set_sc_authOperation 0) ;;;
  in_room (set_rr_roomOperationPending false) ;;; modify (set_sc_sendFailurePending false) ;;;
  in_room (fun r => set_rr_roomRequestStarted 0 (set_rr_discardRoomResponses false r)) ;;;
  in_auth (fun a => set_hs_expectedServerProof (zeros 32) (set_hs_authSalt (zeros 16) a)) ;;;
  in_room (set_rr_roomChallenge (zeros 32)) ;;;
  in_auth (fun a => mkAuth (hs_authSalt a) (hs_expectedServerProof a) (hs_serverPassword a)
    false false 0 (zeros 16) (zeros 16) (zeros 32) (zeros 32) (zeros 32) [] (reset (hs_secureCipher a))) ;;;
  in_room (fun r => set_rr_hasPendingAuth false (set_rr_pendingRoomPassword [] r)) ;;;
  resetRoomListState.
Definition notifyDisconnectedOnce : CS unit :=
  notified <- gets sc_disconnectNotified ;;
  if notified : bool then ret tt else
  modify (set_sc_disconnectNotified true) ;;; fire OnDisconnected.
(** [m_conn.reset(); resetSecureState(); notifyDisconnectedOnce();]. *)
Definition drop_connection : CS unit := reset_conn ;;; resetSecureState ;;; notifyDisconnectedOnce.
Definition failAuthentication (code : AuthErrorCode) (message : bytes) : CS unit :=
  fire (OnFatalAuthError (AuthErrorCode_u16 code) message) ;;;
  fire (OnServerError message) ;;;
  drop_connection.
(** Its arguments only reach the log. *)
Definition failSignalFrame : CS unit := drop_connection.

Definition client_connectTo (fd : Z) (in_progress : bool) : CS bool :=
  modify (set_sc_myPeerId 0) ;;; resetSecureState ;;;
  modify (set_sc_disconnectNotified false) ;;;
  modify (fun c => set_sc_connectStartTime (sc_now c) c) ;;;
  conn_step (conn_connectTo fd in_progress).
Definition client_disconnect : CS unit :=
  reset_conn ;;; resetSecureState ;;; modify (set_sc_myPeerId 0).

(** ** Sending *)

(** [if (!m_conn.sendTcpMsg(...)) m_sendFailurePending = true;]. *)
Definition send_frame (msgType : Z) (body : bytes) : CS unit :=
  ok <- conn_step (sendTcpMsg msgType body) ;;
  when (negb ok) (modify (set_sc_sendFailurePending true)).
Definition client_encrypt (plain : bytes) : CS bytes :=
  enc <- gets (fun c => fst (encrypt (hs_secureCipher (sc_auth c)) plain [])) ;;
  in_auth (fun a => set_hs_secureCipher (snd (encrypt (hs_secureCipher a) plain [])) a) ;;; ret enc.
Definition client_sendMsg (msgType : Z) (body : bytes) : CS unit :=
  if MAX_TCP_MSG_PAYLOAD <? len body then ret tt else
  ready <- gets (fun c => hs_secureReady (sc_auth c)) ;;
  if negb ready then ret tt else
  enc <- client_encrypt (u8 msgType :: body) ;;
  if bool_decide (enc = []) then
    fire (OnServerError (bytes_of_string "secure counter exhausted; reconnect required")) ;;;
    drop_connection
  else
  if MAX_TCP_MSG_PAYLOAD <? len enc then ret tt else
  send_frame MSG_ENCRYPTED enc.

Definition login (name : bytes) (resume : option (Z * Z * bytes)) : CS unit :=
  let bb := writeU16 PROTOCOL_VERSION (writeString name []) in
  client_sendMsg MSG_LOGIN
    match resume with
    | Some (resumeRoomId, resumePeerId, resumeToken) =>
        writeBytes (take 32 resumeToken) (writeU32 resumePeerId (writeU32 resumeRoomId (writeU8 1 bb)))
    | None => writeU8 0 bb
    end.
(** A new room request: the flags and the time it starts. *)
Definition begin_room_request : CS unit :=
  in_room (set_rr_roomOperationPending true) ;;;
  t <- gets sc_monotonic ;;
  in_room (fun r => set_rr_roomRequestStarted t (set_rr_discardRoomResponses false r)).
Definition policy_octets (p : RoomTrafficPolicy) : bytes :=
  [TransportMode_u8 (transportMode p); FecMode_u8 (fecMode p); KcpProfile_u8 (kcpProfile p)].
Definition client_createRoom (roomName : bytes) (maxPlayers : Z) (tcpPolicy udpPolicy : RoomTrafficPolicy)
    (mtu : Z) (passwordProtected : bool) (password : bytes) : CS unit :=
  c <- gets (fun c => c) ;;
  if rr_roomOperationPending (sc_room c) || negb (sc_authOperation c =? 0) ||
     negb (hs_secureReady (sc_auth c)) then ret tt else
  begin_room_request ;;;
  let bb := writeU8 (u8 maxPlayers) (writeString roomName []) in
  let bb := writeBytes (policy_octets udpPolicy) (writeBytes (policy_octets tcpPolicy) bb) in
  let bb := writeU8 (if passwordProtected then 1 else 0) bb in
  if negb passwordProtected
  then client_sendMsg MSG_CREATE_ROOM (writeU16 (normalizeRoomMtu mtu) bb) else
  salt <- client_random 16 ;;
  in_auth (set_hs_authSalt (snd salt)) ;;;
  if negb (fst salt) then
    in_room (set_rr_roomOperationPending false) ;;;
    fire (OnServerError (bytes_of_string "secure random generation failed"))
  else
  in_room (fun r => set_rr_pendingCreateMtu (normalizeRoomMtu mtu) (set_rr_pendingCreate bb r)) ;;;
  modify (set_sc_authOperation 2) ;;;
  in_task (kdf_start password (snd salt)).
Definition client_joinRoom (roomId : Z) (password : bytes) : CS unit :=
  c <- gets (fun c => c) ;;
  if rr_roomOperationPending (sc_room c) || negb (sc_authOperation c =? 0) ||
     negb (hs_secureReady (sc_auth c)) || (roomId =? 0) then ret tt else
  begin_room_request ;;;
  in_room (fun r => set_rr_hasPendingAuth true (set_rr_pendingRoomPassword password r)) ;;;
  client_sendMsg MSG_JOIN_ROOM (writeU32 roomId []).
Definition client_resumeRoom (roomId peerId : Z) (resumeToken : option bytes) : CS unit :=
  c <- gets (fun c => c) ;;
  match resumeToken with
  | None => ret tt
  | Some token =>
      if rr_roomOperationPending (sc_room c) || negb (hs_secureReady (sc_auth c)) then ret tt else
      begin_room_request ;;;
      client_sendMsg MSG_RESUME_ROOM (writeBytes (take 32 token) (writeU32 peerId (writeU32 roomId [])))
  end.
Definition client_leaveRoom : CS unit :=
  pending <- gets (fun c => rr_roomOperationPending (sc_room c)) ;;
  if pending : bool
  then cancelRoomOperation ;;; modify (set_sc_sendFailurePending true)
  else client_sendMsg MSG_LEAVE_ROOM [].
Definition abandonRoomOperation : CS unit :=
  cancelRoomOperation ;;; in_room (set_rr_discardRoomResponses true).
Definition client_logout : CS unit := abandonRoomOperation ;;; client_sendMsg MSG_LOGOUT [].
Definition client_listRooms : CS unit := client_sendMsg MSG_LIST_ROOMS [].
Definition requestRelay (targetPeerId : Z) : CS unit :=
  client_sendMsg MSG_REQUEST_RELAY (writeU32 targetPeerId []).
Definition client_sendRelayData (srcPeerId dstPeerId cls : Z) (data : bytes) : CS unit :=
  client_sendMsg MSG_TCP_RELAY_DATA
    (writeBytes data (writeU8 (u8 cls) (writeU32 dstPeerId (writeU32 srcPeerId [])))).
Definition client_sendPing : CS unit :=
  modify (fun c => set_sc_pingSentTime (sc_now c) c) ;;; client_sendMsg MSG_PING [].
Definition sendAuthResponse (response : bytes) : CS unit :=
  client_sendMsg MSG_AUTH_RESPONSE (writeBytes response []).

(** ** Handshake *)

Definition sendClientHello : CS unit :=
  nonce <- client_random 16 ;;
  in_auth (set_hs_clientNonce (snd nonce)) ;;;
  ok <- (if fst nonce
         then key <- client_random 32 ;; in_auth (set_hs_clientPrivKey (snd key)) ;;; ret (fst key)
         else ret false) ;;
  if negb ok then
    fire (OnServerError (bytes_of_string "secure random generation failed")) ;;;
    reset_conn ;;; notifyDisconnectedOnce
  else
  in_auth (fun a => set_hs_clientPubKey (crypto_x25519_public_key (hs_clientPrivKey a)) a) ;;;
  a <- gets sc_auth ;;
  let bb := writeU16 PROTOCOL_VERSION [] in
  send_frame MSG_CLIENT_HELLO (writeBytes (hs_clientPubKey a) (writeBytes (hs_clientNonce a) bb)).
Definition sendServerAuth : CS unit :=
  c <- gets (fun c => c) ;;
  let a := sc_auth c in
  if negb (sc_authOperation c =? 0) || hs_secureReady a || negb (bool_decide (hs_secureMaster a = []))
  then ret tt else
  if bool_decide (hs_serverPassword a = []) then fire OnServerPasswordRequired else
  modify (set_sc_authOperation 1) ;;;
  in_task (kdf_start (hs_serverPassword a) (hs_authSalt a)).
Definition setServerPassword (password : bytes) : CS unit :=
  op <- gets sc_authOperation ;;
  when (op =? 1) (in_task kdf_cancel ;;; modify (set_sc_authOperation 0)) ;;;
  in_auth (set_hs_serverPassword password) ;;;
  a <- gets sc_auth ;;
  when (negb (hs_secureReady a) && negb (bool_decide (hs_secureMaster a = []))) client_disconnect.
Definition continueServerAuth : CS unit :=
  a <- gets sc_auth ;;
  when (hs_serverAuthRequired a && negb (hs_secureReady a)) sendServerAuth.

(** The key derivation finished for operation 1: prove knowledge of the
    password to the server and remember the proof it must give back. *)
Definition finish_server_auth (hash : bytes) : CS unit :=
  a <- gets sc_auth ;;
  let shared := crypto_x25519 (hs_clientPrivKey a) (hs_serverPubKey a) in
  in_auth (set_hs_clientPrivKey (zeros 32)) ;;;
  if negb (validX25519Shared shared)
  then failAuthentication InvalidKey (bytes_of_string "invalid X25519 server key") else
  let master := deriveSecureMaster shared hash (hs_clientNonce a) (hs_serverNonce a)
                  (hs_clientPubKey a) (hs_serverPubKey a) (hs_authSalt a) AUTH_KDF_PROFILE in
  let proof := computeClientAuthProof master hash in
  in_auth (fun a => set_hs_secureMaster master
    (set_hs_expectedServerProof (computeServerAuthProof master hash) a)) ;;;
  send_frame MSG_SERVER_AUTH (writeBytes proof []).
Definition pollAuthTask : CS unit :=
  polled <- gets (fun c => fst (kdf_poll (sc_authTask c))) ;;
  in_task (fun t => snd (kdf_poll t)) ;;;
  match polled with
  | None => ret tt
  | Some result =>
      operation <- gets sc_authOperation ;;
      modify (set_sc_authOperation 0) ;;;
      c <- gets (fun c => c) ;;
      if (operation =? 0) || negb (tc_connected (sc_conn c)) then ret tt else
      if negb (kr_success result)
      then failAuthentication KdfFailed (bytes_of_string "authentication KDF failed") else
      if operation =? 2 then
        let bb := writeBytes (kr_hash result) (writeBytes (hs_authSalt (sc_auth c))
                    (rr_pendingCreate (sc_room c))) in
        let bb := writeU16 (rr_pendingCreateMtu (sc_room c)) bb in
        in_room (set_rr_pendingCreate bb) ;;;
        client_sendMsg MSG_CREATE_ROOM bb ;;;
        in_room (set_rr_pendingCreate [])
      else if operation =? 3 then
        sendAuthResponse (computeChallengeResponse (kr_hash result) (rr_roomChallenge (sc_room c))) ;;;
        in_room (set_rr_roomChallenge (zeros 32))
      else finish_server_auth (kr_hash result)
  end.

(** ** Receiving: the room list *)

Definition client_readRoomListItem : BB CliRoomListItem :=
  roomId <- readU32 ;; roomName <- readString ;;
  playerCount <- readU8 ;; maxPlayers <- readU8 ;;
  tcpPolicy <- readTrafficPolicy makeDefaultTcpPolicy ;;
  udpPolicy <- readTrafficPolicy makeDefaultUdpPolicy ;;
  passwordProtected <- readU8 ;; mtu <- readU16 ;;
  ret (mkItem roomId roomName playerCount maxPlayers tcpPolicy udpPolicy passwordProtected mtu).
Definition emitRoomList (pushed : bool) : CS unit :=
  rooms <- gets (fun c => map snd (map_ordered (rv_roomListCache (sc_list c)))) ;;
  fire (OnRoomList rooms pushed).
(** The partial snapshot is dropped. *)
Definition clear_snapshot (w : RoomListView) : RoomListView :=
  mkView (rv_roomListRevision w) 0 0 0 (rv_roomListCache w) ∅.
Definition discard_snapshot : CS unit := in_list clear_snapshot ;;; client_listRooms.
(** The records of a page; [false] when one repeats a room of the snapshot. *)
Fixpoint read_page (count : nat) (bb : ByteBuffer) : CS bool :=
  match count with
  | O => ret true
  | S n =>
      let* (info, bb) := take_from client_readRoomListItem bb in
      w <- gets sc_list ;;
      match rv_snapshotRooms w !! ci_roomId info with
      | Some _ => ret false
      | None =>
          in_list (fun w => set_rv_snapshotRooms (<[ci_roomId info := info]> (rv_snapshotRooms w)) w) ;;;
          read_page n bb
      end
  end.
Definition on_room_list (bb : ByteBuffer) : CS unit :=
  let* (revision, bb) := take_from readU64 bb in
  let* (pageIndex, bb) := take_from readU16 bb in
  let* (pageCount, bb) := take_from readU16 bb in
  let* (count, bb) := take_from readU16 bb in
  when (pageIndex =? 0) (in_list (fun w =>
    mkView (rv_roomListRevision w) revision pageCount 0 (rv_roomListCache w) ∅)) ;;;
  w <- gets sc_list ;;
  if negb (revision =? rv_snapshotRevision w) || negb (pageCount =? rv_snapshotPageCount w) ||
     negb (pageIndex =? rv_snapshotNextPage w) then discard_snapshot else
  ok <- read_page (Z.to_nat count) bb ;;
  if negb ok then discard_snapshot else
  in_list (fun w => set_rv_snapshotNextPage (u16 (rv_snapshotNextPage w + 1)) w) ;;;
  w <- gets sc_list ;;
  when (rv_snapshotNextPage w =? rv_snapshotPageCount w) (
    in_list (fun w => mkView (rv_snapshotRevision w) 0 0 0 (rv_snapshotRooms w) ∅) ;;;
    emitRoomList false).
(** The operations of a push, over the local copy [updated]. *)
Fixpoint apply_push (count : nat) (updated : gmap Z CliRoomListItem)
    : BB (gmap Z CliRoomListItem) :=
  match count with
  | O => ret updated
  | S n =>
      operation <- readU8 ;;
      if operation =? ROOM_LIST_UPSERT
      then info <- client_readRoomListItem ;; apply_push n (<[ci_roomId info := info]> updated)
      else roomId <- readU32 ;; apply_push n (delete roomId updated)
  end.
Definition on_room_list_push (bb : ByteBuffer) : CS unit :=
  let* (baseRevision, bb) := take_from readU64 bb in
  let* (revision, bb) := take_from readU64 bb in
  let* (count, bb) := take_from readU16 bb in
  w <- gets sc_list ;;
  if negb (baseRevision =? rv_roomListRevision w) then discard_snapshot else
  let* (updated, bb) := take_from (apply_push (Z.to_nat count) (rv_roomListCache w)) bb in
  in_list (fun w => set_rv_roomListRevision revision (set_rv_roomListCache updated w)) ;;;
  emitRoomList true.

(** ** Receiving: the handshake *)

Definition on_server_hello (bb : ByteBuffer) : CS bool :=
  let* (serverVersion, bb) := take_from readU16 bb in
  let* (authRequired, bb) := take_from readU8 bb in
  if negb (serverVersion =? PROTOCOL_VERSION) then
    fire (OnFatalAuthError (AuthErrorCode_u16 VersionMismatch) VERSION_MISMATCH_TEXT) ;;;
    fire (OnServerError (bytes_of_string "protocol version mismatch")) ;;;
    failSignalFrame ;;; ret false
  else
  in_auth (set_hs_serverAuthRequired (negb (authRequired =? 0))) ;;;
  if authRequired =? 0 then
    fire (OnServerError (bytes_of_string
      "insecure server rejected: authentication is not required")) ;;;
    reset_conn ;;; notifyDisconnectedOnce ;;; ret false
  else
  let* (profile, bb) := take_from readU8 bb in
  if negb (profile =? AUTH_KDF_PROFILE) then
    failAuthentication UnsupportedKdf (bytes_of_string "unsupported authentication KDF profile") ;;;
    ret false
  else
  let* (salt, bb) := take_from (readBytes AUTH_SALT_SIZE) bb in
  in_auth (set_hs_authSalt salt) ;;;
  let* (nonce, bb) := take_from (readBytes 16) bb in
  in_auth (set_hs_serverNonce nonce) ;;;
  let* (pub, bb) := take_from (readBytes 32) bb in
  in_auth (set_hs_serverPubKey pub) ;;;
  a <- gets sc_auth ;;
  (if bool_decide (hs_serverPassword a = []) then fire OnServerPasswordRequired else sendServerAuth) ;;;
  ret true.
Definition on_server_auth_ok (bb : ByteBuffer) : CS bool :=
  a <- gets sc_auth ;;
  if negb (len (hs_secureMaster a) =? SECURE_KEY_SIZE) then
    fire (OnServerError (bytes_of_string "invalid server auth response")) ;;;
    failSignalFrame ;;; ret false
  else
  let* (sessionId, bb) := take_from readU32 bb in
  let* (serverProof, bb) := take_from (readBytes SECURE_KEY_SIZE) bb in
  let proofValid := (crypto_verify32 (hs_expectedServerProof a) serverProof =? 0) &&
                    (sessionId =? deriveSessionId (hs_secureMaster a)) in
  in_auth (set_hs_expectedServerProof (zeros 32)) ;;;
  if negb proofValid then
    failAuthentication InvalidServerProof (bytes_of_string "server auth proof / session id failed") ;;;
    ret false
  else
  in_auth (fun a => set_hs_secureReady true
    (set_hs_secureCipher (cipher_init (hs_secureCipher a) (hs_secureMaster a) true "signal")
    (set_hs_secureSessionId sessionId a))) ;;;
  a <- gets sc_auth ;;
  fire (OnSecureSessionEstablished (hs_secureSessionId a) (hs_secureMaster a)) ;;;
  connected <- gets (fun c => tc_connected (sc_conn c)) ;;
  if negb connected then ret false else
  fire OnConnected ;;; ret true.

(** ** Receiving: login and rooms *)

Definition on_login_resp (bb : ByteBuffer) : CS bool :=
  let* (peerId, bb) := take_from readU32 bb in
  let* (serverVersion, bb) := take_from readU16 bb in
  let* (resumeAccepted, bb) := take_from readU8 bb in
  if negb (serverVersion =? PROTOCOL_VERSION) then
    fire (OnFatalAuthError (AuthErrorCode_u16 VersionMismatch) VERSION_MISMATCH_TEXT) ;;;
    fire (OnServerError (bytes_of_string "protocol version mismatch")) ;;;
    failSignalFrame ;;; ret false
  else
  modify (set_sc_myPeerId peerId) ;;;
  fire (OnLoginResponse peerId (negb (resumeAccepted =? 0))) ;;; ret true.
(** Before a room response: a request past its deadline is given up; then
    whether the response is expected. *)
Definition room_response_expected : CS bool :=
  c <- gets (fun c => c) ;;
  when (rr_roomOperationPending (sc_room c) &&
        (ROOM_REQUEST_LIMIT_MS <=? u64 (sc_monotonic c - rr_roomRequestStarted (sc_room c)))) (
    abandonRoomOperation ;;;
    if has_onRoomOperationFailure
    then fire (OnRoomOperationFailure (bytes_of_string "Room response arrived after its deadline"))
    else modify (set_sc_sendFailurePending true)) ;;;
  r <- gets sc_room ;;
  if negb (rr_roomOperationPending r) || rr_discardRoomResponses r then ret false else
  in_room (set_rr_roomOperationPending false) ;;; ret true.
Definition on_room_created (bb : ByteBuffer) : CS unit :=
  expected <- room_response_expected ;;
  if negb expected then ret tt else
  let* (roomId, bb) := take_from readU32 bb in
  let* (virtualIP, bb) := take_from readU32 bb in
  let* (tcpPolicy, bb) := take_from (readTrafficPolicy makeDefaultTcpPolicy) bb in
  let* (udpPolicy, bb) := take_from (readTrafficPolicy makeDefaultUdpPolicy) bb in
  let* (passwordProtected, bb) := take_from readU8 bb in
  let* (mtu, bb) := take_from readU16 bb in
  let* (leaseToken, bb) := take_from (readBytes RECONNECT_TOKEN_SIZE) bb in
  fire (OnRoomCreated roomId virtualIP tcpPolicy udpPolicy mtu (negb (passwordProtected =? 0)) leaseToken).
Definition client_readPeerInfo : BB PeerInfo :=
  peerId <- readU32 ;; virtualIP <- readU32 ;; name <- readString ;;
  ret (mkPeerInfo peerId virtualIP TRANSPORT_NONE name).
Fixpoint client_readMembers (count : nat) : BB (list PeerInfo) :=
  match count with
  | O => ret []
  | S n => info <- client_readPeerInfo ;; rest <- client_readMembers n ;; ret (info :: rest)
  end.
Definition on_join_resp (bb : ByteBuffer) : CS unit :=
  expected <- room_response_expected ;;
  if negb expected then ret tt else
  let* (roomId, bb) := take_from readU32 bb in
  let* (virtualIP, bb) := take_from readU32 bb in
  let* (tcpPolicy, bb) := take_from (readTrafficPolicy makeDefaultTcpPolicy) bb in
  let* (udpPolicy, bb) := take_from (readTrafficPolicy makeDefaultUdpPolicy) bb in
  let* (passwordProtected, bb) := take_from readU8 bb in
  let* (mtu, bb) := take_from readU16 bb in
  let* (count, bb) := take_from readU8 bb in
  let* (members, bb) := take_from (client_readMembers (Z.to_nat count)) bb in
  let* (leaseToken, bb) := take_from (readBytes RECONNECT_TOKEN_SIZE) bb in
  in_room (fun r => set_rr_hasPendingAuth false (set_rr_pendingRoomPassword [] r)) ;;;
  fire (OnJoinResponse roomId virtualIP tcpPolicy udpPolicy mtu (negb (passwordProtected =? 0))
          members leaseToken).
Definition on_auth_challenge (bb : ByteBuffer) : CS bool :=
  r <- gets sc_room ;;
  if rr_discardRoomResponses r then ret true else
  let* (profile, bb) := take_from readU8 bb in
  if negb (profile =? AUTH_KDF_PROFILE) then
    failAuthentication UnsupportedKdf (bytes_of_string "unsupported room KDF profile") ;;; ret false
  else
  if negb (rr_hasPendingAuth r) then failSignalFrame ;;; ret false else
  in_room (set_rr_hasPendingAuth false) ;;;
  let* (salt, bb) := take_from (readBytes AUTH_SALT_SIZE) bb in
  in_auth (set_hs_authSalt salt) ;;;
  let* (challenge, bb) := take_from (readBytes 32) bb in
  in_room (set_rr_roomChallenge challenge) ;;;
  modify (set_sc_authOperation 3) ;;;
  in_task (kdf_start (rr_pendingRoomPassword r) salt) ;;;
  in_room (set_rr_pendingRoomPassword []) ;;; ret true.
Definition AuthErrorCode_cast (code : Z) : AuthErrorCode :=
  if code =? 1 then VersionMismatch else if code =? 2 then InvalidPassword else
  if code =? 3 then InvalidServerProof else if code =? 4 then UnsupportedKdf else
  if code =? 5 then InvalidKey else if code =? 6 then RateLimited else
  if code =? 7 then AuthTimeout else if code =? 8 then KdfFailed else
  if code =? 9 then RoomPassword else General.
Definition on_error (bb : ByteBuffer) : CS bool :=
  let* (code, bb) := take_from readU16 bb in
  let* (message, bb) := take_from readString bb in
  if isFatalAuthError code then failAuthentication (AuthErrorCode_cast code) message ;;; ret false else
  r <- gets sc_room ;;
  if rr_discardRoomResponses r then ret true else
  (if rr_roomOperationPending r && negb (code =? AuthErrorCode_u16 RoomPassword) then
     abandonRoomOperation ;;;
     (if has_onRoomOperationFailure then fire (OnRoomOperationFailure message)
      else modify (set_sc_sendFailurePending true))
   else cancelRoomOperation) ;;;
  when (code =? AuthErrorCode_u16 RoomPassword) (fire (OnFatalAuthError code message)) ;;;
  in_room (fun r => set_rr_hasPendingAuth false (set_rr_pendingRoomPassword [] r)) ;;;
  fire (OnServerError message) ;;; ret true.
Definition on_relay_data (payload : bytes) : CS unit :=
  let bb := bb_of payload in
  let* (srcPeerId, bb) := take_from readU32 bb in
  let* (dstPeerId, bb) := take_from readU32 bb in
  let* (cls, bb) := take_from readU8 bb in
  let dataLen := remaining bb in
  let data := drop (Z.to_nat (len payload - dataLen)) payload in
  me <- gets sc_myPeerId ;;
  when (dstPeerId =? me) (fire (OnRelayData srcPeerId cls data)).
Definition on_pong : CS unit :=
  c <- gets (fun c => c) ;;
  when (negb (sc_pingSentTime c =? 0)) (
    modify (set_sc_pingSentTime 0) ;;;
    fire (OnServerRtt (i32 (sc_now c - sc_pingSentTime c)))).

(** ** [processMessage] *)

(** The handlers, on a message whose payload the validator accepted. *)
Definition client_dispatch (msgType : Z) (payload : bytes) : CS bool :=
  let bb := bb_of payload in
  if msgType =? MSG_SERVER_HELLO then on_server_hello bb else
  if msgType =? MSG_SERVER_AUTH_OK then on_server_auth_ok bb else
  if msgType =? MSG_LOGIN_RESP then on_login_resp bb else
  if msgType =? MSG_ROOM_CREATED then on_room_created bb ;;; ret true else
  if msgType =? MSG_JOIN_RESP then on_join_resp bb ;;; ret true else
  if msgType =? MSG_PEER_JOINED then
    let* (info, bb) := take_from client_readPeerInfo bb in fire (OnPeerJoined info) ;;; ret true else
  if msgType =? MSG_PEER_RESUMED then
    let* (info, bb) := take_from client_readPeerInfo bb in fire (OnPeerResumed info) ;;; ret true else
  if msgType =? MSG_PEER_LEFT then
    let* (peerId, bb) := take_from readU32 bb in fire (OnPeerLeft peerId) ;;; ret true else
  if msgType =? MSG_LOGOUT_ACK then modify (set_sc_myPeerId 0) ;;; fire OnLogoutAck ;;; ret true else
  if msgType =? MSG_ROOM_LIST then on_room_list bb ;;; ret true else
  if msgType =? MSG_ROOM_LIST_PUSH then on_room_list_push bb ;;; ret true else
  if msgType =? MSG_RELAY_READY then
    let* (peerId, bb) := take_from readU32 bb in fire (OnRelayReady peerId) ;;; ret true else
  if msgType =? MSG_TCP_RELAY_DATA then on_relay_data payload ;;; ret true else
  if msgType =? MSG_PONG then on_pong ;;; ret true else
  if msgType =? MSG_AUTH_CHALLENGE then on_auth_challenge bb else
  if msgType =? MSG_ERROR then on_error bb else
  ret true.
(** A pointer to the payload, null when it is empty. *)
Definition payload_ptr (payload : bytes) : option bytes :=
  if bool_decide (payload = []) then None else Some payload.
Definition client_validate (msgType : Z) (payload : bytes) : MessageValidationResult :=
  validateServerSignalPayload msgType (payload_ptr payload) (len payload).
Definition client_decrypt (frame : bytes) : CS (option bytes) :=
  plain <- gets (fun c => fst (decrypt (hs_secureCipher (sc_auth c)) frame [])) ;;
  in_auth (fun a => set_hs_secureCipher (snd (decrypt (hs_secureCipher a) frame [])) a) ;;; ret plain.
(** What may arrive in the clear: an error, and the next message of the handshake. *)
Definition allowedPlainHandshake (c : CliSignalClient) (msgType : Z) : bool :=
  let a := sc_auth c in
  negb (hs_secureReady a) &&
  ((msgType =? MSG_ERROR) ||
   ((msgType =? MSG_SERVER_HELLO) && negb (hs_serverAuthRequired a) && (sc_authOperation c =? 0) &&
    bool_decide (hs_secureMaster a = [])) ||
   ((msgType =? MSG_SERVER_AUTH_OK) && hs_serverAuthRequired a && (sc_authOperation c =? 0) &&
    (len (hs_secureMaster a) =? SECURE_KEY_SIZE))).
(** The message inside an [MSG_ENCRYPTED] envelope. *)
Definition process_plain (plain : bytes) : CS bool :=
  let msgType := byte_at plain 0 in
  let payload := drop 1 plain in
  if (msgType =? MSG_SERVER_HELLO) || (msgType =? MSG_SERVER_AUTH_OK) || (msgType =? MSG_ENCRYPTED)
  then failAuthentication InvalidServerProof ORDER_TEXT ;;; ret false else
  let validation := client_validate msgType payload in
  match rs_status validation with
  | Malformed =>
      when (bool_decide (rs_error validation = InvalidVersion))
        (fire (OnServerError (bytes_of_string "protocol version mismatch"))) ;;;
      failSignalFrame ;;; ret false
  | UnknownType => ret true
  | Valid => client_dispatch msgType payload
  end.
Definition process_frame (msgType : Z) (payload : bytes) : CS bool :=
  c <- gets (fun c => c) ;;
  let ready := hs_secureReady (sc_auth c) in
  if (negb ready && negb (allowedPlainHandshake c msgType)) || (ready && negb (msgType =? MSG_ENCRYPTED))
  then failAuthentication InvalidServerProof ORDER_TEXT ;;; ret false else
  let validation := client_validate msgType payload in
  match rs_status validation with
  | Malformed =>
      if negb ready || bool_decide (rs_error validation = InvalidVersion) then
        failAuthentication
          (if bool_decide (rs_error validation = InvalidVersion) || (msgType =? MSG_ERROR)
           then VersionMismatch else InvalidServerProof) PREAUTH_TEXT ;;; ret false
      else failSignalFrame ;;; ret false
  | UnknownType => ret true
  | Valid =>
      if msgType =? MSG_ENCRYPTED then
        if negb ready then failSignalFrame ;;; ret false else
        plain <- client_decrypt payload ;;
        match plain with
        | None => failSignalFrame ;;; ret false
        | Some p => if bool_decide (p = []) then failSignalFrame ;;; ret false else process_plain p
        end
      else if ready then failSignalFrame ;;; ret false
      else client_dispatch msgType payload
  end.
Definition client_processMessage (msgType : Z) (payload : bytes) : CS bool :=
  catch (process_frame msgType payload) (failSignalFrame ;;; ret false).

(** ** Socket events and timers *)

(** The framing loop; [fuel] bounds the number of frames. *)
Fixpoint client_recv_loop (fuel : nat) : CS unit :=
  match fuel with
  | O => ret tt
  | S n =>
      buf <- gets (fun c => tc_recvBuf (sc_conn c)) ;;
      if len buf <? 3 then ret tt else
      let frame := probeTcpFrame (Some buf) (len buf) in
      match pr_status frame with
      | FrameMalformed => failSignalFrame
      | NeedMore => ret tt
      | Ready =>
          let payload := slice 3 (pr_payloadLength frame) buf in
          modify (fun c => set_sc_conn (set_tc_recvBuf (drop (Z.to_nat (pr_frameLength frame)) buf)
                             (sc_conn c)) c) ;;;
          go <- client_processMessage (pr_msgType frame) payload ;;
          if negb go then ret tt else
          connected <- gets (fun c => tc_connected (sc_conn c)) ;;
          if negb connected then ret tt else client_recv_loop n
      end
  end.
Definition client_onReadable (received : bytes) : CS unit :=
  t <- gets sc_now ;;
  n <- conn_step (readData t received) ;;
  if n <=? 0 then drop_connection else
  buf <- gets (fun c => tc_recvBuf (sc_conn c)) ;;
  if RECV_BUFFER_LIMIT <? len buf then failSignalFrame else
  client_recv_loop (length buf).
(** [err] is [SO_ERROR]; [sent], [would_block] are the outcome of [send]. *)
Definition client_onWritable (err sent : Z) (would_block : bool) : CS unit :=
  c <- gets (fun c => c) ;;
  if tc_connecting (sc_conn c) then
    if err =? 0 then
      modify (fun c => set_sc_authStartedMs (sc_now c)
                (set_sc_conn (conn_established (sc_now c) (sc_conn c)) c)) ;;;
      sendClientHello
    else reset_conn ;;; fire (OnConnectFailed (bytes_of_string "connect error"))
  else
  ok <- conn_step (flushSend sent would_block) ;;
  when (negb ok) drop_connection.
Definition ROOM_TIMEOUT_TEXT : bytes := bytes_of_string "Room request timed out after 15 seconds".
Definition client_checkTimeouts : CS unit :=
  c <- gets (fun c => c) ;;
  if sc_sendFailurePending c then drop_connection else
  if rr_roomOperationPending (sc_room c) &&
     (ROOM_REQUEST_LIMIT_MS <=? u64 (sc_monotonic c - rr_roomRequestStarted (sc_room c))) then
    abandonRoomOperation ;;;
    if has_onRoomOperationFailure then fire (OnRoomOperationFailure ROOM_TIMEOUT_TEXT)
    else modify (set_sc_sendFailurePending true) ;;; fire (OnServerError ROOM_TIMEOUT_TEXT)
  else
  pollAuthTask ;;;
  c <- gets (fun c => c) ;;
  let conn := sc_conn c in
  if negb (tc_connected conn) && tc_connecting conn then
    when (CONNECT_LIMIT_MS <? u32 (sc_now c - sc_connectStartTime c)) (
      reset_conn ;;; fire (OnConnectFailed (bytes_of_string "connect timeout")))
  else
  if tc_connected conn && negb (hs_secureReady (sc_auth c)) then
    when (SERVER_AUTH_TIMEOUT_SEC * 1000 <? u32 (sc_now c - sc_authStartedMs c))
      (failAuthentication AuthTimeout
         (bytes_of_string "server authentication timed out (120 seconds)"))
  else
  when (tc_connected conn && (TCP_RECV_TIMEOUT_MS <? u32 (sc_now c - tc_lastRecvTime conn)))
    drop_connection.

(** ** The life of a client

    What reaches the object: the calls of its public interface, and between
    them the passing of time, the supply of random octets and the steps of the
    key-derivation worker. *)
Inductive ClientCall :=
  | CallConnect (fd : Z) (in_progress : bool) | CallDisconnect
  | CallServerPassword (password : bytes) | CallContinueAuth
  | CallLogin (name : bytes) (resume : option (Z * Z * bytes))
  | CallCreate (roomName : bytes) (maxPlayers : Z) (tcpPolicy udpPolicy : RoomTrafficPolicy) (mtu : Z)
      (passwordProtected : bool) (password : bytes)
  | CallJoin (roomId : Z) (password : bytes) | CallResume (roomId peerId : Z) (token : option bytes)
  | CallLeave | CallAbandon | CallLogout | CallList
  | CallRelay (peerId : Z) | CallRelayData (src dst cls : Z) (data : bytes) | CallPing
  | CallAuthResponse (response : bytes)
  | CallReadable (received : bytes) | CallWritable (err sent : Z) (would_block : bool) | CallTimers
  | PassTime (now monotonic : Z) | SupplyRandom (outs : list (option bytes)) | WorkerStep (e : KdfStep).
Definition client_call (call : ClientCall) : CS unit :=
  match call with
  | CallConnect fd ok => client_connectTo fd ok ;;; ret tt
  | CallDisconnect => client_disconnect
  | CallServerPassword p => setServerPassword p
  | CallContinueAuth => continueServerAuth
  | CallLogin name resume => login name resume
  | CallCreate name maxPlayers tcp udp mtu prot password =>
      client_createRoom name maxPlayers tcp udp mtu prot password
  | CallJoin rid password => client_joinRoom rid password
  | CallResume rid pid token => client_resumeRoom rid pid token
  | CallLeave => client_leaveRoom
  | CallAbandon => abandonRoomOperation
  | CallLogout => client_logout
  | CallList => client_listRooms
  | CallRelay pid => requestRelay pid
  | CallRelayData src dst cls data => client_sendRelayData src dst cls data
  | CallPing => client_sendPing
  | CallAuthResponse r => sendAuthResponse r
  | CallReadable received => client_onReadable received
  | CallWritable err sent wb => client_onWritable err sent wb
  | CallTimers => client_checkTimeouts
  | PassTime now mono => modify (fun c => set_sc_now now (set_sc_monotonic mono c))
  | SupplyRandom outs => modify (set_sc_random outs)
  | WorkerStep e => in_task (fun t => kdf_step t e)
  end.
(** The states a client goes through from its construction. *)
Definition client_life (calls : list ClientCall) (now monotonic : Z) (application : app_state) : CliSignalClient :=
  fold_left (fun c call => snd (client_call call c)) calls (CliSignalClient_init now monotonic application).
End Client.
