(* ===== verification/CliSignalFacts.v ===== *)
(** * Running the signalling client

    Equations that execute the programs of file CliSignal step by step, shared
    by the theorems about them. *)

From S2P Require Import Prelude Protocol ByteBuf Room SecureFrame SignalValidator WireFacts TcpConn AuthKdf CliSignalState CliSignal.

Section Run.
Context `{Crypto} {AS : AppState} {CA : ClientApp}.

Lemma bind_take {A B} (m : SE ByteBuffer A) (k : A * ByteBuffer -> SE CliSignalClient B) x a pre rest c :
  reads m x a -> bind (take_from m (at_pos pre (x ++ rest))) k c = k (a, at_pos (pre ++ x) rest) c.
Proof. intros Hm. unfold bind, take_from. by rewrite Hm. Qed.
Lemma bind_in_auth {B} f (k : unit -> SE CliSignalClient B) c :
  bind (in_auth f) k c = k tt (set_sc_auth (f (sc_auth c)) c).
Proof. done. Qed.
Lemma bind_in_task {B} f (k : unit -> SE CliSignalClient B) c :
  bind (in_task f) k c = k tt (set_sc_authTask (f (sc_authTask c)) c).
Proof. done. Qed.
Lemma client_validate_ok t body : client_accepts t body -> body <> [] -> client_validate t body = result_ok.
Proof. intros Ha Hne. unfold client_validate, payload_ptr. by rewrite bool_decide_eq_false_2. Qed.

(** A frame that fits the send buffer is queued whole. *)
Lemma send_frame_fits t body c :
  len body <= MAX_TCP_MSG_PAYLOAD -> len (tc_sendBuf (sc_conn c)) + 3 + len body <= MAX_TCP_SEND_BUF ->
  send_frame t body c =
  (Some tt, set_sc_conn (set_tc_sendBuf (tc_sendBuf (sc_conn c) ++ frame t body) (sc_conn c)) c).
Proof.
  intros H1 H2. unfold send_frame, conn_step, bind, gets, modify, ret, when. cbn.
  rewrite sendTcpMsg_spec, (proj2 (Z.leb_le (len body) _)), (proj2 (Z.leb_le _ MAX_TCP_SEND_BUF)) by done. done.
Qed.

(** ** The client's half of the handshake

    With an application that leaves the client alone. *)

Section Quiet.
Context (Hquiet : forall e, on_event e = ret tt).

Lemma bind_fire {B} e (k : unit -> SE CliSignalClient B) c :
  bind (fire e) k c = k tt (set_sc_events (sc_events c ++ [e]) c).
Proof. unfold fire. unfold bind, modify. rewrite Hquiet. done. Qed.

(** What the server's answers look like on the wire. *)
Definition server_hello (salt nonce pub : bytes) : bytes :=
  be_bytes 2 PROTOCOL_VERSION ++ [1] ++ [AUTH_KDF_PROFILE] ++ salt ++ nonce ++ pub ++ [].
Definition server_auth_ok (sid : Z) (proof : bytes) : bytes := be_bytes 4 sid ++ proof ++ [].

Lemma server_hello_written salt nonce pub :
  writeBytes pub (writeBytes nonce (writeBytes salt
    (writeU8 AUTH_KDF_PROFILE (writeU8 1 (writeU16 PROTOCOL_VERSION []))))) = server_hello salt nonce pub.
Proof. unfold server_hello. written. by rewrite app_nil_r. Qed.
Lemma server_auth_ok_written sid proof :
  writeBytes proof (writeU32 sid []) = server_auth_ok sid proof.
Proof. unfold server_auth_ok. written. by rewrite app_nil_r. Qed.

Lemma sendServerAuth_starts c :
  sc_authOperation c = 0 -> hs_secureReady (sc_auth c) = false -> hs_secureMaster (sc_auth c) = [] ->
  hs_serverPassword (sc_auth c) <> [] ->
  sendServerAuth c = (Some tt, set_sc_authTask
    (kdf_start (hs_serverPassword (sc_auth c)) (hs_authSalt (sc_auth c)) (sc_authTask c))
    (set_sc_authOperation 1 c)).
Proof.
  intros E1 E2 E3 E4. unfold sendServerAuth. rewrite bind_gets, E1, E2, E3. cbn [Z.eqb negb orb].
  rewrite bool_decide_eq_true_2 by done. cbn [negb]. by rewrite bool_decide_eq_false_2.
Qed.
Lemma client_takes_hello c salt nonce pub :
  len salt = AUTH_SALT_SIZE -> len nonce = 16 -> len pub = 32 ->
  sc_authOperation c = 0 -> hs_secureReady (sc_auth c) = false -> hs_secureMaster (sc_auth c) = [] ->
  hs_serverAuthRequired (sc_auth c) = false -> hs_serverPassword (sc_auth c) <> [] ->
  client_processMessage MSG_SERVER_HELLO (server_hello salt nonce pub) c =
  (Some true,
   set_sc_authTask (kdf_start (hs_serverPassword (sc_auth c)) salt (sc_authTask c))
   (set_sc_authOperation 1
   (set_sc_auth (set_hs_serverPubKey pub (set_hs_serverNonce nonce (set_hs_authSalt salt
      (set_hs_serverAuthRequired true (sc_auth c))))) c))).
Proof.
  intros Hs Hn Hp E1 E2 E3 E4 E5. unfold client_processMessage, catch, process_frame.
  rewrite bind_gets. unfold allowedPlainHandshake. rewrite E1, E2, E3, E4.
  rewrite bool_decide_eq_true_2 by done. cbn [negb andb orb Z.eqb].
  change (MSG_SERVER_HELLO =? MSG_ERROR) with false.
  change (MSG_SERVER_HELLO =? MSG_SERVER_HELLO) with true. cbn [negb andb orb].
  rewrite client_validate_ok; [|rewrite <- server_hello_written; by apply hello_accepted|done].
  cbn [result_ok rs_status]. change (MSG_SERVER_HELLO =? MSG_ENCRYPTED) with false. cbv iota.
  change (client_dispatch MSG_SERVER_HELLO (server_hello salt nonce pub))
    with (on_server_hello (at_pos [] (server_hello salt nonce pub))).
  unfold on_server_hello, server_hello.
  assert (AUTH_SALT_SIZE = len salt) as Es by done. assert (16 = len nonce) as En by done.
  assert (32 = len pub) as Ep by done.
  rewrite (bind_take _ _ _ _ _ _ _ (reads_u16 _)), (bind_take _ _ _ _ _ _ _ (reads_u8 _)).
  change (u16 PROTOCOL_VERSION =? PROTOCOL_VERSION) with true. cbn [negb Z.eqb].
  rewrite bind_in_auth. rewrite (bind_take _ _ _ _ _ _ _ (reads_u8 _)).
  change (AUTH_KDF_PROFILE =? AUTH_KDF_PROFILE) with true. cbn [negb].
  rewrite (bind_take _ _ _ _ _ _ _ (reads_bytes _ _ Es)), bind_in_auth.
  rewrite (bind_take _ _ _ _ _ _ _ (reads_bytes _ _ En)), bind_in_auth.
  rewrite (bind_take _ _ _ _ _ _ _ (reads_bytes _ _ Ep)), bind_in_auth, bind_gets.
  cbn [sc_auth set_sc_auth]. unfold set_hs_serverPubKey at 1. cbn [hs_serverPassword].
  rewrite bool_decide_eq_false_2 by done.
  match goal with |- context [bind sendServerAuth _ ?x] =>
    rewrite (bind_run _ _ _ _ _ (sendServerAuth_starts x E1 E2 E3 E5)) end. done.
Qed.

(** The master secret the client derives from the password hash. *)
Definition client_master (a : ClientAuth) (hash : bytes) : bytes :=
  deriveSecureMaster (crypto_x25519 (hs_clientPrivKey a) (hs_serverPubKey a)) hash
    (hs_clientNonce a) (hs_serverNonce a) (hs_clientPubKey a) (hs_serverPubKey a) (hs_authSalt a)
    AUTH_KDF_PROFILE.
Lemma client_proves c hash el t' :
  kdf_poll (sc_authTask c) = (Some (mkKdfResult hash true el), t') ->
  sc_authOperation c = 1 -> tc_connected (sc_conn c) = true ->
  validX25519Shared (crypto_x25519 (hs_clientPrivKey (sc_auth c)) (hs_serverPubKey (sc_auth c))) = true ->
  let a := sc_auth c in let master := client_master a hash in
  let proof := computeClientAuthProof master hash in
  len proof <= MAX_TCP_MSG_PAYLOAD -> len (tc_sendBuf (sc_conn c)) + 3 + len proof <= MAX_TCP_SEND_BUF ->
  pollAuthTask c =
  (Some tt, set_sc_conn (set_tc_sendBuf (tc_sendBuf (sc_conn c) ++ frame MSG_SERVER_AUTH proof) (sc_conn c))
   (set_sc_auth (set_hs_secureMaster master (set_hs_expectedServerProof (computeServerAuthProof master hash)
      (set_hs_clientPrivKey (zeros 32) a)))
   (set_sc_authOperation 0 (set_sc_authTask t' c)))).
Proof.
  intros Hpoll Hop Hconn Hsh a master proof H1 H2. unfold pollAuthTask.
  rewrite bind_gets, Hpoll, bind_in_task, Hpoll. cbn [fst snd].
  rewrite bind_gets. cbn [sc_authOperation set_sc_authTask]. rewrite Hop, bind_modify, bind_gets.
  change (1 =? 0) with false. change (1 =? 2) with false. change (1 =? 3) with false.
  cbn [sc_conn set_sc_authOperation set_sc_authTask orb kr_success]. rewrite Hconn. cbn [negb].
  unfold finish_server_auth. rewrite bind_gets. cbn [sc_auth set_sc_authOperation set_sc_authTask].
  rewrite bind_in_auth. fold a. unfold a at 1 2. rewrite Hsh. cbn [negb].
  rewrite bind_in_auth. fold (client_master a hash). fold master. fold proof.
  match goal with |- send_frame _ _ ?x = _ => rewrite (send_frame_fits _ _ x) by done end. done.
Qed.

Lemma client_takes_auth_ok c :
  sc_authOperation c = 0 -> hs_secureReady (sc_auth c) = false -> hs_serverAuthRequired (sc_auth c) = true ->
  len (hs_secureMaster (sc_auth c)) = SECURE_KEY_SIZE -> len (hs_expectedServerProof (sc_auth c)) = 32 ->
  (forall a, crypto_verify32 a a = 0) -> tc_connected (sc_conn c) = true ->
  let a := sc_auth c in let sid := deriveSessionId (hs_secureMaster a) in
  0 < sid < 4294967296 ->
  client_processMessage MSG_SERVER_AUTH_OK (server_auth_ok sid (hs_expectedServerProof a)) c =
  (Some true, set_sc_events ((sc_events c ++ [OnSecureSessionEstablished sid (hs_secureMaster a)]) ++ [OnConnected])
   (set_sc_auth (set_hs_secureReady true
     (set_hs_secureCipher (cipher_init (hs_secureCipher a) (hs_secureMaster a) true "signal")
     (set_hs_secureSessionId sid (set_hs_expectedServerProof (zeros 32) a)))) c)).
Proof.
  intros Hop Hready Hreq Hm He Hv Hconn a sid Hsid. unfold client_processMessage, catch, process_frame.
  rewrite bind_gets. unfold allowedPlainHandshake. rewrite Hop, Hready, Hreq, Hm. cbn [negb andb Z.eqb].
  change (MSG_SERVER_AUTH_OK =? MSG_ERROR) with false.
  change (MSG_SERVER_AUTH_OK =? MSG_SERVER_HELLO) with false.
  change (MSG_SERVER_AUTH_OK =? MSG_SERVER_AUTH_OK) with true.
  change (SECURE_KEY_SIZE =? SECURE_KEY_SIZE) with true. cbn [negb andb orb].
  rewrite client_validate_ok; [|rewrite <- server_auth_ok_written; by apply auth_ok_accepted|done].
  cbn [result_ok rs_status]. change (MSG_SERVER_AUTH_OK =? MSG_ENCRYPTED) with false. cbv iota.
  change (client_dispatch MSG_SERVER_AUTH_OK ?b) with (on_server_auth_ok (at_pos [] b)).
  unfold on_server_auth_ok, server_auth_ok. rewrite bind_gets. rewrite Hm.
  change (SECURE_KEY_SIZE =? SECURE_KEY_SIZE) with true. cbn [negb].
  rewrite (bind_take _ _ _ _ _ _ _ (reads_u32 _)).
  assert (SECURE_KEY_SIZE = len (hs_expectedServerProof a)) as Ep by done.
  rewrite (bind_take _ _ _ _ _ _ _ (reads_bytes _ _ Ep)), bind_in_auth.
  unfold u32. rewrite Z.mod_small by lia. unfold a at 1. rewrite Hv. cbn [Z.eqb].
  fold a. fold sid. rewrite Z.eqb_refl. cbn [andb negb].
  rewrite bind_in_auth, bind_gets. cbn [sc_auth set_sc_auth]. 
  rewrite (bind_fire), bind_gets.
  cbn [sc_conn set_sc_auth set_sc_events]. rewrite Hconn. cbn [negb]. rewrite bind_fire. done.
Qed.

(** A new connection forgets everything but the password. *)
Lemma cancelRoomOperation_eq c :
  cancelRoomOperation c =
  (Some tt, set_sc_room (set_rr_pendingCreateMtu (rr_pendingCreateMtu (sc_room c))
              (set_rr_discardRoomResponses (rr_discardRoomResponses (sc_room c))
              (set_rr_roomRequestStarted (rr_roomRequestStarted (sc_room c)) RoomRequest_init)))
   (if (sc_authOperation c =? 2) || (sc_authOperation c =? 3)
    then set_sc_authOperation 0 (set_sc_authTask (kdf_cancel (sc_authTask c)) c) else c)).
Proof.
  unfold cancelRoomOperation. rewrite bind_gets. destruct (_ || _); destruct c as [? ? ? ? ? ? ? ? ? ? [] ? ? ? ? ? ?]; reflexivity.
Qed.
Lemma resetSecureState_eq c : exists t,
  (t = kdf_cancel (sc_authTask c) \/ t = kdf_cancel (kdf_cancel (sc_authTask c))) /\
  resetSecureState c =
  (Some tt, mkClient (sc_conn c) (sc_myPeerId c) (sc_pingSentTime c) (sc_connectStartTime c) (sc_authStartedMs c)
     t 0 false (sc_disconnectNotified c) (set_hs_serverPassword (hs_serverPassword (sc_auth c)) ClientAuth_init)
     (set_rr_pendingCreateMtu (rr_pendingCreateMtu (sc_room c)) RoomRequest_init) RoomListView_init
     (sc_now c) (sc_monotonic c) (sc_random c) (sc_events c) (sc_app c)).
Proof.
  unfold resetSecureState. rewrite (bind_run _ _ _ _ _ (cancelRoomOperation_eq c)).
  destruct c as [a1 a2 a3 a4 a5 tk op a6 a7 [h1 h2 h3 h4 h5 h6 h7 h8 h9 h10 h11 h12 h13] [q1 q2 q3 q4 q5 q6 q7 q8] a8 a9 a10 a11 a12 a13].
  cbn [sc_authOperation sc_room sc_authTask rr_pendingCreateMtu rr_discardRoomResponses rr_roomRequestStarted].
  exists (if (op =? 2) || (op =? 3) then kdf_cancel (kdf_cancel tk) else kdf_cancel tk).
  split; [by destruct (_ || _); auto|].
  destruct (_ || _); unfold in_task, in_room, in_auth, resetRoomListState, in_list; rewrite !bind_modify; reflexivity.
Qed.
Lemma client_connects fd c :
  fd <> SOCK_INVALID -> exists t,
    (t = kdf_cancel (sc_authTask c) \/ t = kdf_cancel (kdf_cancel (sc_authTask c))) /\
    client_connectTo fd true c =
    (Some true, mkClient (mkConn fd [] [] false true 0) 0 (sc_pingSentTime c) (sc_now c) (sc_authStartedMs c)
       t 0 false false (set_hs_serverPassword (hs_serverPassword (sc_auth c)) ClientAuth_init)
       (set_rr_pendingCreateMtu (rr_pendingCreateMtu (sc_room c)) RoomRequest_init) RoomListView_init
       (sc_now c) (sc_monotonic c) (sc_random c) (sc_events c) (sc_app c)).
Proof.
  intros Hfd. unfold client_connectTo. rewrite bind_modify.
  destruct (resetSecureState_eq (set_sc_myPeerId 0 c)) as (t & Ht & E). exists t. split; [exact Ht|].
  rewrite (bind_run _ _ _ _ _ E), !bind_modify. unfold conn_step. rewrite bind_gets.
  assert (conn_connectTo fd true = fun _ => (true, mkConn fd [] [] false true 0)) as ->.
  { unfold conn_connectTo. by rewrite (proj2 (Z.eqb_neq fd SOCK_INVALID)). }
  reflexivity.
Qed.
(** When the connection is up the client sends its hello. *)
Lemma client_says_hello c n k rest fd sent would_block :
  sc_conn c = mkConn fd [] [] false true 0 -> sc_random c = Some n :: Some k :: rest ->
  len (crypto_x25519_public_key (resize 32 0 k)) = 32 ->
  let nonce := resize 16 0 n in let priv := resize 32 0 k in
  let pub := crypto_x25519_public_key priv in
  client_onWritable 0 sent would_block c =
  (Some tt, set_sc_conn (mkConn fd [] (frame MSG_CLIENT_HELLO (be_bytes 2 PROTOCOL_VERSION ++ nonce ++ pub))
                           true false (sc_now c))
   (set_sc_auth (set_hs_clientPubKey pub (set_hs_clientPrivKey priv (set_hs_clientNonce nonce (sc_auth c))))
   (set_sc_random rest (set_sc_authStartedMs (sc_now c) c)))).
Proof.
  intros Hc Hr Hp nonce priv pub. unfold client_onWritable. rewrite bind_gets, Hc. cbn [tc_connecting Z.eqb].
  rewrite bind_modify. unfold sendClientHello, client_random.
  rewrite !bind_assoc, bind_gets. cbn [sc_random set_sc_authStartedMs set_sc_conn]. rewrite Hr.
  rewrite !bind_assoc, bind_modify. unfold bind at 1, ret at 1. cbn [fmap option_fmap option_map].
  rewrite bind_in_auth. cbn [fst snd secureRandomBytesWithProvider].
  rewrite !bind_assoc, bind_gets. cbn [sc_random set_sc_authStartedMs set_sc_conn set_sc_random set_sc_auth].
  rewrite Hr. cbn [tail]. rewrite !bind_assoc, bind_modify. unfold bind at 1, ret at 1.
  rewrite bind_assoc, bind_in_auth. unfold bind at 1, ret at 1. cbn [fst snd negb fmap option_fmap option_map
    secureRandomBytesWithProvider].
  rewrite bind_in_auth, bind_gets. cbn [hs_clientPubKey hs_clientNonce hs_clientPrivKey sc_auth set_sc_auth
    set_hs_clientPubKey set_hs_clientPrivKey set_hs_clientNonce].
  assert (len nonce = 16) as En by (unfold nonce, len; by rewrite length_resize).
  match goal with |- send_frame _ ?b _ = _ =>
    change b with (writeBytes pub (writeBytes nonce (writeU16 PROTOCOL_VERSION []))) end.
  assert (writeBytes pub (writeBytes nonce (writeU16 PROTOCOL_VERSION [])) =
          be_bytes 2 PROTOCOL_VERSION ++ nonce ++ pub) as -> by by written.
  assert (len (be_bytes 2 PROTOCOL_VERSION ++ nonce ++ pub) = 50) as El
    by (rewrite !len_app, len_be_bytes; unfold pub, priv; lia).
  match goal with |- send_frame _ _ ?x = _ => rewrite (send_frame_fits _ _ x) end.
  - cbn [tc_sendBuf sc_conn set_sc_auth set_sc_random set_sc_authStartedMs set_sc_conn]. by rewrite Hc.
  - by rewrite El.
  - rewrite El. cbn [tc_sendBuf sc_conn set_sc_auth set_sc_random set_sc_authStartedMs set_sc_conn]. by rewrite Hc.
Qed.
End Quiet.
End Run.
