(* ===== verification/ClientSession.v ===== *)
(** * When the signalling client trusts its session

    [CliSignalClient] of [client-cli/src/cli_net.cpp]: what holds whenever its
    session is ready, and the only way in which it becomes ready. *)

From S2P Require Import Prelude Protocol Room SecureFrame SecureFrameFacts SignalValidator ByteBuf WireFacts Overlay TcpConn AuthKdf CliSignalState CliSignal CliSignalFacts.

(** ** The invariant *)

Section Session.
Context `{CryptoLaws} {AS : AppState} {CA : ClientApp}.

(** The cipher carries the client's signalling keys of [master]. *)
Record keyed (master : bytes) (k : SecureFrameCipher) : Prop := mkKeyed {
  ky_init : m_initialized k = true;
  ky_send : m_sendKey k = deriveSecureKey master (bytes_of_string "VLan-signal-c2s-key");
  ky_recv : m_recvKey k = deriveSecureKey master (bytes_of_string "VLan-signal-s2c-key")
}.
Record ready_ok (op : Z) (a : ClientAuth) : Prop := mkReady {
  rd_op : op = 0 \/ op = 2 \/ op = 3;
  rd_master : len (hs_secureMaster a) = SECURE_KEY_SIZE;
  rd_sid : hs_secureSessionId a = deriveSessionId (hs_secureMaster a);
  rd_keyed : keyed (hs_secureMaster a) (hs_secureCipher a)
}.
Definition session_ok (c : CliSignalClient) : Prop :=
  hs_secureReady (sc_auth c) = true -> ready_ok (sc_authOperation c) (sc_auth c).
(** From [c] to [c'] the session did not become ready, and if it stayed ready
    it is the same session. *)
Definition same_session (c c' : CliSignalClient) : Prop :=
  hs_secureReady (sc_auth c') = true ->
  hs_secureReady (sc_auth c) = true /\
  (ready_ok (sc_authOperation c) (sc_auth c) ->
   ready_ok (sc_authOperation c') (sc_auth c') /\
   hs_secureMaster (sc_auth c') = hs_secureMaster (sc_auth c) /\
   hs_secureSessionId (sc_auth c') = hs_secureSessionId (sc_auth c)).
(** The receive buffer is as it was, or empty. *)
Definition drained (c c' : CliSignalClient) : Prop :=
  tc_recvBuf (sc_conn c') = tc_recvBuf (sc_conn c) \/ tc_recvBuf (sc_conn c') = [].
Definition steady (c c' : CliSignalClient) : Prop := drained c c' /\ same_session c c'.
#[export] Instance steady_preorder : PreOrder steady.
Proof.
  split; [intros c; split; [by left|by intros Hr]|]. intros c1 c2 c3 [B12 H12] [B23 H23].
  split; [unfold drained in *; intuition congruence|]. intros Hr. destruct (H23 Hr) as [Hr2 E2].
  destruct (H12 Hr2) as [Hr1 E1]. split; [done|]. intros Hok. destruct (E1 Hok) as (Hok2 & ? & ?).
  destruct (E2 Hok2) as (? & ? & ?). split_and!; [done|congruence..].
Qed.
Lemma same_ok c c' : session_ok c -> same_session c c' -> session_ok c'.
Proof. intros Hc Hs Hr. destruct (Hs Hr) as [Hr1 E]. by destruct (E (Hc Hr1)). Qed.
Lemma steady_ok c c' : session_ok c -> steady c c' -> session_ok c'.
Proof. intros Hc [_ Hs]. by eapply same_ok. Qed.

(** [f] neither makes the session ready nor changes a ready one. *)
Definition aside (f : ClientAuth -> ClientAuth) : Prop := forall a,
  hs_secureReady (f a) = true ->
  hs_secureReady a = true /\ hs_secureMaster (f a) = hs_secureMaster a /\
  hs_secureSessionId (f a) = hs_secureSessionId a /\
  (keyed (hs_secureMaster a) (hs_secureCipher a) -> keyed (hs_secureMaster a) (hs_secureCipher (f a))).

Lemma keyed_init master k : keyed master (cipher_init k master true "signal").
Proof.
  unfold cipher_init. destruct (m_initialized k && _ && _) eqn:E; [|by constructor].
  bools. constructor; [done| |]; by apply verify32_spec.
Qed.
Lemma keyed_encrypt master k plain ad : keyed master k -> keyed master (snd (encrypt k plain ad)).
Proof.
  intros [? ? ?]. unfold encrypt. destruct (_ || _); [done|]. destruct (crypto_aead_lock _ _ _ _). by constructor.
Qed.
Lemma keyed_decrypt master k frame ad : keyed master k -> keyed master (snd (decrypt k frame ad)).
Proof.
  intros [? ? ?]. unfold decrypt. repeat case_match; try done. cbn [snd].
  match goal with |- keyed _ (snd (recordCounter ?k ?ctr)) =>
    destruct (recordCounter_frame k ctr) as (E1 & _ & E2 & E3 & _) end.
  constructor; congruence.
Qed.

(** ** Every operation keeps it *)

(** The state after the rest of a program that only takes steps known to keep
    the invariant. *)
Ltac walk_on := match goal with |- ?R ?c (snd (?m ?c)) => refine ((_ : moves R m) c); walk end.
Ltac walk_from c' := match goal with |- ?R ?c (snd (?m c')) =>
  transitivity c'; [|refine ((_ : moves R m) c'); walk] end.

Context (Happ : forall e, moves steady (on_event e)).

Lemma so_ret {A} (a : A) : moves steady (ret a).
Proof. apply moves_ret. apply _. Qed.
Lemma so_throw {A} : moves steady (@throw _ A).
Proof. apply moves_throw. apply _. Qed.
Lemma so_gets {A} (f : CliSignalClient -> A) : moves steady (gets f).
Proof. apply moves_gets. apply _. Qed.
#[local] Hint Resolve so_ret so_throw so_gets : vlan.
Lemma so_modify f :
  (forall c, sc_auth (f c) = sc_auth c) -> (forall c, sc_authOperation (f c) = sc_authOperation c) ->
  (forall c, drained c (f c)) -> moves steady (modify f).
Proof. intros E1 E2 E3 c. split; [apply E3|]. unfold same_session. cbn. by rewrite E1, E2. Qed.
Lemma so_op v : v = 0 \/ v = 2 \/ v = 3 -> moves steady (modify (set_sc_authOperation v)).
Proof. intros Hv c. split; [by left|]. intros Hr. split; [done|]. intros []. split; [by constructor|done]. Qed.
Lemma so_auth f : aside f -> moves steady (in_auth f).
Proof.
  intros Hf c. split; [by left|]. intros Hr. change (hs_secureReady (f (sc_auth c)) = true) in Hr.
  destruct (Hf _ Hr) as (Hr' & E1 & E2 & E3). split; [done|]. intros [H1' H2 H3 H4].
  split; [|by split]. constructor; cbn; rewrite ?E1, ?E2; auto.
Qed.
Lemma so_conn_step {A} (f : TcpConnection -> A * TcpConnection) :
  (forall k, tc_recvBuf (snd (f k)) = tc_recvBuf k \/ tc_recvBuf (snd (f k)) = []) -> moves steady (conn_step f).
Proof.
  intros Hf. unfold conn_step. apply moves_bind; [apply _|apply so_gets|]. intros x.
  apply moves_bind; [apply _|apply so_modify; try done; intros c; apply Hf|]. intros _. apply so_ret.
Qed.
Lemma so_connect_step fd ok : moves steady (conn_step (conn_connectTo fd ok)).
Proof. apply so_conn_step. intros k. unfold conn_connectTo. repeat case_match; by right. Qed.
Lemma so_flush_step sent wb : moves steady (conn_step (flushSend sent wb)).
Proof. apply so_conn_step. intros k. unfold flushSend. repeat case_match; by left. Qed.
Lemma so_send_step t b : moves steady (conn_step (sendTcpMsg t b)).
Proof. apply so_conn_step. intros k. rewrite sendTcpMsg_spec. case_match; by left. Qed.
Lemma so_take_from {A} (m : SE ByteBuffer A) b : moves steady (take_from m b).
Proof. unfold take_from. destruct (m b) as [[a|] b']; auto with vlan. Qed.
Lemma so_fire e : moves steady (fire e).
Proof. unfold fire. apply moves_bind; [apply _|apply so_modify; try done; intros; by left|intros _; apply Happ]. Qed.
#[local] Hint Extern 1 (moves steady (modify (set_sc_authOperation _))) => apply so_op; lia : vlan.
#[local] Ltac elsewhere_now := apply so_modify; intros ?; first [reflexivity|by left|by right].
#[local] Hint Extern 2 (moves steady (modify _)) => by elsewhere_now : vlan.
#[local] Hint Extern 1 (moves steady (in_room _)) => by elsewhere_now : vlan.
#[local] Hint Extern 1 (moves steady (in_list _)) => by elsewhere_now : vlan.
#[local] Hint Extern 1 (moves steady (in_task _)) => by elsewhere_now : vlan.
#[local] Hint Extern 1 (moves steady reset_conn) => by elsewhere_now : vlan.
#[local] Hint Extern 1 (moves steady resetRoomListState) => by elsewhere_now : vlan.
#[local] Hint Extern 1 (moves steady (in_auth _)) => apply so_auth; intros ? ?; by split_and! : vlan.
#[local] Hint Resolve so_connect_step so_flush_step so_send_step so_take_from so_fire : vlan.

Lemma so_random n : moves steady (client_random n).
Proof. unfold client_random. walk. Qed.
#[local] Hint Resolve so_random : vlan.
Lemma so_cancel : moves steady cancelRoomOperation.
Proof. unfold cancelRoomOperation. walk. Qed.
#[local] Hint Resolve so_cancel : vlan.
Lemma so_reset : moves steady resetSecureState.
Proof. unfold resetSecureState. walk. Qed.
#[local] Hint Resolve so_reset : vlan.
Lemma so_notify : moves steady notifyDisconnectedOnce.
Proof. unfold notifyDisconnectedOnce. walk. Qed.
#[local] Hint Resolve so_notify : vlan.
Lemma so_drop : moves steady drop_connection.
Proof. unfold drop_connection. walk. Qed.
#[local] Hint Resolve so_drop : vlan.
Lemma so_fail_auth code text : moves steady (failAuthentication code text).
Proof. unfold failAuthentication. walk. Qed.
Lemma so_fail_frame : moves steady failSignalFrame.
Proof. apply so_drop. Qed.
Lemma so_send_frame t b : moves steady (send_frame t b).
Proof. unfold send_frame. walk. Qed.
#[local] Hint Resolve so_fail_auth so_fail_frame so_send_frame : vlan.
Lemma so_encrypt p : moves steady (client_encrypt p).
Proof.
  unfold client_encrypt. walk. apply so_auth. intros x Hr. split_and!; try done. apply keyed_encrypt.
Qed.
Lemma so_decrypt p : moves steady (client_decrypt p).
Proof.
  unfold client_decrypt. walk. apply so_auth. intros x Hr. split_and!; try done. apply keyed_decrypt.
Qed.
#[local] Hint Resolve so_encrypt so_decrypt : vlan.
Lemma so_sendMsg t b : moves steady (client_sendMsg t b).
Proof. unfold client_sendMsg. walk. Qed.
#[local] Hint Resolve so_sendMsg : vlan.
Lemma so_abandon : moves steady abandonRoomOperation.
Proof. unfold abandonRoomOperation. walk. Qed.
Lemma so_discard : moves steady discard_snapshot.
Proof. unfold discard_snapshot, client_listRooms. walk. Qed.
Lemma so_disconnect : moves steady client_disconnect.
Proof. unfold client_disconnect. walk. Qed.
#[local] Hint Resolve so_abandon so_discard so_disconnect : vlan.

(** A key derivation for the server's password starts only while not ready. *)
Lemma not_ready_steady c c' : drained c c' -> hs_secureReady (sc_auth c') = false -> steady c c'.
Proof. intros Hd E. split; [exact Hd|]. intros Hr. congruence. Qed.
Lemma so_sendServerAuth : moves steady sendServerAuth.
Proof.
  unfold sendServerAuth. intros c. rewrite bind_gets.
  destruct (negb (sc_authOperation c =? 0) || hs_secureReady (sc_auth c) || _) eqn:E; [by walk_on|]. bools.
  case_match; [by apply so_fire|]. rewrite bind_modify. apply not_ready_steady; [by left|done].
Qed.
#[local] Hint Resolve so_sendServerAuth : vlan.
(** Its result is used only if it is still wanted, hence while not ready. *)
Lemma so_finish hash c : hs_secureReady (sc_auth c) = false -> steady c (snd (finish_server_auth hash c)).
Proof.
  intros Hr. unfold finish_server_auth. rewrite bind_gets. rewrite bind_in_auth.
  match goal with |- context [negb ?b] => destruct (negb b) end.
  - match goal with |- steady _ (snd (failAuthentication _ _ ?x)) => walk_from x end. apply not_ready_steady; [by left|done].
  - rewrite bind_in_auth. match goal with |- steady _ (snd (send_frame _ _ ?x)) => walk_from x end.
    apply not_ready_steady; [by left|done].
Qed.
Lemma finish_drained hash c : drained c (snd (finish_server_auth hash c)).
Proof.
  unfold finish_server_auth. rewrite bind_gets, bind_in_auth.
  match goal with |- context [negb ?b] => destruct (negb b) end.
  - match goal with |- drained _ (snd (failAuthentication ?a ?b ?x)) => exact (proj1 (so_fail_auth a b x)) end.
  - rewrite bind_in_auth. match goal with |- drained _ (snd (send_frame ?a ?b ?x)) => exact (proj1 (so_send_frame a b x)) end.
Qed.
Lemma so_poll : moves steady pollAuthTask.
Proof.
  unfold pollAuthTask. apply moves_bind; [apply _|auto with vlan|intros polled].
  apply moves_bind; [apply _|auto with vlan|intros _]. destruct polled as [result|]; [|auto with vlan].
  intros c. rewrite bind_gets, bind_modify, bind_gets.
  assert (steady c (set_sc_authOperation 0 c)) as Hz by (apply (so_op 0); by left).
  cbn [sc_conn set_sc_authOperation].
  destruct ((sc_authOperation c =? 0) || _) eqn:E0; [exact Hz|].
  destruct (negb (kr_success result)); [walk_from (set_sc_authOperation 0 c); exact Hz|].
  destruct (Z.eqb_spec (sc_authOperation c) 2).
  { cbv zeta. walk_from (set_sc_authOperation 0 c). exact Hz. }
  destruct (Z.eqb_spec (sc_authOperation c) 3).
  { unfold sendAuthResponse. walk_from (set_sc_authOperation 0 c). exact Hz. }
  split; [apply (finish_drained (kr_hash result) (set_sc_authOperation 0 c))|]. intros Hr. split.
  - destruct (hs_secureReady (sc_auth c)) eqn:E; [done|].
    destruct (proj2 (so_finish (kr_hash result) (set_sc_authOperation 0 c) E) Hr) as [E' _].
    change (hs_secureReady (sc_auth c) = true) in E'. congruence.
  - intros []. bools. lia.
Qed.
#[local] Hint Resolve so_poll : vlan.

(** ** The handlers *)

Lemma so_hello bb : moves steady (on_server_hello bb).
Proof. unfold on_server_hello. walk. Qed.
#[local] Hint Resolve so_hello : vlan.
Lemma so_expected : moves steady room_response_expected.
Proof. unfold room_response_expected. walk. Qed.
#[local] Hint Resolve so_expected : vlan.
Lemma so_read_page n bb : moves steady (read_page n bb).
Proof. revert bb. induction n as [|n IH]; intros bb; cbn [read_page]; walk. Qed.
Lemma so_emit p : moves steady (emitRoomList p).
Proof. unfold emitRoomList. walk. Qed.
#[local] Hint Resolve so_read_page so_emit : vlan.
Lemma so_dispatch t payload : t <> MSG_SERVER_AUTH_OK -> moves steady (client_dispatch t payload).
Proof.
  intros Ht. unfold client_dispatch. rewrite (proj2 (Z.eqb_neq t MSG_SERVER_AUTH_OK)) by done.
  unfold on_login_resp, on_room_created, on_join_resp, on_room_list, on_room_list_push, on_relay_data, on_pong,
    on_auth_challenge, on_error. walk.
Qed.
Lemma so_plain p : moves steady (process_plain p).
Proof.
  unfold process_plain. cbv zeta. destruct (_ || _) eqn:E; [walk|]. bools.
  assert (byte_at p 0 <> MSG_SERVER_AUTH_OK) as Ht by done. pose proof (so_dispatch _ (drop 1 p) Ht). walk.
Qed.
#[local] Hint Resolve so_plain : vlan.
Lemma allowed_auth_ok c :
  allowedPlainHandshake c MSG_SERVER_AUTH_OK = true ->
  hs_secureReady (sc_auth c) = false /\ hs_serverAuthRequired (sc_auth c) = true /\
  sc_authOperation c = 0 /\ len (hs_secureMaster (sc_auth c)) = SECURE_KEY_SIZE.
Proof.
  unfold allowedPlainHandshake. change (MSG_SERVER_AUTH_OK =? MSG_ERROR) with false.
  change (MSG_SERVER_AUTH_OK =? MSG_SERVER_HELLO) with false.
  change (MSG_SERVER_AUTH_OK =? MSG_SERVER_AUTH_OK) with true. cbn [andb orb]. intros E. by bools.
Qed.
Lemma so_hello_out : moves steady sendClientHello.
Proof. unfold sendClientHello. walk. Qed.
#[local] Hint Resolve so_hello_out : vlan.

Lemma auth_ok_size p : rs_status (client_validate MSG_SERVER_AUTH_OK p) = Valid -> len p = 36.
Proof.
  unfold client_validate, payload_ptr, validateServerSignalPayload.
  destruct (bool_decide (p = [])) eqn:Ep; bools.
  { subst p. intros E. by vm_compute in E. }
  rewrite bool_decide_eq_false_2 by done. rewrite andb_false_r.
  change (MSG_SERVER_AUTH_OK =? MSG_SERVER_HELLO) with false.
  change (MSG_SERVER_AUTH_OK =? MSG_SERVER_AUTH_OK) with true. cbv zeta iota. cbn [default].
  unfold len at 1. rewrite Nat2Z.id, firstn_all.
  unfold validate, validate_server_auth_ok, SignalValidator.readU32, skip, require, cursor_byte, cursor_advance, fail_with,
    setError, position, cursor_finish, cursor_remaining, Cursor_init.
  unfold bind, gets, modify, ret, throw. cbn [c_data c_pos c_error c_errorOffset].
  pose proof (len_nonneg p) as Hn. cbn. rewrite (proj2 (Z.leb_le 0 (len p)) Hn).
  destruct (len p - 0 <? 4) eqn:E1; cbn; [done|].
  destruct ((if 0 + 4 <=? len p then len p - (0 + 4) else 0) <? 32) eqn:E2; cbn; [done|].
  destruct (Z.lor _ _ =? 0); cbn; [done|]. rewrite decide_False by (intros Hf; by apply Hf).
  cbn [c_data c_pos]. destruct (Z.eqb_spec (0 + 4 + 32) (len p)) as [E3|]; cbn [negb]; [lia|done].
Qed.

(** What the client checks before it makes the session ready. *)
Record proven (c : CliSignalClient) (bb : ByteBuffer) : Prop := mkProven {
  pv_master : len (hs_secureMaster (sc_auth c)) = SECURE_KEY_SIZE;
  pv_read : exists b1 b2,
    readU32 bb = (Some (deriveSessionId (hs_secureMaster (sc_auth c))), b1) /\
    readBytes SECURE_KEY_SIZE b1 = (Some (hs_expectedServerProof (sc_auth c)), b2)
}.
Lemma auth_ok_cases bb c :
  sc_authOperation c = 0 ->
  steady c (snd (on_server_auth_ok bb c)) \/
  (proven c bb /\ exists c1, session_ok c1 /\ drained c c1 /\ steady c1 (snd (on_server_auth_ok bb c))).
Proof.
  unfold on_server_auth_ok. intros Hop. rewrite bind_gets.
  destruct (Z.eqb_spec (len (hs_secureMaster (sc_auth c))) SECURE_KEY_SIZE) as [Hm|]; cbn [negb].
  2: { left. by walk_on. }
  destruct (readU32 bb) as [[sid|] b1] eqn:E1; [|left; unfold take_from, bind; by rewrite E1].
  destruct (readBytes SECURE_KEY_SIZE b1) as [[proof|] b2] eqn:E2.
  2: { left. unfold take_from, bind. rewrite E1. unfold ret. rewrite E2. done. }
  assert (forall B (k : Z * ByteBuffer -> CS B), bind (take_from readU32 bb) k c = k (sid, b1) c) as R1
    by (intros; unfold take_from, bind; by rewrite E1).
  assert (forall B (k : bytes * ByteBuffer -> CS B),
    bind (take_from (readBytes SECURE_KEY_SIZE) b1) k c = k (proof, b2) c) as R2
    by (intros; unfold take_from, bind; by rewrite E2).
  rewrite R1, R2, bind_in_auth.
  assert (steady c (set_sc_auth (set_hs_expectedServerProof (zeros 32) (sc_auth c)) c)) as Hz.
  { apply (so_auth (set_hs_expectedServerProof (zeros 32))). intros ? ?; by split_and!. }
  destruct (negb _) eqn:Ev.
  { left. match goal with |- steady _ (snd (_ ?x)) => walk_from x end. exact Hz. }
  apply negb_false_iff, andb_prop in Ev as [Ep Es]. bools. apply verify32_spec in Ep.
  right. split.
  { constructor; [done|]. exists b1, b2. split; congruence. }
  rewrite bind_in_auth. match goal with |- exists c1, _ /\ _ /\ steady c1 (snd (_ ?x)) => exists x end. split_and!; [|by left|by walk_on].
  intros _. constructor; cbn [sc_authOperation sc_auth set_sc_auth]; [by left|exact Hm|exact Es|apply keyed_init].
Qed.
Lemma frame_cases t payload c :
  steady c (snd (process_frame t payload c)) \/
  (t = MSG_SERVER_AUTH_OK /\ hs_serverAuthRequired (sc_auth c) = true /\ sc_authOperation c = 0 /\
   len payload = 36 /\ proven c (bb_of payload) /\
   exists c1, session_ok c1 /\ drained c c1 /\ steady c1 (snd (process_frame t payload c))).
Proof.
  unfold process_frame. rewrite bind_gets. cbv zeta.
  destruct ((_ && _) || _) eqn:E; [left; by walk_on|].
  destruct (rs_status _) eqn:Ev; [|left; by walk_on..].
  destruct (t =? MSG_ENCRYPTED); [left; by walk_on|]. destruct (hs_secureReady (sc_auth c)) eqn:Er; [left; by walk_on|].
  destruct (Z.eq_dec t MSG_SERVER_AUTH_OK) as [->|Ht]; [|left; by apply so_dispatch].
  cbn [negb andb orb] in E. rewrite orb_false_r in E. apply negb_false_iff in E.
  apply allowed_auth_ok in E as (_ & Hreq & Hop & _). apply auth_ok_size in Ev.
  destruct (auth_ok_cases (bb_of payload) c Hop) as [Hs|(Hp & Hc)]; [by left|]. right. by split_and!.
Qed.
Lemma process_after t payload c :
  steady (snd (process_frame t payload c)) (snd (client_processMessage t payload c)).
Proof.
  unfold client_processMessage, catch. destruct (process_frame t payload c) as [[b|] c']; cbn [snd]; [done|].
  by walk_on.
Qed.

(** ** The whole interface *)

Definition receives (call : ClientCall) : bool :=
  match call with CallReadable _ => true | _ => false end.
Lemma so_begin : moves steady begin_room_request.
Proof. unfold begin_room_request. walk. Qed.
#[local] Hint Resolve so_begin : vlan.
Lemma so_call call : receives call = false -> moves steady (client_call call).
Proof.
  intros Hr. destruct call; try discriminate; cbn [client_call];
    unfold client_connectTo, setServerPassword, continueServerAuth, login, client_createRoom,
      client_joinRoom, client_resumeRoom, client_leaveRoom, client_logout, client_listRooms, requestRelay,
      client_sendRelayData, client_sendPing, sendAuthResponse, client_onWritable, client_checkTimeouts; walk.
Qed.
Lemma session_keeps_steady {A} (m : CS A) : moves steady m -> keeps session_ok m.
Proof. intros Hm c Hc. exact (steady_ok _ _ Hc (Hm c)). Qed.
Lemma session_keeps_process t payload : keeps session_ok (client_processMessage t payload).
Proof.
  intros c Hc. eapply steady_ok; [|apply process_after].
  destruct (frame_cases t payload c) as [Hs|(_ & _ & _ & _ & _ & c1 & Hc1 & _ & Hs)]; by eapply steady_ok.
Qed.
Lemma process_drained t payload c : drained c (snd (client_processMessage t payload c)).
Proof.
  destruct (process_after t payload c) as [Ha _].
  destruct (frame_cases t payload c) as [[Hs _]|(_ & _ & _ & _ & _ & c1 & _ & Hc1 & [Hs _])];
    unfold drained in *; intuition congruence.
Qed.
(** The client's receive loop ends.  Each turn takes a frame of at least
    three octets out of the receive buffer and nothing a handler or a callback
    does adds to it, so the buffer's length is enough fuel: any larger amount
    gives the same result and the same state. *)
Theorem client_loop_fuel fuel k c :
  bytes_ok (tc_recvBuf (sc_conn c)) -> (length (tc_recvBuf (sc_conn c)) <= fuel)%nat ->
  client_recv_loop (fuel + k) c = client_recv_loop fuel c.
Proof.
  revert c. induction fuel as [|fuel IH]; intros c Hb Hl.
  - destruct k as [|k]; [done|]. cbn [Nat.add client_recv_loop]. rewrite bind_gets.
    by rewrite (proj2 (Z.ltb_lt _ 3)) by (unfold len; lia).
  - cbn [Nat.add client_recv_loop]. rewrite !bind_gets. set (buf := tc_recvBuf (sc_conn c)) in *.
    destruct (Z.ltb_spec (len buf) 3); [done|]. destruct (pr_status _) eqn:Es; [done| |done].
    pose proof (ready_length buf Hb ltac:(lia) Es) as Hf. rewrite !bind_modify. cbv zeta.
    match goal with |- bind ?m _ ?x = _ => pose proof (process_drained
      (pr_msgType (probeTcpFrame (Some buf) (len buf)))
      (slice 3 (pr_payloadLength (probeTcpFrame (Some buf) (len buf))) buf) x) as Hs end.
    unfold bind at 1 3. destruct (client_processMessage _ _ _) as [[go|] c1]; [|done]. cbn [snd] in Hs.
    destruct (negb go); [done|]. rewrite !bind_gets. destruct (negb _); [done|].
    apply IH; destruct Hs as [E|E]; rewrite E; cbn.
    + by apply Forall_drop.
    + constructor.
    + rewrite length_drop. unfold buf in *. lia.
    + lia.
Qed.
Lemma session_keeps_recv_loop fuel : keeps session_ok (client_recv_loop fuel).
Proof.
  pose proof session_keeps_process as Hp. pose proof (session_keeps_steady _ so_fail_frame) as Hf.
  assert (forall f, (forall c, sc_auth (f c) = sc_auth c) -> (forall c, sc_authOperation (f c) = sc_authOperation c) ->
    keeps session_ok (modify f)) as Hm.
  { intros f E1 E2. apply keeps_modify. intros c Hc. unfold session_ok. by rewrite E1, E2. }
  induction fuel as [|n IH]; cbn [client_recv_loop]; repeat first [solve [eauto 2 with vlan] | by apply Hm | step_prog].
Qed.
Lemma session_keeps_call call : keeps session_ok (client_call call).
Proof.
  destruct (receives call) eqn:E; [|by apply session_keeps_steady, so_call].
  destruct call; try discriminate. cbn [client_call]. unfold client_onReadable.
  pose proof session_keeps_recv_loop as Hl. pose proof (session_keeps_steady _ so_fail_frame) as Hf.
  pose proof (session_keeps_steady _ so_drop) as Hd.
  assert (forall A (f : TcpConnection -> A * TcpConnection), keeps session_ok (conn_step f)) as Hc by by intros A f c Hc.
  walk.
Qed.

(** C11: what a ready session is.  In every state a client can reach, by any
    calls of its public interface, any octets received and any timing, with
    callbacks that do not tamper with the session, [m_secureReady] implies that
    the master secret has 32 octets, the session id is the one derived from
    it, the signalling cipher carries its keys, and no server authentication
    is in progress. *)
Theorem client_session_invariant calls now monotonic application :
  session_ok (client_life calls now monotonic application).
Proof.
  unfold client_life. assert (session_ok (CliSignalClient_init now monotonic application)) as Hi by by intros ?.
  revert Hi. generalize (CliSignalClient_init now monotonic application).
  induction calls as [|call calls IH]; intros c Hc; [exact Hc|]. apply IH. by apply session_keeps_call.
Qed.
(** C10: the client trusts only the server's proof.  No call makes a session
    ready except the receipt of a message, and a message does only when it is
    MSG_SERVER_AUTH_OK, the server asked for authentication, the client has
    already sent its own proof and no derivation is under way, and the payload
    is exactly the session id derived from the master secret followed by the
    proof the client computed from the password. *)
Theorem client_trusts_only_the_proof c :
  hs_secureReady (sc_auth c) = false ->
  (forall call, receives call = false -> hs_secureReady (sc_auth (snd (client_call call c))) = false) /\
  (forall t payload, bytes_ok payload ->
     hs_secureReady (sc_auth (snd (client_processMessage t payload c))) = true ->
     t = MSG_SERVER_AUTH_OK /\ hs_serverAuthRequired (sc_auth c) = true /\ sc_authOperation c = 0 /\
     len (hs_secureMaster (sc_auth c)) = SECURE_KEY_SIZE /\
     payload = server_auth_ok (deriveSessionId (hs_secureMaster (sc_auth c))) (hs_expectedServerProof (sc_auth c))).
Proof.
  intros Hun. split.
  - intros call Hr. apply not_true_is_false. intros E. destruct (proj2 (so_call call Hr c) E). congruence.
  - intros t payload Hb Hready.
    destruct (proj2 (process_after t payload c) Hready) as [Hready' _].
    destruct (frame_cases t payload c) as [Hs|(-> & Hreq & Hop & Hl & [Hm (b1 & b2 & R1 & R2)] & _)].
    { destruct (proj2 Hs Hready'). congruence. }
    split_and!; try done.
    assert (payload = be_bytes 4 (be_value (take 4 payload)) ++ drop 4 payload) as Ep.
    { rewrite <- (take_drop 4 payload) at 1. f_equal.
      rewrite <- (be_bytes_be_value (take 4 payload)) at 1 by by apply Forall_take.
      f_equal. rewrite length_take. unfold len in Hl. lia. }
    assert (SECURE_KEY_SIZE = len (drop 4 payload)) as Ed
      by (unfold len in *; rewrite length_drop; unfold SECURE_KEY_SIZE; lia).
    change (bb_of payload) with (at_pos [] payload) in R1. rewrite Ep in R1.
    rewrite (reads_u32 _) in R1. injection R1 as Es <-.
    rewrite <- (app_nil_r (drop 4 payload)) in R2. rewrite (reads_bytes _ _ Ed) in R2. injection R2 as Eproof _.
    unfold server_auth_ok. rewrite app_nil_r, <- Eproof, <- Es. rewrite Ep at 1. f_equal.
    assert (0 <= be_value (take 4 payload) < 4294967296) as Hr.
    { pose proof (be_value_bound (take 4 payload) ltac:(by apply Forall_take)) as Hv.
      replace (len (take 4 payload)) with 4 in Hv by (unfold len in *; rewrite length_take; lia). exact Hv. }
    unfold u32. by rewrite Z.mod_small.
Qed.
End Session.

(** ** Instances *)

#[local] Existing Instances ToyCrypto ToyCryptoLaws no_app_state watching_app.
Lemma watching_steady e : moves steady (on_event e).
Proof. intros c. change (steady c c). reflexivity. Qed.
(** A client that has sent its proof. *)
Definition demo_proving : CliSignalClient :=
  set_sc_auth (set_hs_secureMaster (replicate 32 5) (set_hs_expectedServerProof (replicate 32 6)
    (set_hs_serverAuthRequired true ClientAuth_init))) (CliSignalClient_init 0 0 tt).
Definition demo_auth_ok : bytes := server_auth_ok (deriveSessionId (replicate 32 5)) (replicate 32 6).
(** A whole life up to the ready session. *)
Definition demo_life1 : list ClientCall :=
  [CallServerPassword [1; 2]; CallConnect 3 true; SupplyRandom [Some [1]; Some [2]]; CallWritable 0 0 false;
   CallReadable (frame MSG_SERVER_HELLO (server_hello (zeros 16) (replicate 16 4) (replicate 32 9)));
   WorkerStep KTake; WorkerStep (KPublish true 1); CallTimers].
Definition demo_life : list ClientCall :=
  let a := sc_auth (client_life demo_life1 0 0 tt) in
  demo_life1 ++ [CallReadable (frame MSG_SERVER_AUTH_OK
    (server_auth_ok (deriveSessionId (hs_secureMaster a)) (hs_expectedServerProof a)))].
Lemma client_session_invariant_witness :
  hs_secureReady (sc_auth (client_life demo_life 0 0 tt)) = true /\
  keyed (hs_secureMaster (sc_auth (client_life demo_life 0 0 tt))) (hs_secureCipher (sc_auth (client_life demo_life 0 0 tt))).
Proof.
  assert (hs_secureReady (sc_auth (client_life demo_life 0 0 tt)) = true) as Hr by by vm_compute.
  split; [exact Hr|]. exact (rd_keyed _ _ (client_session_invariant watching_steady demo_life 0 0 tt Hr)).
Defined.
Lemma client_trusts_only_the_proof_witness :
  hs_secureReady (sc_auth (snd (client_processMessage MSG_SERVER_AUTH_OK demo_auth_ok demo_proving))) = true /\
  len (hs_secureMaster (sc_auth demo_proving)) = SECURE_KEY_SIZE.
Proof.
  assert (hs_secureReady (sc_auth (snd (client_processMessage MSG_SERVER_AUTH_OK demo_auth_ok demo_proving))) = true)
    as Hr by by vm_compute.
  split; [exact Hr|].
  apply (proj2 (client_trusts_only_the_proof watching_steady demo_proving ltac:(by vm_compute))
    MSG_SERVER_AUTH_OK demo_auth_ok ltac:(apply (bool_decide_eq_true_1 _); by vm_compute) Hr).
Defined.
Lemma client_loop_fuel_witness :
  let c := set_sc_conn (mkConn 3 (frame MSG_PONG [] ++ frame MSG_PONG []) [] true false 0) (CliSignalClient_init 0 0 tt) in
  client_recv_loop (6 + 100) c = client_recv_loop 6 c.
Proof.
  apply client_loop_fuel; [apply watching_steady|apply (bool_decide_eq_true_1 _); by vm_compute|by vm_compute].
Defined.
