(* ===== verification/RoomListReplica.v ===== *)
(** * The room list a client holds is one the server published

    The client's replica ([RoomListView] of file CliSignalState) against the
    room lists the server had at its successive revisions: pages and pushes
    may arrive in any order, repeated or dropped between reconnections. *)

From S2P Require Import Prelude Protocol ByteBuf Room RoomFacts SecureFrame ServerState ServerCore ServerRooms RoomListFacts SignalValidator WireFacts TcpConn AuthKdf CliSignalState CliSignal CliSignalFacts.

(** ** Records and lists as the client holds them *)

Definition item_of (st : RoomListState) : CliRoomListItem :=
  mkItem (rl_roomId st) (rl_roomName st) (rl_playerCount st) (rl_maxPlayers st) (rl_tcpPolicy st)
    (rl_udpPolicy st) (rl_passwordProtected st) (rl_mtu st).
Definition items (L : gmap Z RoomListState) : gmap Z CliRoomListItem := item_of <$> L.
(** The rooms of a list in the order the server writes them. *)
Definition states (L : gmap Z RoomListState) : list RoomListState := (map_ordered L).*2.
(** Storing records one after the other. *)
Definition stored (sts : list RoomListState) : gmap Z CliRoomListItem :=
  fold_left (fun m st => <[rl_roomId st := item_of st]> m) sts ∅.

Lemma reads_item st : listed_ok st -> reads client_readRoomListItem (item_bytes st) (item_of st).
Proof.
  intros [Hid Hn Hp Hm Ht Hu Hb Hmtu]. pose proof (room_name_len _ Hn).
  unfold client_readRoomListItem, item_bytes, str_bytes, policy_bytes, item_of.
  eapply reads_bind; [apply reads_u32|]. eapply reads_bind; [apply reads_string; lia|].
  eapply reads_bind; [apply reads_u8|]. eapply reads_bind; [apply reads_u8|].
  eapply reads_bind; [by apply reads_policy|]. eapply reads_bind; [by apply reads_policy|].
  eapply reads_bind; [apply reads_u8|]. eapply reads_last; [apply reads_u16|].
  rewrite (id_u32 _ Hid), (mtu_u16 _ Hmtu). apply reads_ret.
Qed.

Lemma stored_lookup sts (m : gmap Z CliRoomListItem) k :
  NoDup (map rl_roomId sts) ->
  fold_left (fun m st => <[rl_roomId st := item_of st]> m) sts m !! k =
  match list_find (fun st => rl_roomId st = k) sts with
  | Some (_, st) => Some (item_of st)
  | None => m !! k
  end.
Proof.
  revert m. induction sts as [|st sts IH]; intros m Hnd; [done|].
  cbn [map] in Hnd. apply NoDup_cons in Hnd as [Hst Hnd].
  cbn [fold_left list_find]. rewrite IH by done. destruct (decide (rl_roomId st = k)) as [E|E].
  - assert (list_find (fun st => rl_roomId st = k) sts = None) as ->.
    { apply list_find_None, Forall_forall. intros st' Hin E'. apply Hst. rewrite E, <- E'.
      apply list_elem_of_fmap. by exists st'. }
    by rewrite E, lookup_insert_eq.
  - destruct (list_find _ sts) as [[i st']|]; [done|]. cbn. by rewrite lookup_insert_ne.
Qed.

Lemma stored_fresh sts k : (forall st, st ∈ sts -> rl_roomId st <> k) -> stored sts !! k = None.
Proof.
  unfold stored. assert ((∅ : gmap Z CliRoomListItem) !! k = None) as Hm by apply lookup_empty.
  revert Hm. generalize (∅ : gmap Z CliRoomListItem). induction sts as [|st sts IH]; intros m Hm Hk; [done|].
  cbn [fold_left]. apply IH; [|by intros st' ?; apply Hk; right].
  rewrite lookup_insert_ne; [done|]. apply Hk. by left.
Qed.
Lemma stored_app sts1 sts2 :
  stored (sts1 ++ sts2) = fold_left (fun m st => <[rl_roomId st := item_of st]> m) sts2 (stored sts1).
Proof. unfold stored. apply fold_left_app. Qed.
Lemma states_ok L : listed L -> Forall listed_ok (states L) /\ NoDup (map rl_roomId (states L)).
Proof.
  intros HL. destruct (listed_states L HL) as [H1 H2]. split; [done|].
  unfold states. rewrite H2. apply NoDup_map_ordered_keys.
Qed.
Lemma elem_of_states L st : listed L -> st ∈ states L <-> L !! rl_roomId st = Some st.
Proof.
  intros HL. unfold states. rewrite list_elem_of_fmap. split.
  - intros ([k st'] & -> & Hin%elem_of_map_ordered). cbn. by destruct (HL _ _ Hin) as [_ ->].
  - intros E. exists (rl_roomId st, st). split; [done|]. by apply elem_of_map_ordered.
Qed.
Lemma stored_states L : listed L -> stored (states L) = items L.
Proof.
  intros HL. apply map_eq. intros k. unfold stored.
  rewrite stored_lookup by apply (states_ok L HL). unfold items. rewrite lookup_fmap.
  destruct (list_find _ (states L)) as [[i st]|] eqn:E.
  - apply list_find_Some in E as (Hi & <- & _). apply list_elem_of_lookup_2 in Hi.
    apply elem_of_states in Hi as ->; [done|done].
  - apply list_find_None in E. rewrite Forall_forall in E. rewrite lookup_empty.
    destruct (L !! k) as [st|] eqn:Ek; [|done]. exfalso. destruct (HL _ _ Ek) as [_ Eid].
    apply (E st); [|done]. apply elem_of_states; [done|]. by rewrite Eid.
Qed.

(** ** Pages *)

(** Cut a list into pieces of the given lengths. *)
Fixpoint chunks {A} (ns : list nat) (xs : list A) : list (list A) :=
  match ns with
  | [] => []
  | n :: ns => take n xs :: chunks ns (drop n xs)
  end.
Lemma chunks_pages {A B} (f : A -> B) (pages : list (list B)) xs :
  concat pages = map f xs ->
  pages = map (map f) (chunks (map length pages) xs) /\ concat (chunks (map length pages) xs) = xs.
Proof.
  revert xs. induction pages as [|p pages IH]; intros xs E.
  { cbn in *. symmetry in E. apply map_eq_nil in E as ->. done. }
  cbn [concat] in E. symmetry in E. apply map_eq_app in E as (l1 & l2 & -> & E1 & E2).
  assert (length p = length l1) as El by by rewrite <- E1, length_map.
  cbn [map chunks concat]. rewrite El, take_app_length, drop_app_length.
  destruct (IH l2 (eq_sym E2)) as [H1 H2]. split; [by rewrite E1, <- H1|by rewrite H2].
Qed.
(** The rooms on each page of a list. *)
Definition pages_of (L : gmap Z RoomListState) : list (list RoomListState) :=
  chunks (map length (packed_pages (map item_bytes (states L)))) (states L).

Section Pages.
Context (L : gmap Z RoomListState) (HL : listed L) (Hsize : Z.of_nat (size L) < 65536).

Lemma items_fit : Forall (fun r => PAGE_HEADER + len r <= ROOM_LIST_PAGE_PAYLOAD) (map item_bytes (states L)).
Proof.
  apply Forall_fmap. eapply Forall_impl; [apply (states_ok L HL)|]. intros st Hst.
  change (PAGE_HEADER + len (item_bytes st) <= ROOM_LIST_PAGE_PAYLOAD).
  pose proof (len_item st Hst). unfold PAGE_HEADER, ROOM_LIST_PAGE_PAYLOAD. lia.
Qed.
Lemma pages_of_spec :
  packed_pages (map item_bytes (states L)) = map (map item_bytes) (pages_of L) /\
  concat (pages_of L) = states L.
Proof.
  destruct (packed_pages_facts 1 1 0 _ items_fit) as (Hcat & _ & _). by apply chunks_pages.
Qed.
Lemma len_states : len (states L) = Z.of_nat (size L).
Proof.
  unfold len, states. by rewrite length_fmap, (Permutation_length (map_ordered_perm L)), length_map_to_list.
Qed.
Lemma len_pages_of : 1 <= len (pages_of L) < 65536.
Proof.
  pose proof (length_pages _ items_fit) as Hl. destruct pages_of_spec as [E _]. rewrite E in Hl.
  pose proof len_states. unfold len in *. rewrite !length_map in Hl. lia.
Qed.
Lemma buildRoomListPages_eq revision :
  buildRoomListPages revision L =
  imap (fun i p => write_page revision (len (pages_of L)) (Z.of_nat i) (map item_bytes p)) (pages_of L).
Proof.
  unfold buildRoomListPages.
  assert (map (fun kv => writeRoomListItem kv.2 []) (map_ordered L) = map item_bytes (states L)) as ->.
  { transitivity (map (fun kv => item_bytes kv.2) (map_ordered L)); [|symmetry; exact (map_map snd item_bytes (map_ordered L))].
    apply map_ext_in. intros kv Hin%list_elem_of_In.
    destruct kv as [k st]. apply elem_of_map_ordered in Hin. destruct (HL _ _ Hin) as [Hok _].
    exact (writeRoomListItem_bytes st [] Hok). }
  destruct pages_of_spec as [E _]. rewrite E. pose proof len_pages_of as Hl.
  assert (len (map (map item_bytes) (pages_of L)) = len (pages_of L)) as -> by (unfold len; by rewrite length_map).
  unfold u16. rewrite Z.mod_small by lia. rewrite firstn_all2 by (rewrite length_map; unfold len; lia).
  by rewrite imap_fmap.
Qed.
End Pages.

(** ** The server's history *)

(** The list the server has at each revision. *)
Definition history_ok (hist : gmap Z (gmap Z RoomListState)) : Prop :=
  forall revision L, hist !! revision = Some L ->
    0 < revision < 18446744073709551616 /\ listed L /\ Z.of_nat (size L) < 65536.

(** A room-list message the server may have sent: a page of some revision,
    or the push from one revision to another. *)
Inductive server_page (hist : gmap Z (gmap Z RoomListState)) : bytes -> Prop :=
  | ServerPage revision L body :
      hist !! revision = Some L -> body ∈ buildRoomListPages revision L -> server_page hist body.
Inductive server_push (hist : gmap Z (gmap Z RoomListState)) : bytes -> Prop :=
  | ServerPush base revision published current body :
      hist !! base = Some published -> hist !! revision = Some current ->
      body = room_list_delta base revision (room_list_operations current published) ->
      len body <= ROOM_LIST_PAGE_PAYLOAD -> server_push hist body.

(** The client's view: its list is the one of its revision, its snapshot the
    first pages of the list being transferred. *)
Record view_ok (hist : gmap Z (gmap Z RoomListState)) (w : RoomListView) : Prop := mkViewOk {
  vo_cache :
    (rv_roomListRevision w = 0 /\ rv_roomListCache w = ∅) \/
    exists L, hist !! rv_roomListRevision w = Some L /\ rv_roomListCache w = items L;
  vo_snapshot :
    rv_snapshotRevision w = 0 \/
    exists L n, hist !! rv_snapshotRevision w = Some L /\
      rv_snapshotPageCount w = len (pages_of L) /\ rv_snapshotNextPage w = Z.of_nat n /\
      rv_snapshotRooms w = stored (concat (take n (pages_of L)))
}.
Lemma view_ok_init hist : view_ok hist RoomListView_init.
Proof. constructor; by left. Qed.
Lemma view_ok_clear hist w : view_ok hist w -> view_ok hist (clear_snapshot w).
Proof. intros [Hc _]. constructor; [exact Hc|by left]. Qed.

Section PageFacts.
Context (L : gmap Z RoomListState) (HL : listed L) (Hsize : Z.of_nat (size L) < 65536).
Context (i : nat) (p : list RoomListState) (Hp : pages_of L !! i = Some p).

Lemma page_split :
  states L = concat (take i (pages_of L)) ++ p ++ concat (drop (S i) (pages_of L)).
Proof.
  destruct (pages_of_spec L HL) as [_ <-]. rewrite <- (take_drop_middle _ _ _ Hp) at 1.
  by rewrite concat_app.
Qed.
Lemma page_listed : Forall listed_ok p /\ NoDup (map rl_roomId p).
Proof.
  destruct (states_ok L HL) as [H1 H2]. rewrite page_split in H1, H2.
  apply Forall_app in H1 as [_ [H1 _]%Forall_app]. rewrite !map_app in H2.
  apply NoDup_app in H2 as (_ & _ & [H2 _]%NoDup_app). done.
Qed.
Lemma page_len : len p < 65536.
Proof.
  pose proof (len_states L). pose proof page_split as E. apply (f_equal len) in E.
  rewrite !len_app in E. pose proof (len_nonneg (concat (take i (pages_of L)))).
  pose proof (len_nonneg (concat (drop (S i) (pages_of L)))). lia.
Qed.
Lemma page_fresh st : st ∈ p -> stored (concat (take i (pages_of L))) !! rl_roomId st = None.
Proof.
  intros Hst. apply stored_fresh. intros st' Hst' E.
  destruct (states_ok L HL) as [_ H2]. rewrite page_split, !map_app in H2.
  apply NoDup_app in H2 as (_ & Hd & _). apply (Hd (rl_roomId st')).
  - apply list_elem_of_fmap. by exists st'.
  - rewrite E. apply elem_of_app. left. apply list_elem_of_fmap. by exists st.
Qed.
Lemma stored_next :
  fold_left (fun m st => <[rl_roomId st := item_of st]> m) p (stored (concat (take i (pages_of L)))) =
  stored (concat (take (S i) (pages_of L))).
Proof. rewrite (take_S_r _ _ _ Hp), concat_app. cbn [concat]. by rewrite app_nil_r, stored_app. Qed.
Lemma stored_all : len (pages_of L) = Z.of_nat i + 1 -> stored (concat (take (S i) (pages_of L))) = items L.
Proof.
  intros E. rewrite firstn_all2 by (unfold len in E; lia).
  destruct (pages_of_spec L HL) as [_ ->]. by apply stored_states.
Qed.
End PageFacts.

(** ** Running the handlers on what the server wrote *)

Section Replica.
Context `{Crypto} {AS : AppState} {CA : ClientApp}.

Lemma bind_in_list {B} f (k : unit -> SE CliSignalClient B) c :
  bind (in_list f) k c = k tt (set_sc_list (f (sc_list c)) c).
Proof. done. Qed.
Lemma bind_when_list {B} (b : bool) f (k : unit -> SE CliSignalClient B) c :
  bind (when b (in_list f)) k c = k tt (set_sc_list (if b then f (sc_list c) else sc_list c) c).
Proof. destruct b; [done|]. by destruct c. Qed.
Lemma set_list_twice v w c : set_sc_list v (set_sc_list w c) = set_sc_list v c.
Proof. done. Qed.
Lemma set_list_same c : set_sc_list (sc_list c) c = c.
Proof. by destruct c. Qed.

(** A page's records are stored one by one when none of them is there yet. *)
Lemma read_page_stores p pre rest c :
  Forall listed_ok p -> NoDup (map rl_roomId p) ->
  (forall st, st ∈ p -> rv_snapshotRooms (sc_list c) !! rl_roomId st = None) ->
  read_page (length p) (at_pos pre (concat (map item_bytes p) ++ rest)) c =
  (Some true, set_sc_list (set_rv_snapshotRooms
     (fold_left (fun m st => <[rl_roomId st := item_of st]> m) p (rv_snapshotRooms (sc_list c)))
     (sc_list c)) c).
Proof.
  revert pre c. induction p as [|st p IH]; intros pre c Hok Hnd Hfresh.
  { cbn. unfold ret. f_equal. destruct c as [? ? ? ? ? ? ? ? ? ? ? [] ? ? ? ?]. done. }
  cbn [map] in Hnd. apply NoDup_cons in Hnd as [Hst Hnd]. apply Forall_cons in Hok as [Hst_ok Hok].
  cbn [length read_page map concat]. rewrite <- app_assoc.
  erewrite bind_take by by apply reads_item. rewrite bind_gets.
  change (ci_roomId (item_of st)) with (rl_roomId st).
  rewrite (Hfresh st) by (by left). rewrite bind_in_list, IH; [done|done|done|].
  intros st' Hin. cbn. rewrite lookup_insert_ne; [apply Hfresh; by right|].
  intros E. apply Hst. rewrite E. apply list_elem_of_fmap. by exists st'.
Qed.

Definition page_bytes (revision pageCount i : Z) (p : list RoomListState) : bytes :=
  be_bytes 8 revision ++ be_bytes 2 i ++ be_bytes 2 pageCount ++ be_bytes 2 (len p) ++
  concat (map item_bytes p).
Lemma write_page_bytes revision pageCount i p :
  len p < 65536 -> write_page revision pageCount i (map item_bytes p) = page_bytes revision pageCount i p.
Proof.
  intros Hp. unfold write_page, page_bytes. rewrite writeBytes_all, !writeU16_be, writeU64_be.
  assert (len (map item_bytes p) = len p) as -> by (unfold len; by rewrite length_map).
  assert (u16 (len p) = len p) as -> by (pose proof (len_nonneg p); unfold u16; apply Z.mod_small; lia).
  by rewrite <- !app_assoc.
Qed.

(** The snapshot a page starts from. *)
Definition page_start (revision pageCount i : Z) (w : RoomListView) : RoomListView :=
  if i =? 0 then mkView (rv_roomListRevision w) revision pageCount 0 (rv_roomListCache w) ∅ else w.
Definition page_expected (revision pageCount i : Z) (w : RoomListView) : bool :=
  (revision =? rv_snapshotRevision w) && (pageCount =? rv_snapshotPageCount w) &&
  (i =? rv_snapshotNextPage w).

Lemma on_page revision pageCount i p c :
  0 < revision < 18446744073709551616 -> 0 <= i < pageCount -> pageCount < 65536 -> len p < 65536 ->
  Forall listed_ok p -> NoDup (map rl_roomId p) ->
  let w := page_start revision pageCount i (sc_list c) in
  (page_expected revision pageCount i w = true ->
     forall st, st ∈ p -> rv_snapshotRooms w !! rl_roomId st = None) ->
  on_room_list (bb_of (page_bytes revision pageCount i p)) c =
  if page_expected revision pageCount i w then
    let rooms := fold_left (fun m st => <[rl_roomId st := item_of st]> m) p (rv_snapshotRooms w) in
    if i + 1 =? pageCount
    then emitRoomList false (set_sc_list (mkView revision 0 0 0 rooms ∅) c)
    else (Some tt, set_sc_list (mkView (rv_roomListRevision w) revision pageCount (i + 1)
                                  (rv_roomListCache w) rooms) c)
  else discard_snapshot (set_sc_list w c).
Proof.
  intros Hr Hi Hc Hp Hok Hnd w Hfresh. unfold on_room_list, page_bytes.
  change (bb_of ?d) with (at_pos [] d).
  rewrite (bind_take _ _ _ _ _ _ _ (reads_u64 _)). rewrite (bind_take _ _ _ _ _ _ _ (reads_u16 _)).
  rewrite (bind_take _ _ _ _ _ _ _ (reads_u16 _)). rewrite (bind_take _ _ _ _ _ _ _ (reads_u16 _)).
  pose proof (len_nonneg p). unfold u64, u16. rewrite !Z.mod_small by lia.
  rewrite bind_when_list. fold (page_start revision pageCount i (sc_list c)). fold w.
  rewrite bind_gets. change (sc_list (set_sc_list w c)) with w. unfold page_expected in *.
  destruct (revision =? rv_snapshotRevision w) eqn:E1; [|done].
  destruct (pageCount =? rv_snapshotPageCount w) eqn:E2; [|done].
  destruct (i =? rv_snapshotNextPage w) eqn:E3; [|done]. cbn [negb orb andb] in *. bools.
  specialize (Hfresh eq_refl). rewrite len_to_nat.
  rewrite <- (app_nil_r (concat (map item_bytes p))).
  rewrite (bind_run _ _ _ _ _ (read_page_stores p _ [] (set_sc_list w c) Hok Hnd Hfresh)). cbn [negb].
  change (sc_list (set_sc_list w c)) with w. rewrite !bind_in_list, bind_gets. cbn [sc_list set_sc_list].
  unfold set_rv_snapshotNextPage, set_rv_snapshotRooms. cbn [rv_snapshotNextPage rv_snapshotPageCount
    rv_roomListRevision rv_snapshotRevision rv_roomListCache rv_snapshotRooms].
  rewrite <- E3, <- E2, <- E1. unfold u16. rewrite Z.mod_small by lia.
  by destruct (i + 1 =? pageCount).
Qed.

(** A page of [L], whatever the client is in. *)
Lemma on_server_page revision L i p c :
  0 < revision < 18446744073709551616 -> listed L -> Z.of_nat (size L) < 65536 ->
  pages_of L !! i = Some p ->
  let pageCount := len (pages_of L) in
  let w := page_start revision pageCount (Z.of_nat i) (sc_list c) in
  (page_expected revision pageCount (Z.of_nat i) w = true ->
     rv_snapshotRooms w = stored (concat (take i (pages_of L)))) ->
  on_room_list (bb_of (write_page revision pageCount (Z.of_nat i) (map item_bytes p))) c =
  if page_expected revision pageCount (Z.of_nat i) w then
    if Z.of_nat i + 1 =? pageCount
    then emitRoomList false (set_sc_list (mkView revision 0 0 0 (items L) ∅) c)
    else (Some tt, set_sc_list (mkView (rv_roomListRevision w) revision pageCount (Z.of_nat i + 1)
                                  (rv_roomListCache w) (stored (concat (take (S i) (pages_of L))))) c)
  else discard_snapshot (set_sc_list w c).
Proof.
  intros Hr HL Hs Hp pageCount w Hw. destruct (page_listed L HL i p Hp) as [Hok Hnd].
  rewrite write_page_bytes by (by eapply (page_len L HL Hs i p)).
  pose proof (len_pages_of L HL Hs) as Hlen. apply lookup_lt_Some in Hp as Hi.
  rewrite on_page; [|done|unfold pageCount, len; lia|lia|by eapply (page_len L HL Hs i p)|done|done|].
  2: { intros E st Hst. fold w. rewrite Hw by exact E. by eapply (page_fresh L HL i p). }
  fold w. destruct (page_expected revision pageCount (Z.of_nat i) w) eqn:E; [|done].
  rewrite (Hw eq_refl), (stored_next L i p Hp).
  destruct (Z.eqb_spec (Z.of_nat i + 1) pageCount) as [El|]; [|done].
  by rewrite (stored_all L HL i) by done.
Qed.

(** ** Pushes *)

Definition apply_item (m : gmap Z CliRoomListItem) (op : Z * RoomListState) : gmap Z CliRoomListItem :=
  if op.1 =? ROOM_LIST_UPSERT then <[rl_roomId op.2 := item_of op.2]> m else delete (rl_roomId op.2) m.
Lemma items_apply ops L : items (apply_operations ops L) = fold_left apply_item ops (items L).
Proof.
  unfold apply_operations. revert L. induction ops as [|op ops IH]; intros L; [done|].
  cbn [fold_left]. rewrite IH. f_equal. unfold items, apply_operation, apply_item.
  destruct (op.1 =? ROOM_LIST_UPSERT); [apply fmap_insert|apply fmap_delete].
Qed.
Lemma reads_push ops m :
  Forall op_ok ops ->
  reads (apply_push (length ops) m) (concat (map op_bytes ops)) (fold_left apply_item ops m).
Proof.
  intros Hok. revert m. induction Hok as [|op ops [Hop Hst] _ IH]; intros m; [apply reads_ret|].
  cbn [length apply_push map concat fold_left]. unfold op_bytes at 1, apply_item at 2.
  rewrite <- app_assoc. eapply reads_bind; [apply reads_u8|]. cbv beta.
  destruct (op.1 =? ROOM_LIST_UPSERT).
  - eapply reads_bind; [by apply reads_item|]. apply IH.
  - eapply reads_bind; [apply reads_u32|]. rewrite (id_u32 _ (lo_id _ Hst)). apply IH.
Qed.
Lemma on_push base revision ops c :
  0 <= base < 18446744073709551616 -> 0 <= revision < 18446744073709551616 ->
  Forall op_ok ops -> len (room_list_delta base revision ops) <= ROOM_LIST_PAGE_PAYLOAD ->
  on_room_list_push (bb_of (room_list_delta base revision ops)) c =
  if base =? rv_roomListRevision (sc_list c)
  then emitRoomList true (set_sc_list (set_rv_roomListRevision revision (set_rv_roomListCache
         (fold_left apply_item ops (rv_roomListCache (sc_list c))) (sc_list c))) c)
  else discard_snapshot c.
Proof.
  intros Hb Hr Hok Hl. unfold room_list_delta in *. rewrite write_operations_bytes in * by done.
  rewrite !writeU16_be, !writeU64_be, !len_app, !len_be_bytes, len_nil in Hl.
  rewrite !writeU16_be, !writeU64_be, <- !app_assoc. cbn [app].
  pose proof (len_operations ops) as Hn. unfold ROOM_LIST_PAGE_PAYLOAD in Hl.
  pose proof (len_nonneg ops). unfold on_room_list_push. change (bb_of ?d) with (at_pos [] d).
  rewrite (bind_take _ _ _ _ _ _ _ (reads_u64 _)). rewrite (bind_take _ _ _ _ _ _ _ (reads_u64 _)).
  rewrite (bind_take _ _ _ _ _ _ _ (reads_u16 _)). unfold u64, u16. rewrite !Z.mod_small by (rewrite ?Z.mod_small; lia).
  rewrite bind_gets. destruct (base =? _); [|done]. cbn [negb].
  rewrite len_to_nat, <- (app_nil_r (concat (map op_bytes ops))).
  by rewrite (bind_take _ _ _ _ _ _ _ (reads_push ops _ Hok)).
Qed.
(** The push from the client's revision gives the new list. *)
Lemma on_server_push base revision published current c :
  0 < base < 18446744073709551616 -> 0 < revision < 18446744073709551616 ->
  listed published -> listed current ->
  let body := room_list_delta base revision (room_list_operations current published) in
  len body <= ROOM_LIST_PAGE_PAYLOAD ->
  (rv_roomListRevision (sc_list c) = base -> rv_roomListCache (sc_list c) = items published) ->
  on_room_list_push (bb_of body) c =
  if base =? rv_roomListRevision (sc_list c)
  then emitRoomList true (set_sc_list (set_rv_roomListRevision revision
         (set_rv_roomListCache (items current) (sc_list c))) c)
  else discard_snapshot c.
Proof.
  intros Hb Hr Hp Hc body Hl Hcache. unfold body.
  destruct (room_list_operations_ok current published Hc Hp) as [Hok _].
  rewrite on_push by (done || lia). destruct (Z.eqb_spec base (rv_roomListRevision (sc_list c))) as [E|]; [|done].
  rewrite Hcache by done. rewrite <- items_apply, operations_apply; [done| |].
  - intros k st Hst. by destruct (Hc _ _ Hst).
  - intros k st Hst. by destruct (Hp _ _ Hst).
Qed.

(** ** The invariant, through every function of the client *)

(** A list handed to the application is a list of the history. *)
Definition event_ok (hist : gmap Z (gmap Z RoomListState)) (e : ClientEvent) : Prop :=
  match e with
  | OnRoomList rooms _ =>
      exists revision L, hist !! revision = Some L /\ rooms = map snd (map_ordered (items L))
  | _ => True
  end.
Definition replica_ok (hist : gmap Z (gmap Z RoomListState)) (c : CliSignalClient) : Prop :=
  view_ok hist (sc_list c) /\ Forall (event_ok hist) (sc_events c).

Section Invariant.
Context (hist : gmap Z (gmap Z RoomListState)) (Hhist : history_ok hist).
Context (Happ : forall e, keeps (replica_ok hist) (on_event e)).
Abbreviation I := (replica_ok hist).

Lemma rl_keeps_aside (f : CliSignalClient -> CliSignalClient) :
  (forall c, sc_list (f c) = sc_list c) -> (forall c, sc_events (f c) = sc_events c) ->
  keeps I (modify f).
Proof. intros H1 H2. apply keeps_modify. intros c [? ?]. split; [by rewrite H1|by rewrite H2]. Qed.
Lemma rl_keeps_in_auth f : keeps I (in_auth f).
Proof. by apply rl_keeps_aside. Qed.
Lemma rl_keeps_in_room f : keeps I (in_room f).
Proof. by apply rl_keeps_aside. Qed.
Lemma rl_keeps_in_task f : keeps I (in_task f).
Proof. by apply rl_keeps_aside. Qed.
Lemma rl_keeps_set_op v : keeps I (modify (set_sc_authOperation v)).
Proof. by apply rl_keeps_aside. Qed.
Lemma rl_keeps_set_fail v : keeps I (modify (set_sc_sendFailurePending v)).
Proof. by apply rl_keeps_aside. Qed.
Lemma rl_keeps_set_peer v : keeps I (modify (set_sc_myPeerId v)).
Proof. by apply rl_keeps_aside. Qed.
Lemma rl_keeps_set_ping v : keeps I (modify (set_sc_pingSentTime v)).
Proof. by apply rl_keeps_aside. Qed.
Lemma rl_keeps_set_notified v : keeps I (modify (set_sc_disconnectNotified v)).
Proof. by apply rl_keeps_aside. Qed.
Lemma rl_keeps_reset_conn : keeps I reset_conn.
Proof. by apply rl_keeps_aside. Qed.
Lemma rl_keeps_conn_step {A} (f : TcpConnection -> A * TcpConnection) : keeps I (conn_step f).
Proof.
  unfold conn_step. apply keeps_bind; [apply keeps_gets|]. intros x.
  apply keeps_bind; [by apply rl_keeps_aside|]. intros _. apply keeps_ret.
Qed.
Lemma rl_keeps_take_from {A} (m : SE ByteBuffer A) b : keeps I (take_from m b).
Proof. unfold take_from. destruct (m b) as [[a|] b']; auto with vlan. Qed.
Lemma rl_keeps_fire e : event_ok hist e -> keeps I (fire e).
Proof.
  intros He. unfold fire. apply keeps_bind; [|intros _; apply Happ].
  apply keeps_modify. intros c [Hv Hev]. split; [exact Hv|]. cbn. apply Forall_app. by split; [|constructor].
Qed.
Lemma rl_keeps_list f : (forall w, view_ok hist w -> view_ok hist (f w)) -> keeps I (in_list f).
Proof. intros Hf. apply keeps_modify. intros c [Hv Hev]. split; [by apply Hf|done]. Qed.
#[local] Hint Resolve rl_keeps_in_auth rl_keeps_in_room rl_keeps_in_task rl_keeps_set_op rl_keeps_set_fail rl_keeps_set_peer
  rl_keeps_set_ping rl_keeps_set_notified rl_keeps_reset_conn rl_keeps_conn_step rl_keeps_take_from : vlan.
#[local] Hint Extern 1 (keeps _ (fire _)) => apply rl_keeps_fire; exact Logic.I : vlan.
#[local] Hint Extern 1 (keeps _ resetRoomListState) => apply rl_keeps_list; intros; apply view_ok_init : vlan.

Lemma rl_keeps_cancel : keeps I cancelRoomOperation.
Proof. unfold cancelRoomOperation. walk. Qed.
#[local] Hint Resolve rl_keeps_cancel : vlan.
Lemma rl_keeps_reset_secure : keeps I resetSecureState.
Proof. unfold resetSecureState. walk. Qed.
#[local] Hint Resolve rl_keeps_reset_secure : vlan.
Lemma rl_keeps_notify : keeps I notifyDisconnectedOnce.
Proof. unfold notifyDisconnectedOnce. walk. Qed.
#[local] Hint Resolve rl_keeps_notify : vlan.
Lemma rl_keeps_drop : keeps I drop_connection.
Proof. unfold drop_connection. walk. Qed.
#[local] Hint Resolve rl_keeps_drop : vlan.
Lemma rl_keeps_fail_auth code text : keeps I (failAuthentication code text).
Proof. unfold failAuthentication. walk. Qed.
Lemma rl_keeps_fail_frame : keeps I failSignalFrame.
Proof. apply rl_keeps_drop. Qed.
#[local] Hint Resolve rl_keeps_fail_auth rl_keeps_fail_frame : vlan.
Lemma rl_keeps_send_frame t b : keeps I (send_frame t b).
Proof. unfold send_frame. walk. Qed.
#[local] Hint Resolve rl_keeps_send_frame : vlan.
Lemma rl_keeps_sendMsg t b : keeps I (client_sendMsg t b).
Proof. unfold client_sendMsg, client_encrypt. walk. Qed.
#[local] Hint Resolve rl_keeps_sendMsg : vlan.
Lemma rl_keeps_discard : keeps I discard_snapshot.
Proof.
  unfold discard_snapshot, client_listRooms. apply keeps_bind; [|intros _; auto with vlan].
  apply rl_keeps_list. intros w. apply view_ok_clear.
Qed.
Lemma rl_keeps_abandon : keeps I abandonRoomOperation.
Proof. unfold abandonRoomOperation. walk. Qed.
#[local] Hint Resolve rl_keeps_discard rl_keeps_abandon : vlan.
Lemma rl_keeps_sendServerAuth : keeps I sendServerAuth.
Proof. unfold sendServerAuth. walk. Qed.
#[local] Hint Resolve rl_keeps_sendServerAuth : vlan.
Lemma rl_keeps_hello bb : keeps I (on_server_hello bb).
Proof. unfold on_server_hello. walk. Qed.
Lemma rl_keeps_auth_ok bb : keeps I (on_server_auth_ok bb).
Proof. unfold on_server_auth_ok. walk. Qed.
Lemma rl_keeps_login bb : keeps I (on_login_resp bb).
Proof. unfold on_login_resp. walk. Qed.
Lemma rl_keeps_expected : keeps I room_response_expected.
Proof. unfold room_response_expected. walk. Qed.
#[local] Hint Resolve rl_keeps_expected : vlan.
Lemma rl_keeps_created bb : keeps I (on_room_created bb).
Proof. unfold on_room_created. walk. Qed.
Lemma rl_keeps_join bb : keeps I (on_join_resp bb).
Proof. unfold on_join_resp. walk. Qed.
Lemma rl_keeps_challenge bb : keeps I (on_auth_challenge bb).
Proof. unfold on_auth_challenge. walk. Qed.
Lemma rl_keeps_error bb : keeps I (on_error bb).
Proof. unfold on_error. walk. Qed.
Lemma rl_keeps_relay p : keeps I (on_relay_data p).
Proof. unfold on_relay_data. walk. Qed.
Lemma rl_keeps_pong : keeps I on_pong.
Proof. unfold on_pong. walk. Qed.
#[local] Hint Resolve rl_keeps_hello rl_keeps_auth_ok rl_keeps_login rl_keeps_created rl_keeps_join rl_keeps_challenge
  rl_keeps_error rl_keeps_relay rl_keeps_pong : vlan.

Lemma emit_ok pushed c L :
  I c -> hist !! rv_roomListRevision (sc_list c) = Some L -> rv_roomListCache (sc_list c) = items L ->
  I (snd (emitRoomList pushed c)).
Proof.
  intros Hc HL Hcache. unfold emitRoomList. rewrite bind_gets.
  apply (rl_keeps_fire (OnRoomList (map snd (map_ordered (rv_roomListCache (sc_list c)))) pushed)); [|exact Hc].
  eexists _, L. by rewrite Hcache.
Qed.
Lemma page_start_ok revision L i c :
  hist !! revision = Some L -> view_ok hist (sc_list c) ->
  let w := page_start revision (len (pages_of L)) (Z.of_nat i) (sc_list c) in
  view_ok hist w /\
  (page_expected revision (len (pages_of L)) (Z.of_nat i) w = true ->
     rv_snapshotRooms w = stored (concat (take i (pages_of L)))).
Proof.
  intros HL Hv. destruct (Hhist _ _ HL) as (Hr & _). unfold page_start.
  destruct (Z.eqb_spec (Z.of_nat i) 0) as [E|E]; cbn zeta.
  - assert (i = 0%nat) as -> by lia. split; [|done]. constructor; [apply Hv|]. right. by exists L, 0%nat.
  - split; [exact Hv|]. unfold page_expected. intros Hx. bools.
    destruct (vo_snapshot _ _ Hv) as [Hzero|(L' & n & HL' & _ & Hn & Hrooms)]; [lia|].
    replace i with n by lia. congruence.
Qed.
Lemma rl_keeps_page body : server_page hist body -> keeps I (on_room_list (bb_of body)).
Proof.
  intros [revision L body' HL Hin] c Hc. destruct (Hhist _ _ HL) as (Hr & Hlist & Hs).
  rewrite (buildRoomListPages_eq L Hlist Hs) in Hin. apply list_elem_of_lookup in Hin as [i Hi].
  rewrite list_lookup_imap in Hi. apply fmap_Some in Hi as (p & Hp & ->).
  destruct (page_start_ok revision L i c HL (proj1 Hc)) as [Hw Hrooms].
  rewrite (on_server_page revision L i p c Hr Hlist Hs Hp Hrooms).
  set (w := page_start _ _ _ _) in *. destruct (page_expected _ _ _ w) eqn:E.
  2: { apply rl_keeps_discard. split; [exact Hw|apply Hc]. }
  destruct (Z.of_nat i + 1 =? len (pages_of L)).
  - apply (emit_ok _ _ L); [|done|done]. split; [|apply Hc]. constructor; [right|by left]. by exists L.
  - split; [|apply Hc]. constructor; [apply Hw|]. right. exists L, (S i). cbn.
    split_and!; try done. lia.
Qed.
Lemma rl_keeps_push body : server_push hist body -> keeps I (on_room_list_push (bb_of body)).
Proof.
  intros [base revision published current body' Hb Hr -> Hl] c Hc.
  destruct (Hhist _ _ Hb) as (Hb1 & Hb2 & _). destruct (Hhist _ _ Hr) as (Hr1 & Hr2 & _).
  rewrite (on_server_push base revision published current c Hb1 Hr1 Hb2 Hr2 Hl).
  2: { intros E. destruct (vo_cache _ _ (proj1 Hc)) as [[? _]|(L & HL & ->)]; [lia|congruence]. }
  destruct (base =? _); [|by apply rl_keeps_discard].
  apply (emit_ok _ _ current); [|done|done]. split; [|apply Hc].
  constructor; [right; by exists current|apply (vo_snapshot _ _ (proj1 Hc))].
Qed.

(** A message whose room-list content, if any, is the server's. *)
Definition from_server (plain : bytes) : Prop :=
  (byte_at plain 0 = MSG_ROOM_LIST -> server_page hist (drop 1 plain)) /\
  (byte_at plain 0 = MSG_ROOM_LIST_PUSH -> server_push hist (drop 1 plain)).
Lemma rl_keeps_dispatch t body :
  (t = MSG_ROOM_LIST -> server_page hist body) -> (t = MSG_ROOM_LIST_PUSH -> server_push hist body) ->
  keeps I (client_dispatch t body).
Proof.
  intros H1 H2. unfold client_dispatch. cbv zeta.
  destruct (t =? MSG_ROOM_LIST) eqn:E1.
  { bools. pose proof (rl_keeps_page body (H1 E1)). subst t. repeat case_match; try done. walk. }
  destruct (t =? MSG_ROOM_LIST_PUSH) eqn:E2.
  { bools. pose proof (rl_keeps_push body (H2 E2)). subst t. repeat case_match; try done. walk. }
  walk.
Qed.
Lemma rl_keeps_process_plain plain : from_server plain -> keeps I (process_plain plain).
Proof.
  intros [H1 H2]. unfold process_plain. cbv zeta.
  destruct (_ || _); [walk|]. destruct (rs_status _); [|walk|walk]. by apply rl_keeps_dispatch.
Qed.
End Invariant.

(** ** Streams of messages *)

(** What [processMessage] does with a decrypted message, exceptions included,
    and a run of it over the messages of a stream. *)
Definition receive_plain (plain : bytes) : CS bool :=
  catch (process_plain plain) (failSignalFrame ;;; ret false).
Fixpoint receive_all (plains : list bytes) : CS unit :=
  match plains with
  | [] => ret tt
  | p :: ps => go <- receive_plain p ;; if go : bool then receive_all ps else ret tt
  end.
(** Handing the list to the application. *)
Definition report (pushed : bool) : CS bool :=
  catch (emitRoomList pushed ;;; ret true) (failSignalFrame ;;; ret false).

Lemma rl_keeps_receive_all hist plains :
  history_ok hist -> (forall e, keeps (replica_ok hist) (on_event e)) ->
  Forall (from_server hist) plains -> keeps (replica_ok hist) (receive_all plains).
Proof.
  intros Hh Ha Hp. induction Hp as [|p ps Hp _ IH]; cbn [receive_all]; [apply keeps_ret|].
  apply keeps_bind; [|intros []; [exact IH|apply keeps_ret]].
  apply keeps_catch; [by apply rl_keeps_process_plain|].
  apply keeps_bind; [by apply rl_keeps_fail_frame|intros _; apply keeps_ret].
Qed.

Lemma process_page body c :
  client_accepts MSG_ROOM_LIST body -> body <> [] ->
  process_plain (MSG_ROOM_LIST :: body) c = (on_room_list (bb_of body) ;;; ret true) c.
Proof.
  intros Ha Hne. unfold process_plain. cbv zeta.
  change (byte_at (MSG_ROOM_LIST :: body) 0) with MSG_ROOM_LIST. change (drop 1 (MSG_ROOM_LIST :: body)) with body.
  by rewrite client_validate_ok.
Qed.
Lemma process_push body c :
  client_accepts MSG_ROOM_LIST_PUSH body -> body <> [] ->
  process_plain (MSG_ROOM_LIST_PUSH :: body) c = (on_room_list_push (bb_of body) ;;; ret true) c.
Proof.
  intros Ha Hne. unfold process_plain. cbv zeta.
  change (byte_at (MSG_ROOM_LIST_PUSH :: body) 0) with MSG_ROOM_LIST_PUSH.
  change (drop 1 (MSG_ROOM_LIST_PUSH :: body)) with body. by rewrite client_validate_ok.
Qed.

Section Transfer.
Context (revision : Z) (L : gmap Z RoomListState).
Context (Hr : 0 < revision < 18446744073709551616) (HL : listed L) (Hsize : Z.of_nat (size L) < 65536).

(** The messages from page [n] on. *)
Definition messages_from (n : nat) : list bytes :=
  imap (fun i p => MSG_ROOM_LIST :: write_page revision (len (pages_of L)) (Z.of_nat (n + i)) (map item_bytes p))
    (drop n (pages_of L)).
Lemma messages_eq : messages_from 0 = map (cons MSG_ROOM_LIST) (buildRoomListPages revision L).
Proof.
  rewrite (buildRoomListPages_eq L HL Hsize). unfold messages_from. rewrite drop_0. symmetry.
  exact (fmap_imap (fun i p => write_page revision (len (pages_of L)) (Z.of_nat i) (map item_bytes p)) (cons MSG_ROOM_LIST) (pages_of L)).
Qed.
Lemma messages_step n p :
  pages_of L !! n = Some p ->
  messages_from n = (MSG_ROOM_LIST :: write_page revision (len (pages_of L)) (Z.of_nat n) (map item_bytes p))
                    :: messages_from (S n).
Proof.
  intros Hp. unfold messages_from. rewrite (drop_S _ _ _ Hp). cbn [imap].
  rewrite Nat.add_0_r. f_equal. apply imap_ext. intros i x _. cbn. do 2 f_equal. lia.
Qed.
Lemma transfer_from n c :
  (n < length (pages_of L))%nat ->
  (n = 0%nat \/ exists r cache, sc_list c = mkView r revision (len (pages_of L)) (Z.of_nat n) cache
                                  (stored (concat (take n (pages_of L))))) ->
  receive_all (messages_from n) c =
  (report false ;;; ret tt) (set_sc_list (mkView revision 0 0 0 (items L) ∅) c).
Proof.
  remember (length (pages_of L) - n)%nat as k eqn:Ek. revert n c Ek.
  induction k as [|k IH]; intros n c Ek Hn Hc; [lia|].
  destruct (lookup_lt_is_Some_2 (pages_of L) n Hn) as [p Hp]. rewrite (messages_step n p Hp).
  cbn [receive_all]. set (body := write_page _ _ _ _).
  assert (body ∈ buildRoomListPages revision L) as Hbody.
  { rewrite (buildRoomListPages_eq L HL Hsize). apply list_elem_of_lookup. exists n.
    rewrite list_lookup_imap. by rewrite Hp. }
  assert (client_accepts MSG_ROOM_LIST body) as Hacc.
  { pose proof (pages_accepted revision L HL Hr Hsize) as Hf. rewrite Forall_forall in Hf. by apply Hf. }
  assert (body <> []) as Hne.
  { unfold body. rewrite write_page_bytes by (by eapply (page_len L HL Hsize n p)). done. }
  assert (page_expected revision (len (pages_of L)) (Z.of_nat n)
            (page_start revision (len (pages_of L)) (Z.of_nat n) (sc_list c)) = true /\
          rv_snapshotRooms (page_start revision (len (pages_of L)) (Z.of_nat n) (sc_list c)) =
            stored (concat (take n (pages_of L)))) as [He Hs].
  { unfold page_start, page_expected. destruct (Z.eqb_spec (Z.of_nat n) 0) as [E|E].
    - assert (n = 0%nat) as -> by lia. cbn. by rewrite !Z.eqb_refl.
    - destruct Hc as [->|(r & cache & ->)]; [done|]. cbn. by rewrite !Z.eqb_refl. }
  unfold receive_plain at 1, catch at 1, bind at 1. rewrite process_page by done.
  unfold bind at 1. unfold body. rewrite (on_server_page revision L n p c Hr HL Hsize Hp (fun _ => Hs)), He.
  destruct (Z.eqb_spec (Z.of_nat n + 1) (len (pages_of L))) as [El|El].
  - assert (messages_from (S n) = []) as -> by (unfold messages_from; rewrite drop_ge by (unfold len in El; lia); done).
    unfold report, catch, bind. destruct (emitRoomList false _) as [[[]|] c']; [done|].
    by destruct (failSignalFrame c') as [[[]|] c''].
  - cbn [ret]. unfold ret at 1. rewrite IH; [by rewrite set_list_twice|lia|unfold len in El; lia|].
    right. do 2 eexists. rewrite Nat2Z.inj_succ. cbn. f_equal.
Qed.
End Transfer.

(** C22: the client's room list refines the server's.  [hist] is the list the
    server had at each revision.  (1) Whatever the client receives, as long as
    room-list pages and pushes come from that history (in any order, mixed
    with each other, repeated, or with messages missing), the client's list is
    at every moment the complete list of its revision, and the application is
    only ever shown such lists.  (2) The pages of one list, received in order,
    make the client hold and report exactly that list, whatever it held
    before.  (3) A push from the client's revision moves it to exactly the new
    list; any other push leaves the list alone and asks for a new transfer. *)
Theorem room_list_replica hist :
  history_ok hist -> (forall e, keeps (replica_ok hist) (on_event e)) ->
  (forall plains c, Forall (from_server hist) plains -> replica_ok hist c ->
     replica_ok hist (snd (receive_all plains c))) /\
  (forall revision L c, hist !! revision = Some L ->
     receive_all (map (cons MSG_ROOM_LIST) (buildRoomListPages revision L)) c =
     (report false ;;; ret tt) (set_sc_list (mkView revision 0 0 0 (items L) ∅) c)) /\
  (forall base revision published current c,
     hist !! base = Some published -> hist !! revision = Some current -> base < revision ->
     room_list_operations current published <> [] ->
     let body := room_list_delta base revision (room_list_operations current published) in
     len body <= ROOM_LIST_PAGE_PAYLOAD -> replica_ok hist c ->
     receive_plain (MSG_ROOM_LIST_PUSH :: body) c =
     if base =? rv_roomListRevision (sc_list c)
     then report true (set_sc_list (set_rv_roomListRevision revision
            (set_rv_roomListCache (items current) (sc_list c))) c)
     else catch (discard_snapshot ;;; ret true) (failSignalFrame ;;; ret false) c).
Proof.
  intros Hh Ha. split; [|split].
  - intros plains c Hp. by apply rl_keeps_receive_all.
  - intros revision L c HL. destruct (Hh _ _ HL) as (Hr & Hlist & Hs).
    rewrite <- (messages_eq revision L Hlist Hs). apply transfer_from; [done..| |by left].
    pose proof (len_pages_of L Hlist Hs). unfold len in *. lia.
  - intros base revision published current c Hb Hr Hlt Hne body Hl Hc.
    destruct (Hh _ _ Hb) as (Hb1 & Hb2 & _). destruct (Hh _ _ Hr) as (Hr1 & Hr2 & _).
    destruct (room_list_operations_ok current published Hr2 Hb2) as [Hok Hnd].
    unfold receive_plain, catch at 1. rewrite process_push.
    2: { apply push_accepted; [lia|lia|done..]. }
    2: { unfold body, room_list_delta. rewrite write_operations_bytes by done. by destruct (writeU16 _ _) eqn:E;
         [apply (f_equal len) in E; unfold writeU16 in E; rewrite len_app in E|]. }
    unfold bind at 1. unfold body. rewrite (on_server_push base revision published current c Hb1 Hr1 Hb2 Hr2 Hl).
    + unfold report, catch, bind. by destruct (base =? _).
    + intros E. destruct (vo_cache _ _ (proj1 Hc)) as [[? _]|(L & HL & ->)]; [lia|congruence].
Qed.
End Replica.

(** ** An instance: an empty list at revision 1, one room at revision 2 *)

#[local] Existing Instances ToyCrypto no_app_state watching_app.
Definition demo_history : gmap Z (gmap Z RoomListState) :=
  {[ 1 := ∅; 2 := collectRoomListState demo_registry ]}.
Lemma demo_history_ok : history_ok demo_history.
Proof.
  intros revision L E. unfold demo_history in E.
  apply lookup_insert_Some in E as [[<- <-]|[_ [<- <-]%lookup_singleton_Some]].
  - split_and!; [done|done| |done]. intros k st Ek. by rewrite lookup_empty in Ek.
  - split_and!; [done|done| |done]. apply collect_listed; [|apply demo_registry_publishable].
    apply createRoom_ok; [apply rooms_ok_init|by vm_compute|by vm_compute].
Qed.
Lemma watching_keeps hist e : keeps (replica_ok hist) (on_event e).
Proof. apply keeps_ret. Qed.
Lemma room_list_replica_witness :
  let c := CliSignalClient_init 0 0 tt in
  let c1 := snd (receive_all (map (cons MSG_ROOM_LIST) (buildRoomListPages 1 ∅)) c) in
  let c2 := snd (receive_plain (MSG_ROOM_LIST_PUSH ::
              room_list_delta 1 2 (room_list_operations (collectRoomListState demo_registry) ∅)) c1) in
  replica_ok demo_history c1 /\
  rv_roomListCache (sc_list c2) = items (collectRoomListState demo_registry) /\
  size (rv_roomListCache (sc_list c2)) = 1%nat.
Proof.
  cbv zeta. destruct (room_list_replica demo_history demo_history_ok (watching_keeps _)) as (H1 & H2 & H3).
  assert (replica_ok demo_history (CliSignalClient_init 0 0 tt)) as Hi.
  { split; [apply view_ok_init|constructor]. }
  assert (replica_ok demo_history
    (snd (receive_all (map (cons MSG_ROOM_LIST) (buildRoomListPages 1 ∅)) (CliSignalClient_init 0 0 tt)))) as Hc.
  { apply H1; [|exact Hi]. apply Forall_fmap, Forall_forall. intros body Hin. split; [|done].
    intros _. by apply (ServerPage _ 1 ∅). }
  split; [exact Hc|].
  rewrite (H3 1 2 ∅ (collectRoomListState demo_registry)); [by vm_compute|done..|by vm_compute|by vm_compute|exact Hc].
Defined.
