(* ===== verification/Handshake.v ===== *)
(** * The handshake, client against server

    [CliSignalClient] of [client-cli/src/cli_net.cpp] and the handlers
    [onClientHello] and [onServerAuth] of [server/src/signal_server.cpp] run
    against each other: with the same password they end in one secure
    session. *)

From S2P Require Import Prelude Protocol ByteBuf Room SecureFrame SecureFrameFacts ServerState ServerCore ServerRooms ServerAuth ServerDispatch ServerInv ServerSafety ServerFlow ServerAuthFacts SignalValidator WireFacts TcpConn AuthKdf AuthKdfFacts CliSignalState CliSignal CliSignalFacts.

(** ** What the handshake relies on beyond [CryptoLaws] *)

Class HandshakeLaws `{CryptoLaws} : Prop := {
  x25519_agree : forall a b,
    crypto_x25519 a (crypto_x25519_public_key b) = crypto_x25519 b (crypto_x25519_public_key a);
  public_key_size : forall k, len k = 32 -> len (crypto_x25519_public_key k) = 32;
  blake2b_size : forall m, len (crypto_blake2b m) = 32
}.

(** ** Sending leaves the ciphers alone *)

Definition ciphers (c : ClientSession) := (secureCipher c, dataCipher c, udpCipher c).
Definition same_ciphers (s s' : Server) : Prop :=
  forall fd, ciphers (session s' fd) = ciphers (session s fd).
#[export] Instance same_ciphers_preorder : PreOrder same_ciphers.
Proof. split; [by intros s fd|]. intros s1 s2 s3 H1 H2 fd. by rewrite H2. Qed.

Section Server.
Context `{Crypto}.

Lemma ciphers_upd fd f : (forall c, ciphers (f c) = ciphers c) -> moves same_ciphers (upd fd f).
Proof.
  intros Hf s i. unfold session. cbn. rewrite lookup_alter. case_decide; [subst|done].
  destruct (sv_clients s !! i); [apply Hf|done].
Qed.
Lemma ciphers_modify g : (forall s, sv_clients (g s) = sv_clients s) -> moves same_ciphers (modify g).
Proof. intros Hg s i. unfold session. cbn. by rewrite Hg. Qed.
#[local] Hint Extern 1 (moves same_ciphers (upd _ _)) => apply ciphers_upd; intros ?; reflexivity : vlan.
#[local] Hint Extern 2 (moves same_ciphers (modify _)) =>
  apply ciphers_modify; intros ?; cbn; repeat case_match; reflexivity : vlan.
Lemma ciphers_gets {A} (f : Server -> A) : moves same_ciphers (gets f).
Proof. apply moves_gets. apply _. Qed.
Lemma ciphers_client fd : moves same_ciphers (client fd).
Proof. apply ciphers_gets. Qed.
Lemma ciphers_ret {A} (a : A) : moves same_ciphers (ret a).
Proof. apply moves_ret. apply _. Qed.
Lemma ciphers_emit e : moves same_ciphers (emit e).
Proof. unfold emit. eauto with vlan. Qed.
Lemma ciphers_log : moves same_ciphers logSendRejectSampled.
Proof. unfold logSendRejectSampled. eauto with vlan. Qed.
Lemma ciphers_target fd dc v : moves same_ciphers (upd fd (fun c => set_target_buf dc (v c) c)).
Proof. apply ciphers_upd. intros c. by destruct dc. Qed.
Lemma ciphers_release n : moves same_ciphers (release_budget n).
Proof. unfold release_budget. eauto with vlan. Qed.
#[local] Hint Resolve ciphers_gets ciphers_client ciphers_ret ciphers_emit ciphers_log ciphers_target
  ciphers_release : vlan.
Lemma ciphers_append fd dc a b : moves same_ciphers (appendSendBuffer fd dc a b).
Proof. unfold appendSendBuffer. walk. Qed.
Lemma ciphers_consume fd dc n : moves same_ciphers (consumeSendBuffer fd dc n).
Proof. unfold consumeSendBuffer. walk. Qed.
#[local] Hint Resolve ciphers_append ciphers_consume : vlan.
Lemma ciphers_flush_loop fuel fd dc sock again failed done :
  moves same_ciphers again -> moves same_ciphers failed -> moves same_ciphers done ->
  moves same_ciphers (flush_loop fuel fd dc sock again failed done).
Proof.
  intros Ha Hf Hd. induction fuel as [|fuel IH]; cbn [flush_loop];
    unfold flush_turn, next_send; walk.
Qed.
Lemma ciphers_flush fd : moves same_ciphers (flushSendBuf fd).
Proof. unfold flushSendBuf. walk; apply ciphers_flush_loop; walk. Qed.
#[local] Hint Resolve ciphers_flush : vlan.
Lemma ciphers_sendMsg fd t body : moves same_ciphers (sendMsg fd t body).
Proof. unfold sendMsg. walk. Qed.

(** ** Running a handler on one session *)

(** State [s] of a handler that started in [s0]: session [fd] is now [c];
    nothing was sent; the rest that matters is as it was. *)
Record at_session (fd : Z) (s0 : Server) (c : ClientSession) (s : Server) : Prop := mkAt {
  as_client : sv_clients s !! fd = Some c;
  as_filed : filed (sv_clients s);
  as_budget : budget_ok s;
  as_stream : forall i, signal_stream i s = signal_stream i s0;
  as_hash : sv_serverAuthHash s = sv_serverAuthHash s0;
  as_salt : sv_serverAuthSalt s = sv_serverAuthSalt s0;
  as_now : env_now s = env_now s0;
  as_global : sv_globalSendBytes s = sv_globalSendBytes s0;
  as_limits : sv_limits s = sv_limits s0
}.
Lemma at_session_start fd s c :
  filed (sv_clients s) -> budget_ok s -> sv_clients s !! fd = Some c -> at_session fd s c s.
Proof. by constructor. Qed.

Section Run.
Context (fd : Z) (s0 : Server) (c : ClientSession) (s : Server) (Hat : at_session fd s0 c s).
Context {B : Type}.

Lemma run_client (k : ClientSession -> M B) : bind (client fd) k s = k c s.
Proof. unfold client. rewrite bind_gets. by rewrite (session_Some s fd c (as_client _ _ _ _ Hat)). Qed.
Lemma run_upd f :
  quiet f -> exists s', (forall k : unit -> M B, bind (upd fd f) k s = k tt s') /\
    at_session fd s0 (f c) s' /\ env_random s' = env_random s /\
    sv_secureSessionMap s' = sv_secureSessionMap s.
Proof.
  intros Hq. eexists. split; [intros k; apply bind_modify|]. split; [|done]. destruct Hat.
  constructor; try done; cbn.
  - rewrite lookup_alter, decide_True by done. by rewrite as_client0.
  - apply filed_alter; [|done]. intros x. apply Hq.
  - by apply budget_quiet.
  - apply (streams_upd (fun i => signal_stream i s0) fd f); [|done]. intros x. split; apply Hq.
Qed.
Lemma run_random n r rest :
  env_random s = Some r :: rest -> exists s',
    (forall k : bool * bytes -> M B, bind (secureRandomBytes n) k s = k (true, resize n 0 r) s') /\
    at_session fd s0 c s' /\ env_random s' = rest /\ sv_secureSessionMap s' = sv_secureSessionMap s.
Proof.
  intros Er. eexists. split.
  { intros k. unfold secureRandomBytes, bind, gets, modify, ret. by rewrite Er. }
  split; [|done]. destruct Hat. constructor; try done; cbn.
  by eapply (budget_other s (fun s => set_env_random rest s)).
Qed.
Lemma run_token ip m burst sec ok :
  fst (takeIpToken ip m burst sec s) = Some ok -> exists s',
    (forall k : bool -> M B, bind (takeIpToken ip m burst sec) k s = k ok s') /\
    at_session fd s0 c s' /\ env_random s' = env_random s /\ sv_secureSessionMap s' = sv_secureSessionMap s.
Proof.
  unfold takeIpToken, now, upd_ip. intros E. rewrite !bind_gets in E.
  destruct (bucket_take _ _ _ _) as [ok' b] eqn:Eb. cbn in E. injection E as ->.
  eexists. split.
  { intros k. unfold bind at 1. rewrite !bind_gets, Eb. cbn. done. }
  split; [|done]. destruct Hat. constructor; try done; cbn.
  by eapply (budget_other s (fun s => set_sv_ipStates _ s)).
Qed.
End Run.

(** The end of a handler that must send: the frame goes out, and of the
    session only its transport can change. *)
Lemma run_send fd s0 c s t body :
  at_session fd s0 c s -> admitted s c body = true -> len body < 65536 -> 0 <= t < 256 ->
  let s' := snd ((ok <- sendMsg fd t body ;; when (negb ok) (failRequiredControl fd)) s) in
  filed (sv_clients s') /\ budget_ok s' /\
  signal_stream fd s' = signal_stream fd s0 ++ frame t body /\
  sv_serverAuthHash s' = sv_serverAuthHash s0 /\ sv_serverAuthSalt s' = sv_serverAuthSalt s0 /\
  env_now s' = env_now s0 /\
  exists c', sv_clients s' !! fd = Some c' /\ mask c' = mask c /\ ciphers c' = ciphers c.
Proof.
  intros [Hc Hf Hb Hst Hh Hs Hn _ _] Ha Hl Ht s'.
  assert (frame t body = tcp_header t body ++ body) as ->.
  { unfold frame, tcp_header, u8, u16. pose proof (len_nonneg body). by rewrite !Z.mod_small by lia. }
  pose proof (sendMsg_streams fd t body s c Hf Hb Hc) as [Hstr _]. rewrite Ha in Hstr.
  pose proof (frame_sendMsg fd t body s) as [H1 _ H2 H3 H4].
  pose proof (ciphers_sendMsg fd t body s) as H5.
  pose proof (keeps_sendMsg budget_ok fd t body s Hb) as H6.
  set (s1 := snd (sendMsg fd t body s)) in *.
  assert (s' = s1 \/ s' = set_sv_clients (alter (set_alive false) fd (sv_clients s1)) s1) as Hs'.
  { unfold s', bind, s1. destruct (sendMsg fd t body s) as [[[]|] s2]; cbn; auto. }
  assert (exists c1, sv_clients s1 !! fd = Some c1 /\ mask c1 = mask c /\ ciphers c1 = ciphers c) as (c1 & E1 & E2 & E3).
  { specialize (H1 fd). rewrite Hc in H1. destruct (sv_clients s1 !! fd) as [c1|] eqn:E; [|done].
    exists c1. split; [done|]. cbn in H1. split; [congruence|].
    specialize (H5 fd). unfold session in H5. by rewrite E, Hc in H5. }
  assert (signal_stream fd s1 = signal_stream fd s0 ++ tcp_header t body ++ body) as E4.
  { destruct Hstr as [_ ->]. by rewrite Z.eqb_refl, Hst. }
  destruct Hs' as [-> | ->].
  - split_and!; [apply Hstr|done|done|congruence..|]. eauto.
  - destruct (streams_upd (fun i => signal_stream i s1) fd (set_alive false) (fun _ => conj eq_refl eq_refl)
      s1 (conj (proj1 Hstr) (fun i => eq_refl))) as [F1 F2].
    split; [exact F1|]. split; [by apply budget_quiet|]. split; [rewrite <- E4; exact (F2 fd)|].
    do 3 (split; [cbn; congruence|]).
    exists (set_alive false c1). cbn. rewrite lookup_alter, decide_True, E1 by done. auto.
Qed.

Definition hello_body (nonce pub : bytes) : bytes :=
  be_bytes 2 PROTOCOL_VERSION ++ nonce ++ pub.

(** [onClientHello] on a good hello, up to its answer. *)
Lemma hello_runs fd s c nonce pub r1 r2 rest :
  filed (sv_clients s) -> budget_ok s -> sv_clients s !! fd = Some c -> state c = AwaitHello ->
  len nonce = 16 -> len pub = 32 ->
  fst (takeIpToken (remoteIpv4 c) authFailures 32 1 s) = Some true ->
  env_random s = Some r1 :: Some r2 :: rest ->
  let sn := resize 16 0 r1 in let sk := resize 32 0 r2 in
  let sp := crypto_x25519_public_key sk in
  exists s' c',
    onClientHello fd (hello_body nonce pub) s =
      (ok <- sendMsg fd MSG_SERVER_HELLO (server_hello (sv_serverAuthSalt s) sn sp) ;;
       when (negb ok) (failRequiredControl fd)) s' /\
    at_session fd s c' s' /\ state c' = AwaitServerAuth /\ serverAuthOk c' = false /\
    authDeadline c' = env_now s + SERVER_AUTH_TIMEOUT_SEC /\
    clientNonce c' = nonce /\ clientPubKey c' = pub /\ serverNonce c' = sn /\
    serverPrivKey c' = sk /\ serverPubKey c' = sp /\ ciphers c' = ciphers c /\
    sendBuf c' = sendBuf c /\ alive c' = alive c.
Proof.
  intros Hf Hb Hc Hst Hn Hp Htok Hrand sn sk sp.
  pose proof (at_session_start fd s c Hf Hb Hc) as Hat. unfold onClientHello.
  rewrite (run_client fd s c s Hat). rewrite bool_decide_eq_false_2 by (by intros []).
  assert (len (hello_body nonce pub) = 2 + 16 + 32) as El
    by (unfold hello_body; rewrite !len_app, len_be_bytes; lia).
  rewrite El, Z.eqb_refl. cbn [orb negb]. cbv zeta. change (bb_of ?d) with (at_pos [] d).
  assert (hello_body nonce pub = be_bytes 2 PROTOCOL_VERSION ++ nonce ++ pub ++ []) as ->
    by by rewrite app_nil_r.
  rewrite (run_read _ _ _ _ _ _ _ (reads_u16 _)).
  change (u16 PROTOCOL_VERSION =? PROTOCOL_VERSION) with true. cbn [negb].
  destruct (run_token fd s c s Hat (B := unit) _ _ _ _ _ Htok) as (s1 & E & Hat1 & Er1 & _).
  rewrite E. cbn [negb]. clear E.
  assert (16 = len nonce) as En by lia. assert (32 = len pub) as Ep by lia.
  rewrite (run_read _ _ _ _ _ _ _ (reads_bytes _ _ En)), (run_read _ _ _ _ _ _ _ (reads_bytes _ _ Ep)).
  edestruct (run_upd fd s c s1 Hat1 (B := unit)) as (s2 & E & Hat2 & Er2 & _); [|rewrite E; clear E].
  { by intros x. }
  rewrite bind_gets, (as_salt _ _ _ _ Hat2).
  rewrite Hrand in Er1. rewrite Er1 in Er2.
  edestruct (run_random fd s _ s2 Hat2 (B := unit) 16 _ _ Er2) as (s3 & E & Hat3 & Er3 & _); rewrite E; clear E.
  edestruct (run_upd fd s _ s3 Hat3 (B := unit)) as (s4 & E & Hat4 & Er4 & _); [|rewrite E; clear E].
  { by intros x. }
  rewrite Er3 in Er4. cbn [fst snd]. rewrite bind_assoc.
  edestruct (run_random fd s _ s4 Hat4 (B := unit) 32 _ _ Er4) as (s5 & E & Hat5 & Er5 & _); rewrite E; clear E.
  rewrite bind_assoc. edestruct (run_upd fd s _ s5 Hat5 (B := unit)) as (s6 & E & Hat6 & _ & _); [|rewrite E; clear E].
  { by intros x. }
  cbn [fst snd]. unfold bind at 1, ret at 1. cbn [negb]. unfold now. rewrite bind_gets.
  edestruct (run_upd fd s _ s6 Hat6 (B := unit)) as (s7 & E & Hat7 & _ & _); [|rewrite E; clear E].
  { by intros x. }
  rewrite (run_client fd s _ s7 Hat7).
  rewrite (as_filed _ _ _ _ Hat7 fd _ (as_client _ _ _ _ Hat7)).
  rewrite server_hello_written. do 2 eexists. split; [reflexivity|]. split; [exact Hat7|]. rewrite (as_now _ _ _ _ Hat6).
  by split_and!.
Qed.

Lemma run_bind fd s0 c s sid :
  at_session fd s0 c s -> sid <> 0 -> 0 <= fd -> sv_secureSessionMap s !! sid = None ->
  exists s', (forall B (k : bool -> M B), bind (bindSecureSessionIndex fd sid) k s = k true s') /\
    at_session fd s0 c s'.
Proof.
  intros Hat Hsid Hfd Hnone. pose proof (as_filed _ _ _ _ Hat fd c (as_client _ _ _ _ Hat)) as Et.
  eexists. split.
  { intros B k. unfold bindSecureSessionIndex. rewrite bind_assoc, (run_client fd s0 c s Hat).
    rewrite (proj2 (Z.eqb_neq _ _)), (proj2 (Z.ltb_ge _ _)) by lia. cbn [orb].
    unfold bind_index. rewrite bind_assoc, (run_client fd s0 c s Hat), bind_assoc, bind_gets, Hnone.
    unfold bind, ret, gets, modify, bindUniqueSessionIndex. rewrite Hnone. cbn. reflexivity. }
  destruct Hat. constructor; try done; cbn.
  by eapply (budget_other s (fun s => set_sv_secureSessionMap _ s)).
Qed.
Lemma deriveSessionId_nonzero master : deriveSessionId master <> 0.
Proof. unfold deriveSessionId. by destruct (Z.eqb_spec (readU32BE (deriveSecureKey master (bytes_of_string "VLan-session-id"))) 0). Qed.
End Server.

Section ServerAuth.
Context `{CryptoLaws}.

Lemma shared_valid shared : shared <> zeros 32 -> validX25519Shared shared = true.
Proof.
  intros Hne. unfold validX25519Shared. apply negb_true_iff, Z.eqb_neq. intros E. by apply verify32_spec in E.
Qed.
(** [onServerAuth] on the right proof, up to its answer. *)
Lemma auth_runs fd s c :
  filed (sv_clients s) -> budget_ok s -> sv_clients s !! fd = Some c -> 0 <= fd ->
  state c = AwaitServerAuth -> serverAuthOk c = false -> env_now s <= authDeadline c ->
  crypto_x25519 (serverPrivKey c) (clientPubKey c) <> zeros 32 ->
  let master := handshake_master s c in let sid := deriveSessionId master in
  sv_secureSessionMap s !! sid = None ->
  exists s' c',
    onServerAuth fd (computeClientAuthProof master (sv_serverAuthHash s)) s =
      (ok <- sendMsg fd MSG_SERVER_AUTH_OK
               (server_auth_ok sid (computeServerAuthProof master (sv_serverAuthHash s))) ;;
       when (negb ok) (failRequiredControl fd)) s' /\
    at_session fd s c' s' /\ state c' = AwaitLogin /\ serverAuthOk c' = true /\ secureEnabled c' = true /\
    secureSessionId c' = sid /\ secureMaster c' = master /\
    ciphers c' = (cipher_init (secureCipher c) master false "signal",
                  cipher_init (dataCipher c) master false "data",
                  cipher_init (udpCipher c) master false "udp") /\
    sendBuf c' = sendBuf c /\ alive c' = alive c.
Proof.
  intros Hf Hb Hc Hfd Hst Hun Hdl Hsh master sid Hmap.
  pose proof (at_session_start fd s c Hf Hb Hc) as Hat. unfold onServerAuth, now.
  rewrite (run_client fd s c s Hat). rewrite bool_decide_eq_false_2 by (by intros []).
  rewrite Hun. cbn [orb]. rewrite bind_gets, (proj2 (Z.ltb_ge _ _)) by lia.
  unfold computeClientAuthProof at 1. rewrite blake2b_keyed_size, Z.eqb_refl. cbn [orb negb]. cbv zeta.
  edestruct (run_upd fd s c s Hat (B := unit)) as (s1 & E & Hat1 & _ & Em1); [|rewrite E; clear E].
  { by intros x. }
  rewrite shared_valid by done. cbn [negb].
  rewrite bind_gets, (as_hash _ _ _ _ Hat1), bind_gets, (as_salt _ _ _ _ Hat1).
  fold (handshake_master s c). fold master.
  rewrite (proj2 (Z.eqb_eq _ _)) by by apply verify32_spec. cbn [negb].
  fold sid. rewrite (proj2 (Z.eqb_neq sid 0)) by apply deriveSessionId_nonzero.
  rewrite bind_gets, Em1, Hmap. unfold bind at 1, ret at 1.
  edestruct (run_upd fd s _ s1 Hat1 (B := unit)) as (s2 & E & Hat2 & _ & Em2); [|rewrite E; clear E].
  { by intros x. }
  destruct (run_bind fd s _ s2 sid Hat2) as (s3 & E & Hat3);
    [apply deriveSessionId_nonzero|done|by rewrite Em2, Em1|]. rewrite E. clear E. cbn [negb].
  edestruct (run_upd fd s _ s3 Hat3 (B := unit)) as (s4 & E & Hat4 & _ & _); [|rewrite E; clear E].
  { by intros x. }
  rewrite (as_filed _ _ _ _ Hat fd c Hc). cbv zeta.
  rewrite server_auth_ok_written. do 2 eexists. split; [reflexivity|]. split; [exact Hat4|]. by split_and!.
Qed.
End ServerAuth.

(** ** The client's side, from the connection to its proof *)

Section Client.
Context `{CryptoLaws, !HandshakeLaws} {AS : AppState} {CA : ClientApp}.
Context (Hquiet : forall e, on_event e = ret tt).

Lemma kdf_cancel_after es : kdf_cancel (after es) = after (es ++ [KCancel]).
Proof. by rewrite after_snoc. Qed.
Lemma kdf_start_after es pw salt : kdf_start pw salt (after es) = after (es ++ [KStart pw salt]).
Proof. by rewrite after_snoc. Qed.

(** A connected client that has sent its hello. *)
Record offered (cfd : Z) (password nonce priv : bytes) (es : list KdfStep) (c : CliSignalClient) : Prop :=
  mkOffered {
  of_conn : sc_conn c = mkConn cfd [] (frame MSG_CLIENT_HELLO (hello_body nonce (crypto_x25519_public_key priv)))
              true false (sc_now c);
  of_auth : sc_auth c = set_hs_clientPubKey (crypto_x25519_public_key priv) (set_hs_clientPrivKey priv
              (set_hs_clientNonce nonce (set_hs_serverPassword password ClientAuth_init)));
  of_op : sc_authOperation c = 0;
  of_task : sc_authTask c = after es;
  of_steps : KStop ∉ es
}.
Lemma client_offers cfd c es n k rest sent wb :
  cfd <> SOCK_INVALID -> sc_authTask c = after es -> (KStop ∉ es) ->
  sc_random c = Some n :: Some k :: rest ->
  exists es', len es' <= len es + 2 /\
  offered cfd (hs_serverPassword (sc_auth c)) (resize 16 0 n) (resize 32 0 k) es'
    (snd (client_onWritable 0 sent wb (snd (client_connectTo cfd true c)))).
Proof.
  intros Hfd Ht Hes Hr. destruct (client_connects cfd c Hfd) as (t & Hdis & E).
  assert (exists es', len es' <= len es + 2 /\ t = after es' /\ KStop ∉ es') as (es' & Hl & -> & Hs).
  { rewrite Ht, !kdf_cancel_after in Hdis.
    destruct Hdis as [-> | ->]; eexists; (split; [|split; [reflexivity|]]); try (unfold len; rewrite !length_app; cbn; lia).
    all: by rewrite !not_elem_of_app, !list_elem_of_singleton. }
  exists es'. split; [done|]. rewrite E. cbn [snd].
  erewrite client_says_hello; [|done|exact Hr|apply public_key_size].
  2: { unfold len. by rewrite length_resize. }
  by constructor.
Qed.

Definition kdf_turns (e1 e2 : Z) : list KdfStep := [KPublish true e1; KTake; KPublish true e2].
(** The client after the worker has had its turns. *)
Definition worker_runs (e1 e2 : Z) (c : CliSignalClient) : CliSignalClient :=
  set_sc_authTask (kdf_run (kdf_turns e1 e2) (sc_authTask c)) c.

Lemma task_answers es password salt hash e1 e2 :
  len es < 18446744073709551616 - 1 -> (KStop ∉ es) -> len salt = 16 ->
  hashPasswordSalted true password salt AUTH_KDF_PROFILE = Some hash ->
  exists el t', kdf_poll (kdf_run (kdf_turns e1 e2) (kdf_start password salt (after es))) =
    (Some (mkKdfResult hash true el), t').
Proof.
  intros Hn Hs Hl Hh.
  destruct (request_answered es password salt [] true e1 true e2 Hn Hs) as (a & el & Hin & E);
    [by intros e ?%elem_of_nil|].
  assert (a = true) as -> by (apply list_elem_of_In in Hin; cbn in Hin; naive_solver congruence).
  assert (after (es ++ KStart password salt :: [] ++ kdf_turns e1 e2) =
          kdf_run (kdf_turns e1 e2) (kdf_start password salt (after es))) as Ea
    by (unfold after, kdf_run; by rewrite fold_left_app).
  unfold kdf_turns in *. cbn [app] in *. rewrite Ea in E.
  assert (16%nat = length salt) as El by (unfold len in Hl; lia).
  rewrite El, firstn_all in E.
  unfold worker_result in E. rewrite Hh in E. destruct (kdf_poll _) as [r t'].
  cbn [fst] in E. rewrite E. eauto.
Qed.
End Client.

(** ** Both sides *)

(** The two ends of an established session. *)
Record secured `{AppState} (c : CliSignalClient) (se : ClientSession) (sid : Z) (master : bytes) : Prop := mkSecured {
  sd_ready : hs_secureReady (sc_auth c) = true;
  sd_server : serverAuthOk se = true /\ secureEnabled se = true /\ state se = AwaitLogin;
  sd_sid : hs_secureSessionId (sc_auth c) = sid /\ secureSessionId se = sid;
  sd_master : hs_secureMaster (sc_auth c) = master /\ secureMaster se = master;
  sd_up : paired (hs_secureCipher (sc_auth c)) (secureCipher se);
  sd_down : paired (secureCipher se) (hs_secureCipher (sc_auth c));
  sd_fresh : m_sendCounter (hs_secureCipher (sc_auth c)) = 0 /\ m_sendCounter (secureCipher se) = 0 /\
             m_recvStarted (hs_secureCipher (sc_auth c)) = false /\ m_recvStarted (secureCipher se) = false
}.

Section Pair.
Context `{CryptoLaws, !HandshakeLaws} {AS : AppState} {CA : ClientApp}.

(** Session [fd] of the server is new and its hello would be admitted. *)
Record server_waits (fd : Z) (s : Server) (se : ClientSession) : Prop := mkWaits {
  sw_fd : 0 <= fd;
  sw_filed : filed (sv_clients s);
  sw_budget : budget_ok s;
  sw_session : sv_clients s !! fd = Some se;
  sw_state : state se = AwaitHello;
  sw_cipher : m_initialized (secureCipher se) = false;
  sw_token : fst (takeIpToken (remoteIpv4 se) authFailures 32 1 s) = Some true;
  sw_salt : len (sv_serverAuthSalt s) = 16
}.
Definition agreed_master (hash salt nonce priv sn sk : bytes) : bytes :=
  deriveSecureMaster (crypto_x25519 priv (crypto_x25519_public_key sk)) hash nonce sn
    (crypto_x25519_public_key priv) (crypto_x25519_public_key sk) salt AUTH_KDF_PROFILE.

Lemma readU32BE_range p : bytes_ok p -> 0 <= readU32BE p < 4294967296.
Proof.
  intros Hp. unfold readU32BE.
  pose proof (byte_at_ok p 0 Hp). pose proof (byte_at_ok p 1 Hp).
  pose proof (byte_at_ok p 2 Hp). pose proof (byte_at_ok p 3 Hp). unfold is_byte in *.
  replace (Z.lor (Z.lor (Z.lor (Z.shiftl (byte_at p 0) 24) (Z.shiftl (byte_at p 1) 16))
    (Z.shiftl (byte_at p 2) 8)) (byte_at p 3))
    with (Z.lor (Z.shiftl (Z.lor (Z.shiftl (Z.lor (Z.shiftl (byte_at p 0) 8) (byte_at p 1)) 8) (byte_at p 2)) 8) (byte_at p 3)).
  - rewrite !lor_shiftl_byte by done. lia.
  - by rewrite !Z.shiftl_lor, !Z.shiftl_shiftl by lia.
Qed.
Lemma session_id_range master : 0 < deriveSessionId master < 4294967296.
Proof.
  pose proof (deriveSessionId_nonzero master) as Hne. revert Hne. unfold deriveSessionId.
  pose proof (readU32BE_range _ (blake2b_keyed_bytes master (bytes_of_string "VLan-session-id"))).
  unfold deriveSecureKey. destruct (_ =? 0); lia.
Qed.

(** The server answers the hello. *)
Lemma server_half fd s se nonce priv r1 r2 rest t hash :
  server_waits fd s se -> env_random s = Some r1 :: Some r2 :: rest ->
  len nonce = 16 -> len (crypto_x25519_public_key priv) = 32 -> sv_serverAuthHash s = hash ->
  let sn := resize 16 0 r1 in let sk := resize 32 0 r2 in
  let sp := crypto_x25519_public_key sk in let salt := sv_serverAuthSalt s in
  let hello := hello_body nonce (crypto_x25519_public_key priv) in
  let shello := server_hello salt sn sp in
  admitted s se shello = true ->
  let s1 := set_env_now t (snd (onClientHello fd hello s)) in
  signal_stream fd s1 = signal_stream fd s ++ frame MSG_SERVER_HELLO shello /\
  filed (sv_clients s1) /\ budget_ok s1 /\ sv_serverAuthHash s1 = hash /\ env_now s1 = t /\
  exists se1, sv_clients s1 !! fd = Some se1 /\ state se1 = AwaitServerAuth /\ serverAuthOk se1 = false /\
    authDeadline se1 = env_now s + SERVER_AUTH_TIMEOUT_SEC /\
    crypto_x25519 (serverPrivKey se1) (clientPubKey se1) = crypto_x25519 priv sp /\
    handshake_master s1 se1 = agreed_master hash salt nonce priv sn sk /\
    ciphers se1 = ciphers se.
Proof.
  intros [Hfd Hf Hb Hc Hst Hci Htok Hsalt] Hr Hn Hp Hh sn sk sp salt hello shello Hadm s1.
  destruct (hello_runs fd s se nonce (crypto_x25519_public_key priv) r1 r2 rest Hf Hb Hc Hst Hn Hp Htok Hr)
    as (s' & c' & E & Hat & E1 & E2 & E3 & E4 & E5 & E6 & E7 & E8 & E9 & E10 & E11).
  fold sn sk sp in E, E6, E7, E8. change (hello_body nonce (crypto_x25519_public_key priv)) with hello in E.
  assert (len shello = 68) as Elen.
  { unfold shello, server_hello. rewrite !len_app, len_be_bytes. fold salt in Hsalt. rewrite Hsalt.
    unfold sp. rewrite public_key_size by by (unfold sk, len; rewrite length_resize).
    unfold sn, len. rewrite length_resize. done. }
  assert (admitted s' c' shello = true) as Ha'.
  { revert Hadm. unfold admitted. by rewrite (as_global _ _ _ _ Hat), (as_limits _ _ _ _ Hat), E10, E11. }
  pose proof (run_send fd s c' s' MSG_SERVER_HELLO shello Hat Ha' ltac:(rewrite Elen; lia) ltac:(done))
    as (F1 & F2 & F3 & F4 & F5 & F6 & se1 & F7 & F8 & F9).
  fold salt shello in E. cbv zeta in F1, F2, F3, F4, F5, F6, F7. rewrite <- E in F1, F2, F3, F4, F5, F6, F7.
  unfold s1. split; [exact F3|]. split; [exact F1|]. split; [by eapply (budget_other _ (set_env_now t))|].
  split; [by rewrite <- Hh|]. split; [done|]. exists se1. split; [exact F7|].
  assert (forall A (f : ClientSession -> A), (forall x, f (mask x) = f x) -> f se1 = f c') as Hm
    by (intros A f Hfm; rewrite <- (Hfm se1), <- (Hfm c'); by rewrite F8).
  unfold handshake_master, agreed_master. cbn [sv_serverAuthHash sv_serverAuthSalt set_env_now].
  rewrite (Hm _ state), (Hm _ serverAuthOk), (Hm _ authDeadline), (Hm _ serverPrivKey), (Hm _ clientPubKey),
    (Hm _ clientNonce), (Hm _ serverNonce), (Hm _ serverPubKey) by done.
  rewrite E4, E5, E6, E7, E8, F4, F5, Hh. unfold sp. rewrite (x25519_agree sk priv). fold salt.
  split_and!; try done. congruence.
Qed.

(** The client takes the hello, hashes, proves, and takes the answer. *)
Lemma client_half cfd password nonce priv es c salt sn sp hash e1 e2 (Hquiet : forall e, on_event e = ret tt) :
  offered cfd password nonce priv es c -> len es < 18446744073709551616 - 1 -> password <> [] ->
  len salt = 16 -> len sn = 16 -> len sp = 32 -> len nonce = 16 -> len (crypto_x25519_public_key priv) = 32 ->
  hashPasswordSalted true password salt AUTH_KDF_PROFILE = Some hash ->
  crypto_x25519 priv sp <> zeros 32 ->
  let master := deriveSecureMaster (crypto_x25519 priv sp) hash nonce sn (crypto_x25519_public_key priv) sp
                  salt AUTH_KDF_PROFILE in
  let sid := deriveSessionId master in
  let shello := server_hello salt sn sp in
  let sok := server_auth_ok sid (computeServerAuthProof master hash) in
  let c2 := snd (client_processMessage MSG_SERVER_HELLO shello c) in
  let c3 := snd (pollAuthTask (worker_runs e1 e2 c2)) in
  let c4 := snd (client_processMessage MSG_SERVER_AUTH_OK sok c3) in
  fst (client_processMessage MSG_SERVER_HELLO shello c) = Some true /\
  tc_sendBuf (sc_conn c3) = tc_sendBuf (sc_conn c) ++ frame MSG_SERVER_AUTH (computeClientAuthProof master hash) /\
  fst (client_processMessage MSG_SERVER_AUTH_OK sok c3) = Some true /\
  hs_secureReady (sc_auth c4) = true /\ hs_secureSessionId (sc_auth c4) = sid /\
  hs_secureMaster (sc_auth c4) = master /\
  hs_secureCipher (sc_auth c4) = cipher_init cipher_empty master true "signal" /\
  sc_events c4 = (sc_events c ++ [OnSecureSessionEstablished sid master]) ++ [OnConnected].
Proof.
  intros [Ec Ea Eo Et Hst] Hn Hpw Hsalt Hsn Hsp Hnonce Hpub Hh Hsh master sid shello sok c2 c3 c4.
  assert (client_processMessage MSG_SERVER_HELLO shello c = (Some true, c2)) as E2.
  { unfold c2, shello. rewrite client_takes_hello; try done; by rewrite Ea. }
  assert (c2 = set_sc_authTask (kdf_start password salt (after es)) (set_sc_authOperation 1
     (set_sc_auth (set_hs_serverPubKey sp (set_hs_serverNonce sn (set_hs_authSalt salt
       (set_hs_serverAuthRequired true (sc_auth c))))) c))) as Ec2.
  { unfold c2, shello. rewrite client_takes_hello; try done; rewrite ?Ea; try done. cbn [snd]. by rewrite Et. }
  destruct (task_answers es password salt hash e1 e2 Hn Hst Hsalt Hh) as (el & t' & Epoll).
  assert (len (computeClientAuthProof master hash) = 32) as Elp by apply blake2b_keyed_size.
  assert (client_master (sc_auth (worker_runs e1 e2 c2)) hash = master) as Em
    by (rewrite Ec2; unfold client_master, worker_runs; cbn [sc_auth set_sc_authTask set_sc_authOperation set_sc_auth];
        by rewrite Ea).
  assert (pollAuthTask (worker_runs e1 e2 c2) = (Some tt,
     set_sc_conn (set_tc_sendBuf (tc_sendBuf (sc_conn c) ++ frame MSG_SERVER_AUTH (computeClientAuthProof master hash)) (sc_conn c))
     (set_sc_auth (set_hs_secureMaster master (set_hs_expectedServerProof (computeServerAuthProof master hash)
        (set_hs_clientPrivKey (zeros 32) (sc_auth c2))))
     (set_sc_authOperation 0 (set_sc_authTask t' c2))))) as E3.
  { rewrite (client_proves (worker_runs e1 e2 c2) hash el t').
    - rewrite Em. rewrite Ec2. reflexivity.
    - rewrite Ec2. exact Epoll.
    - by rewrite Ec2.
    - rewrite Ec2. cbn. by rewrite Ec.
    - rewrite Ec2. cbn [sc_auth worker_runs set_sc_authTask set_sc_authOperation set_sc_auth]. rewrite Ea.
      apply shared_valid. exact Hsh.
    - rewrite Em, Elp. done.
    - rewrite Em, Elp, Ec2. cbn [sc_conn worker_runs set_sc_authTask set_sc_authOperation set_sc_auth].
      rewrite Ec. cbn [tc_sendBuf]. unfold frame, hello_body.
      unfold len in *. cbn [length]. rewrite !length_app, !length_be_bytes. cbn [length]. 
      unfold MAX_TCP_SEND_BUF. lia. }
  assert (c3 = snd (pollAuthTask (worker_runs e1 e2 c2))) as Ec3 by done. rewrite E3 in Ec3. cbn [snd] in Ec3.
  assert (hs_expectedServerProof (sc_auth c3) = computeServerAuthProof master hash) as Eproof by by rewrite Ec3.
  assert (hs_secureMaster (sc_auth c3) = master) as Emaster by by rewrite Ec3.
  assert (hs_secureCipher (sc_auth c3) = cipher_empty) as Ecipher.
  { rewrite Ec3, Ec2. cbn [sc_auth set_sc_conn set_sc_auth]. by rewrite Ea. }
  assert (sc_events c3 = sc_events c) as Eev by (by rewrite Ec3, Ec2).
  pose proof (client_takes_auth_ok Hquiet c3) as E4.
  cbv zeta in E4. rewrite Eproof, Emaster, Ecipher, Eev in E4. fold sid sok in E4.
  specialize (E4 ltac:(by rewrite Ec3) ltac:(rewrite Ec3, Ec2; cbn [sc_auth set_sc_conn set_sc_auth]; by rewrite Ea)
    ltac:(rewrite Ec3, Ec2; cbn [sc_auth set_sc_conn set_sc_auth]; by rewrite Ea)
    ltac:(unfold master, deriveSecureMaster; apply blake2b_size) (blake2b_keyed_size _ _)
    ltac:(intros a; by apply verify32_spec) ltac:(rewrite Ec3; cbn; by rewrite Ec) (session_id_range _)).
  unfold c4. rewrite E2, E4, Ec3. cbn [fst snd sc_conn set_sc_conn].
  split_and!; done.
Qed.

(** C9: the handshake completes.  A client and a server with the same password,
    run against each other: the client connects and sends its hello, the
    server answers, the client's worker hashes the password and the client
    sends its proof, the server accepts it and answers with its own, and the
    client accepts that.  Both ends are then ready with the same session id and
    master secret, with ciphers keyed for each other in both directions and
    nothing yet sent or received; every message on the way is the one the peer
    put on its connection. *)
Theorem handshake_completes fd cfd c s se es n k r1 r2 hash rest rest' t e1 e2 sent wb :
  (forall e, on_event e = ret tt) ->
  cfd <> SOCK_INVALID -> sc_authTask c = after es -> (KStop ∉ es) -> len es < 18446744073709551600 ->
  sc_random c = Some n :: Some k :: rest -> hs_serverPassword (sc_auth c) <> [] ->
  server_waits fd s se -> env_random s = Some r1 :: Some r2 :: rest' ->
  env_now s <= t <= env_now s + SERVER_AUTH_TIMEOUT_SEC ->
  let salt := sv_serverAuthSalt s in
  hashPasswordSalted true (hs_serverPassword (sc_auth c)) salt AUTH_KDF_PROFILE = Some hash ->
  sv_serverAuthHash s = hash ->
  let nonce := resize 16 0 n in let priv := resize 32 0 k in
  let sn := resize 16 0 r1 in let sk := resize 32 0 r2 in
  crypto_x25519 priv (crypto_x25519_public_key sk) <> zeros 32 ->
  let master := agreed_master hash salt nonce priv sn sk in
  let sid := deriveSessionId master in
  let hello := hello_body nonce (crypto_x25519_public_key priv) in
  let shello := server_hello salt sn (crypto_x25519_public_key sk) in
  let proof := computeClientAuthProof master hash in
  let sok := server_auth_ok sid (computeServerAuthProof master hash) in
  let c1 := snd (client_onWritable 0 sent wb (snd (client_connectTo cfd true c))) in
  let s1 := set_env_now t (snd (onClientHello fd hello s)) in
  let c2 := snd (client_processMessage MSG_SERVER_HELLO shello c1) in
  let c3 := snd (pollAuthTask (worker_runs e1 e2 c2)) in
  let s2 := snd (onServerAuth fd proof s1) in
  let c4 := snd (client_processMessage MSG_SERVER_AUTH_OK sok c3) in
  admitted s se shello = true -> admitted s1 (session s1 fd) sok = true ->
  sv_secureSessionMap s1 !! sid = None ->
  tc_sendBuf (sc_conn c1) = frame MSG_CLIENT_HELLO hello /\
  signal_stream fd s1 = signal_stream fd s ++ frame MSG_SERVER_HELLO shello /\
  fst (client_processMessage MSG_SERVER_HELLO shello c1) = Some true /\
  tc_sendBuf (sc_conn c3) = tc_sendBuf (sc_conn c1) ++ frame MSG_SERVER_AUTH proof /\
  signal_stream fd s2 = signal_stream fd s1 ++ frame MSG_SERVER_AUTH_OK sok /\
  fst (client_processMessage MSG_SERVER_AUTH_OK sok c3) = Some true /\
  last (sc_events c4) = Some OnConnected /\
  exists se2, sv_clients s2 !! fd = Some se2 /\ secured c4 se2 sid master.
Proof.
  intros Hquiet Hcfd Htask Hstop Hes Hrand Hpw Hw Hr Ht salt Hh Hhash nonce priv sn sk Hsh master sid
    hello shello proof sok c1 s1 c2 c3 s2 c4 Ha1 Ha2 Hmap.
  destruct (client_offers cfd c es n k rest sent wb Hcfd Htask Hstop Hrand) as (es' & Hl & Hoff).
  fold nonce priv c1 in Hoff.
  assert (len nonce = 16 /\ len sn = 16 /\ len priv = 32 /\ len sk = 32) as (L1 & L2 & L3 & L4)
    by (unfold nonce, sn, priv, sk, len; by rewrite !length_resize).
  pose proof (public_key_size priv L3) as L5. pose proof (public_key_size sk L4) as L6.
  destruct (server_half fd s se nonce priv r1 r2 rest' t hash Hw Hr L1 L5 Hhash Ha1)
    as (S1 & S2 & S3 & S4 & S5 & se1 & Hc1 & T1 & T2 & T3 & T4 & T5 & T6).
  fold sn sk salt hello shello s1 in S1, S2, S3, S4, S5, Hc1, T4, T5, T6.
  pose proof (client_half cfd _ nonce priv es' c1 salt sn _ hash e1 e2 Hquiet Hoff ltac:(lia) Hpw (sw_salt _ _ _ Hw)
    L2 L6 L1 L5 Hh Hsh) as (C1 & C2 & C3 & C4 & C5 & C6 & C7 & C8).
  fold master in T5.
  destruct (auth_runs fd s1 se1 S2 S3 Hc1 (sw_fd _ _ _ Hw) T1 T2 ltac:(lia) ltac:(by rewrite T4)
    ltac:(by rewrite T5)) as (s' & se' & E & Hat & A1 & A2 & A3 & A4 & A5 & A6 & A7 & A8).
  rewrite T5, S4 in E. fold sid sok proof in E.
  assert (session s1 fd = se1) as Hse1 by by apply session_Some.
  assert (admitted s' se' sok = true) as Ha2'.
  { revert Ha2. unfold admitted. by rewrite (as_global _ _ _ _ Hat), (as_limits _ _ _ _ Hat), A7, A8, Hse1. }
  assert (len sok = 36) as Elen
    by (unfold sok, server_auth_ok, computeServerAuthProof; by rewrite !len_app, len_be_bytes, blake2b_keyed_size).
  pose proof (run_send fd s1 se' s' MSG_SERVER_AUTH_OK sok Hat Ha2' ltac:(rewrite Elen; lia) ltac:(done))
    as (F1 & F2 & F3 & F4 & F5 & F6 & se2 & F7 & F8 & F9).
  rewrite <- E in F1, F2, F3, F4, F5, F6, F7. fold s2 in F3, F7.
  split; [by rewrite (of_conn _ _ _ _ _ _ Hoff)|]. split; [exact S1|]. split; [exact C1|]. split; [exact C2|].
  split; [exact F3|]. split; [exact C3|]. split; [exact (eq_trans (f_equal last C8) (last_snoc _ _))|].
  exists se2. split; [exact F7|].
  assert (forall A (f : ClientSession -> A), (forall x, f (mask x) = f x) -> f se2 = f se') as Hm
    by (intros A f Hfm; rewrite <- (Hfm se2), <- (Hfm se'); by rewrite F8).
  assert (secureCipher se2 = cipher_init (secureCipher se) master false "signal") as Eciph.
  { unfold ciphers in *. rewrite T5 in A6. congruence. }
  pose proof (cipher_init_paired cipher_empty (secureCipher se) master "signal" eq_refl (sw_cipher _ _ _ Hw))
    as (P1 & P2 & P3 & P4 & P5 & P6 & _).
  assert (hs_secureCipher (sc_auth c4) = cipher_init cipher_empty master true "signal") as Ecl by exact C7.
  constructor.
  - exact C4.
  - by rewrite (Hm _ serverAuthOk), (Hm _ secureEnabled), (Hm _ state).
  - split; [exact C5|]. rewrite (Hm _ secureSessionId) by done. by rewrite A4, T5.
  - split; [exact C6|]. rewrite (Hm _ secureMaster) by done. by rewrite A5, T5.
  - by rewrite Ecl, Eciph.
  - by rewrite Ecl, Eciph.
  - by rewrite Ecl, Eciph.
Qed.
End Pair.

(** ** An instance *)

#[local] Existing Instances ToyCrypto ToyCryptoLaws no_app_state watching_app.
Lemma zip_add_comm (a b : bytes) :
  zip_with (fun x y => (x + y) mod 256) a b = zip_with (fun x y => (x + y) mod 256) b a.
Proof. revert b. induction a as [|x a IH]; intros [|y b]; cbn; try done. by rewrite IH, (Z.add_comm x y). Qed.
Lemma ToyHandshakeLaws : HandshakeLaws.
Proof.
  constructor.
  - intros a b. apply zip_add_comm.
  - by intros k.
  - intros m. apply len_toy_digest.
Qed.
#[local] Existing Instance ToyHandshakeLaws.

Definition demo_password : bytes := [7; 8; 9].
Definition demo_listening : Server :=
  set_sv_serverAuthHash (authHashFromIntermediate (crypto_argon2 demo_password (zeros 16)))
  (set_sv_serverAuthSalt (zeros 16)
   (demo_run [EvSockets [SendN 10] [Some [1;2;3]; Some [4;5;6]]; EvAccept 5 0x7F000001;
      EvReadable 5 (Some [200; 0; 0])] demo_server0)).
Definition demo_fresh_client : CliSignalClient :=
  set_sc_random [Some [9;9]; Some [8;8]]
    (set_sc_auth (set_hs_serverPassword demo_password ClientAuth_init) (CliSignalClient_init 0 0 tt)).
Lemma keyed_ok h salt s :
  filed (sv_clients s) -> budget_ok s ->
  let s' := set_sv_serverAuthHash h (set_sv_serverAuthSalt salt s) in filed (sv_clients s') /\ budget_ok s'.
Proof. intros Hf []. split; [done|by constructor]. Qed.
Lemma handshake_completes_witness :
  let s2 := snd (onServerAuth 5
    (computeClientAuthProof
      (agreed_master (sv_serverAuthHash demo_listening) (zeros 16) (resize 16 0 [9;9]) (resize 32 0 [8;8])
         (resize 16 0 [1;2;3]) (resize 32 0 [4;5;6])) (sv_serverAuthHash demo_listening))
    (set_env_now 103 (snd (onClientHello 5 (hello_body (resize 16 0 [9;9]) (resize 32 0 [8;8])) demo_listening)))) in
  exists se2, sv_clients s2 !! 5 = Some se2 /\ state se2 = AwaitLogin.
Proof.
  assert (len (sv_serverAuthSalt demo_listening) = 16) as Hs by by vm_compute.
  assert (filed (sv_clients demo_listening) /\ budget_ok demo_listening) as [Hf Hb].
  { assert (reachable demo_server0 (demo_run
      [EvSockets [SendN 10] [Some [1;2;3]; Some [4;5;6]]; EvAccept 5 0x7F000001;
      EvReadable 5 (Some [200; 0; 0])] demo_server0)) as Hr
      by (unfold demo_run; cbn [fold_left]; repeat constructor).
    apply keyed_ok.
    - apply (reachable_inv (fun s => filed (sv_clients s)) _ _ Hr). by intros fd c.
    - apply (reachable_inv budget_ok _ _ Hr). constructor; [done|by vm_compute|by intros fd c]. }
  assert (server_waits 5 demo_listening (session demo_listening 5)) as Hw.
  { constructor; [done|exact Hf|exact Hb|by vm_compute|by vm_compute|by vm_compute|by vm_compute|exact Hs]. }
  assert (forall e, on_event e = ret tt) as Hq by by intros e.
  destruct (handshake_completes 5 3 demo_fresh_client demo_listening (session demo_listening 5) []
    [9;9] [8;8] [1;2;3] [4;5;6] (sv_serverAuthHash demo_listening) [] [] 103 1 1 0 false
    Hq ltac:(done) eq_refl (not_elem_of_nil _) ltac:(by vm_compute) eq_refl ltac:(done) Hw
    ltac:(by vm_compute) ltac:(by vm_compute) ltac:(by vm_compute) eq_refl ltac:(by vm_compute)
    ltac:(by vm_compute) ltac:(by vm_compute) ltac:(by vm_compute))
    as (_ & _ & _ & _ & _ & _ & _ & se2 & E & Hsec).
  exists se2. split; [exact E|]. by destruct (sd_server _ _ _ _ Hsec) as (_ & _ & ?).
Defined.
