(* ===== verification/CreateFlow.v ===== *)
(** * A room created from the command line

    From the words of the [create] command to the server: the message that
    [CliSignalClient::createRoom] makes of a parsed command passes the server's
    validator, and [onCreateRoom] reads from it exactly what the user asked;
    for a protected room it is the message [pollAuthTask] sends once the worker
    has the hash of the password. *)

From S2P Require Import Prelude Protocol ByteBuf SecureFrame ServerState ServerCore ServerAuth ServerDispatch WireFacts CliOptions TcpConn AuthKdf AuthKdfFacts CliSignalState CliSignal.

(** What is on the wire: the request, and for a protected room the salt and
    the hash of its password. *)
Definition create_head (q : CreateRequest) : bytes :=
  writeU8 (if cq_passwordProtected q then 1 else 0)
    (writeBytes (policy_octets (cq_udpPolicy q)) (writeBytes (policy_octets (cq_tcpPolicy q))
      (writeU8 (u8 (cq_maxPlayers q)) (writeString (cq_roomName q) [])))).
Definition create_message (q : CreateRequest) (salt hash : bytes) : bytes :=
  writeU16 (normalizeRoomMtu (cq_roomMtu q))
    (if cq_passwordProtected q then writeBytes hash (writeBytes salt (create_head q)) else create_head q).

Lemma run_reads {A B} (m : SE ByteBuffer A) (k : A -> SE ByteBuffer B) x a pre rest : reads m x a ->
  bind m k (at_pos pre (x ++ rest)) = k a (at_pos (pre ++ x) rest).
Proof. intros Hm. unfold bind. by rewrite Hm. Qed.
Lemma run_reads_end {A B} (m : SE ByteBuffer A) (k : A -> SE ByteBuffer B) x a pre : reads m x a ->
  bind m k (at_pos pre x) = k a (at_pos (pre ++ x) []).
Proof. intros Hm. rewrite <- (app_nil_r x) at 1. by apply run_reads. Qed.
(** The fields in order. *)
Lemma create_fields q salt hash : request_ok q ->
  create_message q salt hash =
  (be_bytes 2 (len (cq_roomName q)) ++ cq_roomName q) ++ [cq_maxPlayers q] ++
  [TransportMode_u8 (transportMode (cq_tcpPolicy q))] ++ [FecMode_u8 (fecMode (cq_tcpPolicy q))] ++
  [KcpProfile_u8 (kcpProfile (cq_tcpPolicy q))] ++
  [TransportMode_u8 (transportMode (cq_udpPolicy q))] ++ [FecMode_u8 (fecMode (cq_udpPolicy q))] ++
  [KcpProfile_u8 (kcpProfile (cq_udpPolicy q))] ++
  [if cq_passwordProtected q then 1 else 0] ++
  (if cq_passwordProtected q then salt ++ hash else []) ++ be_bytes 2 (cq_roomMtu q).
Proof.
  intros Hq. pose proof (room_name_len _ (ro_name q Hq)) as Hn.
  assert (u8 (cq_maxPlayers q) = cq_maxPlayers q) as Hm.
  { unfold u8. apply Z.mod_small. pose proof (ro_max q Hq). unfold MAX_PLAYERS in *. lia. }
  assert (u8 (if cq_passwordProtected q then 1 else 0) = if cq_passwordProtected q then 1 else 0) as Hp by by case_match.
  unfold create_message, create_head, policy_octets. rewrite normalizeRoomMtu_id by apply Hq.
  rewrite (writeString_bytes (cq_roomName q)) by lia.
  unfold writeU8. rewrite ?Hm, ?Hp. destruct (cq_passwordProtected q); written; unfold str_bytes; rewrite <- ?app_assoc; done.
Qed.

Section Server.
Context `{HC : Crypto}.

Lemma policy_bad (p : RoomTrafficPolicy) : policy_wf p ->
  (TransportMode_u8 (transportMode p) =? TransportMode_u8 MODE_RELAY_TCP) &&
  negb (FecMode_u8 (fecMode p) =? FecMode_u8 FEC_NONE) = false.
Proof. intros Hp. destruct p as [m f k]. unfold policy_wf in Hp. cbn in *. destruct m; [done..| |]; try done; by rewrite Hp. Qed.
(** The checks of both the validator and the handler. *)
Lemma create_limits q : request_ok q -> (cq_maxPlayers q <? 2) = false /\ (MAX_PLAYERS <? cq_maxPlayers q) = false.
Proof. intros Hq. pose proof (ro_max q Hq). split; lia. Qed.
Ltac checks q Hq := rewrite ?(ro_name q Hq), ?transport_valid_u8, ?fec_valid_u8, ?profile_valid_u8,
  ?(policy_bad _ (ro_tcp q Hq)), ?(policy_bad _ (ro_udp q Hq)),
  ?(proj1 (create_limits q Hq)), ?(proj2 (create_limits q Hq)); cbn [negb orb].
Ltac next_field := rewrite (run_reads _ _ _ _ _ _ (reads_u8 _)).
Lemma create_validated q salt hash : request_ok q -> len salt = AUTH_SALT_SIZE -> len hash = 32 ->
  parses validate_create_room (create_message q salt hash) = true.
Proof.
  intros Hq Hsalt Hhash. pose proof (room_name_len _ (ro_name q Hq)) as Hn. pose proof (ro_mtu q Hq) as Hmtu.
  unfold parses, bb_run. change (bb_of ?d) with (at_pos [] d). rewrite create_fields by done.
  unfold validate_create_room. rewrite (run_reads _ _ _ _ _ _ (reads_string (cq_roomName q) ltac:(lia))).
  do 7 next_field. cbv beta. checks q Hq. next_field. cbv beta.
  assert ((1 <? (if cq_passwordProtected q then 1 else 0)) = false) as -> by by case_match.
  destruct (cq_passwordProtected q); cbn [negb Z.eqb].
  - rewrite <- (app_assoc salt hash), bind_assoc, (run_reads _ _ _ _ _ _ (reads_bytes salt _ (eq_sym Hsalt))).
    rewrite bind_assoc, (run_reads _ _ _ _ _ _ (reads_bytes hash _ (eq_sym Hhash))).
    unfold bind at 1. cbn [ret]. rewrite (run_reads_end _ _ _ _ _ (reads_u16 _)). cbv beta.
    rewrite (mtu_u16 _ Hmtu), Hmtu. unfold gets. cbn [fst]. by rewrite atEnd_at.
  - unfold bind at 1. cbn [ret app]. rewrite (run_reads_end _ _ _ _ _ (reads_u16 _)). cbv beta.
    rewrite (mtu_u16 _ Hmtu), Hmtu. unfold gets. cbn [fst]. by rewrite atEnd_at.
Qed.

(** The handler reads what the user asked for. *)
Ltac next_read := rewrite (run_read _ _ _ _ _ _ _ (reads_u8 _)).
Lemma create_read q salt hash fd s : request_ok q -> len salt = AUTH_SALT_SIZE -> len hash = 32 ->
  create_room_request fd (create_message q salt hash) s =
  create_room_open fd (cq_roomName q) (cq_maxPlayers q) (cq_tcpPolicy q) (cq_udpPolicy q) (cq_roomMtu q)
    (if cq_passwordProtected q then 1 else 0)
    (if cq_passwordProtected q then hash else zeros 32) (if cq_passwordProtected q then salt else zeros 16) s.
Proof.
  intros Hq Hsalt Hhash. pose proof (room_name_len _ (ro_name q Hq)) as Hn. pose proof (ro_mtu q Hq) as Hmtu.
  unfold create_room_request. cbv zeta. change (bb_of ?d) with (at_pos [] d). rewrite create_fields by done.
  rewrite (run_read _ _ _ _ _ _ _ (reads_string (cq_roomName q) ltac:(lia))). checks q Hq.
  next_read. checks q Hq. rewrite remaining_at.
  match goal with |- context [len ?l <? 6] => assert ((len l <? 6) = false) as -> by
    (pose proof (len_nonneg (if cq_passwordProtected q then salt ++ hash else [])); apply Z.ltb_ge; autorewrite with lens; lia) end.
  do 6 next_read. checks q Hq. rewrite !policy_octets_roundtrip by apply Hq. next_read.
  destruct (cq_passwordProtected q); cbn [negb Z.eqb].
  - rewrite <- (app_assoc salt hash). rewrite bind_assoc, (run_read _ _ _ _ _ _ _ (reads_bytes salt _ (eq_sym Hsalt))).
    rewrite bind_assoc, (run_read _ _ _ _ _ _ _ (reads_bytes hash _ (eq_sym Hhash))).
    unfold bind at 1. cbn [ret]. rewrite <- (app_nil_r (be_bytes 2 (cq_roomMtu q))), (run_read _ _ _ _ _ _ _ (reads_u16 _)).
    by rewrite (mtu_u16 _ Hmtu), Hmtu.
  - unfold bind at 1. cbn [ret app]. rewrite <- (app_nil_r (be_bytes 2 (cq_roomMtu q))), (run_read _ _ _ _ _ _ _ (reads_u16 _)).
    by rewrite (mtu_u16 _ Hmtu), Hmtu.
Qed.
End Server.

(** ** The command *)

Section Command.
Context `{HC : Crypto} {AS : AppState} {CA : ClientApp}.

(** The client may ask for a room now. *)
Definition may_request (c : CliSignalClient) : Prop :=
  rr_roomOperationPending (sc_room c) = false /\ sc_authOperation c = 0 /\ hs_secureReady (sc_auth c) = true.
Definition ask_room (q : CreateRequest) : CS unit :=
  client_createRoom (cq_roomName q) (u8 (cq_maxPlayers q)) (cq_tcpPolicy q) (cq_udpPolicy q)
    (cq_roomMtu q) (cq_passwordProtected q) (cq_password q).
Lemma u8_twice v : u8 (u8 v) = u8 v.
Proof. unfold u8. by rewrite Z.mod_mod. Qed.
Lemma ask_open q c : may_request c -> cq_passwordProtected q = false ->
  ask_room q c = (begin_room_request ;;; client_sendMsg MSG_CREATE_ROOM (create_message q [] [])) c.
Proof.
  intros (Hr & Ho & Hs) Hp. unfold ask_room, client_createRoom. rewrite bind_gets, Hr, Ho, Hs. cbn [negb orb Z.eqb].
  rewrite u8_twice. unfold create_message, create_head. by rewrite Hp.
Qed.
(** For a protected room the request waits for the hash of the password;
    [l]: the steps of the worker since it was made. *)
Record waiting (q : CreateRequest) (salt : bytes) (l : list KdfStep) (c : CliSignalClient) : Prop := mkWaiting {
  wg_create : rr_pendingCreate (sc_room c) = create_head q;
  wg_mtu : rr_pendingCreateMtu (sc_room c) = normalizeRoomMtu (cq_roomMtu q);
  wg_salt : hs_authSalt (sc_auth c) = salt;
  wg_operation : sc_authOperation c = 2;
  wg_hash : in_progress (cq_password q) salt l (sc_authTask c)
}.
(** The worker is there: its task was not stopped, in fewer than 2^64 steps. *)
Definition task_open (t : AuthKdfTask) : Prop :=
  exists es, t = after es /\ (KStop ∉ es) /\ len es < 18446744073709551616 - 1.
(** What the client does with the hash: the whole message goes out. *)
Definition send_create (message : bytes) : CS unit :=
  in_room (set_rr_pendingCreate message) ;;; client_sendMsg MSG_CREATE_ROOM message ;;;
  in_room (set_rr_pendingCreate []).
Definition answered (c : CliSignalClient) : CliSignalClient :=
  set_sc_authOperation 0 (set_sc_authTask (snd (kdf_poll (sc_authTask c))) c).

Lemma ask_protected q salt rest c : may_request c -> task_open (sc_authTask c) -> cq_passwordProtected q = true ->
  sc_random c = Some salt :: rest -> len salt = 16 -> waiting q salt [] (snd (ask_room q c)).
Proof.
  intros (Hr & Ho & Hs) (es & Et & Hst & Hn) Hp Hsalt Hl. unfold ask_room, client_createRoom.
  rewrite bind_gets, Hr, Ho, Hs. cbn [negb orb Z.eqb]. rewrite u8_twice, Hp.
  unfold client_random, begin_room_request, in_room, in_auth, in_task, bind, gets, modify, ret. cbn. rewrite Hsalt. cbn.
  assert (resize 16 0 salt = salt) as -> by (apply resize_all_alt; unfold len in Hl; lia).
  constructor; cbn; try done; [by unfold create_head; rewrite Hp|].
  pose proof (after_ok es ltac:(lia)) as Hok. rewrite Et.
  pose proof (in_progress_start (after es) (cq_password q) salt es Hok Hn) as Hk.
  rewrite firstn_all2 in Hk by (unfold len in Hl; lia). apply Hk.
  rewrite (ko_stop _ _ Hok). by apply bool_decide_eq_false_2.
Qed.
Lemma waiting_worker q salt l c e : waiting q salt l c -> worker_step e = true ->
  waiting q salt (l ++ [e]) (snd (client_call (WorkerStep e) c)).
Proof. intros [] He. constructor; try done. by apply in_progress_step. Qed.
Lemma waiting_time q salt l c now mono : waiting q salt l c -> waiting q salt l (snd (client_call (PassTime now mono) c)).
Proof. intros []. by constructor. Qed.
Lemma waiting_result q salt l c hash r : waiting q salt l c ->
  hashPasswordSalted true (cq_password q) salt AUTH_KDF_PROFILE = Some hash ->
  fst (kdf_poll (sc_authTask c)) = Some r ->
  if kr_success r then kr_hash r = hash else exists elapsed, KPublish false elapsed ∈ l.
Proof.
  intros [_ _ _ _ [_ Hp]] Hh E. unfold kdf_poll in E. destruct (kt_ready (sc_authTask c)) eqn:Er; [|done].
  cbn in E. destruct Hp as [(_ & _ & _ & ? & _)|[(_ & ? & _)|(_ & _ & _ & a & el & Hin & Hres)]]; try congruence.
  injection E as <-. rewrite Hres. unfold worker_result. destruct a; [by rewrite Hh|].
  unfold hashPasswordSalted, computeIntermediateWithAllocator. destruct (_ || _); cbn; by exists el.
Qed.
Lemma waiting_polled q salt l c hash : waiting q salt l c -> tc_connected (sc_conn c) = true ->
  cq_passwordProtected q = true -> hashPasswordSalted true (cq_password q) salt AUTH_KDF_PROFILE = Some hash ->
  pollAuthTask c =
    match fst (kdf_poll (sc_authTask c)) with
    | None => (Some tt, c)
    | Some r =>
        if kr_success r then send_create (create_message q salt hash) (answered c)
        else failAuthentication KdfFailed (bytes_of_string "authentication KDF failed") (answered c)
    end.
Proof.
  intros Hw Hc Hp Hh. pose proof (fun r => waiting_result _ _ _ _ _ r Hw Hh) as Hr.
  unfold pollAuthTask. rewrite bind_gets. destruct Hw as [E1 E2 E3 E4 _].
  destruct (fst (kdf_poll (sc_authTask c))) as [r|] eqn:Epoll; unfold in_task; rewrite bind_modify.
  - specialize (Hr r eq_refl). rewrite bind_gets. cbn [sc_authOperation set_sc_authTask].
    rewrite E4, bind_modify, bind_gets. cbn [Z.eqb sc_conn set_sc_authOperation set_sc_authTask orb]. rewrite Hc. cbn [negb].
    unfold answered. destruct (kr_success r); [|done]. cbn [negb]. cbv zeta.
    cbn [sc_room sc_auth set_sc_authOperation set_sc_authTask]. rewrite Hr, E1, E2, E3.
    unfold send_create, create_message. by rewrite Hp.
  - unfold kdf_poll in Epoll |- *. destruct (kt_ready (sc_authTask c)); [done|]. cbn. by destruct c.
Qed.

(** C8: a command is understood.  When the [create] command parses, the
    message the client makes of it passes the server's validator, and
    [onCreateRoom] reads from it exactly the name, the player limit, the
    policies and the MTU the user gave, and for a protected room the salt and
    the hash.  A client that may send a request sends that message at once if
    the room is open.  For a protected room it draws the salt, starts the hash
    of the user's password with it, and waits: the worker's steps and the
    passing of time leave it waiting, the worker has a result after its current
    turn and one more, and every [pollAuthTask] of a waiting, connected client
    does nothing without a result, sends that message with the hash of
    the password and salt with one, and fails only if the worker could not
    allocate its memory. *)
Theorem create_command_understood args q salt hash :
  parse_create args = Some q -> len salt = 16 -> len hash = 32 ->
  validateClientSignalPayload MSG_CREATE_ROOM (Some (create_message q salt hash)) (len (create_message q salt hash)) = true /\
  (forall fd s, create_room_request fd (create_message q salt hash) s =
     create_room_open fd (cq_roomName q) (cq_maxPlayers q) (cq_tcpPolicy q) (cq_udpPolicy q) (cq_roomMtu q)
       (if cq_passwordProtected q then 1 else 0)
       (if cq_passwordProtected q then hash else zeros 32) (if cq_passwordProtected q then salt else zeros 16) s) /\
  if cq_passwordProtected q then
    hashPasswordSalted true (cq_password q) salt AUTH_KDF_PROFILE = Some hash ->
    (forall c rest, may_request c -> task_open (sc_authTask c) -> sc_random c = Some salt :: rest ->
       waiting q salt [] (snd (ask_room q c))) /\
    (forall c l, waiting q salt l c ->
       (forall e, worker_step e = true -> waiting q salt (l ++ [e]) (snd (client_call (WorkerStep e) c))) /\
       (forall now mono, waiting q salt l (snd (client_call (PassTime now mono) c))) /\
       (forall a1 t1 a2 t2, fst (kdf_poll (kdf_run [KPublish a1 t1; KTake; KPublish a2 t2] (sc_authTask c))) <> None) /\
       (tc_connected (sc_conn c) = true ->
          match fst (kdf_poll (sc_authTask c)) with
          | None => pollAuthTask c = (Some tt, c)
          | Some r =>
              if kr_success r then pollAuthTask c = send_create (create_message q salt hash) (answered c)
              else (exists elapsed, KPublish false elapsed ∈ l) /\ pollAuthTask c =
                failAuthentication KdfFailed (bytes_of_string "authentication KDF failed") (answered c)
          end))
  else forall c, may_request c ->
    ask_room q c = (begin_room_request ;;; client_sendMsg MSG_CREATE_ROOM (create_message q salt hash)) c.
Proof.
  intros Hparse Hsalt Hhash. apply parse_create_ok in Hparse. split_and!.
  - unfold validateClientSignalPayload. cbn -[parses create_message].
    assert (len (create_message q salt hash) <> 0) as Hne.
    { rewrite create_fields by done. rewrite !len_app. pose proof (len_nonneg (cq_roomName q)).
      rewrite len_be_bytes. pose proof (len_nonneg [cq_maxPlayers q]). rewrite !len_cons. unfold len. lia. }
    rewrite (proj2 (Z.eqb_neq _ _) Hne). cbn [negb]. rewrite len_to_nat, firstn_all. by apply create_validated.
  - intros fd s. by apply create_read.
  - destruct (cq_passwordProtected q) eqn:Ep.
    + intros Hh. split; [intros c rest ? ? ?; by eapply ask_protected|]. intros c l Hw. split_and!.
      * intros e He. by apply waiting_worker.
      * intros. by apply waiting_time.
      * intros a1 t1 a2 t2. unfold kdf_poll. by rewrite (in_progress_done _ _ _ _ a1 t1 a2 t2 (wg_hash _ _ _ _ Hw)).
      * intros Hc. pose proof (waiting_polled _ _ _ _ _ Hw Hc Ep Hh) as E.
        destruct (fst (kdf_poll (sc_authTask c))) as [r|] eqn:Er; [|exact E].
        pose proof (waiting_result _ _ _ _ _ r Hw Hh Er) as Hr. destruct (kr_success r); [exact E|by split].
    + intros c Hc. rewrite ask_open by done. unfold create_message, create_head. by rewrite Ep.
Qed.
End Command.

#[local] Existing Instances ToyCrypto ToyCryptoLaws no_app_state watching_app.
Definition demo_create : bytes := bytes_of_string "Den12345 4 secret99 tcp=kcp udp-fec=30 mtu=1280".
Definition demo_salt : bytes := replicate 16 1.
Definition demo_asking : CliSignalClient :=
  let c := CliSignalClient_init 0 0 tt in
  set_sc_random [Some demo_salt] (set_sc_conn (mkConn 3 [] [] true false 0)
    (set_sc_auth (set_hs_secureReady true (sc_auth c)) c)).
Definition demo_waiting (q : CreateRequest) : CliSignalClient :=
  snd (for_each [KTake; KPublish true 9] (fun e => client_call (WorkerStep e)) (snd (ask_room q demo_asking))).
Lemma create_command_understood_witness : exists q hash,
  parse_create demo_create = Some q /\ cq_passwordProtected q = true /\ cq_maxPlayers q = 4 /\ cq_roomMtu q = 1280 /\
  validateClientSignalPayload MSG_CREATE_ROOM (Some (create_message q demo_salt hash)) (len (create_message q demo_salt hash)) = true /\
  pollAuthTask (demo_waiting q) = send_create (create_message q demo_salt hash) (answered (demo_waiting q)).
Proof.
  destruct (parse_create demo_create) as [q|] eqn:E; [|vm_compute in E; discriminate].
  destruct (hashPasswordSalted true (cq_password q) demo_salt AUTH_KDF_PROFILE) as [hash|] eqn:Eh.
  2: { assert (Some q = parse_create demo_create) as E' by (symmetry; exact E). vm_compute in E'.
       injection E' as ->. vm_compute in Eh. discriminate. }
  exists q, hash. split; [reflexivity|].
  assert (cq_passwordProtected q = true /\ cq_maxPlayers q = 4 /\ cq_roomMtu q = 1280 /\ len hash = 32) as (B1 & B2 & B3 & B4).
  { assert (Some q = parse_create demo_create) as E' by (symmetry; exact E). vm_compute in E'.
    injection E' as ->. vm_compute in Eh. injection Eh as <-. split_and!; reflexivity. }
  split; [exact B1|]. split; [exact B2|]. split; [exact B3|].
  destruct (create_command_understood demo_create q demo_salt hash E eq_refl B4) as (V & _ & W). split; [exact V|].
  rewrite B1 in W. destruct (W Eh) as [Wask Wwait].
  assert (waiting q demo_salt [KTake; KPublish true 9] (demo_waiting q)) as Hw.
  { apply (proj1 (Wwait _ [KTake] (proj1 (Wwait _ [] (Wask demo_asking [] ltac:(split_and!; reflexivity)
      ltac:(exists []; split; [reflexivity|split; [apply not_elem_of_nil|by vm_compute]]) eq_refl)) KTake eq_refl)) (KPublish true 9) eq_refl). }
  destruct (Wwait _ _ Hw) as (_ & _ & _ & Wpoll).
  assert (tc_connected (sc_conn (demo_waiting q)) = true) as Hc.
  { assert (Some q = parse_create demo_create) as E' by (symmetry; exact E). vm_compute in E'.
    injection E' as ->. by vm_compute. }
  specialize (Wpoll Hc).
  destruct (fst (kdf_poll (sc_authTask (demo_waiting q)))) as [r|] eqn:Er.
  - destruct (kr_success r); [exact Wpoll|]. destruct Wpoll as [[el Hel] _]. exfalso.
    apply elem_of_cons in Hel as [?|Hel]; [discriminate|]. by apply list_elem_of_singleton in Hel.
  - exfalso. assert (Some q = parse_create demo_create) as E' by (symmetry; exact E). vm_compute in E'.
    injection E' as ->. vm_compute in Er. discriminate.
Defined.
