(* ===== verification/Store.v ===== *)
(** * Bounded stores

    The forward-error-correction decoder and the fragment reassembly of the
    raw UDP tunnels keep their incomplete groups in the same shape of table: a
    map with a count of the octets it holds, from which the oldest entry is
    evicted to stay within an octet limit and an entry limit.  The four
    operations, written once over the entry type, with the invariant they
    share; [Fec] and [RawUdp] instantiate them. *)

From S2P Require Import Prelude Room RoomFacts.

Record Store (G : Type) := mkStore { st_map : gmap Z G; st_bytes : Z }.
Arguments mkStore {G} _ _.
Arguments st_map {G} _.
Arguments st_bytes {G} _.
Definition store_empty {G} : Store G := mkStore ∅ 0.
Definition store_set {G} (k : Z) (g : G) (s : Store G) : Store G :=
  mkStore (<[k := g]> (st_map s)) (st_bytes s).

Section Store.
Context {G : Type} (size_of born : G -> Z) (maxBytes maxCount : Z).

Definition store_remove (k : Z) (s : Store G) : Store G :=
  match st_map s !! k with
  | None => s
  | Some g =>
      let n := size_of g in
      mkStore (delete k (st_map s)) (if st_bytes s <? n then 0 else st_bytes s - n)
  end.

(** The first entry, in key order, of least creation time. *)
Definition oldest_entry (l : list (Z * G)) : option (Z * G) :=
  match l with
  | [] => None
  | kv :: l => Some (fold_left (fun o kv => if born kv.2 <? born o.2 then kv else o) l kv)
  end.
(** Each turn removes an entry: the number of entries is enough [fuel]. *)
Fixpoint evict_loop (fuel : nat) (incoming : Z) (newEntry : bool) (s : Store G) : Store G :=
  match fuel with
  | O => s
  | S fuel =>
      if (newEntry && (maxCount <=? Z.of_nat (size (st_map s)))) ||
         (maxBytes <? st_bytes s + incoming)
      then match oldest_entry (map_ordered (st_map s)) with
           | Some (k, _) => evict_loop fuel incoming newEntry (store_remove k s)
           | None => s
           end
      else s
  end.
Definition store_reserve (incoming : Z) (newEntry : bool) (s : Store G) : bool * Store G :=
  if maxBytes <? incoming then (false, s) else
  let s := evict_loop (size (st_map s)) incoming newEntry s in
  ((negb newEntry || (Z.of_nat (size (st_map s)) <? maxCount)) &&
   (st_bytes s + incoming <=? maxBytes), s).

Definition store_expire (timeout now : Z) (s : Store G) : Store G :=
  fold_left (fun s k => store_remove k s)
    (map fst (filter (fun kv => (timeout <? u32 (now - born kv.2)) = true) (map_ordered (st_map s)))) s.

(** ** The invariant *)

(** The count is exact, both limits hold, and every entry satisfies [P]. *)
Record store_ok (P : Z -> G -> Prop) (s : Store G) : Prop := mkStoreOk {
  so_exact : st_bytes s = map_total size_of (st_map s);
  so_bytes : st_bytes s <= maxBytes;
  so_count : Z.of_nat (size (st_map s)) <= maxCount;
  so_entry : forall k g, st_map s !! k = Some g -> P k g
}.
Context (P : Z -> G -> Prop) (size_nonneg : forall g, 0 <= size_of g).

Lemma store_empty_ok : 0 <= maxBytes -> 0 <= maxCount -> store_ok P store_empty.
Proof. intros Hb Hc. constructor; cbn; [done|lia|rewrite map_size_empty; lia|]. intros k g E. by rewrite lookup_empty in E. Qed.
Lemma store_total_nonneg m : 0 <= map_total size_of m.
Proof using size_nonneg. apply map_total_nonneg. auto. Qed.
Lemma store_bytes_nonneg s : store_ok P s -> 0 <= st_bytes s.
Proof using size_nonneg. intros [-> _ _ _]. apply store_total_nonneg. Qed.

Lemma store_remove_bytes s k g :
  store_ok P s -> st_map s !! k = Some g ->
  store_remove k s = mkStore (delete k (st_map s)) (st_bytes s - size_of g).
Proof using size_nonneg.
  intros Hs Hg. unfold store_remove. rewrite Hg, (so_exact P s Hs).
  pose proof (map_total_delete size_of _ _ _ Hg). pose proof (store_total_nonneg (delete k (st_map s))).
  by rewrite (proj2 (Z.ltb_ge _ _)) by lia.
Qed.
Lemma store_remove_ok s k : store_ok P s -> store_ok P (store_remove k s).
Proof using size_nonneg.
  intros Hs. destruct (st_map s !! k) as [g|] eqn:Hg; [|unfold store_remove; by rewrite Hg].
  rewrite (store_remove_bytes s k g) by done. destruct Hs as [H1 H2 H3 H4].
  pose proof (size_nonneg g). constructor; cbn.
  - rewrite (map_total_delete _ _ _ _ Hg). lia.
  - lia.
  - rewrite map_size_delete, Hg. lia.
  - intros i g'. rewrite lookup_delete_Some. intros [_ E]. by apply H4.
Qed.
Lemma store_remove_sub k s i g :
  st_map (store_remove k s) !! i = Some g -> st_map s !! i = Some g.
Proof.
  unfold store_remove. destruct (st_map s !! k); [|done]. cbn.
  rewrite lookup_delete_Some. by intros [_ ?].
Qed.

Lemma oldest_in l k g : oldest_entry l = Some (k, g) -> (k, g) ∈ l.
Proof.
  destruct l as [|kv l]; [done|]. cbn [oldest_entry]. intros [= E]. revert kv E.
  induction l as [|x l IH]; intros kv E; cbn [fold_left] in E; [subst; left|].
  apply IH in E. apply elem_of_cons in E as [E|E]; [|by right; right].
  destruct (_ <? _); rewrite E; [right; left|left].
Qed.
Lemma oldest_some l : l <> [] -> is_Some (oldest_entry l).
Proof. by destruct l. Qed.

(** Eviction keeps the invariant and only removes entries. *)
Lemma evict_ok fuel incoming newEntry s : store_ok P s -> store_ok P (evict_loop fuel incoming newEntry s).
Proof using size_nonneg.
  revert s. induction fuel as [|fuel IH]; intros s Hs; cbn [evict_loop]; [done|].
  destruct (_ || _); [|done]. destruct (oldest_entry _) as [[k g]|]; [|done].
  by apply IH, store_remove_ok.
Qed.
Lemma evict_sub fuel incoming newEntry s i g :
  st_map (evict_loop fuel incoming newEntry s) !! i = Some g -> st_map s !! i = Some g.
Proof.
  revert s. induction fuel as [|fuel IH]; intros s; cbn [evict_loop]; [done|].
  destruct (_ || _); [|done]. destruct (oldest_entry _) as [[k g']|]; [|done].
  intros E%IH. by eapply store_remove_sub.
Qed.
(** With as much fuel as entries, it ends by its own condition or empty. *)
Lemma evict_done fuel incoming newEntry s :
  (size (st_map s) <= fuel)%nat ->
  let s' := evict_loop fuel incoming newEntry s in
  st_map s' = ∅ \/
  ((newEntry && (maxCount <=? Z.of_nat (size (st_map s')))) ||
   (maxBytes <? st_bytes s' + incoming)) = false.
Proof.
  revert s. induction fuel as [|fuel IH]; intros s Hf; cbn [evict_loop]; cbv zeta.
  { left. apply map_size_empty_inv. lia. }
  destruct (_ || _) eqn:E; [|by right].
  destruct (oldest_entry (map_ordered (st_map s))) as [[k g]|] eqn:Eo.
  - apply oldest_in, elem_of_map_ordered in Eo. apply IH. unfold store_remove. rewrite Eo. cbn.
    rewrite map_size_delete, Eo.
    assert (size (st_map s) <> 0%nat); [|lia].
    intros Hz%map_size_empty_inv. by rewrite Hz, lookup_empty in Eo.
  - left. destruct (decide (map_ordered (st_map s) = [])) as [Hn|Hn].
    + apply map_eq. intros i. rewrite lookup_empty. destruct (st_map s !! i) as [g|] eqn:Ei; [|done].
      apply elem_of_map_ordered in Ei. rewrite Hn in Ei. by apply not_elem_of_nil in Ei.
    + apply oldest_some in Hn as [? Hn]. congruence.
Qed.
Lemma reserve_sub incoming newEntry s i g :
  st_map (snd (store_reserve incoming newEntry s)) !! i = Some g -> st_map s !! i = Some g.
Proof. unfold store_reserve. destruct (_ <? _); [done|]. cbn [snd]. apply evict_sub. Qed.
Lemma reserve_spec incoming newEntry s :
  0 < maxCount -> store_ok P s -> 0 <= incoming ->
  let '(ok, s') := store_reserve incoming newEntry s in
  store_ok P s' /\
  (ok = true -> st_bytes s' + incoming <= maxBytes /\
     (newEntry = true -> Z.of_nat (size (st_map s')) < maxCount)) /\
  (incoming <= maxBytes -> ok = true).
Proof using size_nonneg.
  intros Hcount Hs Hi. unfold store_reserve.
  destruct (maxBytes <? incoming) eqn:E; bools; [split_and!; [done|done|lia]|].
  set (s' := evict_loop _ _ _ _).
  assert (store_ok P s') as Hs' by by apply evict_ok.
  split; [done|]. split.
  - intros Hok. bools. split; [lia|]. intros ->. cbn in *. by bools.
  - intros _. destruct (evict_done (size (st_map s)) incoming newEntry s (Nat.le_refl _)) as [He|He];
      fold s' in He.
    + pose proof (so_exact P s' Hs') as Hb. rewrite He in Hb |- *.
      change (map_total size_of ∅) with 0 in Hb. rewrite Hb, (proj2 (Z.leb_le _ _)) by lia.
      rewrite map_size_empty, (proj2 (Z.ltb_lt _ _)) by done. by rewrite orb_true_r.
    + bools. rewrite (proj2 (Z.leb_le _ _)) by lia. rewrite andb_true_r.
      destruct newEntry; [|done]. cbn in *. bools. by apply Z.ltb_lt.
Qed.
(** Nothing is evicted while there is room. *)
Lemma reserve_fits incoming newEntry s :
  0 <= incoming -> st_bytes s + incoming <= maxBytes -> 0 <= st_bytes s ->
  (newEntry = true -> Z.of_nat (size (st_map s)) < maxCount) ->
  store_reserve incoming newEntry s = (true, s).
Proof.
  intros Hi Hb Hz Hc. unfold store_reserve. rewrite (proj2 (Z.ltb_ge _ _)) by lia.
  assert (newEntry && (maxCount <=? Z.of_nat (size (st_map s))) = false) as Hn.
  { destruct newEntry; [|done]. apply Z.leb_gt. by apply Hc. }
  assert (evict_loop (size (st_map s)) incoming newEntry s = s) as ->.
  { destruct (size (st_map s)) eqn:E; [done|]. cbn [evict_loop].
    by rewrite E, Hn, (proj2 (Z.ltb_ge _ _)) by lia. }
  rewrite (proj2 (Z.leb_le _ _)), andb_true_r by lia. f_equal.
  destruct newEntry; [|done]. by apply Z.ltb_lt, Hc.
Qed.

Lemma store_expire_ok timeout now s : store_ok P s -> store_ok P (store_expire timeout now s).
Proof using size_nonneg.
  unfold store_expire. generalize (map fst (filter (fun kv : Z * G =>
    (timeout <? u32 (now - born kv.2)) = true) (map_ordered (st_map s)))).
  intros l. revert s. induction l as [|k l IH]; intros s Hs; cbn [fold_left]; [done|].
  by apply IH, store_remove_ok.
Qed.

(** A new entry without octets, and a new content of an entry. *)
Lemma store_new_ok s k g :
  store_ok P s -> st_map s !! k = None -> size_of g = 0 -> P k g ->
  Z.of_nat (size (st_map s)) < maxCount -> store_ok P (store_set k g s).
Proof.
  intros [H1 H2 H3 H4] Hk Hg HP Hc. constructor; cbn.
  - rewrite map_total_insert by done. lia.
  - done.
  - rewrite map_size_insert, Hk. lia.
  - intros i g'. rewrite lookup_insert_Some. intros [[<- <-]|[_ E]]; [done|by apply H4].
Qed.
Lemma store_grow_ok s k g g' n :
  store_ok P s -> st_map s !! k = Some g -> size_of g' = size_of g + n -> P k g' ->
  st_bytes s + n <= maxBytes ->
  store_ok P (mkStore (<[k := g']> (st_map s)) (st_bytes s + n)).
Proof.
  intros [H1 H2 H3 H4] Hk Hg HP Hb. constructor; cbn.
  - rewrite (map_total_update _ _ _ g) by done. lia.
  - done.
  - by rewrite map_size_insert, Hk.
  - intros i h. rewrite lookup_insert_Some. intros [[<- <-]|[_ E]]; [done|by apply H4].
Qed.

(** The same store, other facts about its entries. *)
Lemma store_ok_entries (Q : Z -> G -> Prop) s :
  store_ok P s -> (forall k g, st_map s !! k = Some g -> Q k g) -> store_ok Q s.
Proof. intros [H1 H2 H3 _] HQ. by constructor. Qed.
(** An entry replaced by one of the same size. *)
Lemma store_set_ok (Q : Z -> G -> Prop) s k g g' :
  store_ok P s -> st_map s !! k = Some g -> size_of g' = size_of g -> Q k g' ->
  (forall i h, i <> k -> st_map s !! i = Some h -> Q i h) -> store_ok Q (store_set k g' s).
Proof.
  intros [H1 H2 H3 H4] Hk Hg HQ Ho. constructor; cbn.
  - rewrite (map_total_update _ _ _ g) by done. lia.
  - done.
  - by rewrite map_size_insert, Hk.
  - intros i h. rewrite lookup_insert_Some. intros [[<- <-]|[Hi E]]; [done|by apply (Ho i)].
Qed.
End Store.

(** ** Counting *)

(** A set of indices below [n] that is as large as [n] has all of them. *)
Lemma full_range (X : gset Z) n :
  (forall i, i ∈ X -> 0 <= i < n) -> n <= Z.of_nat (size X) -> forall i, i ∈ X <-> 0 <= i < n.
Proof.
  intros HX Hn.
  assert (X ⊆ list_to_set (seqZ 0 n)) as Hsub.
  { intros i Hi. rewrite elem_of_list_to_set, elem_of_seqZ. specialize (HX i Hi). lia. }
  assert (size (list_to_set (seqZ 0 n) : gset Z) = Z.to_nat n) as Hsz.
  { rewrite size_list_to_set by apply NoDup_seqZ. apply length_seqZ. }
  assert (X = list_to_set (seqZ 0 n)) as ->.
  { apply set_subseteq_size_eq; [done|]. rewrite Hsz. lia. }
  intros i. rewrite elem_of_list_to_set, elem_of_seqZ. lia.
Qed.
Lemma range_size (X : gset Z) n :
  0 <= n -> (forall i, 0 <= i < n -> i ∈ X) -> n <= Z.of_nat (size X).
Proof.
  intros Hn HX.
  assert (list_to_set (seqZ 0 n) ⊆ X) as Hsub.
  { intros i. rewrite elem_of_list_to_set, elem_of_seqZ. intros Hi. apply HX. lia. }
  apply subseteq_size in Hsub. rewrite size_list_to_set in Hsub by apply NoDup_seqZ.
  rewrite length_seqZ in Hsub. lia.
Qed.
Lemma map_total_le {A} (f : A -> Z) (m : gmap Z A) B :
  (forall i x, m !! i = Some x -> f x <= B) -> map_total f m <= B * Z.of_nat (size m).
Proof.
  induction m as [|i x m Hi IH] using map_ind; intros Hf.
  - rewrite map_size_empty. change (map_total f ∅) with 0. lia.
  - rewrite map_total_insert, map_size_insert, Hi by done.
    pose proof (Hf i x (lookup_insert_eq _ _ _)).
    assert (map_total f m <= B * Z.of_nat (size m)); [|lia]. apply IH. intros j y Hj.
    apply (Hf j). rewrite lookup_insert_ne; [done|congruence].
Qed.

(** ** Operations with outputs

    The tunnels of the clients call back into their owner: they send
    datagrams, deliver packets and report a dead peer.  An operation of this
    kind is a function of the state that yields the list of its outputs, in
    order, and the new state; the small vocabulary to compose them and the
    rules for invariants over them. *)

Section Emit.
Context {O T : Type}.

Definition and_then (r : list O * T) (f : T -> list O * T) : list O * T :=
  let '(out, t) := r in let '(more, t) := f t in (out ++ more, t).
(** A loop over [l], the outputs of its turns in order. *)
Fixpoint emit_all {A} (f : A -> T -> list O * T) (l : list A) (t : T) : list O * T :=
  match l with
  | [] => ([], t)
  | a :: l => and_then (f a t) (emit_all f l)
  end.

(** [I] holds after the operation, and [Q] of every output. *)
Definition emits (I : T -> Prop) (Q : O -> Prop) (r : list O * T) : Prop :=
  Forall Q (fst r) /\ I (snd r).

Lemma emits_then I Q r f :
  emits I Q r -> (forall t, I t -> emits I Q (f t)) -> emits I Q (and_then r f).
Proof.
  destruct r as [out t]. intros [H1 H2] Hf. cbn in *. destruct (Hf t H2) as [H3 H4].
  unfold and_then. destruct (f t) as [more t']. split; [|done]. by apply Forall_app.
Qed.
Lemma emits_all {A} I Q (f : A -> T -> list O * T) l t :
  I t -> (forall a t, a ∈ l -> I t -> emits I Q (f a t)) -> emits I Q (emit_all f l t).
Proof.
  revert t. induction l as [|a l IH]; intros t Ht Hf; [by split|]. cbn [emit_all].
  apply emits_then; [by apply Hf; [left|]|]. intros t' Ht'. apply IH; [done|].
  intros b t'' Hb. apply Hf. by right.
Qed.
Lemma emit_all_app {A} (f : A -> T -> list O * T) l k t :
  emit_all f (l ++ k) t = and_then (emit_all f l t) (emit_all f k).
Proof.
  revert t. induction l as [|a l IH]; intros t; cbn [app emit_all and_then].
  - by destruct (emit_all f k t).
  - destruct (f a t) as [o t']. cbn [and_then]. rewrite IH. destruct (emit_all f l t') as [o' t''].
    cbn [and_then]. destruct (emit_all f k t''). by rewrite app_assoc.
Qed.
Lemma emit_all_ext {A} (f g : A -> T -> list O * T) l t :
  (forall a t, a ∈ l -> f a t = g a t) -> emit_all f l t = emit_all g l t.
Proof.
  revert t. induction l as [|a l IH]; intros t Hl; cbn [emit_all]; [done|].
  rewrite (Hl a t) by left. unfold and_then. destruct (g a t) as [o t'].
  rewrite IH; [done|]. intros b t'' Hb. apply Hl. by right.
Qed.
End Emit.
