(* ===== verification/Fec.v ===== *)
(** * [client-cli/src/cli_fec.cpp]: forward error correction

    The encoder groups up to ten payloads, pads them to one block size and
    adds the recovery blocks of the vendored CM256 library; the decoder
    rebuilds a group from any sufficient subset, within fixed memory limits.
    Output callbacks are the list of emitted packets.  [CM256] is third-party
    code: the two entry points are parameters. *)

From S2P Require Import Prelude Protocol Room Store.

(** [encode N M blockBytes originals]: the result code and the recovery
    buffer; [decode N M blockBytes blocks]: the result code and the blocks
    with the recovered ones replaced, indices updated. *)
Class CM256 := {
  cm256_encode : Z -> Z -> Z -> list bytes -> Z * bytes;
  cm256_decode : Z -> Z -> Z -> list (Z * bytes) -> Z * list (Z * bytes)
}.

(** Block [k] of a code word: an original, or a slice of the recovery buffer. *)
Definition code_block (N bb : Z) (originals : list bytes) (recovery : bytes) (k : Z) : bytes :=
  if k <? N then nth (Z.to_nat k) originals [] else slice ((k - N) * bb) bb recovery.

(** What [cm256.h] documents: any [N] distinct blocks of a successful encoding
    can be decoded, to the original blocks under their indices. *)
Class CM256Laws `{CM256} := {
  cm_size : forall N M bb originals recovery,
    cm256_encode N M bb originals = (0, recovery) -> len recovery = M * bb;
  cm_mds : forall N M bb originals recovery blocks,
    0 < N -> 0 < M -> N + M <= 256 -> 0 < bb ->
    len originals = N -> Forall (fun o => len o = bb) originals ->
    cm256_encode N M bb originals = (0, recovery) ->
    len blocks = N -> NoDup blocks.*1 ->
    (forall k b, (k, b) ∈ blocks -> 0 <= k < N + M /\ b = code_block N bb originals recovery k) ->
    exists blocks', cm256_decode N M bb blocks = (0, blocks') /\ NoDup blocks'.*1 /\
      forall i o, originals !! i = Some o -> (Z.of_nat i, o) ∈ blocks'
}.

Section Fec.
Context `{CM256}.

(** ** [class CliFecEncoder] *)

Record FecEncoder := mkEncoder {
  fe_mode : FecMode;
  fe_groupId : Z;
  fe_maxBlockSize : Z;
  fe_bufferStartTime : Z;
  fe_buffer : list bytes
}.
Definition FecEncoder_init (mode : FecMode) : FecEncoder := mkEncoder mode 0 0 0 [].

Definition fec_header (gid idx dataCount totalCount : Z) : bytes :=
  [gid; idx; dataCount; totalCount].
(** Length prefix, payload, zero padding up to [blockBytes]. *)
Definition fec_pad (blockBytes : Z) (payload : bytes) : bytes :=
  be_bytes 2 (u16 (len payload)) ++ payload ++ replicate (Z.to_nat (blockBytes - 2 - len payload)) 0.

Definition enc_flush (e : FecEncoder) : list bytes * FecEncoder :=
  if bool_decide (fe_buffer e = []) then ([], e) else
  let N := len (fe_buffer e) in
  let M := fecParityCount (fe_mode e) N in
  let M := if M <=? 0 then 1 else M in
  let blockBytes := 2 + fe_maxBlockSize e in
  let padded := map (fec_pad blockBytes) (fe_buffer e) in
  let '(encResult, recovery) := cm256_encode N M blockBytes padded in
  let gid := fe_groupId e in
  let totalCount := if encResult =? 0 then u8 (N + M) else u8 N in
  let data := imap (fun i block => fec_header gid (u8 (Z.of_nat i)) (u8 N) totalCount ++ block) padded in
  let parity := if encResult =? 0
    then map (fun i => fec_header gid (u8 (N + i)) (u8 N) (u8 (N + M)) ++
                       slice (i * blockBytes) blockBytes recovery) (seqZ 0 M)
    else [] in
  (data ++ parity, mkEncoder (fe_mode e) (u8 (gid + 1)) 0 (fe_bufferStartTime e) []).

Definition enc_addPacket (now : Z) (payload : bytes) (e : FecEncoder) : list bytes * FecEncoder :=
  let start := if bool_decide (fe_buffer e = []) then now else fe_bufferStartTime e in
  let maxBlock := if fe_maxBlockSize e <? len payload then len payload else fe_maxBlockSize e in
  let e := mkEncoder (fe_mode e) (fe_groupId e) maxBlock start (fe_buffer e ++ [payload]) in
  if FEC_GROUP_SIZE <=? len (fe_buffer e) then enc_flush e else ([], e).
Definition enc_update (e : FecEncoder) : list bytes * FecEncoder :=
  if bool_decide (fe_buffer e = []) then ([], e) else enc_flush e.

(** ** [class CliFecDecoder] *)

Record FecGroup := mkGroup {
  g_dataCount : Z;
  g_totalCount : Z;
  g_blockBytes : Z;
  g_createTime : Z;
  g_decoded : bool;
  g_blocks : gmap Z bytes;
  g_emitted : gset Z
}.
Definition set_g_decoded (v : bool) (g : FecGroup) : FecGroup :=
  mkGroup (g_dataCount g) (g_totalCount g) (g_blockBytes g) (g_createTime g) v (g_blocks g) (g_emitted g).
(** [m_groups] with [m_bufferedBytes]. *)
Definition FecDecoder : Type := Store FecGroup.
Definition FecDecoder_init : FecDecoder := store_empty.
Definition GROUP_TIMEOUT_MS : Z := 500.

(** The payload of a block: nothing when its length is 0 or does not fit. *)
Definition block_payload (size : Z) (block : bytes) : list bytes :=
  let payloadLen := Z.lor (Z.shiftl (byte_at block 0) 8) (byte_at block 1) in
  if (0 <? payloadLen) && (2 + payloadLen <=? size) then [slice 2 payloadLen block] else [].
Definition emitOriginalBlock (block : bytes) : list bytes :=
  if len block <? 2 then [] else block_payload (len block) block.

Definition blocks_size (blocks : gmap Z bytes) : Z := map_total len blocks.
Definition group_size (g : FecGroup) : Z := blocks_size (g_blocks g).
Definition removeGroup (gid : Z) (d : FecDecoder) : FecDecoder := store_remove group_size gid d.
Definition ensureCapacity (incoming : Z) (newGroup : bool) (d : FecDecoder) : bool * FecDecoder :=
  store_reserve group_size g_createTime FEC_MAX_BUFFERED_BYTES FEC_MAX_ACTIVE_GROUPS incoming newGroup d.

Definition pad_to (n : Z) (block : bytes) : bytes :=
  if len block <? n then block ++ replicate (Z.to_nat (n - len block)) 0 else block.
Definition tryDecode (gid : Z) (d : FecDecoder) : list bytes * FecDecoder :=
  match st_map d !! gid with
  | None => ([], d)
  | Some g =>
      if g_decoded g then ([], d) else
      let N := g_dataCount g in
      let blockBytes := g_blockBytes g in
      let done := store_set gid (set_g_decoded true g) d in
      if N <=? Z.of_nat (size (g_emitted g)) then ([], done) else
      let M := g_totalCount g - N in
      let blocks := map (fun '(k, b) => (k, pad_to blockBytes b))
                      (take (Z.to_nat N) (map_ordered (g_blocks g))) in
      if len blocks <? N then ([], d) else
      let '(decResult, blocks) := cm256_decode N M blockBytes blocks in
      if negb (decResult =? 0) then ([], done) else
      let origMap := fold_left (fun m kb => <[kb.1 := kb.2]> m) blocks (∅ : gmap Z bytes) in
      (concat (map (fun i =>
         if decide (i ∈ g_emitted g) then [] else
         match origMap !! i with
         | None => []
         | Some blk => block_payload blockBytes blk
         end) (seqZ 0 N)), done)
  end.

(** The part of [addPacket] after the group is known to exist. *)
Definition add_block (gid idx N : Z) (block : bytes) (d : FecDecoder) : list bytes * FecDecoder :=
  let finish out d :=
    match st_map d !! gid with
    | None => (out, d)
    | Some g => if g_dataCount g <=? Z.of_nat (size (g_blocks g))
                then let '(more, d) := tryDecode gid d in (out ++ more, d) else (out, d)
    end in
  match st_map d !! gid with
  | None => ([], d)
  | Some g =>
      if g_decoded g then ([], d) else
      match g_blocks g !! idx with
      | Some _ => finish [] d
      | None =>
          let '(ok, d) := ensureCapacity (len block) false d in
          if negb ok then ([], d) else
          match st_map d !! gid with
          | None => ([], d)
          | Some g =>
              let original := idx <? N in
              let g := mkGroup (g_dataCount g) (g_totalCount g) (g_blockBytes g) (g_createTime g)
                         (g_decoded g) (<[idx := block]> (g_blocks g))
                         (if original then {[idx]} ∪ g_emitted g else g_emitted g) in
              let d := mkStore (<[gid := g]> (st_map d)) (st_bytes d + len block) in
              finish (if original then emitOriginalBlock block else []) d
          end
      end
  end.
Definition dec_addPacket (now : Z) (data : bytes) (d : FecDecoder) : list bytes * FecDecoder :=
  if len data <? sizeof_FecHeader then ([], d) else
  let gid := byte_at data 0 in
  let idx := byte_at data 1 in
  let N := byte_at data 2 in
  let total := byte_at data 3 in
  if (N <? 1) || (10 <? N) || (total <? N) || (3 * N <? total) || (total <=? idx) then ([], d) else
  let block := drop (Z.to_nat sizeof_FecHeader) data in
  let blockLen := len data - sizeof_FecHeader in
  if blockLen <=? 0 then ([], d) else
  match st_map d !! gid with
  | Some g =>
      if negb (g_dataCount g =? N) || negb (g_totalCount g =? total) || negb (g_blockBytes g =? blockLen)
      then ([], removeGroup gid d)
      else add_block gid idx N block d
  | None =>
      let '(ok, d) := ensureCapacity blockLen true d in
      if negb ok then ([], d) else
      add_block gid idx N block
        (store_set gid (mkGroup N total blockLen now false ∅ ∅) d)
  end.

Definition dec_cleanup (nowMs : Z) (d : FecDecoder) : FecDecoder :=
  store_expire group_size g_createTime GROUP_TIMEOUT_MS nowMs d.
End Fec.
