(* ===== verification/FecFacts.v ===== *)
(** * What the forward error correction guarantees

    The decoder's memory is bounded and exactly accounted for whatever
    packets arrive; a group of which enough packets arrive is delivered
    completely, each payload once. *)

From S2P Require Import Prelude Protocol Room RoomFacts Store Fec.

Section Bounded.
Context `{CM256}.

(** A group holds blocks of its size under indices of its code word, has
    delivered exactly the originals among them, and is not full unless done. *)
Record group_ok (g : FecGroup) : Prop := mkGroupOk {
  go_N : 1 <= g_dataCount g <= 10;
  go_total : g_dataCount g <= g_totalCount g <= 3 * g_dataCount g;
  go_bb : 0 < g_blockBytes g;
  go_blocks : forall k b, g_blocks g !! k = Some b -> 0 <= k < g_totalCount g /\ len b = g_blockBytes g;
  go_emitted : forall k, k ∈ g_emitted g <-> is_Some (g_blocks g !! k) /\ k < g_dataCount g;
  go_open : g_decoded g = false -> Z.of_nat (size (g_blocks g)) < g_dataCount g
}.
Definition dec_ok (d : FecDecoder) : Prop :=
  store_ok group_size FEC_MAX_BUFFERED_BYTES FEC_MAX_ACTIVE_GROUPS (fun _ => group_ok) d.

Lemma blocks_size_nonneg blocks : 0 <= blocks_size blocks.
Proof. apply map_total_nonneg. intros. apply len_nonneg. Qed.
Lemma group_size_nonneg g : 0 <= group_size g.
Proof. apply blocks_size_nonneg. Qed.
Lemma dec_init_ok : dec_ok FecDecoder_init.
Proof. by apply store_empty_ok. Qed.
Lemma ensure_spec incoming newGroup d :
  dec_ok d -> 0 <= incoming ->
  let '(ok, d') := ensureCapacity incoming newGroup d in
  dec_ok d' /\
  (ok = true -> st_bytes d' + incoming <= FEC_MAX_BUFFERED_BYTES /\
     (newGroup = true -> Z.of_nat (size (st_map d')) < FEC_MAX_ACTIVE_GROUPS)) /\
  (incoming <= FEC_MAX_BUFFERED_BYTES -> ok = true).
Proof. intros Hd Hi. by apply (reserve_spec _ _ _ _ _ group_size_nonneg). Qed.

(** The group [gid] may be full but not yet decoded. *)
Definition filling (gid : Z) (d : FecDecoder) : Prop :=
  store_ok group_size FEC_MAX_BUFFERED_BYTES FEC_MAX_ACTIVE_GROUPS (fun i g =>
    group_ok g \/ (i = gid /\ group_ok (set_g_decoded true g) /\
                   Z.of_nat (size (g_blocks g)) = g_dataCount g)) d.
Lemma filling_of_ok gid d : dec_ok d -> filling gid d.
Proof. intros Hd. apply (store_ok_entries _ _ _ _ _ _ Hd). intros i g E. left. by apply (so_entry _ _ _ _ _ Hd i). Qed.
Lemma group_ok_decoded g : group_ok g -> group_ok (set_g_decoded true g).
Proof. intros [H1 H2 H3 H4 H5 H6]. by constructor. Qed.

Lemma tryDecode_ok gid d : filling gid d -> dec_ok (snd (tryDecode gid d)).
Proof.
  intros Hf. pose proof (so_entry _ _ _ _ _ Hf) as H4. cbv beta in H4.
  assert (forall g, st_map d !! gid = Some g ->
    dec_ok (store_set gid (set_g_decoded true g) d)) as Hdone.
  { intros g Hg. apply (store_set_ok _ _ _ _ _ _ _ _ _ Hf Hg); [done| |].
    - destruct (H4 gid g Hg) as [?|(_ & ? & _)]; [by apply group_ok_decoded|done].
    - intros i h Hi E. by destruct (H4 i h E) as [?|(-> & _)]. }
  assert ((forall g, st_map d !! gid = Some g -> group_ok g) -> dec_ok d) as Hsame.
  { intros Hg. apply (store_ok_entries _ _ _ _ _ _ Hf). intros i g E.
    destruct (H4 i g E) as [?|(-> & _)]; auto. }
  unfold tryDecode. destruct (st_map d !! gid) as [g|] eqn:Hg; [|by apply Hsame].
  destruct (g_decoded g) eqn:Hdec.
  { apply Hsame. intros g' [= <-]. destruct (H4 gid g Hg) as [?|(_ & Ho & _)]; [done|].
    destruct Ho; by constructor; try done; rewrite Hdec. }
  cbv zeta. destruct (_ <=? _); [by apply Hdone|]. destruct (len _ <? _) eqn:El.
  - apply Hsame. intros g' [= <-]. destruct (H4 gid g Hg) as [?|(_ & Ho & Hs)]; [done|].
    exfalso. bools. unfold len in El. rewrite length_map, length_take in El.
    rewrite (Permutation_length (map_ordered_perm _)), length_map_to_list in El. lia.
  - destruct (cm256_decode _ _ _ _) as [r bs]. destruct (negb _); by apply Hdone.
Qed.

Lemma store_filling gid g idx N block d :
  dec_ok d -> st_map d !! gid = Some g -> g_decoded g = false -> g_blocks g !! idx = None ->
  g_dataCount g = N -> 0 <= idx < g_totalCount g -> len block = g_blockBytes g ->
  st_bytes d + len block <= FEC_MAX_BUFFERED_BYTES ->
  filling gid (mkStore
    (<[gid := mkGroup (g_dataCount g) (g_totalCount g) (g_blockBytes g) (g_createTime g)
                (g_decoded g) (<[idx := block]> (g_blocks g))
                (if idx <? N then {[idx]} ∪ g_emitted g else g_emitted g)]> (st_map d))
    (st_bytes d + len block)).
Proof.
  intros Hd Hg Hdec Hi HN Hidx Hlen Hcap.
  destruct (so_entry _ _ _ _ _ Hd gid g Hg) as [G1 G2 G3 G4 G5 G6]. specialize (G6 Hdec).
  apply (store_grow_ok _ _ _ _ _ _ g _ (len block)
    (store_ok_entries _ _ _ _ _ _ Hd (fun i h E => or_introl (so_entry _ _ _ _ _ Hd i h E)))); try done.
  - unfold group_size, blocks_size. cbn. rewrite map_total_insert by done. lia.
  - assert (forall dec, Z.of_nat (size (<[idx := block]> (g_blocks g))) < g_dataCount g \/ dec = true ->
      group_ok (mkGroup (g_dataCount g) (g_totalCount g) (g_blockBytes g) (g_createTime g) dec
        (<[idx := block]> (g_blocks g)) (if idx <? N then {[idx]} ∪ g_emitted g else g_emitted g))) as Hok.
    { intros dec Hsz. constructor; cbn; try done.
      - intros k b. rewrite lookup_insert_Some. intros [[<- <-]|[_ E]]; [done|by apply G4].
      - intros k. rewrite lookup_insert_is_Some', HN.
        destruct (Z.ltb_spec idx N); rewrite ?elem_of_union, ?elem_of_singleton, G5, HN;
          destruct (decide (k = idx)) as [->|]; intuition (first [lia|congruence|eauto]).
      - intros ->. by destruct Hsz. }
    rewrite map_size_insert, Hi in *.
    destruct (decide (Z.of_nat (S (size (g_blocks g))) < g_dataCount g)) as [Hlt|Hge].
    + left. rewrite Hdec. apply Hok. by left.
    + right. split; [done|]. split; [apply (Hok true); by right|]. cbn.
      rewrite map_size_insert, Hi. lia.
Qed.

Lemma add_block_ok gid idx N block d :
  dec_ok d -> (forall g, st_map d !! gid = Some g -> g_dataCount g = N /\
    0 <= idx < g_totalCount g /\ len block = g_blockBytes g) ->
  dec_ok (snd (add_block gid idx N block d)).
Proof.
  intros Hd Hmatch. unfold add_block.
  assert (forall out d, filling gid d -> dec_ok (snd (match st_map d !! gid with
    | None => (out, d)
    | Some g => if g_dataCount g <=? Z.of_nat (size (g_blocks g))
                then let '(more, d) := tryDecode gid d in (out ++ more, d) else (out, d)
    end))) as Hfinish.
  { intros out d' Hf. assert (dec_ok (snd (tryDecode gid d'))) as Ht by by apply tryDecode_ok.
    destruct (st_map d' !! gid) as [g|] eqn:Hg.
    - destruct (_ <=? _) eqn:El; [by destruct (tryDecode gid d')|].
      apply (store_ok_entries _ _ _ _ _ _ Hf). intros i g' E.
      destruct (so_entry _ _ _ _ _ Hf i g' E) as [?|(-> & _ & Hs)]; [done|]. bools.
      assert (g' = g) as -> by congruence. lia.
    - apply (store_ok_entries _ _ _ _ _ _ Hf). intros i g' E.
      destruct (so_entry _ _ _ _ _ Hf i g' E) as [?|(-> & _)]; [done|congruence]. }
  destruct (st_map d !! gid) as [g|] eqn:Hg; [|done].
  destruct (g_decoded g) eqn:Hdec; [done|].
  destruct (g_blocks g !! idx) as [b|] eqn:Hi.
  { specialize (Hfinish [] d (filling_of_ok gid d Hd)). rewrite Hg in Hfinish. exact Hfinish. }
  pose proof (ensure_spec (len block) false d Hd (len_nonneg block)) as He.
  assert (forall i g, st_map (snd (ensureCapacity (len block) false d)) !! i = Some g ->
    st_map d !! i = Some g) as Hsub by (intros; by eapply reserve_sub).
  destruct (ensureCapacity (len block) false d) as [ok d'].
  destruct He as (He1 & He2 & _). cbn [snd] in Hsub. destruct ok; [|done]. cbn [negb].
  destruct (st_map d' !! gid) as [g'|] eqn:Hg'; [|done]. apply Hfinish.
  pose proof (Hsub gid g' Hg') as E. rewrite Hg in E. injection E as <-.
  destruct (Hmatch g eq_refl) as (M1 & M2 & M3). destruct (He2 eq_refl) as [Hcap _].
  by apply (store_filling gid g idx N block d').
Qed.

Lemma dec_addPacket_ok now data d : bytes_ok data -> dec_ok d -> dec_ok (snd (dec_addPacket now data d)).
Proof.
  intros Hb Hd. unfold dec_addPacket. destruct (len data <? sizeof_FecHeader) eqn:El; [done|].
  cbv zeta. pose proof (byte_at_ok data 1 Hb) as B1. pose proof (byte_at_ok data 2 Hb) as B2.
  pose proof (byte_at_ok data 3 Hb) as B3. unfold is_byte in *.
  set (gid := byte_at data 0). set (idx := byte_at data 1) in *.
  set (N := byte_at data 2) in *. set (total := byte_at data 3) in *.
  destruct (_ || (total <=? idx)) eqn:Ev; [done|].
  destruct (len data - sizeof_FecHeader <=? 0) eqn:E0; [done|]. bools.
  assert (len (drop (Z.to_nat sizeof_FecHeader) data) = len data - sizeof_FecHeader) as Elen.
  { unfold len, sizeof_FecHeader in *. rewrite length_drop. lia. }
  destruct (st_map d !! gid) as [g|] eqn:Hg.
  - destruct (_ || negb (g_blockBytes g =? _)) eqn:Em; [by apply (store_remove_ok _ _ _ _ group_size_nonneg)|].
    apply add_block_ok; [done|]. intros g' E. assert (g' = g) as -> by congruence. bools.
    split; [done|]. split; [lia|]. rewrite Elen. done.
  - pose proof (ensure_spec (len data - sizeof_FecHeader) true d Hd ltac:(lia)) as He.
    pose proof (reserve_sub group_size g_createTime FEC_MAX_BUFFERED_BYTES FEC_MAX_ACTIVE_GROUPS
      (len data - sizeof_FecHeader) true d) as Hsub. fold (ensureCapacity (len data - sizeof_FecHeader) true d) in Hsub.
    destruct (ensureCapacity _ true d) as [ok d']. destruct He as (He1 & He2 & _).
    cbn [snd] in Hsub. destruct ok; [|done]. cbn [negb]. destruct (He2 eq_refl) as [Hcap Hn].
    assert (st_map d' !! gid = None) as Hnone.
    { destruct (st_map d' !! gid) as [g'|] eqn:E; [|done]. apply Hsub in E. congruence. }
    apply add_block_ok.
    + apply store_new_ok; try done; [|by apply Hn].
      constructor; cbn; [lia|lia|lia|done| |].
      * intros k. rewrite lookup_empty. split; [set_solver|intros [[? [=]] _]].
      * intros _. rewrite map_size_empty. lia.
    + cbn. intros g'. rewrite lookup_insert_eq. intros [= <-]. cbn.
      split; [done|]. split; [lia|exact Elen].
Qed.
Lemma dec_cleanup_ok now d : dec_ok d -> dec_ok (dec_cleanup now d).
Proof. apply store_expire_ok, group_size_nonneg. Qed.

(** What can happen to a decoder. *)
Inductive DecEvent := PacketAt (now : Z) (data : bytes) | CleanupAt (now : Z).
Definition dec_run (es : list DecEvent) (d : FecDecoder) : FecDecoder :=
  fold_left (fun d e => match e with
    | PacketAt now data => snd (dec_addPacket now data d)
    | CleanupAt now => dec_cleanup now d
    end) es d.

(** Bounded memory.  Whatever packets arrive, at whatever times: the
    decoder's byte counter is exactly the octets it stores, at most 256 KiB;
    it holds at most 32 groups, each with fewer blocks than it needs until it
    is decoded; and making room for a block within the limit never fails. *)
Theorem fec_decoder_bounded es :
  (forall now data, PacketAt now data ∈ es -> bytes_ok data) ->
  let d := dec_run es FecDecoder_init in
  st_bytes d = map_total group_size (st_map d) /\
  st_bytes d <= FEC_MAX_BUFFERED_BYTES /\
  Z.of_nat (size (st_map d)) <= FEC_MAX_ACTIVE_GROUPS /\
  (forall gid g, st_map d !! gid = Some g -> g_decoded g = false ->
     Z.of_nat (size (g_blocks g)) < g_dataCount g) /\
  (forall incoming newGroup, 0 <= incoming <= FEC_MAX_BUFFERED_BYTES ->
     fst (ensureCapacity incoming newGroup d) = true).
Proof.
  intros Hes. cbv zeta.
  assert (dec_ok (dec_run es FecDecoder_init)) as Hd.
  { pose proof dec_init_ok as H0.
    revert H0 Hes. generalize FecDecoder_init. induction es as [|e es IH]; intros d Hd Hes; [done|].
    cbn [dec_run fold_left]. apply IH; [|intros; eapply Hes; by right].
    destruct e as [now data|now]; [|by apply dec_cleanup_ok].
    apply dec_addPacket_ok; [|done]. apply (Hes now). by left. }
  set (d := dec_run es FecDecoder_init) in *. destruct (Hd) as [H1 H2 H3 H4].
  split_and!; try done; [intros gid g Hg; by apply (H4 gid g Hg)|].
  intros incoming newGroup Hi. pose proof (ensure_spec incoming newGroup d Hd ltac:(lia)) as He.
  destruct (ensureCapacity incoming newGroup d) as [ok d']. destruct He as (_ & _ & He).
  apply He. lia.
Qed.
End Bounded.

(** ** Recovery *)

(** [m[k] = v] over a list of distinct keys. *)
Lemma fold_insert_lookup {A} (l : list (Z * A)) (m : gmap Z A) i x :
  NoDup l.*1 -> ((i, x) ∈ l) \/ ((i ∉ l.*1) /\ m !! i = Some x) ->
  fold_left (fun m kv => <[kv.1 := kv.2]> m) l m !! i = Some x.
Proof.
  revert m. induction l as [|[k v] l IH]; intros m Hnd Hin; cbn [fold_left].
  { destruct Hin as [Hin|[_ ?]]; [by apply not_elem_of_nil in Hin|done]. }
  cbn in Hnd. apply NoDup_cons in Hnd as [Hk Hnd]. apply IH; [done|]. cbn.
  destruct Hin as [[[= -> ->]|Hin]%elem_of_cons|[Hi Hm]].
  - right. split; [exact Hk|apply lookup_insert_eq].
  - by left.
  - cbn in Hi. apply not_elem_of_cons in Hi as [Hne Hi]. right. split; [done|].
    by rewrite lookup_insert_ne.
Qed.

Section Recovery.
Context `{CM256Laws}.

(** The encoder's state: up to ten payloads that have a length prefix, and
    their largest size. *)
Record enc_ok (e : FecEncoder) : Prop := mkEncOk {
  eo_gid : is_byte (fe_groupId e);
  eo_count : len (fe_buffer e) <= FEC_GROUP_SIZE;
  eo_max : forall p, p ∈ fe_buffer e -> 1 <= len p <= fe_maxBlockSize e;
  eo_size : 0 <= fe_maxBlockSize e < 65534
}.
Lemma enc_flush_ok e : enc_ok e -> enc_ok (snd (enc_flush e)).
Proof.
  intros He. unfold enc_flush. destruct (bool_decide _); [exact He|].
  cbv zeta. destruct (cm256_encode _ _ _ _). cbn [snd]. constructor; cbn; [|done| |lia].
  - unfold u8, is_byte. by apply Z.mod_pos_bound.
  - intros p Hin. by apply not_elem_of_nil in Hin.
Qed.
Lemma len_fec_pad bb p : 2 + len p <= bb -> len (fec_pad bb p) = bb.
Proof.
  intros Hb. unfold fec_pad. rewrite !len_app, len_be_bytes. pose proof (len_nonneg p).
  unfold len at 2. rewrite length_replicate. lia.
Qed.
Lemma block_payload_pad bb p :
  1 <= len p < 65536 -> 2 + len p <= bb -> block_payload bb (fec_pad bb p) = [p].
Proof.
  intros Hp Hb. unfold block_payload.
  assert (Z.lor (Z.shiftl (byte_at (fec_pad bb p) 0) 8) (byte_at (fec_pad bb p) 1) = len p) as ->.
  { change (be_value (be_bytes 2 (u16 (len p))) = len p).
    unfold u16. rewrite Z.mod_small by lia. apply be_value_small.
    change (256 ^ Z.of_nat 2) with 65536. lia. }
  rewrite (proj2 (Z.ltb_lt _ _)), (proj2 (Z.leb_le _ _)) by lia. cbn [andb]. f_equal.
  unfold fec_pad. by apply slice_mid.
Qed.

(** One group: [ps] the payloads, [bb] the block size, [B k] block [k], [T]
    the number of blocks sent. *)
Context (ps : list bytes) (bb gid M : Z) (recovery : bytes) (ok : bool).
Let N := len ps.
Let originals := map (fec_pad bb) ps.
Let B (k : Z) := code_block N bb originals recovery k.
Let T := if ok then N + M else N.
Context (Hgid : is_byte gid) (HN : 1 <= N <= 10) (HM : 1 <= M <= 2 * N)
  (Hps : forall p, p ∈ ps -> 1 <= len p < 65534 /\ 2 + len p <= bb)
  (Henc : ok = true -> cm256_encode N M bb originals = (0, recovery))
  (Hcap : T * bb <= FEC_MAX_BUFFERED_BYTES).

Definition payload (i : Z) : bytes := nth (Z.to_nat i) ps [].
Definition packet (k : Z) : bytes := fec_header gid k N T ++ B k.

Lemma payload_in i : 0 <= i < N -> payload i ∈ ps.
Proof.
  intros Hi. unfold payload, N, len in *. rewrite nth_lookup.
  destruct (ps !! Z.to_nat i) as [p|] eqn:E; [by eapply list_elem_of_lookup_2|].
  apply lookup_ge_None in E. lia.
Qed.
Lemma original_block i : 0 <= i < N -> B i = fec_pad bb (payload i).
Proof.
  intros Hi. unfold B, code_block. rewrite (proj2 (Z.ltb_lt _ _)) by lia.
  unfold originals, payload, N, len in *. rewrite (nth_indep _ [] (fec_pad bb [])); [apply map_nth|].
  rewrite length_map. lia.
Qed.
Lemma bb_pos : 3 <= bb.
Proof. destruct (Hps (payload 0)) as [? ?]; [apply payload_in; lia|lia]. Qed.
Lemma len_originals : len originals = N.
Proof. unfold originals, N, len. by rewrite length_map. Qed.
Lemma sizes_originals : Forall (fun o => len o = bb) originals.
Proof.
  unfold originals. apply Forall_fmap, Forall_forall. intros p Hp. cbn.
  apply len_fec_pad. by apply Hps.
Qed.
Lemma len_block k : 0 <= k < T -> len (B k) = bb.
Proof.
  intros Hk. pose proof bb_pos. destruct (Z.lt_ge_cases k N) as [Hlt|Hge].
  - rewrite original_block by lia. apply len_fec_pad, Hps, payload_in. lia.
  - unfold T in Hk. destruct ok; [|lia]. unfold B, code_block.
    rewrite (proj2 (Z.ltb_ge _ _)) by lia. apply len_slice; [nia|lia|].
    rewrite (cm_size _ _ _ _ _ (Henc eq_refl)). nia.
Qed.
Lemma emit_block i : 0 <= i < N -> emitOriginalBlock (B i) = [payload i].
Proof.
  intros Hi. pose proof bb_pos. unfold emitOriginalBlock.
  rewrite len_block by (unfold T; destruct ok; lia).
  rewrite (proj2 (Z.ltb_ge _ _)) by lia. rewrite original_block by done.
  destruct (Hps (payload i)) as [? ?]; [by apply payload_in|]. apply block_payload_pad; lia.
Qed.

(** The payloads with indices in [X]. *)
Definition payloads (X : gset Z) : list bytes := map payload (elements X).
Definition data_part (X : gset Z) : gset Z := filter (fun k => k < N) X.

(** The decoder has received exactly the blocks [S] of the group, not enough. *)
Definition holds (S : gset Z) (g : FecGroup) : Prop :=
  g_dataCount g = N /\ g_totalCount g = T /\ g_blockBytes g = bb /\ g_decoded g = false /\
  (forall k, g_blocks g !! k = if decide (k ∈ S) then Some (B k) else None) /\
  g_emitted g = data_part S.
Inductive progress (S : gset Z) (out : list bytes) (d : FecDecoder) : Prop :=
  | progress_open :
      Z.of_nat (size S) < N -> out ≡ₚ payloads (data_part S) ->
      st_bytes d = bb * Z.of_nat (size S) ->
      (S = ∅ /\ st_map d = ∅ \/
       exists g, st_map d = {[gid := g]} /\ holds S g) -> progress S out d
  | progress_done :
      out ≡ₚ ps ->
      (exists g, st_map d !! gid = Some g /\ g_dataCount g = N /\ g_totalCount g = T /\
         g_blockBytes g = bb /\ g_decoded g = true) -> progress S out d.

Lemma payloads_all X : (forall i, i ∈ X <-> 0 <= i < N) -> payloads X ≡ₚ ps.
Proof.
  intros HX. unfold payloads.
  assert (elements X ≡ₚ seqZ 0 N) as ->.
  { apply NoDup_Permutation; [apply NoDup_elements|apply NoDup_seqZ|].
    intros i. rewrite elem_of_elements, elem_of_seqZ, HX. lia. }
  apply reflexive_eq. apply list_eq. intros i. rewrite list_lookup_fmap.
  unfold seqZ. rewrite list_lookup_fmap. unfold payload, N, len. rewrite Nat2Z.id.
  destruct (decide (i < length ps)%nat).
  - rewrite lookup_seq_lt by done. cbn. rewrite nth_lookup.
    replace (Z.to_nat (Z.of_nat i + 0)) with i by lia.
    destruct (ps !! i) eqn:E; [done|]. apply lookup_ge_None in E. lia.
  - rewrite lookup_seq_ge by lia. cbn. symmetry. apply lookup_ge_None. lia.
Qed.
Lemma payloads_add X k : k ∉ X -> payloads ({[k]} ∪ X) ≡ₚ payload k :: payloads X.
Proof. intros Hk. unfold payloads. by rewrite elements_union_singleton. Qed.
Lemma data_part_add X k :
  data_part ({[k]} ∪ X) = if k <? N then {[k]} ∪ data_part X else data_part X.
Proof.
  apply set_eq. intros i. unfold data_part. destruct (Z.ltb_spec k N);
    rewrite ?elem_of_union, !elem_of_filter, !elem_of_union, ?elem_of_singleton; intuition lia.
Qed.
Lemma packet_fields k :
  0 <= k < T ->
  let p := packet k in
  byte_at p 0 = gid /\ byte_at p 1 = k /\ byte_at p 2 = N /\ byte_at p 3 = T /\
  drop (Z.to_nat sizeof_FecHeader) p = B k /\ len p = 4 + bb.
Proof.
  intros Hk. cbv zeta. unfold packet, fec_header. split_and!; try done.
  rewrite len_app, len_block by done. done.
Qed.
Lemma holds_size S g : holds S g -> size (g_blocks g) = size S.
Proof.
  intros (_ & _ & _ & _ & Hb & _). rewrite <- size_dom. f_equal. apply set_eq. intros k.
  rewrite elem_of_dom, Hb. destruct (decide (k ∈ S)); [by split|].
  split; [by intros []|done].
Qed.
Lemma full_data_part S :
  (forall k, k ∈ S -> 0 <= k < T) -> N <= Z.of_nat (size (data_part S)) ->
  forall i, i ∈ data_part S <-> 0 <= i < N.
Proof.
  intros HS. apply full_range. intros i. unfold data_part. rewrite elem_of_filter.
  intros [Hi Hin]. specialize (HS i Hin). lia.
Qed.

Lemma concat_missing (f : Z -> list bytes) (X : gset Z) l :
  (forall i, i ∈ l -> i ∉ X -> f i = [payload i]) ->
  concat (map (fun i => if decide (i ∈ X) then [] else f i) l) =
  map payload (filter (fun i => i ∉ X) l).
Proof.
  induction l as [|i l IH]; intros Hf; [done|]. cbn [map concat].
  rewrite IH by (intros; apply Hf; [by right|done]).
  destruct (decide (i ∈ X)) as [Hi|Hi].
  - by rewrite filter_cons_False by tauto.
  - rewrite filter_cons_True by done. cbn [map]. rewrite Hf; [done|left|done].
Qed.
(** A group with enough blocks decodes to the payloads not delivered yet. *)
Lemma decode_delivers S g d :
  st_map d !! gid = Some g -> holds S g -> (forall k, k ∈ S -> 0 <= k < T) ->
  Z.of_nat (size S) = N ->
  payloads (data_part S) ++ fst (tryDecode gid d) ≡ₚ ps /\
  snd (tryDecode gid d) = store_set gid (set_g_decoded true g) d.
Proof.
  intros Hg Hh HS Hn. pose proof (holds_size S g Hh) as Hsz.
  destruct Hh as (E1 & E2 & E3 & E4 & E5 & E6).
  unfold tryDecode. rewrite Hg, E4, E1, E6. cbv zeta.
  destruct (N <=? Z.of_nat (size (data_part S))) eqn:Ef.
  { bools. cbn [fst snd]. rewrite app_nil_r. split; [|done].
    apply payloads_all. by apply full_data_part. }
  bools.
  assert (ok = true) as Hok.
  { apply not_false_is_true. intros Hf. unfold T in HS. rewrite Hf in HS.
    assert (data_part S = S) as E; [|rewrite E in Ef; lia].
    apply set_eq. intros i. unfold data_part. rewrite elem_of_filter.
    split; [tauto|]. intros Hi. specialize (HS i Hi). split; [lia|done]. }
  assert (T = N + M) as ET by (unfold T; by rewrite Hok).
  assert (map (fun '(k, b) => (k, pad_to (g_blockBytes g) b))
            (take (Z.to_nat N) (map_ordered (g_blocks g))) = map_ordered (g_blocks g)) as ->.
  { rewrite take_ge.
    - rewrite <- (map_id (map_ordered (g_blocks g))) at 2. apply map_ext_in.
      intros [k b] Hin%list_elem_of_In%elem_of_map_ordered. rewrite E5 in Hin.
      destruct (decide (k ∈ S)) as [Hk|]; [|done]. injection Hin as <-. unfold pad_to.
      rewrite len_block by (by apply HS). by rewrite E3, Z.ltb_irrefl.
    - rewrite (Permutation_length (map_ordered_perm _)), length_map_to_list. lia. }
  assert (len (map_ordered (g_blocks g)) = N) as El.
  { unfold len. rewrite (Permutation_length (map_ordered_perm _)), length_map_to_list. lia. }
  rewrite El, Z.ltb_irrefl, E2, E3, ET. replace (N + M - N) with M by lia. pose proof bb_pos.
  destruct (cm_mds N M bb originals recovery (map_ordered (g_blocks g))) as (bs & -> & Hnd & Hbs);
    [lia|lia|lia|lia|apply len_originals|apply sizes_originals|by apply Henc|done
    |apply NoDup_map_ordered_keys| |].
  { intros k b Hin%elem_of_map_ordered. rewrite E5 in Hin.
    destruct (decide (k ∈ S)) as [Hk|]; [|done]. injection Hin as <-. split; [|done].
    rewrite <- ET. by apply HS. }
  cbn [negb Z.eqb fst snd]. split; [|done].
  rewrite (concat_missing _ (data_part S)).
  - unfold payloads. rewrite <- map_app. rewrite <- (payloads_all (list_to_set (seqZ 0 N))).
    + unfold payloads. apply Permutation_map. apply NoDup_Permutation; [|apply NoDup_elements|].
      * apply NoDup_app. split; [apply NoDup_elements|]. split; [|apply NoDup_filter, NoDup_seqZ].
        intros i Hi%elem_of_elements. rewrite list_elem_of_filter. tauto.
      * intros i. rewrite elem_of_app, !elem_of_elements, elem_of_list_to_set, list_elem_of_filter,
          elem_of_seqZ.
        split; [|destruct (decide (i ∈ data_part S)); tauto].
        intros [Hi|[_ Hi]]; [|lia]. unfold data_part in Hi. apply elem_of_filter in Hi as [Hi Hin].
        specialize (HS i Hin). lia.
    + intros i. rewrite elem_of_list_to_set, elem_of_seqZ. lia.
  - intros i Hi%elem_of_seqZ Hni.
    assert (originals !! Z.to_nat i = Some (B i)) as Eo.
    { unfold B, code_block. rewrite (proj2 (Z.ltb_lt _ _)) by lia. rewrite nth_lookup.
      destruct (originals !! Z.to_nat i) as [o|] eqn:E; [done|].
      apply lookup_ge_None in E. pose proof len_originals as Hl. unfold len in Hl. lia. }
    apply Hbs in Eo. rewrite Z2Nat.id in Eo by lia.
    rewrite (fold_insert_lookup bs ∅ i (B i) Hnd (or_introl Eo)).
    rewrite original_block by lia. destruct (Hps (payload i)) as [? ?]; [apply payload_in; lia|].
    apply block_payload_pad; lia.
Qed.
(** A decoder whose state is [progress] ignores or uses one more packet. *)
Lemma tryDecode_done g d :
  st_map d !! gid = Some g -> g_decoded g = true -> tryDecode gid d = ([], d).
Proof. intros Hg Hd. unfold tryDecode. by rewrite Hg, Hd. Qed.

Lemma step_store S out d g k :
  st_map d = {[gid := g]} -> holds S g -> (forall i, i ∈ S -> 0 <= i < T) ->
  st_bytes d = bb * Z.of_nat (size S) -> Z.of_nat (size S) < N ->
  out ≡ₚ payloads (data_part S) -> 0 <= k < T -> k ∉ S ->
  let '(o, d') := add_block gid k N (B k) d in progress ({[k]} ∪ S) (out ++ o) d'.
Proof.
  intros Hd Hh HS Hbuf Hn Hout Hk Hnew.
  pose proof (holds_size S g Hh) as Hsz. pose proof bb_pos as Hbb. destruct (Hh) as (E1 & E2 & E3 & E4 & E5 & E6).
  assert (size ({[k]} ∪ S) = (1 + size S)%nat) as Es.
  { rewrite size_union by set_solver. by rewrite size_singleton. }
  assert (N <= T) as HNT by (clear - HM; unfold T; destruct ok; lia).
  unfold add_block. rewrite Hd, lookup_singleton_eq, E4, E5, (decide_False (P := k ∈ S)) by done.
  rewrite len_block by done.
  unfold ensureCapacity. rewrite reserve_fits; [|lia| |nia|rewrite Hd, map_size_singleton; done].
  2: { rewrite Hbuf. nia. }
  cbn [negb]. rewrite Hd, lookup_singleton_eq. cbv zeta.
  set (g' := mkGroup _ _ _ _ _ _ _). set (d' := mkStore _ _).
  assert (st_map d' = {[gid := g']}) as Hd' by (unfold d'; cbn; by rewrite insert_singleton_eq).
  assert (holds ({[k]} ∪ S) g') as Hh'.
  { unfold g'. split_and!; cbn; try done.
    - intros i. destruct (decide (i = k)) as [->|Hi].
      + rewrite lookup_insert_eq, decide_True by set_solver. done.
      + rewrite lookup_insert_ne, E5 by done. destruct (decide (i ∈ S)), (decide (i ∈ {[k]} ∪ S)); try done; set_solver.
    - rewrite data_part_add, E6. by destruct (k <? N). }
  assert (out ++ (if k <? N then emitOriginalBlock (B k) else []) ≡ₚ payloads (data_part ({[k]} ∪ S))) as Hout'.
  { rewrite data_part_add. destruct (Z.ltb_spec k N).
    - rewrite emit_block by lia. rewrite payloads_add.
      + rewrite Hout. apply Permutation_app_comm.
      + unfold data_part. rewrite elem_of_filter. tauto.
    - by rewrite app_nil_r. }
  assert (forall i, i ∈ {[k]} ∪ S -> 0 <= i < T) as HS'.
  { intros i [->%elem_of_singleton|Hi]%elem_of_union; [done|by apply HS]. }
  rewrite Hd', lookup_singleton_eq.
  assert (g_dataCount g' = N) as EN by apply E1. rewrite EN, (holds_size _ _ Hh').
  destruct (N <=? Z.of_nat (size ({[k]} ∪ S))) eqn:Ef.
  - bools. assert (st_map d' !! gid = Some g') as Hl by (rewrite Hd'; apply lookup_singleton_eq).
    destruct (decode_delivers _ g' d' Hl Hh' HS') as [Hp Ht]; [lia|].
    destruct (tryDecode gid d') as [more d''] eqn:Et. cbn [fst snd] in Hp, Ht.
    apply progress_done.
    + rewrite app_assoc, Hout'. exact Hp.
    + exists (set_g_decoded true g'). rewrite Ht. cbn. by rewrite lookup_insert_eq.
  - bools. apply progress_open; [done|exact Hout'| |right; by exists g'].
    unfold d'. cbn [st_bytes]. rewrite Hbuf, Es. lia.
Qed.

Lemma progress_step now S out d k :
  (forall i, i ∈ S -> 0 <= i < T) -> 0 <= k < T -> progress S out d ->
  let '(o, d') := dec_addPacket now (packet k) d in progress ({[k]} ∪ S) (out ++ o) d'.
Proof.
  intros HS Hk Hp. pose proof bb_pos as Hbb.
  destruct (packet_fields k Hk) as (F0 & F1 & F2 & F3 & F4 & F5).
  assert (N <= T <= 3 * N) as HT by (clear - HM HN; unfold T; destruct ok; lia).
  unfold dec_addPacket. rewrite F0, F1, F2, F3, F4, F5. unfold sizeof_FecHeader.
  rewrite (proj2 (Z.ltb_ge (4 + bb) 4)) by lia. cbv zeta.
  rewrite (proj2 (Z.ltb_ge N 1)), (proj2 (Z.ltb_ge 10 N)), (proj2 (Z.ltb_ge T N)),
    (proj2 (Z.ltb_ge (3 * N) T)), (proj2 (Z.leb_gt T k)) by lia. cbn [orb].
  rewrite (proj2 (Z.leb_gt (4 + bb - 4) 0)) by lia. replace (4 + bb - 4) with bb by lia.
  destruct Hp as [Hn Hout Hbuf [[-> Hd]|(g & Hd & Hh)]|Hout (g & Hg & G1 & G2 & G3 & G4)].
  - rewrite Hd, lookup_empty. unfold ensureCapacity. rewrite reserve_fits; [|lia| |nia|by rewrite Hd].
    2: { rewrite Hbuf, size_empty. assert (1 * bb <= T * bb) by nia. lia. }
    cbn [negb]. assert (holds ∅ (mkGroup N T bb now false ∅ ∅)) as Hh.
    { by split_and!. }
    apply (step_store ∅ out _ (mkGroup N T bb now false ∅ ∅)); try done.
    cbn. by rewrite Hd, insert_empty.
  - rewrite Hd, lookup_singleton_eq. destruct (Hh) as (E1 & E2 & E3 & E4 & E5 & E6).
    rewrite E1, E2, E3, !Z.eqb_refl. cbn [negb orb].
    destruct (decide (k ∈ S)) as [Hin|Hnew]; [|by apply (step_store S out d g k)].
    assert ({[k]} ∪ S = S) as -> by set_solver.
    unfold add_block. rewrite Hd, lookup_singleton_eq, E4, E5, decide_True by done.
    rewrite E1, (holds_size S g Hh), (proj2 (Z.leb_gt _ _)), app_nil_r by lia.
    apply progress_open; try done. right. by exists g.
  - rewrite Hg, G1, G2, G3, !Z.eqb_refl. cbn [negb orb]. unfold add_block. rewrite Hg, G4, app_nil_r.
    apply progress_done; [done|]. by exists g.
Qed.

Lemma progress_run ks S out d :
  (forall i, i ∈ S -> 0 <= i < T) -> (forall now k, (now, k) ∈ ks -> 0 <= k < T) -> progress S out d ->
  let '(out', d') := fold_left (fun '(out, d) '(now, k) =>
    let '(o, d') := dec_addPacket now (packet k) d in (out ++ o, d')) ks (out, d) in
  progress (list_to_set ks.*2 ∪ S) out' d'.
Proof.
  revert S out d. induction ks as [|[now k] ks IH]; intros S out d HS Hks Hp; cbn [fold_left].
  { cbn. by replace (∅ ∪ S) with S by set_solver. }
  pose proof (progress_step now S out d k HS (Hks now k ltac:(left)) Hp) as Hstep.
  destruct (dec_addPacket now (packet k) d) as [o d'].
  assert (forall i, i ∈ {[k]} ∪ S -> 0 <= i < T) as HS'.
  { intros i [->%elem_of_singleton|Hi]%elem_of_union; [|by apply HS]. apply (Hks now). left. }
  specialize (IH _ _ _ HS' (fun now k H => Hks now k ltac:(by right)) Hstep).
  destruct (fold_left _ ks _) as [out' d'']. cbn [fmap list_fmap list_to_set snd].
  by replace ({[k]} ∪ list_to_set ks.*2 ∪ S) with (list_to_set ks.*2 ∪ ({[k]} ∪ S)) by set_solver.
Qed.
End Recovery.

(** ** From the encoder to the decoder *)

Section Group.
Context `{CM256Laws}.

Inductive EncEvent := AddAt (now : Z) (payload : bytes) | UpdateEnc.
Definition enc_step (ev : EncEvent) (e : FecEncoder) : list bytes * FecEncoder :=
  match ev with AddAt now p => enc_addPacket now p e | UpdateEnc => enc_update e end.
Definition enc_run (evs : list EncEvent) (e : FecEncoder) : FecEncoder :=
  fold_left (fun e ev => snd (enc_step ev e)) evs e.
(** The payloads that are waiting when [ev] is handled, its own included. *)
Definition waiting (ev : EncEvent) (e : FecEncoder) : list bytes :=
  match ev with AddAt _ p => fe_buffer e ++ [p] | UpdateEnc => fe_buffer e end.
(** A payload of which thirty blocks fit the decoder's memory. *)
Definition fec_payload (p : bytes) : Prop := 1 <= len p /\ 30 * (2 + len p) <= FEC_MAX_BUFFERED_BYTES.
Definition fec_event (ev : EncEvent) : Prop :=
  match ev with AddAt _ p => fec_payload p | UpdateEnc => True end.

(** The network delivers the packets with the indices [ks], each at a time. *)
Definition deliver (pkts : list bytes) (ks : list (Z * nat)) (d : FecDecoder) : list bytes * FecDecoder :=
  fold_left (fun '(out, d) '(now, k) =>
    let '(o, d') := dec_addPacket now (nth k pkts []) d in (out ++ o, d')) ks ([], d).

(** The encoder between events: room for a payload, sizes known. *)
Record enc_idle (e : FecEncoder) : Prop := mkEncIdle {
  ei_ok : enc_ok e;
  ei_room : len (fe_buffer e) < FEC_GROUP_SIZE;
  ei_max : 30 * (2 + fe_maxBlockSize e) <= FEC_MAX_BUFFERED_BYTES
}.
Lemma enc_flush_buffer e : fe_buffer (snd (enc_flush e)) = [].
Proof.
  unfold enc_flush. destruct (bool_decide _) eqn:E; [by apply bool_decide_eq_true in E|].
  cbv zeta. by destruct (cm256_encode _ _ _ _).
Qed.
Lemma enc_flush_idle e :
  enc_ok e -> 30 * (2 + fe_maxBlockSize e) <= FEC_MAX_BUFFERED_BYTES -> enc_idle (snd (enc_flush e)).
Proof.
  intros He Hm. split; [by apply enc_flush_ok|by rewrite enc_flush_buffer|].
  unfold enc_flush. destruct (bool_decide _); [done|]. cbv zeta. by destruct (cm256_encode _ _ _ _).
Qed.
(** One event: it either emits nothing, or flushes a well-formed buffer. *)
Lemma enc_step_cases ev e :
  enc_idle e -> fec_event ev ->
  enc_idle (snd (enc_step ev e)) /\
  (fst (enc_step ev e) = [] \/
   exists e', enc_ok e' /\ 30 * (2 + fe_maxBlockSize e') <= FEC_MAX_BUFFERED_BYTES /\
     fe_buffer e' = waiting ev e /\ fe_buffer e' <> ([] : list bytes) /\ fst (enc_step ev e) = fst (enc_flush e')).
Proof.
  intros [He Hr Hm] Hev. destruct ev as [now p|]; cbn [enc_step fec_event waiting] in *.
  - destruct Hev as [Hp1 Hp2].
    assert (len p < 65534) as Hp3 by (unfold FEC_MAX_BUFFERED_BYTES in *; lia).
    unfold enc_addPacket. set (e' := mkEncoder _ _ _ _ _).
    assert (enc_ok e') as He'.
    { destruct He as [H1 H2 H3 H4]. constructor; cbn; [done|rewrite len_app, len_cons, len_nil; lia| |zcase; lia].
      intros q [Hin|Hin]%elem_of_app; [specialize (H3 q Hin); zcase; lia|].
      apply list_elem_of_singleton in Hin as ->. zcase; lia. }
    assert (30 * (2 + fe_maxBlockSize e') <= FEC_MAX_BUFFERED_BYTES) as Hm' by (cbn; zcase; lia).
    destruct (_ <=? _) eqn:El.
    + split; [by apply enc_flush_idle|]. right. exists e'. split_and!; try done. cbn. by destruct (fe_buffer e).
    + split; [|by left]. bools. by constructor.
  - unfold enc_update. destruct (bool_decide _) eqn:Eb; [split; [by constructor|by left]|].
    split; [by apply enc_flush_idle|]. right. exists e. apply bool_decide_eq_false in Eb. by split_and!.
Qed.
Lemma enc_run_idle evs e : Forall fec_event evs -> enc_idle e -> enc_idle (enc_run evs e).
Proof.
  revert e. induction evs as [|ev evs IH]; intros e Hevs He; [done|].
  apply Forall_cons in Hevs as [Hev Hevs]. cbn [enc_run fold_left]. apply IH; [done|].
  by apply enc_step_cases.
Qed.
Lemma enc_init_idle mode : enc_idle (FecEncoder_init mode).
Proof.
  constructor; cbn; [|done|by vm_compute]. constructor; cbn; try done. intros p Hin. by apply not_elem_of_nil in Hin.
Qed.
(** The packets of a flush are those of one group of [Recovery]. *)
Lemma flush_packets e :
  enc_ok e -> fe_buffer e <> [] ->
  30 * (2 + fe_maxBlockSize e) <= FEC_MAX_BUFFERED_BYTES ->
  exists M recovery (ok : bool),
    let N := len (fe_buffer e) in
    let bb := 2 + fe_maxBlockSize e in
    1 <= M <= 2 * N /\
    (ok = true -> cm256_encode N M bb (map (fec_pad bb) (fe_buffer e)) = (0, recovery)) /\
    fst (enc_flush e) =
      map (packet (fe_buffer e) bb (fe_groupId e) M recovery ok) (seqZ 0 (if ok then N + M else N)).
Proof.
  intros [H1 H2 H3 H4] Hne Hmax. unfold enc_flush. rewrite (bool_decide_eq_false_2 _ Hne). cbv zeta.
  set (N := len (fe_buffer e)) in *.
  assert (1 <= N <= 10) as HN.
  { unfold N, FEC_GROUP_SIZE in *. split; [|done].
    destruct (fe_buffer e) as [|q l]; [done|]. rewrite len_cons. pose proof (len_nonneg l). lia. }
  set (M := if _ <=? 0 then 1 else _).
  assert (1 <= M <= 2 * N) as HM.
  { unfold M. assert (0 <= fecParityCount (fe_mode e) N <= 2 * N); [|zcase; lia].
    destruct (fe_mode e); cbn [fecParityCount];
      Z.to_euclidean_division_equations; lia. }
  set (bb := 2 + fe_maxBlockSize e). set (ps := fe_buffer e) in *.
  assert (N = Z.of_nat (length ps)) as EN by done.
  destruct (cm256_encode N M bb (map (fec_pad bb) ps)) as [r recovery] eqn:Eenc.
  exists M, recovery, (r =? 0). split; [done|].
  split; [intros Er%Z.eqb_eq; by rewrite Er in Eenc|]. cbn [fst].
  set (ok := r =? 0).
  assert (forall T, u8 N = N /\ (T = N + M \/ T = N -> u8 T = T)) as Hu.
  { intros T. unfold u8. split; [rewrite Z.mod_small; lia|]. intros HT. rewrite Z.mod_small; lia. }
  assert (imap (fun i block => fec_header (fe_groupId e) (u8 (Z.of_nat i)) (u8 N)
            (if ok then u8 (N + M) else u8 N) ++ block) (map (fec_pad bb) ps) =
          map (packet ps bb (fe_groupId e) M recovery ok) (seqZ 0 N)) as ->.
  { apply list_eq. intros i. rewrite list_lookup_imap, !list_lookup_fmap.
    destruct (ps !! i) as [q|] eqn:Ei; cbn [fmap option_fmap option_map].
    - pose proof (lookup_lt_Some _ _ _ Ei) as Hi. rewrite (lookup_seqZ_lt 0 N i) by lia.
      rewrite Z.add_0_l. cbn [fmap option_fmap option_map]. unfold packet. fold N.
      pose proof (original_block ps bb M recovery ok HN (Z.of_nat i)) as Ho. cbv beta in Ho.
      fold N in Ho. rewrite Ho by lia.
      unfold payload. rewrite Nat2Z.id, (nth_lookup_Some _ _ _ _ Ei).
      destruct (Hu (N + M)) as [-> ->]; [|by left]. f_equal. f_equal. f_equal.
      unfold u8. apply Z.mod_small. lia.
    - apply lookup_ge_None in Ei. rewrite lookup_seqZ_ge by lia. done. }
  destruct ok; [|by rewrite app_nil_r]. rewrite seqZ_app by lia. rewrite map_app. f_equal.
  apply list_eq. intros i. rewrite !list_lookup_fmap. cbn [Z.add].
  destruct (decide (Z.of_nat i < M)).
  - rewrite !lookup_seqZ_lt by lia. rewrite !Z.add_0_l. cbn [fmap option_fmap option_map].
    unfold packet, code_block. fold N. rewrite (proj2 (Z.ltb_ge _ _)) by lia.
    replace (N + Z.of_nat i - N) with (Z.of_nat i) by lia.
    destruct (Hu (N + M)) as [E1 E2]. rewrite E1, (E2 (or_introl eq_refl)).
    assert (u8 (N + Z.of_nat i) = N + Z.of_nat i) as -> by (apply Z.mod_small; lia). done.
  - by rewrite !lookup_seqZ_ge by lia.
Qed.
Lemma fold_left_ext {A B} (f g : A -> B -> A) l a :
  (forall a b, b ∈ l -> f a b = g a b) -> fold_left f l a = fold_left g l a.
Proof.
  revert a. induction l as [|b l IH]; intros a Hl; cbn [fold_left]; [done|].
  rewrite (Hl a b) by left. apply IH. intros a' b' Hb. apply Hl. by right.
Qed.
Lemma fold_left_map {A B C} (f : A -> C -> A) (h : B -> C) l a :
  fold_left f (map h l) a = fold_left (fun a b => f a (h b)) l a.
Proof. revert a. induction l as [|b l IH]; intros a; cbn [map fold_left]; [done|apply IH]. Qed.
Lemma deliver_receive (P : Z -> bytes) T ks d :
  (forall now k, (now, k) ∈ ks -> Z.of_nat k < T) ->
  deliver (map P (seqZ 0 T)) ks d =
  fold_left (fun '(out, d) '(now, k) => let '(o, d') := dec_addPacket now (P k) d in (out ++ o, d'))
    (map (fun x => (x.1, Z.of_nat x.2)) ks) ([], d).
Proof.
  intros Hks. unfold deliver. rewrite fold_left_map. apply fold_left_ext.
  intros [out d'] [now k] Hin. cbn [fst snd].
  rewrite (nth_lookup_Some _ _ _ (P (Z.of_nat k))); [done|].
  rewrite list_lookup_fmap, lookup_seqZ_lt by (by apply (Hks now)). done.
Qed.

Lemma progress_outputs ps bb gid M recovery ok S out d :
  (forall i, i ∈ S -> 0 <= i) ->
  progress ps bb gid M recovery ok S out d ->
  out ⊆+ ps /\ (len ps <= Z.of_nat (size S) -> out ≡ₚ ps).
Proof.
  intros HS [Hn Hout _ _|Hout _].
  - split; [|lia]. rewrite Hout.
    assert (payloads ps (list_to_set (seqZ 0 (len ps))) ≡ₚ ps) as Ha.
    { apply (payloads_all ps M ok). intros i. rewrite elem_of_list_to_set, elem_of_seqZ. lia. }
    etrans; [|apply Permutation_submseteq, Ha].
    unfold payloads. apply fmap_submseteq, elements_submseteq. intros i.
    unfold data_part. rewrite elem_of_filter, elem_of_list_to_set, elem_of_seqZ.
    intros [Hi Hin]. specialize (HS i Hin). lia.
  - split; [by rewrite Hout|done].
Qed.
Lemma flush_recovers e ks :
  enc_ok e -> fe_buffer e <> [] -> 30 * (2 + fe_maxBlockSize e) <= FEC_MAX_BUFFERED_BYTES ->
  let pkts := fst (enc_flush e) in
  (forall now k, (now, k) ∈ ks -> (k < length pkts)%nat) ->
  let out := fst (deliver pkts ks FecDecoder_init) in
  out ⊆+ fe_buffer e /\
  ((length (fe_buffer e) <= length (remove_dups ks.*2))%nat -> out ≡ₚ fe_buffer e).
Proof.
  intros He Hne Hmax. cbv zeta.
  destruct (flush_packets e He Hne Hmax) as (M & recovery & ok & HM & Henc & ->).
  rewrite length_map, length_seqZ.
  set (T := if ok then _ else _). set (bb := 2 + _) in *. set (ps := fe_buffer e) in *. intros Hks.
  destruct He as [H1 H2 H3 H4].
  assert (1 <= len ps <= 10) as HN.
  { split; [|done]. destruct ps as [|q l]; [done|]. rewrite len_cons. pose proof (len_nonneg l). lia. }
  assert (0 < bb) as Hbb by (unfold bb; lia).
  assert (len ps <= T <= 30) as HT by (unfold T; clear -HM HN; destruct ok; lia).
  rewrite deliver_receive by (intros now k Hin%Hks; lia).
  set (ks' := map _ ks).
  assert (forall i, i ∈ ks'.*2 <-> exists k, k ∈ ks.*2 /\ i = Z.of_nat k) as Hin'.
  { intros i. unfold ks'. rewrite list_elem_of_fmap. setoid_rewrite list_elem_of_fmap.
    split.
    - intros ([now z] & -> & [now' k] & Heq & Hin). injection Heq as -> ->.
      exists k. split; [by exists (now', k)|done].
    - intros (k & ([now k'] & -> & Hin) & ->). exists (now, Z.of_nat k'). split; [done|].
      by exists (now, k'). }
  assert (forall i, i ∈ ks'.*2 -> 0 <= i < T) as Hrange.
  { intros i Hi. apply Hin' in Hi as (k & Hk & ->). apply list_elem_of_fmap in Hk as ([now k'] & -> & Hin).
    apply Hks in Hin. cbn. lia. }
  pose proof (progress_run ps bb (fe_groupId e) M recovery ok H1 HN HM) as Hrun.
  specialize (Hrun ltac:(intros p Hp; specialize (H3 p Hp); unfold bb; lia) Henc).
  specialize (Hrun ltac:(fold T; nia) ks' ∅ [] FecDecoder_init).
  destruct (fold_left _ ks' ([], FecDecoder_init)) as [out d'].
  specialize (Hrun ltac:(intros i Hi; by apply not_elem_of_empty in Hi)).
  specialize (Hrun ltac:(intros now i Hi; apply Hrange, list_elem_of_fmap; by exists (now, i))).
  specialize (Hrun ltac:(apply progress_open; [by change (0 < len ps); lia|done|rewrite size_empty; cbn; lia|by left])).
  rewrite union_empty_r_L in Hrun. cbn [fst].
  destruct (progress_outputs _ _ _ _ _ _ _ _ _ ltac:(intros i Hi%elem_of_list_to_set%Hrange; lia) Hrun)
    as [Hsub Hall].
  split; [done|]. intros Hsz. apply Hall.
  assert (list_to_set ks'.*2 = (list_to_set (map Z.of_nat (remove_dups ks.*2)) : gset Z)) as ->.
  { apply set_eq. intros i. rewrite !elem_of_list_to_set, Hin', list_elem_of_fmap.
    setoid_rewrite elem_of_remove_dups. naive_solver. }
  rewrite size_list_to_set; [unfold len; rewrite length_map; lia|].
  apply NoDup_fmap_2; [intros x y; lia|apply NoDup_remove_dups].
Qed.
(** C30: forward error correction.  An encoder in any state it can reach that
    handles one more event (a payload or the timer) emits nothing or one group.
    A fresh decoder that receives packets of the group, whichever are lost,
    reordered or repeated, outputs only payloads of the group, none more often
    than it was sent; as soon as as many distinct packets arrive as there are
    payloads, parity or not, it has output all of them. *)
Theorem fec_group_recovers mode evs ev ks :
  Forall fec_event evs -> fec_event ev ->
  let e := enc_run evs (FecEncoder_init mode) in
  let pkts := fst (enc_step ev e) in
  pkts <> [] -> (forall now k, (now, k) ∈ ks -> (k < length pkts)%nat) ->
  let out := fst (deliver pkts ks FecDecoder_init) in
  out ⊆+ waiting ev e /\
  ((length (waiting ev e) <= length (remove_dups ks.*2))%nat -> out ≡ₚ waiting ev e).
Proof.
  intros Hevs Hev. cbv zeta. intros Hne Hks.
  pose proof (enc_run_idle evs _ Hevs (enc_init_idle mode)) as He.
  destruct (enc_step_cases ev _ He Hev) as [_ [E|(e' & He' & Hm & Hb & Hne' & E)]]; [done|].
  rewrite E in *. rewrite <- Hb. by apply flush_recovers.
Qed.
End Group.

(** The theorem at a concrete code: repetition of a single block. *)
Definition rep_CM256 : CM256 := {|
  cm256_encode := fun N M bb os =>
    if (N =? 1) && (0 <? M) && forallb (fun o => len o =? bb) os && (len os =? 1)
    then (0, concat (replicate (Z.to_nat M) (hd [] os))) else (-1, []);
  cm256_decode := fun N M bb blocks =>
    match blocks with [(_, b)] => (0, [(0, b)]) | _ => (-1, blocks) end
|}.
#[local] Existing Instance rep_CM256.
Lemma concat_replicate_len (o : bytes) n : len (concat (replicate n o)) = Z.of_nat n * len o.
Proof.
  induction n as [|n IH]; [done|]. cbn [replicate concat]. rewrite len_app, IH. lia.
Qed.
Lemma slice_replicate (o : bytes) n k :
  (k < n)%nat -> slice (Z.of_nat k * len o) (len o) (concat (replicate n o)) = o.
Proof.
  intros Hk. replace n with (k + S (n - S k))%nat by lia. rewrite replicate_add, concat_app.
  cbn [replicate concat]. apply slice_mid; [by rewrite concat_replicate_len|done].
Qed.
Lemma len_one {A} (l : list A) : len l = 1 -> exists x, l = [x].
Proof.
  destruct l as [|x [|y l]]; [done|by exists x|]. rewrite !len_cons. pose proof (len_nonneg l). lia.
Qed.
Lemma rep_CM256Laws : CM256Laws.
Proof.
  constructor.
  - intros N M bb os recovery. cbn. destruct (_ && _) eqn:E; [|done]. intros [= <-].
    apply andb_true_iff in E as [E E4]. apply andb_true_iff in E as [E E3]. bools.
    rewrite concat_replicate_len. destruct (len_one os) as [o ->]; [done|].
    cbn in E3. apply andb_true_iff in E3 as [E3%Z.eqb_eq _]. cbn [hd]. rewrite E3. lia.
  - intros N M bb os recovery blocks HN HM _ Hbb Hl Hsz Henc Hlb Hnd Hb. cbn in Henc.
    destruct (_ && _) eqn:E; [|done]. injection Henc as <-. bools. subst N.
    destruct (len_one os) as [o ->]; [done|]. cbn [hd] in Hb.
    destruct (len_one blocks) as [[k b] ->]; [done|].
    exists [(0, b)]. split; [done|]. split; [by apply NoDup_singleton|].
    intros i o' Ei. destruct i; [|done]. injection Ei as <-. apply list_elem_of_singleton. f_equal.
    destruct (Hb k b ltac:(by left)) as [Hk ->]. unfold code_block. rewrite H in *.
    apply Forall_cons in Hsz as [Ho _].
    destruct (Z.ltb_spec k 1); [by replace k with 0 by lia|].
    rewrite <- Ho. replace (k - 1) with (Z.of_nat (Z.to_nat (k - 1))) by lia.
    symmetry. apply slice_replicate. lia.
Qed.
#[local] Existing Instance rep_CM256Laws.

Lemma fec_group_recovers_witness :
  let p := [7; 8; 9] in
  let pkts := fst (enc_step UpdateEnc (enc_run [AddAt 5 p] (FecEncoder_init FEC_200))) in
  len pkts = 3 /\ fst (deliver pkts [(10, 2%nat); (11, 2%nat); (12, 0%nat)] FecDecoder_init) = [p] /\
  (fst (deliver pkts [(10, 2%nat); (11, 2%nat); (12, 0%nat)] FecDecoder_init) ≡ₚ [p]).
Proof.
  cbv zeta. split; [by vm_compute|]. split; [by vm_compute|].
  apply (fec_group_recovers FEC_200 [AddAt 5 [7; 8; 9]] UpdateEnc).
  - constructor; [|constructor]. by vm_compute.
  - done.
  - by vm_compute.
  - intros now k Hk. repeat (apply elem_of_cons in Hk as [[= -> ->]|Hk]; [vm_compute; lia|]).
    by apply not_elem_of_nil in Hk.
  - vm_compute. lia.
Defined.
Lemma fec_decoder_bounded_witness :
  st_bytes (dec_run [PacketAt 1 [9; 0; 2; 3; 0; 1; 44]; CleanupAt 20] FecDecoder_init) = 3 /\
  fst (ensureCapacity 2000 true (dec_run [PacketAt 1 [9; 0; 2; 3; 0; 1; 44]; CleanupAt 20] FecDecoder_init)) = true.
Proof.
  split; [by vm_compute|].
  apply (fec_decoder_bounded [PacketAt 1 [9; 0; 2; 3; 0; 1; 44]; CleanupAt 20]); [|by vm_compute].
  intros now data Hin. apply elem_of_cons in Hin as [[= -> ->]|Hin].
  - repeat (constructor; [by vm_compute|]). constructor.
  - apply list_elem_of_singleton in Hin. done.
Defined.
