(* ===== verification/PeerConn.v ===== *)
(** * The data of [class CliPeerConnection] and [class CliKcpTunnel]
      ([client-cli/src/cli_peer.h])

    A peer has, for each traffic class, a transport, pointers to the tunnels
    that carry it, the clock of its TCP relay and the statistics of its probes.
    The tunnels belong to the tunnel manager; a pointer to one is the key under
    which the manager files it.  The methods that only touch the peer are here,
    those that call a tunnel in [TunnelManager].

    The vendored [ikcp] is the class [Ikcp]: a type of control blocks and its
    functions.  What [ikcp_update] hands to the output callback is the list it
    returns; [ikcp_recv] is [None] for a negative result. *)

From S2P Require Import Prelude Protocol TcpConn Fec ProbeQuality.

(** ** The KCP library *)

Class Ikcp := {
  ikcpcb : Type;
  ikcp_create : Z -> ikcpcb;
  ikcp_setmtu : Z -> ikcpcb -> ikcpcb;
  ikcp_nodelay : Z -> Z -> Z -> Z -> ikcpcb -> ikcpcb;
  ikcp_wndsize : Z -> Z -> ikcpcb -> ikcpcb;
  set_rx_minrto : Z -> ikcpcb -> ikcpcb;
  set_fastresend : Z -> ikcpcb -> ikcpcb;
  ikcp_input : bytes -> ikcpcb -> ikcpcb;
  ikcp_send : bytes -> ikcpcb -> Z * ikcpcb;
  ikcp_recv : Z -> ikcpcb -> option bytes * ikcpcb;
  ikcp_update : Z -> ikcpcb -> list bytes * ikcpcb;
  ikcp_waitsnd : ikcpcb -> Z;
  rx_srtt : ikcpcb -> Z;
  (** [nrcv_que + nrcv_buf]: the received segments not yet taken. *)
  kcp_received : ikcpcb -> nat
}.
(** What the receive loop relies on: a message taken uses up segments, and
    sending adds none. *)
Class IkcpLaws `{Ikcp} : Prop := {
  recv_consumes : forall n k p k', ikcp_recv n k = (Some p, k') -> (kcp_received k' < kcp_received k)%nat;
  send_receives_nothing : forall p k, kcp_received (snd (ikcp_send p k)) = kcp_received k
}.

(** ** [class CliKcpTunnel]: data *)

Definition KCP_KEEPALIVE_MARKER : Z := 0x00.
Definition KCP_DEAD_TIMEOUT_MS : Z := 30000.
Definition KCP_KEEPALIVE_INTERVAL_MS : Z := 5000.

Section Kcp.
Context `{Ikcp}.

Record CliKcpTunnel := mkKcp {
  kt_kcp : ikcpcb;
  kt_peerIP : Z;
  kt_peerPort : Z;
  kt_trafficClass : Z;
  kt_profile : KcpProfile;
  kt_relayMode : bool;
  kt_relaySrcPeerId : Z;
  kt_relayDstPeerId : Z;
  kt_lastRecvTime : Z;
  kt_lastSendTime : Z;
  kt_dead : bool;
  kt_fecMode : FecMode;
  kt_fecEncoder : option FecEncoder;
  kt_fecDecoder : option FecDecoder
}.
Definition set_kt_kcp (v : ikcpcb) (t : CliKcpTunnel) : CliKcpTunnel :=
  mkKcp v t.(kt_peerIP) t.(kt_peerPort) t.(kt_trafficClass) t.(kt_profile) t.(kt_relayMode)
    t.(kt_relaySrcPeerId) t.(kt_relayDstPeerId) t.(kt_lastRecvTime) t.(kt_lastSendTime)
    t.(kt_dead) t.(kt_fecMode) t.(kt_fecEncoder) t.(kt_fecDecoder).
Definition set_kt_peerIP (v : Z) (t : CliKcpTunnel) : CliKcpTunnel :=
  mkKcp t.(kt_kcp) v t.(kt_peerPort) t.(kt_trafficClass) t.(kt_profile) t.(kt_relayMode)
    t.(kt_relaySrcPeerId) t.(kt_relayDstPeerId) t.(kt_lastRecvTime) t.(kt_lastSendTime)
    t.(kt_dead) t.(kt_fecMode) t.(kt_fecEncoder) t.(kt_fecDecoder).
Definition set_kt_peerPort (v : Z) (t : CliKcpTunnel) : CliKcpTunnel :=
  mkKcp t.(kt_kcp) t.(kt_peerIP) v t.(kt_trafficClass) t.(kt_profile) t.(kt_relayMode)
    t.(kt_relaySrcPeerId) t.(kt_relayDstPeerId) t.(kt_lastRecvTime) t.(kt_lastSendTime)
    t.(kt_dead) t.(kt_fecMode) t.(kt_fecEncoder) t.(kt_fecDecoder).
Definition set_kt_trafficClass (v : Z) (t : CliKcpTunnel) : CliKcpTunnel :=
  mkKcp t.(kt_kcp) t.(kt_peerIP) t.(kt_peerPort) v t.(kt_profile) t.(kt_relayMode)
    t.(kt_relaySrcPeerId) t.(kt_relayDstPeerId) t.(kt_lastRecvTime) t.(kt_lastSendTime)
    t.(kt_dead) t.(kt_fecMode) t.(kt_fecEncoder) t.(kt_fecDecoder).
Definition set_kt_profile (v : KcpProfile) (t : CliKcpTunnel) : CliKcpTunnel :=
  mkKcp t.(kt_kcp) t.(kt_peerIP) t.(kt_peerPort) t.(kt_trafficClass) v t.(kt_relayMode)
    t.(kt_relaySrcPeerId) t.(kt_relayDstPeerId) t.(kt_lastRecvTime) t.(kt_lastSendTime)
    t.(kt_dead) t.(kt_fecMode) t.(kt_fecEncoder) t.(kt_fecDecoder).
Definition set_kt_relayMode (v : bool) (t : CliKcpTunnel) : CliKcpTunnel :=
  mkKcp t.(kt_kcp) t.(kt_peerIP) t.(kt_peerPort) t.(kt_trafficClass) t.(kt_profile) v
    t.(kt_relaySrcPeerId) t.(kt_relayDstPeerId) t.(kt_lastRecvTime) t.(kt_lastSendTime)
    t.(kt_dead) t.(kt_fecMode) t.(kt_fecEncoder) t.(kt_fecDecoder).
Definition set_kt_relaySrcPeerId (v : Z) (t : CliKcpTunnel) : CliKcpTunnel :=
  mkKcp t.(kt_kcp) t.(kt_peerIP) t.(kt_peerPort) t.(kt_trafficClass) t.(kt_profile)
    t.(kt_relayMode) v t.(kt_relayDstPeerId) t.(kt_lastRecvTime) t.(kt_lastSendTime)
    t.(kt_dead) t.(kt_fecMode) t.(kt_fecEncoder) t.(kt_fecDecoder).
Definition set_kt_relayDstPeerId (v : Z) (t : CliKcpTunnel) : CliKcpTunnel :=
  mkKcp t.(kt_kcp) t.(kt_peerIP) t.(kt_peerPort) t.(kt_trafficClass) t.(kt_profile)
    t.(kt_relayMode) t.(kt_relaySrcPeerId) v t.(kt_lastRecvTime) t.(kt_lastSendTime)
    t.(kt_dead) t.(kt_fecMode) t.(kt_fecEncoder) t.(kt_fecDecoder).
Definition set_kt_lastRecvTime (v : Z) (t : CliKcpTunnel) : CliKcpTunnel :=
  mkKcp t.(kt_kcp) t.(kt_peerIP) t.(kt_peerPort) t.(kt_trafficClass) t.(kt_profile)
    t.(kt_relayMode) t.(kt_relaySrcPeerId) t.(kt_relayDstPeerId) v t.(kt_lastSendTime)
    t.(kt_dead) t.(kt_fecMode) t.(kt_fecEncoder) t.(kt_fecDecoder).
Definition set_kt_lastSendTime (v : Z) (t : CliKcpTunnel) : CliKcpTunnel :=
  mkKcp t.(kt_kcp) t.(kt_peerIP) t.(kt_peerPort) t.(kt_trafficClass) t.(kt_profile)
    t.(kt_relayMode) t.(kt_relaySrcPeerId) t.(kt_relayDstPeerId) t.(kt_lastRecvTime) v
    t.(kt_dead) t.(kt_fecMode) t.(kt_fecEncoder) t.(kt_fecDecoder).
Definition set_kt_dead (v : bool) (t : CliKcpTunnel) : CliKcpTunnel :=
  mkKcp t.(kt_kcp) t.(kt_peerIP) t.(kt_peerPort) t.(kt_trafficClass) t.(kt_profile)
    t.(kt_relayMode) t.(kt_relaySrcPeerId) t.(kt_relayDstPeerId) t.(kt_lastRecvTime)
    t.(kt_lastSendTime) v t.(kt_fecMode) t.(kt_fecEncoder) t.(kt_fecDecoder).
Definition set_kt_fecMode (v : FecMode) (t : CliKcpTunnel) : CliKcpTunnel :=
  mkKcp t.(kt_kcp) t.(kt_peerIP) t.(kt_peerPort) t.(kt_trafficClass) t.(kt_profile)
    t.(kt_relayMode) t.(kt_relaySrcPeerId) t.(kt_relayDstPeerId) t.(kt_lastRecvTime)
    t.(kt_lastSendTime) t.(kt_dead) v t.(kt_fecEncoder) t.(kt_fecDecoder).
Definition set_kt_fecEncoder (v : option FecEncoder) (t : CliKcpTunnel) : CliKcpTunnel :=
  mkKcp t.(kt_kcp) t.(kt_peerIP) t.(kt_peerPort) t.(kt_trafficClass) t.(kt_profile)
    t.(kt_relayMode) t.(kt_relaySrcPeerId) t.(kt_relayDstPeerId) t.(kt_lastRecvTime)
    t.(kt_lastSendTime) t.(kt_dead) t.(kt_fecMode) v t.(kt_fecDecoder).
Definition set_kt_fecDecoder (v : option FecDecoder) (t : CliKcpTunnel) : CliKcpTunnel :=
  mkKcp t.(kt_kcp) t.(kt_peerIP) t.(kt_peerPort) t.(kt_trafficClass) t.(kt_profile)
    t.(kt_relayMode) t.(kt_relaySrcPeerId) t.(kt_relayDstPeerId) t.(kt_lastRecvTime)
    t.(kt_lastSendTime) t.(kt_dead) t.(kt_fecMode) t.(kt_fecEncoder) v.

Definition kcp_configure (mtu : Z) (profile : KcpProfile) (fec secureFrames : bool) (k : ikcpcb) : ikcpcb :=
  let k := ikcp_setmtu (kcpMtuFromRoomMtu mtu fec secureFrames) k in
  if decide (profile = KCP_PROFILE_BULK)
  then set_fastresend 4 (set_rx_minrto 30 (ikcp_wndsize 1024 1024 (ikcp_nodelay 1 20 4 0 k)))
  else set_fastresend 2 (set_rx_minrto 10 (ikcp_wndsize 256 256 (ikcp_nodelay 1 10 2 1 k))).
Definition CliKcpTunnel_init (now conv peerIP peerPort : Z) (mode : FecMode) (mtu : Z)
    (profile : KcpProfile) (cls : Z) (secureFrames : bool) : CliKcpTunnel :=
  let fec := negb (bool_decide (mode = FEC_NONE)) in
  mkKcp (kcp_configure mtu profile fec secureFrames (ikcp_create conv)) peerIP peerPort cls profile
    false 0 0 now now false mode
    (if fec then Some (FecEncoder_init mode) else None) (if fec then Some FecDecoder_init else None).
Definition kcp_setRelayMode (src dst : Z) (t : CliKcpTunnel) : CliKcpTunnel :=
  set_kt_relayDstPeerId dst (set_kt_relaySrcPeerId src (set_kt_relayMode true t)).
Definition kcp_getRttMs (t : CliKcpTunnel) : Z := rx_srtt (kt_kcp t).
(** [CliKcpTunnel::send]. *)
Definition kcp_send (data : bytes) (t : CliKcpTunnel) : Z * CliKcpTunnel :=
  if bool_decide (kt_profile t = KCP_PROFILE_BULK) && (2048 <? ikcp_waitsnd (kt_kcp t)) then (-1, t) else
  let '(r, k) := ikcp_send data (kt_kcp t) in (r, set_kt_kcp k t).
End Kcp.

(** ** [class CliPeerConnection]: data *)

Definition CLI_LATENCY_PROBE_MARKER : Z := 0xFE.
Definition CLI_LATENCY_PROBE_PING : Z := 0x01.
Definition CLI_LATENCY_PROBE_PONG : Z := 0x02.
Definition TCP_RELAY_KEEPALIVE_MS : Z := 10000.

(** The entries of the arrays [m_transport] ... [m_quality] at one index. *)
Record PeerClass := mkPeerClass {
  pn_transport : TransportType;
  pn_kcpTunnel : option Z;
  pn_rawUdpTunnel : option Z;
  pn_tcpRelayLastRecv : Z;
  pn_tcpRelayLastSend : Z;
  pn_quality : ProbeQualityTracker
}.
Definition set_pn_transport (v : TransportType) (s : PeerClass) : PeerClass :=
  mkPeerClass v s.(pn_kcpTunnel) s.(pn_rawUdpTunnel) s.(pn_tcpRelayLastRecv)
    s.(pn_tcpRelayLastSend) s.(pn_quality).
Definition set_pn_kcpTunnel (v : option Z) (s : PeerClass) : PeerClass :=
  mkPeerClass s.(pn_transport) v s.(pn_rawUdpTunnel) s.(pn_tcpRelayLastRecv)
    s.(pn_tcpRelayLastSend) s.(pn_quality).
Definition set_pn_rawUdpTunnel (v : option Z) (s : PeerClass) : PeerClass :=
  mkPeerClass s.(pn_transport) s.(pn_kcpTunnel) v s.(pn_tcpRelayLastRecv)
    s.(pn_tcpRelayLastSend) s.(pn_quality).
Definition set_pn_tcpRelayLastRecv (v : Z) (s : PeerClass) : PeerClass :=
  mkPeerClass s.(pn_transport) s.(pn_kcpTunnel) s.(pn_rawUdpTunnel) v
    s.(pn_tcpRelayLastSend) s.(pn_quality).
Definition set_pn_tcpRelayLastSend (v : Z) (s : PeerClass) : PeerClass :=
  mkPeerClass s.(pn_transport) s.(pn_kcpTunnel) s.(pn_rawUdpTunnel) s.(pn_tcpRelayLastRecv)
    v s.(pn_quality).
Definition set_pn_quality (v : ProbeQualityTracker) (s : PeerClass) : PeerClass :=
  mkPeerClass s.(pn_transport) s.(pn_kcpTunnel) s.(pn_rawUdpTunnel) s.(pn_tcpRelayLastRecv)
    s.(pn_tcpRelayLastSend) v.

(** The three slots; the callback [m_tcpSender] by the peer id its closure
    captured, [m_tcpControlReady] by whether it is set. *)
Record CliPeerConnection := mkPeer {
  pn_peerId : Z;
  pn_virtualIP : Z;
  pn_name : bytes;
  pn_any : PeerClass;
  pn_tcp : PeerClass;
  pn_udp : PeerClass;
  pn_tcpSender : option Z;
  pn_tcpControlReady : bool
}.
Definition set_pn_peerId (v : Z) (p : CliPeerConnection) : CliPeerConnection :=
  mkPeer v p.(pn_virtualIP) p.(pn_name) p.(pn_any) p.(pn_tcp) p.(pn_udp) p.(pn_tcpSender)
    p.(pn_tcpControlReady).
Definition set_pn_virtualIP (v : Z) (p : CliPeerConnection) : CliPeerConnection :=
  mkPeer p.(pn_peerId) v p.(pn_name) p.(pn_any) p.(pn_tcp) p.(pn_udp) p.(pn_tcpSender)
    p.(pn_tcpControlReady).
Definition set_pn_name (v : bytes) (p : CliPeerConnection) : CliPeerConnection :=
  mkPeer p.(pn_peerId) p.(pn_virtualIP) v p.(pn_any) p.(pn_tcp) p.(pn_udp) p.(pn_tcpSender)
    p.(pn_tcpControlReady).
Definition set_pn_any (v : PeerClass) (p : CliPeerConnection) : CliPeerConnection :=
  mkPeer p.(pn_peerId) p.(pn_virtualIP) p.(pn_name) v p.(pn_tcp) p.(pn_udp) p.(pn_tcpSender)
    p.(pn_tcpControlReady).
Definition set_pn_tcp (v : PeerClass) (p : CliPeerConnection) : CliPeerConnection :=
  mkPeer p.(pn_peerId) p.(pn_virtualIP) p.(pn_name) p.(pn_any) v p.(pn_udp) p.(pn_tcpSender)
    p.(pn_tcpControlReady).
Definition set_pn_udp (v : PeerClass) (p : CliPeerConnection) : CliPeerConnection :=
  mkPeer p.(pn_peerId) p.(pn_virtualIP) p.(pn_name) p.(pn_any) p.(pn_tcp) v p.(pn_tcpSender)
    p.(pn_tcpControlReady).
Definition set_pn_tcpSender (v : option Z) (p : CliPeerConnection) : CliPeerConnection :=
  mkPeer p.(pn_peerId) p.(pn_virtualIP) p.(pn_name) p.(pn_any) p.(pn_tcp) p.(pn_udp) v
    p.(pn_tcpControlReady).
Definition set_pn_tcpControlReady (v : bool) (p : CliPeerConnection) : CliPeerConnection :=
  mkPeer p.(pn_peerId) p.(pn_virtualIP) p.(pn_name) p.(pn_any) p.(pn_tcp) p.(pn_udp)
    p.(pn_tcpSender) v.

Definition PeerClass_init (now : Z) : PeerClass :=
  mkPeerClass TRANSPORT_NONE None None now now ProbeQualityTracker_init.
Definition CliPeerConnection_init (now peerId virtualIP : Z) (name : bytes) : CliPeerConnection :=
  mkPeer peerId virtualIP name (PeerClass_init now) (PeerClass_init now) (PeerClass_init now) None false.

(** [int idx = cls; if (idx < 0 || idx > 2) idx = TRAFFIC_UDP;]. *)
Definition class_index (cls : Z) : Z := if (cls <? 0) || (2 <? cls) then TRAFFIC_UDP else cls.
Definition slot_at (idx : Z) (p : CliPeerConnection) : PeerClass :=
  if idx =? 0 then pn_any p else if idx =? TRAFFIC_TCP then pn_tcp p else pn_udp p.
Definition upd_slot (idx : Z) (f : PeerClass -> PeerClass) (p : CliPeerConnection) : CliPeerConnection :=
  if idx =? 0 then set_pn_any (f (pn_any p)) p
  else if idx =? TRAFFIC_TCP then set_pn_tcp (f (pn_tcp p)) p else set_pn_udp (f (pn_udp p)) p.

Definition transport (cls : Z) (p : CliPeerConnection) : TransportType :=
  pn_transport (slot_at (class_index cls) p).
Definition setKcpTunnel (cls : Z) (key : option Z) : CliPeerConnection -> CliPeerConnection :=
  upd_slot (class_index cls) (set_pn_kcpTunnel key).
Definition setRawUdpTunnel (cls : Z) (key : option Z) : CliPeerConnection -> CliPeerConnection :=
  upd_slot (class_index cls) (set_pn_rawUdpTunnel key).
Definition kcpTunnel (cls : Z) (p : CliPeerConnection) : option Z := pn_kcpTunnel (slot_at (class_index cls) p).
Definition rawUdpTunnel (cls : Z) (p : CliPeerConnection) : option Z := pn_rawUdpTunnel (slot_at (class_index cls) p).
Definition setTransport (cls : Z) (t : TransportType) : CliPeerConnection -> CliPeerConnection :=
  upd_slot (class_index cls) (fun s =>
    let s := if decide (pn_transport s = t) then s
             else set_pn_quality (setPath (TransportType_u8 t) (pn_quality s)) s in
    set_pn_transport t s).
Definition clearTransport (now cls : Z) : CliPeerConnection -> CliPeerConnection :=
  upd_slot (class_index cls) (fun s =>
    set_pn_quality (suspend (pn_quality s))
      (set_pn_tcpRelayLastSend now (set_pn_tcpRelayLastRecv now (set_pn_transport TRANSPORT_NONE s)))).
Definition class_index_tcp (cls : Z) : Z := if (cls <? 0) || (2 <? cls) then TRAFFIC_TCP else cls.
Definition onTcpRelayDataReceived (now cls : Z) : CliPeerConnection -> CliPeerConnection :=
  upd_slot (class_index_tcp cls) (set_pn_tcpRelayLastRecv now).
Definition isTcpRelayDead (now cls : Z) (p : CliPeerConnection) : bool :=
  let s := slot_at (class_index_tcp cls) p in
  bool_decide (pn_transport s = TRANSPORT_RELAY_TCP) && (TCP_RELAY_DEAD_MS <? u32 (now - pn_tcpRelayLastRecv s)).
Definition isTcpRelayDead_any (now : Z) (p : CliPeerConnection) : bool :=
  isTcpRelayDead now TRAFFIC_TCP p || isTcpRelayDead now TRAFFIC_UDP p.
Definition peer_latencyMs (now cls : Z) (p : CliPeerConnection) : Z :=
  latencyMs now (pn_quality (slot_at (class_index cls) p)).
Definition qualitySnapshot (now cls : Z) (p : CliPeerConnection) : ProbeQualitySnapshot * CliPeerConnection :=
  let q := pn_quality (slot_at (class_index cls) p) in
  (fst (snapshot now q), upd_slot (class_index cls) (set_pn_quality (snd (snapshot now q))) p).
Definition resetQuality (p : CliPeerConnection) : CliPeerConnection :=
  let f s := set_pn_quality (pq_reset (pn_quality s)) s in
  upd_slot 0 f (upd_slot TRAFFIC_TCP f (upd_slot TRAFFIC_UDP f p)).
Definition reportLocalTransportSend (now cls : Z) (success : bool) : CliPeerConnection -> CliPeerConnection :=
  upd_slot (class_index cls) (fun s => set_pn_quality (reportTransportSend now success (pn_quality s)) s).

(** ** An instance of the KCP interface

    A control block that loses nothing: what is sent waits for the next
    [ikcp_update], what is input is received at once, message by message. *)
Definition ToyKcp : Ikcp := {|
  ikcpcb := list bytes * list bytes;
  ikcp_create := fun _ => ([], []);
  ikcp_setmtu := fun _ k => k;
  ikcp_nodelay := fun _ _ _ _ k => k;
  ikcp_wndsize := fun _ _ k => k;
  set_rx_minrto := fun _ k => k;
  set_fastresend := fun _ k => k;
  ikcp_input := fun p k => (fst k, snd k ++ [p]);
  ikcp_send := fun p k => (0, (fst k ++ [p], snd k));
  ikcp_recv := fun _ k => match snd k with [] => (None, k) | p :: q => (Some p, (fst k, q)) end;
  ikcp_update := fun _ k => (fst k, ([], snd k));
  ikcp_waitsnd := fun k => len (fst k);
  rx_srtt := fun _ => 0;
  kcp_received := fun k => length (snd k)
|}.
Lemma ToyKcpLaws : @IkcpLaws ToyKcp.
Proof.
  constructor; [|done]. intros n [out [|q l]] p k' E; cbn in E; [done|]. injection E as <- <-. cbn. lia.
Qed.
