(* ===== verification/RawUdp.v ===== *)
(** * [client-cli/src/cli_peer.cpp]: [class CliRawUdpTunnel]

    The unreliable transport between two members of a room: an IP packet is
    cut into fragments that fit the room's MTU and reassembled at the other
    end, optionally through forward error correction, with keep-alive and
    latency probes in the same framing.  The callbacks [m_udpSend], [m_onData]
    and [m_onDead] are outputs ([OutUdp], [OutData], [OutDead]); the clock
    [currentTimeMs()] is the argument [now] of each operation. *)

From S2P Require Import Prelude Protocol Room Store Fec.

Definition RAW_UDP_KEEPALIVE_MARKER : Z := 0x00.
Definition RAW_UDP_LATENCY_PING : Z := 0x01.
Definition RAW_UDP_LATENCY_PONG : Z := 0x02.

Record ReassemblyEntry := mkEntry {
  re_totalLen : Z;
  re_fragTotal : Z;
  re_receivedCount : Z;
  re_createTime : Z;
  re_fragments : gmap Z bytes
}.
Record RawUdpTunnel := mkRaw {
  ru_peerIP : Z; ru_peerPort : Z; ru_trafficClass : Z;
  ru_relayMode : bool; ru_relaySrcPeerId : Z; ru_relayDstPeerId : Z;
  ru_nextMsgId : Z; ru_lastRecvTime : Z; ru_lastSendTime : Z; ru_dead : bool; ru_rttMs : Z;
  ru_reassembly : Store ReassemblyEntry;
  ru_fecMode : FecMode; ru_fecEncoder : option FecEncoder; ru_fecDecoder : option FecDecoder;
  ru_roomMtu : Z; ru_secureFrames : bool
}.
Inductive TunnelOut :=
  | OutUdp (pkt : bytes) (ip port : Z)
  | OutData (packet : bytes)
  | OutDead.

(** ** Field updates *)

Definition upd_raw (msgId recv send : Z) (dead : bool) (rtt : Z) (re : Store ReassemblyEntry)
    (enc : option FecEncoder) (dec : option FecDecoder) (t : RawUdpTunnel) : RawUdpTunnel :=
  mkRaw (ru_peerIP t) (ru_peerPort t) (ru_trafficClass t) (ru_relayMode t) (ru_relaySrcPeerId t)
    (ru_relayDstPeerId t) msgId recv send dead rtt re (ru_fecMode t) enc dec (ru_roomMtu t)
    (ru_secureFrames t).
Definition set_nextMsgId v t := upd_raw v (ru_lastRecvTime t) (ru_lastSendTime t) (ru_dead t)
  (ru_rttMs t) (ru_reassembly t) (ru_fecEncoder t) (ru_fecDecoder t) t.
Definition set_lastRecv v t := upd_raw (ru_nextMsgId t) v (ru_lastSendTime t) false
  (ru_rttMs t) (ru_reassembly t) (ru_fecEncoder t) (ru_fecDecoder t) t.
Definition set_lastSend v t := upd_raw (ru_nextMsgId t) (ru_lastRecvTime t) v (ru_dead t)
  (ru_rttMs t) (ru_reassembly t) (ru_fecEncoder t) (ru_fecDecoder t) t.
Definition set_dead v t := upd_raw (ru_nextMsgId t) (ru_lastRecvTime t) (ru_lastSendTime t) v
  (ru_rttMs t) (ru_reassembly t) (ru_fecEncoder t) (ru_fecDecoder t) t.
Definition set_rttMs v t := upd_raw (ru_nextMsgId t) (ru_lastRecvTime t) (ru_lastSendTime t) (ru_dead t)
  v (ru_reassembly t) (ru_fecEncoder t) (ru_fecDecoder t) t.
Definition set_reassembly v t := upd_raw (ru_nextMsgId t) (ru_lastRecvTime t) (ru_lastSendTime t)
  (ru_dead t) (ru_rttMs t) v (ru_fecEncoder t) (ru_fecDecoder t) t.
Definition set_encoder v t := upd_raw (ru_nextMsgId t) (ru_lastRecvTime t) (ru_lastSendTime t)
  (ru_dead t) (ru_rttMs t) (ru_reassembly t) v (ru_fecDecoder t) t.
Definition set_decoder v t := upd_raw (ru_nextMsgId t) (ru_lastRecvTime t) (ru_lastSendTime t)
  (ru_dead t) (ru_rttMs t) (ru_reassembly t) (ru_fecEncoder t) v t.

(** ** The reassembly table *)

Definition entry_size (e : ReassemblyEntry) : Z := blocks_size (re_fragments e).
Definition removeReassemblyEntry (msgId : Z) (s : Store ReassemblyEntry) : Store ReassemblyEntry :=
  store_remove entry_size msgId s.
Definition ensureReassemblyCapacity (incoming : Z) (newMessage : bool) (s : Store ReassemblyEntry)
    : bool * Store ReassemblyEntry :=
  store_reserve entry_size re_createTime RAW_UDP_MAX_REASSEMBLY_BYTES RAW_UDP_MAX_ACTIVE_MESSAGES
    incoming newMessage s.
Definition cleanupStaleEntries (now : Z) (s : Store ReassemblyEntry) : Store ReassemblyEntry :=
  store_expire entry_size re_createTime RAW_UDP_FRAG_TIMEOUT_MS now s.

(** The fragments in order, if all of them are there. *)
Definition assemble (e : ReassemblyEntry) : option bytes :=
  option_map (@concat Z) (mapM (fun i => re_fragments e !! i) (seqZ 0 (re_fragTotal e))).

(** The end of [processFrag]: nothing, or the reassembled packet. *)
Definition finish_entry (msgId : Z) (s : Store ReassemblyEntry) : list bytes * Store ReassemblyEntry :=
  match st_map s !! msgId with
  | None => ([], s)
  | Some e =>
      if re_fragTotal e <=? re_receivedCount e then
        match assemble e with
        | None => ([], removeReassemblyEntry msgId s)
        | Some p => ((if len p =? re_totalLen e then [p] else []), removeReassemblyEntry msgId s)
        end
      else ([], s)
  end.
(** Adding a fragment to an entry. *)
Definition with_fragment (i : Z) (payload : bytes) (e : ReassemblyEntry) : ReassemblyEntry :=
  mkEntry (re_totalLen e) (re_fragTotal e) (u8 (re_receivedCount e + 1)) (re_createTime e)
    (<[i := payload]> (re_fragments e)).
Definition add_fragment (msgId fragIndex : Z) (payload : bytes) (s : Store ReassemblyEntry)
    : list bytes * Store ReassemblyEntry :=
  match st_map s !! msgId with
  | None => ([], s)
  | Some e =>
      match re_fragments e !! fragIndex with
      | Some _ => finish_entry msgId s
      | None =>
          let '(ok, s) := ensureReassemblyCapacity (len payload) false s in
          if negb ok then ([], s) else
          match st_map s !! msgId with
          | None => ([], s)
          | Some e =>
              finish_entry msgId (mkStore (<[msgId := with_fragment fragIndex payload e]> (st_map s))
                                    (st_bytes s + len payload))
          end
      end
  end.
(** [processFrag] from the lookup of an entry on: a fragment of a message of
    more than one, whose sizes have been checked. *)
Definition store_fragment (now msgId fragIndex fragTotal totalLen : Z) (payload : bytes)
    (s : Store ReassemblyEntry) : list bytes * Store ReassemblyEntry :=
  match st_map s !! msgId with
  | Some e =>
      if negb (re_totalLen e =? totalLen) || negb (re_fragTotal e =? fragTotal)
      then ([], removeReassemblyEntry msgId s) else add_fragment msgId fragIndex payload s
  | None =>
      let '(ok, s) := ensureReassemblyCapacity (len payload) true s in
      if negb ok then ([], s) else
      add_fragment msgId fragIndex payload (store_set msgId (mkEntry totalLen fragTotal 0 now ∅) s)
  end.

Section Tunnel.
Context `{CM256}.

Definition CliRawUdpTunnel_init (now peerIP peerPort : Z) (mode : FecMode) (mtu trafficClass : Z)
    (secureFrames : bool) : RawUdpTunnel :=
  let fec := negb (bool_decide (mode = FEC_NONE)) in
  mkRaw peerIP peerPort trafficClass false 0 0 0 now now false (-1) store_empty mode
    (if fec then Some (FecEncoder_init mode) else None)
    (if fec then Some FecDecoder_init else None)
    (normalizeRoomMtu mtu) secureFrames.
Definition setRelayMode (src dst : Z) (t : RawUdpTunnel) : RawUdpTunnel :=
  mkRaw (ru_peerIP t) (ru_peerPort t) (ru_trafficClass t) true src dst (ru_nextMsgId t)
    (ru_lastRecvTime t) (ru_lastSendTime t) (ru_dead t) (ru_rttMs t) (ru_reassembly t)
    (ru_fecMode t) (ru_fecEncoder t) (ru_fecDecoder t) (ru_roomMtu t) (ru_secureFrames t).

Definition maxFragmentPayload (t : RawUdpTunnel) : Z :=
  transportPayloadBudget (ru_roomMtu t) MODE_RELAY_RAW_UDP
    (negb (bool_decide (ru_fecMode t = FEC_NONE))) (ru_secureFrames t).

(** ** Sending *)

Definition relay_header (type trafficClass src dst : Z) : bytes :=
  [type; u8 trafficClass] ++ be_bytes 4 (u32 src) ++ be_bytes 4 (u32 dst).
Definition raw_header (t : RawUdpTunnel) : bytes :=
  if ru_relayMode t
  then relay_header UDP_RAW_RELAY_DATA (ru_trafficClass t) (ru_relaySrcPeerId t) (ru_relayDstPeerId t)
  else [UDP_RAW_RELAY_DATA].
Definition sendRawPacket (now : Z) (payload : bytes) (t : RawUdpTunnel) : list TunnelOut * RawUdpTunnel :=
  ([OutUdp (raw_header t ++ payload) (ru_peerIP t) (ru_peerPort t)], set_lastSend now t).

Definition frag_header (msgId fragIndex fragTotal totalLen : Z) : bytes :=
  be_bytes 2 (u16 msgId) ++ [u8 fragIndex; u8 fragTotal] ++ be_bytes 2 (u16 totalLen).
Definition sendFragment (now : Z) (data : bytes) (fragIndex fragTotal msgId totalLen : Z)
    (t : RawUdpTunnel) : list TunnelOut * RawUdpTunnel :=
  let innerPayload := frag_header msgId fragIndex fragTotal totalLen ++ data in
  match ru_fecEncoder t with
  | Some e =>
      if bool_decide (ru_fecMode t = FEC_NONE) then sendRawPacket now innerPayload t else
      let '(pkts, e) := enc_addPacket now innerPayload e in
      emit_all (sendRawPacket now) pkts (set_encoder (Some e) t)
  | None => sendRawPacket now innerPayload t
  end.
(** [m_nextMsgId++]. *)
Definition takeMsgId (t : RawUdpTunnel) : Z * RawUdpTunnel :=
  (ru_nextMsgId t, set_nextMsgId (u16 (ru_nextMsgId t + 1)) t).

(** [send]: the result, then outputs and state. *)
Definition raw_send (now : Z) (ipPacket : bytes) (t : RawUdpTunnel)
    : Z * (list TunnelOut * RawUdpTunnel) :=
  if len ipPacket =? 0 then (0, ([], t)) else
  if ru_roomMtu t <? len ipPacket then (-1, ([], t)) else
  let '(msgId, t) := takeMsgId t in
  let totalLen := len ipPacket in
  let maxPayload := maxFragmentPayload t in
  let fragTotal := (totalLen + maxPayload - 1) / maxPayload in
  if (fragTotal <=? 0) || (255 <? fragTotal) then (-1, ([], t)) else
  (totalLen, emit_all (fun i =>
     let offset := i * maxPayload in
     let fragLen := Z.min maxPayload (totalLen - offset) in
     sendFragment now (slice offset fragLen ipPacket) i fragTotal msgId totalLen)
     (seqZ 0 fragTotal) t).

(** ** Receiving *)

(** A message of one fragment: a keep-alive, a probe, or a packet. *)
Definition process_single (now : Z) (payload : bytes) (totalLen : Z) (t : RawUdpTunnel)
    : list TunnelOut * RawUdpTunnel :=
  if (len payload =? 1) && (byte_at payload 0 =? RAW_UDP_KEEPALIVE_MARKER) && (totalLen =? 1)
  then ([], t) else
  let deliver := ((if len payload =? totalLen then [OutData payload] else []), t) in
  if (len payload =? 5) && (totalLen =? 5) then
    let probeType := byte_at payload 0 in
    if probeType =? RAW_UDP_LATENCY_PING then
      let '(msgId, t) := takeMsgId t in
      sendFragment now (RAW_UDP_LATENCY_PONG :: slice 1 4 payload) 0 1 msgId 5 t
    else if probeType =? RAW_UDP_LATENCY_PONG then
      let sentTs := be_value (slice 1 4 payload) in
      let rtt := i32 (now - sentTs) in
      ([], set_rttMs (if rtt <? 0 then 0 else rtt) t)
    else deliver
  else deliver.

Definition processFrag (now : Z) (data : bytes) (t : RawUdpTunnel) : list TunnelOut * RawUdpTunnel :=
  if len data <? sizeof_FragHeader then ([], t) else
  let msgId := u16 (be_value (slice 0 2 data)) in
  let fragIndex := u8 (byte_at data 2) in
  let fragTotal := u8 (byte_at data 3) in
  let totalLen := u16 (be_value (slice 4 2 data)) in
  let payload := drop (Z.to_nat sizeof_FragHeader) data in
  let payloadLen := len data - sizeof_FragHeader in
  if (payloadLen <=? 0) || (fragTotal =? 0) || (fragTotal <=? fragIndex) ||
     (totalLen =? 0) || (ru_roomMtu t <? totalLen) then ([], t) else
  let maxPayload := maxFragmentPayload t in
  let expectedTotal := (totalLen + maxPayload - 1) / maxPayload in
  if negb (expectedTotal =? fragTotal) then ([], t) else
  let expectedLength := if fragIndex + 1 =? fragTotal
                        then totalLen - maxPayload * (fragTotal - 1) else maxPayload in
  if negb (payloadLen =? expectedLength) then ([], t) else
  if fragTotal =? 1 then process_single now payload totalLen t else
  let '(packets, s) := store_fragment now msgId fragIndex fragTotal totalLen payload (ru_reassembly t) in
  (map OutData packets, set_reassembly s t).

Definition raw_feedInput (now : Z) (data : bytes) (t : RawUdpTunnel) : list TunnelOut * RawUdpTunnel :=
  if len data <=? 0 then ([], t) else
  let t := set_lastRecv now t in
  match ru_fecDecoder t with
  | Some d =>
      if bool_decide (ru_fecMode t = FEC_NONE) then processFrag now data t else
      let '(payloads, d) := dec_addPacket now data d in
      emit_all (processFrag now) payloads (set_decoder (Some d) t)
  | None => processFrag now data t
  end.

(** ** Timer *)

Definition raw_keepalive (now : Z) (t : RawUdpTunnel) : list TunnelOut * RawUdpTunnel :=
  if RAW_UDP_KEEPALIVE_MS <? u32 (now - ru_lastSendTime t) then
    let '(msgId, t) := takeMsgId t in
    sendFragment now (RAW_UDP_LATENCY_PING :: be_bytes 4 now) 0 1 msgId 5 t
  else ([], t).
Definition raw_update (now : Z) (t : RawUdpTunnel) : list TunnelOut * RawUdpTunnel :=
  if negb (ru_dead t) && (RAW_UDP_DEAD_TIMEOUT_MS <? u32 (now - ru_lastRecvTime t))
  then ([OutDead], set_dead true t) else
  and_then (raw_keepalive now t) (fun t =>
  and_then (match ru_fecEncoder t with
            | Some e => let '(pkts, e) := enc_update e in
                        emit_all (sendRawPacket now) pkts (set_encoder (Some e) t)
            | None => ([], t)
            end) (fun t =>
  let t := match ru_fecDecoder t with
           | Some d => set_decoder (Some (dec_cleanup now d)) t
           | None => t
           end in
  ([], set_reassembly (cleanupStaleEntries now (ru_reassembly t)) t))).
End Tunnel.
