(* ===== verification/TunnelManager.v ===== *)
(** * [class CliTunnelManager] of [client-cli/src/cli_tunnel.cpp], and the
      methods of its peers and tunnels that call back into it

    The manager owns the peers of a room, the tunnels to them and the cipher of
    the UDP path, and joins them to the virtual adapter: a packet read from the
    adapter goes to a peer, through a tunnel, encrypted, to the relay server; a
    datagram from the server goes back the same way.

    C++ objects are values filed in the manager, and a pointer to one is its
    key; following a pointer to an object that is gone is an exception of the
    model ([throw]), where the program has undefined behaviour.  A tunnel calls
    its owner back with the peer and class it was created for ([Owned]).  What
    a tunnel hands to its callbacks is handled in the order it does so; between
    two such calls the tunnels touch nothing the callbacks read.

    The clock is [tm_now]; [tm_sends] and [tm_writes] hold the results of the
    coming calls of [sendto] (an error number, 0 for success, which is also the
    result when the list is empty) and of [writePacket].  The callbacks of the
    application are the events [tm_out], except [onTunnelDead], which is the
    application's [onTransportDead]. *)

From stdpp Require Import pretty.
From S2P Require Import Prelude Protocol Room SecureFrame Overlay TcpConn CliSignalState Fec ProbeQuality PeerConn Store RawUdp.

(** ** State *)

Record Owned (T : Type) := mkOwned { ow_peer : Z; ow_cls : Z; ow_tunnel : T }.
Arguments mkOwned {T}.
Arguments ow_peer {T}.
Arguments ow_cls {T}.
Arguments ow_tunnel {T}.
Definition set_tunnel {T} (t : T) (o : Owned T) : Owned T := mkOwned (ow_peer o) (ow_cls o) t.

(** What the manager uses of the adapter: whether it runs, and its queue. *)
Record TunAdapter := mkTun { ta_running : bool; ta_recvQueue : list bytes }.

(** What the program does to the outside, in order: a datagram given to
    [sendto], a packet given to [writePacket], the callback
    [onSecurityFailure], a packet given to the TCP relay and a request for one
    sent to the server. *)
Inductive LinkEvent :=
| EvSendTo (pkt : bytes) (ip port : Z)
| EvTunWrite (packet : bytes)
| EvSecurityFailure (message : bytes)
| EvTcpRelay (myId peerId cls : Z) (data : bytes)
| EvRequestRelay (peerId : Z).

(** The fields of [CliApp] that concern the peers and their tunnels;
    [la_myPeerId] is [m_signal.myPeerId()], [la_serverIP] the number in
    [m_resolvedIP], [la_hasTun] whether [m_tun] is set, [la_signalConnected] and
    [la_dataConnected] the [isConnected()] of the two connections. *)
Record AppLinks := mkLinks {
  la_pendingRebuild : gset Z;
  la_myPeerId : Z;
  la_myVirtualIP : Z;
  la_roomMtu : Z;
  la_serverIP : Z;
  la_port : Z;
  la_tcpPolicy : RoomTrafficPolicy;
  la_udpPolicy : RoomTrafficPolicy;
  la_roomReady : bool;
  la_tunSetupPending : bool;
  la_hasTun : bool;
  la_signalConnected : bool;
  la_dataConnected : bool;
  la_pendingRoomMembers : gmap Z PeerInfo;
  la_pendingRoomRelays : gset Z
}.
Definition set_la_pendingRebuild (v : gset Z) (a : AppLinks) : AppLinks :=
  mkLinks v a.(la_myPeerId) a.(la_myVirtualIP) a.(la_roomMtu) a.(la_serverIP) a.(la_port)
    a.(la_tcpPolicy) a.(la_udpPolicy) a.(la_roomReady) a.(la_tunSetupPending) a.(la_hasTun)
    a.(la_signalConnected) a.(la_dataConnected) a.(la_pendingRoomMembers)
    a.(la_pendingRoomRelays).
Definition set_la_myPeerId (v : Z) (a : AppLinks) : AppLinks :=
  mkLinks a.(la_pendingRebuild) v a.(la_myVirtualIP) a.(la_roomMtu) a.(la_serverIP)
    a.(la_port) a.(la_tcpPolicy) a.(la_udpPolicy) a.(la_roomReady) a.(la_tunSetupPending)
    a.(la_hasTun) a.(la_signalConnected) a.(la_dataConnected) a.(la_pendingRoomMembers)
    a.(la_pendingRoomRelays).
Definition set_la_myVirtualIP (v : Z) (a : AppLinks) : AppLinks :=
  mkLinks a.(la_pendingRebuild) a.(la_myPeerId) v a.(la_roomMtu) a.(la_serverIP) a.(la_port)
    a.(la_tcpPolicy) a.(la_udpPolicy) a.(la_roomReady) a.(la_tunSetupPending) a.(la_hasTun)
    a.(la_signalConnected) a.(la_dataConnected) a.(la_pendingRoomMembers)
    a.(la_pendingRoomRelays).
Definition set_la_roomMtu (v : Z) (a : AppLinks) : AppLinks :=
  mkLinks a.(la_pendingRebuild) a.(la_myPeerId) a.(la_myVirtualIP) v a.(la_serverIP)
    a.(la_port) a.(la_tcpPolicy) a.(la_udpPolicy) a.(la_roomReady) a.(la_tunSetupPending)
    a.(la_hasTun) a.(la_signalConnected) a.(la_dataConnected) a.(la_pendingRoomMembers)
    a.(la_pendingRoomRelays).
Definition set_la_serverIP (v : Z) (a : AppLinks) : AppLinks :=
  mkLinks a.(la_pendingRebuild) a.(la_myPeerId) a.(la_myVirtualIP) a.(la_roomMtu) v
    a.(la_port) a.(la_tcpPolicy) a.(la_udpPolicy) a.(la_roomReady) a.(la_tunSetupPending)
    a.(la_hasTun) a.(la_signalConnected) a.(la_dataConnected) a.(la_pendingRoomMembers)
    a.(la_pendingRoomRelays).
Definition set_la_port (v : Z) (a : AppLinks) : AppLinks :=
  mkLinks a.(la_pendingRebuild) a.(la_myPeerId) a.(la_myVirtualIP) a.(la_roomMtu)
    a.(la_serverIP) v a.(la_tcpPolicy) a.(la_udpPolicy) a.(la_roomReady)
    a.(la_tunSetupPending) a.(la_hasTun) a.(la_signalConnected) a.(la_dataConnected)
    a.(la_pendingRoomMembers) a.(la_pendingRoomRelays).
Definition set_la_tcpPolicy (v : RoomTrafficPolicy) (a : AppLinks) : AppLinks :=
  mkLinks a.(la_pendingRebuild) a.(la_myPeerId) a.(la_myVirtualIP) a.(la_roomMtu)
    a.(la_serverIP) a.(la_port) v a.(la_udpPolicy) a.(la_roomReady) a.(la_tunSetupPending)
    a.(la_hasTun) a.(la_signalConnected) a.(la_dataConnected) a.(la_pendingRoomMembers)
    a.(la_pendingRoomRelays).
Definition set_la_udpPolicy (v : RoomTrafficPolicy) (a : AppLinks) : AppLinks :=
  mkLinks a.(la_pendingRebuild) a.(la_myPeerId) a.(la_myVirtualIP) a.(la_roomMtu)
    a.(la_serverIP) a.(la_port) a.(la_tcpPolicy) v a.(la_roomReady) a.(la_tunSetupPending)
    a.(la_hasTun) a.(la_signalConnected) a.(la_dataConnected) a.(la_pendingRoomMembers)
    a.(la_pendingRoomRelays).
Definition set_la_roomReady (v : bool) (a : AppLinks) : AppLinks :=
  mkLinks a.(la_pendingRebuild) a.(la_myPeerId) a.(la_myVirtualIP) a.(la_roomMtu)
    a.(la_serverIP) a.(la_port) a.(la_tcpPolicy) a.(la_udpPolicy) v a.(la_tunSetupPending)
    a.(la_hasTun) a.(la_signalConnected) a.(la_dataConnected) a.(la_pendingRoomMembers)
    a.(la_pendingRoomRelays).
Definition set_la_tunSetupPending (v : bool) (a : AppLinks) : AppLinks :=
  mkLinks a.(la_pendingRebuild) a.(la_myPeerId) a.(la_myVirtualIP) a.(la_roomMtu)
    a.(la_serverIP) a.(la_port) a.(la_tcpPolicy) a.(la_udpPolicy) a.(la_roomReady) v
    a.(la_hasTun) a.(la_signalConnected) a.(la_dataConnected) a.(la_pendingRoomMembers)
    a.(la_pendingRoomRelays).
Definition set_la_hasTun (v : bool) (a : AppLinks) : AppLinks :=
  mkLinks a.(la_pendingRebuild) a.(la_myPeerId) a.(la_myVirtualIP) a.(la_roomMtu)
    a.(la_serverIP) a.(la_port) a.(la_tcpPolicy) a.(la_udpPolicy) a.(la_roomReady)
    a.(la_tunSetupPending) v a.(la_signalConnected) a.(la_dataConnected)
    a.(la_pendingRoomMembers) a.(la_pendingRoomRelays).
Definition set_la_signalConnected (v : bool) (a : AppLinks) : AppLinks :=
  mkLinks a.(la_pendingRebuild) a.(la_myPeerId) a.(la_myVirtualIP) a.(la_roomMtu)
    a.(la_serverIP) a.(la_port) a.(la_tcpPolicy) a.(la_udpPolicy) a.(la_roomReady)
    a.(la_tunSetupPending) a.(la_hasTun) v a.(la_dataConnected) a.(la_pendingRoomMembers)
    a.(la_pendingRoomRelays).
Definition set_la_dataConnected (v : bool) (a : AppLinks) : AppLinks :=
  mkLinks a.(la_pendingRebuild) a.(la_myPeerId) a.(la_myVirtualIP) a.(la_roomMtu)
    a.(la_serverIP) a.(la_port) a.(la_tcpPolicy) a.(la_udpPolicy) a.(la_roomReady)
    a.(la_tunSetupPending) a.(la_hasTun) a.(la_signalConnected) v a.(la_pendingRoomMembers)
    a.(la_pendingRoomRelays).
Definition set_la_pendingRoomMembers (v : gmap Z PeerInfo) (a : AppLinks) : AppLinks :=
  mkLinks a.(la_pendingRebuild) a.(la_myPeerId) a.(la_myVirtualIP) a.(la_roomMtu)
    a.(la_serverIP) a.(la_port) a.(la_tcpPolicy) a.(la_udpPolicy) a.(la_roomReady)
    a.(la_tunSetupPending) a.(la_hasTun) a.(la_signalConnected) a.(la_dataConnected) v
    a.(la_pendingRoomRelays).
Definition set_la_pendingRoomRelays (v : gset Z) (a : AppLinks) : AppLinks :=
  mkLinks a.(la_pendingRebuild) a.(la_myPeerId) a.(la_myVirtualIP) a.(la_roomMtu)
    a.(la_serverIP) a.(la_port) a.(la_tcpPolicy) a.(la_udpPolicy) a.(la_roomReady)
    a.(la_tunSetupPending) a.(la_hasTun) a.(la_signalConnected) a.(la_dataConnected)
    a.(la_pendingRoomMembers) v.
Definition AppLinks_init : AppLinks :=
  mkLinks ∅ 0 0 ROOM_MTU_DEFAULT 0 0 makeDefaultTcpPolicy makeDefaultUdpPolicy false false false false false ∅ ∅.

Section Manager.
Context `{Crypto} `{CM256} `{Ikcp}.

Record CliTunnelManager := mkTM {
  tm_tun : option TunAdapter;
  tm_udpFd : Z;
  tm_localUdpPort : Z;
  tm_peerById : gmap Z CliPeerConnection;
  tm_peerByVIP : gmap Z Z;
  tm_kcpByPeerClass : gmap Z (Owned CliKcpTunnel);
  tm_rawByPeerClass : gmap Z (Owned RawUdpTunnel);
  tm_pendingTransportDead : gset Z;
  tm_serverIP : Z;
  tm_serverPort : Z;
  tm_myPeerId : Z;
  tm_myVirtualIP : Z;
  tm_roomMtu : Z;
  tm_dataPlaneState : DataPlaneState;
  tm_securityMode : DataPlaneSecurityMode;
  tm_secureSessionId : Z;
  tm_secureMaster : bytes;
  tm_udpCipher : SecureFrameCipher;
  tm_packetDrops : gmap string Z;
  tm_lastDropLogMs : Z;
  tm_hasDropLog : bool;
  tm_app : AppLinks;
  tm_now : Z;
  tm_echoId : Z;
  tm_sends : list Z;
  tm_writes : list bool;
  tm_out : list LinkEvent
}.
Definition set_tm_tun (v : option TunAdapter) (m : CliTunnelManager) : CliTunnelManager :=
  mkTM v m.(tm_udpFd) m.(tm_localUdpPort) m.(tm_peerById) m.(tm_peerByVIP)
    m.(tm_kcpByPeerClass) m.(tm_rawByPeerClass) m.(tm_pendingTransportDead) m.(tm_serverIP)
    m.(tm_serverPort) m.(tm_myPeerId) m.(tm_myVirtualIP) m.(tm_roomMtu)
    m.(tm_dataPlaneState) m.(tm_securityMode) m.(tm_secureSessionId) m.(tm_secureMaster)
    m.(tm_udpCipher) m.(tm_packetDrops) m.(tm_lastDropLogMs) m.(tm_hasDropLog) m.(tm_app)
    m.(tm_now) m.(tm_echoId) m.(tm_sends) m.(tm_writes) m.(tm_out).
Definition set_tm_udpFd (v : Z) (m : CliTunnelManager) : CliTunnelManager :=
  mkTM m.(tm_tun) v m.(tm_localUdpPort) m.(tm_peerById) m.(tm_peerByVIP)
    m.(tm_kcpByPeerClass) m.(tm_rawByPeerClass) m.(tm_pendingTransportDead) m.(tm_serverIP)
    m.(tm_serverPort) m.(tm_myPeerId) m.(tm_myVirtualIP) m.(tm_roomMtu)
    m.(tm_dataPlaneState) m.(tm_securityMode) m.(tm_secureSessionId) m.(tm_secureMaster)
    m.(tm_udpCipher) m.(tm_packetDrops) m.(tm_lastDropLogMs) m.(tm_hasDropLog) m.(tm_app)
    m.(tm_now) m.(tm_echoId) m.(tm_sends) m.(tm_writes) m.(tm_out).
Definition set_tm_localUdpPort (v : Z) (m : CliTunnelManager) : CliTunnelManager :=
  mkTM m.(tm_tun) m.(tm_udpFd) v m.(tm_peerById) m.(tm_peerByVIP) m.(tm_kcpByPeerClass)
    m.(tm_rawByPeerClass) m.(tm_pendingTransportDead) m.(tm_serverIP) m.(tm_serverPort)
    m.(tm_myPeerId) m.(tm_myVirtualIP) m.(tm_roomMtu) m.(tm_dataPlaneState)
    m.(tm_securityMode) m.(tm_secureSessionId) m.(tm_secureMaster) m.(tm_udpCipher)
    m.(tm_packetDrops) m.(tm_lastDropLogMs) m.(tm_hasDropLog) m.(tm_app) m.(tm_now)
    m.(tm_echoId) m.(tm_sends) m.(tm_writes) m.(tm_out).
Definition set_tm_peerById (v : gmap Z CliPeerConnection) (m : CliTunnelManager) : CliTunnelManager :=
  mkTM m.(tm_tun) m.(tm_udpFd) m.(tm_localUdpPort) v m.(tm_peerByVIP) m.(tm_kcpByPeerClass)
    m.(tm_rawByPeerClass) m.(tm_pendingTransportDead) m.(tm_serverIP) m.(tm_serverPort)
    m.(tm_myPeerId) m.(tm_myVirtualIP) m.(tm_roomMtu) m.(tm_dataPlaneState)
    m.(tm_securityMode) m.(tm_secureSessionId) m.(tm_secureMaster) m.(tm_udpCipher)
    m.(tm_packetDrops) m.(tm_lastDropLogMs) m.(tm_hasDropLog) m.(tm_app) m.(tm_now)
    m.(tm_echoId) m.(tm_sends) m.(tm_writes) m.(tm_out).
Definition set_tm_peerByVIP (v : gmap Z Z) (m : CliTunnelManager) : CliTunnelManager :=
  mkTM m.(tm_tun) m.(tm_udpFd) m.(tm_localUdpPort) m.(tm_peerById) v m.(tm_kcpByPeerClass)
    m.(tm_rawByPeerClass) m.(tm_pendingTransportDead) m.(tm_serverIP) m.(tm_serverPort)
    m.(tm_myPeerId) m.(tm_myVirtualIP) m.(tm_roomMtu) m.(tm_dataPlaneState)
    m.(tm_securityMode) m.(tm_secureSessionId) m.(tm_secureMaster) m.(tm_udpCipher)
    m.(tm_packetDrops) m.(tm_lastDropLogMs) m.(tm_hasDropLog) m.(tm_app) m.(tm_now)
    m.(tm_echoId) m.(tm_sends) m.(tm_writes) m.(tm_out).
Definition set_tm_kcpByPeerClass (v : gmap Z (Owned CliKcpTunnel)) (m : CliTunnelManager) : CliTunnelManager :=
  mkTM m.(tm_tun) m.(tm_udpFd) m.(tm_localUdpPort) m.(tm_peerById) m.(tm_peerByVIP) v
    m.(tm_rawByPeerClass) m.(tm_pendingTransportDead) m.(tm_serverIP) m.(tm_serverPort)
    m.(tm_myPeerId) m.(tm_myVirtualIP) m.(tm_roomMtu) m.(tm_dataPlaneState)
    m.(tm_securityMode) m.(tm_secureSessionId) m.(tm_secureMaster) m.(tm_udpCipher)
    m.(tm_packetDrops) m.(tm_lastDropLogMs) m.(tm_hasDropLog) m.(tm_app) m.(tm_now)
    m.(tm_echoId) m.(tm_sends) m.(tm_writes) m.(tm_out).
Definition set_tm_rawByPeerClass (v : gmap Z (Owned RawUdpTunnel)) (m : CliTunnelManager) : CliTunnelManager :=
  mkTM m.(tm_tun) m.(tm_udpFd) m.(tm_localUdpPort) m.(tm_peerById) m.(tm_peerByVIP)
    m.(tm_kcpByPeerClass) v m.(tm_pendingTransportDead) m.(tm_serverIP) m.(tm_serverPort)
    m.(tm_myPeerId) m.(tm_myVirtualIP) m.(tm_roomMtu) m.(tm_dataPlaneState)
    m.(tm_securityMode) m.(tm_secureSessionId) m.(tm_secureMaster) m.(tm_udpCipher)
    m.(tm_packetDrops) m.(tm_lastDropLogMs) m.(tm_hasDropLog) m.(tm_app) m.(tm_now)
    m.(tm_echoId) m.(tm_sends) m.(tm_writes) m.(tm_out).
Definition set_tm_pendingTransportDead (v : gset Z) (m : CliTunnelManager) : CliTunnelManager :=
  mkTM m.(tm_tun) m.(tm_udpFd) m.(tm_localUdpPort) m.(tm_peerById) m.(tm_peerByVIP)
    m.(tm_kcpByPeerClass) m.(tm_rawByPeerClass) v m.(tm_serverIP) m.(tm_serverPort)
    m.(tm_myPeerId) m.(tm_myVirtualIP) m.(tm_roomMtu) m.(tm_dataPlaneState)
    m.(tm_securityMode) m.(tm_secureSessionId) m.(tm_secureMaster) m.(tm_udpCipher)
    m.(tm_packetDrops) m.(tm_lastDropLogMs) m.(tm_hasDropLog) m.(tm_app) m.(tm_now)
    m.(tm_echoId) m.(tm_sends) m.(tm_writes) m.(tm_out).
Definition set_tm_serverIP (v : Z) (m : CliTunnelManager) : CliTunnelManager :=
  mkTM m.(tm_tun) m.(tm_udpFd) m.(tm_localUdpPort) m.(tm_peerById) m.(tm_peerByVIP)
    m.(tm_kcpByPeerClass) m.(tm_rawByPeerClass) m.(tm_pendingTransportDead) v
    m.(tm_serverPort) m.(tm_myPeerId) m.(tm_myVirtualIP) m.(tm_roomMtu)
    m.(tm_dataPlaneState) m.(tm_securityMode) m.(tm_secureSessionId) m.(tm_secureMaster)
    m.(tm_udpCipher) m.(tm_packetDrops) m.(tm_lastDropLogMs) m.(tm_hasDropLog) m.(tm_app)
    m.(tm_now) m.(tm_echoId) m.(tm_sends) m.(tm_writes) m.(tm_out).
Definition set_tm_serverPort (v : Z) (m : CliTunnelManager) : CliTunnelManager :=
  mkTM m.(tm_tun) m.(tm_udpFd) m.(tm_localUdpPort) m.(tm_peerById) m.(tm_peerByVIP)
    m.(tm_kcpByPeerClass) m.(tm_rawByPeerClass) m.(tm_pendingTransportDead) m.(tm_serverIP)
    v m.(tm_myPeerId) m.(tm_myVirtualIP) m.(tm_roomMtu) m.(tm_dataPlaneState)
    m.(tm_securityMode) m.(tm_secureSessionId) m.(tm_secureMaster) m.(tm_udpCipher)
    m.(tm_packetDrops) m.(tm_lastDropLogMs) m.(tm_hasDropLog) m.(tm_app) m.(tm_now)
    m.(tm_echoId) m.(tm_sends) m.(tm_writes) m.(tm_out).
Definition set_tm_myPeerId (v : Z) (m : CliTunnelManager) : CliTunnelManager :=
  mkTM m.(tm_tun) m.(tm_udpFd) m.(tm_localUdpPort) m.(tm_peerById) m.(tm_peerByVIP)
    m.(tm_kcpByPeerClass) m.(tm_rawByPeerClass) m.(tm_pendingTransportDead) m.(tm_serverIP)
    m.(tm_serverPort) v m.(tm_myVirtualIP) m.(tm_roomMtu) m.(tm_dataPlaneState)
    m.(tm_securityMode) m.(tm_secureSessionId) m.(tm_secureMaster) m.(tm_udpCipher)
    m.(tm_packetDrops) m.(tm_lastDropLogMs) m.(tm_hasDropLog) m.(tm_app) m.(tm_now)
    m.(tm_echoId) m.(tm_sends) m.(tm_writes) m.(tm_out).
Definition set_tm_myVirtualIP (v : Z) (m : CliTunnelManager) : CliTunnelManager :=
  mkTM m.(tm_tun) m.(tm_udpFd) m.(tm_localUdpPort) m.(tm_peerById) m.(tm_peerByVIP)
    m.(tm_kcpByPeerClass) m.(tm_rawByPeerClass) m.(tm_pendingTransportDead) m.(tm_serverIP)
    m.(tm_serverPort) m.(tm_myPeerId) v m.(tm_roomMtu) m.(tm_dataPlaneState)
    m.(tm_securityMode) m.(tm_secureSessionId) m.(tm_secureMaster) m.(tm_udpCipher)
    m.(tm_packetDrops) m.(tm_lastDropLogMs) m.(tm_hasDropLog) m.(tm_app) m.(tm_now)
    m.(tm_echoId) m.(tm_sends) m.(tm_writes) m.(tm_out).
Definition set_tm_roomMtu (v : Z) (m : CliTunnelManager) : CliTunnelManager :=
  mkTM m.(tm_tun) m.(tm_udpFd) m.(tm_localUdpPort) m.(tm_peerById) m.(tm_peerByVIP)
    m.(tm_kcpByPeerClass) m.(tm_rawByPeerClass) m.(tm_pendingTransportDead) m.(tm_serverIP)
    m.(tm_serverPort) m.(tm_myPeerId) m.(tm_myVirtualIP) v m.(tm_dataPlaneState)
    m.(tm_securityMode) m.(tm_secureSessionId) m.(tm_secureMaster) m.(tm_udpCipher)
    m.(tm_packetDrops) m.(tm_lastDropLogMs) m.(tm_hasDropLog) m.(tm_app) m.(tm_now)
    m.(tm_echoId) m.(tm_sends) m.(tm_writes) m.(tm_out).
Definition set_tm_dataPlaneState (v : DataPlaneState) (m : CliTunnelManager) : CliTunnelManager :=
  mkTM m.(tm_tun) m.(tm_udpFd) m.(tm_localUdpPort) m.(tm_peerById) m.(tm_peerByVIP)
    m.(tm_kcpByPeerClass) m.(tm_rawByPeerClass) m.(tm_pendingTransportDead) m.(tm_serverIP)
    m.(tm_serverPort) m.(tm_myPeerId) m.(tm_myVirtualIP) m.(tm_roomMtu) v
    m.(tm_securityMode) m.(tm_secureSessionId) m.(tm_secureMaster) m.(tm_udpCipher)
    m.(tm_packetDrops) m.(tm_lastDropLogMs) m.(tm_hasDropLog) m.(tm_app) m.(tm_now)
    m.(tm_echoId) m.(tm_sends) m.(tm_writes) m.(tm_out).
Definition set_tm_securityMode (v : DataPlaneSecurityMode) (m : CliTunnelManager) : CliTunnelManager :=
  mkTM m.(tm_tun) m.(tm_udpFd) m.(tm_localUdpPort) m.(tm_peerById) m.(tm_peerByVIP)
    m.(tm_kcpByPeerClass) m.(tm_rawByPeerClass) m.(tm_pendingTransportDead) m.(tm_serverIP)
    m.(tm_serverPort) m.(tm_myPeerId) m.(tm_myVirtualIP) m.(tm_roomMtu)
    m.(tm_dataPlaneState) v m.(tm_secureSessionId) m.(tm_secureMaster) m.(tm_udpCipher)
    m.(tm_packetDrops) m.(tm_lastDropLogMs) m.(tm_hasDropLog) m.(tm_app) m.(tm_now)
    m.(tm_echoId) m.(tm_sends) m.(tm_writes) m.(tm_out).
Definition set_tm_secureSessionId (v : Z) (m : CliTunnelManager) : CliTunnelManager :=
  mkTM m.(tm_tun) m.(tm_udpFd) m.(tm_localUdpPort) m.(tm_peerById) m.(tm_peerByVIP)
    m.(tm_kcpByPeerClass) m.(tm_rawByPeerClass) m.(tm_pendingTransportDead) m.(tm_serverIP)
    m.(tm_serverPort) m.(tm_myPeerId) m.(tm_myVirtualIP) m.(tm_roomMtu)
    m.(tm_dataPlaneState) m.(tm_securityMode) v m.(tm_secureMaster) m.(tm_udpCipher)
    m.(tm_packetDrops) m.(tm_lastDropLogMs) m.(tm_hasDropLog) m.(tm_app) m.(tm_now)
    m.(tm_echoId) m.(tm_sends) m.(tm_writes) m.(tm_out).
Definition set_tm_secureMaster (v : bytes) (m : CliTunnelManager) : CliTunnelManager :=
  mkTM m.(tm_tun) m.(tm_udpFd) m.(tm_localUdpPort) m.(tm_peerById) m.(tm_peerByVIP)
    m.(tm_kcpByPeerClass) m.(tm_rawByPeerClass) m.(tm_pendingTransportDead) m.(tm_serverIP)
    m.(tm_serverPort) m.(tm_myPeerId) m.(tm_myVirtualIP) m.(tm_roomMtu)
    m.(tm_dataPlaneState) m.(tm_securityMode) m.(tm_secureSessionId) v m.(tm_udpCipher)
    m.(tm_packetDrops) m.(tm_lastDropLogMs) m.(tm_hasDropLog) m.(tm_app) m.(tm_now)
    m.(tm_echoId) m.(tm_sends) m.(tm_writes) m.(tm_out).
Definition set_tm_udpCipher (v : SecureFrameCipher) (m : CliTunnelManager) : CliTunnelManager :=
  mkTM m.(tm_tun) m.(tm_udpFd) m.(tm_localUdpPort) m.(tm_peerById) m.(tm_peerByVIP)
    m.(tm_kcpByPeerClass) m.(tm_rawByPeerClass) m.(tm_pendingTransportDead) m.(tm_serverIP)
    m.(tm_serverPort) m.(tm_myPeerId) m.(tm_myVirtualIP) m.(tm_roomMtu)
    m.(tm_dataPlaneState) m.(tm_securityMode) m.(tm_secureSessionId) m.(tm_secureMaster) v
    m.(tm_packetDrops) m.(tm_lastDropLogMs) m.(tm_hasDropLog) m.(tm_app) m.(tm_now)
    m.(tm_echoId) m.(tm_sends) m.(tm_writes) m.(tm_out).
Definition set_tm_packetDrops (v : gmap string Z) (m : CliTunnelManager) : CliTunnelManager :=
  mkTM m.(tm_tun) m.(tm_udpFd) m.(tm_localUdpPort) m.(tm_peerById) m.(tm_peerByVIP)
    m.(tm_kcpByPeerClass) m.(tm_rawByPeerClass) m.(tm_pendingTransportDead) m.(tm_serverIP)
    m.(tm_serverPort) m.(tm_myPeerId) m.(tm_myVirtualIP) m.(tm_roomMtu)
    m.(tm_dataPlaneState) m.(tm_securityMode) m.(tm_secureSessionId) m.(tm_secureMaster)
    m.(tm_udpCipher) v m.(tm_lastDropLogMs) m.(tm_hasDropLog) m.(tm_app) m.(tm_now)
    m.(tm_echoId) m.(tm_sends) m.(tm_writes) m.(tm_out).
Definition set_tm_lastDropLogMs (v : Z) (m : CliTunnelManager) : CliTunnelManager :=
  mkTM m.(tm_tun) m.(tm_udpFd) m.(tm_localUdpPort) m.(tm_peerById) m.(tm_peerByVIP)
    m.(tm_kcpByPeerClass) m.(tm_rawByPeerClass) m.(tm_pendingTransportDead) m.(tm_serverIP)
    m.(tm_serverPort) m.(tm_myPeerId) m.(tm_myVirtualIP) m.(tm_roomMtu)
    m.(tm_dataPlaneState) m.(tm_securityMode) m.(tm_secureSessionId) m.(tm_secureMaster)
    m.(tm_udpCipher) m.(tm_packetDrops) v m.(tm_hasDropLog) m.(tm_app) m.(tm_now)
    m.(tm_echoId) m.(tm_sends) m.(tm_writes) m.(tm_out).
Definition set_tm_hasDropLog (v : bool) (m : CliTunnelManager) : CliTunnelManager :=
  mkTM m.(tm_tun) m.(tm_udpFd) m.(tm_localUdpPort) m.(tm_peerById) m.(tm_peerByVIP)
    m.(tm_kcpByPeerClass) m.(tm_rawByPeerClass) m.(tm_pendingTransportDead) m.(tm_serverIP)
    m.(tm_serverPort) m.(tm_myPeerId) m.(tm_myVirtualIP) m.(tm_roomMtu)
    m.(tm_dataPlaneState) m.(tm_securityMode) m.(tm_secureSessionId) m.(tm_secureMaster)
    m.(tm_udpCipher) m.(tm_packetDrops) m.(tm_lastDropLogMs) v m.(tm_app) m.(tm_now)
    m.(tm_echoId) m.(tm_sends) m.(tm_writes) m.(tm_out).
Definition set_tm_app (v : AppLinks) (m : CliTunnelManager) : CliTunnelManager :=
  mkTM m.(tm_tun) m.(tm_udpFd) m.(tm_localUdpPort) m.(tm_peerById) m.(tm_peerByVIP)
    m.(tm_kcpByPeerClass) m.(tm_rawByPeerClass) m.(tm_pendingTransportDead) m.(tm_serverIP)
    m.(tm_serverPort) m.(tm_myPeerId) m.(tm_myVirtualIP) m.(tm_roomMtu)
    m.(tm_dataPlaneState) m.(tm_securityMode) m.(tm_secureSessionId) m.(tm_secureMaster)
    m.(tm_udpCipher) m.(tm_packetDrops) m.(tm_lastDropLogMs) m.(tm_hasDropLog) v m.(tm_now)
    m.(tm_echoId) m.(tm_sends) m.(tm_writes) m.(tm_out).
Definition set_tm_now (v : Z) (m : CliTunnelManager) : CliTunnelManager :=
  mkTM m.(tm_tun) m.(tm_udpFd) m.(tm_localUdpPort) m.(tm_peerById) m.(tm_peerByVIP)
    m.(tm_kcpByPeerClass) m.(tm_rawByPeerClass) m.(tm_pendingTransportDead) m.(tm_serverIP)
    m.(tm_serverPort) m.(tm_myPeerId) m.(tm_myVirtualIP) m.(tm_roomMtu)
    m.(tm_dataPlaneState) m.(tm_securityMode) m.(tm_secureSessionId) m.(tm_secureMaster)
    m.(tm_udpCipher) m.(tm_packetDrops) m.(tm_lastDropLogMs) m.(tm_hasDropLog) m.(tm_app) v
    m.(tm_echoId) m.(tm_sends) m.(tm_writes) m.(tm_out).
Definition set_tm_echoId (v : Z) (m : CliTunnelManager) : CliTunnelManager :=
  mkTM m.(tm_tun) m.(tm_udpFd) m.(tm_localUdpPort) m.(tm_peerById) m.(tm_peerByVIP)
    m.(tm_kcpByPeerClass) m.(tm_rawByPeerClass) m.(tm_pendingTransportDead) m.(tm_serverIP)
    m.(tm_serverPort) m.(tm_myPeerId) m.(tm_myVirtualIP) m.(tm_roomMtu)
    m.(tm_dataPlaneState) m.(tm_securityMode) m.(tm_secureSessionId) m.(tm_secureMaster)
    m.(tm_udpCipher) m.(tm_packetDrops) m.(tm_lastDropLogMs) m.(tm_hasDropLog) m.(tm_app)
    m.(tm_now) v m.(tm_sends) m.(tm_writes) m.(tm_out).
Definition set_tm_sends (v : list Z) (m : CliTunnelManager) : CliTunnelManager :=
  mkTM m.(tm_tun) m.(tm_udpFd) m.(tm_localUdpPort) m.(tm_peerById) m.(tm_peerByVIP)
    m.(tm_kcpByPeerClass) m.(tm_rawByPeerClass) m.(tm_pendingTransportDead) m.(tm_serverIP)
    m.(tm_serverPort) m.(tm_myPeerId) m.(tm_myVirtualIP) m.(tm_roomMtu)
    m.(tm_dataPlaneState) m.(tm_securityMode) m.(tm_secureSessionId) m.(tm_secureMaster)
    m.(tm_udpCipher) m.(tm_packetDrops) m.(tm_lastDropLogMs) m.(tm_hasDropLog) m.(tm_app)
    m.(tm_now) m.(tm_echoId) v m.(tm_writes) m.(tm_out).
Definition set_tm_writes (v : list bool) (m : CliTunnelManager) : CliTunnelManager :=
  mkTM m.(tm_tun) m.(tm_udpFd) m.(tm_localUdpPort) m.(tm_peerById) m.(tm_peerByVIP)
    m.(tm_kcpByPeerClass) m.(tm_rawByPeerClass) m.(tm_pendingTransportDead) m.(tm_serverIP)
    m.(tm_serverPort) m.(tm_myPeerId) m.(tm_myVirtualIP) m.(tm_roomMtu)
    m.(tm_dataPlaneState) m.(tm_securityMode) m.(tm_secureSessionId) m.(tm_secureMaster)
    m.(tm_udpCipher) m.(tm_packetDrops) m.(tm_lastDropLogMs) m.(tm_hasDropLog) m.(tm_app)
    m.(tm_now) m.(tm_echoId) m.(tm_sends) v m.(tm_out).
Definition set_tm_out (v : list LinkEvent) (m : CliTunnelManager) : CliTunnelManager :=
  mkTM m.(tm_tun) m.(tm_udpFd) m.(tm_localUdpPort) m.(tm_peerById) m.(tm_peerByVIP)
    m.(tm_kcpByPeerClass) m.(tm_rawByPeerClass) m.(tm_pendingTransportDead) m.(tm_serverIP)
    m.(tm_serverPort) m.(tm_myPeerId) m.(tm_myVirtualIP) m.(tm_roomMtu)
    m.(tm_dataPlaneState) m.(tm_securityMode) m.(tm_secureSessionId) m.(tm_secureMaster)
    m.(tm_udpCipher) m.(tm_packetDrops) m.(tm_lastDropLogMs) m.(tm_hasDropLog) m.(tm_app)
    m.(tm_now) m.(tm_echoId) m.(tm_sends) m.(tm_writes) v.

Definition CliTunnelManager_init : CliTunnelManager :=
  mkTM None SOCK_INVALID 0 ∅ ∅ ∅ ∅ ∅ 0 0 0 0 ROOM_MTU_DEFAULT Stopped Unconfigured 0 [] cipher_empty
    ∅ 0 false AppLinks_init 0 0 [] [] [].

#[local] Abbreviation TM A := (SE CliTunnelManager A).
Definition fire (e : LinkEvent) : TM unit := modify (fun s => set_tm_out (tm_out s ++ [e]) s).

Definition upd_app (f : AppLinks -> AppLinks) : TM unit := modify (fun s => set_tm_app (f (tm_app s)) s).

(** ** Security context and data plane *)

Definition initUdpSocket (fd : Z) (nonblocking bound : bool) (port : Z) : TM bool :=
  s <- gets (fun s => s) ;;
  if negb (tm_udpFd s =? SOCK_INVALID) then ret true else
  if fd =? SOCK_INVALID then ret false else
  if negb nonblocking || negb bound then ret false else
  modify (fun s => set_tm_localUdpPort port (set_tm_udpFd fd s)) ;;; ret true.
Definition setServerEndpoint (ip port : Z) : TM unit :=
  modify (fun s => set_tm_serverPort port (set_tm_serverIP ip s)).
Definition tm_clearSecurityContext : TM unit :=
  s <- gets (fun s => s) ;;
  if negb (dataPlaneCanReconfigure (tm_dataPlaneState s)) then ret tt else
  modify (fun s => set_tm_securityMode Unconfigured (set_tm_secureMaster []
                     (set_tm_secureSessionId 0 (set_tm_udpCipher (reset (tm_udpCipher s)) s)))).
Definition tm_installSecureSession (sessionId : Z) (master : bytes) : TM bool :=
  s <- gets (fun s => s) ;;
  if negb (dataPlaneCanReconfigure (tm_dataPlaneState s)) then ret false else
  tm_clearSecurityContext ;;;
  if (sessionId =? 0) || negb (len master =? SECURE_KEY_SIZE) then ret false else
  modify (fun s => set_tm_securityMode Secure
    (set_tm_udpCipher (cipher_init (tm_udpCipher s) master true "udp")
    (set_tm_secureMaster master (set_tm_secureSessionId sessionId s)))) ;;;
  ret true.
Definition stopDataPlane : TM unit :=
  modify (fun s => set_tm_tun (match tm_tun s with
                               | Some a => Some (mkTun (ta_running a) [])
                               | None => None
                               end) (set_tm_dataPlaneState Stopped s)).

Definition recordPacketDrop (reason : string) : TM unit :=
  modify (fun s => set_tm_packetDrops (<[reason := u64 (default 0 (tm_packetDrops s !! reason) + 1)]> (tm_packetDrops s)) s) ;;;
  s <- gets (fun s => s) ;;
  if tm_hasDropLog s && (u32 (tm_now s - tm_lastDropLogMs s) <? 5000) then ret tt else
  modify (fun s => set_tm_lastDropLogMs (tm_now s) (set_tm_hasDropLog true s)).

(** ** Sending a datagram *)

Definition tunnelKey (peerId cls : Z) : Z := Z.lor (Z.shiftl peerId 8) (u8 cls).
Definition peerById (peerId : Z) (s : CliTunnelManager) : option CliPeerConnection := tm_peerById s !! peerId.
(** The peer at the end of the tunnel a datagram comes from, by its header. *)
Definition destinationPeer (data : bytes) (s : CliTunnelManager) : option (Z * Z) :=
  if len data <? sizeof_UdpRelayHeader then None else
  let type := byte_at data 0 in
  let cls := byte_at data 1 in
  if ((type =? UDP_RELAY_DATA) || (type =? UDP_RAW_RELAY_DATA)) &&
     ((cls =? TRAFFIC_TCP) || (cls =? TRAFFIC_UDP)) &&
     (be_value (slice 2 4 data) =? tm_myPeerId s)
  then
    let dst := be_value (slice 6 4 data) in
    let expected := if type =? UDP_RELAY_DATA then TRANSPORT_RELAY_KCP else TRANSPORT_RELAY_RAW_UDP in
    match peerById dst s with
    | Some p => if decide (transport cls p = expected) then Some (dst, cls) else None
    | None => None
    end
  else None.
Definition reportSend (dest : option (Z * Z)) (success : bool) : TM unit :=
  match dest with
  | Some (id, cls) =>
      modify (fun s => set_tm_peerById (alter (reportLocalTransportSend (tm_now s) cls success) id (tm_peerById s)) s)
  | None => ret tt
  end.
Definition sendto (pkt : bytes) (ip port : Z) : TM Z :=
  fire (EvSendTo pkt ip port) ;;;
  r <- gets (fun s => default 0 (head (tm_sends s))) ;;
  modify (fun s => set_tm_sends (tail (tm_sends s)) s) ;;; ret r.
Definition UDP_EXHAUSTED_TEXT : bytes := bytes_of_string
  "UDP encryption session exhausted or unavailable; reconnecting for fresh keys".
Definition tm_encrypt (data : bytes) : TM bytes :=
  enc <- gets (fun s => fst (encrypt (tm_udpCipher s) data [])) ;;
  modify (fun s => set_tm_udpCipher (snd (encrypt (tm_udpCipher s) data [])) s) ;;; ret enc.
Definition send_datagram (dest : option (Z * Z)) (pkt : bytes) (ip port : Z) : TM unit :=
  err <- sendto pkt ip port ;;
  reportSend dest (err =? 0) ;;;
  when (negb (err =? 0)) (recordPacketDrop ("udp-send/" +:+ pretty err)).
Definition udpSend (data : bytes) (dstIP dstPort : Z) : TM unit :=
  s <- gets (fun s => s) ;;
  let dest := destinationPeer data s in
  if negb (dataPlaneAllowsTraffic (tm_dataPlaneState s) (tm_securityMode s)) || (tm_udpFd s =? SOCK_INVALID)
  then reportSend dest false else
  if bool_decide (tm_securityMode s = Secure) then
    if (tm_secureSessionId s =? 0) || negb (len (tm_secureMaster s) =? SECURE_KEY_SIZE)
    then reportSend dest false else
    enc <- tm_encrypt data ;;
    if bool_decide (enc = []) then
      reportSend dest false ;;;
      recordPacketDrop "udp-encrypt-failed-session-exhausted" ;;;
      stopDataPlane ;;; fire (EvSecurityFailure UDP_EXHAUSTED_TEXT)
    else send_datagram dest (UDP_ENCRYPTED :: writeU32BE (tm_secureSessionId s) ++ enc) dstIP dstPort
  else send_datagram dest data dstIP dstPort.

Definition sendUdpKeepalive : TM unit :=
  s <- gets (fun s => s) ;;
  if negb (bool_decide (tm_dataPlaneState s = Running)) || bool_decide (tm_securityMode s = Unconfigured)
  then ret tt else
  if (tm_serverIP s =? 0) || (tm_serverPort s =? 0) then ret tt else
  udpSend [UDP_KEEPALIVE] (tm_serverIP s) (tm_serverPort s).
(** The arguments are the results of the system calls of [initUdpSocket]. *)
Definition startDataPlane (requiresUdp : bool) (fd : Z) (nonblocking bound : bool) (port : Z) : TM bool :=
  s <- gets (fun s => s) ;;
  if bool_decide (tm_dataPlaneState s = Running) then ret true else
  if negb (match tm_tun s with Some a => ta_running a | None => false end) ||
     bool_decide (tm_securityMode s = Unconfigured) ||
     (tm_myPeerId s =? 0) || (tm_myVirtualIP s =? 0) || (tm_serverIP s =? 0) || (tm_serverPort s =? 0)
  then ret false else
  ok <- (if requiresUdp then initUdpSocket fd nonblocking bound port else ret true) ;;
  if negb ok then ret false else
  modify (fun s => set_tm_hasDropLog false (set_tm_packetDrops ∅ (set_tm_dataPlaneState Running s))) ;;;
  when requiresUdp sendUdpKeepalive ;;; ret true.

(** ** Following pointers *)

Definition deref {A} (f : CliTunnelManager -> option A) : TM A :=
  o <- gets f ;; match o with Some a => ret a | None => throw end.
Definition deref_peer (id : Z) : TM CliPeerConnection := deref (peerById id).
Definition deref_kcp (key : Z) : TM (Owned CliKcpTunnel) := deref (fun s => tm_kcpByPeerClass s !! key).
Definition deref_raw (key : Z) : TM (Owned RawUdpTunnel) := deref (fun s => tm_rawByPeerClass s !! key).
Definition upd_peer (id : Z) (f : CliPeerConnection -> CliPeerConnection) : TM unit :=
  modify (fun s => set_tm_peerById (alter f id (tm_peerById s)) s).
Definition put_kcp (key : Z) (t : CliKcpTunnel) : TM unit :=
  modify (fun s => set_tm_kcpByPeerClass (alter (set_tunnel t) key (tm_kcpByPeerClass s)) s).
Definition put_raw (key : Z) (t : RawUdpTunnel) : TM unit :=
  modify (fun s => set_tm_rawByPeerClass (alter (set_tunnel t) key (tm_rawByPeerClass s)) s).

(** ** Sending through a tunnel *)

Definition udp_out (o : TunnelOut) : TM unit :=
  match o with OutUdp pkt ip port => udpSend pkt ip port | _ => ret tt end.
(** [CliRawUdpTunnel::send], which only emits datagrams. *)
Definition rawTunnel_send (key : Z) (data : bytes) : TM Z :=
  o <- deref_raw key ;;
  now <- gets tm_now ;;
  let '(r, (outs, t)) := raw_send now data (ow_tunnel o) in
  put_raw key t ;;; for_each outs udp_out ;;; ret r.
Definition kcpTunnel_send (key : Z) (data : bytes) : TM Z :=
  o <- deref_kcp key ;;
  let '(r, t) := kcp_send data (ow_tunnel o) in put_kcp key t ;;; ret r.
(** The closures [setupTcpRelayTunnel] installs in a peer. *)
Definition tcpRelaySend (myId peerId cls : Z) (data : bytes) : TM unit :=
  s <- gets (fun s => s) ;;
  when (bool_decide (tm_dataPlaneState s = Running) && negb (bool_decide (tm_securityMode s = Unconfigured)) &&
        (la_dataConnected (tm_app s) || la_signalConnected (tm_app s)))
    (fire (EvTcpRelay myId peerId cls data)).
Definition tcpControlReady (s : CliTunnelManager) : bool :=
  bool_decide (tm_dataPlaneState s = Running) && negb (bool_decide (tm_securityMode s = Unconfigured)) &&
  (la_dataConnected (tm_app s) || la_signalConnected (tm_app s)).

Definition sendData (peerId : Z) (ipPacket : bytes) : TM Z :=
  p <- deref_peer peerId ;;
  let cls := trafficClassFromIpPacket ipPacket in
  let s := slot_at (class_index cls) p in
  match pn_transport s with
  | TRANSPORT_NONE => ret (-1)
  | TRANSPORT_RELAY_TCP =>
      match pn_tcpSender p with
      | Some myId => tcpRelaySend myId peerId cls ipPacket ;;; ret (len ipPacket)
      | None => ret (-1)
      end
  | TRANSPORT_RELAY_RAW_UDP =>
      match pn_rawUdpTunnel s with Some key => rawTunnel_send key ipPacket | None => ret (-1) end
  | TRANSPORT_RELAY_KCP =>
      match pn_kcpTunnel s with Some key => kcpTunnel_send key ipPacket | None => ret (-1) end
  end.
Definition sendControlPacket (peerId cls : Z) (data : bytes) : TM bool :=
  p <- deref_peer peerId ;;
  let s := slot_at (class_index cls) p in
  match pn_transport s with
  | TRANSPORT_RELAY_TCP =>
      match pn_tcpSender p with
      | None => ret false
      | Some myId =>
          ready <- gets tcpControlReady ;;
          if pn_tcpControlReady p && negb ready then ret false else
          tcpRelaySend myId peerId cls data ;;; ret true
      end
  | TRANSPORT_RELAY_RAW_UDP =>
      match pn_rawUdpTunnel s with
      | Some key => r <- rawTunnel_send key data ;; ret (0 <=? r)
      | None => ret false
      end
  | TRANSPORT_RELAY_KCP =>
      match pn_kcpTunnel s with
      | Some key => r <- kcpTunnel_send key data ;; ret (0 <=? r)
      | None => ret false
      end
  | TRANSPORT_NONE => ret false
  end.

(** ** Probes *)

Definition upd_quality (peerId cls : Z) (f : ProbeQualityTracker -> ProbeQualityTracker) : TM unit :=
  upd_peer peerId (upd_slot (class_index cls) (fun s => set_pn_quality (f (pn_quality s)) s)).
Definition sendLatencyPing (peerId cls : Z) : TM unit :=
  p <- deref_peer peerId ;;
  if decide (transport cls p = TRANSPORT_NONE) then ret tt else
  s <- gets (fun s => s) ;;
  let token := tm_echoId s in
  modify (set_tm_echoId (u32 (token + 1))) ;;;
  upd_quality peerId cls (beginProbe (tm_now s) token) ;;;
  sent <- sendControlPacket peerId cls ([CLI_LATENCY_PROBE_MARKER; CLI_LATENCY_PROBE_PING] ++ be_bytes 4 token) ;;
  upd_quality peerId cls (completeSend token (tm_now s) sent).
Definition sendLatencyPing_all (peerId : Z) : TM unit :=
  sendLatencyPing peerId TRAFFIC_TCP ;;; sendLatencyPing peerId TRAFFIC_UDP.
Definition handleLatencyProbe (peerId cls : Z) (data : bytes) : TM bool :=
  if (len data <? 6) || negb (byte_at data 0 =? CLI_LATENCY_PROBE_MARKER) then ret false else
  if byte_at data 1 =? CLI_LATENCY_PROBE_PING then
    ok <- sendControlPacket peerId cls ([CLI_LATENCY_PROBE_MARKER; CLI_LATENCY_PROBE_PONG] ++ slice 2 4 data) ;;
    ret true
  else if byte_at data 1 =? CLI_LATENCY_PROBE_PONG then
    p <- deref_peer peerId ;;
    now <- gets tm_now ;;
    upd_quality peerId cls (fun q => snd (pq_reply (be_value (slice 2 4 data)) now q)) ;;; ret true
  else ret false.
Definition keepalive_class (now peerId cls : Z) : TM unit :=
  p <- deref_peer peerId ;;
  let s := slot_at cls p in
  match pn_transport s, pn_tcpSender p with
  | TRANSPORT_RELAY_TCP, Some myId =>
      when (TCP_RELAY_KEEPALIVE_MS <=? u32 (now - pn_tcpRelayLastSend s)) (
        tcpRelaySend myId peerId cls [] ;;; upd_peer peerId (upd_slot cls (set_pn_tcpRelayLastSend now)))
  | _, _ => ret tt
  end.
Definition sendTcpRelayKeepalive (peerId : Z) : TM unit :=
  now <- gets tm_now ;;
  keepalive_class now peerId TRAFFIC_TCP ;;; keepalive_class now peerId TRAFFIC_UDP.

(** ** From the network to the adapter *)

(** [CliTunAdapter::writePacket], of the adapter the manager or the application holds. *)
Definition writePacket (packet : bytes) : TM bool :=
  fire (EvTunWrite packet) ;;;
  r <- gets (fun s => default true (head (tm_writes s))) ;;
  modify (fun s => set_tm_writes (tail (tm_writes s)) s) ;;; ret r.
Definition overlay_arg (p : bytes) : option bytes := if bool_decide (p = []) then None else Some p.
Definition routeToTun (peerId : Z) (ipPacket : bytes) : TM unit :=
  s <- gets (fun s => s) ;;
  if negb (dataPlaneAllowsTraffic (tm_dataPlaneState s) (tm_securityMode s)) then ret tt else
  match peerById peerId s with
  | Some p =>
      if negb (overlay_valid (validateInboundOverlayIpv4 (overlay_arg ipPacket) (len ipPacket) (tm_roomMtu s)
                                (pn_virtualIP p) (tm_myVirtualIP s)))
      then recordPacketDrop "tun-in-invalid" else
      match tm_tun s with
      | None => recordPacketDrop "tun-write-failed"
      | Some _ => ok <- writePacket ipPacket ;; when (negb ok) (recordPacketDrop "tun-write-failed")
      end
  | None => recordPacketDrop "tun-in-invalid"
  end.
Definition onPeerDataReceived (peerId : Z) (ipPacket : bytes) : TM unit :=
  s <- gets (fun s => s) ;;
  if negb (bool_decide (tm_dataPlaneState s = Running)) || bool_decide (tm_securityMode s = Unconfigured)
  then ret tt else routeToTun peerId ipPacket.
(** The tunnel's callback, through the peer it was created for. *)
Definition onTunnelDataReceived (peerId cls : Z) (data : bytes) : TM unit :=
  p <- deref_peer peerId ;;
  handled <- handleLatencyProbe peerId cls data ;;
  if handled then ret tt else onPeerDataReceived (pn_peerId p) data.
Definition markTransportDead (peerId cls : Z) : TM unit :=
  s <- gets (fun s => s) ;;
  when (bool_decide (tm_dataPlaneState s = Running))
    (modify (fun s => set_tm_pendingTransportDead
       ({[tunnelKey peerId (class_index cls)]} ∪ tm_pendingTransportDead s) s)).
Definition tunnel_out (peerId cls : Z) (o : TunnelOut) : TM unit :=
  match o with
  | OutUdp pkt ip port => udpSend pkt ip port
  | OutData packet => onTunnelDataReceived peerId cls packet
  | OutDead => markTransportDead peerId cls
  end.
(** An operation of a raw tunnel, with its callbacks. *)
Definition rawTunnel_step (key : Z) (f : Z -> RawUdpTunnel -> list TunnelOut * RawUdpTunnel) : TM unit :=
  o <- deref_raw key ;;
  now <- gets tm_now ;;
  let '(outs, t) := f now (ow_tunnel o) in
  put_raw key t ;;; for_each outs (tunnel_out (ow_peer o) (ow_cls o)).
(** [feedInput]: the decoder hands each payload to [processFrag] in turn. *)
Definition rawTunnel_feed (key : Z) (data : bytes) : TM unit :=
  if len data <=? 0 then ret tt else
  o <- deref_raw key ;;
  now <- gets tm_now ;;
  let t := set_lastRecv now (ow_tunnel o) in
  match ru_fecDecoder t with
  | Some d =>
      if bool_decide (ru_fecMode t = FEC_NONE)
      then put_raw key t ;;; rawTunnel_step key (fun now => processFrag now data) else
      let '(payloads, d) := dec_addPacket now data d in
      put_raw key (set_decoder (Some d) t) ;;;
      for_each payloads (fun p => rawTunnel_step key (fun now => processFrag now p))
  | None => put_raw key t ;;; rawTunnel_step key (fun now => processFrag now data)
  end.
Definition rawTunnel_update (key : Z) : TM unit := rawTunnel_step key raw_update.

(** ** [class CliKcpTunnel]: methods *)

Definition kcp_header (t : CliKcpTunnel) : bytes :=
  if kt_relayMode t
  then relay_header UDP_RELAY_DATA (kt_trafficClass t) (kt_relaySrcPeerId t) (kt_relayDstPeerId t)
  else [UDP_KCP_DATA].
Definition sendKcpPacket (key : Z) (payload : bytes) : TM unit :=
  o <- deref_kcp key ;;
  let t := ow_tunnel o in
  udpSend (kcp_header t ++ payload) (kt_peerIP t) (kt_peerPort t) ;;;
  o <- deref_kcp key ;;
  now <- gets tm_now ;;
  put_kcp key (set_kt_lastSendTime now (ow_tunnel o)).
Definition kcpOutput (key : Z) (data : bytes) : TM unit :=
  o <- deref_kcp key ;;
  now <- gets tm_now ;;
  let t := ow_tunnel o in
  match kt_fecEncoder t with
  | Some e =>
      if bool_decide (kt_fecMode t = FEC_NONE) then sendKcpPacket key data else
      let '(pkts, e) := enc_addPacket now data e in
      put_kcp key (set_kt_fecEncoder (Some e) t) ;;; for_each pkts (sendKcpPacket key)
  | None => sendKcpPacket key data
  end.
Definition KCP_RECV_BUFFER : Z := 65536.
(** One turn takes a message, unless none is left. *)
Fixpoint tryRecv_loop (fuel : nat) (key : Z) : TM unit :=
  match fuel with
  | O => ret tt
  | S n =>
      o <- deref_kcp key ;;
      let t := ow_tunnel o in
      let '(r, k) := ikcp_recv KCP_RECV_BUFFER (kt_kcp t) in
      put_kcp key (set_kt_kcp k t) ;;;
      match r with
      | None | Some [] => ret tt
      | Some data =>
          (if (len data =? 1) && (byte_at data 0 =? KCP_KEEPALIVE_MARKER) then ret tt
           else onTunnelDataReceived (ow_peer o) (ow_cls o) data) ;;;
          tryRecv_loop n key
      end
  end.
Definition tryRecv (key : Z) : TM unit :=
  o <- deref_kcp key ;; tryRecv_loop (S (kcp_received (kt_kcp (ow_tunnel o)))) key.
Definition kcp_inputAndRecv (key : Z) (payload : bytes) : TM unit :=
  o <- deref_kcp key ;;
  put_kcp key (set_kt_kcp (ikcp_input payload (kt_kcp (ow_tunnel o))) (ow_tunnel o)) ;;; tryRecv key.
Definition kcpTunnel_feed (key : Z) (data : bytes) : TM unit :=
  o <- deref_kcp key ;;
  now <- gets tm_now ;;
  let t := set_kt_dead false (set_kt_lastRecvTime now (ow_tunnel o)) in
  match kt_fecDecoder t with
  | Some d =>
      if bool_decide (kt_fecMode t = FEC_NONE) then put_kcp key t ;;; kcp_inputAndRecv key data else
      let '(payloads, d) := dec_addPacket now data d in
      put_kcp key (set_kt_fecDecoder (Some d) t) ;;; for_each payloads (kcp_inputAndRecv key)
  | None => put_kcp key t ;;; kcp_inputAndRecv key data
  end.
(** [ikcp_update], with its calls of the output callback. *)
Definition kcp_flush (key : Z) : TM unit :=
  o <- deref_kcp key ;;
  now <- gets tm_now ;;
  let '(outs, k) := ikcp_update now (kt_kcp (ow_tunnel o)) in
  put_kcp key (set_kt_kcp k (ow_tunnel o)) ;;; for_each outs (kcpOutput key).
Definition kcp_keepalive (now key : Z) : TM unit :=
  o <- deref_kcp key ;;
  let t := ow_tunnel o in
  when (KCP_KEEPALIVE_INTERVAL_MS <? u32 (now - kt_lastSendTime t))
    (put_kcp key (set_kt_kcp (snd (ikcp_send [KCP_KEEPALIVE_MARKER] (kt_kcp t))) t)).
Definition kcp_fec_update (now key : Z) : TM unit :=
  o <- deref_kcp key ;;
  match kt_fecEncoder (ow_tunnel o) with
  | Some e => let '(pkts, e) := enc_update e in
              put_kcp key (set_kt_fecEncoder (Some e) (ow_tunnel o)) ;;; for_each pkts (sendKcpPacket key)
  | None => ret tt
  end ;;;
  o <- deref_kcp key ;;
  match kt_fecDecoder (ow_tunnel o) with
  | Some d => put_kcp key (set_kt_fecDecoder (Some (dec_cleanup now d)) (ow_tunnel o))
  | None => ret tt
  end.
Definition kcpTunnel_update (key : Z) : TM unit :=
  now <- gets tm_now ;;
  kcp_flush key ;;;
  tryRecv key ;;;
  o <- deref_kcp key ;;
  let t := ow_tunnel o in
  if negb (kt_dead t) && (KCP_DEAD_TIMEOUT_MS <? u32 (now - kt_lastRecvTime t)) then
    put_kcp key (set_kt_dead true t) ;;; markTransportDead (ow_peer o) (ow_cls o)
  else kcp_keepalive now key ;;; kcp_fec_update now key.

(** ** Datagrams *)

(** The packet behind the header, for the tunnel of its source. *)
Definition dispatch_datagram (plain : bytes) : TM unit :=
  s <- gets (fun s => s) ;;
  let type := byte_at plain 0 in
  let cls := byte_at plain 1 in
  let src := be_value (slice 2 4 plain) in
  let for_us := (be_value (slice 6 4 plain) =? tm_myPeerId s) &&
                ((cls =? TRAFFIC_TCP) || (cls =? TRAFFIC_UDP)) in
  let key := tunnelKey src cls in
  let rest := drop (Z.to_nat sizeof_UdpRelayHeader) plain in
  if type =? UDP_RELAY_DATA then
    if (len plain <? sizeof_UdpRelayHeader) || negb for_us then ret tt else
    match tm_kcpByPeerClass s !! key with Some _ => kcpTunnel_feed key rest | None => ret tt end
  else if type =? UDP_RAW_RELAY_DATA then
    if (len plain <? sizeof_UdpRelayHeader + sizeof_FragHeader) || negb for_us then ret tt else
    match tm_rawByPeerClass s !! key with Some _ => rawTunnel_feed key rest | None => ret tt end
  else ret tt.
Definition tm_decrypt (frame : bytes) : TM (option bytes) :=
  plain <- gets (fun s => fst (decrypt (tm_udpCipher s) frame [])) ;;
  modify (fun s => set_tm_udpCipher (snd (decrypt (tm_udpCipher s) frame [])) s) ;;; ret plain.
Definition UDP_BUFFER : Z := 65536.
(** A datagram as [recvfrom] returned it, with its sender. *)
Definition on_datagram (data : bytes) (ip port : Z) : TM unit :=
  s <- gets (fun s => s) ;;
  if negb (dataPlaneAllowsTraffic (tm_dataPlaneState s) (tm_securityMode s)) then ret tt else
  if negb (ip =? tm_serverIP s) || negb (port =? tm_serverPort s)
  then recordPacketDrop "udp-endpoint-mismatch" else
  if bool_decide (tm_securityMode s = Secure) then
    if negb (byte_at data 0 =? UDP_ENCRYPTED) then recordPacketDrop "udp-plaintext-rejected" else
    if len data <? 1 + SECURE_SESSION_ID_SIZE + SECURE_FRAME_OVERHEAD then recordPacketDrop "udp-truncated" else
    if negb (readU32BE (drop 1 data) =? tm_secureSessionId s) then recordPacketDrop "udp-session-mismatch" else
    plain <- tm_decrypt (drop (Z.to_nat (1 + SECURE_SESSION_ID_SIZE)) data) ;;
    match plain with
    | None | Some [] => recordPacketDrop "udp-decrypt-or-replay-rejected"
    | Some plain => if UDP_BUFFER <? len plain then ret tt else dispatch_datagram plain
    end
  else dispatch_datagram data.
(** The loop of [recvfrom]: it stops at the first empty datagram. *)
Fixpoint recv_datagrams (l : list (bytes * Z * Z)) : TM unit :=
  match l with
  | [] => ret tt
  | (data, ip, port) :: l =>
      if bool_decide (data = []) then ret tt else on_datagram data ip port ;;; recv_datagrams l
  end.
Definition onUdpReadable (l : list (bytes * Z * Z)) : TM unit :=
  s <- gets (fun s => s) ;;
  if tm_udpFd s =? SOCK_INVALID then ret tt else recv_datagrams l.

(** ** From the adapter to the network *)

Definition peerByVirtualIP (vip : Z) (s : CliTunnelManager) : option Z := tm_peerByVIP s !! vip.
Definition send_or_drop (peerId : Z) (ipPacket : bytes) : TM unit :=
  n <- sendData peerId ipPacket ;;
  when (n <=? 0) (recordPacketDrop "peer-send-unavailable").
Definition routeFromTun (ipPacket : bytes) : TM unit :=
  s <- gets (fun s => s) ;;
  if negb (dataPlaneAllowsTraffic (tm_dataPlaneState s) (tm_securityMode s)) then ret tt else
  if negb (overlay_valid (validateOutboundOverlayIpv4 (overlay_arg ipPacket) (len ipPacket) (tm_roomMtu s)
                            (tm_myVirtualIP s)))
  then recordPacketDrop "tun-out-invalid" else
  let dstIP := extractDstIP ipPacket in
  if isBroadcast dstIP || (dstIP =? VNET_BROADCAST)
  then for_each (map fst (map_ordered (tm_peerById s))) (fun id => send_or_drop id ipPacket)
  else match peerByVirtualIP dstIP s with
       | None => recordPacketDrop "no-peer-route"
       | Some id => send_or_drop id ipPacket
       end.
Definition processTunPackets : TM unit :=
  s <- gets (fun s => s) ;;
  match tm_tun s with
  | None => ret tt
  | Some a =>
      modify (set_tm_tun (Some (mkTun (ta_running a) []))) ;;;
      if negb (bool_decide (tm_dataPlaneState s = Running)) || bool_decide (tm_securityMode s = Unconfigured)
      then ret tt else for_each (ta_recvQueue a) routeFromTun
  end.

(** ** Peers and transports *)

Definition addPeer (peerId virtualIP : Z) (name : bytes) : TM unit :=
  s <- gets (fun s => s) ;;
  match peerById peerId s with
  | Some _ => ret tt
  | None => modify (fun s => set_tm_peerByVIP (<[virtualIP := peerId]> (tm_peerByVIP s))
              (set_tm_peerById (<[peerId := CliPeerConnection_init (tm_now s) peerId virtualIP name]> (tm_peerById s)) s))
  end.
Definition delete_tunnels (peerId cls : Z) (s : CliTunnelManager) : CliTunnelManager :=
  let key := tunnelKey peerId cls in
  set_tm_rawByPeerClass (delete key (tm_rawByPeerClass s))
    (set_tm_kcpByPeerClass (delete key (tm_kcpByPeerClass s)) s).
Definition removePeer (peerId : Z) : TM unit :=
  s <- gets (fun s => s) ;;
  match peerById peerId s with
  | None => ret tt
  | Some peer =>
      modify (fun s => set_tm_pendingTransportDead
        (filter (fun key => Z.shiftr key 8 <> peerId) (tm_pendingTransportDead s)) s) ;;;
      modify (fun s => set_tm_peerByVIP (delete (pn_virtualIP peer) (tm_peerByVIP s)) s) ;;;
      modify (fun s => delete_tunnels peerId TRAFFIC_UDP (delete_tunnels peerId TRAFFIC_TCP s)) ;;;
      modify (fun s => set_tm_peerById (delete peerId (tm_peerById s)) s)
  end.
(** A map's entry is erased, and the peer's pointer to it cleared, if there is one. *)
Definition removeTransport (peerId cls : Z) : TM unit :=
  s <- gets (fun s => s) ;;
  match peerById peerId s with
  | None => ret tt
  | Some _ =>
      let cls := class_index cls in
      let key := tunnelKey peerId cls in
      modify (fun s => set_tm_pendingTransportDead (tm_pendingTransportDead s ∖ {[key]}) s) ;;;
      when (bool_decide (is_Some (tm_kcpByPeerClass s !! key))) (
        upd_peer peerId (setKcpTunnel cls None) ;;;
        modify (fun s => set_tm_kcpByPeerClass (delete key (tm_kcpByPeerClass s)) s)) ;;;
      when (bool_decide (is_Some (tm_rawByPeerClass s !! key))) (
        upd_peer peerId (setRawUdpTunnel cls None) ;;;
        modify (fun s => set_tm_rawByPeerClass (delete key (tm_rawByPeerClass s)) s)) ;;;
      upd_peer peerId (clearTransport (tm_now s) cls)
  end.
Definition removeAllPeers : TM unit :=
  modify (fun s => set_tm_peerByVIP ∅ (set_tm_peerById ∅ (set_tm_rawByPeerClass ∅
            (set_tm_kcpByPeerClass ∅ (set_tm_pendingTransportDead ∅ s))))).
Definition createKcpTunnel (peerId addr port : Z) (type : TransportType) (fecMode : FecMode) (mtu : Z)
    (profile : KcpProfile) (cls : Z) : TM Z :=
  p <- deref_peer peerId ;;
  s <- gets (fun s => s) ;;
  let conv := Z.lxor (Z.lxor (tm_myPeerId s) (pn_peerId p)) (u32 (Z.shiftl cls 24)) in
  let conv := if conv =? 0 then 1 else conv in
  let key := tunnelKey (pn_peerId p) cls in
  upd_peer peerId (fun p => setTransport cls type (setKcpTunnel cls (Some key) p)) ;;;
  modify (fun s => set_tm_kcpByPeerClass (<[key := mkOwned (pn_peerId p) cls
    (CliKcpTunnel_init (tm_now s) conv addr port fecMode mtu profile cls
       (bool_decide (tm_securityMode s = Secure)))]> (tm_kcpByPeerClass s)) s) ;;;
  ret key.
Definition createRawUdpTunnel (peerId addr port : Z) (fecMode : FecMode) (mtu cls : Z) : TM Z :=
  p <- deref_peer peerId ;;
  s <- gets (fun s => s) ;;
  let key := tunnelKey (pn_peerId p) cls in
  upd_peer peerId (fun p => setTransport cls TRANSPORT_RELAY_RAW_UDP (setRawUdpTunnel cls (Some key) p)) ;;;
  modify (fun s => set_tm_rawByPeerClass (<[key := mkOwned (pn_peerId p) cls
    (CliRawUdpTunnel_init (tm_now s) addr port fecMode mtu cls
       (bool_decide (tm_securityMode s = Secure)))]> (tm_rawByPeerClass s)) s) ;;;
  ret key.

(** ** Dead transports *)

(** [CliApp::onTransportDead], installed as [onTunnelDead]. *)
Definition onTransportDead (peerId cls : Z) : TM unit :=
  s <- gets (fun s => s) ;;
  match peerById peerId s with
  | None => ret tt
  | Some peer =>
      if decide (transport cls peer = TRANSPORT_NONE) then ret tt else
      let key := tunnelKey peerId cls in
      if decide (key ∈ la_pendingRebuild (tm_app s)) then ret tt else
      upd_app (fun a => set_la_pendingRebuild ({[key]} ∪ la_pendingRebuild a) a) ;;;
      removeTransport peerId cls ;;;
      fire (EvRequestRelay peerId)
  end.
Definition set_ordered (s : gset Z) : list Z := merge_sort Z.le (elements s).
Definition flushPendingTransportDead : TM unit :=
  s <- gets (fun s => s) ;;
  if negb (bool_decide (tm_dataPlaneState s = Running))
  then modify (set_tm_pendingTransportDead ∅) else
  modify (set_tm_pendingTransportDead ∅) ;;;
  for_each (set_ordered (tm_pendingTransportDead s)) (fun key =>
    let peerId := u32 (Z.shiftr key 8) in
    peer <- gets (peerById peerId) ;;
    match peer with
    | None => ret tt
    | Some _ => onTransportDead peerId (Z.land key 0xFF)
    end).
Definition updateKcp : TM unit :=
  s <- gets (fun s => s) ;;
  if negb (bool_decide (tm_dataPlaneState s = Running)) || bool_decide (tm_securityMode s = Unconfigured)
  then ret tt else
  for_each (map fst (map_ordered (tm_kcpByPeerClass s))) (fun key =>
    t <- gets (fun s => tm_kcpByPeerClass s !! key) ;;
    match t with Some _ => kcpTunnel_update key | None => ret tt end) ;;;
  s <- gets (fun s => s) ;;
  for_each (map fst (map_ordered (tm_rawByPeerClass s))) (fun key =>
    t <- gets (fun s => tm_rawByPeerClass s !! key) ;;
    match t with Some _ => rawTunnel_update key | None => ret tt end) ;;;
  flushPendingTransportDead.
(** The destructor. *)
Definition tm_destroy : TM unit :=
  stopDataPlane ;;; removeAllPeers ;;; tm_clearSecurityContext ;;;
  modify (fun s => if tm_udpFd s =? SOCK_INVALID then s else set_tm_udpFd SOCK_INVALID s).
End Manager.
