(* ===== verification/RoomLinks.v ===== *)
(** * The part of [client-cli/src/cli_app.cpp] that drives the tunnels

    [CliApp] reacts to the signalling client: members come and go, the server
    says that a relay is ready, a connection is rebuilt.  These handlers act on
    the tunnel manager and on the fields of [AppLinks].  A request for a relay
    is an event; console output is left out. *)

From stdpp Require Import pretty.
From S2P Require Import Prelude Protocol Room SecureFrame Overlay TcpConn CliSignalState Fec ProbeQuality PeerConn Store RawUdp TunnelManager.

Section Links.
Context `{Crypto} `{CM256} `{Ikcp}.
#[local] Abbreviation TM A := (SE CliTunnelManager A).

Definition links : CliTunnelManager -> AppLinks := tm_app.

(** ** Rebuilding *)

Definition transportKey (peerId cls : Z) : Z := Z.lor (Z.shiftl peerId 8) (u8 cls).
Definition clearPendingRebuild (peerId : Z) : TM unit :=
  upd_app (fun a => set_la_pendingRebuild (filter (fun key => Z.shiftr key 8 <> peerId) (la_pendingRebuild a)) a).
Definition takePendingRebuild (peerId cls : Z) : TM bool :=
  s <- gets links ;;
  let key := transportKey peerId cls in
  if negb (bool_decide (key ∈ la_pendingRebuild s)) then ret false else
  upd_app (fun a => set_la_pendingRebuild (la_pendingRebuild a ∖ {[key]}) a) ;;; ret true.
Definition rebuild_class (peerId cls : Z) : TM unit :=
  p <- deref_peer peerId ;;
  if decide (transport cls p = TRANSPORT_NONE) then ret tt else removeTransport peerId cls.
Definition rebuildPeerTransports (peerId : Z) : TM unit :=
  p <- gets (peerById peerId) ;;
  match p with
  | None => ret tt
  | Some _ =>
      clearPendingRebuild peerId ;;;
      rebuild_class peerId TRAFFIC_TCP ;;; rebuild_class peerId TRAFFIC_UDP ;;;
      connected <- gets (fun s => la_signalConnected (links s)) ;;
      when connected (fire (EvRequestRelay peerId))
  end.

(** ** Tunnels by policy *)

Definition class_policy (cls : Z) (a : AppLinks) : RoomTrafficPolicy :=
  if cls =? TRAFFIC_TCP then la_tcpPolicy a else la_udpPolicy a.
(** The peer, if it has no transport for the class yet. *)
Definition unlinked (peerId cls : Z) (s : CliTunnelManager) : bool :=
  match peerById peerId s with
  | Some p => bool_decide (transport cls p = TRANSPORT_NONE)
  | None => false
  end.
Definition setupRelayTunnel (peerId cls : Z) : TM unit :=
  s <- gets (fun s => s) ;;
  if negb (unlinked peerId cls s) then ret tt else
  let a := links s in
  let policy := class_policy cls a in
  key <- createKcpTunnel peerId (la_serverIP a) (la_port a) TRANSPORT_RELAY_KCP (fecMode policy) (la_roomMtu a)
           (kcpProfile policy) cls ;;
  o <- deref_kcp key ;;
  put_kcp key (kcp_setRelayMode (la_myPeerId a) peerId (ow_tunnel o)).
Definition setupRawUdpRelayTunnel (peerId cls : Z) : TM unit :=
  s <- gets (fun s => s) ;;
  if negb (unlinked peerId cls s) then ret tt else
  let a := links s in
  key <- createRawUdpTunnel peerId (la_serverIP a) (la_port a) (fecMode (class_policy cls a)) (la_roomMtu a) cls ;;
  o <- deref_raw key ;;
  put_raw key (setRelayMode (la_myPeerId a) peerId (ow_tunnel o)).
Definition setupTcpRelayTunnel (peerId cls : Z) : TM unit :=
  s <- gets (fun s => s) ;;
  if negb (unlinked peerId cls s) then ret tt else
  upd_peer peerId (fun p =>
    setTransport cls TRANSPORT_RELAY_TCP
      (set_pn_tcpSender (Some (la_myPeerId (links s))) (set_pn_tcpControlReady true p))).
Definition setupPolicyTunnel (peerId cls : Z) : TM unit :=
  s <- gets (fun s => s) ;;
  if negb (unlinked peerId cls s) then ret tt else
  let policy := class_policy cls (links s) in
  let policy := normalizeTrafficPolicy (TransportMode_u8 (transportMode policy)) (FecMode_u8 (fecMode policy))
                  (KcpProfile_u8 (kcpProfile policy))
                  (if cls =? TRAFFIC_TCP then makeDefaultTcpPolicy else makeDefaultUdpPolicy) in
  match transportMode policy with
  | MODE_RELAY_TCP => setupTcpRelayTunnel peerId cls
  | MODE_RELAY_RAW_UDP => setupRawUdpRelayTunnel peerId cls
  | MODE_RELAY_KCP => setupRelayTunnel peerId cls
  end.

(** ** Members of the room *)

Definition peer_label (peerId : Z) (name : bytes) : bytes :=
  if bool_decide (name = []) then bytes_of_string ("Peer" +:+ pretty peerId) else name.
Definition pend_member (info : PeerInfo) : TM unit :=
  upd_app (fun a => if pi_peerId info =? la_myPeerId a then a
                    else set_la_pendingRoomMembers (<[pi_peerId info := info]> (la_pendingRoomMembers a)) a).
Definition onPeerJoined (info : PeerInfo) : TM unit :=
  a <- gets links ;;
  if la_tunSetupPending a then pend_member info else
  if negb (la_roomReady a) then ret tt else
  addPeer (pi_peerId info) (pi_virtualIP info) (peer_label (pi_peerId info) (pi_name info)) ;;;
  fire (EvRequestRelay (pi_peerId info)).
Definition onPeerResumed (info : PeerInfo) : TM unit :=
  a <- gets links ;;
  if la_tunSetupPending a then
    pend_member info ;;;
    upd_app (fun a => set_la_pendingRoomRelays (la_pendingRoomRelays a ∖ {[pi_peerId info]}) a)
  else
  if negb (la_roomReady a) then ret tt else
  p <- gets (peerById (pi_peerId info)) ;;
  match p with
  | None => onPeerJoined info
  | Some _ => upd_peer (pi_peerId info) resetQuality ;;; rebuildPeerTransports (pi_peerId info)
  end.
Definition onPeerLeft (peerId : Z) : TM unit :=
  a <- gets links ;;
  if la_tunSetupPending a then
    upd_app (fun a => set_la_pendingRoomRelays (la_pendingRoomRelays a ∖ {[peerId]})
                        (set_la_pendingRoomMembers (delete peerId (la_pendingRoomMembers a)) a))
  else clearPendingRebuild peerId ;;; removePeer peerId.
Definition setup_if (go : bool) (peerId cls : Z) : TM unit :=
  when go (
    p <- deref_peer peerId ;;
    when (bool_decide (transport cls p = TRANSPORT_NONE)) (setupPolicyTunnel peerId cls)).
Definition onRelayReady (peerId : Z) : TM unit :=
  a <- gets links ;;
  if la_tunSetupPending a then upd_app (fun a => set_la_pendingRoomRelays ({[peerId]} ∪ la_pendingRoomRelays a) a) else
  if negb (la_roomReady a) then ret tt else
  p <- gets (peerById peerId) ;;
  match p with
  | None => ret tt
  | Some _ =>
      rebuildTcp <- takePendingRebuild peerId TRAFFIC_TCP ;;
      rebuildUdp <- takePendingRebuild peerId TRAFFIC_UDP ;;
      let initialSetup := negb rebuildTcp && negb rebuildUdp in
      setup_if (initialSetup || rebuildTcp) peerId TRAFFIC_TCP ;;;
      setup_if (initialSetup || rebuildUdp) peerId TRAFFIC_UDP
  end.
(** [finishRoomSetup], once the operation tracker is in the room. *)
Definition finishRoomSetup : TM unit :=
  upd_app (set_la_roomReady true) ;;;
  a <- gets links ;;
  upd_app (fun a => set_la_pendingRoomRelays ∅ (set_la_pendingRoomMembers ∅ a)) ;;;
  let members := map snd (map_ordered (la_pendingRoomMembers a)) in
  for_each members (fun info =>
    addPeer (pi_peerId info) (pi_virtualIP info) (peer_label (pi_peerId info) (pi_name info))) ;;;
  for_each (map fst (map_ordered (la_pendingRoomMembers a))) (fun id =>
    if decide (id ∈ la_pendingRoomRelays a) then onRelayReady id else fire (EvRequestRelay id)).
(** The tunnels' part of [teardownTun]. *)
Definition teardown_links : TM unit :=
  upd_app (fun a => set_la_pendingRoomRelays ∅ (set_la_pendingRoomMembers ∅ (set_la_tunSetupPending false a))) ;;;
  stopDataPlane ;;;
  upd_app (set_la_pendingRebuild ∅) ;;;
  removeAllPeers ;;;
  modify (set_tm_tun None) ;;; upd_app (set_la_hasTun false).
(** [startTunDataPlane], with the results of the system calls; the adapter is [m_tun]. *)
Definition startTunDataPlane (adapter : TunAdapter) (fd : Z) (nonblocking bound : bool) (port : Z) : TM bool :=
  modify (set_tm_tun (Some adapter)) ;;;
  a <- gets links ;;
  let requiresUdp := negb (bool_decide (transportMode (la_tcpPolicy a) = MODE_RELAY_TCP)) ||
                     negb (bool_decide (transportMode (la_udpPolicy a) = MODE_RELAY_TCP)) in
  ok <- startDataPlane requiresUdp fd nonblocking bound port ;;
  if negb ok then modify (set_tm_tun None) ;;; upd_app (set_la_hasTun false) ;;; ret false else ret true.

(** ** Packets of the TCP relay *)

Definition handleTcpRelayReceived (srcPeerId cls : Z) (data : bytes) : TM unit :=
  s <- gets (fun s => s) ;;
  if negb (bool_decide (tm_dataPlaneState s = Running)) || bool_decide (tm_securityMode s = Unconfigured)
  then ret tt else
  match peerById srcPeerId s with
  | None => ret tt
  | Some peer =>
      upd_peer srcPeerId (onTcpRelayDataReceived (tm_now s) cls) ;;;
      if bool_decide (data = []) then ret tt else
      if (2 <=? len data) && (byte_at data 0 =? CLI_LATENCY_PROBE_MARKER)
      then handled <- handleLatencyProbe srcPeerId cls data ;; ret tt else
      if negb (overlay_valid (validateInboundOverlayIpv4 (overlay_arg data) (len data) (la_roomMtu (links s))
                                (pn_virtualIP peer) (la_myVirtualIP (links s))))
      then ret tt else
      when (la_hasTun (links s)) (ok <- writePacket data ;; ret tt)
  end.

(** ** Timers of the event loop *)

(** The check of the TCP relays: keep-alives, and at most one dead class a peer. *)
Definition check_relay (peerId : Z) : TM unit :=
  sendTcpRelayKeepalive peerId ;;;
  p <- deref_peer peerId ;;
  now <- gets tm_now ;;
  if isTcpRelayDead now TRAFFIC_TCP p then onTransportDead peerId TRAFFIC_TCP else
  when (isTcpRelayDead now TRAFFIC_UDP p) (onTransportDead peerId TRAFFIC_UDP).
Definition check_relays : TM unit :=
  ids <- gets (fun s => map fst (map_ordered (tm_peerById s))) ;; for_each ids check_relay.
Definition probe_peer (peerId : Z) : TM unit :=
  me <- gets (fun s => la_myPeerId (links s)) ;;
  if peerId =? me then ret tt else
  sendLatencyPing_all peerId ;;;
  now <- gets tm_now ;;
  upd_quality peerId TRAFFIC_TCP (fun q => snd (snapshot now q)) ;;;
  upd_quality peerId TRAFFIC_UDP (fun q => snd (snapshot now q)).
Definition updatePeerQuality : TM unit :=
  ids <- gets (fun s => map fst (map_ordered (tm_peerById s))) ;; for_each ids probe_peer.
End Links.
