(* ===== verification/CliAppState.v ===== *)
(** * [class CliApp] of [client-cli/src/cli_app.cpp]: state

    The application of the command-line client: it owns the signalling client,
    the data channel and the tunnel manager, and keeps what a room, a lost
    connection and a command under way need.  Its state is everything beside
    the signalling client, whose callbacks it is ([AppState], [ClientApp]); the
    fields that concern peers are the [AppLinks] inside the tunnel manager
    ([la_roomReady] is [m_roomReady] and so on, [la_port] is [m_port]). *)

From S2P Require Import Prelude Protocol Room SecureFrame TcpConn RoomOp TunJob CliDataChannel CliSignalState Fec ProbeQuality PeerConn Store RawUdp TunnelManager.

(** ** Groups of members *)

(** The right to come back to a room after a lost connection. *)
Record ResumeLease := mkLease {
  rl_hasResumeLease : bool;
  rl_resumeRoomId : Z;
  rl_resumePeerId : Z;
  rl_resumeVirtualIP : Z;
  rl_resumeLeaseDeadlineMs : Z;
  rl_resumeToken : bytes
}.
Definition set_rl_hasResumeLease (v : bool) (l : ResumeLease) : ResumeLease :=
  mkLease v l.(rl_resumeRoomId) l.(rl_resumePeerId) l.(rl_resumeVirtualIP)
    l.(rl_resumeLeaseDeadlineMs) l.(rl_resumeToken).
Definition set_rl_resumeRoomId (v : Z) (l : ResumeLease) : ResumeLease :=
  mkLease l.(rl_hasResumeLease) v l.(rl_resumePeerId) l.(rl_resumeVirtualIP)
    l.(rl_resumeLeaseDeadlineMs) l.(rl_resumeToken).
Definition set_rl_resumePeerId (v : Z) (l : ResumeLease) : ResumeLease :=
  mkLease l.(rl_hasResumeLease) l.(rl_resumeRoomId) v l.(rl_resumeVirtualIP)
    l.(rl_resumeLeaseDeadlineMs) l.(rl_resumeToken).
Definition set_rl_resumeVirtualIP (v : Z) (l : ResumeLease) : ResumeLease :=
  mkLease l.(rl_hasResumeLease) l.(rl_resumeRoomId) l.(rl_resumePeerId) v
    l.(rl_resumeLeaseDeadlineMs) l.(rl_resumeToken).
Definition set_rl_resumeLeaseDeadlineMs (v : Z) (l : ResumeLease) : ResumeLease :=
  mkLease l.(rl_hasResumeLease) l.(rl_resumeRoomId) l.(rl_resumePeerId)
    l.(rl_resumeVirtualIP) v l.(rl_resumeToken).
Definition set_rl_resumeToken (v : bytes) (l : ResumeLease) : ResumeLease :=
  mkLease l.(rl_hasResumeLease) l.(rl_resumeRoomId) l.(rl_resumePeerId)
    l.(rl_resumeVirtualIP) l.(rl_resumeLeaseDeadlineMs) v.
(** The settings of the last room, to find or create it again. *)
Record SavedRoom := mkSaved {
  sr_savedRoomId : Z;
  sr_savedRoomName : bytes;
  sr_savedMaxPlayers : Z;
  sr_savedTcpPolicy : RoomTrafficPolicy;
  sr_savedUdpPolicy : RoomTrafficPolicy;
  sr_savedRoomMtu : Z;
  sr_savedRoomPasswordProtected : bool
}.
Definition set_sr_savedRoomId (v : Z) (r : SavedRoom) : SavedRoom :=
  mkSaved v r.(sr_savedRoomName) r.(sr_savedMaxPlayers) r.(sr_savedTcpPolicy)
    r.(sr_savedUdpPolicy) r.(sr_savedRoomMtu) r.(sr_savedRoomPasswordProtected).
Definition set_sr_savedRoomName (v : bytes) (r : SavedRoom) : SavedRoom :=
  mkSaved r.(sr_savedRoomId) v r.(sr_savedMaxPlayers) r.(sr_savedTcpPolicy)
    r.(sr_savedUdpPolicy) r.(sr_savedRoomMtu) r.(sr_savedRoomPasswordProtected).
Definition set_sr_savedMaxPlayers (v : Z) (r : SavedRoom) : SavedRoom :=
  mkSaved r.(sr_savedRoomId) r.(sr_savedRoomName) v r.(sr_savedTcpPolicy)
    r.(sr_savedUdpPolicy) r.(sr_savedRoomMtu) r.(sr_savedRoomPasswordProtected).
Definition set_sr_savedTcpPolicy (v : RoomTrafficPolicy) (r : SavedRoom) : SavedRoom :=
  mkSaved r.(sr_savedRoomId) r.(sr_savedRoomName) r.(sr_savedMaxPlayers) v
    r.(sr_savedUdpPolicy) r.(sr_savedRoomMtu) r.(sr_savedRoomPasswordProtected).
Definition set_sr_savedUdpPolicy (v : RoomTrafficPolicy) (r : SavedRoom) : SavedRoom :=
  mkSaved r.(sr_savedRoomId) r.(sr_savedRoomName) r.(sr_savedMaxPlayers)
    r.(sr_savedTcpPolicy) v r.(sr_savedRoomMtu) r.(sr_savedRoomPasswordProtected).
Definition set_sr_savedRoomMtu (v : Z) (r : SavedRoom) : SavedRoom :=
  mkSaved r.(sr_savedRoomId) r.(sr_savedRoomName) r.(sr_savedMaxPlayers)
    r.(sr_savedTcpPolicy) r.(sr_savedUdpPolicy) v r.(sr_savedRoomPasswordProtected).
Definition set_sr_savedRoomPasswordProtected (v : bool) (r : SavedRoom) : SavedRoom :=
  mkSaved r.(sr_savedRoomId) r.(sr_savedRoomName) r.(sr_savedMaxPlayers)
    r.(sr_savedTcpPolicy) r.(sr_savedUdpPolicy) r.(sr_savedRoomMtu) v.
(** Lost and refused connections. *)
Record Reconnection := mkReconnection {
  cx_wantReconnect : bool;
  cx_authRetryBlocked : bool;
  cx_securityReconnectPending : bool;
  cx_securityReconnectSessionId : Z;
  cx_reconnectAttempts : Z;
  cx_nextReconnectTime : Z;
  cx_wasInRoom : bool;
  cx_pendingResumeRoom : bool;
  cx_manualDisconnecting : bool;
  cx_logoutPending : bool;
  cx_exitAfterDisconnect : bool;
  cx_logoutDeadline : Z
}.
Definition set_cx_wantReconnect (v : bool) (x : Reconnection) : Reconnection :=
  mkReconnection v x.(cx_authRetryBlocked) x.(cx_securityReconnectPending)
    x.(cx_securityReconnectSessionId) x.(cx_reconnectAttempts) x.(cx_nextReconnectTime)
    x.(cx_wasInRoom) x.(cx_pendingResumeRoom) x.(cx_manualDisconnecting)
    x.(cx_logoutPending) x.(cx_exitAfterDisconnect) x.(cx_logoutDeadline).
Definition set_cx_authRetryBlocked (v : bool) (x : Reconnection) : Reconnection :=
  mkReconnection x.(cx_wantReconnect) v x.(cx_securityReconnectPending)
    x.(cx_securityReconnectSessionId) x.(cx_reconnectAttempts) x.(cx_nextReconnectTime)
    x.(cx_wasInRoom) x.(cx_pendingResumeRoom) x.(cx_manualDisconnecting)
    x.(cx_logoutPending) x.(cx_exitAfterDisconnect) x.(cx_logoutDeadline).
Definition set_cx_securityReconnectPending (v : bool) (x : Reconnection) : Reconnection :=
  mkReconnection x.(cx_wantReconnect) x.(cx_authRetryBlocked) v
    x.(cx_securityReconnectSessionId) x.(cx_reconnectAttempts) x.(cx_nextReconnectTime)
    x.(cx_wasInRoom) x.(cx_pendingResumeRoom) x.(cx_manualDisconnecting)
    x.(cx_logoutPending) x.(cx_exitAfterDisconnect) x.(cx_logoutDeadline).
Definition set_cx_securityReconnectSessionId (v : Z) (x : Reconnection) : Reconnection :=
  mkReconnection x.(cx_wantReconnect) x.(cx_authRetryBlocked)
    x.(cx_securityReconnectPending) v x.(cx_reconnectAttempts) x.(cx_nextReconnectTime)
    x.(cx_wasInRoom) x.(cx_pendingResumeRoom) x.(cx_manualDisconnecting)
    x.(cx_logoutPending) x.(cx_exitAfterDisconnect) x.(cx_logoutDeadline).
Definition set_cx_reconnectAttempts (v : Z) (x : Reconnection) : Reconnection :=
  mkReconnection x.(cx_wantReconnect) x.(cx_authRetryBlocked)
    x.(cx_securityReconnectPending) x.(cx_securityReconnectSessionId) v
    x.(cx_nextReconnectTime) x.(cx_wasInRoom) x.(cx_pendingResumeRoom)
    x.(cx_manualDisconnecting) x.(cx_logoutPending) x.(cx_exitAfterDisconnect)
    x.(cx_logoutDeadline).
Definition set_cx_nextReconnectTime (v : Z) (x : Reconnection) : Reconnection :=
  mkReconnection x.(cx_wantReconnect) x.(cx_authRetryBlocked)
    x.(cx_securityReconnectPending) x.(cx_securityReconnectSessionId)
    x.(cx_reconnectAttempts) v x.(cx_wasInRoom) x.(cx_pendingResumeRoom)
    x.(cx_manualDisconnecting) x.(cx_logoutPending) x.(cx_exitAfterDisconnect)
    x.(cx_logoutDeadline).
Definition set_cx_wasInRoom (v : bool) (x : Reconnection) : Reconnection :=
  mkReconnection x.(cx_wantReconnect) x.(cx_authRetryBlocked)
    x.(cx_securityReconnectPending) x.(cx_securityReconnectSessionId)
    x.(cx_reconnectAttempts) x.(cx_nextReconnectTime) v x.(cx_pendingResumeRoom)
    x.(cx_manualDisconnecting) x.(cx_logoutPending) x.(cx_exitAfterDisconnect)
    x.(cx_logoutDeadline).
Definition set_cx_pendingResumeRoom (v : bool) (x : Reconnection) : Reconnection :=
  mkReconnection x.(cx_wantReconnect) x.(cx_authRetryBlocked)
    x.(cx_securityReconnectPending) x.(cx_securityReconnectSessionId)
    x.(cx_reconnectAttempts) x.(cx_nextReconnectTime) x.(cx_wasInRoom) v
    x.(cx_manualDisconnecting) x.(cx_logoutPending) x.(cx_exitAfterDisconnect)
    x.(cx_logoutDeadline).
Definition set_cx_manualDisconnecting (v : bool) (x : Reconnection) : Reconnection :=
  mkReconnection x.(cx_wantReconnect) x.(cx_authRetryBlocked)
    x.(cx_securityReconnectPending) x.(cx_securityReconnectSessionId)
    x.(cx_reconnectAttempts) x.(cx_nextReconnectTime) x.(cx_wasInRoom)
    x.(cx_pendingResumeRoom) v x.(cx_logoutPending) x.(cx_exitAfterDisconnect)
    x.(cx_logoutDeadline).
Definition set_cx_logoutPending (v : bool) (x : Reconnection) : Reconnection :=
  mkReconnection x.(cx_wantReconnect) x.(cx_authRetryBlocked)
    x.(cx_securityReconnectPending) x.(cx_securityReconnectSessionId)
    x.(cx_reconnectAttempts) x.(cx_nextReconnectTime) x.(cx_wasInRoom)
    x.(cx_pendingResumeRoom) x.(cx_manualDisconnecting) v x.(cx_exitAfterDisconnect)
    x.(cx_logoutDeadline).
Definition set_cx_exitAfterDisconnect (v : bool) (x : Reconnection) : Reconnection :=
  mkReconnection x.(cx_wantReconnect) x.(cx_authRetryBlocked)
    x.(cx_securityReconnectPending) x.(cx_securityReconnectSessionId)
    x.(cx_reconnectAttempts) x.(cx_nextReconnectTime) x.(cx_wasInRoom)
    x.(cx_pendingResumeRoom) x.(cx_manualDisconnecting) x.(cx_logoutPending) v
    x.(cx_logoutDeadline).
Definition set_cx_logoutDeadline (v : Z) (x : Reconnection) : Reconnection :=
  mkReconnection x.(cx_wantReconnect) x.(cx_authRetryBlocked)
    x.(cx_securityReconnectPending) x.(cx_securityReconnectSessionId)
    x.(cx_reconnectAttempts) x.(cx_nextReconnectTime) x.(cx_wasInRoom)
    x.(cx_pendingResumeRoom) x.(cx_manualDisconnecting) x.(cx_logoutPending)
    x.(cx_exitAfterDisconnect) v.
(** The room operation under way. *)
Record RoomSetup := mkSetup {
  op_roomOperation : RoomOperationTracker;
  op_tunJob : option CliTunLifecycleJob;
  op_tunSetupIsCreate : bool;
  op_tunSetupLastPoll : Z;
  op_tunSetupGeneration : Z;
  op_connectionGeneration : Z;
  op_roomRecovery : bool;
  op_roomRecoveryAttempt : bool;
  op_roomRecoveryScheduled : bool;
  op_roomRecoveryAt : Z;
  op_cleanupWarned : bool;
  op_stopAfterCleanup : bool;
  op_currentRoomId : Z;
  op_roomPasswordProtected : bool;
  op_roomPassword : bytes
}.
Definition set_op_roomOperation (v : RoomOperationTracker) (o : RoomSetup) : RoomSetup :=
  mkSetup v o.(op_tunJob) o.(op_tunSetupIsCreate) o.(op_tunSetupLastPoll)
    o.(op_tunSetupGeneration) o.(op_connectionGeneration) o.(op_roomRecovery)
    o.(op_roomRecoveryAttempt) o.(op_roomRecoveryScheduled) o.(op_roomRecoveryAt)
    o.(op_cleanupWarned) o.(op_stopAfterCleanup) o.(op_currentRoomId)
    o.(op_roomPasswordProtected) o.(op_roomPassword).
Definition set_op_tunJob (v : option CliTunLifecycleJob) (o : RoomSetup) : RoomSetup :=
  mkSetup o.(op_roomOperation) v o.(op_tunSetupIsCreate) o.(op_tunSetupLastPoll)
    o.(op_tunSetupGeneration) o.(op_connectionGeneration) o.(op_roomRecovery)
    o.(op_roomRecoveryAttempt) o.(op_roomRecoveryScheduled) o.(op_roomRecoveryAt)
    o.(op_cleanupWarned) o.(op_stopAfterCleanup) o.(op_currentRoomId)
    o.(op_roomPasswordProtected) o.(op_roomPassword).
Definition set_op_tunSetupIsCreate (v : bool) (o : RoomSetup) : RoomSetup :=
  mkSetup o.(op_roomOperation) o.(op_tunJob) v o.(op_tunSetupLastPoll)
    o.(op_tunSetupGeneration) o.(op_connectionGeneration) o.(op_roomRecovery)
    o.(op_roomRecoveryAttempt) o.(op_roomRecoveryScheduled) o.(op_roomRecoveryAt)
    o.(op_cleanupWarned) o.(op_stopAfterCleanup) o.(op_currentRoomId)
    o.(op_roomPasswordProtected) o.(op_roomPassword).
Definition set_op_tunSetupLastPoll (v : Z) (o : RoomSetup) : RoomSetup :=
  mkSetup o.(op_roomOperation) o.(op_tunJob) o.(op_tunSetupIsCreate) v
    o.(op_tunSetupGeneration) o.(op_connectionGeneration) o.(op_roomRecovery)
    o.(op_roomRecoveryAttempt) o.(op_roomRecoveryScheduled) o.(op_roomRecoveryAt)
    o.(op_cleanupWarned) o.(op_stopAfterCleanup) o.(op_currentRoomId)
    o.(op_roomPasswordProtected) o.(op_roomPassword).
Definition set_op_tunSetupGeneration (v : Z) (o : RoomSetup) : RoomSetup :=
  mkSetup o.(op_roomOperation) o.(op_tunJob) o.(op_tunSetupIsCreate) o.(op_tunSetupLastPoll)
    v o.(op_connectionGeneration) o.(op_roomRecovery) o.(op_roomRecoveryAttempt)
    o.(op_roomRecoveryScheduled) o.(op_roomRecoveryAt) o.(op_cleanupWarned)
    o.(op_stopAfterCleanup) o.(op_currentRoomId) o.(op_roomPasswordProtected)
    o.(op_roomPassword).
Definition set_op_connectionGeneration (v : Z) (o : RoomSetup) : RoomSetup :=
  mkSetup o.(op_roomOperation) o.(op_tunJob) o.(op_tunSetupIsCreate) o.(op_tunSetupLastPoll)
    o.(op_tunSetupGeneration) v o.(op_roomRecovery) o.(op_roomRecoveryAttempt)
    o.(op_roomRecoveryScheduled) o.(op_roomRecoveryAt) o.(op_cleanupWarned)
    o.(op_stopAfterCleanup) o.(op_currentRoomId) o.(op_roomPasswordProtected)
    o.(op_roomPassword).
Definition set_op_roomRecovery (v : bool) (o : RoomSetup) : RoomSetup :=
  mkSetup o.(op_roomOperation) o.(op_tunJob) o.(op_tunSetupIsCreate) o.(op_tunSetupLastPoll)
    o.(op_tunSetupGeneration) o.(op_connectionGeneration) v o.(op_roomRecoveryAttempt)
    o.(op_roomRecoveryScheduled) o.(op_roomRecoveryAt) o.(op_cleanupWarned)
    o.(op_stopAfterCleanup) o.(op_currentRoomId) o.(op_roomPasswordProtected)
    o.(op_roomPassword).
Definition set_op_roomRecoveryAttempt (v : bool) (o : RoomSetup) : RoomSetup :=
  mkSetup o.(op_roomOperation) o.(op_tunJob) o.(op_tunSetupIsCreate) o.(op_tunSetupLastPoll)
    o.(op_tunSetupGeneration) o.(op_connectionGeneration) o.(op_roomRecovery) v
    o.(op_roomRecoveryScheduled) o.(op_roomRecoveryAt) o.(op_cleanupWarned)
    o.(op_stopAfterCleanup) o.(op_currentRoomId) o.(op_roomPasswordProtected)
    o.(op_roomPassword).
Definition set_op_roomRecoveryScheduled (v : bool) (o : RoomSetup) : RoomSetup :=
  mkSetup o.(op_roomOperation) o.(op_tunJob) o.(op_tunSetupIsCreate) o.(op_tunSetupLastPoll)
    o.(op_tunSetupGeneration) o.(op_connectionGeneration) o.(op_roomRecovery)
    o.(op_roomRecoveryAttempt) v o.(op_roomRecoveryAt) o.(op_cleanupWarned)
    o.(op_stopAfterCleanup) o.(op_currentRoomId) o.(op_roomPasswordProtected)
    o.(op_roomPassword).
Definition set_op_roomRecoveryAt (v : Z) (o : RoomSetup) : RoomSetup :=
  mkSetup o.(op_roomOperation) o.(op_tunJob) o.(op_tunSetupIsCreate) o.(op_tunSetupLastPoll)
    o.(op_tunSetupGeneration) o.(op_connectionGeneration) o.(op_roomRecovery)
    o.(op_roomRecoveryAttempt) o.(op_roomRecoveryScheduled) v o.(op_cleanupWarned)
    o.(op_stopAfterCleanup) o.(op_currentRoomId) o.(op_roomPasswordProtected)
    o.(op_roomPassword).
Definition set_op_cleanupWarned (v : bool) (o : RoomSetup) : RoomSetup :=
  mkSetup o.(op_roomOperation) o.(op_tunJob) o.(op_tunSetupIsCreate) o.(op_tunSetupLastPoll)
    o.(op_tunSetupGeneration) o.(op_connectionGeneration) o.(op_roomRecovery)
    o.(op_roomRecoveryAttempt) o.(op_roomRecoveryScheduled) o.(op_roomRecoveryAt) v
    o.(op_stopAfterCleanup) o.(op_currentRoomId) o.(op_roomPasswordProtected)
    o.(op_roomPassword).
Definition set_op_stopAfterCleanup (v : bool) (o : RoomSetup) : RoomSetup :=
  mkSetup o.(op_roomOperation) o.(op_tunJob) o.(op_tunSetupIsCreate) o.(op_tunSetupLastPoll)
    o.(op_tunSetupGeneration) o.(op_connectionGeneration) o.(op_roomRecovery)
    o.(op_roomRecoveryAttempt) o.(op_roomRecoveryScheduled) o.(op_roomRecoveryAt)
    o.(op_cleanupWarned) v o.(op_currentRoomId) o.(op_roomPasswordProtected)
    o.(op_roomPassword).
Definition set_op_currentRoomId (v : Z) (o : RoomSetup) : RoomSetup :=
  mkSetup o.(op_roomOperation) o.(op_tunJob) o.(op_tunSetupIsCreate) o.(op_tunSetupLastPoll)
    o.(op_tunSetupGeneration) o.(op_connectionGeneration) o.(op_roomRecovery)
    o.(op_roomRecoveryAttempt) o.(op_roomRecoveryScheduled) o.(op_roomRecoveryAt)
    o.(op_cleanupWarned) o.(op_stopAfterCleanup) v o.(op_roomPasswordProtected)
    o.(op_roomPassword).
Definition set_op_roomPasswordProtected (v : bool) (o : RoomSetup) : RoomSetup :=
  mkSetup o.(op_roomOperation) o.(op_tunJob) o.(op_tunSetupIsCreate) o.(op_tunSetupLastPoll)
    o.(op_tunSetupGeneration) o.(op_connectionGeneration) o.(op_roomRecovery)
    o.(op_roomRecoveryAttempt) o.(op_roomRecoveryScheduled) o.(op_roomRecoveryAt)
    o.(op_cleanupWarned) o.(op_stopAfterCleanup) o.(op_currentRoomId) v o.(op_roomPassword).
Definition set_op_roomPassword (v : bytes) (o : RoomSetup) : RoomSetup :=
  mkSetup o.(op_roomOperation) o.(op_tunJob) o.(op_tunSetupIsCreate) o.(op_tunSetupLastPoll)
    o.(op_tunSetupGeneration) o.(op_connectionGeneration) o.(op_roomRecovery)
    o.(op_roomRecoveryAttempt) o.(op_roomRecoveryScheduled) o.(op_roomRecoveryAt)
    o.(op_cleanupWarned) o.(op_stopAfterCleanup) o.(op_currentRoomId)
    o.(op_roomPasswordProtected) v.
Record LoopTimers := mkTimers {
  lt_lastPingTime : Z;
  lt_lastKcpUpdateTime : Z;
  lt_lastUdpKeepaliveTime : Z;
  lt_lastTcpRelayCheckTime : Z;
  lt_lastLatencyCheckTime : Z;
  lt_lastDataChannelPingTime : Z
}.
Definition set_lt_lastPingTime (v : Z) (t : LoopTimers) : LoopTimers :=
  mkTimers v t.(lt_lastKcpUpdateTime) t.(lt_lastUdpKeepaliveTime)
    t.(lt_lastTcpRelayCheckTime) t.(lt_lastLatencyCheckTime) t.(lt_lastDataChannelPingTime).
Definition set_lt_lastKcpUpdateTime (v : Z) (t : LoopTimers) : LoopTimers :=
  mkTimers t.(lt_lastPingTime) v t.(lt_lastUdpKeepaliveTime) t.(lt_lastTcpRelayCheckTime)
    t.(lt_lastLatencyCheckTime) t.(lt_lastDataChannelPingTime).
Definition set_lt_lastUdpKeepaliveTime (v : Z) (t : LoopTimers) : LoopTimers :=
  mkTimers t.(lt_lastPingTime) t.(lt_lastKcpUpdateTime) v t.(lt_lastTcpRelayCheckTime)
    t.(lt_lastLatencyCheckTime) t.(lt_lastDataChannelPingTime).
Definition set_lt_lastTcpRelayCheckTime (v : Z) (t : LoopTimers) : LoopTimers :=
  mkTimers t.(lt_lastPingTime) t.(lt_lastKcpUpdateTime) t.(lt_lastUdpKeepaliveTime) v
    t.(lt_lastLatencyCheckTime) t.(lt_lastDataChannelPingTime).
Definition set_lt_lastLatencyCheckTime (v : Z) (t : LoopTimers) : LoopTimers :=
  mkTimers t.(lt_lastPingTime) t.(lt_lastKcpUpdateTime) t.(lt_lastUdpKeepaliveTime)
    t.(lt_lastTcpRelayCheckTime) v t.(lt_lastDataChannelPingTime).
Definition set_lt_lastDataChannelPingTime (v : Z) (t : LoopTimers) : LoopTimers :=
  mkTimers t.(lt_lastPingTime) t.(lt_lastKcpUpdateTime) t.(lt_lastUdpKeepaliveTime)
    t.(lt_lastTcpRelayCheckTime) t.(lt_lastLatencyCheckTime) v.
(** The results of coming system calls: connections (descriptor, and whether
    it is being made), the UDP socket (descriptor, non-blocking, bound, port),
    the resolution of the host (as text and number) and the creation of a
    thread (the exception, if one is thrown). *)
Record Environment := mkEnvironment {
  nv_connects : list (Z * bool);
  nv_udpSockets : list (Z * bool * bool * Z);
  nv_resolved : list (option (bytes * Z));
  nv_threads : list (option bytes)
}.
Definition set_nv_connects (v : list (Z * bool)) (e : Environment) : Environment :=
  mkEnvironment v e.(nv_udpSockets) e.(nv_resolved) e.(nv_threads).
Definition set_nv_udpSockets (v : list (Z * bool * bool * Z)) (e : Environment) : Environment :=
  mkEnvironment e.(nv_connects) v e.(nv_resolved) e.(nv_threads).
Definition set_nv_resolved (v : list (option (bytes * Z))) (e : Environment) : Environment :=
  mkEnvironment e.(nv_connects) e.(nv_udpSockets) v e.(nv_threads).
Definition set_nv_threads (v : list (option bytes)) (e : Environment) : Environment :=
  mkEnvironment e.(nv_connects) e.(nv_udpSockets) e.(nv_resolved) v.

Section Application.
Context `{Crypto} `{CM256} `{Ikcp}.

(** The application.  [ap_out] is what the tunnels sent to the network and the
    adapter; [ap_overrun] records that callbacks nested deeper than the model
    follows them, which never happens. *)
Record CliApp := mkApp {
  ap_dataChannel : CliDataChannel;
  ap_tunnel : CliTunnelManager;
  ap_lease : ResumeLease;
  ap_saved : SavedRoom;
  ap_conn : Reconnection;
  ap_room : RoomSetup;
  ap_timers : LoopTimers;
  ap_serverHost : bytes;
  ap_resolvedIP : bytes;
  ap_playerName : bytes;
  ap_serverPassword : bytes;
  ap_running : bool;
  ap_cachedRoomList : list CliRoomListItem;
  ap_env : Environment;
  ap_out : list LinkEvent;
  ap_overrun : bool
}.
Definition set_ap_dataChannel (v : CliDataChannel) (a : CliApp) : CliApp :=
  mkApp v a.(ap_tunnel) a.(ap_lease) a.(ap_saved) a.(ap_conn) a.(ap_room) a.(ap_timers)
    a.(ap_serverHost) a.(ap_resolvedIP) a.(ap_playerName) a.(ap_serverPassword)
    a.(ap_running) a.(ap_cachedRoomList) a.(ap_env) a.(ap_out) a.(ap_overrun).
Definition set_ap_tunnel (v : CliTunnelManager) (a : CliApp) : CliApp :=
  mkApp a.(ap_dataChannel) v a.(ap_lease) a.(ap_saved) a.(ap_conn) a.(ap_room) a.(ap_timers)
    a.(ap_serverHost) a.(ap_resolvedIP) a.(ap_playerName) a.(ap_serverPassword)
    a.(ap_running) a.(ap_cachedRoomList) a.(ap_env) a.(ap_out) a.(ap_overrun).
Definition set_ap_lease (v : ResumeLease) (a : CliApp) : CliApp :=
  mkApp a.(ap_dataChannel) a.(ap_tunnel) v a.(ap_saved) a.(ap_conn) a.(ap_room)
    a.(ap_timers) a.(ap_serverHost) a.(ap_resolvedIP) a.(ap_playerName)
    a.(ap_serverPassword) a.(ap_running) a.(ap_cachedRoomList) a.(ap_env) a.(ap_out)
    a.(ap_overrun).
Definition set_ap_saved (v : SavedRoom) (a : CliApp) : CliApp :=
  mkApp a.(ap_dataChannel) a.(ap_tunnel) a.(ap_lease) v a.(ap_conn) a.(ap_room)
    a.(ap_timers) a.(ap_serverHost) a.(ap_resolvedIP) a.(ap_playerName)
    a.(ap_serverPassword) a.(ap_running) a.(ap_cachedRoomList) a.(ap_env) a.(ap_out)
    a.(ap_overrun).
Definition set_ap_conn (v : Reconnection) (a : CliApp) : CliApp :=
  mkApp a.(ap_dataChannel) a.(ap_tunnel) a.(ap_lease) a.(ap_saved) v a.(ap_room)
    a.(ap_timers) a.(ap_serverHost) a.(ap_resolvedIP) a.(ap_playerName)
    a.(ap_serverPassword) a.(ap_running) a.(ap_cachedRoomList) a.(ap_env) a.(ap_out)
    a.(ap_overrun).
Definition set_ap_room (v : RoomSetup) (a : CliApp) : CliApp :=
  mkApp a.(ap_dataChannel) a.(ap_tunnel) a.(ap_lease) a.(ap_saved) a.(ap_conn) v
    a.(ap_timers) a.(ap_serverHost) a.(ap_resolvedIP) a.(ap_playerName)
    a.(ap_serverPassword) a.(ap_running) a.(ap_cachedRoomList) a.(ap_env) a.(ap_out)
    a.(ap_overrun).
Definition set_ap_timers (v : LoopTimers) (a : CliApp) : CliApp :=
  mkApp a.(ap_dataChannel) a.(ap_tunnel) a.(ap_lease) a.(ap_saved) a.(ap_conn) a.(ap_room) v
    a.(ap_serverHost) a.(ap_resolvedIP) a.(ap_playerName) a.(ap_serverPassword)
    a.(ap_running) a.(ap_cachedRoomList) a.(ap_env) a.(ap_out) a.(ap_overrun).
Definition set_ap_serverHost (v : bytes) (a : CliApp) : CliApp :=
  mkApp a.(ap_dataChannel) a.(ap_tunnel) a.(ap_lease) a.(ap_saved) a.(ap_conn) a.(ap_room)
    a.(ap_timers) v a.(ap_resolvedIP) a.(ap_playerName) a.(ap_serverPassword) a.(ap_running)
    a.(ap_cachedRoomList) a.(ap_env) a.(ap_out) a.(ap_overrun).
Definition set_ap_resolvedIP (v : bytes) (a : CliApp) : CliApp :=
  mkApp a.(ap_dataChannel) a.(ap_tunnel) a.(ap_lease) a.(ap_saved) a.(ap_conn) a.(ap_room)
    a.(ap_timers) a.(ap_serverHost) v a.(ap_playerName) a.(ap_serverPassword) a.(ap_running)
    a.(ap_cachedRoomList) a.(ap_env) a.(ap_out) a.(ap_overrun).
Definition set_ap_playerName (v : bytes) (a : CliApp) : CliApp :=
  mkApp a.(ap_dataChannel) a.(ap_tunnel) a.(ap_lease) a.(ap_saved) a.(ap_conn) a.(ap_room)
    a.(ap_timers) a.(ap_serverHost) a.(ap_resolvedIP) v a.(ap_serverPassword) a.(ap_running)
    a.(ap_cachedRoomList) a.(ap_env) a.(ap_out) a.(ap_overrun).
Definition set_ap_serverPassword (v : bytes) (a : CliApp) : CliApp :=
  mkApp a.(ap_dataChannel) a.(ap_tunnel) a.(ap_lease) a.(ap_saved) a.(ap_conn) a.(ap_room)
    a.(ap_timers) a.(ap_serverHost) a.(ap_resolvedIP) a.(ap_playerName) v a.(ap_running)
    a.(ap_cachedRoomList) a.(ap_env) a.(ap_out) a.(ap_overrun).
Definition set_ap_running (v : bool) (a : CliApp) : CliApp :=
  mkApp a.(ap_dataChannel) a.(ap_tunnel) a.(ap_lease) a.(ap_saved) a.(ap_conn) a.(ap_room)
    a.(ap_timers) a.(ap_serverHost) a.(ap_resolvedIP) a.(ap_playerName)
    a.(ap_serverPassword) v a.(ap_cachedRoomList) a.(ap_env) a.(ap_out) a.(ap_overrun).
Definition set_ap_cachedRoomList (v : list CliRoomListItem) (a : CliApp) : CliApp :=
  mkApp a.(ap_dataChannel) a.(ap_tunnel) a.(ap_lease) a.(ap_saved) a.(ap_conn) a.(ap_room)
    a.(ap_timers) a.(ap_serverHost) a.(ap_resolvedIP) a.(ap_playerName)
    a.(ap_serverPassword) a.(ap_running) v a.(ap_env) a.(ap_out) a.(ap_overrun).
Definition set_ap_env (v : Environment) (a : CliApp) : CliApp :=
  mkApp a.(ap_dataChannel) a.(ap_tunnel) a.(ap_lease) a.(ap_saved) a.(ap_conn) a.(ap_room)
    a.(ap_timers) a.(ap_serverHost) a.(ap_resolvedIP) a.(ap_playerName)
    a.(ap_serverPassword) a.(ap_running) a.(ap_cachedRoomList) v a.(ap_out) a.(ap_overrun).
Definition set_ap_out (v : list LinkEvent) (a : CliApp) : CliApp :=
  mkApp a.(ap_dataChannel) a.(ap_tunnel) a.(ap_lease) a.(ap_saved) a.(ap_conn) a.(ap_room)
    a.(ap_timers) a.(ap_serverHost) a.(ap_resolvedIP) a.(ap_playerName)
    a.(ap_serverPassword) a.(ap_running) a.(ap_cachedRoomList) a.(ap_env) v a.(ap_overrun).
Definition set_ap_overrun (v : bool) (a : CliApp) : CliApp :=
  mkApp a.(ap_dataChannel) a.(ap_tunnel) a.(ap_lease) a.(ap_saved) a.(ap_conn) a.(ap_room)
    a.(ap_timers) a.(ap_serverHost) a.(ap_resolvedIP) a.(ap_playerName)
    a.(ap_serverPassword) a.(ap_running) a.(ap_cachedRoomList) a.(ap_env) a.(ap_out) v.
#[export] Instance app_host : AppState := {| app_state := CliApp |}.

Definition ResumeLease_init : ResumeLease := mkLease false 0 0 0 0 [].
Definition SavedRoom_init : SavedRoom :=
  mkSaved 0 [] 8 makeDefaultTcpPolicy makeDefaultUdpPolicy ROOM_MTU_DEFAULT false.
Definition Reconnection_init : Reconnection :=
  mkReconnection false false false 0 0 0 false false false false false 0.
Definition RoomSetup_init : RoomSetup :=
  mkSetup RoomOperationTracker_init None false 0 0 0 false false false 0 false false 0 false [].
Definition CliApp_init (now : Z) : CliApp :=
  mkApp (CliDataChannel_init now)
    (set_tm_app (set_la_port DEFAULT_PORT AppLinks_init) CliTunnelManager_init)
    ResumeLease_init SavedRoom_init Reconnection_init RoomSetup_init (mkTimers 0 0 0 0 0 0)
    [] [] [] [] false [] (mkEnvironment [] [] [] []) [] false.
End Application.
