(* ===== verification/CliApp.v ===== *)
(** * [class CliApp] of [client-cli/src/cli_app.cpp]: parts and recovery

    The parts of the application, the lease, the room operation and its recovery
    after a failure, and the virtual adapter.  Programs run
    over the signalling client, whose [sc_app] holds the application; a
    callback runs in the middle of the client's operation, as in the program,
    and may call the client back (how deep that nests: [CliLoop]).

    What the tunnels ask of the connections (a relay request, a packet for the
    TCP relay) and what the data channel reports are carried out when the
    operation of the tunnels or of the channel returns.  Within a turn the
    clock stands still.  Console output is left out. *)

From S2P Require Import Prelude Protocol ByteBuf Room SecureFrame Overlay TcpConn AuthKdf RoomOp TunJob CliOptions CliDataChannel CliSignalState CliSignal Fec ProbeQuality PeerConn Store RawUdp TunnelManager RoomLinks CliAppState.

Definition VNET_MASK : Z := 0xFFFFFF00.
Definition KEEPALIVE_INTERVAL_MS : Z := 15000.
Definition UDP_KEEPALIVE_INTERVAL_MS : Z := 10000.
Definition MAX_RECONNECT_ATTEMPTS : Z := 5.
(** [deadlineReached], at time [now]. *)
Definition deadlineReached (now deadlineMs : Z) : bool :=
  negb (deadlineMs =? 0) && (0 <=? i32 (now - deadlineMs)).
Definition reconnectDelayMs (now completedAttempts : Z) : Z :=
  let exponent := Z.max 0 (Z.min completedAttempts 4) in
  let base := Z.shiftl 1000 exponent in
  let range := base / 5 in
  let jitter := now mod (range * 2 + 1) - range in
  u32 (base + jitter).
Definition samePolicy (a b : RoomTrafficPolicy) : bool := bool_decide (a = b).

Section App.
Context `{Crypto} `{CM256} `{Ikcp} {CA : ClientApp}.
#[local] Existing Instance silent_channel_app.

(** ** Access to the parts *)

Definition in_app (f : CliApp -> CliApp) : CS unit := modify (fun c => set_sc_app (f (sc_app c)) c).
Definition in_lease (f : ResumeLease -> ResumeLease) : CS unit := in_app (fun a => set_ap_lease (f (ap_lease a)) a).
Definition in_saved (f : SavedRoom -> SavedRoom) : CS unit := in_app (fun a => set_ap_saved (f (ap_saved a)) a).
Definition in_conn (f : Reconnection -> Reconnection) : CS unit := in_app (fun a => set_ap_conn (f (ap_conn a)) a).
Definition in_setup (f : RoomSetup -> RoomSetup) : CS unit := in_app (fun a => set_ap_room (f (ap_room a)) a).
Definition in_timers (f : LoopTimers -> LoopTimers) : CS unit := in_app (fun a => set_ap_timers (f (ap_timers a)) a).
Definition in_links (f : AppLinks -> AppLinks) : CS unit :=
  in_app (fun a => set_ap_tunnel (set_tm_app (f (tm_app (ap_tunnel a))) (ap_tunnel a)) a).
Definition in_tracker (f : RoomOperationTracker -> RoomOperationTracker) : CS unit :=
  in_setup (fun o => set_op_roomOperation (f (op_roomOperation o)) o).
Definition app_lease (c : CliSignalClient) : ResumeLease := ap_lease (sc_app c).
Definition app_saved (c : CliSignalClient) : SavedRoom := ap_saved (sc_app c).
Definition app_conn (c : CliSignalClient) : Reconnection := ap_conn (sc_app c).
Definition app_setup (c : CliSignalClient) : RoomSetup := ap_room (sc_app c).
Definition app_links (c : CliSignalClient) : AppLinks := tm_app (ap_tunnel (sc_app c)).
Definition app_phase (c : CliSignalClient) : RoomOperationPhase := t_phase (op_roomOperation (app_setup c)).
Definition has_job (c : CliSignalClient) : bool := bool_decide (is_Some (op_tunJob (app_setup c))).
Definition isConnected (c : CliSignalClient) : bool := tc_connected (sc_conn c).
Definition signal_fd (c : CliSignalClient) : Z := tc_fd (sc_conn c).
(** The next result of a system call. *)
Definition next_result {A} (get : Environment -> list A) (set : list A -> Environment -> Environment) (none : A) : CS A :=
  l <- gets (fun c => get (ap_env (sc_app c))) ;;
  in_app (fun a => set_ap_env (set (tail l) (ap_env a)) a) ;;;
  ret (match l with x :: _ => x | [] => none end).
Definition next_connect : CS (Z * bool) := next_result nv_connects set_nv_connects (SOCK_INVALID, false).

(** ** The data channel and the tunnels *)

Definition securityFailure : CS unit :=
  sid <- gets (fun c => hs_secureSessionId (sc_auth c)) ;;
  in_conn (fun x => set_cx_securityReconnectSessionId sid (set_cx_securityReconnectPending true x)).
(** An operation of the data channel, and what it reported. *)
Definition data_step {A} (m : SE CliDataChannel A) : CS (A * list ChannelEvent) :=
  c <- gets (fun c => c) ;;
  let '(r, d) := m (set_dc_events [] (set_dc_now (sc_now c) (ap_dataChannel (sc_app c)))) in
  in_app (set_ap_dataChannel (set_dc_events [] d)) ;;;
  match r with
  | Some a => ret (a, dc_events d)
  | None => throw
  end.
Definition channel_failure (e : ChannelEvent) : CS unit :=
  match e with ChannelSecurityFailure _ => securityFailure | _ => ret tt end.
(** What a tunnel operation did to the outside. *)
Definition perform (e : LinkEvent) : CS unit :=
  match e with
  | EvSendTo _ _ _ | EvTunWrite _ => in_app (fun a => set_ap_out (ap_out a ++ [e]) a)
  | EvSecurityFailure _ => securityFailure
  | EvTcpRelay myId dst cls data =>
      c <- gets (fun c => c) ;;
      if dc_established (ap_dataChannel (sc_app c)) then
        r <- data_step (dc_sendRelayData myId dst cls data) ;; for_each (snd r) channel_failure
      else when (isConnected c) (client_sendRelayData myId dst cls data)
  | EvRequestRelay peerId => requestRelay peerId
  end.
(** The tunnel manager with its view of the other parts up to date. *)
Definition tunnel_view (c : CliSignalClient) : CliTunnelManager :=
  let t := ap_tunnel (sc_app c) in
  set_tm_out [] (set_tm_now (sc_now c)
    (set_tm_app (set_la_dataConnected (dc_established (ap_dataChannel (sc_app c)))
      (set_la_signalConnected (isConnected c) (set_la_myPeerId (sc_myPeerId c) (tm_app t)))) t)).
(** An operation of the tunnels, and what it did to the outside. *)
Definition tunnel_step {A} (m : SE CliTunnelManager A) : CS (option A * list LinkEvent) :=
  c <- gets (fun c => c) ;;
  let '(r, t) := m (tunnel_view c) in
  in_app (set_ap_tunnel (set_tm_out [] t)) ;;; ret (r, tm_out t).
Definition in_tunnel {A} (m : SE CliTunnelManager A) : CS A :=
  r <- tunnel_step m ;;
  for_each (snd r) perform ;;;
  match fst r with
  | Some a => ret a
  | None => throw
  end.
Definition on_channel (e : ChannelEvent) : CS unit :=
  match e with
  | ChannelRelayData src cls data => in_tunnel (handleTcpRelayReceived src cls data)
  | e => channel_failure e
  end.
Definition in_data {A} (m : SE CliDataChannel A) : CS A :=
  r <- data_step m ;; for_each (snd r) on_channel ;;; ret (fst r).
(** [m_dataChannel.clearSecurityContext(); m_tunnel.clearSecurityContext();]. *)
Definition clear_security : CS unit := in_data dc_clearSecurityContext ;;; in_tunnel tm_clearSecurityContext.

(** ** The resume lease *)

Definition clearResumeLease : CS unit := in_lease (fun _ => ResumeLease_init).
Definition rememberResumeLease (roomId peerId virtualIP : Z) (token : bytes) : CS unit :=
  if negb (len token =? RECONNECT_TOKEN_SIZE) then clearResumeLease else
  in_lease (fun _ => mkLease true roomId peerId virtualIP 0 token).
Definition startResumeLeaseDeadline : CS unit :=
  c <- gets (fun c => c) ;;
  if negb (rl_hasResumeLease (app_lease c)) || negb (len (rl_resumeToken (app_lease c)) =? RECONNECT_TOKEN_SIZE)
  then ret tt else
  in_lease (set_rl_resumeLeaseDeadlineMs (u32 (sc_now c + RECONNECT_LEASE_TIMEOUT_SEC * 1000))).
Definition expireResumeLeaseIfNeeded : CS unit :=
  c <- gets (fun c => c) ;;
  when (deadlineReached (sc_now c) (rl_resumeLeaseDeadlineMs (app_lease c))) clearResumeLease.
Definition hasUsableResumeLease : CS bool :=
  expireResumeLeaseIfNeeded ;;;
  gets (fun c => rl_hasResumeLease (app_lease c) && (len (rl_resumeToken (app_lease c)) =? RECONNECT_TOKEN_SIZE) &&
                 negb (deadlineReached (sc_now c) (rl_resumeLeaseDeadlineMs (app_lease c)))).
(** [m_wasInRoom && hasUsableResumeLease()]. *)
Definition may_resume : CS bool :=
  was <- gets (fun c => cx_wasInRoom (app_conn c)) ;; if was : bool then hasUsableResumeLease else ret false.

(** ** The room operation *)

Definition roomOperationBusy (c : CliSignalClient) : bool :=
  negb (canStart (op_roomOperation (app_setup c))) || has_job c || op_roomRecovery (app_setup c) ||
  op_roomRecoveryScheduled (app_setup c).
(** A method of the tracker that may refuse. *)
Definition track (f : RoomOperationTracker -> Z -> bool * RoomOperationTracker) : CS bool :=
  c <- gets (fun c => c) ;;
  let '(ok, t) := f (op_roomOperation (app_setup c)) (sc_monotonic c) in
  in_tracker (fun _ => t) ;;; ret ok.
Definition beginRoomRequest : CS bool :=
  c <- gets (fun c => c) ;;
  if has_job c || op_roomRecovery (app_setup c) then ret false else
  track (fun t now => begin_op t now (op_connectionGeneration (app_setup c))).
Definition app_expired (c : CliSignalClient) : bool := expired (op_roomOperation (app_setup c)) (sc_monotonic c).

Definition resetRoomRuntimeState (clearSavedRoom : bool) : CS unit :=
  in_setup (fun o => set_op_roomPassword [] (set_op_roomPasswordProtected false (set_op_currentRoomId 0 o))) ;;;
  in_links (fun a => set_la_roomReady false (set_la_udpPolicy makeDefaultUdpPolicy
    (set_la_tcpPolicy makeDefaultTcpPolicy (set_la_roomMtu ROOM_MTU_DEFAULT (set_la_myVirtualIP 0 a))))) ;;;
  in_conn (set_cx_wasInRoom false) ;;;
  in_tunnel (modify (fun t => set_tm_roomMtu (normalizeRoomMtu ROOM_MTU_DEFAULT) (set_tm_myVirtualIP 0 t))) ;;;
  when clearSavedRoom (in_saved (fun r =>
    set_sr_savedRoomPasswordProtected false (set_sr_savedRoomName [] (set_sr_savedRoomId 0 r)))).
Definition finish_unless_job : CS unit :=
  c <- gets (fun c => c) ;; when (negb (has_job c)) (in_tracker finishCleanup).
Definition teardownTun : CS unit :=
  in_setup (fun o => set_op_tunSetupGeneration (u64 (op_tunSetupGeneration o + 1)) o) ;;;
  in_tunnel teardown_links ;;;
  in_data dc_disconnect ;;;
  c <- gets (fun c => c) ;;
  when (has_job c) (
    in_tracker (fun t => beginCleanup t (sc_monotonic c)) ;;;
    in_setup (fun o => set_op_tunJob (job_cancel <$> op_tunJob o) o)) ;;;
  finish_unless_job.
Definition completeRoomRecovery : CS unit :=
  c <- gets (fun c => c) ;;
  if negb (op_roomRecovery (app_setup c)) then ret tt else
  in_setup (set_op_roomRecovery false) ;;;
  in_conn (fun x => set_cx_logoutDeadline 0 (set_cx_logoutPending false x)) ;;;
  client_disconnect ;;;
  in_conn (set_cx_manualDisconnecting false) ;;;
  finish_unless_job ;;;
  c <- gets (fun c => c) ;;
  in_setup (fun o => set_op_roomRecoveryAt (u64 (sc_monotonic c + 1000))
    (set_op_roomRecoveryScheduled (negb (cx_authRetryBlocked (app_conn c)) &&
                                   negb (bool_decide (ap_playerName (sc_app c) = []))) o)).
(** The old session is given up; one login to the lobby follows. *)
Definition recoverRoomOperation : CS unit :=
  c <- gets (fun c => c) ;;
  if op_roomRecovery (app_setup c) || bool_decide (app_phase c = CleaningUp) || bool_decide (app_phase c = Cancelling)
  then ret tt else
  ok <- track beginCancel ;;
  in_setup (fun o => set_op_roomRecoveryScheduled false (set_op_roomRecoveryAttempt false (set_op_roomRecovery true o))) ;;;
  in_conn (fun x => set_cx_wasInRoom false (set_cx_manualDisconnecting true (set_cx_pendingResumeRoom false
    (set_cx_wantReconnect false x)))) ;;;
  clearResumeLease ;;;
  abandonRoomOperation ;;;
  teardownTun ;;; resetRoomRuntimeState true ;;;
  clear_security ;;;
  c <- gets (fun c => c) ;;
  if isConnected c && negb (sc_myPeerId c =? 0) then
    in_conn (fun x => set_cx_logoutDeadline (u32 (sc_now c + 1000)) (set_cx_logoutPending true x)) ;;;
    client_logout
  else completeRoomRecovery.

(** ** The virtual adapter *)

(** [startTunDataPlane], with the adapter an event brought. *)
Definition app_startTunDataPlane (adapter : TunAdapter) : CS bool :=
  u <- next_result nv_udpSockets set_nv_udpSockets (SOCK_INVALID, false, false, 0) ;;
  let '(fd, nonblocking, bound, port) := u in
  in_links (set_la_hasTun true) ;;;
  ok <- in_tunnel (startTunDataPlane adapter fd nonblocking bound port) ;;
  if negb ok then ret false else
  k <- next_connect ;;
  c <- gets (fun c => c) ;;
  r <- in_data (dc_connectTo (ap_resolvedIP (sc_app c)) (la_port (app_links c)) (sc_myPeerId c) (fst k) (snd k)) ;;
  ret true.
Definition app_finishRoomSetup : CS unit :=
  ok <- track markInRoom ;;
  if negb ok then recoverRoomOperation else in_tunnel finishRoomSetup.
Definition conflicts_with_vnet (c : CliSignalClient) : bool :=
  negb (bool_decide (ap_resolvedIP (sc_app c) = [])) &&
  (Z.land (la_serverIP (app_links c)) VNET_MASK =? VNET_SUBNET).
Definition beginTunReadiness : CS unit :=
  c <- gets (fun c => c) ;;
  let generation := u64 (op_tunSetupGeneration (app_setup c) + 1) in
  in_setup (fun o => set_op_cleanupWarned false (set_op_tunSetupLastPoll (u32 (sc_now c - 100))
    (set_op_tunSetupGeneration generation o))) ;;;
  in_links (fun a => set_la_roomReady false (set_la_tunSetupPending true a)) ;;;
  if has_job c then recoverRoomOperation else
  if conflicts_with_vnet c then recoverRoomOperation else
  let t := op_roomOperation (app_setup c) in
  let control := RoomTaskControl_init (t_id t) (op_connectionGeneration (app_setup c)) (t_localDeadline t) in
  thrown <- next_result nv_threads set_nv_threads None ;;
  in_setup (set_op_tunJob (Some (job_start (sc_monotonic c) thrown
    (CliTunLifecycleJob_init generation (la_myVirtualIP (app_links c)) (la_roomMtu (app_links c)) (Some control))))).
(** One event of the worker. *)
Definition handle_tun_event (adapter : TunAdapter) (event : CliTunLifecycleEvent) : CS unit :=
  c <- gets (fun c => c) ;;
  match te_kind event with
  | TunCleaned => ret tt
  | kind =>
      if negb (te_generation event =? op_tunSetupGeneration (app_setup c)) ||
         negb (la_tunSetupPending (app_links c)) || op_roomRecovery (app_setup c) then ret tt else
      match kind with
      | TunProgress =>
          when (String.eqb (te_stage event) "waiting-readiness")
            (ok <- track (fun t _ => beginReadiness t (te_at event)) ;; ret tt)
      | TunFailed => recoverRoomOperation
      | TunReady =>
          if app_expired c then recoverRoomOperation else
          ok <- app_startTunDataPlane adapter ;;
          if negb ok then recoverRoomOperation else
          in_links (set_la_tunSetupPending false) ;;; app_finishRoomSetup
      | TunCleaned => ret tt
      end
  end.
(** A step of the worker; [None]: its condition variable wakes. *)
Definition job_worker (j : CliTunLifecycleJob) (s : option (Z * NativeResult)) : CliTunLifecycleJob :=
  match s with
  | Some (now, r) => job_run now r j
  | None => match tj_pc j with JBlocked => set_tj_pc JHold j | _ => j end
  end.
Definition run_job (steps : list (option (Z * NativeResult))) : CS unit :=
  in_setup (fun o => set_op_tunJob ((fun j => fold_left job_worker steps j) <$> op_tunJob o) o).
(** [adapter]: the worker's adapter as it is now; [between]: what the worker
    does after its events were taken and before [done] is read. *)
Definition pollRoomOperation (adapter : TunAdapter) (between : list (option (Z * NativeResult))) : CS unit :=
  c <- gets (fun c => c) ;;
  match op_tunJob (app_setup c) with
  | None => ret tt
  | Some job =>
      in_setup (set_op_tunJob (Some (snd (job_popAll job)))) ;;;
      for_each (fst (job_popAll job)) (handle_tun_event adapter) ;;;
      run_job between ;;;
      c <- gets (fun c => c) ;;
      when (match op_tunJob (app_setup c) with Some job => tj_done job | None => false end) (
        in_setup (set_op_tunJob None) ;;;
        when (negb (op_roomRecovery (app_setup c)) && negb (la_roomReady (app_links c)) &&
              negb (cx_logoutPending (app_conn c))) (in_tracker finishCleanup))
  end ;;;
  c <- gets (fun c => c) ;;
  when (app_expired c) recoverRoomOperation ;;;
  c <- gets (fun c => c) ;;
  when (has_job c && cleanupSlow (op_roomOperation (app_setup c)) (sc_monotonic c))
    (in_setup (set_op_cleanupWarned true)).
(** [if (m_signal.isConnected() && m_currentRoomId != 0) m_signal.leaveRoom();]. *)
Definition leave_if_in_room : CS unit :=
  c <- gets (fun c => c) ;;
  when (isConnected c && negb (op_currentRoomId (app_setup c) =? 0)) client_leaveRoom.
Definition rollbackRoomAfterTunFailure : CS unit :=
  leave_if_in_room ;;; teardownTun ;;; in_conn (set_cx_pendingResumeRoom false) ;;;
  clearResumeLease ;;; resetRoomRuntimeState true.
Definition handleTunRuntimeFailure : CS unit :=
  c <- gets (fun c => c) ;;
  if la_tunSetupPending (app_links c) then rollbackRoomAfterTunFailure else
  if negb (la_roomReady (app_links c)) then ret tt else
  leave_if_in_room ;;; teardownTun ;;; clearResumeLease ;;; resetRoomRuntimeState true.
End App.
