(* ===== verification/CliCallbacks.v ===== *)
(** * [class CliApp] of [client-cli/src/cli_app.cpp]: connection, callbacks and commands

    Connecting and leaving, the callbacks [setupCallbacks] installs in the
    signalling client ([app_event]) and the commands of the user
    ([processCommand]). *)

From S2P Require Import Prelude Protocol ByteBuf Room SecureFrame Overlay TcpConn AuthKdf RoomOp TunJob CliOptions CliDataChannel CliSignalState CliSignal Fec ProbeQuality PeerConn Store RawUdp TunnelManager RoomLinks CliAppState CliApp.

Section Callbacks.
Context `{Crypto} `{CM256} `{Ikcp} {CA : ClientApp}.
#[local] Existing Instance silent_channel_app.

(** ** Settings *)

Definition app_setServer (host : bytes) (port : Z) : CS unit :=
  in_setup (fun o => set_op_roomRecoveryAttempt false (set_op_roomRecoveryScheduled false o)) ;;;
  in_app (set_ap_serverHost host) ;;; in_links (set_la_port port) ;;; in_app (set_ap_serverPassword []) ;;;
  clearResumeLease.
Definition app_setServerPassword (password : bytes) : CS unit :=
  in_conn (set_cx_authRetryBlocked false) ;;; in_app (set_ap_serverPassword password).

(** ** Leaving the server *)

(** [m_stopAfterCleanup = true; if (!m_tunJob) m_running = false;]. *)
Definition stop_when_clean : CS unit :=
  in_setup (set_op_stopAfterCleanup true) ;;;
  c <- gets (fun c => c) ;; when (negb (has_job c)) (in_app (set_ap_running false)).
(** [m_currentRoomId = 0; m_myVirtualIP = 0; m_roomMtu = ROOM_MTU_DEFAULT;]. *)
Definition forget_room : CS unit :=
  in_setup (set_op_currentRoomId 0) ;;;
  in_links (fun a => set_la_roomMtu ROOM_MTU_DEFAULT (set_la_myVirtualIP 0 a)).
Definition finishGracefulDisconnect : CS unit :=
  c <- gets (fun c => c) ;;
  if op_roomRecovery (app_setup c) then completeRoomRecovery else
  in_conn (fun x => set_cx_logoutDeadline 0 (set_cx_logoutPending false x)) ;;;
  teardownTun ;;; clear_security ;;;
  c <- gets (fun c => c) ;;
  when (negb (signal_fd c =? SOCK_INVALID)) client_disconnect ;;;
  c <- gets (fun c => c) ;;
  if cx_exitAfterDisconnect (app_conn c) then stop_when_clean else
  in_conn (fun x => set_cx_exitAfterDisconnect false (set_cx_manualDisconnecting false x)) ;;;
  forget_room ;;;
  in_setup (fun o => set_op_roomPassword [] (set_op_roomPasswordProtected false o)) ;;;
  in_conn (set_cx_wasInRoom false) ;;; in_saved (set_sr_savedRoomName []).
Definition no_recovery : CS unit :=
  in_setup (fun o => set_op_roomRecoveryAttempt false (set_op_roomRecoveryScheduled false
                       (set_op_roomRecovery false o))).
Definition beginGracefulDisconnect (exitAfterDisconnect : bool) : CS unit :=
  no_recovery ;;;
  in_conn (fun x => set_cx_pendingResumeRoom false (set_cx_wantReconnect false (set_cx_securityReconnectPending false x))) ;;;
  clearResumeLease ;;;
  in_conn (fun x => set_cx_exitAfterDisconnect exitAfterDisconnect (set_cx_manualDisconnecting true x)) ;;;
  teardownTun ;;; clear_security ;;;
  c <- gets (fun c => c) ;;
  if isConnected c && negb (sc_myPeerId c =? 0) then
    when (negb (cx_logoutPending (app_conn c))) (
      in_conn (fun x => set_cx_logoutDeadline (u32 (sc_now c + 1000)) (set_cx_logoutPending true x)) ;;;
      client_logout)
  else finishGracefulDisconnect.

(** ** Connecting *)

(** [if (m_wantReconnect) m_nextReconnectTime = currentTimeMs() + delay;]. *)
Definition retry_after (delay : CliSignalClient -> Z) : CS unit :=
  c <- gets (fun c => c) ;;
  when (cx_wantReconnect (app_conn c)) (in_conn (set_cx_nextReconnectTime (u32 (sc_now c + delay c)))).
Definition retry_later : CS unit := retry_after (fun _ => RECONNECT_INTERVAL_MS).
Definition retry_backoff : CS unit :=
  retry_after (fun c => reconnectDelayMs (sc_now c) (cx_reconnectAttempts (app_conn c))).
(** What is left of a lease when the connection is not a retry. *)
Definition drop_unusable_lease : CS unit :=
  c <- gets (fun c => c) ;;
  when (negb (cx_wantReconnect (app_conn c))) (
    expireResumeLeaseIfNeeded ;;; usable <- may_resume ;; when (negb usable) clearResumeLease).
(** [connectTo] after the address of the server is known. *)
Definition connect_resolved (ip : bytes) (serverIP : Z) : CS unit :=
  in_app (set_ap_resolvedIP ip) ;;;
  port <- gets (fun c => la_port (app_links c)) ;;
  in_links (set_la_serverIP serverIP) ;;; in_tunnel (setServerEndpoint serverIP port) ;;;
  teardownTun ;;; in_tunnel tm_clearSecurityContext ;;; in_data dc_clearSecurityContext ;;;
  password <- gets (fun c => ap_serverPassword (sc_app c)) ;;
  setServerPassword password ;;;
  k <- next_connect ;;
  ok <- client_connectTo (fst k) (snd k) ;;
  when (negb ok) retry_later.
Definition doConnect : CS unit :=
  c <- gets (fun c => c) ;;
  when (negb (op_roomRecoveryAttempt (app_setup c))) (in_setup (set_op_roomRecoveryScheduled false)) ;;;
  in_conn (fun x => set_cx_securityReconnectPending false (set_cx_authRetryBlocked false x)) ;;;
  if isConnected c || has_job c then ret tt else
  in_setup (fun o => set_op_connectionGeneration (u64 (op_connectionGeneration o + 1)) o) ;;;
  drop_unusable_lease ;;;
  resolved <- next_result nv_resolved set_nv_resolved None ;;
  match resolved with
  | None => in_app (set_ap_resolvedIP []) ;;; retry_later
  | Some (ip, serverIP) => connect_resolved ip serverIP
  end.
Definition doDisconnect : CS unit :=
  no_recovery ;;;
  in_conn (fun x => set_cx_wasInRoom false (set_cx_pendingResumeRoom false (set_cx_wantReconnect false x))) ;;;
  clearResumeLease ;;; in_app (set_ap_serverPassword []) ;;; setServerPassword [] ;;;
  c <- gets (fun c => c) ;;
  if negb (isConnected c) && (signal_fd c =? SOCK_INVALID) then ret tt else beginGracefulDisconnect false.

(** ** A lost connection *)

Definition onSignalConnected : CS unit :=
  resume <- may_resume ;;
  c <- gets (fun c => c) ;;
  let l := app_lease c in
  login (ap_playerName (sc_app c))
    (if resume : bool then Some (rl_resumeRoomId l, rl_resumePeerId l, rl_resumeToken l) else None).
Definition active_phase (p : RoomOperationPhase) : bool :=
  match p with WaitingServer | PreparingAdapter | WaitingReadiness => true | _ => false end.
(** What a lost connection leaves of the room. *)
Definition remember_room (manual wasInRoom : bool) : CS unit :=
  c <- gets (fun c => c) ;;
  if manual then
    in_conn (set_cx_wasInRoom false) ;;;
    in_saved (fun r => set_sr_savedRoomPasswordProtected false (set_sr_savedRoomName [] (set_sr_savedRoomId 0 r)))
  else when (negb (cx_wantReconnect (app_conn c))) (
    if wasInRoom then
      in_conn (set_cx_wasInRoom true) ;;;
      in_saved (fun r => set_sr_savedRoomPasswordProtected (op_roomPasswordProtected (app_setup c))
        (set_sr_savedRoomMtu (la_roomMtu (app_links c)) (set_sr_savedUdpPolicy (la_udpPolicy (app_links c))
        (set_sr_savedTcpPolicy (la_tcpPolicy (app_links c)) (set_sr_savedRoomId (op_currentRoomId (app_setup c)) r)))))
    else in_conn (set_cx_wasInRoom false)).
(** The first retry waits a second; a retry that failed waits longer. *)
Definition plan_reconnect : CS unit :=
  c <- gets (fun c => c) ;;
  if negb (cx_wantReconnect (app_conn c)) && negb (bool_decide (ap_playerName (sc_app c) = [])) then
    in_conn (fun x => set_cx_nextReconnectTime (u32 (sc_now c + reconnectDelayMs (sc_now c) 0))
      (set_cx_reconnectAttempts 0 (set_cx_wantReconnect true x)))
  else retry_backoff.
Definition signal_lost : CS unit :=
  c <- gets (fun c => c) ;;
  let wasInRoom := la_roomReady (app_links c) in
  let manual := cx_manualDisconnecting (app_conn c) || cx_authRetryBlocked (app_conn c) in
  remember_room manual wasInRoom ;;;
  when (negb manual && wasInRoom && rl_hasResumeLease (app_lease c)) startResumeLeaseDeadline ;;;
  teardownTun ;;; clear_security ;;; forget_room ;;;
  in_links (set_la_roomReady false) ;;; in_conn (set_cx_logoutPending false) ;;;
  if manual then
    in_conn (set_cx_manualDisconnecting false) ;;;
    when (cx_exitAfterDisconnect (app_conn c)) stop_when_clean
  else plan_reconnect.
Definition onSignalDisconnected : CS unit :=
  c <- gets (fun c => c) ;;
  if op_roomRecovery (app_setup c) then completeRoomRecovery else
  if op_roomRecoveryAttempt (app_setup c) then
    in_setup (set_op_roomRecoveryAttempt false) ;;;
    in_conn (fun x => set_cx_manualDisconnecting false (set_cx_wantReconnect false x)) ;;;
    teardownTun ;;; resetRoomRuntimeState true
  else
  if negb (cx_manualDisconnecting (app_conn c)) && negb (cx_authRetryBlocked (app_conn c)) && active_phase (app_phase c)
  then recoverRoomOperation else signal_lost.

(** ** Logging in *)

(** Look for the room that was lost, or create it again. *)
Definition same_room (r : SavedRoom) (item : CliRoomListItem) : bool :=
  bool_decide (ci_roomName item = sr_savedRoomName r) && (ci_maxPlayers item =? sr_savedMaxPlayers r) &&
  (normalizeRoomMtu (ci_mtu item) =? sr_savedRoomMtu r) &&
  Bool.eqb (negb (ci_passwordProtected item =? 0)) (sr_savedRoomPasswordProtected r) &&
  samePolicy (ci_tcpPolicy item) (sr_savedTcpPolicy r) && samePolicy (ci_udpPolicy item) (sr_savedUdpPolicy r).
Definition create_saved (r : SavedRoom) (password : bytes) : CS unit :=
  client_createRoom (sr_savedRoomName r) (sr_savedMaxPlayers r) (sr_savedTcpPolicy r) (sr_savedUdpPolicy r)
    (sr_savedRoomMtu r) (sr_savedRoomPasswordProtected r) password.
Definition handleReconnectRoomList (rooms : list CliRoomListItem) : CS unit :=
  in_conn (set_cx_wantReconnect false) ;;;
  c <- gets (fun c => c) ;;
  let r := app_saved c in
  let password := if sr_savedRoomPasswordProtected r then op_roomPassword (app_setup c) else [] in
  match map ci_roomId (List.filter (same_room r) rooms) with
  | [foundRoomId] => ok <- beginRoomRequest ;; when ok (client_joinRoom foundRoomId password)
  | _ :: _ => ret tt
  | [] => ok <- beginRoomRequest ;; when ok (create_saved r password)
  end.
Definition app_onRoomList (rooms : list CliRoomListItem) : CS unit :=
  in_app (set_ap_cachedRoomList rooms) ;;;
  c <- gets (fun c => c) ;;
  when (negb (cx_pendingResumeRoom (app_conn c)) && cx_wantReconnect (app_conn c) && cx_wasInRoom (app_conn c) &&
        negb (bool_decide (sr_savedRoomName (app_saved c) = []))) (handleReconnectRoomList rooms).
(** Both data planes get the session, even if the first refuses. *)
Definition install_session (sessionId : Z) (master : bytes) : CS bool :=
  a <- in_tunnel (tm_installSecureSession sessionId master) ;;
  b <- in_data (dc_installSecureSession sessionId master) ;; ret (b && a).
Definition resume_or_search (resumeAccepted canResume : bool) : CS unit :=
  c <- gets (fun c => c) ;;
  if resumeAccepted && canResume then
    in_conn (set_cx_pendingResumeRoom true) ;;;
    ok <- beginRoomRequest ;;
    when ok (client_resumeRoom (rl_resumeRoomId (app_lease c)) (rl_resumePeerId (app_lease c))
               (Some (rl_resumeToken (app_lease c))))
  else if cx_wasInRoom (app_conn c) && negb (bool_decide (sr_savedRoomName (app_saved c) = [])) then
    when (canResume && negb resumeAccepted) clearResumeLease ;;;
    in_conn (set_cx_wantReconnect true) ;;; client_listRooms
  else in_conn (set_cx_wantReconnect false).
Definition app_onLoginResponse (peerId : Z) (resumeAccepted : bool) : CS unit :=
  in_tunnel (modify (set_tm_myPeerId peerId)) ;;;
  c <- gets (fun c => c) ;;
  when (op_roomRecoveryAttempt (app_setup c)) (
    in_setup (set_op_roomRecoveryAttempt false) ;;;
    in_conn (fun x => set_cx_pendingResumeRoom false (set_cx_wasInRoom false (set_cx_wantReconnect false x)))) ;;;
  a <- gets sc_auth ;;
  if negb (hs_secureReady a) then beginGracefulDisconnect false else
  ok <- install_session (hs_secureSessionId a) (hs_secureMaster a) ;;
  if negb ok then beginGracefulDisconnect false else
  canResume <- may_resume ;;
  want <- gets (fun c => cx_wantReconnect (app_conn c)) ;;
  when (want || canResume) (resume_or_search resumeAccepted canResume).

(** ** The answer to a room request *)

Definition response_unexpected (c : CliSignalClient) : bool :=
  negb (bool_decide (app_phase c = WaitingServer)) || app_expired c || la_tunSetupPending (app_links c) ||
  la_roomReady (app_links c) || negb (op_currentRoomId (app_setup c) =? 0) || op_roomRecovery (app_setup c).
(** The room as the server describes it; the adapter comes next. *)
Definition app_enter_room (roomId virtualIP : Z) (tcpPolicy udpPolicy : RoomTrafficPolicy) (mtu : Z)
    (passwordProtected : bool) (leaseToken : bytes) : CS unit :=
  in_setup (fun o => set_op_roomPasswordProtected passwordProtected (set_op_currentRoomId roomId o)) ;;;
  in_saved (fun r => set_sr_savedRoomMtu (normalizeRoomMtu mtu) (set_sr_savedRoomId roomId r)) ;;;
  in_links (fun a => set_la_roomMtu (normalizeRoomMtu mtu) (set_la_udpPolicy udpPolicy
    (set_la_tcpPolicy tcpPolicy (set_la_myVirtualIP virtualIP a)))) ;;;
  me <- gets sc_myPeerId ;;
  rememberResumeLease roomId me virtualIP leaseToken ;;;
  in_tunnel (modify (fun t => set_tm_roomMtu (normalizeRoomMtu (normalizeRoomMtu mtu)) (set_tm_myVirtualIP virtualIP t))) ;;;
  beginTunReadiness.
Definition clear_pending (members : gmap Z PeerInfo) : CS unit :=
  in_links (fun a => set_la_pendingRoomRelays ∅ (set_la_pendingRoomMembers members a)).
Definition app_onRoomCreated (roomId virtualIP : Z) (tcpPolicy udpPolicy : RoomTrafficPolicy) (mtu : Z)
    (passwordProtected : bool) (leaseToken : bytes) : CS unit :=
  c <- gets (fun c => c) ;;
  if response_unexpected c then ret tt else
  ok <- track beginPreparation ;;
  if negb ok then ret tt else
  in_setup (set_op_tunSetupIsCreate true) ;;; clear_pending ∅ ;;;
  app_enter_room roomId virtualIP tcpPolicy udpPolicy mtu passwordProtected leaseToken.
Definition other_members (me : Z) (members : list PeerInfo) : gmap Z PeerInfo :=
  fold_left (fun m info => if pi_peerId info =? me then m else <[pi_peerId info := info]> m) members ∅.
Definition app_onJoinResponse (roomId virtualIP : Z) (tcpPolicy udpPolicy : RoomTrafficPolicy) (mtu : Z)
    (passwordProtected : bool) (members : list PeerInfo) (leaseToken : bytes) : CS unit :=
  c <- gets (fun c => c) ;;
  if response_unexpected c then ret tt else
  ok <- track beginPreparation ;;
  if negb ok then ret tt else
  in_setup (set_op_tunSetupIsCreate false) ;;; clear_pending (other_members (sc_myPeerId c) members) ;;;
  in_conn (fun x => set_cx_wantReconnect false (set_cx_pendingResumeRoom false x)) ;;;
  app_enter_room roomId virtualIP tcpPolicy udpPolicy mtu passwordProtected leaseToken.

(** ** Errors *)

Definition onFatalAuthError : CS unit :=
  in_conn (fun x => set_cx_wasInRoom false (set_cx_pendingResumeRoom false (set_cx_wantReconnect false
    (set_cx_authRetryBlocked true x)))) ;;;
  clearResumeLease ;;;
  in_setup (fun o => set_op_roomRecoveryAttempt false (set_op_roomRecoveryScheduled false o)) ;;;
  c <- gets (fun c => c) ;;
  when (negb (has_job c) && negb (la_roomReady (app_links c))) (in_tracker finishCleanup).
Definition onServerError : CS unit :=
  c <- gets (fun c => c) ;;
  when (sc_myPeerId c =? 0) (
    when (op_roomRecoveryAttempt (app_setup c)) (
      in_setup (set_op_roomRecoveryAttempt false) ;;; in_conn (set_cx_wantReconnect false)) ;;;
    client_disconnect ;;; retry_later).
Definition onConnectFailed : CS unit :=
  c <- gets (fun c => c) ;;
  if op_roomRecoveryAttempt (app_setup c) then
    in_setup (set_op_roomRecoveryAttempt false) ;;; in_conn (set_cx_wantReconnect false)
  else retry_backoff.
Definition onLogoutAck : CS unit :=
  c <- gets (fun c => c) ;;
  if op_roomRecovery (app_setup c) then completeRoomRecovery else
  when (cx_logoutPending (app_conn c)) finishGracefulDisconnect.

(** [setupCallbacks]: the callbacks of the signalling client. *)
Definition app_event (e : ClientEvent) : CS unit :=
  match e with
  | OnConnected => onSignalConnected
  | OnDisconnected => onSignalDisconnected
  | OnConnectFailed _ => onConnectFailed
  | OnLoginResponse pid accepted => app_onLoginResponse pid accepted
  | OnRoomCreated rid vip tcp udp mtu prot token => app_onRoomCreated rid vip tcp udp mtu prot token
  | OnJoinResponse rid vip tcp udp mtu prot members token =>
      app_onJoinResponse rid vip tcp udp mtu prot members token
  | OnPeerJoined info => in_tunnel (onPeerJoined info)
  | OnPeerResumed info => in_tunnel (onPeerResumed info)
  | OnPeerLeft pid => in_tunnel (onPeerLeft pid)
  | OnRoomList rooms _ => app_onRoomList rooms
  | OnRelayReady pid => in_tunnel (onRelayReady pid)
  | OnRelayData src cls data => in_tunnel (handleTcpRelayReceived src cls data)
  | OnLogoutAck => onLogoutAck
  | OnServerPasswordRequired => ret tt
  | OnSecureSessionEstablished sid master => ok <- install_session sid master ;; ret tt
  | OnServerError _ => onServerError
  | OnRoomOperationFailure _ => recoverRoomOperation
  | OnFatalAuthError _ _ => onFatalAuthError
  | OnServerRtt _ => ret tt
  end.
End Callbacks.
