(* ===== verification/CliLoop.v ===== *)
(** * [class CliApp] of [client-cli/src/cli_app.cpp]: commands and event loop

    The commands of the user ([processCommand]), one turn of the event loop
    and [run].  What a turn receives from the outside (time, readiness and
    octets of the sockets, packets of the adapter, lines of the user, steps of
    the two worker threads) is a [Turn]; the loop goes over a list of them.

    [app_at] closes the knot between the signalling client and the
    application: a callback may call the client, which may call the
    application again, at most [CALLBACK_DEPTH] deep. *)

From S2P Require Import Prelude Protocol ByteBuf Room SecureFrame Overlay TcpConn AuthKdf RoomOp TunJob CliOptions CliDataChannel CliSignalState CliSignal Fec ProbeQuality PeerConn Store RawUdp TunnelManager RoomLinks CliAppState CliApp CliCallbacks.

(** ** What a turn receives *)

(** A socket: whether it is writable, with [SO_ERROR] and the outcome of
    [send], and what [recv] gives when it is readable. *)
Record SocketTurn := mkSocketTurn {
  so_writable : option (Z * Z * bool);
  so_readable : option bytes;
  so_flush : Z * Z * bool
}.
(** Steps of the worker threads: of the key derivation and of the adapter's
    job ([None]: its condition variable wakes). *)
Record WorkerTurn := mkWorkers {
  wk_kdf : list KdfStep;
  wk_job : list (option (Z * NativeResult))
}.
Record Turn := mkTurn {
  tn_now : Z;
  tn_monotonic : Z;
  tn_stop : bool;
  tn_random : list (option bytes);
  tn_env : Environment;
  tn_before : WorkerTurn;
  tn_signal : SocketTurn;
  tn_data : SocketTurn;
  tn_datagrams : option (list (bytes * Z * Z));
  tn_sends : list Z;
  tn_writes : list bool;
  tn_packets : list bytes;
  tn_tunError : bool;
  tn_commands : list bytes;
  tn_after : WorkerTurn;
  tn_between : list (option (Z * NativeResult));
  tn_adapter : TunAdapter
}.

Section Loop.
Context `{Crypto} `{CM256} `{Ikcp} {CA : ClientApp}.
#[local] Existing Instance silent_channel_app.

(** ** Commands *)

(** A room command is refused while another is under way, before the login and
    in a room. *)
Definition room_command_refused (c : CliSignalClient) : bool :=
  roomOperationBusy c || rr_roomOperationPending (sc_room c) || negb (isConnected c) || (sc_myPeerId c =? 0) ||
  negb (op_currentRoomId (app_setup c) =? 0).
(** [if (!m_signal.roomOperationPending()) m_roomOperation.finishCleanup();]. *)
Definition finish_unless_requested : CS unit :=
  c <- gets (fun c => c) ;; when (negb (rr_roomOperationPending (sc_room c))) (in_tracker finishCleanup).
Definition save_request (q : CreateRequest) (r : SavedRoom) : SavedRoom :=
  mkSaved (sr_savedRoomId r) (cq_roomName q) (u8 (cq_maxPlayers q)) (cq_tcpPolicy q) (cq_udpPolicy q)
    (cq_roomMtu q) (cq_passwordProtected q).
Definition doCreateRoom (args : bytes) : CS unit :=
  c <- gets (fun c => c) ;;
  if room_command_refused c then ret tt else
  match parse_create args with
  | None => ret tt
  | Some q =>
      in_conn (set_cx_authRetryBlocked false) ;;; in_setup (set_op_roomPassword (cq_password q)) ;;;
      in_saved (save_request q) ;;;
      ok <- beginRoomRequest ;;
      when ok (
        client_createRoom (cq_roomName q) (u8 (cq_maxPlayers q)) (cq_tcpPolicy q) (cq_udpPolicy q)
          (cq_roomMtu q) (cq_passwordProtected q) (cq_password q) ;;;
        finish_unless_requested)
  end.
Definition save_listed (item : CliRoomListItem) : CS unit :=
  in_saved (fun r => mkSaved (ci_roomId item) (ci_roomName item) (ci_maxPlayers item) (ci_tcpPolicy item)
    (ci_udpPolicy item) (normalizeRoomMtu (ci_mtu item)) (negb (ci_passwordProtected item =? 0))) ;;;
  in_links (set_la_roomMtu (normalizeRoomMtu (ci_mtu item))).
Definition request_join (roomId : Z) (password : bytes) : CS unit :=
  if negb (bool_decide (password = [])) && negb (isValidRoomPassword password) then ret tt else
  in_conn (set_cx_authRetryBlocked false) ;;; in_setup (set_op_roomPassword password) ;;;
  ok <- beginRoomRequest ;;
  when ok (client_joinRoom roomId password ;;; finish_unless_requested).
Definition doJoinRoom (args : bytes) : CS unit :=
  c <- gets (fun c => c) ;;
  if room_command_refused c then ret tt else
  let '(roomId, password) := parse_join args in
  if roomId =? 0 then ret tt else
  match List.find (fun item => ci_roomId item =? roomId) (ap_cachedRoomList (sc_app c)) with
  | Some item =>
      save_listed item ;;;
      if negb (ci_passwordProtected item =? 0) && bool_decide (password = []) then ret tt else
      request_join roomId password
  | None => request_join roomId password
  end.
Definition doLeaveRoom : CS unit :=
  c <- gets (fun c => c) ;;
  if pending (op_roomOperation (app_setup c)) || rr_roomOperationPending (sc_room c) then recoverRoomOperation else
  if op_currentRoomId (app_setup c) =? 0 then ret tt else
  in_tunnel stopDataPlane ;;; client_leaveRoom ;;; teardownTun ;;;
  in_conn (set_cx_pendingResumeRoom false) ;;; clearResumeLease ;;; resetRoomRuntimeState true ;;;
  finish_unless_job.
Definition server_command (rest : bytes) : CS unit :=
  let '(first, rest) := next_word rest in
  let '(second, rest) := next_word rest in
  match parse_server first second (fst (next_word rest)) with
  | None => ret tt
  | Some (host, port, password) =>
      c <- gets (fun c => c) ;;
      when (isConnected c) (beginGracefulDisconnect false) ;;;
      teardownTun ;;;
      in_setup (set_op_currentRoomId 0) ;;; in_links (set_la_myVirtualIP 0) ;;;
      app_setServer host port ;;;
      when (negb (bool_decide (password = []))) (app_setServerPassword password ;;; setServerPassword password)
  end.
Definition password_command (rest : bytes) : CS unit :=
  let password := fst (next_word rest) in
  if bool_decide (password = []) then ret tt else
  app_setServerPassword password ;;; setServerPassword password ;;; continueServerAuth.
Definition processCommand (line : bytes) : CS unit :=
  let '(word, rest) := next_word line in
  let cmd := toLowerCopy word in
  if is_text cmd "list" || is_text cmd "ls" then
    c <- gets (fun c => c) ;; when (isConnected c) client_listRooms
  else if is_text cmd "create" then doCreateRoom (trim rest)
  else if is_text cmd "join" then doJoinRoom (trim rest)
  else if is_text cmd "leave" then doLeaveRoom
  else if is_text cmd "connect" then in_conn (set_cx_wantReconnect false) ;;; doConnect
  else if is_text cmd "disconnect" then doDisconnect
  else if is_text cmd "server" then server_command rest
  else if is_text cmd "server-password" then password_command rest
  else if is_text cmd "quit" || is_text cmd "exit" || is_text cmd "q" then beginGracefulDisconnect true
  else ret tt.

(** ** One turn *)

Definition worker_only (s : KdfStep) : bool :=
  match s with KTake | KPublish _ _ => true | _ => false end.
Definition run_workers (w : WorkerTurn) : CS unit :=
  in_task (kdf_run (List.filter worker_only (wk_kdf w))) ;;;
  run_job (wk_job w).
(** Time passes, and the next results of the outside are known. *)
Definition begin_turn (t : Turn) : CS unit :=
  modify (fun c => set_sc_now (tn_now t) (set_sc_monotonic (tn_monotonic t) (set_sc_random (tn_random t) c))) ;;;
  in_app (set_ap_env (tn_env t)) ;;;
  in_tunnel (modify (fun s => set_tm_writes (tn_writes t) (set_tm_sends (tn_sends t) s))) ;;;
  run_workers (tn_before t).
(** What [select] reports, for the descriptors as they were before it. *)
Definition socket_events (t : Turn) : CS unit :=
  c <- gets (fun c => c) ;;
  let dcFd := tc_fd (dc_conn (ap_dataChannel (sc_app c))) in
  let udpFd := tm_udpFd (ap_tunnel (sc_app c)) in
  when (negb (signal_fd c =? SOCK_INVALID)) (
    match so_writable (tn_signal t) with Some (err, sent, wb) => client_onWritable err sent wb | None => ret tt end ;;;
    match so_readable (tn_signal t) with Some received => client_onReadable received | None => ret tt end) ;;;
  when (negb (dcFd =? SOCK_INVALID)) (
    match so_writable (tn_data t) with Some (err, sent, wb) => in_data (dc_onWritable err sent wb) | None => ret tt end ;;;
    match so_readable (tn_data t) with Some received => in_data (dc_onReadable received) | None => ret tt end) ;;;
  when (negb (udpFd =? SOCK_INVALID)) (
    match tn_datagrams t with Some l => in_tunnel (onUdpReadable l) | None => ret tt end).
Definition flush_sends (t : Turn) : CS unit :=
  c <- gets (fun c => c) ;;
  let '(err, sent, wb) := so_flush (tn_signal t) in
  when (isConnected c) (client_onWritable err sent wb) ;;;
  c <- gets (fun c => c) ;;
  let '(err, sent, wb) := so_flush (tn_data t) in
  when (tc_connected (dc_conn (ap_dataChannel (sc_app c)))) (in_data (dc_onWritable err sent wb)).
(** The packets the adapter read, and its errors. *)
Definition adapter_turn (t : Turn) : CS unit :=
  in_tunnel (modify (fun s => set_tm_tun
    ((fun a => mkTun (ta_running a) (ta_recvQueue a ++ tn_packets t)) <$> tm_tun s) s)) ;;;
  in_tunnel processTunPackets ;;;
  c <- gets (fun c => c) ;;
  when (la_hasTun (app_links c) && tn_tunError t) handleTunRuntimeFailure.
(** [if (now - last >= interval) { last = now; action; }]. *)
Definition every (interval : Z) (last : LoopTimers -> Z) (set : Z -> LoopTimers -> LoopTimers)
    (enabled : CliSignalClient -> bool) (action : CS unit) : CS unit :=
  c <- gets (fun c => c) ;;
  when (enabled c && (interval <=? u32 (sc_now c - last (ap_timers (sc_app c)))))
    (in_timers (set (sc_now c)) ;;; action).
Definition always (c : CliSignalClient) : bool := true.
Definition data_connected (c : CliSignalClient) : bool := tc_connected (dc_conn (ap_dataChannel (sc_app c))).
(** [pollTunReadiness] does nothing outside the tests. *)
Definition poll_timer : CS unit :=
  c <- gets (fun c => c) ;;
  when (la_tunSetupPending (app_links c) && (100 <=? u32 (sc_now c - op_tunSetupLastPoll (app_setup c))))
    (in_setup (set_op_tunSetupLastPoll (sc_now c))).
Definition expire_lease_if_set : CS unit :=
  c <- gets (fun c => c) ;;
  when (rl_hasResumeLease (app_lease c) && negb (rl_resumeLeaseDeadlineMs (app_lease c) =? 0)) expireResumeLeaseIfNeeded.
Definition timers : CS unit :=
  every 5 lt_lastKcpUpdateTime set_lt_lastKcpUpdateTime always (in_tunnel updateKcp) ;;;
  every KEEPALIVE_INTERVAL_MS lt_lastPingTime set_lt_lastPingTime isConnected client_sendPing ;;;
  every UDP_KEEPALIVE_INTERVAL_MS lt_lastUdpKeepaliveTime set_lt_lastUdpKeepaliveTime always
    (in_tunnel sendUdpKeepalive) ;;;
  every KEEPALIVE_INTERVAL_MS lt_lastDataChannelPingTime set_lt_lastDataChannelPingTime data_connected
    (in_data dc_sendPing) ;;;
  client_checkTimeouts ;;;
  (k <- next_connect ;; in_data (dc_checkTimeouts (fst k) (snd k))) ;;;
  every (TCP_RELAY_KEEPALIVE_MS / 2) lt_lastTcpRelayCheckTime set_lt_lastTcpRelayCheckTime
    (fun c => negb (op_currentRoomId (app_setup c) =? 0)) (in_tunnel check_relays) ;;;
  every 1000 lt_lastLatencyCheckTime set_lt_lastLatencyCheckTime (fun c => la_roomReady (app_links c))
    (in_tunnel updatePeerQuality).
(** The end of a logout that got no answer. *)
Definition logout_timer : CS unit :=
  c <- gets (fun c => c) ;;
  when (cx_logoutPending (app_conn c) && (0 <=? i32 (sc_now c - cx_logoutDeadline (app_conn c))))
    finishGracefulDisconnect.
Definition recovery_timer : CS unit :=
  c <- gets (fun c => c) ;;
  let o := app_setup c in
  when (op_roomRecoveryScheduled o && negb (has_job c) && (signal_fd c =? SOCK_INVALID) &&
        (op_roomRecoveryAt o <=? sc_monotonic c) && negb (cx_authRetryBlocked (app_conn c)))
    (in_setup (fun o => set_op_roomRecoveryAttempt true (set_op_roomRecoveryScheduled false o)) ;;; doConnect).
Definition stop_timer : CS unit :=
  c <- gets (fun c => c) ;;
  when (op_stopAfterCleanup (app_setup c) && negb (has_job c) && negb (cx_logoutPending (app_conn c)))
    (in_app (set_ap_running false)).
(** Give up a session whose data plane ran out of counters. *)
Definition security_timer : CS unit :=
  c <- gets (fun c => c) ;;
  let x := app_conn c in
  when (cx_securityReconnectPending x) (
    in_conn (set_cx_securityReconnectPending false) ;;;
    when (negb (cx_manualDisconnecting x) && negb (signal_fd c =? SOCK_INVALID) &&
          (cx_securityReconnectSessionId x =? hs_secureSessionId (sc_auth c)))
      (client_disconnect ;;; onSignalDisconnected)).
Definition reconnect_timer : CS unit :=
  c <- gets (fun c => c) ;;
  let x := app_conn c in
  when (negb (cx_authRetryBlocked x) && cx_wantReconnect x && negb (has_job c) && (signal_fd c =? SOCK_INVALID) &&
        (cx_nextReconnectTime x <=? sc_now c)) (
    if MAX_RECONNECT_ATTEMPTS <=? cx_reconnectAttempts x then
      in_conn (fun x => set_cx_pendingResumeRoom false (set_cx_wantReconnect false x)) ;;;
      expireResumeLeaseIfNeeded ;;; usable <- may_resume ;; ret tt
    else in_conn (fun x => set_cx_reconnectAttempts (cx_reconnectAttempts x + 1) x) ;;; doConnect).
(** The body of the loop, after the request to stop. *)
Definition turn_body (t : Turn) : CS unit :=
  socket_events t ;;; flush_sends t ;;; adapter_turn t ;;;
  for_each (tn_commands t) processCommand ;;;
  run_workers (tn_after t) ;;; pollRoomOperation (tn_adapter t) (tn_between t) ;;;
  poll_timer ;;; expire_lease_if_set ;;; timers ;;;
  logout_timer ;;; recovery_timer ;;; stop_timer ;;; security_timer ;;; reconnect_timer.
Definition requestStop : CS unit := beginGracefulDisconnect true.
(** [eventLoop]; [stopHandled] is its local variable. *)
Fixpoint eventLoop (stopHandled : bool) (turns : list Turn) : CS unit :=
  match turns with
  | [] => ret tt
  | t :: turns =>
      running <- gets (fun c => ap_running (sc_app c)) ;;
      if negb running then ret tt else
      begin_turn t ;;;
      (let stop := negb stopHandled && tn_stop t in
       when stop requestStop ;;; turn_body t ;;; eventLoop (stopHandled || stop) turns)
  end.
(** [run] after [sock_init] and the reader of standard input, up to the loop;
    [answer] is the user's answer when no player name is given.  The result
    says whether the name is valid. *)
Definition start (answer : bytes) : CS bool :=
  name <- gets (fun c => ap_playerName (sc_app c)) ;;
  let asked := if bool_decide (trim answer = []) then bytes_of_string "CLIPlayer" else trim answer in
  let name := if bool_decide (name = []) then asked else name in
  in_app (set_ap_playerName name) ;;;
  if negb (isValidPlayerName name) then ret false else
  in_app (set_ap_running true) ;;; doConnect ;;; ret true.
(** The result is the exit code. *)
Definition run (answer : bytes) (turns : list Turn) : CS Z :=
  started <- start answer ;;
  if negb started then ret 1 else
  eventLoop false turns ;;;
  teardownTun ;;; client_disconnect ;;; in_data dc_disconnect ;;; ret 0.
End Loop.

(** ** The program *)

Section Program.
Context `{Crypto} `{CM256} `{Ikcp}.

(** The application, whose callbacks nest at most [depth] deep. *)
Fixpoint app_at (depth : nat) : ClientApp :=
  match depth with
  | O => {| on_event := fun _ => in_app (set_ap_overrun true); has_onRoomOperationFailure := true |}
  | S depth => {| on_event := @app_event _ _ _ (app_at depth); has_onRoomOperationFailure := true |}
  end.
Definition CALLBACK_DEPTH : nat := 3.
(** What [main] sets before it calls [run]; the passwords are that of the
    options and that of the environment. *)
Definition cli_setup (host : bytes) (port : Z) (name : bytes) (passwords : list bytes) : CS unit :=
  app_setServer host port ;;;
  match List.filter (fun p => negb (bool_decide (p = []))) passwords with
  | password :: _ => app_setServerPassword password
  | [] => ret tt
  end ;;;
  in_app (set_ap_playerName name).
(** The state after some turns of a run of the program. *)
Record Launch := mkLaunch {
  ln_now : Z;
  ln_monotonic : Z;
  ln_host : bytes;
  ln_port : Z;
  ln_name : bytes;
  ln_passwords : list bytes;
  ln_env : Environment;
  ln_answer : bytes
}.
Definition cli_launch (l : Launch) : CS bool :=
  cli_setup (ln_host l) (ln_port l) (ln_name l) (ln_passwords l) ;;;
  in_app (set_ap_env (ln_env l)) ;;;
  @start _ _ _ (app_at CALLBACK_DEPTH) (ln_answer l).
Definition cli_life (l : Launch) (turns : list Turn) : CliSignalClient :=
  snd ((started <- cli_launch l ;; when started (@eventLoop _ _ _ (app_at CALLBACK_DEPTH) false turns))
       (CliSignalClient_init (ln_now l) (ln_monotonic l) (CliApp_init (ln_now l)))).
End Program.
