(* ===== verification/LinkFacts.v ===== *)
(** * What the tunnel manager sends and delivers

    The operations of the data plane ([udpSend] to [onUdpReadable],
    [processTunPackets] and the timers of the tunnels) as steps of one
    preorder: they change no peer and no pointer, seal every datagram under
    the next counter of the session's cipher, and give the adapter only
    packets that passed the inbound check. *)

From S2P Require Import Prelude Protocol Room RoomFacts SecureFrame SecureFrameFacts RelayPath Overlay TcpConn Fec ProbeQuality PeerConn Store RawUdp TunnelManager RoomLinks.

Section Link.
Context `{CryptoLaws} `{CM256} `{Ikcp}.

(** ** The part of the state the data plane leaves alone *)

Definition slot_shape (s : PeerClass) : TransportType * option Z * option Z :=
  (pn_transport s, pn_kcpTunnel s, pn_rawUdpTunnel s).
Definition peer_shape (p : CliPeerConnection) :=
  (pn_peerId p, pn_virtualIP p, slot_shape (pn_any p), slot_shape (pn_tcp p), slot_shape (pn_udp p)).
Definition owner {T} (o : Owned T) : Z * Z := (ow_peer o, ow_cls o).
Record shape_of (s s' : CliTunnelManager) : Prop := mkShape {
  sh_peers : peer_shape <$> tm_peerById s' = peer_shape <$> tm_peerById s;
  sh_kcp : owner <$> tm_kcpByPeerClass s' = owner <$> tm_kcpByPeerClass s;
  sh_raw : owner <$> tm_rawByPeerClass s' = owner <$> tm_rawByPeerClass s;
  sh_vips : tm_peerByVIP s' = tm_peerByVIP s;
  sh_me : tm_myPeerId s' = tm_myPeerId s;
  sh_ip : tm_myVirtualIP s' = tm_myVirtualIP s;
  sh_mtu : tm_roomMtu s' = tm_roomMtu s;
  sh_app_mtu : la_roomMtu (tm_app s') = la_roomMtu (tm_app s);
  sh_app_ip : la_myVirtualIP (tm_app s') = la_myVirtualIP (tm_app s);
  sh_mode : tm_securityMode s' = tm_securityMode s;
  sh_sid : tm_secureSessionId s' = tm_secureSessionId s;
  sh_master : tm_secureMaster s' = tm_secureMaster s
}.
#[export] Instance shape_preorder : PreOrder shape_of.
Proof.
  split; [by constructor|]. intros s1 s2 s3 [] []. constructor; by etrans.
Qed.
Lemma fmap_alter_same {A B} (g : A -> B) (f : A -> A) k (m : gmap Z A) :
  (forall x, m !! k = Some x -> g (f x) = g x) -> g <$> alter f k m = g <$> m.
Proof.
  intros Hg. apply map_eq. intros i. rewrite !lookup_fmap, lookup_alter.
  case_decide; [subst|done]. destruct (m !! i) as [x|] eqn:E; [|done]. cbn. by rewrite Hg.
Qed.

(** ** The octets sent *)

Definition sent_datagrams (evs : list LinkEvent) : list bytes :=
  omap (fun e => match e with EvSendTo pkt _ _ => Some pkt | _ => None end) evs.
Lemma sent_datagrams_app a b : sent_datagrams (a ++ b) = sent_datagrams a ++ sent_datagrams b.
Proof. apply omap_app. Qed.

(** A packet given to the adapter came from a known peer, for this host, as the
    manager knows it or, for a packet of the TCP relay, as the application does. *)
Definition delivered_ok (s : CliTunnelManager) (packet : bytes) : Prop := exists id p mtu me,
  tm_peerById s !! id = Some p /\ tm_securityMode s = Secure /\
  ((mtu, me) = (tm_roomMtu s, tm_myVirtualIP s) \/
   (mtu, me) = (la_roomMtu (tm_app s), la_myVirtualIP (tm_app s))) /\
  overlay_valid (validateInboundOverlayIpv4 (overlay_arg packet) (len packet) mtu (pn_virtualIP p) me) = true.
Definition event_ok (s : CliTunnelManager) (e : LinkEvent) : Prop :=
  match e with EvTunWrite packet => delivered_ok s packet | _ => True end.
Lemma event_ok_shape s s' e : shape_of s s' -> event_ok s' e -> event_ok s e.
Proof.
  intros Hs. destruct e as [| packet | | |]; try done. intros (id & p & mtu & me & Hp & Hm & Hc & Hv).
  pose proof (f_equal (lookup id) (sh_peers _ _ Hs)) as E. rewrite !lookup_fmap, Hp in E.
  destruct (tm_peerById s !! id) as [p0|] eqn:E0; [|done]. injection E as _ Ev _ _ _.
  exists id, p0, mtu, me. rewrite <- Ev, <- (sh_mode _ _ Hs), <- (sh_mtu _ _ Hs), <- (sh_ip _ _ Hs),
    <- (sh_app_mtu _ _ Hs), <- (sh_app_ip _ _ Hs). done.
Qed.

(** ** Steps *)

Record sealed_step (s s' : CliTunnelManager) (evs : list LinkEvent) : Prop := mkSealed {
  ss_half : send_half (tm_udpCipher s') = send_half (tm_udpCipher s);
  ss_counter : counter_ok (tm_udpCipher s) -> counter_ok (tm_udpCipher s') /\
    exists plains, m_sendCounter (tm_udpCipher s') = m_sendCounter (tm_udpCipher s) + len plains /\
      sent_datagrams evs = sealed_datagrams (tm_udpCipher s) (tm_secureSessionId s)
                             (m_sendCounter (tm_udpCipher s)) plains
}.
Definition steps (s s' : CliTunnelManager) : Prop :=
  shape_of s s' /\ exists evs, tm_out s' = tm_out s ++ evs /\ Forall (event_ok s) evs /\ sealed_step s s' evs.
#[export] Instance steps_preorder : PreOrder steps.
Proof.
  split.
  - intros s. split; [done|]. exists []. rewrite app_nil_r. split_and!; [done|done|].
    constructor; [done|]. intros Hc. split; [done|]. exists []. cbn. by rewrite Z.add_0_r.
  - intros s1 s2 s3 (Hs & e1 & O1 & F1 & S1) (Hs' & e2 & O2 & F2 & S2).
    split; [by etrans|]. exists (e1 ++ e2). split_and!.
    + by rewrite O2, O1, app_assoc.
    + apply Forall_app. split; [done|]. eapply Forall_impl; [exact F2|]. intros e. by apply event_ok_shape.
    + destruct S1 as [h1 c1], S2 as [h2 c2]. constructor; [by etrans|]. intros Hc.
      destruct (c1 Hc) as (Hc2 & p1 & E1 & D1). destruct (c2 Hc2) as (Hc3 & p2 & E2 & D2).
      split; [done|]. exists (p1 ++ p2). rewrite len_app, sent_datagrams_app, sealed_datagrams_app, D1, D2.
      split; [lia|]. rewrite (sealed_datagrams_half _ _ _ _ p2 h1), E1, (sh_sid _ _ Hs). done.
Qed.

Lemma ln_ret {A} (a : A) : moves steps (ret a).
Proof. apply moves_ret. apply _. Qed.
Lemma ln_throw {A} : moves steps (@throw _ A).
Proof. apply moves_throw. apply _. Qed.
Lemma ln_gets {A} (f : CliTunnelManager -> A) : moves steps (gets f).
Proof. apply moves_gets. apply _. Qed.
#[local] Hint Resolve ln_ret ln_throw ln_gets : vlan.

(** A change that neither sends nor delivers. *)
Lemma quiet_step s s' : shape_of s s' -> tm_udpCipher s' = tm_udpCipher s -> tm_out s' = tm_out s -> steps s s'.
Proof.
  intros Hs Hk Ho. split; [done|]. exists []. rewrite app_nil_r. split_and!; [done|done|].
  constructor; rewrite Hk; [done|]. intros Hc. split; [done|]. exists []. cbn. by rewrite Z.add_0_r.
Qed.
(** An event that is not a datagram and not a packet for the adapter. *)
Lemma ln_fire e : match e with EvSendTo _ _ _ | EvTunWrite _ => False | _ => True end -> moves steps (fire e).
Proof.
  intros He s. split; [by constructor|]. exists [e]. split_and!; [done|by repeat constructor; destruct e|].
  constructor; [done|]. intros Hc. split; [done|]. exists []. cbn. rewrite Z.add_0_r. split; [done|]. by destruct e.
Qed.
#[local] Hint Extern 1 (moves steps (fire _)) => apply ln_fire; exact I : vlan.
#[local] Hint Extern 1 (moves steps (modify _)) =>
  intros ?; apply quiet_step; [by constructor|reflexivity|reflexivity] : vlan.

Definition keeps_shape (f : CliPeerConnection -> CliPeerConnection) : Prop := forall p, peer_shape (f p) = peer_shape p.
Lemma shape_peer s id f : keeps_shape f -> shape_of s (set_tm_peerById (alter f id (tm_peerById s)) s).
Proof. intros Hf. constructor; try done. apply fmap_alter_same. intros p _. apply Hf. Qed.
Lemma ln_peer id f : keeps_shape f -> moves steps (upd_peer id f).
Proof. intros Hf s. by apply quiet_step; [apply shape_peer|..]. Qed.
Lemma keeps_shape_slot idx f : (forall s, slot_shape (f s) = slot_shape s) -> keeps_shape (upd_slot idx f).
Proof.
  intros Hf p. unfold upd_slot. destruct (idx =? 0); [|destruct (idx =? TRAFFIC_TCP)];
    unfold peer_shape; cbn; by rewrite Hf.
Qed.
Lemma ln_slot id idx f : (forall s, slot_shape (f s) = slot_shape s) -> moves steps (upd_peer id (upd_slot idx f)).
Proof. intros Hf. by apply ln_peer, keeps_shape_slot. Qed.
#[local] Hint Extern 1 (moves steps (upd_peer _ (upd_slot _ _))) => apply ln_slot; reflexivity : vlan.
Lemma ln_put_kcp key t : moves steps (put_kcp key t).
Proof. intros s. apply quiet_step; try done. constructor; try done. by apply fmap_alter_same. Qed.
Lemma ln_put_raw key t : moves steps (put_raw key t).
Proof. intros s. apply quiet_step; try done. constructor; try done. by apply fmap_alter_same. Qed.
Lemma ln_deref {A} (f : CliTunnelManager -> option A) : moves steps (deref f).
Proof. unfold deref. walk. Qed.
Lemma ln_deref_peer id : moves steps (deref_peer id).
Proof. apply ln_deref. Qed.
Lemma ln_deref_kcp key : moves steps (deref_kcp key).
Proof. apply ln_deref. Qed.
Lemma ln_deref_raw key : moves steps (deref_raw key).
Proof. apply ln_deref. Qed.
Lemma ln_drop reason : moves steps (recordPacketDrop reason).
Proof. unfold recordPacketDrop. walk. Qed.
Lemma ln_report dest ok : moves steps (reportSend dest ok).
Proof.
  unfold reportSend. destruct dest as [[id cls]|]; [|apply ln_ret]. intros s.
  apply quiet_step; [|done|done]. apply shape_peer. by apply keeps_shape_slot.
Qed.
Lemma ln_stop : moves steps stopDataPlane.
Proof. unfold stopDataPlane. auto with vlan. Qed.
#[local] Hint Resolve ln_put_kcp ln_put_raw ln_deref ln_deref_peer ln_deref_kcp ln_deref_raw
  ln_drop ln_report ln_stop : vlan.

(** ** Sealing *)

(** The state after a datagram was handed to the socket. *)
Definition after_sendto (data : bytes) (ip port : Z) (s : CliTunnelManager) : CliTunnelManager :=
  let s1 := set_tm_udpCipher (snd (encrypt (tm_udpCipher s) data [])) s in
  set_tm_out (tm_out s1 ++ [EvSendTo (UDP_ENCRYPTED :: writeU32BE (tm_secureSessionId s) ++
                                        fst (encrypt (tm_udpCipher s) data [])) ip port]) s1.
Lemma after_sendto_step data ip port s :
  fst (encrypt (tm_udpCipher s) data []) <> [] -> steps s (after_sendto data ip port s).
Proof.
  intros He. split; [by constructor|]. eexists. split; [reflexivity|]. split; [by repeat constructor|].
  constructor; [apply encrypt_half|]. intros Hc. cbn [tm_udpCipher set_tm_udpCipher after_sendto set_tm_out] in *.
  assert (m_initialized (tm_udpCipher s) = true /\ m_sendCounter (tm_udpCipher s) < UINT64_MAX) as [Hi Hm].
  { unfold encrypt in He. destruct (m_initialized _); [|done]. cbn [negb orb] in He.
    destruct (Z.eqb_spec (m_sendCounter (tm_udpCipher s)) UINT64_MAX); [done|]. unfold counter_ok in Hc. split; [done|lia]. }
  unfold counter_ok in *. rewrite encrypt_frame by (done || lia). cbn. split; [lia|].
  exists [data]. split; [reflexivity|]. reflexivity.
Qed.
Lemma ln_send data dest ip port s :
  fst (encrypt (tm_udpCipher s) data []) <> [] ->
  steps s (snd (send_datagram dest (UDP_ENCRYPTED :: writeU32BE (tm_secureSessionId s) ++
    fst (encrypt (tm_udpCipher s) data [])) ip port (set_tm_udpCipher (snd (encrypt (tm_udpCipher s) data [])) s))).
Proof.
  intros He. etrans; [by apply (after_sendto_step data ip port)|].
  unfold send_datagram, sendto, fire. rewrite !bind_assoc, bind_modify. fold (after_sendto data ip port s).
  generalize (after_sendto data ip port s).
  match goal with |- forall s, steps s (snd (?m s)) => change (moves steps m) end.
  apply moves_bind; [apply _|walk|intros r]. walk.
Qed.
Lemma ln_udpSend data ip port : moves steps (udpSend data ip port).
Proof.
  intros s. unfold udpSend. rewrite bind_gets. cbv zeta. destruct (_ || _) eqn:E1; [apply ln_report|].
  assert (tm_securityMode s = Secure) as Em.
  { bools. unfold dataPlaneAllowsTraffic in *. by bools. }
  rewrite bool_decide_true by done. clear E1. destruct (_ || _); [apply ln_report|].
  unfold tm_encrypt. rewrite bind_assoc, bind_gets, bind_assoc, bind_modify. cbn [bind ret].
  match goal with |- context [bool_decide (?e = [])] => destruct (bool_decide (e = [])) eqn:Ee end.
  - bools. etrans; [|].
    + instantiate (1 := set_tm_udpCipher (snd (encrypt (tm_udpCipher s) data [])) s).
      split; [by constructor|]. exists []. rewrite app_nil_r. split_and!; [done|done|].
      pose proof (encrypt_nothing _ _ _ Ee) as E. cbn. constructor; cbn; rewrite E; [done|]. intros Hc. split; [done|]. exists []. cbn. by rewrite Z.add_0_r.
    + apply_moves. walk.
  - bools. by apply ln_send.
Qed.
#[local] Hint Resolve ln_udpSend : vlan.

(** ** The data plane *)

Lemma ln_keepalive : moves steps sendUdpKeepalive.
Proof. unfold sendUdpKeepalive. walk. Qed.
Lemma ln_udp_out o : moves steps (udp_out o).
Proof. unfold udp_out. walk. Qed.
#[local] Hint Resolve ln_keepalive ln_udp_out : vlan.
Lemma ln_raw_send key data : moves steps (rawTunnel_send key data).
Proof. unfold rawTunnel_send. walk. Qed.
Lemma ln_kcp_send key data : moves steps (kcpTunnel_send key data).
Proof. unfold kcpTunnel_send. walk. Qed.
Lemma ln_tcp_send me id cls data : moves steps (tcpRelaySend me id cls data).
Proof. unfold tcpRelaySend. walk. Qed.
#[local] Hint Resolve ln_raw_send ln_kcp_send ln_tcp_send : vlan.
Lemma ln_sendData id p : moves steps (sendData id p).
Proof. unfold sendData. walk. Qed.
Lemma ln_control id cls data : moves steps (sendControlPacket id cls data).
Proof. unfold sendControlPacket. walk. Qed.
Lemma ln_quality id cls f : moves steps (upd_quality id cls f).
Proof. unfold upd_quality. auto with vlan. Qed.
#[local] Hint Resolve ln_sendData ln_control ln_quality : vlan.
Lemma ln_ping id cls : moves steps (sendLatencyPing id cls).
Proof. unfold sendLatencyPing. walk. Qed.
Lemma ln_probe id cls data : moves steps (handleLatencyProbe id cls data).
Proof. unfold handleLatencyProbe. walk. Qed.
Lemma ln_tcp_keepalive id : moves steps (sendTcpRelayKeepalive id).
Proof. unfold sendTcpRelayKeepalive, keepalive_class. walk. Qed.
#[local] Hint Resolve ln_ping ln_probe : vlan.
Lemma ln_writePacket packet s : delivered_ok s packet -> steps s (snd (writePacket packet s)).
Proof.
  intros Hd. unfold writePacket, fire. rewrite bind_modify.
  transitivity (set_tm_out (tm_out s ++ [EvTunWrite packet]) s); [|apply_moves; walk]. split; [by constructor|]. eexists. split; [reflexivity|].
  split; [by repeat constructor|]. constructor; [done|]. intros Hc. split; [done|]. exists []. cbn. by rewrite Z.add_0_r.
Qed.
Lemma ln_routeToTun id packet : moves steps (routeToTun id packet).
Proof.
  intros s. unfold routeToTun. rewrite bind_gets. destruct (negb (dataPlaneAllowsTraffic _ _)) eqn:Ea; [done|].
  unfold peerById. destruct (tm_peerById s !! id) as [p|] eqn:Ep; [|apply ln_drop].
  destruct (negb (overlay_valid _)) eqn:Ev; [apply ln_drop|].
  destruct (tm_tun s); [|apply ln_drop]. bools.
  assert (steps s (snd (writePacket packet s))) as Hw.
  { apply ln_writePacket. exists id, p, (tm_roomMtu s), (tm_myVirtualIP s).
    split_and!; [done| |by left|done]. unfold dataPlaneAllowsTraffic in *. by bools. }
  unfold bind. destruct (writePacket packet s) as [[ok|] s']; cbn [snd] in Hw; [|exact Hw].
  etrans; [exact Hw|]. apply_moves. walk.
Qed.
#[local] Hint Resolve ln_routeToTun : vlan.
Lemma ln_peer_data id packet : moves steps (onPeerDataReceived id packet).
Proof. unfold onPeerDataReceived. walk. Qed.
#[local] Hint Resolve ln_peer_data : vlan.
Lemma ln_tunnel_data id cls data : moves steps (onTunnelDataReceived id cls data).
Proof. unfold onTunnelDataReceived. walk. Qed.
Lemma ln_mark id cls : moves steps (markTransportDead id cls).
Proof. unfold markTransportDead. walk. Qed.
#[local] Hint Resolve ln_tunnel_data ln_mark : vlan.
Lemma ln_tunnel_out id cls o : moves steps (tunnel_out id cls o).
Proof. unfold tunnel_out. walk. Qed.
#[local] Hint Resolve ln_tunnel_out : vlan.
Lemma ln_raw_step key f : moves steps (rawTunnel_step key f).
Proof. unfold rawTunnel_step. walk. Qed.
#[local] Hint Resolve ln_raw_step : vlan.
Lemma ln_raw_feed key data : moves steps (rawTunnel_feed key data).
Proof. unfold rawTunnel_feed. walk. Qed.
Lemma ln_raw_update key : moves steps (rawTunnel_update key).
Proof. unfold rawTunnel_update. walk. Qed.
Lemma ln_kcp_packet key p : moves steps (sendKcpPacket key p).
Proof. unfold sendKcpPacket. walk. Qed.
#[local] Hint Resolve ln_raw_feed ln_raw_update ln_kcp_packet : vlan.
Lemma ln_kcp_output key data : moves steps (kcpOutput key data).
Proof. unfold kcpOutput. walk. Qed.
Lemma ln_recv_loop n key : moves steps (tryRecv_loop n key).
Proof. induction n as [|n IH]; cbn [tryRecv_loop]; walk. Qed.
#[local] Hint Resolve ln_kcp_output ln_recv_loop : vlan.
Lemma ln_tryRecv key : moves steps (tryRecv key).
Proof. unfold tryRecv. walk. Qed.
#[local] Hint Resolve ln_tryRecv : vlan.
Lemma ln_kcp_input key p : moves steps (kcp_inputAndRecv key p).
Proof. unfold kcp_inputAndRecv. walk. Qed.
#[local] Hint Resolve ln_kcp_input : vlan.
Lemma ln_kcp_feed key data : moves steps (kcpTunnel_feed key data).
Proof. unfold kcpTunnel_feed. walk. Qed.
Lemma ln_kcp_update key : moves steps (kcpTunnel_update key).
Proof. unfold kcpTunnel_update, kcp_flush, kcp_keepalive, kcp_fec_update. walk. Qed.
#[local] Hint Resolve ln_kcp_feed ln_kcp_update : vlan.
Lemma ln_dispatch plain : moves steps (dispatch_datagram plain).
Proof. unfold dispatch_datagram. walk. Qed.
Lemma ln_decrypt frame : moves steps (tm_decrypt frame).
Proof.
  unfold tm_decrypt. walk. intros s. cbn. destruct (decrypt_half (tm_udpCipher s) frame []) as [Eh Ec].
  split; [by constructor|]. exists []. rewrite app_nil_r. split_and!; [done|done|].
  constructor; [exact Eh|]. unfold counter_ok. cbn. rewrite Ec. intros Hc. split; [done|]. exists []. cbn. by rewrite Z.add_0_r.
Qed.
#[local] Hint Resolve ln_dispatch ln_decrypt : vlan.
Lemma ln_datagram data ip port : moves steps (on_datagram data ip port).
Proof. unfold on_datagram. walk. Qed.
#[local] Hint Resolve ln_datagram : vlan.
Lemma ln_udp_readable l : moves steps (onUdpReadable l).
Proof.
  unfold onUdpReadable. walk. induction l as [|[[data ip] port] l IH]; cbn [recv_datagrams]; walk.
Qed.
Lemma ln_send_or_drop id p : moves steps (send_or_drop id p).
Proof. unfold send_or_drop. walk. Qed.
#[local] Hint Resolve ln_send_or_drop : vlan.
Lemma ln_fromTun p : moves steps (routeFromTun p).
Proof. unfold routeFromTun. walk. Qed.
#[local] Hint Resolve ln_fromTun : vlan.
Lemma ln_tun_packets : moves steps processTunPackets.
Proof. unfold processTunPackets. walk. Qed.
End Link.
#[export] Hint Resolve ln_ret ln_throw ln_gets ln_put_kcp ln_put_raw ln_deref ln_deref_peer ln_deref_kcp
  ln_deref_raw ln_drop ln_report ln_stop ln_udpSend ln_keepalive ln_udp_out ln_raw_send
  ln_kcp_send ln_tcp_send ln_sendData ln_control ln_quality ln_ping ln_probe
  ln_tcp_keepalive ln_routeToTun ln_peer_data ln_tunnel_data ln_mark ln_tunnel_out
  ln_raw_step ln_raw_feed ln_raw_update ln_kcp_packet ln_kcp_output ln_recv_loop ln_tryRecv
  ln_kcp_input ln_kcp_feed ln_kcp_update ln_dispatch ln_decrypt ln_datagram ln_udp_readable
  ln_send_or_drop ln_fromTun ln_tun_packets : vlan.
#[export] Hint Extern 1 (moves steps (fire _)) => apply ln_fire; exact I : vlan.
#[export] Hint Extern 1 (moves steps (modify _)) =>
  intros ?; apply quiet_step; [by constructor|reflexivity|reflexivity] : vlan.
#[export] Hint Extern 1 (moves steps (upd_peer _ (upd_slot _ _))) => apply ln_slot; reflexivity : vlan.
