(* ===== verification/LinkSafety.v ===== *)
(** * No tunnel or peer is used after it is gone

    In C++ the peers hold pointers to their tunnels, the tunnels call back
    through pointers to their peers, and the route table points to peers.  The
    invariant [tm_ok] says that every such pointer leads to a live object of
    the right identity; every operation keeps it, and none follows a dangling
    pointer: none throws. *)

From S2P Require Import Prelude Protocol Room RoomFacts SecureFrame SecureFrameFacts Overlay TcpConn CliSignalState Fec ProbeQuality PeerConn Store RawUdp TunnelManager RoomLinks LinkFacts.

Section Safety.
Context `{CryptoLaws} `{CM256} `{Ikcp}.

(** ** The invariant *)

(** A pointer of the slot [cls] of the peer [id]: the key of that tunnel. *)
Definition pointer_ok {T} (m : gmap Z (Owned T)) (id cls : Z) (ptr : option Z) : Prop :=
  forall key, ptr = Some key -> key = tunnelKey id cls /\ is_Some (m !! key).
Definition slot_ok (s : CliTunnelManager) (id cls : Z) (c : PeerClass) : Prop :=
  pointer_ok (tm_kcpByPeerClass s) id cls (pn_kcpTunnel c) /\
  pointer_ok (tm_rawByPeerClass s) id cls (pn_rawUdpTunnel c).
Definition peer_ok (s : CliTunnelManager) (id : Z) (p : CliPeerConnection) : Prop :=
  pn_peerId p = id /\ forall cls, 0 <= cls <= 2 -> slot_ok s id cls (slot_at cls p).
Definition is_class (cls : Z) : Prop := cls = TRAFFIC_TCP \/ cls = TRAFFIC_UDP.
Definition owned_ok {T} (s : CliTunnelManager) (key : Z) (o : Owned T) : Prop :=
  key = tunnelKey (ow_peer o) (ow_cls o) /\ is_class (ow_cls o) /\ is_Some (tm_peerById s !! ow_peer o).
Record tm_ok (s : CliTunnelManager) : Prop := mkTmOk {
  ok_peers : forall id p, tm_peerById s !! id = Some p -> peer_ok s id p;
  ok_kcp : forall key o, tm_kcpByPeerClass s !! key = Some o -> owned_ok s key o;
  ok_raw : forall key o, tm_rawByPeerClass s !! key = Some o -> owned_ok s key o;
  ok_vips : forall v id, tm_peerByVIP s !! v = Some id ->
    exists p, tm_peerById s !! id = Some p /\ pn_virtualIP p = v
}.

(** It depends on the shape of the state only. *)
Lemma fmap_lookup_eq {A B} (g : A -> B) (m m' : gmap Z A) k x :
  g <$> m' = g <$> m -> m !! k = Some x -> exists x', m' !! k = Some x' /\ g x' = g x.
Proof.
  intros E Hx. apply (f_equal (lookup k)) in E. rewrite !lookup_fmap, Hx in E.
  destruct (m' !! k) as [x'|]; [|done]. exists x'. cbn in E. by simplify_eq.
Qed.
Lemma fmap_is_Some {A B} (g : A -> B) (m m' : gmap Z A) k :
  g <$> m' = g <$> m -> is_Some (m !! k) -> is_Some (m' !! k).
Proof. intros E [x Hx]. destruct (fmap_lookup_eq g m m' k x E Hx) as (x' & -> & _). by eexists. Qed.
Lemma shape_sym s s' : shape_of s s' -> shape_of s' s.
Proof. intros []. by constructor. Qed.
Lemma slot_ok_shape s s' id cls c c' :
  shape_of s s' -> slot_shape c' = slot_shape c -> slot_ok s id cls c -> slot_ok s' id cls c'.
Proof.
  intros Hs [= _ Ek Er] [Hk Hr]. split; intros key Hp.
  - rewrite Ek in Hp. destruct (Hk key Hp) as [-> Hin]. split; [done|].
    by apply (fmap_is_Some _ _ _ _ (sh_kcp _ _ Hs)).
  - rewrite Er in Hp. destruct (Hr key Hp) as [-> Hin]. split; [done|].
    by apply (fmap_is_Some _ _ _ _ (sh_raw _ _ Hs)).
Qed.
Lemma slot_at_shape idx p p' : peer_shape p' = peer_shape p -> slot_shape (slot_at idx p') = slot_shape (slot_at idx p).
Proof.
  intros E. injection E as E1 _ E2 E3 E4 E5 E6 E7 E8 E9 E10. unfold slot_at, slot_shape.
  destruct (idx =? 0); [congruence|]. destruct (idx =? TRAFFIC_TCP); congruence.
Qed.
Lemma peer_ok_shape s s' id p p' :
  shape_of s s' -> peer_shape p' = peer_shape p -> peer_ok s id p -> peer_ok s' id p'.
Proof.
  intros Hs Hp (Hid & Hc). split; [by injection Hp as -> _|]. intros cls Hcls.
  eapply slot_ok_shape; [exact Hs|by apply slot_at_shape|by apply Hc].
Qed.
Lemma owned_ok_shape {T} s s' key (o o' : Owned T) :
  shape_of s s' -> owner o' = owner o -> owned_ok s key o -> owned_ok s' key o'.
Proof.
  intros Hs [= E1 E2] (? & ? & Hin). unfold owned_ok. rewrite E1, E2. split_and!; [done|done|].
  by apply (fmap_is_Some _ _ _ _ (sh_peers _ _ Hs)).
Qed.
Lemma tm_ok_shape s s' : shape_of s s' -> tm_ok s -> tm_ok s'.
Proof.
  intros Hs [H1' H2' H3' H4']. pose proof (shape_sym _ _ Hs) as Hs'. constructor.
  - intros id p Hp. destruct (fmap_lookup_eq _ _ _ _ _ (sh_peers _ _ Hs') Hp) as (p0 & Hp0 & E).
    eapply peer_ok_shape; [exact Hs|symmetry; exact E|by apply H1'].
  - intros key o Ho. destruct (fmap_lookup_eq _ _ _ _ _ (sh_kcp _ _ Hs') Ho) as (o0 & Ho0 & E).
    eapply owned_ok_shape; [exact Hs|symmetry; exact E|by apply H2'].
  - intros key o Ho. destruct (fmap_lookup_eq _ _ _ _ _ (sh_raw _ _ Hs') Ho) as (o0 & Ho0 & E).
    eapply owned_ok_shape; [exact Hs|symmetry; exact E|by apply H3'].
  - intros v id Hv. rewrite (sh_vips _ _ Hs) in Hv. destruct (H4' v id Hv) as (p0 & Hp0 & E).
    destruct (fmap_lookup_eq _ _ _ _ _ (sh_peers _ _ Hs) Hp0) as (p & Hp & Ep). exists p.
    split; [done|]. injection Ep as _ Ev. congruence.
Qed.

(** ** Running inside one shape *)

Definition peer_in (s : CliTunnelManager) (id : Z) : Prop := is_Some (tm_peerById s !! id).
Definition kcp_in (s : CliTunnelManager) (key : Z) : Prop := is_Some (tm_kcpByPeerClass s !! key).
Definition raw_in (s : CliTunnelManager) (key : Z) : Prop := is_Some (tm_rawByPeerClass s !! key).

Section Runs.
Context (s0 : CliTunnelManager) (Hok : tm_ok s0).

Definition runs {A} (m : SE CliTunnelManager A) : Prop := forall s, shape_of s0 s -> is_Some (fst (m s)).
Lemma runs_ret {A} (a : A) : runs (ret a).
Proof. intros s _. by eexists. Qed.
Lemma runs_gets {A} (f : CliTunnelManager -> A) : runs (gets f).
Proof. intros s _. by eexists. Qed.
Lemma runs_modify f : runs (modify f).
Proof. intros s _. by eexists. Qed.
Lemma runs_total {A} (m : SE CliTunnelManager A) : total m -> runs m.
Proof. intros Hm s _. apply Hm. Qed.
Lemma runs_bind {A B} (m : SE CliTunnelManager A) (k : A -> SE CliTunnelManager B) :
  runs m -> moves steps m -> (forall a, runs (k a)) -> runs (bind m k).
Proof.
  intros Hm Hst Hk s Hs. unfold bind. specialize (Hm s Hs). destruct (Hst s) as [Hsh _].
  destruct (m s) as [[a|] s']; [|by destruct Hm]. apply Hk. by etrans.
Qed.
Lemma runs_when b (m : SE CliTunnelManager unit) : runs m -> runs (when b m).
Proof. intros Hm. destruct b; [exact Hm|apply runs_ret]. Qed.
Lemma runs_for_each {A} (l : list A) (body : A -> SE CliTunnelManager unit) :
  (forall x, x ∈ l -> runs (body x)) -> (forall x, moves steps (body x)) -> runs (for_each l body).
Proof.
  induction l as [|x l IH]; intros Hr Hm; cbn [for_each]; [apply runs_ret|].
  apply runs_bind; [apply Hr; left|apply Hm|]. intros _. apply IH; [|done]. intros y Hy. apply Hr. by right.
Qed.
(** A value read, with what it says of a state of this shape. *)
Lemma runs_bind_gets {A B} (f : CliTunnelManager -> A) (k : A -> SE CliTunnelManager B) :
  (forall s, shape_of s0 s -> is_Some (fst (k (f s) s))) -> runs (bind (gets f) k).
Proof. intros Hk s Hs. exact (Hk s Hs). Qed.

(** Following a pointer to an object of the shape. *)
Lemma slot_pointers id p idx : peer_ok s0 id p ->
  (forall key, pn_kcpTunnel (slot_at idx p) = Some key -> kcp_in s0 key) /\
  (forall key, pn_rawUdpTunnel (slot_at idx p) = Some key -> raw_in s0 key).
Proof.
  intros (_ & Hc). assert (exists cls, 0 <= cls <= 2 /\ slot_at idx p = slot_at cls p) as (cls & Hcls & ->).
  { unfold slot_at at 1. destruct (idx =? 0); [exists 0|destruct (idx =? TRAFFIC_TCP); [exists 1|exists 2]];
      (split; [lia|done]). }
  destruct (Hc cls Hcls) as [Hk Hr]. split; intros key E; [by apply Hk in E as []|by apply Hr in E as []].
Qed.
Lemma runs_peer {B} id (k : CliPeerConnection -> SE CliTunnelManager B) :
  peer_in s0 id -> (forall p, peer_ok s0 id p -> runs (k p)) -> runs (bind (deref_peer id) k).
Proof.
  intros Hin Hk s Hs. unfold deref_peer, deref. rewrite bind_assoc, bind_gets.
  destruct Hin as [p0 Hp0]. destruct (fmap_lookup_eq _ _ _ _ _ (sh_peers _ _ Hs) Hp0) as (p & Hp & E).
  unfold peerById. rewrite Hp. apply (Hk p); [|done]. eapply peer_ok_shape; [reflexivity|exact E|].
  by apply (ok_peers _ Hok).
Qed.
Lemma runs_kcp {B} key (k : Owned CliKcpTunnel -> SE CliTunnelManager B) :
  kcp_in s0 key -> (forall o, peer_in s0 (ow_peer o) -> runs (k o)) -> runs (bind (deref_kcp key) k).
Proof.
  intros Hin Hk s Hs. unfold deref_kcp, deref. rewrite bind_assoc, bind_gets.
  destruct Hin as [o0 Ho0]. destruct (fmap_lookup_eq _ _ _ _ _ (sh_kcp _ _ Hs) Ho0) as (o & Ho & E).
  rewrite Ho. apply (Hk o); [|done]. destruct (ok_kcp _ Hok _ _ Ho0) as (_ & _ & Hp). injection E as E _. by rewrite E.
Qed.
Lemma runs_raw {B} key (k : Owned RawUdpTunnel -> SE CliTunnelManager B) :
  raw_in s0 key -> (forall o, peer_in s0 (ow_peer o) -> runs (k o)) -> runs (bind (deref_raw key) k).
Proof.
  intros Hin Hk s Hs. unfold deref_raw, deref. rewrite bind_assoc, bind_gets.
  destruct Hin as [o0 Ho0]. destruct (fmap_lookup_eq _ _ _ _ _ (sh_raw _ _ Hs) Ho0) as (o & Ho & E).
  rewrite Ho. apply (Hk o); [|done]. destruct (ok_raw _ Hok _ _ Ho0) as (_ & _ & Hp). injection E as E _. by rewrite E.
Qed.

#[local] Hint Resolve runs_ret runs_gets runs_modify runs_when : vlan.
Ltac runs_step :=
  match goal with
  | |- runs (bind (deref_peer _) _) => apply runs_peer; [|intros ? ?]
  | |- runs (bind (deref_kcp _) _) => apply runs_kcp; [|intros ? ?]
  | |- runs (bind (deref_raw _) _) => apply runs_raw; [|intros ? ?]
  | |- runs (bind _ _) => apply runs_bind; [|by walk|intros ?]
  | |- runs (when _ _) => apply runs_when
  | |- runs (for_each _ _) => apply runs_for_each; [intros ? ?|intros ?; by walk]
  | |- _ (match ?x with _ => _ end) => destruct x eqn:?
  | |- _ (let _ := _ in _) => cbv zeta
  end.
Ltac run := repeat first [ solve [eauto 4 with vlan] | runs_step ].

Lemma rn_drop reason : runs (recordPacketDrop reason).
Proof. unfold recordPacketDrop. run. Qed.
Lemma rn_report dest ok : runs (reportSend dest ok).
Proof. unfold reportSend. run. Qed.
Lemma rn_total_send dest pkt ip port : total (send_datagram dest pkt ip port).
Proof. unfold send_datagram, sendto, fire, reportSend, recordPacketDrop. walk. Qed.
Lemma rn_udpSend data ip port : runs (udpSend data ip port).
Proof.
  apply runs_total. unfold udpSend, tm_encrypt, reportSend, recordPacketDrop, stopDataPlane, fire.
  pose proof rn_total_send. walk.
Qed.
#[local] Hint Resolve rn_drop rn_report rn_udpSend : vlan.

(** ** The data plane follows no dangling pointer *)

Lemma rn_upd_peer id f : runs (upd_peer id f).
Proof. apply runs_modify. Qed.
Lemma rn_put_kcp key t : runs (put_kcp key t).
Proof. apply runs_modify. Qed.
Lemma rn_put_raw key t : runs (put_raw key t).
Proof. apply runs_modify. Qed.
Lemma rn_quality id cls f : runs (upd_quality id cls f).
Proof. apply runs_modify. Qed.
Lemma rn_fire e : runs (fire e).
Proof. apply runs_modify. Qed.
#[local] Hint Resolve rn_upd_peer rn_put_kcp rn_put_raw rn_quality rn_fire : vlan.
Lemma rn_keepalive : runs sendUdpKeepalive.
Proof. unfold sendUdpKeepalive. run. Qed.
Lemma rn_udp_out o : runs (udp_out o).
Proof. unfold udp_out. run. Qed.
#[local] Hint Resolve rn_keepalive rn_udp_out : vlan.
Lemma rn_raw_send key data : raw_in s0 key -> runs (rawTunnel_send key data).
Proof. intros Hk. unfold rawTunnel_send. run. Qed.
Lemma rn_kcp_send key data : kcp_in s0 key -> runs (kcpTunnel_send key data).
Proof. intros Hk. unfold kcpTunnel_send. run. Qed.
Lemma rn_tcp_send me id cls data : runs (tcpRelaySend me id cls data).
Proof. unfold tcpRelaySend. run. Qed.
#[local] Hint Resolve rn_raw_send rn_kcp_send rn_tcp_send : vlan.
Lemma rn_sendData id packet : peer_in s0 id -> runs (sendData id packet).
Proof.
  intros Hin. unfold sendData. apply runs_peer; [done|]. intros p Hp. cbv zeta.
  destruct (slot_pointers id p (class_index (trafficClassFromIpPacket packet)) Hp) as [Hk Hr]. run.
Qed.
Lemma rn_control id cls data : peer_in s0 id -> runs (sendControlPacket id cls data).
Proof.
  intros Hin. unfold sendControlPacket. apply runs_peer; [done|]. intros p Hp. cbv zeta.
  destruct (slot_pointers id p (class_index cls) Hp) as [Hk Hr]. run.
Qed.
#[local] Hint Resolve rn_sendData rn_control : vlan.
Lemma rn_ping id cls : peer_in s0 id -> runs (sendLatencyPing id cls).
Proof. intros Hin. unfold sendLatencyPing. run. Qed.
Lemma rn_probe id cls data : peer_in s0 id -> runs (handleLatencyProbe id cls data).
Proof. intros Hin. unfold handleLatencyProbe. run. Qed.
Lemma rn_tcp_keepalive id : peer_in s0 id -> runs (sendTcpRelayKeepalive id).
Proof. intros Hin. unfold sendTcpRelayKeepalive, keepalive_class. run. Qed.
#[local] Hint Resolve rn_ping rn_probe : vlan.
Lemma rn_routeToTun id packet : runs (routeToTun id packet).
Proof.
  apply runs_total. unfold routeToTun, writePacket, fire, recordPacketDrop. walk.
Qed.
#[local] Hint Resolve rn_routeToTun : vlan.
Lemma rn_peer_data id packet : runs (onPeerDataReceived id packet).
Proof. unfold onPeerDataReceived. run. Qed.
#[local] Hint Resolve rn_peer_data : vlan.
Lemma rn_tunnel_data id cls data : peer_in s0 id -> runs (onTunnelDataReceived id cls data).
Proof. intros Hin. unfold onTunnelDataReceived. run. Qed.
Lemma rn_mark id cls : runs (markTransportDead id cls).
Proof. unfold markTransportDead. run. Qed.
#[local] Hint Resolve rn_tunnel_data rn_mark : vlan.
Lemma rn_tunnel_out id cls o : peer_in s0 id -> runs (tunnel_out id cls o).
Proof. intros Hin. unfold tunnel_out. run. Qed.
#[local] Hint Resolve rn_tunnel_out : vlan.
Lemma rn_raw_step key f : raw_in s0 key -> runs (rawTunnel_step key f).
Proof. intros Hk. unfold rawTunnel_step. run. Qed.
#[local] Hint Resolve rn_raw_step : vlan.
Lemma rn_raw_feed key data : raw_in s0 key -> runs (rawTunnel_feed key data).
Proof. intros Hk. unfold rawTunnel_feed. run. Qed.
Lemma rn_kcp_packet key p : kcp_in s0 key -> runs (sendKcpPacket key p).
Proof. intros Hk. unfold sendKcpPacket. run. Qed.
#[local] Hint Resolve rn_raw_feed rn_kcp_packet : vlan.
Lemma rn_kcp_output key data : kcp_in s0 key -> runs (kcpOutput key data).
Proof. intros Hk. unfold kcpOutput. run. Qed.
Lemma rn_recv_loop n key : kcp_in s0 key -> runs (tryRecv_loop n key).
Proof. intros Hk. induction n as [|n IH]; cbn [tryRecv_loop]; run. Qed.
#[local] Hint Resolve rn_kcp_output rn_recv_loop : vlan.
Lemma rn_tryRecv key : kcp_in s0 key -> runs (tryRecv key).
Proof. intros Hk. unfold tryRecv. run. Qed.
#[local] Hint Resolve rn_tryRecv : vlan.
Lemma rn_kcp_input key p : kcp_in s0 key -> runs (kcp_inputAndRecv key p).
Proof. intros Hk. unfold kcp_inputAndRecv. run. Qed.
#[local] Hint Resolve rn_kcp_input : vlan.
Lemma rn_kcp_feed key data : kcp_in s0 key -> runs (kcpTunnel_feed key data).
Proof. intros Hk. unfold kcpTunnel_feed. run. Qed.
Lemma rn_kcp_update key : kcp_in s0 key -> runs (kcpTunnel_update key).
Proof. intros Hk. unfold kcpTunnel_update, kcp_flush, kcp_keepalive, kcp_fec_update. run. Qed.
#[local] Hint Resolve rn_kcp_feed rn_kcp_update : vlan.
(** A tunnel found in the table is in the shape. *)
Lemma found_kcp s key o : shape_of s0 s -> tm_kcpByPeerClass s !! key = Some o -> kcp_in s0 key.
Proof. intros Hs Ho. apply (fmap_is_Some _ _ _ key (sh_kcp _ _ (shape_sym _ _ Hs))). by rewrite Ho. Qed.
Lemma found_raw s key o : shape_of s0 s -> tm_rawByPeerClass s !! key = Some o -> raw_in s0 key.
Proof. intros Hs Ho. apply (fmap_is_Some _ _ _ key (sh_raw _ _ (shape_sym _ _ Hs))). by rewrite Ho. Qed.
Lemma rn_dispatch plain : runs (dispatch_datagram plain).
Proof.
  unfold dispatch_datagram. intros s Hs. rewrite bind_gets. cbv zeta.
  destruct (_ =? UDP_RELAY_DATA); [|destruct (_ =? UDP_RAW_RELAY_DATA); [|by eexists]].
  - destruct (_ || _); [by eexists|]. destruct (tm_kcpByPeerClass s !! _) as [o|] eqn:E; [|by eexists].
    apply rn_kcp_feed; [by eapply found_kcp|done].
  - destruct (_ || _); [by eexists|]. destruct (tm_rawByPeerClass s !! _) as [o|] eqn:E; [|by eexists].
    apply rn_raw_feed; [by eapply found_raw|done].
Qed.
Lemma rn_decrypt frame : runs (tm_decrypt frame).
Proof. apply runs_total. unfold tm_decrypt. walk. Qed.
#[local] Hint Resolve rn_dispatch rn_decrypt : vlan.
Lemma rn_datagram data ip port : runs (on_datagram data ip port).
Proof. unfold on_datagram. run. Qed.
#[local] Hint Resolve rn_datagram : vlan.
Lemma rn_udp_readable l : runs (onUdpReadable l).
Proof.
  unfold onUdpReadable. assert (forall l, moves steps (recv_datagrams l)) as Hm.
  { clear l. induction l as [|[[data ip] port] l IH]; cbn [recv_datagrams]; walk. }
  apply runs_bind; [run|walk|intros s]. destruct (_ =? _); [run|].
  induction l as [|[[data ip] port] l IH]; cbn [recv_datagrams]; [run|].
  destruct (bool_decide _); [run|]. apply runs_bind; [run|walk|done].
Qed.
Lemma rn_send_or_drop id p : peer_in s0 id -> runs (send_or_drop id p).
Proof. intros Hin. unfold send_or_drop. run. Qed.
#[local] Hint Resolve rn_send_or_drop : vlan.
Lemma found_peer s id p : shape_of s0 s -> tm_peerById s !! id = Some p -> peer_in s0 id.
Proof. intros Hs Hp. apply (fmap_is_Some _ _ _ id (sh_peers _ _ (shape_sym _ _ Hs))). by rewrite Hp. Qed.
Lemma rn_fromTun packet : runs (routeFromTun packet).
Proof.
  unfold routeFromTun. intros s Hs. rewrite bind_gets. cbv zeta.
  destruct (negb _); [by eexists|]. destruct (negb _); [by apply rn_drop|].
  destruct (_ || _).
  - apply runs_for_each; [|intros ?; walk|done]. intros id Hid. apply rn_send_or_drop.
    apply list_elem_of_fmap in Hid as ([id' p] & -> & Hp). apply elem_of_map_ordered in Hp.
    by eapply found_peer.
  - unfold peerByVirtualIP. destruct (tm_peerByVIP s !! _) as [id|] eqn:Ev; [|by apply rn_drop].
    apply rn_send_or_drop; [|done].
    destruct (ok_vips _ (tm_ok_shape _ _ Hs Hok) _ _ Ev) as (p & Hp & _). by eapply found_peer.
Qed.
#[local] Hint Resolve rn_fromTun : vlan.
Lemma rn_tun_packets : runs processTunPackets.
Proof. unfold processTunPackets. run. Qed.
End Runs.
End Safety.
