(* ===== verification/LinkCalls.v ===== *)
(** * Every call of the tunnel manager is safe

    The operations that create and remove peers and tunnels keep [tm_ok], and
    so does any sequence of calls the application makes; none of them throws.
    With the preorder of [LinkFacts]: what leaves through the UDP socket and
    what reaches the adapter, over a whole call. *)

From S2P Require Import Prelude Protocol Room RoomFacts SecureFrame SecureFrameFacts Overlay TcpConn CliSignalState Fec ProbeQuality PeerConn Store RawUdp TunnelManager RoomLinks LinkFacts LinkSafety.

Lemma tunnelKey_value id cls : 0 <= cls < 256 -> tunnelKey id cls = 256 * id + cls.
Proof.
  intros Hc. unfold tunnelKey, u8. rewrite Z.mod_small by done. by apply lor_shiftl_byte.
Qed.
Lemma tunnelKey_inj id cls id' cls' : 0 <= cls < 256 -> 0 <= cls' < 256 ->
  tunnelKey id cls = tunnelKey id' cls' -> id = id' /\ cls = cls'.
Proof. intros ? ?. rewrite !tunnelKey_value by done. lia. Qed.
Lemma class_index_range cls : 0 <= class_index cls <= 2.
Proof. unfold class_index, TRAFFIC_UDP. destruct (_ || _) eqn:E; [lia|]. bools. lia. Qed.
Lemma is_class_range cls : is_class cls -> 1 <= cls <= 2.
Proof. unfold is_class, TRAFFIC_TCP, TRAFFIC_UDP. lia. Qed.
Lemma slot_at_upd cls cls' f p : 0 <= cls <= 2 -> 0 <= cls' <= 2 ->
  slot_at cls' (upd_slot cls f p) = (if cls' =? cls then f (slot_at cls' p) else slot_at cls' p).
Proof.
  intros Hc Hc'. assert (cls = 0 \/ cls = 1 \/ cls = 2) as [-> | [-> | ->]] by lia;
    (assert (cls' = 0 \/ cls' = 1 \/ cls' = 2) as [-> | [-> | ->]] by lia; done).
Qed.
Lemma upd_slot_ids cls f p : pn_peerId (upd_slot cls f p) = pn_peerId p /\ pn_virtualIP (upd_slot cls f p) = pn_virtualIP p.
Proof. unfold upd_slot. destruct (_ =? _); [done|]. by destruct (_ =? _). Qed.

Section Calls.
Context `{CryptoLaws} `{CM256} `{Ikcp}.

(** ** Safe programs *)

Definition all_in (ids : list Z) (s : CliTunnelManager) : Prop := forall id, id ∈ ids -> peer_in s id.
(** From a good state: it returns, to a good state with the same peers [ids]. *)
Definition safe {A} (ids : list Z) (m : SE CliTunnelManager A) : Prop := forall s,
  tm_ok s -> all_in ids s -> is_Some (fst (m s)) /\ tm_ok (snd (m s)) /\ all_in ids (snd (m s)).

Lemma safe_ret {A} ids (a : A) : safe ids (ret a).
Proof. intros s Hs Hi. split_and!; [by eexists|done|done]. Qed.
Lemma safe_gets {A} ids (f : CliTunnelManager -> A) : safe ids (gets f).
Proof. intros s Hs Hi. split_and!; [by eexists|done|done]. Qed.
Lemma safe_bind {A B} ids (m : SE CliTunnelManager A) (k : A -> SE CliTunnelManager B) :
  safe ids m -> (forall a, safe ids (k a)) -> safe ids (bind m k).
Proof.
  intros Hm Hk s Hs Hi. unfold bind. destruct (Hm s Hs Hi) as ([a Ha] & Hs' & Hi').
  destruct (m s) as [r s']. cbn in *. subst r. by apply Hk.
Qed.
Lemma safe_when ids b (m : SE CliTunnelManager unit) : safe ids m -> safe ids (when b m).
Proof. intros Hm. destruct b; [done|apply safe_ret]. Qed.
Lemma safe_for_each {A} ids (l : list A) (body : A -> SE CliTunnelManager unit) :
  (forall x, x ∈ l -> safe ids (body x)) -> safe ids (for_each l body).
Proof.
  induction l as [|x l IH]; intros Hb; cbn [for_each]; [apply safe_ret|].
  apply safe_bind; [apply Hb; left|]. intros _. apply IH. intros y Hy. apply Hb. by right.
Qed.
(** A program that starts by reading the state, at each state. *)
Lemma safe_read {A} ids (k : CliTunnelManager -> SE CliTunnelManager A) :
  (forall s, tm_ok s -> all_in ids s ->
     is_Some (fst (k s s)) /\ tm_ok (snd (k s s)) /\ all_in ids (snd (k s s))) ->
  safe ids (bind (gets (fun s => s)) k).
Proof. intros Hk s Hs Hi. by apply Hk. Qed.
Lemma all_in_shape ids s s' : shape_of s s' -> all_in ids s -> all_in ids s'.
Proof. intros Hs Hi id Hid. apply (fmap_is_Some _ _ _ id (sh_peers _ _ Hs)). by apply Hi. Qed.
(** A program of the data plane. *)
Lemma safe_data {A} ids (m : SE CliTunnelManager A) :
  moves steps m -> (forall s0, tm_ok s0 -> all_in ids s0 -> runs s0 m) -> safe ids m.
Proof.
  intros Hm Hr s Hs Hi. destruct (Hm s) as [Hsh _].
  split_and!; [by apply (Hr s)|by eapply tm_ok_shape|by eapply all_in_shape].
Qed.
Lemma safe_modify ids f :
  (forall s, tm_ok s -> all_in ids s -> tm_ok (f s) /\ all_in ids (f s)) -> safe ids (modify f).
Proof. intros Hf s Hs Hi. split; [by eexists|by apply Hf]. Qed.
(** A change of none of the four tables. *)
Definition same_tables (s s' : CliTunnelManager) : Prop :=
  tm_peerById s' = tm_peerById s /\ tm_kcpByPeerClass s' = tm_kcpByPeerClass s /\
  tm_rawByPeerClass s' = tm_rawByPeerClass s /\ tm_peerByVIP s' = tm_peerByVIP s.
Lemma tm_ok_tables s s' : same_tables s s' -> tm_ok s -> tm_ok s'.
Proof.
  intros (E1 & E2 & E3 & E4) [P K R V]. constructor; unfold peer_ok, slot_ok, owned_ok in *;
    rewrite ?E1, ?E2, ?E3, ?E4; done.
Qed.
Lemma safe_tables ids f : (forall s, same_tables s (f s)) -> safe ids (modify f).
Proof.
  intros Hf. apply safe_modify. intros s Hs Hi. split; [by eapply tm_ok_tables|].
  intros id Hid. destruct (Hf s) as (E & _). unfold peer_in. rewrite E. by apply Hi.
Qed.
#[local] Hint Resolve safe_ret safe_gets : vlan.
#[local] Hint Extern 1 (safe _ (modify _)) => apply safe_tables; intros ?; by (split_and!) : vlan.
#[local] Hint Extern 1 (safe _ (upd_app _)) => apply safe_tables; intros ?; by (split_and!) : vlan.
#[local] Hint Extern 1 (safe _ (fire _)) => apply safe_tables; intros ?; by (split_and!) : vlan.
Ltac safely := repeat first [ solve [eauto 3 with vlan] |
  match goal with
  | |- safe _ (bind _ _) => apply safe_bind; [|intros ?]
  | |- safe _ (when _ _) => apply safe_when
  | |- safe _ (for_each _ _) => apply safe_for_each; intros ? ?
  | |- _ (match ?x with _ => _ end) => destruct x eqn:?
  | |- _ (let _ := _ in _) => cbv zeta
  end ].

(** ** Peers *)

(** What a peer needs of the tables, in terms of another state. *)
Lemma slot_ok_tables s s' id cls c :
  (forall key, key = tunnelKey id cls -> kcp_in s key -> kcp_in s' key) ->
  (forall key, key = tunnelKey id cls -> raw_in s key -> raw_in s' key) ->
  slot_ok s id cls c -> slot_ok s' id cls c.
Proof.
  intros Hk Hr [K R]. split; intros key E.
  - destruct (K key E) as [-> Hin]. split; [done|by apply Hk].
  - destruct (R key E) as [-> Hin]. split; [done|by apply Hr].
Qed.
Definition with_peer (id vip : Z) (p : CliPeerConnection) (s : CliTunnelManager) : CliTunnelManager :=
  set_tm_peerByVIP (<[vip := id]> (tm_peerByVIP s)) (set_tm_peerById (<[id := p]> (tm_peerById s)) s).
Lemma with_peer_ok s id vip p :
  tm_peerById s !! id = None -> peer_ok s id p -> pn_virtualIP p = vip -> tm_ok s -> tm_ok (with_peer id vip p s).
Proof.
  intros Hn Hp Hv [P K R V].
  assert (forall i, is_Some (tm_peerById s !! i) -> is_Some (tm_peerById (with_peer id vip p s) !! i)) as Hin.
  { intros i Hi. cbn. rewrite lookup_insert. by case_decide. }
  constructor.
  - intros i q. cbn. rewrite lookup_insert. case_decide as E; [|apply P]. intros [= <-]. by subst i.
  - intros key o Ho. destruct (K key o Ho) as (? & ? & ?). split_and!; [done|done|by apply Hin].
  - intros key o Ho. destruct (R key o Ho) as (? & ? & ?). split_and!; [done|done|by apply Hin].
  - intros v i. cbn. rewrite lookup_insert. case_decide as E.
    + intros [= <-]. exists p. rewrite lookup_insert_eq. by subst v.
    + intros Hvi. destruct (V v i Hvi) as (q & Hq & Eq). exists q.
      rewrite lookup_insert_ne; [done|]. intros ->. congruence.
Qed.
Lemma sf_addPeer ids id vip name : safe ids (addPeer id vip name).
Proof.
  unfold addPeer. apply safe_read. intros s Hs Hi. unfold peerById.
  destruct (tm_peerById s !! id) as [p|] eqn:Ep; [by apply safe_ret|].
  split; [by eexists|]. split.
  - apply with_peer_ok; [done| |done|done]. split; [done|]. intros cls Hcls.
    assert (slot_at cls (CliPeerConnection_init (tm_now s) id vip name) = PeerClass_init (tm_now s)) as ->
      by (unfold slot_at; by repeat case_match). by split.
  - intros i Hin. unfold peer_in. cbn. rewrite lookup_insert. case_decide; [done|by apply Hi].
Qed.

(** ** Tunnels *)

(** Changing a peer keeps the tables' owners. *)
Lemma upd_peer_ok s id f :
  (forall p, tm_peerById s !! id = Some p -> peer_ok s id p -> peer_ok s id (f p) /\ pn_virtualIP (f p) = pn_virtualIP p) ->
  tm_ok s -> tm_ok (set_tm_peerById (alter f id (tm_peerById s)) s).
Proof.
  intros Hf [P K R V].
  assert (forall i, is_Some (tm_peerById s !! i) -> is_Some (alter f id (tm_peerById s) !! i)) as Hin.
  { intros i Hi. by apply lookup_alter_is_Some. }
  constructor.
  - intros i q. cbn. rewrite lookup_alter. case_decide as E; [|apply P]. subst i.
    intros (p0 & E0 & ->)%fmap_Some. apply Hf; [done|by apply P].
  - intros key o Ho. destruct (K key o Ho) as (? & ? & ?). split_and!; [done|done|by apply Hin].
  - intros key o Ho. destruct (R key o Ho) as (? & ? & ?). split_and!; [done|done|by apply Hin].
  - intros v i Hv. destruct (V v i Hv) as (q & Hq & Eq). cbn. rewrite lookup_alter.
    case_decide as E; [|by exists q]. subst i. exists (f q). rewrite Hq. split; [done|].
    destruct (Hf q Hq (P _ _ Hq)) as [_ ->]. done.
Qed.
Lemma peer_ok_slot s id cls f p : 0 <= cls <= 2 ->
  (slot_ok s id cls (slot_at cls p) -> slot_ok s id cls (f (slot_at cls p))) ->
  peer_ok s id p -> peer_ok s id (upd_slot cls f p).
Proof.
  intros Hc Hf (Hid & Hs). split; [by rewrite (proj1 (upd_slot_ids cls f p))|].
  intros cls' Hc'. rewrite slot_at_upd by done. destruct (Z.eqb_spec cls' cls) as [->|]; [|by apply Hs].
  by apply Hf, Hs.
Qed.
Lemma all_in_alter ids s id f : all_in ids s -> all_in ids (set_tm_peerById (alter f id (tm_peerById s)) s).
Proof.
  intros Hi i Hin. by apply lookup_alter_is_Some, Hi.
Qed.
(** A new tunnel for a peer, filed under its key. *)
Definition with_kcp (id cls : Z) (t : CliKcpTunnel) (s : CliTunnelManager) : CliTunnelManager :=
  set_tm_kcpByPeerClass (<[tunnelKey id cls := mkOwned id cls t]> (tm_kcpByPeerClass s)) s.
Definition with_raw (id cls : Z) (t : RawUdpTunnel) (s : CliTunnelManager) : CliTunnelManager :=
  set_tm_rawByPeerClass (<[tunnelKey id cls := mkOwned id cls t]> (tm_rawByPeerClass s)) s.
Lemma is_Some_insert {A} (m : gmap Z A) i k x : is_Some (m !! k) -> is_Some (<[i := x]> m !! k).
Proof. intros Hk. rewrite lookup_insert. by case_decide. Qed.
Lemma with_kcp_ok s id cls t : is_class cls -> peer_in s id -> tm_ok s -> tm_ok (with_kcp id cls t s).
Proof.
  intros Hc Hp [P K R V]. constructor; [|intros key o|exact R|exact V].
  - intros i q Hq. destruct (P i q Hq) as (Hid & Hs). split; [done|]. intros cls' Hc'.
    eapply slot_ok_tables; [| |by apply Hs]; [|done]. intros key _. apply is_Some_insert.
  - cbn. rewrite lookup_insert. case_decide as E; [|apply K]. intros [= <-]. by subst key.
Qed.
Lemma with_raw_ok s id cls t : is_class cls -> peer_in s id -> tm_ok s -> tm_ok (with_raw id cls t s).
Proof.
  intros Hc Hp [P K R V]. constructor; [|exact K|intros key o|exact V].
  - intros i q Hq. destruct (P i q Hq) as (Hid & Hs). split; [done|]. intros cls' Hc'.
    eapply slot_ok_tables; [| |by apply Hs]; [done|]. intros key _. apply is_Some_insert.
  - cbn. rewrite lookup_insert. case_decide as E; [|apply R]. intros [= <-]. by subst key.
Qed.
(** Erasing a tunnel no pointer leads to. *)
Lemma drop_kcp_ok s id cls : 0 <= cls <= 2 ->
  (forall p, tm_peerById s !! id = Some p -> pn_kcpTunnel (slot_at cls p) = None) ->
  tm_ok s -> tm_ok (set_tm_kcpByPeerClass (delete (tunnelKey id cls) (tm_kcpByPeerClass s)) s).
Proof.
  intros Hc Hn [P K R V]. constructor; [|intros key o|exact R|exact V].
  - intros i q Hq. destruct (P i q Hq) as (Hid & Hs). split; [done|]. intros cls' Hc'.
    destruct (Hs cls' Hc') as [Kq Rq]. split; [|done]. intros key Hkey. destruct (Kq key Hkey) as [-> Hin].
    split; [done|]. cbn. rewrite lookup_delete. case_decide as E; [|done].
    apply tunnelKey_inj in E as [-> ->]; [|lia|lia]. rewrite (Hn q Hq) in Hkey. done.
  - cbn. rewrite lookup_delete. case_decide; [done|]. apply K.
Qed.
Lemma drop_raw_ok s id cls : 0 <= cls <= 2 ->
  (forall p, tm_peerById s !! id = Some p -> pn_rawUdpTunnel (slot_at cls p) = None) ->
  tm_ok s -> tm_ok (set_tm_rawByPeerClass (delete (tunnelKey id cls) (tm_rawByPeerClass s)) s).
Proof.
  intros Hc Hn [P K R V]. constructor; [|exact K|intros key o|exact V].
  - intros i q Hq. destruct (P i q Hq) as (Hid & Hs). split; [done|]. intros cls' Hc'.
    destruct (Hs cls' Hc') as [Kq Rq]. split; [done|]. intros key Hkey. destruct (Rq key Hkey) as [-> Hin].
    split; [done|]. cbn. rewrite lookup_delete. case_decide as E; [|done].
    apply tunnelKey_inj in E as [-> ->]; [|lia|lia]. rewrite (Hn q Hq) in Hkey. done.
  - cbn. rewrite lookup_delete. case_decide; [done|]. apply R.
Qed.
(** Clearing a pointer of a peer. *)
Lemma setKcpTunnel_ok s id cls : 0 <= cls <= 2 -> tm_ok s ->
  let s' := set_tm_peerById (alter (setKcpTunnel cls None) id (tm_peerById s)) s in
  tm_ok s' /\ forall p, tm_peerById s' !! id = Some p -> pn_kcpTunnel (slot_at cls p) = None.
Proof.
  intros Hc Hs. assert (class_index cls = cls) as Ei by (unfold class_index; by destruct (_ || _) eqn:E; bools; lia).
  split.
  - apply upd_peer_ok; [|done]. intros p _ Hp. unfold setKcpTunnel. rewrite Ei.
    split; [|apply upd_slot_ids]. apply peer_ok_slot; [done| |done]. intros [_ Hr]. by split.
  - intros p. cbn. rewrite lookup_alter_eq. intros (q & _ & ->)%fmap_Some. unfold setKcpTunnel.
    by rewrite Ei, slot_at_upd, Z.eqb_refl.
Qed.
Lemma setRawUdpTunnel_ok s id cls : 0 <= cls <= 2 -> tm_ok s ->
  let s' := set_tm_peerById (alter (setRawUdpTunnel cls None) id (tm_peerById s)) s in
  tm_ok s' /\ forall p, tm_peerById s' !! id = Some p -> pn_rawUdpTunnel (slot_at cls p) = None.
Proof.
  intros Hc Hs. assert (class_index cls = cls) as Ei by (unfold class_index; by destruct (_ || _) eqn:E; bools; lia).
  split.
  - apply upd_peer_ok; [|done]. intros p _ Hp. unfold setRawUdpTunnel. rewrite Ei.
    split; [|apply upd_slot_ids]. apply peer_ok_slot; [done| |done]. intros [Hk _]. by split.
  - intros p. cbn. rewrite lookup_alter_eq. intros (q & _ & ->)%fmap_Some. unfold setRawUdpTunnel.
    by rewrite Ei, slot_at_upd, Z.eqb_refl.
Qed.
Lemma sf_drop_kcp ids id cls : 0 <= cls <= 2 -> safe ids (
  upd_peer id (setKcpTunnel cls None) ;;;
  modify (fun s => set_tm_kcpByPeerClass (delete (tunnelKey id cls) (tm_kcpByPeerClass s)) s)).
Proof.
  intros Hc s Hs Hi. unfold upd_peer. rewrite bind_modify. destruct (setKcpTunnel_ok s id cls Hc Hs) as [H1' H2'].
  split_and!; [by eexists|by apply drop_kcp_ok|by apply (all_in_alter _ s)].
Qed.
Lemma sf_drop_raw ids id cls : 0 <= cls <= 2 -> safe ids (
  upd_peer id (setRawUdpTunnel cls None) ;;;
  modify (fun s => set_tm_rawByPeerClass (delete (tunnelKey id cls) (tm_rawByPeerClass s)) s)).
Proof.
  intros Hc s Hs Hi. unfold upd_peer. rewrite bind_modify. destruct (setRawUdpTunnel_ok s id cls Hc Hs) as [H1' H2'].
  split_and!; [by eexists|by apply drop_raw_ok|by apply (all_in_alter _ s)].
Qed.
(** A change of a peer's slot that keeps its pointers. *)
Definition keeps_pointers (f : PeerClass -> PeerClass) : Prop := forall c,
  pn_kcpTunnel (f c) = pn_kcpTunnel c /\ pn_rawUdpTunnel (f c) = pn_rawUdpTunnel c.
Lemma upd_slot_ok s id cls f p : keeps_pointers f -> peer_ok s id p -> peer_ok s id (upd_slot (class_index cls) f p).
Proof.
  intros Hf. apply peer_ok_slot; [apply class_index_range|]. intros [Hk Hr].
  destruct (Hf (slot_at (class_index cls) p)) as [Ek Er]. split; [by rewrite Ek|by rewrite Er].
Qed.
Lemma sf_slot ids id cls f : keeps_pointers f -> safe ids (upd_peer id (upd_slot (class_index cls) f)).
Proof.
  intros Hf. apply safe_modify. intros s Hs Hi. split; [|by apply all_in_alter].
  apply upd_peer_ok; [|done]. intros p _ Hp. split; [by apply upd_slot_ok|apply upd_slot_ids].
Qed.
Lemma sf_clearTransport ids id now cls : safe ids (upd_peer id (clearTransport now cls)).
Proof. by apply sf_slot. Qed.
#[local] Hint Resolve sf_drop_kcp sf_drop_raw sf_clearTransport class_index_range : vlan.
Lemma sf_removeTransport ids id cls : safe ids (removeTransport id cls).
Proof.
  unfold removeTransport. apply safe_bind; [apply safe_gets|]. intros s.
  pose proof (class_index_range cls) as Hc. safely.
Qed.
#[local] Hint Resolve sf_addPeer sf_removeTransport : vlan.

(** ** Removing peers *)

(** The state after [removePeer]. *)
Definition without_peer (id : Z) (peer : CliPeerConnection) (s : CliTunnelManager) : CliTunnelManager :=
  let s := set_tm_peerByVIP (delete (pn_virtualIP peer) (tm_peerByVIP s))
    (set_tm_pendingTransportDead (filter (fun key => Z.shiftr key 8 <> id) (tm_pendingTransportDead s)) s) in
  let s := delete_tunnels id TRAFFIC_UDP (delete_tunnels id TRAFFIC_TCP s) in
  set_tm_peerById (delete id (tm_peerById s)) s.
Lemma kept_tunnel {T} (m : gmap Z (Owned T)) i cls' id :
  i <> id -> 0 <= cls' <= 2 -> is_Some (m !! tunnelKey i cls') ->
  is_Some (delete (tunnelKey id TRAFFIC_UDP) (delete (tunnelKey id TRAFFIC_TCP) m) !! tunnelKey i cls').
Proof.
  intros Hne Hc Hin. rewrite !lookup_delete_ne; [done| |];
    (intros E; apply tunnelKey_inj in E as [-> _]; [done|unfold TRAFFIC_UDP, TRAFFIC_TCP; lia|lia]).
Qed.
Lemma kept_owner {T} s (m : gmap Z (Owned T)) id key o :
  (forall k t, m !! k = Some t -> owned_ok s k t) ->
  delete (tunnelKey id TRAFFIC_UDP) (delete (tunnelKey id TRAFFIC_TCP) m) !! key = Some o ->
  owned_ok s key o /\ ow_peer o <> id.
Proof.
  intros Hm Ho. apply lookup_delete_Some in Ho as (Hu & Ho). apply lookup_delete_Some in Ho as (Ht & Ho).
  destruct (Hm key o Ho) as (Ek & Hc & Hp). split; [done|]. intros Ei. subst id.
  destruct Hc as [Ec|Ec]; rewrite Ec in Ek; congruence.
Qed.
Lemma without_peer_ok s id peer : tm_peerById s !! id = Some peer -> tm_ok s -> tm_ok (without_peer id peer s).
Proof.
  intros Hp [P K R V].
  assert (forall i, i <> id -> tm_peerById (without_peer id peer s) !! i = tm_peerById s !! i) as Hi
    by (intros i Hi; by apply lookup_delete_ne).
  constructor.
  - intros i q Hq. destruct (decide (i = id)) as [->|Hne]; [cbn in Hq; by rewrite lookup_delete_eq in Hq|].
    rewrite Hi in Hq by done. destruct (P i q Hq) as (Hid & Hs). split; [done|]. intros cls Hcls.
    eapply slot_ok_tables; [| |by apply Hs]; intros key -> ?; by apply kept_tunnel.
  - intros key o Ho. destruct (kept_owner s _ id key o K Ho) as [(? & ? & ?) Hne]. split_and!; [done|done|].
    by rewrite Hi.
  - intros key o Ho. destruct (kept_owner s _ id key o R Ho) as [(? & ? & ?) Hne]. split_and!; [done|done|].
    by rewrite Hi.
  - intros v i Hv. cbn in Hv. apply lookup_delete_Some in Hv as [Hv Hvi].
    destruct (V v i Hvi) as (q & Hq & Eq). exists q. rewrite Hi; [done|]. intros ->. congruence.
Qed.
Lemma sf_removePeer ids id : id ∉ ids -> safe ids (removePeer id).
Proof.
  intros Hid. unfold removePeer. apply safe_read. intros s Hs Hi. unfold peerById.
  destruct (tm_peerById s !! id) as [p|] eqn:Ep; [|by apply safe_ret].
  split; [by eexists|]. split; [by apply (without_peer_ok s id p)|].
  intros i Hin. unfold peer_in. cbn. rewrite lookup_delete_ne by (intros ->; done). by apply Hi.
Qed.
Lemma sf_removeAll : safe [] removeAllPeers.
Proof.
  apply safe_modify. intros s Hs _. split; [|intros i Hi; by apply elem_of_nil in Hi].
  by constructor.
Qed.

(** ** Creating tunnels *)

Lemma set_pointer_ok s id cls f p : is_class cls ->
  (forall c, slot_ok s id cls c -> slot_ok s id cls (f c)) ->
  peer_ok s id p -> peer_ok s id (upd_slot (class_index cls) f p).
Proof.
  intros Hc Hf. assert (class_index cls = cls) as -> by by destruct Hc as [-> | ->].
  apply is_class_range in Hc. apply peer_ok_slot; [lia|apply Hf].
Qed.
Lemma setTransport_ok s id cls t p : peer_ok s id p -> peer_ok s id (setTransport cls t p) /\
  pn_virtualIP (setTransport cls t p) = pn_virtualIP p.
Proof.
  intros Hp. split; [|apply upd_slot_ids]. apply upd_slot_ok; [|done]. intros c. cbv zeta. by destruct (decide _).
Qed.
(** Creating a tunnel for a peer: its pointer, its transport, then the table. *)
Lemma sf_createKcp ids id addr port type fec mtu prof cls :
  id ∈ ids -> is_class cls -> safe ids (createKcpTunnel id addr port type fec mtu prof cls).
Proof.
  intros Hid Hc s Hs Hi. unfold createKcpTunnel, deref_peer, deref. rewrite bind_assoc, bind_gets.
  destruct (Hi id Hid) as [p Hp]. unfold peerById. rewrite Hp. cbn [bind ret gets].
  destruct (ok_peers _ Hs id p Hp) as (Eid & _). rewrite Eid. split; [by eexists|].
  unfold upd_peer. rewrite bind_modify, bind_modify. cbn [ret snd].
  match goal with |- context [mkOwned id cls ?t] => set (tun := t) end.
  set (f := fun p => setTransport cls type (setKcpTunnel cls (Some (tunnelKey id cls)) p)).
  change (tm_ok (set_tm_peerById (alter f id (tm_peerById (with_kcp id cls tun s))) (with_kcp id cls tun s)) /\
    all_in ids (set_tm_peerById (alter f id (tm_peerById (with_kcp id cls tun s))) (with_kcp id cls tun s))).
  assert (tm_ok (with_kcp id cls tun s)) as Hs' by (apply with_kcp_ok; [done|by eexists|done]).
  split; [|by apply all_in_alter]. apply upd_peer_ok; [|done]. intros q _ Hq. unfold f.
  set (q' := setKcpTunnel cls _ q).
  assert (peer_ok (with_kcp id cls tun s) id q') as Hq'.
  { apply set_pointer_ok; [done| |done]. intros c [_ Hr]. split; [|done]. intros key [= <-].
    split; [done|]. cbn. rewrite lookup_insert_eq. by eexists. }
  destruct (setTransport_ok _ id cls type q' Hq') as [? E]. split; [done|]. rewrite E. apply upd_slot_ids.
Qed.
Lemma sf_createRaw ids id addr port fec mtu cls :
  id ∈ ids -> is_class cls -> safe ids (createRawUdpTunnel id addr port fec mtu cls).
Proof.
  intros Hid Hc s Hs Hi. unfold createRawUdpTunnel, deref_peer, deref. rewrite bind_assoc, bind_gets.
  destruct (Hi id Hid) as [p Hp]. unfold peerById. rewrite Hp. cbn [bind ret gets].
  destruct (ok_peers _ Hs id p Hp) as (Eid & _). rewrite Eid. split; [by eexists|].
  unfold upd_peer. rewrite bind_modify, bind_modify. cbn [ret snd].
  match goal with |- context [mkOwned id cls ?t] => set (tun := t) end.
  set (f := fun p => setTransport cls TRANSPORT_RELAY_RAW_UDP (setRawUdpTunnel cls (Some (tunnelKey id cls)) p)).
  change (tm_ok (set_tm_peerById (alter f id (tm_peerById (with_raw id cls tun s))) (with_raw id cls tun s)) /\
    all_in ids (set_tm_peerById (alter f id (tm_peerById (with_raw id cls tun s))) (with_raw id cls tun s))).
  assert (tm_ok (with_raw id cls tun s)) as Hs' by (apply with_raw_ok; [done|by eexists|done]).
  split; [|by apply all_in_alter]. apply upd_peer_ok; [|done]. intros q _ Hq. unfold f.
  set (q' := setRawUdpTunnel cls _ q).
  assert (peer_ok (with_raw id cls tun s) id q') as Hq'.
  { apply set_pointer_ok; [done| |done]. intros c [Hk _]. split; [done|]. intros key [= <-].
    split; [done|]. cbn. rewrite lookup_insert_eq. by eexists. }
  destruct (setTransport_ok _ id cls TRANSPORT_RELAY_RAW_UDP q' Hq') as [? E]. split; [done|].
  rewrite E. apply upd_slot_ids.
Qed.
Lemma createKcp_result s id addr port type fec mtu prof cls : tm_ok s -> peer_in s id ->
  let r := createKcpTunnel id addr port type fec mtu prof cls s in
  fst r = Some (tunnelKey id cls) /\ kcp_in (snd r) (tunnelKey id cls).
Proof.
  intros Hs [p Hp]. unfold createKcpTunnel, deref_peer, deref. rewrite bind_assoc, bind_gets.
  unfold peerById. rewrite Hp. cbn [bind ret gets].
  destruct (ok_peers _ Hs id p Hp) as (Eid & _). rewrite Eid. split; [done|].
  unfold upd_peer. rewrite bind_modify, bind_modify. unfold kcp_in. cbn. rewrite lookup_insert_eq. by eexists.
Qed.
Lemma createRaw_result s id addr port fec mtu cls : tm_ok s -> peer_in s id ->
  let r := createRawUdpTunnel id addr port fec mtu cls s in
  fst r = Some (tunnelKey id cls) /\ raw_in (snd r) (tunnelKey id cls).
Proof.
  intros Hs [p Hp]. unfold createRawUdpTunnel, deref_peer, deref. rewrite bind_assoc, bind_gets.
  unfold peerById. rewrite Hp. cbn [bind ret gets].
  destruct (ok_peers _ Hs id p Hp) as (Eid & _). rewrite Eid. split; [done|].
  unfold upd_peer. rewrite bind_modify, bind_modify. unfold raw_in. cbn. rewrite lookup_insert_eq. by eexists.
Qed.
(** A program of the data plane from one good state. *)
Lemma safe_at {A} ids (m : SE CliTunnelManager A) s :
  tm_ok s -> all_in ids s -> moves steps m -> (tm_ok s -> runs s m) ->
  is_Some (fst (m s)) /\ tm_ok (snd (m s)) /\ all_in ids (snd (m s)).
Proof.
  intros Hs Hi Hm Hr. destruct (Hm s) as [Hsh _].
  split_and!; [by apply (Hr Hs s)|by eapply tm_ok_shape|by eapply all_in_shape].
Qed.
(** A created tunnel is set up through its pointer. *)
Lemma sf_bind_at {A B} ids (m : SE CliTunnelManager A) (k : A -> SE CliTunnelManager B) a s :
  safe ids m -> tm_ok s -> all_in ids s -> fst (m s) = Some a ->
  (forall s', s' = snd (m s) -> tm_ok s' -> all_in ids s' ->
     is_Some (fst (k a s')) /\ tm_ok (snd (k a s')) /\ all_in ids (snd (k a s'))) ->
  is_Some (fst (bind m k s)) /\ tm_ok (snd (bind m k s)) /\ all_in ids (snd (bind m k s)).
Proof.
  intros Hm Hs Hi Ha Hk. destruct (Hm s Hs Hi) as (_ & Hs' & Hi'). unfold bind.
  destruct (m s) as [r s']. cbn in *. subst r. by apply (Hk s').
Qed.
Lemma unlinked_peer s id cls : unlinked id cls s = true -> peer_in s id.
Proof. unfold unlinked, peerById, peer_in. destruct (tm_peerById s !! id); [by eexists|done]. Qed.
Lemma sf_setupRelay ids id cls : id ∈ ids -> is_class cls -> safe ids (setupRelayTunnel id cls).
Proof.
  intros Hid Hc. unfold setupRelayTunnel. apply safe_read. intros s Hs Hi.
  destruct (negb _); [by apply safe_ret|]. cbv zeta.
  destruct (createKcp_result s id (la_serverIP (links s)) (la_port (links s)) TRANSPORT_RELAY_KCP
    (fecMode (class_policy cls (links s))) (la_roomMtu (links s)) (kcpProfile (class_policy cls (links s))) cls
    Hs (Hi id Hid)) as [Er Hin].
  eapply sf_bind_at; [by apply sf_createKcp|done|done|exact Er|]. intros s' -> Hs' Hi'.
  apply safe_at; [done|done|walk|]. intros Hok. apply runs_kcp; [done|done|]. intros o _. apply runs_modify.
Qed.
Lemma sf_setupRaw ids id cls : id ∈ ids -> is_class cls -> safe ids (setupRawUdpRelayTunnel id cls).
Proof.
  intros Hid Hc. unfold setupRawUdpRelayTunnel. apply safe_read. intros s Hs Hi.
  destruct (negb _); [by apply safe_ret|]. cbv zeta.
  destruct (createRaw_result s id (la_serverIP (links s)) (la_port (links s))
    (fecMode (class_policy cls (links s))) (la_roomMtu (links s)) cls Hs (Hi id Hid)) as [Er Hin].
  eapply sf_bind_at; [by apply sf_createRaw|done|done|exact Er|]. intros s' -> Hs' Hi'.
  apply safe_at; [done|done|walk|]. intros Hok. apply runs_raw; [done|done|]. intros o _. apply runs_modify.
Qed.
Lemma sf_setupTcp ids id cls : safe ids (setupTcpRelayTunnel id cls).
Proof.
  unfold setupTcpRelayTunnel. apply safe_read. intros s Hs Hi. destruct (negb _); [by apply safe_ret|].
  split; [by eexists|]. split; [|by apply (all_in_alter _ s)].
  apply (upd_peer_ok s); [|done]. intros p _ Hp.
  apply (setTransport_ok s id cls _ (set_pn_tcpSender _ (set_pn_tcpControlReady true p))).
  destruct Hp as (? & Hp). by split.
Qed.
#[local] Hint Resolve sf_setupRelay sf_setupRaw sf_setupTcp : vlan.
Lemma sf_setupPolicy ids id cls : id ∈ ids -> is_class cls -> safe ids (setupPolicyTunnel id cls).
Proof. intros Hid Hc. unfold setupPolicyTunnel. safely. Qed.

(** ** The application's handlers *)

Lemma sf_deref_peer ids id : id ∈ ids -> safe ids (deref_peer id).
Proof.
  intros Hid s Hs Hi. unfold deref_peer, deref. rewrite bind_gets. destruct (Hi id Hid) as [p Hp].
  unfold peerById. rewrite Hp. split_and!; [by eexists|done|done].
Qed.
Lemma sf_clearPending ids id : safe ids (clearPendingRebuild id).
Proof. unfold clearPendingRebuild. auto with vlan. Qed.
Lemma sf_takePending ids id cls : safe ids (takePendingRebuild id cls).
Proof. unfold takePendingRebuild. safely. Qed.
#[local] Hint Resolve sf_setupPolicy sf_deref_peer sf_clearPending sf_takePending : vlan.
Lemma sf_rebuild_class ids id cls : id ∈ ids -> safe ids (rebuild_class id cls).
Proof. intros Hid. unfold rebuild_class. safely. Qed.
#[local] Hint Resolve sf_rebuild_class : vlan.
(** After a test that the peer is there. *)
Lemma safe_peer_test ids id (k : option CliPeerConnection -> SE CliTunnelManager unit) :
  safe ids (k None) -> (forall p, safe (id :: ids) (k (Some p))) -> safe ids (bind (gets (peerById id)) k).
Proof.
  intros Hn Hp s Hs Hi. rewrite bind_gets. unfold peerById.
  destruct (tm_peerById s !! id) as [p|] eqn:E; [|by apply Hn].
  destruct (Hp p s Hs) as (H1' & H2' & H3').
  - intros i [-> |Hin]%elem_of_cons; [by exists p|by apply Hi].
  - split_and!; [done|done|]. intros i Hin. apply H3'. by right.
Qed.
#[local] Hint Extern 1 (_ ∈ _ :: _) => left : vlan.
#[local] Hint Resolve sf_slot : vlan.
Lemma sf_onTransportDead ids id cls : safe ids (onTransportDead id cls).
Proof. unfold onTransportDead. safely. Qed.
Lemma sf_rebuild ids id : safe ids (rebuildPeerTransports id).
Proof.
  unfold rebuildPeerTransports. apply safe_peer_test; [safely|]. intros p. safely.
Qed.
#[local] Hint Resolve sf_onTransportDead sf_rebuild : vlan.
Lemma sf_pend ids info : safe ids (pend_member info).
Proof. unfold pend_member. auto with vlan. Qed.
Lemma sf_joined ids info : safe ids (onPeerJoined info).
Proof. pose proof sf_pend. unfold onPeerJoined. safely. Qed.
#[local] Hint Resolve sf_pend sf_joined : vlan.
Lemma sf_resetQuality ids id : safe ids (upd_peer id resetQuality).
Proof.
  apply safe_modify. intros s Hs Hi. split; [|by apply all_in_alter].
  apply upd_peer_ok; [|done]. intros p _ Hp. unfold resetQuality. cbv zeta.
  set (f := fun c : PeerClass => set_pn_quality (pq_reset (pn_quality c)) c).
  assert (keeps_pointers f) as Hf by done. rewrite !(proj2 (upd_slot_ids _ _ _)). split; [|done].
  change 0 with (class_index 0) at 1. change TRAFFIC_TCP with (class_index TRAFFIC_TCP).
  change TRAFFIC_UDP with (class_index TRAFFIC_UDP). by do 3 (apply upd_slot_ok; [done|]).
Qed.
#[local] Hint Resolve sf_resetQuality : vlan.
Lemma sf_resumed ids info : safe ids (onPeerResumed info).
Proof.
  unfold onPeerResumed. apply safe_bind; [safely|intros a]. destruct (la_tunSetupPending a); [safely|].
  destruct (negb _); [safely|]. apply safe_peer_test; [safely|]. intros p. safely.
Qed.
Lemma sf_left id : safe [] (onPeerLeft id).
Proof.
  unfold onPeerLeft. safely. apply sf_removePeer. apply not_elem_of_nil.
Qed.
Lemma is_class_tcp : is_class TRAFFIC_TCP.
Proof. by left. Qed.
Lemma is_class_udp : is_class TRAFFIC_UDP.
Proof. by right. Qed.
#[local] Hint Resolve is_class_tcp is_class_udp : vlan.
Lemma sf_setup_if ids go id cls : id ∈ ids -> is_class cls -> safe ids (setup_if go id cls).
Proof. intros Hid Hc. unfold setup_if. safely. Qed.
#[local] Hint Resolve sf_setup_if : vlan.
Lemma sf_relayReady ids id : safe ids (onRelayReady id).
Proof.
  unfold onRelayReady. apply safe_bind; [safely|intros a]. destruct (la_tunSetupPending a); [safely|].
  destruct (negb _); [safely|]. apply safe_peer_test; [safely|]. intros p. safely.
Qed.
#[local] Hint Resolve sf_relayReady : vlan.
Lemma sf_finish ids : safe ids finishRoomSetup.
Proof. unfold finishRoomSetup. safely. Qed.
Lemma sf_teardown : safe [] teardown_links.
Proof. pose proof sf_removeAll. unfold teardown_links, stopDataPlane. safely. Qed.
(** A loop over the peers of the moment. *)
Lemma sf_loop ids (body : Z -> SE CliTunnelManager unit) :
  (forall id ids, id ∈ ids -> safe ids (body id)) ->
  safe ids (bind (gets (fun s => map fst (map_ordered (tm_peerById s)))) (fun l => for_each l body)).
Proof.
  intros Hb s Hs Hi. rewrite bind_gets. set (l := map fst (map_ordered (tm_peerById s))).
  destruct (safe_for_each (l ++ ids) l body) with (s := s) as (H1' & H2' & H3').
  - intros x Hx. apply Hb. apply elem_of_app. by left.
  - done.
  - intros i [Hl|Hin]%elem_of_app; [|by apply Hi]. apply list_elem_of_fmap in Hl as ([k p] & -> & Hp).
    apply elem_of_map_ordered in Hp. by eexists.
  - split_and!; [done|done|]. intros i Hin. apply H3'. apply elem_of_app. by right.
Qed.
Lemma sf_check_relays ids : safe ids check_relays.
Proof.
  unfold check_relays. apply sf_loop. clear ids. intros id ids Hid. unfold check_relay.
  apply safe_bind; [|intros _; safely]. apply safe_data; [auto with vlan|].
  intros s0 Hs Hi. apply rn_tcp_keepalive; [done|by apply Hi].
Qed.
Lemma sf_quality ids : safe ids updatePeerQuality.
Proof.
  unfold updatePeerQuality. apply sf_loop. clear ids. intros id ids Hid. apply safe_data.
  - unfold probe_peer, sendLatencyPing_all. walk.
  - intros s0 Hs Hi. pose proof (Hi id Hid) as Hin. unfold probe_peer, sendLatencyPing_all.
    apply runs_bind; [apply runs_gets|walk|intros me]. destruct (_ =? _); [apply runs_ret|].
    apply runs_bind; [|walk|intros _; apply runs_total; unfold upd_quality, upd_peer; walk].
    apply runs_bind; [by apply rn_ping|walk|intros _; by apply rn_ping].
Qed.
Lemma ln_tcp_received src cls data : moves steps (handleTcpRelayReceived src cls data).
Proof.
  intros s. unfold handleTcpRelayReceived. rewrite bind_gets. cbv zeta.
  destruct (_ || _) eqn:Ea; [done|]. unfold peerById. destruct (tm_peerById s !! src) as [p|] eqn:Ep; [|done].
  unfold onTcpRelayDataReceived. set (f := set_pn_tcpRelayLastRecv (tm_now s)).
  transitivity (snd (upd_peer src (upd_slot (class_index_tcp cls) f) s)).
  { apply (ln_slot src (class_index_tcp cls) f). reflexivity. }
  unfold upd_peer. rewrite bind_modify. cbn [modify snd]. set (s1 := set_tm_peerById _ s).
  destruct (bool_decide (data = [])); [done|].
  destruct (_ && (byte_at data 0 =? CLI_LATENCY_PROBE_MARKER)).
  { apply_moves. walk. }
  destruct (negb (overlay_valid _)) eqn:Ev; [done|]. destruct (la_hasTun (links s)); [|done]. cbn [when].
  bools. assert (steps s1 (snd (writePacket data s1))) as Hw.
  { apply ln_writePacket. exists src, (upd_slot (class_index_tcp cls) f p), (la_roomMtu (links s)), (la_myVirtualIP (links s)).
    rewrite (proj2 (upd_slot_ids _ _ _)). split_and!; [| |by right|done].
    - unfold s1. cbn. by rewrite lookup_alter_eq, Ep.
    - cbn. by destruct (tm_securityMode s). }
  unfold bind. destruct (writePacket data s1) as [[ok|] s']; exact Hw.
Qed.
Lemma sf_tcp_received ids src cls data : safe ids (handleTcpRelayReceived src cls data).
Proof.
  apply safe_data; [apply ln_tcp_received|]. intros s0 Hs Hi. unfold handleTcpRelayReceived.
  intros s Hsh. rewrite bind_gets. cbv zeta. destruct (_ || _); [by eexists|]. unfold peerById.
  destruct (tm_peerById s !! src) as [p|] eqn:Ep; [|by eexists].
  assert (peer_in s0 src) as Hin by by eapply found_peer.
  match goal with |- is_Some (fst (?m s)) => enough (runs s0 m) as Hr by by apply Hr end.
  unfold onTcpRelayDataReceived. apply runs_bind; [apply runs_modify|walk|intros _].
  destruct (bool_decide _); [apply runs_ret|]. destruct (_ && _).
  { apply runs_bind; [by apply rn_probe|walk|intros _; apply runs_ret]. }
  destruct (negb _); [apply runs_ret|]. apply runs_when. apply runs_total. unfold writePacket, fire. walk.
Qed.

(** ** The manager's timers *)

Lemma sf_flush ids : safe ids flushPendingTransportDead.
Proof. unfold flushPendingTransportDead. safely. Qed.
Lemma sf_update ids : safe ids updateKcp.
Proof.
  unfold updateKcp. apply safe_bind; [safely|intros s]. destruct (_ || _); [safely|].
  apply safe_bind; [|intros _; apply safe_bind; [safely|intros s']; apply safe_bind; [|intros _; apply sf_flush]].
  - apply safe_for_each. intros key _ t Ht Hi. rewrite bind_gets.
    destruct (tm_kcpByPeerClass t !! key) eqn:E; [|by apply safe_ret].
    apply safe_at; [done|done|auto with vlan|]. intros Hok. apply rn_kcp_update; [done|by eexists].
  - apply safe_for_each. intros key _ t Ht Hi. rewrite bind_gets.
    destruct (tm_rawByPeerClass t !! key) eqn:E; [|by apply safe_ret].
    apply safe_at; [done|done|auto with vlan|]. intros Hok. unfold rawTunnel_update.
    apply rn_raw_step; [done|by eexists].
Qed.
End Calls.
