(* ===== verification/LinkTraffic.v ===== *)
(** * What the tunnel manager does over any sequence of calls

    The calls the application makes on the manager, its handlers included, as
    a type; the theorems about all of them: no pointer is ever followed to an
    object that is gone, everything that leaves through the UDP socket is a
    frame of the session sealed under a counter of its own, everything that
    reaches the adapter is a packet of a member for this host, and a datagram
    that is not authentic is only counted. *)

From S2P Require Import Prelude Protocol Room RoomFacts SecureFrame SecureFrameFacts RelayPath Overlay TcpConn CliSignalState Fec FecFacts ProbeQuality PeerConn Store RawUdp TunnelManager RoomLinks LinkFacts LinkSafety LinkCalls.

Section Traffic.
Context `{CryptoLaws} `{CM256} `{Ikcp}.

(** ** Calls *)

(** [KClock], [KSockets], [KAdapter], [KApp]: the clock, the results of coming
    system calls, packets the adapter's thread queues, and changes of the
    application's own fields. *)
Inductive LinkCall :=
| KClock (now : Z)
| KSockets (sends : list Z) (writes : list bool)
| KAdapter (packets : list bytes)
| KApp (f : AppLinks -> AppLinks)
| KServer (ip port : Z)
| KMyPeerId (id : Z)
| KMyVirtualIP (ip : Z)
| KRoomMtu (mtu : Z)
| KInstall (sid : Z) (master : bytes)
| KClear
| KStart (adapter : TunAdapter) (fd : Z) (nonblocking bound : bool) (port : Z)
| KStop
| KTeardown
| KDestroy
| KJoined (info : PeerInfo)
| KResumed (info : PeerInfo)
| KLeft (peerId : Z)
| KRelayReady (peerId : Z)
| KFinish
| KUdp (datagrams : list (bytes * Z * Z))
| KTun
| KUpdate
| KKeepalive
| KTcp (src cls : Z) (data : bytes)
| KRelays
| KQuality.
Definition link_call (c : LinkCall) : SE CliTunnelManager unit :=
  match c with
  | KClock now => modify (set_tm_now now)
  | KSockets sends writes => modify (fun s => set_tm_writes writes (set_tm_sends sends s))
  | KAdapter packets => modify (fun s => set_tm_tun (match tm_tun s with
      | Some a => Some (mkTun (ta_running a) (ta_recvQueue a ++ packets))
      | None => None
      end) s)
  | KApp f => upd_app f
  | KServer ip port => setServerEndpoint ip port
  | KMyPeerId id => modify (set_tm_myPeerId id)
  | KMyVirtualIP ip => modify (set_tm_myVirtualIP ip)
  | KRoomMtu mtu => modify (set_tm_roomMtu (normalizeRoomMtu mtu))
  | KInstall sid master => ok <- tm_installSecureSession sid master ;; ret tt
  | KClear => tm_clearSecurityContext
  | KStart adapter fd nonblocking bound port => ok <- startTunDataPlane adapter fd nonblocking bound port ;; ret tt
  | KStop => stopDataPlane
  | KTeardown => teardown_links
  | KDestroy => tm_destroy
  | KJoined info => onPeerJoined info
  | KResumed info => onPeerResumed info
  | KLeft peerId => onPeerLeft peerId
  | KRelayReady peerId => onRelayReady peerId
  | KFinish => finishRoomSetup
  | KUdp datagrams => onUdpReadable datagrams
  | KTun => processTunPackets
  | KUpdate => updateKcp
  | KKeepalive => sendUdpKeepalive
  | KTcp src cls data => handleTcpRelayReceived src cls data
  | KRelays => check_relays
  | KQuality => updatePeerQuality
  end.

(** ** Safety of every call *)

Lemma safe_quiet f : (forall s, same_tables s (f s)) -> safe [] (modify f).
Proof. apply safe_tables. Qed.
#[local] Hint Extern 1 (safe _ (modify _)) => apply safe_tables; intros ?; by (split_and!) : vlan.
#[local] Hint Resolve safe_ret safe_gets : vlan.
Ltac safely := repeat first [ solve [eauto 3 with vlan] |
  match goal with
  | |- safe _ (bind _ _) => apply safe_bind; [|intros ?]
  | |- safe _ (when _ _) => apply safe_when
  | |- _ (match ?x with _ => _ end) => destruct x eqn:?
  | |- _ (let _ := _ in _) => cbv zeta
  end ].
Lemma sf_clear : safe [] tm_clearSecurityContext.
Proof. unfold tm_clearSecurityContext. safely. Qed.
Lemma sf_keepalive : safe [] sendUdpKeepalive.
Proof. apply safe_data; [apply ln_keepalive|]. intros s0 Hs _. by apply rn_keepalive. Qed.
#[local] Hint Resolve sf_clear sf_keepalive sf_removeAll : vlan.
Lemma sf_call c : safe [] (link_call c).
Proof.
  destruct c; cbn [link_call]; unfold upd_app, setServerEndpoint, stopDataPlane.
  all: try solve [safely].
  - unfold tm_installSecureSession. safely.
  - unfold startTunDataPlane, startDataPlane, initUdpSocket, upd_app. safely.
  - apply sf_teardown.
  - unfold tm_destroy, stopDataPlane. safely. apply safe_tables. intros s. by destruct (tm_udpFd s =? SOCK_INVALID).
  - apply sf_joined.
  - apply sf_resumed.
  - apply sf_left.
  - apply sf_relayReady.
  - apply sf_finish.
  - apply safe_data; [apply ln_udp_readable|]. intros s0 Hs _. by apply rn_udp_readable.
  - apply safe_data; [apply ln_tun_packets|]. intros s0 Hs _. by apply rn_tun_packets.
  - apply sf_update.
  - apply sf_tcp_received.
  - apply sf_check_relays.
  - apply sf_quality.
Qed.

(** ** Traffic of every call *)

(** A step that sends and delivers nothing, and leaves the cipher alone. *)
Definition event_quiet (e : LinkEvent) : Prop :=
  match e with EvSendTo _ _ _ | EvTunWrite _ => False | _ => True end.
Definition silent (s s' : CliTunnelManager) : Prop :=
  (tm_udpCipher s', tm_secureSessionId s') = (tm_udpCipher s, tm_secureSessionId s) /\
  exists evs, tm_out s' = tm_out s ++ evs /\ Forall event_quiet evs.
#[export] Instance silent_preorder : PreOrder silent.
Proof.
  split; [intros s; split; [done|]; exists []; by rewrite app_nil_r|].
  intros s1 s2 s3 (E1 & e1 & O1 & F1) (E2 & e2 & O2 & F2). split; [by rewrite E2|].
  exists (e1 ++ e2). rewrite O2, O1, app_assoc. split; [done|by apply Forall_app].
Qed.
(** A call: its datagrams are sealed, its deliveries valid. *)
Definition wires (s s' : CliTunnelManager) : Prop :=
  exists evs, tm_out s' = tm_out s ++ evs /\ Forall (event_ok s) evs /\ sealed_step s s' evs /\
    tm_secureSessionId s' = tm_secureSessionId s.
Lemma quiet_nothing evs : Forall event_quiet evs -> sent_datagrams evs = [].
Proof. induction 1 as [|e evs He _ IH]; [done|]. by destruct e. Qed.
Lemma silent_wires s s' : silent s s' -> wires s s'.
Proof.
  intros ([= Ek Es] & evs & Eo & Hq). exists evs. split_and!; [done| | |exact Es].
  - eapply Forall_impl; [exact Hq|]. by intros [].
  - constructor; rewrite Ek; [done|]. intros Hc. split; [done|]. exists []. cbn.
    rewrite Z.add_0_r. split; [done|by apply quiet_nothing].
Qed.
Lemma sealed_step_trans s1 s2 s3 e1 e2 : tm_secureSessionId s2 = tm_secureSessionId s1 ->
  sealed_step s1 s2 e1 -> sealed_step s2 s3 e2 -> sealed_step s1 s3 (e1 ++ e2).
Proof.
  intros Es [h1 c1] [h2 c2]. constructor; [by etrans|]. intros Hc.
  destruct (c1 Hc) as (Hc2 & p1 & E1 & D1). destruct (c2 Hc2) as (Hc3 & p2 & E2 & D2).
  split; [done|]. exists (p1 ++ p2). rewrite len_app, sent_datagrams_app, sealed_datagrams_app, D1, D2.
  split; [lia|]. by rewrite (sealed_datagrams_half _ _ _ _ p2 h1), E1, Es.
Qed.
Lemma steps_wires s1 s2 s3 : steps s1 s2 -> wires s2 s3 -> wires s1 s3.
Proof.
  intros (Hs & e1 & O1 & F1 & T1) (e2 & O2 & F2 & T2 & Es). pose proof (sh_sid _ _ Hs) as Es'.
  exists (e1 ++ e2). split_and!; [| | |congruence].
  - by rewrite O2, O1, app_assoc.
  - apply Forall_app. split; [done|]. eapply Forall_impl; [exact F2|]. intros e. by apply event_ok_shape.
  - by eapply sealed_step_trans.
Qed.
Lemma wr_steps {A} (m : SE CliTunnelManager A) : moves steps m -> moves wires m.
Proof. intros Hm s. eapply steps_wires; [apply Hm|]. by apply silent_wires. Qed.
Lemma wr_silent {A} (m : SE CliTunnelManager A) : moves silent m -> moves wires m.
Proof. intros Hm s. apply silent_wires, Hm. Qed.
Lemma wr_bind {A B} (m : SE CliTunnelManager A) (k : A -> SE CliTunnelManager B) :
  moves steps m -> (forall a, moves wires (k a)) -> moves wires (bind m k).
Proof.
  intros Hm Hk s. unfold bind. specialize (Hm s). destruct (m s) as [[a|] s']; cbn in *.
  - eapply steps_wires; [exact Hm|apply Hk].
  - eapply steps_wires; [exact Hm|]. by apply silent_wires.
Qed.

(** *** Handlers are silent *)

Lemma sl_ret {A} (a : A) : moves silent (ret a).
Proof. apply moves_ret. apply _. Qed.
Lemma sl_gets {A} (f : CliTunnelManager -> A) : moves silent (gets f).
Proof. apply moves_gets. apply _. Qed.
Lemma sl_throw {A} : moves silent (@throw _ A).
Proof. apply moves_throw. apply _. Qed.
Lemma sl_modify f : (forall s, (tm_udpCipher (f s), tm_secureSessionId (f s)) = (tm_udpCipher s, tm_secureSessionId s) /\
  tm_out (f s) = tm_out s) -> moves silent (modify f).
Proof. intros Hf s. destruct (Hf s) as [E1 E2]. split; [done|]. exists []. by rewrite app_nil_r. Qed.
Lemma sl_fire e : event_quiet e -> moves silent (fire e).
Proof. intros He s. split; [done|]. exists [e]. split; [done|by constructor]. Qed.
#[local] Hint Resolve sl_ret sl_gets sl_throw : vlan.
#[local] Hint Extern 1 (moves silent (modify _)) => apply sl_modify; intros ?; by split : vlan.
#[local] Hint Extern 1 (moves silent (upd_app _)) => apply sl_modify; intros ?; by split : vlan.
#[local] Hint Extern 1 (moves silent (upd_peer _ _)) => apply sl_modify; intros ?; by split : vlan.
#[local] Hint Extern 1 (moves silent (put_kcp _ _)) => apply sl_modify; intros ?; by split : vlan.
#[local] Hint Extern 1 (moves silent (put_raw _ _)) => apply sl_modify; intros ?; by split : vlan.
#[local] Hint Extern 1 (moves silent (fire _)) => apply sl_fire; exact I : vlan.
Lemma sl_deref {A} (f : CliTunnelManager -> option A) : moves silent (deref f).
Proof. unfold deref. walk. Qed.
#[local] Hint Extern 1 (moves silent (deref_peer _)) => apply sl_deref : vlan.
#[local] Hint Extern 1 (moves silent (deref_kcp _)) => apply sl_deref : vlan.
#[local] Hint Extern 1 (moves silent (deref_raw _)) => apply sl_deref : vlan.
Lemma sl_addPeer id vip name : moves silent (addPeer id vip name).
Proof. unfold addPeer. walk. Qed.
Lemma sl_removePeer id : moves silent (removePeer id).
Proof. unfold removePeer. walk. Qed.
Lemma sl_removeTransport id cls : moves silent (removeTransport id cls).
Proof. unfold removeTransport. walk. Qed.
Lemma sl_removeAll : moves silent removeAllPeers.
Proof. unfold removeAllPeers. auto with vlan. Qed.
#[local] Hint Resolve sl_addPeer sl_removePeer sl_removeTransport sl_removeAll : vlan.
Lemma sl_setupRelay id cls : moves silent (setupRelayTunnel id cls).
Proof. unfold setupRelayTunnel, createKcpTunnel. walk. Qed.
Lemma sl_setupRaw id cls : moves silent (setupRawUdpRelayTunnel id cls).
Proof. unfold setupRawUdpRelayTunnel, createRawUdpTunnel. walk. Qed.
Lemma sl_setupTcp id cls : moves silent (setupTcpRelayTunnel id cls).
Proof. unfold setupTcpRelayTunnel. walk. Qed.
#[local] Hint Resolve sl_setupRelay sl_setupRaw sl_setupTcp : vlan.
Lemma sl_setup id cls : moves silent (setupPolicyTunnel id cls).
Proof. unfold setupPolicyTunnel. walk. Qed.
Lemma sl_dead id cls : moves silent (onTransportDead id cls).
Proof. unfold onTransportDead. walk. Qed.
#[local] Hint Resolve sl_setup sl_dead : vlan.
Lemma sl_rebuild id : moves silent (rebuildPeerTransports id).
Proof. unfold rebuildPeerTransports, clearPendingRebuild, rebuild_class. walk. Qed.
Lemma sl_joined info : moves silent (onPeerJoined info).
Proof. unfold onPeerJoined, pend_member. walk. Qed.
#[local] Hint Resolve sl_rebuild sl_joined : vlan.
Lemma sl_resumed info : moves silent (onPeerResumed info).
Proof. unfold onPeerResumed, pend_member. walk. Qed.
Lemma sl_left id : moves silent (onPeerLeft id).
Proof. unfold onPeerLeft, clearPendingRebuild. walk. Qed.
Lemma sl_relayReady id : moves silent (onRelayReady id).
Proof. unfold onRelayReady, takePendingRebuild, setup_if. walk. Qed.
#[local] Hint Resolve sl_resumed sl_left sl_relayReady : vlan.
Lemma sl_finish : moves silent finishRoomSetup.
Proof. unfold finishRoomSetup. walk. Qed.
Lemma sl_teardown : moves silent teardown_links.
Proof. unfold teardown_links, stopDataPlane. walk. Qed.
Lemma sl_flush : moves silent flushPendingTransportDead.
Proof. unfold flushPendingTransportDead. walk. Qed.
Lemma sl_relays : moves silent check_relays.
Proof. unfold check_relays, check_relay, sendTcpRelayKeepalive, keepalive_class, tcpRelaySend. walk. Qed.
#[local] Hint Resolve sl_finish sl_teardown sl_flush sl_relays : vlan.

Definition rekeys (c : LinkCall) : bool :=
  match c with KInstall _ _ | KClear | KDestroy => true | _ => false end.
Lemma wr_start adapter fd nb bound port : moves steps (startTunDataPlane adapter fd nb bound port).
Proof. unfold startTunDataPlane, startDataPlane, initUdpSocket, upd_app. walk. Qed.
Lemma wr_update : moves wires updateKcp.
Proof.
  unfold updateKcp. apply wr_bind; [apply ln_gets|intros s]. destruct (_ || _); [apply wr_silent; walk|].
  apply wr_bind; [walk|intros _]. apply wr_bind; [apply ln_gets|intros s'].
  apply wr_bind; [walk|intros _]. apply wr_silent. auto with vlan.
Qed.
Lemma wr_call c : rekeys c = false -> moves wires (link_call c).
Proof.
  intros Hc. destruct c; try discriminate Hc; cbn [link_call]; unfold setServerEndpoint, stopDataPlane.
  all: try solve [apply wr_silent; walk].
  - apply wr_steps. pose proof wr_start. walk.
  - apply wr_steps, ln_udp_readable.
  - apply wr_steps, ln_tun_packets.
  - apply wr_update.
  - apply wr_steps, ln_keepalive.
  - apply wr_steps, ln_tcp_received.
  - apply wr_steps. unfold updatePeerQuality, probe_peer, sendLatencyPing_all. walk.
Qed.
(** Several calls in a session. *)
Lemma session_sealed cs s : Forall (fun c => rekeys c = false) cs -> let s' := snd (for_each cs link_call s) in
  exists evs, tm_out s' = tm_out s ++ evs /\ sealed_step s s' evs /\ tm_secureSessionId s' = tm_secureSessionId s.
Proof.
  intros Hcs. revert s. induction Hcs as [|c cs Hc _ IH]; intros s; cbv zeta; cbn [for_each].
  - exists []. rewrite app_nil_r. split_and!; [done| |done]. constructor; [done|]. intros Hk. split; [done|]. exists [].
    cbn. by rewrite Z.add_0_r.
  - destruct (wr_call c Hc s) as (e1 & O1 & _ & S1 & Es1). unfold bind. destruct (link_call c s) as [[a|] s1]; cbn [fst snd] in *.
    + destruct (IH s1) as (e2 & O2 & S2 & Es2). exists (e1 ++ e2). split_and!; [by rewrite O2, O1, app_assoc| |congruence].
      by eapply sealed_step_trans.
    + by exists e1.
Qed.
(** Changing the keys. *)
Definition rekeying (s s' : CliTunnelManager) : Prop :=
  tm_out s' = tm_out s /\ (counter_ok (tm_udpCipher s) -> counter_ok (tm_udpCipher s')).
#[export] Instance rekeying_preorder : PreOrder rekeying.
Proof.
  split; [by intros s|]. intros s1 s2 s3 [E1 C1] [E2 C2]. split; [by rewrite E2|auto].
Qed.
Lemma rk_ret {A} (a : A) : moves rekeying (ret a).
Proof. apply moves_ret. apply _. Qed.
Lemma rk_gets {A} (f : CliTunnelManager -> A) : moves rekeying (gets f).
Proof. apply moves_gets. apply _. Qed.
Lemma rk_same f : (forall s, tm_udpCipher (f s) = tm_udpCipher s /\ tm_out (f s) = tm_out s) -> moves rekeying (modify f).
Proof. intros Hf s. destruct (Hf s) as [E1 E2]. split; [done|]. cbn. by rewrite E1. Qed.
#[local] Hint Resolve rk_ret rk_gets : vlan.
#[local] Hint Extern 2 (moves rekeying (modify _)) => apply rk_same; intros ?; by split : vlan.
Lemma rk_clear : moves rekeying tm_clearSecurityContext.
Proof.
  unfold tm_clearSecurityContext. walk. intros s. split; [done|]. intros _. unfold counter_ok, UINT64_MAX. cbn. lia.
Qed.
#[local] Hint Resolve rk_clear : vlan.
Lemma rk_install sid master : moves rekeying (tm_installSecureSession sid master).
Proof.
  unfold tm_installSecureSession. walk. intros s. split; [done|]. intros Hc. by apply counter_init.
Qed.
#[local] Hint Resolve rk_install : vlan.
Lemma rk_call c : rekeys c = true -> moves rekeying (link_call c).
Proof.
  intros Hc. destruct c; try discriminate Hc; cbn [link_call].
  - walk.
  - walk.
  - unfold tm_destroy, stopDataPlane, removeAllPeers. walk. apply rk_same. intros s. by destruct (_ =? _).
Qed.

(** ** Theorems *)

(** no dangling pointer.  From a fresh manager, whatever calls are made, in
    whatever order: every call returns, so no operation follows a pointer to a
    tunnel or peer that was deleted; and afterwards every pointer of a peer
    leads to its own live tunnel, every tunnel belongs to a live peer, and
    every route leads to the live peer with that address. *)
Theorem links_never_dangle (cs : list LinkCall) :
  let r := for_each cs link_call CliTunnelManager_init in fst r = Some tt /\ tm_ok (snd r).
Proof.
  cbv zeta. assert (tm_ok CliTunnelManager_init) as Hs by by constructor.
  destruct (safe_for_each [] cs link_call (fun c _ => sf_call c) CliTunnelManager_init Hs) as ([[] Hr] & Hok & _);
    [by intros i Hi%elem_of_nil|by split].
Qed.

(** C19: the traffic of a session.  From any state whose counter is in range, in
    any sequence of calls none of which installs or clears a session, the
    datagrams given to the socket are, in order, sealed under the session's key
    with the consecutive counters from the cipher's on, so none is in the clear
    and no two of them share a nonce.  In one call, whichever it is, every packet
    given to the adapter is a well-formed IPv4 packet within the MTU from the
    address of a member of the room to this host; and a call that installs or
    clears a session sends nothing.  (Installing the same session again restarts
    its counters: [udp_reinstall_restarts].) *)
Theorem link_traffic_sealed (s : CliTunnelManager) :
  counter_ok (tm_udpCipher s) ->
  (forall cs, Forall (fun c => rekeys c = false) cs ->
     let s' := snd (for_each cs link_call s) in
     counter_ok (tm_udpCipher s') /\ send_half (tm_udpCipher s') = send_half (tm_udpCipher s) /\
     exists evs plains, tm_out s' = tm_out s ++ evs /\
       m_sendCounter (tm_udpCipher s') = m_sendCounter (tm_udpCipher s) + len plains /\
       sent_datagrams evs = sealed_datagrams (tm_udpCipher s) (tm_secureSessionId s)
                              (m_sendCounter (tm_udpCipher s)) plains) /\
  (forall c, let s' := snd (link_call c s) in
     counter_ok (tm_udpCipher s') /\
     exists evs, tm_out s' = tm_out s ++ evs /\
       (forall packet, EvTunWrite packet ∈ evs -> delivered_ok s packet) /\
       (rekeys c = true -> evs = [])).
Proof.
  intros Hc. split.
  - intros cs Hcs. cbv zeta. destruct (session_sealed cs s Hcs) as (evs & Eo & [Hh Hs] & _).
    destruct (Hs Hc) as (Hc' & plains & Ep & Ed). split; [exact Hc'|]. split; [exact Hh|]. by exists evs, plains.
  - intros c. cbv zeta. destruct (rekeys c) eqn:Ec.
    + destruct (rk_call c Ec s) as [Eo Hk]. split; [by apply Hk|]. exists []. rewrite app_nil_r.
      split_and!; [done| |done]. by intros packet Hp%elem_of_nil.
    + destruct (wr_call c Ec s) as (evs & Eo & Hev & [_ Hs] & _). destruct (Hs Hc) as (Hc' & _).
      split; [exact Hc'|]. exists evs. split_and!; [done| |done].
      intros packet Hin. by apply (Forall_forall (event_ok s) evs) in Hin.
Qed.

(** What an authentic datagram is: from the server's address, marked, for the
    session installed, and it decrypts under its cipher. *)
Definition authentic (s : CliTunnelManager) (data : bytes) (ip port : Z) : Prop :=
  ip = tm_serverIP s /\ port = tm_serverPort s /\ byte_at data 0 = UDP_ENCRYPTED /\
  readU32BE (drop 1 data) = tm_secureSessionId s /\
  is_Some (fst (decrypt (tm_udpCipher s) (drop 5 data) [])).
(** Only the drop statistics differ. *)
Definition only_counted (s s' : CliTunnelManager) : Prop :=
  exists drops last has, s' = set_tm_packetDrops drops (set_tm_lastDropLogMs last (set_tm_hasDropLog has s)).
Lemma drop_counted reason s : only_counted s (snd (recordPacketDrop reason s)).
Proof.
  unfold recordPacketDrop, only_counted. rewrite bind_modify, bind_gets. destruct s. cbn.
  destruct (_ && _); cbn; by repeat eexists.
Qed.

(** C20: a datagram that is not authentic (from elsewhere, in the clear, for
    another session, forged, damaged or repeated) changes nothing but the
    statistics of dropped packets. *)
Theorem forged_datagram_ignored (s : CliTunnelManager) (data : bytes) (ip port : Z) :
  ~ authentic s data ip port -> only_counted s (snd (on_datagram data ip port s)).
Proof.
  intros Hn. assert (only_counted s s) as Hsame by (destruct s; by repeat eexists).
  unfold on_datagram. rewrite bind_gets. destruct (negb (dataPlaneAllowsTraffic _ _)) eqn:Ea; [done|].
  destruct (negb (ip =? _) || _) eqn:Ee; [apply drop_counted|].
  bools. rewrite bool_decide_true by (unfold dataPlaneAllowsTraffic in *; by bools).
  destruct (negb (byte_at data 0 =? _)) eqn:E0; [apply drop_counted|].
  destruct (_ <? _); [apply drop_counted|]. destruct (negb (readU32BE _ =? _)) eqn:Es; [apply drop_counted|].
  bools. unfold tm_decrypt. rewrite bind_assoc, bind_gets, bind_assoc, bind_modify. cbn [bind ret].
  change (Z.to_nat (1 + SECURE_SESSION_ID_SIZE)) with 5%nat in *.
  destruct (decrypt_cases (tm_udpCipher s) (drop 5 data) []) as [[Ed Ec]|(p & Ed & _)].
  - rewrite Ed, Ec. destruct s. apply drop_counted.
  - destruct Hn. split_and!; [done..|]. by rewrite Ed.
Qed.

(** installing the session that is installed already.  The manager clears
    its security context before it installs one, so the cipher forgets its
    counter and its replay window: the next datagram is sealed with the same
    key and the same nonce as the first of the session, and every old datagram
    of the server would be accepted again. *)
Theorem udp_reinstall_restarts (s : CliTunnelManager) (sid : Z) (master : bytes) (packet : bytes) :
  tm_dataPlaneState s = Stopped -> sid <> 0 -> len master = SECURE_KEY_SIZE ->
  let s1 := snd (tm_installSecureSession sid master s) in
  let s2 := snd (tm_installSecureSession sid master (set_tm_udpCipher (snd (encrypt (tm_udpCipher s1) packet [])) s1)) in
  fst (tm_installSecureSession sid master s) = Some true /\
  m_sendCounter (snd (encrypt (tm_udpCipher s1) packet [])) = 1 /\
  tm_udpCipher s2 = tm_udpCipher s1 /\ m_sendCounter (tm_udpCipher s2) = 0 /\
  m_recvStarted (tm_udpCipher s2) = false.
Proof.
  intros Hst Hsid Hm. cbv zeta. apply Z.eqb_neq in Hsid.
  assert (forall t, tm_dataPlaneState t = Stopped -> tm_installSecureSession sid master t =
    (Some true, set_tm_securityMode Secure (set_tm_udpCipher (cipher_init cipher_empty master true "udp")
       (set_tm_secureMaster master (set_tm_secureSessionId sid t))))) as Hi.
  { intros t Ht. unfold tm_installSecureSession, tm_clearSecurityContext.
    unfold bind, gets, modify, ret, dataPlaneCanReconfigure. rewrite Ht, bool_decide_true by done. cbn [negb].
    rewrite Hsid, Hm, Ht, bool_decide_true by done. done. }
  rewrite (Hi s Hst). split; [done|]. cbn [snd].
  assert (encrypt (cipher_init cipher_empty master true "udp") packet [] =
    (fst (encrypt (cipher_init cipher_empty master true "udp") packet []),
     set_m_sendCounter 1 (cipher_init cipher_empty master true "udp"))) as He.
  { rewrite encrypt_frame; [done|done|]. unfold UINT64_MAX. cbn. lia. }
  split; [cbn [tm_udpCipher set_tm_securityMode set_tm_udpCipher]; by rewrite He|].
  rewrite Hi by done. by split.
Qed.
End Traffic.

(** ** Instances *)

#[local] Existing Instances ToyCrypto ToyCryptoLaws rep_CM256 ToyKcp.
(** A manager whose data plane has just started. *)
Definition demo_udp_master : bytes := replicate 32 7.
Definition demo_configured : CliTunnelManager := snd (for_each
  [KServer 100 11510; KMyPeerId 2; KMyVirtualIP 0x0A0A0002; KRoomMtu 1400] link_call CliTunnelManager_init).
Definition demo_started : CliTunnelManager := snd (for_each
  [KInstall 77 demo_udp_master; KStart (mkTun true []) 5 true true 4000] link_call demo_configured).

Definition demo_traffic : CliTunnelManager := snd (for_each [KKeepalive; KKeepalive] link_call demo_started).
Lemma link_traffic_sealed_witness :
  counter_ok (tm_udpCipher demo_started) /\ m_sendCounter (tm_udpCipher demo_started) = 1 /\
  m_sendCounter (tm_udpCipher demo_traffic) = 3 /\
  exists evs plains, tm_out demo_traffic = tm_out demo_started ++ evs /\
    m_sendCounter (tm_udpCipher demo_traffic) = m_sendCounter (tm_udpCipher demo_started) + len plains /\
    sent_datagrams evs = sealed_datagrams (tm_udpCipher demo_started) (tm_secureSessionId demo_started)
                           (m_sendCounter (tm_udpCipher demo_started)) plains.
Proof.
  assert (counter_ok (tm_udpCipher demo_started)) as Hc by (vm_compute; split; discriminate).
  split; [exact Hc|]. split; [by vm_compute|]. split; [by vm_compute|].
  exact (proj2 (proj2 (proj1 (link_traffic_sealed demo_started Hc) [KKeepalive; KKeepalive] ltac:(by repeat constructor)))).
Defined.
Lemma udp_reinstall_restarts_witness :
  tm_dataPlaneState demo_configured = Stopped /\
  let s1 := snd (tm_installSecureSession 77 demo_udp_master demo_configured) in
  let s2 := snd (tm_installSecureSession 77 demo_udp_master
                   (set_tm_udpCipher (snd (encrypt (tm_udpCipher s1) [UDP_KEEPALIVE] [])) s1)) in
  fst (tm_installSecureSession 77 demo_udp_master demo_configured) = Some true /\
  m_sendCounter (snd (encrypt (tm_udpCipher s1) [UDP_KEEPALIVE] [])) = 1 /\
  tm_udpCipher s2 = tm_udpCipher s1 /\ m_sendCounter (tm_udpCipher s2) = 0 /\
  m_recvStarted (tm_udpCipher s2) = false.
Proof.
  split; [reflexivity|].
  apply (udp_reinstall_restarts demo_configured 77 demo_udp_master [UDP_KEEPALIVE]); [reflexivity|discriminate|reflexivity].
Defined.
Lemma forged_datagram_ignored_witness :
  let datagram := 0x40 :: replicate 30 1 in
  ~ authentic demo_started datagram 0x01020304 5 /\
  only_counted demo_started (snd (on_datagram datagram 0x01020304 5 demo_started)).
Proof.
  assert (~ authentic demo_started (0x40 :: replicate 30 1) 0x01020304 5) as Hn
    by (intros Ha; vm_compute in Ha; destruct Ha as (Ha & _); discriminate).
  split; [exact Hn|]. exact (forged_datagram_ignored demo_started (0x40 :: replicate 30 1) 0x01020304 5 Hn).
Defined.
