(* ===== verification/CliAppFacts.v ===== *)
(** * What the operations of [CliApp] preserve

    The operations of the application as steps of a relation on its states,
    once for every relation that allows the elementary changes
    ([AppRelation]): the lease, the count of attempts and the tunnels keep
    their invariants, everything else may change.  The parts that send nothing
    to the server come first; [AppSends] adds what a relation must allow for
    those that do. *)

From S2P Require Import Prelude Protocol ByteBuf Room SecureFrame Overlay TcpConn AuthKdf RoomOp TunJob CliOptions CliDataChannel CliSignalState CliSignal Fec ProbeQuality PeerConn Store RawUdp TunnelManager RoomLinks CliAppState CliApp CliCallbacks CliLoop LinkFacts LinkSafety LinkCalls LinkTraffic.

(** ** Invariants of the parts *)

(** There is a lease with its token, or nothing of one is left. *)
Definition lease_ok (l : ResumeLease) : Prop :=
  if rl_hasResumeLease l then len (rl_resumeToken l) = RECONNECT_TOKEN_SIZE else l = ResumeLease_init.
Definition attempts_ok (x : Reconnection) : Prop := 0 <= cx_reconnectAttempts x <= MAX_RECONNECT_ATTEMPTS.

(** For the side conditions of [ar_plain] and [av_loose]. *)
Ltac loosely := intros ?; by split_and!.
Ltac plainly := split; [loosely|done].

Section Facts.
Context `{HL : CryptoLaws} `{HM : CM256} `{HK : Ikcp}.
#[local] Existing Instance silent_channel_app.

(** A change of the application that touches neither of these; one that also
    leaves alone whether a recovery is under way. *)
Definition loose (f : CliApp -> CliApp) : Prop := forall a,
  ap_lease (f a) = ap_lease a /\ ap_tunnel (f a) = ap_tunnel a /\
  cx_reconnectAttempts (ap_conn (f a)) = cx_reconnectAttempts (ap_conn a) /\ ap_overrun (f a) = ap_overrun a.
Definition plain (f : CliApp -> CliApp) : Prop :=
  loose f /\ forall a, op_roomRecovery (ap_room (f a)) = op_roomRecovery (ap_room a).
(** What a relation must allow. *)
Class AppRelation (R : CliSignalClient -> CliSignalClient -> Prop) := {
  ar_preorder :: PreOrder R;
  ar_plain f : plain f -> moves R (in_app f);
  ar_lease f : (forall l, lease_ok l -> lease_ok (f l)) -> moves R (in_lease f);
  ar_conn f : (forall x, attempts_ok x -> attempts_ok (f x)) -> moves R (in_conn f);
  ar_links f : moves R (in_links f);
  ar_tunnel {A} (m : SE CliTunnelManager A) : safe [] m -> moves R (tunnel_step m);
  ar_abandon : moves R abandonRoomOperation;
  ar_disconnect : moves R client_disconnect
}.
(** A relation that allows recoveries to start and end. *)
Class AppRecovers (R : CliSignalClient -> CliSignalClient -> Prop) := {
  av_loose f : loose f -> moves R (in_app f)
}.

(** A program of the tunnels that does nothing to the outside; one of the
    channel that reports nothing. *)
Definition mute {A} (m : SE CliTunnelManager A) : Prop := moves (fun t t' => tm_out t' = tm_out t) m.
Definition hushed {A} (m : SE CliDataChannel A) : Prop := moves (fun d d' => dc_events d' = dc_events d) m.
#[export] Instance same_out_preorder : PreOrder (fun t t' : CliTunnelManager => tm_out t' = tm_out t).
Proof. split; [done|]. intros a b c Hab Hbc. congruence. Qed.
#[export] Instance same_events_preorder : PreOrder (fun d d' : CliDataChannel => dc_events d' = dc_events d).
Proof. split; [done|]. intros a b c Hab Hbc. congruence. Qed.
Lemma safe_unit {A} ids (m : SE CliTunnelManager A) : safe ids (x <- m ;; ret tt) -> safe ids m.
Proof.
  intros Hm s Hs Hi. destruct (Hm s Hs Hi) as (H1 & H2 & H3). unfold bind in *.
  destruct (m s) as [[a|] s']; [by split_and!; [eexists|..]|]. by destruct H1.
Qed.
Lemma mute_gets {A} (f : CliTunnelManager -> A) : mute (gets f). Proof. by intros s. Qed.
Lemma mute_ret {A} (a : A) : mute (ret a). Proof. by intros s. Qed.
Lemma mute_modify f : (forall t, tm_out (f t) = tm_out t) -> mute (modify f). Proof. intros Hf s. apply Hf. Qed.
Lemma hushed_gets {A} (f : CliDataChannel -> A) : hushed (gets f). Proof. by intros s. Qed.
Lemma hushed_ret {A} (a : A) : hushed (ret a). Proof. by intros s. Qed.
Lemma hushed_modify f : (forall t, dc_events (f t) = dc_events t) -> hushed (modify f). Proof. intros Hf s. apply Hf. Qed.
Ltac calmly := unfold mute, hushed; repeat first
  [ done | apply moves_gets; apply _ | apply moves_ret; apply _
  | match goal with |- moves _ (modify _) => intros ?; reflexivity end | step_prog ].
Lemma mute_teardown : mute teardown_links.
Proof. unfold teardown_links, stopDataPlane, removeAllPeers, upd_app. calmly. Qed.
Lemma mute_clear : mute tm_clearSecurityContext.
Proof. unfold tm_clearSecurityContext. calmly. Qed.
Lemma mute_install sid master : mute (tm_installSecureSession sid master).
Proof. unfold tm_installSecureSession, tm_clearSecurityContext. calmly. Qed.
Lemma mute_stop : mute stopDataPlane.
Proof. unfold stopDataPlane. calmly. Qed.
Lemma mute_endpoint ip port : mute (setServerEndpoint ip port).
Proof. unfold setServerEndpoint. calmly. Qed.
Lemma hushed_disconnect : hushed dc_disconnect.
Proof. unfold dc_disconnect, dc_reset. calmly. Qed.
Lemma hushed_clear : hushed dc_clearSecurityContext.
Proof. unfold dc_clearSecurityContext, dc_disconnect, dc_reset. calmly. Qed.
Lemma hushed_install sid master : hushed (dc_installSecureSession sid master).
Proof. unfold dc_installSecureSession, dc_clearSecurityContext, dc_disconnect, dc_reset. calmly. Qed.

Lemma tunnel_step_eq {A} (m : SE CliTunnelManager A) c r t : m (tunnel_view c) = (r, t) ->
  tunnel_step m c = (Some (r, tm_out t), set_sc_app (set_ap_tunnel (set_tm_out [] t) (sc_app c)) c).
Proof. intros E. unfold tunnel_step. by rewrite bind_gets, E. Qed.

Definition channel_view (c : CliSignalClient) : CliDataChannel :=
  set_dc_events [] (set_dc_now (sc_now c) (ap_dataChannel (sc_app c))).
Lemma data_step_eq {A} (m : SE CliDataChannel A) c r d : m (channel_view c) = (r, d) ->
  data_step m c = ((fun a => (a, dc_events d)) <$> r, set_sc_app (set_ap_dataChannel (set_dc_events [] d) (sc_app c)) c).
Proof.
  unfold channel_view. intros E. unfold data_step. rewrite bind_gets, E. by destruct r.
Qed.

(** ** What sends nothing *)

Section Silent.
Context {CA : ClientApp} (R : CliSignalClient -> CliSignalClient -> Prop) {HR : AppRelation R}.

Lemma ap_ret {A} (a : A) : moves R (ret a). Proof. apply moves_ret. apply _. Qed.
Lemma ap_throw {A} : moves R (@throw _ A). Proof. apply moves_throw. apply _. Qed.
Lemma ap_gets {A} (f : CliSignalClient -> A) : moves R (gets f). Proof. apply moves_gets. apply _. Qed.
#[local] Hint Resolve ap_ret ap_throw ap_gets ar_links ar_abandon ar_disconnect : vlan.
#[local] Hint Extern 1 (moves R (in_app _)) => apply ar_plain; plainly : vlan.
#[local] Hint Extern 1 (moves R (in_saved _)) => apply ar_plain; plainly : vlan.
#[local] Hint Extern 1 (moves R (in_setup _)) => apply ar_plain; plainly : vlan.
#[local] Hint Extern 1 (moves R (in_tracker _)) => apply ar_plain; plainly : vlan.
#[local] Hint Extern 1 (moves R (in_timers _)) => apply ar_plain; plainly : vlan.
#[local] Hint Extern 1 (moves R (in_conn _)) => apply ar_conn; intros ? ?; assumption : vlan.

Lemma ap_clearLease : moves R clearResumeLease.
Proof. apply ar_lease. done. Qed.
Lemma ap_rememberLease rid pid vip token : moves R (rememberResumeLease rid pid vip token).
Proof.
  unfold rememberResumeLease. destruct (negb _) eqn:E; [apply ap_clearLease|]. apply ar_lease. intros l _.
  bools. unfold lease_ok. cbn. lia.
Qed.
Lemma ap_startDeadline : moves R startResumeLeaseDeadline.
Proof.
  intros c. unfold startResumeLeaseDeadline. rewrite bind_gets.
  destruct (negb (rl_hasResumeLease (app_lease c)) || _) eqn:E; [reflexivity|]. bools.
  pose proof (ar_lease (R := R) (fun l => if rl_hasResumeLease l then
    set_rl_resumeLeaseDeadlineMs (u32 (sc_now c + RECONNECT_LEASE_TIMEOUT_SEC * 1000)) l else l)) as Hm.
  assert (forall l, lease_ok l -> lease_ok (if rl_hasResumeLease l then
    set_rl_resumeLeaseDeadlineMs (u32 (sc_now c + RECONNECT_LEASE_TIMEOUT_SEC * 1000)) l else l)) as Hl.
  { intros l. unfold lease_ok. destruct (rl_hasResumeLease l) eqn:El; cbn; by rewrite El. }
  specialize (Hm Hl c). unfold in_lease, in_app, modify in *. cbn [snd] in *.
  unfold app_lease in *. destruct (rl_hasResumeLease (ap_lease (sc_app c))); [exact Hm|discriminate].
Qed.
#[local] Hint Resolve ap_clearLease ap_rememberLease ap_startDeadline : vlan.
Lemma ap_expireLease : moves R expireResumeLeaseIfNeeded.
Proof. unfold expireResumeLeaseIfNeeded. walk. Qed.
#[local] Hint Resolve ap_expireLease : vlan.
Lemma ap_may_resume : moves R may_resume.
Proof. unfold may_resume, hasUsableResumeLease. walk. Qed.
Lemma ap_next {A} get set (none : A) : moves R (next_result get set none).
Proof. unfold next_result. walk. Qed.
Lemma ap_security : moves R securityFailure.
Proof. unfold securityFailure. walk. Qed.
Lemma ap_track f : moves R (track f).
Proof. unfold track. walk. Qed.
#[local] Hint Resolve ap_may_resume ap_next ap_security ap_track : vlan.
Lemma ap_begin : moves R beginRoomRequest.
Proof. unfold beginRoomRequest. walk. Qed.
Lemma ap_data_step {A} (m : SE CliDataChannel A) : moves R (data_step m).
Proof. unfold data_step. walk. Qed.
#[local] Hint Resolve ap_begin ap_data_step : vlan.

Lemma ap_silent_tunnel {A} (m : SE CliTunnelManager A) : safe [] m -> mute m -> moves R (in_tunnel m).
Proof.
  intros Hs Hm c. pose proof (ar_tunnel m Hs c) as Ht. specialize (Hm (tunnel_view c)).
  destruct (m (tunnel_view c)) as [r t] eqn:E. rewrite (tunnel_step_eq m c r t E) in Ht.
  unfold in_tunnel. unfold bind at 1. rewrite (tunnel_step_eq m c r t E).
  replace (tm_out t) with (@nil LinkEvent) by exact (eq_sym Hm). cbn. destruct r; exact Ht.
Qed.
Lemma ap_silent_data {A} (m : SE CliDataChannel A) : hushed m -> moves R (in_data m).
Proof.
  intros Hm c. pose proof (ap_data_step m c) as Ht. specialize (Hm (channel_view c)).
  destruct (m (channel_view c)) as [r d] eqn:E. rewrite (data_step_eq m c r d E) in Ht.
  unfold in_data. unfold bind at 1. rewrite (data_step_eq m c r d E).
  replace (dc_events d) with (@nil ChannelEvent) by exact (eq_sym Hm). destruct r; exact Ht.
Qed.
Lemma ap_tunnel_modify f : (forall t, same_tables t (f t)) -> (forall t, tm_out (f t) = tm_out t) ->
  moves R (in_tunnel (modify f)).
Proof. intros Ht Ho. apply ap_silent_tunnel; [by apply safe_tables|by apply mute_modify]. Qed.
Lemma ap_teardown_links : moves R (in_tunnel teardown_links).
Proof. apply ap_silent_tunnel; [apply sf_teardown|apply mute_teardown]. Qed.
Lemma ap_tunnel_clear : moves R (in_tunnel tm_clearSecurityContext).
Proof. apply ap_silent_tunnel; [apply (sf_call KClear)|apply mute_clear]. Qed.
Lemma ap_data_clear : moves R (in_data dc_clearSecurityContext).
Proof. apply ap_silent_data, hushed_clear. Qed.
Lemma ap_data_disconnect : moves R (in_data dc_disconnect).
Proof. apply ap_silent_data, hushed_disconnect. Qed.
Lemma ap_install sid master : moves R (install_session sid master).
Proof.
  unfold install_session. apply moves_bind; [apply _| |intros a; apply moves_bind; [apply _| |intros b; apply ap_ret]].
  - apply ap_silent_tunnel; [apply safe_unit, (sf_call (KInstall sid master))|apply mute_install].
  - apply ap_silent_data, hushed_install.
Qed.
#[local] Hint Resolve ap_teardown_links ap_tunnel_clear ap_data_clear ap_data_disconnect ap_install : vlan.
Lemma ap_clear_security : moves R clear_security.
Proof. unfold clear_security. walk. Qed.
Lemma ap_reset b : moves R (resetRoomRuntimeState b).
Proof.
  unfold resetRoomRuntimeState. walk. apply ap_tunnel_modify; intros t; [by constructor|done].
Qed.
Lemma ap_finish : moves R finish_unless_job.
Proof. unfold finish_unless_job. walk. Qed.
#[local] Hint Resolve ap_clear_security ap_reset ap_finish : vlan.
Lemma ap_teardown : moves R teardownTun.
Proof. unfold teardownTun. walk. Qed.
Lemma ap_retry d : moves R (retry_after d).
Proof. unfold retry_after. walk. Qed.
#[local] Hint Resolve ap_teardown ap_retry : vlan.
Lemma ap_server_error : moves R onServerError.
Proof. unfold onServerError, retry_later. walk. Qed.

Context {HV : AppRecovers R}.
#[local] Hint Extern 2 (moves R (in_setup _)) => apply av_loose; loosely : vlan.
Lemma ap_complete : moves R completeRoomRecovery.
Proof. unfold completeRoomRecovery. walk. Qed.
#[local] Hint Resolve ap_complete : vlan.
Lemma ap_finishDisconnect : moves R finishGracefulDisconnect.
Proof. unfold finishGracefulDisconnect, stop_when_clean, forget_room. walk. Qed.
#[local] Hint Resolve ap_finishDisconnect : vlan.
Lemma ap_signal_lost : moves R signal_lost.
Proof.
  unfold signal_lost, remember_room, plan_reconnect, stop_when_clean, forget_room, retry_backoff. walk.
  apply ar_conn. intros x Hx. unfold attempts_ok, MAX_RECONNECT_ATTEMPTS. cbn. lia.
Qed.
Lemma ap_fatal : moves R onFatalAuthError.
Proof. unfold onFatalAuthError. walk. Qed.
Lemma ap_connect_failed : moves R onConnectFailed.
Proof. unfold onConnectFailed, retry_backoff. walk. Qed.
Lemma ap_logout_ack : moves R onLogoutAck.
Proof. unfold onLogoutAck. walk. Qed.
Lemma ap_setServer host port : moves R (app_setServer host port).
Proof. unfold app_setServer. walk. Qed.
Lemma ap_setPassword p : moves R (app_setServerPassword p).
Proof. unfold app_setServerPassword. walk. Qed.
(** A lost connection during a recovery. *)
Lemma ap_lost_recovering c : op_roomRecovery (app_setup c) = true -> R c (snd (onSignalDisconnected c)).
Proof. intros Hr. unfold onSignalDisconnected. rewrite bind_gets, Hr. apply ap_complete. Qed.
End Silent.

(** ** What may send *)

(** What a relation must allow of the signalling client. *)
Class AppSends {CA : ClientApp} (R : CliSignalClient -> CliSignalClient -> Prop) := {
  as_send t b : moves R (client_sendMsg t b);
  as_create name n tcp udp mtu prot password : moves R (client_createRoom name n tcp udp mtu prot password);
  as_join rid password : moves R (client_joinRoom rid password);
  as_resume rid pid token : moves R (client_resumeRoom rid pid token)
}.

Section Sending.
Context {CA : ClientApp} (R : CliSignalClient -> CliSignalClient -> Prop) {HR : AppRelation R} {HV : AppRecovers R} {HS : AppSends R}.
#[local] Hint Resolve ap_ret ap_throw ap_gets ar_links ar_abandon ar_disconnect as_send as_create as_join as_resume : vlan.
#[local] Hint Extern 1 (moves R (in_app _)) => apply ar_plain; plainly : vlan.
#[local] Hint Extern 1 (moves R (in_saved _)) => apply ar_plain; plainly : vlan.
#[local] Hint Extern 1 (moves R (in_setup _)) => apply ar_plain; plainly : vlan.
#[local] Hint Extern 2 (moves R (in_setup _)) => apply av_loose; loosely : vlan.
#[local] Hint Extern 1 (moves R (in_tracker _)) => apply ar_plain; plainly : vlan.
#[local] Hint Extern 1 (moves R (in_conn _)) => apply ar_conn; intros ? ?; assumption : vlan.
#[local] Hint Resolve ap_clearLease ap_rememberLease ap_startDeadline ap_expireLease ap_may_resume ap_next ap_security
  ap_track ap_begin ap_data_step ap_teardown_links ap_tunnel_clear ap_data_clear ap_data_disconnect ap_install
  ap_clear_security ap_reset ap_finish ap_teardown ap_complete ap_finishDisconnect ap_retry ap_signal_lost
  ap_server_error ap_fatal ap_connect_failed ap_logout_ack : vlan.

Lemma ap_perform e : moves R (perform e).
Proof. unfold perform, channel_failure, client_sendRelayData, requestRelay. walk. Qed.
#[local] Hint Resolve ap_perform : vlan.
Lemma ap_safe_tunnel {A} (m : SE CliTunnelManager A) : safe [] m -> moves R (in_tunnel m).
Proof. intros Hm. unfold in_tunnel. apply moves_bind; [apply _|by apply ar_tunnel|intros r]. walk. Qed.
Lemma ap_call c : moves R (in_tunnel (link_call c)).
Proof. apply ap_safe_tunnel, sf_call. Qed.
Lemma ap_relay_data src cls data : moves R (in_tunnel (handleTcpRelayReceived src cls data)).
Proof. exact (ap_call (KTcp src cls data)). Qed.
#[local] Hint Resolve ap_relay_data : vlan.
Lemma ap_channel e : moves R (on_channel e).
Proof. unfold on_channel, channel_failure. walk. Qed.
#[local] Hint Resolve ap_channel : vlan.
Lemma ap_data {A} (m : SE CliDataChannel A) : moves R (in_data m).
Proof. unfold in_data. walk. Qed.
#[local] Hint Resolve ap_data : vlan.
Lemma ap_logout : moves R client_logout.
Proof. unfold client_logout. walk. Qed.
Lemma ap_listRooms : moves R client_listRooms.
Proof. unfold client_listRooms. walk. Qed.
#[local] Hint Resolve ap_logout ap_listRooms : vlan.
Lemma ap_recover : moves R recoverRoomOperation.
Proof. unfold recoverRoomOperation. walk. Qed.
Lemma ap_disconnected : moves R onSignalDisconnected.
Proof. pose proof ap_recover. unfold onSignalDisconnected. walk. Qed.
#[local] Hint Resolve ap_recover ap_disconnected : vlan.
Lemma ap_beginDisconnect b : moves R (beginGracefulDisconnect b).
Proof. unfold beginGracefulDisconnect, no_recovery. walk. Qed.
#[local] Hint Resolve ap_beginDisconnect : vlan.
Lemma ap_room_list rooms : moves R (app_onRoomList rooms).
Proof. unfold app_onRoomList, handleReconnectRoomList, create_saved. walk. Qed.
Lemma ap_login_response pid ok : moves R (app_onLoginResponse pid ok).
Proof.
  unfold app_onLoginResponse, resume_or_search.
  apply moves_bind; [apply _|apply (ap_call (KMyPeerId pid))|intros _]. walk.
Qed.
Lemma ap_readiness : moves R beginTunReadiness.
Proof. unfold beginTunReadiness. walk. Qed.
#[local] Hint Resolve ap_readiness : vlan.
Lemma ap_enter rid vip tcp udp mtu prot token : moves R (app_enter_room rid vip tcp udp mtu prot token).
Proof.
  unfold app_enter_room. walk. apply ap_safe_tunnel, safe_tables. intros t. by constructor.
Qed.
#[local] Hint Resolve ap_room_list ap_login_response ap_enter : vlan.
Lemma ap_event e : moves R (app_event e).
Proof.
  destruct e; cbn [app_event]; auto with vlan.
  - unfold onSignalConnected, login. walk.
  - unfold app_onRoomCreated, clear_pending. walk.
  - unfold app_onJoinResponse, clear_pending. walk.
  - exact (ap_call (KJoined info)).
  - exact (ap_call (KResumed info)).
  - exact (ap_call (KLeft peerId)).
  - exact (ap_call (KRelayReady peerId)).
  - walk.
Qed.
End Sending.

(** ** Commands and turns *)

Lemma moves_unit {S A} (R : S -> S -> Prop) (m : SE S A) : moves R (x <- m ;; ret tt) -> moves R m.
Proof. intros Hm s. specialize (Hm s). unfold bind in Hm. by destruct (m s) as [[a|] s']. Qed.

(** What a relation must allow between the callbacks. *)
Class AppRuns {CA : ClientApp} (R : CliSignalClient -> CliSignalClient -> Prop) := {
  au_call call : moves R (client_call call);
  au_task f : moves R (in_task f);
  au_turn now mono outs : moves R (modify (fun c => set_sc_now now (set_sc_monotonic mono (set_sc_random outs c))));
  au_attempt c : cx_reconnectAttempts (app_conn c) < MAX_RECONNECT_ATTEMPTS ->
    R c (snd (in_conn (fun x => set_cx_reconnectAttempts (cx_reconnectAttempts x + 1) x) c))
}.

Section Running.
Context {CA : ClientApp} (R : CliSignalClient -> CliSignalClient -> Prop).
Context {HR : AppRelation R} {HV : AppRecovers R} {HS : AppSends R} {HU : AppRuns R}.
#[local] Hint Resolve ap_ret ap_throw ap_gets ar_links ar_abandon ar_disconnect as_send as_create as_join as_resume
  au_task au_turn : vlan.
#[local] Hint Extern 1 (moves R (in_app _)) => apply ar_plain; plainly : vlan.
#[local] Hint Extern 1 (moves R (in_saved _)) => apply ar_plain; plainly : vlan.
#[local] Hint Extern 1 (moves R (in_setup _)) => apply ar_plain; plainly : vlan.
#[local] Hint Extern 2 (moves R (in_setup _)) => apply av_loose; loosely : vlan.
#[local] Hint Extern 1 (moves R (in_tracker _)) => apply ar_plain; plainly : vlan.
#[local] Hint Extern 1 (moves R (in_timers _)) => apply ar_plain; plainly : vlan.
#[local] Hint Extern 1 (moves R (in_conn _)) => apply ar_conn; intros ? ?; assumption : vlan.
#[local] Hint Resolve ap_clearLease ap_expireLease ap_may_resume ap_next ap_security ap_track ap_begin
  ap_tunnel_clear ap_data_clear ap_data_disconnect ap_clear_security ap_reset ap_finish ap_teardown ap_complete
  ap_finishDisconnect ap_retry ap_recover ap_disconnected ap_beginDisconnect ap_listRooms ap_readiness ap_data
  ap_setServer ap_setPassword : vlan.

Lemma au_connect fd ok : moves R (client_connectTo fd ok).
Proof. apply moves_unit, (au_call (CallConnect fd ok)). Qed.
Lemma au_password p : moves R (setServerPassword p). Proof. exact (au_call (CallServerPassword p)). Qed.
Lemma au_continue : moves R continueServerAuth. Proof. exact (au_call CallContinueAuth). Qed.
Lemma au_leave : moves R client_leaveRoom. Proof. exact (au_call CallLeave). Qed.
Lemma au_ping : moves R client_sendPing. Proof. exact (au_call CallPing). Qed.
Lemma au_readable received : moves R (client_onReadable received). Proof. exact (au_call (CallReadable received)). Qed.
Lemma au_writable err sent wb : moves R (client_onWritable err sent wb).
Proof. exact (au_call (CallWritable err sent wb)). Qed.
Lemma au_timers : moves R client_checkTimeouts. Proof. exact (au_call CallTimers). Qed.
#[local] Hint Resolve au_connect au_password au_continue au_leave au_ping au_readable au_writable au_timers : vlan.

Lemma ap_endpoint ip port : moves R (in_tunnel (setServerEndpoint ip port)).
Proof. exact (ap_call R (KServer ip port)). Qed.
Lemma ap_stop_tunnel : moves R (in_tunnel stopDataPlane).
Proof. exact (ap_call R KStop). Qed.
#[local] Hint Resolve ap_endpoint ap_stop_tunnel : vlan.
Lemma ap_connect : moves R doConnect.
Proof. unfold doConnect, drop_unusable_lease, connect_resolved, retry_later, next_connect. walk. Qed.
Lemma ap_doDisconnect : moves R doDisconnect.
Proof. unfold doDisconnect, no_recovery. walk. Qed.
#[local] Hint Resolve ap_connect ap_doDisconnect : vlan.
Lemma ap_create args : moves R (doCreateRoom args).
Proof. unfold doCreateRoom, finish_unless_requested. walk. Qed.
Lemma ap_join args : moves R (doJoinRoom args).
Proof. unfold doJoinRoom, save_listed, request_join, finish_unless_requested. walk. Qed.
Lemma ap_leave : moves R doLeaveRoom.
Proof. unfold doLeaveRoom. walk. Qed.
Lemma ap_server rest : moves R (server_command rest).
Proof. unfold server_command. walk. Qed.
Lemma ap_password rest : moves R (password_command rest).
Proof. unfold password_command. walk. Qed.
#[local] Hint Resolve ap_create ap_join ap_leave ap_server ap_password : vlan.
Lemma ap_command line : moves R (processCommand line).
Proof. unfold processCommand. walk. Qed.
#[local] Hint Resolve ap_command : vlan.
Lemma ap_startPlane adapter : moves R (app_startTunDataPlane adapter).
Proof.
  unfold app_startTunDataPlane, next_connect. apply moves_bind; [apply _|apply ap_next, _|]. intros [[[fd nb] bound] port].
  apply moves_bind; [apply _|auto with vlan|intros _].
  apply moves_bind; [apply _|apply ap_safe_tunnel; [done..|]; apply safe_unit, (sf_call (KStart adapter fd nb bound port))|].
  intros ok. walk.
Qed.
Lemma ap_finishSetup : moves R app_finishRoomSetup.
Proof. pose proof (ap_call R KFinish) as Hf. unfold app_finishRoomSetup. walk. Qed.
#[local] Hint Resolve ap_startPlane ap_finishSetup : vlan.
Lemma ap_tun_event adapter e : moves R (handle_tun_event adapter e).
Proof. unfold handle_tun_event. walk. Qed.
Lemma ap_run_job steps : moves R (run_job steps).
Proof. unfold run_job. walk. Qed.
#[local] Hint Resolve ap_tun_event ap_run_job : vlan.
Lemma ap_poll adapter between : moves R (pollRoomOperation adapter between).
Proof. unfold pollRoomOperation. walk. Qed.
Lemma ap_runtime_failure : moves R handleTunRuntimeFailure.
Proof. unfold handleTunRuntimeFailure, rollbackRoomAfterTunFailure, leave_if_in_room. walk. Qed.
#[local] Hint Resolve ap_poll ap_runtime_failure : vlan.
Lemma ap_tunnel_hint c : moves R (in_tunnel (link_call c)).
Proof. apply ap_call; done. Qed.
Lemma ap_socket_events t : moves R (socket_events t).
Proof. pose proof (fun l => ap_tunnel_hint (KUdp l)) as Hu. cbn in Hu. unfold socket_events. walk. Qed.
Lemma ap_flush t : moves R (flush_sends t).
Proof. unfold flush_sends. walk. Qed.
Lemma ap_adapter t : moves R (adapter_turn t).
Proof.
  pose proof (ap_tunnel_hint KTun) as Ht. unfold adapter_turn. walk.
  apply ap_safe_tunnel; [done..|]. apply safe_tables. intros s. by constructor.
Qed.
Lemma ap_workers w : moves R (run_workers w).
Proof. unfold run_workers. walk. Qed.
Lemma ap_every i l set b action : moves R action -> moves R (every i l set b action).
Proof. intros Ha. unfold every. walk. Qed.
#[local] Hint Resolve ap_every : vlan.
Lemma ap_loop_timers : moves R timers.
Proof.
  pose proof (ap_tunnel_hint KUpdate) as H1. pose proof (ap_tunnel_hint KKeepalive) as H2.
  pose proof (ap_tunnel_hint KRelays) as H3. pose proof (ap_tunnel_hint KQuality) as H4. cbn in H1, H2, H3, H4.
  unfold timers, next_connect. walk.
  apply ap_every, ap_data; done.
Qed.
Lemma ap_reconnect : moves R reconnect_timer.
Proof.
  intros c. unfold reconnect_timer. rewrite bind_gets. destruct (_ && _); [cbn [when]|reflexivity].
  destruct (MAX_RECONNECT_ATTEMPTS <=? _) eqn:E.
  - match goal with |- R ?c (snd (?m ?c)) => refine ((_ : moves R m) c) end. walk.
  - bools. pose proof (au_attempt c E) as Ha. unfold in_conn, in_app in *. rewrite bind_modify. cbn [modify snd] in Ha.
    etrans; [exact Ha|]. apply ap_connect.
Qed.
#[local] Hint Resolve ap_socket_events ap_flush ap_adapter ap_workers ap_loop_timers ap_reconnect : vlan.
Lemma ap_body t : moves R (turn_body t).
Proof.
  unfold turn_body, poll_timer, expire_lease_if_set, logout_timer, recovery_timer, stop_timer, security_timer. walk.
Qed.
#[local] Hint Resolve ap_body : vlan.
Lemma ap_begin_turn t : moves R (begin_turn t).
Proof. pose proof (ap_tunnel_hint (KSockets (tn_sends t) (tn_writes t))) as Hk. cbn in Hk. unfold begin_turn. walk. Qed.
Lemma ap_loop stop turns : moves R (eventLoop stop turns).
Proof.
  revert stop. induction turns as [|t turns IH]; intros stop; cbn [eventLoop]; [apply ap_ret, _|].
  pose proof (ap_begin_turn t) as Hb. unfold requestStop. walk.
Qed.
Lemma ap_start answer : moves R (start answer).
Proof. unfold start. walk. Qed.
End Running.
End Facts.
