(* ===== verification/CliAppSafety.v ===== *)
(** * The command-line program as a whole

    The signalling client and the application call each other; here the knot
    ([app_at]) is closed.  Callbacks never nest deeper than [CALLBACK_DEPTH];
    in every state of every run the lease, the count of attempts, the tunnels
    and the session of the signalling client keep their invariants. *)

From S2P Require Import Prelude Protocol ByteBuf Room SecureFrame Overlay TcpConn AuthKdf RoomOp TunJob CliOptions CliDataChannel CliSignalState CliSignal ClientSession Fec ProbeQuality PeerConn Store RawUdp TunnelManager RoomLinks CliAppState CliApp CliCallbacks CliLoop LinkFacts LinkSafety LinkCalls LinkTraffic FecFacts CliAppFacts.

Section Client.
Context `{HL : CryptoLaws} `{HM : CM256} `{HK : Ikcp} {CA : ClientApp}.

(** ** Relations on the application's part *)

(** The operations of the signalling client, for a relation that looks at the
    application only. *)
Class AppOnly (R : CliSignalClient -> CliSignalClient -> Prop) := {
  ao_preorder :: PreOrder R;
  ao_skip c c' : sc_app c' = sc_app c -> R c c'
}.
Context (R : CliSignalClient -> CliSignalClient -> Prop) {HO : AppOnly R}.
Lemma ao_ret {A} (a : A) : moves R (ret a). Proof. apply moves_ret. apply _. Qed.
Lemma ao_throw {A} : moves R (@throw _ A). Proof. apply moves_throw. apply _. Qed.
Lemma ao_gets {A} (f : CliSignalClient -> A) : moves R (gets f). Proof. apply moves_gets. apply _. Qed.
Lemma ao_modify f : (forall c, sc_app (f c) = sc_app c) -> moves R (modify f).
Proof. intros Hf c. apply ao_skip, Hf. Qed.
Lemma ao_take {A} (m : SE ByteBuffer A) b : moves R (take_from m b).
Proof. unfold take_from. destruct (m b) as [[a|] b']; [apply ao_ret|apply ao_throw]. Qed.
#[local] Hint Resolve ao_ret ao_throw ao_gets ao_take : vlan.
#[local] Hint Extern 1 (moves R (modify _)) => by apply ao_modify : vlan.
#[local] Hint Extern 1 (moves R (in_auth _)) => by apply ao_modify : vlan.
#[local] Hint Extern 1 (moves R (in_room _)) => by apply ao_modify : vlan.
#[local] Hint Extern 1 (moves R (in_list _)) => by apply ao_modify : vlan.
#[local] Hint Extern 1 (moves R (in_task _)) => by apply ao_modify : vlan.
#[local] Hint Extern 1 (moves R reset_conn) => by apply ao_modify : vlan.
Lemma ao_conn_step {A} (f : TcpConnection -> A * TcpConnection) : moves R (conn_step f).
Proof. unfold conn_step. walk. Qed.
Lemma ao_random n : moves R (client_random n).
Proof. unfold client_random. walk. Qed.
#[local] Hint Resolve ao_conn_step ao_random : vlan.
Lemma ao_cancel : moves R cancelRoomOperation.
Proof. unfold cancelRoomOperation. walk. Qed.
#[local] Hint Resolve ao_cancel : vlan.
Lemma ao_reset : moves R resetSecureState.
Proof. unfold resetSecureState, resetRoomListState. walk. Qed.
Lemma ao_abandon : moves R abandonRoomOperation.
Proof. unfold abandonRoomOperation. walk. Qed.
#[local] Hint Resolve ao_reset ao_abandon : vlan.
Lemma ao_disconnect : moves R client_disconnect.
Proof. unfold client_disconnect. walk. Qed.
Lemma ao_encrypt p : moves R (client_encrypt p).
Proof. unfold client_encrypt. walk. Qed.
Lemma ao_send_frame t b : moves R (send_frame t b).
Proof. unfold send_frame. walk. Qed.
#[local] Hint Resolve ao_disconnect ao_encrypt ao_send_frame : vlan.
Lemma ao_fire e : moves R (on_event e) -> moves R (CliSignal.fire e).
Proof. intros He. unfold CliSignal.fire. walk. Qed.
#[local] Hint Resolve ao_fire : vlan.

Section Send.
Context (He : forall m, moves R (on_event (OnServerError m))) (Hd : moves R (on_event OnDisconnected)).
Lemma ao_notify : moves R notifyDisconnectedOnce.
Proof. unfold notifyDisconnectedOnce. walk. Qed.
#[local] Hint Resolve ao_notify : vlan.
Lemma ao_drop : moves R drop_connection.
Proof. unfold drop_connection. walk. Qed.
#[local] Hint Resolve ao_drop : vlan.
Lemma ao_sendMsg t b : moves R (client_sendMsg t b).
Proof. unfold client_sendMsg. walk. Qed.
#[local] Hint Resolve ao_sendMsg : vlan.
Lemma ao_sends : AppSends R.
Proof.
  constructor; intros.
  - apply ao_sendMsg.
  - unfold client_createRoom, begin_room_request. walk.
  - unfold client_joinRoom, begin_room_request. walk.
  - unfold client_resumeRoom, begin_room_request. walk.
Qed.
End Send.

Section Call.
Context (Hev : forall e, moves R (on_event e)).
#[local] Hint Resolve ao_notify ao_drop ao_sendMsg : vlan.
Lemma ao_fail_auth code text : moves R (failAuthentication code text).
Proof. unfold failAuthentication. walk. Qed.
#[local] Hint Resolve ao_fail_auth : vlan.
Lemma ao_poll : moves R pollAuthTask.
Proof. unfold pollAuthTask, finish_server_auth, sendAuthResponse. walk. Qed.
Lemma ao_server_auth : moves R sendServerAuth.
Proof. unfold sendServerAuth. walk. Qed.
Lemma ao_page n bb : moves R (read_page n bb).
Proof. revert bb. induction n as [|n IH]; intros bb; cbn [read_page]; walk. Qed.
Lemma ao_fail_frame : moves R failSignalFrame. Proof. by apply ao_drop. Qed.
#[local] Hint Resolve ao_poll ao_server_auth ao_page ao_fail_frame : vlan.
Lemma ao_expected : moves R room_response_expected.
Proof. unfold room_response_expected. walk. Qed.
#[local] Hint Resolve ao_expected : vlan.
Lemma ao_dispatch t payload : moves R (client_dispatch t payload).
Proof.
  unfold client_dispatch, on_server_hello, on_server_auth_ok, on_login_resp, on_room_created, on_join_resp, on_room_list,
    on_room_list_push, on_relay_data, on_pong, on_auth_challenge, on_error, discard_snapshot, emitRoomList,
    client_listRooms. walk.
Qed.
#[local] Hint Resolve ao_dispatch : vlan.
Lemma ao_process t payload : moves R (client_processMessage t payload).
Proof. unfold client_processMessage, process_frame, client_decrypt, process_plain. walk. Qed.
#[local] Hint Resolve ao_process : vlan.
Lemma ao_recv n : moves R (client_recv_loop n).
Proof. induction n as [|n IH]; cbn [client_recv_loop]; walk. Qed.
#[local] Hint Resolve ao_recv : vlan.
Lemma ao_call call : moves R (client_call call).
Proof.
  destruct call; cbn [client_call];
    unfold client_connectTo, setServerPassword, continueServerAuth, login, client_createRoom,
      client_joinRoom, client_resumeRoom, client_leaveRoom, client_logout, client_listRooms, requestRelay,
      client_sendRelayData, client_sendPing, sendAuthResponse, client_onWritable, client_checkTimeouts, client_onReadable,
      sendClientHello, begin_room_request; walk.
Qed.
End Call.
End Client.

(** ** The relations *)

(** An application that ignores every callback. *)
Definition watching_here `{AppState} : ClientApp := {| on_event := fun _ => ret tt; has_onRoomOperationFailure := true |}.

Section Relations.
Context `{HL : CryptoLaws} `{HM : CM256} `{HK : Ikcp}.
#[local] Existing Instance silent_channel_app.

(** The parts of the application keep their invariants. *)
Record parts_ok (a : CliApp) : Prop := mkParts {
  po_lease : lease_ok (ap_lease a);
  po_attempts : attempts_ok (ap_conn a);
  po_tunnel : tm_ok (ap_tunnel a)
}.
Definition keeping (c c' : CliSignalClient) : Prop := parts_ok (sc_app c) -> parts_ok (sc_app c').
(** The callbacks did not nest too deep. *)
Definition calm (c c' : CliSignalClient) : Prop := ap_overrun (sc_app c') = ap_overrun (sc_app c).
(** And the recovery that is under way is still. *)
Definition calmer (c c' : CliSignalClient) : Prop :=
  calm c c' /\ (op_roomRecovery (app_setup c) = true -> op_roomRecovery (app_setup c') = true).
(** The session of the signalling client keeps its invariant. *)
Definition sessional (c c' : CliSignalClient) : Prop := session_ok c -> session_ok c'.

#[export] Instance keeping_only : AppOnly keeping.
Proof.
  split; [split; [intros c Hc; exact Hc|intros c1 c2 c3 H12 H23; unfold keeping in *; auto]|]. intros c c' E. unfold keeping. by rewrite E.
Qed.
#[export] Instance calm_only : AppOnly calm.
Proof.
  split; [split; [done|intros c1 c2 c3 H12 H23; unfold calm in *; congruence]|]. intros c c' E. unfold calm. by rewrite E.
Qed.
#[export] Instance calmer_only : AppOnly calmer.
Proof.
  split; [split; [done|]|].
  - intros c1 c2 c3 [H12 R12] [H23 R23]. split; [unfold calm in *; congruence|auto].
  - intros c c' E. unfold calmer, calm, app_setup. by rewrite E.
Qed.
#[export] Instance sessional_preorder : PreOrder sessional.
Proof. split; [intros c Hc; exact Hc|]. intros c1 c2 c3 H12 H23. unfold sessional in *. auto. Qed.

(** What every step of the tunnels leaves of the state. *)
Lemma tunnel_step_state {A} (m : SE CliTunnelManager A) c :
  snd (tunnel_step m c) = set_sc_app (set_ap_tunnel (set_tm_out [] (snd (m (tunnel_view c)))) (sc_app c)) c.
Proof. destruct (m (tunnel_view c)) as [r t] eqn:E. by rewrite (tunnel_step_eq m c r t E). Qed.
Lemma view_ok c : tm_ok (ap_tunnel (sc_app c)) -> tm_ok (tunnel_view c).
Proof. apply tm_ok_tables. by constructor. Qed.
#[export] Instance keeping_app : AppRelation keeping.
Proof.
  constructor; [apply _|..].
  - intros f [Hf _] c [H1 H2 H3]. destruct (Hf (sc_app c)) as (E1 & E2 & E3 & _).
    constructor; cbn; rewrite ?E1, ?E2; [done| |done]. unfold attempts_ok. by rewrite E3.
  - intros f Hf c [H1 H2 H3]. constructor; cbn; auto.
  - intros f Hf c [H1 H2 H3]. constructor; cbn; auto.
  - intros f c [H1 H2 H3]. constructor; cbn; [done..|]. revert H3. apply tm_ok_tables. by constructor.
  - intros A m Hm c [H1 H2 H3]. rewrite tunnel_step_state. constructor; cbn; [done..|].
    destruct (Hm (tunnel_view c) (view_ok c H3)) as (_ & Hok & _); [by intros i Hi%elem_of_nil|].
    revert Hok. apply tm_ok_tables. by constructor.
  - apply ao_abandon, _.
  - apply ao_disconnect, _.
Qed.
#[export] Instance keeping_recovers : AppRecovers keeping.
Proof.
  constructor. intros f Hf c [H1 H2 H3]. destruct (Hf (sc_app c)) as (E1 & E2 & E3 & _).
  constructor; cbn; rewrite ?E1, ?E2; [done| |done]. unfold attempts_ok. by rewrite E3.
Qed.
#[export] Instance calmer_app : AppRelation calmer.
Proof.
  constructor; [apply _|..].
  - intros f [Hf Hr] c. destruct (Hf (sc_app c)) as (_ & _ & _ & E). split; [exact E|]. unfold app_setup. cbn. by rewrite Hr.
  - by intros f _ c.
  - by intros f _ c.
  - by intros f c.
  - intros A m _ c. by rewrite tunnel_step_state.
  - apply ao_abandon, _.
  - apply ao_disconnect, _.
Qed.
Lemma calmer_calm {A} (m : CS A) : moves calmer m -> moves calm m.
Proof. intros Hm c. apply Hm. Qed.
#[export] Instance calm_app : AppRelation calm.
Proof.
  constructor; [apply _|..]; intros; apply calmer_calm; [by apply ar_plain|by apply ar_lease|by apply ar_conn|
    apply ar_links|by apply ar_tunnel|apply ar_abandon|apply ar_disconnect].
Qed.
#[export] Instance calm_recovers : AppRecovers calm.
Proof. constructor. intros f Hf c. by destruct (Hf (sc_app c)) as (_ & _ & _ & E). Qed.

(** ** The levels of callbacks *)

Lemma at_keeping n e : moves keeping (@on_event _ (app_at n) e).
Proof.
  revert e. induction n as [|n IH]; intros e.
  - intros c []. by constructor.
  - apply ap_event; [apply _..|]. apply ao_sends; [apply _|intros m; apply IH|apply IH].
Qed.
(** From a state with a recovery under way. *)
Definition recovering_calm {A} (m : CS A) : Prop := forall c, op_roomRecovery (app_setup c) = true -> calm c (snd (m c)).
Lemma rc_calm {A} (m : CS A) : moves calm m -> recovering_calm m.
Proof. intros Hm c _. apply Hm. Qed.
Lemma rc_bind {A B} (m : CS A) (k : A -> CS B) :
  moves calmer m -> (forall a, recovering_calm (k a)) -> recovering_calm (bind m k).
Proof.
  intros Hm Hk c Hr. destruct (Hm c) as [H1 H2]. unfold bind. destruct (m c) as [[a|] c']; [|exact H1].
  etrans; [exact H1|]. apply Hk. auto.
Qed.
Ltac recovering := repeat match goal with
  | |- recovering_calm (bind _ _) => apply rc_bind; [|intros ?]
  | |- recovering_calm (if ?b then _ else _) => destruct b
  | |- recovering_calm (ret _) => by apply rc_calm, ap_ret, _
  | |- moves calmer (gets _) => apply ap_gets, _
  end.
Section Level1.
Context (n : nat).
#[local] Instance level1 : ClientApp := app_at (S n).
Lemma level1_error m : moves calmer (on_event (OnServerError m)).
Proof. apply ap_server_error, _. Qed.
Lemma rc_notify : recovering_calm notifyDisconnectedOnce.
Proof.
  unfold notifyDisconnectedOnce. recovering; [by apply ao_modify; [apply _|]|]. unfold CliSignal.fire. recovering.
  - by apply ao_modify; [apply _|].
  - intros c Hc. exact (ap_lost_recovering (CA := app_at n) calm c Hc).
Qed.
Lemma rc_send t b : recovering_calm (client_sendMsg t b).
Proof.
  unfold client_sendMsg. recovering; [apply ao_encrypt, _| | |].
  - apply ao_fire; [apply _|]. apply level1_error.
  - unfold drop_connection. recovering; [by apply ao_modify; [apply _|]|apply ao_reset, _|apply rc_notify].
  - apply rc_calm, ao_send_frame, _.
Qed.
Lemma calm_recover : moves calm recoverRoomOperation.
Proof.
  intros c. unfold recoverRoomOperation. rewrite bind_gets. destruct (_ || _); [done|].
  refine ((_ : moves calm _) c). apply moves_bind; [apply _|apply ap_track, _|intros ok]. clear c.
  intros c. unfold in_setup at 1. unfold in_app at 1. rewrite bind_modify.
  match goal with |- calm _ (snd (?m ?x)) => enough (recovering_calm m) as Hm by (apply (Hm x); reflexivity) end.
  recovering.
  - by apply ar_conn; intros ? ?.
  - apply ap_clearLease, _.
  - apply ar_abandon.
  - apply ap_teardown, _.
  - apply ap_reset, _.
  - apply ap_clear_security, _.
  - by apply ar_conn; intros ? ?.
  - unfold client_logout. recovering; [apply ar_abandon|apply rc_send].
  - apply rc_calm, ap_complete; apply _.
Qed.
Lemma calm_disconnected : moves calm onSignalDisconnected.
Proof.
  pose proof calm_recover. pose proof (ap_complete calm). pose proof (ap_signal_lost calm).
  pose proof (ap_teardown calm). pose proof (ap_reset calm true).
  unfold onSignalDisconnected. apply moves_bind; [apply _|apply ap_gets, _|intros c]. walk.
Qed.
End Level1.
Lemma calm_sends n : AppSends (CA := app_at (S (S n))) calm.
Proof.
  apply ao_sends; [apply _|intros m|exact (calm_disconnected n)]. apply ap_server_error, _.
Qed.
Lemma at_calm n e : moves calm (@on_event _ (app_at (S (S (S n)))) e).
Proof. apply ap_event; [apply _..|apply calm_sends]. Qed.

(** ** The session *)

Lemma steady_app_part {A} (m : CS A) :
  (forall c, sc_conn (snd (m c)) = sc_conn c /\ sc_auth (snd (m c)) = sc_auth c /\
             sc_authOperation (snd (m c)) = sc_authOperation c) -> moves steady m.
Proof.
  intros Hm c. destruct (Hm c) as (E1 & E2 & E3). split; [left; by rewrite E1|]. unfold same_session. by rewrite E2, E3.
Qed.
#[export] Instance steady_app_relation : AppRelation steady.
Proof.
  constructor; [apply _|..]; intros; try (apply steady_app_part; done).
  - apply steady_app_part. intros c. by rewrite tunnel_step_state.
  - apply (so_call (CA := watching_here) (fun e => so_ret tt) CallAbandon). done.
  - apply (so_call (CA := watching_here) (fun e => so_ret tt) CallDisconnect). done.
Qed.
#[export] Instance steady_recovers : AppRecovers steady.
Proof. constructor. intros f _. by apply steady_app_part. Qed.
Lemma steady_sends {CA : ClientApp} : (forall e, moves steady (on_event e)) -> AppSends steady.
Proof.
  intros He. constructor; intros.
  - by apply so_sendMsg.
  - by apply (so_call He (CallCreate name n tcp udp mtu prot password)).
  - by apply (so_call He (CallJoin rid password)).
  - by apply (so_call He (CallResume rid pid token)).
Qed.
Lemma at_steady n e : moves steady (@on_event _ (app_at n) e).
Proof.
  revert e. induction n as [|n IH]; intros e; [by apply steady_app_part|].
  apply ap_event; [apply _..|]. by apply steady_sends.
Qed.

(** ** The event loop *)

Lemma sessional_steady {A} (m : CS A) : moves steady m -> moves sessional m.
Proof. intros Hm c Hc. exact (steady_ok _ _ Hc (Hm c)). Qed.
#[export] Instance sessional_app : AppRelation sessional.
Proof.
  constructor; [apply _|..]; intros; apply sessional_steady; [by apply ar_plain|by apply ar_lease|by apply ar_conn|
    apply ar_links|by apply ar_tunnel|apply ar_abandon|apply ar_disconnect].
Qed.
#[export] Instance sessional_recovers : AppRecovers sessional.
Proof. constructor. intros f Hf. by apply sessional_steady, av_loose. Qed.

#[local] Instance program_app : ClientApp := app_at CALLBACK_DEPTH.
#[export] Instance keeping_sends : AppSends keeping.
Proof. apply ao_sends; [apply _|intros m|]; apply at_keeping. Qed.
#[export] Instance calm_program_sends : AppSends calm.
Proof. apply (calm_sends 1). Qed.
#[export] Instance sessional_sends : AppSends sessional.
Proof.
  destruct (steady_sends (CA := app_at CALLBACK_DEPTH) (at_steady CALLBACK_DEPTH)).
  constructor; intros; by apply sessional_steady.
Qed.
#[export] Instance keeping_runs : AppRuns keeping.
Proof.
  constructor.
  - intros call. apply ao_call; [apply _|apply at_keeping].
  - intros f. by apply ao_modify; [apply _|].
  - intros now mono outs. by apply ao_modify; [apply _|].
  - intros c Ha [H1 H2 H3]. unfold app_conn in Ha. constructor; cbn; [done| |done].
    unfold attempts_ok in *. cbn. lia.
Qed.
#[export] Instance calm_runs : AppRuns calm.
Proof.
  constructor; [|by intros; apply ao_modify; [apply _|]..|done].
  intros call. apply ao_call; [apply _|apply (at_calm 0)].
Qed.
#[export] Instance sessional_runs : AppRuns sessional.
Proof.
  constructor; [|intros f c Hc; exact Hc|intros now mono outs c Hc; exact Hc|intros c _ Hc; exact Hc].
  intros call c Hc. apply session_keeps_call; [apply at_steady|exact Hc].
Qed.

(** Every relation that allows the elementary changes holds from the launch. *)
Definition launch_state (l : Launch) : CliSignalClient :=
  CliSignalClient_init (ln_now l) (ln_monotonic l) (CliApp_init (ln_now l)).
Lemma life_moves R `{!AppRelation R, !AppRecovers R, !AppSends R, !AppRuns R} l turns :
  R (launch_state l) (cli_life l turns).
Proof.
  unfold cli_life. fold (launch_state l). generalize (launch_state l) as c.
  match goal with |- forall c, _ c (snd (?m c)) => change (moves R m) end.
  pose proof (ap_start R (ln_answer l)) as Hs. pose proof (fun t => ap_loop R false t) as Hl.
  apply moves_bind; [apply _| |intros [|]; [apply Hl|by apply ap_ret]].
  unfold cli_launch, cli_setup.
  apply moves_bind; [apply _| |intros _; apply moves_bind; [apply _|apply ar_plain; plainly|intros _; exact Hs]].
  apply moves_bind; [apply _|apply (ap_setServer R)|intros _].
  apply moves_bind; [apply _| |intros _; apply ar_plain; plainly].
  case_match; [by apply ap_ret|apply (ap_setPassword R)].
Qed.

(** ** Theorems *)

(** C5: callbacks do not nest without end.  The client calls the application
    in the middle of its operations and the application calls the client
    back, which may call the application again.  In every run of the program,
    whatever the network, the user and the worker threads do, no callback
    starts inside [CALLBACK_DEPTH] others: the model, which follows them that
    deep, loses nothing, and the recursion ends. *)
Theorem callbacks_bounded (l : Launch) (turns : list Turn) : ap_overrun (sc_app (cli_life l turns)) = false.
Proof. exact (life_moves calm l turns). Qed.

(** C4: the invariants of the program.  In every state of every run: there is
    a resume lease with a whole token, or nothing of one is left; the program
    is within its limit of automatic reconnections; a ready session has the
    keys and the id of its master secret; and the tunnels are sound, so that
    whatever the program asks of them next returns without following a pointer
    to a removed peer or tunnel. *)
Theorem program_invariant (l : Launch) (turns : list Turn) :
  let c := cli_life l turns in
  lease_ok (app_lease c) /\ 0 <= cx_reconnectAttempts (app_conn c) <= MAX_RECONNECT_ATTEMPTS /\
  session_ok c /\ tm_ok (ap_tunnel (sc_app c)) /\
  forall k, fst (link_call k (tunnel_view c)) = Some tt.
Proof.
  cbv zeta. assert (parts_ok (sc_app (cli_life l turns))) as [H1 H2 H3].
  { apply (life_moves keeping l turns). constructor; [done|by vm_compute|by constructor]. }
  split_and!; [done|apply H2..| |done|].
  - apply (life_moves sessional l turns). by intros ?.
  - intros k. destruct (sf_call k (tunnel_view _) (view_ok _ H3)) as ([[] E] & _); [by intros i Hi%elem_of_nil|done].
Qed.
End Relations.

(** ** Instances *)

#[local] Existing Instances ToyCrypto ToyCryptoLaws rep_CM256 ToyKcp.
Definition demo_environment : Environment :=
  mkEnvironment [(5, true); (6, true)] [] [Some (bytes_of_string "10.1.1.1", 0x0A010101)] [].
Definition demo_launch : Launch :=
  mkLaunch 1000 1000 (bytes_of_string "play.example") 9000 (bytes_of_string "Player01") [bytes_of_string "secret-99"]
    demo_environment [].
Definition no_socket : SocketTurn := mkSocketTurn None None (0, 0, false).
Definition no_workers : WorkerTurn := mkWorkers [] [].
(** A turn in which the signalling socket reports [signal] at time [now]. *)
Definition demo_turn (now : Z) (signal : SocketTurn) : Turn :=
  mkTurn now now false [Some (replicate 16 7); Some (replicate 32 9)] demo_environment no_workers signal no_socket None
    [] [] [] false [] no_workers [] (mkTun false []).
(** The connection is established and lost again; the program waits and makes
    another attempt. *)
Definition demo_turns : list Turn :=
  [demo_turn 1010 (mkSocketTurn (Some (0, 0, false)) None (0, 0, false));
   demo_turn 2000 (mkSocketTurn None (Some []) (0, 0, false));
   demo_turn 3000 no_socket].
Lemma program_invariant_witness :
  let c := cli_life demo_launch demo_turns in
  cx_reconnectAttempts (app_conn c) = 1 /\ signal_fd c = 6 /\ lease_ok (app_lease c) /\ session_ok c.
Proof.
  cbv zeta. split; [by vm_compute|]. split; [by vm_compute|].
  destruct (program_invariant demo_launch demo_turns) as (H1 & _ & H3 & _). split; [exact H1|exact H3].
Defined.
