(* ===== verification/CliRoomFacts.v ===== *)
(** * Leaving and preparing a room

    What remains of a room after the user disconnects, and what becomes of the
    worker that prepares the virtual adapter when it ends at a bad moment. *)

From S2P Require Import Prelude Protocol ByteBuf Room SecureFrame Overlay TcpConn AuthKdf RoomOp TunJob CliOptions CliDataChannel CliSignalState CliSignal Fec ProbeQuality PeerConn Store RawUdp TunnelManager RoomLinks CliAppState CliApp CliCallbacks CliLoop LinkFacts LinkSafety LinkCalls LinkTraffic FecFacts CliAppFacts CliAppSafety.

Section Rooms.
Context `{HL : CryptoLaws} `{HM : CM256} `{HK : Ikcp} {CA : ClientApp}.
#[local] Existing Instance silent_channel_app.

(** ** The flag of a ready room *)

(** [m_roomReady] stays as it is. *)
Definition ready_kept (c c' : CliSignalClient) : Prop := la_roomReady (app_links c') = la_roomReady (app_links c).
#[export] Instance ready_kept_only : AppOnly ready_kept.
Proof.
  split; [split; [done|intros c1 c2 c3 H12 H23; unfold ready_kept in *; congruence]|].
  intros c c' E. unfold ready_kept, app_links. by rewrite E.
Qed.
Lemma rk_app f : (forall a, la_roomReady (tm_app (CliAppState.ap_tunnel (f a))) = la_roomReady (tm_app (CliAppState.ap_tunnel a))) ->
  moves ready_kept (in_app f).
Proof. intros Hf c. apply Hf. Qed.
#[local] Hint Resolve ao_ret ao_throw ao_gets : vlan.
#[local] Hint Extern 1 (moves ready_kept client_disconnect) => apply ao_disconnect; apply _ : vlan.
#[local] Hint Extern 1 (moves ready_kept resetSecureState) => apply ao_reset; apply _ : vlan.
#[local] Hint Extern 1 (moves ready_kept (conn_step _)) => apply ao_conn_step; apply _ : vlan.
#[local] Hint Extern 2 (moves ready_kept (modify _)) => by apply ao_modify; [apply _|] : vlan.
#[local] Hint Extern 1 (moves ready_kept (in_auth _)) => by apply ao_modify; [apply _|] : vlan.
#[local] Hint Extern 1 (moves ready_kept (in_task _)) => by apply ao_modify; [apply _|] : vlan.
#[local] Hint Extern 1 (moves ready_kept (in_app _)) => by apply rk_app : vlan.
#[local] Hint Extern 1 (moves ready_kept (in_lease _)) => by apply rk_app : vlan.
#[local] Hint Extern 1 (moves ready_kept (in_saved _)) => by apply rk_app : vlan.
#[local] Hint Extern 1 (moves ready_kept (in_conn _)) => by apply rk_app : vlan.
#[local] Hint Extern 1 (moves ready_kept (in_setup _)) => by apply rk_app : vlan.
#[local] Hint Extern 1 (moves ready_kept (in_tracker _)) => by apply rk_app : vlan.
#[local] Hint Extern 1 (moves ready_kept (in_links _)) => by apply rk_app : vlan.
#[local] Hint Extern 1 (moves ready_kept clearResumeLease) => by apply rk_app : vlan.

(** A silent program of the tunnels that leaves the flag alone. *)
Lemma rk_tunnel {A} (m : SE CliTunnelManager A) :
  mute m -> moves (fun t t' => la_roomReady (tm_app t') = la_roomReady (tm_app t)) m -> moves ready_kept (in_tunnel m).
Proof.
  intros Hm Hr c. specialize (Hm (tunnel_view c)). specialize (Hr (tunnel_view c)).
  destruct (m (tunnel_view c)) as [r t] eqn:E. unfold in_tunnel. unfold bind at 1. rewrite (tunnel_step_eq m c r t E).
  replace (tm_out t) with (@nil LinkEvent) by exact (eq_sym Hm). cbn. destruct r; exact Hr.
Qed.
#[local] Instance same_ready_preorder : PreOrder (fun t t' : CliTunnelManager => la_roomReady (tm_app t') = la_roomReady (tm_app t)).
Proof. split; [done|]. intros a b c Hab Hbc. congruence. Qed.
#[local] Ltac tunnel_ready := repeat first
  [ done | apply moves_gets; apply _ | apply moves_ret; apply _
  | match goal with |- moves _ (modify _) => intros ?; reflexivity end | step_prog ].
Lemma rk_teardown_links : moves ready_kept (in_tunnel teardown_links).
Proof.
  apply rk_tunnel; [apply mute_teardown|]. unfold teardown_links, stopDataPlane, removeAllPeers, upd_app. tunnel_ready.
Qed.
Lemma rk_tunnel_clear : moves ready_kept (in_tunnel tm_clearSecurityContext).
Proof. apply rk_tunnel; [apply mute_clear|]. unfold tm_clearSecurityContext. tunnel_ready. Qed.
Lemma rk_endpoint ip port : moves ready_kept (in_tunnel (setServerEndpoint ip port)).
Proof. apply rk_tunnel; [apply mute_endpoint|]. unfold setServerEndpoint. tunnel_ready. Qed.
Lemma rk_data {A} (m : SE CliDataChannel A) : hushed m -> moves ready_kept (in_data m).
Proof.
  intros Hm c. specialize (Hm (channel_view c)). destruct (m (channel_view c)) as [r d] eqn:E.
  unfold in_data. unfold bind at 1. rewrite (data_step_eq m c r d E).
  replace (dc_events d) with (@nil ChannelEvent) by exact (eq_sym Hm). by destruct r.
Qed.
Lemma rk_data_clear : moves ready_kept (in_data dc_clearSecurityContext).
Proof. apply rk_data, hushed_clear. Qed.
Lemma rk_data_disconnect : moves ready_kept (in_data dc_disconnect).
Proof. apply rk_data, hushed_disconnect. Qed.
#[local] Hint Resolve rk_teardown_links rk_tunnel_clear rk_endpoint rk_data_clear rk_data_disconnect : vlan.
Lemma rk_finish : moves ready_kept finish_unless_job.
Proof. unfold finish_unless_job. walk. Qed.
#[local] Hint Resolve rk_finish : vlan.
Lemma rk_teardown : moves ready_kept teardownTun.
Proof. unfold teardownTun. walk. Qed.
Lemma rk_lease_clear : moves ready_kept clear_security.
Proof. unfold clear_security. walk. Qed.
#[local] Hint Resolve rk_teardown rk_lease_clear : vlan.
Lemma rk_complete : moves ready_kept completeRoomRecovery.
Proof. unfold completeRoomRecovery. walk. Qed.
#[local] Hint Resolve rk_complete : vlan.
Lemma rk_finishDisconnect : moves ready_kept finishGracefulDisconnect.
Proof. unfold finishGracefulDisconnect, stop_when_clean, forget_room. walk. Qed.
Lemma rk_connect : moves ready_kept doConnect.
Proof.
  unfold doConnect, drop_unusable_lease, may_resume, hasUsableResumeLease, expireResumeLeaseIfNeeded,
    connect_resolved, retry_later, retry_after, next_connect, next_result, setServerPassword, client_connectTo. walk.
Qed.

(** ** Theorems *)

Lemma unexpected_ready c : la_roomReady (app_links c) = true -> response_unexpected c = true.
Proof. intros Hr. unfold response_unexpected. rewrite Hr. by rewrite ?orb_true_r. Qed.
(** A logout that is answered: the connection is closed and the program is
    free to connect again. *)
Lemma logged_out c : op_roomRecovery (app_setup c) = false -> cx_logoutPending (app_conn c) = true ->
  cx_exitAfterDisconnect (app_conn c) = false ->
  onLogoutAck c = finishGracefulDisconnect c.
Proof. intros Hr Hp He. unfold onLogoutAck. by rewrite bind_gets, Hr, Hp. Qed.

(** C36: [disconnect] leaves the next room unusable.  [m_roomReady] is not
    reset when a logout is answered ([finishGracefulDisconnect] forgets
    [m_currentRoomId] and the rest of the room, not this flag), and not when the
    user connects again.  While it is set, the answer to a request to create
    or join a room is ignored, whatever it says, so after [disconnect] in a
    room the first room request of the next connection always runs into its
    deadline. *)
Theorem stale_room_ready (c : CliSignalClient) :
  la_roomReady (app_links c) = true -> op_roomRecovery (app_setup c) = false ->
  cx_logoutPending (app_conn c) = true ->
  let c1 := snd (onLogoutAck c) in
  let c2 := snd (doConnect c1) in
  la_roomReady (app_links c1) = true /\ la_roomReady (app_links c2) = true /\
  forall c3, la_roomReady (app_links c3) = true ->
    (forall rid vip tcp udp mtu prot token, app_onRoomCreated rid vip tcp udp mtu prot token c3 = (Some tt, c3)) /\
    (forall rid vip tcp udp mtu prot members token,
       app_onJoinResponse rid vip tcp udp mtu prot members token c3 = (Some tt, c3)).
Proof.
  intros Hready Hrec Hp. cbv zeta.
  assert (la_roomReady (app_links (snd (onLogoutAck c))) = true) as H1.
  { unfold onLogoutAck. rewrite bind_gets, Hrec, Hp. cbn [when]. by rewrite (rk_finishDisconnect c). }
  split; [exact H1|]. split; [by rewrite (rk_connect _)|]. intros c3 H3. apply unexpected_ready in H3.
  split; intros; unfold app_onRoomCreated, app_onJoinResponse; by rewrite bind_gets, H3.
Qed.

Definition with_setup (f : RoomSetup -> RoomSetup) (c : CliSignalClient) : CliSignalClient :=
  @set_sc_app app_host (set_ap_room (f (app_setup c)) (sc_app c)) c.
Lemma bind_setup {B} f (k : unit -> CS B) c : bind (in_setup f) k c = k tt (with_setup f c).
Proof. reflexivity. Qed.
Lemma bind_return {A B} (a : A) (k : A -> CS B) c : bind (ret a) k c = k a c.
Proof. reflexivity. Qed.
Lemma poll_idle adapter between c : op_tunJob (app_setup c) = None -> t_deadline (op_roomOperation (app_setup c)) = 0 ->
  pollRoomOperation adapter between c = (Some tt, c).
Proof.
  intros Hj Hd. unfold pollRoomOperation. rewrite bind_gets, Hj, bind_return, bind_gets.
  unfold app_expired, expired. rewrite Hd. cbn [negb andb Z.eqb when]. rewrite bind_return, bind_gets.
  unfold has_job. rewrite Hj. rewrite bool_decide_false by (by intros [? ?]). done.
Qed.

(** an outcome of the worker can be lost.  [pollRoomOperation] takes the
    worker's events and then asks whether it is done.  If the worker reports
    its failure and ends between the two, the job is dropped with the report:
    the tracker is idle again, the room stays "being prepared" and no later
    poll does anything about it. *)
Theorem setup_outcome_lost (c : CliSignalClient) adapter between job :
  op_tunJob (app_setup c) = Some job -> tj_events job = [] -> tj_done (fold_left job_worker between job) = true ->
  la_tunSetupPending (app_links c) = true -> op_roomRecovery (app_setup c) = false ->
  la_roomReady (app_links c) = false -> cx_logoutPending (app_conn c) = false ->
  let c' := snd (pollRoomOperation adapter between c) in
  op_tunJob (app_setup c') = None /\ app_phase c' = Idle /\ la_tunSetupPending (app_links c') = true /\
  forall adapter' between', pollRoomOperation adapter' between' c' = (Some tt, c').
Proof.
  intros Hj Hev Hd Hp Hr Hready Hl. cbv zeta.
  assert (set_tj_events [] job = job) as Ej by (destruct job; cbn in Hev; by rewrite Hev).
  set (c' := with_setup (fun o => set_op_roomOperation (finishCleanup (op_roomOperation o)) (set_op_tunJob None o)) c).
  assert (pollRoomOperation adapter between c = (Some tt, c')) as ->.
  { rewrite <- (poll_idle adapter between c') by done. unfold pollRoomOperation at 1. rewrite bind_gets, Hj.
    unfold job_popAll. rewrite Hev, Ej. cbn [fst snd for_each]. rewrite !bind_assoc, bind_setup, bind_assoc, bind_return.
    unfold run_job. rewrite bind_assoc, bind_setup, bind_assoc, bind_gets.
    match goal with |- _ ?x = _ => set (c2 := x) end.
    assert (op_tunJob (app_setup c2) = Some (fold_left job_worker between job)) as -> by done.
    rewrite Hd. cbn [when]. rewrite bind_assoc, bind_setup.
    change (op_roomRecovery (app_setup c2)) with (op_roomRecovery (app_setup c)).
    change (la_roomReady (app_links c2)) with (la_roomReady (app_links c)).
    change (cx_logoutPending (app_conn c2)) with (cx_logoutPending (app_conn c)).
    rewrite Hr, Hready, Hl. cbn [negb andb when]. unfold in_tracker. rewrite bind_setup. reflexivity. }
  split_and!; [done|done|exact Hp|]. intros adapter' between'. by apply poll_idle.
Qed.
End Rooms.

(** ** Instances *)

#[local] Existing Instances ToyCrypto ToyCryptoLaws rep_CM256 ToyKcp.
#[local] Instance demo_app : ClientApp := app_at CALLBACK_DEPTH.
(** A client in a room, after its logout. *)
Definition demo_links (f : AppLinks -> AppLinks) (a : CliApp) : CliApp :=
  set_ap_tunnel (set_tm_app (f (tm_app (CliAppState.ap_tunnel a))) (CliAppState.ap_tunnel a)) a.
Definition demo_leaving : CliSignalClient :=
  CliSignalClient_init 1000 1000
    (demo_links (set_la_roomReady true) (set_ap_conn (set_cx_logoutPending true (set_cx_manualDisconnecting true Reconnection_init))
      (CliApp_init 1000))).
Lemma stale_room_ready_witness :
  la_roomReady (app_links demo_leaving) = true /\ op_roomRecovery (app_setup demo_leaving) = false /\
  cx_logoutPending (app_conn demo_leaving) = true /\
  cx_manualDisconnecting (app_conn (snd (onLogoutAck demo_leaving))) = false /\
  la_roomReady (app_links (snd (doConnect (snd (onLogoutAck demo_leaving))))) = true.
Proof.
  split; [reflexivity|]. split; [reflexivity|]. split; [reflexivity|]. split; [by vm_compute|].
  exact (proj1 (proj2 (stale_room_ready demo_leaving eq_refl eq_refl eq_refl))).
Defined.
(** A client whose worker is about to report that the adapter failed. *)
Definition demo_failing : CliTunLifecycleJob :=
  set_tj_pc (JFail "prepare-adapter" None) (CliTunLifecycleJob_init 1 0x0A0A0002 1400 None).
Definition demo_preparing : CliSignalClient :=
  CliSignalClient_init 1000 1000
    (demo_links (set_la_tunSetupPending true)
      (set_ap_room (set_op_tunSetupGeneration 1 (set_op_tunJob (Some demo_failing) RoomSetup_init)) (CliApp_init 1000))).
Definition demo_between : list (option (Z * NativeResult)) :=
  [Some (1000, NativeFailed (bytes_of_string "no driver")); Some (1000, NativeOk); Some (1000, NativeOk); Some (1000, NativeOk)].
Lemma setup_outcome_lost_witness :
  te_kind <$> last (tj_events (job_worker demo_failing (Some (1000, NativeFailed (bytes_of_string "no driver"))))) = Some TunFailed /\
  tj_done (fold_left job_worker demo_between demo_failing) = true /\
  la_tunSetupPending (app_links (snd (pollRoomOperation (mkTun true []) demo_between demo_preparing))) = true.
Proof.
  split; [reflexivity|]. split; [reflexivity|].
  exact (proj1 (proj2 (proj2 (setup_outcome_lost demo_preparing (mkTun true []) demo_between demo_failing
    eq_refl eq_refl eq_refl eq_refl eq_refl eq_refl eq_refl)))).
Defined.
