(* ===== verification/KcpFacts.v ===== *)
(** * The receive loop of a KCP tunnel ends

    [CliKcpTunnel::tryRecv] takes messages until none is left, and hands each
    to a callback that may send through tunnels, this one included.  Sending
    adds nothing to receive, so the segments waiting when the loop starts are
    enough fuel for it. *)

From S2P Require Import Prelude Protocol Room SecureFrame Overlay TcpConn CliSignalState Fec FecFacts ProbeQuality PeerConn Store RawUdp TunnelManager RoomLinks LinkFacts LinkTraffic.

Section Fuel.
Context `{Crypto} `{CM256} `{IkcpLaws}.

Definition waiting (key : Z) (s : CliTunnelManager) : option nat :=
  (fun o : Owned CliKcpTunnel => kcp_received (kt_kcp (ow_tunnel o))) <$> tm_kcpByPeerClass s !! key.
(** Nothing is received on any tunnel. *)
Definition receives_nothing (s s' : CliTunnelManager) : Prop := forall key, waiting key s' = waiting key s.
#[export] Instance receives_preorder : PreOrder receives_nothing.
Proof. split; [by intros s key|]. intros s1 s2 s3 E1 E2 key. by rewrite E2. Qed.

Lemma wt_ret {A} (a : A) : moves receives_nothing (ret a).
Proof. apply moves_ret. apply _. Qed.
Lemma wt_gets {A} (f : CliTunnelManager -> A) : moves receives_nothing (gets f).
Proof. apply moves_gets. apply _. Qed.
Lemma wt_throw {A} : moves receives_nothing (@throw _ A).
Proof. apply moves_throw. apply _. Qed.
Lemma wt_modify f : (forall s, tm_kcpByPeerClass (f s) = tm_kcpByPeerClass s) -> moves receives_nothing (modify f).
Proof. intros Hf s key. unfold waiting. cbn. by rewrite Hf. Qed.
#[local] Hint Resolve wt_ret wt_gets wt_throw : vlan.
#[local] Hint Extern 1 (moves receives_nothing (modify _)) => apply wt_modify; reflexivity : vlan.
Lemma wt_udpSend data ip port : moves receives_nothing (udpSend data ip port).
Proof.
  unfold udpSend, tm_encrypt, send_datagram, sendto, reportSend, recordPacketDrop, stopDataPlane, fire. walk.
Qed.
#[local] Hint Resolve wt_udpSend : vlan.
Lemma wt_raw_send key data : moves receives_nothing (rawTunnel_send key data).
Proof. unfold rawTunnel_send, deref_raw, deref, put_raw, udp_out. walk. Qed.
Lemma wt_kcp_send key data : moves receives_nothing (kcpTunnel_send key data).
Proof.
  intros s. unfold kcpTunnel_send, deref_kcp, deref. rewrite bind_assoc, bind_gets.
  destruct (tm_kcpByPeerClass s !! key) as [o|] eqn:Eo; [|done]. cbn [bind ret].
  assert (kcp_received (kt_kcp (snd (kcp_send data (ow_tunnel o)))) = kcp_received (kt_kcp (ow_tunnel o))) as Er.
  { unfold kcp_send. destruct (_ && _); [done|].
    pose proof (send_receives_nothing data (kt_kcp (ow_tunnel o))) as E. by destruct (ikcp_send _ _). }
  destruct (kcp_send data (ow_tunnel o)) as [r t]. cbn [snd] in Er. unfold put_kcp. rewrite bind_modify.
  intros k. unfold waiting. cbn. rewrite lookup_alter. case_decide as E; [subst k|done]. rewrite Eo. cbn. by rewrite Er.
Qed.
#[local] Hint Resolve wt_raw_send wt_kcp_send : vlan.
Lemma wt_tunnel_data id cls data : moves receives_nothing (onTunnelDataReceived id cls data).
Proof.
  unfold onTunnelDataReceived, handleLatencyProbe, sendControlPacket, onPeerDataReceived, routeToTun, writePacket,
    recordPacketDrop, tcpRelaySend, upd_quality, upd_peer, deref_peer, deref, fire. walk.
Qed.

Lemma tryRecv_loop_fuel n m key s k :
  waiting key s = Some k -> (k < n)%nat -> (k < m)%nat -> tryRecv_loop n key s = tryRecv_loop m key s.
Proof.
  revert m s k. induction n as [|n IH]; intros [|m] s k Hk Hn Hm; [lia..|]. cbn [tryRecv_loop].
  unfold deref_kcp, deref. rewrite !bind_assoc, !bind_gets. unfold waiting in Hk.
  destruct (tm_kcpByPeerClass s !! key) as [o|] eqn:Eo; [|done]. cbn [bind ret]. injection Hk as Hk.
  pose proof (recv_consumes KCP_RECV_BUFFER (kt_kcp (ow_tunnel o))) as Hc.
  destruct (ikcp_recv KCP_RECV_BUFFER (kt_kcp (ow_tunnel o))) as [[[|b p]|] k'] eqn:Er; [done| |done].
  specialize (Hc _ _ eq_refl). unfold put_kcp. rewrite !bind_modify. set (s1 := set_tm_kcpByPeerClass _ s).
  assert (waiting key s1 = Some (kcp_received k')) as Hw.
  { unfold waiting, s1. cbn. by rewrite lookup_alter_eq, Eo. }
  match goal with |- bind ?m _ s1 = _ => set (h := m) end.
  assert (moves receives_nothing h) as Hh.
  { unfold h. pose proof wt_tunnel_data. destruct (_ && _); auto with vlan. }
  unfold bind. specialize (Hh s1 key). destruct (h s1) as [[[]|] s2]; [|done]. cbn [snd] in Hh.
  apply (IH m s2 (kcp_received k')); [congruence|lia|lia].
Qed.

(** C21: the receive loop of a KCP tunnel ends: the segments waiting in its
    control block, plus one, are enough turns, and more make no difference. *)
Theorem tryRecv_terminates (key : Z) (s : CliTunnelManager) (o : Owned CliKcpTunnel) (extra : nat) :
  tm_kcpByPeerClass s !! key = Some o ->
  tryRecv key s = tryRecv_loop (S (kcp_received (kt_kcp (ow_tunnel o))) + extra) key s.
Proof.
  intros Ho. unfold tryRecv, deref_kcp, deref. rewrite bind_assoc, bind_gets, Ho. cbn [bind ret].
  apply (tryRecv_loop_fuel _ _ key s (kcp_received (kt_kcp (ow_tunnel o)))); [|lia|lia].
  unfold waiting. by rewrite Ho.
Qed.
End Fuel.

#[local] Existing Instances ToyCrypto rep_CM256 ToyKcp ToyKcpLaws.
(** A manager with a KCP tunnel to peer 3 on which two messages wait. *)
Definition demo_tunnel_of (k : ikcpcb) : Owned CliKcpTunnel :=
  mkOwned 3 TRAFFIC_UDP (set_kt_kcp k (CliKcpTunnel_init 0 1 100 11510 FEC_NONE 1400 KCP_PROFILE_REALTIME TRAFFIC_UDP true)).
Definition demo_waiting : CliTunnelManager :=
  set_tm_kcpByPeerClass {[tunnelKey 3 TRAFFIC_UDP := demo_tunnel_of ([], [[0]; [0]])]} CliTunnelManager_init.
Lemma tryRecv_terminates_witness :
  tryRecv (tunnelKey 3 TRAFFIC_UDP) demo_waiting = tryRecv_loop 8 (tunnelKey 3 TRAFFIC_UDP) demo_waiting /\
  waiting (tunnelKey 3 TRAFFIC_UDP) (snd (tryRecv (tunnelKey 3 TRAFFIC_UDP) demo_waiting)) = Some 0%nat.
Proof.
  split; [|vm_compute; reflexivity].
  apply (tryRecv_terminates (tunnelKey 3 TRAFFIC_UDP) demo_waiting (demo_tunnel_of ([], [[0]; [0]])) 5).
  vm_compute. reflexivity.
Defined.
