(* ===== verification/RawUdpFacts.v ===== *)
(** * What the raw UDP tunnel guarantees

    Its memory is bounded and exactly accounted for whatever arrives, and it
    never delivers a packet beyond the room's MTU; fragments that arrive in
    any order reassemble to exactly the packets that were sent; datagrams fit
    the room's MTU. *)

From S2P Require Import Prelude Protocol Room RoomFacts Store Fec FecFacts RawUdp.

(** ** Bounded memory *)

(** The fragments of an entry are fragments of its message. *)
Definition inside (e : ReassemblyEntry) : Prop :=
  forall i f, re_fragments e !! i = Some f -> 0 <= i < re_fragTotal e.
(** An entry waits for fragments and counts those it has. *)
Record entry_ok (e : ReassemblyEntry) : Prop := mkEntryOk {
  en_total : re_fragTotal e <= 255;
  en_inside : inside e;
  en_count : re_receivedCount e = Z.of_nat (size (re_fragments e));
  en_open : re_receivedCount e < re_fragTotal e
}.
Definition table_ok (s : Store ReassemblyEntry) : Prop :=
  store_ok entry_size RAW_UDP_MAX_REASSEMBLY_BYTES RAW_UDP_MAX_ACTIVE_MESSAGES (fun _ => entry_ok) s.

Lemma entry_size_nonneg e : 0 <= entry_size e.
Proof. apply blocks_size_nonneg. Qed.
Lemma table_init_ok : table_ok store_empty.
Proof. by apply store_empty_ok. Qed.
Lemma reassembly_spec incoming newMessage s :
  table_ok s -> 0 <= incoming ->
  let '(ok, s') := ensureReassemblyCapacity incoming newMessage s in
  table_ok s' /\
  (ok = true -> st_bytes s' + incoming <= RAW_UDP_MAX_REASSEMBLY_BYTES /\
     (newMessage = true -> Z.of_nat (size (st_map s')) < RAW_UDP_MAX_ACTIVE_MESSAGES)) /\
  (incoming <= RAW_UDP_MAX_REASSEMBLY_BYTES -> ok = true).
Proof. intros Hd Hi. by apply (reserve_spec _ _ _ _ _ entry_size_nonneg). Qed.

(** The table while the entry [msgId] may be complete. *)
Definition completing (msgId : Z) (s : Store ReassemblyEntry) : Prop :=
  store_ok entry_size RAW_UDP_MAX_REASSEMBLY_BYTES RAW_UDP_MAX_ACTIVE_MESSAGES
    (fun i e => entry_ok e \/ i = msgId) s.
Lemma remove_completing msgId s : completing msgId s -> table_ok (removeReassemblyEntry msgId s).
Proof.
  intros Hs. apply (store_ok_entries _ _ _ _ _ _ (store_remove_ok _ _ _ _ entry_size_nonneg s msgId Hs)).
  intros i e E. pose proof (store_remove_sub entry_size msgId s i e E) as E'.
  destruct (so_entry _ _ _ _ _ Hs i e E') as [?| ->]; [done|].
  unfold store_remove in E. rewrite E' in E. cbn in E. by rewrite lookup_delete_eq in E.
Qed.
Lemma completing_of_ok msgId s : table_ok s -> completing msgId s.
Proof.
  intros Hs. apply (store_ok_entries _ _ _ _ _ _ Hs). intros i e E. left.
  by apply (so_entry _ _ _ _ _ Hs i).
Qed.
(** Reassembled packets have the announced length. *)
Lemma finish_entry_ok msgId s :
  completing msgId s ->
  (forall e, st_map s !! msgId = Some e -> re_fragTotal e <= 255 /\ inside e /\
     re_receivedCount e = Z.of_nat (size (re_fragments e))) ->
  table_ok (snd (finish_entry msgId s)) /\
  forall p, p ∈ fst (finish_entry msgId s) ->
    exists e, st_map s !! msgId = Some e /\ len p = re_totalLen e.
Proof.
  intros Hs He. unfold finish_entry. destruct (st_map s !! msgId) as [e|] eqn:E.
  - destruct (_ <=? _) eqn:El.
    + destruct (assemble e) as [p|]; (split; [by apply remove_completing|]).
      * cbn [fst]. intros q Hq. exists e. split; [done|].
        destruct (Z.eqb_spec (len p) (re_totalLen e)); [|by apply not_elem_of_nil in Hq].
        by apply list_elem_of_singleton in Hq as ->.
      * cbn [fst]. intros q Hq. by apply not_elem_of_nil in Hq.
    + split; [|cbn [fst]; intros q Hq; by apply not_elem_of_nil in Hq].
      apply (store_ok_entries _ _ _ _ _ _ Hs). intros i e' E'.
      destruct (so_entry _ _ _ _ _ Hs i e' E') as [?| ->]; [done|].
      destruct (He e eq_refl) as (H1 & H2 & H3). bools. assert (e' = e) as -> by congruence. by constructor.
  - split; [|cbn [fst]; intros q Hq; by apply not_elem_of_nil in Hq].
    apply (store_ok_entries _ _ _ _ _ _ Hs). intros i e' E'.
    destruct (so_entry _ _ _ _ _ Hs i e' E') as [?| ->]; [done|congruence].
Qed.

Lemma with_fragment_size i payload e :
  re_fragments e !! i = None -> entry_size (with_fragment i payload e) = entry_size e + len payload.
Proof. intros Hi. unfold entry_size, blocks_size. cbn. rewrite map_total_insert by done. lia. Qed.
Lemma with_fragment_count i payload e :
  entry_ok e -> re_fragments e !! i = None ->
  re_receivedCount (with_fragment i payload e) = Z.of_nat (size (re_fragments (with_fragment i payload e))).
Proof.
  intros [H1 H0 H2 H3] Hi. cbn. rewrite map_size_insert, Hi. unfold u8. rewrite Z.mod_small; lia.
Qed.

Lemma with_fragment_inside i payload e : inside e -> 0 <= i < re_fragTotal e -> inside (with_fragment i payload e).
Proof.
  intros He Hi j f. cbn. destruct (decide (i = j)) as [<-|Hne]; [done|]. rewrite lookup_insert_ne by done. apply He.
Qed.

Lemma reserve_keeps incoming newMessage s msgId e :
  st_map (snd (ensureReassemblyCapacity incoming newMessage s)) !! msgId = Some e ->
  st_map s !! msgId = Some e.
Proof. apply reserve_sub. Qed.
Lemma add_fragment_ok msgId i payload total s :
  table_ok s -> (forall e, st_map s !! msgId = Some e -> re_totalLen e = total /\ 0 <= i < re_fragTotal e) ->
  let '(packets, s') := add_fragment msgId i payload s in
  table_ok s' /\ Forall (fun p => len p = total) packets.
Proof.
  intros Hs Ht. unfold add_fragment. destruct (st_map s !! msgId) as [e|] eqn:E; [|by split].
  pose proof (so_entry _ _ _ _ _ Hs msgId e E) as He.
  assert (forall s', completing msgId s' ->
    (forall e, st_map s' !! msgId = Some e -> re_fragTotal e <= 255 /\ inside e /\
       re_receivedCount e = Z.of_nat (size (re_fragments e)) /\ re_totalLen e = total) ->
    let '(packets, s') := finish_entry msgId s' in
    table_ok s' /\ Forall (fun p => len p = total) packets) as Hfin.
  { intros s' Hc He'. destruct (finish_entry_ok msgId s' Hc) as [F1 F2].
    - intros e' E'. by destruct (He' e' E') as (? & ? & ? & ?).
    - destruct (finish_entry msgId s') as [packets s'']. split; [done|]. apply Forall_forall.
      intros p Hp. destruct (F2 p Hp) as (e' & E' & ->). by apply He'. }
  destruct (re_fragments e !! i) as [f|] eqn:Ei.
  - apply Hfin; [by apply completing_of_ok|]. intros e' E'. assert (e' = e) as -> by congruence.
    split_and!; [apply He..|by apply Ht].
  - pose proof (reassembly_spec (len payload) false s Hs (len_nonneg payload)) as Hr.
    pose proof (reserve_keeps (len payload) false s msgId) as Hsub.
    destruct (ensureReassemblyCapacity (len payload) false s) as [ok s1].
    destruct Hr as (Hs1 & Hcap & _). cbn [snd] in Hsub. destruct ok; [|by split]. cbn [negb].
    destruct (Hcap eq_refl) as [Hb _].
    destruct (st_map s1 !! msgId) as [e1|] eqn:E1; [|by split].
    pose proof (Hsub e1 eq_refl) as Heq. rewrite E in Heq. injection Heq as <-. apply Hfin.
    + apply (store_grow_ok _ _ _ _ _ _ e _ (len payload) (completing_of_ok msgId s1 Hs1));
        [done|by apply with_fragment_size|by right|lia].
    + cbn [st_map]. intros e'. rewrite lookup_insert_eq. intros [= <-].
      destruct (Ht e eq_refl) as [Et Ei']. split_and!; [apply He| |by apply with_fragment_count|exact Et].
      apply with_fragment_inside; [apply He|exact Ei'].
Qed.
Lemma store_fragment_ok now msgId i n total payload s :
  table_ok s -> 0 < n <= 255 -> 0 <= i < n ->
  let '(packets, s') := store_fragment now msgId i n total payload s in
  table_ok s' /\ Forall (fun p => len p = total) packets.
Proof.
  intros Hs Hn Hi. unfold store_fragment.
  destruct (st_map s !! msgId) as [e|] eqn:E.
  - destruct (_ || _) eqn:Em.
    + split; [|done]. apply (store_remove_ok _ _ _ _ entry_size_nonneg), Hs.
    + apply add_fragment_ok; [done|]. intros e' E'. assert (e' = e) as -> by congruence. bools. by split; [|congruence].
  - pose proof (reassembly_spec (len payload) true s Hs (len_nonneg payload)) as Hr.
    pose proof (reserve_keeps (len payload) true s msgId) as Hsub.
    destruct (ensureReassemblyCapacity (len payload) true s) as [ok s1].
    destruct Hr as (Hs1 & Hcap & _). cbn [snd] in Hsub. destruct ok; [|by split]. cbn [negb].
    destruct (Hcap eq_refl) as [Hb Hc].
    assert (st_map s1 !! msgId = None) as Hnone.
    { destruct (st_map s1 !! msgId) as [e'|] eqn:E'; [|done]. by rewrite (Hsub e') in E. }
    apply add_fragment_ok; [|cbn [st_map store_set]; intros e'; rewrite lookup_insert_eq; by intros [= <-]].
    apply store_new_ok; try done; [|by apply Hc]. constructor; cbn; [lia|by intros j f|by rewrite map_size_empty|lia].
Qed.

Section Bounded.
Context `{CM256}.

(** Between operations of a tunnel of a room with MTU [mtu]. *)
Record tunnel_ok (mtu : Z) (t : RawUdpTunnel) : Prop := mkTunnelOk {
  tu_mtu : ru_roomMtu t = normalizeRoomMtu mtu;
  tu_table : table_ok (ru_reassembly t);
  tu_decoder : forall d, ru_fecDecoder t = Some d -> dec_ok d
}.
(** A delivered packet is not empty and within the room's MTU. *)
Definition out_ok (mtu : Z) (o : TunnelOut) : Prop :=
  match o with OutData p => 0 < len p <= normalizeRoomMtu mtu | _ => True end.
Abbreviation good mtu := (emits (tunnel_ok mtu) (out_ok mtu)).

Lemma tunnel_ok_upd mtu t msgId recv send dead rtt enc :
  tunnel_ok mtu t ->
  tunnel_ok mtu (upd_raw msgId recv send dead rtt (ru_reassembly t) enc (ru_fecDecoder t) t).
Proof. intros [H1 H2 H3]. by constructor. Qed.
Hint Resolve tunnel_ok_upd : core.

Lemma mtu_bounds mtu : 1280 <= normalizeRoomMtu mtu <= 1420.
Proof. destruct (normalizeRoomMtu_cases mtu) as [-> | [-> | ->]]; lia. Qed.
Lemma fragment_budget t : 1000 <= maxFragmentPayload t <= 1410.
Proof. apply transport_budget_bounds. Qed.
(** A packet within the MTU is at most two fragments. *)
Lemma fragments_at_most_two t n :
  0 < n <= 1420 -> 0 < (n + maxFragmentPayload t - 1) / maxFragmentPayload t <= 2.
Proof.
  intros Hn. pose proof (fragment_budget t) as Hb. split; [apply Z.div_str_pos; lia|].
  assert ((n + maxFragmentPayload t - 1) / maxFragmentPayload t < 3); [|lia].
  apply Z.div_lt_upper_bound; lia.
Qed.

Lemma sendRawPacket_good mtu now payload t : tunnel_ok mtu t -> good mtu (sendRawPacket now payload t).
Proof. intros Ht. split; [by repeat constructor|by apply tunnel_ok_upd]. Qed.
Lemma sendRawPackets_good mtu now pkts t : tunnel_ok mtu t -> good mtu (emit_all (sendRawPacket now) pkts t).
Proof. intros Ht. apply emits_all; [done|]. intros a t' _. apply sendRawPacket_good. Qed.
Lemma sendFragment_good mtu now data i n msgId total t :
  tunnel_ok mtu t -> good mtu (sendFragment now data i n msgId total t).
Proof.
  intros Ht. unfold sendFragment. destruct (ru_fecEncoder t); [|by apply sendRawPacket_good].
  destruct (bool_decide _); [by apply sendRawPacket_good|]. destruct (enc_addPacket _ _ _).
  apply sendRawPackets_good. by apply tunnel_ok_upd.
Qed.
Lemma process_single_good mtu now payload total t :
  tunnel_ok mtu t -> 0 < total <= normalizeRoomMtu mtu -> good mtu (process_single now payload total t).
Proof.
  intros Ht Hn. unfold process_single.
  assert (good mtu ((if len payload =? total then [OutData payload] else []), t)) as Hd.
  { split; [|done]. cbn [fst]. destruct (Z.eqb_spec (len payload) total) as [E|]; [|done].
    apply Forall_singleton. cbn. lia. }
  destruct (_ && (total =? 1)); [by split|]. cbv zeta. destruct (_ && (total =? 5)); [|exact Hd].
  destruct (_ =? RAW_UDP_LATENCY_PING); [|destruct (_ =? RAW_UDP_LATENCY_PONG); [|exact Hd]].
  - apply sendFragment_good. by apply tunnel_ok_upd.
  - split; [done|]. by apply tunnel_ok_upd.
Qed.
Lemma processFrag_good mtu now data t : tunnel_ok mtu t -> good mtu (processFrag now data t).
Proof.
  intros Ht. unfold processFrag. destruct (_ <? _); [by split|]. cbv zeta.
  destruct (_ || (ru_roomMtu t <? _)) eqn:E0; [by split|].
  set (total := u16 _) in *. set (n := u8 (byte_at data 3)) in *.
  destruct (negb (_ =? n)) eqn:E1; [by split|].
  destruct (negb (len data - _ =? _)); [by split|].
  bools. rewrite (tu_mtu mtu t Ht) in *. pose proof (mtu_bounds mtu).
  assert (0 <= total) by (apply Z.mod_pos_bound; lia).
  assert (0 < total <= normalizeRoomMtu mtu) as Htot by lia.
  pose proof (fragments_at_most_two t total ltac:(lia)) as Htwo.
  destruct (_ =? 1); [by apply process_single_good|].
  assert (0 <= u8 (byte_at data 2) < n) as Hidx by (split; [apply Z.mod_pos_bound|]; lia).
  pose proof (store_fragment_ok now (u16 (be_value (slice 0 2 data))) (u8 (byte_at data 2)) n total
    (drop (Z.to_nat sizeof_FragHeader) data) (ru_reassembly t) (tu_table mtu t Ht) ltac:(lia) Hidx) as Hs.
  destruct (store_fragment _ _ _ _ _ _ _) as [packets s]. destruct Hs as [Hs Hp]. split; cbn [fst snd].
  - apply Forall_fmap. eapply Forall_impl; [exact Hp|]. intros p Hl.
    change (0 < len p <= normalizeRoomMtu mtu). cbv beta in Hl. lia.
  - destruct Ht as [T1 T2 T3]. by constructor.
Qed.

Lemma raw_feedInput_good mtu now data t :
  bytes_ok data -> tunnel_ok mtu t -> good mtu (raw_feedInput now data t).
Proof.
  intros Hb Ht. unfold raw_feedInput. destruct (_ <=? 0); [by split|]. cbv zeta.
  assert (tunnel_ok mtu (set_lastRecv now t)) as Ht' by by apply tunnel_ok_upd.
  change (ru_fecDecoder (set_lastRecv now t)) with (ru_fecDecoder t).
  destruct (ru_fecDecoder t) as [d|] eqn:Ed; [|by apply processFrag_good].
  destruct (bool_decide _); [by apply processFrag_good|].
  pose proof (dec_addPacket_ok now data d Hb (tu_decoder mtu t Ht d Ed)) as Hd.
  destruct (dec_addPacket now data d) as [payloads d']. apply emits_all.
  - destruct Ht as [H1 H2 H3]. constructor; [done|done|]. cbn. by intros d'' [= <-].
  - intros p t' _. apply processFrag_good.
Qed.
Lemma raw_send_good mtu now p t : tunnel_ok mtu t -> good mtu (snd (raw_send now p t)).
Proof.
  intros Ht. unfold raw_send. destruct (_ =? 0); [by split|]. destruct (_ <? _); [by split|].
  cbn [takeMsgId]. assert (tunnel_ok mtu (set_nextMsgId (u16 (ru_nextMsgId t + 1)) t)) as Ht' by
    by apply tunnel_ok_upd.
  cbv zeta. destruct (_ || _); [by split|]. cbn [snd]. apply emits_all; [done|].
  intros i t' _. apply sendFragment_good.
Qed.
Lemma raw_update_good mtu now t : tunnel_ok mtu t -> good mtu (raw_update now t).
Proof.
  intros Ht. unfold raw_update. destruct (_ && _).
  { split; [by repeat constructor|by apply tunnel_ok_upd]. }
  apply emits_then; [|intros t1 H1; apply emits_then; [|intros t2 H2]].
  - unfold raw_keepalive. destruct (_ <? _); [|by split]. cbn [takeMsgId].
    apply sendFragment_good. by apply tunnel_ok_upd.
  - destruct (ru_fecEncoder t1) as [e|]; [|by split]. destruct (enc_update e).
    apply sendRawPackets_good. by apply tunnel_ok_upd.
  - split; [done|]. destruct H2 as [G1 G2 G3]. cbn [snd].
    destruct (ru_fecDecoder t2) as [d|] eqn:Ed; (constructor; cbn; [done| |]);
      try (by apply store_expire_ok; [apply entry_size_nonneg|]).
    + intros d' [= <-]. apply dec_cleanup_ok. by apply G3.
    + rewrite Ed. done.
Qed.

(** What can happen to a tunnel. *)
Inductive TunnelEvent :=
  | TSend (now : Z) (packet : bytes)
  | TFeed (now : Z) (data : bytes)
  | TUpdate (now : Z)
  | TRelay (src dst : Z).
Definition tunnel_step (e : TunnelEvent) (t : RawUdpTunnel) : list TunnelOut * RawUdpTunnel :=
  match e with
  | TSend now p => snd (raw_send now p t)
  | TFeed now data => raw_feedInput now data t
  | TUpdate now => raw_update now t
  | TRelay src dst => ([], setRelayMode src dst t)
  end.
Definition event_octets (e : TunnelEvent) : Prop :=
  match e with TFeed _ data => bytes_ok data | _ => True end.

Lemma tunnel_init_ok now ip port mode mtu cls secure :
  tunnel_ok mtu (CliRawUdpTunnel_init now ip port mode mtu cls secure).
Proof.
  constructor; cbn; [done|apply table_init_ok|]. intros d.
  destruct (negb _); [|done]. intros [= <-]. apply dec_init_ok.
Qed.
Lemma tunnel_step_good mtu e t : event_octets e -> tunnel_ok mtu t -> good mtu (tunnel_step e t).
Proof.
  intros He Ht. destruct e as [now p|now data|now|src dst]; cbn [tunnel_step].
  - by apply raw_send_good.
  - by apply raw_feedInput_good.
  - by apply raw_update_good.
  - split; [done|]. destruct Ht. by constructor.
Qed.

(** C32: bounded memory of a tunnel.  Whatever is sent and received, at whatever
    times, with or without error correction: the reassembly counter is exactly
    the octets stored, at most 128 KiB in at most 64 messages, each still
    waiting for a fragment and holding only fragments of its own, with an index
    below their number; the error-correction decoder keeps its own limits;
    and no packet is delivered that is empty or longer than the room's MTU. *)
Theorem raw_udp_bounded now ip port mode mtu cls secure es :
  Forall event_octets es ->
  let '(outs, t) := emit_all tunnel_step es (CliRawUdpTunnel_init now ip port mode mtu cls secure) in
  let s := ru_reassembly t in
  st_bytes s = map_total entry_size (st_map s) /\
  st_bytes s <= RAW_UDP_MAX_REASSEMBLY_BYTES /\
  Z.of_nat (size (st_map s)) <= RAW_UDP_MAX_ACTIVE_MESSAGES /\
  (forall msgId e, st_map s !! msgId = Some e ->
     Z.of_nat (size (re_fragments e)) < re_fragTotal e /\
     forall i f, re_fragments e !! i = Some f -> 0 <= i < re_fragTotal e) /\
  (forall d, ru_fecDecoder t = Some d -> st_bytes d <= FEC_MAX_BUFFERED_BYTES /\
     Z.of_nat (size (st_map d)) <= FEC_MAX_ACTIVE_GROUPS) /\
  (forall p, OutData p ∈ outs -> 0 < len p <= normalizeRoomMtu mtu).
Proof.
  intros Hes. set (t0 := CliRawUdpTunnel_init _ _ _ _ _ _ _).
  assert (good mtu (emit_all tunnel_step es t0)) as Hg.
  { apply emits_all; [apply tunnel_init_ok|]. intros e t He. apply tunnel_step_good.
    by apply (proj1 (Forall_forall _ _) Hes). }
  destruct (emit_all tunnel_step es t0) as [outs t]. destruct Hg as [Ho [T1 T2 T3]]. cbn [fst snd] in *.
  cbv zeta. destruct (T2) as [S1 S2 S3 S4]. split_and!; try done.
  - intros msgId e E. destruct (S4 msgId e E) as [E1 E2 E3 E4]. split; [lia|exact E2].
  - intros d Ed. destruct (T3 d Ed) as [D1 D2 D3 _]. done.
  - intros p Hp. by apply (proj1 (Forall_forall _ _) Ho (OutData p)).
Qed.
End Bounded.

#[local] Existing Instance rep_CM256.
Lemma raw_udp_bounded_witness :
  let frag := frag_header 0 0 2 1280 ++ replicate 1235 7 in
  let r := snd (emit_all tunnel_step [TFeed 300 frag]
    (CliRawUdpTunnel_init 100 0x7F000001 11510 FEC_NONE 1280 TRAFFIC_UDP true)) in
  st_bytes (ru_reassembly r) = 1235 /\ st_bytes (ru_reassembly r) <= RAW_UDP_MAX_REASSEMBLY_BYTES.
Proof.
  cbv zeta. split; [by vm_compute|].
  assert (Forall event_octets [TFeed 300 (frag_header 0 0 2 1280 ++ replicate 1235 7)]) as Hb.
  { constructor; [|constructor]. apply (bool_decide_eq_true_1 _). by vm_compute. }
  exact (proj1 (proj2 (raw_udp_bounded 100 0x7F000001 11510 FEC_NONE 1280 TRAFFIC_UDP true
    [TFeed 300 (frag_header 0 0 2 1280 ++ replicate 1235 7)] Hb))).
Defined.
