(* ===== verification/Reassembly.v ===== *)
(** * Fragments in any order

    The messages of a sender, their fragments, and what a receiving tunnel
    makes of any subset of them in any order: an invariant that ties the
    reassembly table and the packets delivered so far to the set of fragments
    that arrived. *)

From S2P Require Import Prelude Protocol Room RoomFacts Store Fec FecFacts RawUdp RawUdpFacts.

Section Reassembly.
(** [ms]: the messages with their identifiers; [mp]: the fragment payload. *)
Context (ms : list (Z * bytes)) (mp mtu : Z)
  (Hids : NoDup ms.*1) (Hcount : len ms <= RAW_UDP_MAX_ACTIVE_MESSAGES)
  (Hms : forall m p, (m, p) ∈ ms -> 20 <= len p <= mtu)
  (Hmp : 1000 <= mp <= 1410) (Hmtu : mtu <= 1420).

Definition frag_count (p : bytes) : Z := (len p + mp - 1) / mp.
Definition chunk (p : bytes) (i : Z) : bytes := slice (i * mp) (Z.min mp (len p - i * mp)) p.

Lemma frag_count_bounds p :
  20 <= len p <= mtu -> 1 <= frag_count p <= 2 /\ mp * (frag_count p - 1) < len p <= mp * frag_count p.
Proof.
  intros Hp. unfold frag_count. pose proof (Z.div_mod (len p + mp - 1) mp ltac:(lia)) as Hd.
  pose proof (Z.mod_pos_bound (len p + mp - 1) mp ltac:(lia)) as Hm.
  set (q := (len p + mp - 1) / mp) in *. split; nia.
Qed.
Lemma len_chunk p i :
  20 <= len p <= mtu -> 0 <= i < frag_count p ->
  len (chunk p i) = (if i + 1 =? frag_count p then len p - mp * (frag_count p - 1) else mp) /\
  1 <= len (chunk p i) <= 1410.
Proof.
  intros Hp Hi. destruct (frag_count_bounds p Hp) as [Hn Hb]. unfold chunk.
  rewrite len_slice by nia. destruct (Z.eqb_spec (i + 1) (frag_count p)) as [E|E]; nia.
Qed.
Lemma concat_chunks p k :
  concat (map (chunk p) (seqZ 0 (Z.of_nat k))) = take (Z.to_nat (Z.of_nat k * mp)) p.
Proof.
  induction k as [|k IH]; [done|].
  rewrite seqZ_S, map_app, concat_app, IH. cbn [map concat]. rewrite app_nil_r, Z.add_0_l.
  replace (Z.to_nat (Z.of_nat (S k) * mp))
    with (Z.to_nat (Z.of_nat k * mp) + Z.to_nat mp)%nat by lia.
  rewrite <- take_take_drop. f_equal. unfold chunk, slice.
  pose proof (length_drop p (Z.to_nat (Z.of_nat k * mp))) as Hl.
  destruct (Z.le_gt_cases mp (len p - Z.of_nat k * mp)).
  - by rewrite Z.min_l by lia.
  - unfold len in *. rewrite !take_ge by lia. done.
Qed.
Lemma chunks_all p : 20 <= len p <= mtu -> concat (map (chunk p) (seqZ 0 (frag_count p))) = p.
Proof.
  intros Hp. destruct (frag_count_bounds p Hp) as [Hn Hb].
  rewrite <- (Z2Nat.id (frag_count p)) by lia. rewrite concat_chunks. apply take_ge.
  unfold len in *. lia.
Qed.

(** ** The table of a receiver that got the fragments [D] *)

Abbreviation arrived := (gset (Z * Z)).
Definition complete (D : arrived) (mp : Z * bytes) : Prop :=
  Forall (fun i => (mp.1, i) ∈ D) (seqZ 0 (frag_count mp.2)).
#[export] Instance complete_dec D x : Decision (complete D x).
Proof. unfold complete. apply _. Defined.
Lemma complete_spec D m p : complete D (m, p) <-> forall i, 0 <= i < frag_count p -> (m, i) ∈ D.
Proof.
  unfold complete. rewrite Forall_forall. setoid_rewrite elem_of_seqZ. cbn.
  split; intros H i Hi; apply H; lia.
Qed.

Definition holds (D : arrived) (m : Z) (p : bytes) (e : ReassemblyEntry) : Prop :=
  re_totalLen e = len p /\ re_fragTotal e = frag_count p /\
  forall i, re_fragments e !! i = if decide ((m, i) ∈ D) then Some (chunk p i) else None.
Record table (D : arrived) (s : Store ReassemblyEntry) : Prop := mkTable {
  tb_ok : table_ok s;
  tb_range : forall m i, (m, i) ∈ D -> exists p, (m, p) ∈ ms /\ 0 <= i < frag_count p;
  tb_entry : forall m e, st_map s !! m = Some e ->
    exists p, (m, p) ∈ ms /\ 1 < frag_count p /\ holds D m p e;
  tb_none : forall m p, (m, p) ∈ ms -> st_map s !! m = None ->
    (forall i, (m, i) ∉ D) \/ complete D (m, p)
}.

Lemma same_packet m p q : (m, p) ∈ ms -> (m, q) ∈ ms -> p = q.
Proof.
  intros Hp Hq. apply list_elem_of_lookup in Hp as [i Hi]. apply list_elem_of_lookup in Hq as [j Hj].
  assert (i = j) as ->; [|congruence].
  apply (NoDup_lookup ms.*1 i j m); [done| |]; rewrite list_lookup_fmap.
  - by rewrite Hi.
  - by rewrite Hj.
Qed.
(** An entry has at most one fragment, of at most 1410 octets. *)
Lemma entry_bound D s m e : table D s -> st_map s !! m = Some e -> entry_size e <= 1410.
Proof.
  intros Ht He. destruct (tb_entry _ _ Ht m e He) as (p & Hin & _ & E1 & E2 & E3).
  destruct (so_entry _ _ _ _ _ (tb_ok _ _ Ht) m e He) as [_ O2 O3].
  destruct (frag_count_bounds p (Hms m p Hin)) as [Hn _].
  assert (entry_size e <= 1410 * Z.of_nat (size (re_fragments e))); [|lia].
  apply map_total_le. intros i x Hx. rewrite E3 in Hx.
  destruct (decide ((m, i) ∈ D)) as [Hd|]; [|done]. injection Hx as <-.
  unfold chunk, slice, len. rewrite length_take. lia.
Qed.
Lemma table_ids D s : table D s -> dom (st_map s) ⊆ list_to_set ms.*1.
Proof.
  intros Ht m Hm. apply elem_of_dom in Hm as [e He].
  destruct (tb_entry _ _ Ht m e He) as (p & Hin & _).
  apply elem_of_list_to_set, list_elem_of_fmap. by exists (m, p).
Qed.
(** There is always room for one more fragment. *)
Lemma table_bytes D s : table D s -> 0 <= st_bytes s <= 64 * 1410.
Proof.
  intros Ht. split; [apply (store_bytes_nonneg _ _ _ _ entry_size_nonneg _ (tb_ok _ _ Ht))|].
  assert (st_bytes s <= 1410 * Z.of_nat (size (st_map s))) as Hb.
  { rewrite (so_exact _ _ _ _ _ (tb_ok _ _ Ht)). apply map_total_le.
    intros k e He. by apply (entry_bound D s k). }
  pose proof (so_count _ _ _ _ _ (tb_ok _ _ Ht)) as Hc. unfold RAW_UDP_MAX_ACTIVE_MESSAGES in Hc. lia.
Qed.
Lemma room incoming newMessage s :
  0 <= st_bytes s <= 64 * 1410 -> 0 <= incoming <= 1410 ->
  (newMessage = true -> Z.of_nat (size (st_map s)) < RAW_UDP_MAX_ACTIVE_MESSAGES) ->
  ensureReassemblyCapacity incoming newMessage s = (true, s).
Proof.
  intros Hb Hi Hn. apply reserve_fits; [lia| |lia|done]. unfold RAW_UDP_MAX_REASSEMBLY_BYTES. lia.
Qed.
Lemma table_count D s m p :
  table D s -> (m, p) ∈ ms -> st_map s !! m = None ->
  Z.of_nat (size (st_map s)) < RAW_UDP_MAX_ACTIVE_MESSAGES.
Proof.
  intros Ht Hin Hm. assert ({[m]} ∪ dom (st_map s) ⊆ list_to_set ms.*1) as Hs.
  { apply union_subseteq. split; [|by apply (table_ids D)].
    apply singleton_subseteq_l, elem_of_list_to_set, list_elem_of_fmap. by exists (m, p). }
  apply subseteq_size in Hs. rewrite size_union in Hs.
  - rewrite size_singleton, size_dom, size_list_to_set, length_fmap in Hs by done.
    unfold len, RAW_UDP_MAX_ACTIVE_MESSAGES in *. lia.
  - by apply disjoint_singleton_l, not_elem_of_dom.
Qed.

(** ** One fragment *)

Lemma holds_indices D s m p e :
  table D s -> (m, p) ∈ ms -> holds D m p e ->
  forall i, i ∈ dom (re_fragments e) <-> (m, i) ∈ D.
Proof.
  intros Ht Hin (E1 & E2 & E3) i. rewrite elem_of_dom, E3.
  destruct (decide ((m, i) ∈ D)); split; [done|by eexists|by intros []|done].
Qed.
(** With one more fragment, all are there exactly when the count says so. *)
Lemma holds_full D m p e :
  (forall i, (m, i) ∈ D -> 0 <= i < frag_count p) -> 0 <= frag_count p -> holds D m p e ->
  frag_count p <= Z.of_nat (size (re_fragments e)) <-> complete D (m, p).
Proof.
  intros Hr Hn (E1 & E2 & E3). rewrite <- size_dom, complete_spec.
  assert (forall i, i ∈ dom (re_fragments e) <-> (m, i) ∈ D) as Hd.
  { intros i. rewrite elem_of_dom, E3.
    destruct (decide ((m, i) ∈ D)); split; [done|by eexists|by intros []|done]. }
  split.
  - intros Hs i Hi. apply Hd. apply (full_range _ (frag_count p)); [|done|done].
    intros j Hj. by apply Hr, Hd.
  - intros Hc. apply range_size; [done|]. intros i Hi. by apply Hd, Hc.
Qed.
Lemma holds_add D m p i e :
  holds D m p e -> holds ({[(m, i)]} ∪ D) m p (with_fragment i (chunk p i) e).
Proof.
  intros (E1 & E2 & E3). split; [done|]. split; [done|]. intros j. cbn.
  destruct (decide (j = i)) as [->|Hj].
  - rewrite lookup_insert_eq, decide_True by set_solver. done.
  - rewrite lookup_insert_ne, E3 by done.
    destruct (decide ((m, j) ∈ D)), (decide ((m, j) ∈ {[(m, i)]} ∪ D)); try done; set_solver.
Qed.
Lemma holds_other D m p i k e : m <> k -> holds D m p e -> holds ({[(k, i)]} ∪ D) m p e.
Proof.
  intros Hne (E1 & E2 & E3). split; [done|]. split; [done|]. intros j. rewrite E3.
  destruct (decide ((m, j) ∈ D)), (decide ((m, j) ∈ {[(k, i)]} ∪ D)); try done; set_solver.
Qed.
Lemma assemble_complete D m p e :
  20 <= len p <= mtu -> holds D m p e -> complete D (m, p) -> assemble e = Some p.
Proof.
  intros Hp (E1 & E2 & E3) Hc. unfold assemble. rewrite E2.
  assert (mapM (fun i => re_fragments e !! i) (seqZ 0 (frag_count p)) =
          Some (map (chunk p) (seqZ 0 (frag_count p)))) as ->.
  { apply mapM_Some. apply Forall2_fmap_r, Forall_Forall2_diag, Forall_forall.
    intros i Hi%elem_of_seqZ. rewrite E3, decide_True; [done|].
    apply (proj1 (complete_spec D m p) Hc). lia. }
  cbn. by rewrite chunks_all.
Qed.

(** The fragment [i] of the message [m], known to the table as [e]. *)
Lemma add_fragment_step D s m p i e :
  table_ok s -> st_map s !! m = Some e -> holds D m p e -> (m, i) ∉ D -> 20 <= len p <= mtu ->
  (forall j, (m, j) ∈ {[(m, i)]} ∪ D -> 0 <= j < frag_count p) ->
  ensureReassemblyCapacity (len (chunk p i)) false s = (true, s) ->
  let D' := {[(m, i)]} ∪ D in
  let s' := mkStore (<[m := with_fragment i (chunk p i) e]> (st_map s)) (st_bytes s + len (chunk p i)) in
  add_fragment m i (chunk p i) s =
    if decide (complete D' (m, p)) then ([p], removeReassemblyEntry m s') else ([], s').
Proof.
  intros Hs He Hh Hi Hp Hr Hroom D' s'.
  pose proof (so_entry _ _ _ _ _ Hs m e He) as Hok.
  assert (re_fragments e !! i = None) as Hnone.
  { destruct Hh as (_ & _ & E3). by rewrite E3, decide_False. }
  pose proof (holds_add D m p i e Hh) as Hh'.
  unfold add_fragment. rewrite He, Hnone, Hroom. cbn [negb]. rewrite He. fold s'.
  unfold finish_entry. cbn [st_map s']. rewrite lookup_insert_eq.
  rewrite with_fragment_count by done.
  assert (re_fragTotal (with_fragment i (chunk p i) e) = frag_count p) as -> by apply Hh'.
  assert (re_totalLen (with_fragment i (chunk p i) e) = len p) as -> by apply Hh'.
  pose proof (holds_full D' m p _ Hr ltac:(destruct (frag_count_bounds p Hp); lia) Hh') as Hf.
  fold D' in Hh'.
  destruct (decide (complete D' (m, p))) as [Hc|Hc].
  - rewrite (proj2 (Z.leb_le _ _)) by by apply Hf.
    rewrite (assemble_complete D' m p _ Hp Hh' Hc). by rewrite Z.eqb_refl.
  - rewrite (proj2 (Z.leb_gt _ _)); [done|]. apply Z.lt_nge. intros Hle. by apply Hc, Hf.
Qed.

(** When the fragment is added, its message has an entry. *)
Lemma entry_ready now D s m p i :
  table D s -> (m, p) ∈ ms -> 0 <= i < frag_count p -> (m, i) ∉ D -> 1 < frag_count p ->
  exists s1 e, table_ok s1 /\ st_map s1 !! m = Some e /\ holds D m p e /\
    store_fragment now m i (frag_count p) (len p) (chunk p i) s = add_fragment m i (chunk p i) s1 /\
    st_bytes s1 = st_bytes s /\ (forall k, k <> m -> st_map s1 !! k = st_map s !! k).
Proof.
  intros Ht Hin Hi Hnew Hmany. pose proof (Hms m p Hin) as Hp.
  destruct (frag_count_bounds p Hp) as [Hn _]. destruct (len_chunk p i Hp Hi) as [_ Hl].
  unfold store_fragment. destruct (st_map s !! m) as [e|] eqn:E.
  - destruct (tb_entry _ _ Ht m e E) as (q & Hq & _ & Hh). rewrite <- (same_packet m p q) in Hh by done.
    exists s, e. split; [apply (tb_ok _ _ Ht)|]. split; [done|]. split; [done|].
    destruct Hh as (E1 & E2 & _). by rewrite E1, E2, !Z.eqb_refl.
  - destruct (tb_none _ _ Ht m p Hin E) as [Hno|Hc].
    2: { exfalso. by apply Hnew, (proj1 (complete_spec D m p) Hc). }
    rewrite room; [|by apply (table_bytes D)|lia|intros _; by apply (table_count D s m p)].
    cbn [negb]. set (e0 := mkEntry (len p) (frag_count p) 0 now ∅). exists (store_set m e0 s), e0.
    split; [|split; [apply lookup_insert_eq|split; [|split; [done|split; [done|]]]]].
    + apply store_new_ok; [apply (tb_ok _ _ Ht)|done|done| |by apply (table_count D s m p)].
      constructor; cbn; [lia|by intros j f|by rewrite map_size_empty|lia].
    + split; [done|]. split; [done|]. intros j. cbn. rewrite lookup_empty.
      by rewrite decide_False by apply Hno.
    + intros k Hk. cbn. by rewrite lookup_insert_ne.
Qed.
(** The other messages do not notice a fragment of [m]. *)
Lemma other_entry D s s' m i k e :
  table D s -> k <> m -> (forall j, j <> m -> st_map s' !! j = st_map s !! j) ->
  st_map s' !! k = Some e ->
  exists q, (k, q) ∈ ms /\ 1 < frag_count q /\ holds ({[(m, i)]} ∪ D) k q e.
Proof.
  intros Ht Hk Hs E. rewrite Hs in E by done. destruct (tb_entry _ _ Ht k e E) as (q & Hq & Hn & Hh).
  exists q. split; [done|]. split; [done|]. by apply holds_other.
Qed.
Lemma other_none D s s' m i k q :
  table D s -> k <> m -> (forall j, j <> m -> st_map s' !! j = st_map s !! j) -> (k, q) ∈ ms ->
  st_map s' !! k = None -> (forall j, (k, j) ∉ ({[(m, i)]} ∪ D : arrived)) \/ complete ({[(m, i)]} ∪ D) (k, q).
Proof.
  intros Ht Hk Hs Hq E. rewrite Hs in E by done. destruct (tb_none _ _ Ht k q Hq E) as [Hno|Hc].
  - left. intros j. rewrite elem_of_union, elem_of_singleton. naive_solver.
  - right. apply complete_spec. intros j Hj. apply elem_of_union_r.
    by apply (proj1 (complete_spec D k q) Hc).
Qed.
Lemma range_step D s m p i :
  table D s -> (m, p) ∈ ms -> 0 <= i < frag_count p ->
  forall k j, (k, j) ∈ {[(m, i)]} ∪ D -> exists q, (k, q) ∈ ms /\ 0 <= j < frag_count q.
Proof.
  intros Ht Hin Hi k j [[= -> ->]%elem_of_singleton|Hd]%elem_of_union; [by exists p|].
  by apply (tb_range _ _ Ht).
Qed.

Lemma table_step now D s m p i :
  table D s -> (m, p) ∈ ms -> 0 <= i < frag_count p -> (m, i) ∉ D -> 1 < frag_count p ->
  let D' := {[(m, i)]} ∪ D in
  let '(out, s') := store_fragment now m i (frag_count p) (len p) (chunk p i) s in
  out = (if decide (complete D' (m, p)) then [p] else []) /\ table D' s'.
Proof.
  intros Ht Hin Hi Hnew Hmany D'. pose proof (Hms m p Hin) as Hp.
  destruct (frag_count_bounds p Hp) as [Hn _]. destruct (len_chunk p i Hp Hi) as [_ Hl].
  pose proof (store_fragment_ok now m i (frag_count p) (len p) (chunk p i) s (tb_ok _ _ Ht) ltac:(lia) Hi) as Hok.
  pose proof (range_step D s m p i Ht Hin Hi) as Hrange.
  assert (forall j, (m, j) ∈ D' -> 0 <= j < frag_count p) as Hr.
  { intros j Hj. destruct (Hrange m j Hj) as (q & Hq & Hj'). by rewrite (same_packet m p q). }
  destruct (entry_ready now D s m p i) as (s1 & e & Hs1 & He & Hh & Heq & Hbytes & Hothers); try done.
  rewrite Heq in Hok |- *.
  rewrite (add_fragment_step D s1 m p i e) in Hok |- * by
    first [done | apply room; [rewrite Hbytes; by apply (table_bytes D)|lia|done]].
  fold D' in Hok |- *. set (s2 := mkStore _ _) in *.
  assert (forall k, k <> m -> st_map s2 !! k = st_map s !! k) as Hother2.
  { intros k Hk. unfold s2. cbn. rewrite lookup_insert_ne by done. by apply Hothers. }
  assert (st_map (removeReassemblyEntry m s2) = delete m (st_map s2)) as Hrem.
  { unfold removeReassemblyEntry, store_remove, s2. cbn. by rewrite lookup_insert_eq. }
  destruct (decide (complete D' (m, p))) as [Hc|Hc]; cbn [fst snd] in *; (split; [done|]);
    destruct Hok as [Hok _]; constructor; try done.
  - intros k f. rewrite Hrem, lookup_delete_Some. intros [Hk E].
    by apply (other_entry D s s2).
  - intros k q Hq. rewrite Hrem, lookup_delete_None. destruct (decide (k = m)) as [->|Hk].
    + intros _. right. by rewrite (same_packet m q p).
    + intros [?|E]; [done|]. by apply (other_none D s s2).
  - intros k f E. destruct (decide (k = m)) as [->|Hk]; [|by apply (other_entry D s s2)].
    unfold s2 in E. cbn in E. rewrite lookup_insert_eq in E. injection E as <-.
    exists p. split; [done|]. split; [done|]. by apply holds_add.
  - intros k q Hq E. destruct (decide (k = m)) as [->|Hk]; [|by apply (other_none D s s2)].
    unfold s2 in E. cbn in E. by rewrite lookup_insert_eq in E.
Qed.
(** A message of one fragment is not entered in the table. *)
Lemma table_single D s m p :
  table D s -> (m, p) ∈ ms -> frag_count p = 1 ->
  complete ({[(m, 0)]} ∪ D) (m, p) /\ table ({[(m, 0)]} ∪ D) s.
Proof.
  intros Ht Hin Hn.
  assert (complete ({[(m, 0)]} ∪ D) (m, p)) as Hc.
  { apply complete_spec. intros j Hj. replace j with 0 by lia. set_solver. }
  split; [done|]. constructor; [apply (tb_ok _ _ Ht)| | |].
  - apply (range_step D s m p 0); [done|done|lia].
  - intros k e E. destruct (decide (k = m)) as [->|Hk]; [|by apply (other_entry D s s)].
    destruct (tb_entry _ _ Ht m e E) as (q & Hq & Hn' & _). rewrite (same_packet m q p) in Hn' by done. lia.
  - intros k q Hq E. destruct (decide (k = m)) as [->|Hk]; [|by apply (other_none D s s)].
    right. by rewrite (same_packet m q p).
Qed.
End Reassembly.

(** ** The receiving tunnel *)

Section Receiver.
Context `{CM256} (ms : list (Z * bytes)) (mp mtu : Z)
  (Hids : NoDup ms.*1) (Hcount : len ms <= RAW_UDP_MAX_ACTIVE_MESSAGES)
  (Hms : forall m p, (m, p) ∈ ms -> 20 <= len p <= mtu)
  (Hrange : forall m p, (m, p) ∈ ms -> 0 <= m < 65536)
  (Hmp : 1000 <= mp <= 1410) (Hmtu : mtu <= 1420).

(** Fragment [i] of a message, as [sendFragment] frames it. *)
Definition frag_packet (m : Z) (p : bytes) (i : Z) : bytes :=
  frag_header m i (frag_count mp p) (len p) ++ chunk mp p i.

(** A receiver without error correction in a room of this MTU. *)
Definition receiver (r : RawUdpTunnel) : Prop :=
  ru_fecMode r = FEC_NONE /\ ru_roomMtu r = mtu /\ maxFragmentPayload r = mp.

Lemma be2 v : 0 <= v < 65536 -> be_value (be_bytes 2 (u16 v)) = v.
Proof.
  intros Hv. unfold u16. rewrite Z.mod_small by done. apply be_value_small.
  change (256 ^ Z.of_nat 2) with 65536. lia.
Qed.
Lemma single_packet now p r :
  20 <= len p -> process_single now p (len p) r = ([OutData p], r).
Proof.
  intros Hp. unfold process_single. rewrite (proj2 (Z.eqb_neq (len p) 1)), (proj2 (Z.eqb_neq (len p) 5)) by lia.
  by rewrite Z.eqb_refl.
Qed.
Lemma receive_step now D r m p i :
  receiver r -> table ms mp D (ru_reassembly r) -> (m, p) ∈ ms -> 0 <= i < frag_count mp p ->
  (m, i) ∉ D ->
  let D' := {[(m, i)]} ∪ D in
  let '(out, r') := raw_feedInput now (frag_packet m p i) r in
  out = map OutData (if decide (complete mp D' (m, p)) then [p] else []) /\
  receiver r' /\ table ms mp D' (ru_reassembly r').
Proof.
  intros (R1 & R2 & R3) Ht Hin Hi Hnew D'. pose proof (Hms m p Hin) as Hp.
  destruct (frag_count_bounds mp mtu Hmp Hmtu p Hp) as [Hn Hb].
  destruct (len_chunk mp mtu Hmp Hmtu p i Hp Hi) as [Hl Hl2].
  assert (len (frag_packet m p i) = 6 + len (chunk mp p i)) as Hlen.
  { unfold frag_packet. rewrite len_app. done. }
  unfold raw_feedInput. rewrite Hlen, (proj2 (Z.leb_gt _ _)) by lia. cbv zeta.
  set (r1 := set_lastRecv now r).
  assert (match ru_fecDecoder r1 with
          | Some d => if bool_decide (ru_fecMode r1 = FEC_NONE)
              then processFrag now (frag_packet m p i) r1
              else let '(payloads, d0) := dec_addPacket now (frag_packet m p i) d in
                   emit_all (processFrag now) payloads (set_decoder (Some d0) r1)
          | None => processFrag now (frag_packet m p i) r1
          end = processFrag now (frag_packet m p i) r1) as ->.
  { destruct (ru_fecDecoder r1); [|done]. by rewrite bool_decide_true by done. }
  unfold processFrag. rewrite Hlen. unfold sizeof_FragHeader.
  rewrite (proj2 (Z.ltb_ge (6 + _) 6)) by lia. cbv zeta.
  change (slice 0 2 (frag_packet m p i)) with (be_bytes 2 (u16 m)).
  change (slice 4 2 (frag_packet m p i)) with (be_bytes 2 (u16 (len p))).
  change (byte_at (frag_packet m p i) 2) with (u8 i).
  change (byte_at (frag_packet m p i) 3) with (u8 (frag_count mp p)).
  change (drop (Z.to_nat 6) (frag_packet m p i)) with (chunk mp p i).
  rewrite !be2 by (eauto || lia).
  assert (forall x, 0 <= x < 256 -> u8 (u8 x) = x) as Hu8.
  { intros x Hx. unfold u8. rewrite Zmod_mod. by apply Z.mod_small. }
  rewrite !Hu8 by lia.
  assert (u16 m = m) as -> by (apply Z.mod_small; by eapply Hrange).
  assert (u16 (len p) = len p) as -> by (apply Z.mod_small; lia).
  change (ru_roomMtu r1) with (ru_roomMtu r). change (maxFragmentPayload r1) with (maxFragmentPayload r).
  rewrite R2, R3. replace (6 + len (chunk mp p i) - 6) with (len (chunk mp p i)) by lia.
  rewrite (proj2 (Z.leb_gt (len _) 0)), (proj2 (Z.eqb_neq (frag_count mp p) 0)),
    (proj2 (Z.leb_gt (frag_count mp p) i)), (proj2 (Z.eqb_neq (len p) 0)),
    (proj2 (Z.ltb_ge mtu (len p))) by lia. cbn [orb].
  fold (frag_count mp p). rewrite Z.eqb_refl. cbn [negb]. rewrite Hl, Z.eqb_refl. cbn [negb].
  destruct (Z.eqb_spec (frag_count mp p) 1) as [E1|E1].
  - assert (i = 0) as -> by lia.
    assert (chunk mp p 0 = p) as ->.
    { pose proof (chunks_all ms mp mtu Hmp Hmtu p Hp) as Hall. rewrite E1 in Hall.
      change (seqZ 0 1) with [0] in Hall. cbn [map concat] in Hall. by rewrite app_nil_r in Hall. }
    rewrite single_packet by lia.
    destruct (table_single ms mp mtu Hids Hcount Hms Hmp Hmtu D (ru_reassembly r) m p Ht Hin E1) as [Hc Ht'].
    rewrite decide_True by done. by split_and!.
  - pose proof (table_step ms mp mtu Hids Hcount Hms Hmp Hmtu now D (ru_reassembly r) m p i Ht Hin Hi Hnew
      ltac:(lia)) as Hstep.
    change (ru_reassembly r1) with (ru_reassembly r).
    destruct (store_fragment _ _ _ _ _ _ _) as [packets s]. destruct Hstep as [-> Ht'].
    by split_and!.
Qed.

Lemma filter_all {A} (P : A -> Prop) `{forall x, Decision (P x)} (l : list A) : (forall x, x ∈ l -> P x) -> filter P l = l.
Proof.
  induction l as [|x l IH]; intros Hl; [done|]. rewrite filter_cons_True by (apply Hl; left).
  f_equal. apply IH. intros y Hy. apply Hl. by right.
Qed.
(** The packets of which every fragment arrived. *)
Definition delivered (D : gset (Z * Z)) : list bytes := (filter (complete mp D) ms).*2.
Lemma filter_same (D D' : gset (Z * Z)) (l : list (Z * bytes)) :
  (forall x, x ∈ l -> complete mp D' x <-> complete mp D x) ->
  filter (complete mp D') l = filter (complete mp D) l.
Proof.
  induction l as [|x l IH]; intros Hl; [done|]. rewrite !filter_cons, IH.
  - destruct (Hl x ltac:(left)) as [H1 H2].
    destruct (decide (complete mp D' x)), (decide (complete mp D x)); tauto.
  - intros y Hy. apply Hl. by right.
Qed.
Lemma delivered_step D m p i :
  (m, p) ∈ ms -> 0 <= i < frag_count mp p -> (m, i) ∉ D ->
  delivered ({[(m, i)]} ∪ D) ≡ₚ
    (if decide (complete mp ({[(m, i)]} ∪ D) (m, p)) then [p] else []) ++ delivered D.
Proof.
  intros Hin Hi Hnew. unfold delivered.
  apply list_elem_of_split in Hin as (l1 & l2 & Hs). rewrite Hs in Hids |- *.
  rewrite fmap_app, fmap_cons in Hids. apply NoDup_app in Hids as (N1 & N2 & N3).
  apply NoDup_cons in N3 as [N3 N4].
  assert (forall l, m ∉ l.*1 ->
    filter (complete mp ({[(m, i)]} ∪ D)) l = filter (complete mp D) l) as Hsame.
  { intros l Hl. apply filter_same. intros [k q] Hk. rewrite !complete_spec.
    assert (k <> m) as Hne.
    { intros ->. apply Hl, list_elem_of_fmap. by exists (m, q). }
    split; intros Hc j Hj; specialize (Hc j Hj); [|set_solver].
    apply elem_of_union in Hc as [[= -> _]%elem_of_singleton|?]; done. }
  rewrite !filter_app, !filter_cons, !Hsame; [|done|].
  2: { intros Hm. apply (N2 m Hm). left. }
  rewrite (decide_False (P := complete mp D (m, p))).
  2: { intros Hc. by apply Hnew, (proj1 (complete_spec mp D m p) Hc). }
  destruct (decide _); [|done]. rewrite !fmap_app, fmap_cons. cbn [snd].
  by rewrite <- Permutation_middle.
Qed.

Abbreviation key := (Z * bytes * Z)%type (only parsing).
Definition key_id (k : key) : Z * Z := (k.1.1, k.2).
Definition key_packet (k : key) : bytes := frag_packet k.1.1 k.1.2 k.2.
Definition feed_keys : list (Z * key) -> RawUdpTunnel -> list TunnelOut * RawUdpTunnel :=
  emit_all (fun x => raw_feedInput x.1 (key_packet x.2)).
Lemma receive_run D r (ks : list (Z * key)) :
  receiver r -> table ms mp D (ru_reassembly r) ->
  (forall now k, (now, k) ∈ ks -> k.1 ∈ ms /\ 0 <= k.2 < frag_count mp k.1.2 /\ key_id k ∉ D) ->
  NoDup (map key_id ks.*2) ->
  fst (feed_keys ks r) ++ map OutData (delivered D) ≡ₚ
    map OutData (delivered (list_to_set (map key_id ks.*2) ∪ D)).
Proof.
  revert D r. induction ks as [|[now [[m p] i]] ks IH]; intros D r Hr Ht Hks Hnd.
  { cbn. by replace (∅ ∪ D) with D by set_solver. }
  destruct (Hks now (m, p, i) ltac:(left)) as (Hin & Hi & Hnew). cbn [fst snd] in Hin, Hi.
  pose proof (receive_step now D r m p i Hr Ht Hin Hi Hnew) as Hstep.
  unfold feed_keys in *. cbn [emit_all fst snd]. unfold key_packet at 1. cbn [fst snd].
  destruct (raw_feedInput now (frag_packet m p i) r) as [out r']. destruct Hstep as (-> & Hr' & Ht').
  unfold key_id in Hnew. cbn [fst snd] in Hnew.
  cbn [fmap list_fmap map] in Hnd. apply NoDup_cons in Hnd as [Hn1 Hn2].
  unfold key_id at 1 in Hn1. cbn [fst snd] in Hn1.
  assert (forall now k, (now, k) ∈ ks ->
    k.1 ∈ ms /\ 0 <= k.2 < frag_count mp k.1.2 /\ key_id k ∉ ({[(m, i)]} ∪ D : gset (Z * Z))) as Hks'.
  { intros now' k Hk. destruct (Hks now' k ltac:(by right)) as (K1 & K2 & K3).
    split; [done|]. split; [done|]. intros [Heq%elem_of_singleton|?]%elem_of_union; [|done].
    apply Hn1. rewrite <- Heq. apply list_elem_of_fmap. exists k. split; [done|].
    apply list_elem_of_fmap. by exists (now', k). }
  specialize (IH _ r' Hr' Ht' Hks' Hn2). cbn [and_then].
  destruct (emit_all _ ks r') as [out' r'']. cbn [fst] in *.
  cbn [fmap list_fmap map list_to_set snd]. unfold key_id at 1. cbn [fst snd].
  replace ({[(m, i)]} ∪ list_to_set (map key_id ks.*2) ∪ D)
    with (list_to_set (map key_id ks.*2) ∪ ({[(m, i)]} ∪ D)) by set_solver.
  rewrite <- IH, (Permutation_map OutData (delivered_step D m p i Hin Hi Hnew)), map_app.
  rewrite !app_assoc. apply Permutation_app_tail, Permutation_app_comm.
Qed.
End Receiver.

(** ** The sending tunnel *)

(** The fragments of messages, in the order they are sent. *)
Definition message_keys (mp : Z) (x : Z * bytes) : list (Z * bytes * Z) :=
  map (pair x) (seqZ 0 (frag_count mp x.2)).
Definition all_keys (mp : Z) (ms : list (Z * bytes)) : list (Z * bytes * Z) :=
  concat (map (message_keys mp) ms).
Lemma elem_all_keys mp ms k :
  k ∈ all_keys mp ms <-> k.1 ∈ ms /\ 0 <= k.2 < frag_count mp k.1.2.
Proof.
  unfold all_keys. rewrite list_elem_of_In, in_concat. setoid_rewrite in_map_iff. destruct k as [x i]. cbn.
  split.
  - intros (l & (y & <- & Hy) & Hk). apply list_elem_of_In in Hk, Hy. unfold message_keys in Hk.
    apply list_elem_of_fmap in Hk as (j & [= -> ->] & Hj%elem_of_seqZ). split; [done|lia].
  - intros [Hx Hi]. exists (message_keys mp x). split.
    + exists x. by rewrite <- list_elem_of_In.
    + apply list_elem_of_In. unfold message_keys. apply list_elem_of_fmap. exists i.
      rewrite elem_of_seqZ. split; [done|lia].
Qed.
Lemma NoDup_all_keys mp ms : NoDup ms.*1 -> NoDup (map key_id (all_keys mp ms)).
Proof.
  induction ms as [|x ms IH]; intros Hnd; [constructor|].
  cbn [fmap list_fmap] in Hnd. apply NoDup_cons in Hnd as [Hx Hnd].
  unfold all_keys. cbn [map concat]. rewrite map_app. apply NoDup_app. split; [|split].
  - unfold message_keys. rewrite map_map. apply NoDup_fmap_2; [|apply NoDup_seqZ].
    intros i j [= ->]. done.
  - intros [m i] Hin Hin'. apply list_elem_of_fmap in Hin as (k & Hk & Hin).
    apply list_elem_of_fmap in Hin' as (k' & Hk' & Hin').
    unfold message_keys in Hin. apply list_elem_of_fmap in Hin as (j & -> & _).
    apply (elem_all_keys mp ms) in Hin' as [Hin' _]. unfold key_id in Hk, Hk'. cbn in Hk.
    injection Hk as -> ->. injection Hk' as Hm _. apply Hx, list_elem_of_fmap. by exists k'.1.
  - by apply IH.
Qed.

Fixpoint messages_from (id : Z) (ps : list bytes) : list (Z * bytes) :=
  match ps with [] => [] | p :: ps => (id, p) :: messages_from (u16 (id + 1)) ps end.
Lemma messages_packets id ps : (messages_from id ps).*2 = ps.
Proof. revert id. induction ps as [|p ps IH]; intros id; [done|]. cbn. f_equal. apply IH. Qed.
Lemma messages_ids id ps :
  0 <= id < 65536 -> (messages_from id ps).*1 = map (fun j => u16 (id + j)) (seqZ 0 (len ps)).
Proof.
  revert id. induction ps as [|p ps IH]; intros id Hid; [done|].
  rewrite len_cons, seqZ_cons by (pose proof (len_nonneg ps); lia). cbn [map messages_from fmap list_fmap fst].
  f_equal; [rewrite Z.add_0_r; unfold u16; by rewrite Z.mod_small|].
  replace (Z.pred (1 + len ps)) with (len ps) by lia.
  rewrite (IH (u16 (id + 1))) by (apply Z.mod_pos_bound; lia).
  change (Z.succ 0) with (1 + 0). rewrite <- fmap_add_seqZ. change (@map Z Z) with (@fmap list _ Z Z).
  rewrite <- list_fmap_compose. apply list_fmap_ext. intros _ j _. cbn. unfold u16.
  rewrite Zplus_mod_idemp_l. f_equal. lia.
Qed.
Lemma NoDup_messages id ps : 0 <= id < 65536 -> len ps <= 65536 -> NoDup (messages_from id ps).*1.
Proof.
  intros Hid Hl. rewrite messages_ids by done. apply NoDup_fmap_2_strong; [|apply NoDup_seqZ].
  intros i j Hi%elem_of_seqZ Hj%elem_of_seqZ He. unfold u16 in He.
  pose proof (Z.div_mod (id + i) 65536 ltac:(lia)). pose proof (Z.div_mod (id + j) 65536 ltac:(lia)).
  nia.
Qed.
Lemma messages_range id ps m p : 0 <= id < 65536 -> (m, p) ∈ messages_from id ps -> 0 <= m < 65536.
Proof.
  intros Hid Hin. assert (m ∈ (messages_from id ps).*1) as Hm.
  { apply list_elem_of_fmap. by exists (m, p). }
  rewrite messages_ids in Hm by done. apply list_elem_of_fmap in Hm as (j & -> & _).
  apply Z.mod_pos_bound. lia.
Qed.

Section Sender.
Context `{CM256}.

Lemma sendFragment_plain now data i n m total t :
  ru_fecMode t = FEC_NONE ->
  sendFragment now data i n m total t =
  ([OutUdp (raw_header t ++ frag_header m i n total ++ data) (ru_peerIP t) (ru_peerPort t)], set_lastSend now t).
Proof.
  intros Hf. unfold sendFragment. destruct (ru_fecEncoder t); [|done]. by rewrite bool_decide_true.
Qed.
Lemma emit_sends {A} (f : A -> RawUdpTunnel -> list TunnelOut * RawUdpTunnel) (g : A -> RawUdpTunnel -> TunnelOut) now l t :
  (forall a t, g a (set_lastSend now t) = g a t) ->
  (forall a t, ru_fecMode t = FEC_NONE -> f a t = ([g a t], set_lastSend now t)) ->
  ru_fecMode t = FEC_NONE -> l <> [] ->
  emit_all f l t = (map (fun a => g a t) l, set_lastSend now t).
Proof.
  intros Hg Hf. revert t. induction l as [|a l IH]; intros t Ht Hl; [done|].
  cbn [emit_all]. rewrite Hf by done. cbn [and_then]. destruct l as [|b l]; [done|].
  rewrite (IH (set_lastSend now t)) by done. cbn [map app]. rewrite Hg. f_equal.
  do 2 f_equal. apply map_ext. intros c. apply Hg.
Qed.

(** The tunnel after a packet was sent. *)
Definition after_send (now : Z) (t : RawUdpTunnel) : RawUdpTunnel :=
  set_lastSend now (set_nextMsgId (u16 (ru_nextMsgId t + 1)) t).
Definition frame (t : RawUdpTunnel) (k : Z * bytes * Z) : TunnelOut :=
  OutUdp (raw_header t ++ key_packet (maxFragmentPayload t) k) (ru_peerIP t) (ru_peerPort t).
Lemma raw_send_plain now p t :
  ru_fecMode t = FEC_NONE -> 20 <= len p <= ru_roomMtu t -> ru_roomMtu t <= 1420 ->
  raw_send now p t =
  (len p, (map (frame t) (message_keys (maxFragmentPayload t) (ru_nextMsgId t, p)), after_send now t)).
Proof.
  intros Hf Hp Hm. unfold raw_send. rewrite (proj2 (Z.eqb_neq _ _)), (proj2 (Z.ltb_ge _ _)) by lia.
  cbn [takeMsgId]. cbv zeta. set (t1 := set_nextMsgId _ t).
  change (maxFragmentPayload t1) with (maxFragmentPayload t). set (mp := maxFragmentPayload t).
  fold (frag_count mp p). pose proof (fragment_budget t) as Hb.
  destruct (frag_count_bounds mp 1420 Hb ltac:(lia) p ltac:(lia)) as [Hn _].
  rewrite (proj2 (Z.leb_gt _ _)), (proj2 (Z.ltb_ge _ _)) by lia. cbn [orb]. f_equal.
  rewrite (emit_sends _ (fun i t' => OutUdp (raw_header t' ++ key_packet mp (ru_nextMsgId t, p, i))
    (ru_peerIP t') (ru_peerPort t')) now).
  - f_equal. unfold message_keys. rewrite map_map. done.
  - done.
  - intros i t' Hf'. by rewrite sendFragment_plain.
  - done.
  - intros E. assert (length (seqZ 0 (frag_count mp p)) = 0%nat) as E' by by rewrite E.
    rewrite length_seqZ in E'. lia.
Qed.

(** Packets, each at its time. *)
Definition send_all : list (Z * bytes) -> RawUdpTunnel -> list TunnelOut * RawUdpTunnel :=
  emit_all (fun x t => snd (raw_send x.1 x.2 t)).
Lemma send_all_plain sends t :
  ru_fecMode t = FEC_NONE -> ru_roomMtu t <= 1420 ->
  (forall now p, (now, p) ∈ sends -> 20 <= len p <= ru_roomMtu t) ->
  fst (send_all sends t) =
  map (frame t) (all_keys (maxFragmentPayload t) (messages_from (ru_nextMsgId t) sends.*2)).
Proof.
  revert t. induction sends as [|[now p] sends IH]; intros t Hf Hm Hs; [done|].
  unfold send_all in *. cbn [emit_all fst snd]. rewrite raw_send_plain; [|done|by apply (Hs now); left|done].
  cbn [snd and_then]. specialize (IH (after_send now t) Hf Hm (fun n q H => Hs n q ltac:(by right))).
  destruct (emit_all _ sends (after_send now t)) as [outs t']. cbn [fst] in *. rewrite IH.
  cbn [fmap list_fmap snd messages_from]. unfold all_keys. cbn [map concat]. by rewrite map_app.
Qed.
End Sender.

(** ** From the sender to the receiver *)

(** Entries of a list under distinct indices. *)
Lemma lookup_nth {A} (l : list A) d k : (k < length l)%nat -> l !! k = Some (nth k l d).
Proof. intros Hk. destruct (nth_lookup_or_length l k d); [done|lia]. Qed.
Lemma NoDup_nth_map {A B} (f : A -> B) (l : list A) d ks :
  NoDup (map f l) -> NoDup ks -> (forall k, k ∈ ks -> (k < length l)%nat) ->
  NoDup (map f (map (fun k => nth k l d) ks)).
Proof.
  intros Hl Hks Hr. rewrite map_map. apply NoDup_fmap_2_strong; [|done].
  intros i j Hi%Hr Hj%Hr He.
  apply (NoDup_lookup (map f l) i j (f (nth i l d))); [done| |]; rewrite list_lookup_fmap.
  - by rewrite (lookup_nth l d i).
  - by rewrite (lookup_nth l d j), He.
Qed.

Section Tunnels.
Context `{CM256}.

(** The datagrams of a tunnel's outputs, and their delivery by index: the
    receiver is fed what follows the header of [hdr] octets. *)
Definition datagrams (outs : list TunnelOut) : list bytes :=
  omap (fun o => match o with OutUdp pkt _ _ => Some pkt | _ => None end) outs.
Definition feed_all (hdr : nat) (dgrams : list bytes) : list (Z * nat) -> RawUdpTunnel -> list TunnelOut * RawUdpTunnel :=
  emit_all (fun x => raw_feedInput x.1 (drop hdr (nth x.2 dgrams []))).

Lemma datagrams_frames t ks :
  datagrams (map (frame t) ks) = map (fun k => raw_header t ++ key_packet (maxFragmentPayload t) k) ks.
Proof. unfold datagrams. induction ks as [|k ks IH]; [done|]. cbn [map omap list_omap]. cbn. by f_equal. Qed.
Lemma emit_all_map {O T A B} (f : B -> T -> list O * T) (g : A -> B) l t :
  emit_all f (map g l) t = emit_all (fun a => f (g a)) l t.
Proof.
  revert t. induction l as [|a l IH]; intros t; [done|]. cbn [map emit_all]. unfold and_then.
  destruct (f (g a) t) as [o t']. by rewrite IH.
Qed.
Lemma feed_all_keys t keys ks r d :
  (forall now k, (now, k) ∈ ks -> (k < length keys)%nat) ->
  feed_all (length (raw_header t)) (datagrams (map (frame t) keys)) ks r =
  feed_keys (maxFragmentPayload t) (map (fun x => (x.1, nth x.2 keys d)) ks) r.
Proof.
  intros Hks. unfold feed_all, feed_keys. rewrite emit_all_map. apply emit_all_ext.
  intros [now k] r' Hin. cbn [fst snd]. f_equal. rewrite datagrams_frames.
  rewrite (nth_lookup_Some _ k [] (raw_header t ++ key_packet (maxFragmentPayload t) (nth k keys d))).
  - apply drop_app_length.
  - rewrite list_lookup_fmap, (lookup_nth keys d k); [done|by apply (Hks now)].
Qed.

(** A sender and a receiver without error correction in the same room. *)
Record tunnel_pair (mtu : Z) (t r : RawUdpTunnel) : Prop := mkPair {
  pr_plain : ru_fecMode t = FEC_NONE /\ ru_fecMode r = FEC_NONE;
  pr_mtu : ru_roomMtu t = normalizeRoomMtu mtu /\ ru_roomMtu r = normalizeRoomMtu mtu;
  pr_secure : ru_secureFrames t = ru_secureFrames r;
  pr_msgId : 0 <= ru_nextMsgId t < 65536;
  pr_fresh : ru_reassembly r = store_empty
}.
Lemma receive_sent mtu t r sends ks :
  tunnel_pair mtu t r ->
  (forall now p, (now, p) ∈ sends -> 20 <= len p <= normalizeRoomMtu mtu) ->
  len sends <= RAW_UDP_MAX_ACTIVE_MESSAGES ->
  let mp := maxFragmentPayload t in
  let ms := messages_from (ru_nextMsgId t) sends.*2 in
  let keys := all_keys mp ms in
  datagrams (fst (send_all sends t)) =
    map (fun k => raw_header t ++ key_packet mp k) keys /\
  NoDup (map key_id keys) /\
  (NoDup ks.*2 -> (forall now k, (now, k) ∈ ks -> (k < length keys)%nat) ->
   exists D : gset (Z * Z),
     (forall d k, k ∈ ks.*2 -> key_id (nth k keys d) ∈ D) /\
     fst (feed_all (length (raw_header t)) (datagrams (fst (send_all sends t))) ks r) ≡ₚ
       map OutData (delivered ms mp D)).
Proof.
  intros [[F1 F2] [M1 M2] Hsec Hid Hfresh] Hs Hl mp ms keys.
  pose proof (mtu_bounds mtu) as Hmtu. pose proof (fragment_budget t) as Hb.
  assert (len sends.*2 = len sends) as Hlen by (unfold len; by rewrite length_fmap).
  unfold RAW_UDP_MAX_ACTIVE_MESSAGES in Hl.
  assert (len sends.*2 <= 65536) as Hl' by (rewrite Hlen; lia).
  pose proof (NoDup_messages (ru_nextMsgId t) sends.*2 Hid Hl') as Hnd. fold ms in Hnd.
  rewrite send_all_plain; [|done|rewrite M1; lia|rewrite M1; done]. fold mp ms keys.
  split; [apply datagrams_frames|]. split; [by apply NoDup_all_keys|].
  intros Hks Hr. set (d := ((0, []), 0) : Z * bytes * Z).
  rewrite (feed_all_keys t keys ks r d Hr). fold mp.
  set (ks' := map _ ks).
  assert (ks'.*2 = map (fun k => nth k keys d) ks.*2) as Ek.
  { unfold ks'. clear. induction ks as [|[now k] ks IH]; [done|]. cbn. by f_equal. }
  assert (forall m p, (m, p) ∈ ms -> 20 <= len p <= normalizeRoomMtu mtu) as Hms.
  { intros m p Hin. assert (p ∈ sends.*2) as Hp.
    { rewrite <- (messages_packets (ru_nextMsgId t) sends.*2). apply list_elem_of_fmap. by exists (m, p). }
    apply list_elem_of_fmap in Hp as ([now q] & -> & Hq). by apply (Hs now). }
  exists (list_to_set (map key_id ks'.*2)). split.
  { intros d' k Hk. apply elem_of_list_to_set, list_elem_of_fmap. exists (nth k keys d).
    assert (k < length keys)%nat as Hk'.
    { apply list_elem_of_fmap in Hk as ([now k'] & -> & Hk). by apply (Hr now). }
    split; [f_equal; by apply nth_indep|]. rewrite Ek. apply list_elem_of_fmap. by exists k. }
  pose proof (receive_run ms mp (normalizeRoomMtu mtu) Hnd) as Hrun.
  assert (len ms <= RAW_UDP_MAX_ACTIVE_MESSAGES) as Hlm.
  { rewrite <- (messages_packets (ru_nextMsgId t) sends.*2) in Hlen. unfold len in *.
    rewrite length_fmap in Hlen. fold ms in Hlen. unfold RAW_UDP_MAX_ACTIVE_MESSAGES. lia. }
  specialize (Hrun Hlm Hms (fun m p => messages_range _ _ m p Hid) Hb ltac:(lia) ∅ r ks').
  rewrite union_empty_r_L in Hrun. rewrite <- Hrun; clear Hrun.
  - assert (delivered ms mp ∅ = []) as ->.
    { unfold delivered. destruct (filter (complete mp ∅) ms) as [|[m p] l] eqn:E; [done|].
      assert ((m, p) ∈ filter (complete mp ∅) ms) as Hin by (rewrite E; left).
      apply list_elem_of_filter in Hin as [Hc Hin].
      destruct (frag_count_bounds mp 1420 Hb ltac:(lia) p) as [Hn _]; [specialize (Hms m p Hin); lia|].
      apply (proj1 (complete_spec mp ∅ m p)) with (i := 0) in Hc; [set_solver|lia]. }
    by rewrite app_nil_r.
  - unfold receiver. split; [done|]. split; [done|]. unfold mp, maxFragmentPayload.
    by rewrite F1, F2, M1, M2, Hsec.
  - rewrite Hfresh. constructor; [apply table_init_ok|set_solver|done|].
    intros m p _ _. left. set_solver.
  - intros now k Hk. apply list_elem_of_fmap in Hk as ([now' j] & [= -> ->] & Hj).
    pose proof (Hr now' j Hj) as Hlt.
    assert (nth j keys d ∈ keys) as Hin by (apply (list_elem_of_lookup_2 _ j); by apply lookup_nth).
    apply elem_all_keys in Hin as [Hin Hi]. split; [done|]. split; [done|set_solver].
  - rewrite Ek. apply NoDup_nth_map; [by apply NoDup_all_keys|done|].
    intros k Hk. apply list_elem_of_fmap in Hk as ([now k'] & -> & Hk). by apply (Hr now).
Qed.
End Tunnels.
