(* ===== verification/TunnelFacts.v ===== *)
(** * The raw UDP tunnel, end to end

    What a receiving tunnel delivers of the packets a sending tunnel was
    given, for any loss and order of the datagrams between them, and the size
    of those datagrams. *)

From S2P Require Import Prelude Protocol Room RoomFacts Store Fec FecFacts RawUdp RawUdpFacts Reassembly.

Section Tunnels.
Context `{CM256}.

Lemma messages_app id a b :
  exists id', messages_from id (a ++ b) = messages_from id a ++ messages_from id' b.
Proof.
  revert id. induction a as [|p a IH]; intros id; [by exists id|]. cbn [app messages_from].
  destruct (IH (u16 (id + 1))) as [id' ->]. by exists id'.
Qed.
Lemma messages_prefix id a p b id' :
  messages_from id (a ++ p :: b) = messages_from id a ++ (id', p) :: messages_from (u16 (id' + 1)) b ->
  messages_from id (a ++ [p]) = messages_from id a ++ [(id', p)].
Proof.
  revert id. induction a as [|q a IH]; intros id; cbn [app messages_from].
  - by intros [= -> _].
  - intros [= E]. f_equal. by apply IH.
Qed.
Lemma all_keys_app (mp : Z) (a b : list (Z * bytes)) : all_keys mp (a ++ b) = all_keys mp a ++ all_keys mp b.
Proof. unfold all_keys. by rewrite map_app, concat_app. Qed.

Lemma all_keys_one (mp : Z) (x : Z * bytes) : all_keys mp [x] = message_keys mp x.
Proof. unfold all_keys. cbn [map concat]. apply app_nil_r. Qed.

(** A message is complete when the datagrams at its place all arrived. *)
Lemma complete_at (mp : Z) (ms1 : list (Z * bytes)) (x : Z * bytes) (ms2 : list (Z * bytes)) (idx : list nat) (D : gset (Z * Z)) :
  (forall d k, k ∈ idx -> key_id (nth k (all_keys mp (ms1 ++ x :: ms2)) d) ∈ D) ->
  (forall k, (length (all_keys mp ms1) <= k < length (all_keys mp ms1) + length (message_keys mp x))%nat -> k ∈ idx) ->
  complete mp D x.
Proof.
  intros HD Hk. destruct x as [m p]. apply complete_spec. intros i Hi.
  set (k := (length (all_keys mp ms1) + Z.to_nat i)%nat).
  assert (nth k (all_keys mp (ms1 ++ (m, p) :: ms2)) ((0, []), 0) = ((m, p), i)) as Hn.
  { unfold k. rewrite all_keys_app. change ((m, p) :: ms2) with ([(m, p)] ++ ms2). rewrite all_keys_app.
    rewrite app_nth2_plus, app_nth1.
    - rewrite all_keys_one. unfold message_keys. apply nth_lookup_Some.
      cbn [snd]. rewrite list_lookup_fmap, (lookup_seqZ_lt 0 _ (Z.to_nat i)) by lia. cbn. f_equal. f_equal. lia.
    - rewrite all_keys_one. unfold message_keys.
      rewrite length_map, length_seqZ. cbn. lia. }
  specialize (HD ((0, []), 0) k). rewrite Hn in HD. apply HD, Hk.
  unfold message_keys, k. rewrite length_map, length_seqZ. cbn [snd]. lia.
Qed.
Lemma delivered_in (ms : list (Z * bytes)) (mp : Z) (D : gset (Z * Z)) (m : Z) (p : bytes) : (m, p) ∈ ms -> complete mp D (m, p) -> p ∈ delivered ms mp D.
Proof.
  intros Hin Hc. unfold delivered. apply list_elem_of_fmap. exists (m, p). split; [done|].
  by apply list_elem_of_filter.
Qed.

(** C33: fragmentation and reassembly.  A tunnel sends up to 64 IP packets
    within the room's MTU; the network loses and reorders the datagrams as it
    likes, without duplicating any.  A fresh receiver of the same room delivers
    only packets that were sent, none more often than it was sent; it delivers
    every packet whose own datagrams all arrive, whatever happens to the
    others; and when nothing is lost, exactly the packets sent. *)
Theorem raw_udp_reassembles mtu t r sends ks :
  tunnel_pair mtu t r ->
  (forall now p, (now, p) ∈ sends -> 20 <= len p <= normalizeRoomMtu mtu) ->
  len sends <= RAW_UDP_MAX_ACTIVE_MESSAGES ->
  let dgrams := datagrams (fst (send_all sends t)) in
  NoDup ks.*2 -> (forall now k, (now, k) ∈ ks -> (k < length dgrams)%nat) ->
  let out := fst (feed_all (length (raw_header t)) dgrams ks r) in
  (exists qs, out ≡ₚ map OutData qs /\ qs ⊆+ sends.*2) /\
  (forall s1 now p s2, sends = s1 ++ (now, p) :: s2 ->
     (forall k, (length (datagrams (fst (send_all s1 t))) <= k
                 < length (datagrams (fst (send_all (s1 ++ [(now, p)]) t))))%nat -> k ∈ ks.*2) ->
     OutData p ∈ out) /\
  (length ks = length dgrams -> out ≡ₚ map OutData sends.*2).
Proof.
  intros Hpair Hs Hl. cbv zeta. intros Hnd Hr.
  destruct (receive_sent mtu t r sends ks Hpair Hs Hl) as (Hd & Hkeys & Hrun).
  set (mp := maxFragmentPayload t) in *. set (id := ru_nextMsgId t) in *.
  set (ms := messages_from id sends.*2) in *. rewrite Hd, length_map in *.
  destruct (Hrun Hnd Hr) as (D & HD & Hout). clear Hrun.
  split; [|split].
  - exists (delivered ms mp D). split; [done|]. rewrite <- (messages_packets id sends.*2). fold ms.
    unfold delivered. apply fmap_submseteq, sublist_submseteq, sublist_filter.
  - intros s1 now p s2 -> Hall. rewrite Hout. apply list_elem_of_fmap. exists p. split; [done|].
    assert (forall s, (exists s', s1 ++ (now, p) :: s2 = s ++ s') ->
      length (datagrams (fst (send_all s t))) = length (all_keys mp (messages_from id s.*2))) as Hlen.
    { intros s [s' E]. destruct (receive_sent mtu t r s [] Hpair) as (-> & _).
      - intros n q Hq. apply (Hs n). rewrite E. apply elem_of_app. by left.
      - rewrite E, len_app in Hl. pose proof (len_nonneg s'). lia.
      - apply length_map. }
    rewrite (Hlen s1), (Hlen (s1 ++ [(now, p)])) in Hall by (eauto || (exists s2; by rewrite <- app_assoc)).
    unfold ms in *. rewrite !fmap_app in *. cbn [fmap list_fmap snd] in *.
    destruct (messages_app id s1.*2 (p :: s2.*2)) as [id' E]. rewrite E in *. cbn [messages_from] in *.
    assert (messages_from id (s1.*2 ++ [p]) = messages_from id s1.*2 ++ [(id', p)]) as E'.
    { apply (messages_prefix _ _ _ _ _ E). }
    rewrite E', all_keys_app, length_app in Hall.
    apply (delivered_in _ _ _ id'); [apply elem_of_app; right; left|].
    apply (complete_at mp _ (id', p) _ ks.*2 D HD). intros k Hk. apply Hall.
    by rewrite all_keys_one.
  - intros Hlen. rewrite Hout. unfold delivered. rewrite filter_all; [unfold ms; by rewrite messages_packets|].
    intros x Hx. apply list_elem_of_split in Hx as (m1 & m2 & E). rewrite E in HD, Hr, Hlen.
    apply (complete_at mp m1 x m2 ks.*2 D HD). intros k Hk.
    change ((m1 ++ x :: m2)) with (m1 ++ [x] ++ m2) in *.
    rewrite !all_keys_app, !length_app in Hr, Hlen.
    apply list_elem_of_In.
    apply (NoDup_length_incl (proj1 (NoDup_ListNoDup _) Hnd) (l' := seq 0 (length ks))).
    + by rewrite length_seq, length_fmap.
    + intros j Hj%list_elem_of_In. apply in_seq. apply list_elem_of_fmap in Hj as ([now j'] & -> & Hj).
      specialize (Hr now j' Hj). cbn. lia.
    + apply in_seq. rewrite all_keys_one in Hlen. lia.
Qed.

(** ** Sizes *)

Lemma len_raw_header t : ru_relayMode t = true -> len (raw_header t) = sizeof_UdpRelayHeader.
Proof. unfold raw_header. by intros ->. Qed.
Lemma budget_sum t mtu :
  ru_roomMtu t = normalizeRoomMtu mtu ->
  maxFragmentPayload t + sizeof_UdpRelayHeader
    + (if bool_decide (ru_fecMode t = FEC_NONE) then 0 else sizeof_FecHeader)
    + (if ru_secureFrames t then ENCRYPTED_UDP_OVERHEAD else 0) + sizeof_FragHeader
  = normalizeRoomMtu mtu.
Proof.
  intros Hm. unfold maxFragmentPayload. rewrite Hm.
  destruct (bool_decide _), (ru_secureFrames t), (normalizeRoomMtu_cases mtu) as [-> | [-> | ->]]; done.
Qed.
Lemma flush_sizes `{!CM256Laws} e pkt :
  enc_ok e -> 30 * (2 + fe_maxBlockSize e) <= FEC_MAX_BUFFERED_BYTES -> pkt ∈ fst (enc_flush e) ->
  len pkt = sizeof_FecHeader + (2 + fe_maxBlockSize e).
Proof.
  intros He Hm Hin. destruct (decide (fe_buffer e = [])) as [Hb|Hb].
  { unfold enc_flush in Hin. rewrite bool_decide_true in Hin by done. by apply not_elem_of_nil in Hin. }
  destruct (flush_packets e He Hb Hm) as (M & recovery & ok & HM & Henc & Hp). cbv zeta in *.
  rewrite Hp in Hin. apply list_elem_of_fmap in Hin as (k & -> & Hk%elem_of_seqZ).
  destruct He as [E1 E2 E3 E4]. unfold FEC_GROUP_SIZE in E2.
  assert (1 <= len (fe_buffer e)) as Hn.
  { destruct (fe_buffer e) as [|q l]; [done|]. rewrite len_cons. pose proof (len_nonneg l). lia. }
  assert (1 <= len (fe_buffer e) <= 10) as HN by lia.
  destruct (packet_fields (fe_buffer e) (2 + fe_maxBlockSize e) (fe_groupId e) M recovery ok HN HM) with (k := k)
    as (_ & _ & _ & _ & _ & ->); [|done| |lia|done].
  - intros p Hp'. specialize (E3 p Hp'). lia.
  - destruct ok; nia.
Qed.

(** C35: datagram sizes.  Without error correction a datagram of the tunnel,
    with its relay header and the encryption around it, fits the room's MTU,
    however the packet is cut.  With error correction the budget leaves out
    the two octets of the length prefix inside a block: as soon as a full
    fragment is in the group, every datagram of the group is two octets
    beyond the room's MTU. *)
Theorem datagram_sizes `{!CM256Laws} mtu t :
  ru_relayMode t = true -> ru_roomMtu t = normalizeRoomMtu mtu ->
  let overhead := if ru_secureFrames t then ENCRYPTED_UDP_OVERHEAD else 0 in
  (ru_fecMode t = FEC_NONE -> forall now p pkt ip port, 20 <= len p <= normalizeRoomMtu mtu ->
     OutUdp pkt ip port ∈ fst (snd (raw_send now p t)) -> len pkt + overhead <= normalizeRoomMtu mtu) /\
  (ru_fecMode t <> FEC_NONE -> forall e pkt, enc_ok e -> fe_buffer e <> [] ->
     fe_maxBlockSize e = sizeof_FragHeader + maxFragmentPayload t -> pkt ∈ fst (enc_update e) ->
     len (raw_header t ++ pkt) + overhead = normalizeRoomMtu mtu + 2).
Proof.
  intros Hr Hm overhead. pose proof (budget_sum t mtu Hm) as Hsum. pose proof (fragment_budget t) as Hb.
  pose proof (mtu_bounds mtu) as Hmb. fold overhead in Hsum. split.
  - intros Hf now p pkt ip port Hp. rewrite raw_send_plain by (done || rewrite Hm; lia). cbn [fst snd].
    intros Hin. apply list_elem_of_fmap in Hin as (k & Hk & Hin). injection Hk as -> _ _.
    unfold message_keys in Hin. apply list_elem_of_fmap in Hin as (i & -> & Hi%elem_of_seqZ).
    unfold key_packet, frag_packet. cbn [fst snd] in *.
    rewrite !len_app, len_raw_header by done.
    destruct (len_chunk (maxFragmentPayload t) 1420 Hb ltac:(lia) p i ltac:(lia) ltac:(lia)) as [Hl _].
    assert (len (chunk (maxFragmentPayload t) p i) <= maxFragmentPayload t) as Hc.
    { unfold chunk, slice, len. rewrite length_take. lia. }
    change (len (frag_header (ru_nextMsgId t) i (frag_count (maxFragmentPayload t) p) (len p))) with sizeof_FragHeader.
    rewrite bool_decide_true in Hsum by done. lia.
  - intros Hf e pkt He Hne Hbs Hin. unfold enc_update in Hin. rewrite bool_decide_false in Hin by done.
    rewrite bool_decide_false in Hsum by done.
    rewrite len_app, len_raw_header by done. rewrite (flush_sizes e pkt He) by
      first [done | rewrite Hbs; unfold sizeof_FragHeader, FEC_MAX_BUFFERED_BYTES; lia].
    rewrite Hbs. lia.
Qed.
End Tunnels.

(** ** Instances *)

#[local] Existing Instances rep_CM256 rep_CM256Laws.
Definition demo_tunnel (mode : FecMode) : RawUdpTunnel :=
  setRelayMode 3 5 (CliRawUdpTunnel_init 100 0x7F000001 11510 mode 1280 TRAFFIC_UDP true).
Definition demo_ip (n : nat) : bytes := 0x45 :: replicate n 7.

Lemma raw_udp_reassembles_witness :
  let t := demo_tunnel FEC_NONE in
  let sends := [(200, demo_ip 1279); (201, demo_ip 59)] in
  let dgrams := datagrams (fst (send_all sends t)) in
  length dgrams = 3%nat /\
  fst (feed_all (length (raw_header t)) dgrams [(300, 1%nat); (301, 2%nat); (302, 0%nat)] t) ≡ₚ
    [OutData (demo_ip 1279); OutData (demo_ip 59)].
Proof.
  cbv zeta. split; [by vm_compute|].
  refine (proj2 (proj2 (raw_udp_reassembles 1280 (demo_tunnel FEC_NONE) (demo_tunnel FEC_NONE)
    [(200, demo_ip 1279); (201, demo_ip 59)] [(300, 1%nat); (301, 2%nat); (302, 0%nat)] _ _ _ _ _)) _).
  - split; [by split|by split|done|by vm_compute|done].
  - intros now p Hin. apply elem_of_cons in Hin as [[= -> ->]|Hin]; [by vm_compute|].
    apply list_elem_of_singleton in Hin as [= -> ->]. by vm_compute.
  - by vm_compute.
  - apply (bool_decide_eq_true_1 _). by vm_compute.
  - intros now k Hin. repeat (apply elem_of_cons in Hin as [[= -> ->]|Hin]; [vm_compute; lia|]).
    by apply not_elem_of_nil in Hin.
  - by vm_compute.
Defined.

Lemma datagram_sizes_witness :
  let t := demo_tunnel FEC_100 in
  let payload := replicate 1237 9 in
  let e := mkEncoder FEC_100 0 1237 5 [payload] in
  len payload = sizeof_FragHeader + maxFragmentPayload t /\
  (forall pkt, pkt ∈ fst (enc_update e) -> len (raw_header t ++ pkt) + ENCRYPTED_UDP_OVERHEAD = 1282).
Proof.
  cbv zeta. split; [by vm_compute|]. intros pkt.
  apply (proj2 (datagram_sizes 1280 (demo_tunnel FEC_100) eq_refl eq_refl)); try done.
  constructor; [by vm_compute|by vm_compute| |by vm_compute].
  intros p Hp. apply list_elem_of_singleton in Hp as ->. by vm_compute.
Defined.
