(* ===== verification/LinkSend.v ===== *)
(** * Packets through a secure path: the sending end

    A member whose room uses raw UDP, without error correction, for a traffic
    class: what [processTunPackets] hands to the socket of the sender. *)

From stdpp Require Import pretty.
From S2P Require Import Prelude Protocol Room RoomFacts SecureFrame SecureFrameFacts RelayPath Overlay TcpConn Store Fec FecFacts ProbeQuality PeerConn RawUdp RawUdpFacts Reassembly TunnelManager RoomLinks LinkFacts.

Section Ends.
Context `{CryptoLaws} `{CM256} `{Ikcp}.

(** ** What the data plane leaves alone *)

Record same_plane (s s' : CliTunnelManager) : Prop := mkSamePlane {
  sp_shape : shape_of s s';
  sp_tun : is_Some (tm_tun s') <-> is_Some (tm_tun s);
  sp_now : tm_now s' = tm_now s;
  sp_state : tm_dataPlaneState s' = tm_dataPlaneState s;
  sp_fd : tm_udpFd s' = tm_udpFd s;
  sp_server : (tm_serverIP s', tm_serverPort s') = (tm_serverIP s, tm_serverPort s)
}.
#[export] Instance same_plane_preorder : PreOrder same_plane.
Proof. split; [by constructor|]. intros s1 s2 s3 [] []. constructor; by etrans. Qed.
(** Statistics only. *)
Record quiet (s s' : CliTunnelManager) : Prop := mkQuiet {
  qt_plane : same_plane s s';
  qt_tun : tm_tun s' = tm_tun s;
  qt_raws : tm_rawByPeerClass s' = tm_rawByPeerClass s;
  qt_cipher : tm_udpCipher s' = tm_udpCipher s;
  qt_out : tm_out s' = tm_out s
}.
#[export] Instance quiet_preorder : PreOrder quiet.
Proof. split; [by constructor|]. intros s1 s2 s3 [] []. constructor; by etrans. Qed.
Lemma qt_ret {A} (a : A) : moves quiet (ret a).
Proof. apply moves_ret. apply _. Qed.
Lemma qt_gets {A} (f : CliTunnelManager -> A) : moves quiet (gets f).
Proof. apply moves_gets. apply _. Qed.
#[local] Hint Resolve qt_ret qt_gets : vlan.
#[local] Hint Extern 1 (moves quiet (modify _)) => intros ?; constructor; [constructor; [by constructor|done..]|done..] : vlan.
Lemma qt_drop reason : moves quiet (recordPacketDrop reason).
Proof. unfold recordPacketDrop. walk. Qed.
Lemma qt_report dest ok : moves quiet (reportSend dest ok).
Proof.
  unfold reportSend. destruct dest as [[id cls]|]; [|apply qt_ret]. intros s.
  split; [|done..]. split; [|done..]. apply shape_peer. by apply keeps_shape_slot.
Qed.
Lemma tt_drop reason : total (recordPacketDrop reason).
Proof. intros s. unfold recordPacketDrop, bind, modify, gets. cbn. case_match; by eexists. Qed.
Lemma tt_report dest ok : total (reportSend dest ok).
Proof. intros s. unfold reportSend. destruct dest as [[id cls]|]; by eexists. Qed.

(** ** Sending *)

Record ready (s : CliTunnelManager) : Prop := mkReady {
  rd_running : tm_dataPlaneState s = Running;
  rd_mode : tm_securityMode s = Secure;
  rd_fd : tm_udpFd s <> SOCK_INVALID;
  rd_sid : tm_secureSessionId s <> 0;
  rd_master : len (tm_secureMaster s) = SECURE_KEY_SIZE;
  rd_cipher : m_initialized (tm_udpCipher s) = true /\ 0 <= m_sendCounter (tm_udpCipher s)
}.
Lemma ready_same s s' : ready s -> same_plane s s' -> m_initialized (tm_udpCipher s') = true ->
  0 <= m_sendCounter (tm_udpCipher s') -> ready s'.
Proof.
  intros [R1 R2 R3 R4 R5 R6] Hp Hi Hc. pose proof (sp_shape _ _ Hp) as Hs.
  constructor; [by rewrite (sp_state _ _ Hp)|by rewrite (sh_mode _ _ Hs)|by rewrite (sp_fd _ _ Hp)|by rewrite (sh_sid _ _ Hs)|
    by rewrite (sh_master _ _ Hs)|done].
Qed.
(** The datagrams for [plains] went to the socket. *)
Record sends (ip port : Z) (plains : list bytes) (s s' : CliTunnelManager) : Prop := mkSends {
  sn_plane : same_plane s s';
  sn_tun : tm_tun s' = tm_tun s;
  sn_cipher : tm_udpCipher s' = set_m_sendCounter (m_sendCounter (tm_udpCipher s) + len plains) (tm_udpCipher s);
  sn_out : tm_out s' = tm_out s ++ map (fun d => EvSendTo d ip port)
    (sealed_datagrams (tm_udpCipher s) (tm_secureSessionId s) (m_sendCounter (tm_udpCipher s)) plains)
}.
Lemma sends_none ip port s s' : quiet s s' -> sends ip port [] s s'.
Proof.
  intros []. constructor; [done|done| |by rewrite app_nil_r].
  rewrite qt_cipher0, Z.add_0_r. by destruct (tm_udpCipher s).
Qed.
Lemma sends_app ip port p1 p2 s1 s2 s3 : sends ip port p1 s1 s2 -> sends ip port p2 s2 s3 -> sends ip port (p1 ++ p2) s1 s3.
Proof.
  intros [P1 T1 C1 O1] [P2 T2 C2 O2]. constructor; [by etrans|by etrans| |].
  - rewrite C2, C1, len_app. cbn. by rewrite Z.add_assoc.
  - rewrite O2, O1, <- app_assoc, C1. f_equal. rewrite sealed_datagrams_app, map_app. f_equal. f_equal. cbn.
    rewrite (sh_sid _ _ (sp_shape _ _ P1)). by apply sealed_datagrams_half.
Qed.
Lemma sends_quiet ip port ps s1 s2 s3 : sends ip port ps s1 s2 -> quiet s2 s3 -> sends ip port ps s1 s3.
Proof. intros Hs Hq. rewrite <- (app_nil_r ps). eapply sends_app; [exact Hs|by apply sends_none]. Qed.
Lemma ready_sends ip port ps s s' : ready s -> sends ip port ps s s' -> ready s'.
Proof.
  intros Hr [Hp _ Hc _]. pose proof (rd_cipher s Hr) as [Hi Hn]. pose proof (len_nonneg ps).
  apply (ready_same s s' Hr Hp); rewrite Hc; cbn; [done|lia].
Qed.
Lemma udpSend_ready data ip port s : ready s -> m_sendCounter (tm_udpCipher s) < UINT64_MAX ->
  exists s', udpSend data ip port s = (Some tt, s') /\ sends ip port [data] s s' /\
             tm_rawByPeerClass s' = tm_rawByPeerClass s.
Proof.
  intros [R1 R2 R3 R4 R5 [R6 R7]] Hc. unfold udpSend. rewrite bind_gets. cbv zeta.
  unfold dataPlaneAllowsTraffic. rewrite R1, R2, (proj2 (Z.eqb_neq (tm_udpFd s) _)) by done.
  rewrite !bool_decide_true by done. cbn [andb negb orb].
  rewrite (proj2 (Z.eqb_neq _ _)), (proj2 (Z.eqb_eq _ _)) by done. cbn [negb orb].
  unfold tm_encrypt. rewrite bind_assoc, bind_gets, bind_assoc, bind_modify. cbn [bind ret].
  rewrite encrypt_frame by done. cbn [fst snd]. rewrite bool_decide_false by (by rewrite writeU64BE_be).
  set (pkt := UDP_ENCRYPTED :: _). unfold send_datagram, sendto. rewrite bind_assoc. unfold fire. rewrite bind_modify.
  set (s1 := set_tm_out _ _). rewrite bind_assoc, bind_gets, bind_assoc, bind_modify. cbn [bind ret].
  set (s2 := set_tm_sends _ s1). set (err := default 0 _).
  assert (sends ip port [data] s s2 /\ tm_rawByPeerClass s2 = tm_rawByPeerClass s) as [Hs2 Es2].
  { split; [|done]. constructor; [|done|done|done]. constructor; [by constructor|done..]. }
  destruct (tt_report (destinationPeer data s) (err =? 0) s2) as [[] Et].
  pose proof (qt_report (destinationPeer data s) (err =? 0) s2) as Hq.
  destruct (reportSend _ _ s2) as [r s3] eqn:E3. cbn [fst snd] in *. subst r. rewrite (bind_run _ _ _ _ _ E3).
  destruct (err =? 0); cbn [negb when].
  - exists s3. split; [done|]. split; [by eapply sends_quiet|]. by rewrite (qt_raws _ _ Hq).
  - destruct (tt_drop ("udp-send/" +:+ pretty err) s3) as [[] Et'].
    pose proof (qt_drop ("udp-send/" +:+ pretty err) s3) as Hq'.
    destruct (recordPacketDrop _ s3) as [r s4] eqn:E4. cbn [fst snd] in *. subst r. exists s4. split; [done|].
    split; [eapply sends_quiet; [by eapply sends_quiet|done]|]. by rewrite (qt_raws _ _ Hq'), (qt_raws _ _ Hq).
Qed.

Definition tunnel_at (key : Z) (t : RawUdpTunnel) (s : CliTunnelManager) : Prop :=
  ow_tunnel <$> tm_rawByPeerClass s !! key = Some t.
(** The peer [b] carries class [cls] through the raw tunnel [key]. *)
Definition through (b cls key : Z) (s : CliTunnelManager) : Prop := exists p, tm_peerById s !! b = Some p /\
  pn_transport (slot_at (class_index cls) p) = TRANSPORT_RELAY_RAW_UDP /\
  pn_rawUdpTunnel (slot_at (class_index cls) p) = Some key.
Lemma slot_of_shape idx p p' : peer_shape p' = peer_shape p -> slot_shape (slot_at idx p') = slot_shape (slot_at idx p).
Proof. unfold peer_shape. intros [= ]. unfold slot_at. repeat case_match; unfold slot_shape; congruence. Qed.
Lemma peer_of_shape s s' id p : shape_of s s' -> tm_peerById s !! id = Some p ->
  exists p', tm_peerById s' !! id = Some p' /\ peer_shape p' = peer_shape p.
Proof.
  intros Hs Hp. pose proof (f_equal (lookup id) (sh_peers _ _ Hs)) as E. rewrite !lookup_fmap, Hp in E.
  destruct (tm_peerById s' !! id) as [p'|]; [|done]. exists p'. split; [done|]. cbn in E. congruence.
Qed.
Lemma through_shape b cls key s s' : shape_of s s' -> through b cls key s -> through b cls key s'.
Proof.
  intros Hs (p & Hp & Ht & Hk). destruct (peer_of_shape _ _ _ _ Hs Hp) as (p' & Hp' & E). exists p'. split; [done|].
  apply (slot_of_shape (class_index cls)) in E. unfold slot_shape in E. injection E as E1 E2 E3. split; congruence.
Qed.
Definition udp_outs (ip port : Z) (outs : list TunnelOut) : Prop := Forall (fun o => exists pkt, o = OutUdp pkt ip port) outs.
Lemma send_outs ip port outs s : ready s -> udp_outs ip port outs ->
  m_sendCounter (tm_udpCipher s) + len outs <= UINT64_MAX ->
  exists s', for_each outs udp_out s = (Some tt, s') /\ sends ip port (datagrams outs) s s' /\
             tm_rawByPeerClass s' = tm_rawByPeerClass s.
Proof.
  intros Hr Ho. revert s Hr. induction Ho as [|o outs [pkt ->] _ IH]; intros s Hr Hc.
  { exists s. split; [done|]. split; [by apply sends_none|done]. }
  rewrite len_cons in Hc. pose proof (len_nonneg outs). cbn [for_each udp_out].
  destruct (udpSend_ready pkt ip port s Hr ltac:(lia)) as (s1 & E1 & S1 & T1). rewrite (bind_run _ _ _ _ _ E1).
  destruct (IH s1) as (s2 & E2 & S2 & T2); [by eapply ready_sends|rewrite (sn_cipher _ _ _ _ _ S1); change (len [pkt]) with 1; cbn; lia|].
  exists s2. split; [done|]. split; [exact (sends_app _ _ _ _ _ _ _ S1 S2)|by rewrite T2].
Qed.
(** A packet through the tunnel of a peer. *)
Lemma raw_send_ready b cls key p t s :
  ready s -> through b cls key s -> tunnel_at key t s -> trafficClassFromIpPacket p = cls ->
  ru_fecMode t = FEC_NONE -> 20 <= len p <= ru_roomMtu t -> ru_roomMtu t <= 1420 ->
  m_sendCounter (tm_udpCipher s) + 2 <= UINT64_MAX ->
  exists s', send_or_drop b p s = (Some tt, s') /\
    sends (ru_peerIP t) (ru_peerPort t) (datagrams (fst (snd (raw_send (tm_now s) p t)))) s s' /\
    tunnel_at key (after_send (tm_now s) t) s' /\ len (datagrams (fst (snd (raw_send (tm_now s) p t)))) <= 2.
Proof.
  intros Hr (q & Hq & Hq1 & Hq2) Ht Hcls Hf Hp Hm Hc. unfold tunnel_at in Ht.
  destruct (tm_rawByPeerClass s !! key) as [o|] eqn:Eo; [|done]. cbn in Ht. injection Ht as Et.
  unfold send_or_drop, sendData, deref_peer, deref, peerById. rewrite !bind_assoc, bind_gets, Hq. cbn [bind ret].
  cbv zeta. rewrite Hcls, Hq1, Hq2. unfold rawTunnel_send, deref_raw, deref. rewrite !bind_assoc, bind_gets, Eo. cbn [bind ret].
  rewrite bind_assoc, bind_gets, Et, (raw_send_plain (tm_now s) p t Hf Hp Hm). cbn [fst snd].
  set (outs := map _ _). unfold put_raw. rewrite bind_assoc, bind_modify.
  set (s1 := set_tm_rawByPeerClass _ s).
  assert (len outs <= 2) as Hlen.
  { unfold outs, message_keys, len. rewrite !length_map, length_seqZ. pose proof (fragment_budget t) as Hb.
    destruct (frag_count_bounds (maxFragmentPayload t) 1420 Hb ltac:(lia) p ltac:(lia)) as [Hn _]. cbn [snd]. lia. }
  assert (same_plane s s1) as Hp1.
  { constructor; [|done..]. constructor; try done. unfold s1. cbn. by apply fmap_alter_same. }
  destruct (send_outs (ru_peerIP t) (ru_peerPort t) outs s1) as (s2 & E2 & S2 & T2).
  { by apply (ready_same s); [|done|apply Hr..]. }
  { unfold udp_outs, outs. apply Forall_map, Forall_true. intros k. by eexists. }
  { cbn. lia. }
  rewrite bind_assoc, (bind_run _ _ _ _ _ E2). cbn [bind ret]. rewrite (proj2 (Z.leb_gt _ _)) by lia. cbn [when].
  assert (len (datagrams outs) <= 2) as Hd.
  { unfold outs in *. rewrite datagrams_frames. unfold len in *. by rewrite !length_map in *. }
  exists s2. split; [done|]. split; [|split; [|exact Hd]].
  - destruct S2 as [P2 C0 C2 O2]. constructor; [by etrans|done|exact C2|exact O2].
  - unfold tunnel_at. rewrite T2. unfold s1. cbn. by rewrite lookup_alter, decide_True, Eo by done.
Qed.

(** ** From the adapter of the sender *)

(** A packet of [src] for [dst], in a room of this MTU. *)
Record overlay_packet (mtu cls src dst : Z) (p : bytes) : Prop := mkOverlayPacket {
  ov_ipv4 : is_ipv4 p src dst;
  ov_mtu : len p <= normalizeRoomMtu mtu;
  ov_class : trafficClassFromIpPacket p = cls
}.
Lemma structure_facts p mtu src dst :
  validateOverlayIpv4Structure (Some p) (len p) mtu = mkOverlay NoPacketError src dst ->
  20 <= len p /\ Z.shiftr (byte_at p 0) 4 = 4 /\ extractDstIP p = dst.
Proof.
  unfold validateOverlayIpv4Structure, extractDstIP. destruct (len p <? 20) eqn:E1; [done|].
  destruct (negb (Z.shiftr (byte_at p 0) 4 =? 4)) eqn:E2; [done|]. cbv zeta.
  destruct (_ || (len p <? _)); [done|]. destruct (_ || negb _); [done|]. destruct (_ <? len p); [done|].
  intros [= _ <-]. bools. split; [done|]. split; [done|]. by rewrite E2.
Qed.
Lemma overlay_arg_nonempty p : 20 <= len p -> overlay_arg p = Some p.
Proof. intros Hl. unfold overlay_arg. rewrite bool_decide_false; [done|]. intros ->. by apply Hl. Qed.
(** A member that reaches [dst] through the raw tunnel [t] of its peer [b]. *)
Record sender (b cls key mtu src dst : Z) (t : RawUdpTunnel) (s : CliTunnelManager) : Prop := mkSender {
  se_ready : ready s;
  se_me : tm_myVirtualIP s = src /\ src <> 0;
  se_mtu : tm_roomMtu s = mtu;
  se_route : tm_peerByVIP s !! dst = Some b;
  se_unicast : isBroadcast dst = false /\ dst <> VNET_BROADCAST;
  se_through : through b cls key s;
  se_tunnel : tunnel_at key t s;
  se_plain : ru_fecMode t = FEC_NONE;
  se_tunnel_mtu : ru_roomMtu t = normalizeRoomMtu mtu
}.
Lemma route_packet b cls key mtu src dst t s p :
  sender b cls key mtu src dst t s -> overlay_packet mtu cls src dst p ->
  m_sendCounter (tm_udpCipher s) + 2 <= UINT64_MAX ->
  exists s', routeFromTun p s = (Some tt, s') /\
    sends (ru_peerIP t) (ru_peerPort t) (datagrams (fst (snd (raw_send (tm_now s) p t)))) s s' /\
    len (datagrams (fst (snd (raw_send (tm_now s) p t)))) <= 2 /\
    sender b cls key mtu src dst (after_send (tm_now s) t) s'.
Proof.
  intros [S1 [S2 S2'] S3 S4 [S5 S5'] S6 S7 S8 S9] [P1 P2 P3] Hc.
  pose proof (structure_complete p mtu src dst P1 P2) as Ev. destruct (structure_facts p mtu src dst Ev) as (Hl & _ & Ed).
  pose proof (mtu_bounds mtu) as Hb.
  destruct (raw_send_ready b cls key p t s S1 S6 S7 P3 S8) as (s' & E & Hs & Ht & Hn); [rewrite S9; lia|rewrite S9; lia|lia|].
  exists s'. split; [|split; [exact Hs|split; [exact Hn|]]].
  - unfold routeFromTun. rewrite bind_gets. destruct S1 as [R1 R2 _ _ _ _]. unfold dataPlaneAllowsTraffic.
    rewrite R1, R2, !bool_decide_true by done. cbn [andb negb].
    rewrite overlay_arg_nonempty by done. unfold validateOutboundOverlayIpv4. rewrite S3, S2, Ev.
    change (overlay_valid (mkOverlay NoPacketError src dst)) with true. cbn [negb op_source].
    rewrite (proj2 (Z.eqb_neq src 0)), Z.eqb_refl by done. cbn [orb negb].
    change (overlay_valid (mkOverlay NoPacketError src dst)) with true. cbn [negb].
    rewrite Ed, S5, (proj2 (Z.eqb_neq dst _)) by done. cbn [orb]. unfold peerByVirtualIP. by rewrite S4.
  - pose proof (sp_shape _ _ (sn_plane _ _ _ _ _ Hs)) as Hsh. constructor; try done.
    + by eapply ready_sends.
    + by rewrite (sh_ip _ _ Hsh).
    + by rewrite (sh_mtu _ _ Hsh).
    + by rewrite (sh_vips _ _ Hsh).
    + by eapply through_shape.
Qed.
Lemma datagrams_app a b : datagrams (a ++ b) = datagrams a ++ datagrams b.
Proof. apply omap_app. Qed.
Lemma route_all b cls key mtu src dst t s ps :
  sender b cls key mtu src dst t s -> Forall (overlay_packet mtu cls src dst) ps ->
  m_sendCounter (tm_udpCipher s) + 2 * len ps <= UINT64_MAX ->
  exists s', for_each ps routeFromTun s = (Some tt, s') /\
    sends (ru_peerIP t) (ru_peerPort t) (datagrams (fst (send_all (map (pair (tm_now s)) ps) t))) s s'.
Proof.
  intros Hse Hps. revert t s Hse. induction Hps as [|p ps Hp _ IH]; intros t s Hse Hc.
  { exists s. split; [done|]. by apply sends_none. }
  rewrite len_cons in Hc. pose proof (len_nonneg ps). cbn [for_each map].
  destruct (route_packet _ _ _ _ _ _ _ _ p Hse Hp ltac:(lia)) as (s1 & E1 & S1 & Hn & Hse1). rewrite (bind_run _ _ _ _ _ E1).
  destruct (IH _ _ Hse1) as (s2 & E2 & S2); [rewrite (sn_cipher _ _ _ _ _ S1); cbn; lia|].
  exists s2. split; [done|]. rewrite (sp_now _ _ (sn_plane _ _ _ _ _ S1)) in S2.
  unfold send_all in *. cbn [emit_all fst snd]. destruct Hse as [_ _ _ _ _ _ _ S8 S9].
  pose proof (structure_complete p mtu src dst (ov_ipv4 _ _ _ _ _ Hp) (ov_mtu _ _ _ _ _ Hp)) as Ev.
  destruct (structure_facts p mtu src dst Ev) as (Hl & _). pose proof (mtu_bounds mtu). pose proof (ov_mtu _ _ _ _ _ Hp).
  rewrite raw_send_plain in S1 |- * by (done || lia). cbn [fst snd and_then] in *.
  destruct (emit_all _ (map (pair (tm_now s)) ps) (after_send (tm_now s) t)) as [outs t']. cbn [fst] in *.
  rewrite datagrams_app. exact (sends_app _ _ _ _ _ _ _ S1 S2).
Qed.
(** [processTunPackets]: everything the adapter read goes out. *)
Lemma process_packets b cls key mtu src dst t s run ps :
  sender b cls key mtu src dst t s -> tm_tun s = Some (mkTun run ps) -> Forall (overlay_packet mtu cls src dst) ps ->
  m_sendCounter (tm_udpCipher s) + 2 * len ps <= UINT64_MAX ->
  exists s', processTunPackets s = (Some tt, s') /\
    tm_out s' = tm_out s ++ map (fun d => EvSendTo d (ru_peerIP t) (ru_peerPort t))
      (sealed_datagrams (tm_udpCipher s) (tm_secureSessionId s) (m_sendCounter (tm_udpCipher s))
         (datagrams (fst (send_all (map (pair (tm_now s)) ps) t)))).
Proof.
  intros Hse Htun Hps Hc. unfold processTunPackets. rewrite bind_gets, Htun, bind_modify.
  destruct (se_ready _ _ _ _ _ _ _ _ Hse) as [R1 R2 R3 R4 R5 R6]. rewrite R1, R2, bool_decide_true, bool_decide_false by done.
  cbn [negb orb ta_recvQueue ta_running]. set (s1 := set_tm_tun _ s).
  destruct (route_all b cls key mtu src dst t s1 ps) as (s' & E & Hs); [|done|done|].
  { destruct Hse as [_ ? ? ? ? ? ? ? ?]. by constructor. }
  exists s'. split; [exact E|]. exact (sn_out _ _ _ _ _ Hs).
Qed.
End Ends.
