(* ===== verification/LinkReceive.v ===== *)
(** * Packets through a secure path: the receiving end

    What [onUdpReadable] hands to the adapter when datagrams of a member's raw
    tunnel arrive, opened once each, in any order. *)

From S2P Require Import Prelude Protocol Room RoomFacts SecureFrame SecureFrameFacts RelayPath Overlay TcpConn Store Fec FecFacts ProbeQuality PeerConn RawUdp RawUdpFacts Reassembly TunnelManager RoomLinks LinkFacts LinkSend.

Section Receive.
Context `{CryptoLaws} `{CM256} `{Ikcp}.

(** ** To the adapter *)

(** A member that hears [src], the peer [a], through the raw tunnel [key]. *)
Record hearer (a b cls key mtu src dst : Z) (s : CliTunnelManager) : Prop := mkHearer {
  he_ready : ready s;
  he_tun : is_Some (tm_tun s);
  he_me : tm_myVirtualIP s = dst /\ dst <> 0 /\ tm_myPeerId s = b;
  he_mtu : tm_roomMtu s = mtu;
  he_peer : exists q, tm_peerById s !! a = Some q /\ pn_peerId q = a /\ pn_virtualIP q = src;
  he_src : src <> 0;
  he_owner : owner <$> tm_rawByPeerClass s !! key = Some (a, cls)
}.
Lemma hearer_same a b cls key mtu src dst s s' : hearer a b cls key mtu src dst s -> same_plane s s' ->
  m_initialized (tm_udpCipher s') = true -> 0 <= m_sendCounter (tm_udpCipher s') -> hearer a b cls key mtu src dst s'.
Proof.
  intros [E1 E2 E3 E4 (q & Eq & Q1 & Q2) E6 E7] Hp Hi Hc. pose proof (sp_shape _ _ Hp) as Hs.
  constructor; [by apply (ready_same s)|by apply Hp|by rewrite (sh_ip _ _ Hs), (sh_me _ _ Hs)|by rewrite (sh_mtu _ _ Hs)| |done|].
  - destruct (peer_of_shape _ _ _ _ Hs Eq) as (q' & Eq' & Sq). unfold peer_shape in Sq.
    exists q'. split; [done|]. split; congruence.
  - pose proof (f_equal (lookup key) (sh_raw _ _ Hs)) as E. rewrite !lookup_fmap in E. by rewrite E.
Qed.
(** Packets were written to the adapter. *)
Record delivers (ps : list bytes) (s s' : CliTunnelManager) : Prop := mkDelivers {
  dl_plane : same_plane s s';
  dl_raws : tm_rawByPeerClass s' = tm_rawByPeerClass s;
  dl_cipher : tm_udpCipher s' = tm_udpCipher s;
  dl_out : tm_out s' = tm_out s ++ map EvTunWrite ps
}.
Lemma delivers_nothing s s' : quiet s s' -> delivers [] s s'.
Proof. intros []. constructor; [done..|]. by rewrite app_nil_r. Qed.
Lemma delivers_app p1 p2 s1 s2 s3 : delivers p1 s1 s2 -> delivers p2 s2 s3 -> delivers (p1 ++ p2) s1 s3.
Proof.
  intros [] []. constructor; [by etrans..|]. by rewrite dl_out1, dl_out0, <- app_assoc, map_app.
Qed.
Lemma first_octet p : Z.shiftr (byte_at p 0) 4 = 4 -> (byte_at p 0 =? CLI_LATENCY_PROBE_MARKER) = false.
Proof. intros E. apply Z.eqb_neq. intros E'. by rewrite E' in E. Qed.
Lemma deliver_packet a b cls key mtu src dst s p :
  hearer a b cls key mtu src dst s -> overlay_packet mtu cls src dst p ->
  exists s', onTunnelDataReceived a cls p s = (Some tt, s') /\ delivers [p] s s'.
Proof.
  intros [[R1 R2 _ _ _ _] E2 (E3 & E3' & _) E4 (q & Eq & Q1 & Q2) E6 _] [P1 P2 P3].
  pose proof (structure_complete p mtu src dst P1 P2) as Ev. destruct (structure_facts p mtu src dst Ev) as (Hl & Hv & _).
  unfold onTunnelDataReceived, deref_peer, deref, peerById. rewrite bind_assoc, bind_gets, Eq. cbn [bind ret].
  unfold handleLatencyProbe. rewrite (first_octet p Hv). rewrite orb_true_r. cbn [bind ret]. rewrite Q1.
  unfold onPeerDataReceived. rewrite bind_gets, R1, R2, bool_decide_true, bool_decide_false by done. cbn [negb orb].
  unfold routeToTun. rewrite bind_gets. unfold dataPlaneAllowsTraffic. rewrite R1, R2, !bool_decide_true by done. cbn [andb negb].
  unfold peerById. rewrite Eq, overlay_arg_nonempty by done. unfold validateInboundOverlayIpv4. rewrite E4, Q2, E3, Ev.
  change (overlay_valid (mkOverlay NoPacketError src dst)) with true. cbn [negb op_source op_destination].
  rewrite (proj2 (Z.eqb_neq src 0)), (proj2 (Z.eqb_neq dst 0)), !Z.eqb_refl by done. cbn [orb negb andb].
  change (overlay_valid (mkOverlay NoPacketError src dst)) with true. cbn [negb]. destruct E2 as [ad ->].
  unfold writePacket, fire. rewrite !bind_assoc, bind_modify. rewrite bind_assoc, bind_gets, bind_assoc, bind_modify. cbn [bind ret].
  set (s1 := set_tm_writes _ _). set (ok := default true _).
  assert (delivers [p] s s1) as Hd.
  { constructor; [|done|done|done]. constructor; [by constructor|done..]. }
  destruct ok; cbn [negb when]; [by exists s1|].
  destruct (tt_drop "tun-write-failed" s1) as [[] Et]. pose proof (qt_drop "tun-write-failed" s1) as Hq.
  destruct (recordPacketDrop _ s1) as [r s2]. cbn [fst snd] in *. subst r. exists s2. split; [done|].
  exact (delivers_app _ _ _ _ _ Hd (delivers_nothing _ _ Hq)).
Qed.
Lemma hearer_delivers a b cls key mtu src dst ps s s' :
  hearer a b cls key mtu src dst s -> delivers ps s s' -> hearer a b cls key mtu src dst s'.
Proof.
  intros Hh [Hp _ Hc _]. destruct (rd_cipher s (he_ready _ _ _ _ _ _ _ _ Hh)).
  apply (hearer_same _ _ _ _ _ _ _ s); rewrite ?Hc; done.
Qed.
Lemma deliver_all a b cls key mtu src dst s ps :
  hearer a b cls key mtu src dst s -> Forall (overlay_packet mtu cls src dst) ps ->
  exists s', for_each (map OutData ps) (tunnel_out a cls) s = (Some tt, s') /\ delivers ps s s'.
Proof.
  intros Hh Hps. revert s Hh. induction Hps as [|p ps Hp _ IH]; intros s Hh.
  { exists s. split; [done|]. by apply delivers_nothing. }
  destruct (deliver_packet _ _ _ _ _ _ _ _ p Hh Hp) as (s1 & E1 & D1). cbn [map for_each tunnel_out].
  rewrite (bind_run _ _ _ _ _ E1). destruct (IH s1) as (s2 & E2 & D2); [by eapply hearer_delivers|].
  exists s2. split; [done|]. exact (delivers_app _ _ _ _ _ D1 D2).
Qed.

(** ** Through the tunnel *)

(** The tunnel [key] took a datagram and delivered [ps]. *)
Record feeds (key : Z) (r : RawUdpTunnel) (ps : list bytes) (s s' : CliTunnelManager) : Prop := mkFeeds {
  fd_plane : same_plane s s';
  fd_tunnel : tunnel_at key r s';
  fd_cipher : tm_udpCipher s' = tm_udpCipher s;
  fd_out : tm_out s' = tm_out s ++ map EvTunWrite ps
}.
Lemma put_raw_at key r o s : tm_rawByPeerClass s !! key = Some o ->
  exists s', put_raw key r s = (Some tt, s') /\ feeds key r [] s s' /\ tm_rawByPeerClass s' !! key = Some (set_tunnel r o) /\
             tm_now s' = tm_now s.
Proof.
  intros Eo. eexists. split; [reflexivity|]. cbn. rewrite lookup_alter, decide_True, Eo by done. split; [|done].
  constructor; [|unfold tunnel_at; cbn; by rewrite lookup_alter, decide_True, Eo by done|done|by rewrite app_nil_r].
  constructor; [|done..]. constructor; try done. cbn. by apply fmap_alter_same.
Qed.
Lemma feed_tunnel a b cls key mtu src dst s r r' rest ps :
  hearer a b cls key mtu src dst s -> tunnel_at key r s -> ru_fecMode r = FEC_NONE -> 0 < len rest ->
  raw_feedInput (tm_now s) rest r = (map OutData ps, r') -> Forall (overlay_packet mtu cls src dst) ps ->
  exists s', rawTunnel_feed key rest s = (Some tt, s') /\ feeds key r' ps s s'.
Proof.
  intros Hh Ht Hf Hl Hr Hps. unfold tunnel_at in Ht. pose proof (he_owner _ _ _ _ _ _ _ _ Hh) as Ho.
  destruct (tm_rawByPeerClass s !! key) as [o|] eqn:Eo; [|done]. cbn in Ht, Ho. injection Ht as Et. injection Ho as Ho1 Ho2.
  unfold raw_feedInput in Hr. rewrite (proj2 (Z.leb_gt _ _)) in Hr by lia. cbv zeta in Hr. set (r1 := set_lastRecv (tm_now s) r) in *.
  assert (processFrag (tm_now s) rest r1 = (map OutData ps, r')) as Hp.
  { destruct (ru_fecDecoder r1); [|done]. by rewrite bool_decide_true in Hr by done. }
  unfold rawTunnel_feed. rewrite (proj2 (Z.leb_gt _ _)) by lia. unfold deref_raw at 1, deref. rewrite bind_assoc, bind_gets, Eo.
  cbn [bind ret]. rewrite bind_gets, Et. fold r1. cbv zeta.
  destruct (put_raw_at key r1 o s Eo) as (s1 & E1 & F1 & T1 & N1).
  assert ((put_raw key r1 ;;; rawTunnel_step key (fun now => processFrag now rest)) s =
          (for_each (map OutData ps) (tunnel_out a cls)) (snd (put_raw key r' s1))) as Hstep.
  { rewrite (bind_run _ _ _ _ _ E1). unfold rawTunnel_step, deref_raw, deref. rewrite bind_assoc, bind_gets, T1. cbn [bind ret].
    rewrite bind_gets, N1. cbn [ow_tunnel set_tunnel ow_peer ow_cls]. rewrite Hp, Ho1, Ho2. unfold put_raw. by rewrite bind_modify. }
  destruct (put_raw_at key r' _ s1 T1) as (s2 & E2 & F2 & T2 & N2). rewrite E2 in Hstep. cbn [snd] in Hstep.
  assert (same_plane s s2) as Hp2 by (etrans; [apply F1|apply F2]).
  assert (tm_udpCipher s2 = tm_udpCipher s) as Hc2 by (rewrite (fd_cipher _ _ _ _ _ F2); apply F1).
  assert (tm_out s2 = tm_out s) as Ho3 by (rewrite (fd_out _ _ _ _ _ F2), (fd_out _ _ _ _ _ F1), !app_nil_r; done).
  destruct (deliver_all a b cls key mtu src dst s2 ps) as (s3 & E3 & D3); [|done|].
  { destruct (rd_cipher s (he_ready _ _ _ _ _ _ _ _ Hh)). apply (hearer_same _ _ _ _ _ _ _ s); rewrite ?Hc2; done. }
  exists s3. split.
  - destruct (ru_fecDecoder r1); [|by rewrite Hstep]. rewrite bool_decide_true by done. by rewrite Hstep.
  - destruct D3 as [P3 W3 C3 O3]. constructor; [by etrans|unfold tunnel_at; by rewrite W3, T2|by rewrite C3|by rewrite O3, Ho3].
Qed.

(** ** Datagrams *)

Lemma header_fields cls a b rest : 0 <= a < 2 ^ 32 -> 0 <= b < 2 ^ 32 -> cls = TRAFFIC_TCP \/ cls = TRAFFIC_UDP ->
  let plain := relay_header UDP_RAW_RELAY_DATA cls a b ++ rest in
  byte_at plain 0 = UDP_RAW_RELAY_DATA /\ byte_at plain 1 = cls /\ be_value (slice 2 4 plain) = a /\
  be_value (slice 6 4 plain) = b /\ drop (Z.to_nat sizeof_UdpRelayHeader) plain = rest /\ len plain = 10 + len rest.
Proof.
  intros Ha Hb Hc. cbv zeta. unfold relay_header. rewrite <- !app_assoc. split; [done|]. split; [by destruct Hc as [-> | ->]|].
  change (slice 2 4 _) with (be_bytes 4 (u32 a)). change (slice 6 4 _) with (be_bytes 4 (u32 b)).
  unfold u32. rewrite !Z.mod_small by lia. rewrite !be_value_small by (change (256 ^ Z.of_nat 4) with (2 ^ 32); lia).
  split; [done|]. split; [done|]. split; [done|]. rewrite !len_app, !len_be_bytes. change (len [_; _]) with 2. lia.
Qed.
Lemma dispatch_raw a b cls mtu src dst s r r' rest ps :
  hearer a b cls (tunnelKey a cls) mtu src dst s -> tunnel_at (tunnelKey a cls) r s -> ru_fecMode r = FEC_NONE ->
  0 <= a < 2 ^ 32 -> 0 <= b < 2 ^ 32 -> cls = TRAFFIC_TCP \/ cls = TRAFFIC_UDP -> 6 <= len rest ->
  raw_feedInput (tm_now s) rest r = (map OutData ps, r') -> Forall (overlay_packet mtu cls src dst) ps ->
  exists s', dispatch_datagram (relay_header UDP_RAW_RELAY_DATA cls a b ++ rest) s = (Some tt, s') /\
             feeds (tunnelKey a cls) r' ps s s'.
Proof.
  intros Hh Ht Hf Ha Hb Hcls Hl Hr Hps. destruct (header_fields cls a b rest Ha Hb Hcls) as (F0 & F1 & F2 & F3 & F4 & F5).
  unfold dispatch_datagram. rewrite bind_gets. cbv zeta. rewrite F0, F1, F2, F3, F4, F5.
  change (UDP_RAW_RELAY_DATA =? UDP_RELAY_DATA) with false. rewrite Z.eqb_refl. cbv iota.
  rewrite (proj2 (Z.ltb_ge _ _)) by (change (sizeof_UdpRelayHeader + sizeof_FragHeader) with 16; lia).
  destruct (he_me _ _ _ _ _ _ _ _ Hh) as (_ & _ & ->). rewrite Z.eqb_refl.
  assert ((cls =? TRAFFIC_TCP) || (cls =? TRAFFIC_UDP) = true) as -> by (by destruct Hcls as [-> | ->]).
  cbn [andb negb orb]. pose proof Ht as Ht'. unfold tunnel_at in Ht'.
  destruct (tm_rawByPeerClass s !! tunnelKey a cls); [|done]. eapply feed_tunnel; try done. lia.
Qed.
Lemma hearer_key key a b cls mtu src dst s k :
  hearer a b cls key mtu src dst s -> send_half k = send_half (tm_udpCipher s) ->
  m_sendCounter k = m_sendCounter (tm_udpCipher s) -> hearer a b cls key mtu src dst (set_tm_udpCipher k s).
Proof.
  intros Hh [= E _ _] Ec. destruct (rd_cipher s (he_ready _ _ _ _ _ _ _ _ Hh)) as [R1 R2].
  apply (hearer_same _ _ _ _ _ _ _ s _ Hh); [constructor; [by constructor|done..]|cbn; congruence|cbn; lia].
Qed.
(** The receiver has accepted the counters at the offsets [D]. *)
Lemma datagram_step a b cls mtu src dst s r r' rest ps k base n D (i : nat) :
  hearer a b cls (tunnelKey a cls) mtu src dst s -> tunnel_at (tunnelKey a cls) r s -> ru_fecMode r = FEC_NONE ->
  0 <= a < 2 ^ 32 -> 0 <= b < 2 ^ 32 -> cls = TRAFFIC_TCP \/ cls = TRAFFIC_UDP -> 6 <= len rest <= 65000 ->
  (i ∉ D -> raw_feedInput (tm_now s) rest r = (map OutData ps, r') /\ Forall (overlay_packet mtu cls src dst) ps) ->
  leg k base n (tm_udpCipher s) D -> m_initialized k = true -> Z.of_nat i < n -> 0 <= tm_secureSessionId s < 2 ^ 32 ->
  exists s', on_datagram (sealed_datagram k (tm_secureSessionId s) (base + Z.of_nat i) (relay_header UDP_RAW_RELAY_DATA cls a b ++ rest))
      (tm_serverIP s) (tm_serverPort s) s = (Some tt, s') /\
    same_plane s s' /\ leg k base n (tm_udpCipher s') ({[i]} ∪ D) /\ hearer a b cls (tunnelKey a cls) mtu src dst s' /\
    tunnel_at (tunnelKey a cls) (if decide (i ∈ D) then r else r') s' /\
    tm_out s' = tm_out s ++ map EvTunWrite (if decide (i ∈ D) then [] else ps).
Proof.
  intros Hh Ht Hf Ha Hb Hcls Hl Hr Hleg Hk Hi Hsid. destruct (lg_range _ _ _ _ _ Hleg) as (B1 & B2 & _).
  set (plain := relay_header _ _ _ _ ++ rest). assert (len plain = 10 + len rest) as Hplain by apply (header_fields cls a b rest Ha Hb Hcls).
  destruct (sealed_shape k (tm_secureSessionId s) (base + Z.of_nat i) plain Hk ltac:(lia)) as (E0 & E1 & E5 & El).
  set (data := sealed_datagram _ _ _ _) in *. destruct (he_ready _ _ _ _ _ _ _ _ Hh) as [R1 R2 _ _ _ _].
  destruct (leg_step _ _ _ _ _ i plain Hleg Hi) as [Edec Hleg']. rewrite <- E5 in Edec, Hleg'.
  unfold on_datagram. rewrite bind_gets. unfold dataPlaneAllowsTraffic. rewrite R1, R2, !bool_decide_true by done. cbn [andb negb].
  rewrite (Z.eqb_refl (tm_serverIP s)), (Z.eqb_refl (tm_serverPort s)), E0. cbn [negb orb]. rewrite (Z.eqb_refl UDP_ENCRYPTED). cbn [negb].
  rewrite (proj2 (Z.ltb_ge _ _)) by (change (1 + SECURE_SESSION_ID_SIZE + SECURE_FRAME_OVERHEAD) with 29; lia).
  rewrite E1, writeU32BE_be, readU32BE_be. unfold u32. rewrite Z.mod_small, Z.eqb_refl by lia. cbn [negb].
  change (Z.to_nat (1 + SECURE_SESSION_ID_SIZE)) with 5%nat. unfold tm_decrypt. rewrite !bind_assoc, bind_gets, bind_assoc, bind_modify.
  cbn [bind ret]. rewrite Edec. set (k' := snd (decrypt (tm_udpCipher s) (drop 5 data) [])) in *. set (s1 := set_tm_udpCipher k' s).
  destruct (decrypt_half (tm_udpCipher s) (drop 5 data) []) as [Hh1 Hh2].
  pose proof (hearer_key _ _ _ _ _ _ _ _ k' Hh Hh1 Hh2) as Hhs1.
  assert (same_plane s s1) as Hp1 by (constructor; [by constructor|done..]). case_decide as Ed.
  - destruct (tt_drop "udp-decrypt-or-replay-rejected" s1) as [[] Et]. pose proof (qt_drop "udp-decrypt-or-replay-rejected" s1) as Hq.
    destruct (recordPacketDrop _ s1) as [o s2]. cbn [fst snd] in *. subst o. exists s2.
    split; [done|]. destruct Hq as [P2 T2 W2 C2 O2]. split; [by etrans|]. split; [by rewrite C2|].
    split; [|split; [unfold tunnel_at; by rewrite W2|by rewrite O2, app_nil_r]].
    apply (hearer_delivers _ _ _ _ _ _ _ [] s1); [done|]. constructor; [done..|by rewrite app_nil_r].
  - assert (plain = UDP_RAW_RELAY_DATA :: tail plain) as Epl by done. rewrite Epl. cbv iota. rewrite <- Epl.
    rewrite (proj2 (Z.ltb_ge _ _)) by (unfold UDP_BUFFER; lia).
    destruct (Hr Ed) as [Hr1 Hps].
    destruct (dispatch_raw a b cls mtu src dst s1 r r' rest ps Hhs1 Ht Hf Ha Hb Hcls ltac:(lia) Hr1 Hps) as (s2 & E2 & [P2 T2 C2 O2]).
    exists s2. split; [exact E2|]. split; [by etrans|]. split; [by rewrite C2|]. split; [|by split].
    destruct (rd_cipher s1 (he_ready _ _ _ _ _ _ _ _ Hhs1)). apply (hearer_same _ _ _ _ _ _ _ s1); rewrite ?C2; done.
Qed.
End Receive.
