(* ===== verification/Delivery.v ===== *)
(** * From adapter to adapter

    The sending member, the relay server and the receiving member together: the
    packets that leave one adapter and those that reach the other, whatever the
    network loses, reorders and repeats on the way to the server and from it. *)

From S2P Require Import Prelude Protocol ByteBuf Room RoomFacts SecureFrame SecureFrameFacts RelayPath Overlay ServerState ServerCore ServerDispatch TcpConn CliSignalState Store Fec FecFacts ProbeQuality PeerConn RawUdp RawUdpFacts Reassembly TunnelFacts TunnelManager RoomLinks LinkFacts LinkTraffic LinkSend LinkReceive.

Section Delivery.
Context `{CryptoLaws} `{CM256} `{Ikcp}.

(** ** The receiving end, fragment by fragment *)

Section Hear.
(** [ms]: the messages on their way; [keys]: the fragments the server relayed. *)
Context (ms : list (Z * bytes)) (mp a b cls mtu src dst : Z) (k : SecureFrameCipher) (base : Z).
Context (Hids : NoDup ms.*1) (Hcount : len ms <= RAW_UDP_MAX_ACTIVE_MESSAGES)
  (Hms : forall m p, (m, p) ∈ ms -> overlay_packet mtu cls src dst p)
  (Hrange : forall m p, (m, p) ∈ ms -> 0 <= m < 65536) (Hmp : 1000 <= mp <= 1410).
Context (Ha : 0 <= a < 2 ^ 32) (Hb : 0 <= b < 2 ^ 32) (Hcls : cls = TRAFFIC_TCP \/ cls = TRAFFIC_UDP) (Hk : m_initialized k = true).
Abbreviation key := (Z * bytes * Z)%type (only parsing).
Context (keys : list key) (Hkeys : forall x, x ∈ keys -> x.1 ∈ ms /\ 0 <= x.2 < frag_count mp x.1.2)
  (Hnd : NoDup (map key_id keys)).
Definition no_key : key := ((0, []), 0).
Definition relay_plain (x : key) : bytes := relay_header UDP_RAW_RELAY_DATA cls a b ++ key_packet mp x.

Lemma message_size m p : (m, p) ∈ ms -> 20 <= len p <= normalizeRoomMtu mtu.
Proof.
  intros Hin. destruct (Hms m p Hin) as [P1 P2 _].
  destruct (structure_facts p mtu src dst (structure_complete p mtu src dst P1 P2)) as (Hl & _). done.
Qed.
Lemma key_size x : x ∈ keys -> 7 <= len (key_packet mp x) <= 1416.
Proof.
  intros Hin. destruct (Hkeys x Hin) as [Hx Hi]. destruct x as [[m p] i]. cbn [fst snd] in *.
  pose proof (mtu_bounds mtu). pose proof (message_size m p Hx) as Hp.
  destruct (len_chunk mp (normalizeRoomMtu mtu) Hmp ltac:(lia) p i Hp Hi) as [_ Hl].
  unfold key_packet, frag_packet. rewrite len_app. cbn [fst snd]. change (len (frag_header _ _ _ _)) with 6. lia.
Qed.
(** The receiver has accepted the datagrams [D]; [A] are their fragments. *)
Record hearing (D : gset nat) (A : gset (Z * Z)) (r : RawUdpTunnel) (s : CliTunnelManager) : Prop := mkHearing {
  hr_hearer : hearer a b cls (tunnelKey a cls) mtu src dst s;
  hr_tunnel : tunnel_at (tunnelKey a cls) r s;
  hr_receiver : receiver mp (normalizeRoomMtu mtu) r;
  hr_table : table ms mp A (ru_reassembly r);
  hr_leg : leg k base (len keys) (tm_udpCipher s) D;
  hr_arrived : forall j, (j < length keys)%nat -> (key_id (nth j keys no_key) ∈ A <-> j ∈ D);
  hr_sid : 0 <= tm_secureSessionId s < 2 ^ 32
}.
Lemma key_at j : (j < length keys)%nat -> nth j keys no_key ∈ keys.
Proof. intros Hj. apply (list_elem_of_lookup_2 _ j). by apply lookup_nth. Qed.
Lemma hear_one D A r s (j : nat) :
  hearing D A r s -> (j < length keys)%nat ->
  let x := nth j keys no_key in
  exists s' out r', on_datagram (sealed_datagram k (tm_secureSessionId s) (base + Z.of_nat j) (relay_plain x))
      (tm_serverIP s) (tm_serverPort s) s = (Some tt, s') /\ same_plane s s' /\
    tm_out s' = tm_out s ++ map EvTunWrite (if decide (j ∈ D) then [] else out) /\
    (j ∉ D -> raw_feedInput (tm_now s) (key_packet mp x) r = (map OutData out, r')) /\
    hearing ({[j]} ∪ D) (if decide (j ∈ D) then A else {[key_id x]} ∪ A) (if decide (j ∈ D) then r else r') s'.
Proof.
  intros [Hh Ht Hr Htb Hl Hd Hsid] Hj. cbv zeta. set (x := nth j keys no_key).
  destruct (Hkeys x (key_at j Hj)) as [Hx Hi]. pose proof (key_size x (key_at j Hj)) as Hsz. pose proof (mtu_bounds mtu) as Hmtu.
  assert (exists out r', j ∉ D -> raw_feedInput (tm_now s) (key_packet mp x) r = (map OutData out, r') /\
    Forall (overlay_packet mtu cls src dst) out /\ receiver mp (normalizeRoomMtu mtu) r' /\
    table ms mp ({[key_id x]} ∪ A) (ru_reassembly r')) as (out & r' & Hstep).
  { destruct (decide (j ∈ D)) as [Hin|Hin]; [by exists [], r|].
    pose proof (receive_step ms mp (normalizeRoomMtu mtu) Hids Hcount message_size Hrange Hmp ltac:(lia) (tm_now s) A r x.1.1 x.1.2 x.2
      Hr Htb ltac:(by destruct x as [[m p] i]) Hi) as Hstep.
    change (x.1.1, x.2) with (key_id x) in Hstep. specialize (Hstep ltac:(pose proof (Hd j Hj); tauto)). cbv zeta in Hstep.
    unfold key_packet. destruct (raw_feedInput (tm_now s) (frag_packet mp x.1.1 x.1.2 x.2) r) as [o r'].
    destruct Hstep as (-> & Hr' & Htb'). eexists _, r'. intros _. split; [reflexivity|]. split; [|done].
    case_decide; [|constructor]. constructor; [|constructor]. apply (Hms x.1.1). by destruct x as [[m p] i]. }
  destruct (datagram_step a b cls mtu src dst s r r' (key_packet mp x) out k base (len keys) D j Hh Ht (proj1 Hr) Ha Hb Hcls ltac:(lia))
    as (s' & E & Hp & Hl' & Hh' & Ht' & Ho); [|done|done|unfold len; lia|done|].
  { intros Hin. by destruct (Hstep Hin) as (? & ? & _). }
  exists s', out, r'. split; [exact E|]. split; [done|]. split; [done|]. split; [intros Hin; by destruct (Hstep Hin)|].
  constructor; [done|done| | |done| |by rewrite (sh_sid _ _ (sp_shape _ _ Hp))].
  - case_decide as Ed; [done|]. by destruct (Hstep Ed) as (_ & _ & ? & _).
  - case_decide as Ed; [done|]. by destruct (Hstep Ed) as (_ & _ & _ & ?).
  - intros i Hi'. destruct (decide (i = j)) as [->|Hne].
    + fold x. pose proof (Hd j Hj). case_decide as Ed; set_solver.
    + assert (key_id (nth i keys no_key) <> key_id x) as Hne'.
      { intros E'. apply Hne, (NoDup_lookup (map key_id keys) i j (key_id x)); [done| |]; rewrite list_lookup_fmap.
        - by rewrite (lookup_nth keys no_key i Hi'), <- E'.
        - by rewrite (lookup_nth keys no_key j Hj). }
      case_decide; [|rewrite elem_of_union, elem_of_singleton]; rewrite (Hd i Hi'); set_solver.
Qed.
Lemma nth_map_keys (j : nat) : (j < length keys)%nat -> nth j (map relay_plain keys) [] = relay_plain (nth j keys no_key).
Proof. intros Hj. rewrite (nth_indep _ [] (relay_plain no_key)) by by rewrite length_map. apply map_nth. Qed.
Lemma hear_run D A r s js :
  hearing D A r s -> Forall (fun j => (j < length keys)%nat) js ->
  let sent := sealed_datagrams k (tm_secureSessionId s) base (map relay_plain keys) in
  exists s' out, recv_datagrams (map (fun j => (nth j sent [], tm_serverIP s, tm_serverPort s)) js) s = (Some tt, s') /\
    tm_out s' = tm_out s ++ map EvTunWrite out /\
    fst (feed_keys mp (map (fun j => (tm_now s, nth j keys no_key)) (fresh D js)) r) = map OutData out.
Proof.
  intros Hh Hjs. cbv zeta. revert D A r s Hh. induction Hjs as [|j js Hj _ IH]; intros D A r s Hh.
  { exists s, []. split; [done|]. by rewrite app_nil_r. }
  destruct (hear_one D A r s j Hh Hj) as (s1 & out1 & r1 & E1 & P1 & O1 & F1 & Hh1). cbn [map recv_datagrams].
  rewrite sealed_datagrams_nth, nth_map_keys by (rewrite ?length_map; done).
  rewrite bool_decide_false by (by rewrite sealed_frame by (destruct (lg_range _ _ _ _ _ (hr_leg _ _ _ _ Hh)) as (? & ? & _); unfold len in *; done || lia)).
  rewrite (bind_run _ _ _ _ _ E1). destruct (IH _ _ _ _ Hh1) as (s2 & out2 & E2 & O2 & F2).
  pose proof (sp_server _ _ P1) as Es. injection Es as Es1 Es2.
  rewrite (sh_sid _ _ (sp_shape _ _ P1)), Es1, Es2 in E2. rewrite (sp_now _ _ P1) in F2.
  exists s2, ((if decide (j ∈ D) then [] else out1) ++ out2). split; [exact E2|]. cbn [fresh].
  split; [by rewrite O2, O1, <- app_assoc, map_app|]. case_decide as Ed.
  - by replace ({[j]} ∪ D) with D in F2 by set_solver.
  - unfold feed_keys in *. cbn [map emit_all fst snd]. rewrite (F1 Ed). cbn [and_then].
    destruct (emit_all _ _ r1) as [outs r2]. cbn [fst] in *. by rewrite F2, map_app.
Qed.
(** From a receiver that holds nothing yet. *)
Lemma hear_all r s js :
  hearing ∅ ∅ r s -> Forall (fun j => (j < length keys)%nat) js ->
  let sent := sealed_datagrams k (tm_secureSessionId s) base (map relay_plain keys) in
  exists s' out, onUdpReadable (map (fun j => (nth j sent [], tm_serverIP s, tm_serverPort s)) js) s = (Some tt, s') /\
    tm_out s' = tm_out s ++ map EvTunWrite out /\
    out ≡ₚ delivered ms mp (list_to_set (map key_id (pick no_key keys (fresh ∅ js)))).
Proof.
  intros Hh Hjs. cbv zeta. destruct (hear_run ∅ ∅ r s js Hh Hjs) as (s' & out & E & O & F). exists s', out.
  split; [|split; [exact O|]].
  { unfold onUdpReadable. rewrite bind_gets. destruct (he_ready _ _ _ _ _ _ _ _ (hr_hearer _ _ _ _ Hh)) as [_ _ R3 _ _ _].
    by rewrite (proj2 (Z.eqb_neq _ _)). }
  pose proof (mtu_bounds mtu) as Hmtu. set (ks := map (fun j => (tm_now s, nth j keys no_key)) (fresh ∅ js)) in *.
  pose proof (fresh_below (length keys) ∅ js Hjs) as Hbelow. rewrite Forall_forall in Hbelow.
  assert (ks.*2 = pick no_key keys (fresh ∅ js)) as Ek by (unfold ks, pick; by rewrite <- list_fmap_compose).
  pose proof (receive_run ms mp (normalizeRoomMtu mtu) Hids Hcount message_size Hrange Hmp ltac:(lia) ∅ r ks
    (hr_receiver _ _ _ _ Hh) (hr_table _ _ _ _ Hh)) as Hrun.
  assert (forall now x, (now, x) ∈ ks -> x.1 ∈ ms /\ 0 <= x.2 < frag_count mp x.1.2 /\ key_id x ∉ (∅ : gset (Z * Z))) as Hin.
  { intros now x Hx. apply list_elem_of_fmap in Hx as (j & [= -> ->] & Hj).
    destruct (Hkeys _ (key_at j (Hbelow j Hj))) as [? ?]. split; [done|]. split; [done|set_solver]. }
  specialize (Hrun Hin). rewrite Ek, union_empty_r_L in Hrun. rewrite F in Hrun.
  specialize (Hrun (NoDup_nth_map key_id keys no_key _ Hnd (NoDup_fresh ∅ js) Hbelow)).
  assert (delivered ms mp ∅ = []) as Hnone.
  { unfold delivered. destruct (filter (complete mp ∅) ms) as [|[m p] l] eqn:El; [done|].
    assert ((m, p) ∈ filter (complete mp ∅) ms) as Hmp' by (rewrite El; left). apply list_elem_of_filter in Hmp' as [Hc Hmin].
    destruct (frag_count_bounds mp (normalizeRoomMtu mtu) Hmp ltac:(lia) p (message_size m p Hmin)) as [Hn _].
    apply (proj1 (complete_spec mp ∅ m p)) with (i := 0) in Hc; [set_solver|lia]. }
  rewrite Hnone, app_nil_r in Hrun. apply (Permutation_map_inv OutData) in Hrun as (out' & Eout & Hperm).
  assert (Inj (=) (=) OutData) as Hinj by (by intros ? ? [=]).
  by apply (inj (fmap OutData)) in Eout as ->.
Qed.
End Hear.

(** ** The whole path *)

(** A member [a], its server and its peer [b], all in one room that carries
    the class [cls] as raw UDP without error correction; every cipher is in
    step with its counterpart. *)
Record path (a b cls key mtu src dst fa fb : Z) (t r : RawUdpTunnel) (ca cb : ClientSession)
    (sa : CliTunnelManager) (sv : Server) (sb : CliTunnelManager) : Prop := mkPath {
  pt_ids : 0 <= a < 2 ^ 32 /\ 0 <= b < 2 ^ 32 /\ (cls = TRAFFIC_TCP \/ cls = TRAFFIC_UDP);
  pt_sender : sender b cls key mtu src dst t sa;
  pt_header : raw_header t = relay_header UDP_RAW_RELAY_DATA cls a b;
  pt_routed : routed a b fa fb ca cb sv;
  pt_hearer : hearer a b cls (tunnelKey a cls) mtu src dst sb;
  pt_tunnel : tunnel_at (tunnelKey a cls) r sb;
  pt_pair : tunnel_pair mtu t r;
  pt_up : in_step (tm_udpCipher sa) (udpCipher ca);
  pt_down : in_step (udpCipher cb) (tm_udpCipher sb);
  pt_sids : secureSessionId ca = tm_secureSessionId sa /\ secureSessionId cb = tm_secureSessionId sb /\
            0 <= tm_secureSessionId sb < 2 ^ 32
}.
Lemma header_addressed a b cls rest : 0 <= a < 2 ^ 32 -> 0 <= b < 2 ^ 32 -> cls = TRAFFIC_TCP \/ cls = TRAFFIC_UDP ->
  addressed a b (relay_header UDP_RAW_RELAY_DATA cls a b ++ rest).
Proof.
  intros Ha Hb Hc. destruct (header_fields cls a b rest Ha Hb Hc) as (F0 & F1 & _ & _ & _ & F5).
  constructor; [rewrite F5; pose proof (len_nonneg rest); change sizeof_UdpRelayHeader with 10; lia|by right|by rewrite F1|..];
    unfold relay_header; rewrite <- !app_assoc.
  - change (drop 2 _) with (be_bytes 4 (u32 a) ++ be_bytes 4 (u32 b) ++ rest). rewrite readU32BE_be. unfold u32.
    rewrite Z.mod_mod by done. by apply Z.mod_small.
  - change (drop 6 _) with (be_bytes 4 (u32 b) ++ rest). rewrite readU32BE_be. unfold u32.
    rewrite Z.mod_mod by done. by apply Z.mod_small.
Qed.
Lemma keys_at_most mp mtu (ms : list (Z * bytes)) : 1000 <= mp <= 1410 -> mtu <= 1420 ->
  (forall m p, (m, p) ∈ ms -> 20 <= len p <= mtu) -> (length (all_keys mp ms) <= 2 * length ms)%nat.
Proof.
  intros Hmp Hmtu. induction ms as [|[m p] ms IH]; intros Hms; [done|].
  unfold all_keys in *. cbn [map concat length]. rewrite length_app.
  unfold message_keys at 1. rewrite length_map, length_seqZ. cbn [snd].
  destruct (frag_count_bounds mp mtu Hmp Hmtu p) as [Hn _]; [apply (Hms m); left|].
  specialize (IH (fun m p Hin => Hms m p ltac:(by right))). lia.
Qed.
Lemma delivered_sub ms mp D : delivered ms mp D ⊆+ ms.*2.
Proof. unfold delivered. apply fmap_submseteq, sublist_submseteq, sublist_filter. Qed.
Lemma delivered_all ms mp D : (forall x, x ∈ all_keys mp ms -> key_id x ∈ D) -> delivered ms mp D = ms.*2.
Proof.
  intros Hall. unfold delivered. f_equal. apply filter_all. intros [m p] Hin. apply complete_spec. intros i Hi.
  apply (Hall (m, p, i)). by apply elem_all_keys.
Qed.

(** The datagrams of some packets, before they are sealed. *)
Definition plain_datagrams (now : Z) (ps : list bytes) (t : RawUdpTunnel) : list bytes :=
  datagrams (fst (send_all (map (pair now) ps) t)).
(** What the sender puts on the wire. *)
Lemma sent_plain mtu cls src dst t r now ps a b :
  tunnel_pair mtu t r -> raw_header t = relay_header UDP_RAW_RELAY_DATA cls a b ->
  Forall (overlay_packet mtu cls src dst) ps -> len ps <= RAW_UDP_MAX_ACTIVE_MESSAGES ->
  let mp := maxFragmentPayload t in
  let keys := all_keys mp (messages_from (ru_nextMsgId t) ps) in
  plain_datagrams now ps t = map (relay_plain mp a b cls) keys /\ NoDup (map key_id keys).
Proof.
  intros Hpair Hhdr Hps Hl. cbv zeta. unfold plain_datagrams.
  assert ((map (pair now) ps).*2 = ps) as E2 by (rewrite <- list_fmap_compose; apply list_fmap_id).
  destruct (receive_sent mtu t r (map (pair now) ps) [] Hpair) as (Hd & Hnd & _).
  - intros n p (q & [= _ ->] & Hq)%list_elem_of_fmap. rewrite Forall_forall in Hps. destruct (Hps q Hq) as [P1 P2 _].
    destruct (structure_facts q mtu src dst (structure_complete q mtu src dst P1 P2)) as (Hl' & _). done.
  - unfold len in *. by rewrite length_map.
  - rewrite E2 in Hd, Hnd. split; [|exact Hnd]. rewrite Hd. unfold relay_plain. by rewrite Hhdr.
Qed.
(** What comes out when the datagrams [got] arrive. *)
Lemma outcome (mtu cls src dst : Z) (t r : RawUdpTunnel) (now : Z) (ps : list bytes) (a b : Z) (got : list nat) (D : gset (Z * Z)) :
  tunnel_pair mtu t r -> raw_header t = relay_header UDP_RAW_RELAY_DATA cls a b ->
  Forall (overlay_packet mtu cls src dst) ps -> len ps <= RAW_UDP_MAX_ACTIVE_MESSAGES ->
  let mp := maxFragmentPayload t in
  let ms := messages_from (ru_nextMsgId t) ps in
  (forall d j, j ∈ got -> key_id (nth j (all_keys mp ms) d) ∈ D) ->
  delivered ms mp D ⊆+ ps /\
  (forall p1 p p2, ps = p1 ++ p :: p2 ->
     (forall j, (length (plain_datagrams now p1 t) <= j < length (plain_datagrams now (p1 ++ [p]) t))%nat -> j ∈ got) ->
     p ∈ delivered ms mp D) /\
  ((forall j, (j < length (plain_datagrams now ps t))%nat -> j ∈ got) -> delivered ms mp D = ps).
Proof.
  intros Hpair Hhdr Hps Hl mp ms HD.
  assert (forall qs, (exists rest, ps = qs ++ rest) ->
    length (plain_datagrams now qs t) = length (all_keys mp (messages_from (ru_nextMsgId t) qs))) as Hlen.
  { intros qs (rest & E). rewrite E in Hps, Hl. apply Forall_app in Hps as [Hqs _]. rewrite len_app in Hl.
    pose proof (len_nonneg rest). destruct (sent_plain mtu cls src dst t r now qs a b Hpair Hhdr Hqs ltac:(lia)) as [-> _].
    by rewrite length_map. }
  split; [|split].
  - rewrite <- (messages_packets (ru_nextMsgId t) ps) at 1. apply delivered_sub.
  - intros p1 p p2 E Hgot. rewrite !Hlen in Hgot by (rewrite E; eauto || (exists p2; by rewrite <- app_assoc)).
    unfold ms in *. rewrite E in *. destruct (messages_app (ru_nextMsgId t) p1 (p :: p2)) as [id' E']. rewrite E' in *.
    cbn [messages_from] in *. pose proof (messages_prefix _ _ _ _ _ E') as E2. rewrite E2, all_keys_app, length_app, all_keys_one in Hgot.
    apply (delivered_in _ _ _ id'); [apply elem_of_app; right; left|]. by apply (complete_at mp _ (id', p) _ got D HD).
  - intros Hall. rewrite <- (messages_packets (ru_nextMsgId t) ps) at 1. apply delivered_all. intros x Hx.
    apply list_elem_of_lookup in Hx as [j Hj]. rewrite <- (nth_lookup_Some _ _ no_key _ Hj). apply HD, Hall.
    rewrite Hlen by (exists []; by rewrite app_nil_r). by apply lookup_lt_Some in Hj.
Qed.

(** A path carries at most 128 datagrams of 64 packets. *)
Lemma path_keys mtu cls src dst (t r : RawUdpTunnel) (ps : list bytes) : tunnel_pair mtu t r ->
  Forall (overlay_packet mtu cls src dst) ps -> len ps <= RAW_UDP_MAX_ACTIVE_MESSAGES ->
  let ms := messages_from (ru_nextMsgId t) ps in let keys := all_keys (maxFragmentPayload t) ms in
  NoDup ms.*1 /\ len ms <= RAW_UDP_MAX_ACTIVE_MESSAGES /\ (forall m p, (m, p) ∈ ms -> overlay_packet mtu cls src dst p) /\
  (forall m p, (m, p) ∈ ms -> 0 <= m < 65536) /\ len keys <= 128.
Proof.
  intros Hpair Hps Hl. cbv zeta. pose proof (pr_msgId _ _ _ Hpair) as Hid. unfold RAW_UDP_MAX_ACTIVE_MESSAGES in *.
  pose proof (messages_packets (ru_nextMsgId t) ps) as E. set (ms := messages_from _ _) in *.
  assert (len ms = len ps) as El by (rewrite <- E; unfold len; by rewrite length_fmap).
  assert (forall m p, (m, p) ∈ ms -> overlay_packet mtu cls src dst p) as Hms.
  { intros m p Hin. rewrite Forall_forall in Hps. apply Hps. rewrite <- E. apply list_elem_of_fmap. by exists (m, p). }
  split; [by apply NoDup_messages; [|lia]|]. split; [lia|]. split; [done|]. split; [intros m p; by apply messages_range|].
  pose proof (mtu_bounds mtu) as Hmtu. pose proof (fragment_budget t) as Hb.
  pose proof (keys_at_most (maxFragmentPayload t) (normalizeRoomMtu mtu) ms Hb ltac:(lia)) as Hk.
  assert (length (all_keys (maxFragmentPayload t) ms) <= 2 * length ms)%nat; [|unfold len in *; lia].
  apply Hk. intros m p Hin. destruct (Hms m p Hin) as [P1 P2 _].
  destruct (structure_facts p mtu src dst (structure_complete p mtu src dst P1 P2)) as (? & _). done.
Qed.
Lemma pick_map {A B} (f : A -> B) d d' l js : Forall (fun j => (j < length l)%nat) js -> pick (d') (map f l) js = map f (pick d l js).
Proof.
  intros Hjs. unfold pick. rewrite map_map. apply map_ext_in. intros j Hj%list_elem_of_In. rewrite Forall_forall in Hjs.
  rewrite (nth_indep _ d' (f d)) by (rewrite length_map; by apply Hjs). apply map_nth.
Qed.
Lemma pick_at {A} (d d' : A) l js i : (i < length js)%nat -> (forall j, j ∈ js -> (j < length l)%nat) ->
  nth i (pick d l js) d' = nth (nth i js 0%nat) l d.
Proof.
  intros Hi Hjs. unfold pick. rewrite (nth_indep _ d' (nth 0%nat l d)) by by rewrite length_map.
  apply (map_nth (fun j => nth j l d)).
Qed.

(** The server and the receiver before anything arrives. *)
Lemma path_relaying a b cls key mtu src dst fa fb t r ca cb sa sv sb n :
  path a b cls key mtu src dst fa fb t r ca cb sa sv sb -> 0 <= n <= 128 -> m_sendCounter (tm_udpCipher sa) + 128 <= UINT64_MAX ->
  relaying a b fa fb (tm_udpCipher sa) (m_sendCounter (tm_udpCipher sa)) n ∅ ca cb sv.
Proof.
  intros Hp Hn Hc. split; [apply Hp| |].
  - apply in_step_leg; [apply Hp|unfold REPLAY_WINDOW; lia|lia].
  - pose proof (pt_down _ _ _ _ _ _ _ _ _ _ _ _ _ _ _ _ Hp) as [[] ? _]. done.
Qed.
Lemma path_hearing a b cls key mtu src dst fa fb t r ca cb sa sv sb ms keys :
  path a b cls key mtu src dst fa fb t r ca cb sa sv sb -> len keys <= 128 -> m_sendCounter (udpCipher cb) + 128 <= UINT64_MAX ->
  hearing ms (maxFragmentPayload t) a b cls mtu src dst (udpCipher cb) (m_sendCounter (udpCipher cb)) keys ∅ ∅ r sb.
Proof.
  intros Hp Hn Hc. pose proof (len_nonneg keys). pose proof (pt_pair _ _ _ _ _ _ _ _ _ _ _ _ _ _ _ _ Hp) as [[F1 F2] [M1 M2] Hsec _ Hfresh].
  constructor; [apply Hp|apply Hp| | | | |apply Hp].
  - split; [done|]. split; [done|]. unfold maxFragmentPayload. by rewrite F1, F2, M1, M2, Hsec.
  - rewrite Hfresh. constructor; [apply table_init_ok|set_solver|done|]. intros m p _ _. left. set_solver.
  - apply in_step_leg; [apply Hp|unfold REPLAY_WINDOW; lia|lia].
  - intros j _. set_solver.
Qed.

(** C1: from adapter to adapter.  A member hands up to 64 IP packets to a peer
    of its room, through the server, over raw UDP.  On the way to the server
    and from it the network loses, reorders and repeats datagrams as it likes.
    Every packet leaves in sealed datagrams; the server forwards each datagram
    that arrives once, sealed for the peer; and the peer gives its adapter no
    packet that was not sent and none twice, every packet all of whose
    datagrams got through, and, if all did, exactly the packets sent. *)
Theorem packets_cross a b cls key mtu src dst fa fb t r ca cb sa sv sb run (ps : list bytes) :
  path a b cls key mtu src dst fa fb t r ca cb sa sv sb ->
  tm_tun sa = Some (mkTun run ps) -> Forall (overlay_packet mtu cls src dst) ps ->
  len ps <= RAW_UDP_MAX_ACTIVE_MESSAGES ->
  m_sendCounter (tm_udpCipher sa) + 128 <= UINT64_MAX -> m_sendCounter (udpCipher cb) + 128 <= UINT64_MAX ->
  let sent := sealed_datagrams (tm_udpCipher sa) (tm_secureSessionId sa) (m_sendCounter (tm_udpCipher sa))
                (plain_datagrams (tm_now sa) ps t) in
  (exists sa', processTunPackets sa = (Some tt, sa') /\
     tm_out sa' = tm_out sa ++ map (fun d => EvSendTo d (ru_peerIP t) (ru_peerPort t)) sent) /\
  forall up : list ((Z * Z) * nat), Forall (fun j => (j < length sent)%nat) up.*2 ->
  exists sv' relayed, serve (map (fun x => (x.1, nth x.2 sent [])) up) sv = (Some tt, sv') /\
    sent_to (udpAddr cb) relayed sv sv' /\ length relayed = length (fresh ∅ up.*2) /\
  forall down : list nat, Forall (fun j => (j < length relayed)%nat) down ->
  exists sb' out, onUdpReadable (map (fun j => (nth j relayed [], tm_serverIP sb, tm_serverPort sb)) down) sb = (Some tt, sb') /\
    tm_out sb' = tm_out sb ++ map EvTunWrite out /\
    let got := pick 0%nat (fresh ∅ up.*2) down in
    out ⊆+ ps /\
    (forall p1 p p2, ps = p1 ++ p :: p2 ->
       (forall j, (length (plain_datagrams (tm_now sa) p1 t) <= j < length (plain_datagrams (tm_now sa) (p1 ++ [p]) t))%nat -> j ∈ got) ->
       p ∈ out) /\
    ((forall j, (j < length sent)%nat -> j ∈ got) -> out ≡ₚ ps).
Proof.
  intros Hpath Hq Hps Hl Hc1 Hc2. destruct Hpath as [(Ha & Hb & Hcls) Hsend Hhdr Hrt Hhear Htun Hpair Hup Hdown (Hs1 & Hs2 & Hs3)] eqn:Epath.
  cbv zeta. clear Epath.
  destruct (sent_plain mtu cls src dst t r (tm_now sa) ps a b Hpair Hhdr Hps Hl) as [Hplain Hnd].
  destruct (path_keys mtu cls src dst t r ps Hpair Hps Hl) as (Hids & Hcount & Hms & Hrange & Hkl). cbv zeta in *.
  set (mp := maxFragmentPayload t) in *. set (ms := messages_from (ru_nextMsgId t) ps) in *. set (keys := all_keys mp ms) in *.
  set (plains := plain_datagrams (tm_now sa) ps t) in *.
  assert (length plains = length keys) as Hpl by (by rewrite Hplain, length_map). rewrite !length_sealed, Hpl.
  split.
  { apply (process_packets b cls key mtu src dst t sa run ps Hsend Hq Hps). unfold RAW_UDP_MAX_ACTIVE_MESSAGES in Hl. lia. }
  intros up Hupj. pose proof (fresh_at_most _ _ Hupj) as Hfew.
  destruct (relay_run a b fa fb (tm_udpCipher sa) (m_sendCounter (tm_udpCipher sa)) ∅ ca cb sv plains up) as (sv' & Esv & Hsv).
  { apply (path_relaying _ _ _ _ _ _ _ _ _ _ _ _ _ _ _ _ _ Hpath); unfold len in *; lia. }
  { apply Hup. }
  { unfold len in *. lia. }
  { rewrite Hplain. apply Forall_map, Forall_true. intros x. by apply header_addressed. }
  { by rewrite Hpl. }
  set (js := fresh ∅ up.*2) in *. assert (Forall (fun j => (j < length keys)%nat) js) as Hjs by by apply fresh_below.
  rewrite Hs1 in Esv. rewrite Hplain, (pick_map _ no_key) in Hsv by done. set (keys' := pick no_key keys js) in *.
  eexists sv', _. split; [exact Esv|]. split; [exact Hsv|]. rewrite length_sealed, length_map. unfold keys' at 1, pick at 1.
  rewrite length_map. split; [done|]. intros down Hdj.
  assert (length keys' = length js) as Hkl' by (unfold keys', pick; by rewrite length_map).
  rewrite Forall_forall in Hjs. rewrite Hs2.
  assert (forall x, x ∈ keys' -> x ∈ keys) as Hsub.
  { intros x (j & -> & Hj)%list_elem_of_fmap. by apply key_at, Hjs. }
  destruct (hear_all ms mp a b cls mtu src dst (udpCipher cb) (m_sendCounter (udpCipher cb)) Hids Hcount Hms Hrange
    (fragment_budget t) Ha Hb Hcls (pr_s _ _ (is_pair _ _ Hdown)) keys') with (r := r) (s := sb) (js := down) as (sb' & out & Esb & Ho & Hout).
  - intros x Hx%Hsub. by apply elem_all_keys.
  - by apply NoDup_nth_map; [|apply NoDup_fresh|].
  - apply (path_hearing _ _ _ _ _ _ _ _ _ _ _ _ _ _ _ _ _ _ Hpath); unfold len in *; lia.
  - eapply Forall_impl; [exact Hdj|]. cbn. intros j. by rewrite Hkl'.
  - exists sb', out. split; [exact Esb|]. split; [exact Ho|].
    set (D := list_to_set _ : gset (Z * Z)) in Hout.
    destruct (outcome mtu cls src dst t r (tm_now sa) ps a b (pick 0%nat js down) D Hpair Hhdr Hps Hl) as (O1 & O2 & O3).
    { intros d j (i & -> & Hi)%list_elem_of_fmap. unfold D. apply elem_of_list_to_set, list_elem_of_fmap.
      rewrite Forall_forall in Hdj. pose proof (Hdj i Hi) as Hij. rewrite Hkl' in Hij.
      exists (nth i keys' no_key). split.
      - unfold keys'. rewrite pick_at by done. f_equal. apply nth_indep, Hjs, list_elem_of_In, nth_In, Hij.
      - unfold pick. apply list_elem_of_fmap. exists i. split; [done|]. by apply elem_of_fresh. }
    fold mp ms keys plains in O1, O2, O3. rewrite Hpl in O3. rewrite Hout.
    split; [exact O1|]. split; [intros p1 p p2 E Hg; rewrite Hout; by apply (O2 p1 p p2)|]. intros Hall. by rewrite (O3 Hall).
Qed.
End Delivery.

(** ** Instances *)

#[local] Existing Instances ToyCrypto ToyCryptoLaws rep_CM256 ToyKcp.
(** A member after its room is set up, by calls of the application. *)
Definition demo_member (me other ip other_ip sid : Z) (packets : list bytes) : CliTunnelManager := snd (for_each
  [KServer 100 11510; KMyPeerId me; KMyVirtualIP ip; KRoomMtu 1280; KInstall sid (replicate 32 sid); KStart (mkTun true []) 5 true true 4000;
   KApp (fun a => set_la_udpPolicy (mkPolicy MODE_RELAY_RAW_UDP FEC_NONE KCP_PROFILE_REALTIME) (set_la_roomReady true
     (set_la_roomMtu 1280 (set_la_myPeerId me (set_la_serverIP 100 (set_la_port 11510 a))))));
   KJoined (mkPeerInfo other other_ip TRANSPORT_NONE (bytes_of_string "Other")); KRelayReady other; KAdapter packets]
  link_call CliTunnelManager_init).
Definition demo_session (fd id sid : Z) (addr : Z * Z) : ClientSession :=
  set_tcpFd fd (set_peerId id (set_roomId 9 (set_secureSessionId sid (set_udpAddrKnown true (set_udpAddr addr
    (set_secureEnabled true (set_serverAuthOk true (set_state InRoom
      (set_udpCipher (cipher_init cipher_empty (replicate 32 sid) false "udp") ClientSession_init))))))))).
Definition demo_relay : Server :=
  set_sv_peerMap {[1 := 5; 2 := 6]} (set_sv_secureSessionMap {[77 := 5; 88 := 6]}
    (set_sv_clients {[5 := demo_session 5 1 77 (1, 1); 6 := demo_session 6 2 88 (2, 2)]} (Server_init ServerLimits_default 100))).
Definition demo_ip (n : nat) : bytes := ipv4_packet 5 0 [0; 0; 0; 0; 64; 17; 0; 0] 0x0A0A0002 0x0A0A0003 (replicate n 7).
Definition demo_packets : list bytes := [demo_ip 1240; demo_ip 8].
Definition demo_sender : CliTunnelManager := demo_member 1 2 0x0A0A0002 0x0A0A0003 77 demo_packets.
Definition demo_receiver : CliTunnelManager := demo_member 2 1 0x0A0A0003 0x0A0A0002 88 [].
Definition tunnel_of (key : Z) (s : CliTunnelManager) : RawUdpTunnel :=
  match tm_rawByPeerClass s !! key with Some o => ow_tunnel o | None => CliRawUdpTunnel_init 0 0 0 FEC_NONE 1280 0 true end.
Lemma demo_ready me other ip other_ip sid packets :
  let s := demo_member me other ip other_ip sid packets in
  bool_decide (tm_dataPlaneState s = Running /\ tm_securityMode s = Secure /\ tm_udpFd s <> SOCK_INVALID /\ tm_secureSessionId s <> 0 /\
    len (tm_secureMaster s) = SECURE_KEY_SIZE /\ m_initialized (tm_udpCipher s) = true /\ 0 <= m_sendCounter (tm_udpCipher s)) = true -> ready s.
Proof. cbv zeta. intros (? & ? & ? & ? & ? & ? & ?)%bool_decide_eq_true_1. by constructor. Qed.
Lemma demo_path : path 1 2 TRAFFIC_UDP (tunnelKey 2 TRAFFIC_UDP) 1280 0x0A0A0002 0x0A0A0003 5 6
  (tunnel_of (tunnelKey 2 TRAFFIC_UDP) demo_sender) (tunnel_of (tunnelKey 1 TRAFFIC_UDP) demo_receiver)
  (demo_session 5 1 77 (1, 1)) (demo_session 6 2 88 (2, 2)) demo_sender demo_relay demo_receiver.
Proof.
  constructor.
  - split; [done|]. split; [done|by right].
  - constructor; [by apply demo_ready; vm_compute|by vm_compute|by vm_compute|by vm_compute|by vm_compute| |by vm_compute..].
    destruct (tm_peerById demo_sender !! 2) as [p|] eqn:E; [|vm_compute in E; discriminate].
    exists p. split; [exact E|]. vm_compute in E. injection E as <-. by split.
  - by vm_compute.
  - constructor; try by vm_compute.
  - constructor; [by apply demo_ready; vm_compute|by eexists; vm_compute|by vm_compute|by vm_compute| |done|by vm_compute].
    destruct (tm_peerById demo_receiver !! 1) as [p|] eqn:E; [|vm_compute in E; discriminate].
    exists p. split; [done|]. vm_compute in E. injection E as <-. by split.
  - by vm_compute.
  - constructor; try by vm_compute.
  - apply in_step_fresh; [constructor; by vm_compute|by vm_compute|by vm_compute|by vm_compute].
  - apply in_step_fresh; [constructor; by vm_compute|by vm_compute|by vm_compute|by vm_compute].
  - split; [by vm_compute|]. split; [by vm_compute|]. split; by vm_compute.
Qed.
(** Three datagrams; each leg repeats one and reverses two. *)
Lemma packets_cross_witness :
  exists sv' relayed sb' out,
    serve (map (fun x => (x.1, nth x.2 (sealed_datagrams (tm_udpCipher demo_sender) 77 (m_sendCounter (tm_udpCipher demo_sender))
      (plain_datagrams (tm_now demo_sender) demo_packets (tunnel_of (tunnelKey 2 TRAFFIC_UDP) demo_sender))) []))
      [((9, 9), 1%nat); ((9, 9), 0%nat); ((9, 9), 1%nat); ((8, 8), 2%nat)]) demo_relay = (Some tt, sv') /\
    onUdpReadable (map (fun j => (nth j relayed [], 100, 11510)) [2%nat; 0%nat; 0%nat; 1%nat]) demo_receiver = (Some tt, sb') /\
    tm_out sb' = tm_out demo_receiver ++ map EvTunWrite out /\ out ≡ₚ demo_packets.
Proof.
  destruct (packets_cross 1 2 TRAFFIC_UDP (tunnelKey 2 TRAFFIC_UDP) 1280 0x0A0A0002 0x0A0A0003 5 6 _ _ _ _ _ _ _ true demo_packets demo_path)
    as [_ Hup]; [by vm_compute| |by vm_compute|by vm_compute|by vm_compute|].
  { repeat constructor; try (by vm_compute). all: eexists 5, 0, [0; 0; 0; 0; 64; 17; 0; 0], _; split; [reflexivity|by vm_compute]. }
  destruct (Hup [((9, 9), 1%nat); ((9, 9), 0%nat); ((9, 9), 1%nat); ((8, 8), 2%nat)]) as (sv' & relayed & E1 & _ & El & Hdown).
  { apply (bool_decide_eq_true_1 _). by vm_compute. }
  assert (length relayed = 3%nat) as El' by (rewrite El; by vm_compute).
  destruct (Hdown [2%nat; 0%nat; 0%nat; 1%nat]) as (sb' & out & E2 & E3 & _ & _ & Hall).
  { rewrite El'. apply (bool_decide_eq_true_1 _). by vm_compute. }
  exists sv', relayed, sb', out. split; [exact E1|]. split; [exact E2|]. split; [exact E3|]. apply Hall.
  intros j Hj. rewrite length_sealed in Hj.
  assert (j < 3)%nat as Hj3 by (eapply Nat.lt_le_trans; [exact Hj|]; by vm_compute).
  apply (bool_decide_eq_true_1 (j ∈ _)). do 3 (destruct j as [|j]; [by vm_compute|]). lia.
Defined.
