(* ===== verification/WinText.v ===== *)
(** * [common/windows_network_config.h]: text of Windows commands

    What a command of the system prints is captured within a limit, decoded
    (UTF-16 with a byte-order mark, UTF-8, a code page, or escaped octets) and
    cleaned before it enters a log line.  A text is the list of its octets; a
    wide string is the list of its code units.  The conversions of the Windows
    API are parameters. *)

From stdpp Require Import pretty.
From S2P Require Import Prelude.

(** [MultiByteToWideChar(codePage, MB_ERR_INVALID_CHARS, ...)], [None] when it
    gives 0; [WideCharToMultiByte(CP_UTF8, ...)]; the text [FormatMessageW]
    has for a code; the code pages of the system. *)
Class WindowsTextApi := {
  MultiByteToWideChar : Z -> bytes -> option (list Z);
  wide_to_utf8 : list Z -> bytes;
  FormatMessageW : Z -> option (list Z);
  GetOEMCP : Z;
  GetACP : Z
}.

(** ** [struct WindowsCommandResult] *)

Record WindowsCommandResult := mkResult {
  cr_exitCode : Z;
  cr_systemError : Z;
  cr_elapsedMs : Z;
  cr_timedOut : bool;
  cr_absent : bool;
  cr_encoding : string;
  cr_codePage : Z;
  cr_oem : Z;
  cr_ansi : Z;
  cr_console : Z;
  cr_captured : Z;
  cr_observed : Z;
  cr_truncated : bool;
  cr_output : bytes
}.
Definition WindowsCommandResult_init : WindowsCommandResult :=
  mkResult 0 0 0 false false "utf-8" 65001 0 0 0 0 0 false [].
Definition cr_ok (r : WindowsCommandResult) : bool :=
  negb (cr_timedOut r) && (cr_systemError r =? 0) && (cr_exitCode r =? 0).

(** ** Numbers and addresses as text *)

(** [operator<<] of an unsigned integer. *)
Definition dec_text (z : Z) : bytes := bytes_of_string (pretty z).
Definition windowsIPv4 (ip : Z) : bytes :=
  dec_text (Z.land (Z.shiftr ip 24) 255) ++ bytes_of_string "." ++
  dec_text (Z.land (Z.shiftr ip 16) 255) ++ bytes_of_string "." ++
  dec_text (Z.land (Z.shiftr ip 8) 255) ++ bytes_of_string "." ++
  dec_text (Z.land ip 255).
Definition windowsAscii (value : bytes) : list Z := value.

(** ** Capture *)

Definition WINDOWS_COMMAND_OUTPUT_LIMIT : Z := 8192.
Definition WINDOWS_COMMAND_OUTPUT_LOOKAHEAD : Z := 4.
Definition captureWindowsCommandOutput (chunk : bytes) (captured : bytes) (observed : Z) : bytes * Z :=
  let limit := WINDOWS_COMMAND_OUTPUT_LIMIT + WINDOWS_COMMAND_OUTPUT_LOOKAHEAD in
  (if (len captured <? limit) && negb (len chunk =? 0)
   then captured ++ take (Z.to_nat (Z.min (len chunk) (limit - len captured))) chunk else captured,
   u64 (observed + len chunk)).

(** ** UTF-8 *)

(** The size a lead octet announces; -1 when it cannot lead. *)
Definition utf8_length (lead : Z) : Z :=
  if lead <? 0x80 then 1 else
  if (0xc2 <=? lead) && (lead <=? 0xdf) then 2 else
  if (0xe0 <=? lead) && (lead <=? 0xef) then 3 else
  if (0xf0 <=? lead) && (lead <=? 0xf4) then 4 else -1.
(** Octet [i] of a sequence cannot be [next]. *)
Definition utf8_bad (lead i next : Z) : bool :=
  (next <? 0x80) || (0xbf <? next) ||
  ((i =? 1) && (((lead =? 0xe0) && (next <? 0xa0)) || ((lead =? 0xed) && (0x9f <? next)) ||
                ((lead =? 0xf0) && (next <? 0x90)) || ((lead =? 0xf4) && (0x8f <? next)))).
Definition windowsUtf8Sequence (value : bytes) (offset : Z) : Z :=
  if len value <=? offset then 0 else
  let lead := byte_at value offset in
  let length := utf8_length lead in
  if length <? 0 then -1 else
  if existsb (fun i => utf8_bad lead i (byte_at value (offset + i)))
       (seqZ 1 (Z.min length (len value - offset) - 1)) then -1 else
  if len value - offset <? length then 0 else length.

(** The result and [*validBytes]; the offset grows in every round. *)
Fixpoint validate_from (fuel : nat) (value : bytes) (tail : bool) (offset : Z) : bool * Z :=
  match fuel with
  | O => (false, offset)
  | S fuel =>
      if len value <=? offset then (true, offset) else
      let length := windowsUtf8Sequence value offset in
      if length <=? 0 then ((length =? 0) && tail, offset) else
      validate_from fuel value tail (offset + length)
  end.
Definition windowsValidateUtf8 (value : bytes) (tail : bool) : bool * Z :=
  validate_from (S (length value)) value tail 0.

Fixpoint bounded_from (fuel : nat) (value : bytes) (limit offset : Z) : Z :=
  match fuel with
  | O => offset
  | S fuel =>
      if (len value <=? offset) || (limit <=? offset) then offset else
      let length := windowsUtf8Sequence value offset in
      if (length <=? 0) || (limit - offset <? length) then offset else
      bounded_from fuel value limit (offset + length)
  end.
Definition windowsUtf8BoundedLength (value : bytes) (limit : Z) : Z :=
  bounded_from (S (length value)) value limit 0.

Definition windowsAppendUtf8 (output : bytes) (scalar : Z) : bytes :=
  output ++
  if scalar <? 0x80 then [scalar] else
  if scalar <? 0x800 then
    [Z.lor 0xc0 (Z.shiftr scalar 6); Z.lor 0x80 (Z.land scalar 63)] else
  if scalar <? 0x10000 then
    [Z.lor 0xe0 (Z.shiftr scalar 12); Z.lor 0x80 (Z.land (Z.shiftr scalar 6) 63);
     Z.lor 0x80 (Z.land scalar 63)] else
    [Z.lor 0xf0 (Z.shiftr scalar 18); Z.lor 0x80 (Z.land (Z.shiftr scalar 12) 63);
     Z.lor 0x80 (Z.land (Z.shiftr scalar 6) 63); Z.lor 0x80 (Z.land scalar 63)].

(** ** UTF-16 *)

Definition utf16_unit (bigEndian : bool) (a b : Z) : Z :=
  if bigEndian then Z.lor (Z.shiftl a 8) b else Z.lor a (Z.shiftl b 8).
(** The loop from the octets left; a pair of surrogates takes four of them. *)
Fixpoint decode_utf16 (bigEndian tail : bool) (l : bytes) (output : bytes) : bool * bytes :=
  match l with
  | [] => (true, output)
  | [_] => (tail, output)
  | a :: b :: l =>
      let scalar := utf16_unit bigEndian a b in
      if (0xd800 <=? scalar) && (scalar <=? 0xdbff) then
        match l with
        | c :: d :: l =>
            let low := utf16_unit bigEndian c d in
            if (low <? 0xdc00) || (0xdfff <? low) then (false, output) else
            decode_utf16 bigEndian tail l
              (windowsAppendUtf8 output (0x10000 + Z.shiftl (scalar - 0xd800) 10 + low - 0xdc00))
        | _ => (tail, output)
        end
      else if (0xdc00 <=? scalar) && (scalar <=? 0xdfff) then (false, output) else
      decode_utf16 bigEndian tail l (windowsAppendUtf8 output scalar)
  end.
Definition windowsDecodeUtf16 (value : bytes) (bigEndian tail : bool) : bool * bytes :=
  decode_utf16 bigEndian tail (drop 2 value) [].

(** ** Escaped octets *)

Definition hex_digit (n : Z) : Z := nth (Z.to_nat n) (bytes_of_string "0123456789abcdef") 0.
Definition printable (byte : Z) : bool := (32 <=? byte) && (byte <? 127).
Definition escape_octet (byte : Z) : bytes :=
  if printable byte then [byte]
  else bytes_of_string "\x" ++ [hex_digit (Z.shiftr byte 4); hex_digit (Z.land byte 15)].
(** The text and [*truncated]. *)
Fixpoint escape_from (limit : Z) (value : bytes) (result : bytes) : bytes * bool :=
  match value with
  | [] => (result, false)
  | byte :: value =>
      let needed := if printable byte then 1 else 4 in
      if limit - len result <? needed then (result, true) else
      escape_from limit value (result ++ escape_octet byte)
  end.
Definition windowsEscapeOutput (value : bytes) (limit : Z) : bytes * bool :=
  escape_from limit value [].

(** ** A value in a log line *)

Definition log_octet (c : Z) : Z :=
  if (c =? 13) || (c =? 10) || (c =? 9) then 32 else
  if c =? 34 then 39 else
  if c <? 32 then 63 else c.
Definition windowsLogValue (value : bytes) : bytes :=
  let truncated := 2048 <? len value in
  let '(value, truncated) :=
    if (windowsValidateUtf8 value false).1
    then (take (Z.to_nat (windowsUtf8BoundedLength value 2048)) value, truncated)
    else windowsEscapeOutput value 2048 in
  map log_octet (if truncated : bool then value ++ bytes_of_string " [truncated]" else value).

(** ** Decoding what a command printed *)

Section Decode.
Context `{WindowsTextApi}.

Definition windowsUtf8 (value : list Z) : bytes := if bool_decide (value = []) then [] else wide_to_utf8 value.

(** The attempts to leave out up to three octets of a cut text. *)
Fixpoint decode_trimmed (codePage : Z) (value : bytes) (attempts : nat) (trim : nat) : option bytes :=
  match MultiByteToWideChar codePage (take (length value - trim) value) with
  | Some wide => Some (windowsUtf8 wide)
  | None => match attempts with
            | O => None
            | S attempts => decode_trimmed codePage value attempts (S trim)
            end
  end.
Definition windowsDecodeCodePage (value : bytes) (codePage : Z) (tail : bool) : option bytes :=
  if (codePage =? 0) || bool_decide (value = []) then None else
  decode_trimmed codePage value (if tail then Nat.min 3 (length value - 1) else 0%nat) 0.

(** The text with the name and the number of its encoding, and whether
    escaping cut it. *)
Definition decoded_as (raw : bytes) (oem ansi : Z) (tail : bool) : bytes * string * Z * bool :=
  let first := byte_at raw 0 in
  let second := if 1 <? len raw then byte_at raw 1 else 0 in
  let utf16le := (first =? 0xff) && (second =? 0xfe) in
  let utf16be := (first =? 0xfe) && (second =? 0xff) in
  let escaped := let '(text, cut) := windowsEscapeOutput raw WINDOWS_COMMAND_OUTPUT_LIMIT in
                 (text, "escaped-bytes"%string, 0, cut) in
  if utf16le || utf16be then
    match windowsDecodeUtf16 raw utf16be tail with
    | (true, text) => (text, if utf16be then "utf-16be-bom"%string else "utf-16le-bom"%string,
                       if utf16be then 1201 else 1200, false)
    | (false, _) => escaped
    end
  else
    let bom := (3 <=? len raw) && (first =? 0xef) && (second =? 0xbb) && (byte_at raw 2 =? 0xbf) in
    let utf8 := if bom then drop 3 raw else raw in
    match windowsValidateUtf8 utf8 tail with
    | (true, valid) => (take (Z.to_nat valid) utf8, if bom then "utf-8-bom"%string else "utf-8"%string, 65001, false)
    | (false, _) =>
        match (if negb bom then windowsDecodeCodePage raw oem tail else None) with
        | Some text => (text, "oem"%string, oem, false)
        | None =>
            match (if negb bom && negb (ansi =? oem) then windowsDecodeCodePage raw ansi tail else None) with
            | Some text => (text, "acp"%string, ansi, false)
            | None => escaped
            end
        end
    end.
Definition decodeWindowsCommandOutput (raw : bytes) (observed : Z) (oem ansi : Z)
    (r : WindowsCommandResult) : WindowsCommandResult :=
  let value := take (Z.to_nat (WINDOWS_COMMAND_OUTPUT_LIMIT + WINDOWS_COMMAND_OUTPUT_LOOKAHEAD)) raw in
  let truncated := cr_truncated r || cr_timedOut r || (WINDOWS_COMMAND_OUTPUT_LIMIT <? observed) ||
                   (len value <? len raw) in
  let oem := if oem =? 0 then GetOEMCP else oem in
  let ansi := if ansi =? 0 then GetACP else ansi in
  let '(text, name, page, cut) :=
    if bool_decide (value = []) then ([], "none"%string, 0, false) else decoded_as value oem ansi truncated in
  mkResult (cr_exitCode r) (cr_systemError r) (cr_elapsedMs r) (cr_timedOut r) (cr_absent r)
    name page oem ansi (cr_console r) (len value) observed (truncated || cut) text.

(** [windowsReadinessError] of [windows_network_readiness.h]. *)
Definition windowsReadinessError (code : Z) : bytes :=
  dec_text code ++
  match FormatMessageW code with
  | Some (_ :: _ as message) => bytes_of_string " (" ++ windowsLogValue (windowsUtf8 message) ++ bytes_of_string ")"
  | _ => []
  end.
End Decode.

Example utf8_seq_1 : windowsUtf8Sequence [0xe2; 0x82; 0xac] 0 = 3. Proof. reflexivity. Qed.
Example utf8_cut : windowsValidateUtf8 [65; 0xe2; 0x82] true = (true, 1). Proof. reflexivity. Qed.
Example utf16_pair : windowsDecodeUtf16 [0xff; 0xfe; 0x3d; 0xd8; 0; 0xde] false false = (true, [0xf0; 0x9f; 0x98; 0x80]).
Proof. reflexivity. Qed.
Example log_value_1 : windowsLogValue [120; 10; 34; 121; 13] = [120; 32; 39; 121; 32]. Proof. reflexivity. Qed.
