(* ===== verification/WinTextFacts.v ===== *)
(** * Facts about the text of Windows commands

    The validator accepts exactly the concatenations of UTF-8 encodings of
    Unicode scalar values, the UTF-16 decoder is the inverse of the UTF-16
    encoding, and a value put in a log line is clean whatever it was. *)

From S2P Require Import Prelude WinText.

#[local] Ltac Zify.zify_post_hook ::= Z.to_euclidean_division_equations.

(** ** Unicode scalar values and their encodings *)

Definition scalar (c : Z) : Prop := 0 <= c < 0x110000 /\ ~ (0xd800 <= c < 0xe000).
Definition utf8 (c : Z) : bytes := windowsAppendUtf8 [] c.
Definition utf8_text (cs : list Z) : bytes := concat (map utf8 cs).
(** A scalar value in UTF-16, by its code units. *)
Definition utf16_octets (be : bool) (u : Z) : bytes := if be then [u / 256; u mod 256] else [u mod 256; u / 256].
Definition utf16 (be : bool) (c : Z) : bytes :=
  if c <? 0x10000 then utf16_octets be c
  else utf16_octets be (0xd800 + (c - 0x10000) / 1024) ++ utf16_octets be (0xdc00 + (c - 0x10000) mod 1024).
Definition utf16_text (be : bool) (cs : list Z) : bytes := concat (map (utf16 be) cs).

(** A prefix in the high bits and a value in the low ones do not carry. *)
Lemma lor_shiftl_add q k b : 0 <= k -> 0 <= b < 2 ^ k -> Z.lor (Z.shiftl q k) b = q * 2 ^ k + b.
Proof.
  intros Hk Hb. rewrite <- (Z.shiftl_mul_pow2 q k Hk).
  assert (Z.land (Z.shiftl q k) b = 0) as H0.
  { apply Z.bits_inj'. intros i Hi. rewrite Z.land_spec, Z.bits_0.
    destruct (decide (i < k)); [rewrite Z.shiftl_spec_low by lia; done|].
    destruct (decide (b = 0)) as [->|]; [by rewrite Z.bits_0, andb_false_r|].
    rewrite (Z.bits_above_log2 b i), andb_false_r; [done|lia|].
    apply Z.log2_lt_pow2; [lia|]. apply Z.lt_le_trans with (2 ^ k); [lia|]. apply Z.pow_le_mono_r; lia. }
  rewrite <- Z.lxor_lor by done. by rewrite <- Z.add_nocarry_lxor by done.
Qed.
Lemma lor_head p q k n b : p = Z.shiftl q k -> n = 2 ^ k -> 0 <= k -> 0 <= b < n -> Z.lor p b = p + b.
Proof. intros -> -> Hk Hb. by rewrite lor_shiftl_add, Z.shiftl_mul_pow2 by done. Qed.
Lemma low_six z : Z.land z 63 = z mod 64.
Proof. change 63 with (Z.ones 6). by rewrite Z.land_ones by lia. Qed.
Lemma tail_octet z : Z.lor 0x80 (Z.land z 63) = 0x80 + z mod 64.
Proof. rewrite low_six. apply (lor_head _ 2 6 64); [done|done|lia|]. apply Z.mod_pos_bound. lia. Qed.

Lemma utf8_one c : c < 0x80 -> utf8 c = [c].
Proof. intros Hc. unfold utf8, windowsAppendUtf8. by rewrite (proj2 (Z.ltb_lt c 0x80)) by lia. Qed.
Lemma utf8_two c : 0x80 <= c < 0x800 -> utf8 c = [0xc0 + c / 64; 0x80 + c mod 64].
Proof.
  intros Hc. unfold utf8, windowsAppendUtf8.
  rewrite (proj2 (Z.ltb_ge c 0x80)), (proj2 (Z.ltb_lt c 0x800)) by lia. cbn [app].
  rewrite tail_octet, Z.shiftr_div_pow2 by lia. change (2 ^ 6) with 64. change (2 ^ 12) with 4096. change (2 ^ 18) with 262144.
  rewrite (lor_head 0xc0 6 5 32) by first [done|lia]. done.
Qed.
Lemma utf8_three c : 0x800 <= c < 0x10000 ->
  utf8 c = [0xe0 + c / 4096; 0x80 + c / 64 mod 64; 0x80 + c mod 64].
Proof.
  intros Hc. unfold utf8, windowsAppendUtf8.
  rewrite (proj2 (Z.ltb_ge c 0x80)), (proj2 (Z.ltb_ge c 0x800)), (proj2 (Z.ltb_lt c 0x10000)) by lia. cbn [app].
  rewrite !tail_octet, !Z.shiftr_div_pow2 by lia. change (2 ^ 6) with 64. change (2 ^ 12) with 4096. change (2 ^ 18) with 262144.
  rewrite (lor_head 0xe0 14 4 16) by first [done|lia]. done.
Qed.
Lemma utf8_four c : 0x10000 <= c < 0x110000 ->
  utf8 c = [0xf0 + c / 262144; 0x80 + c / 4096 mod 64; 0x80 + c / 64 mod 64; 0x80 + c mod 64].
Proof.
  intros Hc. unfold utf8, windowsAppendUtf8.
  rewrite (proj2 (Z.ltb_ge c 0x80)), (proj2 (Z.ltb_ge c 0x800)), (proj2 (Z.ltb_ge c 0x10000)) by lia. cbn [app].
  rewrite !tail_octet, !Z.shiftr_div_pow2 by lia. change (2 ^ 6) with 64. change (2 ^ 12) with 4096. change (2 ^ 18) with 262144.
  rewrite (lor_head 0xf0 30 3 8) by first [done|lia]. done.
Qed.
(** The four forms. *)
Lemma scalar_cases c (P : Prop) : scalar c ->
  (0 <= c < 0x80 -> P) -> (0x80 <= c < 0x800 -> P) ->
  (0x800 <= c < 0x10000 /\ ~ (0xd800 <= c < 0xe000) -> P) -> (0x10000 <= c < 0x110000 -> P) -> P.
Proof.
  intros [Hc Hs] H1 H2 H3 H4.
  destruct (decide (c < 0x80)); [apply H1; lia|]. destruct (decide (c < 0x800)); [apply H2; lia|].
  destruct (decide (c < 0x10000)); [apply H3; lia|]. apply H4. lia.
Qed.

(** ** One sequence *)

Lemma byte_at_app (pre l : bytes) i : 0 <= i -> byte_at (pre ++ l) (len pre + i) = byte_at l i.
Proof.
  intros Hi. unfold byte_at, len. rewrite app_nth2 by lia. f_equal. lia.
Qed.
Lemma sequence_shift (pre l : bytes) : windowsUtf8Sequence (pre ++ l) (len pre) = windowsUtf8Sequence l 0.
Proof.
  unfold windowsUtf8Sequence. rewrite len_app.
  replace (len pre + len l - len pre) with (len l - 0) by lia.
  assert (byte_at (pre ++ l) (len pre) = byte_at l 0) as ->.
  { rewrite <- (byte_at_app pre l 0) by lia. f_equal. lia. }
  assert (forall n, existsb (fun i => utf8_bad (byte_at l 0) i (byte_at (pre ++ l) (len pre + i))) (seqZ 1 n) =
                    existsb (fun i => utf8_bad (byte_at l 0) i (byte_at l (0 + i))) (seqZ 1 n)) as E.
  { intros n. apply eq_true_iff_eq. rewrite !existsb_exists.
    split; intros (i & Hi & Hb); exists i; (split; [done|]);
      rewrite <- list_elem_of_In, elem_of_seqZ in Hi; [by rewrite byte_at_app in Hb by lia|by rewrite byte_at_app by lia]. }
  replace (len pre + len l <=? len pre) with (len l <=? 0) by (apply eq_true_iff_eq; rewrite !Z.leb_le; lia).
  cbv zeta. by rewrite E.
Qed.

Lemma utf8_bad_false lead i next :
  utf8_bad lead i next = false <->
  0x80 <= next <= 0xbf /\
  (i = 1 -> (lead = 0xe0 -> 0xa0 <= next) /\ (lead = 0xed -> next <= 0x9f) /\
            (lead = 0xf0 -> 0x90 <= next) /\ (lead = 0xf4 -> next <= 0x8f)).
Proof.
  unfold utf8_bad. rewrite !orb_false_iff, !andb_false_iff, !orb_false_iff, !andb_false_iff, !Z.ltb_ge, !Z.eqb_neq.
  split; [intros ([Hl Hr] & Hb)|intros [Hr Hb]].
  - split; [lia|]. intros ->. destruct Hb as [?|Hb]; [done|]. lia.
  - split; [lia|]. destruct (decide (i = 1)); [right|left; done]. lia.
Qed.

(** ** The front of a text *)

(** What a positive result says, and what makes one. *)
Lemma sequence_positive a l n : windowsUtf8Sequence (a :: l) 0 = n -> 0 < n ->
  n = utf8_length a /\ n <= 1 + len l /\ forall i, 1 <= i < n -> utf8_bad a i (byte_at (a :: l) i) = false.
Proof.
  unfold windowsUtf8Sequence. rewrite len_cons. pose proof (len_nonneg l). change (byte_at (a :: l) 0) with a.
  rewrite (proj2 (Z.leb_gt _ _)) by lia. cbv zeta. intros <-.
  destruct (utf8_length a <? 0); [lia|]. destruct (existsb _ _) eqn:Ee; [lia|].
  destruct (Z.ltb_spec (1 + len l - 0) (utf8_length a)); [lia|]. intros Hp.
  split_and!; [done|lia|]. intros i Hi. rewrite Z.min_l in Ee by lia.
  apply Bool.not_true_iff_false. intros Hb. apply Bool.not_true_iff_false in Ee. apply Ee.
  apply existsb_exists. exists i. split; [|exact Hb]. rewrite <- list_elem_of_In, elem_of_seqZ. lia.
Qed.
Lemma sequence_made a t l : utf8_length a = 1 + len t ->
  (forall i b, t !! i = Some b -> utf8_bad a (1 + Z.of_nat i) b = false) ->
  windowsUtf8Sequence (a :: t ++ l) 0 = 1 + len t.
Proof.
  intros Hn Ht. unfold windowsUtf8Sequence. rewrite len_cons, len_app.
  pose proof (len_nonneg l). pose proof (len_nonneg t). change (byte_at (a :: t ++ l) 0) with a. rewrite Hn.
  rewrite (proj2 (Z.leb_gt _ _)), (proj2 (Z.ltb_ge (1 + len t) 0)) by lia.
  rewrite (proj2 (Z.ltb_ge (1 + (len t + len l) - 0) (1 + len t))) by lia.
  destruct (existsb _ _) eqn:Ee; [|done]. exfalso.
  apply existsb_exists in Ee as (i & Hi & Hb). rewrite <- list_elem_of_In, elem_of_seqZ in Hi.
  destruct (lookup_lt_is_Some_2 t (Z.to_nat (i - 1))) as [b Eb]; [unfold len in *; lia|].
  specialize (Ht _ _ Eb). replace (1 + Z.of_nat (Z.to_nat (i - 1))) with i in Ht by lia.
  replace (byte_at (a :: t ++ l) (0 + i)) with b in Hb by
    (unfold byte_at; replace (Z.to_nat (0 + i)) with (S (Z.to_nat (i - 1))) by lia; cbn [nth];
     rewrite nth_lookup, lookup_app_l, Eb by (by eapply lookup_lt_Some); done).
  by rewrite Ht in Hb.
Qed.
Ltac octet_length := rewrite ?len_cons, ?len_nil; unfold utf8_length; repeat (zcase; cbn [andb]; try lia).

(** The encoding of a scalar value is one sequence, and nothing else is. *)
Lemma sequence_of_encoding c l : scalar c -> windowsUtf8Sequence (utf8 c ++ l) 0 = len (utf8 c).
Proof.
  intros Hc. apply (scalar_cases c); [done|intros Hr..].
  - rewrite utf8_one by lia. apply (sequence_made c []); [octet_length|done].
  - rewrite utf8_two by lia. apply (sequence_made (0xc0 + c / 64) [0x80 + c mod 64]); [octet_length|].
    intros [|i] b Hb; [injection Hb as <-|done]. apply utf8_bad_false. split; [lia|]. intros _. lia.
  - rewrite utf8_three by lia. apply (sequence_made (0xe0 + c / 4096) [0x80 + c / 64 mod 64; 0x80 + c mod 64]); [octet_length|].
    intros [|[|i]] b Hb; [injection Hb as <-..|done]; apply utf8_bad_false; (split; [lia|]); lia.
  - rewrite utf8_four by lia.
    apply (sequence_made (0xf0 + c / 262144) [0x80 + c / 4096 mod 64; 0x80 + c / 64 mod 64; 0x80 + c mod 64]); [octet_length|].
    intros [|[|[|i]]] b Hb; [injection Hb as <-..|done]; apply utf8_bad_false; (split; [lia|]); lia.
Qed.
Lemma len_two (P : Prop) (l : bytes) : 1 <= len l -> (forall b r, l = b :: r -> P) -> P.
Proof. destruct l as [|b r]; [by cbn|]. intros _ H. by apply (H b r). Qed.
Lemma encoding_of_sequence a l n : is_byte a -> windowsUtf8Sequence (a :: l) 0 = n -> 0 < n ->
  exists c r, scalar c /\ a :: l = utf8 c ++ r /\ n = len (utf8 c).
Proof.
  intros Ha Hs Hp. unfold is_byte in Ha. destruct (sequence_positive a l n Hs Hp) as (En & Hl & Hb). clear Hs.
  assert (forall i b, l !! i = Some b -> Z.of_nat i + 1 < n -> 0x80 <= b <= 0xbf /\
    (i = 0%nat -> (a = 0xe0 -> 0xa0 <= b) /\ (a = 0xed -> b <= 0x9f) /\ (a = 0xf0 -> 0x90 <= b) /\ (a = 0xf4 -> b <= 0x8f)))
    as Hbs.
  { intros i b Eb Hi. specialize (Hb (1 + Z.of_nat i) ltac:(lia)).
    unfold byte_at in Hb. replace (Z.to_nat (1 + Z.of_nat i)) with (S i) in Hb by lia. cbn [nth] in Hb.
    rewrite nth_lookup, Eb in Hb. cbn in Hb. apply utf8_bad_false in Hb as [Hr Hf]. split; [lia|]. intros ->. apply Hf. lia. }
  clear Hb. revert En. unfold utf8_length.
  destruct (Z.ltb_spec a 0x80).
  { intros ->. exists a, l. rewrite utf8_one by lia. split_and!; [split; lia|done|done]. }
  destruct (Z.leb_spec 0xc2 a); [|rewrite (proj2 (Z.leb_gt 0xe0 a)), (proj2 (Z.leb_gt 0xf0 a)) by lia; cbn [andb]; intros; lia].
  destruct (Z.leb_spec a 0xdf); cbn [andb]; [intros ->|].
  { apply (len_two _ l); [lia|]. intros b r ->. pose proof (Hbs 0%nat b eq_refl ltac:(lia)) as [Hb _].
    exists ((a - 0xc0) * 64 + (b - 0x80)), r. rewrite utf8_two by lia. split_and!; [split; lia| |done].
    cbn [app]. f_equal; [lia|]. f_equal. lia. }
  rewrite (proj2 (Z.leb_le 0xe0 a)) by lia. destruct (Z.leb_spec a 0xef); cbn [andb]; [intros ->|].
  - apply (len_two _ l); [lia|]. intros b r ->. rewrite len_cons in Hl. apply (len_two _ r); [lia|]. intros b' r' ->.
      pose proof (Hbs 0%nat b eq_refl ltac:(lia)) as [Hb Hf]. pose proof (Hbs 1%nat b' eq_refl ltac:(lia)) as [Hb' _].
      specialize (Hf eq_refl).
      exists ((a - 0xe0) * 4096 + (b - 0x80) * 64 + (b' - 0x80)), r'. rewrite utf8_three by lia. split_and!; [split; lia| |done].
      cbn [app]. f_equal; [lia|]. f_equal; [lia|]. f_equal. lia.
  - rewrite (proj2 (Z.leb_le 0xf0 a)) by lia. destruct (Z.leb_spec a 0xf4); cbn [andb]; [intros ->|intros; lia].
      apply (len_two _ l); [lia|]. intros b r ->. rewrite len_cons in Hl. apply (len_two _ r); [lia|]. intros b' r' ->.
      rewrite len_cons in Hl. apply (len_two _ r'); [lia|]. intros b'' r'' ->.
      pose proof (Hbs 0%nat b eq_refl ltac:(lia)) as [Hb Hf]. pose proof (Hbs 1%nat b' eq_refl ltac:(lia)) as [Hb' _].
      pose proof (Hbs 2%nat b'' eq_refl ltac:(lia)) as [Hb'' _]. specialize (Hf eq_refl).
      exists ((a - 0xf0) * 262144 + (b - 0x80) * 4096 + (b' - 0x80) * 64 + (b'' - 0x80)), r''.
      rewrite utf8_four by lia. split_and!; [split; lia| |done].
      cbn [app]. f_equal; [lia|]. f_equal; [lia|]. f_equal; [lia|]. f_equal. lia.
Qed.

(** ** The validator *)

Lemma utf8_len c : scalar c -> 1 <= len (utf8 c) <= 4.
Proof.
  intros Hc. apply (scalar_cases c); [done|intros Hr..];
    (first [rewrite utf8_one by lia|rewrite utf8_two by lia|rewrite utf8_three by lia|rewrite utf8_four by lia]);
    rewrite !len_cons, len_nil; lia.
Qed.
Lemma utf8_text_nil : len (utf8_text []) = 0.
Proof. done. Qed.
Lemma utf8_text_cons c cs : utf8_text (c :: cs) = utf8 c ++ utf8_text cs.
Proof. done. Qed.

(** One round, at a boundary of the text. *)
Lemma validate_round fuel pre l tail :
  validate_from (S fuel) (pre ++ l) tail (len pre) =
  if bool_decide (l = []) then (true, len pre) else
  let n := windowsUtf8Sequence l 0 in
  if n <=? 0 then ((n =? 0) && tail, len pre) else validate_from fuel (pre ++ l) tail (len pre + n).
Proof.
  cbn [validate_from]. rewrite sequence_shift, len_app. destruct l as [|a l].
  - rewrite len_nil. by rewrite (proj2 (Z.leb_le _ _)) by lia.
  - rewrite len_cons. pose proof (len_nonneg l). by rewrite (proj2 (Z.leb_gt _ _)) by lia.
Qed.
Lemma validate_accepts cs : Forall scalar cs -> forall fuel pre tail, (length (utf8_text cs) < fuel)%nat ->
  validate_from fuel (pre ++ utf8_text cs) tail (len pre) = (true, len pre + len (utf8_text cs)).
Proof.
  induction 1 as [|c cs Hc Hcs IH]; intros fuel pre tail Hf.
  { destruct fuel; [lia|]. rewrite validate_round. cbn. f_equal. rewrite len_nil. lia. }
  rewrite utf8_text_cons in *. pose proof (utf8_len c Hc) as Hl.
  destruct fuel; [lia|]. rewrite validate_round, sequence_of_encoding by done.
  rewrite bool_decide_eq_false_2 by (intros E; apply app_eq_nil in E as [E _]; rewrite E, len_nil in Hl; lia).
  cbv zeta. rewrite (proj2 (Z.leb_gt _ _)) by lia.
  rewrite app_assoc. rewrite <- len_app. rewrite IH.
  - f_equal. rewrite !len_app. lia.
  - rewrite length_app in Hf. unfold len in Hl. lia.
Qed.
(** Whatever the verdict, what was read is whole characters. *)
Lemma validate_reads fuel : forall pre l tail, (length l < fuel)%nat -> bytes_ok l ->
  exists cs r, Forall scalar cs /\ l = utf8_text cs ++ r /\
    (validate_from fuel (pre ++ l) tail (len pre)).2 = len pre + len (utf8_text cs) /\
    ((validate_from fuel (pre ++ l) tail (len pre)).1 = true -> tail = true \/ r = []).
Proof.
  induction fuel as [|fuel IH]; intros pre l tail Hf Hl; [lia|]. rewrite validate_round.
  destruct l as [|a l]; [exists [], []; rewrite bool_decide_eq_true_2, utf8_text_nil by done; split_and!; [done|done|cbn [snd]; lia|by right]|].
  rewrite bool_decide_eq_false_2 by done. cbv zeta.
  destruct (Z.leb_spec (windowsUtf8Sequence (a :: l) 0) 0) as [Hn|Hn].
  { exists [], (a :: l). cbn [fst snd]. split_and!; [done|done|rewrite utf8_text_nil; lia|]. intros Ht. apply andb_true_iff in Ht as [_ Ht]. by left. }
  inversion Hl as [|? ? Ha Hl']; subst.
  destruct (encoding_of_sequence a l _ Ha eq_refl Hn) as (c & r & Hc & El & En). rewrite En, El. rewrite El in Hf, Hl.
  pose proof (utf8_len c Hc). rewrite app_assoc. rewrite <- len_app.
  destruct (IH (pre ++ utf8 c) r tail) as (cs & r' & Hcs & -> & Ev & Ht).
  { rewrite length_app in Hf. unfold len in *. lia. }
  { by apply bytes_ok_app in Hl as [_ ?]. }
  exists (c :: cs), r'. rewrite utf8_text_cons. split_and!; [by constructor|by rewrite app_assoc| |done].
  rewrite Ev, !len_app. lia.
Qed.
Lemma validate_prefix value tail : bytes_ok value ->
  exists cs r, Forall scalar cs /\ value = utf8_text cs ++ r /\
    (windowsValidateUtf8 value tail).2 = len (utf8_text cs) /\
    ((windowsValidateUtf8 value tail).1 = true -> tail = true \/ r = []).
Proof.
  intros Hv. destruct (validate_reads (S (length value)) [] value tail) as (cs & r & Hcs & E & E2 & Ht); [lia|done|].
  exists cs, r. by split_and!.
Qed.

(** The validator of the code accepts a text to its end exactly when it is
    what the encoder makes of Unicode scalar values. *)
Lemma validate_exact value : bytes_ok value ->
  (windowsValidateUtf8 value false).1 = true <-> exists cs, Forall scalar cs /\ value = utf8_text cs.
Proof.
  intros Hv. split.
  - destruct (validate_prefix value false Hv) as (cs & r & Hcs & -> & _ & Ht). intros E. destruct (Ht E) as [?| ->]; [done|].
    exists cs. by rewrite app_nil_r.
  - intros (cs & Hcs & ->). unfold windowsValidateUtf8.
    pose proof (validate_accepts cs Hcs (S (length (utf8_text cs))) [] false ltac:(lia)) as E. cbn [app] in E.
    change (len []) with 0 in E. by rewrite E.
Qed.
(** The longest prefix of whole characters within a limit. *)
Lemma bounded_reads fuel limit : forall pre l, (length l < fuel)%nat -> bytes_ok l -> len pre <= limit ->
  exists cs r, Forall scalar cs /\ l = utf8_text cs ++ r /\
    bounded_from fuel (pre ++ l) limit (len pre) = len pre + len (utf8_text cs) /\
    len pre + len (utf8_text cs) <= limit.
Proof.
  induction fuel as [|fuel IH]; intros pre l Hf Hl Hp; [lia|]. cbn [bounded_from].
  destruct ((len (pre ++ l) <=? len pre) || (limit <=? len pre)) eqn:E0.
  { exists [], l. rewrite utf8_text_nil. split_and!; [done|done|lia|lia]. }
  apply orb_false_iff in E0 as [E0 E1]. rewrite Z.leb_gt in E0. rewrite len_app in E0.
  rewrite sequence_shift. destruct ((_ <=? 0) || _) eqn:E.
  { exists [], l. rewrite utf8_text_nil. split_and!; [done|done|lia|lia]. }
  apply orb_false_iff in E as [En Ef]. rewrite Z.leb_gt in En. rewrite Z.ltb_ge in Ef.
  destruct l as [|a l]; [by cbn in En|]. inversion Hl as [|? ? Ha Hl']; subst.
  destruct (encoding_of_sequence a l _ Ha eq_refl En) as (c & r & Hc & El & Elen).
  rewrite Elen in Ef |- *. rewrite El. rewrite El in Hf, Hl. pose proof (utf8_len c Hc).
  rewrite app_assoc. rewrite <- len_app.
  destruct (IH (pre ++ utf8 c) r) as (cs & r' & Hcs & -> & Eb & Hb).
  { rewrite length_app in Hf. unfold len in *. lia. }
  { by apply bytes_ok_app in Hl as [_ ?]. }
  { rewrite len_app. lia. }
  exists (c :: cs), r'. rewrite utf8_text_cons, Eb, !len_app in *.
  split_and!; [by constructor|by rewrite app_assoc|lia|lia].
Qed.
Lemma bounded_prefix value limit : bytes_ok value -> 0 <= limit ->
  exists cs, Forall scalar cs /\ take (Z.to_nat (windowsUtf8BoundedLength value limit)) value = utf8_text cs /\
    len (utf8_text cs) <= limit.
Proof.
  intros Hv Hl. destruct (bounded_reads (S (length value)) limit [] value) as (cs & r & Hcs & E & Eb & Hb); [lia|done|done|].
  exists cs. split_and!; [done| |exact Hb]. unfold windowsUtf8BoundedLength. cbn [app] in Eb.
  change (len []) with 0 in Eb. rewrite Eb, E, Z.add_0_l, len_to_nat. apply take_app_length.
Qed.

(** ** Escaped octets *)

Lemma hex_digit_printable n : 0 <= n < 16 -> 32 <= hex_digit n < 127.
Proof.
  intros Hn. assert (forallb (fun n => (32 <=? hex_digit n) && (hex_digit n <? 127)) (seqZ 0 16) = true) as Hall by done.
  rewrite forallb_forall in Hall. specialize (Hall n). rewrite <- list_elem_of_In, elem_of_seqZ in Hall.
  specialize (Hall ltac:(lia)). bools. lia.
Qed.
Lemma escape_octet_printable b : is_byte b -> Forall (fun c => 32 <= c < 127) (escape_octet b).
Proof.
  intros Hb. unfold is_byte in Hb. unfold escape_octet, printable. destruct (_ && _) eqn:E.
  - bools. repeat constructor; lia.
  - rewrite Z.shiftr_div_pow2 by lia. change (2 ^ 4) with 16. change 15 with (Z.ones 4). rewrite Z.land_ones by lia. change (2 ^ 4) with 16.
    repeat constructor; try (cbn; lia); apply hex_digit_printable; lia.
Qed.
Lemma len_escape_octet b : len (escape_octet b) = if printable b then 1 else 4.
Proof. unfold escape_octet. by destruct (printable b). Qed.
(** The text stays within the limit, is printable, and is all of it when it
    is not reported as cut. *)
Lemma escape_spec limit value : bytes_ok value -> forall result, len result <= limit ->
  Forall (fun c => 32 <= c < 127) result ->
  let '(text, cut) := escape_from limit value result in
  len text <= limit /\ Forall (fun c => 32 <= c < 127) text /\
  (cut = false -> text = result ++ concat (map escape_octet value)).
Proof.
  induction 1 as [|b value Hb Hv IH]; intros result Hr Hp; cbn [escape_from].
  { split_and!; [done|done|]. by rewrite app_nil_r. }
  pose proof (len_escape_octet b) as El. destruct (Z.ltb_spec (limit - len result) (if printable b then 1 else 4)) as [Hlt|Hge].
  { by split_and!. }
  specialize (IH (result ++ escape_octet b)). destruct (escape_from _ _ _) as [text cut].
  destruct IH as (H1 & H2 & H3); [rewrite len_app; lia|apply Forall_app; split; [done|by apply escape_octet_printable]|].
  split_and!; [done|done|]. intros Hc. rewrite (H3 Hc). by rewrite <- app_assoc.
Qed.

(** ** A value in a log line *)

Definition log_char (c : Z) : Prop := scalar c /\ 32 <= c /\ c <> 34.
Lemma utf8_high c : scalar c -> 0x80 <= c -> Forall (fun b => 0x80 <= b) (utf8 c).
Proof.
  intros Hc Hh. apply (scalar_cases c); [done|intros Hr..];
    (first [lia|rewrite utf8_two by lia|rewrite utf8_three by lia|rewrite utf8_four by lia]); repeat constructor; lia.
Qed.
Lemma log_octet_char c : scalar c -> log_char (log_octet c) /\ utf8 (log_octet c) = map log_octet (utf8 c).
Proof.
  intros Hc. unfold scalar in Hc. unfold log_octet at 1 2. destruct (decide (c < 0x80)).
  - rewrite (utf8_one c) by lia. cbn [map]. unfold log_octet.
    repeat case_match; bools; repeat (rewrite utf8_one by lia); (split; [unfold log_char, scalar; lia|done]).
  - rewrite !(proj2 (Z.eqb_neq _ _)), (proj2 (Z.ltb_ge _ _)) by lia. cbn [orb]. split; [unfold log_char, scalar; lia|].
    pose proof (utf8_high c ltac:(done) ltac:(lia)) as Hh. induction Hh as [|b l Hb _ IH]; cbn [map]; [done|]. rewrite <- IH.
    f_equal. unfold log_octet. by rewrite !(proj2 (Z.eqb_neq b _)), (proj2 (Z.ltb_ge b _)) by lia.
Qed.
Lemma log_text cs : Forall scalar cs -> exists ds, Forall log_char ds /\ map log_octet (utf8_text cs) = utf8_text ds.
Proof.
  intros Hcs. exists (map log_octet cs). induction Hcs as [|c cs Hc Hcs [IH1 IH2]]; [by split|].
  destruct (log_octet_char c Hc) as [H1 H2]. cbn [map]. rewrite !utf8_text_cons, map_app, IH2, H2. by split; [constructor|].
Qed.
Lemma ascii_text l : Forall (fun c => 32 <= c < 127) l -> Forall scalar l /\ l = utf8_text l.
Proof.
  induction 1 as [|c l Hc Hl [IH1 IH2]]; [done|]. rewrite utf8_text_cons, utf8_one, <- IH2 by lia.
  split; [constructor; [split; lia|done]|done].
Qed.
Lemma utf8_text_app a b : utf8_text (a ++ b) = utf8_text a ++ utf8_text b.
Proof. unfold utf8_text. by rewrite map_app, concat_app. Qed.
Lemma truncated_mark_text : Forall (fun c => 32 <= c < 127) (bytes_of_string " [truncated]").
Proof. repeat constructor; cbn; lia. Qed.
(** Before the last pass: whole characters, at most 2048 octets and the mark. *)
Lemma log_value_text value : bytes_ok value ->
  exists cs, Forall scalar cs /\ windowsLogValue value = map log_octet (utf8_text cs) /\ len (utf8_text cs) <= 2060.
Proof.
  intros Hv. unfold windowsLogValue.
  assert (exists cs (cut : bool), Forall scalar cs /\ len (utf8_text cs) <= 2048 /\
    (if (windowsValidateUtf8 value false).1
     then (take (Z.to_nat (windowsUtf8BoundedLength value 2048)) value, 2048 <? len value)
     else windowsEscapeOutput value 2048) = (utf8_text cs, cut)) as (cs & cut & Hcs & Hl & ->).
  { destruct (windowsValidateUtf8 value false).1.
    - destruct (bounded_prefix value 2048 Hv) as (cs & Hcs & -> & Hl); [lia|]. eauto.
    - pose proof (escape_spec 2048 value Hv [] ltac:(by cbn) ltac:(done)) as Hs. unfold windowsEscapeOutput.
      destruct (escape_from 2048 value []) as [text cut]. destruct Hs as (Hs1 & Hs2 & _).
      destruct (ascii_text text Hs2) as [Ht1 Ht2]. exists text, cut. by rewrite <- Ht2. }
  destruct (ascii_text _ truncated_mark_text) as [Hm1 Hm2]. destruct cut.
  - exists (cs ++ bytes_of_string " [truncated]"). rewrite utf8_text_app, <- Hm2. split_and!; [by apply Forall_app|done|].
    rewrite len_app. change (len (bytes_of_string " [truncated]")) with 12. lia.
  - exists cs. split_and!; [done|done|lia].
Qed.

(** ** UTF-16 *)

Lemma append_utf8 output c : windowsAppendUtf8 output c = output ++ utf8 c.
Proof. done. Qed.
Lemma unit_value be a b : is_byte a -> is_byte b -> utf16_unit be a b = if be then 256 * a + b else 256 * b + a.
Proof. intros Ha Hb. destruct be; cbn [utf16_unit]; [|rewrite Z.lor_comm]; by rewrite lor_shiftl_byte. Qed.
Lemma utf16_octets_pair be u : 0 <= u < 65536 ->
  exists a b, utf16_octets be u = [a; b] /\ utf16_unit be a b = u.
Proof.
  intros Hu. destruct be; do 2 eexists; (split; [done|]); rewrite unit_value by (unfold is_byte; lia); lia.
Qed.
Lemma unit_octets be a b : is_byte a -> is_byte b ->
  0 <= utf16_unit be a b < 65536 /\ utf16_octets be (utf16_unit be a b) = [a; b].
Proof.
  intros Ha Hb. rewrite unit_value by done. unfold is_byte, utf16_octets in *.
  destruct be; (split; [lia|]); f_equal; [lia|f_equal; lia|lia|f_equal; lia].
Qed.
Lemma utf16_text_cons be c cs : utf16_text be (c :: cs) = utf16 be c ++ utf16_text be cs.
Proof. done. Qed.
(** One round on a code unit that is a character, and on a pair. *)
Lemma decode_unit be tail c l output : scalar c -> c < 0x10000 ->
  decode_utf16 be tail (utf16 be c ++ l) output = decode_utf16 be tail l (output ++ utf8 c).
Proof.
  intros [Hc Hs] Hb. unfold utf16. rewrite (proj2 (Z.ltb_lt c _)) by lia.
  destruct (utf16_octets_pair be c) as (a & b & -> & Eu); [lia|]. cbn [app decode_utf16]. rewrite Eu.
  destruct ((0xd800 <=? c) && (c <=? 0xdbff)) eqn:E1; [bools; lia|].
  destruct ((0xdc00 <=? c) && (c <=? 0xdfff)) eqn:E2; [bools; lia|]. done.
Qed.
Lemma decode_pair be tail c l output : 0x10000 <= c < 0x110000 ->
  decode_utf16 be tail (utf16 be c ++ l) output = decode_utf16 be tail l (output ++ utf8 c).
Proof.
  intros Hc. unfold utf16. rewrite (proj2 (Z.ltb_ge c _)) by lia.
  destruct (utf16_octets_pair be (0xd800 + (c - 0x10000) / 1024)) as (a & b & -> & Eu); [lia|].
  destruct (utf16_octets_pair be (0xdc00 + (c - 0x10000) mod 1024)) as (d & e & -> & Ev); [lia|].
  cbn [app decode_utf16]. rewrite Eu, Ev.
  rewrite !(proj2 (Z.leb_le _ _)) by lia. cbn [andb]. rewrite !(proj2 (Z.ltb_ge _ _)) by lia. cbn [orb].
  rewrite append_utf8. f_equal. f_equal. f_equal. rewrite Z.shiftl_mul_pow2 by lia. change (2 ^ 10) with 1024. lia.
Qed.
Lemma decode_accepts be tail cs : Forall scalar cs -> forall output,
  decode_utf16 be tail (utf16_text be cs) output = (true, output ++ utf8_text cs).
Proof.
  induction 1 as [|c cs Hc Hcs IH]; intros output; [by rewrite app_nil_r|].
  rewrite utf16_text_cons, utf8_text_cons, app_assoc. destruct (decide (c < 0x10000)).
  - by rewrite decode_unit, IH.
  - rewrite decode_pair, IH by (destruct Hc; lia). done.
Qed.
(** Whatever the verdict, what was decoded is the characters read. *)
Lemma decode_reads be tail n : forall l output, (length l < n)%nat -> bytes_ok l ->
  exists cs r, Forall scalar cs /\ l = utf16_text be cs ++ r /\
    (decode_utf16 be tail l output).2 = output ++ utf8_text cs /\
    ((decode_utf16 be tail l output).1 = true -> tail = true \/ r = []).
Proof.
  induction n as [|n IH]; intros l output Hn Hl; [lia|].
  destruct l as [|a [|b l]].
  { exists [], []. cbn. rewrite app_nil_r. split_and!; [done..|by right]. }
  { exists [], [a]. cbn. rewrite app_nil_r. split_and!; [done..|by left]. }
  inversion Hl as [|? ? Ha Hl1]; subst. inversion Hl1 as [|? ? Hb Hl2]; subst.
  destruct (unit_octets be a b Ha Hb) as [Hu Eo]. cbn [length] in Hn.
  assert (forall v, (v = true -> tail = true) -> exists cs r, Forall scalar cs /\ a :: b :: l = utf16_text be cs ++ r /\
    (v, output).2 = output ++ utf8_text cs /\ ((v, output).1 = true -> tail = true \/ r = [])) as Hstop.
  { intros v Hv. exists [], (a :: b :: l). cbn [fst snd]. rewrite app_nil_r. split_and!; [done..|]. intros E. left. by apply Hv. }
  assert (forall c r, scalar c -> a :: b :: l = utf16 be c ++ r -> (length r < n)%nat -> bytes_ok r -> exists cs r',
    Forall scalar cs /\ a :: b :: l = utf16_text be cs ++ r' /\
    (decode_utf16 be tail r (windowsAppendUtf8 output c)).2 = output ++ utf8_text cs /\
    ((decode_utf16 be tail r (windowsAppendUtf8 output c)).1 = true -> tail = true \/ r' = [])) as Hstep.
  { intros c r Hc El Hr Hok. destruct (IH r (windowsAppendUtf8 output c) Hr Hok) as (cs & r' & Hcs & -> & E2 & E1).
    exists (c :: cs), r'. rewrite utf16_text_cons, utf8_text_cons, app_assoc. split_and!; [by constructor|by rewrite <- app_assoc|done|done]. }
  cbn [decode_utf16]. set (u := utf16_unit be a b) in *.
  destruct ((0xd800 <=? u) && (u <=? 0xdbff)) eqn:E1.
  - bools. destruct l as [|c [|d l]]; [by apply Hstop..|].
    inversion Hl2 as [|? ? Hc Hl3]; subst. inversion Hl3 as [|? ? Hd Hl4]; subst.
    destruct (unit_octets be c d Hc Hd) as [Hv Ev]. set (v := utf16_unit be c d) in *.
    destruct ((v <? 0xdc00) || (0xdfff <? v)) eqn:E2; [by apply Hstop|]. bools.
    cbn [length] in Hn. apply Hstep; [unfold scalar; rewrite Z.shiftl_mul_pow2 by lia; change (2 ^ 10) with 1024; lia| |lia|done].
    unfold utf16. rewrite Z.shiftl_mul_pow2 by lia. change (2 ^ 10) with 1024. rewrite (proj2 (Z.ltb_ge _ _)) by lia.
    replace (0xd800 + _) with u by lia. replace (0xdc00 + _) with v by lia. by rewrite Eo, Ev.
  - destruct ((0xdc00 <=? u) && (u <=? 0xdfff)) eqn:E2; [by apply Hstop|].
    assert (~ (0xd800 <= u < 0xe000)) as Hs.
    { apply andb_false_iff in E1. apply andb_false_iff in E2. rewrite !Z.leb_gt in E1, E2. lia. }
    apply Hstep; [unfold scalar; lia| |lia|done].
    unfold utf16. rewrite (proj2 (Z.ltb_lt _ _)) by lia. by rewrite Eo.
Qed.

(** ** What a command printed *)

(** Text: whole characters and nothing else. *)
Definition is_text (value : bytes) : Prop := exists cs, Forall scalar cs /\ value = utf8_text cs.
(** [WideCharToMultiByte] with [CP_UTF8] writes UTF-8. *)
Class WindowsTextLaws `{WindowsTextApi} : Prop := { utf8_out : forall wide, is_text (wide_to_utf8 wide) }.
Definition drop_bom (cs : list Z) : list Z := match cs with c :: cs' => if c =? 0xfeff then cs' else cs | [] => [] end.
Definition utf16_bom (be : bool) : bytes := if be then [0xfe; 0xff] else [0xff; 0xfe].

Section Decoded.
Context `{WindowsTextLaws}.

Lemma windowsUtf8_text wide : is_text (windowsUtf8 wide).
Proof. unfold windowsUtf8. case_bool_decide; [by exists []|apply utf8_out]. Qed.
Lemma codepage_text value page tail text : windowsDecodeCodePage value page tail = Some text -> is_text text.
Proof.
  unfold windowsDecodeCodePage. destruct (_ || _); [done|]. generalize (if tail then Nat.min 3 (length value - 1) else 0%nat).
  intros n. generalize 0%nat. induction n as [|n IH]; intros trim; cbn [decode_trimmed];
    destruct (MultiByteToWideChar _ _) as [wide|]; [intros E; injection E as <-; apply windowsUtf8_text|done
    |intros E; injection E as <-; apply windowsUtf8_text|apply IH].
Qed.
Lemma escaped_text value limit : bytes_ok value -> 0 <= limit -> is_text (windowsEscapeOutput value limit).1.
Proof.
  intros Hv Hl. pose proof (escape_spec limit value Hv [] ltac:(by cbn) ltac:(done)) as Hs. unfold windowsEscapeOutput.
  destruct (escape_from limit value []) as [text cut]. destruct Hs as (_ & Hs & _). destruct (ascii_text text Hs) as [? ?]. by exists text.
Qed.
Lemma valid_text value tail v n : bytes_ok value -> windowsValidateUtf8 value tail = (v, n) -> is_text (take (Z.to_nat n) value).
Proof.
  intros Hv E. destruct (validate_prefix value tail Hv) as (cs & r & Hcs & -> & E2 & _). rewrite E in E2. cbn in E2. subst n.
  exists cs. split; [done|]. rewrite len_to_nat. apply take_app_length.
Qed.
Lemma decoded_text value oem ansi tail : bytes_ok value -> is_text (decoded_as value oem ansi tail).1.1.1.
Proof.
  intros Hv. unfold decoded_as. pose proof (escaped_text value WINDOWS_COMMAND_OUTPUT_LIMIT Hv ltac:(done)) as He.
  destruct (windowsEscapeOutput value WINDOWS_COMMAND_OUTPUT_LIMIT) as [text cut]. cbn [fst] in He. cbv zeta.
  set (be := (_ =? 0xfe) && _). destruct (_ || be).
  - destruct (decode_reads be tail (S (length value)) (drop 2 value) []) as (cs & r & Hcs & _ & E & _);
      [rewrite length_drop; lia|by apply Forall_drop|].
    unfold windowsDecodeUtf16. destruct (decode_utf16 be tail (drop 2 value) []) as [[] out]; cbn [fst snd app] in E |- *; [|done].
    subst out. by exists cs.
  - set (bom := _ && (byte_at value 2 =? 0xbf)). set (rest := if bom then _ else _).
    assert (bytes_ok rest) as Hr by (subst rest; destruct bom; [by apply Forall_drop|done]).
    destruct (windowsValidateUtf8 rest tail) as [[] n] eqn:Ev; [exact (valid_text _ _ _ _ Hr Ev)|].
    destruct (if negb bom then _ else _) as [t|] eqn:E1; [destruct bom; [done|]; exact (codepage_text _ _ _ _ E1)|].
    destruct (if negb bom && _ then _ else _) as [t|] eqn:E2; [|done].
    destruct (negb bom && _); [exact (codepage_text _ _ _ _ E2)|done].
Qed.

(** The first octets of a character. *)
Lemma utf8_first c : scalar c -> exists a t, utf8 c = a :: t /\ a < 0xf5 /\
  (c = 0xfeff <-> a = 0xef /\ byte_at (a :: t) 1 = 0xbb /\ byte_at (a :: t) 2 = 0xbf).
Proof.
  intros Hc. apply (scalar_cases c); [done|intros Hr..].
  - rewrite utf8_one by lia. do 2 eexists. split_and!; [done|lia|]. split; [lia|]. intros [-> _]. lia.
  - rewrite utf8_two by lia. do 2 eexists. split_and!; [done|lia|]. split; [lia|]. intros [? _]. lia.
  - rewrite utf8_three by lia. do 2 eexists. split_and!; [done|lia|].
    change (c = 0xfeff <-> 0xe0 + c / 4096 = 0xef /\ 0x80 + c / 64 mod 64 = 0xbb /\ 0x80 + c mod 64 = 0xbf). lia.
  - rewrite utf8_four by lia. do 2 eexists. split_and!; [done|lia|]. split; [lia|]. intros [? _]. lia.
Qed.
Lemma validate_text cs tail : Forall scalar cs -> windowsValidateUtf8 (utf8_text cs) tail = (true, len (utf8_text cs)).
Proof.
  intros Hcs. unfold windowsValidateUtf8.
  pose proof (validate_accepts cs Hcs (S (length (utf8_text cs))) [] tail ltac:(lia)) as E. exact E.
Qed.
Lemma decoded_utf16 be cs oem ansi tail : Forall scalar cs ->
  (decoded_as (utf16_bom be ++ utf16_text be cs) oem ansi tail).1.1.1 = utf8_text cs.
Proof.
  intros Hcs. pose proof (len_nonneg (utf16_text be cs)) as Hl. unfold decoded_as.
  assert (len (utf16_bom be) = 2) as Hb by (by destruct be).
  rewrite (proj2 (Z.ltb_lt 1 _)) by (rewrite len_app; lia).
  assert (windowsDecodeUtf16 (utf16_bom be ++ utf16_text be cs) be tail = (true, utf8_text cs)) as Ed.
  { unfold windowsDecodeUtf16. replace (drop 2 _) with (utf16_text be cs) by (by destruct be). by rewrite decode_accepts. }
  destruct be;
    [change (byte_at (utf16_bom true ++ utf16_text true cs) 0) with 0xfe; change (byte_at (utf16_bom true ++ utf16_text true cs) 1) with 0xff
    |change (byte_at (utf16_bom false ++ utf16_text false cs) 0) with 0xff; change (byte_at (utf16_bom false ++ utf16_text false cs) 1) with 0xfe];
    cbn [Z.eqb Pos.eqb andb orb]; cbv zeta; by rewrite Ed.
Qed.

Lemma decoded_utf8 cs oem ansi tail : Forall scalar cs -> cs <> [] ->
  (decoded_as (utf8_text cs) oem ansi tail).1.1.1 = utf8_text (drop_bom cs).
Proof.
  intros Hcs Hn. destruct cs as [|c cs]; [done|]. inversion Hcs as [|? ? Hc Hcs']; subst. clear Hn.
  destruct (utf8_first c Hc) as (a & t & Ea & Ha & Hbom).
  pose proof (validate_text (c :: cs) tail Hcs) as V1. pose proof (validate_text cs tail Hcs') as V2.
  rewrite utf8_text_cons in *. unfold decoded_as.
  assert (byte_at (utf8 c ++ utf8_text cs) 0 = a) as -> by (by rewrite Ea).
  rewrite (proj2 (Z.eqb_neq a 0xff)), (proj2 (Z.eqb_neq a 0xfe)) by lia. cbn [andb orb].
  destruct (Z.eqb_spec c 0xfeff) as [->|Hne].
  - destruct (proj1 Hbom eq_refl) as (E0 & E1 & E2). change (utf8 0xfeff) with [0xef; 0xbb; 0xbf] in *.
    injection Ea as <- <-. pose proof (len_nonneg (utf8_text cs)).
    rewrite (proj2 (Z.ltb_lt 1 _)), (proj2 (Z.leb_le 3 _)) by (rewrite len_app; change (len [0xef; 0xbb; 0xbf]) with 3; lia).
    change (byte_at ([0xef; 0xbb; 0xbf] ++ utf8_text cs) 1) with 0xbb. change (byte_at ([0xef; 0xbb; 0xbf] ++ utf8_text cs) 2) with 0xbf.
    cbn [Z.eqb Pos.eqb andb]. change (drop 3 ([0xef; 0xbb; 0xbf] ++ utf8_text cs)) with (utf8_text cs). cbv zeta.
    rewrite V2. cbn [fst]. by rewrite len_to_nat, firstn_all.
  - assert (((3 <=? len (utf8 c ++ utf8_text cs)) && (a =? 0xef) && ((if 1 <? len (utf8 c ++ utf8_text cs) then byte_at (utf8 c ++ utf8_text cs) 1 else 0) =? 0xbb) &&
      (byte_at (utf8 c ++ utf8_text cs) 2 =? 0xbf)) = false) as ->.
    { apply Bool.not_true_iff_false. intros Hb. rewrite !andb_true_iff, !Z.eqb_eq in Hb. destruct Hb as (((_ & B0) & B1) & B2).
      apply Hne, Hbom. subst a. split; [done|]. revert B1 B2 Ea. pose proof (len_nonneg (utf8_text cs)) as Hl.
      apply (scalar_cases c); [done|intros Hr..];
        (first [rewrite utf8_one by lia|rewrite utf8_two by lia|rewrite utf8_three by lia|rewrite utf8_four by lia]).
      - intros _ _ E. injection E as -> <-. lia.
      - intros _ _ E. injection E as E _. lia.
      - rewrite (proj2 (Z.ltb_lt 1 _)) by (rewrite len_app, !len_cons, len_nil; lia).
        intros B1 B2 E. injection E as E <-. rewrite <- E. by split.
      - intros _ _ E. injection E as E _. lia. }
    rewrite V1. cbn [fst]. rewrite len_to_nat, firstn_all. cbn [drop_bom]. by rewrite (proj2 (Z.eqb_neq c _)) by done.
Qed.

(** The whole function, when nothing was cut. *)
Lemma decode_uncut value observed oem ansi r : len value <= WINDOWS_COMMAND_OUTPUT_LIMIT ->
  value <> [] -> exists oem' ansi' tail,
  cr_output (decodeWindowsCommandOutput value observed oem ansi r) = (decoded_as value oem' ansi' tail).1.1.1.
Proof.
  intros Hl Hn. unfold decodeWindowsCommandOutput. rewrite take_ge by (unfold len, WINDOWS_COMMAND_OUTPUT_LIMIT, WINDOWS_COMMAND_OUTPUT_LOOKAHEAD in *; lia).
  rewrite bool_decide_eq_false_2 by done. cbv zeta.
  exists (if oem =? 0 then GetOEMCP else oem), (if ansi =? 0 then GetACP else ansi), (cr_truncated r || cr_timedOut r || (WINDOWS_COMMAND_OUTPUT_LIMIT <? observed) || (len value <? len value)).
  by destruct (decoded_as _ _ _ _) as [[[t n] p] cut].
Qed.

(** C40: What a command prints is text in the log and leaves its status alone:
    whatever octets the command printed, the output is whole UTF-8 characters
    and exit code, system error, time-out and absence are those of the
    command; and a command that prints characters in UTF-8, or in UTF-16 of
    either order with its byte-order mark, within the capture limit is read
    as exactly these characters, without a byte-order mark. *)
Theorem command_output_faithful raw observed oem ansi r be cs :
  bytes_ok raw -> Forall scalar cs ->
  let out raw := decodeWindowsCommandOutput raw observed oem ansi r in
  is_text (cr_output (out raw)) /\ cr_ok (out raw) = cr_ok r /\
  (cr_exitCode (out raw), cr_systemError (out raw), cr_timedOut (out raw), cr_absent (out raw)) =
  (cr_exitCode r, cr_systemError r, cr_timedOut r, cr_absent r) /\
  (len (utf8_text cs) <= WINDOWS_COMMAND_OUTPUT_LIMIT -> cr_output (out (utf8_text cs)) = utf8_text (drop_bom cs)) /\
  (2 + len (utf16_text be cs) <= WINDOWS_COMMAND_OUTPUT_LIMIT ->
   cr_output (out (utf16_bom be ++ utf16_text be cs)) = utf8_text cs).
Proof.
  intros Hraw Hcs out. subst out. cbv beta. split_and!.
  - unfold decodeWindowsCommandOutput. set (value := take _ raw).
    assert (bytes_ok value) as Hv by (by apply Forall_take). case_bool_decide as En; [by exists []|].
    set (tail := _ || _ || _ || _). pose proof (decoded_text value (if oem =? 0 then GetOEMCP else oem) (if ansi =? 0 then GetACP else ansi) tail Hv) as Ht.
    by destruct (decoded_as _ _ _ _) as [[[t n] p] cut].
  - unfold decodeWindowsCommandOutput. by destruct (if bool_decide _ then _ else _) as [[[t n] p] cut].
  - unfold decodeWindowsCommandOutput. by destruct (if bool_decide _ then _ else _) as [[[t n] p] cut].
  - intros Hl. destruct (decide (cs = [])) as [->|Hn]; [done|].
    destruct (decode_uncut (utf8_text cs) observed oem ansi r Hl) as (o & a & t & ->); [|by apply decoded_utf8].
    destruct cs as [|c cs]; [done|]. inversion Hcs as [|? ? Hc _]; subst. pose proof (utf8_len c Hc) as Hp. rewrite utf8_text_cons.
    intros E. apply app_eq_nil in E as [E _]. rewrite E, len_nil in Hp. lia.
  - intros Hl. assert (len (utf16_bom be) = 2) as Hb by (by destruct be).
    destruct (decode_uncut (utf16_bom be ++ utf16_text be cs) observed oem ansi r) as (o & a & t & ->);
      [by rewrite len_app, Hb|by destruct be|by apply decoded_utf16].
Qed.
End Decoded.

(** Nothing a command printed can forge a log: a value in a log line is
    whole UTF-8 characters without control characters and quotation marks,
    so it ends neither its field nor its line, and takes at most 2060
    octets, whatever its octets were. *)
Theorem log_value_clean value : bytes_ok value ->
  len (windowsLogValue value) <= 2060 /\
  exists cs, windowsLogValue value = utf8_text cs /\ Forall log_char cs.
Proof.
  intros Hv. destruct (log_value_text value Hv) as (cs & Hcs & -> & Hl).
  split; [unfold len in *; by rewrite length_map|]. destruct (log_text cs Hcs) as (ds & Hds & ->). by exists ds.
Qed.
Lemma log_value_clean_witness :
  windowsLogValue [0x6f; 0x6b; 34; 10; 0x5b] = [0x6f; 0x6b; 39; 32; 0x5b] /\
  len (windowsLogValue [0x6f; 0x6b; 34; 10; 0x5b]) <= 2060.
Proof. split; [vm_compute; reflexivity|]. apply log_value_clean. repeat constructor; cbn; lia. Defined.

(** A system whose code pages decode nothing and whose UTF-8 converter gives
    up on everything. *)
#[local] Instance plain_api : WindowsTextApi := {
  MultiByteToWideChar _ _ := None;
  wide_to_utf8 _ := [];
  FormatMessageW _ := None;
  GetOEMCP := 437;
  GetACP := 1252
}.
#[local] Instance plain_laws : WindowsTextLaws.
Proof. constructor. intros wide. by exists []. Qed.
Lemma command_output_faithful_witness :
  let out raw := decodeWindowsCommandOutput raw 7 0 0 WindowsCommandResult_init in
  cr_output (out [0xff; 0xfe; 0xac; 0x20; 0x3d; 0xd8; 0; 0xde]) = [0xe2; 0x82; 0xac; 0xf0; 0x9f; 0x98; 0x80] /\
  is_text (cr_output (out [0xc0; 0x80])).
Proof.
  assert (Forall scalar [0x20ac; 0x1f600]) as Hcs by (repeat constructor; unfold scalar; lia).
  assert (bytes_ok [0xc0; 0x80]) as Hraw by (repeat constructor; unfold is_byte; lia).
  destruct (command_output_faithful [0xc0; 0x80] 7 0 0 WindowsCommandResult_init false [0x20ac; 0x1f600] Hraw Hcs)
    as (Ht & _ & _ & _ & Hu).
  split; [|exact Ht]. exact (Hu ltac:(vm_compute; discriminate)).
Defined.
