(* ===== verification/WinNet.v ===== *)
(** * [common/windows_network_config.h]: setting up the virtual network

    The address, the metric and the MTU of the virtual adapter, a firewall rule
    and a broadcast route are set by commands of the system, and what was added
    is taken back when a later step fails and when the room is left.  The
    commands are an interface, as in the code: its operations move a world that
    the model knows nothing of. *)

From S2P Require Import Prelude TunJob WinText.

(** ** [class WindowsNetworkCommands] *)

Class WindowsNetworkCommands (W : Type) := {
  wc_execute : list (list Z) -> Z -> W -> WindowsCommandResult * W;
  wc_firewallRuleExists : list Z -> W -> WindowsCommandResult * W;
  wc_broadcastRouteExists : list Z -> W -> WindowsCommandResult * W;
  wc_retryDelay : W -> W;
  wc_shouldContinue : W -> bool * W;
  wc_commandTimeout : Z -> W -> Z * W;
  wc_operationStarted : string -> W -> W;
  wc_beginCleanup : W -> W
}.

(** ** State *)

Record WindowsNetworkState := mkNetworkState {
  ns_alias : list Z;
  ns_firewallRule : list Z;
  ns_firewallActive : bool;
  ns_broadcastActive : bool
}.
Definition set_ns_rule (v : list Z) (s : WindowsNetworkState) : WindowsNetworkState :=
  mkNetworkState (ns_alias s) v (ns_firewallActive s) (ns_broadcastActive s).
Definition set_ns_firewall (v : bool) (s : WindowsNetworkState) : WindowsNetworkState :=
  mkNetworkState (ns_alias s) (ns_firewallRule s) v (ns_broadcastActive s).
Definition set_ns_broadcast (v : bool) (s : WindowsNetworkState) : WindowsNetworkState :=
  mkNetworkState (ns_alias s) (ns_firewallRule s) (ns_firewallActive s) v.

(** What the functions work on: the commands, the state, the logger (the
    lines it was given, [None] without one) and [*error] ([None] when the
    pointer is null). *)
Record Net (W : Type) := mkNet {
  net_world : W;
  net_state : WindowsNetworkState;
  net_log : option (list bytes);
  net_error : option bytes
}.
Arguments mkNet {W}.
Arguments net_world {W}.
Arguments net_state {W}.
Arguments net_log {W}.
Arguments net_error {W}.

(** ** The commands *)

Definition wide (s : string) : list Z := windowsAscii (bytes_of_string s).
Definition rule_named (rule : list Z) : list Z := wide "name=" ++ rule.
Definition LIMITED_BROADCAST : list Z := wide "255.255.255.255/32".
Definition delete_rule (rule : list Z) : list (list Z) :=
  [wide "advfirewall"; wide "firewall"; wide "delete"; wide "rule"; rule_named rule].
Definition add_rule (rule localAddresses subnet : list Z) : list (list Z) :=
  [wide "advfirewall"; wide "firewall"; wide "add"; wide "rule"; rule_named rule; wide "dir=in"; wide "action=allow";
   wide "localip=" ++ localAddresses; wide "remoteip=" ++ subnet; wide "profile=any"; wide "enable=yes"].
Definition delete_route (alias : list Z) : list (list Z) :=
  [wide "interface"; wide "ipv4"; wide "delete"; wide "route"; LIMITED_BROADCAST; alias; wide "store=active"].
Definition add_route (alias : list Z) : list (list Z) :=
  [wide "interface"; wide "ipv4"; wide "add"; wide "route"; LIMITED_BROADCAST; alias; wide "0.0.0.0"; wide "metric=1"; wide "store=active"].
Definition set_address (alias : list Z) (ip mask : Z) : list (list Z) :=
  [wide "interface"; wide "ipv4"; wide "set"; wide "address"; wide "name=" ++ alias; wide "static";
   windowsAscii (windowsIPv4 ip); windowsAscii (windowsIPv4 mask); wide "gateway=none"; wide "store=active"].
Definition set_metric (alias : list Z) : list (list Z) :=
  [wide "interface"; wide "ipv4"; wide "set"; wide "interface"; wide "interface=" ++ alias; wide "metric=5"; wide "store=active"].
Definition set_mtu (alias : list Z) (mtu : Z) : list (list Z) :=
  [wide "interface"; wide "ipv4"; wide "set"; wide "subinterface"; alias; wide "mtu=" ++ dec_text mtu; wide "store=active"].

(** The length of a mask, [None] when a bit is set below a clear one. *)
Fixpoint mask_bits (mask : Z) (bits : list Z) (prefix : Z) (zeroSeen : bool) : option Z :=
  match bits with
  | [] => Some prefix
  | bit :: bits =>
      if negb (Z.land mask (Z.shiftl 1 bit) =? 0)
      then if zeroSeen then None else mask_bits mask bits (prefix + 1) zeroSeen
      else mask_bits mask bits prefix true
  end.
Definition mask_prefix (mask : Z) : option Z := mask_bits mask (rev (seqZ 0 32)) 0 false.

Section Config.
Context {W : Type} {NC : WindowsNetworkCommands W} {TA : WindowsTextApi}.
Local Abbreviation N := (SE (Net W)).

Definition net_call {A} (f : W -> A * W) : N A := fun s =>
  let '(a, w) := f (net_world s) in (Some a, mkNet w (net_state s) (net_log s) (net_error s)).
Definition net_do (f : W -> W) : N unit := net_call (fun w => (tt, f w)).
Definition net_set (f : WindowsNetworkState -> WindowsNetworkState) : N unit :=
  modify (fun s => mkNet (net_world s) (f (net_state s)) (net_log s) (net_error s)).
(** [if (error) *error = message]. *)
Definition net_report (message : bytes) : N unit :=
  modify (fun s => mkNet (net_world s) (net_state s) (net_log s) ((fun _ => message) <$> net_error s)).

Definition result_name (r : WindowsCommandResult) : string :=
  if cr_absent r then "absent" else if cr_timedOut r then "timeout" else if cr_ok r then "success" else "failed".
Definition log_line (st : WindowsNetworkState) (operation : string) (attempt : Z) (r : WindowsCommandResult) : bytes :=
  let t := bytes_of_string in
  t "[network] operation=" ++ t operation ++ t " alias=" ++ [34] ++ windowsLogValue (windowsUtf8 (ns_alias st)) ++ [34] ++
  t " rule=" ++ [34] ++ windowsLogValue (windowsUtf8 (ns_firewallRule st)) ++ [34] ++ t " attempt=" ++ dec_text attempt ++
  t " result=" ++ t (result_name r) ++ t " exit=" ++ dec_text (cr_exitCode r) ++
  t " system_error=" ++ dec_text (cr_systemError r) ++ t " elapsed_ms=" ++ dec_text (cr_elapsedMs r) ++
  t " encoding=" ++ t (cr_encoding r) ++ t " codepage=" ++ dec_text (cr_codePage r) ++
  t " oem_cp=" ++ dec_text (cr_oem r) ++ t " acp=" ++ dec_text (cr_ansi r) ++
  t " parent_console_cp=" ++ dec_text (cr_console r) ++ t " captured_bytes=" ++ dec_text (cr_captured r) ++
  t " observed_bytes=" ++ dec_text (cr_observed r) ++
  t " truncated=" ++ t (if cr_truncated r || (2048 <? len (cr_output r)) then "yes"%string else "no"%string) ++
  t " output=" ++ [34] ++ windowsLogValue (cr_output r) ++ [34].
Definition logWindowsNetwork (operation : string) (attempt : Z) (r : WindowsCommandResult) : N unit :=
  modify (fun s => mkNet (net_world s) (net_state s)
    ((fun lines => lines ++ [log_line (net_state s) operation attempt r]) <$> net_log s) (net_error s)).
(** [commands.execute(arguments, commands.commandTimeout(10000))]. *)
Definition net_execute (arguments : list (list Z)) : N WindowsCommandResult :=
  timeout <- net_call (wc_commandTimeout 10000) ;;
  net_call (wc_execute arguments timeout).

Definition removeWindowsFirewall (operation : string) : N bool :=
  net_do (wc_operationStarted operation) ;;;
  continue <- net_call wc_shouldContinue ;;
  if negb continue then ret false else
  rule <- gets (fun s => ns_firewallRule (net_state s)) ;;
  found <- net_call (wc_firewallRuleExists rule) ;;
  if cr_absent found || negb (cr_ok found) then
    logWindowsNetwork operation 1 found ;;; ret (cr_absent found)
  else
    result <- net_execute (delete_rule rule) ;;
    logWindowsNetwork operation 1 result ;;; ret (cr_ok result).

(** The two halves of a rollback. *)
Definition rollback_route : N bool :=
  active <- gets (fun s => ns_broadcastActive (net_state s)) ;;
  if negb active then ret true else
  net_do (wc_operationStarted "broadcast-remove") ;;;
  alias <- gets (fun s => ns_alias (net_state s)) ;;
  found <- net_call (wc_broadcastRouteExists alias) ;;
  result <- (if cr_ok found && negb (cr_absent found) then net_execute (delete_route alias) else ret found) ;;
  logWindowsNetwork "broadcast-remove" 1 result ;;;
  if cr_ok result || cr_absent result then net_set (set_ns_broadcast false) ;;; ret true else ret false.
Definition rollback_rule : N bool :=
  active <- gets (fun s => ns_firewallActive (net_state s)) ;;
  if negb active then ret true else
  removed <- removeWindowsFirewall "firewall-remove" ;;
  if removed : bool then net_set (set_ns_firewall false) ;;; ret true else ret false.
Definition rollbackWindowsNetwork : N bool :=
  net_do wc_beginCleanup ;;;
  route <- rollback_route ;;
  rule <- rollback_rule ;;
  ret (route && rule).

(** The lambdas of [configureWindowsNetwork]. *)
Definition net_fail (message : bytes) : N bool :=
  net_report message ;;; rollbackWindowsNetwork ;;; ret false.
Definition run_failed (operation : string) (r : WindowsCommandResult) : bytes :=
  let t := bytes_of_string in
  t operation ++ t " failed (exit=" ++ dec_text (cr_exitCode r) ++ t ", Windows=" ++ dec_text (cr_systemError r) ++
  t (if cr_timedOut r then ", timeout" else "")%string ++ t "): " ++ windowsLogValue (cr_output r).
Definition net_run (operation : string) (arguments : list (list Z)) : N bool :=
  net_do (wc_operationStarted operation) ;;;
  continue <- net_call wc_shouldContinue ;;
  if negb continue then net_report (bytes_of_string "Virtual network preparation cancelled or timed out") ;;; ret false else
  result <- net_execute arguments ;;
  logWindowsNetwork operation 1 result ;;;
  when (negb (cr_ok result)) (net_report (run_failed operation result)) ;;;
  ret (cr_ok result).
(** [return fail(error ? *error : message)]. *)
Definition fail_as_reported (message : string) : N bool :=
  error <- gets net_error ;;
  net_fail (default (bytes_of_string message) error).

(** The attempts to add the rule: the message of a failure that ends the
    configuration, or that the loop is over. *)
Fixpoint add_firewall (localAddresses subnet : list Z) (attempts : nat) (attempt : Z) : N (option string) :=
  match attempts with
  | O => ret None
  | S attempts =>
      net_do (wc_operationStarted "firewall-add") ;;;
      continue <- net_call wc_shouldContinue ;;
      if negb continue then ret (Some "Virtual network preparation cancelled or timed out"%string) else
      rule <- gets (fun s => ns_firewallRule (net_state s)) ;;
      result <- net_execute (add_rule rule localAddresses subnet) ;;
      logWindowsNetwork "firewall-add" attempt result ;;;
      if cr_ok result then net_set (set_ns_firewall true) ;;; ret None else
      net_set (set_ns_firewall true) ;;;
      removed <- removeWindowsFirewall "firewall-retry-cleanup" ;;
      if negb removed then ret (Some "Firewall add failed and its partial result could not be cleaned up"%string) else
      net_set (set_ns_firewall false) ;;;
      when (attempt <? 3) (net_do wc_retryDelay) ;;;
      add_firewall localAddresses subnet attempts (attempt + 1)
  end.

Definition configure_route : N bool :=
  net_do (wc_operationStarted "broadcast-precleanup") ;;;
  continue <- net_call wc_shouldContinue ;;
  if negb continue then net_fail (bytes_of_string "Virtual network preparation cancelled or timed out") else
  alias <- gets (fun s => ns_alias (net_state s)) ;;
  found <- net_call (wc_broadcastRouteExists alias) ;;
  previous <- (if cr_ok found && negb (cr_absent found) then net_execute (delete_route alias) else ret found) ;;
  logWindowsNetwork "broadcast-precleanup" 1 previous ;;;
  if negb (cr_ok previous) && negb (cr_absent previous)
  then net_fail (bytes_of_string "Virtual broadcast route precleanup failed") else
  net_set (set_ns_broadcast true) ;;;
  added <- net_run "broadcast-add" (add_route alias) ;;
  if added : bool then ret true else fail_as_reported "Virtual broadcast route configuration failed".
Definition configure_firewall (ip mask prefix : Z) : N bool :=
  cleaned <- removeWindowsFirewall "firewall-precleanup" ;;
  if negb cleaned then
    net_fail (bytes_of_string "Firewall precleanup failed; check the firewall service and administrator rights") else
  let subnet := windowsAscii (windowsIPv4 (Z.land ip mask) ++ bytes_of_string "/" ++ dec_text prefix) in
  let localAddresses := windowsAscii (windowsIPv4 ip ++ bytes_of_string "," ++
    windowsIPv4 (Z.lor (Z.land ip mask) (Z.lxor mask 0xffffffff)) ++ bytes_of_string ",255.255.255.255") in
  outcome <- add_firewall localAddresses subnet 3 1 ;;
  match outcome with
  | Some message => net_fail (bytes_of_string message)
  | None =>
      active <- gets (fun s => ns_firewallActive (net_state s)) ;;
      if negb active
      then net_fail (bytes_of_string "Firewall rule creation failed after 3 attempts; room join cancelled")
      else configure_route
  end.
(** The whole set-up, once the name of the rule is known. *)
Definition configure_named (alias : list Z) (ip mask mtu : Z) : N bool :=
  if bool_decide (alias = []) then net_fail (bytes_of_string "The virtual adapter alias is unavailable") else
  match mask_prefix mask with
  | None => net_fail (bytes_of_string "The virtual subnet mask is invalid")
  | Some prefix =>
      address <- net_run "address-set" (set_address alias ip mask) ;;
      if negb address then fail_as_reported "Virtual adapter address configuration failed" else
      metric <- net_run "metric-set" (set_metric alias) ;;
      if negb metric then fail_as_reported "Virtual adapter metric configuration failed" else
      sized <- (if 0 <? mtu then net_run "mtu-set" (set_mtu alias mtu) else ret true) ;;
      if negb sized then fail_as_reported "Virtual adapter MTU configuration failed" else
      configure_firewall ip mask prefix
  end.
Definition configureWindowsNetwork (ip mask mtu : Z) : N bool :=
  net_report [] ;;;
  net_set (fun st => set_ns_rule (wide "VLan Virtual LAN [" ++ ns_alias st ++ wide "]") st) ;;;
  alias <- gets (fun s => ns_alias (net_state s)) ;;
  configure_named alias ip mask mtu.
End Config.

(** ** [class SystemWindowsNetworkCommands], without the calls of Windows *)

Definition ERROR_CANCELLED : Z := 1223.
Definition ERROR_TIMEOUT : Z := 1460.
Record SystemWindowsNetworkCommands := mkSystem { sy_control : option RoomTaskControl; sy_cleanup : bool }.
Definition sy_shouldContinue (now : Z) (c : SystemWindowsNetworkCommands) : bool :=
  sy_cleanup c || match sy_control c with Some t => rc_allowed now t | None => true end.
Definition sy_commandTimeout (now cap : Z) (c : SystemWindowsNetworkCommands) : Z :=
  if sy_cleanup c then Z.min cap 5000 else
  match sy_control c with Some t => rc_remainingMs now cap t | None => cap end.
Definition sy_beginCleanup (c : SystemWindowsNetworkCommands) : SystemWindowsNetworkCommands := mkSystem (sy_control c) true.
Definition interruptedResult (c : SystemWindowsNetworkCommands) : WindowsCommandResult :=
  let error := match sy_control c with
               | Some t => if rc_cancelRequested t then ERROR_CANCELLED else ERROR_TIMEOUT
               | None => ERROR_TIMEOUT
               end in
  let timedOut := error =? ERROR_TIMEOUT in
  let r := WindowsCommandResult_init in
  mkResult (cr_exitCode r) error (cr_elapsedMs r) timedOut (cr_absent r) (cr_encoding r) (cr_codePage r) (cr_oem r)
    (cr_ansi r) (cr_console r) (cr_captured r) (cr_observed r) (cr_truncated r)
    (bytes_of_string (if timedOut then "Room preparation deadline expired" else "Room preparation cancelled")).

(** ** [quoteWindowsArgument] *)

Fixpoint quote_from (argument : list Z) (slashes : nat) (result : list Z) : list Z :=
  match argument with
  | [] => result ++ replicate (slashes * 2) 92 ++ [34]
  | c :: argument =>
      if c =? 92 then quote_from argument (S slashes) result else
      let n := if c =? 34 then (slashes * 2 + 1)%nat else slashes in
      quote_from argument 0 (result ++ replicate n 92 ++ [c])
  end.
Definition quoteWindowsArgument (argument : list Z) : list Z := quote_from argument 0 [34].

Example quote_1 : quoteWindowsArgument (wide "a\") = [34; 97; 92; 92; 34]. Proof. reflexivity. Qed.
Example mask_24 : mask_prefix 0xffffff00 = Some 24. Proof. reflexivity. Qed.
Example mask_holes : mask_prefix 0xff00ff00 = None. Proof. reflexivity. Qed.
