(* ===== verification/WinNetFacts.v ===== *)
(** * Facts about the set-up of the virtual network

    The set-up refines a machine of five facts: what the program says it owns
    (rule, route), what the system holds (rule, route) and what has been
    reported.  Each function is described by a relation between two states of
    this machine, and what matters follows by cases on its booleans. *)

From S2P Require Import Prelude TunJob WinText WinTextFacts WinNet.

(** ** What the commands of Windows do *)

(** Whether a firewall rule of this name, and a limited-broadcast route on
    this adapter, exist. *)
Class WindowsSystem (W : Type) := {
  rule_present : list Z -> W -> bool;
  route_present : list Z -> W -> bool
}.
Definition same_system {W} `{WindowsSystem W} (w w' : W) : Prop :=
  forall n, rule_present n w' = rule_present n w /\ route_present n w' = route_present n w.
(** Nobody else touches the rule and the route of the program; lookups are
    exact; a command that reports success did what it says, and one that
    fails may have done it or not. *)
Class WindowsSystemLaws (W : Type) `{WindowsNetworkCommands W} `{WindowsSystem W} : Prop := {
  wl_retryDelay : forall w, same_system w (wc_retryDelay w);
  wl_shouldContinue : forall w, same_system w (wc_shouldContinue w).2;
  wl_commandTimeout : forall cap w, same_system w (wc_commandTimeout cap w).2;
  wl_operationStarted : forall op w, same_system w (wc_operationStarted op w);
  wl_beginCleanup : forall w, same_system w (wc_beginCleanup w);
  wl_ruleLookup : forall n w, same_system w (wc_firewallRuleExists n w).2;
  wl_routeLookup : forall n w, same_system w (wc_broadcastRouteExists n w).2;
  wl_ruleAbsent : forall n w, cr_absent (wc_firewallRuleExists n w).1 = true -> rule_present n w = false;
  wl_routeAbsent : forall n w, cr_absent (wc_broadcastRouteExists n w).1 = true -> route_present n w = false;
  wl_present : forall args t w, cr_absent (wc_execute args t w).1 = false;
  wl_otherRule : forall n args t w, args <> delete_rule n -> (forall l r, args <> add_rule n l r) ->
    rule_present n (wc_execute args t w).2 = rule_present n w;
  wl_otherRoute : forall n args t w, args <> delete_route n -> args <> add_route n ->
    route_present n (wc_execute args t w).2 = route_present n w;
  wl_deleteRule : forall n t w, rule_present n (wc_execute (delete_rule n) t w).2 = true ->
    rule_present n w = true /\ cr_ok (wc_execute (delete_rule n) t w).1 = false;
  wl_deleteRoute : forall n t w, route_present n (wc_execute (delete_route n) t w).2 = true ->
    route_present n w = true /\ cr_ok (wc_execute (delete_route n) t w).1 = false;
  wl_addRule : forall n l r t w, cr_ok (wc_execute (add_rule n l r) t w).1 = true ->
    rule_present n (wc_execute (add_rule n l r) t w).2 = true;
  wl_addRoute : forall n t w, cr_ok (wc_execute (add_route n) t w).1 = true ->
    route_present n (wc_execute (add_route n) t w).2 = true
}.

(** ** The machine *)

(** [ab_error]: whether the reported text is blank. *)
Record Abs := mkAbs {
  ab_rule_owned : bool;
  ab_route_owned : bool;
  ab_rule : bool;
  ab_route : bool;
  ab_error : option bool
}.
Definition blank (e : bytes) : bool := match e with [] => true | _ => false end.

Section Facts.
Context {W : Type} {NC : WindowsNetworkCommands W} {WS : WindowsSystem W} {WL : WindowsSystemLaws W} {TA : WindowsTextApi}.
Context (RULE ALIAS : list Z).
Local Abbreviation N := (SE (Net W)).

Definition named (s : Net W) : Prop := ns_firewallRule (net_state s) = RULE /\ ns_alias (net_state s) = ALIAS.
Definition abs_of (s : Net W) : Abs :=
  mkAbs (ns_firewallActive (net_state s)) (ns_broadcastActive (net_state s))
    (rule_present RULE (net_world s)) (route_present ALIAS (net_world s)) (blank <$> net_error s).
(** [m] returns, keeps the names, and moves the machine by [R]. *)
Definition does {A} (m : N A) (R : A -> Abs -> Abs -> Prop) : Prop :=
  forall s, named s -> exists a s', m s = (Some a, s') /\ named s' /\ R a (abs_of s) (abs_of s').
Definition idle {A} (_ : A) (x y : Abs) : Prop := y = x.

Lemma does_bind {A B} (m : N A) (k : A -> N B) R (R' : A -> B -> Abs -> Abs -> Prop) :
  does m R -> (forall a, does (k a) (R' a)) -> does (bind m k) (fun b x z => exists a y, R a x y /\ R' a b y z).
Proof.
  intros Hm Hk s Hs. destruct (Hm s Hs) as (a & s1 & E & Hn & HR). destruct (Hk a s1 Hn) as (b & s2 & E2 & Hn' & HR').
  exists b, s2. rewrite (bind_run _ _ _ _ _ E). eauto 10.
Qed.
Lemma does_weaken {A} (m : N A) (R R' : A -> Abs -> Abs -> Prop) :
  does m R -> (forall a x y, R a x y -> R' a x y) -> does m R'.
Proof. intros Hm HR s Hs. destruct (Hm s Hs) as (a & s' & ? & ? & ?). exists a, s'. auto. Qed.
(** A step, and what is left to show of the rest. *)
Lemma does_then {A B} (m : N A) (k : A -> N B) R (Q : B -> Abs -> Abs -> Prop) :
  does m R -> (forall a, does (k a) (fun b y z => forall x, R a x y -> Q b x z)) -> does (bind m k) Q.
Proof.
  intros Hm Hk. eapply does_weaken; [exact (does_bind _ _ _ _ Hm Hk)|]. intros b x z (a & y & Hy & Hz). by apply Hz.
Qed.
(** A step that changes nothing the machine sees. *)
Lemma idle_bind {A B} (m : N A) (k : A -> N B) R :
  does m idle -> (forall a, does (k a) R) -> does (bind m k) R.
Proof.
  intros Hm Hk. eapply does_weaken; [by apply (does_bind m k idle (fun _ => R))|].
  intros b x z (a & y & -> & Hz). exact Hz.
Qed.
Lemma does_ret {A} (a : A) : does (ret a) (fun a' x y => a' = a /\ y = x).
Proof. intros s Hs. exists a, s. by split_and!. Qed.
Lemma does_name {A} (f : WindowsNetworkState -> list Z) v (k : list Z -> N A) R :
  (forall s, named s -> f (net_state s) = v) -> does (k v) R -> does (bind (gets (fun s => f (net_state s))) k) R.
Proof. intros Hf Hk s Hs. rewrite bind_gets, (Hf s Hs). by apply Hk. Qed.
Lemma does_call {A} (f : W -> A * W) : (forall w, same_system w (f w).2) -> does (net_call f) idle.
Proof.
  intros Hf s Hs. unfold net_call. specialize (Hf (net_world s)). destruct (f (net_world s)) as [a w].
  exists a. eexists. split; [done|]. split; [done|]. unfold idle, abs_of. cbn in *. by rewrite !(proj1 (Hf _)), !(proj2 (Hf _)).
Qed.
Lemma does_do f : (forall w, same_system w (f w)) -> does (net_do f) idle.
Proof. intros Hf. by apply (does_call (fun w => (tt, f w))). Qed.
Lemma does_log op n r : does (logWindowsNetwork op n r) idle.
Proof. intros s Hs. exists tt. eexists. by split_and!. Qed.
Lemma does_report e : does (net_report e) (fun _ x y =>
  y = mkAbs (ab_rule_owned x) (ab_route_owned x) (ab_rule x) (ab_route x) ((fun _ => blank e) <$> ab_error x)).
Proof.
  intros s Hs. exists tt. eexists. split; [done|]. split; [done|]. unfold abs_of. cbn. by destruct (net_error s).
Qed.
Lemma does_own_rule v : does (net_set (set_ns_firewall v)) (fun _ x y =>
  y = mkAbs v (ab_route_owned x) (ab_rule x) (ab_route x) (ab_error x)).
Proof. intros s Hs. exists tt. eexists. by split_and!. Qed.
Lemma does_own_route v : does (net_set (set_ns_broadcast v)) (fun _ x y =>
  y = mkAbs (ab_rule_owned x) v (ab_rule x) (ab_route x) (ab_error x)).
Proof. intros s Hs. exists tt. eexists. by split_and!. Qed.
Lemma does_rule_owned : does (gets (fun s => ns_firewallActive (net_state s))) (fun b x y => y = x /\ b = ab_rule_owned x).
Proof. intros s Hs. eexists _, s. by split_and!. Qed.
Lemma does_route_owned : does (gets (fun s => ns_broadcastActive (net_state s))) (fun b x y => y = x /\ b = ab_route_owned x).
Proof. intros s Hs. eexists _, s. by split_and!. Qed.

(** ** Lookups and commands *)

Lemma does_lookup_rule : does (net_call (wc_firewallRuleExists RULE))
  (fun r x y => y = x /\ (cr_absent r = true -> ab_rule x = false)).
Proof.
  intros s Hs. destruct (does_call (wc_firewallRuleExists RULE) (wl_ruleLookup RULE) s Hs) as (r & s' & E & Hn & Hy).
  exists r, s'. split_and!; [done..|]. unfold net_call in E. destruct (wc_firewallRuleExists RULE (net_world s)) as [r' w] eqn:Er.
  injection E as -> <-. intros Ha. apply (wl_ruleAbsent RULE). by rewrite Er.
Qed.
Lemma does_lookup_route : does (net_call (wc_broadcastRouteExists ALIAS))
  (fun r x y => y = x /\ (cr_absent r = true -> ab_route x = false)).
Proof.
  intros s Hs. destruct (does_call (wc_broadcastRouteExists ALIAS) (wl_routeLookup ALIAS) s Hs) as (r & s' & E & Hn & Hy).
  exists r, s'. split_and!; [done..|]. unfold net_call in E. destruct (wc_broadcastRouteExists ALIAS (net_world s)) as [r' w] eqn:Er.
  injection E as -> <-. intros Ha. apply (wl_routeAbsent ALIAS). by rewrite Er.
Qed.
(** From what a command does to the two facts of the system. *)
Lemma does_execute args (R : WindowsCommandResult -> bool -> bool -> Prop) (R' : WindowsCommandResult -> bool -> bool -> Prop) :
  (forall t w, R (wc_execute args t w).1 (rule_present RULE w) (rule_present RULE (wc_execute args t w).2)) ->
  (forall t w, R' (wc_execute args t w).1 (route_present ALIAS w) (route_present ALIAS (wc_execute args t w).2)) ->
  does (net_execute args) (fun r x y => R r (ab_rule x) (ab_rule y) /\ R' r (ab_route x) (ab_route y) /\
    ab_rule_owned y = ab_rule_owned x /\ ab_route_owned y = ab_route_owned x /\ ab_error y = ab_error x).
Proof.
  intros Hr Ht. apply idle_bind; [apply does_call, wl_commandTimeout|]. intros timeout s Hs. unfold net_call.
  specialize (Hr timeout (net_world s)). specialize (Ht timeout (net_world s)).
  destruct (wc_execute args timeout (net_world s)) as [r w]. exists r. eexists. by split_and!.
Qed.
Lemma rule_name_inj n : delete_rule n = delete_rule RULE -> n = RULE.
Proof. intros E. unfold delete_rule, rule_named in E. injection E as E. exact E. Qed.
Lemma does_delete_rule : does (net_execute (delete_rule RULE)) (fun r x y =>
  (ab_rule y = true -> ab_rule x = true /\ cr_ok r = false) /\ ab_route y = ab_route x /\
  ab_rule_owned y = ab_rule_owned x /\ ab_route_owned y = ab_route_owned x /\ ab_error y = ab_error x).
Proof.
  apply (does_execute _ (fun r a b => b = true -> a = true /\ cr_ok r = false) (fun _ a b => b = a)).
  - intros t w. apply wl_deleteRule.
  - intros t w. by apply wl_otherRoute.
Qed.
Lemma does_delete_route : does (net_execute (delete_route ALIAS)) (fun r x y =>
  ab_rule y = ab_rule x /\ (ab_route y = true -> ab_route x = true /\ cr_ok r || cr_absent r = false) /\
  ab_rule_owned y = ab_rule_owned x /\ ab_route_owned y = ab_route_owned x /\ ab_error y = ab_error x).
Proof.
  apply (does_execute _ (fun _ a b => b = a) (fun r a b => b = true -> a = true /\ cr_ok r || cr_absent r = false)).
  - intros t w. by apply wl_otherRule.
  - intros t w. rewrite wl_present, orb_false_r. apply wl_deleteRoute.
Qed.
Lemma does_add_rule l r : does (net_execute (add_rule RULE l r)) (fun res x y =>
  (cr_ok res = true -> ab_rule y = true) /\ ab_route y = ab_route x /\
  ab_rule_owned y = ab_rule_owned x /\ ab_route_owned y = ab_route_owned x /\ ab_error y = ab_error x).
Proof.
  apply (does_execute _ (fun res _ b => cr_ok res = true -> b = true) (fun _ a b => b = a)).
  - intros t w. apply wl_addRule.
  - intros t w. by apply wl_otherRoute.
Qed.
Lemma does_add_route : does (net_execute (add_route ALIAS)) (fun res x y =>
  ab_rule y = ab_rule x /\ (cr_ok res = true -> ab_route y = true) /\
  ab_rule_owned y = ab_rule_owned x /\ ab_route_owned y = ab_route_owned x /\ ab_error y = ab_error x).
Proof.
  apply (does_execute _ (fun _ a b => b = a) (fun res _ b => cr_ok res = true -> b = true)).
  - intros t w. by apply wl_otherRule.
  - intros t w. apply wl_addRoute.
Qed.
(** A command about neither the rule nor the route. *)
Definition harmless (args : list (list Z)) : Prop :=
  (forall n, args <> delete_rule n) /\ (forall n l r, args <> add_rule n l r) /\
  (forall n, args <> delete_route n) /\ (forall n, args <> add_route n).
Lemma does_harmless args : harmless args -> does (net_execute args) idle.
Proof.
  intros (H1 & H2 & H3 & H4). eapply does_weaken; [apply (does_execute args (fun _ a b => b = a) (fun _ a b => b = a))|].
  - intros t w. by apply wl_otherRule.
  - intros t w. by apply wl_otherRoute.
  - intros r [] [] E. cbn in E. destruct E as (-> & -> & -> & -> & ->). done.
Qed.
Lemma set_harmless alias ip mask mtu :
  harmless (set_address alias ip mask) /\ harmless (set_metric alias) /\ harmless (set_mtu alias mtu).
Proof. by split_and!. Qed.

(** ** The functions *)

Ltac abs_solve :=
  intros; repeat match goal with
  | H : _ /\ _ |- _ => destruct H
  | H : Abs |- _ => destruct H
  end; cbn in *; simplify_eq/=; split_and?; intros; try congruence;
  try match goal with |- _ = false => apply not_true_is_false; intros ? end;
  first [solve [intuition congruence]
        |rewrite ?orb_true_iff, ?andb_true_iff, ?orb_false_iff, ?andb_false_iff, ?negb_true_iff, ?negb_false_iff in *;
         intuition congruence].
Ltac then_idle := apply idle_bind; [first
  [ apply does_log | apply does_do, wl_operationStarted | apply does_call, wl_shouldContinue
  | apply does_do, wl_beginCleanup | apply does_do, wl_retryDelay ]|intros ?].
Ltac then_name f v := apply (does_name f v); [by intros ? []|].
Ltac then_do lemma := eapply does_then; [apply lemma|intros ?].
Ltac finish lemma := eapply does_weaken; [apply lemma|abs_solve].

(** The rule stays what it was or goes; it is gone when this succeeds. *)
Lemma does_remove op : does (removeWindowsFirewall op) (fun b x y =>
  (ab_rule y = true -> ab_rule x = true) /\ (b = true -> ab_rule y = false) /\ ab_route y = ab_route x /\
  ab_rule_owned y = ab_rule_owned x /\ ab_route_owned y = ab_route_owned x /\ ab_error y = ab_error x).
Proof.
  unfold removeWindowsFirewall. then_idle. then_idle. destruct (negb _); [finish @does_ret|].
  then_name ns_firewallRule RULE. then_do does_lookup_rule. destruct (_ || _); [then_idle; finish @does_ret|].
  then_do does_delete_rule. then_idle. finish @does_ret.
Qed.
(** [found] becomes the outcome of a deletion when there is something to delete. *)
Lemma does_delete_found found : does
  (if cr_ok found && negb (cr_absent found) then net_execute (delete_route ALIAS) else ret found)
  (fun r x y => ab_rule y = ab_rule x /\ (ab_route y = true -> ab_route x = true) /\
    ((cr_absent found = true -> ab_route x = false) -> cr_ok r || cr_absent r = true -> ab_route y = false) /\
    ab_rule_owned y = ab_rule_owned x /\ ab_route_owned y = ab_route_owned x /\ ab_error y = ab_error x).
Proof.
  destruct (cr_ok found) eqn:E1, (cr_absent found) eqn:E2; cbn [andb negb];
    [finish @does_ret|finish does_delete_route|finish @does_ret|finish @does_ret].
Qed.

(** What was owned is gone, or is still owned; nothing else changes. *)
Definition released (x y : Abs) : Prop :=
  (ab_rule y = true -> ab_rule x = true) /\ (ab_route y = true -> ab_route x = true) /\
  (ab_rule_owned x = true -> ab_rule_owned y = false -> ab_rule y = false) /\
  (ab_route_owned x = true -> ab_route_owned y = false -> ab_route y = false) /\
  (ab_rule_owned x = false -> ab_rule_owned y = false /\ ab_rule y = ab_rule x) /\
  (ab_route_owned x = false -> ab_route_owned y = false /\ ab_route y = ab_route x) /\ ab_error y = ab_error x.
Lemma does_rollback_route : does rollback_route (fun b x y =>
  ab_rule y = ab_rule x /\ ab_rule_owned y = ab_rule_owned x /\ ab_error y = ab_error x /\
  (ab_route y = true -> ab_route x = true) /\ (b = negb (ab_route_owned y)) /\
  (ab_route_owned x = true -> ab_route_owned y = false -> ab_route y = false) /\
  (ab_route_owned x = false -> ab_route_owned y = false /\ ab_route y = ab_route x)).
Proof.
  unfold rollback_route. then_do does_route_owned. destruct a; cbn [negb]; [|finish @does_ret].
  then_idle. then_name ns_alias ALIAS. then_do does_lookup_route. then_do does_delete_found. then_idle.
  destruct (_ || _) eqn:Eo; [then_do does_own_route|]; finish @does_ret.
Qed.
Lemma does_rollback_rule : does rollback_rule (fun b x y =>
  ab_route y = ab_route x /\ ab_route_owned y = ab_route_owned x /\ ab_error y = ab_error x /\
  (ab_rule y = true -> ab_rule x = true) /\ (b = negb (ab_rule_owned y)) /\
  (ab_rule_owned x = true -> ab_rule_owned y = false -> ab_rule y = false) /\
  (ab_rule_owned x = false -> ab_rule_owned y = false /\ ab_rule y = ab_rule x)).
Proof.
  unfold rollback_rule. then_do does_rule_owned. destruct a; cbn [negb]; [|finish @does_ret].
  then_do does_remove. destruct a; [then_do does_own_rule|]; finish @does_ret.
Qed.
Lemma does_rollback : does rollbackWindowsNetwork (fun b x y =>
  released x y /\ b = negb (ab_route_owned y) && negb (ab_rule_owned y)).
Proof.
  unfold rollbackWindowsNetwork. then_idle. then_do does_rollback_route. then_do does_rollback_rule.
  eapply does_weaken; [apply @does_ret|]. unfold released. abs_solve.
Qed.
Lemma does_fail e : does (net_fail e) (fun b x y => b = false /\
  released (mkAbs (ab_rule_owned x) (ab_route_owned x) (ab_rule x) (ab_route x) ((fun _ => blank e) <$> ab_error x)) y).
Proof.
  unfold net_fail. then_do does_report. then_do does_rollback. eapply does_weaken; [apply @does_ret|].
  intros b x y [-> ->] z [Hz _] w ->. done.
Qed.

(** A failing command is reported. *)
Definition told (x y : Abs) : Prop :=
  ab_rule y = ab_rule x /\ ab_route y = ab_route x /\ ab_rule_owned y = ab_rule_owned x /\
  ab_route_owned y = ab_route_owned x /\ ab_error y = (fun _ => false) <$> ab_error x.
Lemma blank_failed op r : blank (run_failed op r) = false.
Proof. unfold run_failed. by destruct (bytes_of_string op). Qed.
Lemma does_run op args (R : WindowsCommandResult -> Abs -> Abs -> Prop) :
  does (net_execute args) R -> does (net_run op args) (fun b x y =>
    (b = false /\ told x y) \/
    (exists r z, R r x z /\ b = cr_ok r /\ (b = true -> y = z) /\ (b = false -> told z y))).
Proof.
  intros He. unfold net_run. then_idle. then_idle. destruct (negb _).
  { then_do does_report. eapply does_weaken; [apply @does_ret|]. intros b x y [-> ->] z ->. left. by split. }
  then_do He. then_idle. rename a1 into r. destruct (cr_ok r) eqn:Eo; cbn [negb when].
  - apply idle_bind; [eapply does_weaken; [apply @does_ret|]; by intros ? ? ? [_ ->]|]. intros _.
    eapply does_weaken; [apply @does_ret|]. intros b x y [-> ->] z Hz. right. exists r, x. by rewrite Eo.
  - then_do does_report. eapply does_weaken; [apply @does_ret|]. intros b x y [-> ->] z Hz w Hw. right. exists r, z.
    rewrite Eo. split_and!; [done|done|done|]. intros _. rewrite Hz, blank_failed. done.
Qed.
Lemma does_run_harmless op args : harmless args -> does (net_run op args) (fun b x y =>
  if b then y = x else told x y).
Proof.
  intros Hh. eapply does_weaken; [apply does_run, (does_harmless _ Hh)|].
  intros b x y [[-> Ht]|(r & z & -> & Hb & Ht & Hf)]; [done|]. destruct b; auto.
Qed.
Lemma does_fail_as_reported msg : does (fail_as_reported msg) (fun b x y => b = false /\ released x y).
Proof.
  intros s Hs. unfold fail_as_reported. rewrite bind_gets.
  destruct (does_fail (default (bytes_of_string msg) (net_error s)) s Hs) as (b & s' & E & Hn & Hb & HR).
  exists b, s'. split_and!; [done..|]. enough (abs_of s = mkAbs (ab_rule_owned (abs_of s)) (ab_route_owned (abs_of s)) (ab_rule (abs_of s))
    (ab_route (abs_of s)) ((fun _ => blank (default (bytes_of_string msg) (net_error s))) <$> ab_error (abs_of s))) as -> by done.
  unfold abs_of. cbn. by destruct (net_error s).
Qed.

(** The attempts: from a system without the rule, it is there and owned or
    neither, unless it could not be taken back and stays owned. *)
Lemma does_add_firewall l r n : forall k, does (add_firewall l r n k) (fun o x y =>
  ab_route y = ab_route x /\ ab_route_owned y = ab_route_owned x /\ ab_error y = ab_error x /\
  (if o is Some m then blank (bytes_of_string m) = false else True) /\
  (ab_rule x = false -> (n = 0%nat -> ab_rule_owned x = false) ->
   (o = None -> ab_rule_owned y = ab_rule y) /\ (ab_rule y = true -> ab_rule_owned y = true))).
Proof.
  induction n as [|n IH]; intros k; cbn [add_firewall].
  { eapply does_weaken; [apply @does_ret|]. intros o x y [-> ->]. repeat (split; [done|]). intros E Hn. by rewrite (Hn eq_refl), E. }
  then_idle. then_idle. destruct (negb _).
  { finish @does_ret. }
  then_name ns_firewallRule RULE. then_do does_add_rule. then_idle. destruct (cr_ok _) eqn:Eo.
  { then_do does_own_rule. finish @does_ret. }
  then_do does_own_rule. then_do does_remove. rename a4 into gone. destruct gone; cbn [negb]; [|finish @does_ret].
  then_do does_own_rule. apply idle_bind.
  { destruct (_ <? _); cbn [when]; [apply does_do, wl_retryDelay|]. eapply does_weaken; [apply @does_ret|]. by intros ? ? ? [_ ->]. }
  intros _. eapply does_weaken; [apply IH|]. intros o [] []. cbn. abs_solve.
Qed.

(** What is left behind is owned, or was there before and not owned. *)
Definition left_owned (x y : Abs) : Prop :=
  (ab_rule y = true -> ab_rule_owned y = true \/ (ab_rule_owned x = false /\ ab_rule x = true)) /\
  (ab_route y = true -> ab_route_owned y = true \/ (ab_route_owned x = false /\ ab_route x = true)) /\
  ab_error y = (fun _ => false) <$> ab_error x.
Lemma released_left x y : released x y -> ab_error x = (fun _ => false) <$> ab_error x -> left_owned x y.
Proof.
  intros (H1 & H2 & H3 & H4 & H5 & H6 & H7) E. unfold left_owned. rewrite H7, <- E.
  destruct (ab_rule_owned x), (ab_rule_owned y), (ab_route_owned x), (ab_route_owned y); naive_solver.
Qed.
Lemma does_fail_left e : blank e = false -> does (net_fail e) (fun b x y => b = false /\ left_owned x y).
Proof.
  intros He. eapply does_weaken; [apply does_fail|]. intros b x y [-> HR]. split; [done|]. rewrite He in HR.
  apply released_left in HR; [|cbn; by destruct (ab_error x)]. unfold left_owned in *. cbn in HR. by destruct (ab_error x).
Qed.
(** After a failure that is reported, the rest of [fail]. *)
Lemma does_fail_told msg : does (fail_as_reported msg) (fun b x y => b = false /\ (ab_error x = (fun _ => false) <$> ab_error x -> left_owned x y)).
Proof.
  eapply does_weaken; [apply does_fail_as_reported|]. intros b x y [-> HR]. split; [done|]. intros E. by apply released_left.
Qed.

Lemma does_configure_route : does configure_route (fun b x y =>
  if b then ab_rule_owned y = ab_rule_owned x /\ ab_rule y = ab_rule x /\ ab_error y = ab_error x /\
            ab_route_owned y = true /\ ab_route y = true
  else left_owned x y).
Proof.
  unfold configure_route. then_idle. then_idle. destruct (negb _).
  { eapply does_weaken; [by apply does_fail_left|]. by intros b x y [-> H]. }
  then_name ns_alias ALIAS. then_do does_lookup_route. then_do does_delete_found. then_idle. destruct (negb _ && negb _) eqn:Eb.
  { eapply does_weaken; [by apply does_fail_left|]. unfold left_owned. abs_solve. }
  assert (cr_ok a2 || cr_absent a2 = true) as Eok by (by destruct (cr_ok a2), (cr_absent a2)).
  then_do does_own_route. then_do does_run; [apply does_add_route|]. destruct a5.
  - eapply does_weaken; [apply @does_ret|].
    intros b x y [-> ->] z Hz w Hw v Hv u Hu. destruct Hz as [[? ?]|(res & q & Hq & Eres & Hq' & _)]; [done|].
    specialize (Hq' eq_refl). destruct Hq as (Hq1 & Hq2 & Hq). specialize (Hq2 (eq_sym Eres)). clear Eres. subst. abs_solve.
  - eapply does_weaken; [apply does_fail_told|]. intros b x y [-> HR] z Hz w Hw v Hv u Hu.
    destruct Hz as [[_ Ht]|(res & q & Hq & _ & _ & Ht)]; [|specialize (Ht eq_refl)]; unfold told, left_owned in *;
    destruct u, v, w, x, y; try destruct q; destruct z; cbn in *; destruct_and?; simplify_eq/=.
    all: match goal with H : ?e = ?e -> _ |- _ => specialize (H eq_refl) | H : _ <$> ?e = _ -> _ |- _ => specialize (H ltac:(by destruct e)) end.
    all: destruct_and?; split_and!; [naive_solver|naive_solver|].
    all: match goal with H : ?a = _ |- ?a = _ => rewrite H end; by destruct ab_error0.
Qed.

Definition all_set (x y : Abs) : Prop :=
  ab_rule_owned y = true /\ ab_rule y = true /\ ab_route_owned y = true /\ ab_route y = true /\ ab_error y = ab_error x.
Lemma left_from x y z :
  (ab_rule y = true -> ab_rule_owned y = false -> ab_rule_owned x = false /\ ab_rule x = true) ->
  ab_route y = ab_route x -> ab_route_owned y = ab_route_owned x -> ab_error y = ab_error x ->
  left_owned y z -> left_owned x z.
Proof. unfold left_owned. intros Hr -> -> -> (Hl & Ht & He). split_and!; [naive_solver|done|done]. Qed.
Lemma does_configure_firewall ip mask prefix : does (configure_firewall ip mask prefix) (fun b x y =>
  if b then all_set x y else left_owned x y).
Proof.
  unfold configure_firewall. then_do does_remove. destruct a; cbn [negb].
  2:{ eapply does_weaken; [by apply does_fail_left|]. intros b x y [-> H] z Hz. eapply left_from, H; naive_solver. }
  then_do does_add_firewall. destruct a as [message|].
  { destruct (blank (bytes_of_string message)) eqn:Eb.
    { eapply does_weaken; [apply does_fail|]. intros b x y _ z Hz. intuition congruence. }
    eapply does_weaken; [by apply does_fail_left|]. intros b x y [-> H] z (E1 & E2 & E3 & _ & E4) w Hw.
    destruct Hw as (Hw1 & Hw2 & Hw). specialize (E4 (Hw2 eq_refl) ltac:(done)) as [_ E4].
    eapply left_from, H; [|intuition congruence..]. intros Hx Hy. rewrite E4 in Hy; done. }
  then_do does_rule_owned. destruct a; cbn [negb].
  - eapply does_weaken; [apply does_configure_route|]. intros b x y H z [-> Hz] w (E1 & E2 & E3 & _ & E4) v (Hv1 & Hv2 & Hv).
    specialize (E4 (Hv2 eq_refl) ltac:(done)) as [E4 E5]. specialize (E4 eq_refl). destruct b.
    + unfold all_set. destruct H as (-> & -> & -> & -> & ->). intuition congruence.
    + eapply left_from, H; [|intuition congruence..]. congruence.
  - eapply does_weaken; [by apply does_fail_left|]. intros b x y [-> H] z [-> Hz] w (E1 & E2 & E3 & _ & E4) v (Hv1 & Hv2 & Hv).
    specialize (E4 (Hv2 eq_refl) ltac:(done)) as [E4 E5]. specialize (E4 eq_refl). eapply left_from, H; [|intuition congruence..]. congruence.
Qed.

Lemma told_left x y z : told x y -> (ab_error y = (fun _ => false) <$> ab_error y -> left_owned y z) -> left_owned x z.
Proof.
  intros (E1 & E2 & E3 & E4 & E5) H. unfold left_owned in *. rewrite E1, E2, E3, E4, E5 in H.
  destruct (ab_error x); cbn in *; by apply H.
Qed.
Lemma does_configure_named ip mask mtu : does (configure_named ALIAS ip mask mtu) (fun b x y =>
  if b then all_set x y else left_owned x y).
Proof.
  unfold configure_named. destruct (set_harmless ALIAS ip mask mtu) as (H1 & H2 & H3). case_bool_decide.
  { eapply does_weaken; [by apply does_fail_left|]. by intros b x y [-> ?]. }
  destruct (mask_prefix mask) as [prefix|]; [|eapply does_weaken; [by apply does_fail_left|]; by intros b x y [-> ?]].
  then_do (does_run_harmless "address-set" _ H1). destruct a; cbn [negb].
  2:{ eapply does_weaken; [apply does_fail_told|]. intros b x y [-> HR] z Hz. by eapply told_left. }
  then_do (does_run_harmless "metric-set" _ H2). destruct a; cbn [negb].
  2:{ eapply does_weaken; [apply does_fail_told|]. intros b x y [-> HR] z Hz w ->. by eapply told_left. }
  assert (does (if 0 <? mtu then net_run "mtu-set" (set_mtu ALIAS mtu) else ret true)
    (fun b x y => if b then y = x else told x y)) as Hm.
  { destruct (0 <? mtu); [by apply does_run_harmless|]. eapply does_weaken; [apply @does_ret|]. by intros b x y [-> ->]. }
  then_do Hm. destruct a; cbn [negb].
  2:{ eapply does_weaken; [apply does_fail_told|]. intros b x y [-> HR] z Hz w -> v ->. by eapply told_left. }
  eapply does_weaken; [apply does_configure_firewall|]. by intros b x y H4 z -> w -> v ->.
Qed.
End Facts.

(** ** The contract *)

(** The name [configureWindowsNetwork] gives its rule. *)
Definition rule_of (alias : list Z) : list Z := wide "VLan Virtual LAN [" ++ alias ++ wide "]".

Section Contract.
Context {W : Type} {NC : WindowsNetworkCommands W} {WS : WindowsSystem W} {WL : WindowsSystemLaws W} {TA : WindowsTextApi}.

Lemma configure_runs ip mask mtu (s : Net W) :
  let alias := ns_alias (net_state s) in
  exists s1, configureWindowsNetwork ip mask mtu s = configure_named alias ip mask mtu s1 /\
    named (rule_of alias) alias s1 /\
    abs_of (rule_of alias) alias s1 =
    mkAbs (ns_firewallActive (net_state s)) (ns_broadcastActive (net_state s))
      (rule_present (rule_of alias) (net_world s)) (route_present alias (net_world s)) ((fun _ => true) <$> net_error s).
Proof.
  eexists. split; [reflexivity|]. split; [done|]. unfold abs_of. cbn. by destruct (net_error s).
Qed.

(** C38: The virtual network is set up entirely or what is left of it is
    owned.  Whatever the commands of the system do, fail, time out or are cut
    short by a cancellation: [configureWindowsNetwork] returns; when it
    succeeds the firewall rule and the broadcast route exist, are marked as
    owned and no error is reported; when it fails an error is reported, and a
    rule or a route that exists is marked as owned, so that it will be taken
    back, unless it was there before and was never owned.  And
    [rollbackWindowsNetwork] succeeds exactly when nothing is marked as owned
    any more, and then what was owned is gone. *)
Theorem network_all_or_owned ip mask mtu (s : Net W) :
  let alias := ns_alias (net_state s) in
  let rule := rule_of alias in
  (exists b s', configureWindowsNetwork ip mask mtu s = (Some b, s') /\
    ns_alias (net_state s') = alias /\ ns_firewallRule (net_state s') = rule /\
    if b : bool then
      ns_firewallActive (net_state s') = true /\ rule_present rule (net_world s') = true /\
      ns_broadcastActive (net_state s') = true /\ route_present alias (net_world s') = true /\
      forall e, net_error s' = Some e -> e = []
    else
      (rule_present rule (net_world s') = true -> ns_firewallActive (net_state s') = true \/
         (ns_firewallActive (net_state s) = false /\ rule_present rule (net_world s) = true)) /\
      (route_present alias (net_world s') = true -> ns_broadcastActive (net_state s') = true \/
         (ns_broadcastActive (net_state s) = false /\ route_present alias (net_world s) = true)) /\
      forall e, net_error s' = Some e -> e <> []) /\
  (ns_firewallRule (net_state s) = rule -> exists c s', rollbackWindowsNetwork s = (Some c, s') /\
    (c = true <-> ns_firewallActive (net_state s') = false /\ ns_broadcastActive (net_state s') = false) /\
    (c = true -> (ns_firewallActive (net_state s) = true -> rule_present rule (net_world s') = false) /\
                 (ns_broadcastActive (net_state s) = true -> route_present alias (net_world s') = false))).
Proof.
  intros alias rule. split.
  - destruct (configure_runs ip mask mtu s) as (s1 & -> & Hn & Ea).
    destruct (does_configure_named rule alias ip mask mtu s1 Hn) as (b & s' & E & [Hn1 Hn2] & HR). fold alias rule in Ea. rewrite Ea in HR.
    exists b, s'. split_and!; [done..|]. destruct b.
    + destruct HR as (H1 & H2 & H3 & H4 & H5). cbn in *. split_and!; [done..|]. intros e Ee. rewrite Ee in H5.
      destruct (net_error s); [|done]. by destruct e.
    + destruct HR as (H1 & H2 & H3). cbn in *. split_and!; [done..|]. intros e Ee ->. rewrite Ee in H3. by destruct (net_error s).
  - intros Hr. destruct (does_rollback rule alias s (conj Hr eq_refl)) as (c & s' & E & _ & (H1 & H2 & H3 & H4 & H5 & H6 & H7) & Ec).
    cbn in *. exists c, s'. split; [done|]. subst c.
    destruct (ns_firewallActive (net_state s')), (ns_broadcastActive (net_state s')); cbn; naive_solver.
Qed.
End Contract.

(** ** A system to try it on *)

Module Demo.
(** The names of the rules, the adapters with a route, and the commands that
    fail after having done their work. *)
Record World := mkWorld { rules : gset (list Z); routes : gset (list Z); refused : list (list (list Z)) }.
Definition done_result (bad : bool) : WindowsCommandResult :=
  let r := WindowsCommandResult_init in
  mkResult (if bad then 1 else 0) 0 0 false false (cr_encoding r) 65001 0 0 0 0 0 false [].
Definition found_result (absent : bool) : WindowsCommandResult :=
  let r := WindowsCommandResult_init in mkResult 0 0 0 false absent (cr_encoding r) 65001 0 0 0 0 0 false [].
Definition word (args : list (list Z)) (n : nat) : list Z := nth n args [].
(** The rule and the adapter a command would be about. *)
Definition rule_arg (args : list (list Z)) : list Z := drop 5 (word args 4).
Definition route_arg (args : list (list Z)) : list Z := word args 5.
Definition is_add_rule (args : list (list Z)) : bool :=
  bool_decide (args = add_rule (rule_arg args) (drop 8 (word args 7)) (drop 9 (word args 8))).
Definition execute (args : list (list Z)) (_ : Z) (w : World) : WindowsCommandResult * World :=
  let bad := bool_decide (args ∈ refused w) in
  (done_result bad,
   if is_add_rule args then mkWorld ({[rule_arg args]} ∪ rules w) (routes w) (refused w) else
   if bool_decide (args = add_route (route_arg args)) then mkWorld (rules w) ({[route_arg args]} ∪ routes w) (refused w) else
   if bad then w else
   if bool_decide (args = delete_rule (rule_arg args)) then mkWorld (rules w ∖ {[rule_arg args]}) (routes w) (refused w) else
   if bool_decide (args = delete_route (route_arg args)) then mkWorld (rules w) (routes w ∖ {[route_arg args]}) (refused w) else w).
#[export] Instance commands : WindowsNetworkCommands World := {
  wc_execute := execute;
  wc_firewallRuleExists n w := (found_result (bool_decide (n ∉ rules w)), w);
  wc_broadcastRouteExists n w := (found_result (bool_decide (n ∉ routes w)), w);
  wc_retryDelay w := w;
  wc_shouldContinue w := (true, w);
  wc_commandTimeout cap w := (cap, w);
  wc_operationStarted _ w := w;
  wc_beginCleanup w := w
}.
#[export] Instance system : WindowsSystem World := {
  rule_present n w := bool_decide (n ∈ rules w);
  route_present n w := bool_decide (n ∈ routes w)
}.
Lemma same_refl (w : World) : same_system w w.
Proof. by split. Qed.
#[export] Instance laws : WindowsSystemLaws World.
Proof.
  split; try (intros; apply same_refl).
  - intros n w. cbn. rewrite !bool_decide_eq_true, bool_decide_eq_false. done.
  - intros n w. cbn. rewrite !bool_decide_eq_true, bool_decide_eq_false. done.
  - done.
  - intros n args t w H1 H2. cbn. unfold execute, is_add_rule. cbn.
    assert (forall l r, args = add_rule (rule_arg args) l r -> n <> rule_arg args) as Ha by (intros l r E ->; by apply (H2 l r)).
    assert (args = delete_rule (rule_arg args) -> n <> rule_arg args) as Hd by (intros E ->; done).
    apply bool_decide_ext. repeat case_bool_decide; cbn; try done; [specialize (Ha _ _ ltac:(done))|specialize (Hd ltac:(done))]; set_solver.
  - intros n args t w H1 H2. cbn. unfold execute, is_add_rule. cbn.
    assert (args = add_route (route_arg args) -> n <> route_arg args) as Ha by (intros E ->; done).
    assert (args = delete_route (route_arg args) -> n <> route_arg args) as Hd by (intros E ->; done).
    apply bool_decide_ext. repeat case_bool_decide; cbn; try done; [specialize (Ha ltac:(done))|specialize (Hd ltac:(done))]; set_solver.
  - intros n t w. cbn. unfold execute. change (rule_arg (delete_rule n)) with n. rewrite !bool_decide_eq_true.
    rewrite (bool_decide_eq_true_2 (delete_rule n = delete_rule n)) by done.
    destruct (bool_decide (delete_rule n ∈ refused w)); cbn; [done|]. set_solver.
  - intros n t w. cbn. unfold execute. change (route_arg (delete_route n)) with n. rewrite !bool_decide_eq_true.
    rewrite (bool_decide_eq_true_2 (delete_route n = delete_route n)) by done.
    destruct (bool_decide (delete_route n ∈ refused w)); cbn; [done|]. set_solver.
  - intros n l r t w _. cbn. unfold execute. replace (is_add_rule (add_rule n l r)) with true by (symmetry; by apply bool_decide_eq_true).
    cbn. apply bool_decide_eq_true. change (rule_arg (add_rule n l r)) with n. set_solver.
  - intros n t w _. cbn. unfold execute. change (route_arg (add_route n)) with n.
    rewrite (bool_decide_eq_true_2 (add_route n = add_route n)) by done. cbn. apply bool_decide_eq_true. set_solver.
Qed.
(** Nothing owned yet, and a system where some commands fail. *)
Definition alias : list Z := wide "VLan".
Definition local_addresses : list Z := wide "10.10.0.2,10.10.0.255,255.255.255.255".
Definition add_rule_demo : list (list Z) := add_rule (rule_of alias) local_addresses (wide "10.10.0.0/24").
Definition start (bad : list (list (list Z))) : Net World :=
  mkNet (mkWorld ∅ ∅ bad) (mkNetworkState alias [] false false) None (Some []).
End Demo.
#[local] Existing Instances Demo.commands Demo.system Demo.laws.

Lemma network_all_or_owned_witness :
  (configureWindowsNetwork (TA := plain_api) 0x0a0a0002 0xffffff00 1280 (Demo.start [])).1 = Some true /\
  (configureWindowsNetwork (TA := plain_api) 0x0a0a0002 0xffffff00 1280
     (Demo.start [Demo.add_rule_demo])).1 = Some false /\
  forall s, s = Demo.start [Demo.add_rule_demo] -> exists b s', configureWindowsNetwork (TA := plain_api) 0x0a0a0002 0xffffff00 1280 s = (Some b, s').
Proof. split_and!; [vm_compute; reflexivity|vm_compute; reflexivity|].
  intros s ->. destruct (proj1 (network_all_or_owned (TA := plain_api) 0x0a0a0002 0xffffff00 1280 (Demo.start [Demo.add_rule_demo]))) as (b & s' & E & _).
  by exists b, s'.
Defined.

(** ** Quoted arguments *)

(** The documented way a Windows program splits its command line: before a
    quotation mark, backslashes stand for half their number, an odd one makes
    the mark a literal one; elsewhere they stand for themselves; a blank
    outside quotation marks ends the argument. *)
Fixpoint read_argument (l : list Z) (slashes : nat) (quoted : bool) (acc : list Z) : list Z * list Z :=
  match l with
  | [] => (acc ++ replicate slashes 92, [])
  | c :: l =>
      if c =? 92 then read_argument l (S slashes) quoted acc else
      if c =? 34 then
        let acc := acc ++ replicate (Nat.div2 slashes) 92 in
        if Nat.even slashes then read_argument l 0 (negb quoted) acc else read_argument l 0 quoted (acc ++ [34])
      else if negb quoted && ((c =? 32) || (c =? 9)) then (acc ++ replicate slashes 92, l)
      else read_argument l 0 quoted (acc ++ replicate slashes 92 ++ [c])
  end.
Fixpoint read_arguments (fuel : nat) (l : list Z) : list (list Z) :=
  match fuel, l with
  | S fuel, c :: l' =>
      if (c =? 32) || (c =? 9) then read_arguments fuel l'
      else let '(a, rest) := read_argument l 0 false [] in a :: read_arguments fuel rest
  | _, _ => []
  end.
(** What [execute] writes after the name of the program. *)
Definition command_tail (arguments : list (list Z)) : list Z :=
  concat (map (fun a => 32 :: quoteWindowsArgument a) arguments).

Lemma read_slashes n l : forall s q acc, read_argument (replicate n 92 ++ l) s q acc = read_argument l (n + s) q acc.
Proof.
  induction n as [|n IH]; intros s q acc; cbn [replicate app read_argument]; [done|].
  cbn [Z.eqb Pos.eqb]. rewrite IH. f_equal. lia.
Qed.
Lemma quote_from_acc a : forall k res, quote_from a k res = res ++ quote_from a k [].
Proof.
  induction a as [|c a IH]; intros k res; cbn [quote_from]; [done|].
  destruct (c =? 92); [apply IH|]. cbv zeta. by rewrite IH, (IH _ ([] ++ _)), <- !app_assoc.
Qed.
Lemma read_quoted a rest : forall k acc,
  read_argument (quote_from a k [] ++ rest) 0 true acc = read_argument rest 0 false (acc ++ replicate k 92 ++ a).
Proof.
  induction a as [|c a IH]; intros k acc; cbn [quote_from].
  { rewrite app_nil_l, <- app_assoc, read_slashes. cbn [app read_argument Z.eqb Pos.eqb negb].
    replace (k * 2 + 0)%nat with (2 * k)%nat by lia. rewrite Nat.div2_double, Nat.even_mul. cbn [Nat.even orb]. by rewrite app_nil_r. }
  destruct (Z.eqb_spec c 92) as [->|Hne].
  { rewrite IH. f_equal. f_equal. replace (S k) with (k + 1)%nat by lia. by rewrite replicate_add, <- app_assoc. }
  cbv zeta. rewrite quote_from_acc, app_nil_l, <- !app_assoc, read_slashes. cbn [app read_argument].
  rewrite (proj2 (Z.eqb_neq c 92)) by done. destruct (Z.eqb_spec c 34) as [->|Hq].
  - replace (k * 2 + 1 + 0)%nat with (S (2 * k)) by lia. rewrite Nat.even_succ, Nat.div2_succ_double, Nat.odd_mul.
    cbn [Nat.odd Nat.even negb andb]. rewrite IH. by rewrite <- !app_assoc.
  - cbn [negb andb]. rewrite IH, Nat.add_0_r. by rewrite <- !app_assoc.
Qed.
Lemma read_quote a rest : read_argument (quoteWindowsArgument a ++ rest) 0 false [] = read_argument rest 0 false a.
Proof. unfold quoteWindowsArgument. rewrite quote_from_acc. cbn -[quote_from]. by rewrite read_quoted. Qed.

(** A program started with quoted arguments is given exactly these
    arguments: splitting what [quoteWindowsArgument] makes of a list of
    arguments, the way Windows programs split their command line, gives the
    list back, whatever blanks, quotation marks and backslashes it holds. *)
Theorem arguments_survive arguments fuel : (length (command_tail arguments) <= fuel)%nat ->
  read_arguments fuel (command_tail arguments) = arguments.
Proof.
  revert fuel. induction arguments as [|a arguments IH]; intros fuel Hf; [by destruct fuel|].
  unfold command_tail in *. cbn [map concat] in *. set (rest := concat _) in *.
  assert (exists t, quoteWindowsArgument a = 34 :: t) as [t Et].
  { unfold quoteWindowsArgument. rewrite quote_from_acc. by eexists. }
  pose proof (read_quote a rest) as Hr. rewrite Et in *. cbn [app length] in Hf |- *. rewrite length_app in Hf.
  destruct fuel as [|fuel]; [lia|]. destruct fuel as [|fuel]; [lia|]. cbn [read_arguments Z.eqb Pos.eqb orb].
  change (34 :: t ++ rest) with ((34 :: t) ++ rest). rewrite Hr. subst rest. destruct arguments as [|b arguments].
  - cbn. rewrite app_nil_r. by destruct fuel.
  - cbn [map concat app]. cbn [read_argument Z.eqb Pos.eqb negb andb orb]. rewrite app_nil_r. f_equal.
    assert (read_arguments (S fuel) (concat (map (fun a => 32 :: quoteWindowsArgument a) (b :: arguments))) = b :: arguments) as E
      by (apply IH; lia).
    cbn [map concat app read_arguments Z.eqb Pos.eqb orb] in E. exact E.
Qed.
Lemma arguments_survive_witness :
  read_arguments 40 (command_tail [wide "a b\"; [34; 92; 34]; []]) = [wide "a b\"; [34; 92; 34]; []].
Proof. apply arguments_survive. vm_compute. lia. Defined.
