(* ===== verification/WinReady.v ===== *)
(** * [common/windows_network_readiness.h]: waiting for the virtual network

    After the virtual adapter is set up, the program samples its state and the
    routes of the system until they are usable, something shows that they
    never will be, or ten seconds have passed.  A sample ([sample] of the
    backend) and the readings of the clock are arguments. *)

From stdpp Require Import pretty.
From S2P Require Import Prelude TunJob WinText WinNet.

(** ** Data *)

Inductive WindowsReadinessState := ReadinessPending | ReadinessReady | ReadinessFailed.
#[export] Instance WindowsReadinessState_eq_dec : EqDecision WindowsReadinessState.
Proof. solve_decision. Defined.
Record WindowsReadinessResult := mkReadinessResult {
  rr_state : WindowsReadinessState;
  rr_error : bytes;
  rr_diagnostic : bytes
}.
Definition WindowsReadinessResult_init : WindowsReadinessResult := mkReadinessResult ReadinessPending [] [].
Record WindowsReadinessConfig := mkReadinessConfig { rf_luid : Z; rf_alias : list Z; rf_ip : Z; rf_mask : Z }.
Record WindowsReadinessRoute := mkRoute {
  wr_error : Z; wr_luid : Z; wr_index : Z; wr_prefix : Z; wr_prefixLength : Z; wr_nextHop : Z; wr_metric : Z
}.
Record WindowsReadinessSelection := mkSelection {
  wsel_destination : Z; wsel_interfaceError : Z; wsel_routeError : Z; wsel_selectedIndex : Z; wsel_source : Z;
  wsel_interfaceMetric : Z; wsel_metricError : Z; wsel_route : WindowsReadinessRoute
}.
Record WindowsReadinessSnapshot := mkSnapshot {
  sn_interfaceError : Z; sn_addressError : Z; sn_ipInterfaceError : Z;
  sn_index : Z; sn_adminStatus : Z; sn_operStatus : Z; sn_mediaState : Z;
  sn_notMediaConnected : bool; sn_paused : bool; sn_ipv4Connected : bool;
  sn_address : Z; sn_prefixLength : Z; sn_dadState : Z; sn_skipAsSource : bool; sn_validLifetime : Z;
  sn_subnet : WindowsReadinessRoute;
  sn_directed : WindowsReadinessRoute;
  sn_limited : WindowsReadinessRoute;
  sn_selections : list WindowsReadinessSelection
}.

Definition windowsReadinessPrefix (mask : Z) : option Z := mask_prefix mask.
Definition network_of (c : WindowsReadinessConfig) : Z := Z.land (rf_ip c) (rf_mask c).
(** [~mask] of 32 bits. *)
Definition not32 (z : Z) : Z := Z.lxor z 0xffffffff.
Definition broadcast_of (c : WindowsReadinessConfig) : Z := Z.lor (rf_ip c) (not32 (rf_mask c)).
Definition windowsReadinessUnicast (c : WindowsReadinessConfig) : Z :=
  let candidate := u32 (network_of c + 2) in
  if candidate =? rf_ip c then u32 (candidate + 1) else candidate.

(** ** Diagnostics *)

Section Ready.
Context {TA : WindowsTextApi}.

Definition flag_text (b : bool) : bytes := dec_text (if b then 1 else 0).
Definition route_text (name : string) (r : WindowsReadinessRoute) : bytes :=
  let t := bytes_of_string in
  t " " ++ t name ++ t "={" ++
  (if negb (wr_error r =? 0) then t "query_error=" ++ windowsReadinessError (wr_error r)
   else t "luid=" ++ dec_text (wr_luid r) ++ t " prefix=" ++ windowsIPv4 (wr_prefix r) ++ t "/" ++ dec_text (wr_prefixLength r) ++
        t " next_hop=" ++ windowsIPv4 (wr_nextHop r) ++ t " route_metric=" ++ dec_text (wr_metric r)) ++ t "}".
Definition selection_text (s : WindowsReadinessSelection) : bytes :=
  let t := bytes_of_string in
  t " selection={destination=" ++ windowsIPv4 (wsel_destination s) ++
  (if negb (wsel_interfaceError s =? 0) then t " interface_query_error=" ++ windowsReadinessError (wsel_interfaceError s)
   else
     t " selected_if=" ++ dec_text (wsel_selectedIndex s) ++
     (if negb (wsel_routeError s =? 0) then t " route_query_error=" ++ windowsReadinessError (wsel_routeError s)
      else t " selected_luid=" ++ dec_text (wr_luid (wsel_route s)) ++ t " source=" ++ windowsIPv4 (wsel_source s) ++
           t " prefix=" ++ windowsIPv4 (wr_prefix (wsel_route s)) ++ t "/" ++ dec_text (wr_prefixLength (wsel_route s)) ++
           t " next_hop=" ++ windowsIPv4 (wr_nextHop (wsel_route s)) ++ t " route_metric=" ++ dec_text (wr_metric (wsel_route s))) ++
     (if negb (wsel_metricError s =? 0) then t " metric_query_error=" ++ dec_text (wsel_metricError s)
      else t " interface_metric=" ++ dec_text (wsel_interfaceMetric s))) ++ t "}".
Definition describeWindowsReadiness (c : WindowsReadinessConfig) (v : WindowsReadinessSnapshot) : bytes :=
  let t := bytes_of_string in
  t "alias=" ++ [34] ++ windowsLogValue (windowsUtf8 (rf_alias c)) ++ [34] ++ t " expected_luid=" ++ dec_text (rf_luid c) ++
  t " expected_ip=" ++ windowsIPv4 (rf_ip c) ++
  (if negb (sn_interfaceError v =? 0) then t " interface_query_error=" ++ windowsReadinessError (sn_interfaceError v)
   else t " if_index=" ++ dec_text (sn_index v) ++ t " admin=" ++ dec_text (sn_adminStatus v) ++
        t " oper=" ++ dec_text (sn_operStatus v) ++ t " media=" ++ dec_text (sn_mediaState v) ++
        t " not_media_connected=" ++ flag_text (sn_notMediaConnected v) ++ t " paused=" ++ flag_text (sn_paused v)) ++
  (if negb (sn_addressError v =? 0) then t " address_query_error=" ++ windowsReadinessError (sn_addressError v)
   else t " address=" ++ windowsIPv4 (sn_address v) ++ t "/" ++ dec_text (sn_prefixLength v) ++
        t " dad=" ++ dec_text (sn_dadState v) ++ t " skip_as_source=" ++ flag_text (sn_skipAsSource v) ++
        t " valid_lifetime=" ++ dec_text (sn_validLifetime v)) ++
  (if negb (sn_ipInterfaceError v =? 0) then t " ipv4_query_error=" ++ windowsReadinessError (sn_ipInterfaceError v)
   else t " ipv4_connected=" ++ flag_text (sn_ipv4Connected v)) ++
  route_text "subnet" (sn_subnet v) ++ route_text "directed_broadcast" (sn_directed v) ++
  route_text "limited_broadcast" (sn_limited v) ++ concat (map selection_text (sn_selections v)).

(** ** What is wrong with a sample

    The stage, the reason, and whether waiting cannot help; [None] when
    nothing is wrong. *)

Definition route_problem (c : WindowsReadinessConfig) (name : string) (target prefixLength : Z)
    (r : WindowsReadinessRoute) : option (string * bytes) :=
  let t := bytes_of_string in
  if negb (wr_error r =? 0) then
    Some ((name ++ "-query-failed")%string,
          t "Cannot query the virtual " ++ t name ++ t ": Windows " ++ windowsReadinessError (wr_error r))
  else if negb (wr_luid r =? rf_luid c) || negb (wr_prefix r =? target) || negb (wr_prefixLength r =? prefixLength) ||
          negb (wr_nextHop r =? 0) then
    Some ((name ++ "-invalid")%string,
          t "The virtual " ++ t name ++ t " is missing or is not on-link on the expected adapter.")
  else None.
Definition selection_problem (c : WindowsReadinessConfig) (s : WindowsReadinessSelection) : option (string * bytes) :=
  let t := bytes_of_string in
  let target := windowsIPv4 (wsel_destination s) in
  if negb (wsel_interfaceError s =? 0) || negb (wsel_routeError s =? 0) then
    Some ("route-selection-query-failed"%string,
          t "Windows route/source query failed for " ++ target ++ t ": " ++
          windowsReadinessError (if negb (wsel_interfaceError s =? 0) then wsel_interfaceError s else wsel_routeError s))
  else if negb (wr_luid (wsel_route s) =? rf_luid c) then
    Some ("route-conflict"%string,
          t "A competing interface wins the route to " ++ target ++ t " (interface " ++ dec_text (wsel_selectedIndex s) ++
          t ", prefix " ++ windowsIPv4 (wr_prefix (wsel_route s)) ++ t "/" ++ dec_text (wr_prefixLength (wsel_route s)) ++
          t "); check overlapping VPN/subnet routes.")
  else if negb (wsel_source s =? rf_ip c) then
    Some ("source-selection-mismatch"%string,
          t "Windows selected source " ++ windowsIPv4 (wsel_source s) ++ t " instead of " ++ windowsIPv4 (rf_ip c) ++
          t " for " ++ target ++ t ".")
  else None.
(** The first problem of a list of checks. *)
Fixpoint first_problem (l : list (option (string * bytes))) : option (string * bytes) :=
  match l with
  | [] => None
  | Some p :: _ => Some p
  | None :: l => first_problem l
  end.
Definition readiness_problem (c : WindowsReadinessConfig) (v : WindowsReadinessSnapshot) : option (string * bytes * bool) :=
  let t := bytes_of_string in
  let prefix := default 0 (windowsReadinessPrefix (rf_mask c)) in
  if (sn_addressError v =? 0) && (sn_dadState v =? 2) then
    Some ("duplicate-address"%string,
          t "Windows detected a duplicate virtual IPv4 address; room startup was cancelled.", true)
  else if (sn_addressError v =? 0) && sn_skipAsSource v then
    Some ("source-address-disabled"%string,
          t "The virtual IPv4 address has SkipAsSource enabled and cannot be used for overlay traffic.", true)
  else if (sn_addressError v =? 0) && (negb (sn_address v =? rf_ip c) || negb (sn_prefixLength v =? prefix)) then
    Some ("address-prefix-mismatch"%string,
          t "The configured virtual IPv4 address or subnet prefix does not match the room.", true)
  else if negb (sn_interfaceError v =? 0) then
    Some ("interface-query-failed"%string,
          t "Cannot query virtual adapter status: Windows " ++ windowsReadinessError (sn_interfaceError v), false)
  else if negb (sn_adminStatus v =? 1) || negb (sn_operStatus v =? 1) || negb (sn_mediaState v =? 1) ||
          sn_notMediaConnected v || sn_paused v then
    Some ("waiting-link"%string, t "Waiting for the virtual adapter link to become ready.", false)
  else if negb (sn_addressError v =? 0) then
    Some ("address-query-failed"%string,
          t "Cannot query the virtual IPv4 address: Windows " ++ windowsReadinessError (sn_addressError v), false)
  else if negb (sn_dadState v =? 4) || (sn_validLifetime v =? 0) then
    Some ("waiting-address"%string,
          t "Waiting for Windows IPv4 duplicate-address detection and source-address readiness.", false)
  else if negb (sn_ipInterfaceError v =? 0) || negb (sn_ipv4Connected v) then
    Some ("waiting-ipv4"%string,
          if negb (sn_ipInterfaceError v =? 0)
          then t "Cannot query the virtual IPv4 interface: Windows " ++ windowsReadinessError (sn_ipInterfaceError v)
          else t "Waiting for the virtual IPv4 interface to become connected.", false)
  else
    match first_problem
      (route_problem c "subnet-route" (network_of c) prefix (sn_subnet v) ::
       route_problem c "directed-broadcast-route" (broadcast_of c) 32 (sn_directed v) ::
       route_problem c "limited-broadcast-route" 0xffffffff 32 (sn_limited v) ::
       map (selection_problem c) (sn_selections v)) with
    | Some (stage, reason) => Some (stage, reason, false)
    | None => None
    end.

(** ** [class WindowsNetworkReadiness] *)

(** [rd_backend]: whether there is one; [rd_log]: the lines given to the
    logger, [None] without one. *)
Record WindowsNetworkReadiness := mkReadiness {
  rd_backend : bool;
  rd_config : WindowsReadinessConfig;
  rd_log : option (list bytes);
  rd_started : Z;
  rd_lastSample : Z;
  rd_sampled : bool;
  rd_active : bool;
  rd_signature : bytes;
  rd_lastDetail : bytes;
  rd_result : WindowsReadinessResult
}.
Definition state_name (s : WindowsReadinessState) : string :=
  match s with ReadinessReady => "ready" | ReadinessFailed => "failed" | ReadinessPending => "pending" end.
(** [publish]; [now] is what [nowMs] says then. *)
Definition rd_publish (now : Z) (state : WindowsReadinessState) (stage : string) (reason detail : bytes)
    (r : WindowsNetworkReadiness) : WindowsNetworkReadiness :=
  let t := bytes_of_string in
  let signature := t (state_name state) ++ t "|" ++ t stage ++ t "|" ++ detail in
  let diagnostic :=
    t "[network-readiness] state=" ++ t (state_name state) ++ t " stage=" ++ t stage ++ t " elapsed_ms=" ++
    dec_text (if rd_backend r then u64 (now - rd_started r) else 0) ++ t " " ++ detail ++
    (if bool_decide (reason = []) then [] else t " reason=" ++ [34] ++ windowsLogValue reason ++ [34]) in
  mkReadiness (rd_backend r) (rd_config r)
    ((fun lines => if bool_decide (signature = rd_signature r) then lines else lines ++ [diagnostic]) <$> rd_log r)
    (rd_started r) (rd_lastSample r) (rd_sampled r) (rd_active r) signature (rd_lastDetail r)
    (mkReadinessResult state (if bool_decide (state = ReadinessFailed) then reason else []) diagnostic).
Definition rd_finish (now : Z) (state : WindowsReadinessState) (stage : string) (reason detail : bytes)
    (r : WindowsNetworkReadiness) : WindowsNetworkReadiness :=
  let r := rd_publish now state stage reason detail r in
  mkReadiness (rd_backend r) (rd_config r) (rd_log r) (rd_started r) (rd_lastSample r) (rd_sampled r) false
    (rd_signature r) (rd_lastDetail r) (rd_result r).
(** What [begin] refuses. *)
Definition config_invalid (c : WindowsReadinessConfig) : bool :=
  (rf_luid c =? 0) || (rf_ip c =? 0) ||
  match windowsReadinessPrefix (rf_mask c) with
  | None => true
  | Some prefix => (29 <? prefix) || (prefix =? 0)
  end ||
  (Z.land (rf_ip c) (not32 (rf_mask c)) =? 0) || (Z.lor (rf_ip c) (rf_mask c) =? 0xffffffff).
Definition rd_begin (backend : bool) (c : WindowsReadinessConfig) (logger : bool) (now now' : Z) : WindowsNetworkReadiness :=
  let r := mkReadiness backend c (if logger then Some [] else None) (if backend then now else 0) 0 false true [] []
             WindowsReadinessResult_init in
  if negb backend || config_invalid c then
    rd_finish now' ReadinessFailed "configuration-invalid"
      (bytes_of_string "Virtual adapter readiness has an invalid identity, IPv4 address or subnet.") [] r
  else r.
(** [poll]: the clock when it is called and when it publishes, and the sample
    the backend would give. *)
Definition rd_poll (now now' : Z) (v : WindowsReadinessSnapshot) (r : WindowsNetworkReadiness) : WindowsNetworkReadiness :=
  if negb (rd_active r) || negb (rd_backend r) then r else
  let elapsed := u64 (now - rd_started r) in
  if rd_sampled r && (u64 (now - rd_lastSample r) <? 100) && (elapsed <? 10000) then r else
  let detail := describeWindowsReadiness (rd_config r) v in
  let problem := readiness_problem (rd_config r) v in
  let r := mkReadiness (rd_backend r) (rd_config r) (rd_log r) (rd_started r) now true (rd_active r) (rd_signature r)
             detail (rd_result r) in
  match problem with
  | None =>
      if 10000 <? elapsed then
        rd_finish now' ReadinessFailed "deadline-expired"
          (bytes_of_string "Virtual adapter readiness was first observed after the startup deadline of 10 seconds.") detail r
      else rd_finish now' ReadinessReady "ready" [] detail r
  | Some (stage, reason, fatal) =>
      let reason := if negb fatal && (10000 <=? elapsed)
                    then bytes_of_string "Virtual adapter did not become ready within 10 seconds. " ++ reason else reason in
      if fatal || (10000 <=? elapsed) then rd_finish now' ReadinessFailed stage reason detail r
      else rd_publish now' ReadinessPending stage reason detail r
  end.
Definition rd_cancel (now' : Z) (r : WindowsNetworkReadiness) : WindowsNetworkReadiness :=
  if rd_active r then
    rd_finish now' ReadinessFailed "cancelled" (bytes_of_string "Virtual adapter startup was cancelled.") (rd_lastDetail r) r
  else r.

(** ** Runs *)

Inductive ReadyStep :=
| StepPoll (now now' : Z) (v : WindowsReadinessSnapshot)
| StepCancel (now' : Z).
Definition ready_step (s : ReadyStep) (r : WindowsNetworkReadiness) : WindowsNetworkReadiness :=
  match s with
  | StepPoll now now' v => rd_poll now now' v r
  | StepCancel now' => rd_cancel now' r
  end.
Definition ready_run (steps : list ReadyStep) (r : WindowsNetworkReadiness) : WindowsNetworkReadiness :=
  fold_left (fun r s => ready_step s r) steps r.
End Ready.
