(* ===== verification/WinReadyFacts.v ===== *)
(** * Facts about waiting for the virtual network

    A wait ends with exactly one verdict: ready when a sample in time showed a
    usable network, failed otherwise, at the latest with the first poll ten
    seconds after its start. *)

From S2P Require Import Prelude TunJob WinText WinNet WinReady.

(** ** A usable network *)

Definition route_ok (c : WindowsReadinessConfig) (target prefixLength : Z) (r : WindowsReadinessRoute) : Prop :=
  wr_error r = 0 /\ wr_luid r = rf_luid c /\ wr_prefix r = target /\ wr_prefixLength r = prefixLength /\ wr_nextHop r = 0.
Definition selection_ok (c : WindowsReadinessConfig) (s : WindowsReadinessSelection) : Prop :=
  wsel_interfaceError s = 0 /\ wsel_routeError s = 0 /\ wr_luid (wsel_route s) = rf_luid c /\ wsel_source s = rf_ip c.
(** The link is up, the address is the one of the room, verified and usable as
    a source, the routes of the subnet and of the two broadcasts are the
    adapter's own, and the system would use adapter and address for every
    probed destination. *)
Definition usable (c : WindowsReadinessConfig) (v : WindowsReadinessSnapshot) : Prop :=
  let prefix := default 0 (windowsReadinessPrefix (rf_mask c)) in
  (sn_interfaceError v = 0 /\ sn_adminStatus v = 1 /\ sn_operStatus v = 1 /\ sn_mediaState v = 1 /\
   sn_notMediaConnected v = false /\ sn_paused v = false) /\
  (sn_addressError v = 0 /\ sn_address v = rf_ip c /\ sn_prefixLength v = prefix /\ sn_dadState v = 4 /\
   sn_skipAsSource v = false /\ sn_validLifetime v <> 0) /\
  (sn_ipInterfaceError v = 0 /\ sn_ipv4Connected v = true) /\
  route_ok c (network_of c) prefix (sn_subnet v) /\ route_ok c (broadcast_of c) 32 (sn_directed v) /\
  route_ok c 0xffffffff 32 (sn_limited v) /\ Forall (selection_ok c) (sn_selections v).
(** The address shows that waiting cannot help. *)
Definition hopeless (c : WindowsReadinessConfig) (v : WindowsReadinessSnapshot) : Prop :=
  sn_addressError v = 0 /\
  (sn_dadState v = 2 \/ sn_skipAsSource v = true \/ sn_address v <> rf_ip c \/
   sn_prefixLength v <> default 0 (windowsReadinessPrefix (rf_mask c))).

Section Facts.
Context {TA : WindowsTextApi}.

Lemma route_problem_none c name target n r : route_problem c name target n r = None <-> route_ok c target n r.
Proof.
  unfold route_problem, route_ok. destruct (Z.eqb_spec (wr_error r) 0); cbn [negb]; [|by split; [|intros [? _]]].
  destruct (negb (wr_luid r =? rf_luid c) || _ || _ || _) eqn:E.
  - split; [done|]. intros (_ & H1 & H2 & H3 & H4). rewrite H1, H2, H3, H4, !Z.eqb_refl in E. done.
  - bools. split; [|done]. intros _. by split_and!.
Qed.
Lemma selection_problem_none c s : selection_problem c s = None <-> selection_ok c s.
Proof.
  unfold selection_problem, selection_ok.
  destruct (Z.eqb_spec (wsel_interfaceError s) 0), (Z.eqb_spec (wsel_routeError s) 0); cbn [negb orb];
    try (split; [done|by intros (? & ? & _)]).
  destruct (Z.eqb_spec (wr_luid (wsel_route s)) (rf_luid c)); cbn [negb]; [|split; [done|by intros (_ & _ & ? & _)]].
  destruct (Z.eqb_spec (wsel_source s) (rf_ip c)); cbn [negb]; [by split|split; [done|by intros (_ & _ & _ & ?)]].
Qed.
Lemma first_problem_none l : first_problem l = None <-> Forall (fun p => p = None) l.
Proof.
  induction l as [|[p|] l IH]; cbn [first_problem]; [by split|split; [done|by inversion 1]|].
  rewrite IH. split; [by constructor|by inversion 1].
Qed.
Ltac next_test := match goal with |- (if ?b then _ else _) = None -> _ => destruct b eqn:?; [done|] end.
(** The tests of [poll], one after another, find nothing wrong exactly when
    the network is usable. *)
Lemma problem_none c v : readiness_problem c v = None <-> usable c v.
Proof.
  unfold readiness_problem. set (checks := _ :: _ :: _ :: _).
  assert (first_problem checks = None <->
    route_ok c (network_of c) (default 0 (windowsReadinessPrefix (rf_mask c))) (sn_subnet v) /\
    route_ok c (broadcast_of c) 32 (sn_directed v) /\ route_ok c 0xffffffff 32 (sn_limited v) /\
    Forall (selection_ok c) (sn_selections v)) as Hc.
  { subst checks. rewrite first_problem_none, !Forall_cons, !route_problem_none, Forall_map.
    do 3 (apply and_iff_compat_l). apply Forall_iff. intros s. apply selection_problem_none. }
  unfold usable. split.
  - cbv zeta. do 8 next_test. destruct (first_problem checks) as [[? ?]|]; [done|]. intros _.
    destruct (proj1 Hc eq_refl) as (R1 & R2 & R3 & R4). bools.
    assert (sn_addressError v = 0) as Ea by done. rewrite Ea in *. cbn [Z.eqb andb] in *. bools. by split_and!.
  - cbv zeta. intros ((E1 & E2 & E3 & E4 & E5 & E6) & (A1 & A2 & A3 & A4 & A5 & A6) & (I1 & I2) & HR).
    apply Hc in HR. rewrite E1, E2, E3, E4, E5, E6, A1, A2, A3, A4, A5, I1, I2, HR, !Z.eqb_refl.
    rewrite (proj2 (Z.eqb_neq _ _) A6). done.
Qed.
Lemma problem_fatal c v stage reason fatal : readiness_problem c v = Some (stage, reason, fatal) ->
  fatal = true <-> hopeless c v.
Proof.
  unfold readiness_problem, hopeless. destruct (Z.eqb_spec (sn_addressError v) 0) as [Ea|Ea]; cbn [andb negb].
  - destruct (Z.eqb_spec (sn_dadState v) 2); [intros E; injection E as <- <- <-; split; [auto|done]|].
    destruct (sn_skipAsSource v); [intros E; injection E as <- <- <-; split; [auto 6|done]|].
    destruct (Z.eqb_spec (sn_address v) (rf_ip c)); cbn [negb orb]; [|intros E; injection E as <- <- <-; split; [auto 6|done]].
    destruct (Z.eqb_spec (sn_prefixLength v) (default 0 (windowsReadinessPrefix (rf_mask c)))); cbn [negb];
      [|intros E; injection E as <- <- <-; split; [auto 6|done]].
    intros E. assert (fatal = false) as -> by (repeat case_match; by simplify_eq). split; [done|].
    intros (_ & [?|[?|[?|?]]]); done.
  - intros E. assert (fatal = false) as -> by (repeat case_match; by simplify_eq). split; [done|]. by intros [? _].
Qed.

(** ** One wait *)

(** The wait for [c] that began at [t0]: it is over exactly when its result is
    a verdict. *)
Record waiting (c : WindowsReadinessConfig) (t0 : Z) (r : WindowsNetworkReadiness) : Prop := {
  wt_backend : rd_backend r = true;
  wt_config : rd_config r = c;
  wt_started : rd_started r = t0;
  wt_active : rd_active r = true <-> rr_state (rd_result r) = ReadinessPending
}.
Definition in_time (t0 now : Z) : Prop := t0 <= now < 18446744073709551616.
Definition step_in_time (t0 : Z) (s : ReadyStep) : Prop :=
  match s with StepPoll now _ _ => in_time t0 now | StepCancel _ => True end.

Lemma elapsed_exact t0 now : 0 <= t0 -> in_time t0 now -> u64 (now - t0) = now - t0.
Proof. unfold in_time. intros. apply Z.mod_small. lia. Qed.
Lemma over_stays c t0 r s : waiting c t0 r -> rr_state (rd_result r) <> ReadinessPending -> ready_step s r = r.
Proof.
  intros [Hb _ _ Ha] Hn. assert (rd_active r = false) as E.
  { apply not_true_is_false. intros E. by apply Hn, Ha. }
  destruct s; cbn [ready_step]; unfold rd_poll, rd_cancel; by rewrite E.
Qed.
(** A poll that samples, by what the sample shows. *)
Lemma poll_verdict c t0 r now now' v : 0 <= t0 -> waiting c t0 r -> in_time t0 now ->
  rr_state (rd_result r) = ReadinessPending ->
  rd_sampled r && (u64 (now - rd_lastSample r) <? 100) && (now - t0 <? 10000) = false ->
  let r' := rd_poll now now' v r in
  waiting c t0 r' /\ rd_sampled r' = true /\ rd_lastSample r' = now /\
  (usable c v -> rr_state (rd_result r') = if now - t0 <=? 10000 then ReadinessReady else ReadinessFailed) /\
  (hopeless c v -> rr_state (rd_result r') = ReadinessFailed) /\
  (~ usable c v -> ~ hopeless c v -> rr_state (rd_result r') = if now - t0 <? 10000 then ReadinessPending else ReadinessFailed).
Proof.
  intros H0 [Hb Hc Hs Ha] Ht Hp Hskip. apply Ha in Hp as Hact. unfold rd_poll. rewrite Hact, Hb, Hs, Hc, (elapsed_exact t0 now) by done. cbn [negb orb].
  rewrite Hskip. pose proof (problem_none c v) as Hn. pose proof (problem_fatal c v) as Hf.
  destruct (readiness_problem c v) as [[[stage reason] fatal]|] eqn:Ep.
  - assert (~ usable c v) as Hu by (intros Hu; by apply Hn in Hu). specialize (Hf _ _ _ eq_refl).
    destruct fatal; cbn [negb andb orb].
    + cbn. split; [split; cbn; try done; by rewrite Hb|]. split_and!; [done..|naive_solver].
    + assert (~ hopeless c v) as Hh by (intros Hh; by apply Hf in Hh).
      destruct (Z.leb_spec 10000 (now - t0)), (Z.ltb_spec (now - t0) 10000); try lia; cbn;
        (split; [split; cbn; try done; by rewrite ?Hb, ?Hact|]); split_and!; done.
  - assert (usable c v) as Hu by (by apply Hn).
    assert (~ hopeless c v) as Hh.
    { intros (_ & [Hd|[Hd|[Hd|Hd]]]); destruct Hu as (_ & (_ & A2 & A3 & A4 & A5 & _) & _); congruence. }
    destruct (Z.ltb_spec 10000 (now - t0)), (Z.leb_spec (now - t0) 10000); try lia; cbn;
      (split; [split; cbn; try done; by rewrite Hb|]); split_and!; try done; naive_solver.
Qed.
Lemma step_waiting c t0 r s : 0 <= t0 -> waiting c t0 r -> step_in_time t0 s -> waiting c t0 (ready_step s r).
Proof.
  intros H0 Hw Ht. destruct (decide (rr_state (rd_result r) = ReadinessPending)) as [Hp|Hp]; [|by rewrite (over_stays c t0)].
  destruct s as [now now' v|now']; cbn [ready_step step_in_time] in *.
  - destruct (rd_sampled r && (u64 (now - rd_lastSample r) <? 100) && (now - t0 <? 10000)) eqn:E.
    + destruct Hw as [Hb Hc Hs Ha]. unfold rd_poll. rewrite (proj2 Ha Hp), Hb, Hs, (elapsed_exact t0 now), E by done. by split.
    + by apply poll_verdict.
  - destruct Hw as [Hb Hc Hs Ha]. unfold rd_cancel. rewrite (proj2 Ha Hp). cbn. split; cbn; done.
Qed.
Lemma begin_waiting c logger t0 t0' : config_invalid c = false -> waiting c t0 (rd_begin true c logger t0 t0').
Proof. intros Hc. unfold rd_begin. rewrite Hc. by split. Qed.

Section Run.
Context (c : WindowsReadinessConfig) (t0 : Z) (Ht0 : 0 <= t0).

Lemma run_waiting steps : forall r, waiting c t0 r -> Forall (step_in_time t0) steps -> waiting c t0 (ready_run steps r).
Proof.
  induction steps as [|s steps IH]; intros r Hw Hs; [done|]. inversion Hs; subst. apply IH; [by apply step_waiting|done].
Qed.
Lemma run_over steps : forall r, waiting c t0 r -> rr_state (rd_result r) <> ReadinessPending -> ready_run steps r = r.
Proof.
  induction steps as [|s steps IH]; intros r Hw Hp; [done|]. cbn. rewrite (over_stays c t0) by done. by apply IH.
Qed.
(** Ready only by a sample in time; never pending after a late poll. *)
Lemma run_ready steps : forall r, waiting c t0 r -> rr_state (rd_result r) <> ReadinessReady -> Forall (step_in_time t0) steps ->
  rr_state (rd_result (ready_run steps r)) = ReadinessReady ->
  exists now now' v, StepPoll now now' v ∈ steps /\ now - t0 <= 10000 /\ usable c v.
Proof.
  induction steps as [|s steps IH]; intros r Hw Hr Hs Hend; [done|]. inversion Hs as [|? ? Hs1 Hs2]; subst. cbn in Hend.
  destruct (decide (rr_state (rd_result (ready_step s r)) = ReadinessReady)) as [Hnow|Hnow].
  - destruct (decide (rr_state (rd_result r) = ReadinessPending)) as [Hp|Hp]; [|rewrite (over_stays c t0) in Hnow by done; done].
    destruct s as [now now' v|now']; cbn [ready_step step_in_time] in *.
    + exists now, now', v. split; [apply list_elem_of_here|].
      destruct (rd_sampled r && (u64 (now - rd_lastSample r) <? 100) && (now - t0 <? 10000)) eqn:E.
      { destruct Hw as [Hb Hc Hst Ha]. unfold rd_poll in Hnow. rewrite (proj2 Ha Hp), Hb, Hst, (elapsed_exact t0 now), E in Hnow by done. done. }
      destruct (poll_verdict c t0 r now now' v Ht0 Hw Hs1 Hp E) as (_ & _ & _ & V1 & V2 & V3).
      destruct (readiness_problem c v) as [[[stage reason] fatal]|] eqn:Ep.
      * exfalso. assert (~ usable c v) as Hu by (intros Hu; by apply problem_none in Hu; rewrite Hu in Ep).
        destruct fatal.
        -- specialize (V2 (proj1 (problem_fatal _ _ _ _ _ Ep) eq_refl)). congruence.
        -- assert (~ hopeless c v) as Hh by (intros Hh; by apply (problem_fatal _ _ _ _ _ Ep) in Hh).
           specialize (V3 Hu Hh). rewrite Hnow in V3. by destruct (now - t0 <? 10000).
      * apply problem_none in Ep. specialize (V1 Ep). rewrite Hnow in V1. destruct (Z.leb_spec (now - t0) 10000); [|done]. done.
    + exfalso. unfold rd_cancel in Hnow. destruct Hw as [_ _ _ Ha]. rewrite (proj2 Ha Hp) in Hnow. done.
  - destruct (IH (ready_step s r)) as (now & now' & v & Hin & H); [by apply step_waiting|done..|].
    exists now, now', v. split; [by apply list_elem_of_further|done].
Qed.
Lemma run_late steps now now' v : forall r, waiting c t0 r -> Forall (step_in_time t0) steps ->
  StepPoll now now' v ∈ steps -> 10000 <= now - t0 -> rr_state (rd_result (ready_run steps r)) <> ReadinessPending.
Proof.
  induction steps as [|s steps IH]; intros r Hw Hs Hin Hl; [by apply not_elem_of_nil in Hin|]. inversion Hs as [|? ? Hs1 Hs2]; subst.
  cbn. pose proof (step_waiting c t0 r s Ht0 Hw Hs1) as Hw'. apply elem_of_cons in Hin as [<-|Hin]; [|by apply IH].
  enough (rr_state (rd_result (ready_step (StepPoll now now' v) r)) <> ReadinessPending) as Hn by (fold (ready_run steps (ready_step (StepPoll now now' v) r)); by rewrite run_over).
  destruct (decide (rr_state (rd_result r) = ReadinessPending)) as [Hp|Hp]; [|by rewrite (over_stays c t0)]. cbn [ready_step step_in_time] in *.
  destruct (poll_verdict c t0 r now now' v Ht0 Hw Hs1 Hp) as (_ & _ & _ & V1 & V2 & V3).
  { rewrite (proj2 (Z.ltb_ge (now - t0) 10000)) by lia. apply andb_false_r. }
  rewrite (proj2 (Z.ltb_ge (now - t0) 10000)) in V3 by lia.
  destruct (readiness_problem c v) as [[[stage reason] fatal]|] eqn:Ep.
  - assert (~ usable c v) as Hu by (intros Hu; by apply problem_none in Hu; rewrite Hu in Ep). destruct fatal.
    + by rewrite (V2 (proj1 (problem_fatal _ _ _ _ _ Ep) eq_refl)).
    + rewrite V3; [done|done|]. intros Hh. by apply (problem_fatal _ _ _ _ _ Ep) in Hh.
  - apply problem_none in Ep. rewrite (V1 Ep). by destruct (_ <=? _).
Qed.
End Run.

(** C39: A wait for the network ends in time and with the right verdict.  In
    any sequence of polls and cancellations after [begin] with a valid
    configuration: the verdict is "ready" only if a poll within ten seconds
    saw a usable network; after a poll at ten seconds or later there is a
    verdict; a verdict never changes; and while there is none, a poll that is
    due gives one or waits on, exactly as its sample and the time say. *)
Theorem readiness_verdict c logger t0 t0' steps :
  0 <= t0 -> config_invalid c = false -> Forall (step_in_time t0) steps ->
  let r := ready_run steps (rd_begin true c logger t0 t0') in
  (rr_state (rd_result r) = ReadinessReady ->
     exists now now' v, StepPoll now now' v ∈ steps /\ now - t0 <= 10000 /\ usable c v) /\
  (forall now now' v, StepPoll now now' v ∈ steps -> 10000 <= now - t0 -> rr_state (rd_result r) <> ReadinessPending) /\
  (rr_state (rd_result r) <> ReadinessPending -> forall more, ready_run more r = r) /\
  (rr_state (rd_result r) = ReadinessPending -> forall now now' v, in_time t0 now ->
     (rd_sampled r = false \/ 100 <= u64 (now - rd_lastSample r) \/ 10000 <= now - t0) ->
     let verdict := rr_state (rd_result (rd_poll now now' v r)) in
     (usable c v -> verdict = if now - t0 <=? 10000 then ReadinessReady else ReadinessFailed) /\
     (hopeless c v -> verdict = ReadinessFailed) /\
     (~ usable c v -> ~ hopeless c v -> verdict = if now - t0 <? 10000 then ReadinessPending else ReadinessFailed)).
Proof.
  intros H0 Hc Hs r. pose proof (begin_waiting c logger t0 t0' Hc) as Hb.
  pose proof (run_waiting c t0 H0 steps _ Hb Hs) as Hw. fold r in Hw. split_and!.
  - apply (run_ready c t0 H0); [done| |done]. unfold rd_begin. by rewrite Hc.
  - intros now now' v. by apply (run_late c t0 H0).
  - intros Hn more. by apply (run_over c t0).
  - intros Hp now now' v Ht Hdue. destruct (poll_verdict c t0 r now now' v H0 Hw Ht Hp) as (_ & _ & _ & V); [|exact V].
    destruct Hdue as [->|[Hd|Hd]]; [done| |].
    + rewrite (proj2 (Z.ltb_ge (u64 _) 100)) by lia. by rewrite andb_false_r.
    + rewrite (proj2 (Z.ltb_ge (now - t0) 10000)) by lia. apply andb_false_r.
Qed.
End Facts.

(** A sample of a working adapter, and a run that sees it. *)
Definition demo_config : WindowsReadinessConfig := mkReadinessConfig 7 [] 0x0a0a0002 0xffffff00.
Definition demo_route (prefix n : Z) : WindowsReadinessRoute := mkRoute 0 7 3 prefix n 0 1.
Definition demo_sample (dad : Z) : WindowsReadinessSnapshot :=
  mkSnapshot 0 0 0 3 1 1 1 false false true 0x0a0a0002 24 dad false 86400
    (demo_route 0x0a0a0000 24) (demo_route 0x0a0a00ff 32) (demo_route 0xffffffff 32)
    (map (fun d => mkSelection d 0 0 3 0x0a0a0002 1 0 (demo_route d 32)) [0x0a0a0003; 0x0a0a00ff; 0xffffffff]).
#[local] Instance no_text : WindowsTextApi := {
  MultiByteToWideChar _ _ := None; wide_to_utf8 _ := []; FormatMessageW _ := None; GetOEMCP := 437; GetACP := 1252
}.
Lemma readiness_verdict_witness :
  rr_state (rd_result (ready_run [StepPoll 1000 1001 (demo_sample 1); StepPoll 1100 1101 (demo_sample 4)]
    (rd_begin true demo_config true 900 900))) = ReadinessReady /\
  rr_state (rd_result (ready_run [StepPoll 1000 1001 (demo_sample 1); StepPoll 10900 10901 (demo_sample 1)]
    (rd_begin true demo_config true 900 900))) <> ReadinessPending.
Proof.
  split; [vm_compute; reflexivity|].
  assert (Forall (step_in_time 900) [StepPoll 1000 1001 (demo_sample 1); StepPoll 10900 10901 (demo_sample 1)]) as Hs
    by (repeat constructor; cbn; lia).
  destruct (readiness_verdict demo_config true 900 900 _ ltac:(lia) ltac:(vm_compute; reflexivity) Hs) as (_ & Hl & _).
  apply (Hl 10900 10901 (demo_sample 1)); [apply list_elem_of_further, list_elem_of_here|lia].
Defined.

(** ** The probed host *)

Lemma bit_set mask b : 0 <= b -> negb (Z.land mask (Z.shiftl 1 b) =? 0) = Z.testbit mask b.
Proof.
  intros Hb. rewrite Z.shiftl_1_l. destruct (Z.testbit mask b) eqn:E.
  - apply negb_true_iff, Z.eqb_neq. intros E0. assert (Z.testbit (Z.land mask (2 ^ b)) b = true) as Ht.
    { by rewrite Z.land_spec, E, Z.pow2_bits_true. }
    by rewrite E0, Z.bits_0 in Ht.
  - apply negb_false_iff, Z.eqb_eq. apply Z.bits_inj'. intros i Hi. rewrite Z.land_spec, Z.bits_0.
    destruct (decide (i = b)) as [->|Hn]; [by rewrite E|]. by rewrite (Z.pow2_bits_false b i), andb_false_r.
Qed.
(** The scan from the highest bit down finds ones, then only zeros. *)
Lemma mask_bits_spec mask n : forall prefix zeroSeen p, mask_bits mask (rev (seqZ 0 (Z.of_nat n))) prefix zeroSeen = Some p ->
  exists k, 0 <= k <= Z.of_nat n /\ p = prefix + (Z.of_nat n - k) /\ (zeroSeen = true -> k = Z.of_nat n) /\
    forall i, 0 <= i < Z.of_nat n -> Z.testbit mask i = (k <=? i).
Proof.
  induction n as [|n IH]; intros prefix zeroSeen p.
  { cbn. intros E. injection E as <-. exists 0. split_and!; [lia|lia|lia|done|lia]. }
  rewrite Nat2Z.inj_succ. replace (Z.succ (Z.of_nat n)) with (Z.of_nat n + 1) by lia. rewrite seqZ_app by lia.
  rewrite rev_app_distr. change (seqZ (0 + Z.of_nat n) 1) with [0 + Z.of_nat n]. cbn [rev app mask_bits].
  rewrite Z.add_0_l, bit_set by lia. destruct (Z.testbit mask (Z.of_nat n)) eqn:Eb.
  - destruct zeroSeen; [done|]. intros E. destruct (IH _ _ _ E) as (k & Hk & -> & _ & Hi). exists k.
    split_and!; [lia|lia|lia|done|]. intros i Hi'. destruct (decide (i = Z.of_nat n)) as [->|]; [|apply Hi; lia].
    rewrite Eb. symmetry. apply Z.leb_le. lia.
  - intros E. destruct (IH _ _ _ E) as (k & Hk & -> & Hz & Hi). specialize (Hz eq_refl) as ->. exists (Z.of_nat n + 1).
    split_and!; [lia|lia|lia|done|]. intros i Hi'. destruct (decide (i = Z.of_nat n)) as [->|].
    + rewrite Eb. symmetry. apply Z.leb_gt. lia.
    + rewrite Hi by lia. transitivity false; [apply Z.leb_gt; lia|symmetry; apply Z.leb_gt; lia].
Qed.
Lemma network_part ip mask p : 0 <= ip < 4294967296 -> windowsReadinessPrefix mask = Some p ->
  0 <= p <= 32 /\ Z.land ip mask = ip / 2 ^ (32 - p) * 2 ^ (32 - p).
Proof.
  intros Hip Hp. destruct (mask_bits_spec mask 32 0 false p Hp) as (k & Hk & -> & _ & Hi).
  replace (32 - (0 + (Z.of_nat 32 - k))) with k by lia. split; [lia|].
  rewrite <- Z.shiftr_div_pow2, <- Z.shiftl_mul_pow2 by lia. apply Z.bits_inj'. intros i H0. rewrite Z.land_spec.
  destruct (decide (i < 32)).
  - rewrite Hi by lia. destruct (Z.leb_spec k i).
    + rewrite Z.shiftl_spec, Z.shiftr_spec by lia. rewrite andb_true_r. f_equal. lia.
    + by rewrite Z.shiftl_spec_low, andb_false_r by lia.
  - assert (Z.testbit ip i = false) as E.
    { destruct (decide (ip = 0)) as [->|]; [apply Z.bits_0|]. apply Z.bits_above_log2; [lia|].
      apply Z.log2_lt_pow2; [lia|]. apply Z.lt_le_trans with (2 ^ 32); [lia|]. apply Z.pow_le_mono_r; lia. }
    rewrite E. cbn [andb]. rewrite Z.shiftl_spec, Z.shiftr_spec by lia. by replace (i - k + k) with i by lia.
Qed.
(** The host probed for a route is one the adapter could talk to: for a
    configuration that [begin] accepts, it lies in the subnet of the room, is
    another host than this one, and is neither the address of the network nor
    its broadcast address. *)
Theorem probe_target_usable c : config_invalid c = false -> 0 <= rf_ip c < 4294967296 ->
  exists size, windowsReadinessPrefix (rf_mask c) = Some (32 - Z.log2 size) /\ 8 <= size /\
    let target := windowsReadinessUnicast c in
    target / size = rf_ip c / size /\ 0 < target mod size < size - 1 /\ target <> rf_ip c /\ 0 <= target < 4294967296.
Proof.
  intros Hc Hip. unfold config_invalid in Hc. bools.
  destruct (windowsReadinessPrefix (rf_mask c)) as [p|] eqn:Ep; [|done]. bools.
  destruct (network_part (rf_ip c) (rf_mask c) p Hip Ep) as [Hp En]. exists (2 ^ (32 - p)).
  assert (8 <= 2 ^ (32 - p)) as H8 by (change 8 with (2 ^ 3); apply Z.pow_le_mono_r; lia).
  rewrite Z.log2_pow2 by lia. split; [f_equal; lia|]. split; [done|].
  unfold windowsReadinessUnicast, network_of. rewrite En. set (size := 2 ^ (32 - p)) in *.
  assert (4294967296 = size * 2 ^ p) as Ew.
  { subst size. rewrite <- Z.pow_add_r by lia. replace (32 - p + p) with 32 by lia. done. }
  pose proof (Z.div_mod (rf_ip c) size ltac:(lia)) as Hdm. pose proof (Z.mod_pos_bound (rf_ip c) size ltac:(lia)) as Hm.
  set (q := rf_ip c / size) in *. assert (0 <= q) as Hq by (apply Z.div_pos; lia).
  assert (0 < 2 ^ p) by (apply Z.pow_pos_nonneg; lia).
  assert (q < 2 ^ p) as Hqp by (apply Z.div_lt_upper_bound; lia). assert (q * size + size <= 4294967296) as Hb by nia.
  unfold u32. rewrite (Z.mod_small (q * size + 2)) by nia.
  assert (forall d, 0 < d < size - 1 -> (q * size + d) / size = q /\ 0 < (q * size + d) mod size < size - 1) as Hd.
  { intros d Hd. rewrite (Z.div_add_l q size d), (Z.div_small d size), Z.add_0_r by lia.
    rewrite (Z.add_comm (q * size) d), Z.mod_add, (Z.mod_small d size) by lia. lia. }
  cbv zeta. destruct (Z.eqb_spec (q * size + 2) (rf_ip c)) as [E|E].
  - replace (q * size + 2 + 1) with (q * size + 3) by lia. rewrite (Z.mod_small (q * size + 3)) by nia.
    destruct (Hd 3) as [-> ?]; [lia|]. split_and!; [done|lia|lia|lia|nia|nia].
  - destruct (Hd 2) as [-> ?]; [lia|]. split_and!; [done|lia|lia|done|nia|nia].
Qed.
Lemma probe_target_usable_witness :
  windowsReadinessUnicast demo_config = 0x0a0a0003 /\ windowsReadinessUnicast demo_config <> rf_ip demo_config.
Proof.
  split; [vm_compute; reflexivity|].
  destruct (probe_target_usable demo_config ltac:(vm_compute; reflexivity) ltac:(cbn; lia)) as (size & _ & _ & _ & _ & Hn & _). exact Hn.
Defined.
