(* ===== verification/GuiTunnel.v ===== *)
(** * [client/src/core/fec_codec.cpp] and [raw_udp_tunnel.cpp]

    The error correction and the raw UDP tunnel of the graphical client.  They
    hand each packet to a callback in the middle of their loops: the programs
    here do the same, [m_output] being a program over the state the codec is
    part of.  The members are those of the command-line client ([FecEncoder],
    the store of [FecGroup]s, [RawUdpTunnel]); a tunnel comes with the datagrams
    it has sent and the packets it has delivered. *)

From S2P Require Import Prelude Protocol Room Store Fec RawUdp.

(** ** [class FecEncoder] *)

Section Encoder.
Context `{CM256} {S : Type} (get : S -> FecEncoder) (put : FecEncoder -> S -> S) (m_output : bytes -> SE S unit).

Definition with_encoder (f : FecEncoder -> FecEncoder) : SE S unit := modify (fun s => put (f (get s)) s).
(** [m_groupId++]. *)
Definition qt_takeGroup : SE S Z :=
  e <- gets get ;;
  with_encoder (fun e => mkEncoder (fe_mode e) (u8 (fe_groupId e + 1)) (fe_maxBlockSize e) (fe_bufferStartTime e) (fe_buffer e)) ;;;
  ret (fe_groupId e).
Definition qt_clear : SE S unit :=
  with_encoder (fun e => mkEncoder (fe_mode e) (fe_groupId e) 0 (fe_bufferStartTime e) []).
(** The data packets of a group, under the total count given. *)
Definition qt_emit_data (gid N total : Z) (padded : list bytes) : SE S unit :=
  for_each (imap pair padded) (fun x => m_output (fec_header gid (u8 (Z.of_nat x.1)) (u8 N) total ++ x.2)).
Definition qt_flush : SE S unit :=
  e <- gets get ;;
  if bool_decide (fe_buffer e = []) then ret tt else
  let N := len (fe_buffer e) in
  let M := fecParityCount (fe_mode e) N in
  let M := if M <=? 0 then 1 else M in
  let blockBytes := 2 + fe_maxBlockSize e in
  let padded := map (fec_pad blockBytes) (fe_buffer e) in
  let '(encResult, recoveryData) := cm256_encode N M blockBytes padded in
  if negb (encResult =? 0) then
    gid <- qt_takeGroup ;; qt_emit_data gid N (u8 N) padded ;;; qt_clear
  else
    gid <- qt_takeGroup ;;
    qt_emit_data gid N (u8 (N + M)) padded ;;;
    for_each (seqZ 0 M) (fun i => m_output (fec_header gid (u8 (N + i)) (u8 N) (u8 (N + M)) ++
                                            slice (i * blockBytes) blockBytes recoveryData)) ;;;
    qt_clear.
Definition qt_enc_addPacket (now : Z) (payload : bytes) : SE S unit :=
  e <- gets get ;;
  when (bool_decide (fe_buffer e = []))
    (with_encoder (fun e => mkEncoder (fe_mode e) (fe_groupId e) (fe_maxBlockSize e) now (fe_buffer e))) ;;;
  with_encoder (fun e => mkEncoder (fe_mode e) (fe_groupId e) (fe_maxBlockSize e) (fe_bufferStartTime e) (fe_buffer e ++ [payload])) ;;;
  when (fe_maxBlockSize e <? len payload)
    (with_encoder (fun e => mkEncoder (fe_mode e) (fe_groupId e) (len payload) (fe_bufferStartTime e) (fe_buffer e))) ;;;
  e <- gets get ;;
  when (FEC_GROUP_SIZE <=? len (fe_buffer e)) qt_flush.
Definition qt_enc_update : SE S unit :=
  e <- gets get ;; when (negb (bool_decide (fe_buffer e = []))) qt_flush.
End Encoder.

(** ** [class FecDecoder] *)

Section Decoder.
Context `{CM256} {S : Type} (get : S -> FecDecoder) (put : FecDecoder -> S -> S) (m_output : bytes -> SE S unit).

Definition with_decoder (f : FecDecoder -> FecDecoder) : SE S unit := modify (fun s => put (f (get s)) s).
(** [m_groups.find(gid)]. *)
Definition qt_group (gid : Z) : SE S (option FecGroup) := gets (fun s => st_map (get s) !! gid).
Definition with_group (gid : Z) (f : FecGroup -> FecGroup) : SE S unit :=
  with_decoder (fun d => match st_map d !! gid with Some g => store_set gid (f g) d | None => d end).
Definition qt_removeGroup (gid : Z) : SE S unit := with_decoder (removeGroup gid).
Definition qt_ensureCapacity (incoming : Z) (newGroup : bool) : SE S bool :=
  d <- gets get ;;
  let '(ok, d) := ensureCapacity incoming newGroup d in
  modify (put d) ;;; ret ok.
(** The payload of a block of [size] octets, if its length fits. *)
Definition qt_emit_payload (size : Z) (block : bytes) : SE S unit :=
  let payloadLen := Z.lor (Z.shiftl (byte_at block 0) 8) (byte_at block 1) in
  when ((0 <? payloadLen) && (2 + payloadLen <=? size)) (m_output (slice 2 payloadLen block)).
Definition qt_emitOriginalBlock (block : bytes) : SE S unit :=
  when (negb (len block <? 2)) (qt_emit_payload (len block) block).
Definition qt_tryDecode (gid : Z) : SE S unit :=
  found <- qt_group gid ;;
  match found with
  | None => ret tt
  | Some g =>
      if g_decoded g then ret tt else
      let N := g_dataCount g in
      let blockBytes := g_blockBytes g in
      if N <=? Z.of_nat (size (g_emitted g)) then with_group gid (set_g_decoded true) else
      let M := g_totalCount g - N in
      let blocks := map (fun kb => (kb.1, pad_to blockBytes kb.2)) (take (Z.to_nat N) (map_ordered (g_blocks g))) in
      if len blocks <? N then ret tt else
      let '(decResult, blocks) := cm256_decode N M blockBytes blocks in
      if negb (decResult =? 0) then with_group gid (set_g_decoded true) else
      let origMap := fold_left (fun m kb => <[kb.1 := kb.2]> m) blocks (∅ : gmap Z bytes) in
      for_each (seqZ 0 N) (fun i =>
        if decide (i ∈ g_emitted g) then ret tt else
        match origMap !! i with
        | None => ret tt
        | Some blk => qt_emit_payload blockBytes blk
        end) ;;;
      with_group gid (set_g_decoded true)
  end.
(** A block of a group is kept, and an original given out at once. *)
Definition qt_store_block (gid idx N : Z) (block : bytes) : SE S unit :=
  with_group gid (fun g => mkGroup (g_dataCount g) (g_totalCount g) (g_blockBytes g) (g_createTime g)
                             (g_decoded g) (<[idx := block]> (g_blocks g)) (g_emitted g)) ;;;
  with_decoder (fun d => mkStore (st_map d) (st_bytes d + len block)) ;;;
  when (idx <? N) (
    qt_emitOriginalBlock block ;;;
    with_group gid (fun g => mkGroup (g_dataCount g) (g_totalCount g) (g_blockBytes g) (g_createTime g)
                               (g_decoded g) (g_blocks g) ({[idx]} ∪ g_emitted g))).
(** [addPacket] up to a group for the packet: whether there is one. *)
Definition qt_find_group (now gid N total blockLen : Z) : SE S bool :=
  found <- qt_group gid ;;
  match found with
  | Some g =>
      if negb (g_dataCount g =? N) || negb (g_totalCount g =? total) || negb (g_blockBytes g =? blockLen)
      then qt_removeGroup gid ;;; ret false else ret true
  | None =>
      ok <- qt_ensureCapacity blockLen true ;;
      if negb ok then ret false else
      with_decoder (store_set gid (mkGroup N total blockLen now false ∅ ∅)) ;;; ret true
  end.
(** ... up to the block being kept: whether to go on. *)
Definition qt_keep_block (gid idx N : Z) (block : bytes) (g : FecGroup) : SE S bool :=
  match g_blocks g !! idx with
  | Some _ => ret true
  | None =>
      ok <- qt_ensureCapacity (len block) false ;;
      if negb ok then ret false else
      found <- qt_group gid ;;
      match found with
      | None => ret false
      | Some _ => qt_store_block gid idx N block ;;; ret true
      end
  end.
(** ... and from there to the end. *)
Definition qt_add_block (gid idx N : Z) (block : bytes) : SE S unit :=
  found <- qt_group gid ;;
  match found with
  | None => ret tt
  | Some g =>
      if g_decoded g then ret tt else
      go <- qt_keep_block gid idx N block g ;;
      if negb go then ret tt else
      found <- qt_group gid ;;
      match found with
      | None => ret tt
      | Some g => when (g_dataCount g <=? Z.of_nat (size (g_blocks g))) (qt_tryDecode gid)
      end
  end.
Definition qt_dec_addPacket (now : Z) (data : bytes) : SE S unit :=
  if len data <? sizeof_FecHeader then ret tt else
  let gid := byte_at data 0 in
  let idx := byte_at data 1 in
  let N := byte_at data 2 in
  let total := byte_at data 3 in
  if (N <? 1) || (10 <? N) || (total <? N) || (3 * N <? total) || (total <=? idx) then ret tt else
  let block := drop (Z.to_nat sizeof_FecHeader) data in
  let blockLen := len data - sizeof_FecHeader in
  if blockLen <=? 0 then ret tt else
  go <- qt_find_group now gid N total blockLen ;;
  if negb go then ret tt else qt_add_block gid idx N block.
Definition qt_cleanup (nowMs : Z) : SE S unit :=
  with_decoder (store_expire group_size g_createTime GROUP_TIMEOUT_MS nowMs).
End Decoder.

(** ** [class RawUdpTunnel] *)

Record QtTunnel := mkQt { qt_tunnel : RawUdpTunnel; qt_out : list TunnelOut }.

Section Tunnel.
Context `{CM256}.

Definition in_qt (f : RawUdpTunnel -> RawUdpTunnel) : SE QtTunnel unit :=
  modify (fun q => mkQt (f (qt_tunnel q)) (qt_out q)).
Definition qt_emit (o : TunnelOut) : SE QtTunnel unit := modify (fun q => mkQt (qt_tunnel q) (qt_out q ++ [o])).
(** [m_fecEncoder] and [m_fecDecoder], where they exist. *)
Definition qt_encoder (q : QtTunnel) : FecEncoder :=
  match ru_fecEncoder (qt_tunnel q) with Some e => e | None => FecEncoder_init FEC_NONE end.
Definition set_qt_encoder (e : FecEncoder) (q : QtTunnel) : QtTunnel :=
  mkQt (set_encoder (Some e) (qt_tunnel q)) (qt_out q).
Definition qt_decoder (q : QtTunnel) : FecDecoder :=
  match ru_fecDecoder (qt_tunnel q) with Some d => d | None => FecDecoder_init end.
Definition set_qt_decoder (d : FecDecoder) (q : QtTunnel) : QtTunnel :=
  mkQt (set_decoder (Some d) (qt_tunnel q)) (qt_out q).

Definition RawUdpTunnel_init (now peerAddr peerPort : Z) (fecMode : FecMode) (mtu trafficClass : Z)
    (secureFrames : bool) : QtTunnel :=
  mkQt (mkRaw peerAddr peerPort trafficClass false 0 0 0 now now false (-1) store_empty fecMode
          (if bool_decide (fecMode = FEC_NONE) then None else Some (FecEncoder_init fecMode))
          (if bool_decide (fecMode = FEC_NONE) then None else Some FecDecoder_init)
          (normalizeRoomMtu mtu) secureFrames) [].
Definition qt_setRelayMode (src dst : Z) : SE QtTunnel unit := in_qt (setRelayMode src dst).
Definition qt_isAlive (now : Z) (t : RawUdpTunnel) : bool :=
  negb (ru_dead t) && (u32 (now - ru_lastRecvTime t) <? RAW_UDP_DEAD_TIMEOUT_MS).
Definition qt_maxFragmentPayload (t : RawUdpTunnel) : Z :=
  let payload := transportPayloadBudget (ru_roomMtu t) MODE_RELAY_RAW_UDP
                   (negb (bool_decide (ru_fecMode t = FEC_NONE))) (ru_secureFrames t) in
  if RAW_UDP_MAX_FRAG_PAYLOAD <? payload then RAW_UDP_MAX_FRAG_PAYLOAD else payload.
(** [m_nextMsgId++]. *)
Definition qt_takeMsgId : SE QtTunnel Z :=
  q <- gets (fun q => q) ;;
  in_qt (fun t => set_nextMsgId (u16 (ru_nextMsgId t + 1)) t) ;;; ret (ru_nextMsgId (qt_tunnel q)).

Definition qt_sendRawPacket (now : Z) (payload : bytes) : SE QtTunnel unit :=
  q <- gets (fun q => q) ;;
  let t := qt_tunnel q in
  let pkt := if ru_relayMode t
             then relay_header UDP_RAW_RELAY_DATA (ru_trafficClass t) (ru_relaySrcPeerId t) (ru_relayDstPeerId t) ++ payload
             else UDP_RAW_RELAY_DATA :: payload in
  qt_emit (OutUdp pkt (ru_peerIP t) (ru_peerPort t)) ;;; in_qt (set_lastSend now).
Definition qt_sendFragment (now : Z) (data : bytes) (fragIndex fragTotal msgId totalLen : Z) : SE QtTunnel unit :=
  q <- gets (fun q => q) ;;
  let innerPayload := frag_header msgId fragIndex fragTotal totalLen ++ data in
  if negb (bool_decide (ru_fecMode (qt_tunnel q) = FEC_NONE)) && bool_decide (is_Some (ru_fecEncoder (qt_tunnel q)))
  then qt_enc_addPacket qt_encoder set_qt_encoder (qt_sendRawPacket now) now innerPayload
  else qt_sendRawPacket now innerPayload.
Definition qt_send (now : Z) (ipPacket : bytes) : SE QtTunnel Z :=
  if len ipPacket =? 0 then ret 0 else
  q <- gets (fun q => q) ;;
  if ru_roomMtu (qt_tunnel q) <? len ipPacket then ret (-1) else
  msgId <- qt_takeMsgId ;;
  let totalLen := len ipPacket in
  let maxPayload := qt_maxFragmentPayload (qt_tunnel q) in
  let fragTotal := (totalLen + maxPayload - 1) / maxPayload in
  if (fragTotal <=? 0) || (255 <? fragTotal) then ret (-1) else
  for_each (seqZ 0 fragTotal) (fun i =>
    let offset := i * maxPayload in
    let fragLen := Z.min maxPayload (totalLen - offset) in
    qt_sendFragment now (slice offset fragLen ipPacket) i fragTotal msgId totalLen) ;;;
  ret totalLen.
Definition qt_sendLatencyPing (now : Z) : SE QtTunnel unit :=
  msgId <- qt_takeMsgId ;; qt_sendFragment now (RAW_UDP_LATENCY_PING :: be_bytes 4 now) 0 1 msgId 5.
Definition qt_sendLatencyPong (now : Z) (timestamp : bytes) : SE QtTunnel unit :=
  msgId <- qt_takeMsgId ;; qt_sendFragment now (RAW_UDP_LATENCY_PONG :: timestamp) 0 1 msgId 5.

(** The reassembly table. *)
Definition with_table (f : Store ReassemblyEntry -> Store ReassemblyEntry) : SE QtTunnel unit :=
  in_qt (fun t => set_reassembly (f (ru_reassembly t)) t).
Definition qt_entry (msgId : Z) : SE QtTunnel (option ReassemblyEntry) :=
  gets (fun q => st_map (ru_reassembly (qt_tunnel q)) !! msgId).
Definition qt_ensureReassemblyCapacity (incoming : Z) (newMessage : bool) : SE QtTunnel bool :=
  q <- gets (fun q => q) ;;
  let '(ok, s) := ensureReassemblyCapacity incoming newMessage (ru_reassembly (qt_tunnel q)) in
  in_qt (set_reassembly s) ;;; ret ok.
Definition qt_removeReassemblyEntry (msgId : Z) : SE QtTunnel unit := with_table (removeReassemblyEntry msgId).
Definition qt_find_entry (now msgId fragTotal totalLen payloadLen : Z) : SE QtTunnel bool :=
  existing <- qt_entry msgId ;;
  match existing with
  | Some e =>
      if negb (re_totalLen e =? totalLen) || negb (re_fragTotal e =? fragTotal)
      then qt_removeReassemblyEntry msgId ;;; ret false else ret true
  | None =>
      ok <- qt_ensureReassemblyCapacity payloadLen true ;;
      if negb ok then ret false else
      with_table (store_set msgId (mkEntry totalLen fragTotal 0 now ∅)) ;;; ret true
  end.
Definition qt_keep_fragment (msgId fragIndex : Z) (payload : bytes) : SE QtTunnel bool :=
  existing <- qt_entry msgId ;;
  match existing with
  | None => ret false
  | Some e =>
      match re_fragments e !! fragIndex with
      | Some _ => ret true
      | None =>
          ok <- qt_ensureReassemblyCapacity (len payload) false ;;
          if negb ok then ret false else
          existing <- qt_entry msgId ;;
          match existing with
          | None => ret false
          | Some e =>
              with_table (store_set msgId (with_fragment fragIndex payload e)) ;;;
              with_table (fun s => mkStore (st_map s) (st_bytes s + len payload)) ;;; ret true
          end
      end
  end.
Definition qt_finish_entry (msgId : Z) : SE QtTunnel unit :=
  existing <- qt_entry msgId ;;
  match existing with
  | None => ret tt
  | Some e =>
      if negb (re_fragTotal e <=? re_receivedCount e) then ret tt else
      match assemble e with
      | None => qt_removeReassemblyEntry msgId
      | Some assembled =>
          qt_removeReassemblyEntry msgId ;;; when (len assembled =? re_totalLen e) (qt_emit (OutData assembled))
      end
  end.
Definition qt_add_fragment (msgId fragIndex : Z) (payload : bytes) : SE QtTunnel unit :=
  go <- qt_keep_fragment msgId fragIndex payload ;;
  if negb go then ret tt else qt_finish_entry msgId.
Definition qt_processFrag (now : Z) (data : bytes) : SE QtTunnel unit :=
  if len data <? sizeof_FragHeader then ret tt else
  let msgId := u16 (be_value (slice 0 2 data)) in
  let fragIndex := u8 (byte_at data 2) in
  let fragTotal := u8 (byte_at data 3) in
  let totalLen := u16 (be_value (slice 4 2 data)) in
  let payload := drop (Z.to_nat sizeof_FragHeader) data in
  let payloadLen := len data - sizeof_FragHeader in
  q <- gets (fun q => q) ;;
  if (payloadLen <=? 0) || (fragTotal =? 0) || (fragTotal <=? fragIndex) ||
     (totalLen =? 0) || (ru_roomMtu (qt_tunnel q) <? totalLen) then ret tt else
  let maxPayload := qt_maxFragmentPayload (qt_tunnel q) in
  let expectedTotal := (totalLen + maxPayload - 1) / maxPayload in
  if negb (expectedTotal =? fragTotal) then ret tt else
  let expectedLength := if fragIndex + 1 =? fragTotal
                        then totalLen - maxPayload * (fragTotal - 1) else maxPayload in
  if negb (payloadLen =? expectedLength) then ret tt else
  if (fragTotal =? 1) && (payloadLen =? 1) && (byte_at payload 0 =? RAW_UDP_KEEPALIVE_MARKER) && (totalLen =? 1)
  then ret tt else
  let probe := (fragTotal =? 1) && (payloadLen =? 5) && (totalLen =? 5) in
  let probeType := byte_at payload 0 in
  if probe && (probeType =? RAW_UDP_LATENCY_PING) then qt_sendLatencyPong now (slice 1 4 payload) else
  if probe && (probeType =? RAW_UDP_LATENCY_PONG) then
    let rtt := i32 (now - be_value (slice 1 4 payload)) in
    in_qt (set_rttMs rtt) ;;; when (rtt <? 0) (in_qt (set_rttMs 0))
  else
  if fragTotal =? 1 then when (payloadLen =? totalLen) (qt_emit (OutData payload)) else
  go <- qt_find_entry now msgId fragTotal totalLen payloadLen ;;
  if negb go then ret tt else qt_add_fragment msgId fragIndex payload.
Definition qt_feedInput (now : Z) (data : bytes) : SE QtTunnel unit :=
  if len data <=? 0 then ret tt else
  in_qt (set_lastRecv now) ;;;
  q <- gets (fun q => q) ;;
  if negb (bool_decide (ru_fecMode (qt_tunnel q) = FEC_NONE)) && bool_decide (is_Some (ru_fecDecoder (qt_tunnel q)))
  then qt_dec_addPacket qt_decoder set_qt_decoder (qt_processFrag now) now data
  else qt_processFrag now data.
Definition qt_update (now : Z) : SE QtTunnel unit :=
  q <- gets (fun q => q) ;;
  let t := qt_tunnel q in
  if negb (ru_dead t) && (RAW_UDP_DEAD_TIMEOUT_MS <? u32 (now - ru_lastRecvTime t))
  then in_qt (set_dead true) ;;; qt_emit OutDead else
  when (RAW_UDP_KEEPALIVE_MS <? u32 (now - ru_lastSendTime t)) (qt_sendLatencyPing now) ;;;
  (q <- gets (fun q => q) ;;
   when (bool_decide (is_Some (ru_fecEncoder (qt_tunnel q))))
     (qt_enc_update qt_encoder set_qt_encoder (qt_sendRawPacket now))) ;;;
  (q <- gets (fun q => q) ;;
   when (bool_decide (is_Some (ru_fecDecoder (qt_tunnel q)))) (qt_cleanup qt_decoder set_qt_decoder now)) ;;;
  with_table (cleanupStaleEntries now).

(** ** Sequences of calls, for both clients *)

Inductive RawCall :=
| RawSend (now : Z) (ipPacket : bytes) | RawFeed (now : Z) (data : bytes) | RawUpdate (now : Z) | RawRelayMode (src dst : Z).
Definition qt_call (c : RawCall) : SE QtTunnel unit :=
  match c with
  | RawSend now p => qt_send now p ;;; ret tt
  | RawFeed now d => qt_feedInput now d
  | RawUpdate now => qt_update now
  | RawRelayMode src dst => qt_setRelayMode src dst
  end.
Definition cli_call (c : RawCall) (t : RawUdpTunnel) : list TunnelOut * RawUdpTunnel :=
  match c with
  | RawSend now p => snd (raw_send now p t)
  | RawFeed now d => raw_feedInput now d t
  | RawUpdate now => raw_update now t
  | RawRelayMode src dst => ([], setRelayMode src dst t)
  end.
End Tunnel.
