(* ===== verification/GuiTunnelFacts.v ===== *)
(** * Both clients run the same tunnel

    The programs of [GuiTunnel] call back in the middle of their loops; the
    functions of [Fec] and [RawUdp] collect what they put out and pass it on
    afterwards.  A callback that leaves the part of the state alone which the
    loop works on ([PartOf]) makes no difference, so the two clients behave
    alike, call for call. *)

From S2P Require Import Prelude Protocol Room Store Fec FecFacts RawUdp RawUdpFacts Reassembly TunnelFacts GuiTunnel.

(** The next steps of a program, computed. *)
Lemma bind_ret {S A B} (a : A) (k : A -> SE S B) s : bind (ret a) k s = k a s.
Proof. done. Qed.
Ltac steps := repeat first [rewrite bind_assoc | rewrite bind_gets | rewrite bind_modify | rewrite bind_ret]; cbv beta.

(** ** Callbacks that leave a part of the state alone *)

Class PartOf {S T : Type} (has : S -> Prop) (get : S -> T) (put : T -> S -> S) (step : bytes -> S -> S) : Prop := {
  part_id : forall s, has s -> put (get s) s = s;
  part_get : forall x s, get (put x s) = x;
  part_put : forall x y s, put x (put y s) = put x s;
  part_has : forall x s, has (put x s);
  step_get : forall b s, get (step b s) = get s;
  step_put : forall b x s, step b (put x s) = put x (step b s)
}.

Section Outputs.
Context {S T : Type} (has : S -> Prop) (get : S -> T) (put : T -> S -> S).
Context (m_output : bytes -> SE S unit) (step : bytes -> S -> S) (Hout : forall b s, m_output b s = (Some tt, step b s)).
Context `{!PartOf has get put step}.

Definition outputs (l : list bytes) (s : S) : S := fold_left (fun s b => step b s) l s.
Lemma outputs_app l k s : outputs (l ++ k) s = outputs k (outputs l s).
Proof. apply fold_left_app. Qed.
Lemma get_outputs l s : get (outputs l s) = get s.
Proof using PartOf0. revert s. induction l as [|b l IH]; intros s; [done|]. cbn. fold (outputs l (step b s)). by rewrite IH, step_get. Qed.
Lemma put_outputs l x s : outputs l (put x s) = put x (outputs l s).
Proof using PartOf0.
  revert s. induction l as [|b l IH]; intros s; [done|]. cbn.
  fold (outputs l (step b (put x s))) (outputs l (step b s)). by rewrite step_put, IH.
Qed.
(** A program that puts out [l] and leaves [x] in its part. *)
Definition puts_out (m : SE S unit) (r : T -> list bytes * T) : Prop :=
  forall s, has s -> m s = (Some tt, outputs (fst (r (get s))) (put (snd (r (get s))) s)).

Lemma output_run b s : m_output b s = (Some tt, outputs [b] s).
Proof using Hout. apply Hout. Qed.
Lemma for_each_run {A} (l : list A) body (out : A -> list bytes) s :
  (forall a s, body a s = (Some tt, outputs (out a) s)) ->
  for_each l body s = (Some tt, outputs (concat (map out l)) s).
Proof.
  intros Hb. revert s. induction l as [|a l IH]; intros s; [done|]. cbn [for_each map concat].
  rewrite (bind_run _ _ _ _ _ (Hb a s)), IH. by rewrite outputs_app.
Qed.
Lemma for_each_output {A} (l : list A) (f : A -> bytes) s :
  for_each l (fun a => m_output (f a)) s = (Some tt, outputs (map f l) s).
Proof using Hout.
  rewrite (for_each_run l _ (fun a => [f a])) by (intros; apply Hout). do 2 f_equal.
  induction l as [|a l IH]; [done|]. cbn. by rewrite IH.
Qed.
End Outputs.

(** ** Encoder *)

Section Encoder.
Context `{CM256} {S : Type} (has : S -> Prop) (get : S -> FecEncoder) (put : FecEncoder -> S -> S).
Context (m_output : bytes -> SE S unit) (step : bytes -> S -> S) (Hout : forall b s, m_output b s = (Some tt, step b s)).
Context `{!PartOf has get put step}.
Abbreviation sends := (puts_out has get put step).

Lemma emit_data_run gid N total padded s :
  qt_emit_data m_output gid N total padded s =
    (Some tt, outputs step (imap (fun i block => fec_header gid (u8 (Z.of_nat i)) (u8 N) total ++ block) padded) s).
Proof using Hout.
  unfold qt_emit_data. rewrite (for_each_output m_output step Hout). do 2 f_equal. apply fmap_imap.
Qed.
Lemma flush_puts_out : sends (qt_flush get put m_output) enc_flush.
Proof using Hout PartOf0.
  intros s Hs. unfold qt_flush, enc_flush. steps. destruct (bool_decide _). { cbn. by rewrite part_id. }
  destruct (cm256_encode _ _ _ _) as [r recovery]. destruct (r =? 0); cbn [negb]; unfold qt_takeGroup, with_encoder; steps;
    rewrite (bind_run _ _ _ _ _ (emit_data_run _ _ _ _ _)).
  1: rewrite (bind_run _ _ _ _ _ (for_each_output m_output step Hout _ _ _)), <- outputs_app.
  all: unfold qt_clear, with_encoder, modify; cbn [fst snd]; rewrite ?app_nil_r.
  all: by rewrite (get_outputs has get put step), part_get, !(put_outputs has get put step), part_put.
Qed.
Lemma addPacket_puts_out now payload : sends (qt_enc_addPacket get put m_output now payload) (enc_addPacket now payload).
Proof using Hout PartOf0.
  intros s Hs. unfold qt_enc_addPacket, enc_addPacket, with_encoder. steps. set (e := get s).
  assert (forall e', when (FEC_GROUP_SIZE <=? len (fe_buffer e')) (qt_flush get put m_output) (put e' s) =
    let r := if FEC_GROUP_SIZE <=? len (fe_buffer e') then enc_flush e' else ([], e') in
    (Some tt, outputs step (fst r) (put (snd r) s))) as Hlast.
  { intros e'. destruct (_ <=? _); [|done]. cbn [when].
    rewrite flush_puts_out by apply part_has. by rewrite part_get, !(put_outputs has get put step), part_put. }
  destruct (bool_decide _), (fe_maxBlockSize e <? len payload); cbn [when]; steps; rewrite ?part_get, ?part_put; apply Hlast.
Qed.
Lemma update_puts_out : sends (qt_enc_update get put m_output) enc_update.
Proof using Hout PartOf0.
  intros s Hs. unfold qt_enc_update, enc_update. steps. destruct (bool_decide _); cbn [negb when].
  - cbn. by rewrite part_id.
  - by apply flush_puts_out.
Qed.
End Encoder.

(** ** Decoder *)

Section Decoder.
Context `{CM256} {S : Type} (has : S -> Prop) (get : S -> FecDecoder) (put : FecDecoder -> S -> S).
Context (m_output : bytes -> SE S unit) (step : bytes -> S -> S) (Hout : forall b s, m_output b s = (Some tt, step b s)).
Context `{!PartOf has get put step}.
Abbreviation sends := (puts_out has get put step).
Abbreviation out := (outputs step).

Lemma emit_payload_run size block s :
  qt_emit_payload m_output size block s = (Some tt, out (block_payload size block) s).
Proof using Hout. unfold qt_emit_payload, block_payload. destruct (_ && _); [apply Hout|done]. Qed.
Lemma emit_original_run block s :
  qt_emitOriginalBlock m_output block s = (Some tt, out (emitOriginalBlock block) s).
Proof using Hout. unfold qt_emitOriginalBlock, emitOriginalBlock. destruct (len block <? 2); [done|apply emit_payload_run]. Qed.
Lemma ensure_run {B} incoming newGroup (k : bool -> SE S B) s :
  bind (qt_ensureCapacity get put incoming newGroup) k s =
    k (fst (ensureCapacity incoming newGroup (get s))) (put (snd (ensureCapacity incoming newGroup (get s))) s).
Proof. unfold qt_ensureCapacity. steps. by destruct (ensureCapacity _ _ _). Qed.

Lemma tryDecode_puts_out gid : sends (qt_tryDecode get put m_output gid) (tryDecode gid).
Proof using Hout PartOf0.
  intros s Hs. unfold qt_tryDecode, tryDecode, qt_group. steps.
  destruct (st_map (get s) !! gid) as [g|] eqn:Hg; [|cbn; by rewrite part_id].
  destruct (g_decoded g); [cbn; by rewrite part_id|].
  assert (forall l, with_group get put gid (set_g_decoded true) (out l s) =
    (Some tt, out l (put (store_set gid (set_g_decoded true g) (get s)) s))) as Hdone.
  { intros l. unfold with_group, with_decoder, modify. rewrite (get_outputs has get put step), Hg.
    by rewrite (put_outputs has get put step). }
  destruct (_ <=? _). { exact (Hdone []). }
  rewrite (map_ext _ (fun '(k, b) => (k, pad_to (g_blockBytes g) b))) by (by intros []).
  destruct (_ <? _); [cbn; by rewrite part_id|].
  destruct (cm256_decode _ _ _ _) as [r blocks]. destruct (negb _). { exact (Hdone []). }
  cbn [fst snd]. erewrite bind_run; [apply Hdone|]. apply for_each_run. intros i s'.
  destruct (decide _); [done|]. destruct (_ !! i); [apply emit_payload_run|done].
Qed.
Lemma store_block_run gid idx N block g s :
  st_map (get s) !! gid = Some g ->
  qt_store_block get put m_output gid idx N block s =
    (Some tt, out (if idx <? N then emitOriginalBlock block else [])
       (put (mkStore (<[gid := mkGroup (g_dataCount g) (g_totalCount g) (g_blockBytes g) (g_createTime g) (g_decoded g)
               (<[idx := block]> (g_blocks g)) (if idx <? N then {[idx]} ∪ g_emitted g else g_emitted g)]> (st_map (get s)))
            (st_bytes (get s) + len block)) s)).
Proof using Hout PartOf0.
  intros Hg. unfold qt_store_block, with_group, with_decoder. steps. rewrite Hg, !part_get, !part_put. cbn [store_set st_map st_bytes].
  destruct (idx <? N); [|done]. cbn [when]. rewrite (bind_run _ _ _ _ _ (emit_original_run _ _)).
  unfold modify. rewrite (get_outputs has get put step), part_get. cbn [st_map].
  rewrite lookup_insert_eq. unfold store_set. cbn [st_map st_bytes g_dataCount g_totalCount g_blockBytes g_createTime g_decoded g_blocks g_emitted].
  by rewrite insert_insert_eq, !(put_outputs has get put step), part_put.
Qed.
Lemma add_block_puts_out gid idx N block : sends (qt_add_block get put m_output gid idx N block) (add_block gid idx N block).
Proof using Hout PartOf0.
  intros s Hs. unfold qt_add_block, add_block, qt_keep_block, qt_group. steps.
  destruct (st_map (get s) !! gid) as [g|] eqn:Hg; [|cbn; by rewrite part_id].
  destruct (g_decoded g); [cbn; by rewrite part_id|].
  (** what follows once the block is there *)
  assert (forall l d,
      match st_map d !! gid with
      | None => ret tt
      | Some g => when (g_dataCount g <=? Z.of_nat (size (g_blocks g))) (qt_tryDecode get put m_output gid)
      end (out l (put d s)) =
    let r := match st_map d !! gid with
             | None => (l, d)
             | Some g => if g_dataCount g <=? Z.of_nat (size (g_blocks g))
                         then let '(more, d) := tryDecode gid d in (l ++ more, d) else (l, d)
             end in (Some tt, out (fst r) (put (snd r) s))) as Hfin.
  { intros l d. destruct (st_map d !! gid) as [g'|]; [|done]. destruct (_ <=? _); [|done]. cbn [when].
    rewrite tryDecode_puts_out by (rewrite (put_outputs has get put step); apply part_has).
    rewrite (get_outputs has get put step), part_get, !(put_outputs has get put step), part_put.
    destruct (tryDecode gid d) as [more d']. cbn [fst snd]. by rewrite (outputs_app step). }
  destruct (g_blocks g !! idx).
  { steps. cbn [negb]. steps. pose proof (Hfin [] (get s)) as E. cbn [outputs fold_left] in E. rewrite part_id in E by done. by rewrite Hg in E |- *. }
  steps. rewrite ensure_run. destruct (ensureCapacity (len block) false (get s)) as [ok d]. cbn [fst snd].
  destruct ok; cbn [negb]; steps; [|done]. rewrite part_get.
  destruct (st_map d !! gid) as [g'|] eqn:Hg'; steps; [|done].
  erewrite bind_run; [|apply store_block_run; by rewrite part_get]. steps. cbn [negb]. steps.
  rewrite (get_outputs has get put step), !part_get, part_put. exact (Hfin _ _).
Qed.
Lemma dec_addPacket_puts_out now data : sends (qt_dec_addPacket get put m_output now data) (dec_addPacket now data).
Proof using Hout PartOf0.
  intros s Hs. unfold qt_dec_addPacket, dec_addPacket, qt_find_group, qt_group. cbv zeta.
  assert (@ret S unit tt s = (Some tt, out (fst (@nil bytes, get s)) (put (snd (@nil bytes, get s)) s))) as Hstop
    by (cbn; by rewrite part_id).
  destruct (_ <? _); [done|]. destruct (_ || _); [done|]. destruct (_ <=? _); [done|]. steps.
  destruct (st_map (get s) !! _) as [g|].
  - destruct (_ || _); steps; [done|]. by apply add_block_puts_out.
  - steps. rewrite ensure_run. destruct (ensureCapacity _ true (get s)) as [[] d]; cbn [fst snd negb]; steps; [|done].
    unfold with_decoder. steps. cbn [negb]. rewrite part_get, part_put, add_block_puts_out by apply part_has.
    by rewrite part_get, !(put_outputs has get put step), part_put.
Qed.
End Decoder.

(** ** The tunnel *)

Section Tunnel.
Context `{CM256}.

Definition add_out (r : list TunnelOut * RawUdpTunnel) (out : list TunnelOut) : QtTunnel := mkQt (snd r) (out ++ fst r).
(** The program does what the function says. *)
Definition acts (m : SE QtTunnel unit) (f : RawUdpTunnel -> list TunnelOut * RawUdpTunnel) : Prop :=
  forall q, m q = (Some tt, add_out (f (qt_tunnel q)) (qt_out q)).

Lemma add_out_nothing q : add_out ([], qt_tunnel q) (qt_out q) = q.
Proof. destruct q. unfold add_out. cbn. by rewrite app_nil_r. Qed.
Lemma acts_ret : acts (ret tt) (fun t => ([], t)).
Proof. intros q. cbv beta. by rewrite add_out_nothing. Qed.
Lemma acts_in f : acts (in_qt f) (fun t => ([], f t)).
Proof. intros q. unfold in_qt, modify, add_out. cbn. by rewrite app_nil_r. Qed.
Lemma acts_emit o : acts (qt_emit o) (fun t => ([o], t)).
Proof. done. Qed.
Lemma acts_bind m k f g : acts m f -> acts k g -> acts (m ;;; k) (fun t => and_then (f t) g).
Proof.
  intros Hm Hk q. rewrite (bind_run _ _ _ _ _ (Hm q)), Hk. unfold add_out, and_then. cbn.
  destruct (f (qt_tunnel q)) as [o t]. cbn. destruct (g t). cbn. by rewrite app_assoc.
Qed.
Lemma acts_for_each {A} (l : list A) body f :
  (forall a, acts (body a) (f a)) -> acts (for_each l body) (emit_all f l).
Proof. intros Hb. induction l as [|a l IH]; [apply acts_ret|]. by apply acts_bind. Qed.
Lemma outputs_emit_all f l q :
  outputs (fun b q => add_out (f b (qt_tunnel q)) (qt_out q)) l q = add_out (emit_all f l (qt_tunnel q)) (qt_out q).
Proof.
  revert q. induction l as [|b l IH]; intros q; [cbn; by rewrite add_out_nothing|].
  change (outputs _ (b :: l) q) with (outputs (fun b q => add_out (f b (qt_tunnel q)) (qt_out q)) l (add_out (f b (qt_tunnel q)) (qt_out q))).
  rewrite IH. cbn [emit_all]. unfold add_out, and_then. cbn. destruct (f b (qt_tunnel q)) as [o t]. cbn.
  destruct (emit_all f l t). cbn. by rewrite app_assoc.
Qed.

Lemma sendRawPacket_acts now p : acts (qt_sendRawPacket now p) (sendRawPacket now p).
Proof.
  intros q. unfold qt_sendRawPacket, sendRawPacket, raw_header, qt_emit, in_qt, modify, bind, gets, add_out. cbn.
  by destruct (ru_relayMode _).
Qed.
#[local] Instance encoder_part now :
  PartOf (fun q => is_Some (ru_fecEncoder (qt_tunnel q))) qt_encoder set_qt_encoder
    (fun b q => add_out (sendRawPacket now b (qt_tunnel q)) (qt_out q)).
Proof.
  split; try done.
  intros [t o] [e E]. unfold set_qt_encoder, qt_encoder in *. cbn in *. rewrite E. by destruct t; cbn in *; subst.
Qed.
Lemma takeMsgId_run {B} (k : Z -> SE QtTunnel B) q :
  bind qt_takeMsgId k q = k (fst (takeMsgId (qt_tunnel q))) (mkQt (snd (takeMsgId (qt_tunnel q))) (qt_out q)).
Proof. unfold qt_takeMsgId, in_qt. by steps. Qed.
Lemma encoder_acts now m r q e :
  puts_out (fun q => is_Some (ru_fecEncoder (qt_tunnel q))) qt_encoder set_qt_encoder
    (fun b q => add_out (sendRawPacket now b (qt_tunnel q)) (qt_out q)) m r ->
  ru_fecEncoder (qt_tunnel q) = Some e ->
  m q = (Some tt, add_out (let '(pkts, e) := r e in
                           emit_all (sendRawPacket now) pkts (set_encoder (Some e) (qt_tunnel q))) (qt_out q)).
Proof.
  intros Hm He. rewrite Hm by (rewrite He; by eexists).
  rewrite outputs_emit_all.
  unfold qt_encoder. rewrite He. by destruct (r e).
Qed.
Lemma sendFragment_acts now data i total msgId totalLen :
  acts (qt_sendFragment now data i total msgId totalLen) (sendFragment now data i total msgId totalLen).
Proof.
  intros q. unfold qt_sendFragment, sendFragment. steps.
  destruct (ru_fecEncoder (qt_tunnel q)) as [e|] eqn:He.
  - rewrite (bool_decide_true (is_Some _)) by done. destruct (bool_decide _); [apply sendRawPacket_acts|]. cbn [negb andb].
    apply (encoder_acts now _ _ _ _ (addPacket_puts_out _ _ _ _ _ (sendRawPacket_acts now) now _) He).
  - rewrite (bool_decide_false (is_Some _)) by (by intros [? ?]). rewrite andb_false_r. apply sendRawPacket_acts.
Qed.
Lemma maxFragmentPayload_same t : qt_maxFragmentPayload t = maxFragmentPayload t.
Proof.
  unfold qt_maxFragmentPayload, maxFragmentPayload. set (p := transportPayloadBudget _ _ _ _).
  assert (p <= RAW_UDP_MAX_FRAG_PAYLOAD) as Hp.
  { unfold p, transportPayloadBudget. cbv zeta. destruct (RAW_UDP_MAX_FRAG_PAYLOAD <? _) eqn:E; [lia|]. by apply Z.ltb_ge in E. }
  destruct (RAW_UDP_MAX_FRAG_PAYLOAD <? p) eqn:E; [|done]. apply Z.ltb_lt in E. lia.
Qed.
Lemma send_acts now p q :
  qt_send now p q = (Some (fst (raw_send now p (qt_tunnel q))), add_out (snd (raw_send now p (qt_tunnel q))) (qt_out q)).
Proof.
  unfold qt_send, raw_send. destruct (_ =? 0). { cbn. by rewrite add_out_nothing. } steps.
  destruct (_ <? _). { cbn. by rewrite add_out_nothing. } rewrite takeMsgId_run, maxFragmentPayload_same.
  assert (maxFragmentPayload (snd (takeMsgId (qt_tunnel q))) = maxFragmentPayload (qt_tunnel q)) as <- by done.
  destruct (takeMsgId (qt_tunnel q)) as [msgId t]. cbn [fst snd]. cbv zeta.
  destruct (_ || _). { unfold add_out, ret. cbn. by rewrite app_nil_r. }
  erewrite bind_run; [|apply acts_for_each; intros i; apply sendFragment_acts]. done.
Qed.
Lemma latency_acts now data q :
  (msgId <- qt_takeMsgId ;; qt_sendFragment now data 0 1 msgId 5) q =
  (Some tt, add_out (let '(msgId, t) := takeMsgId (qt_tunnel q) in sendFragment now data 0 1 msgId 5 t) (qt_out q)).
Proof. rewrite takeMsgId_run, sendFragment_acts. done. Qed.

(** *** Receiving *)

Abbreviation tab s q := (mkQt (set_reassembly s (qt_tunnel q)) (qt_out q)).
Abbreviation delivers r q := (Some tt, add_out (map OutData (fst r), set_reassembly (snd r) (qt_tunnel q)) (qt_out q)).
Lemma table_stops q : ret tt q = delivers (@nil bytes, ru_reassembly (qt_tunnel q)) q.
Proof. destruct q as [t o]. unfold add_out. cbn. rewrite app_nil_r. by destruct t. Qed.
Lemma table_at s q : tab s q = add_out ([], set_reassembly s (qt_tunnel q)) (qt_out q).
Proof. unfold add_out. cbn. by rewrite app_nil_r. Qed.
Lemma reserve_run {B} incoming newMessage (k : bool -> SE QtTunnel B) q :
  bind (qt_ensureReassemblyCapacity incoming newMessage) k q =
    let r := ensureReassemblyCapacity incoming newMessage (ru_reassembly (qt_tunnel q)) in k (fst r) (tab (snd r) q).
Proof. unfold qt_ensureReassemblyCapacity. steps. by destruct (ensureReassemblyCapacity _ _ _). Qed.
Lemma finish_entry_run msgId q :
  qt_finish_entry msgId q = delivers (finish_entry msgId (ru_reassembly (qt_tunnel q))) q.
Proof.
  unfold qt_finish_entry, qt_entry, finish_entry. steps. set (s := ru_reassembly (qt_tunnel q)).
  destruct (st_map s !! msgId) as [e|]; [|apply table_stops].
  destruct (_ <=? _); cbn [negb]; [|apply table_stops]. unfold qt_removeReassemblyEntry, with_table, in_qt. fold s.
  destruct (assemble e) as [p|]; [|cbn [fst snd map]; by rewrite <- table_at].
  steps. destruct (_ =? _); cbn [fst snd map when]; [done|]. by rewrite <- table_at.
Qed.
Lemma add_fragment_run msgId i p q :
  qt_add_fragment msgId i p q = delivers (add_fragment msgId i p (ru_reassembly (qt_tunnel q))) q.
Proof.
  unfold qt_add_fragment, qt_keep_fragment, qt_entry, add_fragment. steps. set (s := ru_reassembly (qt_tunnel q)).
  destruct (st_map s !! msgId) as [e|]; steps; [|apply table_stops].
  destruct (re_fragments e !! i); steps. { cbn [negb]. apply finish_entry_run. }
  rewrite reserve_run. fold s. destruct (ensureReassemblyCapacity (len p) false s) as [ok s']. cbn [fst snd].
  destruct ok; cbn [negb]; steps; [|cbn [negb map]; by rewrite <- table_at].
  cbn [qt_tunnel ru_reassembly set_reassembly upd_raw].
  destruct (st_map s' !! msgId) as [e'|]; steps; [|cbn [negb map]; by rewrite <- table_at].
  unfold with_table, in_qt. steps. cbn [negb]. by rewrite finish_entry_run.
Qed.
Lemma store_fragment_run now msgId i total totalLen p q :
  (go <- qt_find_entry now msgId total totalLen (len p) ;;
   if negb go then ret tt else qt_add_fragment msgId i p) q =
  delivers (store_fragment now msgId i total totalLen p (ru_reassembly (qt_tunnel q))) q.
Proof.
  unfold qt_find_entry, qt_entry, store_fragment. steps. set (s := ru_reassembly (qt_tunnel q)).
  destruct (st_map s !! msgId) as [e|].
  - destruct (_ || _).
    + unfold qt_removeReassemblyEntry, with_table, in_qt. steps. cbn [negb fst snd map]. by rewrite <- table_at.
    + steps. cbn [negb]. apply add_fragment_run.
  - steps. rewrite reserve_run. fold s. destruct (ensureReassemblyCapacity (len p) true s) as [ok s']. cbn [fst snd].
    destruct ok; cbn [negb]; unfold with_table, in_qt; steps; [|cbn [negb map]; by rewrite <- table_at].
    cbn [negb]. by rewrite add_fragment_run.
Qed.
Lemma processFrag_acts now data : acts (qt_processFrag now data) (processFrag now data).
Proof.
  intros q. unfold qt_processFrag, processFrag. destruct (len data <? sizeof_FragHeader) eqn:Hlen; [apply acts_ret|]. steps.
  rewrite maxFragmentPayload_same. set (p := drop _ data).
  assert (len data - sizeof_FragHeader = len p) as ->.
  { apply Z.ltb_ge in Hlen. unfold p, len in *. rewrite length_drop. unfold sizeof_FragHeader in *. lia. }
  destruct (_ || _); [apply acts_ret|]. cbv zeta. destruct (negb _); [apply acts_ret|]. destruct (negb _); [apply acts_ret|].
  set (total := u8 (byte_at data 3)). set (totalLen := u16 (be_value (slice 4 2 data))).
  destruct (total =? 1) eqn:Ht; cbn [andb].
  - unfold process_single. destruct (_ && _ && _); [apply acts_ret|].
    destruct ((len p =? 5) && (totalLen =? 5)); cbn [andb].
    + destruct (_ =? RAW_UDP_LATENCY_PING); [apply latency_acts|]. destruct (_ =? RAW_UDP_LATENCY_PONG).
      * unfold in_qt. steps. unfold add_out. cbn. rewrite app_nil_r. by destruct (_ <? 0).
      * destruct (len p =? totalLen); [done|apply acts_ret].
    + destruct (len p =? totalLen); [done|apply acts_ret].
  - rewrite store_fragment_run. by destruct (store_fragment _ _ _ _ _ _ _).
Qed.

(** *** The decoder inside the tunnel *)

(** An operation that neither reads nor writes the decoder. *)
Definition dec_free (f : RawUdpTunnel -> list TunnelOut * RawUdpTunnel) : Prop :=
  forall d t, f (set_decoder d t) = (fst (f t), set_decoder d (snd (f t))) /\ ru_fecDecoder (snd (f t)) = ru_fecDecoder t.
Lemma dec_free_emit_all {A} (f : A -> RawUdpTunnel -> list TunnelOut * RawUdpTunnel) l :
  (forall a, dec_free (f a)) -> dec_free (emit_all f l).
Proof.
  intros Hf d. induction l as [|a l IH]; intros t; [done|]. cbn [emit_all]. unfold and_then.
  destruct (Hf a d t) as [-> Hd]. destruct (f a t) as [o t']. cbn [fst snd] in *.
  destruct (IH t') as [-> Hd']. destruct (emit_all f l t'). cbn [fst snd] in *. split; [done|congruence].
Qed.
Lemma dec_free_sendRawPacket now p : dec_free (sendRawPacket now p).
Proof. done. Qed.
Lemma dec_free_sendFragment now data i total msgId totalLen : dec_free (sendFragment now data i total msgId totalLen).
Proof.
  intros d t. unfold sendFragment. cbn [ru_fecEncoder set_decoder upd_raw ru_fecMode].
  destruct (ru_fecEncoder t) as [e|]; [|done]. destruct (bool_decide _); [done|].
  destruct (enc_addPacket _ _ e) as [pkts e']. exact (dec_free_emit_all _ pkts (dec_free_sendRawPacket now) d (set_encoder (Some e') t)).
Qed.
Lemma dec_free_processFrag now data : dec_free (processFrag now data).
Proof.
  intros d t. unfold processFrag, process_single.
  change (maxFragmentPayload (set_decoder d t)) with (maxFragmentPayload t).
  cbn [ru_roomMtu ru_reassembly set_decoder upd_raw]. repeat (destruct (_ : bool); [done|]).
  destruct (_ =? 1).
  - destruct (_ && _ && _); [done|]. destruct (_ && _); [|done]. destruct (_ =? RAW_UDP_LATENCY_PING); [|by destruct (_ =? RAW_UDP_LATENCY_PONG)].
    exact (dec_free_sendFragment _ _ _ _ _ _ d (snd (takeMsgId t))).
  - by destruct (store_fragment _ _ _ _ _ _ _).
Qed.
#[local] Instance decoder_part now :
  PartOf (fun q => is_Some (ru_fecDecoder (qt_tunnel q))) qt_decoder set_qt_decoder
    (fun b q => add_out (processFrag now b (qt_tunnel q)) (qt_out q)).
Proof.
  split; try done.
  - intros [t o] [d E]. unfold set_qt_decoder, qt_decoder in *. cbn in *. rewrite E. by destruct t; cbn in *; subst.
  - intros b q. unfold qt_decoder, add_out. cbn [qt_tunnel]. by rewrite (proj2 (dec_free_processFrag now b None (qt_tunnel q))).
  - intros b d q. unfold set_qt_decoder, add_out. cbn [qt_tunnel qt_out].
    by rewrite (proj1 (dec_free_processFrag now b (Some d) (qt_tunnel q))).
Qed.
Lemma feedInput_acts now data : acts (qt_feedInput now data) (raw_feedInput now data).
Proof.
  intros q. unfold qt_feedInput, raw_feedInput. destruct (_ <=? 0); [apply acts_ret|]. unfold in_qt. steps.
  set (t := set_lastRecv now (qt_tunnel q)). change (ru_fecMode (qt_tunnel _)) with (ru_fecMode t).
  change (ru_fecDecoder (qt_tunnel _)) with (ru_fecDecoder t).
  destruct (ru_fecDecoder t) as [d|] eqn:Hd.
  - rewrite (bool_decide_true (is_Some _)) by done. destruct (bool_decide _); cbn [negb andb]; [by rewrite processFrag_acts|].
    rewrite (dec_addPacket_puts_out _ _ _ _ _ (processFrag_acts now)) by (cbn [qt_tunnel]; fold t; by eexists).
    rewrite outputs_emit_all. unfold qt_decoder. cbn [qt_tunnel qt_out set_qt_decoder]. fold t. rewrite Hd.
    by destruct (dec_addPacket now data d).
  - rewrite (bool_decide_false (is_Some _)) by (by intros [? ?]). rewrite andb_false_r. by rewrite processFrag_acts.
Qed.

(** *** The timer *)

Lemma update_encoder_acts now :
  acts (q <- gets (fun q => q) ;;
        when (bool_decide (is_Some (ru_fecEncoder (qt_tunnel q)))) (qt_enc_update qt_encoder set_qt_encoder (qt_sendRawPacket now)))
       (fun t => match ru_fecEncoder t with
                 | Some e => let '(pkts, e) := enc_update e in emit_all (sendRawPacket now) pkts (set_encoder (Some e) t)
                 | None => ([], t)
                 end).
Proof.
  intros q. steps. destruct (ru_fecEncoder (qt_tunnel q)) as [e|] eqn:He.
  - rewrite bool_decide_true by done. cbn [when].
    exact (encoder_acts now _ _ _ _ (update_puts_out _ _ _ _ _ (sendRawPacket_acts now)) He).
  - rewrite bool_decide_false by (by intros [? ?]). cbn [when]. apply acts_ret.
Qed.
Lemma update_rest_acts now :
  acts ((q <- gets (fun q => q) ;;
         when (bool_decide (is_Some (ru_fecDecoder (qt_tunnel q)))) (qt_cleanup qt_decoder set_qt_decoder now)) ;;;
        with_table (cleanupStaleEntries now))
       (fun t => let t := match ru_fecDecoder t with Some d => set_decoder (Some (dec_cleanup now d)) t | None => t end in
                 ([], set_reassembly (cleanupStaleEntries now (ru_reassembly t)) t)).
Proof.
  intros q. steps. unfold with_table. destruct (ru_fecDecoder (qt_tunnel q)) as [d|] eqn:Hd.
  - rewrite bool_decide_true by done. cbn [when]. unfold qt_cleanup, with_decoder. steps. rewrite acts_in.
    unfold qt_decoder. by rewrite Hd.
  - rewrite bool_decide_false by (by intros [? ?]). cbn [when]. steps. exact (acts_in _ q).
Qed.
Lemma keepalive_acts now b : acts (when b (qt_sendLatencyPing now))
  (fun t => if b then let '(msgId, t) := takeMsgId t in
                      sendFragment now (RAW_UDP_LATENCY_PING :: be_bytes 4 now) 0 1 msgId 5 t else ([], t)).
Proof. intros q. destruct b; [apply latency_acts|apply acts_ret]. Qed.
Lemma update_acts now : acts (qt_update now) (raw_update now).
Proof.
  intros q. unfold qt_update, raw_update. steps. destruct (_ && _). { unfold in_qt. by steps. }
  exact (acts_bind _ _ _ _ (keepalive_acts now _) (acts_bind _ _ _ _ (update_encoder_acts now) (update_rest_acts now)) q).
Qed.
Lemma call_acts c : acts (qt_call c) (cli_call c).
Proof.
  destruct c; cbn [qt_call cli_call]; [|apply feedInput_acts|apply update_acts|apply acts_in].
  intros q. by rewrite (bind_run _ _ _ _ _ (send_acts _ _ q)).
Qed.

Lemma init_same now ip port mode mtu cls secure :
  RawUdpTunnel_init now ip port mode mtu cls secure = mkQt (CliRawUdpTunnel_init now ip port mode mtu cls secure) [].
Proof. unfold RawUdpTunnel_init, CliRawUdpTunnel_init. by destruct (bool_decide _). Qed.

(** C34: both clients run the same tunnel.  The graphical client's tunnel, which
    hands over each packet in the middle of its loops, and the command-line
    client's, made with the same parameters and given the same calls, put out
    the same datagrams and packets in the same order, end in the same state,
    and answer each packet to send alike. *)
Theorem clients_tunnel_alike (calls : list RawCall) now ip port mode mtu cls secure :
  let r := emit_all cli_call calls (CliRawUdpTunnel_init now ip port mode mtu cls secure) in
  let q := mkQt (snd r) (fst r) in
  for_each calls qt_call (RawUdpTunnel_init now ip port mode mtu cls secure) = (Some tt, q) /\
  (forall now p, fst (qt_send now p q) = Some (fst (raw_send now p (snd r)))).
Proof.
  cbv zeta. split; [|intros now' p; by rewrite send_acts]. rewrite init_same.
  exact (acts_for_each calls qt_call cli_call call_acts _).
Qed.
End Tunnel.
