(* ===== verification/GuiChannel.v ===== *)
(** * [class DataChannel] of [client/src/network/data_channel.cpp]

    The graphical client's data channel on a Qt socket.  Qt's part is what its
    documentation says of [QTcpSocket]: a state; [connectToHost] answers later;
    [abort] drops a connection at once and emits [disconnected] if there was
    one; single-shot timers fire once.  Of the slots connected to the channel
    only the one for relayed data calls it again, to send ([RelayHandler]). *)

From S2P Require Import Prelude Protocol Room SecureFrame SecureFrameFacts SignalValidator ByteBuf Overlay TcpConn CliDataChannel ChannelFacts.

Inductive SocketState := SkUnconnected | SkConnecting | SkConnected.
#[export] Instance SocketState_eq_dec : EqDecision SocketState.
Proof. solve_decision. Defined.

(** [qc_frames]: the type and body of every frame written to a socket. *)
Record DataChannel := mkQc {
  qc_state : SocketState;
  qc_keepaliveTimer : bool;
  qc_reconnectTimer : bool;
  qc_recvBuf : bytes;
  qc_host : bytes;
  qc_port : Z;
  qc_peerId : Z;
  qc_established : bool;
  qc_lastRecvTime : Z;
  qc_securityMode : DataPlaneSecurityMode;
  qc_secureSessionId : Z;
  qc_secureMaster : bytes;
  qc_cipher : SecureFrameCipher;
  qc_now : Z;
  qc_frames : list (Z * bytes);
  qc_events : list ChannelEvent
}.
Definition DataChannel_init (now : Z) : DataChannel :=
  mkQc SkUnconnected false false [] [] 0 0 false 0 Unconfigured 0 [] cipher_empty now [] [].
Abbreviation QC A := (SE DataChannel A) (only parsing).
Definition set_qc_state (v : SocketState) (c : DataChannel) : DataChannel :=
  mkQc v c.(qc_keepaliveTimer) c.(qc_reconnectTimer) c.(qc_recvBuf) c.(qc_host) c.(qc_port)
    c.(qc_peerId) c.(qc_established) c.(qc_lastRecvTime) c.(qc_securityMode)
    c.(qc_secureSessionId) c.(qc_secureMaster) c.(qc_cipher) c.(qc_now) c.(qc_frames)
    c.(qc_events).
Definition set_qc_keepaliveTimer (v : bool) (c : DataChannel) : DataChannel :=
  mkQc c.(qc_state) v c.(qc_reconnectTimer) c.(qc_recvBuf) c.(qc_host) c.(qc_port)
    c.(qc_peerId) c.(qc_established) c.(qc_lastRecvTime) c.(qc_securityMode)
    c.(qc_secureSessionId) c.(qc_secureMaster) c.(qc_cipher) c.(qc_now) c.(qc_frames)
    c.(qc_events).
Definition set_qc_reconnectTimer (v : bool) (c : DataChannel) : DataChannel :=
  mkQc c.(qc_state) c.(qc_keepaliveTimer) v c.(qc_recvBuf) c.(qc_host) c.(qc_port)
    c.(qc_peerId) c.(qc_established) c.(qc_lastRecvTime) c.(qc_securityMode)
    c.(qc_secureSessionId) c.(qc_secureMaster) c.(qc_cipher) c.(qc_now) c.(qc_frames)
    c.(qc_events).
Definition set_qc_recvBuf (v : bytes) (c : DataChannel) : DataChannel :=
  mkQc c.(qc_state) c.(qc_keepaliveTimer) c.(qc_reconnectTimer) v c.(qc_host) c.(qc_port)
    c.(qc_peerId) c.(qc_established) c.(qc_lastRecvTime) c.(qc_securityMode)
    c.(qc_secureSessionId) c.(qc_secureMaster) c.(qc_cipher) c.(qc_now) c.(qc_frames)
    c.(qc_events).
Definition set_qc_host (v : bytes) (c : DataChannel) : DataChannel :=
  mkQc c.(qc_state) c.(qc_keepaliveTimer) c.(qc_reconnectTimer) c.(qc_recvBuf) v c.(qc_port)
    c.(qc_peerId) c.(qc_established) c.(qc_lastRecvTime) c.(qc_securityMode)
    c.(qc_secureSessionId) c.(qc_secureMaster) c.(qc_cipher) c.(qc_now) c.(qc_frames)
    c.(qc_events).
Definition set_qc_port (v : Z) (c : DataChannel) : DataChannel :=
  mkQc c.(qc_state) c.(qc_keepaliveTimer) c.(qc_reconnectTimer) c.(qc_recvBuf) c.(qc_host) v
    c.(qc_peerId) c.(qc_established) c.(qc_lastRecvTime) c.(qc_securityMode)
    c.(qc_secureSessionId) c.(qc_secureMaster) c.(qc_cipher) c.(qc_now) c.(qc_frames)
    c.(qc_events).
Definition set_qc_peerId (v : Z) (c : DataChannel) : DataChannel :=
  mkQc c.(qc_state) c.(qc_keepaliveTimer) c.(qc_reconnectTimer) c.(qc_recvBuf) c.(qc_host)
    c.(qc_port) v c.(qc_established) c.(qc_lastRecvTime) c.(qc_securityMode)
    c.(qc_secureSessionId) c.(qc_secureMaster) c.(qc_cipher) c.(qc_now) c.(qc_frames)
    c.(qc_events).
Definition set_qc_established (v : bool) (c : DataChannel) : DataChannel :=
  mkQc c.(qc_state) c.(qc_keepaliveTimer) c.(qc_reconnectTimer) c.(qc_recvBuf) c.(qc_host)
    c.(qc_port) c.(qc_peerId) v c.(qc_lastRecvTime) c.(qc_securityMode)
    c.(qc_secureSessionId) c.(qc_secureMaster) c.(qc_cipher) c.(qc_now) c.(qc_frames)
    c.(qc_events).
Definition set_qc_lastRecvTime (v : Z) (c : DataChannel) : DataChannel :=
  mkQc c.(qc_state) c.(qc_keepaliveTimer) c.(qc_reconnectTimer) c.(qc_recvBuf) c.(qc_host)
    c.(qc_port) c.(qc_peerId) c.(qc_established) v c.(qc_securityMode)
    c.(qc_secureSessionId) c.(qc_secureMaster) c.(qc_cipher) c.(qc_now) c.(qc_frames)
    c.(qc_events).
Definition set_qc_securityMode (v : DataPlaneSecurityMode) (c : DataChannel) : DataChannel :=
  mkQc c.(qc_state) c.(qc_keepaliveTimer) c.(qc_reconnectTimer) c.(qc_recvBuf) c.(qc_host)
    c.(qc_port) c.(qc_peerId) c.(qc_established) c.(qc_lastRecvTime) v
    c.(qc_secureSessionId) c.(qc_secureMaster) c.(qc_cipher) c.(qc_now) c.(qc_frames)
    c.(qc_events).
Definition set_qc_secureSessionId (v : Z) (c : DataChannel) : DataChannel :=
  mkQc c.(qc_state) c.(qc_keepaliveTimer) c.(qc_reconnectTimer) c.(qc_recvBuf) c.(qc_host)
    c.(qc_port) c.(qc_peerId) c.(qc_established) c.(qc_lastRecvTime) c.(qc_securityMode) v
    c.(qc_secureMaster) c.(qc_cipher) c.(qc_now) c.(qc_frames) c.(qc_events).
Definition set_qc_secureMaster (v : bytes) (c : DataChannel) : DataChannel :=
  mkQc c.(qc_state) c.(qc_keepaliveTimer) c.(qc_reconnectTimer) c.(qc_recvBuf) c.(qc_host)
    c.(qc_port) c.(qc_peerId) c.(qc_established) c.(qc_lastRecvTime) c.(qc_securityMode)
    c.(qc_secureSessionId) v c.(qc_cipher) c.(qc_now) c.(qc_frames) c.(qc_events).
Definition set_qc_cipher (v : SecureFrameCipher) (c : DataChannel) : DataChannel :=
  mkQc c.(qc_state) c.(qc_keepaliveTimer) c.(qc_reconnectTimer) c.(qc_recvBuf) c.(qc_host)
    c.(qc_port) c.(qc_peerId) c.(qc_established) c.(qc_lastRecvTime) c.(qc_securityMode)
    c.(qc_secureSessionId) c.(qc_secureMaster) v c.(qc_now) c.(qc_frames) c.(qc_events).
Definition set_qc_now (v : Z) (c : DataChannel) : DataChannel :=
  mkQc c.(qc_state) c.(qc_keepaliveTimer) c.(qc_reconnectTimer) c.(qc_recvBuf) c.(qc_host)
    c.(qc_port) c.(qc_peerId) c.(qc_established) c.(qc_lastRecvTime) c.(qc_securityMode)
    c.(qc_secureSessionId) c.(qc_secureMaster) c.(qc_cipher) v c.(qc_frames) c.(qc_events).
Definition set_qc_frames (v : list (Z * bytes)) (c : DataChannel) : DataChannel :=
  mkQc c.(qc_state) c.(qc_keepaliveTimer) c.(qc_reconnectTimer) c.(qc_recvBuf) c.(qc_host)
    c.(qc_port) c.(qc_peerId) c.(qc_established) c.(qc_lastRecvTime) c.(qc_securityMode)
    c.(qc_secureSessionId) c.(qc_secureMaster) c.(qc_cipher) c.(qc_now) v c.(qc_events).
Definition set_qc_events (v : list ChannelEvent) (c : DataChannel) : DataChannel :=
  mkQc c.(qc_state) c.(qc_keepaliveTimer) c.(qc_reconnectTimer) c.(qc_recvBuf) c.(qc_host)
    c.(qc_port) c.(qc_peerId) c.(qc_established) c.(qc_lastRecvTime) c.(qc_securityMode)
    c.(qc_secureSessionId) c.(qc_secureMaster) c.(qc_cipher) c.(qc_now) c.(qc_frames) v.

(** What the slot for relayed data sends in answer. *)
Class RelayHandler := { relay_answers : Z -> Z -> bytes -> DataChannel -> list (Z * Z * Z * bytes) }.

Section Channel.
Context `{Crypto, RelayHandler}.

Definition qc_emit (e : ChannelEvent) : QC unit := modify (fun c => set_qc_events (qc_events c ++ [e]) c).
Definition qc_connected (c : DataChannel) : bool := bool_decide (qc_state c = SkConnected).
Definition qc_unconnected (c : DataChannel) : bool := bool_decide (qc_state c = SkUnconnected).
Definition qc_isConnected (c : DataChannel) : bool := qc_established c && qc_connected c.
Definition qc_scheduleReconnect : QC unit := modify (set_qc_reconnectTimer true).

Definition qc_onSocketDisconnected : QC unit :=
  modify (set_qc_keepaliveTimer false) ;;;
  c <- gets (fun c => c) ;;
  modify (fun c => set_qc_recvBuf [] (set_qc_established false c)) ;;;
  when (qc_established c) (qc_emit ChannelDisconnected) ;;;
  when (negb (qc_peerId c =? 0)) qc_scheduleReconnect.
(** [m_socket->abort()]. *)
Definition socket_abort : QC unit :=
  c <- gets (fun c => c) ;;
  modify (set_qc_state SkUnconnected) ;;; when (qc_connected c) qc_onSocketDisconnected.
Definition abort_unless_unconnected : QC unit :=
  c <- gets (fun c => c) ;; when (negb (qc_unconnected c)) socket_abort.

Definition qc_connectToServer (host : bytes) (port peerId : Z) : QC unit :=
  c <- gets (fun c => c) ;;
  if bool_decide (qc_securityMode c = Unconfigured) then ret tt else
  modify (fun c => set_qc_reconnectTimer false (set_qc_recvBuf [] (set_qc_established false
            (set_qc_peerId peerId (set_qc_port port (set_qc_host host c)))))) ;;;
  abort_unless_unconnected ;;;
  modify (set_qc_state SkConnecting).
Definition qc_disconnect : QC unit :=
  modify (fun c => set_qc_recvBuf [] (set_qc_port 0 (set_qc_peerId 0 (set_qc_established false
            (set_qc_reconnectTimer false (set_qc_keepaliveTimer false c)))))) ;;;
  abort_unless_unconnected.
Definition qc_clearSecurityContext : QC unit :=
  c <- gets (fun c => c) ;;
  if negb (qc_unconnected c) then ret tt else
  modify (fun c => set_qc_securityMode Unconfigured (set_qc_cipher (reset (qc_cipher c))
            (set_qc_secureSessionId 0 (set_qc_secureMaster [] c)))).
Definition qc_installSecureSession (sessionId : Z) (master : bytes) : QC bool :=
  c <- gets (fun c => c) ;;
  if (sessionId =? qc_secureSessionId c) && (len master =? SECURE_KEY_SIZE) &&
     (len (qc_secureMaster c) =? SECURE_KEY_SIZE) && (crypto_verify32 master (qc_secureMaster c) =? 0)
  then ret true else
  if negb (qc_unconnected c) then ret false else
  if (sessionId =? 0) || negb (len master =? SECURE_KEY_SIZE)
  then qc_clearSecurityContext ;;; ret false else
  modify (fun c => set_qc_securityMode Secure
    (set_qc_cipher (cipher_init (qc_cipher c) master true "data")
    (set_qc_secureMaster master (set_qc_secureSessionId sessionId c)))) ;;;
  ret true.

(** ** Sending *)

Definition QC_EXHAUSTED_TEXT : bytes := bytes_of_string
  "Data channel secure counter exhausted; a new authenticated session is required.".
Definition qc_requestNewSecuritySession : QC unit :=
  qc_disconnect ;;; qc_clearSecurityContext ;;; qc_emit (ChannelSecurityFailure QC_EXHAUSTED_TEXT).
Definition qc_encrypt (plain : bytes) : QC bytes :=
  c <- gets (fun c => c) ;;
  modify (set_qc_cipher (snd (encrypt (qc_cipher c) plain []))) ;;; ret (fst (encrypt (qc_cipher c) plain [])).
(** [m_socket->write] of a header and a body. *)
Definition socket_write (msgType : Z) (body : bytes) : QC unit :=
  modify (fun c => set_qc_frames (qc_frames c ++ [(msgType, body)]) c).
Definition qc_sendMsg (msgType : Z) (body : bytes) : QC unit :=
  c <- gets (fun c => c) ;;
  if negb (qc_connected c) || negb (bool_decide (qc_securityMode c = Secure)) then ret tt else
  if MAX_TCP_MSG_PAYLOAD <? len body then ret tt else
  if bool_decide (qc_securityMode c = Secure) && negb (msgType =? MSG_DATA_CHANNEL_INIT) then
    enc <- qc_encrypt (u8 msgType :: body) ;;
    if bool_decide (enc = []) then qc_requestNewSecuritySession else
    if MAX_TCP_MSG_PAYLOAD <? len enc then ret tt else socket_write MSG_ENCRYPTED enc
  else socket_write msgType body.
Definition qc_sendRelayData (srcPeerId dstPeerId cls : Z) (data : bytes) : QC unit :=
  c <- gets (fun c => c) ;;
  if negb (qc_isConnected c) || bool_decide (qc_securityMode c = Unconfigured) then ret tt else
  qc_sendMsg MSG_TCP_RELAY_DATA
    (writeBytes data (writeU8 (u8 cls) (writeU32 dstPeerId (writeU32 srcPeerId [])))).
Definition qc_onSocketConnected : QC unit :=
  c <- gets (fun c => c) ;;
  if negb (bool_decide (qc_securityMode c = Secure)) then socket_abort else
  enc <- qc_encrypt (writeU32 (qc_peerId c) []) ;;
  if bool_decide (enc = []) then qc_requestNewSecuritySession else
  qc_sendMsg MSG_DATA_CHANNEL_INIT (writeBytes enc (writeBytes (writeU32BE (qc_secureSessionId c)) [])).

(** ** Receiving *)

Definition qc_handleMalformedFrame : QC unit := modify (set_qc_recvBuf []) ;;; abort_unless_unconnected.
Definition qc_decrypt (frame : bytes) : QC (option bytes) :=
  c <- gets (fun c => c) ;;
  modify (set_qc_cipher (snd (decrypt (qc_cipher c) frame []))) ;;; ret (fst (decrypt (qc_cipher c) frame [])).
Definition qc_take {A} (m : SE ByteBuffer A) (b : ByteBuffer) : QC (A * ByteBuffer) :=
  match m b with
  | (Some a, b') => ret (a, b')
  | (None, _) => throw
  end.
Definition qc_relay_received (srcId cls : Z) (data : bytes) : QC unit :=
  qc_emit (ChannelRelayData srcId cls data) ;;;
  answers <- gets (relay_answers srcId cls data) ;;
  for_each answers (fun '(src, dst, cls, data) => qc_sendRelayData src dst cls data).
Definition qc_on_relay_data (payload : bytes) : QC unit :=
  let bb := bb_of payload in
  let* (srcId, bb) := qc_take readU32 bb in
  let* (dstId, bb) := qc_take readU32 bb in
  let* (cls, bb) := qc_take readU8 bb in
  let dataLen := remaining bb in
  let data := drop (Z.to_nat (len payload - dataLen)) payload in
  c <- gets (fun c => c) ;;
  when (dstId =? qc_peerId c) (qc_relay_received srcId cls data).
Definition qc_dispatch (msgType : Z) (payload : bytes) : QC bool :=
  if msgType =? MSG_DATA_CHANNEL_ACK then
    modify (fun c => set_qc_keepaliveTimer true (set_qc_lastRecvTime (qc_now c) (set_qc_established true c))) ;;;
    qc_emit ChannelConnected ;;; ret true
  else if msgType =? MSG_TCP_RELAY_DATA then qc_on_relay_data payload ;;; ret true
  else ret true.
Definition qc_refuse : QC bool := qc_handleMalformedFrame ;;; ret false.
Definition qc_frame (msgType : Z) (payload : bytes) : QC bool :=
  match rs_status (dc_validate msgType payload) with
  | Malformed => qc_refuse
  | UnknownType => ret true
  | Valid =>
      c <- gets (fun c => c) ;;
      if msgType =? MSG_ENCRYPTED then
        if negb (bool_decide (qc_securityMode c = Secure)) then qc_refuse else
        plain <- qc_decrypt payload ;;
        match plain with
        | None | Some [] => qc_refuse
        | Some (innerType :: inner) =>
            match rs_status (dc_validate innerType inner) with
            | Malformed => qc_refuse
            | UnknownType => ret true
            | Valid => qc_dispatch innerType inner
            end
        end
      else qc_refuse
  end.
Definition qc_processMessage (msgType : Z) (payload : bytes) : QC bool := catch (qc_frame msgType payload) qc_refuse.
Fixpoint qc_recv_loop (fuel : nat) : QC unit :=
  match fuel with
  | O => ret tt
  | S n =>
      c <- gets (fun c => c) ;;
      let buf := qc_recvBuf c in
      if len buf <? 3 then ret tt else
      let frame := probeTcpFrame (Some buf) (len buf) in
      match pr_status frame with
      | FrameMalformed => modify (set_qc_recvBuf []) ;;; socket_abort
      | NeedMore => ret tt
      | Ready =>
          let payload := slice 3 (pr_payloadLength frame) buf in
          modify (set_qc_recvBuf (drop (Z.to_nat (pr_frameLength frame)) buf)) ;;;
          go <- qc_processMessage (pr_msgType frame) payload ;;
          c <- gets (fun c => c) ;;
          if negb go || negb (qc_connected c) then ret tt else qc_recv_loop n
      end
  end.
Definition qc_onReadyRead (received : bytes) : QC unit :=
  modify (fun c => set_qc_lastRecvTime (qc_now c) (set_qc_recvBuf (qc_recvBuf c ++ received) c)) ;;;
  c <- gets (fun c => c) ;; qc_recv_loop (length (qc_recvBuf c)).

(** ** Errors and timers *)

Definition qc_onSocketError : QC unit :=
  c <- gets (fun c => c) ;;
  modify (fun c => set_qc_recvBuf [] (set_qc_established false (set_qc_keepaliveTimer false c))) ;;;
  when (negb (qc_connected c)) socket_abort ;;;
  when (qc_established c) (qc_emit ChannelDisconnected) ;;;
  when (negb (qc_peerId c =? 0)) qc_scheduleReconnect.
Definition qc_onKeepaliveTimer : QC unit :=
  c <- gets (fun c => c) ;;
  if negb (qc_isConnected c) then ret tt else
  qc_sendMsg MSG_PING [] ;;;
  c <- gets (fun c => c) ;;
  when (TCP_RELAY_DEAD_MS <? u32 (qc_now c - qc_lastRecvTime c)) socket_abort.
Definition qc_onReconnectTimer : QC unit :=
  c <- gets (fun c => c) ;;
  if (qc_peerId c =? 0) || negb (qc_unconnected c) then ret tt else
  qc_connectToServer (qc_host c) (qc_port c) (qc_peerId c).

(** ** The life of a channel *)

(** The room manager's calls, and what Qt reports.  [QcForget]: it disconnects
    before it clears the security context ([teardownTun]). *)
Inductive QtChannelCall :=
| QcConnect (host : bytes) (port peerId : Z) | QcDisconnect | QcForget
| QcInstall (sessionId : Z) (master : bytes) | QcRelayData (src dst cls : Z) (data : bytes)
| QcSocketConnected | QcConnectFailed | QcRemoteClosed | QcReadyRead (received : bytes)
| QcKeepaliveTimer | QcReconnectTimer | QcPassTime (now : Z).
Definition qc_call (call : QtChannelCall) : QC unit :=
  c <- gets (fun c => c) ;;
  match call with
  | QcConnect host port peerId => qc_connectToServer host port peerId
  | QcDisconnect => qc_disconnect
  | QcForget => qc_disconnect ;;; qc_clearSecurityContext
  | QcInstall sid master => qc_installSecureSession sid master ;;; ret tt
  | QcRelayData src dst cls data => qc_sendRelayData src dst cls data
  | QcSocketConnected =>
      when (bool_decide (qc_state c = SkConnecting)) (modify (set_qc_state SkConnected) ;;; qc_onSocketConnected)
  | QcConnectFailed =>
      when (bool_decide (qc_state c = SkConnecting)) (modify (set_qc_state SkUnconnected) ;;; qc_onSocketError)
  | QcRemoteClosed => when (qc_connected c) (qc_onSocketError ;;; socket_abort)
  | QcReadyRead received => when (qc_connected c) (qc_onReadyRead received)
  | QcKeepaliveTimer => when (qc_keepaliveTimer c) qc_onKeepaliveTimer
  | QcReconnectTimer => when (qc_reconnectTimer c) (modify (set_qc_reconnectTimer false) ;;; qc_onReconnectTimer)
  | QcPassTime now => modify (set_qc_now now)
  end.
Definition qc_life (calls : list QtChannelCall) (now : Z) : DataChannel :=
  fold_left (fun c call => snd (qc_call call c)) calls (DataChannel_init now).
End Channel.

(** ** What holds in every state *)

Section Facts.
Context {HC : Crypto} {HL : CryptoLaws} {HR : RelayHandler}.

Definition qc_context (c : DataChannel) : Prop :=
  counter_ok (qc_cipher c) /\
  match qc_securityMode c with
  | Secure => qc_secureSessionId c <> 0 /\ len (qc_secureMaster c) = SECURE_KEY_SIZE /\
              data_keyed (qc_secureMaster c) (qc_cipher c)
  | Unconfigured => qc_secureSessionId c = 0 /\ qc_secureMaster c = [] /\ m_initialized (qc_cipher c) = false
  end.
Definition qc_level (c : DataChannel) : option Z :=
  match qc_securityMode c with Secure => Some (m_sendCounter (qc_cipher c)) | Unconfigured => None end.
(** From [c0] the session is the same, or gone, and the frames [fs] were sealed
    under it. *)
Definition qc_kept (c0 c : DataChannel) : Prop := qc_securityMode c = Secure ->
  qc_securityMode c0 = Secure /\ qc_secureMaster c = qc_secureMaster c0 /\
  qc_secureSessionId c = qc_secureSessionId c0 /\ send_half (qc_cipher c) = send_half (qc_cipher c0).
Definition qc_since (c0 c : DataChannel) : Prop := qc_kept c0 c /\ exists fs,
  qc_frames c = qc_frames c0 ++ fs /\
  sealed_run (qc_cipher c0) (qc_secureSessionId c0) (m_sendCounter (qc_cipher c0)) (qc_level c) (map (fun f => frame f.1 f.2) fs).
(** There is a connection, one under way, or a timer that will start one. *)
Definition qc_trying (c : DataChannel) : Prop :=
  qc_peerId c <> 0 -> qc_securityMode c = Secure /\ (qc_state c <> SkUnconnected \/ qc_reconnectTimer c = true).
Definition qc_up (c : DataChannel) : Prop :=
  qc_established c = true -> qc_state c = SkConnected /\ qc_keepaliveTimer c = true.
Section FromState.
(** The channel a call starts from. *)
Context (c0 : DataChannel).
Abbreviation qc_sealed := (qc_since c0).
Record qc_ok (c : DataChannel) : Prop := mkQcOk {
  qo_context : qc_context c; qo_sealed : qc_sealed c; qo_trying : qc_trying c; qo_up : qc_up c
}.
(** ... and outside of an attempt to connect. *)
Definition qc_open (c : DataChannel) : Prop := qc_ok c /\ qc_state c <> SkConnecting.

Lemma abort_open c : qc_context c -> qc_sealed c -> (qc_peerId c <> 0 -> qc_securityMode c = Secure) ->
  (qc_state c = SkConnected \/ qc_peerId c = 0 \/ qc_reconnectTimer c = true) ->
  (qc_established c = true -> qc_state c = SkConnected) ->
  qc_open (snd (socket_abort c)).
Proof.
  intros Hc Hs Hp Ht He. destruct c as [st ka rt buf host port peer est last mode sid master cipher now frames events].
  unfold socket_abort, qc_onSocketDisconnected, qc_connected, when, qc_emit, qc_scheduleReconnect, bind, gets, modify, ret. cbn in *.
  destruct (bool_decide (st = SkConnected)) eqn:E; bools; cbn.
  - destruct est; cbn; destruct (Z.eqb_spec peer 0); cbn; (split; [split|]; cbn; [exact Hc|exact Hs| | |done]); unfold qc_trying, qc_up; cbn; try done; auto.
  - split; [|done]. split; [exact Hc|exact Hs| |]; unfold qc_trying, qc_up; cbn; [|by intros ?%He].
    intros Hpe. split; [by apply Hp|right]. destruct Ht as [?|[?|?]]; done.
Qed.
Lemma ok_abort c : qc_open c -> qc_open (snd (socket_abort c)).
Proof.
  intros [[Hc Hs Ht Hu] Hn]. destruct (decide (qc_state c = SkConnected)) as [E|E].
  - apply abort_open; [exact Hc|exact Hs|intros Hp; by apply Ht|by left|intros He; by destruct (Hu He)].
  - assert (qc_state c = SkUnconnected) as E' by (by destruct (qc_state c)).
    apply abort_open; [exact Hc|exact Hs|intros Hp; by apply Ht| |intros He; by destruct (Hu He)].
    destruct (decide (qc_peerId c = 0)); [tauto|]. destruct (Ht n) as [_ [?|?]]; [done|tauto].
Qed.
Lemma ok_abort_unless c : qc_open c -> qc_open (snd (abort_unless_unconnected c)).
Proof. intros Hc. unfold abort_unless_unconnected. rewrite bind_gets. destruct (negb _); [by apply ok_abort|done]. Qed.

(** ** Programs that change other fields, or the cipher *)

(** What [qc_ok] and [qc_open] look at. *)
Definition qc_view (c : DataChannel) :=
  (qc_state c, qc_keepaliveTimer c, qc_reconnectTimer c, qc_peerId c, qc_established c,
   (qc_securityMode c, qc_secureSessionId c, qc_secureMaster c, qc_cipher c, qc_frames c)).
Lemma ok_view c c' : qc_view c' = qc_view c -> qc_ok c -> qc_ok c'.
Proof.
  unfold qc_view. intros [= E1 E2 E3 E4 E5 E6 E7 E8 E9 E10] [H1 H2 H3 H4].
  split; unfold qc_context, qc_since, qc_kept, qc_level, qc_trying, qc_up in *; congruence || by rewrite ?E1, ?E2, ?E3, ?E4, ?E5, ?E6, ?E7, ?E8, ?E9, ?E10.
Qed.
Lemma ok_cipher k c : counter_ok k -> send_half k = send_half (qc_cipher c) -> m_sendCounter (qc_cipher c) <= m_sendCounter k ->
  (forall master, data_keyed master (qc_cipher c) -> data_keyed master k) -> qc_ok c -> qc_ok (set_qc_cipher k c).
Proof.
  intros Hk Eh Hl Hd [[_ H1] [H2 (fs & Ef & Hr)] H3 H4]. split; [split; [exact Hk|]|split|exact H3|exact H4].
  - cbn. destruct (qc_securityMode c); [injection Eh as -> _ _; exact H1|]. destruct H1 as (? & ? & ?); auto.
  - intros Hm. destruct (H2 Hm) as (? & ? & ? & E). split_and!; [done..|]. cbn. by rewrite Eh.
  - exists fs. split; [exact Ef|]. unfold qc_level in *. cbn. destruct (qc_securityMode c); [exact Hr|].
    eapply run_level; [|exact Hr]. by intros h' [= <-].
Qed.
Lemma ok_encrypted p c : qc_ok c -> qc_ok (set_qc_cipher (snd (encrypt (qc_cipher c) p [])) c).
Proof.
  intros Hc. pose proof (encrypt_cases (qc_cipher c) p (proj1 (qo_context _ Hc))) as He.
  pose proof (fun m => data_keyed_encrypt m (qc_cipher c) p []) as Hk. destruct (encrypt (qc_cipher c) p []) as [enc k'].
  destruct He as (Hc' & Eh & He). apply ok_cipher; [exact Hc'|exact Eh| |exact Hk|exact Hc].
  cbn. destruct He as [[_ ->]|(_ & _ & _ & E)]; lia.
Qed.
Lemma ok_decrypted p c : qc_ok c -> qc_ok (set_qc_cipher (snd (decrypt (qc_cipher c) p [])) c).
Proof.
  intros Hc. destruct (decrypt_half (qc_cipher c) p []) as [Eh Ec].
  apply ok_cipher; [|exact Eh|lia|intros m; apply data_keyed_decrypt|exact Hc].
  unfold counter_ok. rewrite Ec. exact (proj1 (qo_context _ Hc)).
Qed.

(** Whether or not an attempt to connect is under way. *)
Definition qc_in (b : bool) (c : DataChannel) : Prop := qc_ok c /\ (b = true -> qc_state c <> SkConnecting).
Lemma open_in c : qc_open c -> qc_in true c.
Proof. intros [? ?]. split; auto. Qed.
Lemma in_open b c : qc_open c -> qc_in b c.
Proof. intros [? ?]. split; auto. Qed.
Lemma in_view b c c' : qc_view c' = qc_view c -> qc_in b c -> qc_in b c'.
Proof. intros E [Hok Hb]. split; [by eapply ok_view|]. unfold qc_view in E. injection E as E _. by rewrite E. Qed.

Lemma disconnect_state c :
  let c' := snd (qc_disconnect c) in
  qc_state c' = SkUnconnected /\ qc_peerId c' = 0 /\ qc_established c' = false /\
  qc_securityMode c' = qc_securityMode c /\ qc_secureSessionId c' = qc_secureSessionId c /\
  qc_secureMaster c' = qc_secureMaster c /\ qc_cipher c' = qc_cipher c /\ qc_frames c' = qc_frames c.
Proof. by destruct c as [[] ? ? ? ? ? ? ? ? ? ? ? ? ? ? ?]. Qed.
Lemma ok_qc_disconnect c : qc_ok c -> qc_open (snd (qc_disconnect c)).
Proof.
  intros [H1 H2 H3 H4]. destruct (disconnect_state c) as (E1 & E2 & E3 & E4 & E5 & E6 & E7 & E8).
  split; [|by rewrite E1]. split; unfold qc_context, qc_since, qc_kept, qc_level, qc_trying, qc_up in *; rewrite ?E1, ?E2, ?E3, ?E4, ?E5, ?E6, ?E7, ?E8; done.
Qed.
Lemma ok_forget c : qc_ok c -> qc_open (snd ((qc_disconnect ;;; qc_clearSecurityContext) c)).
Proof.
  intros [H1 H2 H3 H4]. destruct (disconnect_state c) as (E1 & E2 & E3 & E4 & E5 & E6 & E7 & E8).
  unfold bind at 1. destruct (qc_disconnect c) as [[[]|] c'] eqn:E; [|by destruct c as [[] ? ? ? ? ? ? ? ? ? ? ? ? ? ? ?]].
  cbn [snd] in *. unfold qc_clearSecurityContext. rewrite bind_gets. unfold qc_unconnected. rewrite E1.
  rewrite bool_decide_true by done. cbn [negb modify snd]. split; [|cbn; by rewrite E1].
  split; [split; [unfold counter_ok, UINT64_MAX; cbn; lia|done]|split; [done|]|by intros Hp|].
  - destruct H2 as [_ (fs & Ef & Hr)]. exists fs. split; [cbn; by rewrite E8|].
    unfold qc_level in *. cbn. destruct (qc_securityMode c); [exact Hr|]. by eapply run_level.
  - intros He. cbn in He. congruence.
Qed.

(** ** Sending *)

Lemma bind_qc_encrypt {B} p (k : bytes -> QC B) c :
  bind (qc_encrypt p) k c = k (fst (encrypt (qc_cipher c) p [])) (set_qc_cipher (snd (encrypt (qc_cipher c) p [])) c).
Proof. done. Qed.
Lemma bind_qc_decrypt {B} p (k : option bytes -> QC B) c :
  bind (qc_decrypt p) k c = k (fst (decrypt (qc_cipher c) p [])) (set_qc_cipher (snd (decrypt (qc_cipher c) p [])) c).
Proof. done. Qed.
Lemma in_encrypted b p c : qc_in b c -> qc_in b (set_qc_cipher (snd (encrypt (qc_cipher c) p [])) c).
Proof. intros [Hok Hb]. split; [by apply ok_encrypted|exact Hb]. Qed.
Lemma in_decrypted b p c : qc_in b c -> qc_in b (set_qc_cipher (snd (decrypt (qc_cipher c) p [])) c).
Proof. intros [Hok Hb]. split; [by apply ok_decrypted|exact Hb]. Qed.
(** A frame written after an encryption under the session's cipher. *)
Lemma in_written b t body p c : let enc := fst (encrypt (qc_cipher c) p []) in
  (t = MSG_ENCRYPTED /\ body = enc) \/ (t = MSG_DATA_CHANNEL_INIT /\ body = writeU32BE (qc_secureSessionId c) ++ enc) ->
  enc <> [] -> qc_securityMode c = Secure -> qc_in b c ->
  qc_in b (snd (socket_write t body (set_qc_cipher (snd (encrypt (qc_cipher c) p [])) c))).
Proof.
  cbv zeta. intros Hb Hne Hm Hc. destruct (in_encrypted b p c Hc) as [[H1 [H2 _] H3 H4] Hst]. split; [|exact Hst].
  split; [exact H1| |exact H3|exact H4]. split; [exact H2|]. clear H1 H2 H3 H4 Hst.
  destruct Hc as [[[Hr _] [Hk (fs & Ef & Hrun)] _ _] _]. destruct (Hk Hm) as (_ & _ & Es & Eh).
  exists (fs ++ [(t, body)]). split; [cbn; by rewrite Ef, app_assoc|]. rewrite map_app.
  pose proof (encrypt_cases (qc_cipher c) p Hr) as He. destruct (encrypt (qc_cipher c) p []) as [enc k'].
  cbn [fst snd] in *. destruct He as (_ & _ & [[-> _]|(Hi & Hl & -> & En)]); [done|].
  unfold qc_level in *. cbn. rewrite Hm in *. eapply run_app; [exact Hrun|].
  apply (run_one _ _ _ _ (m_sendCounter (qc_cipher c))); [|lia|intros h [= <-]; lia].
  split; [by injection Eh as <-|]. split; [exact Hl|]. exists p.
  rewrite <- Es, <- (locked_half (qc_cipher c0) (qc_cipher c)) by done. by destruct Hb as [[-> ->]|[-> ->]]; [left|right].
Qed.
Lemma in_exhausted b c : qc_ok c -> qc_in b (snd (qc_requestNewSecuritySession c)).
Proof.
  intros Hc. unfold qc_requestNewSecuritySession. rewrite <- bind_assoc. pose proof (ok_forget c Hc) as Ho.
  unfold bind at 1. destruct ((qc_disconnect ;;; qc_clearSecurityContext) c) as [[[]|] c'] eqn:E; apply (in_open b) in Ho; cbn [snd] in *; [|exact Ho].
  by apply (in_view b c').
Qed.
Lemma in_sendMsg b t body c : t <> MSG_DATA_CHANNEL_INIT -> qc_in b c -> qc_in b (snd (qc_sendMsg t body c)).
Proof.
  intros Ht Hc. unfold qc_sendMsg. rewrite bind_gets. destruct (negb _ || _) eqn:E; [exact Hc|].
  destruct (_ <? _); [exact Hc|]. bools. rewrite bool_decide_true, (proj2 (Z.eqb_neq t _)) by done. cbn [andb negb].
  rewrite bind_qc_encrypt. pose proof (in_encrypted b (u8 t :: body) c Hc) as Hc'.
  case_bool_decide; [by apply in_exhausted, Hc'|]. destruct (_ <? _); [exact Hc'|]. apply in_written; [by left|done..].
Qed.
Lemma in_sendRelayData b src dst cls data c : qc_in b c -> qc_in b (snd (qc_sendRelayData src dst cls data c)).
Proof. intros Hc. unfold qc_sendRelayData. rewrite bind_gets. destruct (_ || _); [exact Hc|]. by apply in_sendMsg. Qed.
Lemma ok_connected c : qc_ok c -> qc_state c = SkConnected -> qc_ok (snd (qc_onSocketConnected c)).
Proof.
  intros Hc Hst. unfold qc_onSocketConnected. rewrite bind_gets. destruct (bool_decide _) eqn:Em; cbn [negb]; bools.
  2:{ apply ok_abort. split; [exact Hc|by rewrite Hst]. }
  rewrite bind_qc_encrypt. pose proof (ok_encrypted (writeU32 (qc_peerId c) []) c Hc) as Hc'.
  case_bool_decide; [by apply (in_exhausted false)|]. unfold qc_sendMsg. rewrite bind_gets.
  destruct (negb _ || _); [exact Hc'|]. destruct (_ <? _); [exact Hc'|]. rewrite Z.eqb_refl, andb_false_r.
  apply (in_written false); [by right|done|done|by split].
Qed.

(** ** Receiving *)

Abbreviation keeps_open m := (keeps qc_open m).
Lemma open_view c c' : qc_view c' = qc_view c -> qc_open c -> qc_open c'.
Proof. intros E Hc. destruct (in_view true c c' E (open_in c Hc)) as [? Hn]. split; auto. Qed.
Lemma ko_modify f : (forall c, qc_view (f c) = qc_view c) -> keeps_open (modify f).
Proof. intros Hf c Hc. exact (open_view c (f c) (Hf c) Hc). Qed.
Lemma ko_emit e : keeps_open (qc_emit e).
Proof. by apply ko_modify. Qed.
Lemma ko_sendRelayData src dst cls data : keeps_open (qc_sendRelayData src dst cls data).
Proof. intros c Hc. destruct (in_sendRelayData true src dst cls data c (open_in c Hc)). split; auto. Qed.
Lemma ko_refuse : keeps_open qc_refuse.
Proof.
  unfold qc_refuse, qc_handleMalformedFrame. apply keeps_bind; [|intros; apply keeps_ret].
  apply keeps_bind; [by apply ko_modify|]. intros _ c. apply ok_abort_unless.
Qed.
Lemma ko_relay p : keeps_open (qc_on_relay_data p).
Proof.
  assert (forall A (m : SE ByteBuffer A) b, keeps_open (qc_take m b)) as Ht.
  { intros A m b. unfold qc_take. destruct (m b) as [[?|] ?]; [apply keeps_ret|apply keeps_throw]. }
  unfold qc_on_relay_data. do 3 (apply keeps_bind; [apply Ht|intros [? ?]]).
  apply keeps_bind; [apply keeps_gets|]. intros c1. apply keeps_when. unfold qc_relay_received.
  apply keeps_bind; [apply ko_emit|]. intros _. apply keeps_bind; [apply keeps_gets|]. intros l.
  apply keeps_for_each. intros [[[? ?] ?] ?]. apply ko_sendRelayData.
Qed.
Lemma open_dispatch t p c : qc_ok c -> qc_state c = SkConnected -> qc_open (snd (qc_dispatch t p c)).
Proof.
  intros Hc Hst. assert (qc_open c) as Ho by (split; [exact Hc|by rewrite Hst]). unfold qc_dispatch.
  destruct (t =? _).
  - rewrite bind_modify. refine (keeps_bind _ _ _ (ko_emit _) (fun _ => keeps_ret _ _) _ _).
    split; [|cbn; by rewrite Hst]. destruct Hc as [H1 H2 H3 H4]. by split.
  - destruct (t =? _); [|exact Ho]. exact (keeps_bind _ _ _ (ko_relay p) (fun _ => keeps_ret _ _) c Ho).
Qed.
Lemma open_processMessage t p c : qc_ok c -> qc_state c = SkConnected -> qc_open (snd (qc_processMessage t p c)).
Proof.
  intros Hc Hst. assert (qc_open c) as Ho by (split; [exact Hc|by rewrite Hst]).
  assert (qc_open (snd (qc_frame t p c))) as Hf.
  { unfold qc_frame. destruct (rs_status _); [|exact Ho|by apply ko_refuse]. rewrite bind_gets.
    destruct (t =? _); [|by apply ko_refuse]. destruct (negb _); [by apply ko_refuse|]. rewrite bind_qc_decrypt.
    pose proof (ok_decrypted p c Hc) as Hd.
    match goal with |- qc_open (snd (_ ?x)) => assert (qc_open x) as Hx by (split; [exact Hd|cbn; by rewrite Hst]) end.
    destruct (fst (decrypt _ _ _)) as [[|ti inner]|]; [by apply ko_refuse| |by apply ko_refuse].
    destruct (rs_status _); [|exact Hx|by apply ko_refuse]. by apply open_dispatch. }
  unfold qc_processMessage, catch. destruct (qc_frame t p c) as [[b|] c']; [exact Hf|]. by apply ko_refuse.
Qed.
Lemma open_recv_loop fuel c : qc_ok c -> qc_state c = SkConnected -> qc_open (snd (qc_recv_loop fuel c)).
Proof.
  revert c. induction fuel as [|n IH]; intros c Hc Hst; cbn [qc_recv_loop];
    (assert (qc_open c) as Ho by (split; [exact Hc|by rewrite Hst])); [exact Ho|].
  rewrite bind_gets. destruct (_ <? 3); [exact Ho|]. destruct (pr_status _); [exact Ho| |].
  - rewrite bind_modify. match goal with |- qc_open (snd (bind ?m _ ?x)) =>
      pose proof (open_processMessage (pr_msgType (probeTcpFrame (Some (qc_recvBuf c)) (len (qc_recvBuf c))))
        (slice 3 (pr_payloadLength (probeTcpFrame (Some (qc_recvBuf c)) (len (qc_recvBuf c)))) (qc_recvBuf c)) x
        (ok_view c x eq_refl Hc) Hst) as Hp end.
    unfold bind at 1. destruct (qc_processMessage _ _ _) as [[go|] c']; [|exact Hp]. cbn [snd] in Hp.
    rewrite bind_gets. destruct (negb go || _) eqn:E; [exact Hp|]. unfold qc_connected in E. bools. apply IH; [apply Hp|done].
  - rewrite bind_modify. apply ok_abort. by apply (open_view c).
Qed.

(** ** The loop ends: the length of the buffer is enough fuel *)

Definition shrinks (c c' : DataChannel) : Prop := qc_recvBuf c' = qc_recvBuf c \/ qc_recvBuf c' = [].
#[export] Instance shrinks_preorder : PreOrder shrinks.
Proof. split; [by left|]. intros c1 c2 c3 [E1|E1] [E2|E2]; unfold shrinks; rewrite E2; auto. Qed.
#[local] Hint Extern 1 (moves shrinks (gets _)) => apply moves_gets, _ : vlan.
#[local] Hint Extern 1 (moves shrinks (ret _)) => apply moves_ret, _ : vlan.
#[local] Hint Extern 1 (moves shrinks throw) => apply moves_throw, _ : vlan.
#[local] Hint Extern 1 (moves shrinks (modify _)) => apply moves_modify; intros; first [by left|by right] : vlan.
Lemma sh_abort : moves shrinks socket_abort.
Proof. unfold socket_abort, qc_onSocketDisconnected, qc_emit, qc_scheduleReconnect. walk. Qed.
#[local] Hint Resolve sh_abort : vlan.
Lemma sh_requestNew : moves shrinks qc_requestNewSecuritySession.
Proof. unfold qc_requestNewSecuritySession, qc_disconnect, abort_unless_unconnected, qc_clearSecurityContext, qc_emit. walk. Qed.
#[local] Hint Resolve sh_requestNew : vlan.
Lemma sh_sendRelayData src dst cls data : moves shrinks (qc_sendRelayData src dst cls data).
Proof. unfold qc_sendRelayData, qc_sendMsg, qc_encrypt, socket_write. walk. Qed.
Lemma sh_take {A} (m : SE ByteBuffer A) b : moves shrinks (qc_take m b).
Proof. unfold qc_take. walk. Qed.
Lemma sh_refuse : moves shrinks qc_refuse.
Proof. unfold qc_refuse, qc_handleMalformedFrame, abort_unless_unconnected. walk. Qed.
#[local] Hint Resolve sh_sendRelayData sh_take sh_refuse : vlan.
Lemma sh_processMessage t p : moves shrinks (qc_processMessage t p).
Proof.
  unfold qc_processMessage, qc_frame, qc_decrypt, qc_dispatch, qc_on_relay_data, qc_relay_received, qc_emit. walk.
Qed.
Lemma qc_loop_fuel fuel k c :
  bytes_ok (qc_recvBuf c) -> (length (qc_recvBuf c) <= fuel)%nat ->
  qc_recv_loop (fuel + k) c = qc_recv_loop fuel c.
Proof.
  revert c. induction fuel as [|fuel IH]; intros c Hb Hl.
  - destruct k as [|k]; [done|]. cbn [Nat.add qc_recv_loop]. rewrite bind_gets.
    by rewrite (proj2 (Z.ltb_lt _ 3)) by (unfold len; lia).
  - cbn [Nat.add qc_recv_loop]. rewrite !bind_gets. destruct (Z.ltb_spec (len (qc_recvBuf c)) 3); [done|].
    destruct (pr_status _) eqn:Es; [done| |done]. pose proof (ready_length _ Hb ltac:(lia) Es) as Hf.
    rewrite !bind_modify. cbv zeta. match goal with |- bind ?m _ ?x = _ =>
      assert (shrinks x (snd (m x))) as Hs by apply sh_processMessage end.
    unfold bind at 1 3. destruct (qc_processMessage _ _ _) as [[go|] c1]; [|done]. cbn [snd] in Hs.
    rewrite !bind_gets. destruct (negb go || _); [done|].
    apply IH; destruct Hs as [E|E]; rewrite E; cbn; [by apply Forall_drop|constructor| |lia].
    rewrite length_drop. lia.
Qed.

(** ** The whole interface *)

(** Dropping a connection that is not established changes nothing else. *)
Lemma abort_unless_state c : qc_established c = false ->
  let c' := snd (abort_unless_unconnected c) in
  fst (abort_unless_unconnected c) = Some tt /\
  qc_peerId c' = qc_peerId c /\ qc_established c' = false /\ qc_securityMode c' = qc_securityMode c /\
  qc_secureSessionId c' = qc_secureSessionId c /\ qc_secureMaster c' = qc_secureMaster c /\
  qc_cipher c' = qc_cipher c /\ qc_frames c' = qc_frames c.
Proof.
  destruct c as [[] ? ? ? ? ? peer est ? ? ? ? ? ? ? ?]; cbn; intros ->; [done|done|].
  unfold abort_unless_unconnected, socket_abort, qc_onSocketDisconnected, qc_scheduleReconnect, qc_connected, qc_unconnected, when, bind, gets, modify, ret.
  rewrite bool_decide_false by done. cbn [negb]. rewrite bool_decide_true by done. cbn.
  by destruct (peer =? 0).
Qed.
Lemma ok_connectToServer host port peer c : qc_context c -> qc_sealed c -> qc_securityMode c = Secure ->
  qc_ok (snd (qc_connectToServer host port peer c)).
Proof.
  intros Hc Hs Hm. unfold qc_connectToServer. rewrite bind_gets, Hm. rewrite bool_decide_false by done.
  rewrite bind_modify. match goal with |- qc_ok (snd (bind _ _ ?x)) => set (c1 := x) end.
  destruct (abort_unless_state c1 eq_refl) as (Er & E1 & E2 & E3 & E4 & E5 & E6 & E7).
  unfold bind. destruct (abort_unless_unconnected c1) as [r c2]. cbn [fst snd] in *. subst r.
  split; unfold qc_context, qc_since, qc_kept, qc_level, qc_trying, qc_up in *; cbn; rewrite ?E3, ?E4, ?E5, ?E6, ?E7, ?E2; [exact Hc|exact Hs| |done].
  intros _. split; [exact Hm|by left].
Qed.
Definition qc_installs (call : QtChannelCall) : bool := match call with QcInstall _ _ => true | _ => false end.
Lemma ok_error c : qc_context c -> qc_sealed c -> (qc_peerId c <> 0 -> qc_securityMode c = Secure) ->
  qc_ok (snd (qc_onSocketError c)) /\ qc_state (snd (qc_onSocketError c)) <> SkConnecting /\ fst (qc_onSocketError c) = Some tt.
Proof.
  intros Hc Hs Hp. destruct c as [st ka rt buf host port peer est last mode sid master cipher now frames events].
  unfold qc_onSocketError, socket_abort, qc_connected, when, qc_emit, qc_scheduleReconnect, bind, gets, modify, ret. cbn in *.
  destruct st; cbn; destruct est; cbn; destruct (Z.eqb_spec peer 0); cbn; (split_and!; [|done|done]); (split; [exact Hc|exact Hs| |]);
    unfold qc_trying, qc_up; cbn; try done; auto.
Qed.
Lemma ok_call call c : qc_installs call = false -> qc_ok c -> qc_ok (snd (qc_call call c)).
Proof.
  intros Hg Hc. unfold qc_call. rewrite bind_gets. destruct call; try discriminate.
  - destruct (qc_securityMode c) eqn:Em; [|exact (ok_connectToServer _ _ _ _ (qo_context _ Hc) (qo_sealed _ Hc) Em)].
    unfold qc_connectToServer. rewrite bind_gets, Em. exact Hc.
  - by apply ok_qc_disconnect.
  - by apply ok_forget.
  - apply (in_sendRelayData false). by split.
  - destruct (bool_decide _) eqn:E; [|exact Hc]. bools. cbn [when]. rewrite bind_modify. apply ok_connected; [|done].
    destruct Hc as [H1 H2 H3 H4]. split; [exact H1|exact H2| |].
    + intros Hp. split; [by apply H3|by left].
    + intros He. destruct (H4 He). congruence.
  - destruct (bool_decide _) eqn:E; [|exact Hc]. bools. cbn [when]. rewrite bind_modify. destruct Hc as [H1 H2 H3 H4].
    refine (proj1 (ok_error (set_qc_state SkUnconnected c) H1 H2 _)). intros Hp. by apply H3.
  - destruct (qc_connected c); [|exact Hc]. cbn [when]. destruct Hc as [H1 H2 H3 H4].
    destruct (ok_error c H1 H2) as (Ho & Hn & Er); [intros Hp; by apply H3|].
    unfold bind. destruct (qc_onSocketError c) as [r c']. cbn [fst snd] in *. subst r. by apply ok_abort.
  - destruct (qc_connected c) eqn:E; [|exact Hc]. unfold qc_connected in E. bools. cbn [when]. unfold qc_onReadyRead.
    rewrite bind_modify, bind_gets. apply open_recv_loop; [by apply (ok_view c)|done].
  - destruct (qc_keepaliveTimer c); [|exact Hc]. cbn [when]. unfold qc_onKeepaliveTimer. rewrite bind_gets.
    destruct (negb _) eqn:E; [exact Hc|]. unfold qc_isConnected, qc_connected in E. bools.
    assert (qc_open c) as Ho by (split; [exact Hc|congruence]).
    refine (proj1 (keeps_bind qc_open _ _ _ _ c Ho)).
    + intros c1 H1. destruct (in_sendMsg true MSG_PING [] c1 ltac:(done) (open_in _ H1)). split; auto.
    + intros _. apply keeps_bind; [apply keeps_gets|]. intros c2. apply keeps_when. intros c3. apply ok_abort.
  - destruct (qc_reconnectTimer c) eqn:Et; [|exact Hc]. cbn [when]. rewrite bind_modify. unfold qc_onReconnectTimer. rewrite bind_gets.
    cbn [qc_peerId set_qc_reconnectTimer]. destruct (Z.eqb_spec (qc_peerId c) 0) as [Ep|Ep]; cbn [orb].
    { destruct Hc as [H1 H2 H3 H4]. split; [exact H1|exact H2| |exact H4]. intros Hp. by destruct Hp. }
    unfold qc_unconnected. cbn [qc_state]. destruct (bool_decide _) eqn:Es; cbn [negb]; bools.
    + destruct (qo_trying c Hc Ep) as [Hm _]. exact (ok_connectToServer _ _ _ (set_qc_reconnectTimer false c) (qo_context _ Hc) (qo_sealed _ Hc) Hm).
    + destruct Hc as [H1 H2 H3 H4]. split; [exact H1|exact H2| |exact H4]. intros Hp. split; [by apply H3|by left].
  - by apply (ok_view c).
Qed.
End FromState.

(** ** Every state *)

Definition good_call (call : QtChannelCall) : Prop :=
  match call with QcInstall sid master => sid <> 0 /\ len master = SECURE_KEY_SIZE | _ => True end.
Definition qc_steady (c : DataChannel) : Prop := qc_context c /\ qc_trying c /\ qc_up c.
Lemma qc_steady_ok c : qc_steady c -> qc_ok c c.
Proof.
  intros (Hc & Ht & Hu). split; [exact Hc| |exact Ht|exact Hu]. split; [by intros Hm|]. exists [].
  rewrite app_nil_r. split; [done|]. apply run_nothing. unfold qc_level. destruct (qc_securityMode c); [done|]. intros h [= <-]. lia.
Qed.
(** Installing a session writes nothing. *)
Lemma qc_install_ok sid master c : sid <> 0 -> len master = SECURE_KEY_SIZE -> qc_steady c ->
  let c' := snd (qc_installSecureSession sid master c) in qc_steady c' /\ qc_frames c' = qc_frames c.
Proof.
  cbv zeta. intros Hs Hl Hc. unfold qc_installSecureSession. rewrite bind_gets. destruct (_ && _ && _ && _); [by split|].
  destruct (negb _); [by split|]. rewrite (proj2 (Z.eqb_neq sid 0)), (proj2 (Z.eqb_eq (len master) _)) by done. cbn [orb negb].
  destruct Hc as ([H1 _] & H2 & H3). split; [|done]. split_and!; [|intros Hp; split; [done|exact (proj2 (H2 Hp))]|exact H3].
  split; [by apply counter_init|]. cbn. split_and!; [done|done|apply data_keyed_init].
Qed.
Lemma steady_call call c : good_call call -> qc_steady c -> let c' := snd (qc_call call c) in
  qc_steady c' /\ if qc_installs call then qc_frames c' = qc_frames c else qc_since c c'.
Proof.
  intros Hg Hc. cbv zeta. destruct (qc_installs call) eqn:Ei.
  - destruct call as [| | |sid master| | | | | | | |]; try discriminate. destruct Hg as [Hs Hl].
    destruct (qc_install_ok sid master c Hs Hl Hc) as [H1 H2]. unfold qc_call. rewrite bind_gets. unfold bind.
    by destruct (qc_installSecureSession sid master c) as [[?|] c'].
  - by destruct (ok_call c call c Ei (qc_steady_ok c Hc)).
Qed.
Lemma steady_life calls now : Forall good_call calls -> qc_steady (qc_life calls now).
Proof.
  unfold qc_life. assert (qc_steady (DataChannel_init now)) as Hi by (split_and!; [split; [unfold counter_ok, UINT64_MAX; cbn; lia|done]|done|done]).
  revert Hi. generalize (DataChannel_init now). induction calls as [|call calls IH]; intros c Hc Hg; [exact Hc|].
  apply Forall_cons in Hg as [Hg Hgs]. apply IH; [by apply steady_call|exact Hgs].
Qed.

(** C13: the data channel of the graphical client is sealed and does not give
    up.  In every state it reaches by the room manager's calls (sessions with an
    id and a 32-octet master) and what the socket and the timers report, in any
    order: a secure channel has a session id, a 32-octet master and a cipher with
    that master's data keys, and installing a session writes nothing; what any
    other call writes to the socket are whole frames, each the lock of a
    message under the key and nonce seed of the cipher the channel has (after the
    session id, for the one that opens it), with counters that rise from the
    cipher's on and stay below the one it is left with.  While a peer is set, a session is
    installed and there is a connection, one under way, or a running timer that
    will start one; and an established channel is connected, with its keep-alive
    running. *)
Theorem gui_channel_sealed_and_trying calls now :
  Forall good_call calls ->
  let c := qc_life calls now in
  qc_context c /\
  (forall call, good_call call -> let c' := snd (qc_call call c) in
     if qc_installs call then qc_frames c' = qc_frames c
     else qc_kept c c' /\ exists fs, qc_frames c' = qc_frames c ++ fs /\
       sealed_run (qc_cipher c) (qc_secureSessionId c) (m_sendCounter (qc_cipher c)) (qc_level c')
         (map (fun f => frame f.1 f.2) fs)) /\
  (qc_peerId c <> 0 -> qc_securityMode c = Secure /\ (qc_state c <> SkUnconnected \/ qc_reconnectTimer c = true)) /\
  (qc_established c = true -> qc_state c = SkConnected /\ qc_keepaliveTimer c = true).
Proof.
  intros Hg. cbv zeta. pose proof (steady_life calls now Hg) as Hc. split_and!; [apply Hc| |apply Hc|apply Hc].
  intros call Hcall. exact (proj2 (steady_call call _ Hcall Hc)).
Qed.
End Facts.

(** ** A run *)

#[local] Existing Instances ToyCrypto ToyCryptoLaws.
Definition echo_handler : RelayHandler := {| relay_answers := fun src cls data c => [(qc_peerId c, src, cls, data)] |}.
#[local] Existing Instance echo_handler.
(** The channel opens, is acknowledged, answers relayed data and is lost. *)
Definition demo_qt_sealed (msg : bytes) (ctr : SecureFrameCipher) : bytes * SecureFrameCipher :=
  let '(enc, k) := encrypt ctr msg [] in (frame MSG_ENCRYPTED enc, k).
Definition demo_qt_calls : list QtChannelCall :=
  let k := cipher_init cipher_empty (replicate 32 5) false "data" in
  let '(ack, k) := demo_qt_sealed [MSG_DATA_CHANNEL_ACK] k in
  let '(relayed, k) := demo_qt_sealed (MSG_TCP_RELAY_DATA :: be_bytes 4 9 ++ be_bytes 4 42 ++ [1; 7; 7]) k in
  [QcInstall 7 (replicate 32 5); QcConnect [] 9000 42; QcSocketConnected; QcReadyRead (ack ++ relayed); QcKeepaliveTimer; QcRemoteClosed].
Example demo_qt_channel :
  let c := qc_life demo_qt_calls 100 in
  map fst (qc_frames c) = [MSG_DATA_CHANNEL_INIT; MSG_ENCRYPTED; MSG_ENCRYPTED] /\
  qc_events c = [ChannelConnected; ChannelRelayData 9 1 [7; 7]; ChannelDisconnected] /\
  qc_established (qc_life (take 5 demo_qt_calls) 100) = true.
Proof. split_and!; by vm_compute. Qed.
Lemma gui_channel_sealed_and_trying_witness :
  let c := qc_life demo_qt_calls 100 in
  qc_state c = SkUnconnected /\ qc_reconnectTimer c = true.
Proof.
  cbv zeta. assert (qc_state (qc_life demo_qt_calls 100) = SkUnconnected) as E by by vm_compute. split; [exact E|].
  destruct (gui_channel_sealed_and_trying demo_qt_calls 100) as (_ & _ & Ht & _).
  - repeat constructor; done.
  - destruct (Ht ltac:(by vm_compute)) as [_ [Hn|Hn]]; [by destruct Hn|exact Hn].
Defined.
