(* ===== verification/GuiTun.v ===== *)
(** * [client/src/core/tun_lifecycle_task.h]: [class GuiTunLifecycleTask]

    The graphical client prepares its adapter on a thread of its own as well.
    The thread owns the adapter from its creation to its destruction; the rest
    of the program borrows the pointer it publishes in a snapshot, and gives it
    back by asking the thread to stop.  [gui_run] is one step of that thread:
    a native call, or an access to what the threads share.  [RoomTaskControl]
    and the outcomes of native calls are those of [TunJob]. *)

From S2P Require Import Prelude TunJob.

(** ** State *)

(** [struct Snapshot]; [gs_adapter]: whether the pointer is set. *)
Record GuiSnapshot := mkGuiSnapshot {
  gs_ready : bool;
  gs_done : bool;
  gs_failed : bool;
  gs_phase : string;
  gs_error : bytes;
  gs_adapter : bool
}.
Definition GuiSnapshot_init : GuiSnapshot := mkGuiSnapshot false false false "" [] false.

(** Where the thread is.  [dl] is [readinessDeadline]; waiting on [wake]
    without a limit is testing the predicate ([GTest]), having found it false
    ([GTested]) and being blocked ([GBlocked]). *)
Inductive GuiPc :=
| GStart
| GAsk (c : JobCall) | GNative (c : JobCall) | GChecked (c : JobCall) (ok : bool)
| GBeginReadiness | GLoop (dl : Z) | GPoll (dl : Z) | GPolled (dl : Z) (r : Readiness)
| GJudge (dl : Z) (r : Readiness) | GSleep (dl : Z)
| GVerdict (ok : bool) | GAnnounce | GPublish | GNoDeadline | GHold | GWatch | GWatched (failure : bytes)
| GFailed | GLast | GTest | GTested | GBlocked
| GCleanPhase | GCleanup | GRelease | GFinal | GEnd.
#[export] Instance GuiPc_eq_dec : EqDecision GuiPc.
Proof. solve_decision. Defined.

(** [gl_owner]: the backend exists; [gl_alive]: the adapter it owns exists. *)
Record GuiTunLifecycleTask := mkGuiTask {
  gl_value : GuiSnapshot;
  gl_control : RoomTaskControl;
  gl_owner : bool;
  gl_alive : bool;
  gl_runtimeError : bytes;
  gl_error : bytes;
  gl_pc : GuiPc
}.
Definition set_gl_pc (v : GuiPc) (t : GuiTunLifecycleTask) : GuiTunLifecycleTask :=
  mkGuiTask (gl_value t) (gl_control t) (gl_owner t) (gl_alive t) (gl_runtimeError t) (gl_error t) v.
Definition set_gl_value (v : GuiSnapshot) (t : GuiTunLifecycleTask) : GuiTunLifecycleTask :=
  mkGuiTask v (gl_control t) (gl_owner t) (gl_alive t) (gl_runtimeError t) (gl_error t) (gl_pc t).
Definition set_gl_error (v : bytes) (t : GuiTunLifecycleTask) : GuiTunLifecycleTask :=
  mkGuiTask (gl_value t) (gl_control t) (gl_owner t) (gl_alive t) (gl_runtimeError t) v (gl_pc t).
Definition set_gl_control (v : RoomTaskControl) (t : GuiTunLifecycleTask) : GuiTunLifecycleTask :=
  mkGuiTask (gl_value t) v (gl_owner t) (gl_alive t) (gl_runtimeError t) (gl_error t) (gl_pc t).
Definition set_gl_owned (owner alive : bool) (t : GuiTunLifecycleTask) : GuiTunLifecycleTask :=
  mkGuiTask (gl_value t) (gl_control t) owner alive (gl_runtimeError t) (gl_error t) (gl_pc t).
Definition GuiTunLifecycleTask_init (control : RoomTaskControl) : GuiTunLifecycleTask :=
  mkGuiTask GuiSnapshot_init control false false [] [] GStart.

(** ** What the rest of the program does *)

Definition gui_snapshot (t : GuiTunLifecycleTask) : GuiSnapshot := gl_value t.
Definition gui_cancelled (t : GuiTunLifecycleTask) : bool := rc_cancelRequested (gl_control t).
Definition cancel_control (c : RoomTaskControl) : RoomTaskControl :=
  mkControl true (rc_deadlineMs c) (rc_operationId c) (rc_connectionGeneration c).
(** [requestCancel]: the flag, then [notify_all], without the mutex. *)
Definition gui_requestCancel (t : GuiTunLifecycleTask) : GuiTunLifecycleTask :=
  set_gl_pc (match gl_pc t with GBlocked => GTest | pc => pc end)
    (set_gl_control (cancel_control (gl_control t)) t).
(** [errorOccurred] of the adapter, on any thread: the first message is kept. *)
Definition gui_runtime_error (message : bytes) (t : GuiTunLifecycleTask) : GuiTunLifecycleTask :=
  if gl_alive t && bool_decide (gl_runtimeError t = [])
  then mkGuiTask (gl_value t) (gl_control t) (gl_owner t) (gl_alive t) message (gl_error t) (gl_pc t) else t.

(** ** The thread *)

Definition gui_allowed (now : Z) (t : GuiTunLifecycleTask) : bool := rc_allowed now (gl_control t).
Definition gui_phase (name : string) (t : GuiTunLifecycleTask) : GuiTunLifecycleTask :=
  let s := gl_value t in
  set_gl_value (mkGuiSnapshot (gs_ready s) (gs_done s) (gs_failed s) name (gs_error s) (gs_adapter s)) t.
Definition gui_report_failure (error : bytes) (t : GuiTunLifecycleTask) : GuiTunLifecycleTask :=
  let s := gl_value t in
  set_gl_value (mkGuiSnapshot (gs_ready s) (gs_done s) true (gs_phase s) error (gs_adapter s)) t.
(** The handlers of the outer [try]. *)
Definition gui_threw (what : bytes) (t : GuiTunLifecycleTask) : GuiTunLifecycleTask :=
  set_gl_pc GLast (gui_report_failure what t).

Definition call_phase (c : JobCall) : string :=
  match c with
  | CallInitialize => "adapter-create"
  | CallConfigure => "network-configure"
  | CallStart => "session-start"
  end.
(** [*error], when [NativeGuiTunLifecycleBackend] has failed. *)
Definition call_error (c : JobCall) (configurationError : bytes) : bytes :=
  match c with
  | CallInitialize => bytes_of_string "Virtual adapter initialization failed."
  | CallConfigure => configurationError
  | CallStart => bytes_of_string "Virtual adapter session could not start."
  end.
Definition next_stage (c : JobCall) (t : GuiTunLifecycleTask) : GuiTunLifecycleTask :=
  match c with
  | CallInitialize => set_gl_pc (GAsk CallConfigure) (gui_phase (call_phase CallConfigure) t)
  | CallConfigure => set_gl_pc (GAsk CallStart) (gui_phase (call_phase CallStart) t)
  | CallStart => set_gl_pc GBeginReadiness (gui_phase "waiting-readiness" t)
  end.
(** [new TunAdapter()] comes first in [initialize]; [made]: it was reached
    when the call threw. *)
Definition gui_after_native (c : JobCall) (made : bool) (r : NativeResult) (t : GuiTunLifecycleTask)
    : GuiTunLifecycleTask :=
  match c with
  | CallInitialize => set_gl_owned (gl_owner t) (match r with NativeThrew _ => made | _ => true end) t
  | _ => t
  end.
(** [readiness] of the backend: a runtime error, or [pollReadiness]. *)
Definition gui_readiness (r : NativeResult) (t : GuiTunLifecycleTask) : Readiness :=
  if negb (bool_decide (gl_runtimeError t = [])) then NetworkFailed (gl_runtimeError t) else
  match r with NativeOk => NetworkReady | NativeFailed e => NetworkFailed e | _ => NotYet end.
Definition READINESS_TIMED_OUT : bytes := bytes_of_string "Virtual adapter readiness timed out.".

(** One step; [r] is the outcome of the native call, if the step makes one. *)
Definition gui_run (now : Z) (r : NativeResult) (made : bool) (t : GuiTunLifecycleTask) : GuiTunLifecycleTask :=
  let may_throw t' := match r with NativeThrew what => gui_threw what t | _ => t' end in
  match gl_pc t with
  | GStart => may_throw (set_gl_pc (GAsk CallInitialize)
                (gui_phase (call_phase CallInitialize) (set_gl_owned true (gl_alive t) t)))
  | GAsk c => set_gl_pc (if gui_allowed now t then GNative c else GVerdict false) t
  | GNative c =>
      let t := gui_after_native c made r t in
      match r with
      | NativeThrew what => gui_threw what t
      | NativeOk => set_gl_pc (GChecked c true) t
      | NativePending => set_gl_pc (GChecked c false) (set_gl_error (call_error c []) t)
      | NativeFailed e => set_gl_pc (GChecked c false) (set_gl_error (call_error c e) t)
      end
  | GChecked c ok => if ok && gui_allowed now t then next_stage c t else set_gl_pc (GVerdict false) t
  | GBeginReadiness => may_throw (set_gl_pc (GLoop (u64 (now + 10000))) t)
  | GLoop dl => set_gl_pc (if gui_allowed now t then GPoll dl else GVerdict false) t
  | GPoll dl => may_throw (set_gl_pc (GPolled dl (gui_readiness r t)) t)
  | GPolled dl res =>
      if negb (gui_allowed now t) then set_gl_pc (GVerdict false) t else
      if dl <=? now then set_gl_pc (GVerdict false) (set_gl_error READINESS_TIMED_OUT t) else
      set_gl_pc (GJudge dl res) t
  | GJudge dl res =>
      match res with
      | NetworkReady => set_gl_pc (GVerdict true) t
      | NetworkFailed e => set_gl_pc (GVerdict false) (set_gl_error e t)
      | NotYet => if dl <=? now then set_gl_pc (GVerdict false) (set_gl_error [] t) else set_gl_pc (GSleep dl) t
      end
  | GSleep dl => set_gl_pc (GLoop dl) t
  | GVerdict ok => set_gl_pc (if ok && gui_allowed now t then GAnnounce else GFailed) t
  | GAnnounce => may_throw (set_gl_pc GPublish (gui_phase "ready" t))
  | GPublish =>
      let s := gl_value t in
      set_gl_pc GNoDeadline
        (set_gl_value (mkGuiSnapshot true (gs_done s) (gs_failed s) (gs_phase s) (gs_error s) (gl_alive t)) t)
  | GNoDeadline =>
      let c := gl_control t in
      set_gl_pc GHold (set_gl_control (mkControl (rc_cancelRequested c) 0 (rc_operationId c) (rc_connectionGeneration c)) t)
  | GHold => set_gl_pc (if gui_cancelled t then GLast else GWatch) t
  | GWatch => may_throw (set_gl_pc (GWatched (gl_runtimeError t)) t)
  | GWatched failure =>
      set_gl_pc GHold (if bool_decide (failure = []) then t else gui_report_failure failure t)
  | GFailed =>
      set_gl_pc GLast (gui_report_failure
        (if bool_decide (gl_error t = [])
         then bytes_of_string (if gui_cancelled t then "Room setup cancelled." else "Local room setup timed out.")
         else gl_error t) t)
  | GLast => set_gl_pc (if gs_ready (gl_value t) then GTest else GCleanPhase) t
  | GTest => set_gl_pc (if gui_cancelled t then GCleanPhase else GTested) t
  | GTested => set_gl_pc GBlocked t
  | GBlocked => t
  | GCleanPhase => set_gl_pc GCleanup (gui_phase "cleanup" t)
  | GCleanup =>
      set_gl_pc GRelease
        (if negb (gl_owner t) then t else
         match r with
         | NativeThrew _ => gui_report_failure (bytes_of_string "Adapter cleanup failed.") t
         | _ => set_gl_owned (gl_owner t) false t
         end)
  | GRelease => set_gl_pc GFinal (set_gl_owned false false t)
  | GFinal =>
      let s := gl_value t in
      set_gl_pc GEnd (set_gl_value (mkGuiSnapshot false true (gs_failed s) "cleaned" (gs_error s) false) t)
  | GEnd => t
  end.

(** ** Interleavings *)

Inductive GuiStep :=
| GuiRun (now : Z) (r : NativeResult) (made : bool) | GuiWake | GuiCancel | GuiRuntimeError (message : bytes).
(** [GuiWake]: the condition variable wakes without a notification. *)
Definition gui_step (t : GuiTunLifecycleTask) (e : GuiStep) : GuiTunLifecycleTask :=
  match e with
  | GuiRun now r made => gui_run now r made t
  | GuiWake => match gl_pc t with GBlocked => set_gl_pc GTest t | _ => t end
  | GuiCancel => gui_requestCancel t
  | GuiRuntimeError message => gui_runtime_error message t
  end.
Definition gui_life (control : RoomTaskControl) (steps : list GuiStep) : GuiTunLifecycleTask :=
  fold_left gui_step steps (GuiTunLifecycleTask_init control).
