(* ===== verification/GuiTunFacts.v ===== *)
(** * [GuiTunLifecycleTask]: the adapter on loan, and the end of the thread *)

From S2P Require Import Prelude TunJob GuiTun.

(** ** The invariant *)

(** The places where the adapter has been made and not yet taken down. *)
Definition has_adapter (pc : GuiPc) : bool :=
  match pc with
  | GChecked CallInitialize ok => ok
  | GAsk c | GNative c | GChecked c _ => negb (bool_decide (c = CallInitialize))
  | GBeginReadiness | GLoop _ | GPoll _ | GPolled _ _ | GJudge _ _ | GSleep _ | GVerdict true
  | GAnnounce | GPublish | GNoDeadline | GHold | GWatch | GWatched _ | GTest | GTested | GBlocked => true
  | _ => false
  end.
(** The places where the snapshot offers it. *)
Definition on_loan (pc : GuiPc) : bool :=
  match pc with GNoDeadline | GHold | GWatch | GWatched _ | GTest | GTested | GBlocked => true | _ => false end.
Definition gui_ok (t : GuiTunLifecycleTask) : Prop :=
  let s := gl_value t in
  gs_adapter s = gs_ready s /\
  (gs_done s = true <-> gl_pc t = GEnd) /\
  (has_adapter (gl_pc t) = true -> gl_alive t = true) /\
  (on_loan (gl_pc t) = true -> gs_ready s = true) /\
  (gs_ready s = true -> gl_alive t = true \/ gui_cancelled t = true) /\
  match gl_pc t with
  | GLast => gs_ready s = true -> gl_alive t = true
  | GCleanPhase | GCleanup | GRelease | GFinal => gs_ready s = true -> gui_cancelled t = true
  | GEnd => gs_ready s = false /\ gl_alive t = false
  | pc => on_loan pc = false -> gs_ready s = false
  end /\
  (gl_pc t = GFinal -> gl_alive t = false).

Lemma gui_ok_init control : gui_ok (GuiTunLifecycleTask_init control).
Proof. by repeat split. Qed.
Ltac gui_crush :=
  repeat match goal with
         | |- context [if ?b then _ else _] => destruct b eqn:?
         | c : JobCall |- _ => destruct c
         | |- context [match ?r with NativeOk => _ | _ => _ end] => destruct r
         | |- context [match ?r with NotYet => _ | _ => _ end] => destruct r
         end;
  cbn in *; intuition congruence.
Lemma gui_ok_run now r made t : gui_ok t -> gui_ok (gui_run now r made t).
Proof.
  destruct t as [[ready don failed phase err adapter] [cancel dl0 op gen] owner alive rt lerr pc].
  unfold gui_ok, gui_cancelled, gui_run, gui_threw, gui_report_failure, gui_phase, gui_after_native, next_stage,
    gui_allowed, rc_allowed. cbn.
  intros (-> & H1 & H2 & H3 & H4 & H5 & H6).
  destruct pc; try destruct c; cbn in *; try destruct ok; destruct cancel; destruct ready; gui_crush.
Qed.
Lemma gui_ok_step t e : gui_ok t -> gui_ok (gui_step t e).
Proof.
  destruct e as [now r made| | |message]; [apply gui_ok_run|..]; intros Ht; cbn.
  - destruct (gl_pc t) eqn:Epc; try done.
    destruct t as [[] [] ? ? ? ? pc]. unfold gui_ok, gui_cancelled in *. cbn in *. subst pc. cbn in *. intuition congruence.
  - destruct t as [[] [] ? ? ? ? pc]. unfold gui_ok, gui_cancelled in *. cbn in *. destruct pc; cbn in *; intuition congruence.
  - unfold gui_runtime_error. destruct (_ && _); [|done]. by destruct t.
Qed.
Lemma gui_ok_steps t steps : gui_ok t -> gui_ok (fold_left gui_step steps t).
Proof. revert t. induction steps as [|e steps IH]; intros t Ht; [done|]. apply IH. by apply gui_ok_step. Qed.
Lemma gui_ok_life control steps : gui_ok (gui_life control steps).
Proof. apply gui_ok_steps, gui_ok_init. Qed.

(** ** The loan *)

(** A cancel is never taken back, and an offer stands until there is one. *)
Lemma gui_runtime_error_keeps message t :
  gl_value (gui_runtime_error message t) = gl_value t /\ gl_control (gui_runtime_error message t) = gl_control t.
Proof. unfold gui_runtime_error. by destruct (gl_alive t && _). Qed.
Lemma gui_step_cancelled t e : gui_cancelled t = true -> gui_cancelled (gui_step t e) = true.
Proof.
  intros Hc. unfold gui_cancelled. destruct e as [now r made| | |message]; cbn.
  - destruct t as [[] [] ? ? ? ? pc]. unfold gui_cancelled in Hc. cbn in Hc. subst.
    unfold gui_run, gui_threw, gui_report_failure, gui_phase, gui_after_native, next_stage, gui_allowed, rc_allowed.
    destruct pc; cbn; gui_crush.
  - by destruct (gl_pc t).
  - done.
  - by rewrite (proj2 (gui_runtime_error_keeps message t)).
Qed.
Lemma gui_steps_cancelled t steps :
  gui_cancelled (fold_left gui_step steps t) = false -> gui_cancelled t = false.
Proof.
  revert t. induction steps as [|e steps IH]; intros t Hc; [done|]. apply IH in Hc.
  destruct (gui_cancelled t) eqn:Ht; [|done]. by rewrite (gui_step_cancelled t e Ht) in Hc.
Qed.
Lemma gui_step_ready t e :
  gui_ok t -> gs_ready (gl_value t) = true -> gui_cancelled (gui_step t e) = false -> gs_ready (gl_value (gui_step t e)) = true.
Proof.
  intros Ht Hr Hc. assert (gui_cancelled t = false) as Hc0.
  { destruct (gui_cancelled t) eqn:E; [|done]. by rewrite (gui_step_cancelled t e E) in Hc. }
  clear Hc. destruct e as [now r made| | |message]; cbn; [|by destruct (gl_pc t)|done|by rewrite (proj1 (gui_runtime_error_keeps message t))].
  destruct t as [[ready don failed phase err adapter] [cancel dl0 op gen] owner alive rt lerr pc].
  unfold gui_cancelled, gui_ok in *. cbn in *. subst.
  unfold gui_run, gui_threw, gui_report_failure, gui_phase, gui_after_native, next_stage, gui_allowed, rc_allowed.
  destruct pc; cbn in *; gui_crush.
Qed.
Lemma gui_steps_ready t steps :
  gui_ok t -> gs_ready (gl_value t) = true -> gui_cancelled (fold_left gui_step steps t) = false ->
  gs_ready (gl_value (fold_left gui_step steps t)) = true.
Proof.
  revert t. induction steps as [|e steps IH]; intros t Ht Hr Hc; [done|]. cbn. apply IH; [by apply gui_ok_step| |done].
  apply gui_step_ready; [done..|]. by apply (gui_steps_cancelled (gui_step t e) steps).
Qed.

(** a borrowed adapter exists.  An adapter seen in a snapshot is there, and
    still offered, after any further steps of the thread, its native calls with
    any outcomes, errors of the adapter and spurious wake-ups, as long as nobody
    has asked the thread to stop: it alone destroys the adapter, and only on
    request.  Nothing is offered any more, and nothing is left, once the
    thread says that it is done. *)
Theorem gui_adapter_borrowed control (before after : list GuiStep) :
  let seen := gui_life control before in
  let t := gui_life control (before ++ after) in
  (gs_adapter (gui_snapshot seen) = true -> gui_cancelled t = false ->
     gl_alive t = true /\ gs_ready (gui_snapshot t) = true /\ gs_adapter (gui_snapshot t) = true) /\
  (gs_done (gui_snapshot t) = true -> gl_alive t = false /\ gs_adapter (gui_snapshot t) = false).
Proof.
  cbv zeta. unfold gui_life, gui_snapshot. rewrite fold_left_app.
  pose proof (gui_ok_life control before) as Hb. unfold gui_life in Hb.
  set (seen := fold_left _ before _) in *. clearbody seen. pose proof (gui_ok_steps seen after Hb) as Ha. split.
  - intros Hs Hc. destruct (Hb) as (Heq & _). rewrite Heq in Hs.
    pose proof (gui_steps_ready seen after Hb Hs Hc) as Hr. destruct Ha as (-> & _ & _ & _ & Hal & _).
    destruct (Hal Hr) as [?|?]; [done|congruence].
  - intros Hd. destruct Ha as (Heq & Hdone & _ & _ & _ & Hpc & _). apply Hdone in Hd. rewrite Hd in Hpc. rewrite Heq. tauto.
Qed.
(** An adapter prepared without trouble, up to the loop that keeps it. *)
Definition demo_gui_steps : list GuiStep := repeat (GuiRun 5 NativeOk true) 19.
Lemma gui_adapter_borrowed_witness :
  let t := gui_life (RoomTaskControl_init 1 1 30000) (demo_gui_steps ++ repeat (GuiRun 90000 NativeOk true) 7) in
  gs_adapter (gui_snapshot (gui_life (RoomTaskControl_init 1 1 30000) demo_gui_steps)) = true /\
  gui_cancelled t = false /\ gl_alive t = true.
Proof.
  cbv zeta. split; [by vm_compute|]. split; [by vm_compute|].
  destruct (gui_adapter_borrowed (RoomTaskControl_init 1 1 30000) demo_gui_steps (repeat (GuiRun 90000 NativeOk true) 7)) as [H _].
  refine (proj1 (H _ _)); by vm_compute.
Defined.

(** ** Stopping *)

Definition gui_work (run : list (Z * NativeResult * bool)) (t : GuiTunLifecycleTask) : GuiTunLifecycleTask :=
  fold_left (fun t '(now, r, made) => gui_run now r made t) run t.
(** Steps left once a cancel is seen. *)
Definition gui_left (pc : GuiPc) : nat :=
  match pc with
  | GEnd => 0 | GFinal => 1 | GRelease => 2 | GCleanup => 3 | GCleanPhase => 4 | GTest => 5 | GLast => 6
  | GFailed | GHold => 7 | GVerdict _ | GWatched _ | GNoDeadline => 8
  | GWatch | GPublish | GAsk _ | GChecked _ _ | GLoop _ | GPolled _ _ => 9
  | GAnnounce | GNative _ | GStart | GSleep _ | GPoll _ | GBeginReadiness => 10
  | GJudge _ _ => 11
  | GTested | GBlocked => 12
  end.
Lemma gui_left_run now r made t :
  gui_cancelled t = true -> (gui_left (gl_pc t) <= 11)%nat ->
  (gui_left (gl_pc (gui_run now r made t)) <= Nat.pred (gui_left (gl_pc t)))%nat.
Proof.
  destruct t as [[ready don failed phase err adapter] [cancel dl0 op gen] owner alive rt lerr pc].
  unfold gui_cancelled. cbn. intros -> Hl.
  unfold gui_run, gui_threw, gui_report_failure, gui_phase, gui_after_native, next_stage, gui_allowed, rc_allowed.
  destruct pc; cbn in *; try lia; repeat case_match; cbn in *; try lia; congruence.
Qed.
(** C37: a lifecycle thread that is told to stop ends.  Wherever a reachable
    thread is when it is cancelled, but for one place, eleven more of its steps
    finish it and destroy the adapter, whatever the native calls answer.  The
    place is inside the last wait, which only an exception after the adapter was
    published leads to, between finding the predicate false and blocking: the
    notification, sent without the mutex, is lost there. *)
Theorem gui_thread_stops control (steps : list GuiStep) (run : list (Z * NativeResult * bool)) :
  let t := gui_requestCancel (gui_life control steps) in
  (gl_pc t <> GTested -> 11 <= length run ->
     gs_done (gui_snapshot (gui_work run t)) = true /\ gl_alive (gui_work run t) = false)%nat /\
  (gl_pc t = GTested -> gs_done (gui_snapshot (gui_work run t)) = false /\ gl_alive (gui_work run t) = true).
Proof.
  cbv zeta. pose proof (gui_ok_step (gui_life control steps) GuiCancel (gui_ok_life control steps)) as Hok. cbn [gui_step] in Hok.
  assert (gui_cancelled (gui_requestCancel (gui_life control steps)) = true) as Hc by done.
  assert (gl_pc (gui_requestCancel (gui_life control steps)) <> GBlocked) as Hb
    by (unfold gui_requestCancel; cbn; by destruct (gl_pc _)).
  set (t := gui_requestCancel _) in *. clearbody t. split.
  - intros Hpc Hlen. assert (gui_left (gl_pc t) <= 11)%nat as Hl by (destruct (gl_pc t); cbn; lia || done).
    assert (gui_left (gl_pc t) <= length run)%nat as Hr by lia. clear Hpc Hb Hlen. revert t Hok Hc Hl Hr.
    induction run as [|[[now r] made] run IH]; intros t Hok Hc Hl Hr; cbn in *.
    + destruct Hok as (_ & Hd & _ & _ & _ & He & _). destruct (gl_pc t); cbn in Hr; try lia. tauto.
    + pose proof (gui_left_run now r made t Hc Hl). apply IH; [by apply gui_ok_run| |lia..].
      by apply (gui_step_cancelled t (GuiRun now r made)).
  - intros Hpc. assert (gl_pc t = GTested \/ gl_pc t = GBlocked) as Hk by auto. clear Hpc Hb.
    revert t Hok Hc Hk. induction run as [|[[now r] made] run IH]; intros t Hok Hc Hk.
    + destruct Hok as (_ & Hd & Ha & _). cbn. unfold gui_snapshot. destruct Hk as [Hk|Hk]; rewrite Hk in *; cbn in *.
      all: destruct (gs_done (gl_value t)) eqn:E; [by destruct Hd as [Hd _]; specialize (Hd eq_refl)|auto].
    + cbn. apply IH; [by apply gui_ok_run|by apply (gui_step_cancelled t (GuiRun now r made))|].
      unfold gui_run. destruct Hk as [Hk|Hk]; rewrite Hk; cbn; auto.
Qed.
Lemma gui_thread_stops_witness :
  let t := gui_requestCancel (gui_life (RoomTaskControl_init 1 1 30000) demo_gui_steps) in
  gl_pc t = GHold /\ gs_done (gui_snapshot (gui_work (repeat (0, NativeOk, true) 11) t)) = true.
Proof.
  cbv zeta. split; [by vm_compute|].
  destruct (gui_thread_stops (RoomTaskControl_init 1 1 30000) demo_gui_steps (repeat (0, NativeOk, true) 11)) as [H _].
  refine (proj1 (H _ _)); [by vm_compute|cbn; lia].
Defined.
