(* ===== verification/GuiRoomState.v ===== *)
(** * [class RoomManager] of [client/src/network/room_manager.cpp]: state

    The graphical client's manager brings a room up and down: it signs in,
    creates or joins a room, has the adapter prepared by a lifecycle task
    ([GuiTun]), starts the data plane, and recovers from failures.  Its parts
    are grouped; its collaborators are the class [GuiHost].  The signalling
    client may emit signals in the middle of a call ([SignalRun]); the slots
    then run there, as Qt runs them.  Texts shown to the user are left out, or
    stand for themselves by the key of the text. *)

From S2P Require Import Prelude Protocol Room CliSignalState CliAppState RoomOp TunJob GuiTun ProbeQuality.

(** [enum class ConnectionPhase]. *)
Inductive ConnectionPhase := ConnIdle | ConnResolving | ConnConnecting | ConnConnected.
#[export] Instance ConnectionPhase_eq_dec : EqDecision ConnectionPhase.
Proof. solve_decision. Defined.

(** The closures deferred by [QTimer::singleShot], with what they captured. *)
Inductive Deferred :=
| DDisconnect | DLogoutTimeout | DLeaseExpiry | DReconnectWait (generation : Z) | DReconnect (generation : Z)
| DRecoveryLogout (operation : Z) | DRecoveryLogin (generation : Z)
| DSecurity (generation sessionId : Z) | DTunError (generation connectionGeneration : Z) (message : bytes).

(** What the manager tells the window. *)
Inductive Note :=
| NConnection (connected : bool) | NLoggedIn (peerId : Z) | NRoomCreated (roomId : Z) | NRoomJoined (roomId : Z)
| NRoomLeft | NPending (pending : bool) | NRoomList (rooms : list CliRoomListItem)
| NPeerConnected (peerId virtualIP : Z) (name : bytes) | NPeerDisconnected (peerId : Z)
| NTransport (peerId cls : Z) (type : TransportType) | NLatency (peerId cls ms : Z)
| NQuality (peerId cls : Z) (quality : ProbeQualitySnapshot)
| NServerRtt (ms : Z) | NSpeed (upload download : Z) | NError (message : bytes) | NStatus (text : string) | NMessage (text : bytes)
| NPasswordRequired.

(** The signals of [SignalClient] the manager has slots for. *)
Inductive SignalEvent :=
| SeConnected | SeDisconnected | SeConnectFailed (reason : bytes)
| SeLoginResponse (peerId : Z) (resumeAccepted : bool)
| SeRoomCreated (roomId virtualIP : Z) (tcpPolicy udpPolicy : RoomTrafficPolicy) (mtu : Z)
    (passwordProtected : bool) (leaseToken : bytes)
| SeJoinResponse (roomId virtualIP : Z) (tcpPolicy udpPolicy : RoomTrafficPolicy) (mtu : Z)
    (passwordProtected : bool) (members : list PeerInfo) (leaseToken : bytes)
| SePeerJoined (info : PeerInfo) | SePeerResumed (info : PeerInfo) | SePeerLeft (peerId : Z)
| SeRelayReady (peerId : Z) | SeRelayData (srcPeerId cls : Z) (data : bytes)
| SeLogoutAck | SePasswordRequired | SeSecureSession (sessionId : Z) (master : bytes)
| SeFatalAuth (code : Z) (message : bytes) | SeServerError (message : bytes) | SeUncertain (message : bytes)
| SeRoomList (rooms : list CliRoomListItem) | SeResync | SeServerRtt (rttMs : Z).
(** A call of the client under way: done, or a signal, after which it goes on
    from whatever the slots have left. *)
Inductive SignalRun (H : Type) :=
| SignalDone (h : H)
| SignalEmit (ev : SignalEvent) (h : H) (k : H -> SignalRun H).
Arguments SignalDone {H}.
Arguments SignalEmit {H}.

Inductive SignalCall :=
| SgConnect (addr : option Z) (port : Z) | SgDisconnect | SgSetPassword (password : bytes) | SgContinueAuth
| SgLogin (name : bytes) (resume : option (Z * Z * bytes))
| SgCreate (roomName : bytes) (maxPlayers : Z) (tcpPolicy udpPolicy : RoomTrafficPolicy) (mtu : Z)
    (password : option bytes)
| SgJoin (roomId : Z) (password : bytes) | SgResume (roomId peerId : Z) (token : bytes)
| SgLeave | SgLogout | SgAbandon | SgList | SgRequestRelay (peerId : Z)
| SgRelayData (src dst cls : Z) (data : bytes).
(** Calls of the tunnel manager and, through it, of peers, tunnels and the
    adapter it is lent; none of these emits a signal the manager answers at
    once, but for [securityError]. *)
Inductive TunnelCall :=
| TnSetTunAdapter (tun : bool) | TnStartDataPlane (requiresUdp : bool) | TnStopDataPlane | TnResetTrafficCounters
| TnRemoveAllPeers | TnClearSecurity | TnInstall (sessionId : Z) (master : bytes) | TnSetMyPeerId (peerId : Z)
| TnSetMyVirtualIP (ip : Z) | TnSetRoomMtu (mtu : Z) | TnSetServerEndpoint (addr : option Z) (port : Z)
| TnAddPeer (peerId virtualIP : Z) (name : bytes) | TnRemovePeer (peerId : Z) | TnRemoveTransport (peerId cls : Z)
| TnCreateKcp (peerId : Z) (addr : option Z) (port : Z) (fec : FecMode) (mtu : Z) (profile : KcpProfile) (cls myId : Z)
| TnCreateRaw (peerId : Z) (addr : option Z) (port : Z) (fec : FecMode) (mtu cls myId : Z)
| TnUseTcpRelay (peerId cls : Z) | TnTcpRelayReceived (peerId cls : Z)
| TnRecordDrop (reason : string) (peerId : Z) | TnAddDownload (n : Z) | TnResetQuality (peerId : Z)
| TnWriteAdapter (packet : bytes) | TnCancelAdapterReadiness | TnShutdownAdapter.
(** Calls of a peer that may send through the TCP relay. *)
Inductive PeerCall :=
| PcLatencyPing (peerId cls : Z) | PcTcpKeepalive (peerId : Z) | PcLatencyProbe (peerId cls : Z) (data : bytes).
Inductive ChannelCall :=
| DcConnect (addr : option Z) (port peerId : Z) | DcDisconnect | DcInstall (sessionId : Z) (master : bytes) | DcClear
| DcRelayData (src dst cls : Z) (data : bytes).
(** The signals of the tunnel manager and the data channel. *)
Inductive PortSignal := PsConnected | PsDisconnected | PsSecurityError (message : bytes).

(** A peer as [peerById] finds it. *)
Record GuiPeer := mkGuiPeer {
  gp_virtualIP : Z;
  gp_name : bytes;
  gp_tcp : TransportType;
  gp_udp : TransportType
}.
(** [transport(cls)]. *)
Definition gp_transport (cls : Z) (p : GuiPeer) : TransportType := if cls =? TRAFFIC_TCP then gp_tcp p else gp_udp p.

(** Everything around the manager: the signalling client, the tunnel manager,
    the data channel, Qt's name resolution and the making of threads.
    [tn_peer_call] gives what the peer's [TcpRelaySender] was called with. *)
Class GuiHost := {
  gui_host : Type;
  sg_isConnected : gui_host -> bool;
  sg_isConnecting : gui_host -> bool;
  sg_secureEnabled : gui_host -> bool;
  sg_roomOperationPending : gui_host -> bool;
  sg_myPeerId : gui_host -> Z;
  sg_secureSessionId : gui_host -> Z;
  sg_secureMaster : gui_host -> bytes;
  sg_peerAddress : gui_host -> option Z;
  sg_call : SignalCall -> gui_host -> SignalRun gui_host;
  tn_peer : Z -> gui_host -> option GuiPeer;
  tn_peers : gui_host -> list Z;
  tn_running : gui_host -> bool;
  tn_secured : gui_host -> bool;
  tn_quality : Z -> Z -> gui_host -> ProbeQualitySnapshot;
  tn_tcpRelayDead : Z -> Z -> gui_host -> bool;
  tn_traffic : gui_host -> Z * Z;
  tn_call : TunnelCall -> gui_host -> bool * list PortSignal * gui_host;
  tn_peer_call : PeerCall -> gui_host -> list (Z * Z * Z * bytes) * list PortSignal * gui_host;
  dc_isConnected : gui_host -> bool;
  dc_call : ChannelCall -> gui_host -> bool * list PortSignal * gui_host;
  qt_parseIPv4 : bytes -> option Z;
  qt_lookupHost : bytes -> gui_host -> Z * gui_host;
  qt_startThread : gui_host -> option bytes * gui_host
}.

(** The connection to the server: its address, its phase, and what follows when it is lost. *)
Record GuiConn := mkGuiConn {
  gc_serverHost : bytes;
  gc_resolvedAddr : option Z;
  gc_resolvedCandidates : list Z;
  gc_resolvedCandidateIndex : Z;
  gc_lookupId : Z;
  gc_connectionGeneration : Z;
  gc_connectionPhase : ConnectionPhase;
  gc_port : Z;
  gc_playerName : bytes;
  gc_serverPassword : bytes;
  gc_wantReconnect : bool;
  gc_authRetryBlocked : bool;
  gc_reconnectAttempts : Z;
  gc_manualDisconnecting : bool;
  gc_logoutPending : bool;
  gc_reconnectScheduled : bool;
  gc_recoveryActive : bool;
  gc_recoveryLoginScheduled : bool;
  gc_recoveryLoginAttempt : bool;
  gc_roomListTimer : bool
}.
Definition set_gc_serverHost (v : bytes) (c : GuiConn) : GuiConn :=
  mkGuiConn v c.(gc_resolvedAddr) c.(gc_resolvedCandidates) c.(gc_resolvedCandidateIndex)
    c.(gc_lookupId) c.(gc_connectionGeneration) c.(gc_connectionPhase) c.(gc_port)
    c.(gc_playerName) c.(gc_serverPassword) c.(gc_wantReconnect) c.(gc_authRetryBlocked)
    c.(gc_reconnectAttempts) c.(gc_manualDisconnecting) c.(gc_logoutPending)
    c.(gc_reconnectScheduled) c.(gc_recoveryActive) c.(gc_recoveryLoginScheduled)
    c.(gc_recoveryLoginAttempt) c.(gc_roomListTimer).
Definition set_gc_resolvedAddr (v : option Z) (c : GuiConn) : GuiConn :=
  mkGuiConn c.(gc_serverHost) v c.(gc_resolvedCandidates) c.(gc_resolvedCandidateIndex)
    c.(gc_lookupId) c.(gc_connectionGeneration) c.(gc_connectionPhase) c.(gc_port)
    c.(gc_playerName) c.(gc_serverPassword) c.(gc_wantReconnect) c.(gc_authRetryBlocked)
    c.(gc_reconnectAttempts) c.(gc_manualDisconnecting) c.(gc_logoutPending)
    c.(gc_reconnectScheduled) c.(gc_recoveryActive) c.(gc_recoveryLoginScheduled)
    c.(gc_recoveryLoginAttempt) c.(gc_roomListTimer).
Definition set_gc_resolvedCandidates (v : list Z) (c : GuiConn) : GuiConn :=
  mkGuiConn c.(gc_serverHost) c.(gc_resolvedAddr) v c.(gc_resolvedCandidateIndex)
    c.(gc_lookupId) c.(gc_connectionGeneration) c.(gc_connectionPhase) c.(gc_port)
    c.(gc_playerName) c.(gc_serverPassword) c.(gc_wantReconnect) c.(gc_authRetryBlocked)
    c.(gc_reconnectAttempts) c.(gc_manualDisconnecting) c.(gc_logoutPending)
    c.(gc_reconnectScheduled) c.(gc_recoveryActive) c.(gc_recoveryLoginScheduled)
    c.(gc_recoveryLoginAttempt) c.(gc_roomListTimer).
Definition set_gc_resolvedCandidateIndex (v : Z) (c : GuiConn) : GuiConn :=
  mkGuiConn c.(gc_serverHost) c.(gc_resolvedAddr) c.(gc_resolvedCandidates) v
    c.(gc_lookupId) c.(gc_connectionGeneration) c.(gc_connectionPhase) c.(gc_port)
    c.(gc_playerName) c.(gc_serverPassword) c.(gc_wantReconnect) c.(gc_authRetryBlocked)
    c.(gc_reconnectAttempts) c.(gc_manualDisconnecting) c.(gc_logoutPending)
    c.(gc_reconnectScheduled) c.(gc_recoveryActive) c.(gc_recoveryLoginScheduled)
    c.(gc_recoveryLoginAttempt) c.(gc_roomListTimer).
Definition set_gc_lookupId (v : Z) (c : GuiConn) : GuiConn :=
  mkGuiConn c.(gc_serverHost) c.(gc_resolvedAddr) c.(gc_resolvedCandidates)
    c.(gc_resolvedCandidateIndex) v c.(gc_connectionGeneration) c.(gc_connectionPhase)
    c.(gc_port) c.(gc_playerName) c.(gc_serverPassword) c.(gc_wantReconnect)
    c.(gc_authRetryBlocked) c.(gc_reconnectAttempts) c.(gc_manualDisconnecting)
    c.(gc_logoutPending) c.(gc_reconnectScheduled) c.(gc_recoveryActive)
    c.(gc_recoveryLoginScheduled) c.(gc_recoveryLoginAttempt) c.(gc_roomListTimer).
Definition set_gc_connectionGeneration (v : Z) (c : GuiConn) : GuiConn :=
  mkGuiConn c.(gc_serverHost) c.(gc_resolvedAddr) c.(gc_resolvedCandidates)
    c.(gc_resolvedCandidateIndex) c.(gc_lookupId) v c.(gc_connectionPhase) c.(gc_port)
    c.(gc_playerName) c.(gc_serverPassword) c.(gc_wantReconnect) c.(gc_authRetryBlocked)
    c.(gc_reconnectAttempts) c.(gc_manualDisconnecting) c.(gc_logoutPending)
    c.(gc_reconnectScheduled) c.(gc_recoveryActive) c.(gc_recoveryLoginScheduled)
    c.(gc_recoveryLoginAttempt) c.(gc_roomListTimer).
Definition set_gc_connectionPhase (v : ConnectionPhase) (c : GuiConn) : GuiConn :=
  mkGuiConn c.(gc_serverHost) c.(gc_resolvedAddr) c.(gc_resolvedCandidates)
    c.(gc_resolvedCandidateIndex) c.(gc_lookupId) c.(gc_connectionGeneration) v c.(gc_port)
    c.(gc_playerName) c.(gc_serverPassword) c.(gc_wantReconnect) c.(gc_authRetryBlocked)
    c.(gc_reconnectAttempts) c.(gc_manualDisconnecting) c.(gc_logoutPending)
    c.(gc_reconnectScheduled) c.(gc_recoveryActive) c.(gc_recoveryLoginScheduled)
    c.(gc_recoveryLoginAttempt) c.(gc_roomListTimer).
Definition set_gc_port (v : Z) (c : GuiConn) : GuiConn :=
  mkGuiConn c.(gc_serverHost) c.(gc_resolvedAddr) c.(gc_resolvedCandidates)
    c.(gc_resolvedCandidateIndex) c.(gc_lookupId) c.(gc_connectionGeneration)
    c.(gc_connectionPhase) v c.(gc_playerName) c.(gc_serverPassword) c.(gc_wantReconnect)
    c.(gc_authRetryBlocked) c.(gc_reconnectAttempts) c.(gc_manualDisconnecting)
    c.(gc_logoutPending) c.(gc_reconnectScheduled) c.(gc_recoveryActive)
    c.(gc_recoveryLoginScheduled) c.(gc_recoveryLoginAttempt) c.(gc_roomListTimer).
Definition set_gc_playerName (v : bytes) (c : GuiConn) : GuiConn :=
  mkGuiConn c.(gc_serverHost) c.(gc_resolvedAddr) c.(gc_resolvedCandidates)
    c.(gc_resolvedCandidateIndex) c.(gc_lookupId) c.(gc_connectionGeneration)
    c.(gc_connectionPhase) c.(gc_port) v c.(gc_serverPassword) c.(gc_wantReconnect)
    c.(gc_authRetryBlocked) c.(gc_reconnectAttempts) c.(gc_manualDisconnecting)
    c.(gc_logoutPending) c.(gc_reconnectScheduled) c.(gc_recoveryActive)
    c.(gc_recoveryLoginScheduled) c.(gc_recoveryLoginAttempt) c.(gc_roomListTimer).
Definition set_gc_serverPassword (v : bytes) (c : GuiConn) : GuiConn :=
  mkGuiConn c.(gc_serverHost) c.(gc_resolvedAddr) c.(gc_resolvedCandidates)
    c.(gc_resolvedCandidateIndex) c.(gc_lookupId) c.(gc_connectionGeneration)
    c.(gc_connectionPhase) c.(gc_port) c.(gc_playerName) v c.(gc_wantReconnect)
    c.(gc_authRetryBlocked) c.(gc_reconnectAttempts) c.(gc_manualDisconnecting)
    c.(gc_logoutPending) c.(gc_reconnectScheduled) c.(gc_recoveryActive)
    c.(gc_recoveryLoginScheduled) c.(gc_recoveryLoginAttempt) c.(gc_roomListTimer).
Definition set_gc_wantReconnect (v : bool) (c : GuiConn) : GuiConn :=
  mkGuiConn c.(gc_serverHost) c.(gc_resolvedAddr) c.(gc_resolvedCandidates)
    c.(gc_resolvedCandidateIndex) c.(gc_lookupId) c.(gc_connectionGeneration)
    c.(gc_connectionPhase) c.(gc_port) c.(gc_playerName) c.(gc_serverPassword) v
    c.(gc_authRetryBlocked) c.(gc_reconnectAttempts) c.(gc_manualDisconnecting)
    c.(gc_logoutPending) c.(gc_reconnectScheduled) c.(gc_recoveryActive)
    c.(gc_recoveryLoginScheduled) c.(gc_recoveryLoginAttempt) c.(gc_roomListTimer).
Definition set_gc_authRetryBlocked (v : bool) (c : GuiConn) : GuiConn :=
  mkGuiConn c.(gc_serverHost) c.(gc_resolvedAddr) c.(gc_resolvedCandidates)
    c.(gc_resolvedCandidateIndex) c.(gc_lookupId) c.(gc_connectionGeneration)
    c.(gc_connectionPhase) c.(gc_port) c.(gc_playerName) c.(gc_serverPassword)
    c.(gc_wantReconnect) v c.(gc_reconnectAttempts) c.(gc_manualDisconnecting)
    c.(gc_logoutPending) c.(gc_reconnectScheduled) c.(gc_recoveryActive)
    c.(gc_recoveryLoginScheduled) c.(gc_recoveryLoginAttempt) c.(gc_roomListTimer).
Definition set_gc_reconnectAttempts (v : Z) (c : GuiConn) : GuiConn :=
  mkGuiConn c.(gc_serverHost) c.(gc_resolvedAddr) c.(gc_resolvedCandidates)
    c.(gc_resolvedCandidateIndex) c.(gc_lookupId) c.(gc_connectionGeneration)
    c.(gc_connectionPhase) c.(gc_port) c.(gc_playerName) c.(gc_serverPassword)
    c.(gc_wantReconnect) c.(gc_authRetryBlocked) v c.(gc_manualDisconnecting)
    c.(gc_logoutPending) c.(gc_reconnectScheduled) c.(gc_recoveryActive)
    c.(gc_recoveryLoginScheduled) c.(gc_recoveryLoginAttempt) c.(gc_roomListTimer).
Definition set_gc_manualDisconnecting (v : bool) (c : GuiConn) : GuiConn :=
  mkGuiConn c.(gc_serverHost) c.(gc_resolvedAddr) c.(gc_resolvedCandidates)
    c.(gc_resolvedCandidateIndex) c.(gc_lookupId) c.(gc_connectionGeneration)
    c.(gc_connectionPhase) c.(gc_port) c.(gc_playerName) c.(gc_serverPassword)
    c.(gc_wantReconnect) c.(gc_authRetryBlocked) c.(gc_reconnectAttempts) v
    c.(gc_logoutPending) c.(gc_reconnectScheduled) c.(gc_recoveryActive)
    c.(gc_recoveryLoginScheduled) c.(gc_recoveryLoginAttempt) c.(gc_roomListTimer).
Definition set_gc_logoutPending (v : bool) (c : GuiConn) : GuiConn :=
  mkGuiConn c.(gc_serverHost) c.(gc_resolvedAddr) c.(gc_resolvedCandidates)
    c.(gc_resolvedCandidateIndex) c.(gc_lookupId) c.(gc_connectionGeneration)
    c.(gc_connectionPhase) c.(gc_port) c.(gc_playerName) c.(gc_serverPassword)
    c.(gc_wantReconnect) c.(gc_authRetryBlocked) c.(gc_reconnectAttempts)
    c.(gc_manualDisconnecting) v c.(gc_reconnectScheduled) c.(gc_recoveryActive)
    c.(gc_recoveryLoginScheduled) c.(gc_recoveryLoginAttempt) c.(gc_roomListTimer).
Definition set_gc_reconnectScheduled (v : bool) (c : GuiConn) : GuiConn :=
  mkGuiConn c.(gc_serverHost) c.(gc_resolvedAddr) c.(gc_resolvedCandidates)
    c.(gc_resolvedCandidateIndex) c.(gc_lookupId) c.(gc_connectionGeneration)
    c.(gc_connectionPhase) c.(gc_port) c.(gc_playerName) c.(gc_serverPassword)
    c.(gc_wantReconnect) c.(gc_authRetryBlocked) c.(gc_reconnectAttempts)
    c.(gc_manualDisconnecting) c.(gc_logoutPending) v c.(gc_recoveryActive)
    c.(gc_recoveryLoginScheduled) c.(gc_recoveryLoginAttempt) c.(gc_roomListTimer).
Definition set_gc_recoveryActive (v : bool) (c : GuiConn) : GuiConn :=
  mkGuiConn c.(gc_serverHost) c.(gc_resolvedAddr) c.(gc_resolvedCandidates)
    c.(gc_resolvedCandidateIndex) c.(gc_lookupId) c.(gc_connectionGeneration)
    c.(gc_connectionPhase) c.(gc_port) c.(gc_playerName) c.(gc_serverPassword)
    c.(gc_wantReconnect) c.(gc_authRetryBlocked) c.(gc_reconnectAttempts)
    c.(gc_manualDisconnecting) c.(gc_logoutPending) c.(gc_reconnectScheduled) v
    c.(gc_recoveryLoginScheduled) c.(gc_recoveryLoginAttempt) c.(gc_roomListTimer).
Definition set_gc_recoveryLoginScheduled (v : bool) (c : GuiConn) : GuiConn :=
  mkGuiConn c.(gc_serverHost) c.(gc_resolvedAddr) c.(gc_resolvedCandidates)
    c.(gc_resolvedCandidateIndex) c.(gc_lookupId) c.(gc_connectionGeneration)
    c.(gc_connectionPhase) c.(gc_port) c.(gc_playerName) c.(gc_serverPassword)
    c.(gc_wantReconnect) c.(gc_authRetryBlocked) c.(gc_reconnectAttempts)
    c.(gc_manualDisconnecting) c.(gc_logoutPending) c.(gc_reconnectScheduled)
    c.(gc_recoveryActive) v c.(gc_recoveryLoginAttempt) c.(gc_roomListTimer).
Definition set_gc_recoveryLoginAttempt (v : bool) (c : GuiConn) : GuiConn :=
  mkGuiConn c.(gc_serverHost) c.(gc_resolvedAddr) c.(gc_resolvedCandidates)
    c.(gc_resolvedCandidateIndex) c.(gc_lookupId) c.(gc_connectionGeneration)
    c.(gc_connectionPhase) c.(gc_port) c.(gc_playerName) c.(gc_serverPassword)
    c.(gc_wantReconnect) c.(gc_authRetryBlocked) c.(gc_reconnectAttempts)
    c.(gc_manualDisconnecting) c.(gc_logoutPending) c.(gc_reconnectScheduled)
    c.(gc_recoveryActive) c.(gc_recoveryLoginScheduled) v c.(gc_roomListTimer).
Definition set_gc_roomListTimer (v : bool) (c : GuiConn) : GuiConn :=
  mkGuiConn c.(gc_serverHost) c.(gc_resolvedAddr) c.(gc_resolvedCandidates)
    c.(gc_resolvedCandidateIndex) c.(gc_lookupId) c.(gc_connectionGeneration)
    c.(gc_connectionPhase) c.(gc_port) c.(gc_playerName) c.(gc_serverPassword)
    c.(gc_wantReconnect) c.(gc_authRetryBlocked) c.(gc_reconnectAttempts)
    c.(gc_manualDisconnecting) c.(gc_logoutPending) c.(gc_reconnectScheduled)
    c.(gc_recoveryActive) c.(gc_recoveryLoginScheduled) c.(gc_recoveryLoginAttempt) v.
(** The room. *)
Record GuiRoom := mkGuiRoom {
  gr_currentRoomId : Z;
  gr_myVirtualIP : Z;
  gr_tcpPolicy : RoomTrafficPolicy;
  gr_udpPolicy : RoomTrafficPolicy;
  gr_roomMtu : Z;
  gr_roomPasswordProtected : bool;
  gr_roomPassword : bytes;
  gr_wasInRoom : bool;
  gr_pendingResumeRoom : bool;
  gr_roomReady : bool
}.
Definition set_gr_currentRoomId (v : Z) (r : GuiRoom) : GuiRoom :=
  mkGuiRoom v r.(gr_myVirtualIP) r.(gr_tcpPolicy) r.(gr_udpPolicy) r.(gr_roomMtu)
    r.(gr_roomPasswordProtected) r.(gr_roomPassword) r.(gr_wasInRoom)
    r.(gr_pendingResumeRoom) r.(gr_roomReady).
Definition set_gr_myVirtualIP (v : Z) (r : GuiRoom) : GuiRoom :=
  mkGuiRoom r.(gr_currentRoomId) v r.(gr_tcpPolicy) r.(gr_udpPolicy) r.(gr_roomMtu)
    r.(gr_roomPasswordProtected) r.(gr_roomPassword) r.(gr_wasInRoom)
    r.(gr_pendingResumeRoom) r.(gr_roomReady).
Definition set_gr_tcpPolicy (v : RoomTrafficPolicy) (r : GuiRoom) : GuiRoom :=
  mkGuiRoom r.(gr_currentRoomId) r.(gr_myVirtualIP) v r.(gr_udpPolicy) r.(gr_roomMtu)
    r.(gr_roomPasswordProtected) r.(gr_roomPassword) r.(gr_wasInRoom)
    r.(gr_pendingResumeRoom) r.(gr_roomReady).
Definition set_gr_udpPolicy (v : RoomTrafficPolicy) (r : GuiRoom) : GuiRoom :=
  mkGuiRoom r.(gr_currentRoomId) r.(gr_myVirtualIP) r.(gr_tcpPolicy) v r.(gr_roomMtu)
    r.(gr_roomPasswordProtected) r.(gr_roomPassword) r.(gr_wasInRoom)
    r.(gr_pendingResumeRoom) r.(gr_roomReady).
Definition set_gr_roomMtu (v : Z) (r : GuiRoom) : GuiRoom :=
  mkGuiRoom r.(gr_currentRoomId) r.(gr_myVirtualIP) r.(gr_tcpPolicy) r.(gr_udpPolicy) v
    r.(gr_roomPasswordProtected) r.(gr_roomPassword) r.(gr_wasInRoom)
    r.(gr_pendingResumeRoom) r.(gr_roomReady).
Definition set_gr_roomPasswordProtected (v : bool) (r : GuiRoom) : GuiRoom :=
  mkGuiRoom r.(gr_currentRoomId) r.(gr_myVirtualIP) r.(gr_tcpPolicy) r.(gr_udpPolicy)
    r.(gr_roomMtu) v r.(gr_roomPassword) r.(gr_wasInRoom) r.(gr_pendingResumeRoom)
    r.(gr_roomReady).
Definition set_gr_roomPassword (v : bytes) (r : GuiRoom) : GuiRoom :=
  mkGuiRoom r.(gr_currentRoomId) r.(gr_myVirtualIP) r.(gr_tcpPolicy) r.(gr_udpPolicy)
    r.(gr_roomMtu) r.(gr_roomPasswordProtected) v r.(gr_wasInRoom) r.(gr_pendingResumeRoom)
    r.(gr_roomReady).
Definition set_gr_wasInRoom (v : bool) (r : GuiRoom) : GuiRoom :=
  mkGuiRoom r.(gr_currentRoomId) r.(gr_myVirtualIP) r.(gr_tcpPolicy) r.(gr_udpPolicy)
    r.(gr_roomMtu) r.(gr_roomPasswordProtected) r.(gr_roomPassword) v
    r.(gr_pendingResumeRoom) r.(gr_roomReady).
Definition set_gr_pendingResumeRoom (v : bool) (r : GuiRoom) : GuiRoom :=
  mkGuiRoom r.(gr_currentRoomId) r.(gr_myVirtualIP) r.(gr_tcpPolicy) r.(gr_udpPolicy)
    r.(gr_roomMtu) r.(gr_roomPasswordProtected) r.(gr_roomPassword) r.(gr_wasInRoom) v
    r.(gr_roomReady).
Definition set_gr_roomReady (v : bool) (r : GuiRoom) : GuiRoom :=
  mkGuiRoom r.(gr_currentRoomId) r.(gr_myVirtualIP) r.(gr_tcpPolicy) r.(gr_udpPolicy)
    r.(gr_roomMtu) r.(gr_roomPasswordProtected) r.(gr_roomPassword) r.(gr_wasInRoom)
    r.(gr_pendingResumeRoom) v.
(** The room operation and the adapter.  [gu_readinessTimer] is the running timer,
    with the two generations its closure captured; [gu_tun]: [m_tun] is set, and
    then it is the adapter of the lifecycle task; [gu_lent]: [m_tun] of the tunnel
    manager is set; [gu_bound]: the generations the adapter's signals are bound with. *)
Record GuiSetup := mkGuiSetup {
  gu_readinessTimer : option (Z * Z);
  gu_readinessGeneration : Z;
  gu_roomReadinessPending : bool;
  gu_roomOperationPending : bool;
  gu_pendingRoomCreated : bool;
  gu_pendingTunError : bytes;
  gu_pendingMembers : gmap Z PeerInfo;
  gu_pendingRelayReady : gset Z;
  gu_operation : RoomOperationTracker;
  gu_lifecycleTask : option GuiTunLifecycleTask;
  gu_tun : bool;
  gu_lent : bool;
  gu_bound : option (Z * Z);
  gu_tearingDownTun : bool;
  gu_cleanupWarningShown : bool
}.
Definition set_gu_readinessTimer (v : option (Z * Z)) (u : GuiSetup) : GuiSetup :=
  mkGuiSetup v u.(gu_readinessGeneration) u.(gu_roomReadinessPending)
    u.(gu_roomOperationPending) u.(gu_pendingRoomCreated) u.(gu_pendingTunError)
    u.(gu_pendingMembers) u.(gu_pendingRelayReady) u.(gu_operation) u.(gu_lifecycleTask)
    u.(gu_tun) u.(gu_lent) u.(gu_bound) u.(gu_tearingDownTun) u.(gu_cleanupWarningShown).
Definition set_gu_readinessGeneration (v : Z) (u : GuiSetup) : GuiSetup :=
  mkGuiSetup u.(gu_readinessTimer) v u.(gu_roomReadinessPending) u.(gu_roomOperationPending)
    u.(gu_pendingRoomCreated) u.(gu_pendingTunError) u.(gu_pendingMembers)
    u.(gu_pendingRelayReady) u.(gu_operation) u.(gu_lifecycleTask) u.(gu_tun) u.(gu_lent)
    u.(gu_bound) u.(gu_tearingDownTun) u.(gu_cleanupWarningShown).
Definition set_gu_roomReadinessPending (v : bool) (u : GuiSetup) : GuiSetup :=
  mkGuiSetup u.(gu_readinessTimer) u.(gu_readinessGeneration) v u.(gu_roomOperationPending)
    u.(gu_pendingRoomCreated) u.(gu_pendingTunError) u.(gu_pendingMembers)
    u.(gu_pendingRelayReady) u.(gu_operation) u.(gu_lifecycleTask) u.(gu_tun) u.(gu_lent)
    u.(gu_bound) u.(gu_tearingDownTun) u.(gu_cleanupWarningShown).
Definition set_gu_roomOperationPending (v : bool) (u : GuiSetup) : GuiSetup :=
  mkGuiSetup u.(gu_readinessTimer) u.(gu_readinessGeneration) u.(gu_roomReadinessPending) v
    u.(gu_pendingRoomCreated) u.(gu_pendingTunError) u.(gu_pendingMembers)
    u.(gu_pendingRelayReady) u.(gu_operation) u.(gu_lifecycleTask) u.(gu_tun) u.(gu_lent)
    u.(gu_bound) u.(gu_tearingDownTun) u.(gu_cleanupWarningShown).
Definition set_gu_pendingRoomCreated (v : bool) (u : GuiSetup) : GuiSetup :=
  mkGuiSetup u.(gu_readinessTimer) u.(gu_readinessGeneration) u.(gu_roomReadinessPending)
    u.(gu_roomOperationPending) v u.(gu_pendingTunError) u.(gu_pendingMembers)
    u.(gu_pendingRelayReady) u.(gu_operation) u.(gu_lifecycleTask) u.(gu_tun) u.(gu_lent)
    u.(gu_bound) u.(gu_tearingDownTun) u.(gu_cleanupWarningShown).
Definition set_gu_pendingTunError (v : bytes) (u : GuiSetup) : GuiSetup :=
  mkGuiSetup u.(gu_readinessTimer) u.(gu_readinessGeneration) u.(gu_roomReadinessPending)
    u.(gu_roomOperationPending) u.(gu_pendingRoomCreated) v u.(gu_pendingMembers)
    u.(gu_pendingRelayReady) u.(gu_operation) u.(gu_lifecycleTask) u.(gu_tun) u.(gu_lent)
    u.(gu_bound) u.(gu_tearingDownTun) u.(gu_cleanupWarningShown).
Definition set_gu_pendingMembers (v : gmap Z PeerInfo) (u : GuiSetup) : GuiSetup :=
  mkGuiSetup u.(gu_readinessTimer) u.(gu_readinessGeneration) u.(gu_roomReadinessPending)
    u.(gu_roomOperationPending) u.(gu_pendingRoomCreated) u.(gu_pendingTunError) v
    u.(gu_pendingRelayReady) u.(gu_operation) u.(gu_lifecycleTask) u.(gu_tun) u.(gu_lent)
    u.(gu_bound) u.(gu_tearingDownTun) u.(gu_cleanupWarningShown).
Definition set_gu_pendingRelayReady (v : gset Z) (u : GuiSetup) : GuiSetup :=
  mkGuiSetup u.(gu_readinessTimer) u.(gu_readinessGeneration) u.(gu_roomReadinessPending)
    u.(gu_roomOperationPending) u.(gu_pendingRoomCreated) u.(gu_pendingTunError)
    u.(gu_pendingMembers) v u.(gu_operation) u.(gu_lifecycleTask) u.(gu_tun) u.(gu_lent)
    u.(gu_bound) u.(gu_tearingDownTun) u.(gu_cleanupWarningShown).
Definition set_gu_operation (v : RoomOperationTracker) (u : GuiSetup) : GuiSetup :=
  mkGuiSetup u.(gu_readinessTimer) u.(gu_readinessGeneration) u.(gu_roomReadinessPending)
    u.(gu_roomOperationPending) u.(gu_pendingRoomCreated) u.(gu_pendingTunError)
    u.(gu_pendingMembers) u.(gu_pendingRelayReady) v u.(gu_lifecycleTask) u.(gu_tun)
    u.(gu_lent) u.(gu_bound) u.(gu_tearingDownTun) u.(gu_cleanupWarningShown).
Definition set_gu_lifecycleTask (v : option GuiTunLifecycleTask) (u : GuiSetup) : GuiSetup :=
  mkGuiSetup u.(gu_readinessTimer) u.(gu_readinessGeneration) u.(gu_roomReadinessPending)
    u.(gu_roomOperationPending) u.(gu_pendingRoomCreated) u.(gu_pendingTunError)
    u.(gu_pendingMembers) u.(gu_pendingRelayReady) u.(gu_operation) v u.(gu_tun) u.(gu_lent)
    u.(gu_bound) u.(gu_tearingDownTun) u.(gu_cleanupWarningShown).
Definition set_gu_tun (v : bool) (u : GuiSetup) : GuiSetup :=
  mkGuiSetup u.(gu_readinessTimer) u.(gu_readinessGeneration) u.(gu_roomReadinessPending)
    u.(gu_roomOperationPending) u.(gu_pendingRoomCreated) u.(gu_pendingTunError)
    u.(gu_pendingMembers) u.(gu_pendingRelayReady) u.(gu_operation) u.(gu_lifecycleTask) v
    u.(gu_lent) u.(gu_bound) u.(gu_tearingDownTun) u.(gu_cleanupWarningShown).
Definition set_gu_lent (v : bool) (u : GuiSetup) : GuiSetup :=
  mkGuiSetup u.(gu_readinessTimer) u.(gu_readinessGeneration) u.(gu_roomReadinessPending)
    u.(gu_roomOperationPending) u.(gu_pendingRoomCreated) u.(gu_pendingTunError)
    u.(gu_pendingMembers) u.(gu_pendingRelayReady) u.(gu_operation) u.(gu_lifecycleTask)
    u.(gu_tun) v u.(gu_bound) u.(gu_tearingDownTun) u.(gu_cleanupWarningShown).
Definition set_gu_bound (v : option (Z * Z)) (u : GuiSetup) : GuiSetup :=
  mkGuiSetup u.(gu_readinessTimer) u.(gu_readinessGeneration) u.(gu_roomReadinessPending)
    u.(gu_roomOperationPending) u.(gu_pendingRoomCreated) u.(gu_pendingTunError)
    u.(gu_pendingMembers) u.(gu_pendingRelayReady) u.(gu_operation) u.(gu_lifecycleTask)
    u.(gu_tun) u.(gu_lent) v u.(gu_tearingDownTun) u.(gu_cleanupWarningShown).
Definition set_gu_tearingDownTun (v : bool) (u : GuiSetup) : GuiSetup :=
  mkGuiSetup u.(gu_readinessTimer) u.(gu_readinessGeneration) u.(gu_roomReadinessPending)
    u.(gu_roomOperationPending) u.(gu_pendingRoomCreated) u.(gu_pendingTunError)
    u.(gu_pendingMembers) u.(gu_pendingRelayReady) u.(gu_operation) u.(gu_lifecycleTask)
    u.(gu_tun) u.(gu_lent) u.(gu_bound) v u.(gu_cleanupWarningShown).
Definition set_gu_cleanupWarningShown (v : bool) (u : GuiSetup) : GuiSetup :=
  mkGuiSetup u.(gu_readinessTimer) u.(gu_readinessGeneration) u.(gu_roomReadinessPending)
    u.(gu_roomOperationPending) u.(gu_pendingRoomCreated) u.(gu_pendingTunError)
    u.(gu_pendingMembers) u.(gu_pendingRelayReady) u.(gu_operation) u.(gu_lifecycleTask)
    u.(gu_tun) u.(gu_lent) u.(gu_bound) u.(gu_tearingDownTun) v.
(** The settings of the last room. *)
Record GuiSaved := mkGuiSaved {
  gv_savedRoomId : Z;
  gv_savedRoomName : bytes;
  gv_savedMaxPlayers : Z;
  gv_savedRoomMtu : Z;
  gv_savedRoomPasswordProtected : bool;
  gv_savedRoomPassword : bytes;
  gv_savedTcpPolicy : RoomTrafficPolicy;
  gv_savedUdpPolicy : RoomTrafficPolicy
}.
Definition set_gv_savedRoomId (v : Z) (v0 : GuiSaved) : GuiSaved :=
  mkGuiSaved v v0.(gv_savedRoomName) v0.(gv_savedMaxPlayers) v0.(gv_savedRoomMtu)
    v0.(gv_savedRoomPasswordProtected) v0.(gv_savedRoomPassword) v0.(gv_savedTcpPolicy)
    v0.(gv_savedUdpPolicy).
Definition set_gv_savedRoomName (v : bytes) (v0 : GuiSaved) : GuiSaved :=
  mkGuiSaved v0.(gv_savedRoomId) v v0.(gv_savedMaxPlayers) v0.(gv_savedRoomMtu)
    v0.(gv_savedRoomPasswordProtected) v0.(gv_savedRoomPassword) v0.(gv_savedTcpPolicy)
    v0.(gv_savedUdpPolicy).
Definition set_gv_savedMaxPlayers (v : Z) (v0 : GuiSaved) : GuiSaved :=
  mkGuiSaved v0.(gv_savedRoomId) v0.(gv_savedRoomName) v v0.(gv_savedRoomMtu)
    v0.(gv_savedRoomPasswordProtected) v0.(gv_savedRoomPassword) v0.(gv_savedTcpPolicy)
    v0.(gv_savedUdpPolicy).
Definition set_gv_savedRoomMtu (v : Z) (v0 : GuiSaved) : GuiSaved :=
  mkGuiSaved v0.(gv_savedRoomId) v0.(gv_savedRoomName) v0.(gv_savedMaxPlayers) v
    v0.(gv_savedRoomPasswordProtected) v0.(gv_savedRoomPassword) v0.(gv_savedTcpPolicy)
    v0.(gv_savedUdpPolicy).
Definition set_gv_savedRoomPasswordProtected (v : bool) (v0 : GuiSaved) : GuiSaved :=
  mkGuiSaved v0.(gv_savedRoomId) v0.(gv_savedRoomName) v0.(gv_savedMaxPlayers)
    v0.(gv_savedRoomMtu) v v0.(gv_savedRoomPassword) v0.(gv_savedTcpPolicy)
    v0.(gv_savedUdpPolicy).
Definition set_gv_savedRoomPassword (v : bytes) (v0 : GuiSaved) : GuiSaved :=
  mkGuiSaved v0.(gv_savedRoomId) v0.(gv_savedRoomName) v0.(gv_savedMaxPlayers)
    v0.(gv_savedRoomMtu) v0.(gv_savedRoomPasswordProtected) v v0.(gv_savedTcpPolicy)
    v0.(gv_savedUdpPolicy).
Definition set_gv_savedTcpPolicy (v : RoomTrafficPolicy) (v0 : GuiSaved) : GuiSaved :=
  mkGuiSaved v0.(gv_savedRoomId) v0.(gv_savedRoomName) v0.(gv_savedMaxPlayers)
    v0.(gv_savedRoomMtu) v0.(gv_savedRoomPasswordProtected) v0.(gv_savedRoomPassword) v
    v0.(gv_savedUdpPolicy).
Definition set_gv_savedUdpPolicy (v : RoomTrafficPolicy) (v0 : GuiSaved) : GuiSaved :=
  mkGuiSaved v0.(gv_savedRoomId) v0.(gv_savedRoomName) v0.(gv_savedMaxPlayers)
    v0.(gv_savedRoomMtu) v0.(gv_savedRoomPasswordProtected) v0.(gv_savedRoomPassword)
    v0.(gv_savedTcpPolicy) v.
(** The peers: pending rebuilds and quality reports by peer and class, and the timers. *)
Record GuiLinks := mkGuiLinks {
  gk_dataChannel : bool;
  gk_cachedRoomList : list CliRoomListItem;
  gk_pendingRebuild : gset (Z * Z);
  gk_qualityLogStates : gmap (Z * Z) (TransportType * Z);
  gk_lastUploadBytes : Z;
  gk_lastDownloadBytes : Z;
  gk_latencyTimer : bool;
  gk_trafficTimer : bool;
  gk_tcpRelayTimer : bool
}.
Definition set_gk_dataChannel (v : bool) (k : GuiLinks) : GuiLinks :=
  mkGuiLinks v k.(gk_cachedRoomList) k.(gk_pendingRebuild) k.(gk_qualityLogStates)
    k.(gk_lastUploadBytes) k.(gk_lastDownloadBytes) k.(gk_latencyTimer) k.(gk_trafficTimer)
    k.(gk_tcpRelayTimer).
Definition set_gk_cachedRoomList (v : list CliRoomListItem) (k : GuiLinks) : GuiLinks :=
  mkGuiLinks k.(gk_dataChannel) v k.(gk_pendingRebuild) k.(gk_qualityLogStates)
    k.(gk_lastUploadBytes) k.(gk_lastDownloadBytes) k.(gk_latencyTimer) k.(gk_trafficTimer)
    k.(gk_tcpRelayTimer).
Definition set_gk_pendingRebuild (v : gset (Z * Z)) (k : GuiLinks) : GuiLinks :=
  mkGuiLinks k.(gk_dataChannel) k.(gk_cachedRoomList) v k.(gk_qualityLogStates)
    k.(gk_lastUploadBytes) k.(gk_lastDownloadBytes) k.(gk_latencyTimer) k.(gk_trafficTimer)
    k.(gk_tcpRelayTimer).
Definition set_gk_qualityLogStates (v : gmap (Z * Z) (TransportType * Z)) (k : GuiLinks) : GuiLinks :=
  mkGuiLinks k.(gk_dataChannel) k.(gk_cachedRoomList) k.(gk_pendingRebuild) v
    k.(gk_lastUploadBytes) k.(gk_lastDownloadBytes) k.(gk_latencyTimer) k.(gk_trafficTimer)
    k.(gk_tcpRelayTimer).
Definition set_gk_lastUploadBytes (v : Z) (k : GuiLinks) : GuiLinks :=
  mkGuiLinks k.(gk_dataChannel) k.(gk_cachedRoomList) k.(gk_pendingRebuild)
    k.(gk_qualityLogStates) v k.(gk_lastDownloadBytes) k.(gk_latencyTimer)
    k.(gk_trafficTimer) k.(gk_tcpRelayTimer).
Definition set_gk_lastDownloadBytes (v : Z) (k : GuiLinks) : GuiLinks :=
  mkGuiLinks k.(gk_dataChannel) k.(gk_cachedRoomList) k.(gk_pendingRebuild)
    k.(gk_qualityLogStates) k.(gk_lastUploadBytes) v k.(gk_latencyTimer) k.(gk_trafficTimer)
    k.(gk_tcpRelayTimer).
Definition set_gk_latencyTimer (v : bool) (k : GuiLinks) : GuiLinks :=
  mkGuiLinks k.(gk_dataChannel) k.(gk_cachedRoomList) k.(gk_pendingRebuild)
    k.(gk_qualityLogStates) k.(gk_lastUploadBytes) k.(gk_lastDownloadBytes) v
    k.(gk_trafficTimer) k.(gk_tcpRelayTimer).
Definition set_gk_trafficTimer (v : bool) (k : GuiLinks) : GuiLinks :=
  mkGuiLinks k.(gk_dataChannel) k.(gk_cachedRoomList) k.(gk_pendingRebuild)
    k.(gk_qualityLogStates) k.(gk_lastUploadBytes) k.(gk_lastDownloadBytes)
    k.(gk_latencyTimer) v k.(gk_tcpRelayTimer).
Definition set_gk_tcpRelayTimer (v : bool) (k : GuiLinks) : GuiLinks :=
  mkGuiLinks k.(gk_dataChannel) k.(gk_cachedRoomList) k.(gk_pendingRebuild)
    k.(gk_qualityLogStates) k.(gk_lastUploadBytes) k.(gk_lastDownloadBytes)
    k.(gk_latencyTimer) k.(gk_trafficTimer) v.

Section Host.
Context `{GuiHost}.

(** The manager and its surroundings.  [rm_later] holds the closures given to
    [QTimer::singleShot] that have not run; [rm_schedule] what the lifecycle
    thread does before each access to what it shares; [rm_dangling] is raised
    when a destroyed adapter is used. *)
Record RoomManager := mkRoomManager {
  rm_conn : GuiConn;
  rm_room : GuiRoom;
  rm_setup : GuiSetup;
  rm_saved : GuiSaved;
  rm_lease : ResumeLease;
  rm_links : GuiLinks;
  rm_now : Z;
  rm_monotonic : Z;
  rm_later : list Deferred;
  rm_schedule : list (list GuiStep);
  rm_notes : list Note;
  rm_dangling : bool;
  rm_host : gui_host
}.
Definition set_rm_conn (v : GuiConn) (m : RoomManager) : RoomManager :=
  mkRoomManager v m.(rm_room) m.(rm_setup) m.(rm_saved) m.(rm_lease) m.(rm_links) m.(rm_now)
    m.(rm_monotonic) m.(rm_later) m.(rm_schedule) m.(rm_notes) m.(rm_dangling) m.(rm_host).
Definition set_rm_room (v : GuiRoom) (m : RoomManager) : RoomManager :=
  mkRoomManager m.(rm_conn) v m.(rm_setup) m.(rm_saved) m.(rm_lease) m.(rm_links) m.(rm_now)
    m.(rm_monotonic) m.(rm_later) m.(rm_schedule) m.(rm_notes) m.(rm_dangling) m.(rm_host).
Definition set_rm_setup (v : GuiSetup) (m : RoomManager) : RoomManager :=
  mkRoomManager m.(rm_conn) m.(rm_room) v m.(rm_saved) m.(rm_lease) m.(rm_links) m.(rm_now)
    m.(rm_monotonic) m.(rm_later) m.(rm_schedule) m.(rm_notes) m.(rm_dangling) m.(rm_host).
Definition set_rm_saved (v : GuiSaved) (m : RoomManager) : RoomManager :=
  mkRoomManager m.(rm_conn) m.(rm_room) m.(rm_setup) v m.(rm_lease) m.(rm_links) m.(rm_now)
    m.(rm_monotonic) m.(rm_later) m.(rm_schedule) m.(rm_notes) m.(rm_dangling) m.(rm_host).
Definition set_rm_lease (v : ResumeLease) (m : RoomManager) : RoomManager :=
  mkRoomManager m.(rm_conn) m.(rm_room) m.(rm_setup) m.(rm_saved) v m.(rm_links) m.(rm_now)
    m.(rm_monotonic) m.(rm_later) m.(rm_schedule) m.(rm_notes) m.(rm_dangling) m.(rm_host).
Definition set_rm_links (v : GuiLinks) (m : RoomManager) : RoomManager :=
  mkRoomManager m.(rm_conn) m.(rm_room) m.(rm_setup) m.(rm_saved) m.(rm_lease) v m.(rm_now)
    m.(rm_monotonic) m.(rm_later) m.(rm_schedule) m.(rm_notes) m.(rm_dangling) m.(rm_host).
Definition set_rm_now (v : Z) (m : RoomManager) : RoomManager :=
  mkRoomManager m.(rm_conn) m.(rm_room) m.(rm_setup) m.(rm_saved) m.(rm_lease) m.(rm_links)
    v m.(rm_monotonic) m.(rm_later) m.(rm_schedule) m.(rm_notes) m.(rm_dangling) m.(rm_host).
Definition set_rm_monotonic (v : Z) (m : RoomManager) : RoomManager :=
  mkRoomManager m.(rm_conn) m.(rm_room) m.(rm_setup) m.(rm_saved) m.(rm_lease) m.(rm_links)
    m.(rm_now) v m.(rm_later) m.(rm_schedule) m.(rm_notes) m.(rm_dangling) m.(rm_host).
Definition set_rm_later (v : list Deferred) (m : RoomManager) : RoomManager :=
  mkRoomManager m.(rm_conn) m.(rm_room) m.(rm_setup) m.(rm_saved) m.(rm_lease) m.(rm_links)
    m.(rm_now) m.(rm_monotonic) v m.(rm_schedule) m.(rm_notes) m.(rm_dangling) m.(rm_host).
Definition set_rm_schedule (v : list (list GuiStep)) (m : RoomManager) : RoomManager :=
  mkRoomManager m.(rm_conn) m.(rm_room) m.(rm_setup) m.(rm_saved) m.(rm_lease) m.(rm_links)
    m.(rm_now) m.(rm_monotonic) m.(rm_later) v m.(rm_notes) m.(rm_dangling) m.(rm_host).
Definition set_rm_notes (v : list Note) (m : RoomManager) : RoomManager :=
  mkRoomManager m.(rm_conn) m.(rm_room) m.(rm_setup) m.(rm_saved) m.(rm_lease) m.(rm_links)
    m.(rm_now) m.(rm_monotonic) m.(rm_later) m.(rm_schedule) v m.(rm_dangling) m.(rm_host).
Definition set_rm_dangling (v : bool) (m : RoomManager) : RoomManager :=
  mkRoomManager m.(rm_conn) m.(rm_room) m.(rm_setup) m.(rm_saved) m.(rm_lease) m.(rm_links)
    m.(rm_now) m.(rm_monotonic) m.(rm_later) m.(rm_schedule) m.(rm_notes) v m.(rm_host).
Definition set_rm_host (v : gui_host) (m : RoomManager) : RoomManager :=
  mkRoomManager m.(rm_conn) m.(rm_room) m.(rm_setup) m.(rm_saved) m.(rm_lease) m.(rm_links)
    m.(rm_now) m.(rm_monotonic) m.(rm_later) m.(rm_schedule) m.(rm_notes) m.(rm_dangling) v.
End Host.

(** ** Construction *)

Definition GuiConn_init : GuiConn :=
  mkGuiConn [] None [] 0 (-1) 0 ConnIdle DEFAULT_PORT [] [] false false 0 false false false false false false false.
Definition GuiRoom_init : GuiRoom :=
  mkGuiRoom 0 0 makeDefaultTcpPolicy makeDefaultUdpPolicy ROOM_MTU_DEFAULT false [] false false false.
Definition GuiSetup_init : GuiSetup :=
  mkGuiSetup None 0 false false false [] ∅ ∅ RoomOperationTracker_init None false false None false false.
Definition GuiSaved_init : GuiSaved :=
  mkGuiSaved 0 [] 8 ROOM_MTU_DEFAULT false [] makeDefaultTcpPolicy makeDefaultUdpPolicy.
Definition GuiLinks_init : GuiLinks := mkGuiLinks false [] ∅ ∅ 0 0 false false false.
Definition RoomManager_init `{GuiHost} (now monotonic : Z) (h : gui_host) : RoomManager :=
  mkRoomManager GuiConn_init GuiRoom_init GuiSetup_init GuiSaved_init ResumeLease_init GuiLinks_init
    now monotonic [] [] [] false h.
