(* ===== verification/GuiRoom.v ===== *)
(** * [class RoomManager] of [client/src/network/room_manager.cpp]: operations

    Each function of the class is a program over [RoomManager].  A call of the
    signalling client runs its signals' slots where they are emitted: the
    programs take what handles them as the parameter [handle], and [gui_slot]
    at the end ties the knot, [fuel] bounding how deep that nests.  Before each
    access to what it shares with the lifecycle thread, that thread makes any
    number of steps ([task_runs]).  The clocks stand still during an event. *)

From stdpp Require Import pretty.
From S2P Require Import Prelude Protocol Room CliSignalState Overlay TcpConn CliAppState CliApp RoomOp TunJob GuiTun ProbeQuality PeerConn TunnelManager GuiRoomState.

Section Manager.
Context `{GuiHost} (handle : SignalEvent -> SE RoomManager unit).
Abbreviation GM A := (SE RoomManager A) (only parsing).

(** ** Access to the parts *)

Definition in_gc (f : GuiConn -> GuiConn) : GM unit := modify (fun m => set_rm_conn (f (rm_conn m)) m).
Definition in_gr (f : GuiRoom -> GuiRoom) : GM unit := modify (fun m => set_rm_room (f (rm_room m)) m).
Definition in_gu (f : GuiSetup -> GuiSetup) : GM unit := modify (fun m => set_rm_setup (f (rm_setup m)) m).
Definition in_gv (f : GuiSaved -> GuiSaved) : GM unit := modify (fun m => set_rm_saved (f (rm_saved m)) m).
Definition in_gk (f : GuiLinks -> GuiLinks) : GM unit := modify (fun m => set_rm_links (f (rm_links m)) m).
Definition in_gl (f : ResumeLease -> ResumeLease) : GM unit := modify (fun m => set_rm_lease (f (rm_lease m)) m).
Definition in_op (f : RoomOperationTracker -> RoomOperationTracker) : GM unit :=
  in_gu (fun u => set_gu_operation (f (gu_operation u)) u).
Definition op_phase (m : RoomManager) : RoomOperationPhase := t_phase (gu_operation (rm_setup m)).
Definition gui_roomReady (m : RoomManager) : bool := gr_roomReady (rm_room m).
Definition gui_generation (m : RoomManager) : Z := gu_readinessGeneration (rm_setup m).
Definition gui_connection (m : RoomManager) : Z := gc_connectionGeneration (rm_conn m).
Definition signal_connected (m : RoomManager) : bool := sg_isConnected (rm_host m).
Definition gui_myPeerId (m : RoomManager) : Z := sg_myPeerId (rm_host m).
Definition notify (n : Note) : GM unit := modify (fun m => set_rm_notes (rm_notes m ++ [n]) m).
(** [QTimer::singleShot]. *)
Definition later (d : Deferred) : GM unit := modify (fun m => set_rm_later (rm_later m ++ [d]) m).

(** ** The collaborators *)

Fixpoint run_signal (r : SignalRun gui_host) : GM unit :=
  match r with
  | SignalDone h => modify (set_rm_host h)
  | SignalEmit ev h k => modify (set_rm_host h) ;;; handle ev ;;; (h <- gets rm_host ;; run_signal (k h))
  end.
Definition signal_call (c : SignalCall) : GM unit := h <- gets rm_host ;; run_signal (sg_call c h).

(** [onSecurityFailure], [onDataChannelConnected], [onDataChannelDisconnected]. *)
Definition gui_onSecurityFailure (message : bytes) : GM unit :=
  m <- gets (fun m => m) ;; later (DSecurity (gui_connection m) (sg_secureSessionId (rm_host m))).
Definition port_signal (p : PortSignal) : GM unit :=
  match p with
  | PsConnected => notify (NStatus "status.dataChannelConnected")
  | PsDisconnected => notify (NStatus "status.dataChannelDisconnected")
  | PsSecurityError message => gui_onSecurityFailure message
  end.
Definition port_result (r : bool * list PortSignal * gui_host) : GM bool :=
  modify (set_rm_host (snd r)) ;;; for_each (snd (fst r)) port_signal ;;; ret (fst (fst r)).
Definition tunnel_call (c : TunnelCall) : GM bool := h <- gets rm_host ;; port_result (tn_call c h).
Definition tunnel_do (c : TunnelCall) : GM unit := tunnel_call c ;;; ret tt.
(** [m_tunnel->setTunAdapter]. *)
Definition lend_adapter (tun : bool) : GM unit :=
  in_gu (set_gu_lent tun) ;;; tunnel_do (TnSetTunAdapter tun).
Definition channel_call (c : ChannelCall) : GM bool := h <- gets rm_host ;; port_result (dc_call c h).
(** [if (m_dataChannel) m_dataChannel->...]. *)
Definition channel_do (c : ChannelCall) : GM unit :=
  m <- gets (fun m => m) ;; when (gk_dataChannel (rm_links m)) (channel_call c ;;; ret tt).

(** What a peer on the TCP relay sends ([setTcpRelaySender]). *)
Definition gui_tcpRelaySender (myId dstPeerId cls : Z) (data : bytes) : GM unit :=
  m <- gets (fun m => m) ;;
  if negb (tn_running (rm_host m)) || negb (tn_secured (rm_host m)) then ret tt else
  if gk_dataChannel (rm_links m) && dc_isConnected (rm_host m)
  then channel_call (DcRelayData myId dstPeerId cls data) ;;; ret tt
  else when (signal_connected m) (signal_call (SgRelayData myId dstPeerId cls data)).

Definition peer_call (c : PeerCall) : GM unit :=
  h <- gets rm_host ;;
  let '(sends, signals, h) := tn_peer_call c h in
  modify (set_rm_host h) ;;; for_each signals port_signal ;;;
  for_each sends (fun '(myId, dst, cls, data) => gui_tcpRelaySender myId dst cls data).

(** Steps of the lifecycle thread; it never asks itself to stop. *)
Definition worker_step (t : GuiTunLifecycleTask) (e : GuiStep) : GuiTunLifecycleTask :=
  match e with GuiCancel => t | _ => gui_step t e end.
Definition task_runs : GM unit :=
  modify (fun m => match rm_schedule m with
                   | [] => m
                   | batch :: rest =>
                       set_rm_schedule rest
                         (set_rm_setup (set_gu_lifecycleTask (fold_left worker_step batch <$> gu_lifecycleTask (rm_setup m))
                                          (rm_setup m)) m)
                   end).
(** [m_lifecycleTask->snapshot()], if there is a task. *)
Definition task_snapshot : GM (option GuiSnapshot) :=
  task_runs ;;; gets (fun m => gui_snapshot <$> gu_lifecycleTask (rm_setup m)).
Definition task_done : GM bool := s <- task_snapshot ;; ret (match s with Some v => gs_done v | None => false end).
(** [m_lifecycleTask.reset()], which also asks a task to stop that nobody holds any more. *)
Definition task_reset : GM unit := in_gu (set_gu_lifecycleTask None).
(** The borrowed adapter is used. *)
Definition adapter_alive (m : RoomManager) : bool :=
  match gu_lifecycleTask (rm_setup m) with Some t => gl_alive t | None => false end.
Definition use_adapter : GM unit :=
  task_runs ;;; modify (fun m => if adapter_alive m then m else set_rm_dangling true m).

(** ** The lease *)

Definition gui_deadlineReached (now deadlineMs : Z) : bool :=
  negb (deadlineMs =? 0) && (0 <=? i32 (now - deadlineMs)).
Definition gui_clearResumeLease : GM unit := in_gl (fun _ => ResumeLease_init).
Definition gui_rememberResumeLease (roomId peerId virtualIP : Z) (token : bytes) : GM unit :=
  if negb (len token =? RECONNECT_TOKEN_SIZE) then gui_clearResumeLease else
  in_gl (fun _ => mkLease true roomId peerId virtualIP 0 token).
Definition gui_startResumeLeaseDeadline : GM unit :=
  m <- gets (fun m => m) ;;
  if negb (rl_hasResumeLease (rm_lease m)) || negb (len (rl_resumeToken (rm_lease m)) =? RECONNECT_TOKEN_SIZE)
  then ret tt else
  in_gl (set_rl_resumeLeaseDeadlineMs (u32 (rm_now m + RECONNECT_LEASE_TIMEOUT_SEC * 1000))) ;;;
  later DLeaseExpiry.
Definition gui_expireResumeLeaseIfNeeded : GM unit :=
  m <- gets (fun m => m) ;;
  when (gui_deadlineReached (rm_now m) (rl_resumeLeaseDeadlineMs (rm_lease m))) gui_clearResumeLease.
Definition gui_hasUsableResumeLease : GM bool :=
  gui_expireResumeLeaseIfNeeded ;;;
  gets (fun m => rl_hasResumeLease (rm_lease m) && (len (rl_resumeToken (rm_lease m)) =? RECONNECT_TOKEN_SIZE) &&
                 negb (gui_deadlineReached (rm_now m) (rl_resumeLeaseDeadlineMs (rm_lease m)))).

(** ** The room operation *)

(** The guard given to the signalling client. *)
Definition gui_roomOperationGuard (m : RoomManager) : bool :=
  let o := gu_operation (rm_setup m) in
  bool_decide (t_phase o = WaitingServer) && negb (gc_recoveryActive (rm_conn m)) &&
  negb (expired o (rm_monotonic m)) && (t_connection o =? gui_connection m).
Definition gui_roomCleanupPending : GM bool :=
  s <- task_snapshot ;;
  m <- gets (fun m => m) ;;
  ret (match s with Some v => negb (gs_done v) && bool_decide (op_phase m = CleaningUp) | None => false end).
Definition gui_roomOperationBusy : GM bool :=
  m <- gets (fun m => m) ;;
  if gu_roomOperationPending (rm_setup m) || gc_recoveryActive (rm_conn m) then ret true else
  s <- task_snapshot ;;
  ret (match s with Some v => negb (gs_done v) && negb (gui_roomReady m) | None => false end).
Definition gui_setRoomOperationPending (pending : bool) : GM unit :=
  m <- gets (fun m => m) ;;
  when (pending && canStart (gu_operation (rm_setup m))) (
    in_op (fun o => snd (begin_op o (rm_monotonic m) (gui_connection m))) ;;;
    in_gu (set_gu_cleanupWarningShown false)) ;;;
  cleaning <- (if pending then ret true else gui_roomCleanupPending) ;;
  m <- gets (fun m => m) ;;
  let pending := cleaning || gc_recoveryActive (rm_conn m) in
  if Bool.eqb (gu_roomOperationPending (rm_setup m)) pending then ret tt else
  in_gu (set_gu_roomOperationPending pending) ;;; notify (NPending pending).

(** ** Taking the room down *)

(** [cancelTunReadiness]. *)
Definition gui_cancelTunReadiness : GM unit :=
  m <- gets (fun m => m) ;;
  match gu_lifecycleTask (rm_setup m) with
  | Some _ => task_runs ;;; in_gu (fun u => set_gu_lifecycleTask (gui_requestCancel <$> gu_lifecycleTask u) u)
  | None => when (gu_tun (rm_setup m)) (use_adapter ;;; tunnel_do TnCancelAdapterReadiness)
  end.
(** The part of [teardownTun] up to where the task is told to stop. *)
Definition detach_adapter : GM unit :=
  in_gu (set_gu_tearingDownTun true) ;;; in_gr (set_gr_roomReady false) ;;;
  m <- gets (fun m => m) ;;
  in_op (fun o => beginCleanup o (rm_monotonic m)) ;;;
  in_gu (fun u => set_gu_readinessGeneration (u64 (gu_readinessGeneration u + 1)) u) ;;;
  in_gu (set_gu_roomReadinessPending false) ;;; in_gu (set_gu_readinessTimer None) ;;;
  tunnel_do TnStopDataPlane ;;; lend_adapter false ;;;
  m <- gets (fun m => m) ;;
  when (bool_decide (is_Some (gu_lifecycleTask (rm_setup m))) && gu_tun (rm_setup m)) (
    use_adapter ;;; in_gu (set_gu_bound None) ;;; in_gu (set_gu_tun false)).
Definition clear_pending_peers : GM unit :=
  in_gu (fun u => set_gu_pendingTunError [] (set_gu_pendingRelayReady ∅ (set_gu_pendingMembers ∅ u))).
Definition reset_traffic : GM unit :=
  in_gk (fun k => set_gk_lastDownloadBytes 0 (set_gk_lastUploadBytes 0 k)) ;;;
  tunnel_do TnResetTrafficCounters ;;; notify (NSpeed 0 0).
Definition gui_teardownTun : GM unit :=
  detach_adapter ;;; gui_cancelTunReadiness ;;; clear_pending_peers ;;;
  gui_setRoomOperationPending false ;;;
  tunnel_do TnStopDataPlane ;;;
  in_gk (fun k => set_gk_trafficTimer false (set_gk_latencyTimer false
                    (set_gk_qualityLogStates ∅ (set_gk_pendingRebuild ∅ k)))) ;;;
  reset_traffic ;;;
  in_gk (set_gk_tcpRelayTimer false) ;;;
  channel_do DcDisconnect ;;;
  in_gr (fun r => set_gr_roomPassword [] (set_gr_roomPasswordProtected false r)) ;;;
  tunnel_do TnRemoveAllPeers ;;;
  m <- gets (fun m => m) ;;
  when (gu_tun (rm_setup m)) (
    lend_adapter false ;;; use_adapter ;;; tunnel_do TnShutdownAdapter ;;; in_gu (set_gu_tun false)) ;;;
  s <- task_snapshot ;;
  when (match s with Some v => gs_done v | None => true end) (task_reset ;;; in_op finishCleanup) ;;;
  gui_setRoomOperationPending false ;;;
  in_gu (set_gu_tearingDownTun false).
Definition gui_resetRoomRuntimeState (clearSavedRoom : bool) : GM unit :=
  in_gr (fun r => mkGuiRoom 0 0 makeDefaultTcpPolicy makeDefaultUdpPolicy ROOM_MTU_DEFAULT false [] false
                    (gr_pendingResumeRoom r) false) ;;;
  tunnel_do (TnSetMyVirtualIP 0) ;;; tunnel_do (TnSetRoomMtu ROOM_MTU_DEFAULT) ;;;
  when clearSavedRoom
    (in_gv (fun v => set_gv_savedRoomPasswordProtected false (set_gv_savedRoomPassword []
                       (set_gv_savedRoomName [] (set_gv_savedRoomId 0 v))))).
(** [emit roomLeft()] and the like: the window's slot asks for the room list. *)
Definition gui_refreshRoomList : GM unit := signal_call SgList.
Definition notify_refresh (n : Note) : GM unit := notify n ;;; gui_refreshRoomList.

(** ** Recovery *)

Definition gui_maybeFinishRoomRecovery : GM unit :=
  m <- gets (fun m => m) ;;
  if negb (gc_recoveryActive (rm_conn m)) || gc_logoutPending (rm_conn m) || signal_connected m then ret tt else
  s <- task_snapshot ;;
  if match s with Some v => negb (gs_done v) | None => false end then ret tt else
  task_reset ;;; in_op finishCleanup ;;;
  in_gc (fun c => set_gc_manualDisconnecting false (set_gc_recoveryActive false c)) ;;;
  gui_setRoomOperationPending false ;;;
  m <- gets (fun m => m) ;;
  let c := rm_conn m in
  if gc_authRetryBlocked c || bool_decide (gc_playerName c = []) || bool_decide (gc_serverPassword c = []) ||
     gc_recoveryLoginScheduled c then ret tt else
  in_gc (set_gc_recoveryLoginScheduled true) ;;; later (DRecoveryLogin (gui_connection m)).
Definition gui_finishManualDisconnect : GM unit :=
  in_gc (set_gc_logoutPending false) ;;;
  m <- gets (fun m => m) ;;
  when (signal_connected m || sg_isConnecting (rm_host m)) (signal_call SgDisconnect) ;;;
  gui_maybeFinishRoomRecovery.
Definition gui_beginRoomRecovery (reason : bytes) (reportError : bool) : GM unit :=
  m <- gets (fun m => m) ;;
  if gc_recoveryActive (rm_conn m) then ret tt else
  in_gc (fun c => set_gc_wantReconnect false (set_gc_recoveryLoginAttempt false
                    (set_gc_recoveryLoginScheduled false (set_gc_recoveryActive true c)))) ;;;
  in_gr (fun r => set_gr_pendingResumeRoom false (set_gr_wasInRoom false r)) ;;;
  in_gc (set_gc_reconnectScheduled false) ;;;
  in_op (fun o => snd (beginCancel o (rm_monotonic m))) ;;;
  in_gc (set_gc_manualDisconnecting true) ;;;
  m <- gets (fun m => m) ;;
  let hadRoom := gui_roomReady m || gu_roomOperationPending (rm_setup m) in
  signal_call SgAbandon ;;; gui_teardownTun ;;; gui_resetRoomRuntimeState true ;;; gui_clearResumeLease ;;;
  notify (if reportError then NError reason else NMessage reason) ;;;
  when hadRoom (notify_refresh NRoomLeft) ;;;
  m <- gets (fun m => m) ;;
  if signal_connected m then
    in_gc (set_gc_logoutPending true) ;;; signal_call SgLogout ;;;
    m <- gets (fun m => m) ;; later (DRecoveryLogout (t_id (gu_operation (rm_setup m))))
  else in_gc (set_gc_logoutPending false) ;;; gui_maybeFinishRoomRecovery.
Definition TIMEOUT_TEXT : bytes := bytes_of_string "room.error.timeout".

(** ** Connecting *)

Definition gui_scheduleReconnectAttempt : GM unit :=
  m <- gets (fun m => m) ;;
  let c := rm_conn m in
  if gc_authRetryBlocked c || gc_reconnectScheduled c || negb (gc_wantReconnect c) then ret tt else
  cleaning <- gui_roomCleanupPending ;;
  if cleaning then
    in_gc (set_gc_reconnectScheduled true) ;;; later (DReconnectWait (gui_connection m))
  else if MAX_RECONNECT_ATTEMPTS <=? gc_reconnectAttempts c then
    in_gc (set_gc_wantReconnect false) ;;; in_gr (set_gr_pendingResumeRoom false) ;;;
    gui_expireResumeLeaseIfNeeded ;;;
    usable <- (if gr_wasInRoom (rm_room m) then gui_hasUsableResumeLease else ret false) ;;
    notify (NStatus (if usable then "status.reconnectStoppedResumeWindow" else "status.reconnectFailed"))
  else
    let generation := u64 (gui_connection m + 1) in
    in_gc (fun c => set_gc_reconnectScheduled true (set_gc_connectionGeneration generation c)) ;;;
    later (DReconnect generation).
Definition gui_handleConnectionAttemptExhausted (reason : bytes) : GM unit :=
  in_gc (set_gc_connectionPhase ConnIdle) ;;;
  m <- gets (fun m => m) ;;
  let failedRecovery := gc_recoveryLoginAttempt (rm_conn m) in
  when failedRecovery (
    in_gc (fun c => set_gc_reconnectScheduled false (set_gc_wantReconnect false
                      (set_gc_recoveryLoginScheduled false (set_gc_recoveryLoginAttempt false c))))) ;;;
  notify (NError reason) ;;; notify (NConnection false) ;;;
  if failedRecovery then notify (NStatus "room.recovery.failed") else
  m <- gets (fun m => m) ;;
  when (gc_wantReconnect (rm_conn m)) gui_scheduleReconnectAttempt.
Definition gui_proceedWithConnection : GM unit :=
  in_gc (set_gc_connectionPhase ConnConnecting) ;;;
  m <- gets (fun m => m) ;;
  signal_call (SgSetPassword (gc_serverPassword (rm_conn m))) ;;;
  m <- gets (fun m => m) ;;
  signal_call (SgConnect (gc_resolvedAddr (rm_conn m)) (gc_port (rm_conn m))).
Definition gui_tryNextResolvedAddress : GM unit :=
  m <- gets (fun m => m) ;;
  match gc_resolvedCandidates (rm_conn m) !! Z.to_nat (gc_resolvedCandidateIndex (rm_conn m)) with
  | None => gui_handleConnectionAttemptExhausted (bytes_of_string "All resolved IPv4 addresses failed.")
  | Some addr =>
      in_gc (fun c => set_gc_resolvedCandidateIndex (gc_resolvedCandidateIndex c + 1)
                        (set_gc_resolvedAddr (Some addr) c)) ;;;
      notify (NStatus "status.resolvedHost") ;;; gui_proceedWithConnection
  end.
Definition gui_resolveAndConnect : GM unit :=
  in_gc (set_gc_lookupId (-1)) ;;;
  in_gc (fun c => set_gc_resolvedCandidateIndex 0 (set_gc_resolvedCandidates [] (set_gc_reconnectScheduled false
                    (set_gc_connectionGeneration (u64 (gc_connectionGeneration c + 1)) c)))) ;;;
  m <- gets (fun m => m) ;;
  match qt_parseIPv4 (gc_serverHost (rm_conn m)) with
  | Some addr => in_gc (set_gc_resolvedCandidates [addr]) ;;; gui_tryNextResolvedAddress
  | None =>
      in_gc (set_gc_connectionPhase ConnResolving) ;;; notify (NStatus "status.resolvingHost") ;;;
      m <- gets (fun m => m) ;;
      let r := qt_lookupHost (gc_serverHost (rm_conn m)) (rm_host m) in
      modify (set_rm_host (snd r)) ;;; in_gc (set_gc_lookupId (fst r))
  end.
(** [addresses]: the IPv4 addresses of the answer, or the error. *)
Definition gui_onHostResolved (lookupId : Z) (answer : bytes + list Z) : GM unit :=
  m <- gets (fun m => m) ;;
  if negb (lookupId =? gc_lookupId (rm_conn m)) || negb (bool_decide (gc_connectionPhase (rm_conn m) = ConnResolving))
  then ret tt else
  in_gc (set_gc_lookupId (-1)) ;;;
  match answer with
  | inl error => gui_handleConnectionAttemptExhausted error
  | inr addrs =>
      in_gc (fun c => set_gc_resolvedCandidates
        (fold_left (fun l a => if decide (a ∈ l) then l else l ++ [a]) addrs (gc_resolvedCandidates c)) c) ;;;
      m <- gets (fun m => m) ;;
      if bool_decide (gc_resolvedCandidates (rm_conn m) = [])
      then gui_handleConnectionAttemptExhausted (bytes_of_string "DNS did not return an IPv4 address.")
      else gui_tryNextResolvedAddress
  end.
Definition gui_onSignalConnectFailed (reason : bytes) : GM unit :=
  m <- gets (fun m => m) ;;
  let c := rm_conn m in
  if negb (bool_decide (gc_connectionPhase c = ConnConnecting)) then ret tt else
  if gc_resolvedCandidateIndex c <? len (gc_resolvedCandidates c) then gui_tryNextResolvedAddress
  else gui_handleConnectionAttemptExhausted reason.
Definition gui_cancelConnectionAttempt : GM unit :=
  in_gc (fun c => set_gc_connectionGeneration (u64 (gc_connectionGeneration c + 1)) c) ;;;
  m <- gets (fun m => m) ;;
  when (gu_roomReadinessPending (rm_setup m))
    (gui_teardownTun ;;; gui_clearResumeLease ;;; gui_resetRoomRuntimeState true) ;;;
  in_gc (fun c => set_gc_reconnectScheduled false (set_gc_resolvedCandidateIndex 0
                    (set_gc_resolvedCandidates [] (set_gc_lookupId (-1) c)))) ;;;
  m <- gets (fun m => m) ;;
  when (sg_isConnecting (rm_host m)) (signal_call SgDisconnect) ;;;
  in_gc (set_gc_connectionPhase ConnIdle).

(** [setServerAddress], [setServerPassword], [continueServerAuth], [isConnecting]. *)
Definition gui_setServerAddress (host : bytes) (port : Z) : GM unit :=
  let normalizedPort := if port =? 0 then DEFAULT_PORT else port in
  m <- gets (fun m => m) ;;
  let changed := negb (bool_decide (gc_serverHost (rm_conn m) = host)) || negb (gc_port (rm_conn m) =? normalizedPort) in
  in_gc (fun c => set_gc_resolvedAddr None (set_gc_port normalizedPort (set_gc_serverHost host c))) ;;;
  when changed (
    gui_cancelConnectionAttempt ;;; in_gc (set_gc_serverPassword []) ;;; gui_clearResumeLease ;;;
    signal_call (SgSetPassword [])).
Definition gui_setServerPassword (password : bytes) : GM unit :=
  in_gc (fun c => set_gc_serverPassword password (set_gc_authRetryBlocked false c)) ;;;
  signal_call (SgSetPassword password).
Definition gui_continueServerAuth : GM unit := signal_call SgContinueAuth.
Definition gui_isConnecting (m : RoomManager) : bool :=
  let c := rm_conn m in
  bool_decide (gc_connectionPhase c = ConnResolving) || bool_decide (gc_connectionPhase c = ConnConnecting) ||
  gc_reconnectScheduled c || sg_isConnecting (rm_host m).
Definition gui_connectAndLogin (playerName : bytes) : GM unit :=
  cleaning <- gui_roomCleanupPending ;;
  if cleaning then notify (NStatus "room.phase.cleanup") else
  in_gc (fun c => set_gc_authRetryBlocked false (set_gc_recoveryLoginAttempt false (set_gc_recoveryLoginScheduled false c))) ;;;
  m <- gets (fun m => m) ;;
  let previousName := gc_playerName (rm_conn m) in
  in_gc (set_gc_playerName playerName) ;;;
  when (negb (gc_wantReconnect (rm_conn m))) (
    gui_expireResumeLeaseIfNeeded ;;;
    usable <- (if gr_wasInRoom (rm_room m) then gui_hasUsableResumeLease else ret false) ;;
    when (negb (usable && bool_decide (previousName = playerName))) gui_clearResumeLease) ;;;
  gui_teardownTun ;;; tunnel_do TnClearSecurity ;;; channel_do DcDisconnect ;;; channel_do DcClear ;;;
  m <- gets (fun m => m) ;;
  signal_call (SgSetPassword (gc_serverPassword (rm_conn m))) ;;;
  notify (NStatus "status.connectingServer") ;;; gui_resolveAndConnect.
Definition gui_disconnectFromServer : GM unit :=
  in_gc (fun c => set_gc_recoveryLoginAttempt false (set_gc_recoveryLoginScheduled false (set_gc_recoveryActive false c))) ;;;
  gui_cancelConnectionAttempt ;;;
  in_gc (set_gc_wantReconnect false) ;;; in_gr (set_gr_pendingResumeRoom false) ;;; gui_clearResumeLease ;;;
  in_gc (fun c => set_gc_serverPassword [] (set_gc_playerName [] c)) ;;;
  gui_teardownTun ;;; channel_do DcClear ;;; tunnel_do TnClearSecurity ;;;
  signal_call (SgSetPassword []) ;;;
  m <- gets (fun m => m) ;;
  if signal_connected m && negb (gui_myPeerId m =? 0) then
    when (negb (gc_logoutPending (rm_conn m))) (
      in_gc (fun c => set_gc_logoutPending true (set_gc_manualDisconnecting true c)) ;;;
      signal_call SgLogout ;;; later DLogoutTimeout)
  else in_gc (set_gc_manualDisconnecting true) ;;; gui_finishManualDisconnect.

(** ** Creating, joining and leaving *)

Definition gui_normalizePolicy (p fallback : RoomTrafficPolicy) : RoomTrafficPolicy :=
  normalizeTrafficPolicy (TransportMode_u8 (transportMode p)) (FecMode_u8 (fecMode p))
    (KcpProfile_u8 (kcpProfile p)) fallback.
(** The conditions of [createRoom] and [joinRoom]; [||] stops at the first that holds. *)
Definition room_request_refused : GM bool :=
  m <- gets (fun m => m) ;;
  if negb (sg_secureEnabled (rm_host m)) || (gui_myPeerId m =? 0) || negb (gr_currentRoomId (rm_room m) =? 0) ||
     sg_roomOperationPending (rm_host m) then ret true else gui_roomOperationBusy.
Definition REFUSED_TEXT : bytes :=
  bytes_of_string "Room operation requires an authenticated login and no pending room request.".
(** The client may have declined to send the request. *)
Definition request_declined : GM unit :=
  m <- gets (fun m => m) ;;
  when (bool_decide (op_phase m = WaitingServer) && negb (sg_roomOperationPending (rm_host m))) (
    in_op finishCleanup ;;; gui_setRoomOperationPending false).
Definition gui_createRoom (roomName : bytes) (maxPlayers : Z) (tcpPolicy udpPolicy : RoomTrafficPolicy) (mtu : Z)
    (passwordProtected : bool) (password : bytes) : GM unit :=
  refused <- room_request_refused ;;
  if refused then notify (NError REFUSED_TEXT) else
  let normalizedMtu := normalizeRoomMtu mtu in
  let tcp := gui_normalizePolicy tcpPolicy makeDefaultTcpPolicy in
  let udp := gui_normalizePolicy udpPolicy makeDefaultUdpPolicy in
  let word := if passwordProtected then password else [] in
  in_gv (fun v => mkGuiSaved (gv_savedRoomId v) roomName maxPlayers normalizedMtu passwordProtected word tcp udp) ;;;
  in_gr (fun r => set_gr_roomPassword word (set_gr_roomPasswordProtected passwordProtected
                    (set_gr_udpPolicy udp (set_gr_tcpPolicy tcp (set_gr_roomMtu normalizedMtu r))))) ;;;
  in_gc (set_gc_authRetryBlocked false) ;;;
  gui_setRoomOperationPending true ;;;
  signal_call (SgCreate roomName maxPlayers tcp udp normalizedMtu (if passwordProtected then Some password else None)) ;;;
  request_declined.
(** What [joinRoom] takes from the first entry of the cached list with this id. *)
Definition remember_listed (item : CliRoomListItem) : GM unit :=
  let mtu := normalizeRoomMtu (ci_mtu item) in
  in_gv (fun v => mkGuiSaved (ci_roomId item) (ci_roomName item) (ci_maxPlayers item) mtu
                    (negb (ci_passwordProtected item =? 0)) (gv_savedRoomPassword v) (ci_tcpPolicy item) (ci_udpPolicy item)) ;;;
  in_gr (fun r => set_gr_udpPolicy (ci_udpPolicy item) (set_gr_tcpPolicy (ci_tcpPolicy item) (set_gr_roomMtu mtu r))).
Definition gui_joinRoom (roomId : Z) (password : bytes) : GM unit :=
  refused <- room_request_refused ;;
  if refused then notify (NError REFUSED_TEXT) else
  m <- gets (fun m => m) ;;
  match List.find (fun item => ci_roomId item =? roomId) (gk_cachedRoomList (rm_links m)) with
  | Some item => remember_listed item
  | None => ret tt
  end ;;;
  in_gr (set_gr_roomPassword password) ;;; in_gv (set_gv_savedRoomPassword password) ;;;
  in_gc (set_gc_authRetryBlocked false) ;;;
  gui_setRoomOperationPending true ;;;
  signal_call (SgJoin roomId password) ;;;
  request_declined.
Definition gui_leaveRoom : GM unit :=
  m <- gets (fun m => m) ;;
  if gu_roomOperationPending (rm_setup m) && negb (gui_roomReady m) &&
     (signal_connected m || bool_decide (op_phase m = WaitingServer))
  then gui_beginRoomRecovery (bytes_of_string "Room operation cancelled.") false else
  let wasReady := gui_roomReady m in
  let wasPending := gu_roomOperationPending (rm_setup m) in
  let generation := gui_generation m in
  let cancelledPending := sg_roomOperationPending (rm_host m) in
  when cancelledPending (in_gc (fun c => set_gc_manualDisconnecting true (set_gc_wantReconnect false c))) ;;;
  tunnel_do TnStopDataPlane ;;;
  m <- gets (fun m => m) ;;
  when (negb (gr_currentRoomId (rm_room m) =? 0) || cancelledPending) (signal_call SgLeave) ;;;
  m <- gets (fun m => m) ;;
  let disconnectedSynchronously := negb (generation =? gui_generation m) in
  gui_teardownTun ;;; in_gr (set_gr_pendingResumeRoom false) ;;; gui_clearResumeLease ;;;
  gui_resetRoomRuntimeState true ;;;
  when ((wasReady || wasPending) && negb disconnectedSynchronously) (notify_refresh NRoomLeft).

(** ** The adapter *)

Inductive TunSetupStage := StNone | StInitialize | StAddress | StSession | StReadiness | StDataPlane.
(** [TunSetupResult]: success, or the stage and the message. *)
Definition TunSetupResult : Type := option (TunSetupStage * bytes).

Definition gui_setupTun : GM TunSetupResult :=
  m <- gets (fun m => m) ;;
  match gu_lifecycleTask (rm_setup m) with
  | Some _ => ret (Some (StInitialize, bytes_of_string "Previous adapter cleanup has not completed."))
  | None =>
      let server := match gc_resolvedAddr (rm_conn m) with Some a => a | None => 0 end in
      if Z.land server VNET_MASK =? VNET_SUBNET
      then ret (Some (StAddress, bytes_of_string "status.serverSubnetConflict")) else
      let o := gu_operation (rm_setup m) in
      let control := RoomTaskControl_init (t_id o) (gui_connection m) (t_localDeadline o) in
      let '(thrown, h) := qt_startThread (rm_host m) in
      modify (set_rm_host h) ;;;
      match thrown with
      | Some text => ret (Some (StInitialize, text))
      | None => in_gu (set_gu_lifecycleTask (Some (GuiTunLifecycleTask_init control))) ;;; ret None
      end
  end.
Definition gui_bindTunAdapterSignals : GM unit :=
  use_adapter ;;;
  m <- gets (fun m => m) ;; in_gu (set_gu_bound (Some (gui_generation m, gui_connection m))).
Definition gui_pollTunReadiness : GM Readiness :=
  s <- task_snapshot ;;
  match s with
  | None => ret (NetworkFailed (bytes_of_string "TUN adapter disappeared while waiting for Windows readiness."))
  | Some value =>
      m <- gets (fun m => m) ;;
      when (bool_decide (gs_phase value = "waiting-readiness"%string) && bool_decide (op_phase m = PreparingAdapter))
        (in_op (fun o => snd (beginReadiness o (rm_monotonic m)))) ;;;
      if gs_failed value || gs_done value then ret (NetworkFailed (gs_error value)) else
      if gs_ready value then in_gu (set_gu_tun (gs_adapter value)) ;;; gui_bindTunAdapterSignals ;;; ret NetworkReady
      else ret NotYet
  end.
Definition gui_startTunDataPlane : GM TunSetupResult :=
  m <- gets (fun m => m) ;;
  lend_adapter (gu_tun (rm_setup m)) ;;;
  let requiresUdp := negb (bool_decide (transportMode (gr_tcpPolicy (rm_room m)) = MODE_RELAY_TCP)) ||
                     negb (bool_decide (transportMode (gr_udpPolicy (rm_room m)) = MODE_RELAY_TCP)) in
  ok <- tunnel_call (TnStartDataPlane requiresUdp) ;;
  if negb ok then lend_adapter false ;;; ret (Some (StDataPlane, bytes_of_string "Data-plane startup failed.")) else
  m <- gets (fun m => m) ;;
  when (negb (gui_myPeerId m =? 0))
    (channel_do (DcConnect (gc_resolvedAddr (rm_conn m)) (gc_port (rm_conn m)) (gui_myPeerId m))) ;;;
  tunnel_do TnResetTrafficCounters ;;;
  in_gk (fun k => set_gk_trafficTimer true (set_gk_lastDownloadBytes 0 (set_gk_lastUploadBytes 0 k))) ;;;
  notify (NSpeed 0 0) ;;; notify (NStatus "status.tunStarted") ;;; ret None.
Definition gui_rollbackRoomAfterTunFailure (error : bytes) : GM unit :=
  m <- gets (fun m => m) ;;
  if signal_connected m then gui_beginRoomRecovery error true else
  gui_teardownTun ;;; in_gr (set_gr_pendingResumeRoom false) ;;; gui_clearResumeLease ;;;
  gui_resetRoomRuntimeState true ;;;
  notify (NError error) ;;; notify (NStatus "Returned to lobby after TUN setup failure.").
Definition gui_onTunRuntimeError (message : bytes) : GM unit :=
  m <- gets (fun m => m) ;;
  let u := rm_setup m in
  if negb (gu_tearingDownTun u) && gu_roomReadinessPending u then
    if negb (bool_decide (gu_pendingTunError u = [])) then ret tt else
    in_gu (set_gu_pendingTunError (if bool_decide (message = []) then bytes_of_string "TUN read thread stopped." else message)) ;;;
    later (DTunError (gui_generation m) (gui_connection m) message)
  else if gu_tearingDownTun u || negb (gui_roomReady m) then ret tt else
  when (signal_connected m && negb (gr_currentRoomId (rm_room m) =? 0)) (signal_call SgLeave) ;;;
  gui_teardownTun ;;; gui_clearResumeLease ;;; gui_resetRoomRuntimeState true ;;;
  notify (NError message) ;;; notify_refresh NRoomLeft ;;; notify (NStatus "TUN stopped; returned to lobby.").

(** ** Peers and their transports *)

Definition peer_display_name (peerId : Z) (name : bytes) : bytes :=
  if bool_decide (name = []) then bytes_of_string ("Peer" ++ pretty peerId)%string else name.
Definition peer_of (peerId : Z) : GM (option GuiPeer) := gets (fun m => tn_peer peerId (rm_host m)).
Definition gui_setupTcpRelayTunnel (peerId cls : Z) : GM unit :=
  p <- peer_of peerId ;;
  match p with
  | None => ret tt
  | Some p =>
      if negb (bool_decide (gp_transport cls p = TRANSPORT_NONE)) then ret tt else
      tunnel_do (TnUseTcpRelay peerId cls) ;;; notify (NTransport peerId cls TRANSPORT_RELAY_TCP) ;;;
      in_gk (set_gk_tcpRelayTimer true)
  end.
Definition gui_setupRawUdpRelayTunnel (peerId cls : Z) : GM unit :=
  p <- peer_of peerId ;;
  m <- gets (fun m => m) ;;
  match p with
  | None => ret tt
  | Some p =>
      if negb (bool_decide (gp_transport cls p = TRANSPORT_NONE)) then ret tt else
      let policy := if cls =? TRAFFIC_TCP then gr_tcpPolicy (rm_room m) else gr_udpPolicy (rm_room m) in
      tunnel_do (TnCreateRaw peerId (gc_resolvedAddr (rm_conn m)) (gc_port (rm_conn m)) (fecMode policy)
                   (gr_roomMtu (rm_room m)) cls (gui_myPeerId m)) ;;;
      notify (NTransport peerId cls TRANSPORT_RELAY_RAW_UDP)
  end.
Definition gui_setupRelayTunnel (peerId cls : Z) : GM unit :=
  p <- peer_of peerId ;;
  m <- gets (fun m => m) ;;
  match p with
  | None => ret tt
  | Some p =>
      if negb (bool_decide (gp_transport cls p = TRANSPORT_NONE)) then ret tt else
      let policy := if cls =? TRAFFIC_TCP then gr_tcpPolicy (rm_room m) else gr_udpPolicy (rm_room m) in
      tunnel_do (TnCreateKcp peerId (gc_resolvedAddr (rm_conn m)) (gc_port (rm_conn m)) (fecMode policy)
                   (gr_roomMtu (rm_room m)) (kcpProfile policy) cls (gui_myPeerId m)) ;;;
      notify (NTransport peerId cls TRANSPORT_RELAY_KCP)
  end.
Definition gui_setupPolicyTunnel (peerId cls : Z) : GM unit :=
  p <- peer_of peerId ;;
  m <- gets (fun m => m) ;;
  match p with
  | None => ret tt
  | Some p =>
      if negb (bool_decide (gp_transport cls p = TRANSPORT_NONE)) then ret tt else
      let policy := if cls =? TRAFFIC_TCP
                    then gui_normalizePolicy (gr_tcpPolicy (rm_room m)) makeDefaultTcpPolicy
                    else gui_normalizePolicy (gr_udpPolicy (rm_room m)) makeDefaultUdpPolicy in
      match transportMode policy with
      | MODE_RELAY_TCP => gui_setupTcpRelayTunnel peerId cls
      | MODE_RELAY_RAW_UDP => gui_setupRawUdpRelayTunnel peerId cls
      | MODE_RELAY_KCP => gui_setupRelayTunnel peerId cls
      end
  end.
Definition gui_clearPendingRebuild (peerId : Z) : GM unit :=
  in_gk (fun k => set_gk_pendingRebuild (filter (fun key => key.1 <> peerId) (gk_pendingRebuild k)) k).
Definition gui_takePendingRebuild (peerId cls : Z) : GM bool :=
  m <- gets (fun m => m) ;;
  if negb (bool_decide ((peerId, cls) ∈ gk_pendingRebuild (rm_links m))) then ret false else
  in_gk (fun k => set_gk_pendingRebuild (gk_pendingRebuild k ∖ {[(peerId, cls)]}) k) ;;; ret true.
Definition both_classes (f : Z -> GM unit) : GM unit := for_each [TRAFFIC_TCP; TRAFFIC_UDP] f.
Definition request_relay (peerId : Z) : GM unit := signal_call (SgRequestRelay peerId).
Definition request_relay_if_connected (peerId : Z) : GM unit :=
  m <- gets (fun m => m) ;; when (signal_connected m) (request_relay peerId).
Definition gui_rebuildPeerTransports (peerId : Z) : GM unit :=
  p <- peer_of peerId ;;
  match p with
  | None => ret tt
  | Some _ =>
      gui_clearPendingRebuild peerId ;;;
      both_classes (fun cls =>
        p <- peer_of peerId ;;
        match p with
        | Some p => when (negb (bool_decide (gp_transport cls p = TRANSPORT_NONE))) (
                      tunnel_do (TnRemoveTransport peerId cls) ;;; notify (NTransport peerId cls TRANSPORT_NONE))
        | None => ret tt
        end) ;;;
      request_relay_if_connected peerId
  end.
(** A transport that is set up only if it is wanted and absent. *)
Definition setup_if_absent (wanted : bool) (peerId cls : Z) : GM bool :=
  p <- peer_of peerId ;;
  match p with
  | Some p => if wanted && bool_decide (gp_transport cls p = TRANSPORT_NONE)
              then gui_setupPolicyTunnel peerId cls ;;; ret true else ret false
  | None => ret false
  end.
Definition gui_onRelayReady (peerId : Z) : GM unit :=
  m <- gets (fun m => m) ;;
  if gu_roomReadinessPending (rm_setup m) then
    in_gu (fun u => set_gu_pendingRelayReady ({[peerId]} ∪ gu_pendingRelayReady u) u)
  else if negb (gui_roomReady m) then ret tt else
  p <- peer_of peerId ;;
  match p with
  | None => ret tt
  | Some _ =>
      rebuildTcp <- gui_takePendingRebuild peerId TRAFFIC_TCP ;;
      rebuildUdp <- gui_takePendingRebuild peerId TRAFFIC_UDP ;;
      let initialSetup := negb rebuildTcp && negb rebuildUdp in
      tcp <- setup_if_absent (initialSetup || rebuildTcp) peerId TRAFFIC_TCP ;;
      udp <- setup_if_absent (initialSetup || rebuildUdp) peerId TRAFFIC_UDP ;;
      when (tcp || udp) (notify (NStatus "status.relayReady"))
  end.
Definition gui_onTransportDead (peerId cls : Z) : GM unit :=
  p <- peer_of peerId ;;
  m <- gets (fun m => m) ;;
  match p with
  | None => ret tt
  | Some p =>
      if bool_decide (gp_transport cls p = TRANSPORT_NONE) then ret tt else
      if bool_decide ((peerId, cls) ∈ gk_pendingRebuild (rm_links m)) then ret tt else
      in_gk (fun k => set_gk_pendingRebuild ({[(peerId, cls)]} ∪ gk_pendingRebuild k) k) ;;;
      notify (NStatus (if bool_decide (gp_transport cls p = TRANSPORT_RELAY_TCP)
                       then "status.tcpRelayTimeout" else "status.tunnelTimeout")) ;;;
      tunnel_do (TnRemoveTransport peerId cls) ;;; notify (NTransport peerId cls TRANSPORT_NONE) ;;;
      request_relay_if_connected peerId
  end.
Definition add_peer (peerId virtualIP : Z) (name : bytes) : GM unit :=
  tunnel_do (TnAddPeer peerId virtualIP name) ;;; notify_refresh (NPeerConnected peerId virtualIP name).

(** ** Readiness *)

(** The members of a room being entered: started, with the room's generation
    checked after everything that may call back. *)
Definition enter_member (generation : Z) (relayReady : gset Z) (member : PeerInfo) : GM bool :=
  m <- gets (fun m => m) ;;
  if negb (gui_roomReady m) || negb (generation =? gui_generation m) then ret false else
  let peerId := pi_peerId member in
  add_peer peerId (pi_virtualIP member) (peer_display_name peerId (pi_name member)) ;;;
  m <- gets (fun m => m) ;;
  if negb (gui_roomReady m) || negb (generation =? gui_generation m) then ret false else
  (if bool_decide (peerId ∈ relayReady) then gui_onRelayReady peerId else request_relay peerId) ;;;
  ret true.
Fixpoint enter_members (generation : Z) (relayReady : gset Z) (members : list PeerInfo) : GM unit :=
  match members with
  | [] => ret tt
  | member :: rest =>
      go <- enter_member generation relayReady member ;;
      if go then enter_members generation relayReady rest else ret tt
  end.
Definition gui_completeRoomReadiness : GM unit :=
  m <- gets (fun m => m) ;;
  if negb (gu_roomReadinessPending (rm_setup m)) then ret tt else
  let '(ok, o) := markInRoom (gu_operation (rm_setup m)) (rm_monotonic m) in
  if negb ok then gui_beginRoomRecovery TIMEOUT_TEXT true else
  in_op (fun _ => o) ;;;
  in_gu (set_gu_readinessTimer None) ;;;
  let u := rm_setup m in
  let generation := gu_readinessGeneration u in
  clear_pending_peers ;;;
  in_gu (set_gu_roomReadinessPending false) ;;; in_gr (set_gr_roomReady true) ;;;
  in_gk (set_gk_latencyTimer true) ;;;
  gui_setRoomOperationPending false ;;;
  m <- gets (fun m => m) ;;
  if negb (gui_roomReady m) || negb (generation =? gui_generation m) then ret tt else
  notify_refresh (if gu_pendingRoomCreated u then NRoomCreated (gr_currentRoomId (rm_room m))
                  else NRoomJoined (gr_currentRoomId (rm_room m))) ;;;
  m <- gets (fun m => m) ;;
  if negb (gui_roomReady m) || negb (generation =? gui_generation m) then ret tt else
  notify (NStatus (if gu_pendingRoomCreated u then "status.roomCreated" else "status.roomJoined")) ;;;
  enter_members generation (gu_pendingRelayReady u) (map snd (map_ordered (gu_pendingMembers u))).
(** The closure is still about the room and connection it was made for. *)
Definition readiness_current (generation connection : Z) (m : RoomManager) : bool :=
  gu_roomReadinessPending (rm_setup m) && (generation =? gui_generation m) && (connection =? gui_connection m).
Definition READINESS_FAILED_TEXT : bytes := bytes_of_string "Windows virtual network readiness failed.".
Definition gui_pollRoomReadiness (generation connection : Z) : GM unit :=
  m <- gets (fun m => m) ;;
  if negb (readiness_current generation connection m) then ret tt else
  if negb (bool_decide (gu_pendingTunError (rm_setup m) = []))
  then gui_rollbackRoomAfterTunFailure (gu_pendingTunError (rm_setup m)) else
  readiness <- gui_pollTunReadiness ;;
  if bool_decide (readiness = NotYet) then ret tt else
  m <- gets (fun m => m) ;;
  if negb (readiness_current generation connection m) then ret tt else
  if negb (bool_decide (gu_pendingTunError (rm_setup m) = []))
  then gui_rollbackRoomAfterTunFailure (gu_pendingTunError (rm_setup m)) else
  match readiness with
  | NetworkFailed error =>
      gui_rollbackRoomAfterTunFailure (if bool_decide (error = []) then READINESS_FAILED_TEXT else error)
  | _ =>
      started <- gui_startTunDataPlane ;;
      m <- gets (fun m => m) ;;
      if negb (readiness_current generation connection m) then ret tt else
      if negb (bool_decide (gu_pendingTunError (rm_setup m) = []))
      then gui_rollbackRoomAfterTunFailure (gu_pendingTunError (rm_setup m)) else
      match started with
      | Some (_, error) => gui_rollbackRoomAfterTunFailure error
      | None => gui_completeRoomReadiness
      end
  end.
Definition gui_beginRoomReadiness (created : bool) (members : list PeerInfo) : GM unit :=
  m <- gets (fun m => m) ;;
  let '(ok, o) := beginPreparation (gu_operation (rm_setup m)) (rm_monotonic m) in
  if negb ok then gui_beginRoomRecovery TIMEOUT_TEXT true else
  in_op (fun _ => o) ;;;
  in_gr (set_gr_roomReady false) ;;;
  in_gu (fun u => set_gu_pendingRoomCreated created (set_gu_roomReadinessPending true u)) ;;;
  clear_pending_peers ;;;
  m <- gets (fun m => m) ;;
  in_gu (set_gu_pendingMembers
    (fold_left (fun s i => if pi_peerId i =? gui_myPeerId m then s else <[pi_peerId i := i]> s) members
       (∅ : gmap Z PeerInfo))) ;;;
  gui_setRoomOperationPending true ;;;
  m <- gets (fun m => m) ;;
  let generation := u64 (gui_generation m + 1) in
  in_gu (set_gu_readinessGeneration generation) ;;;
  let connection := gui_connection m in
  setup <- gui_setupTun ;;
  m <- gets (fun m => m) ;;
  if negb (readiness_current generation connection m) then ret tt else
  match setup with
  | Some (_, error) => gui_rollbackRoomAfterTunFailure error
  | None =>
      notify (NStatus "Waiting for Windows virtual network readiness...") ;;;
      in_gu (set_gu_readinessTimer (Some (generation, connection)))
  end.

(** ** Slots of the signalling client *)

Definition gui_onSignalConnected : GM unit :=
  in_gc (fun c => set_gc_reconnectScheduled false (set_gc_connectionPhase ConnConnected c)) ;;;
  m <- gets (fun m => m) ;;
  when (bool_decide (is_Some (sg_peerAddress (rm_host m)))) (in_gc (set_gc_resolvedAddr (sg_peerAddress (rm_host m)))) ;;;
  m <- gets (fun m => m) ;;
  tunnel_do (TnSetServerEndpoint (gc_resolvedAddr (rm_conn m)) (gc_port (rm_conn m))) ;;;
  notify (NStatus "status.connectedLoggingIn") ;;; notify (NConnection true) ;;;
  canResume <- (if gr_wasInRoom (rm_room m) then gui_hasUsableResumeLease else ret false) ;;
  m <- gets (fun m => m) ;;
  let l := rm_lease m in
  signal_call (SgLogin (gc_playerName (rm_conn m))
    (if canResume then Some (rl_resumeRoomId l, rl_resumePeerId l, rl_resumeToken l) else None)).
(** What is remembered of the room whose connection is lost. *)
Definition save_room (r : GuiRoom) (v : GuiSaved) : GuiSaved :=
  mkGuiSaved (gr_currentRoomId r) (gv_savedRoomName v) (gv_savedMaxPlayers v) (gr_roomMtu r)
    (gr_roomPasswordProtected r) (gr_roomPassword r) (gr_tcpPolicy r) (gr_udpPolicy r).
Definition gui_onSignalDisconnected : GM unit :=
  m <- gets (fun m => m) ;;
  if bool_decide (gc_connectionPhase (rm_conn m) = ConnConnecting) ||
     bool_decide (gc_connectionPhase (rm_conn m) = ConnResolving) then ret tt else
  in_gc (set_gc_connectionPhase ConnIdle) ;;;
  let wasInRoom := gui_roomReady m in
  let wasPending := gu_roomOperationPending (rm_setup m) in
  let manualDisconnect := gc_manualDisconnecting (rm_conn m) || gc_authRetryBlocked (rm_conn m) in
  (if manualDisconnect then
     in_gr (set_gr_wasInRoom false) ;;;
     in_gv (fun v => set_gv_savedRoomPasswordProtected false (set_gv_savedRoomPassword []
                       (set_gv_savedRoomName [] (set_gv_savedRoomId 0 v))))
   else when (negb (gc_wantReconnect (rm_conn m))) (
     in_gr (set_gr_wasInRoom wasInRoom) ;;;
     when wasInRoom (in_gv (save_room (rm_room m))))) ;;;
  when (negb manualDisconnect && wasInRoom && rl_hasResumeLease (rm_lease m)) gui_startResumeLeaseDeadline ;;;
  gui_teardownTun ;;; tunnel_do TnClearSecurity ;;; channel_do DcClear ;;;
  in_gc (set_gc_roomListTimer false) ;;;
  in_gr (fun r => set_gr_roomMtu ROOM_MTU_DEFAULT (set_gr_roomReady false (set_gr_myVirtualIP 0 (set_gr_currentRoomId 0 r)))) ;;;
  in_gc (set_gc_logoutPending false) ;;;
  m <- gets (fun m => m) ;;
  when ((wasInRoom || wasPending) && negb (gc_recoveryActive (rm_conn m))) (notify_refresh NRoomLeft) ;;;
  notify (NConnection false) ;;;
  m <- gets (fun m => m) ;;
  let c := rm_conn m in
  if gc_recoveryActive c then
    in_gc (fun c => set_gc_wantReconnect false (set_gc_manualDisconnecting false c)) ;;;
    gui_resetRoomRuntimeState true ;;; gui_maybeFinishRoomRecovery
  else if gc_recoveryLoginAttempt c then
    in_gc (fun c => set_gc_wantReconnect false (set_gc_recoveryLoginAttempt false c)) ;;;
    notify (NStatus "room.recovery.failed")
  else if manualDisconnect then
    in_gc (set_gc_manualDisconnecting false) ;;; notify (NStatus "status.disconnected")
  else if negb (gc_wantReconnect c) && negb (bool_decide (gc_playerName c = [])) then
    in_gc (fun c => set_gc_reconnectAttempts 0 (set_gc_wantReconnect true c)) ;;;
    notify (NStatus "status.disconnectedReconnect") ;;; gui_scheduleReconnectAttempt
  else if gc_wantReconnect c then gui_scheduleReconnectAttempt
  else notify (NStatus "status.disconnected").
Definition gui_onLogoutAck : GM unit :=
  m <- gets (fun m => m) ;; when (gc_logoutPending (rm_conn m)) gui_finishManualDisconnect.
Definition gui_onSecureSessionEstablished (sessionId : Z) (master : bytes) : GM unit :=
  tunnel <- tunnel_call (TnInstall sessionId master) ;;
  m <- gets (fun m => m) ;;
  channel <- (if gk_dataChannel (rm_links m) then channel_call (DcInstall sessionId master) else ret true) ;;
  when (negb (channel && tunnel)) (notify (NError (bytes_of_string "Failed to install secure data-plane session."))).
(** Rejoining after a login. *)
Definition resume_after_login (resumeAccepted : bool) : GM unit :=
  m <- gets (fun m => m) ;;
  canResume <- (if gr_wasInRoom (rm_room m) then gui_hasUsableResumeLease else ret false) ;;
  m <- gets (fun m => m) ;;
  if negb (gc_wantReconnect (rm_conn m) || canResume) then ret tt else
  if resumeAccepted && canResume then
    in_gr (set_gr_pendingResumeRoom true) ;;; gui_setRoomOperationPending true ;;;
    m <- gets (fun m => m) ;;
    let l := rm_lease m in
    signal_call (SgResume (rl_resumeRoomId l) (rl_resumePeerId l) (rl_resumeToken l)) ;;;
    m <- gets (fun m => m) ;; gui_setRoomOperationPending (sg_roomOperationPending (rm_host m))
  else if gr_wasInRoom (rm_room m) && negb (bool_decide (gv_savedRoomName (rm_saved m) = [])) then
    when (canResume && negb resumeAccepted) gui_clearResumeLease ;;;
    in_gc (set_gc_wantReconnect true) ;;; notify (NStatus "status.reconnectFindingRoom") ;;; signal_call SgList
  else in_gc (set_gc_wantReconnect false) ;;; notify (NStatus "status.reconnectSuccess").
Definition gui_onLoginResponse (peerId : Z) (resumeAccepted : bool) : GM unit :=
  m <- gets (fun m => m) ;;
  let recoveredLobby := gc_recoveryLoginAttempt (rm_conn m) in
  in_gc (set_gc_recoveryLoginAttempt false) ;;;
  when recoveredLobby (
    in_gc (set_gc_wantReconnect false) ;;;
    in_gr (fun r => set_gr_pendingResumeRoom false (set_gr_wasInRoom false r)) ;;; gui_clearResumeLease) ;;;
  notify (NStatus "status.loginSuccess") ;;; notify_refresh (NLoggedIn peerId) ;;;
  tunnel_do (TnSetMyPeerId peerId) ;;; in_gc (set_gc_roomListTimer true) ;;;
  m <- gets (fun m => m) ;;
  if negb (sg_secureEnabled (rm_host m)) then
    notify (NError (bytes_of_string "insecure server refused")) ;;; gui_disconnectFromServer
  else
  tunnel <- tunnel_call (TnInstall (sg_secureSessionId (rm_host m)) (sg_secureMaster (rm_host m))) ;;
  resume_after_login resumeAccepted ;;;
  in_gk (set_gk_dataChannel true) ;;;
  m <- gets (fun m => m) ;;
  channel <- channel_call (DcInstall (sg_secureSessionId (rm_host m)) (sg_secureMaster (rm_host m))) ;;
  when (negb (channel && tunnel)) (
    notify (NError (bytes_of_string "Failed to configure data-plane security.")) ;;; gui_disconnectFromServer).
(** An answer to a room request that nobody waits for. *)
Definition late_response (m : RoomManager) : bool :=
  negb (gu_roomOperationPending (rm_setup m)) || gc_manualDisconnecting (rm_conn m) ||
  gc_recoveryActive (rm_conn m) || gu_roomReadinessPending (rm_setup m) || gui_roomReady m.
(** The room the server has put us in. *)
Definition enter_room (roomId virtualIP : Z) (tcpPolicy udpPolicy : RoomTrafficPolicy) (mtu : Z)
    (passwordProtected : bool) (leaseToken : bytes) : GM unit :=
  let mtu := normalizeRoomMtu mtu in
  in_gr (fun r => mkGuiRoom roomId virtualIP tcpPolicy udpPolicy mtu passwordProtected (gr_roomPassword r)
                    (gr_wasInRoom r) (gr_pendingResumeRoom r) (gr_roomReady r)) ;;;
  in_gv (fun v => set_gv_savedRoomMtu mtu (set_gv_savedRoomId roomId v)) ;;;
  m <- gets (fun m => m) ;;
  gui_rememberResumeLease roomId (gui_myPeerId m) virtualIP leaseToken ;;;
  tunnel_do (TnSetMyVirtualIP virtualIP) ;;; tunnel_do (TnSetRoomMtu mtu).
Definition gui_onRoomCreated (roomId virtualIP : Z) (tcpPolicy udpPolicy : RoomTrafficPolicy) (mtu : Z)
    (passwordProtected : bool) (leaseToken : bytes) : GM unit :=
  m <- gets (fun m => m) ;;
  if late_response m then ret tt else
  enter_room roomId virtualIP tcpPolicy udpPolicy mtu passwordProtected leaseToken ;;;
  gui_beginRoomReadiness true [].
Definition gui_onJoinResponse (roomId virtualIP : Z) (tcpPolicy udpPolicy : RoomTrafficPolicy) (mtu : Z)
    (passwordProtected : bool) (members : list PeerInfo) (leaseToken : bytes) : GM unit :=
  m <- gets (fun m => m) ;;
  if late_response m then ret tt else
  in_gr (set_gr_pendingResumeRoom false) ;;; in_gc (set_gc_wantReconnect false) ;;;
  enter_room roomId virtualIP tcpPolicy udpPolicy mtu passwordProtected leaseToken ;;;
  gui_beginRoomReadiness false members.
Definition gui_onPeerJoined (info : PeerInfo) : GM unit :=
  m <- gets (fun m => m) ;;
  let peerId := pi_peerId info in
  if gu_roomReadinessPending (rm_setup m) then
    when (negb (peerId =? gui_myPeerId m)) (in_gu (fun u => set_gu_pendingMembers (<[peerId := info]> (gu_pendingMembers u)) u))
  else if negb (gui_roomReady m) || (peerId =? gui_myPeerId m) then ret tt else
  add_peer peerId (pi_virtualIP info) (peer_display_name peerId (pi_name info)) ;;;
  notify (NStatus "status.playerJoined") ;;; request_relay peerId.
Definition gui_onPeerResumed (info : PeerInfo) : GM unit :=
  m <- gets (fun m => m) ;;
  let peerId := pi_peerId info in
  if gu_roomReadinessPending (rm_setup m) then
    when (negb (peerId =? gui_myPeerId m)) (in_gu (fun u => set_gu_pendingMembers (<[peerId := info]> (gu_pendingMembers u)) u)) ;;;
    in_gu (fun u => set_gu_pendingRelayReady (gu_pendingRelayReady u ∖ {[peerId]}) u)
  else if negb (gui_roomReady m) || (peerId =? gui_myPeerId m) then ret tt else
  p <- peer_of peerId ;;
  match p with
  | None =>
      add_peer peerId (pi_virtualIP info) (peer_display_name peerId (pi_name info)) ;;;
      notify (NStatus "status.playerJoined") ;;; request_relay peerId
  | Some _ =>
      notify (NStatus "status.peerResumedRebuild") ;;;
      tunnel_do (TnResetQuality peerId) ;;;
      both_classes (fun cls =>
        in_gk (fun k => set_gk_qualityLogStates (delete (peerId, cls) (gk_qualityLogStates k)) k) ;;;
        m <- gets (fun m => m) ;; notify (NQuality peerId cls (tn_quality peerId cls (rm_host m)))) ;;;
      gui_rebuildPeerTransports peerId
  end.
Definition gui_onPeerLeft (peerId : Z) : GM unit :=
  m <- gets (fun m => m) ;;
  if gu_roomReadinessPending (rm_setup m) then
    in_gu (fun u => set_gu_pendingRelayReady (gu_pendingRelayReady u ∖ {[peerId]})
                      (set_gu_pendingMembers (delete peerId (gu_pendingMembers u)) u))
  else if negb (gui_roomReady m) then ret tt else
  gui_clearPendingRebuild peerId ;;;
  in_gk (fun k => set_gk_qualityLogStates (filter (fun kv => kv.1.1 <> peerId) (gk_qualityLogStates k)) k) ;;;
  tunnel_do (TnRemovePeer peerId) ;;; notify_refresh (NPeerDisconnected peerId) ;;; notify (NStatus "status.playerLeft").
Definition gui_handleTcpRelayReceived (srcPeerId cls : Z) (data : bytes) : GM unit :=
  m <- gets (fun m => m) ;;
  if negb (tn_running (rm_host m)) || negb (tn_secured (rm_host m)) then ret tt else
  p <- peer_of srcPeerId ;;
  match p with
  | None => ret tt
  | Some p =>
      tunnel_do (TnTcpRelayReceived srcPeerId cls) ;;;
      if bool_decide (data = []) then ret tt else
      if (2 <=? len data) && (byte_at data 0 =? CLI_LATENCY_PROBE_MARKER)
      then peer_call (PcLatencyProbe srcPeerId cls data) else
      if negb (overlay_valid (validateInboundOverlayIpv4 (Some data) (len data) (gr_roomMtu (rm_room m))
                                (gp_virtualIP p) (gr_myVirtualIP (rm_room m))))
      then tunnel_do (TnRecordDrop "tcp-in" srcPeerId) else
      m <- gets (fun m => m) ;;
      written <- (if gu_tun (rm_setup m) then use_adapter ;;; tunnel_call (TnWriteAdapter data) else ret false) ;;
      if written then tunnel_do (TnAddDownload (len data)) else tunnel_do (TnRecordDrop "tun-write-failed" srcPeerId)
  end.
Definition gui_onFatalAuthError (code : Z) (message : bytes) : GM unit :=
  in_gc (fun c => set_gc_wantReconnect false (set_gc_authRetryBlocked true c)) ;;;
  in_gr (fun r => set_gr_wasInRoom false (set_gr_pendingResumeRoom false r)) ;;;
  in_gc (fun c => set_gc_connectionGeneration (u64 (gc_connectionGeneration c + 1)) (set_gc_reconnectScheduled false c)) ;;;
  m <- gets (fun m => m) ;;
  when (gu_roomReadinessPending (rm_setup m) || gu_roomOperationPending (rm_setup m))
    (gui_teardownTun ;;; gui_resetRoomRuntimeState true) ;;;
  gui_clearResumeLease.
Definition gui_onServerError (message : bytes) : GM unit :=
  m <- gets (fun m => m) ;;
  if bool_decide (op_phase m = WaitingServer) && negb (gc_authRetryBlocked (rm_conn m))
  then gui_beginRoomRecovery message true else
  when (negb (gu_roomReadinessPending (rm_setup m)))
    (gui_setRoomOperationPending (sg_roomOperationPending (rm_host m))) ;;;
  m <- gets (fun m => m) ;;
  if bool_decide (gc_connectionPhase (rm_conn m) = ConnConnecting) && (gui_myPeerId m =? 0) then
    signal_call SgDisconnect ;;; in_gc (set_gc_connectionPhase ConnIdle) ;;;
    notify (NError message) ;;; notify (NConnection false) ;;;
    m <- gets (fun m => m) ;; when (gc_wantReconnect (rm_conn m)) gui_scheduleReconnectAttempt
  else
  notify (NError message) ;;;
  m <- gets (fun m => m) ;;
  let resuming := gr_pendingResumeRoom (rm_room m) in
  when resuming (in_gr (set_gr_pendingResumeRoom false) ;;; gui_clearResumeLease) ;;;
  if resuming && gr_wasInRoom (rm_room m) && negb (bool_decide (gv_savedRoomName (rm_saved m) = [])) then
    in_gc (set_gc_wantReconnect true) ;;; signal_call SgList
  else
  when (gui_myPeerId m =? 0)
    (if gc_wantReconnect (rm_conn m) then signal_call SgDisconnect else later DDisconnect).
Definition gui_samePolicy (a b : RoomTrafficPolicy) : bool :=
  bool_decide (transportMode a = transportMode b) && bool_decide (fecMode a = fecMode b) &&
  bool_decide (kcpProfile a = kcpProfile b).
Definition saved_room_matches (v : GuiSaved) (item : CliRoomListItem) : bool :=
  bool_decide (ci_roomName item = gv_savedRoomName v) && (ci_maxPlayers item =? gv_savedMaxPlayers v) &&
  (normalizeRoomMtu (ci_mtu item) =? gv_savedRoomMtu v) &&
  Bool.eqb (negb (ci_passwordProtected item =? 0)) (gv_savedRoomPasswordProtected v) &&
  gui_samePolicy (ci_tcpPolicy item) (gv_savedTcpPolicy v) && gui_samePolicy (ci_udpPolicy item) (gv_savedUdpPolicy v).
Definition gui_handleReconnectRoomList (rooms : list CliRoomListItem) : GM unit :=
  in_gc (set_gc_wantReconnect false) ;;;
  m <- gets (fun m => m) ;;
  let v := rm_saved m in
  match List.filter (saved_room_matches v) rooms with
  | [item] =>
      notify (NStatus "status.reconnectFoundRoom") ;;;
      gui_joinRoom (ci_roomId item) (if gv_savedRoomPasswordProtected v then gv_savedRoomPassword v else [])
  | _ :: _ :: _ =>
      notify (NError (bytes_of_string "Multiple matching rooms found; please choose one manually.")) ;;;
      notify (NRoomList rooms)
  | [] =>
      notify (NStatus "status.reconnectRoomMissing") ;;;
      gui_createRoom (gv_savedRoomName v) (gv_savedMaxPlayers v) (gv_savedTcpPolicy v) (gv_savedUdpPolicy v)
        (gv_savedRoomMtu v) (gv_savedRoomPasswordProtected v) (gv_savedRoomPassword v)
  end.
Definition gui_onRoomList (rooms : list CliRoomListItem) : GM unit :=
  in_gk (set_gk_cachedRoomList rooms) ;;;
  m <- gets (fun m => m) ;;
  if negb (gr_pendingResumeRoom (rm_room m)) && gc_wantReconnect (rm_conn m) && gr_wasInRoom (rm_room m) &&
     negb (bool_decide (gv_savedRoomName (rm_saved m) = []))
  then gui_handleReconnectRoomList rooms else notify (NRoomList rooms).
(** The connections made in the constructor. *)
Definition gui_slots (ev : SignalEvent) : GM unit :=
  match ev with
  | SeConnected => gui_onSignalConnected
  | SeDisconnected => gui_onSignalDisconnected
  | SeConnectFailed reason => gui_onSignalConnectFailed reason
  | SeLoginResponse peerId accepted => gui_onLoginResponse peerId accepted
  | SeRoomCreated rid vip tcp udp mtu prot token => gui_onRoomCreated rid vip tcp udp mtu prot token
  | SeJoinResponse rid vip tcp udp mtu prot members token => gui_onJoinResponse rid vip tcp udp mtu prot members token
  | SePeerJoined info => gui_onPeerJoined info
  | SePeerResumed info => gui_onPeerResumed info
  | SePeerLeft peerId => gui_onPeerLeft peerId
  | SeRelayReady peerId => gui_onRelayReady peerId
  | SeRelayData src cls data => gui_handleTcpRelayReceived src cls data
  | SeLogoutAck => gui_onLogoutAck
  | SePasswordRequired => notify NPasswordRequired
  | SeSecureSession sid master => gui_onSecureSessionEstablished sid master
  | SeFatalAuth code message => gui_onFatalAuthError code message
  | SeServerError message => gui_onServerError message
  | SeUncertain message => gui_beginRoomRecovery message true
  | SeRoomList rooms => gui_onRoomList rooms
  | SeResync => m <- gets (fun m => m) ;; when (signal_connected m) (signal_call SgList)
  | SeServerRtt rtt => notify (NServerRtt rtt)
  end.

(** ** Timers *)

Definition gui_pollRoomOperation : GM unit :=
  m <- gets (fun m => m) ;;
  (if gui_roomReady m then
     s <- task_snapshot ;;
     match s with Some v => when (gs_failed v) (gui_onTunRuntimeError (gs_error v)) | None => ret tt end
   else ret tt) ;;;
  m <- gets (fun m => m) ;;
  when (expired (gu_operation (rm_setup m)) (rm_monotonic m)) (gui_beginRoomRecovery TIMEOUT_TEXT true) ;;;
  finished <- task_done ;;
  m <- gets (fun m => m) ;;
  when (finished && negb (gui_roomReady m) && negb (gu_roomReadinessPending (rm_setup m))) task_reset ;;;
  m <- gets (fun m => m) ;;
  when (bool_decide (op_phase m = CleaningUp) && bool_decide (gu_lifecycleTask (rm_setup m) = None) &&
        negb (gc_logoutPending (rm_conn m)))
    (in_op finishCleanup ;;; gui_setRoomOperationPending false) ;;;
  m <- gets (fun m => m) ;;
  when (cleanupSlow (gu_operation (rm_setup m)) (rm_monotonic m) && negb (gu_cleanupWarningShown (rm_setup m)))
    (in_gu (set_gu_cleanupWarningShown true) ;;; notify (NStatus "room.phase.cleanupSlow")) ;;;
  gui_maybeFinishRoomRecovery.
Definition gui_onRoomListRefreshTimer : GM unit :=
  m <- gets (fun m => m) ;; when (signal_connected m && negb (gui_myPeerId m =? 0)) gui_refreshRoomList.
(** The paths found dead, each peer having been sent a keep-alive first. *)
Fixpoint collect_dead (peers : list Z) : GM (list (Z * Z)) :=
  match peers with
  | [] => ret []
  | peerId :: rest =>
      peer_call (PcTcpKeepalive peerId) ;;;
      m <- gets (fun m => m) ;;
      more <- collect_dead rest ;;
      ret (map (pair peerId) (List.filter (fun cls => tn_tcpRelayDead peerId cls (rm_host m)) [TRAFFIC_TCP; TRAFFIC_UDP]) ++ more)
  end.
Definition gui_onTcpRelayHealthCheck : GM unit :=
  peers <- gets (fun m => tn_peers (rm_host m)) ;;
  dead <- collect_dead peers ;;
  for_each dead (fun key =>
    p <- peer_of key.1 ;;
    match p with
    | Some p => when (bool_decide (gp_transport key.2 p = TRANSPORT_RELAY_TCP)) (gui_onTransportDead key.1 key.2)
    | None => ret tt
    end).
(** The report of one path; [anomaly]: 2 local failure, 1 outage, 0 none. *)
Definition report_quality (peerId cls : Z) : GM unit :=
  m <- gets (fun m => m) ;;
  let quality := tn_quality peerId cls (rm_host m) in
  notify (NLatency peerId cls (ps_rttMs quality)) ;;; notify (NQuality peerId cls quality) ;;;
  p <- peer_of peerId ;;
  match p with
  | None => ret tt
  | Some p =>
      let transport := gp_transport cls p in
      if bool_decide (transport = TRANSPORT_NONE) then ret tt else
      let old := match gk_qualityLogStates (rm_links m) !! (peerId, cls) with Some s => s | None => (TRANSPORT_NONE, 0) end in
      let state := if bool_decide (old.1 = transport) then old else (transport, 0) in
      let anomaly := if ps_localSendFailure quality then 2 else if ps_outage quality then 1 else 0 in
      let set a := in_gk (fun k => set_gk_qualityLogStates (<[(peerId, cls) := (transport, a)]> (gk_qualityLogStates k)) k) in
      if (anomaly =? state.2) || (negb (ps_active quality) && (anomaly =? 0)) then set state.2 else
      set anomaly ;;;
      notify (NStatus (if anomaly =? 2 then "quality.warning.local"
        else if anomaly =? 1
             then if bool_decide (transport = TRANSPORT_RELAY_TCP) then "quality.warning.tcp" else "quality.warning.udp"
             else if state.2 =? 2 then "quality.localRecovered" else "quality.recovered"))
  end.
Definition gui_onLatencyUpdate : GM unit :=
  m <- gets (fun m => m) ;;
  if negb (gui_roomReady m) then ret tt else
  for_each (tn_peers (rm_host m)) (fun peerId =>
    m <- gets (fun m => m) ;;
    when (negb (peerId =? gui_myPeerId m)) (
      both_classes (fun cls => peer_call (PcLatencyPing peerId cls)) ;;; both_classes (report_quality peerId))).
Definition gui_onTrafficUpdate : GM unit :=
  m <- gets (fun m => m) ;;
  if negb (gu_tun (rm_setup m)) then notify (NSpeed 0 0) else
  let '(up, down) := tn_traffic (rm_host m) in
  let k := rm_links m in
  let rate now last := if last <=? now then now - last else 0 in
  in_gk (fun k => set_gk_lastDownloadBytes down (set_gk_lastUploadBytes up k)) ;;;
  notify (NSpeed (rate up (gk_lastUploadBytes k)) (rate down (gk_lastDownloadBytes k))).
(** The closures of [QTimer::singleShot]. *)
Definition run_deferred (d : Deferred) : GM unit :=
  m <- gets (fun m => m) ;;
  let c := rm_conn m in
  match d with
  | DDisconnect => gui_disconnectFromServer
  | DLogoutTimeout => when (gc_logoutPending c) gui_finishManualDisconnect
  | DLeaseExpiry => gui_expireResumeLeaseIfNeeded
  | DReconnectWait generation =>
      when (generation =? gc_connectionGeneration c)
        (in_gc (set_gc_reconnectScheduled false) ;;; gui_scheduleReconnectAttempt)
  | DReconnect generation =>
      if negb (generation =? gc_connectionGeneration c) then ret tt else
      in_gc (set_gc_reconnectScheduled false) ;;;
      if signal_connected m || sg_isConnecting (rm_host m) || bool_decide (gc_playerName c = []) || negb (gc_wantReconnect c)
      then ret tt else
      in_gc (fun c => set_gc_reconnectAttempts (gc_reconnectAttempts c + 1) c) ;;;
      notify (NStatus "status.reconnectAttempt") ;;; gui_resolveAndConnect
  | DRecoveryLogout operation =>
      when (gc_recoveryActive c && gc_logoutPending c && (operation =? t_id (gu_operation (rm_setup m))))
        gui_finishManualDisconnect
  | DRecoveryLogin generation =>
      if negb (gc_recoveryLoginScheduled c) || negb (generation =? gc_connectionGeneration c) || signal_connected m
      then ret tt else
      cleaning <- gui_roomCleanupPending ;;
      if cleaning then ret tt else
      in_gc (fun c => set_gc_recoveryLoginAttempt true (set_gc_recoveryLoginScheduled false c)) ;;;
      signal_call (SgSetPassword (gc_serverPassword c)) ;;; gui_resolveAndConnect
  | DSecurity generation sessionId =>
      when ((generation =? gc_connectionGeneration c) && negb (gc_manualDisconnecting c) && signal_connected m &&
            (sessionId =? sg_secureSessionId (rm_host m))) (signal_call SgDisconnect)
  | DTunError generation connection message =>
      if negb (generation =? gui_generation m) || negb (connection =? gui_connection m) then ret tt else
      if gu_roomReadinessPending (rm_setup m) then gui_rollbackRoomAfterTunFailure (gu_pendingTunError (rm_setup m))
      else when (gui_roomReady m) (gui_onTunRuntimeError message)
  end.
(** ** Events

    What starts the manager off: the window's calls, timers, closures that come
    due, the adapter's signals, the collaborators — whatever else these do to
    themselves — and the lifecycle thread. *)
Inductive GuiEvent :=
| EvServerAddress (host : bytes) (port : Z) | EvServerPassword (password : bytes) | EvContinueAuth
| EvConnectAndLogin (playerName : bytes) | EvDisconnect
| EvCreate (roomName : bytes) (maxPlayers : Z) (tcpPolicy udpPolicy : RoomTrafficPolicy) (mtu : Z)
    (passwordProtected : bool) (password : bytes)
| EvJoin (roomId : Z) (password : bytes) | EvLeave | EvRefresh
| EvHostResolved (lookupId : Z) (answer : bytes + list Z)
| EvDeferred (n : nat) | EvReadinessTimer | EvOperationTimer | EvRoomListTimer | EvLatencyTimer | EvTrafficTimer
| EvTcpRelayTimer
| EvSignal (run : gui_host -> SignalRun gui_host) | EvPort (p : PortSignal) | EvHost (change : gui_host -> gui_host)
| EvTransportDead (peerId cls : Z) | EvTcpRelaySend (myId dstPeerId cls : Z) (data : bytes)
| EvTunnelUsesAdapter | EvAdapterError (message : bytes) | EvAdapterFirewall (added success : bool)
| EvWorker (batches : list (list GuiStep)) | EvTime (now monotonic : Z).
Definition gui_react (e : GuiEvent) : GM unit :=
  m <- gets (fun m => m) ;;
  let bound := bool_decide (gu_bound (rm_setup m) = Some (gui_generation m, gui_connection m)) && gu_tun (rm_setup m) in
  match e with
  | EvServerAddress host port => gui_setServerAddress host port
  | EvServerPassword password => gui_setServerPassword password
  | EvContinueAuth => gui_continueServerAuth
  | EvConnectAndLogin name => gui_connectAndLogin name
  | EvDisconnect => gui_disconnectFromServer
  | EvCreate name maxPlayers tcp udp mtu prot password => gui_createRoom name maxPlayers tcp udp mtu prot password
  | EvJoin roomId password => gui_joinRoom roomId password
  | EvLeave => gui_leaveRoom
  | EvRefresh => gui_refreshRoomList
  | EvHostResolved lookupId answer => gui_onHostResolved lookupId answer
  | EvDeferred n =>
      match rm_later m !! n with
      | Some d => modify (set_rm_later (take n (rm_later m) ++ drop (S n) (rm_later m))) ;;; run_deferred d
      | None => ret tt
      end
  | EvReadinessTimer =>
      match gu_readinessTimer (rm_setup m) with Some (g, c) => gui_pollRoomReadiness g c | None => ret tt end
  | EvOperationTimer => gui_pollRoomOperation
  | EvRoomListTimer => when (gc_roomListTimer (rm_conn m)) gui_onRoomListRefreshTimer
  | EvLatencyTimer => when (gk_latencyTimer (rm_links m)) gui_onLatencyUpdate
  | EvTrafficTimer => when (gk_trafficTimer (rm_links m)) gui_onTrafficUpdate
  | EvTcpRelayTimer => when (gk_tcpRelayTimer (rm_links m)) gui_onTcpRelayHealthCheck
  | EvSignal run => run_signal (run (rm_host m))
  | EvPort p => port_signal p
  | EvHost change => modify (fun m => set_rm_host (change (rm_host m)) m)
  | EvTransportDead peerId cls => gui_onTransportDead peerId cls
  | EvTcpRelaySend myId dst cls data => gui_tcpRelaySender myId dst cls data
  | EvTunnelUsesAdapter => when (gu_lent (rm_setup m)) use_adapter
  | EvAdapterError message => when bound (gui_onTunRuntimeError message)
  | EvAdapterFirewall added success => when bound (notify (NStatus "status.firewall"))
  | EvWorker batches => modify (set_rm_schedule batches) ;;; task_runs
  | EvTime now monotonic => modify (fun m => set_rm_now now (set_rm_monotonic monotonic m))
  end.
End Manager.

(** Slots running inside slots, [fuel] deep. *)
Fixpoint gui_slot `{GuiHost} (fuel : nat) (ev : SignalEvent) : SE RoomManager unit :=
  match fuel with
  | O => ret tt
  | S n => gui_slots (gui_slot n) ev
  end.
Definition gui_event `{GuiHost} (fuel : nat) (m : RoomManager) (e : GuiEvent) : RoomManager :=
  snd (gui_react (gui_slot fuel) e m).
(** The states a manager goes through from its construction. *)
Definition gui_room_life `{GuiHost} (fuel : nat) (now monotonic : Z) (h : gui_host) (events : list GuiEvent) : RoomManager :=
  fold_left (gui_event fuel) events (RoomManager_init now monotonic h).
