(* ===== verification/GuiRoomInv.v ===== *)
(** * [RoomManager]: what holds whenever the manager is entered

    [room_ok] speaks of the adapter, the room and the lease.  Programs that
    call only the tunnels, the channel and the window ("quiet") keep more than
    that: every [Stable] refinement of it. *)

From S2P Require Import Prelude Protocol Room CliSignalState CliAppState RoomOp TunJob GuiTun GuiTunFacts GuiRoomState GuiRoom.

(** ** The invariant *)

Definition setup_phase (u : GuiSetup) : RoomOperationPhase := t_phase (gu_operation u).
Definition phase_in_room (p : RoomOperationPhase) : Prop := p = InRoomPhase \/ p = Cancelling.
(** [ready] is [m_roomReady]. *)
Definition setup_ok (ready : bool) (u : GuiSetup) : Prop :=
  (forall t, gu_lifecycleTask u = Some t -> gui_ok t) /\
  (gu_tun u = true ->
     exists t, gu_lifecycleTask u = Some t /\ gs_ready (gl_value t) = true /\ gui_cancelled t = false) /\
  (gu_lent u = true -> gu_tun u = true) /\
  (gu_readinessTimer u <> None -> forall t, gu_lifecycleTask u = Some t -> gui_cancelled t = false) /\
  (ready = true -> gu_tun u = true /\ gu_roomReadinessPending u = false /\ phase_in_room (setup_phase u)).
Definition lease_ok (l : ResumeLease) : Prop :=
  if rl_hasResumeLease l then len (rl_resumeToken l) = RECONNECT_TOKEN_SIZE else l = ResumeLease_init.
Definition holds `{GuiHost} (P : bool -> GuiSetup -> Prop) (m : RoomManager) : Prop :=
  rm_dangling m = false /\ P (gui_roomReady m) (rm_setup m) /\ lease_ok (rm_lease m).
Abbreviation room_ok := (holds setup_ok).

(** Nobody borrows the adapter and no readiness is awaited. *)
Definition detached (ready : bool) (u : GuiSetup) : Prop :=
  setup_ok ready u /\ gu_tun u = false /\ gu_lent u = false /\ gu_readinessTimer u = None.
(** The task, if there is one, has not been told to stop. *)
Definition task_live (ready : bool) (u : GuiSetup) : Prop :=
  setup_ok ready u /\ (forall t, gu_lifecycleTask u = Some t -> gui_cancelled t = false).
(** The adapter is borrowed. *)
Definition borrowed (ready : bool) (u : GuiSetup) : Prop := task_live ready u /\ gu_tun u = true.

(** What the invariant reads of [GuiSetup], but for the task and the phase. *)
Definition same_view (u u' : GuiSetup) : Prop :=
  gu_lifecycleTask u' = gu_lifecycleTask u /\ gu_tun u' = gu_tun u /\ gu_lent u' = gu_lent u /\
  gu_readinessTimer u' = gu_readinessTimer u /\ gu_roomReadinessPending u' = gu_roomReadinessPending u.
Class Stable (P : bool -> GuiSetup -> Prop) := {
  st_ok : forall b u, P b u -> setup_ok b u;
  st_ready : forall b u, P b u -> P false u;
  st_fields : forall b u u', same_view u u' -> (b = true -> phase_in_room (setup_phase u')) -> P b u -> P b u';
  st_worker : forall b u batch, P b u ->
    P b (set_gu_lifecycleTask (fold_left worker_step batch <$> gu_lifecycleTask u) u)
}.

Lemma worker_step_gui t e : worker_step t e = t \/ worker_step t e = gui_step t e.
Proof. destruct e; auto. Qed.
Lemma worker_step_ok t e : gui_ok t -> gui_ok (worker_step t e).
Proof. intros Ht. destruct (worker_step_gui t e) as [-> | ->]; [done|by apply gui_ok_step]. Qed.
Lemma worker_steps_ok batch t : gui_ok t -> gui_ok (fold_left worker_step batch t).
Proof.
  revert t. induction batch as [|e l IH]; intros t Ht; [done|]. apply IH. by apply worker_step_ok.
Qed.
Lemma worker_step_cancelled t e : gui_cancelled (worker_step t e) = gui_cancelled t.
Proof.
  unfold gui_cancelled. destruct e as [now r made| | |message]; cbn; [| |done|].
  - destruct t as [[] [] ? ? ? ? pc].
    unfold gui_run, gui_threw, gui_report_failure, gui_phase, gui_after_native, next_stage.
    destruct pc; cbn; repeat case_match; done.
  - by destruct (gl_pc t).
  - by rewrite (proj2 (gui_runtime_error_keeps message t)).
Qed.
Lemma worker_steps_cancelled batch t : gui_cancelled (fold_left worker_step batch t) = gui_cancelled t.
Proof. revert t. induction batch as [|e l IH]; intros t; [done|]. cbn. by rewrite IH, worker_step_cancelled. Qed.
Lemma worker_steps_ready batch t :
  gui_ok t -> gs_ready (gl_value t) = true -> gui_cancelled t = false ->
  gs_ready (gl_value (fold_left worker_step batch t)) = true.
Proof.
  revert t. induction batch as [|e l IH]; intros t Ht Hr Hc; [done|]. cbn.
  pose proof (worker_step_cancelled t e) as E. rewrite Hc in E.
  apply IH; [by apply worker_step_ok| |done].
  destruct (worker_step_gui t e) as [Ew|Ew]; rewrite Ew in *; [done|by apply gui_step_ready].
Qed.
#[export] Instance stable_setup_ok : Stable setup_ok.
Proof.
  split.
  - done.
  - intros b u (H1 & H2 & H3 & H4 & _). unfold setup_ok. split_and!; done.
  - intros b u u' (E1 & E2 & E3 & E4 & E5) Hp (H1 & H2 & H3 & H4 & H5). unfold setup_ok.
    rewrite E1, E2, E3, E4, E5. intuition.
  - intros b u batch (H1 & H2 & H3 & H4 & H5). unfold setup_ok. cbn. split_and!; [| |done| |done].
    + intros t Ht. apply fmap_Some in Ht as (t0 & Ht0 & ->). apply worker_steps_ok. by apply H1.
    + intros Htun. destruct (H2 Htun) as (t & E & Hr & Hc). rewrite E. exists (fold_left worker_step batch t). cbn.
      split; [done|]. split; [apply worker_steps_ready; auto|by rewrite worker_steps_cancelled].
    + intros Ht t Hs. apply fmap_Some in Hs as (t0 & Ht0 & ->). rewrite worker_steps_cancelled. by apply H4.
Qed.
#[export] Instance stable_detached : Stable detached.
Proof.
  split.
  - by intros b u [? _].
  - intros b u [H1 H2]. split; [by apply (st_ready b)|done].
  - intros b u u' E Hp [H1 H2]. split; [by apply (st_fields b u)|]. destruct E as (_ & -> & -> & -> & _). done.
  - intros b u batch [H1 H2]. split; [by apply st_worker|done].
Qed.
#[export] Instance stable_live : Stable task_live.
Proof.
  split.
  - by intros b u [? _].
  - intros b u [H1 H2]. split; [by apply (st_ready b)|done].
  - intros b u u' E Hp [H1 H2]. split; [by apply (st_fields b u)|]. by destruct E as (-> & _).
  - intros b u batch [H1 H2]. split; [by apply st_worker|]. cbn. intros t Hs.
    apply fmap_Some in Hs as (t0 & Ht0 & ->). rewrite worker_steps_cancelled. by apply H2.
Qed.
#[export] Instance stable_borrowed : Stable borrowed.
Proof.
  split.
  - by intros b u [[? _] _].
  - intros b u [H1 H2]. split; [by apply (st_ready b)|done].
  - intros b u u' E Hp [H1 H2]. split; [by apply (st_fields b u)|]. by destruct E as (_ & -> & _).
  - intros b u batch [H1 H2]. split; [by apply st_worker|done].
Qed.

#[export] Hint Resolve stable_setup_ok stable_detached stable_live stable_borrowed : vlan.

(** ** Quiet programs *)

Section Quiet.
Context `{GuiHost} (P : bool -> GuiSetup -> Prop) {SP : Stable P}.
Abbreviation quiet := (keeps (holds P)).

Lemma holds_ok m : holds P m -> room_ok m.
Proof. intros (? & ? & ?). split_and!; [done|by apply st_ok|done]. Qed.
Lemma quiet_gc f : quiet (in_gc f). Proof. by intros m. Qed.
Lemma quiet_gv f : quiet (in_gv f). Proof. by intros m. Qed.
Lemma quiet_gk f : quiet (in_gk f). Proof. by intros m. Qed.
Lemma quiet_notify n : quiet (notify n). Proof. by intros m. Qed.
Lemma quiet_later d : quiet (later d). Proof. by intros m. Qed.
Lemma quiet_host h : quiet (modify (set_rm_host h)). Proof. by intros m. Qed.
Lemma quiet_gr f : (forall r, gr_roomReady (f r) = true -> gr_roomReady r = true) -> quiet (in_gr f).
Proof.
  intros Hf m (Hd & Hp & Hl). split_and!; [done| |done]. unfold gui_roomReady in *. cbn.
  destruct (gr_roomReady (f (rm_room m))) eqn:E; [by rewrite Hf in Hp|by apply (st_ready _ _ Hp)].
Qed.
Lemma quiet_gu f : (forall u, same_view u (f u) /\ setup_phase (f u) = setup_phase u) -> quiet (in_gu f).
Proof.
  intros Hf m (Hd & Hp & Hl). split_and!; [done| |done]. cbn. destruct (Hf (rm_setup m)) as [Hv Hph].
  apply (st_fields _ (rm_setup m)); [done| |done]. intros E. rewrite Hph.
  apply (st_ok _ _ Hp). exact E.
Qed.
(** An operation that is not in a room may move on; one that is may be cancelled. *)
Lemma quiet_op f m :
  holds P m -> (phase_in_room (op_phase m) -> phase_in_room (t_phase (f (gu_operation (rm_setup m))))) ->
  holds P (snd (in_op f m)).
Proof.
  intros (Hd & Hp & Hl) Hf. split_and!; [done| |done]. cbn.
  apply (st_fields _ (rm_setup m)); [done| |done]. intros E. apply Hf. apply (st_ok _ _ Hp). exact E.
Qed.
Lemma quiet_gl f : (forall l, lease_ok l -> lease_ok (f l)) -> quiet (in_gl f).
Proof. intros Hf m (Hd & Hp & Hl). split_and!; [done..|]. by apply Hf. Qed.
Lemma quiet_runs : quiet task_runs.
Proof.
  intros m (Hd & Hp & Hl). unfold task_runs, modify. cbn. destruct (rm_schedule m); [done|].
  split_and!; [done| |done]. by apply st_worker.
Qed.
End Quiet.
#[export] Hint Resolve quiet_gc quiet_gv quiet_gk quiet_notify quiet_later quiet_host quiet_runs : vlan.
#[export] Hint Extern 4 (keeps (holds _) (in_gr _)) =>
  apply quiet_gr; [apply _|let r := fresh in intros r; try (by destruct r); done] : vlan.
#[export] Hint Extern 4 (keeps (holds _) (in_gu _)) =>
  apply quiet_gu; [apply _|let u := fresh in intros u; repeat split] : vlan.

Section Quiet2.
Context `{GuiHost} (P : bool -> GuiSetup -> Prop) {SP : Stable P}.
Abbreviation quiet := (keeps (holds P)).

Lemma quiet_port p : quiet (port_signal p).
Proof. destruct p; cbn; unfold gui_onSecurityFailure; walk. Qed.
#[local] Hint Resolve quiet_port : vlan.
Lemma quiet_result r : quiet (port_result r).
Proof. unfold port_result; walk. Qed.
#[local] Hint Resolve quiet_result : vlan.
Lemma quiet_tunnel c : quiet (tunnel_call c). Proof. unfold tunnel_call; walk. Qed.
Lemma quiet_channel c : quiet (channel_call c). Proof. unfold channel_call; walk. Qed.
#[local] Hint Resolve quiet_tunnel quiet_channel : vlan.
Lemma quiet_tunnel_do c : quiet (tunnel_do c). Proof. unfold tunnel_do; walk. Qed.
Lemma quiet_channel_do c : quiet (channel_do c). Proof. unfold channel_do; walk. Qed.
Lemma quiet_snapshot : quiet task_snapshot. Proof. unfold task_snapshot; walk. Qed.
#[local] Hint Resolve quiet_tunnel_do quiet_channel_do quiet_snapshot : vlan.
Lemma quiet_done : quiet task_done. Proof. unfold task_done; walk. Qed.
Lemma quiet_clear_lease : quiet gui_clearResumeLease.
Proof. by apply quiet_gl. Qed.
#[local] Hint Resolve quiet_clear_lease : vlan.
Lemma quiet_remember rid pid vip token : quiet (gui_rememberResumeLease rid pid vip token).
Proof.
  unfold gui_rememberResumeLease. destruct (len token =? RECONNECT_TOKEN_SIZE) eqn:E; cbn [negb]; [|walk].
  apply quiet_gl. intros l _. unfold lease_ok. cbn. lia.
Qed.
Lemma quiet_deadline : quiet gui_startResumeLeaseDeadline.
Proof.
  intros m Hm. unfold gui_startResumeLeaseDeadline. rewrite bind_gets.
  destruct (rl_hasResumeLease (rm_lease m)) eqn:E1; cbn [negb orb]; [|done].
  destruct (negb _) eqn:E2; [done|]. unfold in_gl. rewrite bind_modify. apply quiet_later.
  destruct Hm as (Hd & Hp & Hl). split_and!; [done..|]. unfold lease_ok in *. cbn. by rewrite E1 in *.
Qed.
Lemma quiet_expire : quiet gui_expireResumeLeaseIfNeeded.
Proof. unfold gui_expireResumeLeaseIfNeeded; walk. Qed.
#[local] Hint Resolve quiet_expire : vlan.
Lemma quiet_usable : quiet gui_hasUsableResumeLease.
Proof. unfold gui_hasUsableResumeLease; walk. Qed.
Lemma quiet_cleanupPending : quiet gui_roomCleanupPending.
Proof. unfold gui_roomCleanupPending; walk. Qed.
Lemma quiet_busy : quiet gui_roomOperationBusy.
Proof. unfold gui_roomOperationBusy; walk. Qed.
#[local] Hint Resolve quiet_cleanupPending quiet_busy : vlan.
Lemma quiet_begin now c m :
  holds P m -> canStart (gu_operation (rm_setup m)) = true -> holds P (snd (in_op (fun o => snd (begin_op o now c)) m)).
Proof.
  intros Hm Hs. apply quiet_op; [done..|]. intros [E|E]; unfold canStart, op_phase in *; rewrite E in Hs; by cbn in Hs.
Qed.
Lemma quiet_setPending b : quiet (gui_setRoomOperationPending b).
Proof.
  intros m Hm. unfold gui_setRoomOperationPending. rewrite bind_gets.
  match goal with |- context [bind (when ?c ?p) ?k] => assert (holds P (snd (when c p m))) as Hw end.
  { destruct (b && canStart _) eqn:E; [|done]. cbn [when]. apply andb_true_iff in E as [_ E].
    unfold bind at 1. pose proof (quiet_begin (rm_monotonic m) (gui_connection m) m Hm E) as Hb.
    destruct (in_op _ m) as [[[]|] m'] eqn:E'; cbn in *; [|done].
    revert m' Hb E'. intros m' Hb _. revert m' Hb. change (quiet (in_gu (set_gu_cleanupWarningShown false))). auto with vlan. }
  unfold bind at 1. destruct (when _ _ m) as [[[]|] m']; [|done]. cbn in Hw. revert m' Hw. fold (quiet (bind (if b then ret true else gui_roomCleanupPending)
    (fun cleaning => m <- gets (fun m => m) ;;
      let pending := cleaning || gc_recoveryActive (rm_conn m) in
      if Bool.eqb (gu_roomOperationPending (rm_setup m)) pending then ret tt else
      in_gu (set_gu_roomOperationPending pending) ;;; notify (NPending pending)))). walk.
Qed.
Lemma quiet_clear_pending : quiet clear_pending_peers.
Proof. unfold clear_pending_peers; walk. Qed.
Lemma quiet_reset_traffic : quiet reset_traffic.
Proof. unfold reset_traffic; walk. Qed.
Lemma quiet_resetRuntime b : quiet (gui_resetRoomRuntimeState b).
Proof. unfold gui_resetRoomRuntimeState; walk. Qed.
Lemma quiet_waking t : quiet (modify (fun m => set_rm_schedule t m)). Proof. by intros m. Qed.
End Quiet2.
#[export] Hint Resolve quiet_port quiet_result quiet_tunnel quiet_channel quiet_tunnel_do quiet_channel_do
  quiet_snapshot quiet_done quiet_clear_lease quiet_remember quiet_deadline quiet_expire quiet_usable
  quiet_cleanupPending quiet_busy quiet_setPending quiet_clear_pending quiet_reset_traffic quiet_resetRuntime : vlan.
