(* ===== verification/GuiRoomFacts.v ===== *)
(** * [RoomManager] and its adapter *)

From S2P Require Import Prelude Protocol Room CliSignalState CliAppState CliApp RoomOp TunJob GuiTun GuiTunFacts GuiRoomState GuiRoom GuiRoomInv.

(** [leads P m Q]: from [P], a program ends in [Q]. *)
Definition leads {S A} (P : S -> Prop) (m : SE S A) (Q : S -> Prop) : Prop := forall s, P s -> Q (snd (m s)).
Lemma leads_bind {S A B} (P Q R : S -> Prop) (m : SE S A) (k : A -> SE S B) :
  leads P m Q -> (forall s, Q s -> R s) -> (forall a, leads Q (k a) R) -> leads P (bind m k) R.
Proof.
  intros Hm HQ Hk s Hs. unfold bind. specialize (Hm s Hs). destruct (m s) as [[a|] s']; [by apply Hk|by apply HQ].
Qed.
Lemma keeps_then {S A B} (I Q : S -> Prop) (m : SE S A) (k : A -> SE S B) :
  keeps I m -> (forall s, I s -> Q s) -> (forall a, leads I (k a) Q) -> leads I (bind m k) Q.
Proof. apply leads_bind. Qed.
Lemma leads_then {S A B} (P Q : S -> Prop) (m : SE S A) (k : A -> SE S B) :
  leads P m Q -> (forall a, keeps Q (k a)) -> leads P (bind m k) Q.
Proof. intros Hm Hk. by apply (leads_bind P Q). Qed.

Lemma leads_total {S A B} (P Q R : S -> Prop) (m : SE S A) (k : A -> SE S B) :
  total m -> leads P m Q -> (forall a, leads Q (k a) R) -> leads P (bind m k) R.
Proof. intros Ht Hm Hk s Hs. apply (bind_total Q); [done|by apply Hm|]. intros a s' Hq. by apply Hk. Qed.

Section Facts.
Context `{GuiHost}.

Lemma total_port p : total (port_signal p).
Proof. destruct p; cbn; unfold notify, gui_onSecurityFailure, later; walk. Qed.
#[local] Hint Resolve total_port : vlan.
Lemma total_tunnel_do c : total (tunnel_do c).
Proof. unfold tunnel_do, tunnel_call, port_result; walk. Qed.
#[local] Hint Resolve total_tunnel_do : vlan.
Lemma total_lend b : total (lend_adapter b).
Proof. unfold lend_adapter, in_gu; walk. Qed.

Lemma detached_ok m : holds detached m -> room_ok m.
Proof. apply holds_ok. apply _. Qed.
Lemma live_ok m : holds task_live m -> room_ok m.
Proof. apply holds_ok. apply _. Qed.
Lemma borrowed_live m : holds borrowed m -> holds task_live m.
Proof. by intros (? & [? _] & ?). Qed.

(** ** Uses of the adapter *)

Lemma runs_tun m : gu_tun (rm_setup (snd (task_runs m))) = gu_tun (rm_setup m).
Proof. unfold task_runs, modify. cbn. by destruct (rm_schedule m). Qed.
Lemma use_adapter_ok (P : bool -> GuiSetup -> Prop) {SP : Stable P} m :
  holds P m -> gu_tun (rm_setup m) = true ->
  holds P (snd (use_adapter m)) /\ gu_tun (rm_setup (snd (use_adapter m))) = true.
Proof.
  intros Hm Ht. unfold use_adapter. rewrite (bind_run _ _ m tt (snd (task_runs m))) by done.
  pose proof (quiet_runs P m Hm) as Hr. rewrite <- runs_tun in Ht. set (s := snd _) in *. clearbody s. clear m Hm.
  unfold modify. cbn. assert (adapter_alive s = true) as ->; [|done].
  pose proof Hr as (_ & Hp & _). apply st_ok in Hp. destruct Hp as (H1 & H2 & _). destruct (H2 Ht) as (t & E & Hre & Hc).
  unfold adapter_alive. rewrite E. destruct (H1 t E) as (_ & _ & _ & _ & Ha & _). destruct (Ha Hre); congruence.
Qed.
Lemma guarded_use {A} (P : bool -> GuiSetup -> Prop) {SP : Stable P} (k : SE RoomManager A) :
  keeps (holds P) k -> forall m, holds P m -> gu_tun (rm_setup m) = true -> holds P (snd ((use_adapter ;;; k) m)).
Proof.
  intros Hk m Hm Ht. rewrite (bind_run _ _ m tt (snd (use_adapter m))) by done. apply Hk. by apply use_adapter_ok.
Qed.

(** ** Letting go of the adapter *)

Lemma lend_nothing (P : bool -> GuiSetup -> Prop) {SP : Stable P} :
  (forall b u, P b u -> P b (set_gu_lent false u)) -> keeps (holds P) (lend_adapter false).
Proof.
  intros Hl. unfold lend_adapter. apply keeps_bind; [|intros _; auto with vlan].
  intros m (Hd & Hp & He). split_and!; [done|by apply Hl|done].
Qed.
Lemma setup_ok_lent b u : setup_ok b u -> setup_ok b (set_gu_lent false u).
Proof. intros (H1 & H2 & _ & H4 & H5). unfold setup_ok. cbn. by split_and!. Qed.
Lemma live_lent b u : task_live b u -> task_live b (set_gu_lent false u).
Proof. intros [H1 H2]. split; [by apply setup_ok_lent|done]. Qed.
Lemma detached_lent b u : detached b u -> detached b (set_gu_lent false u).
Proof. intros (H1 & H2 & _ & H4). split; [by apply setup_ok_lent|done]. Qed.
(** What is left to do before the adapter is let go. *)
Definition letting_go (ready : bool) (u : GuiSetup) : Prop :=
  setup_ok ready u /\ ready = false /\ gu_readinessTimer u = None.
#[local] Instance stable_letting_go : Stable letting_go.
Proof.
  split.
  - by intros b u [? _].
  - intros b u (H1 & _ & H2). split; [by apply (st_ready b)|done].
  - intros b u u' E Hp (H1 & Hb & H2). split; [by apply (st_fields b u)|]. by destruct E as (_ & _ & _ & -> & _).
  - intros b u batch [H1 H2]. split; [by apply st_worker|done].
Qed.
Definition unlent (ready : bool) (u : GuiSetup) : Prop := letting_go ready u /\ gu_lent u = false.
#[local] Instance stable_unlent : Stable unlent.
Proof.
  split.
  - by intros b u [[? _] _].
  - intros b u [H1 H2]. split; [by apply (st_ready b)|done].
  - intros b u u' E Hp [H1 H2]. split; [by apply (st_fields b u)|]. by destruct E as (_ & _ & -> & _).
  - intros b u batch [H1 H2]. split; [by apply st_worker|done].
Qed.
Lemma lend_leads : leads (holds letting_go) (lend_adapter false) (holds unlent).
Proof.
  unfold lend_adapter. apply leads_then; [|intros _; auto with vlan].
  intros m (Hd & (Hs & Hb & Ht) & He). split_and!; [done| |done]. split; [|done]. split; [by apply setup_ok_lent|done].
Qed.
Lemma return_adapter : leads (holds unlent) (
  m <- gets (fun m => m) ;;
  when (bool_decide (is_Some (gu_lifecycleTask (rm_setup m))) && gu_tun (rm_setup m))
    (use_adapter ;;; in_gu (set_gu_bound None) ;;; in_gu (set_gu_tun false))) (holds detached).
Proof.
  intros m Hm. rewrite bind_gets. pose proof Hm as (_ & [[(H1 & H2 & H3 & H4 & H5) [Hb Ht]] Hlent] & _).
  destruct (gu_tun (rm_setup m)) eqn:Etun.
  - destruct (H2 eq_refl) as (t & E & _). rewrite E. cbn [bool_decide is_Some decide andb when].
    rewrite bool_decide_true by (by eexists). cbn [andb when].
    rewrite (bind_run _ _ m tt (snd (use_adapter m))) by done.
    destruct (use_adapter_ok unlent m Hm Etun) as [Hu _]. revert Hu. generalize (snd (use_adapter m)). clear.
    intros m (Hd & [[(H1 & H2 & H3 & H4 & H5) [Hb Ht]] Hlent] & He). split_and!; [done| |done].
    unfold detached, setup_ok. cbn in *. split_and!; try done.
    + intros Hlent'. congruence.
    + intros Er. exfalso. unfold gui_roomReady in *. cbn in *. congruence.
  - rewrite andb_false_r. cbn [when]. destruct Hm as (Hd & _ & He). split_and!; [done| |done].
    unfold ret. cbn [snd]. split; [|done]. unfold setup_ok. rewrite Etun. by split_and!.
Qed.
Lemma detach_leads : leads room_ok detach_adapter (holds detached).
Proof.
  unfold detach_adapter. intros m0 Hm0. unfold in_gu at 1. rewrite bind_modify. unfold in_gr at 1.
  rewrite bind_modify, bind_gets. unfold in_op at 1, in_gu at 1. rewrite bind_modify.
  unfold in_gu at 1. rewrite bind_modify. unfold in_gu at 1. rewrite bind_modify. unfold in_gu at 1. rewrite bind_modify.
  match goal with |- context [bind (tunnel_do _) _ ?s] => assert (holds letting_go s) as Hs end.
  { destruct Hm0 as (Hd & (H1 & H2 & H3 & H4 & H5) & Hl). split_and!; [done| |done].
    unfold letting_go, setup_ok, gui_roomReady. cbn. by split_and!. }
  match goal with |- holds detached (snd (_ ?s)) => revert Hs; generalize s end. clear m0 Hm0.
  intros m Hm. revert m Hm. apply (leads_total _ (holds letting_go) _); [apply total_tunnel_do|apply (quiet_tunnel_do letting_go)|intros _].
  apply (leads_total _ (holds unlent) _); [apply total_lend|apply lend_leads|intros _]. apply return_adapter.
Qed.
Lemma cancel_detached : keeps (holds detached) gui_cancelTunReadiness.
Proof.
  intros m Hm. unfold gui_cancelTunReadiness. rewrite bind_gets. destruct (gu_lifecycleTask _) as [t|] eqn:E.
  - rewrite (bind_run _ _ m tt (snd (task_runs m))) by done.
    pose proof (quiet_runs detached m Hm) as Hr. revert Hr. generalize (snd (task_runs m)). clear.
    intros m (Hd & ((H1 & H2 & H3 & H4 & H5) & Ht & Hl & Hr) & He). split_and!; [done| |done].
    unfold detached, setup_ok. cbn. rewrite Ht, Hl, Hr in *. split_and!; try done.
    intros t Hs. apply fmap_Some in Hs as (t0 & Ht0 & ->). apply (gui_ok_step t0 GuiCancel). by apply H1.
  - destruct Hm as (Hd & (H1 & Ht & H3) & He). rewrite Ht. by split_and!.
Qed.
Lemma reset_detached : keeps (holds detached) task_reset.
Proof.
  intros m (Hd & ((H1 & H2 & H3 & H4 & H5) & Ht & Hl & Hr) & He). split_and!; [done| |done].
  unfold detached, setup_ok. cbn. rewrite Ht, Hl, Hr in *. by split_and!.
Qed.
(** Nobody is in a room while the adapter is let go. *)
Lemma op_detached f : keeps (holds detached) (in_op f).
Proof.
  intros m (Hd & (H1 & Ht & H3) & He). split_and!; [done| |done].
  apply (st_fields _ (rm_setup m)); [done| |by split]. intros Hr. destruct H1 as (_ & _ & _ & _ & H5).
  destruct (H5 Hr) as [? _]. congruence.
Qed.
#[local] Hint Resolve cancel_detached reset_detached op_detached : vlan.
(** The second guard of [teardownTun] never holds. *)
Lemma no_second_shutdown {A} (k : SE RoomManager A) (body : SE RoomManager unit) :
  keeps (holds detached) k ->
  keeps (holds detached) (m <- gets (fun m => m) ;; (when (gu_tun (rm_setup m)) body ;;; k)).
Proof.
  intros Hk m Hm. rewrite bind_gets. pose proof Hm as (_ & (_ & -> & _) & _). cbn [when]. unfold ret, bind. by apply Hk.
Qed.
Lemma teardown_leads : leads room_ok gui_teardownTun (holds detached).
Proof.
  unfold gui_teardownTun. apply leads_then; [apply detach_leads|intros _].
  do 10 (apply keeps_bind; [walk|intros _]). apply no_second_shutdown. walk.
Qed.
Lemma teardown_ok : keeps room_ok gui_teardownTun.
Proof. intros m Hm. by apply detached_ok, teardown_leads. Qed.

(** ** Programs over the signalling client *)

#[local] Hint Resolve teardown_ok detached_ok : vlan.
Section Slots.
Variable handle : SignalEvent -> SE RoomManager unit.
Hypothesis handle_ok : forall ev, keeps room_ok (handle ev).
#[local] Hint Resolve handle_ok : vlan.

Lemma ok_signal_call c : keeps room_ok (signal_call handle c).
Proof.
  unfold signal_call. apply keeps_bind; [walk|intros h]. generalize (sg_call c h). clear h. intros r.
  induction r as [h|ev h k IH]; cbn; walk.
Qed.
#[local] Hint Resolve ok_signal_call : vlan.
Lemma ok_run_signal r : keeps room_ok (run_signal handle r).
Proof. induction r as [h|ev h k IH]; cbn; walk. Qed.
Lemma ok_relay_sender me dst cls data : keeps room_ok (gui_tcpRelaySender handle me dst cls data).
Proof. unfold gui_tcpRelaySender; walk. Qed.
#[local] Hint Resolve ok_run_signal ok_relay_sender : vlan.
Lemma ok_peer_call c : keeps room_ok (peer_call handle c).
Proof. unfold peer_call. apply keeps_bind; [walk|intros h]. destruct (tn_peer_call c h) as [[sends signals] h']. walk. Qed.
Lemma ok_notify_refresh n : keeps room_ok (notify_refresh handle n).
Proof. unfold notify_refresh, gui_refreshRoomList; walk. Qed.
#[local] Hint Resolve ok_peer_call ok_notify_refresh : vlan.

(** *** Moves of the operation *)

Lemma ok_cancel now : keeps room_ok (in_op (fun o => snd (beginCancel o now))).
Proof.
  intros m Hm. apply quiet_op; [apply _|done|]. unfold op_phase, phase_in_room, beginCancel.
  intros [E|E]; rewrite E; cbn; auto.
Qed.
(** A task that is done, or absent, is borrowed by nobody. *)
Lemma done_detached m :
  room_ok m -> match gu_lifecycleTask (rm_setup m) with Some t => gs_done (gl_value t) = true | None => True end ->
  gu_tun (rm_setup m) = false /\ gu_lent (rm_setup m) = false /\ gui_roomReady m = false.
Proof.
  intros (_ & (H1 & H2 & H3 & _ & H5) & _) Ht. assert (gu_tun (rm_setup m) = false) as E.
  { destruct (gu_tun (rm_setup m)); [|done]. destruct (H2 eq_refl) as (t & Et & Hr & _). rewrite Et in Ht.
    destruct (H1 t Et) as (_ & Hd & _ & _ & _ & Hpc & _). apply Hd in Ht. rewrite Ht in Hpc. destruct Hpc. congruence. }
  split_and!; [done| |].
  - destruct (gu_lent (rm_setup m)); [|done]. rewrite H3 in E; done.
  - destruct (gui_roomReady m); [|done]. destruct (H5 eq_refl). congruence.
Qed.
Lemma drop_task m :
  room_ok m -> match gu_lifecycleTask (rm_setup m) with Some t => gs_done (gl_value t) = true | None => True end ->
  room_ok (set_rm_setup (set_gu_lifecycleTask None (rm_setup m)) m) /\ gui_roomReady m = false.
Proof.
  intros Hm Ht. destruct (done_detached m Hm Ht) as (E1 & E2 & E3). split; [|done].
  destruct Hm as (Hd & _ & He). split_and!; [done| |done]. change (gui_roomReady _) with (gui_roomReady m).
  rewrite E3. unfold setup_ok. cbn. rewrite E1, E2. by split_and!.
Qed.
Lemma ok_setPending b : keeps room_ok (gui_setRoomOperationPending b).
Proof. auto with vlan. Qed.
(** What a snapshot says is so until the thread moves again. *)
Lemma snapshot_bind {A} (k : option GuiSnapshot -> SE RoomManager A) m :
  room_ok m -> (forall m', room_ok m' -> room_ok (snd (k (gui_snapshot <$> gu_lifecycleTask (rm_setup m')) m'))) ->
  room_ok (snd (bind task_snapshot k m)).
Proof.
  intros Hm Hk. unfold task_snapshot, bind at 1. unfold bind at 1. change (task_runs m) with (Some tt, snd (task_runs m)).
  cbn. apply Hk. by apply quiet_runs; [apply _|].
Qed.
Lemma ok_finish_recovery : keeps room_ok gui_maybeFinishRoomRecovery.
Proof.
  intros m Hm. unfold gui_maybeFinishRoomRecovery. rewrite bind_gets. destruct (_ || _); [done|].
  apply snapshot_bind; [done|]. clear m Hm. intros m Hm.
  destruct (match _ with Some v => negb (gs_done v) | None => false end) eqn:E; [done|].
  unfold task_reset, in_gu at 1. rewrite bind_modify.
  destruct (drop_task m Hm) as [Hd Hr].
  { destruct (gu_lifecycleTask _) as [t|]; [|done]. cbn in E. by apply negb_false_iff in E. }
  match goal with |- room_ok (snd (_ ?s)) => assert (room_ok s) as Hs by exact Hd; assert (gui_roomReady s = false) as Hrs by exact Hr end.
  clear Hd Hr E Hm. revert Hs Hrs. match goal with |- context [snd (_ ?s)] => generalize s end. clear m. intros m Hm Hr.
  unfold in_op at 1, in_gu at 1. rewrite bind_modify.
  match goal with |- room_ok (snd (_ ?s)) => assert (room_ok s) as Hs end.
  { destruct Hm as (Hd & Hs & He). split_and!; [done| |done]. apply (st_fields _ (rm_setup m)); [done| |done].
    intros Hrd. change (gui_roomReady m = true) in Hrd. congruence. }
  revert Hs. match goal with |- context [snd (_ ?s)] => generalize s end. clear m Hm Hr.
  match goal with |- forall s, room_ok s -> room_ok (snd (?p s)) => change (keeps room_ok p) end. walk.
Qed.
#[local] Hint Resolve ok_cancel ok_finish_recovery : vlan.
Lemma ok_finish_manual : keeps room_ok (gui_finishManualDisconnect handle).
Proof. unfold gui_finishManualDisconnect; walk. Qed.
#[local] Hint Resolve ok_finish_manual : vlan.
Lemma ok_recovery reason report : keeps room_ok (gui_beginRoomRecovery handle reason report).
Proof. unfold gui_beginRoomRecovery; walk. Qed.
#[local] Hint Resolve ok_recovery : vlan.

(** *** Connecting *)

Lemma ok_schedule : keeps room_ok gui_scheduleReconnectAttempt.
Proof. unfold gui_scheduleReconnectAttempt; walk. Qed.
#[local] Hint Resolve ok_schedule : vlan.
Lemma ok_exhausted reason : keeps room_ok (gui_handleConnectionAttemptExhausted reason).
Proof. unfold gui_handleConnectionAttemptExhausted; walk. Qed.
#[local] Hint Resolve ok_exhausted : vlan.
Lemma ok_try_next : keeps room_ok (gui_tryNextResolvedAddress handle).
Proof. unfold gui_tryNextResolvedAddress, gui_proceedWithConnection; walk. Qed.
#[local] Hint Resolve ok_try_next : vlan.
Lemma ok_resolve : keeps room_ok (gui_resolveAndConnect handle).
Proof. unfold gui_resolveAndConnect; walk. Qed.
Lemma ok_resolved id answer : keeps room_ok (gui_onHostResolved handle id answer).
Proof. unfold gui_onHostResolved; walk. Qed.
Lemma ok_connect_failed reason : keeps room_ok (gui_onSignalConnectFailed handle reason).
Proof. unfold gui_onSignalConnectFailed; walk. Qed.
Lemma ok_cancel_attempt : keeps room_ok (gui_cancelConnectionAttempt handle).
Proof. unfold gui_cancelConnectionAttempt; walk. Qed.
#[local] Hint Resolve ok_resolve ok_resolved ok_connect_failed ok_cancel_attempt : vlan.
Lemma ok_server_address host port : keeps room_ok (gui_setServerAddress handle host port).
Proof. unfold gui_setServerAddress; walk. Qed.
Lemma ok_server_password p : keeps room_ok (gui_setServerPassword handle p).
Proof. unfold gui_setServerPassword; walk. Qed.
Lemma ok_connect_login name : keeps room_ok (gui_connectAndLogin handle name).
Proof. unfold gui_connectAndLogin; walk. Qed.
Lemma ok_disconnect : keeps room_ok (gui_disconnectFromServer handle).
Proof. unfold gui_disconnectFromServer; walk. Qed.
#[local] Hint Resolve ok_server_address ok_server_password ok_connect_login ok_disconnect : vlan.

(** *** Creating, joining and leaving *)

Lemma finish_op_then {A} (k : SE RoomManager A) m :
  room_ok m -> ~ phase_in_room (op_phase m) -> keeps room_ok k -> room_ok (snd ((in_op finishCleanup ;;; k) m)).
Proof.
  intros Hm Hp Hk. rewrite (bind_run _ _ m tt (snd (in_op finishCleanup m))) by done. apply Hk.
  apply quiet_op; [apply _|done|]. by intros ?.
Qed.
Lemma ok_declined : keeps room_ok request_declined.
Proof.
  intros m Hm. unfold request_declined. rewrite bind_gets. destruct (_ && _) eqn:E; [|done]. cbn [when].
  apply andb_true_iff in E as [E _]. apply bool_decide_eq_true in E.
  apply finish_op_then; [done| |walk]. rewrite E. by intros [?|?].
Qed.
#[local] Hint Resolve ok_declined : vlan.
Lemma ok_refused : keeps room_ok room_request_refused.
Proof. unfold room_request_refused; walk. Qed.
#[local] Hint Resolve ok_refused : vlan.
Lemma ok_create name maxPlayers tcp udp mtu prot password :
  keeps room_ok (gui_createRoom handle name maxPlayers tcp udp mtu prot password).
Proof. unfold gui_createRoom; walk. Qed.
Lemma ok_join roomId password : keeps room_ok (gui_joinRoom handle roomId password).
Proof. unfold gui_joinRoom, remember_listed; walk. Qed.
Lemma ok_leave : keeps room_ok (gui_leaveRoom handle).
Proof. unfold gui_leaveRoom; walk. Qed.
#[local] Hint Resolve ok_create ok_join ok_leave : vlan.

(** *** The adapter *)

Lemma ok_rollback error : keeps room_ok (gui_rollbackRoomAfterTunFailure handle error).
Proof. unfold gui_rollbackRoomAfterTunFailure; walk. Qed.
Lemma ok_runtime_error message : keeps room_ok (gui_onTunRuntimeError handle message).
Proof. unfold gui_onTunRuntimeError; walk. Qed.
#[local] Hint Resolve ok_rollback ok_runtime_error : vlan.
(** A set-up that succeeds leaves a task nobody has told to stop. *)
Lemma setup_tun_leads m :
  room_ok m -> room_ok (snd (gui_setupTun m)) /\ (fst (gui_setupTun m) = Some None -> holds task_live (snd (gui_setupTun m))).
Proof.
  intros Hm. unfold gui_setupTun. rewrite bind_gets. destruct (gu_lifecycleTask (rm_setup m)) eqn:E; [done|].
  destruct (_ =? _); [done|]. destruct (qt_startThread (rm_host m)) as [[text|] h]; rewrite bind_modify; [done|].
  unfold in_gu. rewrite bind_modify. unfold ret. cbn [fst snd].
  enough (holds task_live (set_rm_setup (set_gu_lifecycleTask (Some (GuiTunLifecycleTask_init
     (RoomTaskControl_init (t_id (gu_operation (rm_setup m))) (gui_connection m) (t_localDeadline (gu_operation (rm_setup m))))))
     (rm_setup m)) (set_rm_host h m))) as Hl by (split; [by apply live_ok|done]).
  destruct (done_detached m Hm) as (E1 & E2 & E3); [by rewrite E|]. destruct Hm as (Hd & _ & He).
  split_and!; [done| |done]. change (gui_roomReady _) with (gui_roomReady m). unfold task_live, setup_ok. cbn. rewrite E1, E2, E3.
  split_and!; try done; intros t; [intros [= <-]; apply gui_ok_init|intros t'; by intros [= <-]|by intros [= <-]].
Qed.
Lemma quiet_begin_readiness (P : bool -> GuiSetup -> Prop) {SP : Stable P} now :
  keeps (holds P) (in_op (fun o => snd (beginReadiness o now))).
Proof.
  intros m Hm. apply quiet_op; [done..|]. unfold op_phase, phase_in_room, beginReadiness.
  intros [E|E]; rewrite E; cbn; auto.
Qed.
#[local] Hint Resolve quiet_begin_readiness : vlan.
Lemma offered_adapter m t :
  holds task_live m -> gu_lifecycleTask (rm_setup m) = Some t -> gs_ready (gl_value t) = true ->
  holds borrowed (snd (in_gu (set_gu_tun (gs_adapter (gl_value t))) m)).
Proof.
  intros (Hd & [(H1 & H2 & H3 & H4 & H5) Hl] & He) E Hr. destruct (H1 t E) as (Ha & _). rewrite Ha, Hr.
  split_and!; [done| |done]. change (gui_roomReady _) with (gui_roomReady m).
  unfold borrowed, task_live, setup_ok. cbn. split_and!; try done.
  - intros _. exists t. by split_and!; [..|apply Hl].
  - intros Hrd. destruct (H5 Hrd) as (_ & ?). by split.
Qed.
Lemma poll_tun_leads m :
  holds task_live m ->
  holds task_live (snd (gui_pollTunReadiness m)) /\
  (fst (gui_pollTunReadiness m) = Some NetworkReady -> holds borrowed (snd (gui_pollTunReadiness m))).
Proof.
  intros Hm. unfold gui_pollTunReadiness, task_snapshot.
  rewrite bind_assoc, (bind_run task_runs _ m tt (snd (task_runs m))), bind_gets by done.
  pose proof (quiet_runs task_live m Hm) as Hr. revert Hr. generalize (snd (task_runs m)). clear m Hm. intros m Hm.
  destruct (gu_lifecycleTask (rm_setup m)) as [t|] eqn:E; cbn [fmap option_fmap option_map]; [|done].
  rewrite bind_gets. match goal with |- context [bind (when ?c ?p) ?k m] => set (w := when c p) end.
  assert (total w) as Htw by (unfold w, in_op, in_gu; walk).
  assert (holds task_live (snd (w m))) as Hw.
  { assert (keeps (holds task_live) w) as Hk by (unfold w; walk). by apply Hk. }
  assert (gu_lifecycleTask (rm_setup (snd (w m))) = Some t) as Ew by (unfold w; by destruct (_ && _)).
  destruct (Htw m) as [[] Hx]. rewrite (bind_run w _ m tt (snd (w m))) by (destruct (w m); cbn in *; congruence).
  revert Hw Ew. generalize (snd (w m)). clear w Htw Hx m E Hm. intros m Hm E. unfold gui_snapshot.
  destruct (gs_failed (gl_value t) || _); [done|]. destruct (gs_ready (gl_value t)) eqn:Er; [|done].
  pose proof (offered_adapter m t Hm E Er) as Hb. unfold in_gu. rewrite bind_modify.
  unfold in_gu, modify in Hb. cbn [snd] in Hb. revert Hb. generalize (set_rm_setup (set_gu_tun (gs_adapter (gl_value t)) (rm_setup m)) m).
  clear m Hm E Er. intros m Hm. unfold gui_bindTunAdapterSignals.
  rewrite bind_assoc, (bind_run use_adapter _ m tt (snd (use_adapter m))) by done.
  destruct (use_adapter_ok borrowed m Hm) as [Hu _]; [by destruct Hm as (_ & [_ ?] & _)|].
  revert Hu. generalize (snd (use_adapter m)). clear m Hm. intros m Hm.
  match goal with |- holds task_live (snd (?p m)) /\ _ => assert (keeps (holds borrowed) p) as Hk by walk end.
  specialize (Hk m Hm). split; [by apply borrowed_live|done].
Qed.
Lemma lend_borrowed : keeps (holds borrowed) (m <- gets (fun m => m) ;; lend_adapter (gu_tun (rm_setup m))).
Proof.
  intros m Hm. rewrite bind_gets. unfold lend_adapter. unfold in_gu. rewrite bind_modify.
  apply (quiet_tunnel_do borrowed). destruct Hm as (Hd & [[(H1 & H2 & H3 & H4 & H5) Hl] Ht] & He).
  split_and!; [done| |done]. unfold borrowed, task_live, setup_ok. cbn. by split_and!.
Qed.
Lemma borrowed_lent b u : borrowed b u -> borrowed b (set_gu_lent false u).
Proof. intros [H1 H2]. split; [by apply live_lent|done]. Qed.
Lemma quiet_start : keeps (holds borrowed) gui_startTunDataPlane.
Proof.
  intros m Hm. unfold gui_startTunDataPlane. rewrite bind_gets.
  pose proof (lend_borrowed m Hm) as Hl. rewrite bind_gets in Hl.
  destruct (total_lend (gu_tun (rm_setup m)) m) as [[] Hx].
  rewrite (bind_run _ _ m tt (snd (lend_adapter (gu_tun (rm_setup m)) m))) by (destruct (lend_adapter _ m); cbn in *; congruence).
  revert Hl. generalize (snd (lend_adapter (gu_tun (rm_setup m)) m)).
  pose proof (lend_nothing borrowed borrowed_lent) as Hn.
  match goal with |- forall s, _ -> holds borrowed (snd (?p s)) => change (keeps (holds borrowed) p) end.
  cbv zeta. walk.
Qed.

(** *** Readiness *)

Lemma ok_add_peer peerId vip name : keeps room_ok (add_peer handle peerId vip name).
Proof. unfold add_peer; walk. Qed.
Lemma quiet_policy_tunnel (P : bool -> GuiSetup -> Prop) {SP : Stable P} peerId cls :
  keeps (holds P) (gui_setupPolicyTunnel peerId cls).
Proof.
  unfold gui_setupPolicyTunnel, gui_setupTcpRelayTunnel, gui_setupRawUdpRelayTunnel, gui_setupRelayTunnel, peer_of; walk.
Qed.
#[local] Hint Resolve ok_add_peer quiet_policy_tunnel : vlan.
Lemma ok_relay_ready peerId : keeps room_ok (gui_onRelayReady peerId).
Proof. unfold gui_onRelayReady, gui_takePendingRebuild, setup_if_absent, peer_of; walk. Qed.
#[local] Hint Resolve ok_relay_ready : vlan.
Lemma ok_enter_members generation relays members : keeps room_ok (enter_members handle generation relays members).
Proof. induction members as [|member rest IH]; cbn; [walk|]. unfold enter_member, request_relay; walk. Qed.
#[local] Hint Resolve ok_enter_members : vlan.
Lemma complete_leads : leads (holds borrowed) (gui_completeRoomReadiness handle) room_ok.
Proof.
  intros m Hm. assert (room_ok m) as Hok by (apply holds_ok with borrowed; [apply _|done]).
  unfold gui_completeRoomReadiness. rewrite bind_gets. destruct (negb _); [done|].
  destruct (markInRoom (gu_operation (rm_setup m)) (rm_monotonic m)) as [ok o] eqn:Emark.
  destruct (negb ok) eqn:Eok; [by apply ok_recovery|]. apply negb_false_iff in Eok. subst ok. cbv zeta.
  unfold in_op at 1, clear_pending_peers. unfold in_gu at 1. rewrite bind_modify. unfold in_gu at 1. rewrite bind_modify.
  unfold in_gu at 1. rewrite bind_modify. unfold in_gu at 1. rewrite bind_modify. unfold in_gr at 1. rewrite bind_modify.
  match goal with |- room_ok (snd (_ ?s)) => assert (room_ok s) as Hs end.
  { destruct Hm as (Hd & [[(H1 & H2 & H3 & H4 & H5) Hl] Ht] & He). split_and!; [done| |done].
    unfold setup_ok. cbn. split_and!; try done. intros _. split_and!; [done..|]. left. unfold setup_phase. cbn.
    revert Emark. unfold markInRoom. destruct (_ || _); [by intros [=]|]. by intros [= <-]. }
  revert Hs. match goal with |- context [snd (_ ?s)] => generalize s end.
  match goal with |- forall s, _ -> room_ok (snd (?p s)) => change (keeps room_ok p) end. walk.
Qed.
(** Once the adapter is borrowed, the rest of a poll enters the room or falls back. *)
Lemma poll_leads g c : leads (holds task_live) (gui_pollRoomReadiness handle g c) room_ok.
Proof.
  intros m Hm. unfold gui_pollRoomReadiness. rewrite bind_gets. destruct (negb _); [by apply live_ok|].
  destruct (negb _); [by apply ok_rollback, live_ok|].
  destruct (poll_tun_leads m Hm) as [Hl Hb]. unfold bind at 1. destruct (gui_pollTunReadiness m) as [[r|] m']; [|by apply live_ok].
  cbn [fst snd] in *. clear m Hm. destruct (bool_decide _) eqn:Er; [by apply live_ok|]. apply bool_decide_eq_false in Er.
  rewrite bind_gets. destruct (negb _); [by apply live_ok|]. destruct (negb _); [by apply ok_rollback, live_ok|].
  destruct r as [| |error]; [done|clear Hl Er|by apply ok_rollback, live_ok].
  pose proof (quiet_start m' (Hb eq_refl)) as Hs. clear Hb. unfold bind at 1.
  destruct (gui_startTunDataPlane m') as [[started|] m2]; cbn [snd] in Hs; [|by apply live_ok, borrowed_live].
  rewrite bind_gets. destruct (negb _); [by apply live_ok, borrowed_live|].
  destruct (negb _); [by apply ok_rollback, live_ok, borrowed_live|].
  destruct started as [[stage error]|]; [by apply ok_rollback, live_ok, borrowed_live|by apply complete_leads].
Qed.
(** Outside a room, where a room may be awaited. *)
Definition outside (ready : bool) (u : GuiSetup) : Prop := setup_ok ready u /\ ready = false.
#[local] Instance stable_outside : Stable outside.
Proof.
  split.
  - by intros b u [? _].
  - intros b u [H1 _]. split; [by apply (st_ready b)|done].
  - intros b u u' E Hp [H1 Hb]. split; [by apply (st_fields b u)|done].
  - intros b u batch [H1 H2]. split; [by apply st_worker|done].
Qed.
Lemma ok_await created :
  keeps (holds outside) (in_gu (fun u => set_gu_pendingRoomCreated created (set_gu_roomReadinessPending true u))).
Proof.
  intros m (Hd & [(H1 & H2 & H3 & H4 & H5) Hb] & He). split_and!; [done| |done]. split; [|done].
  unfold setup_ok. cbn. split_and!; try done. intros Hr. exfalso. unfold gui_roomReady in *. cbn in *. congruence.
Qed.
Lemma outside_ok m : holds outside m -> room_ok m.
Proof. apply holds_ok. apply _. Qed.
(** The adapter is asked for, and the wait for it begins. *)
Lemma ok_request_adapter generation connection : keeps room_ok (
  setup <- gui_setupTun ;;
  m <- gets (fun m => m) ;;
  if negb (readiness_current generation connection m) then ret tt else
  match setup with
  | Some (_, error) => gui_rollbackRoomAfterTunFailure handle error
  | None =>
      notify (NStatus "Waiting for Windows virtual network readiness...") ;;;
      in_gu (set_gu_readinessTimer (Some (generation, connection)))
  end).
Proof.
  intros m Hm. destruct (setup_tun_leads m Hm) as [Hok Hl]. unfold bind at 1.
  destruct (gui_setupTun m) as [[r|] m']; cbn [fst snd] in *; [|done]. rewrite bind_gets. destruct (negb _); [done|].
  destruct r as [[stage error]|]; [by apply ok_rollback|]. specialize (Hl eq_refl). unfold notify, in_gu. rewrite bind_modify.
  destruct Hl as (Hd & [(H1 & H2 & H3 & H4 & H5) Hlive] & He). split_and!; [done| |done].
  change (gui_roomReady _) with (gui_roomReady m'). unfold setup_ok. cbn. by split_and!.
Qed.
Lemma ok_begin_readiness created members : keeps room_ok (gui_beginRoomReadiness handle created members).
Proof.
  intros m Hm. unfold gui_beginRoomReadiness. rewrite bind_gets.
  destruct (beginPreparation (gu_operation (rm_setup m)) (rm_monotonic m)) as [ok o] eqn:Eprep.
  destruct (negb ok) eqn:Eok; [by apply ok_recovery|]. apply negb_false_iff in Eok. subst ok.
  unfold in_op at 1, in_gu at 1. rewrite bind_modify. unfold in_gr at 1. rewrite bind_modify.
  match goal with |- room_ok (snd (_ ?s)) => assert (holds outside s) as Hs end.
  { destruct Hm as (Hd & (H1 & H2 & H3 & H4 & H5) & He). split_and!; [done| |done]. split; [|done].
    unfold setup_ok, gui_roomReady. cbn. by split_and!. }
  revert Hs. match goal with |- context [snd (_ ?s)] => generalize s end. clear m Hm Eprep.
  match goal with |- forall s, _ -> room_ok (snd (?p s)) => change (leads (holds outside) p room_ok) end.
  apply keeps_then; [apply ok_await|apply outside_ok|intros _].
  match goal with |- leads _ ?p _ => enough (keeps room_ok p) as Hk by (intros m Hm; by apply Hk, outside_ok) end.
  do 5 (apply keeps_bind; [walk|intros ?]). cbv zeta. apply keeps_bind; [walk|intros _]. apply ok_request_adapter.
Qed.
#[local] Hint Resolve ok_begin_readiness : vlan.

(** *** Slots, timers and events *)

Lemma ok_resume_after b : keeps room_ok (resume_after_login handle b).
Proof. unfold resume_after_login; walk. Qed.
#[local] Hint Resolve ok_resume_after : vlan.
Lemma ok_enter_room rid vip tcp udp mtu prot token : keeps room_ok (enter_room rid vip tcp udp mtu prot token).
Proof. unfold enter_room; walk. Qed.
#[local] Hint Resolve ok_enter_room : vlan.
Lemma ok_disconnected : keeps room_ok (gui_onSignalDisconnected handle).
Proof. unfold gui_onSignalDisconnected; walk. Qed.
Lemma ok_transport_dead peerId cls : keeps room_ok (gui_onTransportDead handle peerId cls).
Proof. unfold gui_onTransportDead, request_relay_if_connected, request_relay, peer_of; walk. Qed.
Lemma ok_rebuild peerId : keeps room_ok (gui_rebuildPeerTransports handle peerId).
Proof.
  unfold gui_rebuildPeerTransports, both_classes, gui_clearPendingRebuild, request_relay_if_connected, request_relay, peer_of; walk.
Qed.
#[local] Hint Resolve ok_disconnected ok_transport_dead ok_rebuild : vlan.
Lemma ok_relay_received src cls data : keeps room_ok (gui_handleTcpRelayReceived handle src cls data).
Proof.
  unfold gui_handleTcpRelayReceived, peer_of. apply keeps_bind; [walk|intros m0]. destruct (_ || _); [walk|].
  apply keeps_bind; [walk|intros p]. destruct p as [p|]; [|walk]. apply keeps_bind; [walk|intros _].
  destruct (bool_decide _); [walk|]. destruct (_ && _); [walk|]. destruct (negb _); [walk|].
  apply keeps_bind_gets. intros m Hm. destruct (gu_tun (rm_setup m)) eqn:E.
  - rewrite bind_assoc. apply guarded_use; [apply _| |done..]. walk.
  - match goal with |- room_ok (snd (?p m)) => assert (keeps room_ok p) as Hk by walk end. by apply Hk.
Qed.
Lemma ok_server_error message : keeps room_ok (gui_onServerError handle message).
Proof. unfold gui_onServerError; walk. Qed.
Lemma ok_room_list rooms : keeps room_ok (gui_onRoomList handle rooms).
Proof. unfold gui_onRoomList, gui_handleReconnectRoomList; walk. Qed.
#[local] Hint Resolve ok_relay_received ok_server_error ok_room_list : vlan.
Lemma ok_slots ev : keeps room_ok (gui_slots handle ev).
Proof.
  destruct ev; cbn; unfold gui_onSignalConnected, gui_onLoginResponse, gui_onRoomCreated, gui_onJoinResponse, gui_onPeerJoined,
    gui_onPeerResumed, gui_onPeerLeft, gui_onLogoutAck, gui_onSecureSessionEstablished, gui_onFatalAuthError,
    both_classes, request_relay, gui_clearPendingRebuild, peer_of; walk.
Qed.
Lemma ok_reset_if_done m :
  room_ok m -> match gu_lifecycleTask (rm_setup m) with Some t => gs_done (gl_value t) = true | None => True end ->
  room_ok (snd (task_reset m)).
Proof. intros Hm Ht. by apply drop_task. Qed.
Lemma ok_poll_operation : keeps room_ok (gui_pollRoomOperation handle).
Proof.
  unfold gui_pollRoomOperation. apply keeps_bind; [walk|intros m]. apply keeps_bind; [walk|intros _].
  apply keeps_bind; [walk|intros m1]. apply keeps_bind; [walk|intros _].
  intros m2 Hm2. unfold task_done. rewrite bind_assoc. apply snapshot_bind; [done|]. clear m2 Hm2. intros m2 Hm2.
  unfold ret at 1. unfold bind at 1. rewrite bind_gets.
  match goal with |- context [bind (when ?c task_reset) _ m2] => assert (room_ok (snd (when c task_reset m2))) as Hw end.
  { destruct (_ && _ && _) eqn:E; [|done]. apply ok_reset_if_done; [done|].
    apply andb_true_iff in E as [E _]. apply andb_true_iff in E as [E _]. by destruct (gu_lifecycleTask _). }
  match goal with |- context [bind (when ?c task_reset) ?k m2] =>
    rewrite (bind_run (when c task_reset) k m2 tt (snd (when c task_reset m2))) by (by destruct c) end.
  revert Hw. match goal with |- room_ok ?s -> _ => generalize s end. clear m2 Hm2 m m1. intros m Hm. rewrite bind_gets.
  match goal with |- context [bind (when ?c ?p) ?k m] => assert (room_ok (snd (when c p m))) as Hw end.
  { destruct (_ && _ && _) eqn:E; [|done]. cbn [when]. apply andb_true_iff in E as [E _]. apply andb_true_iff in E as [E _].
    apply bool_decide_eq_true in E. apply finish_op_then; [done| |walk]. rewrite E. by intros [?|?]. }
  unfold bind at 1. destruct (when _ _ m) as [[[]|] m']; cbn [snd] in Hw; [|done].
  revert m' Hw. match goal with |- forall s, _ -> room_ok (snd (?p s)) => change (keeps room_ok p) end. walk.
Qed.
#[local] Hint Resolve ok_poll_operation : vlan.
Lemma ok_collect peers : keeps room_ok (collect_dead handle peers).
Proof. induction peers as [|p l IH]; cbn; walk. Qed.
#[local] Hint Resolve ok_collect : vlan.
Lemma ok_quality peerId cls : keeps room_ok (report_quality peerId cls).
Proof. unfold report_quality, peer_of; walk. Qed.
#[local] Hint Resolve ok_quality : vlan.
Lemma ok_deferred d : keeps room_ok (run_deferred handle d).
Proof. unfold run_deferred. destruct d; walk. Qed.
#[local] Hint Resolve ok_deferred : vlan.
Lemma ok_react e : keeps room_ok (gui_react handle e).
Proof.
  unfold gui_react. intros m Hm. rewrite bind_gets. cbv zeta. destruct e.
  all: try (match goal with |- room_ok (snd (?p ?s)) => enough (keeps room_ok p) as Hk by exact (Hk s Hm) end;
    unfold gui_continueServerAuth, gui_refreshRoomList, gui_onRoomListRefreshTimer, gui_onLatencyUpdate, gui_onTrafficUpdate,
      gui_onTcpRelayHealthCheck, both_classes, peer_of; walk; by intros s).
  - (* the readiness timer *)
    destruct (gu_readinessTimer (rm_setup m)) as [[g c]|] eqn:E; [|done]. apply poll_leads.
    destruct Hm as (Hd & (H1 & H2 & H3 & H4 & H5) & He). split_and!; [done| |done]. split; [by split_and!|].
    apply H4. by rewrite E.
  - (* traffic of the tunnels *)
    destruct (gu_lent (rm_setup m)) eqn:E; [|done]. cbn [when]. apply use_adapter_ok; [apply _|done|].
    destruct Hm as (_ & (_ & _ & H3 & _) & _). by apply H3.
Qed.
End Slots.

Lemma ok_slot fuel ev : keeps room_ok (gui_slot fuel ev).
Proof. revert ev. induction fuel as [|n IH]; intros ev; cbn; [walk|]. by apply ok_slots. Qed.
Lemma room_ok_init now monotonic h : room_ok (RoomManager_init now monotonic h).
Proof. by repeat split. Qed.
Lemma room_ok_life fuel now monotonic h events : room_ok (gui_room_life fuel now monotonic h events).
Proof.
  unfold gui_room_life. generalize (room_ok_init now monotonic h). generalize (RoomManager_init now monotonic h).
  induction events as [|e l IH]; intros m Hm; [done|]. apply IH. apply ok_react; [apply ok_slot|done].
Qed.
End Facts.
