(* ===== verification/GuiRoomLife.v ===== *)
(** * The life of [RoomManager]: the adapter it borrows, the room it is in

    The invariant of [GuiRoomFacts] holds in every state of every run, for any
    signalling client, tunnels and channel, any steps of the lifecycle thread
    between the manager's accesses, and any nesting of slots.  [demo_host] is
    a signalling client that agrees to everything. *)

From S2P Require Import Prelude Protocol Room CliSignalState CliAppState RoomOp TunJob GuiTun GuiTunFacts GuiRoomState GuiRoom GuiRoomInv GuiRoomFacts.

(** C6: the adapter never dangles.  Through every sequence of events, whatever
    the server, the tunnels, the window and the lifecycle thread do and in
    whatever order, the manager and its tunnels use the adapter only while the
    thread that owns it keeps it: no use ever met a destroyed adapter, the
    tunnels hold the pointer only while the manager does, the manager holds it
    only while the owner offers it and has not been told to stop, and a thread
    that was told to stop, or is done, is borrowed from by nobody. *)
Theorem adapter_never_dangles `{GuiHost} fuel now monotonic h (events : list GuiEvent) :
  let m := gui_room_life fuel now monotonic h events in
  let u := rm_setup m in
  rm_dangling m = false /\
  (gu_lent u = true -> gu_tun u = true) /\
  (gu_tun u = true -> exists t, gu_lifecycleTask u = Some t /\ gl_alive t = true /\ gui_cancelled t = false) /\
  (forall t, gu_lifecycleTask u = Some t -> gui_cancelled t = true \/ gs_done (gui_snapshot t) = true ->
     gu_tun u = false /\ gu_lent u = false /\ gui_roomReady m = false).
Proof.
  cbv zeta. pose proof (room_ok_life fuel now monotonic h events) as Hm.
  set (m := gui_room_life _ _ _ _ _) in *. clearbody m. pose proof Hm as (Hd & (H1 & H2 & H3 & _ & H5) & _).
  assert (gu_tun (rm_setup m) = true -> exists t, gu_lifecycleTask (rm_setup m) = Some t /\ gl_alive t = true /\
    gui_cancelled t = false) as Ha.
  { intros Ht. destruct (H2 Ht) as (t & E & Hr & Hc). exists t. split_and!; [done| |done].
    destruct (H1 t E) as (_ & _ & _ & _ & Hal & _). destruct (Hal Hr); congruence. }
  split_and!; [done..|]. intros t Et [Hc|Hdone].
  - assert (gu_tun (rm_setup m) = false) as E.
    { destruct (gu_tun (rm_setup m)); [|done]. destruct (Ha eq_refl) as (t' & ? & _ & ?). congruence. }
    split_and!; [done| |].
    + destruct (gu_lent (rm_setup m)); [|done]. rewrite H3 in E; done.
    + destruct (gui_roomReady m); [|done]. destruct (H5 eq_refl). congruence.
  - apply done_detached; [done|]. by rewrite Et.
Qed.

(** C7: being in a room means having its adapter.  Whenever the manager says
    that it is in a room, the adapter is borrowed from a thread that keeps it,
    no readiness is awaited, and the room operation is done or being cancelled;
    and at all times the resume lease is whole or gone. *)
Theorem in_room_with_adapter `{GuiHost} fuel now monotonic h (events : list GuiEvent) :
  let m := gui_room_life fuel now monotonic h events in
  (gui_roomReady m = true ->
     (exists t, gu_lifecycleTask (rm_setup m) = Some t /\ gl_alive t = true /\ gui_cancelled t = false /\
        gs_ready (gui_snapshot t) = true) /\
     gu_roomReadinessPending (rm_setup m) = false /\ (op_phase m = InRoomPhase \/ op_phase m = Cancelling)) /\
  (if rl_hasResumeLease (rm_lease m) then len (rl_resumeToken (rm_lease m)) = RECONNECT_TOKEN_SIZE
   else rm_lease m = ResumeLease_init).
Proof.
  cbv zeta. pose proof (room_ok_life fuel now monotonic h events) as Hm.
  set (m := gui_room_life _ _ _ _ _) in *. clearbody m. destruct Hm as (Hd & (H1 & H2 & H3 & _ & H5) & Hl).
  split; [|done]. intros Hr. destruct (H5 Hr) as (Ht & Hp & Hph). split_and!; [|done|done].
  destruct (H2 Ht) as (t & E & Hre & Hc). exists t. split_and!; [done| |done|done].
  destruct (H1 t E) as (_ & _ & _ & _ & Hal & _). destruct (Hal Hre); congruence.
Qed.

(** ** A run *)

Definition no_quality : ProbeQuality.ProbeQualitySnapshot := ProbeQuality.mkSnapshot false false false false 0 0 0 0 0.
(** The state is whether a room request is pending. *)
Definition demo_host : GuiHost := {|
  gui_host := bool;
  sg_isConnected := fun _ => true;
  sg_isConnecting := fun _ => false;
  sg_secureEnabled := fun _ => true;
  sg_roomOperationPending := fun h => h;
  sg_myPeerId := fun _ => 7;
  sg_secureSessionId := fun _ => 1;
  sg_secureMaster := fun _ => zeros 32;
  sg_peerAddress := fun _ => Some 0x0B000001;
  sg_call := fun c h => SignalDone (match c with SgCreate _ _ _ _ _ _ => true | _ => h end);
  tn_peer := fun _ _ => None;
  tn_peers := fun _ => [];
  tn_running := fun _ => true;
  tn_secured := fun _ => true;
  tn_quality := fun _ _ _ => no_quality;
  tn_tcpRelayDead := fun _ _ _ => false;
  tn_traffic := fun _ => (0, 0);
  tn_call := fun _ h => (true, [], h);
  tn_peer_call := fun _ h => ([], [], h);
  dc_isConnected := fun _ => true;
  dc_call := fun _ h => (true, [], h);
  qt_parseIPv4 := fun _ => Some 0x0B000001;
  qt_lookupHost := fun _ h => (1, h);
  qt_startThread := fun h => (None, h)
|}.
Definition emits (ev : SignalEvent) : @GuiEvent demo_host := @EvSignal demo_host (fun h => SignalEmit ev h SignalDone).
(** Signing in, creating a room, and the adapter becoming ready. *)
Definition demo_gui_events : list (@GuiEvent demo_host) :=
  [ emits SeConnected; emits (SeLoginResponse 7 false);
    @EvCreate demo_host (bytes_of_string "room") 4 makeDefaultTcpPolicy makeDefaultUdpPolicy 1400 false [];
    @EvHost demo_host (fun _ => false);
    emits (SeRoomCreated 5 0x0A0A0002 makeDefaultTcpPolicy makeDefaultUdpPolicy 1400 false (zeros 32));
    @EvWorker demo_host [demo_gui_steps]; @EvReadinessTimer demo_host ].
Definition demo_gui_room (events : list (@GuiEvent demo_host)) : @RoomManager demo_host :=
  @gui_room_life demo_host 3 5 5 false events.
Example demo_enters_room :
  let m := demo_gui_room demo_gui_events in
  gui_roomReady m = true /\ gu_lent (rm_setup m) = true /\ op_phase m = InRoomPhase /\ gu_roomOperationPending (rm_setup m) = false.
Proof. by vm_compute. Qed.
Lemma in_room_with_adapter_witness :
  let m := demo_gui_room demo_gui_events in
  gui_roomReady m = true /\ gu_roomReadinessPending (rm_setup m) = false.
Proof.
  cbv zeta. split; [by vm_compute|].
  destruct (@in_room_with_adapter demo_host 3 5 5 false demo_gui_events) as [Hr _].
  refine (proj1 (proj2 (Hr _))). by vm_compute.
Defined.
